(* ===== verification/_CoqProject ===== *)
-Q . S2P
Prelude.v
Inet.v
Checksum.v
Heap.v
Chains.v
Pbuf.v
PbufSpec.v
PbufProps.v
InetChksum.v
Stack.v
Ip.v
IpProps.v
TcpBase.v
TcpOut.v
Tcp.v
TcpIn.v
Words.v
Icmp.v
Igmp.v
Udp.v
Raw.v
Netif.v
Reass.v
IpIn.v
Frame.v
TcpArith.v
TcpSpec.v
TcpLists.v
TcpOptions.v
TcpProcess.v
TcpEnqueue.v
TcpAck.v
TcpRecv.v
TcpFaults.v
IcmpProps.v
IpInProps.v
UdpProps.v
IpOut.v
TcpWire.v
TcpOutput.v
ReassQueue.v
ReassProps.v
ReassInput.v
TcpTimers.v
UdpBind.v
Mem.v
MemProps.v
MemHeap.v
MemOps.v
MemUse.v
MemClient.v
Octets.v
Asn1.v
Asn1Props.v
Slipif.v
SlipProps.v
PppFsm.v
FsmProps.v
PppPair.v
