(* ===== verification/Prelude.v ===== *)
(** * Verification of the lwIP 1.3.0 stack of the Network Simulation Cradle

    The repository packages the ns-3.16 simulator with the Network Simulation
    Cradle (nsc-0.5.3), which runs real protocol stacks inside a simulation.
    This development models the one stack whose C code belongs to the cradle's
    own build and is small enough to be modelled whole: lwIP 1.3.0, under
    src/nsc-0.5.3/lwip-1.3.0/src/ (paths below are relative to it), in the
    configuration of include/lwip/lwipopts.h: no operating system (NO_SYS),
    the allocator of the C library, no alignment, a TCP_MSS of 1460, windows
    and send buffers of 63 KiB, TCP_QUEUE_OOSEQ, CALCULATE_EFF_SEND_MSS, a
    static buffer for fragmentation, and a 32-bit little-endian
    machine.

    ** The program and the files

    Data moves in chains of packet buffers (core/pbuf.c) that the allocator of
    nsc/support.c provides.  The driver hands a packet to ip_input
    (core/ipv4/ip.c), which checks it, asks core/ipv4/ip_frag.c to reassemble
    fragments, and gives it to raw sockets (core/raw.c), UDP (core/udp.c),
    TCP, ICMP (core/ipv4/icmp.c) or IGMP (core/ipv4/igmp.c).  TCP (core/tcp.c,
    tcp_in.c, tcp_out.c) keeps its connections in four linked lists of control
    blocks, each with queues of unsent, unacknowledged and out-of-order
    segments that point into packet buffers.  All of them checksum with
    core/ipv4/inet_chksum.c and send through ip.c, which picks an interface
    (ip_route, core/netif.c), writes the IP header, fragments and calls the
    driver.  Beside the stack itself stand three parts of the same library that
    it can be built with: the first-fit heap (core/mem.c), the ASN.1 coder of
    the SNMP agent (core/snmp/asn1_enc.c, asn1_dec.c), which works on the same
    packet buffers, and the serial line interface (netif/slipif.c).

    - Prelude: machine integers as [Z] with explicit wraps, the monad of
      computations over a state that may get stuck ([UB]: undefined behaviour,
      [NoFuel]: a loop that exceeds its bound), and weakest preconditions [wp]
      of total correctness.
    - Inet: core/ipv4/inet.c, byte order and dotted-quad addresses.
    - Checksum, InetChksum: core/ipv4/inet_chksum.c, over a range of bytes and
      over chains of buffers.
    - Heap: memory blocks as bytes, struct pbuf as records, malloc and free.
      The environment [h_env] decides whether the n-th malloc succeeds and
      what the new memory holds.
    - Pbuf: core/pbuf.c, every function; PbufSpec: the abstract packet
      ([packet h p ls d]: a chain of the pbufs [ls] that holds the bytes [d])
      and the contract of each operation; PbufProps: the properties.
    - Chains: linked lists in a map, shared by all lists of the stack.
    - Stack: the structures of netif.h, tcp.h, udp.h, raw.h, igmp.h and
      ip_frag.h and the globals as one record [stack]; objects that the code
      links by pointers are in maps keyed by location.  The class [Env] stands
      for the code outside the repository: the driver behind netif->output and
      the callbacks of the application, which may change the whole state.
    - Words: 8, 16 and 32-bit words in memory, read back and independent.
    - Ip: core/ipv4/ip_addr.c, the sending half of ip.c and ip_frag.c;
      IpProps: routing and broadcast addresses against their meaning.
    - TcpBase: the macros of include/lwip/tcp.h (sequence comparison, header
      access, TCP_REG, TCP_RMV) and the segment functions of tcp.c.
    - TcpOut: core/tcp_out.c; Tcp: core/tcp.c; TcpIn: core/tcp_in.c; every
      function of each.  The names are those of the code; a loop or a long
      branch is a definition of its own, and the manifest gives its lines.
    - Icmp, Igmp, Udp, Raw, Netif: core/ipv4/icmp.c, core/ipv4/igmp.c,
      core/udp.c, core/raw.c, core/netif.c, every function of each.
    - Reass: the receiving half of core/ipv4/ip_frag.c.  The fragments of a
      datagram are linked through a structure that the code writes over their
      IP headers; a pointer in memory is the number of its location.
    - IpIn: ip_input, which ties the protocols together.
    - Frame: what sending cannot touch, as the class [Keeps].
    - TcpArith, TcpSpec, TcpLists, TcpOptions, TcpProcess, TcpEnqueue, TcpAck,
      TcpRecv, TcpFaults, TcpTimers: the theorems on TCP.
    - IpOut: what ip_output_if puts on the wire, and that ip_input takes it.
    - TcpWire, TcpOutput: what tcp_output_segment makes of a segment, and the
      loop of tcp_output as turns between the queues and the driver.
    - IcmpProps, IpInProps, UdpProps, UdpBind: the theorems on those protocols.
    - ReassQueue: the queue of fragments as an abstract list of byte ranges
      laid over memory; ReassProps: placing a fragment; ReassInput: ip_reass.
    - Mem: core/mem.c, the first-fit heap, for any size, alignment and address
      of its array, with 16-bit sizes.  MemProps: the headers in memory as a
      list of blocks ([heap_is]); MemHeap, MemOps, MemUse: each operation as an
      operation on that list; MemClient: the contract with a client.
    - Octets: the octets of a chain by position, for code that walks a message
      octet by octet across buffers.
    - Asn1: core/snmp/asn1_enc.c and asn1_dec.c, every function; Asn1Props:
      decoding what was encoded.
    - Slipif: netif/slipif.c; the serial line of sio.h, which the platform
      provides, is the class [Sio].  SlipProps: the receiver reads what the
      sender wrote, of a line that obeys [SioOk].
    - PppFsm: netif/ppp/fsm.c, the automaton of the control protocols; what a
      protocol supplies is the class [FsmCallbacks], what the automaton relies
      on the class [Protocol].  FsmProps: the table of RFC 1661, the restart
      counter and the timer; PppPair: two automata and the channels between
      them.

    ** What the theorems show

    Byte order and addresses: htonl and ntohl are inverses and store the most
    significant byte first; inet_aton reads back what inet_ntoa prints, and
    what it accepts beyond that.  Checksums: the compiled summing routine is
    the ones'-complement sum of RFC 1071 for every length it can be given, the
    two optimised alternatives agree with it, a packet with its checksum in
    place verifies, and the transport checksum of a chain is that of its flat
    payload however it is cut; inet_chksum_pbuf is wrong on buffers of odd
    length.  Packet buffers: allocation with room for the headers, all or
    nothing; copying, truncating, concatenating and freeing chains in terms of
    abstract packets, with everything else untouched.  Routing and output:
    ip_route and ip_addr_isbroadcast against their declarative meaning; the
    datagram that ip_output_if hands to the driver, byte for byte, and that
    ip_input of the host it is addressed to accepts it.

    TCP: the control-block lists refine abstract lists, a lookup among the
    connections finds the first match and moves it to the front, tcp_bind
    refuses a port that is held with an address in common and tcp_new_port one
    that an active, TIME-WAIT or listening control block has; circular sequence comparison;
    the receive window follows what is delivered and read, without retracting
    the announced right edge outside CLOSE-WAIT; the congestion
    window grows by the right amount and does not wrap; the round-trip
    estimator is the exact integer filter; options are parsed as the grammar
    says; tcp_write cuts data into correct segments and tcp_send_ctrl queues a
    SYN or FIN; a reset is acted on only inside the window; and the
    transitions of the synchronised states, for every driver and application.
    What tcp_output sends: the segments at the front of the queue that fit both
    windows and that Nagle's algorithm lets go, each in a datagram with a valid
    checksum, and where they are queued afterwards.
    An acknowledgement releases exactly the segments it covers; a segment in
    order is delivered together with the queued segments that follow it, and
    rcv_nxt moves past them all; a connection in TIME-WAIT stays for two
    segment lifetimes and is then freed.

    IP input, UDP, ICMP: which datagrams ip_input drops, delivers or hands to
    reassembly; which interface takes them; which UDP control block gets a
    datagram, and which ephemeral port udp_bind finds; the incremental checksum
    of an echo reply.  Reassembly: what a fragment of a known datagram does to
    the queue of fragments, and the packet that a complete one becomes.

    The heap: mem_malloc is first fit, mem_free merges free neighbours,
    mem_realloc shrinks, mem_calloc clears but writes beyond the heap when its
    product wraps; and whatever a rule-abiding client does, its blocks stay
    aligned, disjoint and untouched, and no assertion fails.

    SNMP's coder: integers, unsigned integers and object identifiers are read
    back as they were written, wherever the buffers of the message end; a
    malformed identifier makes the decoder read past its end.  SLIP: a datagram
    sent over a faithful line is received as it was, for every content.

    PPP's automaton: every event in every state does to the outside, to the
    restart counter and to the state what the table of RFC 1661 says, but for
    three things: closing in Starting, a Code-Reject of a basic code, and a
    Terminate-Ack in Opened, which can leave a link there with the layers above
    it down ([termack_in_opened_hangs]); the restart timer is pending exactly while a request is outstanding and the layer above is
    told up and down in turn; a request that nobody answers is repeated as
    often as configured and then given up; and two automata, each of which
    acknowledges what the other asks for, come up, whatever the order of
    delivery.

    The error theorems give states in which the code as written loops for
    ever, reads freed memory or past a buffer, follows a null pointer or writes
    beyond the heap; [reassembly_overlooks_hole] and [ip_reass_use_after_free]
    are runs of reassembly in which a datagram with a hole is delivered and a
    freed one is read.

    ** Bounds and fuel

    A loop over linked objects gets one step more than there are live objects
    ([walk_fuel], [map_fuel], [pcbs_fuel]): running out of it means the links
    form a cycle, which the invariants exclude.  [parseopt_fuel] (256) is one
    more than the values of the u8_t counter that a terminating walk visits at
    most once each; [pool_fuel] (44) covers the buffers of a u16_t length;
    [enqueue_fuel] (178) exceeds the queue length at which tcp_enqueue gives
    up (176 buffers); [frag_fuel] (8192) covers a u16_t datagram in fragments
    of eight bytes; [udp_port_fuel] is one scan of the list per ephemeral port;
    [accept_walk] looks at one interface more than there are, since it starts
    with the one the packet came in on; [mem_fuel] is the size of the heap, of
    which every block takes some; [slipif_input] takes the number of octets it
    may read, of which the length of the coded frame is enough; the coder of
    ASN.1 loops over the bits of a 32-bit word or the u8_t length of an
    object identifier, and a length in the indefinite form is searched for no
    further than the longest message ([indefinite_fuel]).  Theorems about
    results say that the run is [Done], so they
    include termination.

    ** What is abstracted

    LWIP_ASSERT does not stop this build (LWIP_PLATFORM_ASSERT asserts the
    message string), so a failed assertion is recorded in the ghost field
    [h_asserts] and the run goes on.  Statistics counters, debug output and
    SNMP counters are not part of the state.  Pointers are locations with
    offsets, and what is freed is not allocated again under the same location,
    so that a use after free is a run that is stuck; no theorem depends on the
    numeric values of locations, except that those on
    reassembly ask that the numbers of the pbufs in the queue fit 32 bits.

    Modelled and not proved: the overlap trimming and the
    queueing of segments out of order in tcp_receive, the pure acknowledgement
    and the retransmissions that tcp_output places in front of the
    unacknowledged queue, segments in more than one buffer (tcp_write without
    copying) in tcp_output, the failure paths of tcp_enqueue and the merging of segments.  The C widths of
    the fields are kept by the wraps of each assignment; a theorem that needs
    them asks for them.

    Not modelled: memp.c (replaced by support.c in this build, as mem.c is), the
    variant of mem.c on top of it (MEM_USE_POOLS), the parts that lwipopts.h
    switches off (DHCP, DNS, AUTOIP, the messages and the MIB of SNMP, the
    sequential API, ARP, the protocols of PPP above its automaton and the loop
    interface), the C++ adapter
    sim_support.cpp, the other stacks, and the simulators around them. *)
From Stdlib Require Export ZArith Lia.
From stdpp Require Export base strings option gmap list.

#[export] Set Default Goal Selector "!".
Open Scope Z_scope.

(** ** Machine integers

    A C integer is a [Z] kept in the range of its type; an assignment to a
    narrower type wraps with one of the functions below. *)
Definition u8 (z : Z) : Z := z mod 2 ^ 8.
Definition u16 (z : Z) : Z := z mod 2 ^ 16.
Definition u32 (z : Z) : Z := z mod 2 ^ 32.
Definition s16 (z : Z) : Z := (z + 2 ^ 15) mod 2 ^ 16 - 2 ^ 15.
Definition s32 (z : Z) : Z := (z + 2 ^ 31) mod 2 ^ 32 - 2 ^ 31.

(** [is_u8 z] and its companions say that a value is in the range of the type. *)
Definition is_u8 (z : Z) : Prop := 0 <= z < 2 ^ 8.
Definition is_u16 (z : Z) : Prop := 0 <= z < 2 ^ 16.
Definition is_u32 (z : Z) : Prop := 0 <= z < 2 ^ 32.

Definition bytes_ok (l : list Z) : Prop := Forall is_u8 l.

#[export] Instance is_u8_dec z : Decision (is_u8 z).
Proof. unfold is_u8. apply _. Defined.
#[export] Instance is_u16_dec z : Decision (is_u16 z).
Proof. unfold is_u16. apply _. Defined.
#[export] Instance is_u32_dec z : Decision (is_u32 z).
Proof. unfold is_u32. apply _. Defined.

(** ** Programs

    C functions are computations over an explicit state.  [Halt UB] is a run
    that C leaves undefined (a wild or dangling access); [Halt NoFuel] is a
    loop that did not finish within the bound the model gives it. *)
Inductive stuck := UB | NoFuel.

Inductive outcome (A : Type) :=
| Done (a : A)
| Halt (w : stuck).
Arguments Done {A} a.
Arguments Halt {A} w.

Definition M (S A : Type) : Type := S -> outcome (A * S).

#[export] Instance M_ret {S} : MRet (M S) := fun A a s => Done (a, s).
#[export] Instance M_bind {S} : MBind (M S) := fun A B k m s =>
  match m s with
  | Done (a, s') => k a s'
  | Halt w => Halt w
  end.

Definition get {S} : M S S := fun s => Done (s, s).
Definition put {S} (s : S) : M S unit := fun _ => Done (tt, s).
Definition modify {S} (f : S -> S) : M S unit := fun s => Done (tt, f s).
Definition gets {S A} (f : S -> A) : M S A := fun s => Done (f s, s).
Definition halt {S A} (w : stuck) : M S A := fun _ => Halt w.
(** Dereference: the value, or undefined behaviour. *)
Definition deref {S A} (o : option A) : M S A :=
  match o with Some a => mret a | None => halt UB end.
Definition when {S} (b : bool) (m : M S unit) : M S unit :=
  if b then m else mret tt.

(** Run a computation of a component on the part of the state it owns. *)
Definition zoom {S T A} (g : T -> S) (p : S -> T -> T) (m : M S A) : M T A :=
  fun t => match m (g t) with
           | Done (a, s) => Done (a, p s t)
           | Halt w => Halt w
           end.

(** ** Total-correctness weakest preconditions

    [wp m s Q]: from [s], [m] finishes without undefined behaviour and within
    its fuel, and its result and final state satisfy [Q]. *)
Definition wp {S A} (m : M S A) (s : S) (Q : A -> S -> Prop) : Prop :=
  match m s with
  | Done (a, s') => Q a s'
  | Halt _ => False
  end.

Section wp.
Context {S : Type}.
Implicit Types s : S.

Lemma wp_ret {A} (a : A) s Q : Q a s -> wp (mret a) s Q.
Proof. done. Qed.

Lemma wp_bind {A B} (m : M S A) (k : A -> M S B) s Q :
  wp m s (fun a s' => wp (k a) s' Q) -> wp (m ≫= k) s Q.
Proof. unfold wp, mbind, M_bind. by destruct (m s) as [[a s']|]. Qed.

Lemma wp_mono {A} (m : M S A) s (P Q : A -> S -> Prop) :
  wp m s P -> (forall a s', P a s' -> Q a s') -> wp m s Q.
Proof. unfold wp. destruct (m s) as [[a s']|]; naive_solver. Qed.

Lemma wp_get s (Q : S -> S -> Prop) : Q s s -> wp get s Q.
Proof. done. Qed.

Lemma wp_gets {A} (f : S -> A) s Q : Q (f s) s -> wp (gets f) s Q.
Proof. done. Qed.

Lemma wp_put s s' (Q : unit -> S -> Prop) : Q tt s' -> wp (put s') s Q.
Proof. done. Qed.

Lemma wp_modify (f : S -> S) s (Q : unit -> S -> Prop) :
  Q tt (f s) -> wp (modify f) s Q.
Proof. done. Qed.

Lemma wp_deref {A} (o : option A) a s Q : o = Some a -> Q a s -> wp (deref o) s Q.
Proof. by intros ->. Qed.

Lemma wp_when (b : bool) (m : M S unit) s (Q : unit -> S -> Prop) :
  (b = true -> wp m s Q) -> (b = false -> Q tt s) -> wp (when b m) s Q.
Proof. destruct b; intros H1 H2; [by apply H1 | by apply H2]. Qed.

(** A weakest precondition gives the run it describes. *)
Lemma wp_run {A} (m : M S A) s Q :
  wp m s Q -> exists a s', m s = Done (a, s') /\ Q a s'.
Proof. unfold wp. destruct (m s) as [[a s']|]; naive_solver. Qed.

Lemma wp_intro {A} (m : M S A) s a s' (Q : A -> S -> Prop) :
  m s = Done (a, s') -> Q a s' -> wp m s Q.
Proof. unfold wp. by intros ->. Qed.
End wp.

(** Sequencing, for a run that is known. *)
Lemma bind_run {S A B} (m : M S A) (k : A -> M S B) s a s' :
  m s = Done (a, s') -> (m ≫= k) s = k a s'.
Proof. unfold mbind, M_bind. by intros ->. Qed.

Lemma bind_halt {S A B} (m : M S A) (k : A -> M S B) s w :
  m s = Halt w -> (m ≫= k) s = Halt w.
Proof. unfold mbind, M_bind. by intros ->. Qed.

Lemma wp_zoom {S T A} (g : T -> S) p (m : M S A) t Q :
  wp m (g t) (fun a s => Q a (p s t)) -> wp (zoom g p m) t Q.
Proof. unfold wp, zoom. by destruct (m (g t)) as [[a s]|]. Qed.

(** One step of symbolic execution. *)
Ltac wp_step :=
  match goal with
  | |- wp (_ ≫= _) _ _ => apply wp_bind
  | |- wp (mret _) _ _ => apply wp_ret
  | |- wp get _ _ => apply wp_get
  | |- wp (gets _) _ _ => apply wp_gets
  | |- wp (put _) _ _ => apply wp_put
  | |- wp (modify _) _ _ => apply wp_modify
  | |- wp (deref _) _ _ => eapply wp_deref; [eassumption || reflexivity |]
  | |- wp (zoom _ _ _) _ _ => apply wp_zoom
  end.
Ltac wp_go := repeat (wp_step; cbn beta).

(** [p != NULL] *)
Definition is_some {A} (o : option A) : bool := match o with Some _ => true | None => false end.

(** ** Bit operations as arithmetic *)
Lemma u8_range z : is_u8 (u8 z).
Proof. apply Z.mod_pos_bound. lia. Qed.
Lemma u16_range z : is_u16 (u16 z).
Proof. apply Z.mod_pos_bound. lia. Qed.
Lemma u32_range z : is_u32 (u32 z).
Proof. apply Z.mod_pos_bound. lia. Qed.
Lemma u8_small z : is_u8 z -> u8 z = z.
Proof. apply Z.mod_small. Qed.
Lemma u16_small z : is_u16 z -> u16 z = z.
Proof. apply Z.mod_small. Qed.
Lemma u32_small z : is_u32 z -> u32 z = z.
Proof. apply Z.mod_small. Qed.

Lemma s32_small z : - 2 ^ 31 <= z < 2 ^ 31 -> s32 z = z.
Proof. intros H. unfold s32. rewrite Z.mod_small by lia. lia. Qed.
Lemma s16_small z : - 2 ^ 15 <= z < 2 ^ 15 -> s16 z = z.
Proof. intros H. unfold s16. rewrite Z.mod_small by lia. lia. Qed.

Lemma land_ones_mod n z : 0 <= n -> Z.land z (Z.ones n) = z mod 2 ^ n.
Proof. intros. by apply Z.land_ones. Qed.
Lemma land_ff z : Z.land z 0xff = z mod 256.
Proof. apply (land_ones_mod 8). lia. Qed.
Lemma land_ffff z : Z.land z 0xffff = z mod 65536.
Proof. apply (land_ones_mod 16). lia. Qed.
Lemma shiftr_div z n : 0 <= n -> Z.shiftr z n = z / 2 ^ n.
Proof. apply Z.shiftr_div_pow2. Qed.
Lemma shiftl_mul z n : 0 <= n -> Z.shiftl z n = z * 2 ^ n.
Proof. apply Z.shiftl_mul_pow2. Qed.

(** A mask shifted left keeps the corresponding digits. *)
Lemma land_shifted_mask z n m :
  0 <= n -> 0 <= m ->
  Z.land z (Z.shiftl (Z.ones m) n) = ((z / 2 ^ n) mod 2 ^ m) * 2 ^ n.
Proof.
  intros Hn Hm. rewrite <- (Z.land_ones _ m), <- (Z.shiftr_div_pow2 z n) by lia.
  rewrite <- Z.shiftl_mul_pow2, Z.shiftl_land by lia.
  apply Z.bits_inj'. intros i Hi. rewrite !Z.land_spec.
  destruct (decide (i < n)).
  - rewrite (Z.shiftl_spec_low (Z.ones m)) by lia. by rewrite !andb_false_r.
  - rewrite !(Z.shiftl_spec_high _ n i), Z.shiftr_spec by lia.
    by replace (i - n + n) with i by lia.
Qed.

(** A bitwise or of numbers with disjoint digits is their sum. *)
Lemma lor_add_low a b n : 0 <= n -> 0 <= b < 2 ^ n -> Z.lor (a * 2 ^ n) b = a * 2 ^ n + b.
Proof.
  intros Hn Hb. symmetry. rewrite <- Z.lxor_lor; [apply Z.add_nocarry_lxor|].
  all: apply Z.bits_inj'; intros i Hi; rewrite Z.land_spec, Z.bits_0.
  all: destruct (decide (i < n)); [rewrite Z.mul_pow2_bits_low by lia; done|].
  all: rewrite <- (Z.mod_small b (2 ^ n)), Z.mod_pow2_bits_high by lia.
  all: apply andb_false_r.
Qed.

(** Replace the masks, shifts and wraps of a goal by [mod], [/] and [*]. *)
Ltac bits_arith :=
  unfold u8, u16, u32, is_u8, is_u16, is_u32 in *;
  rewrite ?land_ff, ?land_ffff, ?shiftr_div, ?shiftl_mul in * by lia.

Create HintDb ints.
Create Rewrite HintDb ints.
#[export] Hint Resolve u8_range u16_range u32_range : ints.
#[export] Hint Rewrite u8_small u16_small u32_small using (assumption || lia) : ints.

Lemma bytes_ok_app l k : bytes_ok (l ++ k) <-> bytes_ok l /\ bytes_ok k.
Proof. apply Forall_app. Qed.
Lemma bytes_ok_cons b l : bytes_ok (b :: l) <-> is_u8 b /\ bytes_ok l.
Proof. apply list.Forall_cons. Qed.
Lemma bytes_ok_take n l : bytes_ok l -> bytes_ok (take n l).
Proof. apply Forall_take. Qed.
Lemma bytes_ok_drop n l : bytes_ok l -> bytes_ok (drop n l).
Proof. apply Forall_drop. Qed.
#[export] Hint Resolve bytes_ok_take bytes_ok_drop : ints.

(** Induction on lists two elements at a time. *)
Lemma list_ind2 {A} (P : list A -> Prop) :
  P [] -> (forall a, P [a]) -> (forall a b l, P l -> P (a :: b :: l)) -> forall l, P l.
Proof.
  intros H0 H1 H2. fix IH 1. intros [|a [|b l]]; [done | apply H1 | apply H2, IH].
Qed.
