(* ===== verification/Inet.v ===== *)
(** * Byte order and textual addresses (core/ipv4/inet.c, ipv4/lwip/ip_addr.h)

    [htons]/[htonl] and their inverses, the dotted-quad parser [inet_aton]
    with its octal, hexadecimal and short forms, and the printer [inet_ntoa].
    A C string is the list of its bytes before the NUL; reading past the end
    of the list reads the NUL. *)
From S2P Require Import Prelude.

(** ** Byte swapping (the build is little endian) *)
Definition htons (n : Z) : Z :=
  u16 (Z.lor (Z.shiftl (Z.land n 0xff) 8) (Z.shiftr (Z.land n 0xff00) 8)).

Definition ntohs (n : Z) : Z := htons n.

Definition htonl (n : Z) : Z :=
  Z.lor (Z.lor (Z.lor
    (u32 (Z.shiftl (Z.land n 0xff) 24))
    (u32 (Z.shiftl (Z.land n 0xff00) 8)))
    (Z.shiftr (Z.land n 0xff0000) 8))
    (Z.shiftr (Z.land n 0xff000000) 24).

Definition ntohl (n : Z) : Z := htonl n.

(** ** Character classes *)
Definition in_range (c lo up : Z) : bool := (lo <=? u8 c) && (u8 c <=? up).
Definition isprint (c : Z) : bool := in_range c 0x20 0x7f.
Definition isdigit (c : Z) : bool := in_range c 48 57.
Definition isxdigit (c : Z) : bool := isdigit c || in_range c 97 102 || in_range c 65 70.
Definition islower (c : Z) : bool := in_range c 97 122.
Definition isspace (c : Z) : bool :=
  (c =? 32) || (c =? 12) || (c =? 10) || (c =? 13) || (c =? 9) || (c =? 11).

(** The character under the cursor. *)
Definition peek (cp : list Z) : Z := hd 0 cp.

(** ** inet_aton *)

(** The inner loop: accumulate digits of [base] into [val] (u32 arithmetic). *)
Fixpoint aton_digits (base val : Z) (cp : list Z) : Z * list Z :=
  match cp with
  | [] => (val, [])
  | c :: rest =>
      if isdigit c then aton_digits base (u32 (val * base + (c - 48))) rest
      else if (base =? 16) && isxdigit c then
        aton_digits base
          (u32 (Z.lor (Z.shiftl val 4) (c + 10 - (if islower c then 97 else 65)))) rest
      else (val, cp)
  end.

(** One number: its base prefix and its digits. *)
Definition aton_number (cp : list Z) : option (Z * list Z) :=
  let c := peek cp in
  if negb (isdigit c) then None
  else if c =? 48 then
    let cp := tail cp in
    if (peek cp =? 120) || (peek cp =? 88)
    then Some (aton_digits 16 0 (tail cp))
    else Some (aton_digits 8 0 cp)
  else Some (aton_digits 10 0 cp).

(** The outer loop; [room] is [parts + 3 - pp]. *)
Fixpoint aton_parts (room : nat) (parts : list Z) (cp : list Z)
  : option (list Z * Z * list Z) :=
  match aton_number cp with
  | None => None
  | Some (val, cp) =>
      if peek cp =? 46 then
        match room with
        | O => None
        | S room => aton_parts room (parts ++ [val]) (tail cp)
        end
      else Some (parts, val, cp)
  end.

(** [Some a] is a return value of 1 with [addr->s_addr = a]; [None] is 0. *)
Definition inet_aton (cp : list Z) : option Z :=
  match aton_parts 3 [] cp with
  | None => None
  | Some (parts, val, cp) =>
      let c := peek cp in
      if negb (c =? 0) && (negb (isprint c) || negb (isspace c)) then None
      else
        match parts with
        | [] => Some (htonl val)
        | [p0] =>
            if 0xffffff <? val then None
            else Some (htonl (Z.lor val (u32 (Z.shiftl p0 24))))
        | [p0; p1] =>
            if 0xffff <? val then None
            else Some (htonl (Z.lor val
                   (Z.lor (u32 (Z.shiftl p0 24)) (u32 (Z.shiftl p1 16)))))
        | p0 :: p1 :: p2 :: _ =>
            if 0xff <? val then None
            else Some (htonl (Z.lor val
                   (Z.lor (Z.lor (u32 (Z.shiftl p0 24)) (u32 (Z.shiftl p1 16)))
                          (u32 (Z.shiftl p2 8)))))
        end
  end.

Definition INADDR_NONE : Z := 0xffffffff.

Definition inet_addr (cp : list Z) : Z :=
  match inet_aton cp with
  | Some val => val
  | None => INADDR_NONE
  end.

(** ** inet_ntoa *)

(** The do-while over the digits of one byte; [inv] is the used part of the
    three-byte scratch array (last written first), [room] what is left of it. *)
Fixpoint ntoa_digits (room : nat) (inv : list Z) (ap : Z) : option (list Z) :=
  match room with
  | O => None
  | S room =>
      let rem := ap mod 10 in
      let ap := ap / 10 in
      let inv := u8 (48 + rem) :: inv in
      if ap =? 0 then Some inv else ntoa_digits room inv ap
  end.

(** The [n]-th byte of an u32 in memory (little endian). *)
Definition byte_at (s_addr : Z) (n : Z) : Z := u8 (Z.shiftr s_addr (8 * n)).

(** The four passes of the loop, each ended by a dot; the last dot is then
    overwritten by the NUL. *)
Fixpoint ntoa_bytes (ap : list Z) : option (list Z) :=
  match ap with
  | [] => Some []
  | b :: ap =>
      match ntoa_digits 3 [] b, ntoa_bytes ap with
      | Some ds, Some str => Some (ds ++ 46 :: str)
      | _, _ => None
      end
  end.

Definition inet_ntoa (s_addr : Z) : option (list Z) :=
  match ntoa_bytes (map (byte_at s_addr) [0; 1; 2; 3]) with
  | Some str => Some (removelast str)
  | None => None
  end.

Example ntoa_loopback : inet_ntoa 0x0100007f = Some [49; 50; 55; 46; 48; 46; 48; 46; 49].
Proof. reflexivity. Qed.
Example aton_hex : inet_aton [48; 120; 55; 102; 46; 49] = Some 0x0100007f.
Proof. reflexivity. Qed.

(** ** Lemmas *)
Lemma land_ff00 z : Z.land z 0xff00 = ((z / 2 ^ 8) mod 2 ^ 8) * 2 ^ 8.
Proof. apply (land_shifted_mask z 8 8); lia. Qed.
Lemma land_ff0000 z : Z.land z 0xff0000 = ((z / 2 ^ 16) mod 2 ^ 8) * 2 ^ 16.
Proof. apply (land_shifted_mask z 16 8); lia. Qed.
Lemma land_ff000000 z : Z.land z 0xff000000 = ((z / 2 ^ 24) mod 2 ^ 8) * 2 ^ 24.
Proof. apply (land_shifted_mask z 24 8); lia. Qed.

(** [bswap16], [bswap32]: the byte swap of a number given by its bytes. *)
Lemma htons_bytes b0 b1 :
  is_u8 b0 -> is_u8 b1 -> htons (b0 + 256 * b1) = 256 * b0 + b1.
Proof.
  intros H0 H1. unfold htons. rewrite land_ff00. bits_arith.
  rewrite lor_add_low; Z.div_mod_to_equations; lia.
Qed.

Lemma htonl_bytes b0 b1 b2 b3 :
  is_u8 b0 -> is_u8 b1 -> is_u8 b2 -> is_u8 b3 ->
  htonl (b0 + 2 ^ 8 * b1 + 2 ^ 16 * b2 + 2 ^ 24 * b3) =
  2 ^ 24 * b0 + 2 ^ 16 * b1 + 2 ^ 8 * b2 + b3.
Proof.
  intros H0 H1 H2 H3. unfold htonl.
  rewrite land_ff00, land_ff0000, land_ff000000. bits_arith.
  set (n := b0 + _ + _ + _).
  assert (n mod 256 = b0) as -> by (subst n; Z.div_mod_to_equations; lia).
  assert ((n / 2 ^ 8) mod 2 ^ 8 = b1) as -> by (subst n; Z.div_mod_to_equations; lia).
  assert ((n / 2 ^ 16) mod 2 ^ 8 = b2) as -> by (subst n; Z.div_mod_to_equations; lia).
  assert ((n / 2 ^ 24) mod 2 ^ 8 = b3) as -> by (subst n; Z.div_mod_to_equations; lia).
  rewrite !(Z.mod_small _ (2 ^ 32)) by lia.
  replace (b2 * 2 ^ 16 / 2 ^ 8) with (b2 * 2 ^ 8) by (Z.div_mod_to_equations; lia).
  replace (b3 * 2 ^ 24 / 2 ^ 24) with b3 by (Z.div_mod_to_equations; lia).
  replace (b1 * 2 ^ 8 * 2 ^ 8) with (b1 * 2 ^ 16) by lia.
  rewrite (lor_add_low b0 (b1 * 2 ^ 16) 24) by lia.
  replace (b0 * 2 ^ 24 + b1 * 2 ^ 16) with ((b0 * 2 ^ 8 + b1) * 2 ^ 16) by lia.
  rewrite (lor_add_low _ (b2 * 2 ^ 8) 16) by lia.
  replace ((b0 * 2 ^ 8 + b1) * 2 ^ 16 + b2 * 2 ^ 8)
    with ((b0 * 2 ^ 16 + b1 * 2 ^ 8 + b2) * 2 ^ 8) by lia.
  rewrite lor_add_low by lia. lia.
Qed.

(** Every u16 and u32 is given by its bytes. *)
Lemma u16_bytes n :
  is_u16 n -> exists b0 b1, is_u8 b0 /\ is_u8 b1 /\ n = b0 + 256 * b1.
Proof.
  intros H. exists (n mod 256), (n / 256). unfold is_u16, is_u8 in *.
  repeat split; Z.div_mod_to_equations; lia.
Qed.
Lemma u32_bytes n :
  is_u32 n -> exists b0 b1 b2 b3, is_u8 b0 /\ is_u8 b1 /\ is_u8 b2 /\ is_u8 b3 /\
    n = b0 + 2 ^ 8 * b1 + 2 ^ 16 * b2 + 2 ^ 24 * b3.
Proof.
  intros H. exists (n mod 256), (n / 256 mod 256), (n / 65536 mod 256), (n / 16777216).
  unfold is_u32, is_u8 in *. repeat split; Z.div_mod_to_equations; lia.
Qed.

Lemma htons_range n : is_u16 (htons n).
Proof. apply u16_range. Qed.
#[export] Hint Resolve htons_range : ints.

(** The four bytes that [inet_ntoa] visits. *)
Lemma byte_at_bytes b0 b1 b2 b3 :
  is_u8 b0 -> is_u8 b1 -> is_u8 b2 -> is_u8 b3 ->
  map (byte_at (b0 + 2 ^ 8 * b1 + 2 ^ 16 * b2 + 2 ^ 24 * b3)) [0; 1; 2; 3] = [b0; b1; b2; b3].
Proof.
  intros. unfold byte_at; cbn [map]. bits_arith. cbn [Z.mul Pos.mul].
  repeat f_equal; Z.div_mod_to_equations; lia.
Qed.

(** The digits [inet_ntoa] prints for a byte, followed by a dot or by the end
    of the string, are read back by [inet_aton]'s inner loop. *)
Definition octets : list Z := map Z.of_nat (seq 0 256).

Lemma octets_forall (P : Z -> Prop) : Forall P octets -> forall b, is_u8 b -> P b.
Proof.
  intros HP b Hb. apply (proj1 (list.Forall_forall P octets) HP).
  apply list_elem_of_In, List.in_map_iff. exists (Z.to_nat b).
  unfold is_u8 in Hb. rewrite List.in_seq. lia.
Qed.

Lemma ntoa_digits_aton b :
  is_u8 b -> exists ds, ntoa_digits 3 [] b = Some ds /\ (1 <= length ds <= 3)%nat /\
    (forall rest, aton_number (ds ++ 46 :: rest) = Some (b, 46 :: rest)) /\
    aton_number ds = Some (b, []).
Proof.
  revert b. refine (octets_forall _ _).
  let os := eval vm_compute in octets in change octets with os.
  repeat (apply list.Forall_cons_2;
    [eexists; split; [vm_compute; reflexivity|split; [cbn; lia|split; [intro|]; vm_compute; reflexivity]]|]).
  apply list.Forall_nil_2.
Qed.

Lemma htons_involutive n : is_u16 n -> ntohs (htons n) = n.
Proof.
  intros (b0 & b1 & H0 & H1 & ->)%u16_bytes. unfold ntohs.
  rewrite (htons_bytes b0 b1) by done.
  replace (256 * b0 + b1) with (b1 + 256 * b0) by lia.
  rewrite htons_bytes by done. lia.
Qed.

Lemma htonl_involutive n : is_u32 n -> ntohl (htonl n) = n.
Proof.
  intros (b0 & b1 & b2 & b3 & H0 & H1 & H2 & H3 & ->)%u32_bytes. unfold ntohl.
  rewrite (htonl_bytes b0 b1 b2 b3) by done.
  replace (2 ^ 24 * b0 + 2 ^ 16 * b1 + 2 ^ 8 * b2 + b3)
    with (b3 + 2 ^ 8 * b2 + 2 ^ 16 * b1 + 2 ^ 24 * b0) by lia.
  rewrite htonl_bytes by done. lia.
Qed.

(** The last number of a dotted quad, and the switch on four parts. *)
Lemma lor_quad b0 b1 b2 b3 :
  is_u8 b0 -> is_u8 b1 -> is_u8 b2 -> is_u8 b3 ->
  Z.lor b3 (Z.lor (Z.lor (u32 (Z.shiftl b0 24)) (u32 (Z.shiftl b1 16)))
              (u32 (Z.shiftl b2 8))) =
  b3 + 2 ^ 8 * b2 + 2 ^ 16 * b1 + 2 ^ 24 * b0.
Proof.
  intros. bits_arith. rewrite !(Z.mod_small _ (2 ^ 32)), Z.lor_comm by lia.
  rewrite (lor_add_low b0 (b1 * 2 ^ 16) 24) by lia.
  replace (b0 * 2 ^ 24 + b1 * 2 ^ 16) with ((b0 * 2 ^ 8 + b1) * 2 ^ 16) by lia.
  rewrite (lor_add_low _ (b2 * 2 ^ 8) 16) by lia.
  replace ((b0 * 2 ^ 8 + b1) * 2 ^ 16 + b2 * 2 ^ 8)
    with ((b0 * 2 ^ 16 + b1 * 2 ^ 8 + b2) * 2 ^ 8) by lia.
  rewrite lor_add_low by lia. lia.
Qed.

Lemma aton_parts_dot ds b room parts rest :
  (forall r, aton_number (ds ++ 46 :: r) = Some (b, 46 :: r)) ->
  aton_parts (S room) parts (ds ++ 46 :: rest) = aton_parts room (parts ++ [b]) rest.
Proof. intros H. cbn [aton_parts]. rewrite H. reflexivity. Qed.

Lemma aton_parts_last ds b room parts :
  aton_number ds = Some (b, []) -> aton_parts room parts ds = Some (parts, b, []).
Proof. intros H. destruct room; cbn [aton_parts]; by rewrite H. Qed.

(** ** Properties *)

(** The byte swaps are their own inverses, and [htonl] stores the bytes of an
    address most significant first. *)
Theorem htonl_network_order n :
  is_u32 n ->
  ntohl (htonl n) = n /\
  map (byte_at (htonl n)) [0; 1; 2; 3] = rev (map (byte_at n) [0; 1; 2; 3]).
Proof.
  intros Hn. split; [by apply htonl_involutive|].
  destruct (u32_bytes n Hn) as (b0 & b1 & b2 & b3 & H0 & H1 & H2 & H3 & ->).
  rewrite (htonl_bytes b0 b1 b2 b3) by done.
  replace (2 ^ 24 * b0 + 2 ^ 16 * b1 + 2 ^ 8 * b2 + b3)
    with (b3 + 2 ^ 8 * b2 + 2 ^ 16 * b1 + 2 ^ 24 * b0) by lia.
  rewrite !byte_at_bytes by done. reflexivity.
Qed.

Lemma htonl_network_order_witness :
  is_u32 0xc0a80001 /\ ntohl (htonl 0xc0a80001) = 0xc0a80001 /\
  map (byte_at (htonl 0xc0a80001)) [0; 1; 2; 3] = rev (map (byte_at 0xc0a80001) [0; 1; 2; 3]).
Proof. assert (H : is_u32 0xc0a80001) by (unfold is_u32; lia). split; [done|]. exact (htonl_network_order _ H). Defined.

(** C25: Printing an address and parsing the text gives the address back; the text
    (and its NUL) fits the static 16-byte buffer. *)
Theorem inet_ntoa_aton a :
  is_u32 a ->
  exists str, inet_ntoa a = Some str /\ (length str <= 15)%nat /\
    inet_aton str = Some a /\ inet_addr str = a.
Proof.
  intros (b0 & b1 & b2 & b3 & H0 & H1 & H2 & H3 & ->)%u32_bytes.
  unfold inet_ntoa. rewrite byte_at_bytes by done. cbn [ntoa_bytes].
  destruct (ntoa_digits_aton b0 H0) as (d0 & -> & L0 & D0 & _).
  destruct (ntoa_digits_aton b1 H1) as (d1 & -> & L1 & D1 & _).
  destruct (ntoa_digits_aton b2 H2) as (d2 & -> & L2 & D2 & _).
  destruct (ntoa_digits_aton b3 H3) as (d3 & -> & L3 & _ & E3).
  set (str := d0 ++ 46 :: d1 ++ 46 :: d2 ++ 46 :: d3).
  replace (d0 ++ 46 :: d1 ++ 46 :: d2 ++ 46 :: d3 ++ [46]) with (str ++ [46])
    by (subst str; by repeat (rewrite <- app_assoc || rewrite <- app_comm_cons)).
  rewrite removelast_last. exists str. split; [done|].
  assert (inet_aton str = Some (b0 + 2 ^ 8 * b1 + 2 ^ 16 * b2 + 2 ^ 24 * b3)) as Ha.
  { unfold inet_aton, str.
    rewrite (aton_parts_dot d0 b0), (aton_parts_dot d1 b1), (aton_parts_dot d2 b2) by done.
    rewrite (aton_parts_last d3 b3) by done. cbn [app peek hd negb andb Z.eqb].
    destruct (0xff <? b3) eqn:Hb; [unfold is_u8 in *; lia|].
    rewrite lor_quad, htonl_bytes by done. f_equal. lia. }
  split; [|split; [done|by unfold inet_addr; rewrite Ha]].
  subst str. rewrite !length_app. cbn [length]. rewrite !length_app. cbn [length].
  rewrite length_app. cbn [length]. lia.
Qed.

Lemma inet_ntoa_aton_witness :
  is_u32 0x0100a8c0 /\
  exists str, inet_ntoa 0x0100a8c0 = Some str /\ (length str <= 15)%nat /\
    inet_aton str = Some 0x0100a8c0 /\ inet_addr str = 0x0100a8c0.
Proof. assert (H : is_u32 0x0100a8c0) by (unfold is_u32; lia). split; [done|]. exact (inet_ntoa_aton _ H). Defined.

(** The parser checks only the last number of a quad: "256.0.0.1" is accepted
    and reads as "0.0.0.1"; of the white space that may follow an address it
    accepts the blank but not the newline, which [isprint] excludes. *)
Theorem inet_aton_leniency :
  inet_aton [50; 53; 54; 46; 48; 46; 48; 46; 49] = inet_aton [48; 46; 48; 46; 48; 46; 49] /\
  inet_aton [48; 46; 48; 46; 48; 46; 49] = Some (htonl 1) /\
  inet_aton [48; 46; 48; 46; 48; 46; 49; 32] = Some (htonl 1) /\
  inet_aton [48; 46; 48; 46; 48; 46; 49; 10] = None.
Proof. vm_compute. done. Qed.
