(* ===== verification/Checksum.v ===== *)
(** * The Internet checksum over a byte range (core/ipv4/inet_chksum.c)

    The three [lwip_standard_chksum] routines of the file (the build selects
    version 1, the other two are alternatives behind LWIP_CHKSUM_ALGORITHM),
    [inet_chksum], and the reference they implement: the ones'-complement sum
    of RFC 1071.  A range of memory is the list of its bytes; [dataptr] is its
    address where the routine looks at the alignment. *)
From S2P Require Import Prelude Inet.

(** ** The routines *)

(** Version 1: big-endian words, accumulated in 32 bits. *)
Fixpoint chksum1_loop (acc : Z) (octetptr : list Z) : Z :=
  match octetptr with
  | b0 :: b1 :: octetptr =>
      let src := u16 (Z.shiftl b0 8) in
      let src := Z.lor src b1 in
      chksum1_loop (u32 (acc + src)) octetptr
  | [b0] => u32 (acc + u16 (Z.shiftl b0 8))
  | [] => acc
  end.

Definition lwip_standard_chksum (octetptr : list Z) : Z :=
  let acc := chksum1_loop 0 octetptr in
  let acc := u32 (Z.shiftr acc 16 + Z.land acc 0xffff) in
  let acc := if negb (Z.land acc 0xffff0000 =? 0)
             then u32 (Z.shiftr acc 16 + Z.land acc 0xffff) else acc in
  htons (u16 acc).

(** [((u8_t * )&t)[k] = b] on a little-endian machine. *)
Definition set_byte (t k b : Z) : Z :=
  Z.lor (Z.ldiff t (Z.shiftl 0xff (8 * k))) (Z.shiftl b (8 * k)).

(** [while (len > 1) { sum += *ps++; len -= 2; }]: the sum and what is left. *)
Fixpoint sum16_loop (sum : Z) (ps : list Z) : Z * list Z :=
  match ps with
  | b0 :: b1 :: ps => sum16_loop (u32 (sum + (b0 + 256 * b1))) ps
  | _ => (sum, ps)
  end.

(** [while ((acc >> 16) != 0) acc = (acc & 0xffff) + (acc >> 16);] *)
Fixpoint fold_carry (fuel : nat) (acc : Z) : option Z :=
  match fuel with
  | O => None
  | S fuel =>
      if Z.shiftr acc 16 =? 0 then Some acc
      else fold_carry fuel (u32 (Z.land acc 0xffff + Z.shiftr acc 16))
  end.

(** Three tests of the loop condition are enough for any u32 (lemma
    [fold_carry_oc]). *)
Definition fold_fuel : nat := 3.

Definition swap_bytes (acc : Z) : Z :=
  Z.lor (Z.shiftl (Z.land acc 0xff) 8) (Z.shiftr (Z.land acc 0xff00) 8).

(** Version 2: aligned 16-bit loads, the odd ends collected in [t]. *)
Definition lwip_standard_chksum_v2 (dataptr : Z) (pb : list Z) : option Z :=
  let odd := negb (Z.land dataptr 1 =? 0) in
  let '(t, pb) := match pb with
                  | b :: rest => if odd then (set_byte 0 1 b, rest) else (0, pb)
                  | [] => (0, pb)
                  end in
  let '(sum, ps) := sum16_loop 0 pb in
  let t := match ps with b :: _ => set_byte t 0 b | [] => t end in
  let sum := u32 (sum + t) in
  sum ← fold_carry fold_fuel sum;
  Some (u16 (if odd then swap_bytes sum else sum)).

(** Version 3: 32-bit loads, two per turn, with end-around carries. *)
Fixpoint sum32_loop (sum : Z) (pl : list Z) : Z * list Z :=
  match pl with
  | b0 :: b1 :: b2 :: b3 :: b4 :: b5 :: b6 :: b7 :: pl =>
      let tmp := u32 (sum + (b0 + 2 ^ 8 * b1 + 2 ^ 16 * b2 + 2 ^ 24 * b3)) in
      let tmp := if tmp <? sum then u32 (tmp + 1) else tmp in
      let sum := u32 (tmp + (b4 + 2 ^ 8 * b5 + 2 ^ 16 * b6 + 2 ^ 24 * b7)) in
      let sum := if sum <? tmp then u32 (sum + 1) else sum in
      sum32_loop sum pl
  | _ => (sum, pl)
  end.

Definition lwip_standard_chksum_v3 (dataptr : Z) (pb : list Z) : option Z :=
  let odd := negb (Z.land dataptr 1 =? 0) in
  let '(t, pb, ps) := match pb with
                  | b :: rest => if odd then (set_byte 0 1 b, rest, dataptr + 1) else (0, pb, dataptr)
                  | [] => (0, pb, dataptr)
                  end in
  let '(sum, pb) := match pb with
                    | b0 :: b1 :: rest =>
                        if negb (Z.land ps 3 =? 0) then (u32 (b0 + 256 * b1), rest) else (0, pb)
                    | _ => (0, pb)
                    end in
  let '(sum, pl) := sum32_loop sum pb in
  let sum := u32 (Z.shiftr sum 16 + Z.land sum 0xffff) in
  let '(sum, ps) := sum16_loop sum pl in
  let t := match ps with b :: _ => set_byte t 0 b | [] => t end in
  let sum := u32 (sum + t) in
  sum ← fold_carry fold_fuel sum;
  Some (u16 (if odd then swap_bytes sum else sum)).

(** [inet_chksum]: the complemented sum of a range. *)
Definition inet_chksum (dataptr : list Z) : option Z :=
  let acc := lwip_standard_chksum dataptr in
  acc ← fold_carry fold_fuel acc;
  Some (u16 (Z.lnot (Z.land acc 0xffff))).

(** ** The reference *)

(** The sum of the 16-bit little-endian words, an odd last byte padded with a
    zero, and its ones'-complement normal form: 0 only for a zero sum. *)
Fixpoint lesum (l : list Z) : Z :=
  match l with
  | b0 :: b1 :: l => b0 + 256 * b1 + lesum l
  | [b0] => b0
  | [] => 0
  end.

Definition oc (n : Z) : Z := if n =? 0 then 0 else (n - 1) mod 65535 + 1.

Definition rfc1071_sum (l : list Z) : Z := oc (lesum l).

Example chksum_ex : lwip_standard_chksum [0x12; 0x34; 0xff; 0xff; 0x01] = oc (0x3412 + 0xffff + 1).
Proof. reflexivity. Qed.
Example chksum2_ex : lwip_standard_chksum_v2 3 [0x12; 0x34; 0xff; 0xff; 0x01] = Some (oc (0x3412 + 0xffff + 1)).
Proof. reflexivity. Qed.
Example chksum3_ex : lwip_standard_chksum_v3 1 [1;2;3;4;5;6;7;255;9;10;11;12;255;14] = Some (rfc1071_sum [1;2;3;4;5;6;7;255;9;10;11;12;255;14]).
Proof. reflexivity. Qed.

(** ** Congruence modulo 65535

    One's-complement sums are numbers modulo 65535, with two zeros. *)
Definition cong (a b : Z) : Prop := a mod 65535 = b mod 65535.

Declare Scope oc_scope.
Infix "~~" := cong (at level 70) : oc_scope.
#[local] Open Scope oc_scope.

#[export] Instance cong_equiv : Equivalence cong.
Proof. unfold cong. split; congruence. Qed.
#[export] Instance cong_add : Proper (cong ==> cong ==> cong) Z.add.
Proof. intros a a' Ha b b' Hb. unfold cong in *. rewrite Zplus_mod, Ha, Hb. symmetry. apply Zplus_mod. Qed.
#[export] Instance cong_mul : Proper (cong ==> cong ==> cong) Z.mul.
Proof. intros a a' Ha b b' Hb. unfold cong in *. rewrite Zmult_mod, Ha, Hb. symmetry. apply Zmult_mod. Qed.

Lemma cong_mult a b k : a = b + 65535 * k -> a ~~ b.
Proof. intros ->. unfold cong. rewrite (Z.mul_comm 65535). apply Z_mod_plus_full. Qed.

(** [a] and [b] have the same normal form. *)
Definition same_oc (a b : Z) : Prop := a ~~ b /\ (a = 0 <-> b = 0).

Lemma oc_range n : is_u16 (oc n).
Proof. unfold oc, is_u16. case_match; Z.div_mod_to_equations; lia. Qed.

Lemma oc_same n : 0 <= n -> same_oc (oc n) n.
Proof.
  intros Hn. unfold same_oc, oc, cong. destruct (Z.eqb_spec n 0) as [->|]; [done|].
  split; [|Z.div_mod_to_equations; lia].
  rewrite Zplus_mod_idemp_l. f_equal. lia.
Qed.

Lemma oc_unique r n : 0 <= n -> is_u16 r -> same_oc r n -> r = oc n.
Proof.
  unfold is_u16, same_oc, cong, oc. intros Hn Hr [Hc Hz].
  destruct (Z.eqb_spec n 0); [lia|]. Z.div_mod_to_equations. lia.
Qed.

Lemma oc_ext a b : 0 <= a -> 0 <= b -> same_oc a b -> oc a = oc b.
Proof.
  intros Ha Hb [Hc Hz]. apply oc_unique; [done|apply oc_range|].
  destruct (oc_same a Ha) as [Hc' Hz']. split; [by rewrite Hc'|by rewrite Hz'].
Qed.

#[export] Hint Resolve oc_range : ints.

(** ** Sums of words *)
Lemma lesum_nonneg l : bytes_ok l -> 0 <= lesum l.
Proof.
  induction l as [|a|a b l IH] using list_ind2; cbn [lesum]; [lia| |];
    rewrite ?bytes_ok_cons; unfold is_u8; [lia|].
  intros (? & ? & ?%IH). lia.
Qed.

Lemma lesum_bound l :
  bytes_ok l -> lesum l <= 65535 * ((Z.of_nat (length l) + 1) / 2).
Proof.
  induction l as [|a|a b l IH] using list_ind2; cbn [lesum length];
    rewrite ?bytes_ok_cons; unfold is_u8.
  - intros _. Z.div_mod_to_equations. lia.
  - intros [? _]. Z.div_mod_to_equations. lia.
  - intros (? & ? & H%IH). Z.div_mod_to_equations. lia.
Qed.

Lemma lesum_zero l : bytes_ok l -> (lesum l = 0 <-> Forall (eq 0) l).
Proof.
  induction l as [|a|a b l IH] using list_ind2; cbn [lesum]; rewrite ?bytes_ok_cons.
  - done.
  - intros _. rewrite list.Forall_singleton. lia.
  - intros (Ha & Hb & Hl). rewrite !list.Forall_cons, <- IH by done.
    pose proof (lesum_nonneg l Hl). unfold is_u8 in *. lia.
Qed.

Lemma lesum_cons b l : lesum (b :: l) ~~ b + 256 * lesum l.
Proof.
  revert b. induction l as [|a|a c l IH] using list_ind2; intros b; cbn [lesum].
  - apply (cong_mult _ _ 0). lia.
  - apply (cong_mult _ _ 0). lia.
  - change (b + 256 * a + lesum (c :: l) ~~ b + 256 * (a + 256 * c + lesum l)).
    rewrite (IH c). apply (cong_mult _ _ (- c)). lia.
Qed.

Lemma lesum_app_even l k :
  Z.even (Z.of_nat (length l)) = true -> lesum (l ++ k) = lesum l + lesum k.
Proof.
  induction l as [|a|a b l IH] using list_ind2; cbn [length app lesum]; [lia|done|].
  intros H. rewrite IH; [lia|]. rewrite !Nat2Z.inj_succ in H.
  by rewrite !Z.even_succ, Z.odd_succ in H.
Qed.

Lemma lesum_app_odd l k :
  Z.odd (Z.of_nat (length l)) = true -> lesum (l ++ k) ~~ lesum l + 256 * lesum k.
Proof.
  induction l as [|a|a b l IH] using list_ind2; cbn [length app].
  - done.
  - intros _. apply lesum_cons.
  - rewrite !Nat2Z.inj_succ, Z.odd_succ, Z.even_succ. intros H%IH. cbn [lesum].
    rewrite H. apply (cong_mult _ _ 0). lia.
Qed.

(** ** Folding carries *)
Lemma fold_step acc :
  0 <= acc -> same_oc (acc mod 65536 + acc / 65536) acc.
Proof.
  intros H. split; [|Z.div_mod_to_equations; lia].
  apply (cong_mult _ _ (- (acc / 65536))). Z.div_mod_to_equations. lia.
Qed.

Lemma same_oc_refl a : same_oc a a.
Proof. done. Qed.
Lemma same_oc_trans a b c : same_oc a b -> same_oc b c -> same_oc a c.
Proof. intros [H1 H2] [H3 H4]. split; [by rewrite H1|tauto]. Qed.

Lemma fold_carry_oc acc : is_u32 acc -> fold_carry fold_fuel acc = Some (oc acc).
Proof.
  intros H. unfold fold_fuel. cbn [fold_carry]. bits_arith.
  set (a1 := (acc mod 65536 + acc / 2 ^ 16) mod 2 ^ 32).
  set (a2 := (a1 mod 65536 + a1 / 2 ^ 16) mod 2 ^ 32).
  assert (a1 = acc mod 65536 + acc / 65536) as E1
    by (subst a1; apply Z.mod_small; Z.div_mod_to_equations; lia).
  assert (0 <= a1 <= 131070) as B1 by (rewrite E1; Z.div_mod_to_equations; lia).
  assert (a2 = a1 mod 65536 + a1 / 65536) as E2
    by (unfold a2; apply Z.mod_small; Z.div_mod_to_equations; lia).
  assert (0 <= a2 <= 65535) as B2 by (rewrite E2; Z.div_mod_to_equations; lia).
  pose proof (fold_step acc ltac:(lia)) as S1. rewrite <- E1 in S1.
  pose proof (fold_step a1 ltac:(lia)) as S2. rewrite <- E2 in S2.
  clearbody a1 a2.
  repeat case_match; try (f_equal; apply oc_unique; unfold is_u16;
    [lia|Z.div_mod_to_equations; lia|]).
  - done.
  - done.
  - by eapply same_oc_trans.
  - exfalso. Z.div_mod_to_equations. lia.
Qed.

Lemma swap_bytes_htons n : is_u16 n -> swap_bytes n = htons n.
Proof.
  intros H. unfold htons. fold (swap_bytes n). symmetry. apply Z.mod_small.
  unfold swap_bytes. rewrite land_ff00. bits_arith.
  rewrite lor_add_low; Z.div_mod_to_equations; lia.
Qed.

(** Swapping the bytes of a normal form multiplies it by 256. *)
Lemma htons_oc n : 0 <= n -> htons (oc n) = oc (256 * n).
Proof.
  intros Hn. destruct (oc_same n Hn) as [Hc Hz].
  destruct (u16_bytes (oc n) (oc_range n)) as (b0 & b1 & H0 & H1 & E).
  rewrite E, htons_bytes by done. unfold is_u8 in *.
  apply oc_unique; [lia|unfold is_u16; lia|]. split; [|lia].
  rewrite <- Hc, E. apply (cong_mult _ _ (- b1)). lia.
Qed.

(** ** Version 1 *)
Fixpoint besum (l : list Z) : Z :=
  match l with
  | b0 :: b1 :: l => 256 * b0 + b1 + besum l
  | [b0] => 256 * b0
  | [] => 0
  end.

Lemma besum_lesum l : bytes_ok l -> 0 <= besum l /\ same_oc (256 * besum l) (lesum l).
Proof.
  induction l as [|a|a b l IH] using list_ind2; cbn [besum lesum];
    rewrite ?bytes_ok_cons; unfold is_u8.
  - intros _. split; [lia|]. split; [done|lia].
  - intros [Ha _]. split; [lia|]. split; [apply (cong_mult _ _ a)|]; lia.
  - intros (Ha & Hb & Hl). destruct (IH Hl) as [Hn [Hc Hz]].
    pose proof (lesum_nonneg l Hl). split; [lia|]. split; [|lia].
    rewrite <- Hc. apply (cong_mult _ _ a). lia.
Qed.

Lemma chksum1_loop_sum l acc :
  bytes_ok l -> 0 <= acc -> acc + 65535 * ((Z.of_nat (length l) + 1) / 2) < 2 ^ 32 ->
  chksum1_loop acc l = acc + besum l.
Proof.
  revert acc. induction l as [|a|a b l IH] using list_ind2; intros acc;
    cbn [chksum1_loop besum length]; rewrite ?bytes_ok_cons; bits_arith.
  - lia.
  - intros [Ha _] Hacc Hb. rewrite !Z.mod_small; Z.div_mod_to_equations; lia.
  - intros (Ha & Hb & Hl) Hacc Hlen.
    rewrite (Z.mod_small (a * 2 ^ 8)), lor_add_low by lia.
    rewrite Z.mod_small by (Z.div_mod_to_equations; lia).
    rewrite IH; [lia|done|lia|Z.div_mod_to_equations; lia].
Qed.

Lemma two_folds acc :
  is_u32 acc ->
  (let acc := u32 (Z.shiftr acc 16 + Z.land acc 0xffff) in
   if negb (Z.land acc 0xffff0000 =? 0)
   then u32 (Z.shiftr acc 16 + Z.land acc 0xffff) else acc) = oc acc.
Proof.
  intros H. cbv zeta. change 0xffff0000 with (Z.shiftl (Z.ones 16) 16).
  rewrite land_shifted_mask by lia. bits_arith.
  set (a1 := (acc / 2 ^ 16 + acc mod 65536) mod 2 ^ 32).
  assert (a1 = acc mod 65536 + acc / 65536) as E1
    by (unfold a1; rewrite Z.mod_small; Z.div_mod_to_equations; lia).
  assert (0 <= a1 <= 131070) as B1 by (rewrite E1; Z.div_mod_to_equations; lia).
  pose proof (fold_step acc ltac:(lia)) as S1. rewrite <- E1 in S1.
  pose proof (fold_step a1 ltac:(lia)) as S2. clearbody a1.
  destruct (Z.eqb_spec (a1 / 2 ^ 16 mod 2 ^ 16 * 2 ^ 16) 0); cbn [negb].
  - apply oc_unique; [lia|unfold is_u16; Z.div_mod_to_equations; lia|done].
  - rewrite (Z.mod_small _ (2 ^ 32)) by (Z.div_mod_to_equations; lia).
    rewrite Z.add_comm. apply oc_unique; [lia|unfold is_u16; Z.div_mod_to_equations; lia|].
    by eapply same_oc_trans.
Qed.

Lemma lwip_standard_chksum_oc l :
  bytes_ok l -> Z.of_nat (length l) <= 65535 -> lwip_standard_chksum l = oc (lesum l).
Proof.
  intros Hl Hlen. destruct (besum_lesum l Hl) as [Hn Hs].
  unfold lwip_standard_chksum.
  rewrite chksum1_loop_sum by (first [done | Z.div_mod_to_equations; lia]).
  rewrite Z.add_0_l. pose proof (lesum_nonneg l Hl).
  assert (besum l < 2 ^ 32) as Hb.
  { clear -Hl Hlen. assert (besum l <= 65535 * ((Z.of_nat (length l) + 1) / 2)).
    { clear Hlen. revert Hl. induction l as [|a|a b l IH] using list_ind2;
        cbn [besum length]; rewrite ?bytes_ok_cons; unfold is_u8;
        [|intros [? _]|intros (? & ? & ?%IH)]; Z.div_mod_to_equations; lia. }
    Z.div_mod_to_equations. lia. }
  pose proof (two_folds (besum l) ltac:(unfold is_u32; lia)) as E. cbv zeta in E |- *.
  rewrite E, u16_small, htons_oc by auto with ints. apply oc_ext; [lia|done|done].
Qed.

(** ** Versions 2 and 3 *)
Lemma sum16_loop_sum l sum :
  bytes_ok l -> 0 <= sum -> sum + 65535 * (Z.of_nat (length l) / 2) < 2 ^ 32 ->
  exists s r, sum16_loop sum l = (s, r) /\ bytes_ok r /\ (length r <= 1)%nat /\
    s + lesum r = sum + lesum l /\ 0 <= s <= sum + 65535 * (Z.of_nat (length l) / 2) /\
    (length r = 1%nat -> Z.odd (Z.of_nat (length l)) = true).
Proof.
  revert sum. induction l as [|a|a b l IH] using list_ind2; intros sum Hl Hsum Hlen;
    cbn [sum16_loop].
  - exists sum, []. repeat split; auto; cbn [length] in *; Z.div_mod_to_equations; lia.
  - exists sum, [a]. repeat split; auto; cbn [length lesum] in *; Z.div_mod_to_equations; lia.
  - rewrite !bytes_ok_cons in Hl. destruct Hl as (Ha & Hb & Hl). bits_arith.
    cbn [length] in Hlen. rewrite !Nat2Z.inj_succ in *.
    rewrite Z.mod_small by (Z.div_mod_to_equations; lia).
    destruct (IH (sum + (a + 256 * b)) Hl ltac:(lia)) as (s & r & E & Hr & Hlr & Hs & Hb' & Ho);
      [Z.div_mod_to_equations; lia|].
    exists s, r. cbn [lesum length].
    repeat split; auto; try lia; [Z.div_mod_to_equations; lia|].
    intros ?%Ho. by rewrite !Nat2Z.inj_succ, Z.odd_succ, Z.even_succ.
Qed.

Lemma set_byte_1 b : is_u8 b -> set_byte 0 1 b = 256 * b.
Proof. intros H. unfold set_byte. rewrite Z.ldiff_0_l, Z.lor_0_l, shiftl_mul by lia. lia. Qed.
Lemma set_byte_0 h b : is_u8 h -> is_u8 b -> set_byte (256 * h) 0 b = 256 * h + b.
Proof.
  intros Hh Hb. unfold set_byte. cbn [Z.mul]. rewrite !Z.shiftl_0_r.
  change 0xff with (Z.ones 8). rewrite Z.ldiff_ones_r, shiftl_mul, shiftr_div by lia.
  rewrite lor_add_low by (unfold is_u8 in *; lia). bits_arith.
  Z.div_mod_to_equations. lia.
Qed.

(** The common end of versions 2 and 3: the sum [sum] of the aligned words,
    the tail byte, the odd first byte [b] (if any) in the high half of [t],
    the folding and the final swap. *)
Lemma chksum_finish b t sum r n :
  (t = 0 /\ b = None \/ exists h, b = Some h /\ is_u8 h /\ t = 256 * h) ->
  bytes_ok r -> (length r <= 1)%nat -> 0 <= n -> 0 <= sum ->
  sum + 65535 < 2 ^ 32 ->
  same_oc (sum + lesum r) n ->
  (let t' := match r with c :: _ => set_byte t 0 c | [] => t end in
   let sum := u32 (sum + t') in
   s ← fold_carry fold_fuel sum; Some (u16 (match b with Some _ => swap_bytes s | None => s end))) =
  Some (match b with Some h => oc (h + 256 * n) | None => oc n end).
Proof.
  intros Ht Hr Hlen Hn Hs Hsum Hsame. cbv zeta.
  assert ((match r with c :: _ => set_byte t 0 c | [] => t end) = t + lesum r) as ->.
  { destruct r as [|c [|]]; cbn [lesum length] in *; [lia| |lia].
    apply bytes_ok_cons in Hr as [Hc _].
    destruct Ht as [[-> _]|(h & _ & Hh & ->)]; [apply (set_byte_0 0)|apply set_byte_0]; done. }
  assert (0 <= lesum r <= 255) as Hlr.
  { destruct r as [|c [|]]; cbn [lesum length] in *; [lia| |lia].
    apply bytes_ok_cons in Hr as [Hc _]. unfold is_u8 in Hc. lia. }
  assert (0 <= sum + (t + lesum r) < 2 ^ 32) as Hu.
  { destruct Ht as [[-> _]|(h & _ & Hh & ->)]; unfold is_u8 in *; lia. }
  rewrite (u32_small (sum + _)), fold_carry_oc by (unfold is_u32; lia). cbn.
  destruct Ht as [[-> ->]|(h & -> & Hh & ->)].
  - rewrite u16_small by auto with ints. rewrite Z.add_0_l. f_equal. by apply oc_ext; [lia..|].
  - rewrite swap_bytes_htons, htons_oc, u16_small by (auto with ints; lia).
    f_equal. unfold is_u8 in *. apply oc_ext; [lia..|].
    destruct Hsame as [Hc Hz]. split; [|lia].
    rewrite <- Hc. apply (cong_mult _ _ h). lia.
Qed.

Lemma odd_negb z : negb (Z.land z 1 =? 0) = Z.odd z.
Proof.
  change 1 with (Z.ones 1). rewrite Z.land_ones by lia. change (2 ^ 1) with 2.
  rewrite Zmod_odd. by destruct (Z.odd z).
Qed.

Lemma lwip_standard_chksum_v2_oc a l :
  bytes_ok l -> Z.of_nat (length l) <= 0x20000 ->
  lwip_standard_chksum_v2 a l = Some (oc (lesum l)).
Proof.
  intros Hl Hlen. unfold lwip_standard_chksum_v2. rewrite odd_negb.
  destruct (Z.odd a) eqn:Ha; [destruct l as [|b l]|].
  - reflexivity.
  - apply bytes_ok_cons in Hl as [Hb Hl]. cbn [length] in Hlen.
    destruct (sum16_loop_sum l 0 Hl) as (s & r & -> & Hr & Hlr & Hs & Hsb & _);
      [lia|Z.div_mod_to_equations; lia|].
    pose proof (lesum_nonneg l Hl).
    pose proof (chksum_finish (Some b) (set_byte 0 1 b) s r (lesum l)) as F. cbv zeta in F.
    rewrite F; auto; [|right; exists b; by rewrite set_byte_1|lia|Z.div_mod_to_equations; lia
      |by rewrite Hs].
    f_equal. unfold is_u8 in *. apply oc_ext; [lia|apply lesum_nonneg, bytes_ok_cons; done|].
    split; [symmetry; apply lesum_cons|].
    rewrite (lesum_zero (b :: l)) by (by apply bytes_ok_cons).
    rewrite list.Forall_cons, <- lesum_zero by done. lia.
  - replace (match l with [] => (0, l) | _ :: _ => (0, l) end) with (0, l) by (by destruct l).
    destruct (sum16_loop_sum l 0 Hl) as (s & r & -> & Hr & Hlr & Hs & Hsb & _);
      [lia|Z.div_mod_to_equations; lia|].
    pose proof (lesum_nonneg l Hl).
    pose proof (chksum_finish None 0 s r (lesum l)) as F. cbv zeta in F.
    rewrite F; auto; [lia|Z.div_mod_to_equations; lia|by rewrite Hs].
Qed.

(** One 32-bit addition with its end-around carry. *)
Lemma add_carry_oc a w :
  is_u32 a -> is_u32 w ->
  let r := u32 (a + w) in
  let r := if r <? a then u32 (r + 1) else r in
  is_u32 r /\ same_oc r (a + w).
Proof.
  unfold same_oc. intros Ha Hw. cbv zeta. bits_arith.
  destruct (Z.ltb_spec ((a + w) mod 2 ^ 32) a) as [Hlt|Hge].
  - assert (2 ^ 32 <= a + w) by (Z.div_mod_to_equations; lia).
    assert ((a + w) mod 2 ^ 32 = a + w - 2 ^ 32) as -> by (Z.div_mod_to_equations; lia).
    rewrite Z.mod_small by lia. split; [lia|]. split; [|lia].
    apply (cong_mult _ _ (- 65537)). lia.
  - assert ((a + w) mod 2 ^ 32 = a + w) as -> by (Z.div_mod_to_equations; lia).
    split; [Z.div_mod_to_equations; lia|]. done.
Qed.

Lemma same_oc_add a b c : 0 <= a -> 0 <= b -> 0 <= c -> same_oc a b -> same_oc (a + c) (b + c).
Proof. intros ??? [Hc Hz]. split; [by rewrite Hc|lia]. Qed.

Lemma sum32_loop_oc n l sum :
  (length l <= n)%nat -> bytes_ok l -> is_u32 sum ->
  exists s r, sum32_loop sum l = (s, r) /\ bytes_ok r /\ (length r <= 7)%nat /\ is_u32 s /\
    same_oc (s + lesum r) (sum + lesum l) /\
    Z.even (Z.of_nat (length r)) = Z.even (Z.of_nat (length l)).
Proof.
  revert l sum. induction (lt_wf n) as [n _ IH]. intros l sum Hn Hl Hs.
  destruct (decide (length l <= 7)%nat) as [Hlt|Hge].
  { exists sum, l. split; [|by auto 6 using same_oc_refl].
    do 8 (destruct l as [|? l]; [reflexivity|]). cbn in Hlt. lia. }
  do 8 (destruct l as [|? l]; [cbn in Hge; lia|]). clear Hge.
  rewrite !bytes_ok_cons in Hl.
  destruct Hl as (H0 & H1 & H2 & H3 & H4 & H5 & H6 & H7 & Hl). unfold is_u8 in *.
  pose proof (lesum_nonneg l Hl) as Hpos.
  set (w1 := z + 2 ^ 8 * z0 + 2 ^ 16 * z1 + 2 ^ 24 * z2).
  set (w2 := z3 + 2 ^ 8 * z4 + 2 ^ 16 * z5 + 2 ^ 24 * z6).
  assert (is_u32 w1) as Hw1 by (unfold is_u32; subst w1; lia).
  assert (is_u32 w2) as Hw2 by (unfold is_u32; subst w2; lia).
  destruct (add_carry_oc sum w1 Hs Hw1) as [Ht Hts]. cbv zeta in Ht, Hts.
  set (t := if _ <? sum then _ else _) in Ht, Hts.
  destruct (add_carry_oc t w2 Ht Hw2) as [Hu Hus]. cbv zeta in Hu, Hus.
  set (u := if _ <? t then _ else _) in Hu, Hus.
  destruct (IH (length l)) with (l := l) (sum := u) as (s & r & E & Hr & Hlr & Hs' & Hsame & Hev);
    [cbn in Hn; lia|lia|done|done|].
  exists s, r. cbn [sum32_loop]. fold w1 w2. fold t. fold u.
  split; [exact E|]. repeat split; auto; try apply Hs'.
  - destruct Hsame as [Hc _], Hus as [Hc2 _], Hts as [Hc1 _].
    rewrite Hc, Hc2, Hc1. cbn [lesum]. subst w1 w2.
    apply (cong_mult _ _ (z1 + 256 * z2 + z5 + 256 * z6)). lia.
  - destruct Hsame as [_ [Hz _]], Hus as [_ [Hz2 _]], Hts as [_ [Hz1 _]].
    pose proof (lesum_nonneg r Hr). unfold is_u32 in *. cbn [lesum]. lia.
  - destruct Hsame as [_ [_ Hz]], Hus as [_ [_ Hz2]], Hts as [_ [_ Hz1]].
    pose proof (lesum_nonneg r Hr). unfold is_u32 in *. cbn [lesum]. lia.
  - cbn [length]. by rewrite Hev, !Nat2Z.inj_succ, !Z.even_succ, !Z.odd_succ,
      !Z.even_succ, !Z.odd_succ, !Z.even_succ, !Z.odd_succ, !Z.even_succ, !Z.odd_succ.
Qed.

(** The body of version 3 after its first byte: an optional aligned word, the
    32-bit loop, a fold and the remaining words. *)
Lemma chksum3_body ps l :
  bytes_ok l ->
  exists s r,
    (let '(sum, pb) := match l with
                       | b0 :: b1 :: rest =>
                           if negb (Z.land ps 3 =? 0) then (u32 (b0 + 256 * b1), rest) else (0, l)
                       | _ => (0, l)
                       end in
     let '(sum, pl) := sum32_loop sum pb in
     sum16_loop (u32 (Z.shiftr sum 16 + Z.land sum 0xffff)) pl) = (s, r) /\
    bytes_ok r /\ (length r <= 1)%nat /\ 0 <= s /\ s + 65535 < 2 ^ 32 /\
    same_oc (s + lesum r) (lesum l).
Proof.
  intros Hl.
  assert (exists sum pb, match l with
            | b0 :: b1 :: rest =>
                if negb (Z.land ps 3 =? 0) then (u32 (b0 + 256 * b1), rest) else (0, l)
            | _ => (0, l) end = (sum, pb) /\ is_u32 sum /\ bytes_ok pb /\
            sum + lesum pb = lesum l) as (sum & pb & -> & Hsum & Hpb & E).
  { destruct l as [|b0 [|b1 l]]; [by exists 0, []|by exists 0, [b0]|].
    rewrite !bytes_ok_cons in Hl. destruct Hl as (H0 & H1 & Hl).
    destruct (negb _).
    - exists (b0 + 256 * b1), l. unfold is_u8, is_u32 in *. rewrite u32_small by (unfold is_u32; lia).
      repeat split; auto; lia.
    - exists 0, (b0 :: b1 :: l). by rewrite !bytes_ok_cons. }
  destruct (sum32_loop_oc (length pb) pb sum ltac:(lia) Hpb Hsum)
    as (s & r & -> & Hr & Hlr & Hs & Hsame & _). rewrite E in Hsame.
  pose proof (fold_step s ltac:(unfold is_u32 in *; lia)) as Hf.
  bits_arith. rewrite Z.mod_small by (Z.div_mod_to_equations; lia).
  rewrite (Z.add_comm (s / _)).
  destruct (sum16_loop_sum r (s mod 65536 + s / 2 ^ 16) Hr) as (s' & r' & -> & Hr' & Hl' & E' & Hb' & _);
    [Z.div_mod_to_equations; lia..|].
  exists s', r'. repeat split; auto; try (Z.div_mod_to_equations; lia).
  - rewrite E'. transitivity (s + lesum r); [|apply Hsame]. by rewrite (proj1 Hf).
  - rewrite E'. destruct Hsame as [_ [H1 _]], Hf as [_ [H2 _]].
    pose proof (lesum_nonneg r Hr). Z.div_mod_to_equations; lia.
  - rewrite E'. destruct Hsame as [_ [_ H1]], Hf as [_ [_ H2]].
    pose proof (lesum_nonneg r Hr). Z.div_mod_to_equations; lia.
Qed.

Lemma lwip_standard_chksum_v3_oc a l :
  bytes_ok l -> lwip_standard_chksum_v3 a l = Some (oc (lesum l)).
Proof.
  intros Hl. unfold lwip_standard_chksum_v3. rewrite odd_negb.
  destruct (Z.odd a) eqn:Ha; [destruct l as [|b l]|].
  - reflexivity.
  - apply bytes_ok_cons in Hl as [Hb Hl].
    destruct (chksum3_body (a + 1) l Hl) as (s & r & E & Hr & Hlr & Hs & Hsb & Hsame).
    revert E. cbv beta iota zeta. destruct (match l with [] => _ | _ => _ end) as [sum pb].
    destruct (sum32_loop sum pb) as [sum' pl]. intros ->.
    pose proof (lesum_nonneg l Hl).
    pose proof (chksum_finish (Some b) (set_byte 0 1 b) s r (lesum l)) as F. cbv zeta in F.
    rewrite F; auto; [|right; exists b; by rewrite set_byte_1].
    f_equal. unfold is_u8 in *. apply oc_ext; [lia|apply lesum_nonneg, bytes_ok_cons; done|].
    split; [symmetry; apply lesum_cons|].
    rewrite (lesum_zero (b :: l)) by (by apply bytes_ok_cons).
    rewrite list.Forall_cons, <- lesum_zero by done. lia.
  - replace (match l with [] => (0, l, a) | _ :: _ => (0, l, a) end) with (0, l, a) by (by destruct l).
    destruct (chksum3_body a l Hl) as (s & r & E & Hr & Hlr & Hs & Hsb & Hsame).
    revert E. cbv beta iota zeta. destruct (match l with [] => _ | _ => _ end) as [sum pb].
    destruct (sum32_loop sum pb) as [sum' pl]. intros ->.
    pose proof (lesum_nonneg l Hl).
    pose proof (chksum_finish None 0 s r (lesum l)) as F. cbv zeta in F. by rewrite F; auto.
Qed.

Lemma inet_chksum_oc l :
  bytes_ok l -> Z.of_nat (length l) <= 65535 -> inet_chksum l = Some (65535 - oc (lesum l)).
Proof.
  intros Hl Hlen. unfold inet_chksum. rewrite lwip_standard_chksum_oc by done.
  pose proof (oc_range (lesum l)) as Hr. unfold is_u16 in Hr.
  rewrite fold_carry_oc by (unfold is_u32; lia). cbn.
  assert (oc (oc (lesum l)) = oc (lesum l)) as ->
    by (symmetry; apply oc_unique; [lia|done|apply same_oc_refl]).
  bits_arith. rewrite (Z.mod_small (oc (lesum l)) 65536) by lia. f_equal.
  unfold Z.lnot. Z.div_mod_to_equations. lia.
Qed.

(** ** Properties *)

(** C26: The compiled routine computes the RFC 1071 ones'-complement sum of every
    range a u16 length can name: no carry is lost and two folds are enough. *)
Theorem lwip_standard_chksum_rfc1071 l :
  bytes_ok l -> Z.of_nat (length l) <= 65535 ->
  lwip_standard_chksum l = rfc1071_sum l.
Proof. exact (lwip_standard_chksum_oc l). Qed.

Lemma lwip_standard_chksum_rfc1071_witness :
  bytes_ok [0x45; 0; 0xff; 0xff; 7] /\
  lwip_standard_chksum [0x45; 0; 0xff; 0xff; 7] = rfc1071_sum [0x45; 0; 0xff; 0xff; 7].
Proof.
  assert (H : bytes_ok [0x45; 0; 0xff; 0xff; 7]) by (repeat constructor; unfold is_u8; lia).
  split; [done|]. apply (lwip_standard_chksum_rfc1071 _ H). cbn. lia.
Defined.

(** The alternative routines (aligned 16-bit loads; unrolled 32-bit loads with
    end-around carry) agree with the reference whatever the alignment of the
    data: version 2 up to the 0x20000 bytes its comment promises, version 3
    for any length. *)
Theorem chksum_alternatives_agree a l :
  bytes_ok l -> Z.of_nat (length l) <= 0x20000 ->
  lwip_standard_chksum_v2 a l = Some (rfc1071_sum l) /\
  lwip_standard_chksum_v3 a l = Some (rfc1071_sum l).
Proof. intros. split; [by apply lwip_standard_chksum_v2_oc|by apply lwip_standard_chksum_v3_oc]. Qed.

Lemma chksum_alternatives_agree_witness :
  bytes_ok [1; 2; 3] /\
  lwip_standard_chksum_v2 5 [1; 2; 3] = Some (rfc1071_sum [1; 2; 3]) /\
  lwip_standard_chksum_v3 5 [1; 2; 3] = Some (rfc1071_sum [1; 2; 3]).
Proof.
  assert (H : bytes_ok [1; 2; 3]) by (repeat constructor; unfold is_u8; lia).
  split; [done|]. apply (chksum_alternatives_agree 5 _ H). cbn. lia.
Defined.

(** A sum with its own complement stored in a zeroed, even-aligned field is
    all ones. *)
Lemma oc_verifies pre post :
  bytes_ok (pre ++ post) -> Z.even (Z.of_nat (length pre)) = true ->
  let c := 65535 - oc (lesum (pre ++ [0; 0] ++ post)) in
  bytes_ok [c mod 256; c / 256] /\ oc (lesum (pre ++ [c mod 256; c / 256] ++ post)) = 65535.
Proof.
  rewrite bytes_ok_app. intros [Hpre Hpost] Hev c.
  assert (bytes_ok [0; 0]) as Hz by (repeat constructor; unfold is_u8; lia).
  set (S := lesum (pre ++ [0; 0] ++ post)) in *.
  pose proof (oc_range S) as Hr. unfold is_u16 in Hr. split.
  { unfold c. repeat constructor; unfold is_u8; Z.div_mod_to_equations; lia. }
  assert (0 <= S) as HS by (by apply lesum_nonneg; rewrite !bytes_ok_app).
  assert (lesum (pre ++ [c mod 256; c / 256] ++ post) = S + (65535 - oc S)) as ->.
  { unfold c. subst S. rewrite !(lesum_app_even pre) by done. cbn [app lesum].
    set (o := oc _). Z.div_mod_to_equations. lia. }
  destruct (oc_same S HS) as [Hcong Hzero].
  rewrite <- (oc_unique 65535); [done|lia|unfold is_u16; lia|].
  split; [|lia]. transitivity (oc S + (65535 - oc S)); [by apply (cong_mult _ _ 0); lia|].
  by rewrite Hcong at 1.
Qed.

(** Storing the computed checksum in a zeroed, even-aligned field of a range
    makes the receiver's [inet_chksum] of the whole range zero. *)
Theorem inet_chksum_verifies pre post c :
  bytes_ok (pre ++ post) -> Z.of_nat (length (pre ++ post)) <= 65533 ->
  Z.even (Z.of_nat (length pre)) = true ->
  inet_chksum (pre ++ [0; 0] ++ post) = Some c ->
  inet_chksum (pre ++ [c mod 256; c / 256] ++ post) = Some 0.
Proof.
  intros Hb. pose proof Hb as [Hpre Hpost]%bytes_ok_app. rewrite length_app. intros Hlen Hev.
  assert (bytes_ok [0; 0]) as Hz by (repeat constructor; unfold is_u8; lia).
  rewrite inet_chksum_oc by (rewrite ?bytes_ok_app, ?length_app; cbn [length]; tauto || lia).
  intros <-%(inj Some). destruct (oc_verifies pre post Hb Hev) as [Hc E].
  rewrite inet_chksum_oc by (rewrite ?bytes_ok_app, ?length_app; cbn [length]; tauto || lia).
  by rewrite E.
Qed.

Lemma inet_chksum_verifies_witness :
  inet_chksum [0x45; 0; 0; 0; 0x14] = Some 0xffa6 /\
  inet_chksum ([0x45; 0] ++ [0xffa6 mod 256; 0xffa6 / 256] ++ [0x14]) = Some 0.
Proof.
  split; [reflexivity|]. apply (inet_chksum_verifies [0x45; 0] [0x14] 0xffa6).
  - repeat constructor; unfold is_u8; lia.
  - cbn. lia.
  - reflexivity.
  - reflexivity.
Defined.
