(* ===== verification/Heap.v ===== *)
(** * The heap: allocated blocks, struct pbuf, the C allocator

    An object is named by the [loc] of the block malloc returned for it; an
    address is a block and an offset from its start.  [h_blocks] holds the raw
    bytes of the blocks and [h_pbufs] the [struct pbuf] overlaid on the first
    16 bytes of a block, so the raw bytes of such a block start at offset 16.
    Allocation may fail and returns memory with arbitrary contents: both are
    decided by the environment [h_env].  [h_asserts] records the failed
    LWIP_ASSERTs: LWIP_PLATFORM_ASSERT(c) is assert(c) (arch/cc.h) with the
    message string for [c], which is never zero, so an assertion that fails
    does not stop the build that this development models. *)
From S2P Require Import Prelude.

Abbreviation loc := positive.

(** An address: a block and an offset from its first byte. *)
Record ptr := Ptr { p_loc : loc; p_off : Z }.

#[export] Instance ptr_eq_dec : EqDecision ptr.
Proof. solve_decision. Defined.

Definition ptr_add (p : ptr) (n : Z) : ptr := Ptr (p_loc p) (p_off p + n).

(** A block: the offset of its first raw byte and the bytes. *)
Record block := Block { b_base : Z; b_data : list Z }.

(** struct pbuf (lwip/pbuf.h). *)
Record pbuf := Pbuf {
  pb_next : option loc;
  pb_payload : option ptr;
  pb_tot_len : Z;   (* u16_t *)
  pb_len : Z;       (* u16_t *)
  pb_type : Z;      (* u8_t, a pbuf_type *)
  pb_flags : Z;     (* u8_t *)
  pb_ref : Z        (* u16_t *)
}.

Definition pb_set_next (v : option loc) (b : pbuf) : pbuf :=
  Pbuf v (pb_payload b) (pb_tot_len b) (pb_len b) (pb_type b) (pb_flags b) (pb_ref b).
Definition pb_set_payload (v : option ptr) (b : pbuf) : pbuf :=
  Pbuf (pb_next b) v (pb_tot_len b) (pb_len b) (pb_type b) (pb_flags b) (pb_ref b).
Definition pb_set_tot_len (v : Z) (b : pbuf) : pbuf :=
  Pbuf (pb_next b) (pb_payload b) v (pb_len b) (pb_type b) (pb_flags b) (pb_ref b).
Definition pb_set_len (v : Z) (b : pbuf) : pbuf :=
  Pbuf (pb_next b) (pb_payload b) (pb_tot_len b) v (pb_type b) (pb_flags b) (pb_ref b).
Definition pb_set_flags (v : Z) (b : pbuf) : pbuf :=
  Pbuf (pb_next b) (pb_payload b) (pb_tot_len b) (pb_len b) (pb_type b) v (pb_ref b).
Definition pb_set_ref (v : Z) (b : pbuf) : pbuf :=
  Pbuf (pb_next b) (pb_payload b) (pb_tot_len b) (pb_len b) (pb_type b) (pb_flags b) v.

(** pbuf_layer and pbuf_type. *)
Definition PBUF_TRANSPORT : Z := 0.
Definition PBUF_IP : Z := 1.
Definition PBUF_LINK : Z := 2.
Definition PBUF_RAW : Z := 3.
Definition PBUF_RAM : Z := 0.
Definition PBUF_ROM : Z := 1.
Definition PBUF_REF : Z := 2.
Definition PBUF_POOL : Z := 3.

Record heap := Heap {
  h_blocks : gmap loc block;
  h_pbufs : gmap loc pbuf;
  h_next : loc;                        (* the next fresh location *)
  h_nalloc : nat;                      (* how many times malloc was called *)
  h_env : nat -> option (nat -> Z);    (* what the n-th call does *)
  h_asserts : list string
}.

Definition h_set_blocks (m : gmap loc block) (h : heap) : heap :=
  Heap m (h_pbufs h) (h_next h) (h_nalloc h) (h_env h) (h_asserts h).
Definition h_set_pbufs (m : gmap loc pbuf) (h : heap) : heap :=
  Heap (h_blocks h) m (h_next h) (h_nalloc h) (h_env h) (h_asserts h).

(** LWIP_ASSERT: see above; the run goes on. *)
Definition LWIP_ASSERT (msg : string) (b : bool) : M heap unit :=
  if b then mret tt
  else modify (fun h => Heap (h_blocks h) (h_pbufs h) (h_next h) (h_nalloc h) (h_env h)
                             (msg :: h_asserts h)).

(** ** The allocator (malloc and free of the C library) *)

(** [size] bytes whose first [hdr] hold a struct that is modelled apart. *)
Definition malloc (hdr size : Z) : M heap (option loc) :=
  h ← get;
  match h_env h (h_nalloc h) with
  | None =>
      put (Heap (h_blocks h) (h_pbufs h) (h_next h) (S (h_nalloc h)) (h_env h) (h_asserts h));;
      mret None
  | Some junk =>
      let data := map (fun k => u8 (junk k)) (seq 0 (Z.to_nat (size - hdr))) in
      put (Heap (<[h_next h := Block hdr data]> (h_blocks h)) (h_pbufs h)
                (Pos.succ (h_next h)) (S (h_nalloc h)) (h_env h) (h_asserts h));;
      mret (Some (h_next h))
  end.

(** free of a struct pbuf: the struct and its block are gone; freeing what is
    not allocated is undefined. *)
Definition free_pbuf (l : loc) : M heap unit :=
  h ← get;
  match h_pbufs h !! l, h_blocks h !! l with
  | Some _, Some _ =>
      put (Heap (delete l (h_blocks h)) (delete l (h_pbufs h)) (h_next h) (h_nalloc h)
                (h_env h) (h_asserts h))
  | _, _ => halt UB
  end.

(** ** Access *)
Definition pget (l : loc) : M heap pbuf := h ← get; deref (h_pbufs h !! l).
Definition pset (l : loc) (b : pbuf) : M heap unit :=
  modify (fun h => h_set_pbufs (<[l := b]> (h_pbufs h)) h).
(** [l->field = ...], which needs [l] to be a live struct. *)
Definition pupd (l : loc) (f : pbuf -> pbuf) : M heap unit :=
  b ← pget l; pset l (f b).

(** The [n] bytes at an address, when they lie inside the block. *)
Definition bytes_at (h : heap) (p : ptr) (n : Z) : option (list Z) :=
  blk ← h_blocks h !! p_loc p;
  if (0 <=? n) && (b_base blk <=? p_off p)
     && (p_off p + n <=? b_base blk + Z.of_nat (length (b_data blk)))
  then Some (take (Z.to_nat n) (drop (Z.to_nat (p_off p - b_base blk)) (b_data blk)))
  else None.

Definition load (p : ptr) (n : Z) : M heap (list Z) := h ← get; deref (bytes_at h p n).

Definition splice (i : nat) (bs l : list Z) : list Z :=
  take i l ++ bs ++ drop (i + length bs) l.

Definition store (p : ptr) (bs : list Z) : M heap unit :=
  h ← get;
  blk ← deref (h_blocks h !! p_loc p);
  if (b_base blk <=? p_off p)
     && (p_off p + Z.of_nat (length bs) <=? b_base blk + Z.of_nat (length (b_data blk)))
  then put (h_set_blocks (<[p_loc p :=
         Block (b_base blk) (splice (Z.to_nat (p_off p - b_base blk)) bs (b_data blk))]>
         (h_blocks h)) h)
  else halt UB.

(** [h_ok h]: what is allocated was allocated before now, and bytes are bytes. *)
Record h_ok (h : heap) : Prop := {
  ok_pbufs : forall l, is_Some (h_pbufs h !! l) -> (l < h_next h)%positive;
  ok_blocks : forall l, is_Some (h_blocks h !! l) -> (l < h_next h)%positive;
  ok_own : forall l, is_Some (h_pbufs h !! l) -> exists blk, h_blocks h !! l = Some blk /\ b_base blk = 16;
  ok_bytes : forall l blk, h_blocks h !! l = Some blk -> bytes_ok (b_data blk)
}.

(** ** Rules *)
Lemma wp_assert msg (b : bool) h (Q : unit -> heap -> Prop) :
  b = true -> Q tt h -> wp (LWIP_ASSERT msg b) h Q.
Proof. by intros ->. Qed.

Lemma wp_pget l b h Q : h_pbufs h !! l = Some b -> Q b h -> wp (pget l) h Q.
Proof. intros E HQ. unfold pget. by wp_go. Qed.

Lemma wp_pset l b h (Q : unit -> heap -> Prop) :
  Q tt (h_set_pbufs (<[l := b]> (h_pbufs h)) h) -> wp (pset l b) h Q.
Proof. done. Qed.

Lemma wp_pupd l f b h (Q : unit -> heap -> Prop) :
  h_pbufs h !! l = Some b ->
  Q tt (h_set_pbufs (<[l := f b]> (h_pbufs h)) h) -> wp (pupd l f) h Q.
Proof. intros E HQ. unfold pupd. apply wp_bind. by eapply wp_pget. Qed.

Lemma wp_load p n bs h Q : bytes_at h p n = Some bs -> Q bs h -> wp (load p n) h Q.
Proof. intros E HQ. unfold load. by wp_go. Qed.

Lemma wp_free l b blk h (Q : unit -> heap -> Prop) :
  h_pbufs h !! l = Some b -> h_blocks h !! l = Some blk ->
  Q tt (Heap (delete l (h_blocks h)) (delete l (h_pbufs h)) (h_next h) (h_nalloc h)
             (h_env h) (h_asserts h)) ->
  wp (free_pbuf l) h Q.
Proof. intros E1 E2 HQ. unfold free_pbuf. wp_go. by rewrite E1, E2. Qed.

(** malloc: failure changes nothing but the call count; success gives a fresh
    block of the right size. *)
Lemma wp_malloc hdr size h (Q : option loc -> heap -> Prop) :
  (forall h', h_blocks h' = h_blocks h -> h_pbufs h' = h_pbufs h -> h_next h' = h_next h ->
     h_asserts h' = h_asserts h -> h_env h' = h_env h -> h_nalloc h' = S (h_nalloc h) ->
     h_env h (h_nalloc h) = None -> Q None h') ->
  (forall data, length data = Z.to_nat (size - hdr) -> bytes_ok data ->
     is_Some (h_env h (h_nalloc h)) ->
     Q (Some (h_next h))
       (Heap (<[h_next h := Block hdr data]> (h_blocks h)) (h_pbufs h)
             (Pos.succ (h_next h)) (S (h_nalloc h)) (h_env h) (h_asserts h))) ->
  wp (malloc hdr size) h Q.
Proof.
  intros H1 H2. unfold malloc. wp_go.
  destruct (h_env h (h_nalloc h)) as [junk|] eqn:E; wp_go.
  - apply H2; [by rewrite length_map, length_seq| |done].
    apply list.Forall_fmap, list.Forall_true. intros k. apply u8_range.
  - by apply H1.
Qed.
