(* ===== verification/Chains.v ===== *)
(** * Linked lists

    A list linked by [next] pointers, as a relation between its first pointer
    and the list of its nodes.  [nx] is the memory: the link of a live node.
    The control-block and interface lists of the stack are instances. *)
From S2P Require Import Prelude Heap.

Section chain.
Implicit Types nx : loc -> option (option loc).

(** From [p] the nodes [ls] follow one another up to the pointer [e]. *)
Fixpoint chain nx (p : option loc) (ls : list loc) (e : option loc) : Prop :=
  match ls with
  | [] => p = e
  | l :: ls => p = Some l /\ exists n, nx l = Some n /\ chain nx n ls e
  end.

Lemma chain_app nx p xs ys e :
  chain nx p (xs ++ ys) e <-> exists q, chain nx p xs q /\ chain nx q ys e.
Proof.
  revert p. induction xs as [|x xs IH]; intros p; cbn.
  - split; [by exists p | by intros (q & -> & ?)].
  - split.
    + intros (-> & n & Hn & (q & H1 & H2)%IH). exists q. split; [|done]. split; [done|]. by exists n.
    + intros (q & (-> & n & Hn & H1) & H2). split; [done|]. exists n. split; [done|]. apply IH. by exists q.
Qed.

Lemma chain_ext nx nx' p ls e :
  (forall l, l ∈ ls -> nx' l = nx l) -> chain nx p ls e -> chain nx' p ls e.
Proof.
  revert p. induction ls as [|l ls IH]; intros p Hx; cbn; [done|].
  intros (-> & n & Hn & H). split; [done|]. exists n. split.
  - rewrite Hx; [done|]. by left.
  - apply IH; [|done]. intros l' Hl'. apply Hx. by right.
Qed.

Lemma chain_elem nx p ls e l : chain nx p ls e -> l ∈ ls -> is_Some (nx l).
Proof.
  revert p. induction ls as [|x ls IH]; intros p; cbn; [by intros _ ?%elem_of_nil|].
  intros (-> & n & Hn & H) [->|Hl]%elem_of_cons; [by exists n | by eapply IH].
Qed.

Lemma chain_det nx p xs ys : chain nx p xs None -> chain nx p ys None -> xs = ys.
Proof.
  revert p ys. induction xs as [|x xs IH]; intros p [|y ys]; cbn; try naive_solver.
Qed.

Lemma chain_split nx p xs l ys :
  chain nx p (xs ++ l :: ys) None ->
  chain nx p xs (Some l) /\ exists n, nx l = Some n /\ chain nx n ys None.
Proof.
  rewrite chain_app. intros (q & H1 & -> & n & Hn & H2). split; [done|]. by exists n.
Qed.

(** A list that ends meets no node twice. *)
Lemma chain_NoDup nx p ls : chain nx p ls None -> NoDup ls.
Proof.
  revert p. induction ls as [|l ls IH]; intros p H; [constructor|].
  pose proof H as (-> & n & Hn & Htl). constructor; [|by eapply IH].
  intros Hin. apply list_elem_of_split in Hin as (xs & ys & ->).
  apply (chain_split _ _ xs) in Htl as (_ & n' & Hn' & Htl'). simplify_eq.
  pose proof H as (_ & n2 & Hn2 & H2). simplify_eq.
  pose proof (chain_det _ _ _ _ H2 Htl') as E.
  apply (f_equal length) in E. rewrite length_app in E. cbn in E. lia.
Qed.

(** Fuel: a list has no more nodes than there are objects. *)
Lemma chain_length nx p ls (D : list loc) :
  chain nx p ls None -> (forall l, is_Some (nx l) -> l ∈ D) -> (length ls <= length D)%nat.
Proof.
  intros H HD. apply NoDup_incl_length.
  - by apply NoDup_ListNoDup, chain_NoDup with nx p.
  - intros l Hl. apply list_elem_of_In, HD. eapply chain_elem; [done|]. by apply list_elem_of_In.
Qed.
End chain.

(** The link of a node of a map. *)
Definition map_next {V} (f : V -> option loc) (m : gmap loc V) (l : loc) : option (option loc) :=
  f <$> m !! l.

Lemma map_chain_length {V} (f : V -> option loc) (m : gmap loc V) p ls :
  chain (map_next f m) p ls None -> (length ls <= size m)%nat.
Proof.
  intros H. etrans; [eapply (chain_length _ _ _ (map fst (map_to_list m))); [exact H|]|].
  - intros l [n Hn]. apply list_elem_of_In, in_map_iff. unfold map_next in Hn.
    destruct (m !! l) as [v|] eqn:E; [|done]. exists (l, v). split; [done|].
    by apply list_elem_of_In, elem_of_map_to_list.
  - by rewrite length_map, length_map_to_list.
Qed.

Lemma map_chain_lookup {V} (f : V -> option loc) (m : gmap loc V) l ls e :
  chain (map_next f m) (Some l) (l :: ls) e ->
  exists v, m !! l = Some v /\ chain (map_next f m) (f v) ls e.
Proof.
  intros (_ & n & Hn & H). unfold map_next in Hn. destruct (m !! l) as [v|]; [|done].
  injection Hn as <-. by exists v.
Qed.

(** ** Lists through a map whose nodes can be relinked *)
Section map_list.
Context {V : Type} (next : V -> option loc) (set_next : option loc -> V -> V).
Context (next_set : forall n v, next (set_next n v) = n).
Implicit Types m : gmap loc V.

Lemma map_chain_ext m m' p ls e :
  (forall l, l ∈ ls -> m' !! l = m !! l) -> chain (map_next next m) p ls e ->
  chain (map_next next m') p ls e.
Proof. intros H. apply chain_ext. intros l Hl. unfold map_next. by rewrite H. Qed.

(** A new first node. *)
Lemma map_chain_push m p ls l v : chain (map_next next m) p ls None -> l ∉ ls ->
  chain (map_next next (<[l := set_next p v]> m)) (Some l) (l :: ls) None.
Proof.
  intros H Hl. split; [done|]. exists p. split.
  - unfold map_next. rewrite lookup_insert_eq. cbn. by rewrite next_set.
  - eapply map_chain_ext; [|exact H]. intros k Hk. apply lookup_insert_ne. by intros ->.
Qed.

(** The node [l] goes, its predecessor [a] takes over its link. *)
Lemma map_chain_unlink m p xs a l ys va vl :
  chain (map_next next m) p (xs ++ a :: l :: ys) None -> m !! a = Some va -> m !! l = Some vl ->
  chain (map_next next (<[a := set_next (next vl) va]> m)) p (xs ++ a :: ys) None.
Proof.
  intros H Ha Hl. pose proof (chain_NoDup _ _ _ H) as (_ & Hd & [Hna _]%NoDup_cons)%NoDup_app.
  apply not_elem_of_cons in Hna as [_ Hna].
  apply chain_split in H as (H1 & n & Hn & H2). apply (chain_split _ n []) in H2 as (_ & n2 & Hn2 & H2).
  unfold map_next in Hn2. rewrite Hl in Hn2. injection Hn2 as <-.
  apply chain_app. exists (Some a). split.
  - eapply map_chain_ext; [|exact H1]. intros k Hk. apply lookup_insert_ne. intros <-.
    apply (Hd a Hk). by left.
  - split; [done|]. exists (next vl). split.
    + unfold map_next. rewrite lookup_insert_eq. cbn. by rewrite next_set.
    + eapply map_chain_ext; [|exact H2]. intros k Hk. apply lookup_insert_ne. by intros ->.
Qed.

Lemma map_chain_delete m p ls l : chain (map_next next m) p ls None -> l ∉ ls ->
  chain (map_next next (delete l m)) p ls None.
Proof.
  intros H Hl. eapply map_chain_ext; [|exact H]. intros k Hk. apply lookup_delete_ne. by intros ->.
Qed.

(** The node [l] is unlinked and freed. *)
Lemma map_chain_remove m p xs l ys v :
  chain (map_next next m) p (xs ++ l :: ys) None -> m !! l = Some v ->
  match last xs with
  | None => xs = [] /\ p = Some l /\ chain (map_next next (delete l m)) (next v) ys None
  | Some q => p <> Some l /\ q <> l /\ exists vq, m !! q = Some vq
      /\ chain (map_next next (delete l (<[q := set_next (next v) vq]> m))) p (xs ++ ys) None
  end.
Proof.
  intros H Hv. pose proof (chain_NoDup _ _ _ H) as (_ & Hd & [Hly _]%NoDup_cons)%NoDup_app.
  destruct xs as [|q xs _] using rev_ind.
  - cbn in *. pose proof H as (-> & _). split; [done|]. split; [done|].
    apply map_chain_lookup in H as (v' & Hv' & H). simplify_eq. by apply map_chain_delete.
  - rewrite last_snoc. rewrite <- app_assoc in H |- *. cbn [app] in *.
    pose proof H as (H1 & n & Hq & _)%chain_split.
    unfold map_next in Hq. destruct (m !! q) as [vq|] eqn:Eq; [|done].
    assert (Hl : l ∉ xs ++ [q]) by (intros Hin; apply (Hd l Hin); by left).
    assert (Hql : q <> l) by (intros ->; apply Hl, elem_of_app; right; by left).
    split; [|split; [done|]].
    + intros ->. destruct xs as [|x xs]; destruct H as ([= E] & _); [done|]. apply Hl. rewrite E. by left.
    + exists vq. split; [done|]. apply map_chain_delete; [by eapply map_chain_unlink|].
      intros [Hx|[->|Hy]%elem_of_cons]%elem_of_app; [|done..].
      apply Hl, elem_of_app. by left.
Qed.
End map_list.

(** ** Searching a list *)
Lemma find_app_split {A} (f : A -> bool) xs ys :
  find f (xs ++ ys) = match find f xs with Some x => Some x | None => find f ys end.
Proof. induction xs as [|x xs IH]; cbn; [done|]. by destruct (f x). Qed.

Lemma find_none_cons {A} (f : A -> bool) xs x : find f xs = None -> f x = false -> find f (xs ++ [x]) = None.
Proof. intros H1 H2. rewrite find_app_split, H1. cbn. by rewrite H2. Qed.

(** Taking a node out. *)
Lemma filter_all l (ls : list loc) : l ∉ ls -> filter (fun x => x <> l) ls = ls.
Proof.
  induction ls as [|x ls IH]; intros Hl; [done|]. apply not_elem_of_cons in Hl as [Hx Hl].
  rewrite filter_cons_True by done. by rewrite IH.
Qed.
Lemma filter_mid l (xs ys : list loc) :
  l ∉ xs -> l ∉ ys -> filter (fun x => x <> l) (xs ++ l :: ys) = xs ++ ys.
Proof.
  intros H1 H2. rewrite filter_app, filter_cons_False by naive_solver. by rewrite !filter_all.
Qed.
Lemma NoDup_mid (l : loc) xs ys : NoDup (xs ++ l :: ys) -> l ∉ xs /\ l ∉ ys.
Proof.
  intros (_ & Hd & [Hy _]%NoDup_cons)%NoDup_app. split; [|done]. intros Hx. apply (Hd l Hx). by left.
Qed.

Lemma filter_id {A} (P : A -> Prop) `{forall x, Decision (P x)} ls : Forall P ls -> filter P ls = ls.
Proof. induction 1 as [|x ls Hx _ IH]; [done|]. rewrite filter_cons_True by done. by rewrite IH. Qed.
Lemma filter_none {A} (P : A -> Prop) `{forall x, Decision (P x)} ls :
  Forall (fun x => ~ P x) ls -> filter P ls = [].
Proof. induction 1 as [|x ls Hx _ IH]; [done|]. by rewrite filter_cons_False. Qed.
