(* ===== verification/Pbuf.v ===== *)
(** * Packet buffers (core/pbuf.c)

    The chain operations of pbuf.c over the heap of [Heap]: allocation of the
    four kinds of buffer, reference counting, truncation, header adjustment,
    concatenation and copying.  Loops that follow [next] pointers get as fuel
    one step more than there are live pbufs, so running out of it means the
    links form a cycle. *)
From S2P Require Import Prelude Heap.
#[local] Open Scope string_scope.
#[local] Open Scope Z_scope.

(** ** Sizes (lwip/opt.h, nsc lwipopts.h, a 32-bit build) *)
Definition MEM_ALIGNMENT : Z := 1.
Definition LWIP_MEM_ALIGN_SIZE (size : Z) : Z :=
  Z.land (size + MEM_ALIGNMENT - 1) (Z.lnot (MEM_ALIGNMENT - 1)).
Definition LWIP_MEM_ALIGN (p : ptr) : ptr := Ptr (p_loc p) (LWIP_MEM_ALIGN_SIZE (p_off p)).
Definition SIZEOF_STRUCT_PBUF : Z := LWIP_MEM_ALIGN_SIZE 16.
Definition TCP_MSS : Z := 1460.
Definition PBUF_TRANSPORT_HLEN : Z := 20.
Definition PBUF_IP_HLEN : Z := 20.
Definition PBUF_LINK_HLEN : Z := 14.
Definition PBUF_POOL_BUFSIZE : Z := LWIP_MEM_ALIGN_SIZE (TCP_MSS + 40 + PBUF_LINK_HLEN).
Definition PBUF_POOL_BUFSIZE_ALIGNED : Z := LWIP_MEM_ALIGN_SIZE PBUF_POOL_BUFSIZE.

(** Error codes (lwip/err.h). *)
Definition ERR_OK : Z := 0.
Definition ERR_MEM : Z := -1.
Definition ERR_BUF : Z := -2.
Definition ERR_RTE : Z := -3.
Definition ERR_ABRT : Z := -4.
Definition ERR_RST : Z := -5.
Definition ERR_CLSD : Z := -6.
Definition ERR_CONN : Z := -7.
Definition ERR_VAL : Z := -8.
Definition ERR_ARG : Z := -9.
Definition ERR_USE : Z := -10.
Definition ERR_IF : Z := -11.
Definition ERR_ISCONN : Z := -12.

(** The size of a MEMP_PBUF_POOL element, which depends on the pool
    implementation that is linked. *)
Class MempConf := memp_pool_elem_size : Z.

(** core/memp.c: room for the struct and the payload (lwip/memp_std.h). *)
Definition memp_core : MempConf := SIZEOF_STRUCT_PBUF + PBUF_POOL_BUFSIZE_ALIGNED.
(** nsc/support.c: memp_sizes[MEMP_PBUF_POOL] is sizeof(struct pbuf). *)
Definition memp_nsc : MempConf := 16.

Definition walk_fuel (h : heap) : nat := S (size (h_pbufs h)).

(** ** pbuf_free *)
Definition memp_free_pbuf_pool (l : loc) : M heap unit := free_pbuf l.
Definition memp_free_pbuf (l : loc) : M heap unit := free_pbuf l.
Definition mem_free_pbuf (l : loc) : M heap unit := free_pbuf l.

Fixpoint pbuf_free_loop (fuel : nat) (p : option loc) (count : Z) : M heap Z :=
  match p, fuel with
  | None, _ => mret count
  | Some _, O => halt NoFuel
  | Some l, S fuel =>
      b ← pget l;
      LWIP_ASSERT "pbuf_free: p->ref > 0" (0 <? pb_ref b);;
      let ref := u16 (pb_ref b - 1) in
      pset l (pb_set_ref ref b);;
      if ref =? 0 then
        let q := pb_next b in
        let type := pb_type b in
        (if type =? PBUF_POOL then memp_free_pbuf_pool l
         else if (type =? PBUF_ROM) || (type =? PBUF_REF) then memp_free_pbuf l
         else mem_free_pbuf l);;
        pbuf_free_loop fuel q (u8 (count + 1))
      else mret count
  end.

Definition sane_type (type : Z) : bool :=
  (type =? PBUF_RAM) || (type =? PBUF_ROM) || (type =? PBUF_REF) || (type =? PBUF_POOL).

Definition pbuf_free (p : option loc) : M heap Z :=
  match p with
  | None => LWIP_ASSERT "p != NULL" false;; mret 0
  | Some l =>
      b ← pget l;
      LWIP_ASSERT "pbuf_free: sane type" (sane_type (pb_type b));;
      h ← get;
      pbuf_free_loop (walk_fuel h) p 0
  end.

(** ** pbuf_alloc *)
Section alloc.
Context `{MempConf}.

Definition memp_malloc_pbuf_pool : M heap (option loc) :=
  malloc SIZEOF_STRUCT_PBUF memp_pool_elem_size.
Definition memp_malloc_pbuf : M heap (option loc) := malloc SIZEOF_STRUCT_PBUF 16.

(** The header room of a layer: each case falls through to the next. *)
Definition layer_offset (layer : Z) : option Z :=
  let offset := 0 in
  if layer =? PBUF_RAW then Some offset
  else if (layer =? PBUF_TRANSPORT) || (layer =? PBUF_IP) || (layer =? PBUF_LINK) then
    let offset := if layer =? PBUF_TRANSPORT
                  then u16 (offset + PBUF_TRANSPORT_HLEN) else offset in
    let offset := if (layer =? PBUF_TRANSPORT) || (layer =? PBUF_IP)
                  then u16 (offset + PBUF_IP_HLEN) else offset in
    Some (u16 (offset + PBUF_LINK_HLEN))
  else None.

(** The tail of a pool chain: [p] is its head, [r] its last pbuf so far.
    [false]: out of memory, the chain has been freed. *)
Fixpoint alloc_pool_tail (fuel : nat) (p r : loc) (rem_len : Z) : M heap bool :=
  if 0 <? rem_len then
    match fuel with
    | O => halt NoFuel
    | S fuel =>
        q ← memp_malloc_pbuf_pool;
        match q with
        | None => pbuf_free (Some p);; mret false
        | Some q =>
            let payload := Ptr q SIZEOF_STRUCT_PBUF in
            let len := Z.min (u16 rem_len) PBUF_POOL_BUFSIZE_ALIGNED in
            pset q (Pbuf None (Some payload) (u16 rem_len) len PBUF_POOL 0 1);;
            pupd r (pb_set_next (Some q));;
            LWIP_ASSERT "rem_len < max_u16_t" (rem_len <? 0xffff);;
            LWIP_ASSERT "pbuf_alloc: pbuf q->payload properly aligned"
              (p_off payload mod MEM_ALIGNMENT =? 0);;
            b ← pget p;
            pp ← deref (pb_payload b);
            LWIP_ASSERT "check p->payload + p->len does not overflow pbuf"
              (p_off pp + pb_len b <=? SIZEOF_STRUCT_PBUF + PBUF_POOL_BUFSIZE_ALIGNED);;
            alloc_pool_tail fuel p q (rem_len - len)
        end
    end
  else mret true.

(** A u16 length needs at most 44 pool buffers. *)
Definition pool_fuel : nat := 44.

Definition pbuf_alloc (layer length type : Z) : M heap (option loc) :=
  match layer_offset layer with
  | None => LWIP_ASSERT "pbuf_alloc: bad pbuf layer" false;; mret None
  | Some offset =>
      p ← (if type =? PBUF_POOL then
             p ← memp_malloc_pbuf_pool;
             match p with
             | None => mret None
             | Some p =>
                 let payload := LWIP_MEM_ALIGN (Ptr p (SIZEOF_STRUCT_PBUF + offset)) in
                 LWIP_ASSERT "pbuf_alloc: pbuf p->payload properly aligned"
                   (p_off payload mod MEM_ALIGNMENT =? 0);;
                 let len := Z.min length
                              (PBUF_POOL_BUFSIZE_ALIGNED - LWIP_MEM_ALIGN_SIZE offset) in
                 pset p (Pbuf None (Some payload) length len type 0 1);;
                 LWIP_ASSERT "check p->payload + p->len does not overflow pbuf"
                   (p_off payload + len <=? SIZEOF_STRUCT_PBUF + PBUF_POOL_BUFSIZE_ALIGNED);;
                 ok ← alloc_pool_tail pool_fuel p p (s32 (length - len));
                 mret (if (ok : bool) then Some p else None)
             end
           else if type =? PBUF_RAM then
             p ← malloc SIZEOF_STRUCT_PBUF
                   (LWIP_MEM_ALIGN_SIZE (SIZEOF_STRUCT_PBUF + offset)
                    + LWIP_MEM_ALIGN_SIZE length);
             match p with
             | None => mret None
             | Some p =>
                 let payload := LWIP_MEM_ALIGN (Ptr p (SIZEOF_STRUCT_PBUF + offset)) in
                 pset p (Pbuf None (Some payload) length length type 0 0);;
                 LWIP_ASSERT "pbuf_alloc: pbuf->payload properly aligned"
                   (p_off payload mod MEM_ALIGNMENT =? 0);;
                 mret (Some p)
             end
           else if (type =? PBUF_ROM) || (type =? PBUF_REF) then
             p ← memp_malloc_pbuf;
             match p with
             | None => mret None
             | Some p => pset p (Pbuf None None length length type 0 0);; mret (Some p)
             end
           else LWIP_ASSERT "pbuf_alloc: erroneous type" false;; mret None);
      match p with
      | None => mret None
      | Some p =>
          pupd p (pb_set_ref 1);;
          pupd p (pb_set_flags 0);;
          mret (Some p)
      end
  end.
End alloc.

(** ** pbuf_realloc *)

(** mem_realloc(x, size) is (x) when the C library allocates (lwip/mem.h). *)
Definition mem_realloc (q : loc) (size : Z) : loc := q.

(** Step over the pbufs that stay; returns the new last pbuf and the length it
    keeps. *)
Fixpoint realloc_skip (fuel : nat) (grow : Z) (q : option loc) (rem_len : Z)
  : M heap (loc * Z) :=
  match q, fuel with
  | None, _ => halt UB
  | _, O => halt NoFuel
  | Some l, S fuel =>
      b ← pget l;
      if pb_len b <? rem_len then
        let rem_len := u16 (rem_len - pb_len b) in
        LWIP_ASSERT "grow < max_u16_t" (grow <? 0xffff);;
        pset l (pb_set_tot_len (u16 (pb_tot_len b + u16 grow)) b);;
        realloc_skip fuel grow (pb_next b) rem_len
      else mret (l, rem_len)
  end.

Definition pbuf_realloc (p : loc) (new_len : Z) : M heap unit :=
  b ← pget p;
  LWIP_ASSERT "pbuf_realloc: sane p->type" (sane_type (pb_type b));;
  if pb_tot_len b <=? new_len then mret tt
  else
    let grow := s32 (new_len - pb_tot_len b) in
    h ← get;
    '(q, rem_len) ← realloc_skip (walk_fuel h) grow (Some p) new_len;
    qb ← pget q;
    q ← (if (pb_type qb =? PBUF_RAM) && negb (rem_len =? pb_len qb) then
           pp ← deref (pb_payload qb);
           let q := mem_realloc q (p_off pp + rem_len) in
           LWIP_ASSERT "mem_realloc give q == NULL" true;;
           mret q
         else mret q);
    pupd q (pb_set_len rem_len);;
    pupd q (fun b => pb_set_tot_len (pb_len b) b);;
    qb ← pget q;
    match pb_next qb with
    | Some _ => _ ← pbuf_free (pb_next qb); mret tt
    | None => mret tt
    end;;
    pupd q (pb_set_next None).

(** ** pbuf_header: 0 is success *)
Definition pbuf_header (p : option loc) (header_size_increment : Z) : M heap Z :=
  LWIP_ASSERT "p != NULL" (is_some p);;
  match p with
  | None => mret 0
  | Some l =>
      if header_size_increment =? 0 then mret 0
      else
        b ← pget l;
        let increment_magnitude :=
          if header_size_increment <? 0 then u16 (- header_size_increment)
          else u16 header_size_increment in
        if (header_size_increment <? 0) && negb (increment_magnitude <=? pb_len b) then
          LWIP_ASSERT "increment_magnitude <= p->len" false;; mret 1
        else
          let type := pb_type b in
          let finish (b : pbuf) : M heap Z :=
            pset l (pb_set_tot_len (u16 (pb_tot_len b + header_size_increment))
                     (pb_set_len (u16 (pb_len b + header_size_increment)) b));;
            mret 0 in
          if (type =? PBUF_RAM) || (type =? PBUF_POOL) then
            payload ← deref (pb_payload b);
            let payload' := ptr_add payload (- header_size_increment) in
            (* the boundary check compares addresses of one block *)
            if negb (bool_decide (p_loc payload' = l)) then halt UB
            else if p_off payload' <? SIZEOF_STRUCT_PBUF then
              pset l (pb_set_payload (Some payload) b);; mret 1
            else finish (pb_set_payload (Some payload') b)
          else if (type =? PBUF_REF) || (type =? PBUF_ROM) then
            if (header_size_increment <? 0) && (increment_magnitude <=? pb_len b) then
              payload ← deref (pb_payload b);
              finish (pb_set_payload (Some (ptr_add payload (- header_size_increment))) b)
            else mret 1
          else LWIP_ASSERT "bad pbuf type" false;; mret 1
  end.

(** ** pbuf_clen, pbuf_ref *)
Fixpoint pbuf_clen_loop (fuel : nat) (p : option loc) (len : Z) : M heap Z :=
  match p, fuel with
  | None, _ => mret len
  | _, O => halt NoFuel
  | Some l, S fuel => b ← pget l; pbuf_clen_loop fuel (pb_next b) (u8 (len + 1))
  end.

Definition pbuf_clen (p : option loc) : M heap Z :=
  h ← get; pbuf_clen_loop (walk_fuel h) p 0.

Definition pbuf_ref (p : option loc) : M heap unit :=
  match p with
  | Some l => pupd l (fun b => pb_set_ref (u16 (pb_ref b + 1)) b)
  | None => mret tt
  end.

(** ** pbuf_cat, pbuf_chain, pbuf_dechain *)

(** Add [t->tot_len] to every total but the last; returns the last pbuf. *)
Fixpoint cat_walk (fuel : nat) (p t : loc) : M heap loc :=
  match fuel with
  | O => halt NoFuel
  | S fuel =>
      b ← pget p;
      match pb_next b with
      | None => mret p
      | Some p' =>
          tb ← pget t;
          pset p (pb_set_tot_len (u16 (pb_tot_len b + pb_tot_len tb)) b);;
          cat_walk fuel p' t
      end
  end.

Definition pbuf_cat (h t : option loc) : M heap unit :=
  match h, t with
  | Some h, Some t =>
      s ← get;
      p ← cat_walk (walk_fuel s) h t;
      b ← pget p;
      LWIP_ASSERT "p->tot_len == p->len (of last pbuf in chain)" (pb_tot_len b =? pb_len b);;
      LWIP_ASSERT "p->next == NULL" (negb (is_some (pb_next b)));;
      tb ← pget t;
      pupd p (fun b => pb_set_tot_len (u16 (pb_tot_len b + pb_tot_len tb)) b);;
      pupd p (pb_set_next (Some t))
  | _, _ => LWIP_ASSERT "(h != NULL) && (t != NULL) (programmer violates API)" false
  end.

Definition pbuf_chain (h t : option loc) : M heap unit :=
  pbuf_cat h t;; pbuf_ref t.

Definition pbuf_dechain (p : loc) : M heap (option loc) :=
  b ← pget p;
  let q := pb_next b in
  tail_gone ← match q with
    | None => mret 1
    | Some ql =>
        qb ← pget ql;
        LWIP_ASSERT "p->tot_len == p->len + q->tot_len"
          (pb_tot_len qb =? pb_tot_len b - pb_len b);;
        pset ql (pb_set_tot_len (u16 (pb_tot_len b - pb_len b)) qb);;
        pupd p (pb_set_next None);;
        pupd p (fun b => pb_set_tot_len (pb_len b) b);;
        pbuf_free q
    end;
  b ← pget p;
  LWIP_ASSERT "p->tot_len == p->len" (pb_tot_len b =? pb_len b);;
  mret (if 0 <? tail_gone then None else q).

(** ** pbuf_copy *)

(** [p != NULL && p->len == p->tot_len && p->next != NULL]: a packet queue. *)
Definition is_queue (p : option loc) : M heap bool :=
  match p with
  | None => mret false
  | Some l =>
      b ← pget l;
      mret ((pb_len b =? pb_tot_len b) && is_some (pb_next b))
  end.

Fixpoint copy_loop (fuel : nat) (p_to p_from : option loc) (offset_to offset_from : Z)
  : M heap Z :=
  match fuel with
  | O => halt NoFuel
  | S fuel =>
      LWIP_ASSERT "p_to != NULL" (is_some p_to);;
      lt ← deref p_to;
      lf ← deref p_from;
      bt ← pget lt;
      bf ← pget lf;
      let len := if pb_len bf - offset_from <=? pb_len bt - offset_to
                 then u16 (pb_len bf - offset_from) else u16 (pb_len bt - offset_to) in
      dst ← deref (pb_payload bt);
      src ← deref (pb_payload bf);
      bs ← load (ptr_add src offset_from) len;
      store (ptr_add dst offset_to) bs;;
      let offset_to := u16 (offset_to + len) in
      let offset_from := u16 (offset_from + len) in
      LWIP_ASSERT "offset_to <= p_to->len" (offset_to <=? pb_len bt);;
      let '(p_to, offset_to) :=
        if offset_to =? pb_len bt then (pb_next bt, 0) else (p_to, offset_to) in
      LWIP_ASSERT "offset_from <= p_from->len" (offset_from <=? pb_len bf);;
      let '(p_from, offset_from) :=
        if pb_len bf <=? offset_from then (pb_next bf, 0) else (p_from, offset_from) in
      qf ← is_queue p_from;
      if (qf : bool) then
        LWIP_ASSERT "pbuf_copy() does not allow packet queues!" false;; mret ERR_VAL
      else
        qt ← is_queue p_to;
        if (qt : bool) then
          LWIP_ASSERT "pbuf_copy() does not allow packet queues!" false;; mret ERR_VAL
        else match p_from with
             | None => mret ERR_OK
             | Some _ => copy_loop fuel p_to p_from offset_to offset_from
             end
  end.

Definition pbuf_copy (p_to p_from : option loc) : M heap Z :=
  fits ← match p_to, p_from with
         | Some t, Some f => bt ← pget t; bf ← pget f; mret (pb_tot_len bf <=? pb_tot_len bt)
         | _, _ => mret false
         end;
  if (fits : bool) then
    h ← get; copy_loop (2 * walk_fuel h) p_to p_from 0 0
  else
    LWIP_ASSERT "pbuf_copy: target not big enough to hold source" false;; mret ERR_ARG.

(** ** pbuf_copy_partial: returns the number of bytes copied *)
Fixpoint copy_partial_loop (fuel : nat) (p : option loc) (dataptr : ptr)
    (len offset left copied_total : Z) : M heap Z :=
  if len =? 0 then mret copied_total
  else match p, fuel with
  | None, _ => mret copied_total
  | _, O => halt NoFuel
  | Some l, S fuel =>
      b ← pget l;
      if negb (offset =? 0) && (pb_len b <=? offset) then
        copy_partial_loop fuel (pb_next b) dataptr len (u16 (offset - pb_len b)) left copied_total
      else
        let buf_copy_len := u16 (pb_len b - offset) in
        let buf_copy_len := if len <? buf_copy_len then len else buf_copy_len in
        payload ← deref (pb_payload b);
        bs ← load (ptr_add payload offset) buf_copy_len;
        store (ptr_add dataptr left) bs;;
        copy_partial_loop fuel (pb_next b) dataptr (u16 (len - buf_copy_len)) 0
          (u16 (left + buf_copy_len)) (u16 (copied_total + buf_copy_len))
  end.

Definition pbuf_copy_partial (buf : option loc) (dataptr : option ptr) (len offset : Z)
  : M heap Z :=
  match buf, dataptr with
  | Some _, Some d => h ← get; copy_partial_loop (walk_fuel h) buf d len offset 0 0
  | None, _ => LWIP_ASSERT "netbuf_copy_partial: invalid buf" false;; mret 0
  | _, None => LWIP_ASSERT "netbuf_copy_partial: invalid dataptr" false;; mret 0
  end.
