(* ===== verification/PbufSpec.v ===== *)
(** * What the packet buffers promise (core/pbuf.c)

    [packet h p ls d]: [p] heads the chain of the pbufs [ls], which satisfies
    the invariant of lwip/pbuf.h (tot_len is len plus the tot_len of the rest)
    and holds the bytes [d].  The theorems give each operation of [Pbuf] in
    terms of the packets before and after. *)
From S2P Require Import Prelude Heap Pbuf.

(** ** Chains *)

(** [links m p ls e]: following [next] from [p] visits [ls] and stops at [e]. *)
Fixpoint links (m : gmap loc pbuf) (p : option loc) (ls : list loc) (e : option loc) : Prop :=
  match ls with
  | [] => p = e
  | l :: ls => p = Some l /\ exists b, m !! l = Some b /\ links m (pb_next b) ls e
  end.

(** A pbuf whose payload is [pt]. *)
Definition pbuf_ok (l : loc) (b : pbuf) (pt : ptr) : Prop :=
  pb_payload b = Some pt /\ sane_type (pb_type b) = true /\
  (pb_type b = PBUF_RAM \/ pb_type b = PBUF_POOL -> p_loc pt = l /\ 16 <= p_off pt) /\
  is_u16 (pb_tot_len b) /\ 0 < pb_ref b < 65536.

(** A segment of a chain: it holds [d], ends at [e], and [k] bytes follow. *)
Fixpoint pseg (h : heap) (p : option loc) (ls : list loc) (d : list Z)
    (e : option loc) (k : Z) : Prop :=
  match ls with
  | [] => p = e /\ d = []
  | l :: ls =>
      p = Some l /\ exists b pt d1 d2,
        h_pbufs h !! l = Some b /\ pbuf_ok l b pt /\
        bytes_at h pt (pb_len b) = Some d1 /\ d = d1 ++ d2 /\
        pb_tot_len b = Z.of_nat (length d) + k /\ pseg h (pb_next b) ls d2 e k
  end.

Definition packet (h : heap) (p : option loc) (ls : list loc) (d : list Z) : Prop :=
  pseg h p ls d None 0.

Lemma pseg_cons h l ls b pt d1 d2 e k :
  h_pbufs h !! l = Some b -> pbuf_ok l b pt -> bytes_at h pt (pb_len b) = Some d1 ->
  pb_tot_len b = Z.of_nat (length d1) + Z.of_nat (length d2) + k ->
  pseg h (pb_next b) ls d2 e k -> pseg h (Some l) (l :: ls) (d1 ++ d2) e k.
Proof.
  intros. cbn. split; [done|]. exists b, pt, d1, d2.
  do 4 (split; [done|]). split; [rewrite length_app; lia|done].
Qed.

Lemma pbuf_ok_update l b b' pt :
  pbuf_ok l b pt -> pb_payload b' = pb_payload b -> pb_type b' = pb_type b ->
  is_u16 (pb_tot_len b') -> 0 < pb_ref b' < 65536 -> pbuf_ok l b' pt.
Proof. unfold pbuf_ok. intros (H1 & H2 & H3 & _) -> ->. done. Qed.

(** The fields that relinking and trimming keep. *)
Definition pb_key (b : pbuf) : option ptr * Z := (pb_payload b, pb_ref b).

(** [touches ls h h']: only the structs of [ls] differ, and not in their
    payload pointers. *)
Definition touches (ls : list loc) (h h' : heap) : Prop :=
  exists m, h' = h_set_pbufs m h /\ (forall l, l ∉ ls -> m !! l = h_pbufs h !! l) /\
    forall l, pb_key <$> m !! l = pb_key <$> h_pbufs h !! l.

(** ** Lemmas on memory *)
Lemma bytes_at_length h p n d : bytes_at h p n = Some d -> Z.of_nat (length d) = n.
Proof.
  unfold bytes_at. destruct (h_blocks h !! _) as [blk|]; cbn; [|done].
  case_match eqn:E; [|done]. intros [= <-].
  rewrite length_take, length_drop. lia.
Qed.

Lemma bytes_at_blocks h h' p n :
  h_blocks h' !! p_loc p = h_blocks h !! p_loc p -> bytes_at h' p n = bytes_at h p n.
Proof. intros E. unfold bytes_at. by rewrite E. Qed.

Lemma bytes_at_split h p n k d :
  0 <= k <= n -> bytes_at h p n = Some d ->
  bytes_at h p k = Some (take (Z.to_nat k) d) /\
  bytes_at h (ptr_add p k) (n - k) = Some (drop (Z.to_nat k) d).
Proof.
  unfold bytes_at. cbn [ptr_add p_loc p_off].
  destruct (h_blocks h !! _) as [blk|]; cbn; [|done].
  case_match eqn:E; [|done]. intros Hk [= <-]. split.
  - case_match; [|lia]. by rewrite take_take, Nat.min_l by lia.
  - case_match; [|lia]. f_equal.
    replace (Z.to_nat (p_off p + k - b_base blk))
      with (Z.to_nat (p_off p - b_base blk) + Z.to_nat k)%nat by lia.
    rewrite <- drop_drop, skipn_firstn_comm. f_equal. lia.
Qed.

(** ** Lemmas on chains *)
Lemma links_app m p xs ys e :
  links m p (xs ++ ys) e <-> exists q, links m p xs q /\ links m q ys e.
Proof.
  revert p. induction xs as [|l xs IH]; intros p; cbn.
  - split; [by eauto|]. by intros (q & -> & H).
  - split.
    + intros (-> & b & Hb & (q & H1 & H2)%IH). eauto 10.
    + intros (q & (-> & b & Hb & H1) & H2). split; [done|]. exists b. rewrite IH. eauto.
Qed.

Lemma links_det m p xs e ys :
  links m p xs e -> links m p ys None -> exists zs, ys = xs ++ zs /\ links m e zs None.
Proof.
  revert p ys. induction xs as [|l xs IH]; intros p ys; cbn.
  - intros -> H. by exists ys.
  - intros (-> & b & Hb & H1). destruct ys as [|y ys]; cbn; [done|].
    intros ([= <-] & b' & Hb' & H2). simplify_eq.
    destruct (IH _ _ H1 H2) as (zs & -> & H3). eauto.
Qed.

Lemma links_NoDup m p ls : links m p ls None -> NoDup ls.
Proof.
  revert p. induction ls as [|l ls IH]; intros p; cbn; [constructor|].
  intros (-> & b & Hb & H). constructor; [|by eapply IH].
  intros Hin. apply list_elem_of_split in Hin as (xs & ys & ->).
  assert (links m (Some l) (l :: xs ++ l :: ys) None) as H1 by (cbn; eauto).
  apply links_app in H as (q & H2 & H3). cbn in H3. destruct H3 as (-> & H3).
  assert (links m (Some l) (l :: ys) None) as H4 by (cbn; eauto).
  destruct (links_det _ _ _ _ _ H1 H4) as (zs & E & _).
  apply (f_equal length) in E. cbn in E. rewrite !length_app in E. cbn in E. lia.
Qed.

Lemma links_dom m p ls e l : links m p ls e -> l ∈ ls -> is_Some (m !! l).
Proof.
  revert p. induction ls as [|a ls IH]; intros p; cbn; [by intros _ ?%not_elem_of_nil|].
  intros (-> & b & Hb & H) [->|Hl]%elem_of_cons; eauto.
Qed.

(** Fuel: a chain without a cycle is no longer than the map. *)
Lemma NoDup_length_size {V} (m : gmap loc V) ls :
  NoDup ls -> (forall l, l ∈ ls -> is_Some (m !! l)) -> (length ls <= size m)%nat.
Proof.
  intros Hnd Hls. rewrite <- size_dom.
  assert (size (list_to_set ls : gset loc) = length ls) as <-.
  { by apply size_list_to_set. }
  apply subseteq_size. intros l Hl%elem_of_list_to_set. by apply elem_of_dom, Hls.
Qed.

Lemma links_fuel h p ls : links (h_pbufs h) p ls None -> (length ls < walk_fuel h)%nat.
Proof.
  intros H. unfold walk_fuel. apply Nat.lt_succ_r, NoDup_length_size.
  - by eapply links_NoDup.
  - intros l. by apply (links_dom _ _ _ _ _ H).
Qed.

Lemma pseg_links h p ls d e k : pseg h p ls d e k -> links (h_pbufs h) p ls e.
Proof.
  revert p d. induction ls as [|l ls IH]; intros p d; cbn; [naive_solver|].
  intros (-> & b & pt & d1 & d2 & Hb & _ & _ & _ & _ & H). split; [done|]. eauto.
Qed.

Lemma pseg_app h p xs ys d e k :
  pseg h p (xs ++ ys) d e k <->
  exists q d1 d2, d = d1 ++ d2 /\
    pseg h p xs d1 q (Z.of_nat (length d2) + k) /\ pseg h q ys d2 e k.
Proof.
  revert p d. induction xs as [|l xs IH]; intros p d; cbn.
  - split; [intros H; by exists p, [], d|]. by intros (q & d1 & d2 & -> & (-> & ->) & H).
  - split.
    + intros (-> & b & pt & c1 & c2 & Hb & Hok & Hc & -> & Ht & H).
      apply IH in H as (q & d1 & d2 & -> & H1 & H2).
      exists q, (c1 ++ d1), d2. rewrite <- app_assoc. split; [done|]. split; [|done].
      rewrite !length_app in Ht. eapply pseg_cons; try done. lia.
    + intros (q & d1 & d2 & -> & (-> & b & pt & c1 & c2 & Hb & Hok & Hc & -> & Ht & H1) & H2).
      rewrite length_app in Ht. rewrite <- app_assoc. eapply pseg_cons; try done.
      { rewrite length_app. lia. }
      apply IH. by exists q, c2, d2.
Qed.

(** The blocks that hold the payloads of [ls] are the same in [h] and [h']. *)
Definition same_payloads (ls : list loc) (h h' : heap) : Prop :=
  forall l b pt, l ∈ ls -> h_pbufs h !! l = Some b -> pb_payload b = Some pt ->
    h_blocks h' !! p_loc pt = h_blocks h !! p_loc pt.

Lemma pseg_frame_gen h h' p ls d e k :
  pseg h p ls d e k -> same_payloads ls h h' ->
  (forall l, l ∈ ls -> h_pbufs h' !! l = h_pbufs h !! l) -> pseg h' p ls d e k.
Proof.
  intros H Hbl. revert p d H Hbl. induction ls as [|l ls IH]; intros p d; cbn; [done|].
  intros (-> & b & pt & d1 & d2 & Hb & Hok & Hd & -> & Ht & H) Hbl Hp.
  rewrite length_app in Ht. eapply pseg_cons; try done.
  - rewrite Hp; [done|]. set_solver.
  - rewrite <- Hd. apply bytes_at_blocks. eapply Hbl; [|done|apply Hok]. set_solver.
  - lia.
  - apply IH; [done| |].
    + intros l' b' pt' Hl'. apply Hbl. set_solver.
    + intros l' Hl'. apply Hp. set_solver.
Qed.

Lemma pseg_frame h h' p ls d e k :
  pseg h p ls d e k -> h_blocks h' = h_blocks h ->
  (forall l, l ∈ ls -> h_pbufs h' !! l = h_pbufs h !! l) -> pseg h' p ls d e k.
Proof. intros H Hbl. apply pseg_frame_gen; [done|]. intros ???. by rewrite Hbl. Qed.

Lemma pseg_last_none h p ls d : packet h p ls d -> NoDup ls.
Proof. intros H%pseg_links. by eapply links_NoDup. Qed.

Lemma packet_fuel h p ls d : packet h p ls d -> (length ls < walk_fuel h)%nat.
Proof. intros H%pseg_links. by eapply links_fuel. Qed.

Lemma packet_length h p ls d : packet h p ls d -> Z.of_nat (length d) < 65536.
Proof.
  unfold packet. destruct ls; cbn; [intros [_ ->]; cbn; lia|].
  intros (_ & b & pt & d1 & d2 & _ & (_ & _ & _ & Hu & _) & _ & _ & Ht & _).
  unfold is_u16 in Hu. lia.
Qed.

(** A struct seen through its chain determines the chain and its contents. *)
Lemma packet_det h p ls d ls' d' : packet h p ls d -> packet h p ls' d' -> ls = ls' /\ d = d'.
Proof.
  unfold packet. revert p d ls' d'. induction ls as [|l ls IH]; intros p d ls' d'; cbn.
  - intros [-> ->]. destruct ls'; cbn; naive_solver.
  - intros (-> & b & pt & d1 & d2 & Hb & Hok & Hd & -> & Ht & H).
    destruct ls' as [|l' ls']; cbn; [naive_solver|].
    intros ([= <-] & b' & pt' & d1' & d2' & Hb' & Hok' & Hd' & -> & Ht' & H').
    simplify_eq. destruct Hok as [E _], Hok' as [E' _]. simplify_eq.
    destruct (IH _ _ _ _ H H') as [-> ->]. done.
Qed.

Lemma touches_refl ls h : touches ls h h.
Proof. exists (h_pbufs h). by destruct h. Qed.

Lemma touches_insert l b b0 ls h :
  l ∈ ls -> h_pbufs h !! l = Some b0 -> pb_key b = pb_key b0 ->
  touches ls h (h_set_pbufs (<[l := b]> (h_pbufs h)) h).
Proof.
  intros Hl Hb Hpl. eexists; split; [done|]. split.
  - intros l' Hl'. rewrite lookup_insert_ne; [done|]. by intros ->.
  - intros l'. rewrite lookup_insert. case_decide; [subst; rewrite Hb; cbn; by rewrite Hpl|done].
Qed.

Lemma touches_mono ls ls' h h' :
  touches ls h h' -> (forall l, l ∈ ls -> l ∈ ls') -> touches ls' h h'.
Proof. intros (m & -> & Hm & Hp) Hsub. exists m. split; [done|]. naive_solver. Qed.

Lemma touches_trans ls h h' h'' : touches ls h h' -> touches ls h' h'' -> touches ls h h''.
Proof.
  intros (m & -> & Hm & Hp) (m' & -> & Hm' & Hp'). exists m'. split; [done|]. split.
  - intros l Hl. rewrite Hm' by done. cbn. by apply Hm.
  - intros l. rewrite Hp'. cbn. apply Hp.
Qed.

Lemma touches_lookup ls h h' l : touches ls h h' -> l ∉ ls -> h_pbufs h' !! l = h_pbufs h !! l.
Proof. intros (m & -> & Hm & _) Hl. by apply Hm. Qed.
Lemma touches_blocks ls h h' : touches ls h h' -> h_blocks h' = h_blocks h.
Proof. by intros (m & -> & _). Qed.
Lemma touches_asserts ls h h' : touches ls h h' -> h_asserts h' = h_asserts h.
Proof. by intros (m & -> & _). Qed.
Lemma touches_payload ls h h' l b :
  touches ls h h' -> h_pbufs h' !! l = Some b ->
  exists b0, h_pbufs h !! l = Some b0 /\ pb_payload b0 = pb_payload b /\ pb_ref b0 = pb_ref b.
Proof.
  intros (m & -> & _ & Hp) Hb. cbn in Hb. specialize (Hp l). rewrite Hb in Hp.
  destruct (h_pbufs h !! l) as [b0|]; cbn in Hp; [|done]. injection Hp as Hp. eauto.
Qed.
Lemma touches_dom ls h h' l :
  touches ls h h' -> is_Some (h_pbufs h' !! l) <-> is_Some (h_pbufs h !! l).
Proof.
  intros (m & -> & _ & Hp). cbn. specialize (Hp l).
  destruct (m !! l), (h_pbufs h !! l); try done; split; eauto.
Qed.
Lemma touches_ok ls h h' : touches ls h h' -> h_ok h -> h_ok h'.
Proof.
  intros Ht [H1 H2 H3 H4]. pose proof (fun l => touches_dom _ _ _ l Ht) as Hdom.
  destruct Ht as (m & -> & _). cbn in *. split; cbn; eauto.
  - intros l Hl%Hdom. eauto.
  - intros l Hl%Hdom. eauto.
Qed.

Lemma pseg_touches xs h h' p ls d e k :
  touches xs h h' -> (forall l, l ∈ ls -> l ∉ xs) -> pseg h p ls d e k -> pseg h' p ls d e k.
Proof.
  intros Ht Hd H. eapply pseg_frame; [done|by eapply touches_blocks|].
  intros l Hl. eapply touches_lookup; eauto.
Qed.

Create HintDb pbuf.
#[export] Hint Resolve touches_refl : pbuf.

(** ** pbuf_cat and pbuf_chain *)

(** The walk adds the length [n] of the tail to every total before the last. *)
Lemma cat_walk_spec fuel xs last p t h d k n tb :
  pseg h (Some p) xs d (Some last) k -> links (h_pbufs h) (Some last) [last] None ->
  NoDup (xs ++ [last]) -> (length xs < fuel)%nat ->
  h_pbufs h !! t = Some tb -> pb_tot_len tb = n -> t ∉ xs -> 0 <= n -> 0 <= k ->
  Z.of_nat (length d) + k + n < 65536 ->
  wp (cat_walk fuel p t) h (fun r h' =>
    r = last /\ touches xs h h' /\ pseg h' (Some p) xs d (Some last) (k + n)).
Proof.
  revert fuel p h d. induction xs as [|a xs IH]; intros fuel p h d Hseg Hl Hnd Hf Ht Hn Htx Hn0 Hk Hlen.
  - destruct fuel as [|fuel]; [cbn in Hf; lia|]. cbn in Hseg. destruct Hseg as [[= ->] ->].
    cbn in Hl. destruct Hl as (_ & b & Hb & Hnx). cbn [cat_walk].
    apply wp_bind. eapply wp_pget; [done|]. rewrite Hnx. apply wp_ret.
    split; [done|]. by split; [apply touches_refl|].
  - destruct fuel as [|fuel]; [cbn in Hf; lia|]. cbn in Hseg.
    destruct Hseg as ([= ->] & b & pt & d1 & d2 & Hb & Hok & Hd & -> & Htot & Hseg).
    assert (exists p', pb_next b = Some p') as [p' Hp'].
    { destruct xs; cbn in Hseg; naive_solver. }
    cbn [cat_walk]. apply wp_bind. eapply wp_pget; [done|]. rewrite Hp'.
    apply wp_bind. eapply wp_pget; [done|]. apply wp_bind. apply wp_pset.
    set (b' := pb_set_tot_len _ b). set (h1 := h_set_pbufs _ h).
    assert (touches [a] h h1) as Ht1 by (eapply touches_insert; [set_solver|exact Hb|done]).
    rewrite length_app in *. cbn [app] in Hnd. apply NoDup_cons in Hnd as [Hna Hnd].
    assert (forall l, l ∈ xs -> l ∉ [a]) as Hxs by set_solver.
    assert (a <> last) as Hal by set_solver.
    eapply wp_mono; [eapply (IH fuel p' h1 d2)|].
    + rewrite <- Hp'. by eapply pseg_touches.
    + cbn in Hl |- *. by rewrite lookup_insert_ne.
    + done.
    + cbn in Hf. lia.
    + cbn. rewrite lookup_insert_ne; [done|]. set_solver.
    + done.
    + set_solver.
    + done.
    + done.
    + lia.
    + cbv beta. intros r h' (-> & Ht2 & Hs2). split; [done|].
      split; [eapply touches_trans; eapply touches_mono; [exact Ht1|set_solver|exact Ht2|set_solver]|].
      assert (pb_tot_len b' = Z.of_nat (length d1) + Z.of_nat (length d2) + (k + n)) as Ht'.
      { subst b'. cbn. rewrite Htot, Hn. apply Z.eq_trans with (u16 (Z.of_nat (length d1) + Z.of_nat (length d2) + (k + n))).
        - f_equal. lia.
        - apply u16_small. unfold is_u16. lia. }
      eapply (pseg_cons _ _ _ b' pt); [..|change (pb_next b') with (pb_next b); rewrite Hp'; exact Hs2].
      * rewrite (touches_lookup _ _ _ _ Ht2) by set_solver. cbn. apply lookup_insert_eq.
      * eapply pbuf_ok_update; [exact Hok|done|done|rewrite Ht'; unfold is_u16; lia|apply Hok].
      * rewrite <- Hd. apply bytes_at_blocks. by rewrite (touches_blocks _ _ _ Ht2).
      * done.
Qed.

(** The last pbuf of a packet. *)
Lemma packet_snoc h p ls d :
  packet h p ls d -> ls <> [] -> exists xs last d1 d2, ls = xs ++ [last] /\ d = d1 ++ d2 /\
    pseg h p xs d1 (Some last) (Z.of_nat (length d2)) /\ packet h (Some last) [last] d2.
Proof.
  intros H Hne. destruct (exists_last Hne) as (xs & last & ->).
  apply pseg_app in H as (q & d1 & d2 & -> & H1 & H2). rewrite Z.add_0_r in H1.
  assert (q = Some last) as -> by (cbn in H2; tauto). by exists xs, last, d1, d2.
Qed.

(** The packet of a single pbuf. *)
Lemma pseg_one h l d e k :
  pseg h (Some l) [l] d e k <-> exists b pt, h_pbufs h !! l = Some b /\ pbuf_ok l b pt /\
    bytes_at h pt (pb_len b) = Some d /\ pb_tot_len b = Z.of_nat (length d) + k /\ pb_next b = e.
Proof.
  cbn. split.
  - intros (_ & b & pt & d1 & d2 & Hb & Hok & Hd & -> & Ht & <- & ->). rewrite app_nil_r in *. eauto 10.
  - intros (b & pt & Hb & Hok & Hd & Ht & <-). split; [done|].
    exists b, pt, d, []. by rewrite app_nil_r.
Qed.

Lemma pbuf_cat_spec h p t xs ys d1 d2 :
  packet h (Some p) xs d1 -> packet h (Some t) ys d2 -> xs ## ys ->
  Z.of_nat (length d1 + length d2) < 65536 ->
  wp (pbuf_cat (Some p) (Some t)) h (fun _ h' =>
    packet h' (Some p) (xs ++ ys) (d1 ++ d2) /\ packet h' (Some t) ys d2 /\ touches xs h h').
Proof.
  intros Hp Ht Hdisj Hlen. destruct ys as [|t' ys]; [cbn in Ht; naive_solver|].
  assert (t' = t) as -> by (cbn in Ht; naive_solver).
  assert (exists tb, h_pbufs h !! t = Some tb /\ pb_tot_len tb = Z.of_nat (length d2)) as (tb & Htb & Htl).
  { cbn in Ht. destruct Ht as (_ & tb & _ & ? & ? & ? & _ & _ & _ & E & _). exists tb. split; [done|lia]. }
  pose proof (packet_fuel _ _ _ _ Hp) as Hfuel. pose proof (pseg_last_none _ _ _ _ Hp) as Hnd.
  destruct (packet_snoc _ _ _ _ Hp) as (xs' & last & c1 & c2 & -> & -> & Hs1 & Hs2);
    [by intros ->; cbn in Hp; naive_solver|].
  rewrite !length_app in *. cbn [length] in *.
  unfold pbuf_cat. apply wp_bind, wp_get, wp_bind.
  eapply wp_mono.
  { eapply (cat_walk_spec _ xs' last p t h c1 _ (Z.of_nat (length d2)) tb); try done.
    - by eapply pseg_links. - lia. - set_solver. - lia. - lia. - lia. }
  cbv beta. intros r h1 (-> & Ht1 & Hs1').
  apply (pseg_touches xs') with (h' := h1) in Hs2 as Hs2'; [|done|].
  2:{ apply NoDup_app in Hnd as (_ & Hnd & _). set_solver. }
  apply pseg_one in Hs2' as (b & pt & Hb & Hok & Hd & Htot & Hnx). rewrite Z.add_0_r in Htot.
  pose proof (bytes_at_length _ _ _ _ Hd) as Hbl.
  assert (h_pbufs h1 !! t = Some tb) as Htb1 by (rewrite (touches_lookup _ _ _ _ Ht1); set_solver).
  apply wp_bind. eapply wp_pget; [done|].
  apply wp_bind, wp_assert; [lia|]. apply wp_bind, wp_assert; [by rewrite Hnx|].
  apply wp_bind. eapply wp_pget; [done|].
  apply wp_bind. eapply wp_pupd; [done|].
  eapply wp_pupd; [cbn; apply lookup_insert_eq|].
  set (h2 := h_set_pbufs _ _).
  assert (touches (xs' ++ [last]) h h2) as Ht2.
  { eapply touches_trans; [eapply touches_mono; [exact Ht1|set_solver]|].
    eapply touches_trans; eapply touches_insert; [set_solver|exact Hb|done|set_solver|apply lookup_insert_eq|done]. }
  assert (packet h2 (Some t) (t :: ys) d2) as Hpt.
  { eapply pseg_touches; [exact Ht2| |exact Ht]. set_solver. }
  split; [|done].
  unfold packet. rewrite <- app_assoc. apply pseg_app.
  exists (Some last), c1, (c2 ++ d2). rewrite <- app_assoc. split; [done|]. split.
  - rewrite length_app, Z.add_0_r, Nat2Z.inj_add.
    eapply pseg_frame; [exact Hs1'|done|]. intros l Hl. cbn.
    apply NoDup_app in Hnd as (_ & Hnd & _).
    by rewrite !lookup_insert_ne by set_solver.
  - apply pseg_app. exists (Some t), c2, d2. split; [done|]. split; [|done].
    apply pseg_one. exists (pb_set_next (Some t) (pb_set_tot_len (u16 (pb_tot_len b + pb_tot_len tb)) b)), pt.
    cbn. rewrite Htot, Htl, u16_small by (unfold is_u16; lia).
    split; [apply lookup_insert_eq|]. split.
    { eapply pbuf_ok_update; [exact Hok|done|done|cbn; unfold is_u16; lia|apply Hok]. }
    split; [exact Hd|]. split; [lia|done].
Qed.

(** ** pbuf_free *)
Fixpoint deletes {V} (ls : list loc) (m : gmap loc V) : gmap loc V :=
  match ls with [] => m | l :: ls => deletes ls (delete l m) end.

Lemma deletes_lookup {V} ls (m : gmap loc V) l :
  deletes ls m !! l = if decide (l ∈ ls) then None else m !! l.
Proof.
  revert m. induction ls as [|a ls IH]; intros m; cbn.
  - by rewrite decide_False by apply not_elem_of_nil.
  - rewrite IH. destruct (decide (l ∈ ls)); [by rewrite decide_True by set_solver|].
    destruct (decide (l = a)) as [->|].
    + by rewrite decide_True, lookup_delete_eq by set_solver.
    + by rewrite decide_False, lookup_delete_ne by set_solver.
Qed.

(** One reference less to the pbuf that [q] names. *)
Definition dec_ref (q : option loc) (m : gmap loc pbuf) : gmap loc pbuf :=
  match q with
  | Some y => alter (fun b => pb_set_ref (pb_ref b - 1) b) y m
  | None => m
  end.

(** The heap without the pbufs [xs], and with one reference less to [q]. *)
Definition freed (xs : list loc) (q : option loc) (h : heap) : heap :=
  Heap (deletes xs (h_blocks h)) (dec_ref q (deletes xs (h_pbufs h)))
       (h_next h) (h_nalloc h) (h_env h) (h_asserts h).

Definition refs_one (m : gmap loc pbuf) (xs : list loc) : Prop :=
  forall l b, l ∈ xs -> m !! l = Some b -> pb_ref b = 1.

Lemma pbuf_free_loop_spec fuel p xs q h count :
  links (h_pbufs h) p xs q -> NoDup xs -> refs_one (h_pbufs h) xs ->
  (forall l, l ∈ xs -> is_Some (h_blocks h !! l)) ->
  (forall y, q = Some y -> (y ∉ xs) /\ (exists b, h_pbufs h !! y = Some b /\ 1 < pb_ref b < 65536)) ->
  (length xs < fuel)%nat -> is_u8 count ->
  wp (pbuf_free_loop fuel p count) h (fun n h' =>
    n = u8 (count + Z.of_nat (length xs)) /\ h' = freed xs q h).
Proof.
  revert fuel p h count. induction xs as [|a xs IH];
    intros fuel p h count Hl Hnd Href Hbl Hq Hfuel Hc.
  - cbn in Hl. subst p. destruct fuel as [|fuel]; [cbn in Hfuel; lia|].
    destruct q as [y|]; cbn [pbuf_free_loop].
    + destruct (Hq y eq_refl) as (_ & b & Hb & Hr).
      apply wp_bind. eapply wp_pget; [done|]. apply wp_bind, wp_assert; [lia|].
      apply wp_bind, wp_pset. rewrite u16_small by (unfold is_u16; lia).
      rewrite (proj2 (Z.eqb_neq (pb_ref b - 1) 0)) by lia. apply wp_ret.
      cbn [length]. rewrite Z.add_0_r, u8_small by done. split; [done|].
      unfold freed, h_set_pbufs. cbn. f_equal. apply map_eq. intros i.
      rewrite lookup_alter, lookup_insert. case_decide; [subst; by rewrite Hb|done].
    + apply wp_ret. cbn [length]. rewrite Z.add_0_r, u8_small by done. by destruct h.
  - cbn in Hl. destruct Hl as (-> & b & Hb & Hl). apply NoDup_cons in Hnd as [Hna Hnd].
    destruct fuel as [|fuel]; [cbn in Hfuel; lia|]. cbn [pbuf_free_loop].
    assert (pb_ref b = 1) as Hr by (apply (Href a); [set_solver|done]).
    destruct (Hbl a) as [blk Hblk]; [set_solver|].
    apply wp_bind. eapply wp_pget; [done|]. apply wp_bind, wp_assert; [lia|].
    apply wp_bind, wp_pset. rewrite Hr. cbn [Z.sub Z.add Z.opp Pos.sub]. change (u16 (1 - 1) =? 0) with true.
    cbn iota. apply wp_bind.
    set (h1 := Heap (delete a (h_blocks h)) (delete a (h_pbufs h)) (h_next h) (h_nalloc h)
                    (h_env h) (h_asserts h)).
    assert (forall (k : unit -> M heap Z) Q, wp (k tt) h1 Q ->
      wp (if pb_type b =? PBUF_POOL then memp_free_pbuf_pool a
          else if (pb_type b =? PBUF_ROM) || (pb_type b =? PBUF_REF) then memp_free_pbuf a
          else mem_free_pbuf a) (h_set_pbufs (<[a := pb_set_ref (u16 (1 - 1)) b]> (h_pbufs h)) h)
         (fun u s => wp (k u) s Q)) as Hfree.
    { intros k Q Hk.
      unfold memp_free_pbuf_pool, memp_free_pbuf, mem_free_pbuf.
      replace (if pb_type b =? PBUF_POOL then free_pbuf a else _) with (free_pbuf a) by (by repeat case_match).
      eapply wp_free; [cbn; apply lookup_insert_eq|done|]. cbn. by rewrite delete_insert_eq. }
    apply Hfree. clear Hfree.
    eapply wp_mono; [eapply (IH fuel (pb_next b) h1)|].
    + cbn. clear -Hl Hna. revert Hl Hna. generalize (pb_next b). induction xs as [|c xs IH]; intros p; cbn; [done|].
      intros (-> & b' & Hb' & H) Hna. split; [done|]. exists b'.
      rewrite lookup_delete_ne by set_solver. split; [done|]. apply IH; [done|set_solver].
    + done.
    + intros l b' Hin Hl'. cbn in Hl'. apply (Href l); [set_solver|].
      rewrite lookup_delete_ne in Hl'; [done|]. by intros ->.
    + intros l Hin. cbn. rewrite lookup_delete_ne; [apply Hbl; set_solver|]. by intros ->.
    + intros y ->. destruct (Hq y eq_refl) as (Hy & b' & Hb' & Hr'). split; [set_solver|].
      exists b'. cbn. rewrite lookup_delete_ne; [done|]. set_solver.
    + cbn in Hfuel. lia.
    + apply u8_range.
    + cbv beta. intros n h' [-> ->]. split; [|done].
      cbn [length]. unfold u8. rewrite Zplus_mod_idemp_l. f_equal. lia.
Qed.

(** [pbuf_free] on a chain whose first pbufs [xs] have no other reference: they
    are freed (and counted, in a u8), and the next one loses a reference. *)
Lemma pbuf_free_links h p xs ys :
  (forall l, l ∈ xs -> is_Some (h_blocks h !! l)) ->
  links (h_pbufs h) (Some p) (xs ++ ys) None ->
  (forall b, h_pbufs h !! p = Some b -> sane_type (pb_type b) = true) ->
  refs_one (h_pbufs h) xs ->
  (forall y b, head ys = Some y -> h_pbufs h !! y = Some b -> 1 < pb_ref b < 65536) ->
  wp (pbuf_free (Some p)) h (fun n h' =>
    n = u8 (Z.of_nat (length xs)) /\ h' = freed xs (head ys) h).
Proof.
  intros Hok Hl Hsane Href Hy. pose proof (links_fuel _ _ _ Hl) as Hfuel.
  pose proof (links_NoDup _ _ _ Hl) as Hnd.
  assert (exists b, h_pbufs h !! p = Some b) as [b Hb].
  { destruct (xs ++ ys); cbn in Hl; naive_solver. }
  apply links_app in Hl as (q & H1 & H2). apply NoDup_app in Hnd as (Hnd & Hdj & _).
  assert (q = head ys) as -> by (destruct ys; cbn in H2; naive_solver).
  unfold pbuf_free. apply wp_bind. eapply wp_pget; [done|].
  apply wp_bind, wp_assert; [by apply Hsane|]. apply wp_bind, wp_get.
  eapply wp_mono; [eapply pbuf_free_loop_spec; try done|].
  - intros y Hh. destruct ys as [|y' ys]; cbn in *; [done|]. injection Hh as ->.
    destruct H2 as (_ & b' & Hb' & _). split; [set_solver|]. eauto.
  - rewrite length_app in Hfuel. lia.
  - cbv beta. intros n h' [-> ->]. done.
Qed.

(** ** pbuf_realloc *)
Lemma realloc_skip_spec fuel grow p ls h d rem :
  pseg h p ls d None 0 -> ls <> [] -> NoDup ls -> (length ls <= fuel)%nat ->
  0 <= rem < 65536 -> rem = Z.of_nat (length d) + grow -> grow <= 0 ->
  wp (realloc_skip fuel grow p rem) h (fun '(q, rem') h' =>
    exists xs ys d1 d2 b, ls = xs ++ q :: ys /\ d = d1 ++ d2 /\
      rem' = rem - Z.of_nat (length d1) /\ h_pbufs h !! q = Some b /\ 0 <= rem' <= pb_len b /\
      touches xs h h' /\ pseg h' p xs d1 (Some q) rem' /\ packet h (Some q) (q :: ys) d2).
Proof.
  revert fuel p h d rem. induction ls as [|a ls IH]; intros fuel p h d rem Hs Hne Hnd Hf Hr Hrem Hg; [done|].
  pose proof Hs as Hs0. cbn in Hs.
  destruct Hs as (-> & b & pt & d1 & d2 & Hb & Hok & Hd & -> & Htot & Hs).
  destruct fuel as [|fuel]; [cbn in Hf; lia|]. cbn [realloc_skip].
  pose proof (bytes_at_length _ _ _ _ Hd) as Hlen.
  apply wp_bind. eapply wp_pget; [done|].
  apply NoDup_cons in Hnd as [Hna Hnd]. rewrite length_app in *.
  destruct (Z.ltb_spec (pb_len b) rem) as [Hlt|Hge].
  - apply wp_bind, wp_assert; [lia|]. apply wp_bind, wp_pset.
    rewrite (u16_small (rem - pb_len b)) by (unfold is_u16; lia).
    assert (u16 (pb_tot_len b + u16 grow) = rem) as ->.
    { unfold u16. rewrite Zplus_mod_idemp_r, Z.mod_small; lia. }
    set (b' := pb_set_tot_len rem b). set (h1 := h_set_pbufs _ h).
    assert (touches [a] h h1) as Ht1 by (eapply touches_insert; [set_solver|exact Hb|done]).
    assert (forall l, l ∈ ls -> l ∉ [a]) as Hxs by set_solver.
    assert (ls <> []) as Hne'.
    { intros ->. cbn in Hs. destruct Hs as [_ ->]. cbn in Hrem. lia. }
    eapply wp_mono; [eapply (IH fuel (pb_next b) h1 d2)|]; try done.
    + by eapply pseg_touches.
    + cbn in Hf. lia.
    + lia.
    + lia.
    + cbv beta. intros [q rem'] h' (xs & ys & e1 & e2 & bq & -> & -> & -> & Hbq & Hrq & Ht2 & Hs1 & Hs2).
      exists (a :: xs), ys, (d1 ++ e1), e2, bq. rewrite <- app_assoc, !length_app.
      do 2 (split; [done|]). split; [lia|].
      assert (q <> a) by set_solver. split; [by cbn in Hbq; rewrite lookup_insert_ne in Hbq|].
      split; [lia|].
      split; [eapply touches_trans; eapply touches_mono; [exact Ht1|set_solver|exact Ht2|set_solver]|].
      split.
      * eapply (pseg_cons _ _ _ b' pt).
        -- rewrite (touches_lookup _ _ _ _ Ht2) by set_solver. cbn. apply lookup_insert_eq.
        -- eapply pbuf_ok_update; [exact Hok|done|done|exact Hr|apply Hok].
        -- rewrite <- Hd. apply bytes_at_blocks. by rewrite (touches_blocks _ _ _ Ht2).
        -- cbn. lia.
        -- by replace (rem - Z.of_nat (length d1 + length e1)) with (rem - pb_len b - Z.of_nat (length e1)) by lia.
      * eapply pseg_frame; [exact Hs2|done|]. intros l Hl. cbn.
        rewrite lookup_insert_ne; [done|]. set_solver.
  - apply wp_ret. exists [], ls, [], (d1 ++ d2), b. cbn [app length].
    do 2 (split; [done|]). split; [lia|]. split; [done|]. split; [lia|].
    split; [apply touches_refl|]. done.
Qed.

(** No pbuf of the chain has its payload inside another pbuf of the chain. *)
Definition separate (h : heap) (ls : list loc) : Prop :=
  forall l b pt, l ∈ ls -> h_pbufs h !! l = Some b -> pb_payload b = Some pt ->
    p_loc pt = l \/ p_loc pt ∉ ls.

Lemma packet_head h p ls d :
  packet h (Some p) ls d -> exists b, h_pbufs h !! p = Some b /\
    sane_type (pb_type b) = true /\ pb_tot_len b = Z.of_nat (length d) /\
    0 < pb_ref b < 65536 /\ head ls = Some p.
Proof.
  destruct ls as [|l ls]; [by intros [? _]|].
  intros ([= <-] & b & pt & ? & ? & Hb & Hok & _ & _ & Ht & _).
  exists b. split; [done|]. split; [apply Hok|]. split; [lia|]. split; [apply Hok|done].
Qed.

Lemma refs_one_agree m m' xs :
  (forall l, l ∈ xs -> m' !! l = m !! l) -> refs_one m xs -> refs_one m' xs.
Proof. intros Hm H l b Hl Hb. rewrite Hm in Hb by done. eauto. Qed.

Lemma ok_block h l : h_ok h -> is_Some (h_pbufs h !! l) -> is_Some (h_blocks h !! l).
Proof. intros Hok Hl. destruct (ok_own _ Hok _ Hl) as (blk & ? & _). eauto. Qed.

(** Freeing a whole chain to which nothing else refers. *)
Lemma pbuf_free_packet h p ys d :
  h_ok h -> packet h (Some p) ys d -> refs_one (h_pbufs h) ys ->
  wp (pbuf_free (Some p)) h (fun n h' =>
    n = u8 (Z.of_nat (length ys)) /\ h' = freed ys None h).
Proof.
  intros Hok Hp Href. destruct (packet_head _ _ _ _ Hp) as (b & Hb & Hty & _).
  pose proof (pseg_links _ _ _ _ _ _ Hp) as Hl.
  eapply wp_mono; [apply (pbuf_free_links _ _ ys []); rewrite ?app_nil_r|]; try done.
  - intros l Hin. by eapply ok_block, links_dom.
  - intros b' Hb'. by simplify_eq.
Qed.

(** [if (q->next != NULL) pbuf_free(q->next)] *)
Lemma free_tail h q ys d :
  h_ok h -> packet h q ys d -> refs_one (h_pbufs h) ys ->
  wp (match q with Some _ => _ ← pbuf_free q; mret tt | None => mret tt end) h
     (fun _ h' => h' = freed ys None h).
Proof.
  intros Hok Hp Href. destruct q as [q|].
  - apply wp_bind. eapply wp_mono; [by eapply pbuf_free_packet|]. cbv beta. intros _ h' [_ ->]. done.
  - destruct ys; [|cbn in Hp; naive_solver]. apply wp_ret. by destruct h.
Qed.

(** The chain cut after its pbuf [q], of which [rem] bytes stay. *)
Lemma truncated_packet h h' p xs q qb pt d1 e1 rem :
  pseg h (Some p) xs d1 (Some q) rem -> h_pbufs h !! q = Some qb -> pbuf_ok q qb pt ->
  bytes_at h pt (pb_len qb) = Some e1 -> 0 <= rem <= pb_len qb -> rem < 65536 ->
  same_payloads (xs ++ [q]) h h' -> (forall l, l ∈ xs -> h_pbufs h' !! l = h_pbufs h !! l) ->
  h_pbufs h' !! q = Some (pb_set_next None (pb_set_tot_len rem (pb_set_len rem qb))) ->
  packet h' (Some p) (xs ++ [q]) (d1 ++ take (Z.to_nat rem) e1).
Proof.
  intros Hs Hq Hok He Hrem Hmax Hsame Hxs Hq'.
  pose proof (bytes_at_length _ _ _ _ He) as Hlen.
  assert (Z.of_nat (length (take (Z.to_nat rem) e1)) = rem) as Htk by (rewrite length_take; lia).
  apply pseg_app. exists (Some q), d1, (take (Z.to_nat rem) e1). split; [done|].
  rewrite Htk, Z.add_0_r. split.
  - eapply pseg_frame_gen; [exact Hs| |done].
    intros l b pt' Hl. apply Hsame. set_solver.
  - apply pseg_one. eexists _, pt. split; [exact Hq'|]. cbn. split; [|split; [|split; [lia|done]]].
    + eapply pbuf_ok_update; [exact Hok|done|done|cbn; unfold is_u16; lia|apply Hok].
    + destruct (bytes_at_split _ _ _ rem _ Hrem He) as [<- _]. apply bytes_at_blocks.
      eapply Hsame; [|exact Hq|apply Hok]. set_solver.
Qed.

Lemma pbuf_realloc_spec h p ls d n :
  h_ok h -> packet h (Some p) ls d -> separate h ls -> refs_one (h_pbufs h) (tail ls) ->
  0 <= n < Z.of_nat (length d) ->
  wp (pbuf_realloc p n) h (fun _ h' => exists xs ys, ls = xs ++ ys /\
    packet h' (Some p) xs (take (Z.to_nat n) d) /\
    (forall l, l ∈ ys -> h_pbufs h' !! l = None) /\
    (forall l, l ∉ ls -> h_pbufs h' !! l = h_pbufs h !! l /\ h_blocks h' !! l = h_blocks h !! l) /\
    h_asserts h' = h_asserts h).
Proof.
  intros Hok Hp Hsep Href Hn.
  pose proof (packet_fuel _ _ _ _ Hp) as Hfuel. pose proof (pseg_last_none _ _ _ _ Hp) as Hnd.
  pose proof (packet_length _ _ _ _ Hp) as Hmax.
  destruct (packet_head _ _ _ _ Hp) as (b & Hb & Hty & Htot & _ & Hhd).
  assert (ls <> []) as Hne by (by intros ->).
  unfold pbuf_realloc. apply wp_bind. eapply wp_pget; [done|].
  apply wp_bind, wp_assert; [done|].
  rewrite (proj2 (Z.leb_gt (pb_tot_len b) n)) by lia.
  apply wp_bind, wp_get, wp_bind.
  assert (s32 (n - pb_tot_len b) = n - Z.of_nat (length d)) as ->
    by (unfold s32; rewrite Htot, Z.mod_small; lia).
  eapply wp_mono; [eapply realloc_skip_spec; [exact Hp|done|done|lia|lia|lia|lia]|].
  cbv beta. intros [q rem] h1 (xs & ys & d1 & d2 & qb & -> & -> & -> & Hq & Hrem & Ht & Hs1 & Hs2).
  apply NoDup_app in Hnd as (Hndx & Hdj & Hndy). apply NoDup_cons in Hndy as [Hqy Hndy].
  assert (q ∉ xs) as Hqx by set_solver.
  assert (h_pbufs h1 !! q = Some qb) as Hq1 by (by rewrite (touches_lookup _ _ _ q Ht)).
  cbn in Hs2. destruct Hs2 as (_ & qb' & pt & e1 & e2 & Hq' & Hqok & Hqd & -> & Hqt & Hs2).
  assert (qb' = qb) as -> by congruence. clear Hq'.
  pose proof (bytes_at_length _ _ _ _ Hqd) as Hqlen.
  set (rem := n - Z.of_nat (length d1)) in *.
  apply wp_bind. eapply wp_pget; [done|]. apply wp_bind.
  eapply (wp_mono _ _ (fun r s => r = q /\ s = h1)).
  { case_match; [|done]. apply wp_bind. eapply wp_deref; [apply Hqok|]. apply wp_bind.
    by apply wp_assert. }
  cbv beta. intros ? ? [-> ->].
  apply wp_bind. eapply wp_pupd; [done|].
  apply wp_bind. eapply wp_pupd; [cbn; apply lookup_insert_eq|].
  apply wp_bind. eapply wp_pget; [cbn; apply lookup_insert_eq|].
  set (qb1 := pb_set_tot_len rem (pb_set_len rem qb)).
  set (h2 := h_set_pbufs (<[q := qb1]> (h_pbufs h1)) h1).
  match goal with |- wp _ ?s _ =>
    replace s with h2 by (unfold h2, h_set_pbufs; cbn; by rewrite insert_insert_eq) end.
  cbn [pb_next pb_set_tot_len pb_set_len].
  assert (touches (xs ++ [q]) h h2) as Ht2.
  { eapply touches_trans; [eapply touches_mono; [exact Ht|set_solver]|].
    eapply (touches_insert q qb1 qb _ h1); [set_solver|done|done]. }
  apply wp_bind.
  eapply (wp_mono _ _ (fun _ s => s = freed ys None h2)).
  { assert (forall l, l ∈ ys -> h_pbufs h2 !! l = h_pbufs h !! l) as Hys.
    { intros l Hl. apply (touches_lookup _ _ _ _ Ht2). set_solver. }
    eapply (free_tail h2 _ ys e2).
    - by eapply touches_ok.
    - eapply pseg_frame; [exact Hs2|by eapply touches_blocks|done].
    - eapply refs_one_agree; [exact Hys|]. intros l b' Hl. apply Href.
      destruct xs; cbn; set_solver. }
  cbv beta. intros _ ? ->.
  eapply wp_pupd.
  { cbn. rewrite deletes_lookup, decide_False by done. apply lookup_insert_eq. }
  exists (xs ++ [q]), ys. rewrite <- app_assoc. split; [done|]. split; [|split; [|split]].
  - replace (take (Z.to_nat n) (d1 ++ e1 ++ e2)) with (d1 ++ take (Z.to_nat rem) e1).
    2:{ rewrite take_app, (take_ge d1) by lia. f_equal.
        replace (Z.to_nat n - length d1)%nat with (Z.to_nat rem) by lia.
        rewrite take_app_le; [done|]. lia. }
    eapply (truncated_packet h1); [exact Hs1|exact Hq1|exact Hqok| |exact Hrem|lia| | |].
    + rewrite <- Hqd. apply bytes_at_blocks. by rewrite (touches_blocks _ _ _ Ht).
    + intros l b' pt' Hl Hb' Hpt'. cbn. rewrite deletes_lookup, decide_False; [done|].
      destruct (touches_payload _ _ _ _ _ Ht Hb') as (b0 & Hb0 & Hpt0 & _). rewrite Hpt' in Hpt0.
      destruct (Hsep l b0 pt') as [->|Hni]; [set_solver|done|done|set_solver|set_solver].
    + intros l Hl. cbn. rewrite lookup_insert_ne by set_solver.
      rewrite deletes_lookup, decide_False by set_solver. by rewrite lookup_insert_ne by set_solver.
    + cbn. apply lookup_insert_eq.
  - intros l Hl. cbn. rewrite lookup_insert_ne by set_solver.
    by rewrite deletes_lookup, decide_True.
  - intros l Hl. cbn. rewrite lookup_insert_ne by set_solver.
    rewrite !deletes_lookup, !decide_False by set_solver.
    rewrite lookup_insert_ne by set_solver.
    rewrite (touches_blocks _ _ _ Ht). split; [|done].
    apply (touches_lookup _ _ _ _ Ht). set_solver.
  - cbn. apply (touches_asserts _ _ _ Ht).
Qed.

(** ** pbuf_header *)

(** What [pbuf_header p (- n)] does to the struct. *)
Definition hide_header (n : Z) (b : pbuf) : pbuf :=
  pb_set_tot_len (pb_tot_len b - n) (pb_set_len (pb_len b - n)
    (pb_set_payload ((fun pt => ptr_add pt n) <$> pb_payload b) b)).

Lemma pbuf_header_hide_run h p ls d b n :
  packet h (Some p) ls d -> h_pbufs h !! p = Some b -> 0 < n <= pb_len b -> n <= 32768 ->
  wp (pbuf_header (Some p) (- n)) h (fun r h' =>
    r = 0 /\ h' = h_set_pbufs (<[p := hide_header n b]> (h_pbufs h)) h).
Proof.
  intros Hp Hb Hn Hs. destruct ls as [|l ls]; [by destruct Hp|].
  destruct Hp as ([= <-] & b' & pt & d1 & d2 & Hb' & Hok & Hd & -> & Ht & _). assert (b' = b) as -> by congruence. clear Hb'.
  pose proof (bytes_at_length _ _ _ _ Hd) as Hlen. rewrite length_app in Ht.
  destruct Hok as (Hpt & Hty & Hown & Htot & _). unfold is_u16 in Htot.
  unfold pbuf_header. apply wp_bind, wp_assert; [done|].
  rewrite (proj2 (Z.eqb_neq (- n) 0)) by lia. apply wp_bind. eapply wp_pget; [done|].
  rewrite (proj2 (Z.ltb_lt (- n) 0)), Z.opp_involutive, (u16_small n) by (unfold is_u16; lia).
  rewrite (proj2 (Z.leb_le n (pb_len b))) by lia. cbn [negb andb].
  assert (forall Q : Z -> heap -> Prop,
    Q 0 (h_set_pbufs (<[p := hide_header n b]> (h_pbufs h)) h) ->
    let b' := pb_set_payload (Some (ptr_add pt n)) b in
    wp (pset p (pb_set_tot_len (u16 (pb_tot_len b' + - n)) (pb_set_len (u16 (pb_len b' + - n)) b'));;
        mret 0) h Q) as Hfin.
  { intros Q HQ b'. apply wp_bind, wp_pset, wp_ret. subst b'. cbn [pb_set_payload pb_tot_len pb_len].
    rewrite !u16_small by (unfold is_u16; lia).
    unfold hide_header in HQ. by rewrite Hpt in HQ. }
  destruct ((pb_type b =? PBUF_RAM) || (pb_type b =? PBUF_POOL)) eqn:E1.
  - apply wp_bind. eapply wp_deref; [exact Hpt|]. cbn [p_loc ptr_add p_off].
    destruct Hown as [Hl Ho]; [unfold PBUF_RAM, PBUF_POOL in *; lia|].
    rewrite bool_decide_eq_true_2 by done. cbn [negb].
    rewrite (proj2 (Z.ltb_ge _ _)) by (change SIZEOF_STRUCT_PBUF with 16; lia).
    apply Hfin. done.
  - unfold sane_type in Hty.
    destruct ((pb_type b =? PBUF_REF) || (pb_type b =? PBUF_ROM)) eqn:E2;
      [|exfalso; repeat (apply orb_false_iff in E1 as [? ?]; apply orb_false_iff in E2 as [? ?]); lia].
    apply wp_bind. eapply wp_deref; [exact Hpt|]. apply Hfin. done.
Qed.

(** The packet after hiding its first [n] bytes. *)
Lemma hide_header_packet h p ls d b n :
  packet h (Some p) ls d -> h_pbufs h !! p = Some b -> 0 <= n <= pb_len b ->
  packet (h_set_pbufs (<[p := hide_header n b]> (h_pbufs h)) h) (Some p) ls (drop (Z.to_nat n) d).
Proof.
  intros Hp Hb Hn. pose proof (pseg_last_none _ _ _ _ Hp) as Hnd.
  destruct ls as [|l ls]; [by destruct Hp|].
  destruct Hp as ([= <-] & b' & pt & d1 & d2 & Hb' & Hok & Hd & -> & Ht & Hs). assert (b' = b) as -> by congruence. clear Hb'.
  apply NoDup_cons in Hnd as [Hni Hnd].
  pose proof (bytes_at_length _ _ _ _ Hd) as Hlen. rewrite length_app in Ht.
  destruct (bytes_at_split _ _ _ n _ Hn Hd) as [_ Hd'].
  destruct Hok as (Hpt & Hty & Hown & Htot & Href). unfold is_u16 in Htot.
  rewrite drop_app_le by lia. apply (pseg_cons _ _ _ (hide_header n b) (ptr_add pt n)).
  - cbn. apply lookup_insert_eq.
  - split; [by cbn; rewrite Hpt|]. split; [done|]. split.
    + intros H. destruct (Hown H) as [? ?]. cbn. split; [done|lia].
    + split; [cbn; unfold is_u16; lia|done].
  - exact Hd'.
  - cbn. rewrite length_drop. lia.
  - eapply pseg_frame; [exact Hs|done|]. intros l Hl. cbn.
    rewrite lookup_insert_ne; [done|]. by intros ->.
Qed.

(** Hiding a header and revealing it again restores the struct. *)
Lemma pbuf_header_reveal_run h p ls d b n :
  packet h (Some p) ls d -> h_pbufs h !! p = Some b -> 0 < n <= pb_len b -> n < 32768 ->
  pb_type b = PBUF_RAM \/ pb_type b = PBUF_POOL ->
  wp (pbuf_header (Some p) n) (h_set_pbufs (<[p := hide_header n b]> (h_pbufs h)) h)
     (fun r h' => r = 0 /\ h' = h).
Proof.
  intros Hp Hb Hn Hs Hty. destruct ls as [|l ls]; [by destruct Hp|].
  destruct Hp as ([= <-] & b' & pt & d1 & d2 & Hb' & Hok & Hd & -> & Ht & _). assert (b' = b) as -> by congruence. clear Hb'.
  pose proof (bytes_at_length _ _ _ _ Hd) as Hlen. rewrite length_app in Ht.
  destruct Hok as (Hpt & _ & Hown & Htot & _). unfold is_u16 in Htot.
  destruct (Hown Hty) as [Hl Ho].
  unfold pbuf_header. apply wp_bind, wp_assert; [done|].
  rewrite (proj2 (Z.eqb_neq n 0)) by lia. apply wp_bind.
  eapply wp_pget; [cbn; apply lookup_insert_eq|].
  rewrite (proj2 (Z.ltb_ge n 0)) by lia. cbn [andb].
  change (pb_type (hide_header n b)) with (pb_type b).
  assert ((pb_type b =? PBUF_RAM) || (pb_type b =? PBUF_POOL) = true) as ->
    by (destruct Hty as [-> | ->]; reflexivity).
  apply wp_bind. eapply wp_deref; [cbn; by rewrite Hpt|]. cbn [p_loc ptr_add p_off].
  rewrite bool_decide_eq_true_2 by done. cbn [negb].
  rewrite (proj2 (Z.ltb_ge _ _)) by (change SIZEOF_STRUCT_PBUF with 16; lia).
  apply wp_bind, wp_pset, wp_ret. split; [done|]. cbn.
  replace (p_off pt + n + - n) with (p_off pt) by lia.
  rewrite !u16_small by (unfold is_u16; lia).
  replace (pb_tot_len b - n + n) with (pb_tot_len b) by lia.
  replace (pb_len b - n + n) with (pb_len b) by lia.
  unfold h_set_pbufs, pb_set_tot_len, pb_set_len, pb_set_payload, ptr_add. cbn.
  replace (p_off pt + n + - n) with (p_off pt) by lia.
  rewrite insert_insert_eq. rewrite insert_id; [by destruct h|].
  rewrite Hb. f_equal. destruct pt, b; cbn in *. by subst.
Qed.

(** ** pbuf_alloc *)

(** The heap after malloc returned [data] and the struct [b] was written. *)
Definition alloced (h : heap) (data : list Z) (b : pbuf) : heap :=
  Heap (<[h_next h := Block 16 data]> (h_blocks h)) (<[h_next h := b]> (h_pbufs h))
       (Pos.succ (h_next h)) (S (h_nalloc h)) (h_env h) (h_asserts h).

(** Same objects: a failed allocation leaves only a trace in the call count. *)
Definition same_objects (h h' : heap) : Prop :=
  h_pbufs h' = h_pbufs h /\ h_blocks h' = h_blocks h /\ h_asserts h' = h_asserts h.

Lemma fresh_pbuf h : h_ok h -> h_pbufs h !! h_next h = None.
Proof.
  intros Hok. destruct (h_pbufs h !! h_next h) eqn:E; [|done].
  pose proof (ok_pbufs _ Hok (h_next h) ltac:(eauto)). lia.
Qed.
Lemma fresh_block h : h_ok h -> h_blocks h !! h_next h = None.
Proof.
  intros Hok. destruct (h_blocks h !! h_next h) eqn:E; [|done].
  pose proof (ok_blocks _ Hok (h_next h) ltac:(eauto)). lia.
Qed.

Lemma h_ok_alloced h data b : h_ok h -> bytes_ok data -> h_ok (alloced h data b).
Proof.
  intros [H1 H2 H3 H4] Hd. split; cbn.
  - intros l. rewrite lookup_insert. case_decide; [subst; lia|]. intros ?%H1. lia.
  - intros l. rewrite lookup_insert. case_decide; [subst; lia|]. intros ?%H2. lia.
  - intros l. rewrite !lookup_insert. case_decide; [eauto|]. apply H3.
  - intros l blk. rewrite lookup_insert. case_decide; [by intros [= <-]|]. apply H4.
Qed.

Lemma h_ok_pset h l b b' :
  h_ok h -> h_pbufs h !! l = Some b -> h_ok (h_set_pbufs (<[l := b']> (h_pbufs h)) h).
Proof.
  intros [H1 H2 H3 H4] Hl. split; cbn; try done.
  - intros l'. rewrite lookup_insert. case_decide; [subst|]; eauto.
  - intros l'. rewrite lookup_insert. case_decide; [subst|]; eauto.
Qed.

Lemma bytes_at_all h l base data off n :
  h_blocks h !! l = Some (Block base data) -> base <= off -> 0 <= n ->
  off + n <= base + Z.of_nat (length data) ->
  exists d, bytes_at h (Ptr l off) n = Some d /\ Z.of_nat (length d) = n.
Proof.
  intros Hb Ho Hn Hl. unfold bytes_at. cbn. rewrite Hb. cbn.
  replace ((0 <=? n) && (base <=? off) && (off + n <=? base + Z.of_nat (length data))) with true by lia.
  eexists. split; [done|]. rewrite length_take, length_drop. lia.
Qed.

Lemma align_id n : LWIP_MEM_ALIGN_SIZE n = n.
Proof. unfold LWIP_MEM_ALIGN_SIZE, MEM_ALIGNMENT. rewrite Z.land_m1_r. lia. Qed.

Lemma layer_offset_range layer off : layer_offset layer = Some off -> 0 <= off <= 54.
Proof. unfold layer_offset. repeat case_match; intros [= <-]; vm_compute; split; discriminate. Qed.

Lemma pbuf_alloc_ram_spec `{MempConf} h layer off n :
  h_ok h -> is_u16 n -> layer_offset layer = Some off ->
  wp (pbuf_alloc layer n PBUF_RAM) h (fun r h' =>
    match r with
    | None => h_env h (h_nalloc h) = None /\ same_objects h h'
    | Some p => p = h_next h /\ h_ok h' /\ exists d data,
        Z.of_nat (length data) = off + n /\ Z.of_nat (length d) = n /\ packet h' (Some p) [p] d /\
        h' = alloced h data (Pbuf None (Some (Ptr p (16 + off))) n n PBUF_RAM 0 1)
    end).
Proof.
  intros Hok Hn Hoff. pose proof (layer_offset_range _ _ Hoff) as Ho.
  unfold pbuf_alloc. rewrite Hoff. cbn [Z.eqb PBUF_RAM PBUF_POOL].
  rewrite !align_id. change SIZEOF_STRUCT_PBUF with 16.
  apply wp_bind, wp_bind. apply wp_malloc.
  - intros h' H1 H2 H3 H4 H5 H6 He. do 2 apply wp_ret. by repeat split.
  - intros data Hlen Hdata _. apply wp_bind, wp_pset, wp_bind, wp_assert.
    { unfold MEM_ALIGNMENT. by rewrite Z.mod_1_r. }
    apply wp_ret. apply wp_bind. eapply wp_pupd; [cbn; apply lookup_insert_eq|].
    apply wp_bind. eapply wp_pupd; [cbn; apply lookup_insert_eq|]. apply wp_ret.
    unfold h_set_pbufs. cbn. rewrite !insert_insert_eq.
    unfold pb_set_flags, pb_set_ref, LWIP_MEM_ALIGN. cbn. rewrite align_id.
    set (b := Pbuf _ _ _ _ _ _ _). fold (alloced h data b).
    split; [done|]. split; [by apply h_ok_alloced|].
    destruct (bytes_at_all (alloced h data b) (h_next h) 16 data (16 + off) n) as (d & Hd & Hdl).
    { cbn. apply lookup_insert_eq. } { lia. } { unfold is_u16 in Hn; lia. }
    { unfold is_u16 in Hn. lia. }
    exists d, data. split; [unfold is_u16 in Hn; lia|]. split; [done|]. split; [|done].
    refine (proj2 (pseg_one (alloced h data b) (h_next h) d None 0) _).
    exists b, (Ptr (h_next h) (16 + off)).
    split; [cbn; apply lookup_insert_eq|]. split; [|split; [done|split; [subst b; cbn; lia|done]]].
    subst b. split; [done|]. split; [done|]. split; [intros _; cbn; split; [done|lia]|]. done.
Qed.

(** A partially built pool chain [ls], ending in [r], with [rem] bytes to come.
    Its pbufs are new with respect to [h0]. *)
Record building (h0 h : heap) (p r : loc) (ls : list loc) (d : list Z) (rem : Z) : Prop := {
  bd_seg : pseg h (Some p) ls d None rem;
  bd_last : exists xs, ls = xs ++ [r];
  bd_new : forall l, l ∈ ls -> h_pbufs h0 !! l = None /\ h_blocks h0 !! l = None;
  bd_old : forall l, l ∉ ls -> h_pbufs h !! l = h_pbufs h0 !! l /\ h_blocks h !! l = h_blocks h0 !! l;
  bd_refs : refs_one (h_pbufs h) ls;
  bd_own : forall l b pt, l ∈ ls -> h_pbufs h !! l = Some b -> pb_payload b = Some pt -> p_loc pt = l;
  bd_fits : exists b pt, h_pbufs h !! p = Some b /\ pb_payload b = Some pt /\
    p_off pt + pb_len b <= SIZEOF_STRUCT_PBUF + PBUF_POOL_BUFSIZE_ALIGNED;
  bd_ok : h_ok h;
  bd_asserts : h_asserts h = h_asserts h0
}.

(** Giving up: the partial chain goes and the objects are those of [h0]. *)
Lemma building_free h0 h h1 p r ls d rem :
  building h0 h p r ls d rem -> same_objects h h1 ->
  wp (pbuf_free (Some p)) h1 (fun _ h' => same_objects h0 h').
Proof.
  intros B (Ep & Eb & Ea). destruct B as [Hs _ Hnew Hold Href _ _ Hok Has].
  pose proof (pseg_links _ _ _ _ _ _ Hs) as Hl.
  eapply wp_mono; [apply (pbuf_free_links _ _ ls [])|].
  - intros l Hin. rewrite Eb. by eapply ok_block, links_dom.
  - rewrite app_nil_r. by rewrite Ep.
  - intros b Hb. rewrite Ep in Hb. destruct ls as [|l ls]; [by destruct Hs|].
    destruct Hs as ([= <-] & b' & pt & ? & ? & Hb' & Hbok & _). simplify_eq. apply Hbok.
  - by rewrite Ep.
  - done.
  - cbv beta. intros _ h' [_ ->]. unfold freed, same_objects. cbn. rewrite Ep, Eb, Ea.
    split; [|split; [|done]]; apply map_eq; intros l; rewrite deletes_lookup; case_decide;
      try (symmetry; by apply Hnew); by apply Hold.
Qed.

(** Appending a fresh pool pbuf. *)
Lemma building_step h0 h p r ls d rem data :
  building h0 h p r ls d rem -> 0 < rem < 65535 -> bytes_ok data ->
  Z.of_nat (length data) = PBUF_POOL_BUFSIZE_ALIGNED ->
  (forall l, is_Some (h_pbufs h0 !! l) \/ is_Some (h_blocks h0 !! l) -> l <> h_next h) ->
  let q := h_next h in
  let len := Z.min rem PBUF_POOL_BUFSIZE_ALIGNED in
  let h1 := alloced h data (Pbuf None (Some (Ptr q 16)) rem len PBUF_POOL 0 1) in
  exists b d', h_pbufs h1 !! r = Some b /\ Z.of_nat (length d') = Z.of_nat (length d) + len /\
    building h0 (h_set_pbufs (<[r := pb_set_next (Some q) b]> (h_pbufs h1)) h1)
             p q (ls ++ [q]) d' (rem - len).
Proof.
  intros B Hrem Hdata Hlen Hfresh q len h1. destruct B as [Hs (xs & ->) Hnew Hold Href Hown Hfits Hok Has].
  assert (PBUF_POOL_BUFSIZE_ALIGNED = 1514) as HP by reflexivity.
  pose proof (fresh_pbuf h Hok) as Hq. fold q in Hq.
  assert (q ∉ xs ++ [r]) as Hqn.
  { intros Hin. pose proof (links_dom _ _ _ _ _ (pseg_links _ _ _ _ _ _ Hs) Hin) as [? ?]. congruence. }
  pose proof (links_NoDup _ _ _ (pseg_links _ _ _ _ _ _ Hs)) as Hnd.
  apply NoDup_app in Hnd as (_ & Hdj & _).
  apply pseg_app in Hs as (e & d1 & d2 & -> & Hs1 & Hs2).
  assert (e = Some r) as -> by (cbn in Hs2; tauto).
  pose proof Hs2 as Hr. rewrite pseg_one in Hr. destruct Hr as (b & pt & Hb & Hbok & Hd2 & Htot & Hnx).
  assert (h_pbufs h1 !! r = Some b) as Hb1 by (cbn; rewrite lookup_insert_ne; [done|set_solver]).
  destruct (bytes_at_all h1 q 16 data 16 len) as (dq & Hdq & Hdql);
    [cbn; apply lookup_insert_eq|lia|lia|lia|].
  exists b, (d1 ++ d2 ++ dq). split; [done|]. rewrite !length_app. split; [lia|].
  set (h2 := h_set_pbufs _ h1).
  assert (forall l, l <> r -> l <> q -> h_pbufs h2 !! l = h_pbufs h !! l) as Hp2.
  { intros l H1 H2. cbn. by rewrite !lookup_insert_ne. }
  assert (forall l, l <> q -> h_blocks h2 !! l = h_blocks h !! l) as Hb2.
  { intros l H2. cbn. by rewrite lookup_insert_ne. }
  assert (same_payloads (xs ++ [r]) h h2) as Hsame.
  { intros l b' pt' Hl Hb' Hpt'. apply Hb2. rewrite (Hown l b' pt') by done. set_solver. }
  assert (h_pbufs h2 !! q = Some (Pbuf None (Some (Ptr q 16)) rem len PBUF_POOL 0 1)) as Hq2.
  { cbn. rewrite lookup_insert_ne by set_solver. apply lookup_insert_eq. }
  assert (h_pbufs h2 !! r = Some (pb_set_next (Some q) b)) as Hr2 by apply lookup_insert_eq.
  assert (p <> q) as Hpq.
  { intros ->. destruct Hfits as (b0 & _ & Hp & _). congruence. }
  split.
  - apply pseg_app. exists (Some q), (d1 ++ d2), dq. rewrite <- app_assoc. split; [done|]. split.
    + apply pseg_app. exists (Some r), d1, d2. split; [done|].
      replace (Z.of_nat (length d2) + (Z.of_nat (length dq) + (rem - len)))
        with (Z.of_nat (length d2) + rem) by lia. split.
      * eapply pseg_frame_gen; [exact Hs1| |intros l Hl; apply Hp2; set_solver].
        intros l b' pt' Hl. apply Hsame. set_solver.
      * apply pseg_one. eexists _, pt. split; [exact Hr2|]. cbn.
        split; [by apply (pbuf_ok_update _ b); [..|apply Hbok|apply Hbok]|].
        split; [|split; [lia|done]].
        rewrite <- Hd2. apply bytes_at_blocks. eapply Hsame; [|exact Hb|apply Hbok]. set_solver.
    + apply pseg_one. eexists _, (Ptr q 16). split; [exact Hq2|]. cbn.
      split; [|split; [exact Hdq|split; [lia|done]]].
      split; [done|]. split; [done|]. split; [intros _; cbn; lia|]. cbn. unfold is_u16. lia.
  - by exists (xs ++ [r]).
  - intros l [Hl|Hl]%elem_of_app; [by apply Hnew|]. apply list_elem_of_singleton in Hl as ->.
    split; [destruct (h_pbufs h0 !! q) eqn:E|destruct (h_blocks h0 !! q) eqn:E]; try done;
      exfalso; eapply Hfresh; rewrite ?E; eauto.
  - intros l Hl. rewrite Hp2, Hb2 by set_solver. apply Hold. set_solver.
  - intros l b' Hl Hb'. destruct (decide (l = q)) as [->|]; [rewrite Hq2 in Hb'; by simplify_eq|].
    destruct (decide (l = r)) as [->|].
    + rewrite Hr2 in Hb'. simplify_eq. cbn. apply (Href r); [set_solver|done].
    + rewrite Hp2 in Hb' by done. apply (Href l); [set_solver|done].
  - intros l b' pt' Hl Hb'. destruct (decide (l = q)) as [->|]; [rewrite Hq2 in Hb'; injection Hb' as <-; by intros [= <-]|].
    destruct (decide (l = r)) as [->|].
    + rewrite Hr2 in Hb'. simplify_eq. cbn. apply (Hown r); [set_solver|done].
    + rewrite Hp2 in Hb' by done. apply (Hown l); [set_solver|done].
  - destruct Hfits as (b0 & pt0 & Hp & Hpt0 & Hf). destruct (decide (p = r)) as [->|].
    + assert (b0 = b) as -> by congruence. eexists _, pt0. by split; [exact Hr2|].
    + exists b0, pt0. by rewrite Hp2.
  - eapply h_ok_pset; [|exact Hb1]. by apply h_ok_alloced.
  - exact Has.
Qed.

Lemma alloc_pool_tail_spec fuel h0 h p r ls d rem :
  building h0 h p r ls d rem -> 0 <= rem < 65535 -> rem <= 1514 * Z.of_nat fuel ->
  (forall l, is_Some (h_pbufs h0 !! l) \/ is_Some (h_blocks h0 !! l) -> (l < h_next h)%positive) ->
  wp (@alloc_pool_tail memp_core fuel p r rem) h (fun ok h' =>
    if ok then exists r' ls' d', building h0 h' p r' ls' d' 0 /\
                 Z.of_nat (length d') = Z.of_nat (length d) + rem
    else same_objects h0 h').
Proof.
  revert h r ls d rem. induction fuel as [|fuel IH]; intros h r ls d rem B Hrem Hf Hlt.
  - cbn [alloc_pool_tail]. destruct (Z.ltb_spec 0 rem); [cbn in Hf; lia|]. apply wp_ret.
    assert (rem = 0) as -> by lia. exists r, ls, d. split; [done|lia].
  - cbn [alloc_pool_tail]. destruct (Z.ltb_spec 0 rem) as [Hpos|].
    2:{ apply wp_ret. assert (rem = 0) as -> by lia. exists r, ls, d. split; [done|lia]. }
    apply wp_bind. apply wp_malloc.
    + intros h' H1 H2 H3 H4 _ _ _. apply wp_bind.
      eapply wp_mono; [eapply (building_free h0 h h'); [exact B|done]|].
      cbv beta. intros _ h'' Hs. by apply wp_ret.
    + intros data Hlen Hdata _. rewrite !(u16_small rem) by (unfold is_u16; lia).
      apply wp_bind, wp_pset. cbn [h_set_pbufs h_blocks h_pbufs h_next h_nalloc h_env h_asserts].
      set (len := Z.min rem PBUF_POOL_BUFSIZE_ALIGNED).
      match goal with |- wp _ ?s _ => change s with
        (alloced h data (Pbuf None (Some (Ptr (h_next h) SIZEOF_STRUCT_PBUF)) rem len PBUF_POOL 0 1)) end.
      change SIZEOF_STRUCT_PBUF with 16 in *. set (h1 := alloced _ _ _).
      destruct (building_step h0 h p r ls d rem data B) as (b & d' & Hb & Hd' & B');
        [lia|done|by rewrite Hlen|intros l Hl%Hlt ->; lia|].
      fold len h1 in Hb, Hd', B'.
      apply wp_bind. eapply wp_pupd; [exact Hb|].
      set (h2 := h_set_pbufs _ h1) in *.
      apply wp_bind, wp_assert; [lia|]. apply wp_bind, wp_assert; [done|].
      destruct (bd_fits _ _ _ _ _ _ _ B') as (bp & pp & Hbp & Hpp & Hfit).
      apply wp_bind. eapply wp_pget; [exact Hbp|]. apply wp_bind. eapply wp_deref; [exact Hpp|].
      apply wp_bind, wp_assert; [by apply Z.leb_le|].
      assert (len = Z.min rem 1514) as Hlen' by reflexivity.
      eapply wp_mono; [apply (IH h2 (h_next h) (ls ++ [h_next h]) d'); [exact B'|lia|lia|]|].
      * intros l Hl%Hlt. cbn. lia.
      * cbv beta. intros [] h'; [|done]. intros (r' & ls' & d'' & HB & Hd''). exists r', ls', d''.
        split; [done|lia].
Qed.

(** Fields that the packet does not depend on. *)
Lemma packet_update_head h p ls d b b' :
  packet h (Some p) ls d -> h_pbufs h !! p = Some b ->
  pb_next b' = pb_next b -> pb_payload b' = pb_payload b -> pb_tot_len b' = pb_tot_len b ->
  pb_len b' = pb_len b -> pb_type b' = pb_type b -> 0 < pb_ref b' < 65536 ->
  packet (h_set_pbufs (<[p := b']> (h_pbufs h)) h) (Some p) ls d.
Proof.
  intros Hp Hb E1 E2 E3 E4 E5 Hr. pose proof (pseg_last_none _ _ _ _ Hp) as Hnd.
  destruct ls as [|l ls]; [by destruct Hp|].
  destruct Hp as ([= <-] & b0 & pt & d1 & d2 & Hb0 & Hok & Hd & -> & Ht & Hs).
  assert (b0 = b) as -> by congruence. apply NoDup_cons in Hnd as [Hni _]. rewrite length_app in Ht.
  apply (pseg_cons _ _ _ b' pt).
  - cbn. apply lookup_insert_eq.
  - eapply pbuf_ok_update; [exact Hok|done|done|rewrite E3; apply Hok|done].
  - by rewrite E4.
  - lia.
  - rewrite E1. eapply pseg_frame; [exact Hs|done|]. intros l Hl. cbn.
    rewrite lookup_insert_ne; [done|]. by intros ->.
Qed.

Lemma pbuf_alloc_pool_spec h layer off n :
  h_ok h -> is_u16 n -> layer_offset layer = Some off ->
  wp (@pbuf_alloc memp_core layer n PBUF_POOL) h (fun r h' =>
    match r with
    | None => same_objects h h'
    | Some p => exists ls d, Z.of_nat (length d) = n /\ packet h' (Some p) ls d /\ h_ok h' /\
        refs_one (h_pbufs h') ls /\
        (forall l, l ∈ ls -> h_pbufs h !! l = None /\ h_blocks h !! l = None) /\
        (forall l, l ∉ ls -> h_pbufs h' !! l = h_pbufs h !! l /\ h_blocks h' !! l = h_blocks h !! l) /\
        h_asserts h' = h_asserts h
    end).
Proof.
  intros Hok Hn Hoff. pose proof (layer_offset_range _ _ Hoff) as Ho. unfold is_u16 in Hn.
  unfold pbuf_alloc. rewrite Hoff. cbn [Z.eqb PBUF_RAM PBUF_POOL Pos.eqb].
  rewrite !align_id. change SIZEOF_STRUCT_PBUF with 16 in *.
  assert (PBUF_POOL_BUFSIZE_ALIGNED = 1514) as HP by reflexivity.
  apply wp_bind, wp_bind. apply wp_malloc.
  - intros h' H1 H2 H3 H4 H5 H6 He. do 2 apply wp_ret. by repeat split.
  - intros data Hlen Hdata _. apply wp_bind, wp_assert; [unfold MEM_ALIGNMENT; by rewrite Z.mod_1_r|].
    apply wp_bind, wp_pset. unfold LWIP_MEM_ALIGN. cbn [p_loc p_off]. rewrite align_id.
    set (len := Z.min n (PBUF_POOL_BUFSIZE_ALIGNED - off)). set (q := h_next h).
    cbn [h_set_pbufs h_blocks h_pbufs h_next h_nalloc h_env h_asserts].
    match goal with |- wp _ ?s _ => change s with
      (alloced h data (Pbuf None (Some (Ptr q (16 + off))) n len PBUF_POOL 0 1)) end.
    set (h1 := alloced _ _ _).
    apply wp_bind, wp_assert; [apply Z.leb_le; lia|].
    assert (s32 (n - len) = n - len) as -> by (unfold s32; rewrite Z.mod_small; lia).
    assert (Z.of_nat (length data) = 1514) as Hlen' by (rewrite Hlen; reflexivity).
    assert (0 <= len <= 1514 - off /\ len <= n) as Hlr by (subst len; lia).
    destruct (bytes_at_all h1 q 16 data (16 + off) len) as (d & Hd & Hdl);
      [cbn; apply lookup_insert_eq|lia|lia|lia|].
    assert (building h h1 q q [q] d (n - len)) as B.
    { split.
      - refine (proj2 (pseg_one h1 q d None (n - len)) _).
        eexists _, (Ptr q (16 + off)). split; [cbn; apply lookup_insert_eq|].
        split; [|split; [exact Hd|split; [cbn; lia|done]]].
        split; [done|]. split; [done|]. split; [intros _; cbn; lia|]. done.
      - by exists [].
      - intros l ->%list_elem_of_singleton. split; [by apply fresh_pbuf|by apply fresh_block].
      - intros l Hl. cbn. assert (h_next h <> l) by set_solver. by rewrite !lookup_insert_ne.
      - intros l b ->%list_elem_of_singleton. cbn. rewrite lookup_insert_eq. by intros [= <-].
      - intros l b pt ->%list_elem_of_singleton. cbn. rewrite lookup_insert_eq.
        intros [= <-]. by intros [= <-].
      - eexists _, _. split; [cbn; apply lookup_insert_eq|]. split; [done|]. cbn [p_off pb_len]. change SIZEOF_STRUCT_PBUF with 16. lia.
      - by apply h_ok_alloced.
      - done. }
    apply wp_bind. eapply wp_mono; [apply (alloc_pool_tail_spec pool_fuel h h1 q q [q] d); [exact B|lia|change (Z.of_nat pool_fuel) with 44; lia|]|].
    { intros l [Hl|Hl]; cbn; [pose proof (ok_pbufs _ Hok l Hl)|pose proof (ok_blocks _ Hok l Hl)]; lia. }
    cbv beta. intros [] h2; [|by intros Hsame; do 2 apply wp_ret].
    intros (r & ls & d' & B' & Hd'). apply wp_ret.
    assert (packet h2 (Some q) ls d') as Hpk by apply (bd_seg _ _ _ _ _ _ _ B').
    destruct (packet_head _ _ _ _ Hpk) as (b & Hb & _ & _ & Hr & _).
    apply wp_bind. eapply wp_pupd; [exact Hb|].
    apply wp_bind. eapply wp_pupd; [cbn; apply lookup_insert_eq|]. apply wp_ret.
    cbn [h_set_pbufs h_blocks h_pbufs h_next h_nalloc h_env h_asserts]. rewrite insert_insert_eq.
    set (b' := pb_set_flags 0 _).
    change (h_set_pbufs (<[q := b']> (h_pbufs h2)) (h_set_pbufs (<[q := pb_set_ref 1 b]> (h_pbufs h2)) h2))
      with (h_set_pbufs (<[q := b']> (h_pbufs h2)) h2).
    exists ls, d'. split; [lia|].
    split; [eapply packet_update_head; [exact Hpk|exact Hb|done..]|].
    destruct B' as [_ _ Hnew Hold Href _ _ Hok2 Has].
    split; [by eapply h_ok_pset|].
    assert (q ∈ ls) as Hql.
    { destruct ls; cbn in Hpk; [naive_solver|]. destruct Hpk as ([= <-] & _). set_solver. }
    split; [|split; [done|split; [|done]]].
    + intros l b0 Hl. cbn. rewrite lookup_insert. case_decide; [by intros [= <-]|]. by apply Href.
    + intros l Hl. cbn. rewrite lookup_insert_ne by set_solver. by apply Hold.
Qed.

(** PBUF_ROM and PBUF_REF: only the struct; the caller sets the payload. *)
Lemma pbuf_alloc_ref_spec `{MempConf} h layer off n type :
  h_ok h -> layer_offset layer = Some off -> type = PBUF_ROM \/ type = PBUF_REF ->
  wp (pbuf_alloc layer n type) h (fun r h' =>
    match r with
    | None => same_objects h h'
    | Some p => p = h_next h /\ h_ok h' /\
        exists data, h' = alloced h data (Pbuf None None n n type 0 1)
    end).
Proof.
  intros Hok Hoff Hty. unfold pbuf_alloc. rewrite Hoff.
  assert (type =? PBUF_POOL = false /\ type =? PBUF_RAM = false /\
    (type =? PBUF_ROM) || (type =? PBUF_REF) = true) as (-> & -> & ->) by (destruct Hty as [->| ->]; done).
  apply wp_bind, wp_bind. apply wp_malloc.
  - intros h' H1 H2 H3 H4 H5 H6 He. do 2 apply wp_ret. by repeat split.
  - intros data Hlen Hdata _. apply wp_bind, wp_pset. apply wp_ret.
    apply wp_bind. eapply wp_pupd; [cbn; apply lookup_insert_eq|].
    apply wp_bind. eapply wp_pupd; [cbn; apply lookup_insert_eq|]. apply wp_ret.
    split; [done|]. unfold h_set_pbufs. cbn. rewrite !insert_insert_eq.
    change SIZEOF_STRUCT_PBUF with 16. unfold pb_set_flags, pb_set_ref. cbn.
    set (b := Pbuf _ _ _ _ _ _ _). fold (alloced h data b).
    split; [by apply h_ok_alloced|]. by exists data.
Qed.
