(* ===== verification/PbufProps.v ===== *)
(** * Properties of packet buffers

    The contracts of pbuf.c that the protocols rely on, each with a concrete
    run.  [read_packet] and [h_okb] evaluate the invariants of [PbufSpec] on a
    given heap. *)
From S2P Require Import Prelude Heap Pbuf PbufSpec.

(** ** Deciding the invariants on a concrete heap *)
Fixpoint read_packet (n : nat) (h : heap) (p : option loc) : option (list loc * list Z) :=
  match p, n with
  | None, _ => Some ([], [])
  | _, O => None
  | Some l, S n =>
      b ← h_pbufs h !! l;
      pt ← pb_payload b;
      d1 ← bytes_at h pt (pb_len b);
      '(ls, d2) ← read_packet n h (pb_next b);
      if sane_type (pb_type b)
         && (if (pb_type b =? PBUF_RAM) || (pb_type b =? PBUF_POOL)
             then Pos.eqb (p_loc pt) l && (16 <=? p_off pt) else true)
         && bool_decide (is_u16 (pb_tot_len b)) && (0 <? pb_ref b) && (pb_ref b <? 65536)
         && (pb_tot_len b =? Z.of_nat (length (d1 ++ d2)))
      then Some (l :: ls, d1 ++ d2) else None
  end.

Lemma read_packet_sound n h p ls d : read_packet n h p = Some (ls, d) -> packet h p ls d.
Proof.
  revert p ls d. induction n as [|n IH]; intros [l|] ls d; cbn; try by intros [= <- <-].
  intros (b & Hb & (pt & Hpt & (d1 & Hd1 & ([ls2 d2] & H2%IH & H)%bind_Some)%bind_Some)%bind_Some)%bind_Some.
  destruct (_ && _ && _ && _ && _ && _) eqn:E; [|done]. injection H as <- <-.
  rewrite !andb_true_iff in E. destruct E as (((((E1 & E2) & E3%bool_decide_eq_true) & E4) & E5) & E6).
  apply (pseg_cons _ _ _ b pt); try done; [|apply Z.eqb_eq in E6; rewrite length_app in E6; lia].
  split; [done|]. split; [done|]. split; [|split; [done|lia]].
  intros Hty. assert ((pb_type b =? PBUF_RAM) || (pb_type b =? PBUF_POOL) = true) as Ht
    by (destruct Hty as [-> | ->]; done).
  rewrite Ht in E2. apply andb_true_iff in E2 as [->%Pos.eqb_eq ?]. split; [done|lia].
Qed.

Definition h_okb (h : heap) : bool :=
  forallb (fun '(l, _) => Pos.ltb l (h_next h) &&
      match h_blocks h !! l with Some blk => b_base blk =? 16 | None => false end)
    (map_to_list (h_pbufs h)) &&
  forallb (fun '(l, blk) => Pos.ltb l (h_next h) && bool_decide (bytes_ok (b_data blk)))
    (map_to_list (h_blocks h)).

Lemma h_okb_sound h : h_okb h = true -> h_ok h.
Proof.
  unfold h_okb. rewrite andb_true_iff, !forallb_forall. intros [H1 H2].
  assert (forall l b, h_pbufs h !! l = Some b -> (l < h_next h)%positive /\
    exists blk, h_blocks h !! l = Some blk /\ b_base blk = 16) as Hp.
  { intros l b Hb. specialize (H1 (l, b)). cbn in H1.
    apply elem_of_map_to_list, list_elem_of_In in Hb. specialize (H1 Hb).
    apply andb_true_iff in H1 as [?%Pos.ltb_lt H1]. split; [done|].
    destruct (h_blocks h !! l) as [blk|]; [|done]. exists blk. split; [done|lia]. }
  assert (forall l blk, h_blocks h !! l = Some blk -> (l < h_next h)%positive /\ bytes_ok (b_data blk)) as Hb.
  { intros l blk Hb. specialize (H2 (l, blk)). cbn in H2.
    apply elem_of_map_to_list, list_elem_of_In in Hb. specialize (H2 Hb).
    by apply andb_true_iff in H2 as [?%Pos.ltb_lt ?%bool_decide_eq_true]. }
  split.
  - intros l [b Hl]. by eapply Hp.
  - intros l [b Hl]. by eapply Hb.
  - intros l [b Hl]. by eapply Hp.
  - intros l blk Hl. by eapply Hb.
Qed.

Definition refs_oneb (m : gmap loc pbuf) (xs : list loc) : bool :=
  forallb (fun l => match m !! l with Some b => pb_ref b =? 1 | None => true end) xs.

Lemma refs_oneb_sound m xs : refs_oneb m xs = true -> refs_one m xs.
Proof.
  unfold refs_oneb. rewrite forallb_forall. intros H l b Hl%list_elem_of_In Hb.
  specialize (H l Hl). rewrite Hb in H. lia.
Qed.

(** Every payload is in the pbuf's own block: PBUF_RAM and PBUF_POOL chains. *)
Definition ownb (h : heap) (ls : list loc) : bool :=
  forallb (fun l => match h_pbufs h !! l ≫= pb_payload with
                    | Some pt => Pos.eqb (p_loc pt) l | None => true end) ls.

Lemma ownb_separate h ls : ownb h ls = true -> separate h ls.
Proof.
  unfold ownb. rewrite forallb_forall. intros H l b pt Hl%list_elem_of_In Hb Hpt.
  specialize (H l Hl). rewrite Hb in H. cbn in H. rewrite Hpt in H. left. by apply Pos.eqb_eq.
Qed.

(** The chain of the examples: "abc" in a 64-byte PBUF_RAM buffer with ten
    bytes of header room, then "de" in another one, and a spare buffer. *)
Definition ex_ram (off : Z) (d : list Z) : block :=
  Block 16 (repeat 0 (Z.to_nat (off - 16)) ++ d).
Definition ex_heap : heap :=
  Heap {[ 1%positive := ex_ram 26 [97; 98; 99]; 2%positive := ex_ram 16 [100; 101];
          3%positive := ex_ram 16 [102]; 4%positive := Block 0 [0; 0; 0; 0; 0; 0] ]}
       {[ 1%positive := Pbuf (Some 2%positive) (Some (Ptr 1 26)) 5 3 PBUF_RAM 0 1;
          2%positive := Pbuf None (Some (Ptr 2 16)) 2 2 PBUF_RAM 0 1;
          3%positive := Pbuf None (Some (Ptr 3 16)) 1 1 PBUF_RAM 0 2 ]}
       5 0 (fun n => if (n <? 1)%nat then Some (fun _ => 7) else None) [].

Lemma ex_packet : packet ex_heap (Some 1%positive) [1%positive; 2%positive] [97; 98; 99; 100; 101].
Proof. apply (read_packet_sound 3). vm_compute. done. Qed.
Lemma ex_ok : h_ok ex_heap.
Proof. apply h_okb_sound. vm_compute. done. Qed.

(** ** Copying out of a chain *)
Definition set_block (dst : loc) (blk : block) (h : heap) : heap :=
  h_set_blocks (<[dst := blk]> (h_blocks h)) h.

Lemma splice_nil i l : splice i [] l = l.
Proof. unfold splice. cbn. rewrite Nat.add_0_r. apply take_drop. Qed.

Lemma splice_length i bs l : (i + length bs <= length l)%nat -> length (splice i bs l) = length l.
Proof. intros H. unfold splice. rewrite !length_app, length_take, length_drop. lia. Qed.

Lemma splice_app i a b l :
  (i + length a <= length l)%nat -> splice (i + length a) b (splice i a l) = splice i (a ++ b) l.
Proof.
  intros H. unfold splice. rewrite length_app.
  replace (take (i + length a) (take i l ++ a ++ drop (i + length a) l)) with (take i l ++ a).
  2:{ rewrite app_assoc, take_app_length'; [done|]. rewrite length_app, length_take. lia. }
  replace (drop (i + length a + length b) (take i l ++ a ++ drop (i + length a) l))
    with (drop (i + (length a + length b)) l); [by rewrite <- !app_assoc|].
  rewrite app_assoc, drop_app_ge; rewrite !length_app, !length_take; [|lia].
  rewrite drop_drop. f_equal. lia.
Qed.

Lemma wp_store p bs h blk (Q : unit -> heap -> Prop) :
  h_blocks h !! p_loc p = Some blk -> b_base blk <= p_off p ->
  p_off p + Z.of_nat (length bs) <= b_base blk + Z.of_nat (length (b_data blk)) ->
  Q tt (set_block (p_loc p)
          (Block (b_base blk) (splice (Z.to_nat (p_off p - b_base blk)) bs (b_data blk))) h) ->
  wp (store p bs) h Q.
Proof.
  intros Hb H1 H2 HQ. unfold store. wp_go.
  replace (_ && _) with true; [by apply wp_put|]. symmetry. apply andb_true_iff. lia.
Qed.

(** The payloads of [ls] are outside the block [dst]. *)
Definition avoids (h : heap) (ls : list loc) (dst : loc) : Prop :=
  forall l b pt, l ∈ ls -> h_pbufs h !! l = Some b -> pb_payload b = Some pt -> p_loc pt <> dst.

Lemma set_block_id h dst blk : h_blocks h !! dst = Some blk -> set_block dst blk h = h.
Proof. intros H. unfold set_block. rewrite insert_id by done. by destruct h. Qed.

Lemma set_block_twice h dst blk blk' : set_block dst blk' (set_block dst blk h) = set_block dst blk' h.
Proof. unfold set_block, h_set_blocks. cbn. by rewrite insert_insert_eq. Qed.

Lemma packet_set_block h p ls d dst blk :
  packet h p ls d -> avoids h ls dst -> packet (set_block dst blk h) p ls d.
Proof.
  intros Hp Ha. eapply pseg_frame_gen; [exact Hp| |done]. intros l b pt Hl Hb Hpt. cbn.
  rewrite lookup_insert_ne; [done|]. intros ->. by eapply Ha.
Qed.

Lemma copy_partial_loop_spec fuel h p ls d len off n dst doff base data :
  packet h p ls d -> (length ls <= fuel)%nat -> avoids h ls dst ->
  h_blocks h !! dst = Some (Block base data) -> base <= doff ->
  0 <= off < 65536 -> 0 <= len -> 0 <= n -> n + len < 65536 ->
  doff + n + len <= base + Z.of_nat (length data) ->
  wp (copy_partial_loop fuel p (Ptr dst doff) len off n n) h (fun r h' =>
    let s := take (Z.to_nat len) (drop (Z.to_nat off) d) in
    r = n + Z.of_nat (length s) /\
    h' = set_block dst (Block base (splice (Z.to_nat (doff - base + n)) s data)) h).
Proof.
  revert h p ls d len off n data. induction fuel as [|fuel IH];
    intros h p ls d len off n data Hp Hf Ha Hb Hba Ho Hl Hn Hln Hroom.
  all: assert (take (Z.to_nat len) (drop (Z.to_nat off) d) = [] ->
    wp (mret n : M heap Z) h (fun r h' => let s := take (Z.to_nat len) (drop (Z.to_nat off) d) in
      r = n + Z.of_nat (length s) /\
      h' = set_block dst (Block base (splice (Z.to_nat (doff - base + n)) s data)) h)) as Hstop
    by (intros E; apply wp_ret; cbv zeta; rewrite E, splice_nil, set_block_id by done; cbn; split; [lia|done]).
  - destruct ls; [|cbn in Hf; lia]. destruct Hp as [-> ->]. cbn [copy_partial_loop].
    destruct (len =? 0); apply Hstop; by rewrite drop_nil, take_nil.
  - cbn [copy_partial_loop]. destruct (Z.eqb_spec len 0) as [->|Hne]; [by apply Hstop|].
    destruct ls as [|l ls].
    { destruct Hp as [-> ->]. apply Hstop. by rewrite drop_nil, take_nil. }
    destruct Hp as (-> & b & pt & d1 & d2 & Hlb & Hok & Hd1 & -> & Ht & Hp).
    assert (avoids h ls dst) as Ha' by (intros l' b' pt' Hl'; apply Ha; by right).
    pose proof (bytes_at_length _ _ _ _ Hd1) as Hlen. cbn in Hf.
    destruct Hok as (Hpt & Hsane & Hown & Htot & Href). unfold is_u16 in Htot.
    apply wp_bind. eapply wp_pget; [exact Hlb|].
    destruct (negb (off =? 0) && (pb_len b <=? off)) eqn:Hskip.
    + rewrite u16_small by (unfold is_u16; lia).
      eapply wp_mono; [by eapply (IH h (pb_next b) ls d2); eauto with lia|]. cbv beta zeta.
      rewrite (drop_app_ge d1 d2) by lia.
      by replace (Z.to_nat off - length d1)%nat with (Z.to_nat (off - pb_len b)) by lia.
    + rewrite length_app in Ht.
      assert (0 <= off <= pb_len b) as Hoff by (destruct (Z.eqb_spec off 0); cbn in Hskip; lia).
      rewrite (u16_small (pb_len b - off)) by (unfold is_u16; lia).
      set (bc := if len <? pb_len b - off then len else pb_len b - off).
      assert (bc = Z.min len (pb_len b - off)) as Hbc by (subst bc; destruct (Z.ltb_spec len (pb_len b - off)); lia).
      clearbody bc. apply wp_bind. eapply wp_deref; [exact Hpt|].
      destruct (bytes_at_split h pt (pb_len b) off d1) as [_ Hd1']; [lia|done|].
      destruct (bytes_at_split h (ptr_add pt off) (pb_len b - off) bc _ ltac:(lia) Hd1') as [Hd _].
      set (s1 := take (Z.to_nat bc) (drop (Z.to_nat off) d1)) in *.
      pose proof (bytes_at_length _ _ _ _ Hd) as Hls.
      apply wp_bind. eapply wp_load; [exact Hd|].
      apply wp_bind. eapply wp_store; [exact Hb|cbn; lia|cbn; lia|]. cbn [p_loc p_off ptr_add b_base b_data].
      rewrite !u16_small by (unfold is_u16; lia).
      eapply wp_mono; [eapply (IH (set_block dst _ h) (pb_next b) ls d2)|].
      * by apply packet_set_block.
      * lia.
      * exact Ha'.
      * cbn. apply lookup_insert_eq.
      * done.
      * lia.
      * lia.
      * lia.
      * lia.
      * rewrite splice_length; lia.
      * cbv beta zeta. intros r h' [-> ->]. rewrite set_block_twice.
        assert (take (Z.to_nat len) (drop (Z.to_nat off) (d1 ++ d2)) =
                s1 ++ take (Z.to_nat (len - bc)) (drop (Z.to_nat 0) d2)) as ->.
        { rewrite drop_app_le by lia. rewrite take_app. subst s1. rewrite length_drop.
          destruct (Z.min_spec len (pb_len b - off)) as [[? Hm]|[? Hm]]; rewrite Hm in Hbc; subst bc.
          - replace (Z.to_nat len - _)%nat with 0%nat by lia. by rewrite Z.sub_diag.
          - rewrite !(take_ge (drop _ d1)) by (rewrite length_drop; lia). do 2 f_equal. lia. }
        rewrite length_app. split; [lia|]. f_equal. f_equal.
        replace (Z.to_nat (doff - base + (n + bc))) with (Z.to_nat (doff - base + n) + length s1)%nat by lia.
        replace (Z.to_nat (doff + n - base)) with (Z.to_nat (doff - base + n)) by lia.
        apply splice_app. lia.
Qed.

(** ** Properties *)

(** C27: pbuf_copy_partial copies exactly the requested slice of the chained
    payload, whatever way the chain cuts it, clipped to what is there; it
    returns the number of bytes copied and writes nothing else. *)
Theorem pbuf_copy_partial_slice h p ls d len off dst doff base data :
  packet h (Some p) ls d -> avoids h ls dst ->
  h_blocks h !! dst = Some (Block base data) -> base <= doff ->
  is_u16 off -> is_u16 len -> doff + len <= base + Z.of_nat (length data) ->
  wp (pbuf_copy_partial (Some p) (Some (Ptr dst doff)) len off) h (fun r h' =>
    let s := take (Z.to_nat len) (drop (Z.to_nat off) d) in
    r = Z.of_nat (length s) /\
    h' = set_block dst (Block base (splice (Z.to_nat (doff - base)) s data)) h).
Proof.
  intros Hp Ha Hb Hba Ho Hl Hroom. unfold is_u16 in *. unfold pbuf_copy_partial. wp_go.
  pose proof (packet_fuel _ _ _ _ Hp).
  eapply wp_mono; [eapply copy_partial_loop_spec; eauto with lia|]. cbv beta zeta.
  intros r h' [-> ->]. rewrite Z.add_0_r. done.
Qed.

Lemma pbuf_copy_partial_slice_witness :
  packet ex_heap (Some 1%positive) [1%positive; 2%positive] [97; 98; 99; 100; 101] /\
  wp (pbuf_copy_partial (Some 1%positive) (Some (Ptr 4 1)) 3 2) ex_heap (fun r h' =>
    let s := take (Z.to_nat 3) (drop (Z.to_nat 2) [97; 98; 99; 100; 101]) in
    r = Z.of_nat (length s) /\
    h' = set_block 4 (Block 0 (splice (Z.to_nat (1 - 0)) s [0; 0; 0; 0; 0; 0])) ex_heap).
Proof.
  split; [exact ex_packet|].
  apply (pbuf_copy_partial_slice ex_heap 1 _ _ 3 2 4 1 0 [0; 0; 0; 0; 0; 0] ex_packet).
  - intros l b pt Hl Hb Hpt. repeat (apply elem_of_cons in Hl as [->|Hl]); [| |by apply elem_of_nil in Hl].
    all: vm_compute in Hb; injection Hb as <-; injection Hpt as <-; done.
  - reflexivity.
  - lia.
  - unfold is_u16; lia.
  - unfold is_u16; lia.
  - cbn; lia.
Defined.

(** C28: pbuf_realloc shrinks a chain to exactly the first bytes of its payload:
    the pbufs past the cut are freed, the total lengths of the others are
    brought in line, and no other pbuf or block changes. *)
Theorem pbuf_realloc_truncates h p ls d n :
  h_ok h -> packet h (Some p) ls d -> separate h ls -> refs_one (h_pbufs h) (tail ls) ->
  0 <= n < Z.of_nat (length d) ->
  wp (pbuf_realloc p n) h (fun _ h' => exists xs ys, ls = xs ++ ys /\
    packet h' (Some p) xs (take (Z.to_nat n) d) /\
    (forall l, l ∈ ys -> h_pbufs h' !! l = None) /\
    (forall l, l ∉ ls -> h_pbufs h' !! l = h_pbufs h !! l /\ h_blocks h' !! l = h_blocks h !! l) /\
    h_asserts h' = h_asserts h).
Proof. exact (pbuf_realloc_spec h p ls d n). Qed.

Lemma pbuf_realloc_truncates_witness :
  packet ex_heap (Some 1%positive) [1%positive; 2%positive] [97; 98; 99; 100; 101] /\
  wp (pbuf_realloc 1 2) ex_heap (fun _ h' => exists xs ys, [1%positive; 2%positive] = xs ++ ys /\
    packet h' (Some 1%positive) xs (take (Z.to_nat 2) [97; 98; 99; 100; 101]) /\
    (forall l, l ∈ ys -> h_pbufs h' !! l = None) /\
    (forall l, l ∉ [1%positive; 2%positive] -> h_pbufs h' !! l = h_pbufs ex_heap !! l /\
       h_blocks h' !! l = h_blocks ex_heap !! l) /\
    h_asserts h' = h_asserts ex_heap).
Proof.
  split; [exact ex_packet|]. apply pbuf_realloc_truncates.
  - exact ex_ok.
  - exact ex_packet.
  - apply ownb_separate. vm_compute. done.
  - apply refs_oneb_sound. vm_compute. done.
  - cbn. lia.
Defined.

(** hiding a header drops exactly its bytes from the payload, and revealing
    it again restores the very same heap: the two calls around the processing
    of an upper layer lose nothing. *)
Theorem pbuf_header_roundtrip h p ls d b n :
  packet h (Some p) ls d -> h_pbufs h !! p = Some b -> 0 < n <= pb_len b -> n < 32768 ->
  pb_type b = PBUF_RAM \/ pb_type b = PBUF_POOL ->
  wp (pbuf_header (Some p) (- n)) h (fun r h1 =>
    r = 0 /\ packet h1 (Some p) ls (drop (Z.to_nat n) d) /\
    wp (pbuf_header (Some p) n) h1 (fun r' h2 => r' = 0 /\ h2 = h)).
Proof.
  intros Hp Hb Hn Hs Hty.
  eapply wp_mono; [eapply pbuf_header_hide_run; eauto with lia|]. cbv beta. intros r h1 [-> ->].
  split; [done|]. split; [eapply hide_header_packet; eauto with lia|].
  by eapply pbuf_header_reveal_run.
Qed.

Lemma pbuf_header_roundtrip_witness :
  packet ex_heap (Some 1%positive) [1%positive; 2%positive] [97; 98; 99; 100; 101] /\
  wp (pbuf_header (Some 1%positive) (- 2)) ex_heap (fun r h1 =>
    r = 0 /\ packet h1 (Some 1%positive) [1%positive; 2%positive] (drop (Z.to_nat 2) [97; 98; 99; 100; 101]) /\
    wp (pbuf_header (Some 1%positive) 2) h1 (fun r' h2 => r' = 0 /\ h2 = ex_heap)).
Proof.
  split; [exact ex_packet|].
  apply (pbuf_header_roundtrip ex_heap 1 _ _ (Pbuf (Some 2%positive) (Some (Ptr 1 26)) 5 3 PBUF_RAM 0 1) 2 ex_packet);
    [reflexivity|cbn; lia|lia|by left].
Defined.

(** Moving the payload of a fresh buffer into its header room. *)
Lemma pbuf_header_room_run h p b off k :
  h_pbufs h !! p = Some b -> pb_payload b = Some (Ptr p (16 + off)) -> pb_type b = PBUF_RAM ->
  0 < k < 32768 ->
  wp (pbuf_header (Some p) k) h (fun r h' =>
    if k <=? off
    then r = 0 /\ h' = h_set_pbufs (<[p := pb_set_tot_len (u16 (pb_tot_len b + k))
           (pb_set_len (u16 (pb_len b + k)) (pb_set_payload (Some (Ptr p (16 + off - k))) b))]> (h_pbufs h)) h
    else r = 1 /\ h' = h).
Proof.
  intros Hb Hpt Hty Hk. unfold pbuf_header. cbn [is_some].
  apply wp_bind, wp_assert; [done|]. replace (k =? 0) with false by lia.
  apply wp_bind. eapply wp_pget; [exact Hb|]. rewrite Hty.
  replace (k <? 0) with false by lia. cbn [andb orb Z.eqb PBUF_RAM].
  apply wp_bind. eapply wp_deref; [exact Hpt|]. cbn [ptr_add p_loc p_off].
  rewrite bool_decide_eq_true_2 by done. cbn [negb].
  change SIZEOF_STRUCT_PBUF with 16. replace (16 + off + - k <? 16) with (negb (k <=? off)) by lia.
  destruct (k <=? off) eqn:E; cbn [negb].
  - apply wp_bind, wp_pset, wp_ret. split; [done|]. cbn. by replace (16 + off + - k) with (16 + off - k) by lia.
  - apply wp_bind, wp_pset, wp_ret. split; [done|]. rewrite insert_id; [by destruct h|].
    rewrite Hb. f_equal. destruct b. cbn in *. by rewrite Hpt.
Qed.

(** a PBUF_RAM buffer has room for the headers of the layers below the one
    it was asked for and for nothing more: a header of at most the layer's
    offset can be added in front of the payload, giving a packet of the larger
    size whose tail is the old payload; a larger one is refused and leaves the
    buffer as it was.  A failed allocation changes nothing. *)
Theorem pbuf_alloc_header_room `{MempConf} h layer off n k :
  h_ok h -> is_u16 n -> layer_offset layer = Some off -> 0 < k < 32768 -> n + k < 65536 ->
  wp (p ← pbuf_alloc layer n PBUF_RAM;
      match p with None => mret None | Some p => r ← pbuf_header (Some p) k; mret (Some (p, r)) end)
    h (fun res h' =>
      match res with
      | None => h_env h (h_nalloc h) = None /\ same_objects h h'
      | Some (p, r) => h_pbufs h !! p = None /\ h_ok h' /\
          if k <=? off
          then r = 0 /\ exists d, Z.of_nat (length d) = n + k /\ packet h' (Some p) [p] d
          else r = 1 /\ exists d, Z.of_nat (length d) = n /\ packet h' (Some p) [p] d
      end).
Proof.
  intros Hok Hn Hoff Hk Hnk. pose proof (layer_offset_range _ _ Hoff). unfold is_u16 in Hn.
  apply wp_bind. eapply wp_mono; [eapply pbuf_alloc_ram_spec; eauto|]. cbv beta.
  intros [p|] h1; [|intros Hs; by apply wp_ret].
  intros (-> & Hok1 & d & data & _ & Hd & Hp & ->). set (p := h_next h) in *.
  apply wp_bind. eapply wp_mono;
    [apply (pbuf_header_room_run _ p (Pbuf None (Some (Ptr p (16 + off))) n n PBUF_RAM 0 1) off k);
     [cbn; apply lookup_insert_eq|done|done|done]|].
  cbv beta. intros r h2 Hr. apply wp_ret. split; [by apply fresh_pbuf|].
  destruct (Z.leb_spec k off); destruct Hr as [-> ->].
  - split; [eapply h_ok_pset; [done|cbn; apply lookup_insert_eq]|]. split; [done|].
    destruct (pseg_one (alloced h data (Pbuf None (Some (Ptr p (16 + off))) n n PBUF_RAM 0 1)) p d None 0) as [Hone _].
    destruct (Hone Hp) as (b & pt & Hb & Hpok & Hby & _ & _).
    cbn in Hb. unfold p in Hb. rewrite lookup_insert_eq in Hb. injection Hb as <-. destruct Hpok as ([= <-] & _).
    cbn [pb_len] in Hby. unfold bytes_at in Hby. cbn in Hby. rewrite lookup_insert_eq in Hby. cbn in Hby.
    destruct (_ && _) eqn:E in Hby; [|done]. apply andb_true_iff in E as [_ E%Z.leb_le].
    set (b' := pb_set_tot_len _ _). set (h2 := h_set_pbufs _ _).
    destruct (bytes_at_all h2 p 16 data (16 + off - k) (n + k)) as (d' & Hd' & Hl);
      [cbn; apply lookup_insert_eq|lia|lia|lia|].
    exists d'. split; [done|]. refine (proj2 (pseg_one h2 p d' None 0) _).
    assert (u16 (n + k) = n + k) as Hu by (apply u16_small; unfold is_u16; lia).
    exists b', (Ptr p (16 + off - k)). split; [cbn; apply lookup_insert_eq|].
    subst b'. cbn. rewrite Hu. split; [|split; [done|split; [lia|done]]].
    unfold pbuf_ok. cbn. unfold is_u16. repeat split; try done; try lia.
  - split; [done|]. split; [done|]. by exists d.
Qed.

Lemma pbuf_alloc_header_room_witness :
  layer_offset PBUF_TRANSPORT = Some 54 /\
  wp (p ← @pbuf_alloc memp_nsc PBUF_TRANSPORT 3 PBUF_RAM;
      match p with None => mret None | Some p => r ← pbuf_header (Some p) 20; mret (Some (p, r)) end)
    ex_heap (fun res h' =>
      match res with
      | None => h_env ex_heap (h_nalloc ex_heap) = None /\ same_objects ex_heap h'
      | Some (p, r) => h_pbufs ex_heap !! p = None /\ h_ok h' /\
          if 20 <=? 54
          then r = 0 /\ exists d, Z.of_nat (length d) = 3 + 20 /\ packet h' (Some p) [p] d
          else r = 1 /\ exists d, Z.of_nat (length d) = 3 /\ packet h' (Some p) [p] d
      end).
Proof.
  split; [reflexivity|]. apply (@pbuf_alloc_header_room memp_nsc ex_heap PBUF_TRANSPORT 54 3 20 ex_ok);
    [unfold is_u16; lia|reflexivity|lia|lia].
Defined.

(** with pool elements as core/memp.c sizes them, a PBUF_POOL allocation is
    all or nothing: it returns a chain of fresh, singly referenced pbufs whose
    payload is exactly the bytes asked for, or, when the pool runs out part of
    the way, NULL after giving back every element it took. *)
Theorem pbuf_alloc_pool_all_or_nothing h layer off n :
  h_ok h -> is_u16 n -> layer_offset layer = Some off ->
  wp (@pbuf_alloc memp_core layer n PBUF_POOL) h (fun r h' =>
    match r with
    | None => same_objects h h'
    | Some p => exists ls d, Z.of_nat (length d) = n /\ packet h' (Some p) ls d /\ h_ok h' /\
        refs_one (h_pbufs h') ls /\
        (forall l, l ∈ ls -> h_pbufs h !! l = None /\ h_blocks h !! l = None) /\
        (forall l, l ∉ ls -> h_pbufs h' !! l = h_pbufs h !! l /\ h_blocks h' !! l = h_blocks h !! l) /\
        h_asserts h' = h_asserts h
    end).
Proof. exact (pbuf_alloc_pool_spec h layer off n). Qed.

Lemma pbuf_alloc_pool_all_or_nothing_witness :
  (exists h', @pbuf_alloc memp_core PBUF_RAW 2000 PBUF_POOL ex_heap = Done (None, h')) /\
  wp (@pbuf_alloc memp_core PBUF_RAW 2000 PBUF_POOL) ex_heap (fun r h' =>
    match r with
    | None => same_objects ex_heap h'
    | Some p => exists ls d, Z.of_nat (length d) = 2000 /\ packet h' (Some p) ls d /\ h_ok h' /\
        refs_one (h_pbufs h') ls /\
        (forall l, l ∈ ls -> h_pbufs ex_heap !! l = None /\ h_blocks ex_heap !! l = None) /\
        (forall l, l ∉ ls -> h_pbufs h' !! l = h_pbufs ex_heap !! l /\
           h_blocks h' !! l = h_blocks ex_heap !! l) /\
        h_asserts h' = h_asserts ex_heap
    end).
Proof.
  split; [eexists; vm_compute; reflexivity|].
  apply (pbuf_alloc_pool_all_or_nothing ex_heap PBUF_RAW 0 2000 ex_ok); [unfold is_u16; lia|reflexivity].
Defined.

(** in the simulator's build a pool element is only as large as the
    struct (support.c, memp_sizes), so a PBUF_POOL buffer is returned with a
    length it has no bytes for, and no assertion notices. *)
Theorem nsc_pool_buffer_has_no_payload h layer off n junk :
  h_ok h -> layer_offset layer = Some off -> 0 < n <= 1460 -> h_env h (h_nalloc h) = Some junk ->
  wp (@pbuf_alloc memp_nsc layer n PBUF_POOL) h (fun r h' =>
    exists p b pt, r = Some p /\ h_pbufs h' !! p = Some b /\ pb_len b = n /\
      pb_payload b = Some pt /\ (forall k, 0 < k -> bytes_at h' pt k = None) /\
      h_asserts h' = h_asserts h).
Proof.
  intros Hok Hoff Hn Henv. pose proof (layer_offset_range _ _ Hoff) as Ho.
  unfold pbuf_alloc. rewrite Hoff. cbn [Z.eqb PBUF_RAM PBUF_POOL Pos.eqb].
  rewrite !align_id. change SIZEOF_STRUCT_PBUF with 16 in *.
  assert (PBUF_POOL_BUFSIZE_ALIGNED = 1514) as HP by reflexivity.
  apply wp_bind, wp_bind. apply wp_malloc; [by intros h' _ _ _ _ _ _ E; rewrite Henv in E|].
  intros data Hlen _ _. apply wp_bind, wp_assert; [unfold MEM_ALIGNMENT; by rewrite Z.mod_1_r|].
  apply wp_bind, wp_pset. unfold LWIP_MEM_ALIGN. cbn [p_loc p_off]. rewrite align_id, HP.
  rewrite Z.min_l by lia. apply wp_bind, wp_assert; [apply Z.leb_le; lia|].
  replace (s32 (n - n)) with 0 by (by rewrite Z.sub_diag). apply wp_bind.
  cbn [alloc_pool_tail pool_fuel Z.ltb Z.compare]. do 2 apply wp_ret.
  apply wp_bind. eapply wp_pupd; [cbn; apply lookup_insert_eq|].
  apply wp_bind. eapply wp_pupd; [cbn; apply lookup_insert_eq|]. apply wp_ret.
  eexists _, _, (Ptr (h_next h) (16 + off)). split; [done|]. cbn.
  split; [apply lookup_insert_eq|]. split; [done|]. split; [done|]. split; [|done].
  intros k Hk. unfold bytes_at. cbn. rewrite lookup_insert_eq. cbn.
  change SIZEOF_STRUCT_PBUF with 16 in *.
  replace (Z.of_nat (length data)) with 0; [|rewrite Hlen; reflexivity].
  replace (_ && _) with false; [done|]. symmetry. rewrite !andb_false_iff. right. apply Z.leb_gt. lia.
Qed.

Lemma nsc_pool_buffer_has_no_payload_witness :
  h_ok ex_heap /\
  wp (@pbuf_alloc memp_nsc PBUF_RAW 100 PBUF_POOL) ex_heap (fun r h' =>
    exists p b pt, r = Some p /\ h_pbufs h' !! p = Some b /\ pb_len b = 100 /\
      pb_payload b = Some pt /\ (forall k, 0 < k -> bytes_at h' pt k = None) /\
      h_asserts h' = h_asserts ex_heap).
Proof.
  split; [exact ex_ok|].
  apply (nsc_pool_buffer_has_no_payload ex_heap PBUF_RAW 0 100 (fun _ => 7) ex_ok); [reflexivity|lia|reflexivity].
Defined.

(** ** Sharing a tail *)
Lemma pb_ref_up_down b :
  pb_set_ref (pb_ref (pb_set_ref (pb_ref b + 1) b) - 1) (pb_set_ref (pb_ref b + 1) b) = b.
Proof. destruct b as [n p t l ty f r]. unfold pb_set_ref. cbn [pb_ref pb_next pb_payload pb_tot_len pb_len pb_type pb_flags]. by rewrite Z.add_simpl_r. Qed.

Lemma dec_ref_packet h1 xs t ys d2 tb :
  packet h1 (Some t) ys d2 -> xs ## ys -> h_pbufs h1 !! t = Some tb -> 1 < pb_ref tb ->
  (forall l b pt, l ∈ ys -> h_pbufs h1 !! l = Some b -> pb_payload b = Some pt -> p_loc pt ∉ xs) ->
  packet (freed xs (Some t) h1) (Some t) ys d2 /\
  h_pbufs (freed xs (Some t) h1) !! t = Some (pb_set_ref (pb_ref tb - 1) tb).
Proof.
  intros Ht Hdis Htb Hr Hav.
  destruct (packet_head _ _ _ _ Ht) as (b & Hb & _ & _ & Hrb & Hh).
  assert (b = tb) as -> by congruence.
  assert (t ∈ ys) as Hty by (destruct ys; [done|]; injection Hh as ->; by left).
  set (h2 := Heap (deletes xs (h_blocks h1)) (deletes xs (h_pbufs h1)) (h_next h1) (h_nalloc h1)
               (h_env h1) (h_asserts h1)).
  assert (packet h2 (Some t) ys d2) as Hp2.
  { eapply pseg_frame_gen; [exact Ht| |].
    - intros l b pt Hl Hlb Hpt. cbn. rewrite deletes_lookup, decide_False; [done|by eapply Hav].
    - intros l Hl. cbn. rewrite deletes_lookup, decide_False; [done|set_solver]. }
  assert (h_pbufs h2 !! t = Some tb) as Htb2
    by (cbn; rewrite deletes_lookup, decide_False; [done|set_solver]).
  split; [|cbn; by rewrite lookup_alter_eq, (Htb2 : deletes xs (h_pbufs h1) !! t = Some tb)].
  replace (freed xs (Some t) h1)
    with (h_set_pbufs (<[t := pb_set_ref (pb_ref tb - 1) tb]> (h_pbufs h2)) h2).
  - eapply packet_update_head; try done. cbn. lia.
  - unfold freed, h_set_pbufs, dec_ref. cbn. f_equal.
    apply map_eq. intros l. destruct (decide (l = t)) as [->|].
    + rewrite lookup_insert_eq, lookup_alter_eq.
      by rewrite (Htb2 : deletes xs (h_pbufs h1) !! t = Some tb).
    + rewrite lookup_insert_ne, lookup_alter_ne by done. done.
Qed.

(** pbuf_chain appends a packet the caller goes on holding: freeing the
    chain deallocates exactly the pbufs in front of it (their number is what
    pbuf_free returns, in a u8) and leaves the appended packet, its bytes and
    its reference count as they were. *)
Theorem pbuf_chain_free_keeps_tail h p t xs ys d1 d2 tb :
  h_ok h -> packet h (Some p) xs d1 -> packet h (Some t) ys d2 -> xs ## ys ->
  h_pbufs h !! t = Some tb -> pb_ref tb < 65535 -> refs_one (h_pbufs h) xs ->
  Z.of_nat (length d1 + length d2) < 65536 ->
  (forall l b pt, l ∈ ys -> h_pbufs h !! l = Some b -> pb_payload b = Some pt -> p_loc pt ∉ xs) ->
  wp (pbuf_chain (Some p) (Some t);; pbuf_free (Some p)) h (fun n h' =>
    n = u8 (Z.of_nat (length xs)) /\ packet h' (Some t) ys d2 /\ h_pbufs h' !! t = Some tb /\
    (forall l, l ∈ xs -> h_pbufs h' !! l = None /\ h_blocks h' !! l = None) /\
    (forall l, l ∉ xs -> h_pbufs h' !! l = h_pbufs h !! l /\ h_blocks h' !! l = h_blocks h !! l)).
Proof.
  intros Hok Hp Ht Hdis Htb Hr H1 Hlen Hav. unfold pbuf_chain.
  assert (t ∈ ys) as Hty.
  { destruct (packet_head _ _ _ _ Ht) as (_ & _ & _ & _ & _ & Hh).
    destruct ys; [done|]. injection Hh as ->. by left. }
  assert (head ys = Some t) as Hhy by (by destruct (packet_head _ _ _ _ Ht) as (_ & _ & _ & _ & _ & ?)).
  assert (t ∉ xs) as Htx by set_solver.
  assert (0 < pb_ref tb) as Hr0 by (destruct (packet_head _ _ _ _ Ht) as (b & ? & ? & ? & ? & _); simplify_eq; lia).
  destruct (packet_head _ _ _ _ Hp) as (pb & Hpb & Hsane & _ & _ & Hph).
  do 2 apply wp_bind. eapply wp_mono; [eapply (pbuf_cat_spec _ _ _ xs ys); done|]. cbv beta.
  intros _ h1 (Hp1 & Ht1 & Htou).
  pose proof (touches_lookup _ _ _ _ Htou Htx) as Et. rewrite Htb in Et.
  cbn [pbuf_ref]. eapply wp_pupd; [exact Et|]. rewrite u16_small by (unfold is_u16; lia).
  set (tb1 := pb_set_ref (pb_ref tb + 1) tb). set (h2 := h_set_pbufs (<[t := tb1]> (h_pbufs h1)) h1).
  assert (packet h2 (Some t) ys d2) as Ht2 by (eapply packet_update_head; [done|done|done..|cbn; lia]).
  assert (links (h_pbufs h2) (Some p) (xs ++ ys) None) as Hl2.
  { apply links_app. apply pseg_links, links_app in Hp1 as (q & L1 & L2).
    exists q. assert (q = Some t) as ->.
    { destruct ys as [|y ys']; [by apply elem_of_nil in Hty|]. destruct L2 as [-> _].
      destruct (packet_head _ _ _ _ Ht) as (_ & _ & _ & _ & _ & Hh). by injection Hh as ->. }
    split; [|by eapply pseg_links].
    clear -L1 Htx. revert L1 Htx. generalize (Some p). induction xs as [|x xs IH]; intros o L Hx; [done|].
    destruct L as (-> & b & Hb & L). split; [done|]. exists b. apply not_elem_of_cons in Hx as [? ?]. cbn.
    rewrite lookup_insert_ne by done. split; [done|]. by apply IH. }
  assert (refs_one (h_pbufs h2) xs) as Hone2.
  { intros l b Hl Hb. cbn in Hb. rewrite lookup_insert_ne in Hb by set_solver.
    destruct (touches_payload _ _ _ _ _ Htou Hb) as (b0 & Hb0 & _ & <-). by apply (H1 l). }
  assert (h_ok h2) as Hok2 by (eapply h_ok_pset; [by eapply touches_ok|exact Et]).
  assert (h_blocks h2 = h_blocks h) as Hbl by (cbn; by eapply touches_blocks).
  eapply wp_mono; [apply (pbuf_free_links h2 p xs ys)|].
  - intros l Hl. apply ok_block; [done|]. eapply links_dom; [exact Hl2|set_solver].
  - done.
  - intros b Hb. cbn in Hb. rewrite lookup_insert_ne in Hb.
    2:{ intros <-. destruct xs; [done|]. injection Hph as ->. set_solver. }
    destruct (packet_head _ _ _ _ Hp1) as (b' & Hb' & Hs' & _). by simplify_eq.
  - done.
  - intros y b Hy Hb. rewrite Hhy in Hy. injection Hy as <-. cbn in Hb.
    rewrite lookup_insert_eq in Hb. injection Hb as <-. cbn. lia.
  - cbv beta. intros n h3 [-> ->]. split; [done|]. rewrite Hhy.
    destruct (dec_ref_packet h2 xs t ys d2 tb1) as [Hpk Htb3]; [done|done|cbn; apply lookup_insert_eq|cbn; lia| |].
    { intros l b pt Hl Hb Hpt. cbn in Hb. rewrite lookup_insert in Hb. case_decide as E.
      - subst l. injection Hb as <-. by eapply (Hav t tb).
      - rewrite (touches_lookup _ _ _ _ Htou) in Hb by set_solver. by eapply Hav. }
    split; [exact Hpk|]. split.
    { rewrite Htb3. f_equal. apply pb_ref_up_down. }
    split; intros l Hl; cbn [freed h_blocks h_pbufs].
    + assert (l <> t) by set_solver. cbn [dec_ref]. rewrite lookup_alter_ne by done.
      rewrite !deletes_lookup, !decide_True by done. done.
    + destruct (decide (l = t)) as [->|].
      * rewrite Htb. change (dec_ref (Some t) (deletes xs (h_pbufs h2)) !! t)
          with (h_pbufs (freed xs (Some t) h2) !! t). rewrite Htb3, deletes_lookup, decide_False, Hbl by done.
        split; [|done]. f_equal. apply pb_ref_up_down.
      * cbn [dec_ref]. rewrite lookup_alter_ne, !deletes_lookup, decide_False by done.
        rewrite decide_False, Hbl by done. cbn. rewrite lookup_insert_ne by done.
        split; [by eapply touches_lookup|done].
Qed.

Lemma pbuf_chain_free_keeps_tail_witness :
  packet ex_heap (Some 1%positive) [1%positive; 2%positive] [97; 98; 99; 100; 101] /\
  packet ex_heap (Some 3%positive) [3%positive] [102] /\
  wp (pbuf_chain (Some 1%positive) (Some 3%positive);; pbuf_free (Some 1%positive)) ex_heap (fun n h' =>
    n = u8 (Z.of_nat (length [1%positive; 2%positive])) /\
    packet h' (Some 3%positive) [3%positive] [102] /\
    h_pbufs h' !! 3%positive = Some (Pbuf None (Some (Ptr 3 16)) 1 1 PBUF_RAM 0 2) /\
    (forall l, l ∈ [1%positive; 2%positive] -> h_pbufs h' !! l = None /\ h_blocks h' !! l = None) /\
    (forall l, l ∉ [1%positive; 2%positive] ->
       h_pbufs h' !! l = h_pbufs ex_heap !! l /\ h_blocks h' !! l = h_blocks ex_heap !! l)).
Proof.
  assert (packet ex_heap (Some 3%positive) [3%positive] [102]) as H3
    by (apply (read_packet_sound 2); vm_compute; done).
  split; [exact ex_packet|]. split; [exact H3|].
  apply (pbuf_chain_free_keeps_tail ex_heap _ _ _ _ _ _ _ ex_ok ex_packet H3).
  - set_solver.
  - reflexivity.
  - cbn. lia.
  - apply refs_oneb_sound. vm_compute. done.
  - cbn. lia.
  - intros l b pt ->%list_elem_of_singleton Hb Hpt. vm_compute in Hb. injection Hb as <-.
    injection Hpt as <-. set_solver.
Defined.
