(* ===== verification/InetChksum.v ===== *)
(** * Checksums of chained buffers (core/ipv4/inet_chksum.c)

    The transport checksums walk a pbuf chain and keep a running sum in byte
    order "as of the current parity": after an odd number of bytes the sum is
    kept byte-swapped. *)
From S2P Require Import Prelude Inet Checksum Heap Pbuf PbufSpec PbufProps.
#[local] Open Scope string_scope.
#[local] Open Scope list_scope.
#[local] Open Scope Z_scope.
#[local] Open Scope oc_scope.

(** The value of a bounded loop. *)
Definition fueled {S A} (o : option A) : M S A :=
  match o with Some a => mret a | None => halt NoFuel end.

Definition chksum_fold (acc : Z) : M heap Z := fueled (fold_carry fold_fuel acc).

Fixpoint pseudo_loop (fuel : nat) (q : option loc) (acc swapped : Z) : M heap (Z * Z) :=
  match q, fuel with
  | None, _ => mret (acc, swapped)
  | _, O => halt NoFuel
  | Some l, S fuel =>
      b ← pget l;
      pt ← deref (pb_payload b);
      bs ← load pt (pb_len b);
      acc ← chksum_fold (u32 (acc + lwip_standard_chksum bs));
      if negb (pb_len b mod 2 =? 0) then
        pseudo_loop fuel (pb_next b) (swap_bytes acc) (u8 (1 - swapped))
      else pseudo_loop fuel (pb_next b) acc swapped
  end.

(** The pseudo header and the complement: the common end of both functions. *)
Definition pseudo_finish (acc swapped src dest proto proto_len : Z) : M heap Z :=
  let acc := if negb (swapped =? 0) then swap_bytes acc else acc in
  let acc := u32 (acc + Z.land src 0xffff) in
  let acc := u32 (acc + Z.land (Z.shiftr src 16) 0xffff) in
  let acc := u32 (acc + Z.land dest 0xffff) in
  let acc := u32 (acc + Z.land (Z.shiftr dest 16) 0xffff) in
  let acc := u32 (acc + htons proto) in
  let acc := u32 (acc + htons proto_len) in
  acc ← chksum_fold acc;
  mret (u16 (Z.lnot (Z.land acc 0xffff))).

Definition inet_chksum_pseudo (p : option loc) (src dest proto proto_len : Z) : M heap Z :=
  h ← get;
  '(acc, swapped) ← pseudo_loop (walk_fuel h) p 0 0;
  pseudo_finish acc swapped src dest proto proto_len.

Fixpoint pseudo_partial_loop (fuel : nat) (q : option loc) (acc swapped chksum_len : Z)
  : M heap (Z * Z) :=
  match q, fuel with
  | None, _ => mret (acc, swapped)
  | _, O => halt NoFuel
  | Some l, S fuel =>
      if negb (0 <? chksum_len) then mret (acc, swapped)
      else
        b ← pget l;
        let chklen := if chksum_len <? pb_len b then chksum_len else pb_len b in
        pt ← deref (pb_payload b);
        bs ← load pt chklen;
        let acc := u32 (acc + lwip_standard_chksum bs) in
        let chksum_len := u16 (chksum_len - chklen) in
        LWIP_ASSERT "delete me" (chksum_len <? 0x7fff);;
        acc ← chksum_fold acc;
        if negb (pb_len b mod 2 =? 0) then
          pseudo_partial_loop fuel (pb_next b) (swap_bytes acc) (u8 (1 - swapped)) chksum_len
        else pseudo_partial_loop fuel (pb_next b) acc swapped chksum_len
  end.

Definition inet_chksum_pseudo_partial (p : option loc) (src dest proto proto_len chksum_len : Z)
  : M heap Z :=
  h ← get;
  '(acc, swapped) ← pseudo_partial_loop (walk_fuel h) p 0 0 chksum_len;
  pseudo_finish acc swapped src dest proto proto_len.

(** [&] binds less tightly than [<<] and [>>]. *)
Definition chksum_pbuf_noswap (acc : Z) : Z :=
  Z.lor (Z.land acc (Z.shiftl 0x00ff 8)) (Z.land acc (Z.shiftr 0xff00 8)).

Fixpoint chksum_pbuf_loop (fuel : nat) (q : option loc) (acc swapped : Z) : M heap (Z * Z) :=
  match q, fuel with
  | None, _ => mret (acc, swapped)
  | _, O => halt NoFuel
  | Some l, S fuel =>
      b ← pget l;
      pt ← deref (pb_payload b);
      bs ← load pt (pb_len b);
      acc ← chksum_fold (u32 (acc + lwip_standard_chksum bs));
      if negb (pb_len b mod 2 =? 0) then
        chksum_pbuf_loop fuel (pb_next b) (chksum_pbuf_noswap acc) (u8 (1 - swapped))
      else chksum_pbuf_loop fuel (pb_next b) acc swapped
  end.

Definition inet_chksum_pbuf (p : option loc) : M heap Z :=
  h ← get;
  '(acc, swapped) ← chksum_pbuf_loop (walk_fuel h) p 0 0;
  let acc := if negb (swapped =? 0) then swap_bytes acc else acc in
  mret (u16 (Z.lnot (Z.land acc 0xffff))).

(** ** The running sum *)

(** The sum of the bytes so far, in the byte order of their parity. *)
Definition par_sum (sw : bool) (d : list Z) : Z := if sw then 256 * lesum d else lesum d.

Lemma par_sum_nonneg sw d : bytes_ok d -> 0 <= par_sum sw d.
Proof. intros H%lesum_nonneg. destruct sw; cbn; lia. Qed.

Lemma lesum_app_zero d e : bytes_ok d -> bytes_ok e ->
  (lesum (d ++ e) = 0 <-> lesum d = 0 /\ lesum e = 0).
Proof.
  intros Hd He. rewrite !lesum_zero by (try rewrite bytes_ok_app; done).
  apply Forall_app.
Qed.

Lemma par_sum_app sw d e :
  bytes_ok d -> bytes_ok e -> Z.odd (Z.of_nat (length d)) = sw ->
  same_oc (par_sum sw d + lesum e) (par_sum sw (d ++ e)).
Proof.
  intros Hd He Hsw. pose proof (lesum_nonneg d Hd). pose proof (lesum_nonneg e He).
  pose proof (lesum_app_zero d e Hd He) as Hz. destruct sw; cbn [par_sum].
  - split; [|lia]. rewrite (lesum_app_odd d e Hsw). apply (cong_mult _ _ (- lesum e)). lia.
  - rewrite <- Z.negb_even in Hsw. apply negb_false_iff in Hsw.
    rewrite (lesum_app_even d e Hsw). apply same_oc_refl.
Qed.

Lemma oc_mul256 n : 0 <= n -> oc (256 * (256 * n)) = oc n.
Proof.
  intros Hn. apply oc_ext; [lia..|]. split; [|lia]. apply (cong_mult _ _ n). lia.
Qed.

Lemma swap_par sw d : bytes_ok d -> swap_bytes (oc (par_sum sw d)) = oc (par_sum (negb sw) d).
Proof.
  intros H%lesum_nonneg. rewrite swap_bytes_htons by apply oc_range.
  destruct sw; cbn [par_sum negb]; rewrite htons_oc by lia; [by apply oc_mul256|done].
Qed.

Lemma fold_add_oc a b :
  0 <= a -> 0 <= b -> fold_carry fold_fuel (u32 (oc a + oc b)) = Some (oc (a + b)).
Proof.
  intros Ha Hb. pose proof (oc_range a). pose proof (oc_range b). unfold is_u16 in *.
  rewrite u32_small, fold_carry_oc by (unfold is_u32; lia). f_equal.
  apply oc_ext; [lia|lia|].
  destruct (oc_same a Ha) as [C1 Z1]. destruct (oc_same b Hb) as [C2 Z2].
  split; [by rewrite C1, C2|lia].
Qed.

Lemma bytes_at_ok h p n d : h_ok h -> bytes_at h p n = Some d -> bytes_ok d.
Proof.
  intros Hok. unfold bytes_at. intros (blk & Hb & H)%bind_Some.
  destruct (_ && _ && _); [|done]. injection H as <-.
  apply bytes_ok_take, bytes_ok_drop. by eapply ok_bytes.
Qed.

Lemma packet_bytes_ok h p ls d : h_ok h -> packet h p ls d -> bytes_ok d.
Proof.
  intros Hok. revert p d. induction ls as [|l ls IH]; intros p d Hp; [by destruct Hp as [_ ->]; constructor|].
  destruct Hp as (_ & b & pt & d1 & d2 & _ & _ & Hd1 & -> & _ & Hp).
  apply bytes_ok_app. split; [by eapply bytes_at_ok|]. by eapply IH.
Qed.

Lemma odd_app (d e : list Z) : Z.odd (Z.of_nat (length (d ++ e))) =
  xorb (Z.odd (Z.of_nat (length d))) (Z.odd (Z.of_nat (length e))).
Proof. by rewrite length_app, Nat2Z.inj_add, Z.odd_add. Qed.

Lemma odd_mod2 n : negb (n mod 2 =? 0) = Z.odd n.
Proof. rewrite Zmod_odd. by destruct (Z.odd n). Qed.

(** One buffer of the walk. *)
Lemma chksum_step d0 d1 sw :
  bytes_ok d0 -> bytes_ok d1 -> Z.of_nat (length d1) <= 65535 ->
  Z.odd (Z.of_nat (length d0)) = sw ->
  fold_carry fold_fuel (u32 (oc (par_sum sw d0) + lwip_standard_chksum d1))
    = Some (oc (par_sum sw (d0 ++ d1))).
Proof.
  intros H0 H1 Hlen Hsw. rewrite lwip_standard_chksum_oc by done. unfold rfc1071_sum.
  pose proof (lesum_nonneg d1 H1). pose proof (par_sum_nonneg sw d0 H0).
  rewrite fold_add_oc by done. f_equal.
  apply oc_ext; [lia|apply par_sum_nonneg, bytes_ok_app; done|by apply par_sum_app].
Qed.

Lemma wp_chksum_fold acc r h (Q : Z -> heap -> Prop) :
  fold_carry fold_fuel acc = Some r -> Q r h -> wp (chksum_fold acc) h Q.
Proof. intros E HQ. unfold chksum_fold. rewrite E. by apply wp_ret. Qed.

Lemma u8_flip sw : u8 (1 - Z.b2z sw) = Z.b2z (negb sw).
Proof. by destruct sw. Qed.

(** The running sum and the flag that says in which byte order it is. *)
Definition sum_after (d : list Z) (r : Z * Z) : Prop :=
  exists sw, r = (oc (par_sum sw d), Z.b2z sw).

Lemma pseudo_loop_spec fuel h p ls d d0 :
  h_ok h -> packet h p ls d -> bytes_ok d0 -> (length ls <= fuel)%nat ->
  let sw := Z.odd (Z.of_nat (length d0)) in
  wp (pseudo_loop fuel p (oc (par_sum sw d0)) (Z.b2z sw)) h (fun r h' =>
    h' = h /\ sum_after (d0 ++ d) r).
Proof.
  intros Hok. revert p ls d d0. induction fuel as [|fuel IH]; intros p ls d d0 Hp H0 Hf sw.
  - destruct ls; [|cbn in Hf; lia]. destruct Hp as [-> ->]. cbn. apply wp_ret. rewrite app_nil_r. split; [done|by exists sw].
  - destruct ls as [|l ls].
    { destruct Hp as [-> ->]; cbn; apply wp_ret. rewrite app_nil_r. split; [done|by exists sw]. }
    destruct Hp as (-> & b & pt & d1 & d2 & Hb & (Hpt & _ & _ & Htot & _) & Hd1 & -> & Ht & Hp).
    pose proof (bytes_at_ok _ _ _ _ Hok Hd1) as H1. pose proof (bytes_at_length _ _ _ _ Hd1) as Hl1.
    rewrite length_app in Ht. unfold is_u16 in Htot. cbn in Hf.
    assert (bytes_ok (d0 ++ d1)) as H01 by by apply bytes_ok_app.
    cbn [pseudo_loop]. apply wp_bind. eapply wp_pget; [exact Hb|].
    apply wp_bind. eapply wp_deref; [exact Hpt|]. apply wp_bind. eapply wp_load; [exact Hd1|].
    apply wp_bind. eapply wp_chksum_fold; [by apply chksum_step; auto; lia|].
    rewrite odd_mod2, <- Hl1, app_assoc.
    pose proof (odd_app d0 d1) as Hodd. fold sw in Hodd.
    destruct (Z.odd (Z.of_nat (length d1))) eqn:E.
    + rewrite xorb_true_r in Hodd. rewrite swap_par, u8_flip, <- Hodd by done.
      apply (IH (pb_next b) ls d2 (d0 ++ d1)); auto with lia.
    + rewrite xorb_false_r in Hodd. rewrite <- Hodd.
      apply (IH (pb_next b) ls d2 (d0 ++ d1)); auto with lia.
Qed.

(** The pseudo header of RFC 793/768, as bytes in memory. *)
Definition pseudo_header (src dest proto proto_len : Z) : list Z :=
  map (byte_at src) [0; 1; 2; 3] ++ map (byte_at dest) [0; 1; 2; 3]
    ++ [0; proto; proto_len / 256; proto_len mod 256].

Lemma lesum_addr a :
  is_u32 a -> bytes_ok (map (byte_at a) [0; 1; 2; 3]) /\
  lesum (map (byte_at a) [0; 1; 2; 3]) = Z.land a 0xffff + Z.land (Z.shiftr a 16) 0xffff.
Proof.
  intros (b0 & b1 & b2 & b3 & H0 & H1 & H2 & H3 & ->)%u32_bytes.
  rewrite byte_at_bytes by done. split; [unfold bytes_ok; by rewrite !list.Forall_cons|].
  bits_arith. cbn [lesum]. Z.div_mod_to_equations. lia.
Qed.

Lemma pseudo_header_sum src dest proto len :
  is_u32 src -> is_u32 dest -> is_u8 proto -> is_u16 len ->
  bytes_ok (pseudo_header src dest proto len) /\
  lesum (pseudo_header src dest proto len) =
    (Z.land src 0xffff + Z.land (Z.shiftr src 16) 0xffff) +
    (Z.land dest 0xffff + Z.land (Z.shiftr dest 16) 0xffff) + htons proto + htons len.
Proof.
  intros Hs Hd Hp Hl. destruct (lesum_addr src Hs) as [Bs Es]. destruct (lesum_addr dest Hd) as [Bd Ed].
  unfold pseudo_header. rewrite !bytes_ok_app, !lesum_app_even, Es, Ed by done.
  destruct (u16_bytes len Hl) as (l0 & l1 & H0 & H1 & ->).
  rewrite htons_bytes by done.
  assert (htons proto = 256 * proto) as ->.
  { replace proto with (proto + 256 * 0) at 1 by lia. rewrite htons_bytes; unfold is_u8 in *; lia. }
  assert ((l0 + 256 * l1) / 256 = l1 /\ (l0 + 256 * l1) mod 256 = l0) as [-> ->]
    by (unfold is_u8 in *; Z.div_mod_to_equations; lia).
  cbn [lesum]. split; [|unfold is_u8 in *; lia].
  split; [done|]. split; [done|]. unfold bytes_ok. rewrite !list.Forall_cons. split; [unfold is_u8; lia|done].
Qed.

Lemma complement_oc n : u16 (Z.lnot (Z.land (oc n) 0xffff)) = 65535 - oc n.
Proof.
  pose proof (oc_range n) as H. unfold is_u16 in H. bits_arith. rewrite (Z.mod_small (oc n)) by lia.
  unfold Z.lnot. Z.div_mod_to_equations. lia.
Qed.


Lemma pseudo_finish_spec h d r src dest proto len :
  bytes_ok d -> sum_after d r -> is_u32 src -> is_u32 dest -> is_u8 proto -> is_u16 len ->
  wp (pseudo_finish r.1 r.2 src dest proto len) h (fun c h' =>
    h' = h /\ c = 65535 - rfc1071_sum (pseudo_header src dest proto len ++ d)).
Proof.
  intros Hd [sw ->] Hs Hde Hp Hl. cbn [fst snd]. unfold pseudo_finish. pose proof (lesum_nonneg d Hd) as Hn.
  assert ((if negb (Z.b2z sw =? 0) then swap_bytes (oc (par_sum sw d)) else oc (par_sum sw d))
          = oc (lesum d)) as ->.
  { destruct sw eqn:E; [by apply (swap_par true)|done]. }
  destruct (pseudo_header_sum src dest proto len) as [Bp Ep]; [done..|].
  pose proof (lesum_nonneg _ Bp) as Hpn.
  pose proof (oc_range (lesum d)). pose proof (htons_range proto). pose proof (htons_range len).
  assert (forall a k, is_u16 (Z.land (Z.shiftr a k) 0xffff)) as Hand
    by (intros; rewrite land_ffff; unfold is_u16; Z.div_mod_to_equations; lia).
  pose proof (Hand src 0). pose proof (Hand src 16). pose proof (Hand dest 0). pose proof (Hand dest 16).
  rewrite !Z.shiftr_0_r in *. unfold is_u16 in *.
  rewrite (u32_small (oc (lesum d) + _)) by (unfold is_u32; lia).
  repeat (rewrite (u32_small (_ + _ + _)) by (unfold is_u32; lia)).
  apply wp_bind. eapply wp_chksum_fold.
  { apply fold_carry_oc. unfold is_u32. lia. }
  apply wp_ret. split; [done|]. rewrite complement_oc. unfold rfc1071_sum. f_equal.
  rewrite lesum_app_even by done. rewrite Ep in *.
  destruct (oc_same (lesum d) Hn) as [C1 Z1].
  apply oc_ext; [lia|lia|]. split; [|lia].
  rewrite C1. apply (cong_mult _ _ 0). lia.
Qed.

Lemma inet_chksum_pseudo_run h p ls d src dest proto len :
  h_ok h -> packet h p ls d -> is_u32 src -> is_u32 dest -> is_u8 proto -> is_u16 len ->
  inet_chksum_pseudo p src dest proto len h
  = Done (65535 - rfc1071_sum (pseudo_header src dest proto len ++ d), h).
Proof.
  intros Hok Hp Hs Hde Hpr Hl.
  assert (wp (inet_chksum_pseudo p src dest proto len) h (fun c h' =>
    h' = h /\ c = 65535 - rfc1071_sum (pseudo_header src dest proto len ++ d))) as H%wp_run.
  { unfold inet_chksum_pseudo. wp_go. pose proof (packet_fuel _ _ _ _ Hp).
    eapply wp_mono; [eapply (pseudo_loop_spec _ h p ls d []); try done; [by constructor|lia]|].
    cbv beta. intros [acc sw] h' [-> Hsum].
    apply (pseudo_finish_spec h d (acc, sw)); try done. by eapply packet_bytes_ok. }
  by destruct H as (c & h' & -> & -> & ->).
Qed.

(** C29: the transport checksum of a chain is the complement of the RFC 1071
    sum of the pseudo header followed by the payload, however the payload is
    cut into buffers (odd lengths included), and computing it changes nothing. *)
Theorem inet_chksum_pseudo_flat h p ls d src dest proto len :
  h_ok h -> packet h p ls d -> is_u32 src -> is_u32 dest -> is_u8 proto -> is_u16 len ->
  wp (inet_chksum_pseudo p src dest proto len) h (fun c h' =>
    h' = h /\ c = 65535 - rfc1071_sum (pseudo_header src dest proto len ++ d)).
Proof.
  intros. unfold wp. by rewrite (inet_chksum_pseudo_run h p ls d) by done.
Qed.

Lemma inet_chksum_pseudo_flat_witness :
  packet ex_heap (Some 1%positive) [1%positive; 2%positive] [97; 98; 99; 100; 101] /\
  wp (inet_chksum_pseudo (Some 1%positive) 0x0100a8c0 0x0200a8c0 6 5) ex_heap (fun c h' =>
    h' = ex_heap /\
    c = 65535 - rfc1071_sum (pseudo_header 0x0100a8c0 0x0200a8c0 6 5 ++ [97; 98; 99; 100; 101])).
Proof.
  split; [exact ex_packet|].
  apply (inet_chksum_pseudo_flat _ _ _ _ _ _ _ _ ex_ok ex_packet); unfold is_u32, is_u16, is_u8; lia.
Defined.

Lemma partial_loop_spec fuel h p ls d d0 n :
  h_ok h -> packet h p ls d -> bytes_ok d0 -> (length ls <= fuel)%nat -> 0 <= n < 0x7fff ->
  let sw := Z.odd (Z.of_nat (length d0)) in
  wp (pseudo_partial_loop fuel p (oc (par_sum sw d0)) (Z.b2z sw) n) h (fun r h' =>
    h' = h /\ sum_after (d0 ++ take (Z.to_nat n) d) r).
Proof.
  intros Hok. revert p ls d d0 n. induction fuel as [|fuel IH]; intros p ls d d0 n Hp H0 Hf Hn sw.
  - destruct ls; [|cbn in Hf; lia]. destruct Hp as [-> ->]. cbn. apply wp_ret.
    rewrite take_nil, app_nil_r. split; [done|by exists sw].
  - destruct ls as [|l ls].
    { destruct Hp as [-> ->]; cbn; apply wp_ret. rewrite take_nil, app_nil_r. split; [done|by exists sw]. }
    destruct Hp as (-> & b & pt & d1 & d2 & Hb & (Hpt & _ & _ & Htot & _) & Hd1 & -> & Ht & Hp).
    cbn [pseudo_partial_loop]. destruct (Z.ltb_spec 0 n) as [Hpos|]; cbn [negb].
    2:{ apply wp_ret. replace n with 0 by lia. cbn. rewrite app_nil_r. split; [done|by exists sw]. }
    pose proof (bytes_at_length _ _ _ _ Hd1) as Hl1.
    rewrite length_app in Ht. unfold is_u16 in Htot. cbn in Hf.
    apply wp_bind. eapply wp_pget; [exact Hb|].
    set (k := if n <? pb_len b then n else pb_len b).
    assert (k = Z.min n (pb_len b)) as Hk by (subst k; destruct (Z.ltb_spec n (pb_len b)); lia). clearbody k.
    destruct (bytes_at_split h pt (pb_len b) k d1) as [Hdk _]; [lia|done|].
    set (d1' := take (Z.to_nat k) d1) in *.
    pose proof (bytes_at_ok _ _ _ _ Hok Hdk) as H1. pose proof (bytes_at_length _ _ _ _ Hdk) as Hl1'.
    assert (bytes_ok (d0 ++ d1')) as H01 by by apply bytes_ok_app.
    apply wp_bind. eapply wp_deref; [exact Hpt|]. apply wp_bind. eapply wp_load; [exact Hdk|].
    rewrite (u16_small (n - k)) by (unfold is_u16; lia).
    apply wp_bind, wp_assert; [lia|].
    apply wp_bind. eapply wp_chksum_fold; [by apply chksum_step; auto; lia|].
    assert (take (Z.to_nat n) (d1 ++ d2) = d1' ++ take (Z.to_nat (n - k)) d2) as ->.
    { rewrite take_app. subst d1'. f_equal.
      - destruct (Z.min_spec n (pb_len b)) as [[? Hm]|[? Hm]]; rewrite Hm in Hk; subst k; [done|].
        rewrite !take_ge by lia. done.
      - f_equal. lia. }
    rewrite odd_mod2, app_assoc.
    destruct (decide (n <= pb_len b)) as [Hcut|Hmore].
    + (* the last buffer: nothing is left, whatever its parity *)
      replace (n - k) with 0 by lia. cbn [take Z.to_nat]. rewrite take_0, app_nil_r.
      assert (forall sw' : bool, wp (pseudo_partial_loop fuel (pb_next b) (oc (par_sum sw' (d0 ++ d1')))
        (Z.b2z sw') 0) h (fun r h' => h' = h /\ sum_after (d0 ++ d1') r)) as Hstop.
      { intros sw'. destruct fuel, ls; cbn [pseudo_partial_loop].
        all: destruct (pb_next b); try (cbn in Hf; lia); try (destruct Hp as [Hp _]; done).
        all: apply wp_ret; split; [done|by exists sw']. }
      destruct (Z.odd (pb_len b)); [rewrite swap_par, u8_flip by done|]; apply Hstop.
    + assert (k = pb_len b) as -> by lia. assert (d1' = d1) as Hd by (subst d1'; apply take_ge; lia).
      clearbody d1'. subst d1'.
      rewrite <- Hl1. pose proof (odd_app d0 d1) as Hodd. fold sw in Hodd.
      destruct (Z.odd (Z.of_nat (length d1))) eqn:E.
      * rewrite xorb_true_r in Hodd. rewrite swap_par, u8_flip, <- Hodd by done.
        apply (IH (pb_next b) ls d2 (d0 ++ d1)); auto with lia.
      * rewrite xorb_false_r in Hodd. rewrite <- Hodd.
        apply (IH (pb_next b) ls d2 (d0 ++ d1)); auto with lia.
Qed.

(** the partial checksum covers the pseudo header and the first
    [chksum_len] bytes of the chain and nothing else, wherever that cuts a
    buffer.  (Above 0x7ffe bytes the leftover assertion "delete me" fires.) *)
Theorem inet_chksum_pseudo_partial_prefix h p ls d src dest proto len n :
  h_ok h -> packet h p ls d -> is_u32 src -> is_u32 dest -> is_u8 proto -> is_u16 len ->
  0 <= n < 0x7fff ->
  wp (inet_chksum_pseudo_partial p src dest proto len n) h (fun c h' =>
    h' = h /\ c = 65535 - rfc1071_sum (pseudo_header src dest proto len ++ take (Z.to_nat n) d)).
Proof.
  intros Hok Hp Hs Hde Hpr Hl Hn. unfold inet_chksum_pseudo_partial. wp_go.
  pose proof (packet_fuel _ _ _ _ Hp).
  eapply wp_mono; [eapply (partial_loop_spec _ h p ls d [] n); try done; [by constructor|lia]|].
  cbv beta. intros [acc sw] h' [-> Hsum].
  apply (pseudo_finish_spec h (take (Z.to_nat n) d) (acc, sw)); try done.
  apply bytes_ok_take. by eapply packet_bytes_ok.
Qed.

Lemma inet_chksum_pseudo_partial_prefix_witness :
  packet ex_heap (Some 1%positive) [1%positive; 2%positive] [97; 98; 99; 100; 101] /\
  wp (inet_chksum_pseudo_partial (Some 1%positive) 0x0100a8c0 0x0200a8c0 136 5 4) ex_heap (fun c h' =>
    h' = ex_heap /\
    c = 65535 - rfc1071_sum (pseudo_header 0x0100a8c0 0x0200a8c0 136 5
                               ++ take (Z.to_nat 4) [97; 98; 99; 100; 101])).
Proof.
  split; [exact ex_packet|].
  apply (inet_chksum_pseudo_partial_prefix _ _ _ _ _ _ _ _ _ ex_ok ex_packet); unfold is_u32, is_u16, is_u8; lia.
Defined.

Lemma noswap_id acc : is_u16 acc -> chksum_pbuf_noswap acc = acc.
Proof.
  intros H. unfold is_u16 in H. unfold chksum_pbuf_noswap. change (Z.shiftl 255 8) with (Z.shiftl (Z.ones 8) 8).
  change (Z.shiftr 0xff00 8) with 0xff. rewrite land_shifted_mask, land_ff by lia.
  rewrite lor_add_low; Z.div_mod_to_equations; lia.
Qed.

(** inet_chksum_pbuf does not swap at an odd boundary (the [&] of its
    mask binds less tightly than the shifts), so the value it returns for one
    buffer of odd length is the complement of the RFC 1071 sum with its two
    bytes exchanged. *)
Theorem inet_chksum_pbuf_odd_swapped h p d :
  h_ok h -> packet h (Some p) [p] d -> Z.odd (Z.of_nat (length d)) = true ->
  wp (inet_chksum_pbuf (Some p)) h (fun c h' =>
    h' = h /\ c = 65535 - htons (rfc1071_sum d)).
Proof.
  intros Hok Hp Hodd. pose proof (packet_bytes_ok _ _ _ _ Hok Hp) as Hd.
  pose proof (packet_length _ _ _ _ Hp) as Hlen.
  apply pseg_one in Hp as (b & pt & Hb & (Hpt & _) & Hd1 & _ & Hn).
  pose proof (bytes_at_length _ _ _ _ Hd1) as Hl.
  unfold inet_chksum_pbuf. do 2 wp_step. cbn beta. unfold walk_fuel. cbn [chksum_pbuf_loop].
  apply wp_bind, wp_bind. eapply wp_pget; [exact Hb|].
  apply wp_bind. eapply wp_deref; [exact Hpt|]. apply wp_bind. eapply wp_load; [exact Hd1|].
  apply wp_bind. eapply wp_chksum_fold.
  { apply (chksum_step [] d false); [by constructor|done|lia|done]. }
  cbn [par_sum app]. rewrite odd_mod2, <- Hl, Hodd, Hn.
  rewrite noswap_id by apply oc_range.
  destruct (size (h_pbufs h)); cbn [chksum_pbuf_loop]; apply wp_ret.
  all: change (negb (u8 (1 - 0) =? 0)) with true; cbv iota beta zeta.
  all: apply wp_ret; split; [done|].
  all: pose proof (lesum_nonneg d Hd); unfold rfc1071_sum.
  all: rewrite swap_bytes_htons, htons_oc by (done || apply oc_range).
  all: apply complement_oc.
Qed.

Lemma inet_chksum_pbuf_odd_swapped_witness :
  packet ex_heap (Some 3%positive) [3%positive] [102] /\
  wp (inet_chksum_pbuf (Some 3%positive)) ex_heap (fun c h' =>
    h' = ex_heap /\ c = 65535 - htons (rfc1071_sum [102])).
Proof.
  assert (packet ex_heap (Some 3%positive) [3%positive] [102]) as H3
    by (apply (read_packet_sound 2); vm_compute; done).
  split; [exact H3|]. by apply (inet_chksum_pbuf_odd_swapped _ _ _ ex_ok H3).
Defined.
