(* ===== verification/Stack.v ===== *)
(** * The state of the protocol stack

    The structures of netif.h, ip.h, ip_frag.h, igmp.h, tcp.h, udp.h and raw.h
    as records, the global variables of the source files, and the state monad
    the protocol files use.  Structures that the code links by pointers live in finite maps
    keyed by their location; packet buffers are in the [heap].  Statistics
    counters (LWIP_STATS) are only written and are not part of the state.

    [r <| f := v |>] is [r] with field [f] replaced. *)
From S2P Require Import Prelude Heap Pbuf.

(** ** Field update *)
Class Eta (R : Type) := eta : R -> R.
Class Setter {R T : Type} (proj : R -> T) := set_field : (T -> T) -> R -> R.
Arguments set_field {R T} proj {_} f r.

(** The setter of a field: rebuild the record with the projection replaced. *)
Ltac solve_setter :=
  match goal with
  | |- @Setter ?R _ ?proj =>
      let e := eval hnf in (@eta R _) in
      match eval pattern proj in e with
      | ?body _ => exact (fun f r => body (fun r => f (proj r)) r)
      end
  end.
#[export] Hint Extern 0 (Setter _) => solve_setter : typeclass_instances.

Declare Scope field_scope.
Delimit Scope field_scope with field.
Notation "r <| f := v |>" := (set_field f (fun _ => v) r)
  (at level 8, left associativity, format "r  <| f  :=  v |>").

(** ** Network interfaces (netif.h) *)
Record netif := Netif {
  netif_next : option loc;
  netif_ip_addr : Z;      (* u32_t, network order *)
  netif_netmask : Z;
  netif_gw : Z;
  netif_mtu : Z;          (* u16_t *)
  netif_flags : Z;        (* u8_t *)
  netif_name : Z * Z;     (* char name[2] *)
  netif_num : Z;          (* u8_t *)
  netif_state : Z;        (* void *state *)
  netif_input : Z;        (* the function that takes ingress packets *)
  netif_igmp_mac_filter : option Z  (* a function of the driver, or NULL *)
}.
#[export] Instance eta_netif : Eta netif := fun r =>
  Netif (netif_next r) (netif_ip_addr r) (netif_netmask r) (netif_gw r) (netif_mtu r)
    (netif_flags r) (netif_name r) (netif_num r) (netif_state r) (netif_input r)
    (netif_igmp_mac_filter r).

Definition NETIF_FLAG_UP : Z := 0x01.
Definition NETIF_FLAG_BROADCAST : Z := 0x02.
Definition NETIF_FLAG_IGMP : Z := 0x40.

(** ** Transmission control blocks (tcp.h) *)
Inductive tcp_state :=
| CLOSED | LISTEN | SYN_SENT | SYN_RCVD | ESTABLISHED | FIN_WAIT_1 | FIN_WAIT_2
| CLOSE_WAIT | CLOSING | LAST_ACK | TIME_WAIT.
#[export] Instance tcp_state_eq_dec : EqDecision tcp_state.
Proof. solve_decision. Defined.

(** The value of the enum. *)
Definition tcp_state_num (s : tcp_state) : Z :=
  match s with
  | CLOSED => 0 | LISTEN => 1 | SYN_SENT => 2 | SYN_RCVD => 3 | ESTABLISHED => 4
  | FIN_WAIT_1 => 5 | FIN_WAIT_2 => 6 | CLOSE_WAIT => 7 | CLOSING => 8 | LAST_ACK => 9
  | TIME_WAIT => 10
  end.
Definition state_is (s t : tcp_state) : bool := bool_decide (s = t).

(** A function pointer: a default of the stack or an application's function. *)
Inductive callback := cb_default | cb_app (id : Z).

Record tcp_seg := TcpSeg {
  seg_next : option loc;
  seg_p : option loc;
  seg_dataptr : option ptr;
  seg_len : Z;            (* u16_t *)
  seg_tcphdr : option ptr
}.
#[export] Instance eta_tcp_seg : Eta tcp_seg := fun r =>
  TcpSeg (seg_next r) (seg_p r) (seg_dataptr r) (seg_len r) (seg_tcphdr r).

Record tcp_pcb := TcpPcb {
  pcb_local_ip : Z; pcb_remote_ip : Z;           (* u32_t, network order *)
  pcb_so_options : Z; pcb_tos : Z; pcb_ttl : Z;
  pcb_next : option loc;
  pcb_state : tcp_state;
  pcb_prio : Z;
  pcb_callback_arg : Z;
  pcb_local_port : Z; pcb_remote_port : Z;       (* u16_t, host order *)
  pcb_flags : Z;                                 (* u8_t *)
  pcb_rcv_nxt : Z;                               (* u32_t *)
  pcb_rcv_wnd : Z; pcb_rcv_ann_wnd : Z;          (* u16_t *)
  pcb_tmr : Z;                                   (* u32_t *)
  pcb_polltmr : Z; pcb_pollinterval : Z;         (* u8_t *)
  pcb_rtime : Z;                                 (* s16_t *)
  pcb_mss : Z;                                   (* u16_t *)
  pcb_rttest : Z; pcb_rtseq : Z;                 (* u32_t *)
  pcb_sa : Z; pcb_sv : Z; pcb_rto : Z;           (* s16_t *)
  pcb_nrtx : Z;                                  (* u8_t *)
  pcb_lastack : Z;                               (* u32_t *)
  pcb_dupacks : Z;                               (* u8_t *)
  pcb_cwnd : Z; pcb_ssthresh : Z;                (* u16_t *)
  pcb_snd_nxt : Z; pcb_snd_max : Z;              (* u32_t *)
  pcb_snd_wnd : Z;                               (* u16_t *)
  pcb_snd_wl1 : Z; pcb_snd_wl2 : Z; pcb_snd_lbb : Z;  (* u32_t *)
  pcb_acked : Z;                                 (* u16_t *)
  pcb_snd_buf : Z; pcb_snd_queuelen : Z;         (* u16_t *)
  pcb_unsent : option loc; pcb_unacked : option loc; pcb_ooseq : option loc;
  pcb_refused_data : option loc;
  pcb_sent : option callback; pcb_recv : option callback; pcb_connected : option callback;
  pcb_accept : option callback; pcb_poll : option callback; pcb_errf : option callback;
  pcb_keep_idle : Z;                             (* u32_t *)
  pcb_persist_cnt : Z;                           (* u32_t *)
  pcb_persist_backoff : Z; pcb_keep_cnt_sent : Z (* u8_t *)
}.
#[export] Instance eta_tcp_pcb : Eta tcp_pcb := fun r =>
  TcpPcb (pcb_local_ip r) (pcb_remote_ip r) (pcb_so_options r) (pcb_tos r) (pcb_ttl r)
    (pcb_next r) (pcb_state r) (pcb_prio r) (pcb_callback_arg r) (pcb_local_port r)
    (pcb_remote_port r) (pcb_flags r) (pcb_rcv_nxt r) (pcb_rcv_wnd r) (pcb_rcv_ann_wnd r)
    (pcb_tmr r) (pcb_polltmr r) (pcb_pollinterval r) (pcb_rtime r) (pcb_mss r) (pcb_rttest r)
    (pcb_rtseq r) (pcb_sa r) (pcb_sv r) (pcb_rto r) (pcb_nrtx r) (pcb_lastack r)
    (pcb_dupacks r) (pcb_cwnd r) (pcb_ssthresh r) (pcb_snd_nxt r) (pcb_snd_max r)
    (pcb_snd_wnd r) (pcb_snd_wl1 r) (pcb_snd_wl2 r) (pcb_snd_lbb r) (pcb_acked r)
    (pcb_snd_buf r) (pcb_snd_queuelen r) (pcb_unsent r) (pcb_unacked r) (pcb_ooseq r)
    (pcb_refused_data r) (pcb_sent r) (pcb_recv r) (pcb_connected r) (pcb_accept r)
    (pcb_poll r) (pcb_errf r) (pcb_keep_idle r) (pcb_persist_cnt r) (pcb_persist_backoff r)
    (pcb_keep_cnt_sent r).

(** A listening pcb is a smaller structure that shares the leading fields. *)
Record tcp_pcb_listen := TcpPcbListen {
  lpcb_local_ip : Z; lpcb_remote_ip : Z;
  lpcb_so_options : Z; lpcb_tos : Z; lpcb_ttl : Z;
  lpcb_next : option loc;
  lpcb_state : tcp_state;
  lpcb_prio : Z;
  lpcb_callback_arg : Z;
  lpcb_local_port : Z;
  lpcb_accept : option callback
}.
#[export] Instance eta_tcp_pcb_listen : Eta tcp_pcb_listen := fun r =>
  TcpPcbListen (lpcb_local_ip r) (lpcb_remote_ip r) (lpcb_so_options r) (lpcb_tos r)
    (lpcb_ttl r) (lpcb_next r) (lpcb_state r) (lpcb_prio r) (lpcb_callback_arg r)
    (lpcb_local_port r) (lpcb_accept r).

(** The globals of tcp.c and tcp_in.c. *)
Record tcp_globals := TcpGlobals {
  tcp_ticks : Z;                      (* u32_t *)
  tcp_timer : Z;                      (* u8_t *)
  tcp_port : Z;                       (* static port of tcp_new_port, u16_t *)
  tcp_iss : Z;                        (* static iss of tcp_next_iss, u32_t *)
  tcp_bound_pcbs : option loc;
  tcp_listen_pcbs : option loc;
  tcp_active_pcbs : option loc;
  tcp_tw_pcbs : option loc;
  tcp_input_pcb : option loc;
  (* the segment being processed *)
  in_seg : tcp_seg;
  in_tcphdr : option ptr;
  in_iphdr : option ptr;
  in_seqno : Z; in_ackno : Z;         (* u32_t *)
  in_flags : Z;                       (* u8_t *)
  in_tcplen : Z;                      (* u16_t *)
  recv_flags : Z;                     (* u8_t *)
  recv_data : option loc
}.
#[export] Instance eta_tcp_globals : Eta tcp_globals := fun r =>
  TcpGlobals (tcp_ticks r) (tcp_timer r) (tcp_port r) (tcp_iss r) (tcp_bound_pcbs r)
    (tcp_listen_pcbs r) (tcp_active_pcbs r) (tcp_tw_pcbs r) (tcp_input_pcb r) (in_seg r)
    (in_tcphdr r) (in_iphdr r) (in_seqno r) (in_ackno r) (in_flags r) (in_tcplen r)
    (recv_flags r) (recv_data r).

(** ** UDP and raw control blocks (udp.h, raw.h) *)
Record udp_pcb := UdpPcb {
  udp_local_ip : Z; udp_remote_ip : Z;
  udp_so_options : Z; udp_tos : Z; udp_ttl : Z;
  udp_next : option loc;
  udp_flags : Z;
  udp_local_port : Z; udp_remote_port : Z;
  udp_multicast_ip : Z;
  udp_recv_cb : option Z;
  udp_recv_arg : Z
}.
#[export] Instance eta_udp_pcb : Eta udp_pcb := fun r =>
  UdpPcb (udp_local_ip r) (udp_remote_ip r) (udp_so_options r) (udp_tos r) (udp_ttl r)
    (udp_next r) (udp_flags r) (udp_local_port r) (udp_remote_port r)
    (udp_multicast_ip r) (udp_recv_cb r)
    (udp_recv_arg r).

Record raw_pcb := RawPcb {
  raw_local_ip : Z; raw_remote_ip : Z;
  raw_so_options : Z; raw_tos : Z; raw_ttl : Z;
  raw_next : option loc;
  raw_protocol : Z;
  raw_recv_cb : option Z;
  raw_recv_arg : Z
}.
#[export] Instance eta_raw_pcb : Eta raw_pcb := fun r =>
  RawPcb (raw_local_ip r) (raw_remote_ip r) (raw_so_options r) (raw_tos r) (raw_ttl r)
    (raw_next r) (raw_protocol r) (raw_recv_cb r) (raw_recv_arg r).

(** ** Multicast groups (igmp.h) *)
Record igmp_group := IgmpGroup {
  grp_next : option loc;
  grp_interface : loc;                (* struct netif * *)
  grp_group_address : Z;              (* u32_t, network order *)
  grp_last_reporter_flag : Z;         (* u8_t *)
  grp_group_state : Z;                (* u8_t *)
  grp_timer : Z;                      (* u16_t *)
  grp_use : Z                         (* u8_t *)
}.
#[export] Instance eta_igmp_group : Eta igmp_group := fun r =>
  IgmpGroup (grp_next r) (grp_interface r) (grp_group_address r) (grp_last_reporter_flag r)
    (grp_group_state r) (grp_timer r) (grp_use r).

(** The globals of igmp.c. *)
Record igmp_globals := IgmpGlobals {
  igmp_group_list : option loc;
  allsystems : Z; allrouters : Z;     (* u32_t, network order *)
  igmp_ip_id : Z                      (* static of igmp_ip_output_if, u16_t *)
}.
#[export] Instance eta_igmp_globals : Eta igmp_globals := fun r =>
  IgmpGlobals (igmp_group_list r) (allsystems r) (allrouters r) (igmp_ip_id r).

(** Before igmp_init: C sets static storage to zero. *)
Definition zero_igmp : igmp_globals := IgmpGlobals None 0 0 0.

(** ** Datagrams being reassembled (ip_frag.h) *)
Record ip_reassdata := IpReassdata {
  rd_next : option loc;
  rd_p : option loc;
  rd_iphdr : list Z;                  (* the 20 bytes of the saved header *)
  rd_datagram_len : Z;                (* u16_t *)
  rd_flags : Z;                       (* u8_t *)
  rd_timer : Z                        (* u8_t *)
}.
#[export] Instance eta_ip_reassdata : Eta ip_reassdata := fun r =>
  IpReassdata (rd_next r) (rd_p r) (rd_iphdr r) (rd_datagram_len r) (rd_flags r) (rd_timer r).

(** The globals of ip_frag.c. *)
Record reass_globals := ReassGlobals {
  reassdatagrams : option loc;
  ip_reass_pbufcount : Z              (* u16_t *)
}.
#[export] Instance eta_reass_globals : Eta reass_globals := fun r =>
  ReassGlobals (reassdatagrams r) (ip_reass_pbufcount r).
Definition zero_reass : reass_globals := ReassGlobals None 0.

(** ** The whole state *)
Record stack := Stack {
  s_heap : heap;
  s_netifs : gmap loc netif;
  netif_list : option loc;
  netif_default : option loc;
  netif_count : Z;                    (* static netifnum of netif_add, u8_t *)
  ip_id : Z;                          (* static of ip_output_if, u16_t *)
  frag_buf : ptr;                     (* static buf of ip_frag.c *)
  s_segs : gmap loc tcp_seg;
  s_tpcbs : gmap loc tcp_pcb;
  s_lpcbs : gmap loc tcp_pcb_listen;
  s_tcp : tcp_globals;
  s_udps : gmap loc udp_pcb;
  udp_pcbs : option loc;
  s_raws : gmap loc raw_pcb;
  raw_pcbs : option loc;
  s_groups : gmap loc igmp_group;
  s_igmp : igmp_globals;
  s_reassdatas : gmap loc ip_reassdata;
  s_reass : reass_globals
}.
#[export] Instance eta_stack : Eta stack := fun r =>
  Stack (s_heap r) (s_netifs r) (netif_list r) (netif_default r) (netif_count r) (ip_id r)
    (frag_buf r) (s_segs r) (s_tpcbs r) (s_lpcbs r) (s_tcp r) (s_udps r) (udp_pcbs r)
    (s_raws r) (raw_pcbs r) (s_groups r) (s_igmp r) (s_reassdatas r) (s_reass r).

(** ** Computations on the stack *)

(** A packet-buffer operation. *)
Definition hp {A} (m : M heap A) : M stack A := zoom s_heap (fun h s => s <| s_heap := h |>) m.
Definition ASSERT (msg : string) (b : bool) : M stack unit := hp (LWIP_ASSERT msg b).

(** memp_malloc of a structure that is not a pbuf: its location, and what the
    memory holds, as far as the caller reads it before writing it. *)
Definition malloc_struct : M stack (option (loc * (nat -> Z))) :=
  hp (h ← get;
      let h' := Heap (h_blocks h) (h_pbufs h) (h_next h) (S (h_nalloc h)) (h_env h) (h_asserts h) in
      match h_env h (h_nalloc h) with
      | None => put h';; mret None
      | Some junk =>
          put (Heap (h_blocks h) (h_pbufs h) (Pos.succ (h_next h)) (S (h_nalloc h)) (h_env h)
                 (h_asserts h));;
          mret (Some (h_next h, junk))
      end).

(** A loop that follows [next] pointers through one of the maps. *)
Definition map_fuel {V} (m : gmap loc V) : nat := S (size m).

Definition gtcp {A} (f : tcp_globals -> A) : M stack A := gets (fun s => f (s_tcp s)).
Definition utcp (f : tcp_globals -> tcp_globals) : M stack unit :=
  modify (fun s => s <| s_tcp := f (s_tcp s) |>).

Definition netif_get (l : loc) : M stack netif := s ← get; deref (s_netifs s !! l).
Definition netif_upd (l : loc) (f : netif -> netif) : M stack unit :=
  n ← netif_get l; modify (fun s => s <| s_netifs := <[l := f n]> (s_netifs s) |>).

Definition pcb_get (l : loc) : M stack tcp_pcb := s ← get; deref (s_tpcbs s !! l).
Definition pcb_put (l : loc) (b : tcp_pcb) : M stack unit :=
  modify (fun s => s <| s_tpcbs := <[l := b]> (s_tpcbs s) |>).
Definition pcb_upd (l : loc) (f : tcp_pcb -> tcp_pcb) : M stack unit :=
  b ← pcb_get l; pcb_put l (f b).
Definition lpcb_get (l : loc) : M stack tcp_pcb_listen := s ← get; deref (s_lpcbs s !! l).
Definition lpcb_put (l : loc) (b : tcp_pcb_listen) : M stack unit :=
  modify (fun s => s <| s_lpcbs := <[l := b]> (s_lpcbs s) |>).
Definition lpcb_upd (l : loc) (f : tcp_pcb_listen -> tcp_pcb_listen) : M stack unit :=
  b ← lpcb_get l; lpcb_put l (f b).

Definition seg_get (l : loc) : M stack tcp_seg := s ← get; deref (s_segs s !! l).
Definition seg_put (l : loc) (b : tcp_seg) : M stack unit :=
  modify (fun s => s <| s_segs := <[l := b]> (s_segs s) |>).
Definition seg_upd (l : loc) (f : tcp_seg -> tcp_seg) : M stack unit :=
  b ← seg_get l; seg_put l (f b).

(** memp_free: freeing what is not allocated is undefined. *)
Definition free_pcb (l : loc) : M stack unit :=
  _ ← pcb_get l; modify (fun s => s <| s_tpcbs := delete l (s_tpcbs s) |>).
Definition free_lpcb (l : loc) : M stack unit :=
  _ ← lpcb_get l; modify (fun s => s <| s_lpcbs := delete l (s_lpcbs s) |>).
Definition free_seg (l : loc) : M stack unit :=
  _ ← seg_get l; modify (fun s => s <| s_segs := delete l (s_segs s) |>).

Definition udp_get (l : loc) : M stack udp_pcb := s ← get; deref (s_udps s !! l).
Definition udp_put (l : loc) (b : udp_pcb) : M stack unit :=
  modify (fun s => s <| s_udps := <[l := b]> (s_udps s) |>).
Definition udp_upd (l : loc) (f : udp_pcb -> udp_pcb) : M stack unit :=
  b ← udp_get l; udp_put l (f b).
Definition free_udp (l : loc) : M stack unit :=
  _ ← udp_get l; modify (fun s => s <| s_udps := delete l (s_udps s) |>).

Definition raw_get (l : loc) : M stack raw_pcb := s ← get; deref (s_raws s !! l).
Definition raw_put (l : loc) (b : raw_pcb) : M stack unit :=
  modify (fun s => s <| s_raws := <[l := b]> (s_raws s) |>).
Definition raw_upd (l : loc) (f : raw_pcb -> raw_pcb) : M stack unit :=
  b ← raw_get l; raw_put l (f b).
Definition free_raw (l : loc) : M stack unit :=
  _ ← raw_get l; modify (fun s => s <| s_raws := delete l (s_raws s) |>).

Definition gigmp {A} (f : igmp_globals -> A) : M stack A := gets (fun s => f (s_igmp s)).
Definition uigmp (f : igmp_globals -> igmp_globals) : M stack unit :=
  modify (fun s => s <| s_igmp := f (s_igmp s) |>).
Definition grp_get (l : loc) : M stack igmp_group := s ← get; deref (s_groups s !! l).
Definition grp_put (l : loc) (b : igmp_group) : M stack unit :=
  modify (fun s => s <| s_groups := <[l := b]> (s_groups s) |>).
Definition grp_upd (l : loc) (f : igmp_group -> igmp_group) : M stack unit :=
  b ← grp_get l; grp_put l (f b).
Definition free_grp (l : loc) : M stack unit :=
  _ ← grp_get l; modify (fun s => s <| s_groups := delete l (s_groups s) |>).

Definition greass {A} (f : reass_globals -> A) : M stack A := gets (fun s => f (s_reass s)).
Definition ureass (f : reass_globals -> reass_globals) : M stack unit :=
  modify (fun s => s <| s_reass := f (s_reass s) |>).
Definition rd_get (l : loc) : M stack ip_reassdata := s ← get; deref (s_reassdatas s !! l).
Definition rd_put (l : loc) (b : ip_reassdata) : M stack unit :=
  modify (fun s => s <| s_reassdatas := <[l := b]> (s_reassdatas s) |>).
Definition rd_upd (l : loc) (f : ip_reassdata -> ip_reassdata) : M stack unit :=
  b ← rd_get l; rd_put l (f b).
Definition free_rd (l : loc) : M stack unit :=
  _ ← rd_get l; modify (fun s => s <| s_reassdatas := delete l (s_reassdatas s) |>).

(** ** Words in memory (little endian) *)
Definition get8 (p : ptr) : M stack Z := bs ← hp (load p 1); mret (nth 0 bs 0).
Definition get16 (p : ptr) : M stack Z :=
  bs ← hp (load p 2); mret (nth 0 bs 0 + 2 ^ 8 * nth 1 bs 0).
Definition get32 (p : ptr) : M stack Z :=
  bs ← hp (load p 4);
  mret (nth 0 bs 0 + 2 ^ 8 * nth 1 bs 0 + 2 ^ 16 * nth 2 bs 0 + 2 ^ 24 * nth 3 bs 0).
Definition put8 (p : ptr) (v : Z) : M stack unit := hp (store p [u8 v]).
Definition put16 (p : ptr) (v : Z) : M stack unit := hp (store p [u8 v; u8 (v / 2 ^ 8)]).
Definition put32 (p : ptr) (v : Z) : M stack unit :=
  hp (store p [u8 v; u8 (v / 2 ^ 8); u8 (v / 2 ^ 16); u8 (v / 2 ^ 24)]).

(** [p->field] on a pbuf, through the stack. *)
Definition pbuf_get (l : loc) : M stack pbuf := hp (pget l).

(** The code outside the repository: the device driver behind [netif->output]
    and the functions an application registers. *)
Class Env := {
  netif_output : loc -> loc -> Z -> M stack Z;       (* netif, p, ipaddr *)
  netif_init_fn : Z -> loc -> M stack Z;             (* the init argument of netif_add *)
  igmp_mac_filter_fn : Z -> loc -> Z -> Z -> M stack Z;  (* netif, group, action *)
  tcp_recv_app : Z -> Z -> loc -> option loc -> Z -> M stack Z;
  tcp_sent_app : Z -> Z -> loc -> Z -> M stack Z;
  tcp_connected_app : Z -> Z -> loc -> Z -> M stack Z;
  tcp_accept_app : Z -> Z -> loc -> Z -> M stack Z;
  tcp_poll_app : Z -> Z -> loc -> M stack Z;
  tcp_err_app : Z -> Z -> Z -> M stack unit;
  udp_recv_app : Z -> Z -> loc -> loc -> Z -> Z -> M stack unit;
  raw_recv_app : Z -> Z -> loc -> loc -> Z -> M stack Z
}.
