(* ===== verification/Ip.v ===== *)
(** * IP output (core/ipv4/ip.c, ip_addr.c, the sending half of ip_frag.c)

    Address tests, routing, the construction of the IP header and the
    fragmentation of datagrams larger than the interface's MTU. *)
From S2P Require Import Prelude Inet Checksum Heap Pbuf InetChksum Stack.
#[local] Open Scope string_scope.
#[local] Open Scope list_scope.
#[local] Open Scope Z_scope.

(** ** Addresses (ip_addr.h, ip_addr.c); [None] is the NULL pointer *)
Definition IP_ADDR_ANY_VALUE : Z := 0.
Definition IP_ADDR_BROADCAST_VALUE : Z := 0xffffffff.

Definition ip_addr_isany (a : option Z) : bool :=
  match a with None => true | Some a => a =? 0 end.
Definition ip_addr_netcmp (a1 a2 mask : Z) : bool := Z.land a1 mask =? Z.land a2 mask.
Definition ip_addr_ismulticast (a : Z) : bool := Z.land a (ntohl 0xf0000000) =? ntohl 0xe0000000.

Definition lnot32 (a : Z) : Z := u32 (Z.lnot a).

Definition ip_addr_isbroadcast (addr : Z) (n : netif) : bool :=
  if (lnot32 addr =? IP_ADDR_ANY_VALUE) || (addr =? IP_ADDR_ANY_VALUE) then true
  else if Z.land (netif_flags n) NETIF_FLAG_BROADCAST =? 0 then false
  else if addr =? netif_ip_addr n then false
  else ip_addr_netcmp addr (netif_ip_addr n) (netif_netmask n)
       && (Z.land addr (lnot32 (netif_netmask n))
           =? Z.land IP_ADDR_BROADCAST_VALUE (lnot32 (netif_netmask n))).

Definition netif_is_up (n : netif) : bool := negb (Z.land (netif_flags n) NETIF_FLAG_UP =? 0).

(** ** The IP header (ip.h): offsets of its fields *)
Definition IP_HLEN : Z := 20.
Definition IP_PROTO_ICMP : Z := 1.
Definition IP_PROTO_IGMP : Z := 2.
Definition IP_PROTO_UDP : Z := 17.
Definition IP_PROTO_TCP : Z := 6.
Definition IP_MF : Z := 0x2000.
Definition IP_OFFMASK : Z := 0x1fff.
Definition IP_DEFAULT_TTL : Z := 255.

Definition iph_v_hl_tos (p : ptr) : ptr := p.
Definition iph_len (p : ptr) : ptr := ptr_add p 2.
Definition iph_id (p : ptr) : ptr := ptr_add p 4.
Definition iph_offset (p : ptr) : ptr := ptr_add p 6.
Definition iph_ttl_proto (p : ptr) : ptr := ptr_add p 8.
Definition iph_chksum (p : ptr) : ptr := ptr_add p 10.
Definition iph_src (p : ptr) : ptr := ptr_add p 12.
Definition iph_dest (p : ptr) : ptr := ptr_add p 16.

Definition IPH_V (p : ptr) : M stack Z := w ← get16 (iph_v_hl_tos p); mret (Z.shiftr (ntohs w) 12).
Definition IPH_HL (p : ptr) : M stack Z :=
  w ← get16 (iph_v_hl_tos p); mret (Z.land (Z.shiftr (ntohs w) 8) 0x0f).
Definition IPH_TTL (p : ptr) : M stack Z := w ← get16 (iph_ttl_proto p); mret (Z.shiftr (ntohs w) 8).
Definition IPH_PROTO (p : ptr) : M stack Z := w ← get16 (iph_ttl_proto p); mret (Z.land (ntohs w) 0xff).
Definition IPH_VHLTOS_SET (p : ptr) (v hl tos : Z) : M stack unit :=
  put16 (iph_v_hl_tos p) (htons (u16 (Z.lor (Z.lor (Z.shiftl v 12) (Z.shiftl hl 8)) tos))).
Definition IPH_TTL_SET (p : ptr) (ttl : Z) : M stack unit :=
  proto ← IPH_PROTO p; put16 (iph_ttl_proto p) (htons (u16 (Z.lor proto (Z.shiftl ttl 8)))).
Definition IPH_PROTO_SET (p : ptr) (proto : Z) : M stack unit :=
  ttl ← IPH_TTL p; put16 (iph_ttl_proto p) (htons (u16 (Z.lor proto (Z.shiftl ttl 8)))).

(** [inet_chksum(iphdr, len)] on the bytes in memory. *)
Definition inet_chksum_at (p : ptr) (len : Z) : M stack Z :=
  bs ← hp (load p len); fueled (inet_chksum bs).

(** ** ip_route *)
Fixpoint route_walk (fuel : nat) (dest : Z) (l : option loc) : M stack (option loc) :=
  match l, fuel with
  | None, _ => mret None
  | _, O => halt NoFuel
  | Some l, S fuel =>
      n ← netif_get l;
      if netif_is_up n && ip_addr_netcmp dest (netif_ip_addr n) (netif_netmask n)
      then mret (Some l) else route_walk fuel dest (netif_next n)
  end.

Definition ip_route (dest : Z) : M stack (option loc) :=
  s ← get;
  r ← route_walk (map_fuel (s_netifs s)) dest (netif_list s);
  match r with
  | Some l => mret (Some l)
  | None =>
      match netif_default s with
      | None => mret None
      | Some d => n ← netif_get d; mret (if netif_is_up n then Some d else None)
      end
  end.

Section output.
Context {MC : MempConf} {EV : Env}.

(** ** ip_frag: chop a datagram into MTU-sized chunks *)
Fixpoint frag_loop (fuel : nat) (p nif rambuf : loc) (iphdr : ptr) (dest mtu nfb ofo omf left poff : Z)
  : M stack (Z * bool) :=
  if left =? 0 then mret (ERR_OK, true)
  else match fuel with
  | O => halt NoFuel
  | S fuel =>
      let last := left <=? mtu - IP_HLEN in
      let tmp := Z.lor omf (Z.land IP_OFFMASK ofo) in
      let tmp := if last then tmp else Z.lor tmp IP_MF in
      let cop := if last then left else u16 (nfb * 8) in
      n ← hp (pbuf_copy_partial (Some p) (Some (ptr_add iphdr IP_HLEN)) cop poff);
      let poff := u16 (poff + n) in
      put16 (iph_offset iphdr) (htons tmp);;
      put16 (iph_len iphdr) (htons (u16 (cop + IP_HLEN)));;
      put16 (iph_chksum iphdr) 0;;
      c ← inet_chksum_at iphdr IP_HLEN;
      put16 (iph_chksum iphdr) c;;
      when last (hp (pbuf_realloc rambuf (u16 (left + IP_HLEN))));;
      header ← hp (pbuf_alloc PBUF_LINK 0 PBUF_RAM);
      match header with
      | Some header =>
          hp (pbuf_chain (Some header) (Some rambuf));;
          _ ← netif_output nif header dest;
          _ ← hp (pbuf_free (Some header));
          frag_loop fuel p nif rambuf iphdr dest mtu nfb (u16 (ofo + nfb)) omf (u16 (left - cop)) poff
      | None => _ ← hp (pbuf_free (Some rambuf)); mret (ERR_MEM, false)
      end
  end.

(** Each turn consumes at least eight bytes when the MTU allows any payload;
    an MTU below 28 makes no progress and the loop does not end. *)
Definition frag_fuel : nat := 8192.

Definition ip_frag (p nif : loc) (dest : Z) : M stack Z :=
  n ← netif_get nif;
  let mtu := netif_mtu n in
  s ← get;
  rambuf ← hp (pbuf_alloc PBUF_LINK 0 PBUF_REF);
  match rambuf with
  | None => mret ERR_MEM
  | Some rambuf =>
      let iphdr := LWIP_MEM_ALIGN (frag_buf s) in
      hp (pupd rambuf (fun b => pb_set_payload (Some iphdr) (pb_set_tot_len mtu (pb_set_len mtu b))));;
      pb ← pbuf_get p;
      pp ← deref (pb_payload pb);
      hdr ← hp (load pp IP_HLEN);
      hp (store iphdr hdr);;
      w ← get16 (iph_offset iphdr);
      let tmp := ntohs w in
      let ofo := Z.land tmp IP_OFFMASK in
      let omf := Z.land tmp IP_MF in
      let left := u16 (pb_tot_len pb - IP_HLEN) in
      let nfb := u16 (Z.quot (mtu - IP_HLEN) 8) in
      '(err, ok) ← frag_loop frag_fuel p nif rambuf iphdr dest mtu nfb ofo omf left IP_HLEN;
      if (ok : bool) then _ ← hp (pbuf_free (Some rambuf)); mret ERR_OK else mret err
  end.

(** ** ip_output_if, ip_output; a [dest] of [None] is IP_HDRINCL *)
Definition ip_output_if (p : loc) (src dest : option Z) (ttl tos proto : Z) (nif : loc) : M stack Z :=
  let send (dest : Z) : M stack Z :=
    n ← netif_get nif;
    b ← pbuf_get p;
    if negb (netif_mtu n =? 0) && (netif_mtu n <? pb_tot_len b) then ip_frag p nif dest
    else netif_output nif p dest in
  match dest with
  | Some dest =>
      e ← hp (pbuf_header (Some p) IP_HLEN);
      if negb (e =? 0) then mret ERR_BUF
      else
        b ← pbuf_get p;
        iphdr ← deref (pb_payload b);
        ASSERT "check that first pbuf can hold struct ip_hdr" (20 <=? pb_len b);;
        IPH_TTL_SET iphdr ttl;;
        IPH_PROTO_SET iphdr proto;;
        put32 (iph_dest iphdr) dest;;
        IPH_VHLTOS_SET iphdr 4 (IP_HLEN / 4) tos;;
        put16 (iph_len iphdr) (htons (pb_tot_len b));;
        put16 (iph_offset iphdr) 0;;
        id ← gets ip_id;
        put16 (iph_id iphdr) (htons id);;
        modify (fun s => s <| ip_id := u16 (id + 1) |>);;
        n ← netif_get nif;
        put32 (iph_src iphdr)
          (match src with
           | Some a => if ip_addr_isany src then netif_ip_addr n else a
           | None => netif_ip_addr n
           end);;
        put16 (iph_chksum iphdr) 0;;
        c ← inet_chksum_at iphdr IP_HLEN;
        put16 (iph_chksum iphdr) c;;
        send dest
  | None =>
      b ← pbuf_get p;
      iphdr ← deref (pb_payload b);
      dest ← get32 (iph_dest iphdr);
      send dest
  end.

Definition ip_output (p : loc) (src : option Z) (dest ttl tos proto : Z) : M stack Z :=
  nif ← ip_route dest;
  match nif with
  | None => mret ERR_RTE
  | Some nif => ip_output_if p src (Some dest) ttl tos proto nif
  end.
End output.
