(* ===== verification/IpProps.v ===== *)
(** * Routing and broadcast addresses

    ip_route and ip_addr_isbroadcast against their declarative meaning. *)
From S2P Require Import Prelude Inet Checksum Heap Pbuf InetChksum Stack Chains Ip.
#[local] Open Scope list_scope.
#[local] Open Scope Z_scope.

(** ** ip_route *)

(** The interface is up and [dest] is on its network. *)
Definition on_network (s : stack) (dest : Z) (l : loc) : bool :=
  match s_netifs s !! l with
  | Some n => netif_is_up n && ip_addr_netcmp dest (netif_ip_addr n) (netif_netmask n)
  | None => false
  end.
Definition is_up (s : stack) (l : loc) : bool :=
  match s_netifs s !! l with Some n => netif_is_up n | None => false end.

(** The route: the first interface of the list whose network has the address,
    else the default interface when it is up. *)
Definition route (s : stack) (ls : list loc) (dest : Z) : option loc :=
  match find (on_network s dest) ls with
  | Some l => Some l
  | None => d ← netif_default s; if is_up s d then Some d else None
  end.

Lemma netif_get_run s l n : s_netifs s !! l = Some n -> netif_get l s = Done (n, s).
Proof. unfold netif_get. intros H. rewrite (bind_run _ _ _ s s) by done. by rewrite H. Qed.

Lemma route_walk_run fuel s dest p ls :
  chain (map_next netif_next (s_netifs s)) p ls None -> (length ls <= fuel)%nat ->
  route_walk fuel dest p s = Done (find (on_network s dest) ls, s).
Proof.
  revert p fuel. induction ls as [|l ls IH]; intros p fuel H Hf; [cbn in H; subst; by destruct fuel|].
  pose proof H as (-> & _). apply map_chain_lookup in H as (n & Hn & H).
  destruct fuel as [|fuel]; [cbn in Hf; lia|]. cbn [route_walk find].
  rewrite (bind_run _ _ _ _ _ (netif_get_run _ _ _ Hn)).
  unfold on_network at 1. rewrite Hn. destruct (netif_is_up n && _); [done|].
  apply IH; [done | cbn in Hf; lia].
Qed.

Lemma ip_route_run s ls dest :
  chain (map_next netif_next (s_netifs s)) (netif_list s) ls None ->
  (forall d, netif_default s = Some d -> is_Some (s_netifs s !! d)) ->
  ip_route dest s = Done (route s ls dest, s).
Proof.
  intros H Hd. unfold ip_route, route. rewrite (bind_run _ _ _ s s) by done.
  pose proof (map_chain_length _ _ _ _ H) as Hlen.
  rewrite (bind_run _ _ _ _ _ (route_walk_run (map_fuel (s_netifs s)) s dest _ ls H ltac:(unfold map_fuel; lia))).
  destruct (find _ ls) as [l|]; [done|]. destruct (netif_default s) as [d|]; [|done]. cbn.
  destruct (Hd d eq_refl) as [n Hn]. rewrite (bind_run _ _ _ _ _ (netif_get_run _ _ _ Hn)).
  unfold is_up. by rewrite Hn.
Qed.

(** C17: Routing always ends, changes nothing and returns [route]. *)
Theorem ip_route_spec s ls dest :
  chain (map_next netif_next (s_netifs s)) (netif_list s) ls None ->
  (forall d, netif_default s = Some d -> is_Some (s_netifs s !! d)) ->
  ip_route dest s = Done (route s ls dest, s).
Proof. apply ip_route_run. Qed.

(** Two interfaces, 10.0.0.1/8 and 192.168.0.1/16, the second one down. *)
Definition ex_netif (n : option loc) (ip mask flags : Z) : netif :=
  Netif n ip mask 0 1500 flags (101, 116) 0 0 0 None.
Definition ex_routes : stack :=
  Stack (Heap ∅ ∅ 1 0 (fun _ => None) [])
    (list_to_map [(1%positive, ex_netif (Some 2%positive) 0x0100000a 0xff 0x03);
                  (2%positive, ex_netif None 0x0100a8c0 0xffff 0x02)])
    (Some 1%positive) (Some 1%positive) 2 0 (Ptr 1000 0) ∅ ∅ ∅
    (TcpGlobals 0 0 4096 6510 None None None None None (TcpSeg None None None 0 None) None None 0 0 0 0 0 None)
    ∅ None ∅ None ∅ zero_igmp ∅ zero_reass.

Lemma ip_route_spec_witness :
  ip_route 0x0500000a ex_routes = Done (Some 1%positive, ex_routes)
  /\ ip_route 0x0500a8c0 ex_routes = Done (Some 1%positive, ex_routes).
Proof.
  assert (H : forall dest, ip_route dest ex_routes = Done (route ex_routes [1; 2]%positive dest, ex_routes)).
  { intros dest. apply ip_route_spec.
    - split; [reflexivity|]. exists (Some 2%positive). split; [vm_compute; reflexivity|].
      split; [reflexivity|]. exists None. split; [vm_compute; reflexivity | reflexivity].
    - intros d E. injection E as <-. eexists. vm_compute. reflexivity. }
  split; rewrite H; vm_compute; reflexivity.
Defined.

(** ** Broadcast addresses *)

Lemma testbit_u32 a i : is_u32 a -> 32 <= i -> Z.testbit a i = false.
Proof.
  unfold is_u32. intros Ha Hi. rewrite <- (Z.mod_small a (2 ^ 32)) by lia.
  by apply Z.mod_pow2_bits_high.
Qed.
Lemma lnot32_bits a i : 0 <= i -> Z.testbit (lnot32 a) i = (i <? 32) && negb (Z.testbit a i).
Proof.
  intros Hi. unfold lnot32, u32. destruct (Z.ltb_spec i 32).
  - rewrite Z.mod_pow2_bits_low, Z.lnot_spec by lia. done.
  - by rewrite Z.mod_pow2_bits_high by lia.
Qed.
Lemma lnot32_range a : is_u32 (lnot32 a).
Proof. apply u32_range. Qed.

(** The address of a network with every host bit set. *)
Definition broadcast_of (ip mask : Z) : Z := Z.lor (Z.land ip mask) (lnot32 mask).

Lemma directed_broadcast addr ip mask : is_u32 addr -> is_u32 ip -> is_u32 mask ->
  (Z.land addr mask = Z.land ip mask /\ Z.land addr (lnot32 mask) = lnot32 mask)
  <-> addr = broadcast_of ip mask.
Proof.
  intros Ha Hi Hm. unfold broadcast_of. split.
  - intros [H1 H2]. apply Z.bits_inj'. intros i Hi0.
    apply (f_equal (fun z => Z.testbit z i)) in H1, H2.
    rewrite !Z.land_spec in H1. rewrite Z.land_spec, !lnot32_bits in H2 by done.
    rewrite Z.lor_spec, Z.land_spec, lnot32_bits by done.
    destruct (Z.ltb_spec i 32) as [Hlt|Hge].
    + destruct (Z.testbit mask i), (Z.testbit addr i), (Z.testbit ip i); done.
    + by rewrite (testbit_u32 addr), (testbit_u32 ip), (testbit_u32 mask) by done.
  - intros ->. split; apply Z.bits_inj'; intros i Hi0;
      rewrite !Z.land_spec, Z.lor_spec, Z.land_spec, lnot32_bits by done.
    all: destruct (Z.testbit mask i) eqn:E, (Z.testbit ip i), (Z.ltb_spec i 32); try done.
Qed.

(** An address is a broadcast address of an interface exactly when it is
    0.0.0.0, 255.255.255.255, or - on an interface that can broadcast, and
    unless it is the interface's own address - the interface's network with
    every host bit set. *)
Theorem ip_addr_isbroadcast_spec addr n :
  is_u32 addr -> is_u32 (netif_ip_addr n) -> is_u32 (netif_netmask n) ->
  ip_addr_isbroadcast addr n = true <->
  addr = 0 \/ addr = 0xffffffff
  \/ Z.land (netif_flags n) NETIF_FLAG_BROADCAST <> 0 /\ addr <> netif_ip_addr n
     /\ addr = broadcast_of (netif_ip_addr n) (netif_netmask n).
Proof.
  intros Ha Hi Hm. unfold ip_addr_isbroadcast, IP_ADDR_ANY_VALUE, IP_ADDR_BROADCAST_VALUE, ip_addr_netcmp.
  assert (E1 : (lnot32 addr =? 0) = (addr =? 0xffffffff)).
  { apply eq_true_iff_eq. rewrite !Z.eqb_eq. split; intros E.
    - apply Z.bits_inj'. intros i Hi0. apply (f_equal (fun z => Z.testbit z i)) in E.
      rewrite lnot32_bits, Z.bits_0 in E by done. change 0xffffffff with (Z.ones 32).
      rewrite Z.testbit_ones_nonneg by lia. destruct (Z.ltb_spec i 32); cbn in E.
      + by apply negb_false_iff in E.
      + by apply testbit_u32.
    - subst addr. reflexivity. }
  assert (E2 : Z.land 0xffffffff (lnot32 (netif_netmask n)) = lnot32 (netif_netmask n)).
  { rewrite Z.land_comm. change 0xffffffff with (Z.ones 32). rewrite Z.land_ones by lia.
    apply Z.mod_small, lnot32_range. }
  rewrite E1, E2. destruct (Z.eqb_spec addr 0xffffffff); [naive_solver|].
  destruct (Z.eqb_spec addr 0); [naive_solver|]. cbn [orb].
  destruct (Z.eqb_spec (Z.land (netif_flags n) NETIF_FLAG_BROADCAST) 0); [naive_solver|].
  destruct (Z.eqb_spec addr (netif_ip_addr n)); [naive_solver|].
  rewrite andb_true_iff, !Z.eqb_eq, directed_broadcast by done. naive_solver.
Qed.

Lemma ip_addr_isbroadcast_spec_witness :
  ip_addr_isbroadcast 0xffffff0a (ex_netif None 0x0100000a 0xff 0x03) = true.
Proof.
  apply ip_addr_isbroadcast_spec; [vm_compute; intuition congruence..|].
  right. right. vm_compute. repeat split; discriminate.
Defined.
