(* ===== verification/TcpBase.v ===== *)
(** * TCP: sequence arithmetic, header access, segments and pcb lists

    The macros of tcp.h and the small functions of tcp.c that both the output
    and the input half use. *)
From S2P Require Import Prelude Inet Heap Pbuf Stack Ip.
#[local] Open Scope string_scope.
#[local] Open Scope list_scope.
#[local] Open Scope Z_scope.

(** ** Constants (tcp.h, opt.h, nsc lwipopts.h) *)
Definition TCP_WND : Z := 63 * 1024.
Definition TCP_SND_BUF : Z := 63 * 1024.
Definition TCP_SND_QUEUELEN : Z := 4 * (TCP_SND_BUF / TCP_MSS).
Definition TCP_SNDQUEUELEN_OVERFLOW : Z := 0xffff - 3.
Definition TCP_MAXRTX : Z := 12.
Definition TCP_SYNMAXRTX : Z := 6.
Definition TCP_TTL : Z := IP_DEFAULT_TTL.
Definition TCP_HLEN : Z := 20.
Definition TCP_SLOW_INTERVAL : Z := 2 * 250.
Definition TCP_FIN_WAIT_TIMEOUT : Z := 20000.
Definition TCP_SYN_RCVD_TIMEOUT : Z := 20000.
Definition TCP_OOSEQ_TIMEOUT : Z := 6.
Definition TCP_MSL : Z := 60000.
Definition TCP_KEEPIDLE_DEFAULT : Z := 7200000.
Definition TCP_KEEPINTVL_DEFAULT : Z := 75000.
Definition TCP_KEEPCNT_DEFAULT : Z := 9.
Definition TCP_MAXIDLE : Z := TCP_KEEPCNT_DEFAULT * TCP_KEEPINTVL_DEFAULT.
Definition TCP_PRIO_NORMAL : Z := 64.
Definition TCP_PRIO_MAX : Z := 127.
Definition TCP_WRITE_FLAG_COPY : Z := 0x01.
Definition TCP_WRITE_FLAG_MORE : Z := 0x02.

Definition TCP_FIN : Z := 0x01.
Definition TCP_SYN : Z := 0x02.
Definition TCP_RST : Z := 0x04.
Definition TCP_PSH : Z := 0x08.
Definition TCP_ACK : Z := 0x10.
Definition TCP_FLAGS : Z := 0x3f.

(** pcb->flags *)
Definition TF_ACK_DELAY : Z := 0x01.
Definition TF_ACK_NOW : Z := 0x02.
Definition TF_INFR : Z := 0x04.
Definition TF_FIN : Z := 0x20.
Definition TF_NODELAY : Z := 0x40.
Definition TF_NAGLEMEMERR : Z := 0x80.
(** recv_flags *)
Definition TF_RESET : Z := 0x08.
Definition TF_CLOSED : Z := 0x10.
Definition TF_GOT_FIN : Z := 0x20.

Definition SOF_DEBUG : Z := 0x0001.
Definition SOF_ACCEPTCONN : Z := 0x0002.
Definition SOF_KEEPALIVE : Z := 0x0008.
Definition SOF_DONTROUTE : Z := 0x0010.
Definition SOF_LINGER : Z := 0x0080.
Definition SOF_OOBINLINE : Z := 0x0100.

Definition PBUF_FLAG_PUSH : Z := 0x01.

(** [x & flag], [x |= flag], [x &= ~flag] on an u8_t *)
Definition has (x flag : Z) : bool := negb (Z.land x flag =? 0).
Definition or8 (x flag : Z) : Z := u8 (Z.lor x flag).
Definition clr8 (x flag : Z) : Z := u8 (Z.ldiff x flag).

(** ** Sequence numbers: circular comparison of u32_t *)
Definition TCP_SEQ_LT (a b : Z) : bool := s32 (a - b) <? 0.
Definition TCP_SEQ_LEQ (a b : Z) : bool := s32 (a - b) <=? 0.
Definition TCP_SEQ_GT (a b : Z) : bool := 0 <? s32 (a - b).
Definition TCP_SEQ_GEQ (a b : Z) : bool := 0 <=? s32 (a - b).
Definition TCP_SEQ_BETWEEN (a b c : Z) : bool := TCP_SEQ_GEQ a b && TCP_SEQ_LEQ a c.

(** ** struct tcp_hdr: offsets of its fields *)
Definition tcph_src (p : ptr) : ptr := p.
Definition tcph_dest (p : ptr) : ptr := ptr_add p 2.
Definition tcph_seqno (p : ptr) : ptr := ptr_add p 4.
Definition tcph_ackno (p : ptr) : ptr := ptr_add p 8.
Definition tcph_hdrlen_rsvd_flags (p : ptr) : ptr := ptr_add p 12.
Definition tcph_wnd (p : ptr) : ptr := ptr_add p 14.
Definition tcph_chksum (p : ptr) : ptr := ptr_add p 16.
Definition tcph_urgp (p : ptr) : ptr := ptr_add p 18.

Definition TCPH_HDRLEN (p : ptr) : M stack Z :=
  w ← get16 (tcph_hdrlen_rsvd_flags p); mret (Z.shiftr (ntohs w) 12).
Definition TCPH_FLAGS (p : ptr) : M stack Z :=
  w ← get16 (tcph_hdrlen_rsvd_flags p); mret (Z.land (ntohs w) TCP_FLAGS).
Definition TCPH_HDRLEN_SET (p : ptr) (len : Z) : M stack unit :=
  fl ← TCPH_FLAGS p;
  put16 (tcph_hdrlen_rsvd_flags p) (htons (u16 (Z.lor (Z.shiftl len 12) fl))).
Definition TCPH_FLAGS_SET (p : ptr) (flags : Z) : M stack unit :=
  w ← get16 (tcph_hdrlen_rsvd_flags p);
  put16 (tcph_hdrlen_rsvd_flags p) (htons (u16 (Z.lor (Z.ldiff (ntohs w) TCP_FLAGS) flags))).
Definition TCPH_SET_FLAG (p : ptr) (flags : Z) : M stack unit :=
  w ← get16 (tcph_hdrlen_rsvd_flags p);
  put16 (tcph_hdrlen_rsvd_flags p) (htons (u16 (Z.lor (ntohs w) flags))).

(** [TCP_TCPLEN(seg)]: the segment's length in sequence space. *)
Definition TCP_TCPLEN (seg : tcp_seg) : M stack Z :=
  h ← deref (seg_tcphdr seg);
  fl ← TCPH_FLAGS h;
  mret (seg_len seg + (if has fl TCP_FIN || has fl TCP_SYN then 1 else 0)).

(** [ntohl(seg->tcphdr->seqno)] of a segment to send. *)
Definition seg_seqno (seg : tcp_seg) : M stack Z :=
  h ← deref (seg_tcphdr seg); n ← get32 (tcph_seqno h); mret (ntohl n).

(** [TCP_BUILD_MSS_OPTION()] *)
Definition TCP_BUILD_MSS_OPTION : Z :=
  htonl (Z.lor (Z.lor (Z.lor (Z.shiftl 2 24) (Z.shiftl 4 16)) (Z.shiftl (TCP_MSS / 256) 8))
               (Z.land TCP_MSS 255)).

(** ** tcp_seg_free, tcp_segs_free, tcp_seg_copy *)
Definition tcp_seg_free (seg : option loc) : M stack Z :=
  match seg with
  | None => mret 0
  | Some l =>
      b ← seg_get l;
      count ← match seg_p b with
              | Some _ => hp (pbuf_free (seg_p b))
              | None => mret 0
              end;
      free_seg l;;
      mret count
  end.

Fixpoint segs_free_loop (fuel : nat) (seg : option loc) (count : Z) : M stack Z :=
  match seg, fuel with
  | None, _ => mret count
  | _, O => halt NoFuel
  | Some l, S fuel =>
      b ← seg_get l;
      let next := seg_next b in
      n ← tcp_seg_free (Some l);
      segs_free_loop fuel next (u8 (count + n))
  end.

Definition tcp_segs_free (seg : option loc) : M stack Z :=
  s ← get; segs_free_loop (map_fuel (s_segs s)) seg 0.

(** A copy that shares the pbuf; the new segment's location. *)
Definition tcp_seg_copy (seg : tcp_seg) : M stack (option loc) :=
  r ← malloc_struct;
  match r with
  | None => mret None
  | Some (cseg, _) =>
      seg_put cseg seg;;
      hp (pbuf_ref (seg_p seg));;
      mret (Some cseg)
  end.

(** The last segment of a non-empty queue. *)
Fixpoint seg_last (fuel : nat) (l : loc) : M stack loc :=
  match fuel with
  | O => halt NoFuel
  | S fuel =>
      b ← seg_get l;
      match seg_next b with
      | None => mret l
      | Some l' => seg_last fuel l'
      end
  end.
Definition seg_queue_last (l : loc) : M stack loc :=
  s ← get; seg_last (map_fuel (s_segs s)) l.

(** ** The four pcb lists *)
Inductive pcb_list := BOUND | LISTENING | ACTIVE | TW.

Definition list_head (which : pcb_list) (g : tcp_globals) : option loc :=
  match which with
  | BOUND => tcp_bound_pcbs g
  | LISTENING => tcp_listen_pcbs g
  | ACTIVE => tcp_active_pcbs g
  | TW => tcp_tw_pcbs g
  end.
Definition set_list_head (which : pcb_list) (v : option loc) (g : tcp_globals) : tcp_globals :=
  match which with
  | BOUND => g <| tcp_bound_pcbs := v |>
  | LISTENING => g <| tcp_listen_pcbs := v |>
  | ACTIVE => g <| tcp_active_pcbs := v |>
  | TW => g <| tcp_tw_pcbs := v |>
  end.

(** Access to the fields that both kinds of pcb have, through the casts of the
    code: the location says which kind it is. *)
Definition any_next (l : loc) : M stack (option loc) :=
  s ← get;
  match s_tpcbs s !! l, s_lpcbs s !! l with
  | Some b, _ => mret (pcb_next b)
  | None, Some b => mret (lpcb_next b)
  | None, None => halt UB
  end.
Definition any_set_next (l : loc) (v : option loc) : M stack unit :=
  s ← get;
  match s_tpcbs s !! l, s_lpcbs s !! l with
  | Some b, _ => pcb_put l (b <| pcb_next := v |>)
  | None, Some b => lpcb_put l (b <| lpcb_next := v |>)
  | None, None => halt UB
  end.
Definition any_state (l : loc) : M stack tcp_state :=
  s ← get;
  match s_tpcbs s !! l, s_lpcbs s !! l with
  | Some b, _ => mret (pcb_state b)
  | None, Some b => mret (lpcb_state b)
  | None, None => halt UB
  end.
Definition any_set_state (l : loc) (v : tcp_state) : M stack unit :=
  s ← get;
  match s_tpcbs s !! l, s_lpcbs s !! l with
  | Some b, _ => pcb_put l (b <| pcb_state := v |>)
  | None, Some b => lpcb_put l (b <| lpcb_state := v |>)
  | None, None => halt UB
  end.
(** local_port and local_ip *)
Definition any_local (l : loc) : M stack (Z * Z) :=
  s ← get;
  match s_tpcbs s !! l, s_lpcbs s !! l with
  | Some b, _ => mret (pcb_local_port b, pcb_local_ip b)
  | None, Some b => mret (lpcb_local_port b, lpcb_local_ip b)
  | None, None => halt UB
  end.

Definition pcbs_fuel (s : stack) : nat := S (size (s_tpcbs s) + size (s_lpcbs s)).

(** TCP_REG: put a pcb at the head of a list. *)
Definition TCP_REG (which : pcb_list) (npcb : loc) : M stack unit :=
  g ← gets s_tcp;
  any_set_next npcb (list_head which g);;
  utcp (set_list_head which (Some npcb)).

(** TCP_RMV: unlink a pcb; one that is not on the list only loses its link. *)
Fixpoint rmv_walk (fuel : nat) (tmp : option loc) (npcb : loc) : M stack unit :=
  match tmp, fuel with
  | None, _ => mret tt
  | _, O => halt NoFuel
  | Some t, S fuel =>
      nx ← any_next t;
      if bool_decide (nx = Some npcb) then n ← any_next npcb; any_set_next t n
      else rmv_walk fuel nx npcb
  end.

Definition TCP_RMV (which : pcb_list) (npcb : loc) : M stack unit :=
  s ← get;
  let h := list_head which (s_tcp s) in
  (if bool_decide (h = Some npcb) then
     n ← any_next npcb; utcp (set_list_head which n)
   else rmv_walk (pcbs_fuel s) h npcb);;
  any_set_next npcb None.
