(* ===== verification/TcpOut.v ===== *)
(** * TCP output (core/tcp_out.c)

    Segmentation of data into the unsent queue, the output engine, the
    construction of control segments, and retransmission. *)
From S2P Require Import Prelude Inet Heap Pbuf InetChksum Stack Ip TcpBase.
#[local] Open Scope string_scope.
#[local] Open Scope list_scope.
#[local] Open Scope Z_scope.

Section tcp_out.
Context {MC : MempConf} {EV : Env}.

(** ** tcp_enqueue *)

(** The buffer of one segment: options, copied data or referenced data.
    [None] is [goto memerr]; otherwise the new [queuelen]. *)
Definition enqueue_alloc (seg : loc) (arg p : option ptr) (seglen apiflags : Z)
    (optdata : option (list Z)) (optlen queuelen : Z) : M stack (option Z) :=
  match optdata with
  | Some _ =>
      q ← hp (pbuf_alloc PBUF_TRANSPORT optlen PBUF_RAM);
      seg_upd seg (fun b => b <| seg_p := q |>);;
      match q with
      | None => mret None
      | Some q =>
          b ← pbuf_get q;
          ASSERT "check that first pbuf can hold optlen" (optlen <=? pb_len b);;
          n ← hp (pbuf_clen (Some q));
          seg_upd seg (fun s => s <| seg_dataptr := pb_payload b |>);;
          mret (Some (u16 (queuelen + n)))
      end
  | None =>
      if negb (Z.land apiflags TCP_WRITE_FLAG_COPY =? 0) then
        q ← hp (pbuf_alloc PBUF_TRANSPORT seglen PBUF_RAM);
        seg_upd seg (fun b => b <| seg_p := q |>);;
        match q with
        | None => mret None
        | Some q =>
            b ← pbuf_get q;
            ASSERT "check that first pbuf can hold the complete seglen" (seglen <=? pb_len b);;
            n ← hp (pbuf_clen (Some q));
            match arg with
            | Some _ =>
                src ← deref p;
                dst ← deref (pb_payload b);
                bs ← hp (load src seglen);
                hp (store dst bs)
            | None => mret tt
            end;;
            seg_upd seg (fun s => s <| seg_dataptr := pb_payload b |>);;
            mret (Some (u16 (queuelen + n)))
        end
      else
        d ← hp (pbuf_alloc PBUF_TRANSPORT seglen PBUF_ROM);
        match d with
        | None => mret None
        | Some d =>
            let queuelen := u16 (queuelen + 1) in
            hp (pupd d (pb_set_payload p));;
            seg_upd seg (fun s => s <| seg_dataptr := p |>);;
            q ← hp (pbuf_alloc PBUF_TRANSPORT 0 PBUF_RAM);
            seg_upd seg (fun b => b <| seg_p := q |>);;
            match q with
            | None => _ ← hp (pbuf_free (Some d)); mret None
            | Some q =>
                n ← hp (pbuf_clen (Some q));
                hp (pbuf_cat (Some q) (Some d));;
                mret (Some (u16 (queuelen + n)))
            end
        end
  end.

(** The header of one segment; [false] is [goto memerr]. *)
Definition enqueue_header (pcb seg : loc) (seglen seqno flags : Z) (optdata : option (list Z))
    (optlen : Z) : M stack bool :=
  seg_upd seg (fun s => s <| seg_len := seglen |>);;
  sb ← seg_get seg;
  e ← hp (pbuf_header (seg_p sb) TCP_HLEN);
  if negb (e =? 0) then mret false
  else
    q ← deref (seg_p sb);
    b ← pbuf_get q;
    seg_upd seg (fun s => s <| seg_tcphdr := pb_payload b |>);;
    h ← deref (pb_payload b);
    pb ← pcb_get pcb;
    put16 (tcph_src h) (htons (pcb_local_port pb));;
    put16 (tcph_dest h) (htons (pcb_remote_port pb));;
    put32 (tcph_seqno h) (htonl seqno);;
    put16 (tcph_urgp h) 0;;
    TCPH_FLAGS_SET h flags;;
    match optdata with
    | None => TCPH_HDRLEN_SET h 5
    | Some opts =>
        TCPH_HDRLEN_SET h (5 + optlen / 4);;
        d ← deref (seg_dataptr sb);
        hp (store d (take (Z.to_nat optlen) opts))
    end;;
    mret true.

(** What the segmentation loop hands on: whether it completed, the local queue,
    the last segment, its data length and the number of pbufs. *)
Record enq := Enq { enq_ok : bool; enq_queue : option loc; enq_seg : option loc;
                    enq_seglen : Z; enq_queuelen : Z }.

Fixpoint enqueue_loop (fuel : nat) (pcb : loc) (arg : option ptr) (flags apiflags : Z)
    (optdata : option (list Z)) (optlen mss : Z)
    (queue useg seg : option loc) (left seqno : Z) (p : option ptr) (seglen queuelen : Z)
  : M stack enq :=
  if is_some queue && (left <=? 0) then mret (Enq true queue seg seglen queuelen)
  else match fuel with
  | O => halt NoFuel
  | S fuel =>
      let seglen := if mss <? left then mss else left in
      r ← malloc_struct;
      match r with
      | None => mret (Enq false queue None seglen queuelen)
      | Some (seg, _) =>
          seg_put seg (TcpSeg None None None 0 None);;
          queue' ← match queue with
            | None => mret (Some seg)
            | Some q =>
                ASSERT "useg != NULL" (is_some useg);;
                u ← deref useg;
                seg_upd u (fun b => b <| seg_next := Some seg |>);;
                mret (Some q)
            end;
          a ← enqueue_alloc seg arg p seglen apiflags optdata optlen queuelen;
          match a with
          | None => mret (Enq false queue' (Some seg) seglen queuelen)
          | Some queuelen =>
              if (TCP_SND_QUEUELEN <? queuelen) || (TCP_SNDQUEUELEN_OVERFLOW <? queuelen)
              then mret (Enq false queue' (Some seg) seglen queuelen)
              else
                ok ← enqueue_header pcb seg seglen seqno flags optdata optlen;
                if (ok : bool) then
                  enqueue_loop fuel pcb arg flags apiflags optdata optlen mss queue' (Some seg)
                    (Some seg) (u16 (left - seglen)) (u32 (seqno + seglen))
                    ((fun q => ptr_add q seglen) <$> p) seglen queuelen
                else mret (Enq false queue' (Some seg) seglen queuelen)
          end
      end
  end.

(** Each turn queues at least one pbuf and the loop gives up above
    TCP_SND_QUEUELEN (176) of them. *)
Definition enqueue_fuel : nat := 178.

Definition queues_nonempty (b : tcp_pcb) : bool :=
  is_some (pcb_unacked b) || is_some (pcb_unsent b).

Definition enqueue_memerr (pcb : loc) (queue : option loc) : M stack Z :=
  pcb_upd pcb (fun b => b <| pcb_flags := or8 (pcb_flags b) TF_NAGLEMEMERR |>);;
  match queue with
  | Some _ => _ ← tcp_segs_free queue; mret tt
  | None => mret tt
  end;;
  b ← pcb_get pcb;
  when (negb (pcb_snd_queuelen b =? 0))
    (ASSERT "tcp_enqueue: valid queue length" (queues_nonempty b));;
  mret ERR_MEM.

(** Append the local queue to [pcb->unsent], merging its first segment into
    the last unsent one when it fits.  [None] is [goto memerr]; otherwise the
    segment that may get the PSH flag. *)
Definition enqueue_append (pcb queue : loc) (seg : option loc) (flags : Z)
  : M stack (option (option loc)) :=
  pb ← pcb_get pcb;
  useg ← match pcb_unsent pb with
         | None => mret None
         | Some u => l ← seg_queue_last u; mret (Some l)
         end;
  qb ← seg_get queue;
  merge ← match useg with
          | None => mret false
          | Some u =>
              ub ← seg_get u;
              n ← TCP_TCPLEN ub;
              h ← deref (seg_tcphdr ub);
              fl ← TCPH_FLAGS h;
              mret (negb (n =? 0) && negb (has fl (Z.lor TCP_SYN TCP_FIN))
                    && negb (has flags (Z.lor TCP_SYN TCP_FIN))
                    && (seg_len ub + seg_len qb <=? pcb_mss pb))
          end;
  match useg with
  | Some u =>
      if (merge : bool) then
        e ← hp (pbuf_header (seg_p qb) (- TCP_HLEN));
        if negb (e =? 0) then ASSERT "pbuf_header failed" false;; mret None
        else
          ub ← seg_get u;
          hp (pbuf_cat (seg_p ub) (seg_p qb));;
          seg_upd u (fun b => b <| seg_len := u16 (seg_len b + seg_len qb) |>
                                <| seg_next := seg_next qb |>);;
          free_seg queue;;
          mret (Some (if bool_decide (seg = Some queue) then None else seg))
      else
        seg_upd u (fun b => b <| seg_next := Some queue |>);;
        mret (Some seg)
  | None =>
      pcb_upd pcb (fun b => b <| pcb_unsent := Some queue |>);;
      mret (Some seg)
  end.

Definition tcp_enqueue (pcb : loc) (arg : option ptr) (len flags apiflags : Z)
    (optdata : option (list Z)) (optlen : Z) : M stack Z :=
  if negb ((len =? 0) || (optlen =? 0)) then
    ASSERT "tcp_enqueue: len == 0 || optlen == 0 (programmer violates API)" false;; mret ERR_ARG
  else if is_some arg && is_some optdata then
    ASSERT "tcp_enqueue: arg == NULL || optdata == NULL (programmer violates API)" false;;
    mret ERR_ARG
  else
    b ← pcb_get pcb;
    if pcb_snd_buf b <? len then
      pcb_put pcb (b <| pcb_flags := or8 (pcb_flags b) TF_NAGLEMEMERR |>);; mret ERR_MEM
    else
      let queuelen := pcb_snd_queuelen b in
      if (TCP_SND_QUEUELEN <=? queuelen) || (TCP_SNDQUEUELEN_OVERFLOW <? queuelen) then
        pcb_put pcb (b <| pcb_flags := or8 (pcb_flags b) TF_NAGLEMEMERR |>);; mret ERR_MEM
      else
        (if negb (queuelen =? 0) then
           ASSERT "tcp_enqueue: pbufs on queue => at least one queue non-empty" (queues_nonempty b)
         else
           ASSERT "tcp_enqueue: no pbufs on queue => both queues empty" (negb (queues_nonempty b)));;
        r ← enqueue_loop enqueue_fuel pcb arg flags apiflags optdata optlen (pcb_mss b)
              None None None len (pcb_snd_lbb b) arg 0 queuelen;
        if negb (enq_ok r) then enqueue_memerr pcb (enq_queue r)
        else
          queue ← deref (enq_queue r);
          a ← enqueue_append pcb queue (enq_seg r) flags;
          match a with
          | None => enqueue_memerr pcb (Some queue)
          | Some seg =>
              let len := if has flags TCP_SYN || has flags TCP_FIN then u16 (len + 1) else len in
              when (has flags TCP_FIN)
                (pcb_upd pcb (fun b => b <| pcb_flags := or8 (pcb_flags b) TF_FIN |>));;
              pcb_upd pcb (fun b => b <| pcb_snd_lbb := u32 (pcb_snd_lbb b + len) |>
                                      <| pcb_snd_buf := u16 (pcb_snd_buf b - len) |>
                                      <| pcb_snd_queuelen := enq_queuelen r |>);;
              b ← pcb_get pcb;
              when (negb (pcb_snd_queuelen b =? 0))
                (ASSERT "tcp_enqueue: valid queue length" (queues_nonempty b));;
              match seg with
              | Some l =>
                  sb ← seg_get l;
                  match seg_tcphdr sb with
                  | Some h =>
                      when ((0 <? enq_seglen r) && (Z.land apiflags TCP_WRITE_FLAG_MORE =? 0))
                        (TCPH_SET_FLAG h TCP_PSH)
                  | None => mret tt
                  end
              | None => mret tt
              end;;
              mret ERR_OK
          end.

Definition tcp_send_ctrl (pcb : loc) (flags : Z) : M stack Z :=
  tcp_enqueue pcb None 0 flags TCP_WRITE_FLAG_COPY None 0.

Definition tcp_write (pcb : loc) (data : option ptr) (len apiflags : Z) : M stack Z :=
  b ← pcb_get pcb;
  if state_is (pcb_state b) ESTABLISHED || state_is (pcb_state b) CLOSE_WAIT
     || state_is (pcb_state b) SYN_SENT || state_is (pcb_state b) SYN_RCVD
  then if 0 <? len then tcp_enqueue pcb data len 0 apiflags None 0 else mret ERR_OK
  else mret ERR_CONN.

(** ** Segments without a tcp_seg: ACK, RST, keep-alive, probe *)

(** Fill in a header of 20 bytes in the order of the code. *)
Definition fill_header (h : ptr) (src dest seqno_n ackno flags wnd : Z) : M stack unit :=
  put16 (tcph_src h) (htons src);;
  put16 (tcph_dest h) (htons dest);;
  put32 (tcph_seqno h) seqno_n;;
  put32 (tcph_ackno h) (htonl ackno);;
  TCPH_FLAGS_SET h flags;;
  put16 (tcph_wnd h) (htons wnd);;
  put16 (tcph_urgp h) 0;;
  TCPH_HDRLEN_SET h 5.

(** Checksum the segment, send it and give up the buffer. *)
Definition send_and_free (p : loc) (h : ptr) (local_ip remote_ip ttl tos : Z) : M stack unit :=
  put16 (tcph_chksum h) 0;;
  b ← pbuf_get p;
  c ← hp (inet_chksum_pseudo (Some p) local_ip remote_ip IP_PROTO_TCP (pb_tot_len b));
  put16 (tcph_chksum h) c;;
  _ ← ip_output p (Some local_ip) remote_ip ttl tos IP_PROTO_TCP;
  _ ← hp (pbuf_free (Some p));
  mret tt.

Definition tcp_rst (seqno ackno local_ip remote_ip local_port remote_port : Z) : M stack unit :=
  p ← hp (pbuf_alloc PBUF_IP TCP_HLEN PBUF_RAM);
  match p with
  | None => mret tt
  | Some p =>
      b ← pbuf_get p;
      ASSERT "check that first pbuf can hold struct tcp_hdr" (20 <=? pb_len b);;
      h ← deref (pb_payload b);
      fill_header h local_port remote_port (htonl seqno) ackno (Z.lor TCP_RST TCP_ACK) TCP_WND;;
      send_and_free p h local_ip remote_ip TCP_TTL 0
  end.

Definition tcp_keepalive (pcb : loc) : M stack unit :=
  p ← hp (pbuf_alloc PBUF_IP TCP_HLEN PBUF_RAM);
  match p with
  | None => mret tt
  | Some p =>
      b ← pbuf_get p;
      ASSERT "check that first pbuf can hold struct tcp_hdr" (20 <=? pb_len b);;
      h ← deref (pb_payload b);
      pb ← pcb_get pcb;
      fill_header h (pcb_local_port pb) (pcb_remote_port pb) (htonl (u32 (pcb_snd_nxt pb - 1)))
        (pcb_rcv_nxt pb) 0 (pcb_rcv_ann_wnd pb);;
      send_and_free p h (pcb_local_ip pb) (pcb_remote_ip pb) (pcb_ttl pb) 0
  end.

Definition tcp_zero_window_probe (pcb : loc) : M stack unit :=
  pb ← pcb_get pcb;
  match (match pcb_unacked pb with Some l => Some l | None => pcb_unsent pb end) with
  | None => mret tt
  | Some seg =>
      p ← hp (pbuf_alloc PBUF_IP (TCP_HLEN + 1) PBUF_RAM);
      match p with
      | None => mret tt
      | Some p =>
          b ← pbuf_get p;
          ASSERT "check that first pbuf can hold struct tcp_hdr" (20 <=? pb_len b);;
          h ← deref (pb_payload b);
          sb ← seg_get seg;
          sh ← deref (seg_tcphdr sb);
          seqno ← get32 (tcph_seqno sh);
          fill_header h (pcb_local_port pb) (pcb_remote_port pb) seqno (pcb_rcv_nxt pb) 0
            (pcb_rcv_ann_wnd pb);;
          d ← deref (seg_dataptr sb);
          c ← get8 d;
          put8 (ptr_add h 20) c;;
          send_and_free p h (pcb_local_ip pb) (pcb_remote_ip pb) (pcb_ttl pb) 0
      end
  end.

(** ** tcp_output_segment *)
Definition tcp_output_segment (seg pcb : loc) : M stack unit :=
  sb ← seg_get seg;
  h ← deref (seg_tcphdr sb);
  pb ← pcb_get pcb;
  put32 (tcph_ackno h) (htonl (pcb_rcv_nxt pb));;
  put16 (tcph_wnd h) (htons (pcb_rcv_ann_wnd pb));;
  ok ← (if pcb_local_ip pb =? 0 then
          nif ← ip_route (pcb_remote_ip pb);
          match nif with
          | None => mret false
          | Some nif =>
              n ← netif_get nif;
              pcb_upd pcb (fun b => b <| pcb_local_ip := netif_ip_addr n |>);;
              mret true
          end
        else mret true);
  if negb ok then mret tt
  else
    pcb_upd pcb (fun b => if pcb_rtime b =? -1 then b <| pcb_rtime := 0 |> else b);;
    pb ← pcb_get pcb;
    when (pcb_rttest pb =? 0)
      (ticks ← gtcp tcp_ticks;
       n ← seg_seqno sb;
       pcb_put pcb (pb <| pcb_rttest := ticks |> <| pcb_rtseq := n |>));;
    q ← deref (seg_p sb);
    b ← pbuf_get q;
    pp ← deref (pb_payload b);
    (* both point into the first pbuf of the segment *)
    (if bool_decide (p_loc h = p_loc pp) then mret tt else halt UB);;
    let len := u16 (p_off h - p_off pp) in
    hp (pset q (pb_set_payload (Some h)
          (pb_set_tot_len (u16 (pb_tot_len b - len)) (pb_set_len (u16 (pb_len b - len)) b))));;
    put16 (tcph_chksum h) 0;;
    pb ← pcb_get pcb;
    b ← pbuf_get q;
    c ← hp (inet_chksum_pseudo (Some q) (pcb_local_ip pb) (pcb_remote_ip pb) IP_PROTO_TCP
              (pb_tot_len b));
    put16 (tcph_chksum h) c;;
    _ ← ip_output q (Some (pcb_local_ip pb)) (pcb_remote_ip pb) (pcb_ttl pb) (pcb_tos pb) IP_PROTO_TCP;
    mret tt.

(** ** tcp_output *)
Definition tcp_do_output_nagle (b : tcp_pcb) : M stack bool :=
  if negb (is_some (pcb_unacked b)) || has (pcb_flags b) TF_NODELAY then mret true
  else match pcb_unsent b with
  | None => mret false
  | Some u => ub ← seg_get u; mret (is_some (seg_next ub))
  end.

(** [ntohl(seg->tcphdr->seqno) - pcb->lastack + seg->len] *)
Definition seg_right_edge (b : tcp_pcb) (sb : tcp_seg) : M stack Z :=
  n ← seg_seqno sb; mret (u32 (n - pcb_lastack b + seg_len sb)).

(** A sent segment goes to the unacked queue: to its end, or to its head when
    it is a retransmission; a segment without length is freed. *)
Definition output_to_unacked (pcb seg : loc) (useg : option loc) : M stack (option loc) :=
  sb ← seg_get seg;
  n ← TCP_TCPLEN sb;
  if 0 <? n then
    seg_upd seg (fun b => b <| seg_next := None |>);;
    b ← pcb_get pcb;
    match pcb_unacked b with
    | None => pcb_put pcb (b <| pcb_unacked := Some seg |>);; mret (Some seg)
    | Some first =>
        u ← deref useg;
        ub ← seg_get u;
        n1 ← seg_seqno sb;
        n2 ← seg_seqno ub;
        if TCP_SEQ_LT n1 n2 then
          seg_upd seg (fun b => b <| seg_next := Some first |>);;
          pcb_put pcb (b <| pcb_unacked := Some seg |>);;
          mret useg
        else
          seg_upd u (fun b => b <| seg_next := Some seg |>);;
          mret (Some seg)
    end
  else _ ← tcp_seg_free (Some seg); mret useg.

Fixpoint output_loop (fuel : nat) (pcb : loc) (wnd : Z) (useg : option loc) : M stack unit :=
  b ← pcb_get pcb;
  match pcb_unsent b with
  | None => mret tt
  | Some seg =>
      sb ← seg_get seg;
      edge ← seg_right_edge b sb;
      if negb (edge <=? wnd) then mret tt
      else match fuel with
      | O => halt NoFuel
      | S fuel =>
          h ← deref (seg_tcphdr sb);
          fl ← TCPH_FLAGS h;
          ASSERT "RST not expected here!" (negb (has fl TCP_RST));;
          nagle ← tcp_do_output_nagle b;
          if negb nagle && negb (has (pcb_flags b) (Z.lor TF_NAGLEMEMERR TF_FIN)) then mret tt
          else
            pcb_put pcb (b <| pcb_unsent := seg_next sb |>);;
            when (negb (state_is (pcb_state b) SYN_SENT))
              (TCPH_SET_FLAG h TCP_ACK;;
               pcb_upd pcb (fun b => b <| pcb_flags := clr8 (pcb_flags b) (Z.lor TF_ACK_DELAY TF_ACK_NOW) |>));;
            tcp_output_segment seg pcb;;
            sb ← seg_get seg;
            n ← seg_seqno sb;
            tl ← TCP_TCPLEN sb;
            pcb_upd pcb (fun b =>
              let b := b <| pcb_snd_nxt := u32 (n + tl) |> in
              if TCP_SEQ_LT (pcb_snd_max b) (pcb_snd_nxt b)
              then b <| pcb_snd_max := pcb_snd_nxt b |> else b);;
            useg ← output_to_unacked pcb seg useg;
            output_loop fuel pcb wnd useg
      end
  end.

Definition tcp_output (pcb : loc) : M stack Z :=
  inp ← gtcp tcp_input_pcb;
  if bool_decide (inp = Some pcb) then mret ERR_OK
  else
    b ← pcb_get pcb;
    let wnd := Z.min (pcb_snd_wnd b) (pcb_cwnd b) in
    useg ← match pcb_unacked b with
           | None => mret None
           | Some u => l ← seg_queue_last u; mret (Some l)
           end;
    pure_ack ← (if has (pcb_flags b) TF_ACK_NOW then
                  match pcb_unsent b with
                  | None => mret true
                  | Some seg => sb ← seg_get seg; edge ← seg_right_edge b sb; mret (wnd <? edge)
                  end
                else mret false);
    if (pure_ack : bool) then
      p ← hp (pbuf_alloc PBUF_IP TCP_HLEN PBUF_RAM);
      match p with
      | None => mret ERR_BUF
      | Some p =>
          pcb_put pcb (b <| pcb_flags := clr8 (pcb_flags b) (Z.lor TF_ACK_DELAY TF_ACK_NOW) |>);;
          pb ← pbuf_get p;
          h ← deref (pb_payload pb);
          fill_header h (pcb_local_port b) (pcb_remote_port b) (htonl (pcb_snd_nxt b))
            (pcb_rcv_nxt b) TCP_ACK (pcb_rcv_ann_wnd b);;
          send_and_free p h (pcb_local_ip b) (pcb_remote_ip b) (pcb_ttl b) (pcb_tos b);;
          mret ERR_OK
      end
    else
      s ← get;
      output_loop (map_fuel (s_segs s)) pcb wnd useg;;
      b ← pcb_get pcb;
      match pcb_unsent b with
      | Some seg =>
          when (pcb_persist_backoff b =? 0)
            (sb ← seg_get seg;
             edge ← seg_right_edge b sb;
             when (pcb_snd_wnd b <? edge)
               (pcb_put pcb (b <| pcb_persist_cnt := 0 |> <| pcb_persist_backoff := 1 |>)))
      | None => mret tt
      end;;
      pcb_upd pcb (fun b => b <| pcb_flags := clr8 (pcb_flags b) TF_NAGLEMEMERR |>);;
      mret ERR_OK.

(** [tcp_ack_now(pcb)], [tcp_ack(pcb)] *)
Definition tcp_ack_now (pcb : loc) : M stack unit :=
  pcb_upd pcb (fun b => b <| pcb_flags := or8 (pcb_flags b) TF_ACK_NOW |>);;
  _ ← tcp_output pcb; mret tt.

Definition tcp_ack (pcb : loc) : M stack unit :=
  b ← pcb_get pcb;
  if has (pcb_flags b) TF_ACK_DELAY then
    pcb_put pcb (b <| pcb_flags := or8 (clr8 (pcb_flags b) TF_ACK_DELAY) TF_ACK_NOW |>);;
    _ ← tcp_output pcb; mret tt
  else pcb_put pcb (b <| pcb_flags := or8 (pcb_flags b) TF_ACK_DELAY |>).

(** ** Retransmission *)
Definition tcp_rexmit_rto (pcb : loc) : M stack unit :=
  b ← pcb_get pcb;
  match pcb_unacked b with
  | None => mret tt
  | Some first =>
      seg ← seg_queue_last first;
      seg_upd seg (fun s => s <| seg_next := pcb_unsent b |>);;
      sb ← seg_get first;
      n ← seg_seqno sb;
      pcb_put pcb (b <| pcb_unsent := Some first |> <| pcb_unacked := None |>
                     <| pcb_snd_nxt := n |> <| pcb_nrtx := u8 (pcb_nrtx b + 1) |>
                     <| pcb_rttest := 0 |>);;
      _ ← tcp_output pcb; mret tt
  end.

Definition tcp_rexmit (pcb : loc) : M stack unit :=
  b ← pcb_get pcb;
  match pcb_unacked b with
  | None => mret tt
  | Some first =>
      fb ← seg_get first;
      seg_put first (fb <| seg_next := pcb_unsent b |>);;
      n ← seg_seqno fb;
      pcb_put pcb (b <| pcb_unsent := Some first |> <| pcb_unacked := seg_next fb |>
                     <| pcb_snd_nxt := n |> <| pcb_nrtx := u8 (pcb_nrtx b + 1) |>
                     <| pcb_rttest := 0 |>);;
      _ ← tcp_output pcb; mret tt
  end.
End tcp_out.
