(* ===== verification/Tcp.v ===== *)
(** * TCP control blocks and timers (core/tcp.c)

    Allocation, binding, connecting, closing and aborting connections, the
    callbacks, and the two timers. *)
From S2P Require Import Prelude Inet Heap Pbuf Stack Ip TcpBase TcpOut.
#[local] Open Scope string_scope.
#[local] Open Scope list_scope.
#[local] Open Scope Z_scope.

Section tcp.
Context {MC : MempConf} {EV : Env}.

(** ** tcp_pcb_purge, tcp_pcb_remove *)
Definition tcp_pcb_purge (pcb : loc) : M stack unit :=
  st ← any_state pcb;
  if state_is st CLOSED || state_is st TIME_WAIT || state_is st LISTEN then mret tt
  else
    b ← pcb_get pcb;
    match pcb_refused_data b with
    | Some _ =>
        _ ← hp (pbuf_free (pcb_refused_data b));
        pcb_put pcb (b <| pcb_refused_data := None |>)
    | None => mret tt
    end;;
    pcb_upd pcb (fun b => b <| pcb_rtime := -1 |>);;
    b ← pcb_get pcb;
    _ ← tcp_segs_free (pcb_ooseq b);
    pcb_upd pcb (fun b => b <| pcb_ooseq := None |>);;
    _ ← tcp_segs_free (pcb_unsent b);
    _ ← tcp_segs_free (pcb_unacked b);
    pcb_upd pcb (fun b => b <| pcb_unacked := None |> <| pcb_unsent := None |>).

Definition tcp_pcb_remove (which : pcb_list) (pcb : loc) : M stack unit :=
  TCP_RMV which pcb;;
  tcp_pcb_purge pcb;;
  st ← any_state pcb;
  (if state_is st TIME_WAIT || state_is st LISTEN then mret tt
   else
     b ← pcb_get pcb;
     when (has (pcb_flags b) TF_ACK_DELAY)
       (pcb_put pcb (b <| pcb_flags := or8 (pcb_flags b) TF_ACK_NOW |>);;
        _ ← tcp_output pcb; mret tt));;
  st ← any_state pcb;
  (if state_is st LISTEN then mret tt
   else
     b ← pcb_get pcb;
     ASSERT "unsent segments leaking" (negb (is_some (pcb_unsent b)));;
     ASSERT "unacked segments leaking" (negb (is_some (pcb_unacked b)));;
     ASSERT "ooseq segments leaking" (negb (is_some (pcb_ooseq b))));;
  any_set_state pcb CLOSED.

(** ** tcp_close *)
Definition close_fin (pcb : loc) (next_state : tcp_state) : M stack Z :=
  err ← tcp_send_ctrl pcb TCP_FIN;
  when (err =? ERR_OK) (pcb_upd pcb (fun b => b <| pcb_state := next_state |>);;
                        _ ← tcp_output pcb; mret tt);;
  mret err.

Definition tcp_close (pcb : loc) : M stack Z :=
  st ← any_state pcb;
  match st with
  | CLOSED => TCP_RMV BOUND pcb;; free_pcb pcb;; mret ERR_OK
  | LISTEN => tcp_pcb_remove LISTENING pcb;; free_lpcb pcb;; mret ERR_OK
  | SYN_SENT => tcp_pcb_remove ACTIVE pcb;; free_pcb pcb;; mret ERR_OK
  | SYN_RCVD => close_fin pcb FIN_WAIT_1
  | ESTABLISHED => close_fin pcb FIN_WAIT_1
  | CLOSE_WAIT => close_fin pcb LAST_ACK
  | _ => mret ERR_OK
  end.

(** ** Events: the callbacks of a pcb *)
Definition tcp_recv_null (pcb : loc) (p : option loc) (err : Z) : M stack Z :=
  match p with
  | Some _ => _ ← hp (pbuf_free p); mret ERR_OK
  | None => if err =? ERR_OK then tcp_close pcb else mret ERR_OK
  end.

Definition tcp_accept_null : M stack Z := mret ERR_ABRT.

Definition TCP_EVENT_RECV (pcb : loc) (p : option loc) (err : Z) : M stack Z :=
  b ← pcb_get pcb;
  match pcb_recv b with
  | Some cb_default => tcp_recv_null pcb p err
  | Some (cb_app f) => tcp_recv_app f (pcb_callback_arg b) pcb p err
  | None =>
      match p with Some _ => _ ← hp (pbuf_free p); mret tt | None => mret tt end;;
      mret ERR_OK
  end.

Definition TCP_EVENT_SENT (pcb : loc) (space ret : Z) : M stack Z :=
  b ← pcb_get pcb;
  match pcb_sent b with
  | Some (cb_app f) => tcp_sent_app f (pcb_callback_arg b) pcb space
  | _ => mret ret
  end.

Definition TCP_EVENT_CONNECTED (pcb : loc) (err ret : Z) : M stack Z :=
  b ← pcb_get pcb;
  match pcb_connected b with
  | Some (cb_app f) => tcp_connected_app f (pcb_callback_arg b) pcb err
  | _ => mret ret
  end.

Definition TCP_EVENT_ACCEPT (pcb : loc) (err ret : Z) : M stack Z :=
  b ← pcb_get pcb;
  match pcb_accept b with
  | Some cb_default => tcp_accept_null
  | Some (cb_app f) => tcp_accept_app f (pcb_callback_arg b) pcb err
  | None => mret ret
  end.

Definition TCP_EVENT_POLL (pcb : loc) (ret : Z) : M stack Z :=
  b ← pcb_get pcb;
  match pcb_poll b with
  | Some (cb_app f) => tcp_poll_app f (pcb_callback_arg b) pcb
  | _ => mret ret
  end.

Definition TCP_EVENT_ERR (errf : option callback) (arg err : Z) : M stack unit :=
  match errf with
  | Some (cb_app f) => tcp_err_app f arg err
  | _ => mret tt
  end.

(** ** tcp_abort *)
Definition tcp_abort (pcb : loc) : M stack unit :=
  st ← any_state pcb;
  if state_is st TIME_WAIT then tcp_pcb_remove TW pcb;; free_pcb pcb
  else
    b ← pcb_get pcb;
    tcp_pcb_remove ACTIVE pcb;;
    b' ← pcb_get pcb;
    match pcb_unacked b' with Some _ => _ ← tcp_segs_free (pcb_unacked b'); mret tt | None => mret tt end;;
    match pcb_unsent b' with Some _ => _ ← tcp_segs_free (pcb_unsent b'); mret tt | None => mret tt end;;
    match pcb_ooseq b' with Some _ => _ ← tcp_segs_free (pcb_ooseq b'); mret tt | None => mret tt end;;
    free_pcb pcb;;
    TCP_EVENT_ERR (pcb_errf b) (pcb_callback_arg b) ERR_ABRT;;
    tcp_rst (pcb_snd_nxt b) (pcb_rcv_nxt b) (pcb_local_ip b) (pcb_remote_ip b) (pcb_local_port b)
      (pcb_remote_port b).

(** ** tcp_new_port *)
Definition TCP_LOCAL_PORT_RANGE_START : Z := 4096.
Definition TCP_LOCAL_PORT_RANGE_END : Z := 0x7fff.

(** Is there a pcb on the list whose local port is [port]? *)
Fixpoint port_walk (fuel : nat) (port : Z) (l : option loc) : M stack bool :=
  match l, fuel with
  | None, _ => mret false
  | _, O => halt NoFuel
  | Some l, S fuel =>
      '(lport, _) ← any_local l;
      if lport =? port then mret true else n ← any_next l; port_walk fuel port n
  end.
Definition port_on_list (which : pcb_list) (port : Z) : M stack bool :=
  s ← get; port_walk (pcbs_fuel s) port (list_head which (s_tcp s)).

Fixpoint new_port_again (fuel : nat) (port : Z) : M stack Z :=
  match fuel with
  | O => halt NoFuel
  | S fuel =>
      let port := u16 (port + 1) in
      let port := if TCP_LOCAL_PORT_RANGE_END <? port then TCP_LOCAL_PORT_RANGE_START else port in
      a ← port_on_list ACTIVE port;
      if (a : bool) then new_port_again fuel port
      else
        t ← port_on_list TW port;
        if (t : bool) then new_port_again fuel port
        else
          l ← port_on_list LISTENING port;
          if (l : bool) then new_port_again fuel port else mret port
  end.

(** One more try than there are control blocks: every failed try meets a
    different port that a block occupies, and there are 28672 ports. *)
Definition tcp_new_port : M stack Z :=
  s ← get;
  port ← new_port_again (pcbs_fuel s) (tcp_port (s_tcp s));
  utcp (fun g => g <| tcp_port := port |>);;
  mret port.

(** ** tcp_bind; an [ipaddr] of [None] is the NULL pointer *)
Definition local_conflict (ipaddr : option Z) (lip : Z) : bool :=
  (lip =? 0) || ip_addr_isany ipaddr
  || match ipaddr with Some a => lip =? a | None => false end.

Fixpoint bind_walk (fuel : nat) (ipaddr : option Z) (port : Z) (l : option loc) : M stack bool :=
  match l, fuel with
  | None, _ => mret false
  | _, O => halt NoFuel
  | Some l, S fuel =>
      '(lport, lip) ← any_local l;
      if (lport =? port) && local_conflict ipaddr lip then mret true
      else n ← any_next l; bind_walk fuel ipaddr port n
  end.

(** The TIME-WAIT list is compared without the wildcard test. *)
Fixpoint bind_walk_tw (fuel : nat) (ipaddr : option Z) (port : Z) (l : option loc) : M stack bool :=
  match l, fuel with
  | None, _ => mret false
  | _, O => halt NoFuel
  | Some l, S fuel =>
      '(lport, lip) ← any_local l;
      if lport =? port then
        a ← deref ipaddr;
        if lip =? a then mret true else n ← any_next l; bind_walk_tw fuel ipaddr port n
      else n ← any_next l; bind_walk_tw fuel ipaddr port n
  end.

Definition tcp_bind (pcb : loc) (ipaddr : option Z) (port : Z) : M stack Z :=
  st ← any_state pcb;
  if negb (state_is st CLOSED) then
    ASSERT "tcp_connect: can only bind in state CLOSED" false;; mret ERR_ISCONN
  else
    port ← (if port =? 0 then tcp_new_port else mret port);
    s ← get;
    let f := pcbs_fuel s in
    let g := s_tcp s in
    c1 ← bind_walk f ipaddr port (tcp_listen_pcbs g);
    if (c1 : bool) then mret ERR_USE else
    c2 ← bind_walk f ipaddr port (tcp_active_pcbs g);
    if (c2 : bool) then mret ERR_USE else
    c3 ← bind_walk f ipaddr port (tcp_bound_pcbs g);
    if (c3 : bool) then mret ERR_USE else
    c4 ← bind_walk_tw f ipaddr port (tcp_tw_pcbs g);
    if (c4 : bool) then mret ERR_USE else
      pcb_upd pcb (fun b => match ipaddr with
                            | Some a => if a =? 0 then b else b <| pcb_local_ip := a |>
                            | None => b
                            end);;
      pcb_upd pcb (fun b => b <| pcb_local_port := port |>);;
      TCP_REG BOUND pcb;;
      mret ERR_OK.

(** ** tcp_listen_with_backlog (the test for LISTEN comes after the error
    return and is never true) *)
Definition tcp_listen_with_backlog (pcb : loc) (backlog : Z) : M stack (option loc) :=
  st ← any_state pcb;
  if negb (state_is st CLOSED) then
    ASSERT "tcp_listen: pcb already connected" false;; mret None
  else if state_is st LISTEN then mret (Some pcb)
  else
    r ← malloc_struct;
    match r with
    | None => mret None
    | Some (lpcb, junk) =>
        b ← pcb_get pcb;
        (* prio and remote_ip are whatever the memory held; TCP_REG sets next *)
        lpcb_put lpcb (TcpPcbListen (pcb_local_ip b) (u32 (junk 0%nat))
          (Z.lor (pcb_so_options b) SOF_ACCEPTCONN) (pcb_tos b) (pcb_ttl b) None LISTEN
          (u8 (junk 1%nat)) (pcb_callback_arg b) (pcb_local_port b) None);;
        TCP_RMV BOUND pcb;;
        free_pcb pcb;;
        lpcb_upd lpcb (fun l => l <| lpcb_accept := Some cb_default |>);;
        TCP_REG LISTENING lpcb;;
        mret (Some lpcb)
    end.

(** ** tcp_recved *)
(** The receive window after the application took [len] bytes. *)
Definition recved_windows (len : Z) (b : tcp_pcb) : tcp_pcb :=
  if TCP_WND <? u32 (pcb_rcv_wnd b + len)
  then b <| pcb_rcv_wnd := TCP_WND |> <| pcb_rcv_ann_wnd := TCP_WND |>
  else
    let b := b <| pcb_rcv_wnd := u16 (pcb_rcv_wnd b + len) |> in
    if pcb_mss b <=? pcb_rcv_wnd b then b <| pcb_rcv_ann_wnd := pcb_rcv_wnd b |> else b.

(** The acknowledgement that announces the new window. *)
Definition recved_answer (pcb : loc) : M stack unit :=
  b ← pcb_get pcb;
  if negb (has (pcb_flags b) TF_ACK_DELAY) && negb (has (pcb_flags b) TF_ACK_NOW) then tcp_ack pcb
  else if has (pcb_flags b) TF_ACK_DELAY && (TCP_WND / 2 <=? pcb_rcv_wnd b) then tcp_ack_now pcb
  else mret tt.

Definition tcp_recved (pcb : loc) (len : Z) : M stack unit :=
  pcb_upd pcb (recved_windows len);;
  recved_answer pcb.

(** ** tcp_next_iss, tcp_eff_send_mss, tcp_connect *)
Definition tcp_next_iss : M stack Z :=
  g ← gets s_tcp;
  let iss := u32 (tcp_iss g + tcp_ticks g) in
  utcp (fun g => g <| tcp_iss := iss |>);;
  mret iss.

Definition tcp_eff_send_mss (sendmss addr : Z) : M stack Z :=
  outif ← ip_route addr;
  match outif with
  | None => mret sendmss
  | Some l =>
      n ← netif_get l;
      mret (if negb (netif_mtu n =? 0)
            then Z.min sendmss (u16 (netif_mtu n - IP_HLEN - TCP_HLEN)) else sendmss)
  end.

Definition TCP_INITIAL_MSS : Z := if 536 <? TCP_MSS then 536 else TCP_MSS.

(** The four bytes of the option word in memory. *)
Definition mss_option : list Z := map (byte_at TCP_BUILD_MSS_OPTION) [0; 1; 2; 3].

Definition tcp_connect (pcb : loc) (ipaddr : option Z) (port : Z) (connected : option callback)
  : M stack Z :=
  st ← any_state pcb;
  if negb (state_is st CLOSED) then
    ASSERT "tcp_connect: can only connected from state CLOSED" false;; mret ERR_ISCONN
  else match ipaddr with
  | None => mret ERR_VAL
  | Some addr =>
      pcb_upd pcb (fun b => b <| pcb_remote_ip := addr |> <| pcb_remote_port := port |>);;
      b ← pcb_get pcb;
      when (pcb_local_port b =? 0)
        (lp ← tcp_new_port; pcb_upd pcb (fun b => b <| pcb_local_port := lp |>));;
      iss ← tcp_next_iss;
      mss ← tcp_eff_send_mss TCP_INITIAL_MSS addr;
      pcb_upd pcb (fun b =>
        b <| pcb_rcv_nxt := 0 |> <| pcb_snd_nxt := iss |> <| pcb_lastack := u32 (iss - 1) |>
          <| pcb_snd_lbb := u32 (iss - 1) |> <| pcb_rcv_wnd := TCP_WND |>
          <| pcb_rcv_ann_wnd := TCP_WND |> <| pcb_snd_wnd := TCP_WND |> <| pcb_mss := mss |>
          <| pcb_cwnd := 1 |> <| pcb_ssthresh := u16 (mss * 10) |> <| pcb_state := SYN_SENT |>
          <| pcb_connected := connected |>);;
      TCP_RMV BOUND pcb;;
      TCP_REG ACTIVE pcb;;
      ret ← tcp_enqueue pcb None 0 TCP_SYN 0 (Some mss_option) 4;
      when (ret =? ERR_OK) (_ ← tcp_output pcb; mret tt);;
      mret ret
  end.

(** ** Allocation *)
Fixpoint kill_prio_walk (fuel : nat) (prio : Z) (l : option loc) (inactivity mprio : Z)
    (inactive : option loc) : M stack (option loc) :=
  match l, fuel with
  | None, _ => mret inactive
  | _, O => halt NoFuel
  | Some l, S fuel =>
      b ← pcb_get l;
      ticks ← gtcp tcp_ticks;
      let age := u32 (ticks - pcb_tmr b) in
      if (pcb_prio b <=? prio) && (pcb_prio b <=? mprio) && (inactivity <=? age)
      then kill_prio_walk fuel prio (pcb_next b) age (pcb_prio b) (Some l)
      else kill_prio_walk fuel prio (pcb_next b) inactivity mprio inactive
  end.

Definition tcp_kill_prio (prio : Z) : M stack unit :=
  s ← get;
  r ← kill_prio_walk (pcbs_fuel s) prio (tcp_active_pcbs (s_tcp s)) 0 TCP_PRIO_MAX None;
  match r with Some l => tcp_abort l | None => mret tt end.

Fixpoint kill_timewait_walk (fuel : nat) (l : option loc) (inactivity : Z) (inactive : option loc)
  : M stack (option loc) :=
  match l, fuel with
  | None, _ => mret inactive
  | _, O => halt NoFuel
  | Some l, S fuel =>
      b ← pcb_get l;
      ticks ← gtcp tcp_ticks;
      let age := u32 (ticks - pcb_tmr b) in
      if inactivity <=? age then kill_timewait_walk fuel (pcb_next b) age (Some l)
      else kill_timewait_walk fuel (pcb_next b) inactivity inactive
  end.

Definition tcp_kill_timewait : M stack unit :=
  s ← get;
  r ← kill_timewait_walk (pcbs_fuel s) (tcp_tw_pcbs (s_tcp s)) 0 None;
  match r with Some l => tcp_abort l | None => mret tt end.

(** A fresh control block: all zero, then the initial values. *)
Definition new_pcb (iss ticks : Z) : tcp_pcb :=
  TcpPcb 0 0 0 0 TCP_TTL None CLOSED TCP_PRIO_NORMAL 0 0 0 0 0 TCP_WND TCP_WND ticks 0 0 (-1)
    TCP_INITIAL_MSS 0 0 0 (3000 / TCP_SLOW_INTERVAL) (3000 / TCP_SLOW_INTERVAL) 0 iss 0 1 0 iss iss
    0 0 iss iss 0 TCP_SND_BUF 0 None None None None None (Some cb_default) None None None None
    TCP_KEEPIDLE_DEFAULT 0 0 0.

Definition tcp_alloc (prio : Z) : M stack (option loc) :=
  r ← malloc_struct;
  r ← match r with
      | Some x => mret (Some x)
      | None =>
          tcp_kill_timewait;;
          r ← malloc_struct;
          match r with
          | Some x => mret (Some x)
          | None => tcp_kill_prio prio;; malloc_struct
          end
      end;
  match r with
  | None => mret None
  | Some (pcb, _) =>
      iss ← tcp_next_iss;
      ticks ← gtcp tcp_ticks;
      pcb_put pcb (new_pcb iss ticks);;
      mret (Some pcb)
  end.

Definition tcp_new : M stack (option loc) := tcp_alloc TCP_PRIO_NORMAL.

(** ** Setting the fields an application controls *)
Definition tcp_setprio (pcb : loc) (prio : Z) : M stack unit :=
  s ← get;
  match s_tpcbs s !! pcb with
  | Some b => pcb_put pcb (b <| pcb_prio := prio |>)
  | None => lpcb_upd pcb (fun b => b <| lpcb_prio := prio |>)
  end.
Definition tcp_arg (pcb : loc) (arg : Z) : M stack unit :=
  s ← get;
  match s_tpcbs s !! pcb with
  | Some b => pcb_put pcb (b <| pcb_callback_arg := arg |>)
  | None => lpcb_upd pcb (fun b => b <| lpcb_callback_arg := arg |>)
  end.
Definition tcp_recv (pcb : loc) (f : option callback) : M stack unit :=
  pcb_upd pcb (fun b => b <| pcb_recv := f |>).
Definition tcp_sent (pcb : loc) (f : option callback) : M stack unit :=
  pcb_upd pcb (fun b => b <| pcb_sent := f |>).
Definition tcp_err (pcb : loc) (f : option callback) : M stack unit :=
  pcb_upd pcb (fun b => b <| pcb_errf := f |>).
Definition tcp_accept (pcb : loc) (f : option callback) : M stack unit :=
  lpcb_upd pcb (fun b => b <| lpcb_accept := f |>).
Definition tcp_poll (pcb : loc) (f : option callback) (interval : Z) : M stack unit :=
  pcb_upd pcb (fun b => b <| pcb_poll := f |> <| pcb_pollinterval := interval |>).

(** ** The slow timer (every 500 ms) *)
Definition tcp_backoff : list Z := [1; 2; 3; 4; 5; 6; 7; 7; 7; 7; 7; 7; 7].
Definition tcp_persist_backoff : list Z := [3; 6; 12; 24; 48; 96; 120].
(** Reading past the end of an array is undefined. *)
Definition array (a : list Z) (i : Z) : M stack Z :=
  if i <? 0 then halt UB else deref (a !! Z.to_nat i).

(** The retransmission and persist timers of one pcb; 1 when it is to be
    removed. *)
Definition slowtmr_rexmit (pcb : loc) : M stack Z :=
  b ← pcb_get pcb;
  if state_is (pcb_state b) SYN_SENT && (pcb_nrtx b =? TCP_SYNMAXRTX) then mret 1
  else if pcb_nrtx b =? TCP_MAXRTX then mret 1
  else
    (if 0 <? pcb_persist_backoff b then
       let b := b <| pcb_persist_cnt := u32 (pcb_persist_cnt b + 1) |> in
       pcb_put pcb b;;
       limit ← array tcp_persist_backoff (pcb_persist_backoff b - 1);
       when (limit <=? pcb_persist_cnt b)
         (let b := b <| pcb_persist_cnt := 0 |> in
          pcb_put pcb (if pcb_persist_backoff b <? 7
                       then b <| pcb_persist_backoff := u8 (pcb_persist_backoff b + 1) |> else b);;
          tcp_zero_window_probe pcb)
     else
       let b := if 0 <=? pcb_rtime b then b <| pcb_rtime := s16 (pcb_rtime b + 1) |> else b in
       pcb_put pcb b;;
       when (is_some (pcb_unacked b) && (pcb_rto b <=? pcb_rtime b))
         (b ← (if negb (state_is (pcb_state b) SYN_SENT) then
                 k ← array tcp_backoff (pcb_nrtx b);
                 mret (b <| pcb_rto := s16 (Z.shiftl (Z.shiftr (pcb_sa b) 3 + pcb_sv b) k) |>)
               else mret b);
          let b := b <| pcb_rtime := 0 |> in
          let eff_wnd := Z.min (pcb_cwnd b) (pcb_snd_wnd b) in
          let b := b <| pcb_ssthresh := Z.shiftr eff_wnd 1 |> in
          let b := if pcb_ssthresh b <? pcb_mss b
                   then b <| pcb_ssthresh := u16 (pcb_mss b * 2) |> else b in
          let b := b <| pcb_cwnd := pcb_mss b |> in
          pcb_put pcb b;;
          tcp_rexmit_rto pcb));;
    mret 0.

(** Keep-alive.  After [tcp_abort] the code goes on with the freed pcb. *)
Definition slowtmr_keepalive (pcb : loc) : M stack unit :=
  b ← pcb_get pcb;
  ticks ← gtcp tcp_ticks;
  when (has (pcb_so_options b) SOF_KEEPALIVE
        && (state_is (pcb_state b) ESTABLISHED || state_is (pcb_state b) CLOSE_WAIT))
    (let age := u32 (ticks - pcb_tmr b) in
     if u32 (pcb_keep_idle b + TCP_MAXIDLE) / TCP_SLOW_INTERVAL <? age then tcp_abort pcb
     else when (u32 (pcb_keep_idle b + pcb_keep_cnt_sent b * TCP_KEEPINTVL_DEFAULT)
                  / TCP_SLOW_INTERVAL <? age)
       (tcp_keepalive pcb;;
        pcb_upd pcb (fun b => b <| pcb_keep_cnt_sent := u8 (pcb_keep_cnt_sent b + 1) |>))).

(** The age of a pcb, tested against the limit of a state. *)
Definition too_old (b : tcp_pcb) (ticks : Z) (st : tcp_state) (limit : Z) : bool :=
  state_is (pcb_state b) st && (limit <? u32 (ticks - pcb_tmr b)).

Definition slowtmr_ooseq (pcb : loc) : M stack unit :=
  b ← pcb_get pcb;
  ticks ← gtcp tcp_ticks;
  when (is_some (pcb_ooseq b)
        && (u32 (pcb_rto b * TCP_OOSEQ_TIMEOUT) <=? u32 (ticks - pcb_tmr b)))
    (_ ← tcp_segs_free (pcb_ooseq b);
     pcb_upd pcb (fun b => b <| pcb_ooseq := None |>)).

(** One active pcb: whether it is to be removed. *)
Definition slowtmr_pcb (pcb : loc) : M stack bool :=
  r1 ← slowtmr_rexmit pcb;
  b ← pcb_get pcb;
  ticks ← gtcp tcp_ticks;
  let r2 := too_old b ticks FIN_WAIT_2 (TCP_FIN_WAIT_TIMEOUT / TCP_SLOW_INTERVAL) in
  slowtmr_keepalive pcb;;
  slowtmr_ooseq pcb;;
  b ← pcb_get pcb;
  ticks ← gtcp tcp_ticks;
  let r3 := too_old b ticks SYN_RCVD (TCP_SYN_RCVD_TIMEOUT / TCP_SLOW_INTERVAL) in
  let r4 := too_old b ticks LAST_ACK (2 * TCP_MSL / TCP_SLOW_INTERVAL) in
  mret (negb (r1 =? 0) || r2 || r3 || r4).

(** Unlink [pcb] when the walk has [prev] behind it. *)
Definition slowtmr_unlink (which : pcb_list) (prev : option loc) (pcb : loc) : M stack unit :=
  g ← gets s_tcp;
  n ← any_next pcb;
  match prev with
  | Some q =>
      ASSERT "tcp_slowtmr: middle tcp != list head" (negb (bool_decide (list_head which g = Some pcb)));;
      any_set_next q n
  | None =>
      ASSERT "tcp_slowtmr: first pcb == list head" (bool_decide (list_head which g = Some pcb));;
      utcp (set_list_head which n)
  end.

(** [err] is one variable for the whole walk: a pcb without a poll function
    sees the value the previous one left. *)
Fixpoint slowtmr_active (fuel : nat) (prev l : option loc) (err : Z) : M stack unit :=
  match l, fuel with
  | None, _ => mret tt
  | _, O => halt NoFuel
  | Some pcb, S fuel =>
      b ← pcb_get pcb;
      ASSERT "tcp_slowtmr: active pcb->state != CLOSED" (negb (state_is (pcb_state b) CLOSED));;
      ASSERT "tcp_slowtmr: active pcb->state != LISTEN" (negb (state_is (pcb_state b) LISTEN));;
      ASSERT "tcp_slowtmr: active pcb->state != TIME-WAIT" (negb (state_is (pcb_state b) TIME_WAIT));;
      remove ← slowtmr_pcb pcb;
      if (remove : bool) then
        tcp_pcb_purge pcb;;
        slowtmr_unlink ACTIVE prev pcb;;
        b ← pcb_get pcb;
        TCP_EVENT_ERR (pcb_errf b) (pcb_callback_arg b) ERR_ABRT;;
        b ← pcb_get pcb;
        let pcb2 := pcb_next b in
        free_pcb pcb;;
        slowtmr_active fuel prev pcb2 err
      else
        b ← pcb_get pcb;
        let b := b <| pcb_polltmr := u8 (pcb_polltmr b + 1) |> in
        pcb_put pcb b;;
        err ← (if pcb_pollinterval b <=? pcb_polltmr b then
                 pcb_put pcb (b <| pcb_polltmr := 0 |>);;
                 err ← TCP_EVENT_POLL pcb err;
                 when (err =? ERR_OK) (_ ← tcp_output pcb; mret tt);;
                 mret err
               else mret err);
        b ← pcb_get pcb;
        slowtmr_active fuel (Some pcb) (pcb_next b) err
  end.

Fixpoint slowtmr_tw (fuel : nat) (prev l : option loc) : M stack unit :=
  match l, fuel with
  | None, _ => mret tt
  | _, O => halt NoFuel
  | Some pcb, S fuel =>
      b ← pcb_get pcb;
      ASSERT "tcp_slowtmr: TIME-WAIT pcb->state == TIME-WAIT" (state_is (pcb_state b) TIME_WAIT);;
      ticks ← gtcp tcp_ticks;
      if 2 * TCP_MSL / TCP_SLOW_INTERVAL <? u32 (ticks - pcb_tmr b) then
        tcp_pcb_purge pcb;;
        slowtmr_unlink TW prev pcb;;
        b ← pcb_get pcb;
        let pcb2 := pcb_next b in
        free_pcb pcb;;
        slowtmr_tw fuel prev pcb2
      else slowtmr_tw fuel (Some pcb) (pcb_next b)
  end.

Definition tcp_slowtmr : M stack unit :=
  utcp (fun g => g <| tcp_ticks := u32 (tcp_ticks g + 1) |>);;
  s ← get;
  slowtmr_active (pcbs_fuel s) None (tcp_active_pcbs (s_tcp s)) ERR_OK;;
  s ← get;
  slowtmr_tw (pcbs_fuel s) None (tcp_tw_pcbs (s_tcp s)).

(** ** The fast timer (every 250 ms) *)
Fixpoint fasttmr_walk (fuel : nat) (l : option loc) : M stack unit :=
  match l, fuel with
  | None, _ => mret tt
  | _, O => halt NoFuel
  | Some pcb, S fuel =>
      b ← pcb_get pcb;
      match pcb_refused_data b with
      | Some _ =>
          err ← TCP_EVENT_RECV pcb (pcb_refused_data b) ERR_OK;
          when (err =? ERR_OK) (pcb_upd pcb (fun b => b <| pcb_refused_data := None |>))
      | None => mret tt
      end;;
      b ← pcb_get pcb;
      when (has (pcb_flags b) TF_ACK_DELAY)
        (tcp_ack_now pcb;;
         pcb_upd pcb (fun b => b <| pcb_flags := clr8 (pcb_flags b) (Z.lor TF_ACK_DELAY TF_ACK_NOW) |>));;
      b ← pcb_get pcb;
      fasttmr_walk fuel (pcb_next b)
  end.

Definition tcp_fasttmr : M stack unit :=
  s ← get; fasttmr_walk (pcbs_fuel s) (tcp_active_pcbs (s_tcp s)).

Definition tcp_tmr : M stack unit :=
  tcp_fasttmr;;
  utcp (fun g => g <| tcp_timer := u8 (tcp_timer g + 1) |>);;
  t ← gtcp tcp_timer;
  when (negb (Z.land t 1 =? 0)) tcp_slowtmr.
End tcp.
