(* ===== verification/TcpIn.v ===== *)
(** * TCP input (core/tcp_in.c)

    Demultiplexing, the state machine, acknowledgement and congestion-window
    processing, in-order delivery and the out-of-order queue.  The segment
    being processed is in the [in_*] globals; its header fields are converted
    to host order in the packet. *)
From S2P Require Import Prelude Inet Heap Pbuf InetChksum Stack Ip TcpBase TcpOut Tcp.
#[local] Open Scope string_scope.
#[local] Open Scope list_scope.
#[local] Open Scope Z_scope.

Section tcp_in.
Context {MC : MempConf} {EV : Env}.

(** ** tcp_parseopt *)

(** The walk over the options; [c] is an u8_t and may wrap.  The next value of
    [c] depends on [c] alone, so a run of more than 256 steps repeats. *)
Fixpoint parseopt_loop (fuel : nat) (pcb : loc) (opts : ptr) (limit c : Z) : M stack unit :=
  if negb (c <? limit) then mret tt
  else match fuel with
  | O => halt NoFuel
  | S fuel =>
      opt ← get8 (ptr_add opts c);
      if opt =? 0x00 then mret tt
      else if opt =? 0x01 then parseopt_loop fuel pcb opts limit (u8 (c + 1))
      else
        l ← get8 (ptr_add opts (c + 1));
        if (opt =? 0x02) && (l =? 0x04) then
          hi ← get8 (ptr_add opts (c + 2));
          lo ← get8 (ptr_add opts (c + 3));
          let mss := Z.lor (Z.shiftl hi 8) lo in
          pcb_upd pcb (fun b => b <| pcb_mss := if TCP_MSS <? mss then TCP_MSS else mss |>)
        else if l =? 0 then mret tt
        else parseopt_loop fuel pcb opts limit (u8 (c + l))
  end.
Definition parseopt_fuel : nat := 256.

Definition tcp_parseopt (pcb : loc) : M stack unit :=
  h ← gtcp in_tcphdr;
  h ← deref h;
  hl ← TCPH_HDRLEN h;
  when (5 <? hl)
    (parseopt_loop parseopt_fuel pcb (ptr_add h TCP_HLEN) (Z.shiftl (hl - 5) 2) 0).

(** ** Acknowledgements (the first half of tcp_receive) *)

(** Update the send window from the segment. *)
Definition update_window (b : tcp_pcb) (seqno ackno wnd : Z) : tcp_pcb :=
  if TCP_SEQ_LT (pcb_snd_wl1 b) seqno
     || ((pcb_snd_wl1 b =? seqno) && TCP_SEQ_LT (pcb_snd_wl2 b) ackno)
     || ((pcb_snd_wl2 b =? ackno) && (pcb_snd_wnd b <? wnd))
  then
    let b := b <| pcb_snd_wnd := wnd |> <| pcb_snd_wl1 := seqno |> <| pcb_snd_wl2 := ackno |> in
    if (0 <? pcb_snd_wnd b) && (0 <? pcb_persist_backoff b)
    then b <| pcb_persist_backoff := 0 |> else b
  else b.

(** Entering fast recovery: ssthresh and the inflated window. *)
Definition fast_recovery (b : tcp_pcb) : tcp_pcb :=
  let ss := if pcb_snd_wnd b <? pcb_cwnd b then pcb_snd_wnd b / 2 else pcb_cwnd b / 2 in
  let ss := if ss <? 2 * pcb_mss b then u16 (2 * pcb_mss b) else ss in
  b <| pcb_ssthresh := ss |> <| pcb_cwnd := u16 (ss + 3 * pcb_mss b) |>
    <| pcb_flags := or8 (pcb_flags b) TF_INFR |>.

(** [pcb->cwnd += pcb->mss] unless that overflows. *)
Definition grow_cwnd (b : tcp_pcb) : tcp_pcb :=
  if pcb_cwnd b <? u16 (pcb_cwnd b + pcb_mss b)
  then b <| pcb_cwnd := u16 (pcb_cwnd b + pcb_mss b) |> else b.

(** A duplicate ACK. *)
Definition recv_dupack (pcb : loc) : M stack unit :=
  pcb_upd pcb (fun b => b <| pcb_dupacks := u8 (pcb_dupacks b + 1) |>);;
  b ← pcb_get pcb;
  when ((3 <=? pcb_dupacks b) && is_some (pcb_unacked b))
    (if negb (has (pcb_flags b) TF_INFR) then
       tcp_rexmit pcb;;
       pcb_upd pcb fast_recovery
     else pcb_put pcb (grow_cwnd b)).

(** The congestion window after new data has been acknowledged: slow start
    below ssthresh, congestion avoidance above. *)
Definition open_cwnd (b : tcp_pcb) : M stack tcp_pcb :=
  if tcp_state_num ESTABLISHED <=? tcp_state_num (pcb_state b) then
    if pcb_cwnd b <? pcb_ssthresh b then mret (grow_cwnd b)
    else if pcb_cwnd b =? 0 then halt UB
    else
      let new_cwnd := u16 (pcb_cwnd b + pcb_mss b * pcb_mss b / pcb_cwnd b) in
      mret (if pcb_cwnd b <? new_cwnd then b <| pcb_cwnd := new_cwnd |> else b)
  else mret b.

(** Take an acknowledged segment off the books. *)
Definition drop_acked (pcb seg : loc) : M stack unit :=
  sb ← seg_get seg;
  n ← hp (pbuf_clen (seg_p sb));
  b ← pcb_get pcb;
  ASSERT "pcb->snd_queuelen >= pbuf_clen(next->p)" (n <=? pcb_snd_queuelen b);;
  pcb_put pcb (b <| pcb_snd_queuelen := u16 (pcb_snd_queuelen b - n) |>);;
  _ ← tcp_seg_free (Some seg);
  b ← pcb_get pcb;
  when (negb (pcb_snd_queuelen b =? 0))
    (ASSERT "tcp_receive: valid queue length" (queues_nonempty b)).

Fixpoint ack_unacked (fuel : nat) (pcb : loc) (ackno : Z) : M stack unit :=
  b ← pcb_get pcb;
  match pcb_unacked b with
  | None => mret tt
  | Some seg =>
      sb ← seg_get seg;
      n ← seg_seqno sb;
      tl ← TCP_TCPLEN sb;
      if negb (TCP_SEQ_LEQ (u32 (n + tl)) ackno) then mret tt
      else match fuel with
      | O => halt NoFuel
      | S fuel =>
          pcb_put pcb (b <| pcb_unacked := seg_next sb |>);;
          drop_acked pcb seg;;
          ack_unacked fuel pcb ackno
      end
  end.

(** Segments that went back to the unsent queue for retransmission. *)
Fixpoint ack_unsent (fuel : nat) (pcb : loc) (ackno : Z) : M stack unit :=
  b ← pcb_get pcb;
  match pcb_unsent b with
  | None => mret tt
  | Some seg =>
      sb ← seg_get seg;
      n ← seg_seqno sb;
      tl ← TCP_TCPLEN sb;
      if negb (TCP_SEQ_BETWEEN ackno (u32 (n + tl)) (pcb_snd_max b)) then mret tt
      else match fuel with
      | O => halt NoFuel
      | S fuel =>
          pcb_put pcb (b <| pcb_unsent := seg_next sb |>);;
          drop_acked pcb seg;;
          b ← pcb_get pcb;
          match pcb_unsent b with
          | Some u => ub ← seg_get u; n ← seg_seqno ub; pcb_put pcb (b <| pcb_snd_nxt := n |>)
          | None => mret tt
          end;;
          ack_unsent fuel pcb ackno
      end
  end.

(** The counters after an ACK for new data: recovery ends, the timer and the
    duplicate count start afresh, the send buffer grows. *)
Definition newack_pcb (ackno : Z) (b : tcp_pcb) : tcp_pcb :=
  let b := if has (pcb_flags b) TF_INFR
           then b <| pcb_flags := clr8 (pcb_flags b) TF_INFR |> <| pcb_cwnd := pcb_ssthresh b |>
           else b in
  let b := b <| pcb_nrtx := 0 |>
             <| pcb_rto := s16 (Z.shiftr (pcb_sa b) 3 + pcb_sv b) |>
             <| pcb_acked := u16 (ackno - pcb_lastack b) |> in
  b <| pcb_snd_buf := u16 (pcb_snd_buf b + pcb_acked b) |>
    <| pcb_dupacks := 0 |> <| pcb_lastack := ackno |>.

(** An ACK for new data. *)
Definition recv_newack (pcb : loc) (ackno : Z) : M stack unit :=
  pcb_upd pcb (newack_pcb ackno);;
  b ← pcb_get pcb;
  b ← open_cwnd b;
  pcb_put pcb b;;
  s ← get;
  ack_unacked (map_fuel (s_segs s)) pcb ackno;;
  pcb_upd pcb (fun b => b <| pcb_rtime := if is_some (pcb_unacked b) then 0 else -1 |>
                          <| pcb_polltmr := 0 |>).

(** Van Jacobson's estimator. *)
Definition rtt_estimate (b : tcp_pcb) (ticks : Z) : tcp_pcb :=
  let m := s16 (ticks - pcb_rttest b) in
  let m := s16 (m - Z.shiftr (pcb_sa b) 3) in
  let sa := s16 (pcb_sa b + m) in
  let m := if m <? 0 then s16 (- m) else m in
  let m := s16 (m - Z.shiftr (pcb_sv b) 2) in
  let sv := s16 (pcb_sv b + m) in
  b <| pcb_sa := sa |> <| pcb_sv := sv |> <| pcb_rto := s16 (Z.shiftr sa 3 + sv) |>
    <| pcb_rttest := 0 |>.

Definition recv_ack (pcb : loc) : M stack unit :=
  g ← gets s_tcp;
  let seqno := in_seqno g in
  let ackno := in_ackno g in
  h ← deref (in_tcphdr g);
  wnd ← get16 (tcph_wnd h);
  b ← pcb_get pcb;
  let right_wnd_edge := u32 (pcb_snd_wnd b + pcb_snd_wl1 b) in
  let b := update_window b seqno ackno wnd in
  pcb_put pcb b;;
  (if pcb_lastack b =? ackno then
     pcb_put pcb (b <| pcb_acked := 0 |>);;
     when (u32 (pcb_snd_wl1 b + pcb_snd_wnd b) =? right_wnd_edge) (recv_dupack pcb)
   else if TCP_SEQ_BETWEEN ackno (u32 (pcb_lastack b + 1)) (pcb_snd_max b) then recv_newack pcb ackno
   else pcb_put pcb (b <| pcb_acked := 0 |>));;
  s ← get;
  ack_unsent (map_fuel (s_segs s)) pcb ackno;;
  b ← pcb_get pcb;
  when (negb (pcb_rttest b =? 0) && TCP_SEQ_LT (pcb_rtseq b) ackno)
    (ticks ← gtcp tcp_ticks; pcb_put pcb (rtt_estimate b ticks)).

(** ** Data (the second half of tcp_receive) *)

(** The sequence number of a received segment, in host order in its header. *)
Definition seg_seqno_host (seg : tcp_seg) : M stack Z :=
  h ← deref (seg_tcphdr seg); get32 (tcph_seqno h).

Definition seg_flags (seg : tcp_seg) : M stack Z := h ← deref (seg_tcphdr seg); TCPH_FLAGS h.

Definition upd_inseg (f : tcp_seg -> tcp_seg) : M stack unit :=
  utcp (fun g => g <| in_seg := f (in_seg g) |>).

(** Empty the pbufs that lie before the offset. *)
Fixpoint trim_walk (fuel : nat) (p : option loc) (off new_tot_len : Z) : M stack (loc * Z) :=
  match p, fuel with
  | None, _ => halt UB
  | _, O => halt NoFuel
  | Some l, S fuel =>
      b ← pbuf_get l;
      if pb_len b <? off then
        hp (pset l (pb_set_tot_len new_tot_len (pb_set_len 0 b)));;
        trim_walk fuel (pb_next b) (off - pb_len b) new_tot_len
      else mret (l, off)
  end.

(** Trim the part of the segment that was received before. *)
Definition trim_first_edge (pcb : loc) : M stack unit :=
  g ← gets s_tcp;
  b ← pcb_get pcb;
  let seqno := in_seqno g in
  let off := s32 (pcb_rcv_nxt b - seqno) in
  ASSERT "inseg.p != NULL" (is_some (seg_p (in_seg g)));;
  ASSERT "insane offset!" (off <? 0x7fff);;
  ip ← deref (seg_p (in_seg g));
  ipb ← pbuf_get ip;
  p ← (if pb_len ipb <? off then
         ASSERT "pbuf too short!" (off <=? pb_tot_len ipb);;
         s ← get;
         '(p, off) ← trim_walk (walk_fuel (s_heap s)) (Some ip) off (u16 (pb_tot_len ipb - off));
         e ← hp (pbuf_header (Some p) (s16 (- off)));
         ASSERT "pbuf_header failed" (e =? 0);;
         mret p
       else
         e ← hp (pbuf_header (Some ip) (s16 (- off)));
         ASSERT "pbuf_header failed" (e =? 0);;
         mret ip);
  pb ← pbuf_get p;
  upd_inseg (fun sg => sg <| seg_dataptr := pb_payload pb |>
                          <| seg_len := u16 (seg_len sg - u16 (pcb_rcv_nxt b - seqno)) |>);;
  h ← deref (seg_tcphdr (in_seg g));
  put32 (tcph_seqno h) (pcb_rcv_nxt b);;
  utcp (fun g => g <| in_seqno := pcb_rcv_nxt b |>).

(** An out-of-order segment that starts inside (or right behind) the incoming
    one: shorten the incoming segment, or forget a pure FIN that it repeats. *)
Definition inseq_trim_end (pcb : loc) : M stack unit :=
  g ← gets s_tcp;
  b ← pcb_get pcb;
  match pcb_ooseq b with
  | None => mret tt
  | Some o =>
      ob ← seg_get o;
      on ← seg_seqno_host ob;
      let inseg := in_seg g in
      when (TCP_SEQ_LEQ on (u32 (in_seqno g + seg_len inseg)))
        (if 0 <? seg_len ob then
           let len := u16 (on - in_seqno g) in
           upd_inseg (fun sg => sg <| seg_len := len |>);;
           ip ← deref (seg_p inseg);
           hp (pbuf_realloc ip len)
         else
           f1 ← seg_flags inseg;
           f2 ← seg_flags ob;
           when (Z.land f1 (Z.lor TCP_FIN TCP_SYN) =? Z.land f2 (Z.lor TCP_FIN TCP_SYN))
             (pcb_put pcb (b <| pcb_ooseq := seg_next ob |>);;
              free_seg o))
  end.

(** Advance rcv_nxt and shrink the windows by [n] (the advance is optional). *)
Definition shrink_windows (n : Z) (b : tcp_pcb) : tcp_pcb :=
  b <| pcb_rcv_wnd := if pcb_rcv_wnd b <? n then 0 else u16 (pcb_rcv_wnd b - n) |>
    <| pcb_rcv_ann_wnd := if pcb_rcv_ann_wnd b <? n then 0 else u16 (pcb_rcv_ann_wnd b - n) |>.

(** Segments of the out-of-order queue that are now in sequence. *)
Fixpoint ooseq_deliver (fuel : nat) (pcb : loc) : M stack unit :=
  b ← pcb_get pcb;
  match pcb_ooseq b with
  | None => mret tt
  | Some cseg =>
      cb ← seg_get cseg;
      n ← seg_seqno_host cb;
      if negb (n =? pcb_rcv_nxt b) then mret tt
      else match fuel with
      | O => halt NoFuel
      | S fuel =>
          utcp (fun g => g <| in_seqno := n |>);;
          tl ← TCP_TCPLEN cb;
          pcb_put pcb (shrink_windows tl (b <| pcb_rcv_nxt := u32 (pcb_rcv_nxt b + tl) |>));;
          cp ← deref (seg_p cb);
          pb ← pbuf_get cp;
          when (0 <? pb_tot_len pb)
            (rd ← gtcp recv_data;
             match rd with
             | Some _ => hp (pbuf_cat rd (Some cp))
             | None => utcp (fun g => g <| recv_data := Some cp |>)
             end;;
             seg_upd cseg (fun sg => sg <| seg_p := None |>));;
          fl ← seg_flags cb;
          when (has fl TCP_FIN)
            (utcp (fun g => g <| recv_flags := TF_GOT_FIN |>);;
             pcb_upd pcb (fun b => if state_is (pcb_state b) ESTABLISHED
                                   then b <| pcb_state := CLOSE_WAIT |> else b));;
          pcb_upd pcb (fun b => b <| pcb_ooseq := seg_next cb |>);;
          _ ← tcp_seg_free (Some cseg);
          ooseq_deliver fuel pcb
      end
  end.

(** The segment is the next in sequence. *)
Definition recv_inseq (pcb : loc) : M stack unit :=
  inseq_trim_end pcb;;
  g ← gets s_tcp;
  n ← TCP_TCPLEN (in_seg g);
  let tcplen := u16 n in
  utcp (fun g => g <| in_tcplen := tcplen |>);;
  pcb_upd pcb (fun b =>
    shrink_windows tcplen
      (if state_is (pcb_state b) CLOSE_WAIT then b
       else b <| pcb_rcv_nxt := u32 (pcb_rcv_nxt b + tcplen) |>));;
  ip ← deref (seg_p (in_seg g));
  pb ← pbuf_get ip;
  when (0 <? pb_tot_len pb)
    (utcp (fun g => g <| recv_data := Some ip |>);;
     upd_inseg (fun sg => sg <| seg_p := None |>));;
  fl ← seg_flags (in_seg g);
  when (has fl TCP_FIN) (utcp (fun g => g <| recv_flags := TF_GOT_FIN |>));;
  s ← get;
  ooseq_deliver (map_fuel (s_segs s)) pcb;;
  tcp_ack pcb.

(** Cut a queued segment so that it ends where [seqno] begins. *)
Definition trim_queued (seg : loc) (sb : tcp_seg) (n seqno : Z) : M stack unit :=
  when (TCP_SEQ_GT (u32 (n + seg_len sb)) seqno)
    (let len := u16 (seqno - n) in
     seg_upd seg (fun s => s <| seg_len := len |>);;
     p ← deref (seg_p sb);
     hp (pbuf_realloc p len)).

(** Cut the incoming segment so that it ends where [n] begins. *)
Definition trim_inseg (n : Z) : M stack unit :=
  g ← gets s_tcp;
  when (TCP_SEQ_GT (u32 (in_seqno g + seg_len (in_seg g))) n)
    (let len := u16 (n - in_seqno g) in
     upd_inseg (fun s => s <| seg_len := len |>);;
     p ← deref (seg_p (in_seg g));
     hp (pbuf_realloc p len)).

Definition link_ooseq (pcb : loc) (prev : option loc) (cseg : loc) : M stack unit :=
  match prev with
  | Some q => seg_upd q (fun s => s <| seg_next := Some cseg |>)
  | None => pcb_upd pcb (fun b => b <| pcb_ooseq := Some cseg |>)
  end.

(** The incoming segment starts where the queued segment [next] does: keep the
    longer one.  A failed copy is dereferenced all the same. *)
Definition ooseq_replace (pcb : loc) (prev : option loc) (next : loc) (nb : tcp_seg) : M stack unit :=
  g ← gets s_tcp;
  when (seg_len nb <? seg_len (in_seg g))
    (cseg ← tcp_seg_copy (in_seg g);
     match cseg with
     | Some c =>
         seg_upd c (fun s => s <| seg_next := seg_next nb |>);;
         link_ooseq pcb prev c
     | None => mret tt
     end;;
     _ ← tcp_seg_free (Some next);
     c ← deref cseg;
     cb ← seg_get c;
     match seg_next cb with
     | Some nx =>
         nxb ← seg_get nx;
         n ← seg_seqno_host nxb;
         trim_queued c cb (in_seqno g) n
     | None => mret tt
     end).

(** Find the place of the incoming segment in the queue ordered by sequence
    number. *)
Fixpoint ooseq_insert (fuel : nat) (pcb : loc) (prev next : option loc) : M stack unit :=
  match next, fuel with
  | None, _ => mret tt
  | _, O => halt NoFuel
  | Some nx, S fuel =>
      nb ← seg_get nx;
      n ← seg_seqno_host nb;
      seqno ← gtcp in_seqno;
      if seqno =? n then ooseq_replace pcb prev nx nb
      else
        pn ← match prev with
             | None => mret None
             | Some q => qb ← seg_get q; m ← seg_seqno_host qb; mret (Some m)
             end;
        let before := match pn with
                      | None => TCP_SEQ_LT seqno n
                      | Some m => TCP_SEQ_BETWEEN seqno (u32 (m + 1)) (u32 (n - 1))
                      end in
        if before then
          trim_inseg n;;
          g ← gets s_tcp;
          cseg ← tcp_seg_copy (in_seg g);
          match cseg with
          | Some c =>
              seg_upd c (fun s => s <| seg_next := next |>);;
              link_ooseq pcb prev c;;
              match prev, pn with
              | Some q, Some m => qb ← seg_get q; trim_queued q qb m seqno
              | _, _ => mret tt
              end
          | None => mret tt
          end
        else if negb (is_some (seg_next nb)) && TCP_SEQ_GT seqno n then
          g ← gets s_tcp;
          cseg ← tcp_seg_copy (in_seg g);
          seg_upd nx (fun s => s <| seg_next := cseg |>);;
          when (is_some cseg) (trim_queued nx nb n seqno)
        else ooseq_insert fuel pcb next (seg_next nb)
  end.

(** The segment lies ahead of rcv_nxt. *)
Definition recv_ooseq (pcb : loc) : M stack unit :=
  tcp_ack_now pcb;;
  b ← pcb_get pcb;
  match pcb_ooseq b with
  | None =>
      g ← gets s_tcp;
      c ← tcp_seg_copy (in_seg g);
      pcb_upd pcb (fun b => b <| pcb_ooseq := c |>)
  | Some o => s ← get; ooseq_insert (map_fuel (s_segs s)) pcb None (Some o)
  end.

(** [TCP_SEQ_BETWEEN(seqno, pcb->rcv_nxt, pcb->rcv_nxt + wnd - 1)] *)
Definition in_window (seqno : Z) (b : tcp_pcb) (wnd : Z) : bool :=
  TCP_SEQ_BETWEEN seqno (pcb_rcv_nxt b) (u32 (pcb_rcv_nxt b + wnd - 1)).

Definition recv_data_segment (pcb : loc) : M stack bool :=
  g ← gets s_tcp;
  b ← pcb_get pcb;
  let seqno := in_seqno g in
  (if TCP_SEQ_BETWEEN (pcb_rcv_nxt b) (u32 (seqno + 1)) (u32 (seqno + in_tcplen g - 1))
   then trim_first_edge pcb
   else when (TCP_SEQ_LT seqno (pcb_rcv_nxt b)) (tcp_ack_now pcb));;
  seqno ← gtcp in_seqno;
  b ← pcb_get pcb;
  if in_window seqno b (pcb_rcv_ann_wnd b) then
    if pcb_rcv_nxt b =? seqno then recv_inseq pcb;; mret true
    else recv_ooseq pcb;; mret false
  else tcp_ack_now pcb;; mret false.

Definition tcp_receive (pcb : loc) : M stack bool :=
  g ← gets s_tcp;
  when (has (in_flags g) TCP_ACK) (recv_ack pcb);;
  if 0 <? in_tcplen g then recv_data_segment pcb
  else
    b ← pcb_get pcb;
    when (negb (in_window (in_seqno g) b (pcb_rcv_wnd b))) (tcp_ack_now pcb);;
    mret false.

(** ** tcp_process: the state machine *)

(** A RST with the addresses of the incoming segment turned around. *)
Definition reset_sender (seqno ackno : Z) : M stack unit :=
  g ← gets s_tcp;
  ih ← deref (in_iphdr g);
  th ← deref (in_tcphdr g);
  src ← get32 (iph_src ih);
  dest ← get32 (iph_dest ih);
  sport ← get16 (tcph_src th);
  dport ← get16 (tcph_dest th);
  tcp_rst seqno ackno dest src dport sport.

(** To TIME-WAIT: acknowledge, purge, change lists. *)
Definition enter_time_wait (pcb : loc) : M stack unit :=
  tcp_ack_now pcb;;
  tcp_pcb_purge pcb;;
  TCP_RMV ACTIVE pcb;;
  pcb_upd pcb (fun b => b <| pcb_state := TIME_WAIT |>);;
  TCP_REG TW pcb.

Definition process_syn_sent (pcb : loc) : M stack unit :=
  g ← gets s_tcp;
  let fl := in_flags g in
  b ← pcb_get pcb;
  synack ← (if has fl TCP_ACK && has fl TCP_SYN then
              u ← deref (pcb_unacked b);
              ub ← seg_get u;
              n ← seg_seqno ub;
              mret (in_ackno g =? u32 (n + 1))
            else mret false);
  if (synack : bool) then
    th ← deref (in_tcphdr g);
    wnd ← get16 (tcph_wnd th);
    pcb_upd pcb (fun b =>
      b <| pcb_snd_buf := u16 (pcb_snd_buf b + 1) |> <| pcb_rcv_nxt := u32 (in_seqno g + 1) |>
        <| pcb_lastack := in_ackno g |> <| pcb_snd_wnd := wnd |>
        <| pcb_snd_wl1 := u32 (in_seqno g - 1) |> <| pcb_state := ESTABLISHED |>);;
    tcp_parseopt pcb;;
    b ← pcb_get pcb;
    mss ← tcp_eff_send_mss (pcb_mss b) (pcb_remote_ip b);
    pcb_upd pcb (fun b =>
      b <| pcb_mss := mss |> <| pcb_ssthresh := u16 (mss * 10) |>
        <| pcb_cwnd := if pcb_cwnd b =? 1 then u16 (mss * 2) else mss |>);;
    b ← pcb_get pcb;
    ASSERT "pcb->snd_queuelen > 0" (0 <? pcb_snd_queuelen b);;
    rseg ← deref (pcb_unacked b);
    rb ← seg_get rseg;
    pcb_upd pcb (fun b =>
      let b := b <| pcb_snd_queuelen := u16 (pcb_snd_queuelen b - 1) |>
                 <| pcb_unacked := seg_next rb |> in
      match pcb_unacked b with
      | None => b <| pcb_rtime := -1 |>
      | Some _ => b <| pcb_rtime := 0 |> <| pcb_nrtx := 0 |>
      end);;
    _ ← tcp_seg_free (Some rseg);
    _ ← TCP_EVENT_CONNECTED pcb ERR_OK ERR_OK;
    tcp_ack_now pcb
  else when (has fl TCP_ACK) (reset_sender (in_ackno g) (u32 (in_seqno g + in_tcplen g))).

(** [None] is the early return of ERR_ABRT. *)
Definition process_syn_rcvd (pcb : loc) : M stack bool :=
  g ← gets s_tcp;
  let fl := in_flags g in
  if has fl TCP_ACK && negb (has fl TCP_RST) then
    b ← pcb_get pcb;
    if TCP_SEQ_BETWEEN (in_ackno g) (u32 (pcb_lastack b + 1)) (pcb_snd_nxt b) then
      pcb_put pcb (b <| pcb_state := ESTABLISHED |>);;
      ASSERT "pcb->accept != NULL" (is_some (pcb_accept b));;
      err ← TCP_EVENT_ACCEPT pcb ERR_OK ERR_OK;
      if negb (err =? ERR_OK) then tcp_abort pcb;; mret false
      else
        b ← pcb_get pcb;
        let old_cwnd := pcb_cwnd b in
        accepted_inseq ← tcp_receive pcb;
        pcb_upd pcb (fun b => b <| pcb_cwnd := if old_cwnd =? 1 then u16 (pcb_mss b * 2) else pcb_mss b |>);;
        fl ← gtcp in_flags;
        when (has fl TCP_FIN && accepted_inseq)
          (tcp_ack_now pcb;; pcb_upd pcb (fun b => b <| pcb_state := CLOSE_WAIT |>));;
        mret true
    else reset_sender (in_ackno g) (u32 (in_seqno g + in_tcplen g));; mret true
  else mret true.

Definition tcp_process (pcb : loc) : M stack Z :=
  g ← gets s_tcp;
  let fl := in_flags g in
  b ← pcb_get pcb;
  if has fl TCP_RST then
    let acceptable :=
      if state_is (pcb_state b) SYN_SENT then in_ackno g =? pcb_snd_nxt b
      else TCP_SEQ_BETWEEN (in_seqno g) (pcb_rcv_nxt b) (u32 (pcb_rcv_nxt b + pcb_rcv_ann_wnd b)) in
    if acceptable then
      ASSERT "tcp_input: pcb->state != CLOSED" (negb (state_is (pcb_state b) CLOSED));;
      utcp (fun g => g <| recv_flags := TF_RESET |>);;
      pcb_put pcb (b <| pcb_flags := clr8 (pcb_flags b) TF_ACK_DELAY |>);;
      mret ERR_RST
    else mret ERR_OK
  else
    pcb_put pcb (b <| pcb_tmr := tcp_ticks g |> <| pcb_keep_cnt_sent := 0 |>);;
    (* tested after tcp_receive, which may move snd_nxt *)
    let acks_all : M stack bool :=
      b ← pcb_get pcb; mret (has fl TCP_ACK && (in_ackno g =? pcb_snd_nxt b)) in
    match pcb_state b with
    | SYN_SENT => process_syn_sent pcb;; mret ERR_OK
    | SYN_RCVD => ok ← process_syn_rcvd pcb; mret (if (ok : bool) then ERR_OK else ERR_ABRT)
    | CLOSE_WAIT | ESTABLISHED =>
        accepted_inseq ← tcp_receive pcb;
        when (has fl TCP_FIN && accepted_inseq)
          (tcp_ack_now pcb;; pcb_upd pcb (fun b => b <| pcb_state := CLOSE_WAIT |>));;
        mret ERR_OK
    | FIN_WAIT_1 =>
        _ ← tcp_receive pcb;
        all ← acks_all;
        (if has fl TCP_FIN then
           if (all : bool) then enter_time_wait pcb
           else tcp_ack_now pcb;; pcb_upd pcb (fun b => b <| pcb_state := CLOSING |>)
         else when all (pcb_upd pcb (fun b => b <| pcb_state := FIN_WAIT_2 |>)));;
        mret ERR_OK
    | FIN_WAIT_2 =>
        _ ← tcp_receive pcb;
        when (has fl TCP_FIN) (enter_time_wait pcb);;
        mret ERR_OK
    | CLOSING =>
        _ ← tcp_receive pcb;
        all ← acks_all;
        when all (enter_time_wait pcb);;
        mret ERR_OK
    | LAST_ACK =>
        _ ← tcp_receive pcb;
        all ← acks_all;
        when all (utcp (fun g => g <| recv_flags := TF_CLOSED |>));;
        mret ERR_OK
    | _ => mret ERR_OK
    end.

(** ** tcp_listen_input, tcp_timewait_input *)
Definition tcp_listen_input (lpcb : loc) : M stack Z :=
  g ← gets s_tcp;
  let fl := in_flags g in
  if has fl TCP_ACK then
    reset_sender (u32 (in_ackno g + 1)) (u32 (in_seqno g + in_tcplen g));; mret ERR_OK
  else if has fl TCP_SYN then
    l ← lpcb_get lpcb;
    npcb ← tcp_alloc (lpcb_prio l);
    match npcb with
    | None => mret ERR_MEM
    | Some npcb =>
        l ← lpcb_get lpcb;
        ih ← deref (in_iphdr g);
        th ← deref (in_tcphdr g);
        src ← get32 (iph_src ih);
        dest ← get32 (iph_dest ih);
        sport ← get16 (tcph_src th);
        wnd ← get16 (tcph_wnd th);
        pcb_upd npcb (fun b =>
          b <| pcb_local_ip := dest |> <| pcb_local_port := lpcb_local_port l |>
            <| pcb_remote_ip := src |> <| pcb_remote_port := sport |> <| pcb_state := SYN_RCVD |>
            <| pcb_rcv_nxt := u32 (in_seqno g + 1) |> <| pcb_snd_wnd := wnd |>
            <| pcb_ssthresh := wnd |> <| pcb_snd_wl1 := u32 (in_seqno g - 1) |>
            <| pcb_callback_arg := lpcb_callback_arg l |> <| pcb_accept := lpcb_accept l |>
            <| pcb_so_options := Z.land (lpcb_so_options l)
                 (Z.lor (Z.lor (Z.lor (Z.lor SOF_DEBUG SOF_DONTROUTE) SOF_KEEPALIVE) SOF_OOBINLINE)
                        SOF_LINGER) |>);;
        TCP_REG ACTIVE npcb;;
        tcp_parseopt npcb;;
        b ← pcb_get npcb;
        mss ← tcp_eff_send_mss (pcb_mss b) (pcb_remote_ip b);
        pcb_upd npcb (fun b => b <| pcb_mss := mss |>);;
        _ ← tcp_enqueue npcb None 0 (Z.lor TCP_SYN TCP_ACK) 0 (Some mss_option) 4;
        tcp_output npcb
    end
  else mret ERR_OK.

Definition tcp_timewait_input (pcb : loc) : M stack Z :=
  g ← gets s_tcp;
  let edge := u32 (in_seqno g + in_tcplen g) in
  pcb_upd pcb (fun b => if TCP_SEQ_GT edge (pcb_rcv_nxt b) then b <| pcb_rcv_nxt := edge |> else b);;
  when (0 <? in_tcplen g) (tcp_ack_now pcb);;
  tcp_output pcb.

(** ** tcp_input *)

(** The connection a segment belongs to; an active one moves to the front of
    its list. *)
Definition matches (b : tcp_pcb) (src dest sport dport : Z) : bool :=
  (pcb_remote_port b =? sport) && (pcb_local_port b =? dport)
  && (pcb_remote_ip b =? src) && (pcb_local_ip b =? dest).

Fixpoint active_walk (fuel : nat) (prev l : option loc) (src dest sport dport : Z)
  : M stack (option loc) :=
  match l, fuel with
  | None, _ => mret None
  | _, O => halt NoFuel
  | Some pcb, S fuel =>
      b ← pcb_get pcb;
      ASSERT "tcp_input: active pcb->state != CLOSED" (negb (state_is (pcb_state b) CLOSED));;
      ASSERT "tcp_input: active pcb->state != TIME-WAIT" (negb (state_is (pcb_state b) TIME_WAIT));;
      ASSERT "tcp_input: active pcb->state != LISTEN" (negb (state_is (pcb_state b) LISTEN));;
      if matches b src dest sport dport then
        ASSERT "tcp_input: pcb->next != pcb (before cache)" (negb (bool_decide (pcb_next b = Some pcb)));;
        match prev with
        | Some q =>
            pcb_upd q (fun qb => qb <| pcb_next := pcb_next b |>);;
            g ← gets s_tcp;
            pcb_upd pcb (fun b => b <| pcb_next := tcp_active_pcbs g |>);;
            utcp (fun g => g <| tcp_active_pcbs := Some pcb |>)
        | None => mret tt
        end;;
        b ← pcb_get pcb;
        ASSERT "tcp_input: pcb->next != pcb (after cache)" (negb (bool_decide (pcb_next b = Some pcb)));;
        mret (Some pcb)
      else active_walk fuel (Some pcb) (pcb_next b) src dest sport dport
  end.

Fixpoint tw_walk (fuel : nat) (l : option loc) (src dest sport dport : Z) : M stack (option loc) :=
  match l, fuel with
  | None, _ => mret None
  | _, O => halt NoFuel
  | Some pcb, S fuel =>
      b ← pcb_get pcb;
      ASSERT "tcp_input: TIME-WAIT pcb->state == TIME-WAIT" (state_is (pcb_state b) TIME_WAIT);;
      if matches b src dest sport dport then mret (Some pcb)
      else tw_walk fuel (pcb_next b) src dest sport dport
  end.

Fixpoint listen_walk (fuel : nat) (prev l : option loc) (dest dport : Z) : M stack (option loc) :=
  match l, fuel with
  | None, _ => mret None
  | _, O => halt NoFuel
  | Some lpcb, S fuel =>
      b ← lpcb_get lpcb;
      if ((lpcb_local_ip b =? 0) || (lpcb_local_ip b =? dest)) && (lpcb_local_port b =? dport) then
        match prev with
        | Some q =>
            lpcb_upd q (fun qb => qb <| lpcb_next := lpcb_next b |>);;
            g ← gets s_tcp;
            lpcb_upd lpcb (fun b => b <| lpcb_next := tcp_listen_pcbs g |>);;
            utcp (fun g => g <| tcp_listen_pcbs := Some lpcb |>)
        | None => mret tt
        end;;
        mret (Some lpcb)
      else listen_walk fuel (Some lpcb) (lpcb_next b) dest dport
  end.

(** What happens after tcp_process: report resets and closes, acknowledged
    bytes, data and the end of the stream, then try to send. *)
Definition input_finish (pcb : loc) : M stack unit :=
  g ← gets s_tcp;
  if has (recv_flags g) TF_RESET then
    b ← pcb_get pcb;
    TCP_EVENT_ERR (pcb_errf b) (pcb_callback_arg b) ERR_RST;;
    tcp_pcb_remove ACTIVE pcb;;
    free_pcb pcb
  else if has (recv_flags g) TF_CLOSED then
    tcp_pcb_remove ACTIVE pcb;;
    free_pcb pcb
  else
    b ← pcb_get pcb;
    err ← (if 0 <? pcb_acked b then TCP_EVENT_SENT pcb (pcb_acked b) ERR_OK else mret ERR_OK);
    rd ← gtcp recv_data;
    err ← match rd with
          | None => mret err
          | Some l =>
              fl ← gtcp in_flags;
              when (has fl TCP_PSH) (hp (pupd l (fun b => pb_set_flags (or8 (pb_flags b) PBUF_FLAG_PUSH) b)));;
              err ← TCP_EVENT_RECV pcb rd ERR_OK;
              when (negb (err =? ERR_OK)) (pcb_upd pcb (fun b => b <| pcb_refused_data := rd |>));;
              mret err
          end;
    rf ← gtcp recv_flags;
    err ← (if has rf TF_GOT_FIN then TCP_EVENT_RECV pcb None ERR_OK else mret err);
    when (err =? ERR_OK) (_ ← tcp_output pcb; mret tt).

Definition input_connection (p pcb : loc) (th : ptr) : M stack unit :=
  pb ← pbuf_get p;
  utcp (fun g => g <| in_seg := TcpSeg None (Some p) (pb_payload pb) (pb_tot_len pb) (Some th) |>
                   <| recv_data := None |> <| recv_flags := 0 |>);;
  b ← pcb_get pcb;
  full ← match pcb_refused_data b with
         | None => mret false
         | Some _ =>
             err ← TCP_EVENT_RECV pcb (pcb_refused_data b) ERR_OK;
             if err =? ERR_OK then
               pcb_upd pcb (fun b => b <| pcb_refused_data := None |>);; mret false
             else mret true
         end;
  if (full : bool) then _ ← hp (pbuf_free (Some p)); mret tt
  else
    utcp (fun g => g <| tcp_input_pcb := Some pcb |>);;
    err ← tcp_process pcb;
    utcp (fun g => g <| tcp_input_pcb := None |>);;
    when (negb (err =? ERR_ABRT)) (input_finish pcb);;
    g ← gets s_tcp;
    match seg_p (in_seg g) with
    | Some q =>
        _ ← hp (pbuf_free (Some q));
        upd_inseg (fun sg => sg <| seg_p := None |>)
    | None => mret tt
    end.

(** Give up the packet. *)
Definition dropped (p : loc) : M stack unit := _ ← hp (pbuf_free (Some p)); mret tt.

Definition tcp_input (p inp : loc) : M stack unit :=
  pb ← pbuf_get p;
  ih ← deref (pb_payload pb);
  hl ← IPH_HL ih;
  let th := ptr_add ih (hl * 4) in
  utcp (fun g => g <| in_iphdr := Some ih |> <| in_tcphdr := Some th |>);;
  e ← hp (pbuf_header (Some p) (s16 (- (hl * 4))));
  pb ← pbuf_get p;
  if negb (e =? 0) || (pb_tot_len pb <? 20) then dropped p
  else
    dest ← get32 (iph_dest ih);
    src ← get32 (iph_src ih);
    nif ← netif_get inp;
    if ip_addr_isbroadcast dest nif || ip_addr_ismulticast dest then dropped p
    else
      c ← hp (inet_chksum_pseudo (Some p) src dest IP_PROTO_TCP (pb_tot_len pb));
      if negb (c =? 0) then dropped p
      else
        hdrlen ← TCPH_HDRLEN th;
        e ← hp (pbuf_header (Some p) (- (hdrlen * 4)));
        if negb (e =? 0) then dropped p
        else
          sport ← get16 (tcph_src th); let sport := ntohs sport in
          put16 (tcph_src th) sport;;
          dport ← get16 (tcph_dest th); let dport := ntohs dport in
          put16 (tcph_dest th) dport;;
          seqno ← get32 (tcph_seqno th); let seqno := ntohl seqno in
          put32 (tcph_seqno th) seqno;;
          ackno ← get32 (tcph_ackno th); let ackno := ntohl ackno in
          put32 (tcph_ackno th) ackno;;
          wnd ← get16 (tcph_wnd th);
          put16 (tcph_wnd th) (ntohs wnd);;
          fl ← TCPH_FLAGS th;
          let fl := Z.land fl TCP_FLAGS in
          pb ← pbuf_get p;
          let tcplen := u16 (pb_tot_len pb + (if has fl TCP_FIN || has fl TCP_SYN then 1 else 0)) in
          utcp (fun g => g <| in_seqno := seqno |> <| in_ackno := ackno |> <| in_flags := fl |>
                           <| in_tcplen := tcplen |>);;
          s ← get;
          let f := pcbs_fuel s in
          pcb ← active_walk f None (tcp_active_pcbs (s_tcp s)) src dest sport dport;
          match pcb with
          | Some pcb => input_connection p pcb th
          | None =>
              g ← gets s_tcp;
              tw ← tw_walk f (tcp_tw_pcbs g) src dest sport dport;
              match tw with
              | Some pcb => _ ← tcp_timewait_input pcb; dropped p
              | None =>
                  lp ← listen_walk f None (tcp_listen_pcbs g) dest dport;
                  match lp with
                  | Some lpcb => _ ← tcp_listen_input lpcb; dropped p
                  | None =>
                      when (negb (has fl TCP_RST)) (reset_sender ackno (u32 (seqno + tcplen)));;
                      dropped p
                  end
              end
          end.
End tcp_in.
