(* ===== verification/Words.v ===== *)
(** * Bytes and words in memory

    Network order, the bytes at an address under stores, and the runs of the
    accessors of words: what get16, put16 and their companions do to a header
    inside a block. *)
From S2P Require Import Prelude Inet Heap Pbuf PbufSpec PbufProps InetChksum Stack Chains.
#[local] Open Scope list_scope.
#[local] Open Scope Z_scope.

(** ** Network order *)
Definition be16 (n : Z) : list Z := [u8 (n / 2 ^ 8); u8 n].
Definition be32 (n : Z) : list Z := [u8 (n / 2 ^ 24); u8 (n / 2 ^ 16); u8 (n / 2 ^ 8); u8 n].

Lemma htons_be16 n : is_u16 n -> [u8 (htons n); u8 (htons n / 2 ^ 8)] = be16 n.
Proof.
  intros (b0 & b1 & H0 & H1 & ->)%u16_bytes. rewrite htons_bytes by done.
  unfold be16, u8, is_u8 in *. f_equal; [|f_equal]; Z.div_mod_to_equations; lia.
Qed.

Lemma htonl_be32 n : is_u32 n ->
  [u8 (htonl n); u8 (htonl n / 2 ^ 8); u8 (htonl n / 2 ^ 16); u8 (htonl n / 2 ^ 24)] = be32 n.
Proof.
  intros (b0 & b1 & b2 & b3 & H0 & H1 & H2 & H3 & ->)%u32_bytes. rewrite htonl_bytes by done.
  unfold be32, u8, is_u8 in *.
  f_equal; [|f_equal; [|f_equal; [|f_equal]]]; Z.div_mod_to_equations; lia.
Qed.

(** What get16 reads back of what put16 wrote. *)
Lemma word16_bytes v : is_u16 v -> u8 v + 2 ^ 8 * u8 (v / 2 ^ 8) = v.
Proof. unfold is_u16, u8. intros. Z.div_mod_to_equations. lia. Qed.

Lemma be_ok n : bytes_ok (be16 n) /\ bytes_ok (be32 n).
Proof. unfold be16, be32. repeat split; repeat (constructor; [apply u8_range|]); constructor. Qed.

(** ** Blocks *)
Definition with_block (q : loc) (d : list Z) (h : heap) : heap :=
  h_set_blocks (<[q := Block 16 d]> (h_blocks h)) h.
Definition with_heap (h : heap) (s : stack) : stack := s <| s_heap := h |>.

Lemma with_block_twice q d d' h : with_block q d' (with_block q d h) = with_block q d' h.
Proof. unfold with_block, h_set_blocks. cbn. by rewrite insert_insert_eq. Qed.
Lemma with_block_alloced h d d' b : with_block (h_next h) d' (alloced h d b) = alloced h d' b.
Proof. unfold with_block, alloced, h_set_blocks. cbn. by rewrite insert_insert_eq. Qed.
Lemma with_heap_twice h h' s : with_heap h' (with_heap h s) = with_heap h' s.
Proof. by destruct s. Qed.
Lemma with_heap_id s : with_heap (s_heap s) s = s.
Proof. by destruct s. Qed.

Lemma hp_run {A} (m : M heap A) s a h' : m (s_heap s) = Done (a, h') -> hp m s = Done (a, with_heap h' s).
Proof. unfold hp, zoom. by intros ->. Qed.

(** A bounds test that holds. *)
Ltac in_block :=
  symmetry; repeat (apply andb_true_intro; split); apply Z.leb_le; lia.

(** Bytes [k..] of a block that holds [pre ++ hdr ++ c], [hdr] at offset [off]. *)
Section header.
Context (q : loc) (h : heap) (pre hdr c : list Z) (off : Z).
Context (Hq : h_blocks h !! q = Some (Block 16 (pre ++ hdr ++ c))).
Context (Hoff : off = 16 + Z.of_nat (length pre)).

Lemma header_store k bs : (k + length bs <= length hdr)%nat ->
  store (Ptr q (off + Z.of_nat k)) bs h = Done (tt, with_block q (pre ++ splice k bs hdr ++ c) h).
Proof.
  intros Hk. unfold store. rewrite (bind_run _ _ _ h h) by done. cbn [p_loc p_off].
  rewrite Hq. rewrite (bind_run _ _ _ (Block 16 (pre ++ hdr ++ c)) h) by done. cbn [b_base b_data].
  rewrite !length_app.
  replace ((16 <=? off + Z.of_nat k)
    && (off + Z.of_nat k + Z.of_nat (length bs)
        <=? 16 + Z.of_nat (length pre + (length hdr + length c)))) with true by in_block.
  unfold put, with_block. do 5 f_equal.
  replace (Z.to_nat (off + Z.of_nat k - 16)) with (length pre + k)%nat by lia.
  unfold splice. rewrite take_app_add, take_app_le by lia.
  rewrite <- Nat.add_assoc, drop_app_add, drop_app_le by lia. by rewrite <- !app_assoc.
Qed.

Lemma header_load k n : (k + n <= length hdr)%nat ->
  load (Ptr q (off + Z.of_nat k)) (Z.of_nat n) h = Done (take n (drop k hdr), h).
Proof.
  intros Hk. unfold load. rewrite (bind_run _ _ _ h h) by done. unfold bytes_at. cbn [p_loc p_off].
  rewrite Hq. cbn. rewrite !length_app.
  replace ((0 <=? Z.of_nat n) && (16 <=? off + Z.of_nat k)
    && (off + Z.of_nat k + Z.of_nat n
        <=? 16 + Z.of_nat (length pre + (length hdr + length c)))) with true by in_block.
  cbn. do 2 f_equal. rewrite Nat2Z.id.
  replace (Z.to_nat (off + Z.of_nat k - 16)) with (length pre + k)%nat by lia.
  rewrite drop_app_add, drop_app_le by lia. rewrite take_app_le; [done|]. rewrite length_drop. lia.
Qed.
End header.

(** ** Words of a header as states of the stack *)
Section words.
Context (q : loc) (h : heap) (s : stack) (pre c : list Z) (off : Z).
Context (Hoff : off = 16 + Z.of_nat (length pre)).

(** The stack when the header at [off] of the block [q] holds [hdr]. *)
Definition hst (hdr : list Z) : stack := with_heap (with_block q (pre ++ hdr ++ c) h) s.

Lemma hst_block hdr : h_blocks (s_heap (hst hdr)) !! q = Some (Block 16 (pre ++ hdr ++ c)).
Proof. apply lookup_insert_eq. Qed.

Lemma hst_store hdr k bs : (k + length bs <= length hdr)%nat ->
  hp (store (Ptr q (off + Z.of_nat k)) bs) (hst hdr) = Done (tt, hst (splice k bs hdr)).
Proof.
  intros Hk. erewrite hp_run by (by apply (header_store _ _ _ _ _ _ (hst_block hdr) Hoff)).
  unfold hst. rewrite with_heap_twice. do 3 f_equal. apply with_block_twice.
Qed.

Lemma put16_hst hdr k v : (k + 2 <= length hdr)%nat ->
  put16 (Ptr q (off + Z.of_nat k)) v (hst hdr)
  = Done (tt, hst (splice k [u8 v; u8 (v / 2 ^ 8)] hdr)).
Proof. intros Hk. by apply hst_store. Qed.

Lemma put32_hst hdr k v : (k + 4 <= length hdr)%nat ->
  put32 (Ptr q (off + Z.of_nat k)) v (hst hdr)
  = Done (tt, hst (splice k [u8 v; u8 (v / 2 ^ 8); u8 (v / 2 ^ 16); u8 (v / 2 ^ 24)] hdr)).
Proof. intros Hk. by apply hst_store. Qed.

Lemma get16_hst hdr k : (k + 2 <= length hdr)%nat ->
  get16 (Ptr q (off + Z.of_nat k)) (hst hdr)
  = Done (nth k hdr 0 + 2 ^ 8 * nth (S k) hdr 0, hst hdr).
Proof.
  intros Hk. unfold get16. rewrite (bind_run _ _ _ (take 2 (drop k hdr)) (hst hdr)).
  - unfold mret, M_ret. do 2 f_equal.
    assert (Hn : forall i, nth i (drop k hdr) 0 = nth (k + i) hdr 0) by (intros; apply nth_skipn).
    pose proof (Hn O) as H0. pose proof (Hn 1%nat) as H1.
    rewrite Nat.add_0_r in H0. rewrite Nat.add_1_r in H1. rewrite <- H0, <- H1.
    destruct (drop k hdr) as [|x [|y l]] eqn:E; [| |done].
    all: apply (f_equal length) in E; rewrite length_drop in E; cbn in E; lia.
  - rewrite <- (with_heap_id (hst hdr)) at 2. apply hp_run.
    by apply (header_load _ _ pre hdr c off (hst_block hdr) Hoff k 2).
Qed.

End words.

(** ** Runs of the accessors *)
Lemma bytes_at_fresh h p n d data b :
  h_ok h -> bytes_at h p n = Some d -> bytes_at (alloced h data b) p n = Some d.
Proof.
  intros Hok Hd. rewrite <- Hd. apply bytes_at_blocks. cbn. apply lookup_insert_ne. intros E.
  unfold bytes_at in Hd. rewrite <- E, (fresh_block _ Hok) in Hd. done.
Qed.

Lemma clen_single h q b : h_pbufs h !! q = Some b -> pb_next b = None ->
  pbuf_clen (Some q) h = Done (1, h).
Proof.
  intros Hq Hn. unfold pbuf_clen. rewrite (bind_run _ _ _ h h) by done. unfold walk_fuel.
  cbn [pbuf_clen_loop]. unfold pget. rewrite (bind_run _ _ _ b h).
  - rewrite Hn. by destruct (size (h_pbufs h)).
  - rewrite (bind_run _ _ _ h h) by done. by rewrite Hq.
Qed.

Lemma pget_run h q b : h_pbufs h !! q = Some b -> pget q h = Done (b, h).
Proof. intros H. unfold pget. rewrite (bind_run _ _ _ h h) by done. by rewrite H. Qed.
Lemma pbuf_get_run s q b : h_pbufs (s_heap s) !! q = Some b -> pbuf_get q s = Done (b, s).
Proof. intros H. rewrite <- (with_heap_id s) at 2. by apply hp_run, pget_run. Qed.

Lemma load_run h p n d : bytes_at h p n = Some d -> load p n h = Done (d, h).
Proof. intros H. unfold load. rewrite (bind_run _ _ _ h h) by done. by rewrite H. Qed.

(** ** Slices *)
Lemma bytes_at_slice h p n d k m : bytes_at h p n = Some d -> 0 <= k -> 0 <= m -> k + m <= n ->
  bytes_at h (ptr_add p k) m = Some (take (Z.to_nat m) (drop (Z.to_nat k) d)).
Proof.
  intros Hd Hk Hm Hn.
  apply (bytes_at_split _ _ _ k) in Hd as [_ Hd]; [|lia].
  apply (bytes_at_split _ _ _ m) in Hd as [Hd _]; [done|lia].
Qed.

Lemma be32_word n : is_u32 n ->
  htonl (nth 0 (be32 n) 0 + 2 ^ 8 * nth 1 (be32 n) 0 + 2 ^ 16 * nth 2 (be32 n) 0
         + 2 ^ 24 * nth 3 (be32 n) 0) = n.
Proof.
  intros Hn. cbn [be32 nth]. rewrite htonl_bytes by apply u8_range.
  unfold u8, is_u32 in *. Z.div_mod_to_equations. lia.
Qed.

(** ** Stores anywhere *)

(** The heap after a store that stays inside the block. *)
Definition poke (p : ptr) (bs : list Z) (h : heap) : heap :=
  match h_blocks h !! p_loc p with
  | Some blk => h_set_blocks (<[p_loc p := Block (b_base blk)
                   (splice (Z.to_nat (p_off p - b_base blk)) bs (b_data blk))]> (h_blocks h)) h
  | None => h
  end.

Lemma bytes_at_inv h p n d : bytes_at h p n = Some d ->
  exists blk, h_blocks h !! p_loc p = Some blk /\ 0 <= n /\ b_base blk <= p_off p
    /\ p_off p + n <= b_base blk + Z.of_nat (length (b_data blk))
    /\ d = take (Z.to_nat n) (drop (Z.to_nat (p_off p - b_base blk)) (b_data blk)).
Proof.
  unfold bytes_at. destruct (h_blocks h !! p_loc p) as [blk|]; [|done]. cbn.
  destruct (_ && _) eqn:E; [|done]. intros [= <-]. exists blk.
  apply andb_true_iff in E as [[H1 H2]%andb_true_iff H3]. rewrite Z.leb_le in *. done.
Qed.

Lemma store_run h p bs d : bytes_at h p (Z.of_nat (length bs)) = Some d ->
  store p bs h = Done (tt, poke p bs h).
Proof.
  intros (blk & Hb & _ & H1 & H2 & _)%bytes_at_inv. unfold store, poke.
  rewrite (bind_run _ _ _ h h) by done. rewrite Hb. rewrite (bind_run _ _ _ blk h) by done.
  replace (_ && _) with true by in_block. done.
Qed.

Lemma poke_pbufs p bs h : h_pbufs (poke p bs h) = h_pbufs h.
Proof. unfold poke. by case_match. Qed.

Lemma bytes_at_poke_ne h p q bs n : p_loc p <> p_loc q -> bytes_at (poke q bs h) p n = bytes_at h p n.
Proof.
  intros Hne. unfold poke. case_match; [|done]. apply bytes_at_blocks. cbn.
  by rewrite lookup_insert_ne.
Qed.

Lemma splice_under o k bs l : splice (o + k) bs l = take o l ++ splice k bs (drop o l).
Proof.
  unfold splice. rewrite drop_drop, Nat.add_assoc. rewrite !app_assoc. f_equal. f_equal.
  rewrite <- (take_drop o (take (o + k) l)), take_take, skipn_firstn_comm. do 2 f_equal; lia.
Qed.

Lemma splice_take k bs n l : (k + length bs <= n)%nat -> (k + length bs <= length l)%nat ->
  take n (splice k bs l) = splice k bs (take n l).
Proof.
  intros H Hl. unfold splice. rewrite !firstn_app, !take_take, !length_take.
  replace (n `min` k)%nat with k by lia. replace (k `min` n)%nat with k by lia.
  replace (k `min` length l)%nat with k by lia.
  rewrite (take_ge bs) by lia. do 2 f_equal. rewrite skipn_firstn_comm. f_equal. lia.
Qed.

Lemma bytes_at_poke h p n d k bs : bytes_at h p n = Some d -> (k + length bs <= length d)%nat ->
  bytes_at (poke (ptr_add p (Z.of_nat k)) bs h) p n = Some (splice k bs d).
Proof.
  intros (blk & Hb & Hn & H1 & H2 & ->)%bytes_at_inv Hk.
  rewrite length_take, length_drop in Hk.
  unfold bytes_at, poke. cbn [ptr_add p_loc p_off]. rewrite Hb. cbn [h_blocks h_set_blocks].
  rewrite lookup_insert_eq. cbn [mbind option_bind b_base b_data].
  replace (Z.to_nat (p_off p + Z.of_nat k - b_base blk)) with (Z.to_nat (p_off p - b_base blk) + k)%nat by lia.
  set (o := Z.to_nat (p_off p - b_base blk)) in *.
  rewrite splice_length by lia. replace (_ && _) with true by in_block. f_equal.
  rewrite splice_under, drop_app_length' by (rewrite length_take; lia). apply splice_take; [lia|]. rewrite length_drop. lia.
Qed.

(** ** Words at an address *)
Section words_at.
Context (s : stack) (p : ptr).

Lemma get8_run a : bytes_at (s_heap s) p 1 = Some [a] -> get8 p s = Done (a, s).
Proof.
  intros H. unfold get8. erewrite bind_run by by apply hp_run, load_run. by rewrite with_heap_id.
Qed.
Lemma get16_run a b : bytes_at (s_heap s) p 2 = Some [a; b] -> get16 p s = Done (a + 2 ^ 8 * b, s).
Proof.
  intros H. unfold get16. erewrite bind_run by by apply hp_run, load_run. by rewrite with_heap_id.
Qed.
Lemma get32_run a b c d : bytes_at (s_heap s) p 4 = Some [a; b; c; d] ->
  get32 p s = Done (a + 2 ^ 8 * b + 2 ^ 16 * c + 2 ^ 24 * d, s).
Proof.
  intros H. unfold get32. erewrite bind_run by by apply hp_run, load_run. by rewrite with_heap_id.
Qed.

Lemma put8_run v a : bytes_at (s_heap s) p 1 = Some a ->
  put8 p v s = Done (tt, with_heap (poke p [u8 v] (s_heap s)) s).
Proof. intros H. by eapply hp_run, store_run. Qed.
Lemma put16_run v a : bytes_at (s_heap s) p 2 = Some a ->
  put16 p v s = Done (tt, with_heap (poke p [u8 v; u8 (v / 2 ^ 8)] (s_heap s)) s).
Proof. intros H. by eapply hp_run, store_run. Qed.
Lemma put32_run v a : bytes_at (s_heap s) p 4 = Some a ->
  put32 p v s
  = Done (tt, with_heap (poke p [u8 v; u8 (v / 2 ^ 8); u8 (v / 2 ^ 16); u8 (v / 2 ^ 24)] (s_heap s)) s).
Proof. intros H. by eapply hp_run, store_run. Qed.
End words_at.
