(* ===== verification/Icmp.v ===== *)
(** * Control messages (core/ipv4/icmp.c)

    Echo replies, made in place from the request when it has room for the
    headers below and in a copy otherwise, and the error messages that quote
    the first 28 bytes of the offending datagram. *)
From S2P Require Import Prelude Inet Checksum Heap Pbuf InetChksum Stack Ip.
#[local] Open Scope string_scope.
#[local] Open Scope list_scope.
#[local] Open Scope Z_scope.

(** ** Message types and headers (icmp.h) *)
Definition ICMP_ER : Z := 0.
Definition ICMP_DUR : Z := 3.
Definition ICMP_ECHO : Z := 8.
Definition ICMP_TE : Z := 11.
Definition ICMP_DUR_PROTO : Z := 2.
Definition ICMP_DUR_PORT : Z := 3.
Definition ICMP_TE_FRAG : Z := 1.
Definition ICMP_TTL : Z := IP_DEFAULT_TTL.
Definition ICMP_DEST_UNREACH_DATASIZE : Z := 8.
Definition SIZEOF_ICMP_HDR : Z := 8.

Definition icmp_type_code (p : ptr) : ptr := p.
Definition icmp_chksum (p : ptr) : ptr := ptr_add p 2.

Definition ICMPH_TYPE (p : ptr) : M stack Z :=
  w ← get16 (icmp_type_code p); mret (Z.shiftr (ntohs w) 8).
Definition ICMPH_CODE (p : ptr) : M stack Z :=
  w ← get16 (icmp_type_code p); mret (Z.land (ntohs w) 0xff).
Definition ICMPH_TYPE_SET (p : ptr) (type : Z) : M stack unit :=
  c ← ICMPH_CODE p; put16 (icmp_type_code p) (htons (u16 (Z.lor c (Z.shiftl type 8)))).
Definition ICMPH_CODE_SET (p : ptr) (code : Z) : M stack unit :=
  t ← ICMPH_TYPE p; put16 (icmp_type_code p) (htons (u16 (Z.lor code (Z.shiftl t 8)))).

(** The checksum of an echo message whose type goes from 8 to 0, by the
    difference (raw 16-bit words). *)
Definition echo_chksum (chksum : Z) : Z :=
  if htons (0xffff - Z.shiftl ICMP_ECHO 8) <=? chksum
  then u16 (chksum + htons (Z.shiftl ICMP_ECHO 8) + 1)
  else u16 (chksum + htons (Z.shiftl ICMP_ECHO 8)).

Section icmp.
Context {MC : MempConf} {EV : Env}.

Definition pfree (p : loc) : M stack unit := _ ← hp (pbuf_free (Some p)); mret tt.

(** The request with its payload at the ICMP header, in a buffer with room for
    the headers below: the request itself or a copy of it.  [None]: memerr,
    which has freed the request (but not the copy). *)
Definition echo_buffer (p : loc) (iphdr : ptr) (hlen : Z) : M stack (option (loc * ptr)) :=
  let memerr : M stack (option (loc * ptr)) := pfree p;; mret None in
  e ← hp (pbuf_header (Some p) (PBUF_IP_HLEN + PBUF_LINK_HLEN));
  if negb (e =? 0) then
    e ← hp (pbuf_header (Some p) hlen);
    if negb (e =? 0) then
      ASSERT "icmp_input: moving p->payload to ip header failed\n" false;; memerr
    else
      b ← pbuf_get p;
      r ← hp (pbuf_alloc PBUF_LINK (pb_tot_len b) PBUF_RAM);
      match r with
      | None => memerr
      | Some r =>
          rb ← pbuf_get r;
          ASSERT "check that first pbuf can hold struct the ICMP header"
            (hlen + SIZEOF_ICMP_HDR <=? pb_len rb);;
          e ← hp (pbuf_copy (Some r) (Some p));
          if negb (e =? ERR_OK) then
            ASSERT "icmp_input: copying to new pbuf failed\n" false;; memerr
          else
            rb ← pbuf_get r;
            iphdr ← deref (pb_payload rb);
            e ← hp (pbuf_header (Some r) (s16 (- hlen)));
            if negb (e =? 0) then
              ASSERT "icmp_input: restoring original p->payload failed\n" false;; memerr
            else pfree p;; mret (Some (r, iphdr))
      end
  else
    e ← hp (pbuf_header (Some p) (s16 (- (PBUF_IP_HLEN + PBUF_LINK_HLEN))));
    if negb (e =? 0) then
      ASSERT "icmp_input: restoring original p->payload failed\n" false;; memerr
    else mret (Some (p, iphdr)).

(** Turn the request into the reply: addresses swapped, type 0, both checksums
    adjusted, and out on the interface it came from. *)
Definition echo_reply (p inp : loc) (iphdr : ptr) (hlen : Z) : M stack unit :=
  b ← pbuf_get p;
  iecho ← deref (pb_payload b);
  tmpaddr ← get32 (iph_src iphdr);
  dest ← get32 (iph_dest iphdr);
  put32 (iph_src iphdr) dest;;
  put32 (iph_dest iphdr) tmpaddr;;
  ICMPH_TYPE_SET iecho ICMP_ER;;
  c ← get16 (icmp_chksum iecho);
  put16 (icmp_chksum iecho) (echo_chksum c);;
  IPH_TTL_SET iphdr ICMP_TTL;;
  put16 (iph_chksum iphdr) 0;;
  c ← inet_chksum_at iphdr IP_HLEN;
  put16 (iph_chksum iphdr) c;;
  e ← hp (pbuf_header (Some p) hlen);
  if negb (e =? 0) then ASSERT "Can't move over header in packet" false
  else
    src ← get32 (iph_src iphdr);
    _ ← ip_output_if p (Some src) None ICMP_TTL 0 IP_PROTO_ICMP inp;
    mret tt.

Definition icmp_echo (p inp : loc) (iphdr : ptr) (hlen : Z) : M stack unit :=
  dest ← get32 (iph_dest iphdr);
  n ← netif_get inp;
  if ip_addr_isbroadcast dest n || ip_addr_ismulticast dest then pfree p
  else
    b ← pbuf_get p;
    if pb_tot_len b <? SIZEOF_ICMP_HDR then pfree p
    else
      c ← hp (inet_chksum_pbuf (Some p));
      if negb (c =? 0) then pfree p
      else
        r ← echo_buffer p iphdr hlen;
        match r with
        | Some (p, iphdr) => echo_reply p inp iphdr hlen;; pfree p
        | None => mret tt
        end.

Definition icmp_input (p inp : loc) : M stack unit :=
  b ← pbuf_get p;
  iphdr ← deref (pb_payload b);
  hl ← IPH_HL iphdr;
  let hlen := s16 (hl * 4) in
  e ← hp (pbuf_header (Some p) (s16 (- hlen)));
  b ← pbuf_get p;
  if negb (e =? 0) || (pb_tot_len b <? 4) then pfree p
  else
    pp ← deref (pb_payload b);
    type ← get8 pp;
    if type =? ICMP_ECHO then icmp_echo p inp iphdr hlen else pfree p.

(** icmp_dest_unreach and icmp_time_exceeded differ in the type only. *)
Definition icmp_error (p : loc) (type code : Z) : M stack unit :=
  let size := SIZEOF_ICMP_HDR + IP_HLEN + ICMP_DEST_UNREACH_DATASIZE in
  q ← hp (pbuf_alloc PBUF_IP size PBUF_RAM);
  match q with
  | None => mret tt
  | Some q =>
      qb ← pbuf_get q;
      ASSERT "check that first pbuf can hold icmp message" (size <=? pb_len qb);;
      b ← pbuf_get p;
      iphdr ← deref (pb_payload b);
      hdr ← deref (pb_payload qb);
      ICMPH_TYPE_SET hdr type;;
      ICMPH_CODE_SET hdr code;;
      bs ← hp (load iphdr (IP_HLEN + ICMP_DEST_UNREACH_DATASIZE));
      hp (store (ptr_add hdr SIZEOF_ICMP_HDR) bs);;
      put16 (icmp_chksum hdr) 0;;
      c ← inet_chksum_at hdr (pb_len qb);
      put16 (icmp_chksum hdr) c;;
      src ← get32 (iph_src iphdr);
      _ ← ip_output q None src ICMP_TTL 0 IP_PROTO_ICMP;
      pfree q
  end.

Definition icmp_dest_unreach (p : loc) (t : Z) : M stack unit := icmp_error p ICMP_DUR t.
Definition icmp_time_exceeded (p : loc) (t : Z) : M stack unit := icmp_error p ICMP_TE t.
End icmp.
