(* ===== verification/Igmp.v ===== *)
(** * Multicast group membership (core/ipv4/igmp.c)

    The list of groups an interface has joined, the IGMPv2 host state machine
    of each group, and the reports and leave messages it sends. *)
From S2P Require Import Prelude Inet Checksum Heap Pbuf InetChksum Stack Ip.
#[local] Open Scope string_scope.
#[local] Open Scope list_scope.
#[local] Open Scope Z_scope.

(** ** Constants and the message format (igmp.h) *)
Definition IGMP_TTL : Z := 1.
Definition IGMP_MINLEN : Z := 8.
Definition ROUTER_ALERT : Z := 0x9404.
Definition ROUTER_ALERTLEN : Z := 4.
Definition IGMP_MEMB_QUERY : Z := 0x11.
Definition IGMP_V2_MEMB_REPORT : Z := 0x16.
Definition IGMP_LEAVE_GROUP : Z := 0x17.
Definition IGMP_TMR_INTERVAL : Z := 100.
Definition IGMP_V1_DELAYING_MEMBER_TMR : Z := 1000 / IGMP_TMR_INTERVAL.
Definition IGMP_JOIN_DELAYING_MEMBER_TMR : Z := 500 / IGMP_TMR_INTERVAL.
Definition IGMP_DEL_MAC_FILTER : Z := 0.
Definition IGMP_ADD_MAC_FILTER : Z := 1.
Definition IGMP_GROUP_NON_MEMBER : Z := 0.
Definition IGMP_GROUP_DELAYING_MEMBER : Z := 1.
Definition IGMP_GROUP_IDLE_MEMBER : Z := 2.

Definition igmp_msgtype (p : ptr) : ptr := p.
Definition igmp_maxresp (p : ptr) : ptr := ptr_add p 1.
Definition igmp_checksum (p : ptr) : ptr := ptr_add p 2.
Definition igmp_group_address (p : ptr) : ptr := ptr_add p 4.

(** IP4_ADDR(ipaddr, a, b, c, d) (ip_addr.h). *)
Definition IP4_ADDR (a b c d : Z) : Z :=
  htonl (u32 (Z.lor (Z.lor (Z.lor (Z.shiftl (Z.land a 0xff) 24) (Z.shiftl (Z.land b 0xff) 16))
                      (Z.shiftl (Z.land c 0xff) 8)) (Z.land d 0xff))).

Definition igmp_init : M stack unit :=
  uigmp (fun g => g <| allsystems := IP4_ADDR 224 0 0 1 |>);;
  uigmp (fun g => g <| allrouters := IP4_ADDR 224 0 0 2 |>).

(** ** The timer of a group *)
Definition igmp_start_timer (group : loc) (max_time : Z) : M stack unit :=
  grp_upd group (fun g => g <| grp_timer := max_time |>).
Definition igmp_stop_timer (group : loc) : M stack unit :=
  grp_upd group (fun g => g <| grp_timer := 0 |>).

Definition igmp_delaying_member (group : loc) (maxresp : Z) : M stack unit :=
  g ← grp_get group;
  if (grp_group_state g =? IGMP_GROUP_IDLE_MEMBER)
     || ((grp_group_state g =? IGMP_GROUP_DELAYING_MEMBER) && (grp_timer g <? maxresp))
  then igmp_start_timer group (maxresp / 2);;
       grp_upd group (fun g => g <| grp_group_state := IGMP_GROUP_DELAYING_MEMBER |>)
  else mret tt.

(** ** The list of groups *)
Fixpoint lookfor_walk (fuel : nat) (group : option loc) (ifp : loc) (addr : Z)
  : M stack (option loc) :=
  match group, fuel with
  | None, _ => mret None
  | _, O => halt NoFuel
  | Some l, S fuel =>
      g ← grp_get l;
      if bool_decide (grp_interface g = ifp) && (grp_group_address g =? addr) then mret (Some l)
      else lookfor_walk fuel (grp_next g) ifp addr
  end.

Definition igmp_lookfor_group (ifp : loc) (addr : Z) : M stack (option loc) :=
  s ← get;
  lookfor_walk (map_fuel (s_groups s)) (igmp_group_list (s_igmp s)) ifp addr.

(** memp_malloc leaves the fields as they were; all of them are set here. *)
Definition igmp_lookup_group (ifp : loc) (addr : Z) : M stack (option loc) :=
  group ← igmp_lookfor_group ifp addr;
  match group with
  | Some l => mret (Some l)
  | None =>
      m ← malloc_struct;
      match m with
      | None => mret None
      | Some (l, _) =>
          head ← gigmp igmp_group_list;
          grp_put l (IgmpGroup head ifp addr 0 IGMP_GROUP_NON_MEMBER 0 0);;
          uigmp (fun g => g <| igmp_group_list := Some l |>);;
          mret (Some l)
      end
  end.

(** [true]: the group was found behind [tmp] and unlinked. *)
Fixpoint remove_group_walk (fuel : nat) (tmp : option loc) (group : loc) : M stack bool :=
  match tmp, fuel with
  | None, _ => mret false
  | _, O => halt NoFuel
  | Some t, S fuel =>
      g ← grp_get t;
      if bool_decide (grp_next g = Some group) then
        x ← grp_get group;
        grp_upd t (fun g => g <| grp_next := grp_next x |>);;
        mret true
      else remove_group_walk fuel (grp_next g) group
  end.

Definition igmp_remove_group (group : loc) : M stack Z :=
  s ← get;
  let head := igmp_group_list (s_igmp s) in
  err ← (if bool_decide (head = Some group) then
           x ← grp_get group;
           uigmp (fun g => g <| igmp_group_list := grp_next x |>);;
           mret ERR_OK
         else
           found ← remove_group_walk (map_fuel (s_groups s)) head group;
           mret (if (found : bool) then ERR_OK else ERR_ARG));
  free_grp group;;
  mret err.

Fixpoint report_walk (fuel : nat) (group : option loc) (nif : loc) : M stack unit :=
  match group, fuel with
  | None, _ => mret tt
  | _, O => halt NoFuel
  | Some l, S fuel =>
      g ← grp_get l;
      when (bool_decide (grp_interface g = nif))
        (igmp_delaying_member l IGMP_JOIN_DELAYING_MEMBER_TMR);;
      g ← grp_get l;
      report_walk fuel (grp_next g) nif
  end.

Definition igmp_report_groups (nif : loc) : M stack unit :=
  s ← get; report_walk (map_fuel (s_groups s)) (igmp_group_list (s_igmp s)) nif.

Section igmp.
Context {MC : MempConf} {EV : Env}.

(** [if (netif->igmp_mac_filter != NULL) netif->igmp_mac_filter(...)] *)
Definition mac_filter (nif : loc) (addr action : Z) : M stack unit :=
  n ← netif_get nif;
  match netif_igmp_mac_filter n with
  | Some f => _ ← igmp_mac_filter_fn f nif addr action; mret tt
  | None => mret tt
  end.

Definition igmp_start (nif : loc) : M stack Z :=
  addr ← gigmp allsystems;
  group ← igmp_lookup_group nif addr;
  match group with
  | Some l =>
      grp_upd l (fun g => g <| grp_group_state := IGMP_GROUP_IDLE_MEMBER |>);;
      grp_upd l (fun g => g <| grp_use := u8 (grp_use g + 1) |>);;
      addr ← gigmp allsystems;
      mac_filter nif addr IGMP_ADD_MAC_FILTER;;
      mret ERR_OK
  | None => mret ERR_MEM
  end.

Fixpoint stop_walk (fuel : nat) (group prev : option loc) (nif : loc) : M stack unit :=
  match group, fuel with
  | None, _ => mret tt
  | _, O => halt NoFuel
  | Some l, S fuel =>
      g ← grp_get l;
      let next := grp_next g in
      if bool_decide (grp_interface g = nif) then
        head ← gigmp igmp_group_list;
        when (bool_decide (head = Some l)) (uigmp (fun x => x <| igmp_group_list := next |>));;
        match prev with
        | Some p => grp_upd p (fun x => x <| grp_next := next |>)
        | None => mret tt
        end;;
        mac_filter nif (grp_group_address g) IGMP_DEL_MAC_FILTER;;
        free_grp l;;
        stop_walk fuel next prev nif
      else stop_walk fuel next (Some l) nif
  end.

Definition igmp_stop (nif : loc) : M stack Z :=
  s ← get;
  stop_walk (map_fuel (s_groups s)) (igmp_group_list (s_igmp s)) None nif;;
  mret ERR_OK.

(** ** Sending *)
Definition igmp_ip_output_if (p : loc) (src dest : option Z) (ttl proto : Z) (nif : loc)
  : M stack Z :=
  e ← hp (pbuf_header (Some p) ROUTER_ALERTLEN);
  if negb (e =? 0) then mret ERR_BUF
  else
    b ← pbuf_get p;
    ra ← deref (pb_payload b);
    put16 ra (htons ROUTER_ALERT);;
    put16 (ptr_add ra 2) 0;;
    e ← hp (pbuf_header (Some p) IP_HLEN);
    if negb (e =? 0) then mret ERR_BUF
    else
      b ← pbuf_get p;
      iphdr ← deref (pb_payload b);
      match dest with
      | Some dest =>
          IPH_TTL_SET iphdr ttl;;
          IPH_PROTO_SET iphdr proto;;
          put32 (iph_dest iphdr) dest;;
          IPH_VHLTOS_SET iphdr 4 ((IP_HLEN + ROUTER_ALERTLEN) / 4) 0;;
          b ← pbuf_get p;
          put16 (iph_len iphdr) (htons (pb_tot_len b));;
          put16 (iph_offset iphdr) 0;;
          id ← gigmp igmp_ip_id;
          put16 (iph_id iphdr) (htons id);;
          uigmp (fun g => g <| igmp_ip_id := u16 (id + 1) |>);;
          n ← netif_get nif;
          put32 (iph_src iphdr)
            (match src with
             | Some a => if ip_addr_isany src then netif_ip_addr n else a
             | None => netif_ip_addr n
             end);;
          put16 (iph_chksum iphdr) 0;;
          c ← inet_chksum_at iphdr (IP_HLEN + ROUTER_ALERTLEN);
          put16 (iph_chksum iphdr) c;;
          netif_output nif p dest
      | None => dest ← get32 (iph_dest iphdr); netif_output nif p dest
      end.

Definition igmp_send (group : loc) (type : Z) : M stack unit :=
  p ← hp (pbuf_alloc PBUF_TRANSPORT IGMP_MINLEN PBUF_RAM);
  match p with
  | None => mret tt
  | Some p =>
      b ← pbuf_get p;
      igmp ← deref (pb_payload b);
      ASSERT "igmp_send: check that first pbuf can hold struct igmp_msg" (8 <=? pb_len b);;
      g ← grp_get group;
      n ← netif_get (grp_interface g);
      let src := netif_ip_addr n in
      (if (type =? IGMP_V2_MEMB_REPORT) || (type =? IGMP_LEAVE_GROUP) then
         put32 (igmp_group_address igmp) (grp_group_address g);;
         routers ← gigmp allrouters;
         when (type =? IGMP_V2_MEMB_REPORT)
           (grp_upd group (fun g => g <| grp_last_reporter_flag := 1 |>));;
         let dest := if type =? IGMP_V2_MEMB_REPORT then grp_group_address g else routers in
         put8 (igmp_msgtype igmp) type;;
         put8 (igmp_maxresp igmp) 0;;
         put16 (igmp_checksum igmp) 0;;
         c ← inet_chksum_at igmp IGMP_MINLEN;
         put16 (igmp_checksum igmp) c;;
         _ ← igmp_ip_output_if p (Some src) (Some dest) IGMP_TTL IP_PROTO_IGMP (grp_interface g);
         mret tt
       else mret tt);;
      _ ← hp (pbuf_free (Some p));
      mret tt
  end.

(** ** The timer *)
Definition igmp_timeout (group : loc) : M stack unit :=
  g ← grp_get group;
  when (grp_group_state g =? IGMP_GROUP_DELAYING_MEMBER) (igmp_send group IGMP_V2_MEMB_REPORT).

(** One group at one tick. *)
Definition igmp_tick (group : loc) : M stack unit :=
  g ← grp_get group;
  if negb (grp_timer g =? 0) then
    let timer := u16 (grp_timer g - 1) in
    grp_upd group (fun g => g <| grp_timer := timer |>);;
    when (timer =? 0) (igmp_timeout group)
  else mret tt.

Fixpoint tmr_walk (fuel : nat) (group : option loc) : M stack unit :=
  match group, fuel with
  | None, _ => mret tt
  | _, O => halt NoFuel
  | Some l, S fuel =>
      igmp_tick l;;
      g ← grp_get l;
      tmr_walk fuel (grp_next g)
  end.

Definition igmp_tmr : M stack unit :=
  s ← get; tmr_walk (map_fuel (s_groups s)) (igmp_group_list (s_igmp s)).

(** ** Incoming messages *)

(** A general query restarts every group of the interface but allsystems. *)
Fixpoint query_walk (fuel : nat) (groupref : option loc) (inp : loc) (igmp : ptr) : M stack unit :=
  match groupref, fuel with
  | None, _ => mret tt
  | _, O => halt NoFuel
  | Some l, S fuel =>
      g ← grp_get l;
      all ← gigmp allsystems;
      maxresp ← get8 (igmp_maxresp igmp);
      when (bool_decide (grp_interface g = inp) && negb (grp_group_address g =? all))
        (igmp_delaying_member l maxresp);;
      g ← grp_get l;
      query_walk fuel (grp_next g) inp igmp
  end.

Definition igmp_query (inp group : loc) (igmp dest : ptr) : M stack unit :=
  all ← gigmp allsystems;
  d ← get32 dest;
  ga ← get32 (igmp_group_address igmp);
  if (d =? all) && (ga =? 0) then
    maxresp ← get8 (igmp_maxresp igmp);
    when (maxresp =? 0) (put8 (igmp_maxresp igmp) IGMP_V1_DELAYING_MEMBER_TMR);;
    s ← get;
    query_walk (map_fuel (s_groups s)) (igmp_group_list (s_igmp s)) inp igmp
  else
    g ← grp_get group;
    if negb (grp_group_address g =? 0) then
      group ← (if d =? all then igmp_lookfor_group inp ga else mret (Some group));
      match group with
      | Some l => maxresp ← get8 (igmp_maxresp igmp); igmp_delaying_member l maxresp
      | None => mret tt
      end
    else mret tt.

(** Somebody else reported: our own report is not needed. *)
Definition igmp_report_seen (group : loc) : M stack unit :=
  g ← grp_get group;
  if grp_group_state g =? IGMP_GROUP_DELAYING_MEMBER then
    grp_upd group (fun g => g <| grp_timer := 0 |>
      <| grp_group_state := IGMP_GROUP_IDLE_MEMBER |> <| grp_last_reporter_flag := 0 |>)
  else mret tt.

Definition igmp_input (p inp : loc) (dest : ptr) : M stack unit :=
  b ← pbuf_get p;
  iphdr ← deref (pb_payload b);
  hl ← IPH_HL iphdr;
  e ← hp (pbuf_header (Some p) (s16 (- s16 (hl * 4))));
  b ← pbuf_get p;
  if negb (e =? 0) || (pb_len b <? IGMP_MINLEN) then _ ← hp (pbuf_free (Some p)); mret tt
  else
    igmp ← deref (pb_payload b);
    c ← inet_chksum_at igmp (pb_len b);
    if negb (c =? 0) then _ ← hp (pbuf_free (Some p)); mret tt
    else
      d ← get32 dest;
      group ← igmp_lookfor_group inp d;
      match group with
      | None => _ ← hp (pbuf_free (Some p)); mret tt
      | Some group =>
          type ← get8 (igmp_msgtype igmp);
          (if type =? IGMP_MEMB_QUERY then igmp_query inp group igmp dest
           else if type =? IGMP_V2_MEMB_REPORT then igmp_report_seen group
           else mret tt);;
          _ ← hp (pbuf_free (Some p));
          mret tt
      end.

(** ** Joining and leaving; [None] is the NULL address *)
Definition joins (n : netif) (ifaddr : option Z) : bool :=
  negb (Z.land (netif_flags n) NETIF_FLAG_IGMP =? 0)
  && (ip_addr_isany ifaddr || match ifaddr with Some a => netif_ip_addr n =? a | None => false end).

(** A group in its first use: tell the driver, report, and report again after
    half a second. *)
Definition join_new_group (group nif : loc) (groupaddr : Z) : M stack unit :=
  g ← grp_get group;
  when (grp_use g =? 0) (mac_filter nif groupaddr IGMP_ADD_MAC_FILTER);;
  igmp_send group IGMP_V2_MEMB_REPORT;;
  igmp_start_timer group IGMP_JOIN_DELAYING_MEMBER_TMR;;
  grp_upd group (fun g => g <| grp_group_state := IGMP_GROUP_DELAYING_MEMBER |>).

Fixpoint join_walk (fuel : nat) (nif : option loc) (ifaddr : option Z) (groupaddr err : Z)
  : M stack Z :=
  match nif, fuel with
  | None, _ => mret err
  | _, O => halt NoFuel
  | Some l, S fuel =>
      n ← netif_get l;
      if joins n ifaddr then
        group ← igmp_lookup_group l groupaddr;
        match group with
        | None => mret ERR_MEM
        | Some group =>
            g ← grp_get group;
            when (grp_group_state g =? IGMP_GROUP_NON_MEMBER) (join_new_group group l groupaddr);;
            grp_upd group (fun g => g <| grp_use := u8 (grp_use g + 1) |>);;
            n ← netif_get l;
            join_walk fuel (netif_next n) ifaddr groupaddr ERR_OK
        end
      else join_walk fuel (netif_next n) ifaddr groupaddr err
  end.

(** The two LWIP_ERROR checks: a message for a failed one, then ERR_VAL. *)
Definition check_groupaddr (not_multicast is_allsystems : string) (groupaddr : Z)
    (k : M stack Z) : M stack Z :=
  ASSERT not_multicast (ip_addr_ismulticast groupaddr);;
  if negb (ip_addr_ismulticast groupaddr) then mret ERR_VAL
  else
    all ← gigmp allsystems;
    ASSERT is_allsystems (negb (groupaddr =? all));;
    if groupaddr =? all then mret ERR_VAL else k.

Definition igmp_joingroup (ifaddr : option Z) (groupaddr : Z) : M stack Z :=
  check_groupaddr "igmp_joingroup: attempt to join non-multicast address"
    "igmp_joingroup: attempt to join allsystems address" groupaddr
    (s ← get; join_walk (map_fuel (s_netifs s)) (netif_list s) ifaddr groupaddr ERR_VAL).

Definition leave_group (group nif : loc) (groupaddr : Z) : M stack unit :=
  g ← grp_get group;
  if grp_use g <=? 1 then
    when (negb (grp_last_reporter_flag g =? 0)) (igmp_send group IGMP_LEAVE_GROUP);;
    mac_filter nif groupaddr IGMP_DEL_MAC_FILTER;;
    _ ← igmp_remove_group group;
    mret tt
  else grp_upd group (fun g => g <| grp_use := u8 (grp_use g - 1) |>).

Fixpoint leave_walk (fuel : nat) (nif : option loc) (ifaddr : option Z) (groupaddr err : Z)
  : M stack Z :=
  match nif, fuel with
  | None, _ => mret err
  | _, O => halt NoFuel
  | Some l, S fuel =>
      n ← netif_get l;
      if joins n ifaddr then
        group ← igmp_lookfor_group l groupaddr;
        match group with
        | Some group =>
            leave_group group l groupaddr;;
            n ← netif_get l;
            leave_walk fuel (netif_next n) ifaddr groupaddr ERR_OK
        | None => leave_walk fuel (netif_next n) ifaddr groupaddr err
        end
      else leave_walk fuel (netif_next n) ifaddr groupaddr err
  end.

Definition igmp_leavegroup (ifaddr : option Z) (groupaddr : Z) : M stack Z :=
  check_groupaddr "igmp_leavegroup: attempt to leave non-multicast address"
    "igmp_leavegroup: attempt to leave allsystems address" groupaddr
    (s ← get; leave_walk (map_fuel (s_netifs s)) (netif_list s) ifaddr groupaddr ERR_VAL).
End igmp.
