(* ===== verification/Udp.v ===== *)
(** * UDP (core/udp.c)

    The list of UDP control blocks, the demultiplexing of datagrams to them,
    binding with its search for a free ephemeral port, and sending. *)
From S2P Require Import Prelude Inet Checksum Heap Pbuf InetChksum Stack Ip Icmp.
#[local] Open Scope string_scope.
#[local] Open Scope list_scope.
#[local] Open Scope Z_scope.

(** ** Constants and the header (udp.h, opt.h) *)
Definition UDP_HLEN : Z := 8.
Definition UDP_FLAGS_NOCHKSUM : Z := 0x01.
Definition UDP_FLAGS_CONNECTED : Z := 0x04.
Definition UDP_TTL : Z := IP_DEFAULT_TTL.
Definition UDP_LOCAL_PORT_RANGE_START : Z := 4096.
Definition UDP_LOCAL_PORT_RANGE_END : Z := 0x7fff.

Definition udph_src (p : ptr) : ptr := p.
Definition udph_dest (p : ptr) : ptr := ptr_add p 2.
Definition udph_len (p : ptr) : ptr := ptr_add p 4.
Definition udph_chksum (p : ptr) : ptr := ptr_add p 6.

Definition set_udp_pcbs (l : option loc) : M stack unit := modify (fun s => s <| udp_pcbs := l |>).

(** ip_addr_set(dest, src) with a possibly NULL source. *)
Definition addr_value (a : option Z) : Z := match a with Some a => a | None => 0 end.

(** ** Control blocks *)
Definition udp_new : M stack (option loc) :=
  m ← malloc_struct;
  match m with
  | None => mret None
  | Some (l, _) => udp_put l (UdpPcb 0 0 0 0 UDP_TTL None 0 0 0 0 None 0);; mret (Some l)
  end.

Definition udp_recv (pcb : loc) (recv : option Z) (recv_arg : Z) : M stack unit :=
  udp_upd pcb (fun b => b <| udp_recv_cb := recv |> <| udp_recv_arg := recv_arg |>).

Definition udp_disconnect (pcb : loc) : M stack unit :=
  udp_upd pcb (fun b => b <| udp_remote_ip := IP_ADDR_ANY_VALUE |>);;
  udp_upd pcb (fun b => b <| udp_remote_port := 0 |>);;
  udp_upd pcb (fun b => b <| udp_flags := u8 (Z.land (udp_flags b) (Z.lnot UDP_FLAGS_CONNECTED)) |>).

(** The loop does not stop at the pcb it unlinks. *)
Fixpoint udp_remove_walk (fuel : nat) (pcb2 : option loc) (pcb : loc) : M stack unit :=
  match pcb2, fuel with
  | None, _ => mret tt
  | _, O => halt NoFuel
  | Some l, S fuel =>
      b ← udp_get l;
      when (bool_decide (udp_next b = Some pcb))
        (x ← udp_get pcb; udp_upd l (fun b => b <| udp_next := udp_next x |>));;
      b ← udp_get l;
      udp_remove_walk fuel (udp_next b) pcb
  end.

Definition udp_remove (pcb : loc) : M stack unit :=
  s ← get;
  (if bool_decide (udp_pcbs s = Some pcb) then
     b ← udp_get pcb; set_udp_pcbs (udp_next b)
   else udp_remove_walk (map_fuel (s_udps s)) (udp_pcbs s) pcb);;
  free_udp pcb.

(** ** udp_bind *)

(** Is the pcb on the list already? *)
Fixpoint rebind_walk (fuel : nat) (ipcb : option loc) (pcb : loc) (rebind : bool) : M stack bool :=
  match ipcb, fuel with
  | None, _ => mret rebind
  | _, O => halt NoFuel
  | Some l, S fuel =>
      when (bool_decide (pcb = l)) (ASSERT "rebind == 0" (negb rebind));;
      b ← udp_get l;
      rebind_walk fuel (udp_next b) pcb (bool_decide (pcb = l) || rebind)
  end.

(** The search for a port that no listed pcb uses; the list is scanned again
    after every port that is taken.  A pcb in the result: no port is left. *)
Fixpoint udp_port_scan (fuel : nat) (ipcb : option loc) (port : Z) : M stack (option loc * Z) :=
  match ipcb, fuel with
  | None, _ => mret (None, port)
  | Some l, _ =>
      if port =? UDP_LOCAL_PORT_RANGE_END then mret (Some l, port)
      else match fuel with
      | O => halt NoFuel
      | S fuel =>
          b ← udp_get l;
          if udp_local_port b =? port then
            head ← gets udp_pcbs; udp_port_scan fuel head (u16 (port + 1))
          else udp_port_scan fuel (udp_next b) port
      end
  end.

(** Every port of the range, and the whole list for each of them. *)
Definition udp_port_fuel (n : nat) : nat :=
  S (Z.to_nat (UDP_LOCAL_PORT_RANGE_END - UDP_LOCAL_PORT_RANGE_START)) * n.

Definition udp_bind (pcb : loc) (ipaddr : option Z) (port : Z) : M stack Z :=
  s ← get;
  rebind ← rebind_walk (map_fuel (s_udps s)) (udp_pcbs s) pcb false;
  udp_upd pcb (fun b => b <| udp_local_ip := addr_value ipaddr |>);;
  r ← (if port =? 0 then
         s ← get;
         '(rest, port) ← udp_port_scan (udp_port_fuel (map_fuel (s_udps s))) (udp_pcbs s)
                           UDP_LOCAL_PORT_RANGE_START;
         mret (if is_some rest then None else Some port)
       else mret (Some port));
  match r with
  | None => mret ERR_USE
  | Some port =>
      udp_upd pcb (fun b => b <| udp_local_port := port |>);;
      when (negb rebind)
        (head ← gets udp_pcbs;
         udp_upd pcb (fun b => b <| udp_next := head |>);;
         set_udp_pcbs (Some pcb));;
      mret ERR_OK
  end.

(** ** udp_connect *)
Fixpoint udp_on_list (fuel : nat) (ipcb : option loc) (pcb : loc) : M stack bool :=
  match ipcb, fuel with
  | None, _ => mret false
  | _, O => halt NoFuel
  | Some l, S fuel =>
      if bool_decide (pcb = l) then mret true
      else b ← udp_get l; udp_on_list fuel (udp_next b) pcb
  end.

Definition udp_connect (pcb : loc) (ipaddr : option Z) (port : Z) : M stack Z :=
  b ← udp_get pcb;
  err ← (if udp_local_port b =? 0 then udp_bind pcb (Some (udp_local_ip b)) (udp_local_port b)
         else mret ERR_OK);
  if negb (err =? ERR_OK) then mret err
  else
    udp_upd pcb (fun b => b <| udp_remote_ip := addr_value ipaddr |>);;
    udp_upd pcb (fun b => b <| udp_remote_port := port |>);;
    udp_upd pcb (fun b => b <| udp_flags := Z.lor (udp_flags b) UDP_FLAGS_CONNECTED |>);;
    s ← get;
    there ← udp_on_list (map_fuel (s_udps s)) (udp_pcbs s) pcb;
    when (negb there)
      (udp_upd pcb (fun b => b <| udp_next := udp_pcbs s |>);; set_udp_pcbs (Some pcb));;
    mret ERR_OK.

Section udp.
Context {MC : MempConf} {EV : Env}.

(** ** udp_input *)
Definition udp_local_match (b : udp_pcb) (dport ipdest : Z) (n : netif) : bool :=
  (udp_local_port b =? dport)
  && (ip_addr_isany (Some (udp_local_ip b)) || (udp_local_ip b =? ipdest)
      || ip_addr_ismulticast ipdest || ip_addr_isbroadcast ipdest n).
Definition udp_remote_match (b : udp_pcb) (sport ipsrc : Z) : bool :=
  (udp_remote_port b =? sport)
  && (ip_addr_isany (Some (udp_remote_ip b)) || (udp_remote_ip b =? ipsrc)).
Definition udp_unconnected (b : udp_pcb) : bool := Z.land (udp_flags b) UDP_FLAGS_CONNECTED =? 0.

(** The first pcb that matches both ends, moved to the front, or else the
    first unconnected one that matches the local end. *)
Fixpoint udp_walk (fuel : nat) (prev pcb uncon : option loc) (sport dport ipsrc ipdest : Z)
    (inp : loc) : M stack (option loc) :=
  match pcb, fuel with
  | None, _ => mret uncon
  | _, O => halt NoFuel
  | Some l, S fuel =>
      b ← udp_get l;
      n ← netif_get inp;
      let local_match := udp_local_match b dport ipdest n in
      let uncon := if local_match && negb (is_some uncon) && udp_unconnected b
                   then Some l else uncon in
      if local_match && udp_remote_match b sport ipsrc then
        match prev with
        | Some q =>
            udp_upd q (fun x => x <| udp_next := udp_next b |>);;
            head ← gets udp_pcbs;
            udp_upd l (fun x => x <| udp_next := head |>);;
            set_udp_pcbs (Some l)
        | None => mret tt
        end;;
        mret (Some l)
      else udp_walk fuel (Some l) (udp_next b) uncon sport dport ipsrc ipdest inp
  end.

(** A datagram for a closed port. *)
Definition udp_no_port (p inp : loc) (iphdr : ptr) (ipdest : Z) : M stack unit :=
  n ← netif_get inp;
  when (negb (ip_addr_isbroadcast ipdest n) && negb (ip_addr_ismulticast ipdest))
    (hl ← IPH_HL iphdr;
     _ ← hp (pbuf_header (Some p) (s16 (hl * 4 + UDP_HLEN)));
     b ← pbuf_get p;
     ASSERT "p->payload == iphdr" (bool_decide (pb_payload b = Some iphdr));;
     icmp_dest_unreach p ICMP_DUR_PORT);;
  pfree p.

(** The checksum test and the delivery to the pcb found. *)
Definition udp_deliver (p inp : loc) (pcb : option loc) (iphdr udphdr : ptr)
    (sport ipsrc ipdest : Z) : M stack unit :=
  b ← pbuf_get p;
  chksum ← get16 (udph_chksum udphdr);
  bad ← (if chksum =? 0 then mret false
         else c ← hp (inet_chksum_pseudo (Some p) ipsrc ipdest IP_PROTO_UDP (pb_tot_len b));
              mret (negb (c =? 0)));
  if (bad : bool) then pfree p
  else
    e ← hp (pbuf_header (Some p) (- UDP_HLEN));
    if negb (e =? 0) then ASSERT "pbuf_header failed\n" false;; pfree p
    else match pcb with
    | Some l =>
        ub ← udp_get l;
        match udp_recv_cb ub with
        | Some f => udp_recv_app f (udp_recv_arg ub) l p ipsrc sport
        | None => pfree p
        end
    | None => udp_no_port p inp iphdr ipdest
    end.

Definition udp_input (p inp : loc) : M stack unit :=
  b ← pbuf_get p;
  iphdr ← deref (pb_payload b);
  hl ← IPH_HL iphdr;
  short ← (if pb_tot_len b <? hl * 4 + UDP_HLEN then mret true
           else e ← hp (pbuf_header (Some p) (s16 (- s16 (hl * 4)))); mret (negb (e =? 0)));
  if (short : bool) then pfree p
  else
    b ← pbuf_get p;
    udphdr ← deref (pb_payload b);
    src ← get16 (udph_src udphdr);
    dest ← get16 (udph_dest udphdr);
    let sport := ntohs src in
    let dport := ntohs dest in
    ipsrc ← get32 (iph_src iphdr);
    ipdest ← get32 (iph_dest iphdr);
    s ← get;
    pcb ← udp_walk (map_fuel (s_udps s)) None (udp_pcbs s) None sport dport ipsrc ipdest inp;
    n ← netif_get inp;
    if is_some pcb || (netif_ip_addr n =? ipdest)
    then udp_deliver p inp pcb iphdr udphdr sport ipsrc ipdest
    else pfree p.

(** ** Sending *)

(** The pbuf to send: [p] itself, or a header chained in front of it. *)
Definition udp_header_buffer (p : loc) : M stack (option loc) :=
  e ← hp (pbuf_header (Some p) UDP_HLEN);
  if negb (e =? 0) then
    q ← hp (pbuf_alloc PBUF_IP UDP_HLEN PBUF_RAM);
    match q with
    | None => mret None
    | Some q => hp (pbuf_chain (Some q) (Some p));; mret (Some q)
    end
  else mret (Some p).

Definition udp_sendto_if (pcb p : loc) (dst_ip dst_port : Z) (nif : loc) : M stack Z :=
  b ← udp_get pcb;
  err ← (if udp_local_port b =? 0 then udp_bind pcb (Some (udp_local_ip b)) (udp_local_port b)
         else mret ERR_OK);
  if negb (err =? ERR_OK) then mret err
  else
    r ← udp_header_buffer p;
    match r with
    | None => mret ERR_MEM
    | Some q =>
        qb ← pbuf_get q;
        ASSERT "check that first pbuf can hold struct udp_hdr" (UDP_HLEN <=? pb_len qb);;
        udphdr ← deref (pb_payload qb);
        b ← udp_get pcb;
        put16 (udph_src udphdr) (htons (udp_local_port b));;
        put16 (udph_dest udphdr) (htons dst_port);;
        put16 (udph_chksum udphdr) 0;;
        n ← netif_get nif;
        let any := ip_addr_isany (Some (udp_local_ip b)) in
        if negb any && negb (udp_local_ip b =? netif_ip_addr n) then
          when (negb (bool_decide (q = p))) (pfree q);; mret ERR_VAL
        else
          let src_ip := if any then netif_ip_addr n else udp_local_ip b in
          put16 (udph_len udphdr) (htons (pb_tot_len qb));;
          when (Z.land (udp_flags b) UDP_FLAGS_NOCHKSUM =? 0)
            (c ← hp (inet_chksum_pseudo (Some q) src_ip dst_ip IP_PROTO_UDP (pb_tot_len qb));
             put16 (udph_chksum udphdr) c;;
             when (c =? 0) (put16 (udph_chksum udphdr) 0xffff));;
          err ← ip_output_if q (Some src_ip) (Some dst_ip) (udp_ttl b) (udp_tos b) IP_PROTO_UDP nif;
          when (negb (bool_decide (q = p))) (pfree q);;
          mret err
    end.

Definition udp_sendto (pcb p : loc) (dst_ip dst_port : Z) : M stack Z :=
  b ← udp_get pcb;
  nif ← ip_route (if ip_addr_ismulticast dst_ip then udp_multicast_ip b else dst_ip);
  match nif with
  | None => mret ERR_RTE
  | Some nif => udp_sendto_if pcb p dst_ip dst_port nif
  end.

Definition udp_send (pcb p : loc) : M stack Z :=
  b ← udp_get pcb; udp_sendto pcb p (udp_remote_ip b) (udp_remote_port b).
End udp.
