(* ===== verification/Raw.v ===== *)
(** * Raw sockets (core/raw.c)

    The list of raw control blocks, the offering of incoming datagrams to
    them, and sending. *)
From S2P Require Import Prelude Inet Checksum Heap Pbuf InetChksum Stack Ip Icmp Udp.
#[local] Open Scope string_scope.
#[local] Open Scope list_scope.
#[local] Open Scope Z_scope.

Definition RAW_TTL : Z := IP_DEFAULT_TTL.

Definition set_raw_pcbs (l : option loc) : M stack unit := modify (fun s => s <| raw_pcbs := l |>).

(** ** Control blocks *)
Definition raw_new (proto : Z) : M stack (option loc) :=
  m ← malloc_struct;
  match m with
  | None => mret None
  | Some (l, _) =>
      head ← gets raw_pcbs;
      raw_put l (RawPcb 0 0 0 0 RAW_TTL head proto None 0);;
      set_raw_pcbs (Some l);;
      mret (Some l)
  end.

Definition raw_bind (pcb : loc) (ipaddr : option Z) : M stack Z :=
  raw_upd pcb (fun b => b <| raw_local_ip := addr_value ipaddr |>);; mret ERR_OK.

Definition raw_connect (pcb : loc) (ipaddr : option Z) : M stack Z :=
  raw_upd pcb (fun b => b <| raw_remote_ip := addr_value ipaddr |>);; mret ERR_OK.

Definition raw_recv (pcb : loc) (recv : option Z) (recv_arg : Z) : M stack unit :=
  raw_upd pcb (fun b => b <| raw_recv_cb := recv |> <| raw_recv_arg := recv_arg |>).

Fixpoint raw_remove_walk (fuel : nat) (pcb2 : option loc) (pcb : loc) : M stack unit :=
  match pcb2, fuel with
  | None, _ => mret tt
  | _, O => halt NoFuel
  | Some l, S fuel =>
      b ← raw_get l;
      when (bool_decide (raw_next b = Some pcb))
        (x ← raw_get pcb; raw_upd l (fun b => b <| raw_next := raw_next x |>));;
      b ← raw_get l;
      raw_remove_walk fuel (raw_next b) pcb
  end.

Definition raw_remove (pcb : loc) : M stack unit :=
  s ← get;
  (if bool_decide (raw_pcbs s = Some pcb) then
     b ← raw_get pcb; set_raw_pcbs (raw_next b)
   else raw_remove_walk (map_fuel (s_raws s)) (raw_pcbs s) pcb);;
  free_raw pcb.

Section raw.
Context {MC : MempConf} {EV : Env}.

(** ** raw_input *)

(** Each pcb of the protocol is offered the datagram until one eats it; that
    one moves to the front of the list. *)
Fixpoint raw_walk (fuel : nat) (prev pcb : option loc) (p : loc) (iphdr : ptr) (proto : Z)
  : M stack Z :=
  match pcb, fuel with
  | None, _ => mret 0
  | _, O => halt NoFuel
  | Some l, S fuel =>
      b ← raw_get l;
      eaten ← (if raw_protocol b =? proto then
                 match raw_recv_cb b with
                 | Some f =>
                     src ← get32 (iph_src iphdr);
                     r ← raw_recv_app f (raw_recv_arg b) l p src;
                     mret (negb (r =? 0))
                 | None => mret false
                 end
               else mret false);
      if (eaten : bool) then
        match prev with
        | Some q =>
            b ← raw_get l;
            raw_upd q (fun x => x <| raw_next := raw_next b |>);;
            head ← gets raw_pcbs;
            raw_upd l (fun x => x <| raw_next := head |>);;
            set_raw_pcbs (Some l)
        | None => mret tt
        end;;
        _ ← raw_get l;
        mret 1
      else
        b ← raw_get l;
        raw_walk fuel (Some l) (raw_next b) p iphdr proto
  end.

Definition raw_input (p inp : loc) : M stack Z :=
  b ← pbuf_get p;
  iphdr ← deref (pb_payload b);
  proto ← IPH_PROTO iphdr;
  s ← get;
  raw_walk (map_fuel (s_raws s)) None (raw_pcbs s) p iphdr proto.

(** ** raw_sendto *)

(** [inl err]: there is no buffer to send. *)
Definition raw_header_buffer (p : loc) : M stack (Z + loc) :=
  e ← hp (pbuf_header (Some p) IP_HLEN);
  if negb (e =? 0) then
    q ← hp (pbuf_alloc PBUF_IP 0 PBUF_RAM);
    match q with
    | None => mret (inl ERR_MEM)
    | Some q => hp (pbuf_chain (Some q) (Some p));; mret (inr q)
    end
  else
    e ← hp (pbuf_header (Some p) (- IP_HLEN));
    if negb (e =? 0) then
      ASSERT "Can't restore header we just removed!" false;; mret (inl ERR_MEM)
    else mret (inr p).

Definition raw_sendto (pcb p : loc) (ipaddr : Z) : M stack Z :=
  r ← raw_header_buffer p;
  match r with
  | inl err => mret err
  | inr q =>
      nif ← ip_route ipaddr;
      match nif with
      | None => when (negb (bool_decide (q = p))) (pfree q);; mret ERR_RTE
      | Some nif =>
          b ← raw_get pcb;
          n ← netif_get nif;
          let src_ip := if ip_addr_isany (Some (raw_local_ip b)) then netif_ip_addr n
                        else raw_local_ip b in
          err ← ip_output_if q (Some src_ip) (Some ipaddr) (raw_ttl b) (raw_tos b)
                  (raw_protocol b) nif;
          when (negb (bool_decide (q = p))) (pfree q);;
          mret err
      end
  end.

Definition raw_send (pcb p : loc) : M stack Z :=
  b ← raw_get pcb; raw_sendto pcb p (raw_remote_ip b).
End raw.
