(* ===== verification/Netif.v ===== *)
(** * Network interfaces (core/netif.c)

    The list of interfaces, their addresses and flags.  Changing the address
    of an interface aborts the connections that use the old one. *)
From S2P Require Import Prelude Inet Checksum Heap Pbuf InetChksum Stack Ip TcpBase TcpOut Tcp Igmp.
#[local] Open Scope string_scope.
#[local] Open Scope list_scope.
#[local] Open Scope Z_scope.

Definition set_netif_list (l : option loc) : M stack unit := modify (fun s => s <| netif_list := l |>).

(** ** Setters; a [None] address is the NULL pointer *)
Definition netif_set_gw (nif : loc) (gw : option Z) : M stack unit :=
  netif_upd nif (fun n => n <| netif_gw := match gw with Some a => a | None => 0 end |>).
Definition netif_set_netmask (nif : loc) (netmask : option Z) : M stack unit :=
  netif_upd nif (fun n => n <| netif_netmask := match netmask with Some a => a | None => 0 end |>).
Definition netif_set_default (nif : option loc) : M stack unit :=
  modify (fun s => s <| netif_default := nif |>).

Definition netif_set_up (nif : loc) : M stack unit :=
  n ← netif_get nif;
  if Z.land (netif_flags n) NETIF_FLAG_UP =? 0
  then netif_upd nif (fun n => n <| netif_flags := Z.lor (netif_flags n) NETIF_FLAG_UP |>)
  else mret tt.
Definition netif_set_down (nif : loc) : M stack unit :=
  n ← netif_get nif;
  if Z.land (netif_flags n) NETIF_FLAG_UP =? 0 then mret tt
  else netif_upd nif (fun n => n <| netif_flags := u8 (Z.land (netif_flags n) (Z.lnot NETIF_FLAG_UP)) |>).

(** ** Searching *)
Fixpoint find_walk (fuel : nat) (l : option loc) (num c0 c1 : Z) : M stack (option loc) :=
  match l, fuel with
  | None, _ => mret None
  | _, O => halt NoFuel
  | Some l, S fuel =>
      n ← netif_get l;
      if (num =? netif_num n) && (c0 =? (netif_name n).1) && (c1 =? (netif_name n).2)
      then mret (Some l)
      else find_walk fuel (netif_next n) num c0 c1
  end.

(** The name is NULL or its first three characters; the number is one digit,
    and whatever follows it is not read. *)
Definition netif_find (name : option (Z * Z * Z)) : M stack (option loc) :=
  match name with
  | None => mret None
  | Some (c0, c1, c2) =>
      s ← get;
      find_walk (map_fuel (s_netifs s)) (netif_list s) (u8 (c2 - 48)) c0 c1
  end.

Section netif.
Context {MC : MempConf} {EV : Env}.

(** ** netif_set_ipaddr *)

(** Abort the connections bound to the address the interface has now. *)
Fixpoint abort_walk (fuel : nat) (pcb : option loc) (nif : loc) : M stack unit :=
  match pcb, fuel with
  | None, _ => mret tt
  | _, O => halt NoFuel
  | Some l, S fuel =>
      b ← pcb_get l;
      n ← netif_get nif;
      when (pcb_local_ip b =? netif_ip_addr n) (tcp_abort l);;
      abort_walk fuel (pcb_next b) nif
  end.

(** Listeners on the old address move to the new one. *)
Fixpoint relisten_walk (fuel : nat) (lpcb : option loc) (nif : loc) (ipaddr : option Z) : M stack unit :=
  match lpcb, fuel with
  | None, _ => mret tt
  | _, O => halt NoFuel
  | Some l, S fuel =>
      b ← lpcb_get l;
      n ← netif_get nif;
      when (negb (ip_addr_isany (Some (lpcb_local_ip b))) && (lpcb_local_ip b =? netif_ip_addr n))
        (lpcb_upd l (fun b => b <| lpcb_local_ip := match ipaddr with Some a => a | None => 0 end |>));;
      b ← lpcb_get l;
      relisten_walk fuel (lpcb_next b) nif ipaddr
  end.

(** ip_addr_cmp dereferences a NULL address. *)
Definition netif_set_ipaddr (nif : loc) (ipaddr : option Z) : M stack unit :=
  a ← deref ipaddr;
  n ← netif_get nif;
  when (negb (a =? netif_ip_addr n))
    (s ← get;
     abort_walk (map_fuel (s_tpcbs s)) (tcp_active_pcbs (s_tcp s)) nif;;
     s ← get;
     relisten_walk (map_fuel (s_lpcbs s)) (tcp_listen_pcbs (s_tcp s)) nif ipaddr);;
  netif_upd nif (fun n => n <| netif_ip_addr := a |>).

Definition netif_set_addr (nif : loc) (ipaddr netmask gw : option Z) : M stack unit :=
  netif_set_ipaddr nif ipaddr;;
  netif_set_netmask nif netmask;;
  netif_set_gw nif gw.

(** ** netif_add, netif_remove *)
Definition netif_add (nif : loc) (ipaddr netmask gw : option Z) (state init input : Z)
  : M stack (option loc) :=
  netif_upd nif (fun n => n <| netif_ip_addr := 0 |> <| netif_netmask := 0 |> <| netif_gw := 0 |>
                            <| netif_flags := 0 |> <| netif_igmp_mac_filter := None |>
                            <| netif_state := state |>);;
  num ← gets netif_count;
  netif_upd nif (fun n => n <| netif_num := num |>);;
  modify (fun s => s <| netif_count := u8 (num + 1) |>);;
  netif_upd nif (fun n => n <| netif_input := input |>);;
  netif_set_addr nif ipaddr netmask gw;;
  err ← netif_init_fn init nif;
  if negb (err =? ERR_OK) then mret None
  else
    head ← gets netif_list;
    netif_upd nif (fun n => n <| netif_next := head |>);;
    set_netif_list (Some nif);;
    n ← netif_get nif;
    when (negb (Z.land (netif_flags n) NETIF_FLAG_IGMP =? 0)) (_ ← igmp_start nif; mret tt);;
    mret (Some nif).

(** [true]: the interface was behind [tmp] and is unlinked. *)
Fixpoint netif_remove_walk (fuel : nat) (tmp : option loc) (nif : loc) : M stack bool :=
  match tmp, fuel with
  | None, _ => mret false
  | _, O => halt NoFuel
  | Some t, S fuel =>
      b ← netif_get t;
      if bool_decide (netif_next b = Some nif) then
        n ← netif_get nif;
        netif_upd t (fun b => b <| netif_next := netif_next n |>);;
        mret true
      else netif_remove_walk fuel (netif_next b) nif
  end.

Definition netif_remove (nif : option loc) : M stack unit :=
  match nif with
  | None => mret tt
  | Some nif =>
      n ← netif_get nif;
      when (negb (Z.land (netif_flags n) NETIF_FLAG_IGMP =? 0)) (_ ← igmp_stop nif; mret tt);;
      s ← get;
      found ← (if bool_decide (netif_list s = Some nif) then
                 n ← netif_get nif; set_netif_list (netif_next n);; mret true
               else netif_remove_walk (map_fuel (s_netifs s)) (netif_list s) nif);
      if (found : bool) then
        d ← gets netif_default;
        when (bool_decide (d = Some nif)) (netif_set_default None)
      else mret tt
  end.
End netif.
