(* ===== verification/Reass.v ===== *)
(** * Reassembly of fragments (the receiving half of core/ipv4/ip_frag.c)

    The queue of incomplete datagrams.  The fragments of a datagram are linked
    through a helper structure that the code writes over the IP header of each
    fragment: four bytes of pointer, the first offset and the end offset.  A
    pointer in memory is the number of its location; NULL is 0. *)
From S2P Require Import Prelude Inet Checksum Heap Pbuf InetChksum Stack Ip Icmp.
#[local] Open Scope string_scope.
#[local] Open Scope list_scope.
#[local] Open Scope Z_scope.

(** ** Constants (ip_frag.c, opt.h) *)
Definition IP_REASS_FLAG_LASTFRAG : Z := 0x01.
Definition IP_REASS_MAXAGE : Z := 3.
Definition IP_REASS_MAX_PBUFS : Z := 10.

(** ** Pointers in memory *)
Definition ptr_word (l : option loc) : Z := match l with None => 0 | Some l => u32 (Zpos l) end.
Definition word_ptr (w : Z) : option loc := match w with Zpos l => Some l | _ => None end.

(** struct ip_reass_helper *)
Definition helper_next (p : ptr) : M stack (option loc) := w ← get32 p; mret (word_ptr w).
Definition helper_set_next (p : ptr) (l : option loc) : M stack unit := put32 p (ptr_word l).
Definition helper_start (p : ptr) : M stack Z := get16 (ptr_add p 4).
Definition helper_set_start (p : ptr) (v : Z) : M stack unit := put16 (ptr_add p 4) v.
Definition helper_end (p : ptr) : M stack Z := get16 (ptr_add p 6).
Definition helper_set_end (p : ptr) (v : Z) : M stack unit := put16 (ptr_add p 6) v.

(** [q->payload] *)
Definition payload_of (q : loc) : M stack ptr := b ← pbuf_get q; deref (pb_payload b).

(** Words of a saved header. *)
Definition hdr16 (hdr : list Z) (k : nat) : Z := nth k hdr 0 + 2 ^ 8 * nth (S k) hdr 0.
Definition hdr32 (hdr : list Z) (k : nat) : Z := hdr16 hdr k + 2 ^ 16 * hdr16 hdr (2 + k).

Definition IP_ADDRESSES_AND_ID_MATCH (hdr : list Z) (fraghdr : ptr) : M stack bool :=
  src ← get32 (iph_src fraghdr);
  dest ← get32 (iph_dest fraghdr);
  id ← get16 (iph_id fraghdr);
  mret ((hdr32 hdr 12 =? src) && (hdr32 hdr 16 =? dest) && (hdr16 hdr 4 =? id)).

Definition set_reassdatagrams (l : option loc) : M stack unit :=
  ureass (fun g => g <| reassdatagrams := l |>).
Definition count_pbufs (d : Z) : M stack unit :=
  ureass (fun g => g <| ip_reass_pbufcount := u16 (ip_reass_pbufcount g + d) |>).

(** ** Taking a datagram off the queue *)
Definition ip_reass_dequeue_datagram (ipr : loc) (prev : option loc) : M stack unit :=
  r ← rd_get ipr;
  head ← greass reassdatagrams;
  (if bool_decide (head = Some ipr) then set_reassdatagrams (rd_next r)
   else
     ASSERT "sanity check linked list" (is_some prev);;
     pl ← deref prev;
     rd_upd pl (fun x => x <| rd_next := rd_next r |>));;
  free_rd ipr.

Section reass.
Context {MC : MempConf} {EV : Env}.

(** Free the fragments from [p] on; [freed] counts their pbufs. *)
Fixpoint free_frags (fuel : nat) (p : option loc) (freed : Z) : M stack Z :=
  match p, fuel with
  | None, _ => mret freed
  | _, O => halt NoFuel
  | Some pcur, S fuel =>
      iprh ← payload_of pcur;
      next ← helper_next iprh;
      n ← hp (pbuf_clen (Some pcur));
      pfree pcur;;
      free_frags fuel next (freed + n)
  end.

(** The first fragment is there: report the timeout with its header. *)
Definition free_first_frag (ipr : loc) : M stack Z :=
  r ← rd_get ipr;
  p ← deref (rd_p r);
  iprh ← payload_of p;
  start ← helper_start iprh;
  if start =? 0 then
    next ← helper_next iprh;
    rd_upd ipr (fun x => x <| rd_p := next |>);;
    hp (store iprh (rd_iphdr r));;
    icmp_time_exceeded p ICMP_TE_FRAG;;
    n ← hp (pbuf_clen (Some p));
    pfree p;;
    mret n
  else mret 0.

Definition ip_reass_free_complete_datagram (ipr : loc) (prev : option loc) : M stack Z :=
  ASSERT "prev != ipr" (negb (bool_decide (prev = Some ipr)));;
  match prev with
  | Some pl => pr ← rd_get pl; ASSERT "prev->next == ipr" (bool_decide (rd_next pr = Some ipr))
  | None => mret tt
  end;;
  n ← free_first_frag ipr;
  r ← rd_get ipr;
  s ← get;
  pbufs_freed ← free_frags (walk_fuel (s_heap s)) (rd_p r) n;
  ip_reass_dequeue_datagram ipr prev;;
  count ← greass ip_reass_pbufcount;
  ASSERT "ip_reass_pbufcount >= clen" (pbufs_freed <=? count);;
  count_pbufs (- pbufs_freed);;
  mret pbufs_freed.

(** ** The timer *)
Fixpoint reass_tmr_walk (fuel : nat) (r prev : option loc) : M stack unit :=
  match r, fuel with
  | None, _ => mret tt
  | _, O => halt NoFuel
  | Some l, S fuel =>
      d ← rd_get l;
      if 0 <? rd_timer d then
        rd_put l (d <| rd_timer := u8 (rd_timer d - 1) |>);;
        reass_tmr_walk fuel (rd_next d) (Some l)
      else
        _ ← ip_reass_free_complete_datagram l prev;
        reass_tmr_walk fuel (rd_next d) prev
  end.

Definition ip_reass_tmr : M stack unit :=
  s ← get; reass_tmr_walk (map_fuel (s_reassdatas s)) (reassdatagrams (s_reass s)) None.

(** ** Making room *)

(** The oldest datagram other than the one [fraghdr] belongs to, the last node
    with a successor, and how many other datagrams there are. *)
Fixpoint oldest_walk (fuel : nat) (r oldest prev : option loc) (others : Z) (fraghdr : ptr)
  : M stack (option loc * option loc * Z) :=
  match r, fuel with
  | None, _ => mret (oldest, prev, others)
  | _, O => halt NoFuel
  | Some l, S fuel =>
      d ← rd_get l;
      same ← IP_ADDRESSES_AND_ID_MATCH (rd_iphdr d) fraghdr;
      oldest ← (if (same : bool) then mret oldest
                else match oldest with
                | None => mret (Some l)
                | Some o => od ← rd_get o; mret (if rd_timer d <=? rd_timer od then Some l else Some o)
                end);
      let others := if same : bool then others else others + 1 in
      let prev := if is_some (rd_next d) then Some l else prev in
      oldest_walk fuel (rd_next d) oldest prev others fraghdr
  end.

Fixpoint remove_oldest_loop (fuel : nat) (fraghdr : ptr) (pbufs_needed pbufs_freed : Z)
  : M stack Z :=
  match fuel with
  | O => halt NoFuel
  | S fuel =>
      s ← get;
      '(oldest, prev, others) ← oldest_walk (map_fuel (s_reassdatas s))
                                  (reassdatagrams (s_reass s)) None None 0 fraghdr;
      n ← match oldest with
          | Some o => ip_reass_free_complete_datagram o prev
          | None => mret 0
          end;
      let pbufs_freed := pbufs_freed + n in
      if (pbufs_freed <? pbufs_needed) && (1 <? others)
      then remove_oldest_loop fuel fraghdr pbufs_needed pbufs_freed
      else mret pbufs_freed
  end.

Definition ip_reass_remove_oldest_datagram (fraghdr : ptr) (pbufs_needed : Z) : M stack Z :=
  s ← get; remove_oldest_loop (map_fuel (s_reassdatas s)) fraghdr pbufs_needed 0.

(** ** A new datagram *)
Definition ip_reass_enqueue_new_datagram (fraghdr : ptr) (clen : Z) : M stack (option loc) :=
  m ← malloc_struct;
  m ← match m with
      | Some m => mret (Some m)
      | None =>
          n ← ip_reass_remove_oldest_datagram fraghdr clen;
          if clen <=? n then malloc_struct else mret None
      end;
  match m with
  | None => mret None
  | Some (ipr, _) =>
      head ← greass reassdatagrams;
      set_reassdatagrams (Some ipr);;
      hdr ← hp (load fraghdr IP_HLEN);
      rd_put ipr (IpReassdata head None hdr 0 0 IP_REASS_MAXAGE);;
      mret (Some ipr)
  end.

(** ** Placing a fragment *)

(** The search for the place of the fragment [start, end_) and its insertion
    there.  [None]: it collides with one that is there already (freepbuf);
    [Some valid]: it is in, and no hole was seen on the way. *)
Fixpoint place_frag (fuel : nat) (ipr new_p : loc) (iprh : ptr) (start end_ : Z)
    (q : option loc) (prev : option ptr) (valid : bool) : M stack (option bool) :=
  match q, fuel with
  | None, _ =>
      match prev with
      | Some ph =>
          pend ← helper_end ph;
          ASSERT "check fragments don't overlap" (pend <=? start);;
          helper_set_next ph (Some new_p);;
          mret (Some (valid && (pend =? start)))
      | None =>
          r ← rd_get ipr;
          ASSERT "no previous fragment, this must be the first fragment!" (negb (is_some (rd_p r)));;
          rd_put ipr (r <| rd_p := Some new_p |>);;
          mret (Some valid)
      end
  | _, O => halt NoFuel
  | Some l, S fuel =>
      tmp ← payload_of l;
      tstart ← helper_start tmp;
      if start <? tstart then
        helper_set_next iprh (Some l);;
        match prev with
        | Some ph =>
            pend ← helper_end ph;
            if (start <? pend) || (tstart <? end_) then mret None
            else helper_set_next ph (Some new_p);; mret (Some valid)
        | None => rd_upd ipr (fun r => r <| rd_p := Some new_p |>);; mret (Some valid)
        end
      else if start =? tstart then mret None
      else
        tend ← helper_end tmp;
        if start <? tend then mret None
        else
          valid ← match prev with
                  | Some ph => pend ← helper_end ph; mret (valid && (pend =? tstart))
                  | None => mret valid
                  end;
          next ← helper_next tmp;
          place_frag fuel ipr new_p iprh start end_ next (Some tmp) valid
  end.

(** From the fragment at [iprh] on, each starts where the one before ends;
    also the last helper reached. *)
Fixpoint no_holes (fuel : nat) (iprh : ptr) : M stack (bool * ptr) :=
  match fuel with
  | O => halt NoFuel
  | S fuel =>
      next ← helper_next iprh;
      match next with
      | None => mret (true, iprh)
      | Some q =>
          e ← helper_end iprh;
          qh ← payload_of q;
          st ← helper_start qh;
          if e =? st then no_holes fuel qh else mret (false, qh)
      end
  end.

(** Once the last fragment has come: does the queue start at 0 and have no
    holes? *)
Definition frags_complete (ipr : loc) (iprh : ptr) : M stack bool :=
  r ← rd_get ipr;
  first ← deref (rd_p r);
  fh ← payload_of first;
  st ← helper_start fh;
  if negb (st =? 0) then mret false
  else
    s ← get;
    '(ok, last) ← no_holes (walk_fuel (s_heap s)) iprh;
    if (ok : bool) then
      ASSERT "sanity check" (is_some (rd_p r));;
      ASSERT "sanity check" (negb (bool_decide (fh = last)));;
      next ← helper_next last;
      ASSERT "validate_datagram:next_pbuf!=NULL" (negb (is_some next));;
      e ← helper_end last;
      ASSERT "validate_datagram:datagram end!=datagram len" (e =? rd_datagram_len r);;
      mret true
    else mret false.

Definition ip_reass_chain_frag_into_datagram_and_validate (ipr new_p : loc) : M stack bool :=
  fraghdr ← payload_of new_p;
  l ← get16 (iph_len fraghdr);
  hl ← IPH_HL fraghdr;
  w ← get16 (iph_offset fraghdr);
  let len := u16 (ntohs l - hl * 4) in
  let offset := u16 (Z.land (ntohs w) IP_OFFMASK * 8) in
  ASSERT "sizeof(struct ip_reass_helper) <= IP_HLEN" (8 <=? IP_HLEN);;
  let iprh := fraghdr in
  let end_ := u16 (offset + len) in
  helper_set_next iprh None;;
  helper_set_start iprh offset;;
  helper_set_end iprh end_;;
  r ← rd_get ipr;
  s ← get;
  placed ← place_frag (walk_fuel (s_heap s)) ipr new_p iprh offset end_ (rd_p r) None true;
  match placed with
  | None =>
      n ← hp (pbuf_clen (Some new_p));
      count_pbufs (- n);;
      pfree new_p;;
      mret false
  | Some valid =>
      r ← rd_get ipr;
      if negb (Z.land (rd_flags r) IP_REASS_FLAG_LASTFRAG =? 0) then
        if (valid : bool) then frags_complete ipr iprh else mret false
      else mret false
  end.

(** ** ip_reass *)

(** The datagram the fragment belongs to, and the one before it. *)
Fixpoint find_datagram (fuel : nat) (ipr prev : option loc) (fraghdr : ptr)
  : M stack (option loc * option loc) :=
  match ipr, fuel with
  | None, _ => mret (None, prev)
  | _, O => halt NoFuel
  | Some l, S fuel =>
      d ← rd_get l;
      same ← IP_ADDRESSES_AND_ID_MATCH (rd_iphdr d) fraghdr;
      if (same : bool) then mret (Some l, prev) else find_datagram fuel (rd_next d) (Some l) fraghdr
  end.

(** Hide the header of each further fragment and append it to [p]. *)
Fixpoint join_frags (fuel : nat) (p : loc) (r : option loc) : M stack unit :=
  match r, fuel with
  | None, _ => mret tt
  | _, O => halt NoFuel
  | Some l, S fuel =>
      iprh ← payload_of l;
      _ ← hp (pbuf_header (Some l) (- IP_HLEN));
      hp (pbuf_cat (Some p) (Some l));;
      next ← helper_next iprh;
      join_frags fuel p next
  end.

(** All fragments are there: restore the header and chain them. *)
Definition reass_finish (ipr : loc) (prev : option loc) : M stack loc :=
  rd_upd ipr (fun r => r <| rd_datagram_len := u16 (rd_datagram_len r + IP_HLEN) |>);;
  d ← rd_get ipr;
  p ← deref (rd_p d);
  fraghdr ← payload_of p;
  r ← helper_next fraghdr;
  hp (store fraghdr (rd_iphdr d));;
  put16 (iph_len fraghdr) (htons (rd_datagram_len d));;
  put16 (iph_offset fraghdr) 0;;
  put16 (iph_chksum fraghdr) 0;;
  c ← inet_chksum_at fraghdr IP_HLEN;
  put16 (iph_chksum fraghdr) c;;
  s ← get;
  join_frags (walk_fuel (s_heap s)) p r;;
  ip_reass_dequeue_datagram ipr prev;;
  n ← hp (pbuf_clen (Some p));
  count_pbufs (- n);;
  mret p.

(** The entry of the datagram, made if there is none, with the header of the
    first fragment if this is it. *)
Definition reass_entry (fraghdr : ptr) (clen offset : Z) : M stack (option (loc * option loc)) :=
  s ← get;
  '(ipr, prev) ← find_datagram (map_fuel (s_reassdatas s)) (reassdatagrams (s_reass s)) None fraghdr;
  match ipr with
  | None =>
      ipr ← ip_reass_enqueue_new_datagram fraghdr clen;
      mret (match ipr with Some ipr => Some (ipr, prev) | None => None end)
  | Some ipr =>
      d ← rd_get ipr;
      when ((offset =? 0) && negb (Z.land (ntohs (hdr16 (rd_iphdr d) 6)) IP_OFFMASK =? 0))
        (hdr ← hp (load fraghdr IP_HLEN); rd_put ipr (d <| rd_iphdr := hdr |>));;
      mret (Some (ipr, prev))
  end.

(** Is there room for [clen] more pbufs, after freeing the oldest datagram? *)
Definition reass_room (fraghdr : ptr) (clen : Z) : M stack bool :=
  count ← greass ip_reass_pbufcount;
  if IP_REASS_MAX_PBUFS <? count + clen then
    n ← ip_reass_remove_oldest_datagram fraghdr clen;
    count ← greass ip_reass_pbufcount;
    mret (negb (n =? 0) && negb (IP_REASS_MAX_PBUFS <? count + clen))
  else mret true.

Definition ip_reass (p : loc) : M stack (option loc) :=
  let nullreturn : M stack (option loc) := pfree p;; mret None in
  fraghdr ← payload_of p;
  hl ← IPH_HL fraghdr;
  if negb (hl * 4 =? IP_HLEN) then nullreturn
  else
    w ← get16 (iph_offset fraghdr);
    l ← get16 (iph_len fraghdr);
    let offset := u16 (Z.land (ntohs w) IP_OFFMASK * 8) in
    let len := u16 (ntohs l - hl * 4) in
    clen ← hp (pbuf_clen (Some p));
    room ← reass_room fraghdr clen;
    if negb (room : bool) then nullreturn
    else
      entry ← reass_entry fraghdr clen (Z.land (ntohs w) IP_OFFMASK);
      match entry with
      | None => nullreturn
      | Some (ipr, prev) =>
          count_pbufs clen;;
          when (Z.land (ntohs w) IP_MF =? 0)
            (rd_upd ipr (fun d => d <| rd_flags := Z.lor (rd_flags d) IP_REASS_FLAG_LASTFRAG |>);;
             rd_upd ipr (fun d => d <| rd_datagram_len := u16 (offset + len) |>));;
          done ← ip_reass_chain_frag_into_datagram_and_validate ipr p;
          if (done : bool) then p ← reass_finish ipr prev; mret (Some p) else mret None
      end.
End reass.
