(* ===== verification/IpIn.v ===== *)
(** * IP input (ip_input of core/ipv4/ip.c)

    The checks of the IP header, the decision whether the datagram is for this
    host, reassembly, and the hand-over to the transport protocols. *)
From S2P Require Import Prelude Inet Checksum Heap Pbuf InetChksum Stack Ip Icmp Igmp Udp Raw Reass TcpBase TcpOut Tcp TcpIn.
#[local] Open Scope string_scope.
#[local] Open Scope list_scope.
#[local] Open Scope Z_scope.

(** The interface is up and configured, and [dest] is its address or a
    broadcast address of its network. *)
Definition accepts (n : netif) (dest : Z) : bool :=
  netif_is_up n && negb (ip_addr_isany (Some (netif_ip_addr n)))
  && ((dest =? netif_ip_addr n) || ip_addr_isbroadcast dest n).

(** The interface the packet came in on first, then the others in order. *)
Fixpoint accept_walk (fuel : nat) (first : bool) (nif inp : loc) (dest : Z) : M stack (option loc) :=
  match fuel with
  | O => halt NoFuel
  | S fuel =>
      n ← netif_get nif;
      if accepts n dest then mret (Some nif)
      else
        next ← (if first then gets netif_list else mret (netif_next n));
        next ← (if bool_decide (next = Some inp)
                then ni ← netif_get inp; mret (netif_next ni) else mret next);
        match next with
        | None => mret None
        | Some l => accept_walk fuel false l inp dest
        end
  end.

(** The interface a datagram for [dest] is taken on, if any. *)
Definition input_netif (inp : loc) (dest : Z) : M stack (option loc) :=
  if ip_addr_ismulticast dest then
    n ← netif_get inp;
    if Z.land (netif_flags n) NETIF_FLAG_IGMP =? 0 then mret None
    else
      g ← igmp_lookfor_group inp dest;
      mret (if is_some g then Some inp else None)
  else s ← get; accept_walk (S (map_fuel (s_netifs s))) true inp inp dest.

Section input.
Context {MC : MempConf} {EV : Env}.

(** The datagram is whole: to the raw sockets, then by protocol. *)
Definition ip_deliver (p inp : loc) (iphdr : ptr) : M stack unit :=
  eaten ← raw_input p inp;
  if negb (eaten =? 0) then mret tt
  else
    proto ← IPH_PROTO iphdr;
    if proto =? IP_PROTO_UDP then udp_input p inp
    else if proto =? IP_PROTO_TCP then tcp_input p inp
    else if proto =? IP_PROTO_ICMP then icmp_input p inp
    else if proto =? IP_PROTO_IGMP then igmp_input p inp (iph_dest iphdr)
    else
      dest ← get32 (iph_dest iphdr);
      n ← netif_get inp;
      when (negb (ip_addr_isbroadcast dest n) && negb (ip_addr_ismulticast dest))
        (hp (pupd p (pb_set_payload (Some iphdr)));; icmp_dest_unreach p ICMP_DUR_PROTO);;
      pfree p.

Definition ip_input (p inp : loc) : M stack Z :=
  let drop : M stack Z := pfree p;; mret ERR_OK in
  b ← pbuf_get p;
  iphdr ← deref (pb_payload b);
  v ← IPH_V iphdr;
  if negb (v =? 4) then drop
  else
    hl ← IPH_HL iphdr;
    let iphdr_hlen := hl * 4 in
    l ← get16 (iph_len iphdr);
    let iphdr_len := ntohs l in
    if (pb_len b <? iphdr_hlen) || (pb_tot_len b <? iphdr_len) then drop
    else
      c ← inet_chksum_at iphdr iphdr_hlen;
      if negb (c =? 0) then drop
      else
        hp (pbuf_realloc p iphdr_len);;
        dest ← get32 (iph_dest iphdr);
        nif ← input_netif inp dest;
        src ← get32 (iph_src iphdr);
        n ← netif_get inp;
        if ip_addr_isbroadcast src n || ip_addr_ismulticast src then drop
        else if negb (is_some nif) then drop
        else
          off ← get16 (iph_offset iphdr);
          if Z.land off (htons (Z.lor IP_OFFMASK IP_MF)) =? 0
          then ip_deliver p inp iphdr;; mret ERR_OK
          else
            r ← ip_reass p;
            match r with
            | None => mret ERR_OK
            | Some p => iphdr ← payload_of p; ip_deliver p inp iphdr;; mret ERR_OK
            end.
End input.
