(* ===== verification/Frame.v ===== *)
(** * What sending leaves alone

    IP output and the control segments of TCP work on packet buffers and call
    the driver; they do not touch segments, control blocks or the TCP globals.
    [Keeps m] says so for a computation [m]. *)
From S2P Require Import Prelude Inet Checksum Heap Pbuf InetChksum Stack Chains Ip TcpBase TcpOut.
#[local] Open Scope Z_scope.

(** The part of the state that belongs to TCP. *)
Definition tcp_part (s : stack) :=
  (s_segs s, s_tpcbs s, s_lpcbs s, s_tcp s).

Class Keeps {A} (m : M stack A) : Prop :=
  keeps : forall s a s', m s = Done (a, s') -> tcp_part s' = tcp_part s.

Lemma bind_inv {S A B} (m : M S A) (k : A -> M S B) s b s2 :
  (m ≫= k) s = Done (b, s2) -> exists a s1, m s = Done (a, s1) /\ k a s1 = Done (b, s2).
Proof. unfold mbind, M_bind. destruct (m s) as [[a s1]|]; [eauto | done]. Qed.

#[export] Instance keeps_ret {A} (a : A) : Keeps (mret a).
Proof. by intros s a' s' [= <- <-]. Qed.
#[export] Instance keeps_halt {A} w : @Keeps A (halt w).
Proof. done. Qed.
#[export] Instance keeps_bind {A B} (m : M stack A) (k : A -> M stack B) :
  Keeps m -> (forall a, Keeps (k a)) -> Keeps (m ≫= k).
Proof.
  intros Hm Hk s b s2 (a & s1 & H1 & H2)%bind_inv. apply Hm in H1. apply Hk in H2. congruence.
Qed.
#[export] Instance keeps_get : Keeps get.
Proof. by intros s a s' [= <- <-]. Qed.
#[export] Instance keeps_gets {A} (f : stack -> A) : Keeps (gets f).
Proof. by intros s a s' [= <- <-]. Qed.
#[export] Instance keeps_deref {A} (o : option A) : Keeps (deref o).
Proof. destruct o; apply _. Qed.
#[export] Instance keeps_hp {A} (m : M heap A) : Keeps (hp m).
Proof. intros s a s'. unfold hp, zoom. by destruct (m (s_heap s)) as [[? ?]|]; intros [= <- <-]. Qed.
#[export] Instance keeps_when b (m : M stack unit) : Keeps m -> Keeps (when b m).
Proof. intros H. destruct b; apply _. Qed.
#[export] Instance keeps_if {A} (b : bool) (m n : M stack A) : Keeps m -> Keeps n -> Keeps (if b then m else n).
Proof. by destruct b. Qed.
#[export] Instance keeps_ip_id f : Keeps (modify (fun s => s <| ip_id := f s |>)).
Proof. by intros s a s' [= <- <-]. Qed.

Ltac keeps_go :=
  try apply _; try done;
  repeat (match goal with
    | |- Keeps (_ ≫= _) => apply keeps_bind; [|intros ?]
    | |- Keeps (if _ then _ else _) => apply keeps_if
    | |- Keeps (match ?x with _ => _ end) => destruct x
    | |- Keeps (let _ := _ in _) => cbv zeta
    | |- Keeps ((fun _ => _) _) => cbv beta
    end; try apply _; try done).

Section frame.
Context {MC : MempConf} {EV : Env}.
(** The driver transmits the packet it is given; it has no access to TCP. *)
Context (driver_keeps : forall nif p addr, Keeps (netif_output nif p addr)).

#[local] Hint Extern 0 (Keeps (netif_output _ _ _)) => apply driver_keeps : typeclass_instances.

#[local] Instance keeps_put16 p v : Keeps (put16 p v).
Proof. unfold put16. apply _. Qed.
#[local] Instance keeps_put32 p v : Keeps (put32 p v).
Proof. unfold put32. apply _. Qed.
#[local] Instance keeps_get16 p : Keeps (get16 p).
Proof. unfold get16. keeps_go. Qed.
#[local] Instance keeps_get32 p : Keeps (get32 p).
Proof. unfold get32. keeps_go. Qed.
#[local] Instance keeps_chksum_at p n : Keeps (inet_chksum_at p n).
Proof. unfold inet_chksum_at, fueled. keeps_go. Qed.
#[local] Instance keeps_netif_get l : Keeps (netif_get l).
Proof. unfold netif_get. keeps_go. Qed.
#[local] Instance keeps_pbuf_get l : Keeps (pbuf_get l).
Proof. unfold pbuf_get. apply _. Qed.
#[local] Instance keeps_assert m b : Keeps (ASSERT m b).
Proof. unfold ASSERT. apply _. Qed.

#[local] Instance keeps_route_walk fuel dest l : Keeps (route_walk fuel dest l).
Proof. revert l. induction fuel as [|fuel IH]; intros [l|]; cbn [route_walk]; keeps_go. Qed.
#[local] Instance keeps_ip_route dest : Keeps (ip_route dest).
Proof. unfold ip_route. keeps_go. Qed.

#[local] Instance keeps_frag_loop fuel p nif r h dest mtu nfb ofo omf left poff :
  Keeps (frag_loop fuel p nif r h dest mtu nfb ofo omf left poff).
Proof.
  revert ofo left poff. induction fuel as [|fuel IH]; intros; cbn [frag_loop]; keeps_go.
Qed.
#[local] Instance keeps_ip_frag p nif dest : Keeps (ip_frag p nif dest).
Proof. unfold ip_frag. keeps_go. Qed.
#[local] Instance keeps_ip_output_if p src dest ttl tos proto nif :
  Keeps (ip_output_if p src dest ttl tos proto nif).
Proof.
  unfold ip_output_if, IPH_TTL_SET, IPH_PROTO_SET, IPH_VHLTOS_SET, IPH_PROTO, IPH_TTL. keeps_go.
Qed.
#[local] Instance keeps_ip_output p src dest ttl tos proto : Keeps (ip_output p src dest ttl tos proto).
Proof. unfold ip_output. keeps_go. Qed.

#[local] Instance keeps_fill_header h a b c d e f : Keeps (fill_header h a b c d e f).
Proof.
  unfold fill_header, TCPH_FLAGS_SET, TCPH_HDRLEN_SET, TCPH_FLAGS. keeps_go.
Qed.
#[local] Instance keeps_send_and_free p h a b c d : Keeps (send_and_free p h a b c d).
Proof. unfold send_and_free. keeps_go. Qed.

(** Sending a reset changes no segment, no control block and no TCP global. *)
Lemma tcp_rst_keeps seqno ackno lip rip lport rport : Keeps (tcp_rst seqno ackno lip rip lport rport).
Proof. unfold tcp_rst. keeps_go. Qed.
End frame.
