(* ===== verification/TcpArith.v ===== *)
(** * TCP: sequence numbers, windows, timers and congestion control

    What the arithmetic of tcp.h, tcp_receive and tcp_recved computes on
    machine integers: no wrap where none is meant, circular order where wrap
    is. *)
From S2P Require Import Prelude Inet Heap Pbuf Stack Ip TcpBase TcpOut Tcp TcpIn.
#[local] Open Scope list_scope.
#[local] Open Scope Z_scope.


(** The signed difference of two sequence numbers, from the unsigned one. *)
Lemma s32_u32 z : s32 z = if u32 z <? 2 ^ 31 then u32 z else u32 z - 2 ^ 32.
Proof.
  unfold s32, u32. pose proof (Z.div_mod z (2 ^ 32) ltac:(lia)).
  pose proof (Z.mod_pos_bound z (2 ^ 32) ltac:(lia)).
  destruct (z mod 2 ^ 32 <? 2 ^ 31) eqn:E.
  - apply Z.ltb_lt in E.
    rewrite <- (Z.mod_unique_pos (z + 2 ^ 31) (2 ^ 32) (z / 2 ^ 32) (z mod 2 ^ 32 + 2 ^ 31)); lia.
  - apply Z.ltb_ge in E.
    rewrite <- (Z.mod_unique_pos (z + 2 ^ 31) (2 ^ 32) (z / 2 ^ 32 + 1) (z mod 2 ^ 32 - 2 ^ 31)); lia.
Qed.

Lemma u32_sub_sub a b c : u32 (a - c) = u32 (u32 (a - b) - u32 (c - b)).
Proof.
  unfold u32. rewrite <- Zminus_mod. f_equal. lia.
Qed.

(** [TCP_SEQ_BETWEEN a b c] on distances from [b]. *)
Lemma seq_between_circular a b c :
  u32 (c - b) < 2 ^ 31 -> TCP_SEQ_BETWEEN a b c = (u32 (a - b) <=? u32 (c - b)).
Proof.
  intros Hw. pose proof (u32_range (a - b)) as Ha. pose proof (u32_range (c - b)) as Hc.
  unfold is_u32 in *. unfold TCP_SEQ_BETWEEN, TCP_SEQ_GEQ, TCP_SEQ_LEQ.
  rewrite (s32_u32 (a - b)), (s32_u32 (a - c)), (u32_sub_sub a b c).
  set (x := u32 (a - b)) in *. set (w := u32 (c - b)) in *.
  destruct (Z.ltb_spec x (2 ^ 31)).
  - unfold u32. destruct (Z.leb_spec x w) as [Hxw|Hxw].
    + destruct (decide (x = w)) as [->|].
      * rewrite Z.sub_diag. change (0 mod 2 ^ 32) with 0.
        apply andb_true_intro. split; apply Z.leb_le; [lia | done].
      * rewrite <- (Z.mod_unique_pos (x - w) (2 ^ 32) (-1) (x - w + 2 ^ 32)) by lia.
        destruct (Z.ltb_spec (x - w + 2 ^ 32) (2 ^ 31)); [lia|].
        apply andb_true_intro. split; apply Z.leb_le; lia.
    + rewrite Z.mod_small by lia. destruct (Z.ltb_spec (x - w) (2 ^ 31)); [|lia].
      apply andb_false_intro2, Z.leb_gt. lia.
  - destruct (Z.leb_spec x w); [lia|]. apply andb_false_intro1, Z.leb_gt. lia.
Qed.

Lemma seq_order_consistent a b :
  TCP_SEQ_GEQ a b = negb (TCP_SEQ_LT a b) /\ TCP_SEQ_GT a b = negb (TCP_SEQ_LEQ a b)
  /\ TCP_SEQ_LEQ a b = TCP_SEQ_LT a b || (u32 (a - b) =? 0).
Proof.
  unfold TCP_SEQ_GEQ, TCP_SEQ_LEQ, TCP_SEQ_LT, TCP_SEQ_GT. repeat split.
  - by rewrite Z.leb_antisym.
  - by rewrite Z.leb_antisym, negb_involutive.
  - pose proof (u32_range (a - b)) as Ha. unfold is_u32 in Ha.
    rewrite s32_u32. set (x := u32 (a - b)) in *.
    destruct (Z.ltb_spec x (2 ^ 31)), (Z.eqb_spec x 0);
      try (rewrite orb_true_r; apply Z.leb_le; lia); rewrite orb_false_r.
    + destruct (Z.ltb_spec x 0); [lia | apply Z.leb_gt; lia].
    + destruct (Z.ltb_spec (x - 2 ^ 32) 0); [apply Z.leb_le; lia | lia].
Qed.

(** TCP_SEQ_BETWEEN is membership in a circular interval shorter than half the
    sequence space, wherever the interval wraps; TCP_SEQ_LT and its companions
    are mutually consistent. *)
Theorem tcp_seq_between_circular a b c :
  u32 (c - b) < 2 ^ 31 ->
  TCP_SEQ_BETWEEN a b c = (u32 (a - b) <=? u32 (c - b))
  /\ TCP_SEQ_GEQ a b = negb (TCP_SEQ_LT a b) /\ TCP_SEQ_GT a b = negb (TCP_SEQ_LEQ a b)
  /\ TCP_SEQ_LEQ a b = TCP_SEQ_LT a b || (u32 (a - b) =? 0).
Proof. intros H. split; [by apply seq_between_circular | apply seq_order_consistent]. Qed.

Lemma tcp_seq_between_circular_witness :
  u32 (5 - 4294967290) < 2 ^ 31 /\ TCP_SEQ_BETWEEN 3 4294967290 5 = true
  /\ TCP_SEQ_BETWEEN 6 4294967290 5 = false.
Proof.
  assert (H : u32 (5 - 4294967290) < 2 ^ 31) by (vm_compute; reflexivity).
  split; [exact H|].
  rewrite (proj1 (tcp_seq_between_circular 3 4294967290 5 H)).
  rewrite (proj1 (tcp_seq_between_circular 6 4294967290 5 H)).
  split; vm_compute; reflexivity.
Defined.

(** ** Round-trip time estimation *)

#[local] Ltac Zify.zify_post_hook ::= Z.div_mod_to_equations.

(** Van Jacobson's filter with unbounded integers: the scaled mean, the scaled
    deviation and the time-out. *)
Definition vj_sa (sa m : Z) : Z := sa + (m - sa / 8).
Definition vj_sv (sa sv m : Z) : Z := sv + (Z.abs (m - sa / 8) - sv / 4).

(** C14: For round trips of at most [M] ticks the s16_t variables never overflow:
    the estimator is the exact filter, its scaled mean and deviation stay within
    8M and 4M, and the time-out within 5M.  Up to 25 seconds ([M <= 51]) every
    backed-off time-out of the slow timer is exact too. *)
Theorem rtt_estimate_no_overflow b ticks M :
  0 <= M <= 4095 -> 0 <= ticks - pcb_rttest b <= M ->
  0 <= pcb_sa b <= 8 * M -> 0 <= pcb_sv b <= 4 * M ->
  let b' := rtt_estimate b ticks in
  let m := ticks - pcb_rttest b in
  pcb_sa b' = vj_sa (pcb_sa b) m /\ 0 <= pcb_sa b' <= 8 * M
  /\ pcb_sv b' = vj_sv (pcb_sa b) (pcb_sv b) m /\ 0 <= pcb_sv b' <= 4 * M
  /\ pcb_rto b' = pcb_sa b' / 8 + pcb_sv b' /\ 0 <= pcb_rto b' <= 5 * M
  /\ pcb_rttest b' = 0
  /\ (M <= 51 -> Forall (fun k => s16 (Z.shiftl (pcb_rto b') k) = pcb_rto b' * 2 ^ k) tcp_backoff).
Proof.
  intros HM Hm Hsa Hsv. unfold rtt_estimate, vj_sa, vj_sv. cbn.
  set (m := ticks - pcb_rttest b) in *. set (sa := pcb_sa b) in *. set (sv := pcb_sv b) in *.
  rewrite !shiftr_div by lia. change (2 ^ 3) with 8. change (2 ^ 2) with 4.
  rewrite (s16_small m) by lia. rewrite (s16_small (m - sa / 8)) by lia.
  rewrite (s16_small (sa + (m - sa / 8))) by lia.
  assert (Habs : (if m - sa / 8 <? 0 then s16 (- (m - sa / 8)) else m - sa / 8) = Z.abs (m - sa / 8)).
  { destruct (Z.ltb_spec (m - sa / 8) 0); [rewrite s16_small by lia|]; lia. }
  rewrite Habs. clear Habs. set (e := Z.abs (m - sa / 8)).
  assert (He : 0 <= e <= M) by lia.
  rewrite (s16_small (e - sv / 4)) by lia. rewrite (s16_small (sv + (e - sv / 4))) by lia.
  set (sa' := sa + (m - sa / 8)). assert (0 <= sa' <= 8 * M) by lia.
  set (sv' := sv + (e - sv / 4)). assert (0 <= sv' <= 4 * M) by lia.
  rewrite (s16_small (sa' / 8 + sv')) by lia.
  assert (Hr : 0 <= sa' / 8 + sv' <= 5 * M) by lia.
  repeat (split; [done || lia|]).
  intros H51. unfold tcp_backoff.
  rewrite !list.Forall_cons. repeat split; try apply list.Forall_nil_2.
  all: rewrite shiftl_mul by lia; apply s16_small; cbn; lia.
Qed.

Lemma rtt_estimate_no_overflow_witness :
  let b := (new_pcb 1 10) <| pcb_rttest := 10 |> in
  pcb_sa (rtt_estimate b 18) = 8 /\ 0 <= pcb_rto (rtt_estimate b 18) <= 5 * 51.
Proof.
  intros b. pose proof (rtt_estimate_no_overflow b 18 51) as H.
  destruct H as (H1 & _ & _ & _ & _ & H2 & _); [lia | cbn; lia | cbn; lia | vm_compute; split; discriminate|].
  split; [rewrite H1; reflexivity | exact H2].
Defined.

(** ** Congestion control *)

(** On the third duplicate ACK the threshold becomes half of the smaller
    window, but never less than two segments, and the congestion window that
    plus three segments; nothing wraps. *)
Theorem fast_recovery_window b :
  is_u16 (pcb_cwnd b) -> is_u16 (pcb_snd_wnd b) -> 0 <= pcb_mss b <= TCP_MSS ->
  let b' := fast_recovery b in
  pcb_ssthresh b' = Z.max (Z.min (pcb_cwnd b) (pcb_snd_wnd b) / 2) (2 * pcb_mss b)
  /\ pcb_cwnd b' = pcb_ssthresh b' + 3 * pcb_mss b
  /\ is_u16 (pcb_cwnd b') /\ has (pcb_flags b') TF_INFR = true.
Proof.
  intros Hc Hw Hm. unfold is_u16, TCP_MSS in *. unfold fast_recovery. cbn.
  set (c := pcb_cwnd b) in *. set (w := pcb_snd_wnd b) in *. set (m := pcb_mss b) in *.
  change (2 ^ 16) with 65536 in *.
  replace (if w <? c then w / 2 else c / 2) with (Z.min c w / 2)
    by (destruct (Z.ltb_spec w c); f_equal; lia).
  set (h := Z.min c w / 2).
  assert (Hh : 0 <= h < 32768) by (subst h; lia).
  rewrite (u16_small (2 * m)) by (unfold is_u16; lia).
  replace (if h <? 2 * m then 2 * m else h) with (Z.max h (2 * m)) by (destruct (Z.ltb_spec h (2 * m)); lia).
  rewrite (u16_small (_ + _)) by (unfold is_u16; lia).
  repeat split; try lia.
  unfold has, or8, u8. apply negb_true_iff, Z.eqb_neq. intros E.
  assert (Hb : Z.testbit (Z.land (Z.lor (pcb_flags b) TF_INFR mod 2 ^ 8) TF_INFR) 2 = true).
  { rewrite Z.land_spec, Z.mod_pow2_bits_low, Z.lor_spec by lia. cbn. by rewrite orb_true_r. }
  rewrite E in Hb. discriminate.
Qed.

Lemma fast_recovery_window_witness :
  let b := (new_pcb 1 1) <| pcb_cwnd := 8000 |> <| pcb_snd_wnd := 6000 |> <| pcb_mss := 1000 |> in
  pcb_ssthresh (fast_recovery b) = 3000 /\ pcb_cwnd (fast_recovery b) = 6000.
Proof.
  intros b. destruct (fast_recovery_window b) as (H1 & H2 & _); [vm_compute; split; congruence..|].
  rewrite H2, H1. split; reflexivity.
Defined.

(** An ACK for new data on an established connection opens the congestion
    window by one segment below the threshold and by mss*mss/cwnd above it; a
    step that would wrap the u16_t is not taken, so the window never shrinks. *)
Theorem open_cwnd_growth b (s : stack) :
  tcp_state_num ESTABLISHED <= tcp_state_num (pcb_state b) ->
  0 < pcb_mss b <= pcb_cwnd b -> is_u16 (pcb_cwnd b) ->
  let step := if pcb_cwnd b <? pcb_ssthresh b then pcb_mss b
              else pcb_mss b * pcb_mss b / pcb_cwnd b in
  let cwnd' := if pcb_cwnd b + step <? 2 ^ 16 then pcb_cwnd b + step else pcb_cwnd b in
  open_cwnd b s = Done (b <| pcb_cwnd := cwnd' |>, s) /\ pcb_cwnd b <= cwnd' < 2 ^ 16.
Proof.
  intros Hst Hm Hc. unfold is_u16 in Hc. cbn zeta.
  unfold open_cwnd. rewrite (proj2 (Z.leb_le _ _) Hst).
  set (c := pcb_cwnd b) in *. set (m := pcb_mss b) in *.
  assert (Hset : b <| pcb_cwnd := c |> = b) by (by destruct b).
  assert (Hgrow : forall d, 0 <= d <= m ->
    (if c <? u16 (c + d) then b <| pcb_cwnd := u16 (c + d) |> else b)
    = b <| pcb_cwnd := if c + d <? 2 ^ 16 then c + d else c |>
    /\ c <= (if c + d <? 2 ^ 16 then c + d else c) < 2 ^ 16).
  { intros d Hd. destruct (Z.ltb_spec (c + d) (2 ^ 16)).
    - rewrite u16_small by (unfold is_u16; lia). split; [|lia].
      destruct (Z.ltb_spec c (c + d)); [done|]. replace (c + d) with c by lia. by rewrite Hset.
    - assert (Hu : u16 (c + d) = c + d - 2 ^ 16).
      { unfold u16. symmetry. apply (Z.mod_unique_pos _ _ 1); lia. }
      rewrite Hu. destruct (Z.ltb_spec c (c + d - 2 ^ 16)); [lia|]. rewrite Hset. split; [done|lia]. }
  destruct (Z.ltb_spec c (pcb_ssthresh b)).
  - unfold grow_cwnd. fold c m. destruct (Hgrow m ltac:(lia)) as [E R].
    split; [by rewrite E | exact R].
  - destruct (Z.eqb_spec c 0); [lia|].
    assert (Hq : 0 <= m * m / c <= m).
    { split; [apply Z.div_pos; nia|]. apply Z.div_le_upper_bound; nia. }
    destruct (Hgrow _ Hq) as [E R]. split; [by rewrite E | exact R].
Qed.

(** A stack in which nothing is allocated. *)
Definition blank : stack :=
  Stack (Heap ∅ ∅ 1 0 (fun _ => None) []) ∅ None None 0 1 (Ptr 1000 0) ∅ ∅ ∅
    (TcpGlobals 0 0 4096 6510 None None None None None (TcpSeg None None None 0 None) None None
       0 0 0 0 0 None) ∅ None ∅ None ∅ zero_igmp ∅ zero_reass.

Lemma open_cwnd_growth_witness :
  let b := (new_pcb 1 1) <| pcb_state := ESTABLISHED |> <| pcb_cwnd := 2000 |>
             <| pcb_mss := 1000 |> <| pcb_ssthresh := 2000 |> in
  open_cwnd b blank = Done (b <| pcb_cwnd := 2500 |>, blank).
Proof.
  intros b. apply (open_cwnd_growth b blank); vm_compute; intuition congruence.
Defined.

(** ** Receive windows *)

(** What the receiver promises: the announced window never exceeds the window,
    which never exceeds the configured maximum. *)
Definition windows_ok (b : tcp_pcb) : Prop :=
  0 <= pcb_rcv_ann_wnd b <= pcb_rcv_wnd b /\ pcb_rcv_wnd b <= TCP_WND.

(** The announced right edge as a number that does not wrap, relative to a
    base. *)
Definition right_edge (b : tcp_pcb) (base : Z) : Z := u32 (pcb_rcv_nxt b - base) + pcb_rcv_ann_wnd b.

(** Accepting [n] bytes, and what the application reads. *)
Lemma windows_shrink b n : windows_ok b -> 0 <= n ->
  let b1 := shrink_windows n b in
  windows_ok b1 /\ pcb_rcv_wnd b1 = Z.max 0 (pcb_rcv_wnd b - n) /\ pcb_rcv_ann_wnd b1 = Z.max 0 (pcb_rcv_ann_wnd b - n).
Proof.
  intros [Ha Hw] Hn. unfold windows_ok, shrink_windows, TCP_WND in *. cbn.
  assert (forall w, 0 <= w <= 63 * 1024 -> (if w <? n then 0 else u16 (w - n)) = Z.max 0 (w - n)) as E.
  { intros w Hr. destruct (Z.ltb_spec w n); [lia|]. rewrite u16_small by (unfold is_u16; lia). lia. }
  rewrite !E by lia. lia.
Qed.
Lemma windows_read b len : windows_ok b -> is_u16 len ->
  let b2 := recved_windows len b in
  windows_ok b2 /\ pcb_rcv_wnd b2 = Z.min TCP_WND (pcb_rcv_wnd b + len) /\ pcb_rcv_ann_wnd b <= pcb_rcv_ann_wnd b2
  /\ pcb_rcv_nxt b2 = pcb_rcv_nxt b
  /\ (pcb_mss b <= pcb_rcv_wnd b2 <= TCP_WND -> pcb_rcv_wnd b + len <= TCP_WND -> pcb_rcv_ann_wnd b2 = pcb_rcv_wnd b2).
Proof.
  intros [Ha Hw] Hl. unfold windows_ok, recved_windows, TCP_WND, is_u16 in *. rewrite u32_small by (unfold is_u32; lia).
  destruct (Z.ltb_spec (63 * 1024) (pcb_rcv_wnd b + len)); cbn; [lia|].
  rewrite u16_small by (unfold is_u16; lia).
  destruct (Z.leb_spec (pcb_mss b) (pcb_rcv_wnd b + len)); cbn; lia.
Qed.
