(* ===== verification/TcpSpec.v ===== *)
(** * The control-block lists, abstractly

    The four lists of tcp.c as lists of locations, and the effect of TCP_REG,
    TCP_RMV and the list walks on them. *)
From S2P Require Import Prelude Inet Heap Pbuf Stack Chains Ip TcpBase TcpOut Tcp TcpIn.
#[local] Open Scope string_scope.
#[local] Open Scope list_scope.
#[local] Open Scope Z_scope.

#[export] Instance pcb_list_eq_dec : EqDecision pcb_list.
Proof. solve_decision. Defined.

(** ** What both kinds of control block have *)
Definition anext (s : stack) (l : loc) : option (option loc) :=
  match s_tpcbs s !! l, s_lpcbs s !! l with
  | Some b, _ => Some (pcb_next b)
  | None, Some b => Some (lpcb_next b)
  | None, None => None
  end.
Definition astate (s : stack) (l : loc) : option tcp_state :=
  match s_tpcbs s !! l, s_lpcbs s !! l with
  | Some b, _ => Some (pcb_state b)
  | None, Some b => Some (lpcb_state b)
  | None, None => None
  end.
(** local_port and local_ip *)
Definition alocal (s : stack) (l : loc) : Z * Z :=
  match s_tpcbs s !! l, s_lpcbs s !! l with
  | Some b, _ => (pcb_local_port b, pcb_local_ip b)
  | None, Some b => (lpcb_local_port b, lpcb_local_ip b)
  | None, None => (0, 0)
  end.
Definition set_next (l : loc) (v : option loc) (s : stack) : stack :=
  match s_tpcbs s !! l, s_lpcbs s !! l with
  | Some b, _ => s <| s_tpcbs := <[l := b <| pcb_next := v |>]> (s_tpcbs s) |>
  | None, Some b => s <| s_lpcbs := <[l := b <| lpcb_next := v |>]> (s_lpcbs s) |>
  | None, None => s
  end.
Definition set_head (which : pcb_list) (v : option loc) (s : stack) : stack :=
  s <| s_tcp := set_list_head which v (s_tcp s) |>.

Lemma any_next_run s l n : anext s l = Some n -> any_next l s = Done (n, s).
Proof.
  unfold anext, any_next. intros H. rewrite (bind_run _ _ _ s s) by done.
  by destruct (s_tpcbs s !! l), (s_lpcbs s !! l); simplify_eq.
Qed.
Lemma any_state_run s l st : astate s l = Some st -> any_state l s = Done (st, s).
Proof.
  unfold astate, any_state. intros H. rewrite (bind_run _ _ _ s s) by done.
  by destruct (s_tpcbs s !! l), (s_lpcbs s !! l); simplify_eq.
Qed.
Lemma any_local_run s l : is_Some (anext s l) -> any_local l s = Done (alocal s l, s).
Proof.
  unfold anext, alocal, any_local. intros H. rewrite (bind_run _ _ _ s s) by done.
  destruct (s_tpcbs s !! l), (s_lpcbs s !! l); try done; by destruct H.
Qed.
Lemma any_set_next_run s l v : is_Some (anext s l) -> any_set_next l v s = Done (tt, set_next l v s).
Proof.
  unfold anext, any_set_next, set_next. intros H. rewrite (bind_run _ _ _ s s) by done.
  destruct (s_tpcbs s !! l), (s_lpcbs s !! l); try done; by destruct H.
Qed.

Lemma anext_set_next s l v : is_Some (anext s l) -> anext (set_next l v s) l = Some v.
Proof.
  unfold anext, set_next.
  destruct (s_tpcbs s !! l) eqn:E1; cbn; [intros _; by rewrite lookup_insert_eq|].
  destruct (s_lpcbs s !! l) eqn:E2; cbn; [|by intros []].
  intros _. by rewrite E1, lookup_insert_eq.
Qed.
Lemma anext_set_next_ne s l l' v : l <> l' -> anext (set_next l v s) l' = anext s l'.
Proof.
  intros Hne. unfold anext, set_next.
  destruct (s_tpcbs s !! l) eqn:E1; cbn; [by rewrite lookup_insert_ne|].
  destruct (s_lpcbs s !! l) eqn:E2; cbn; [|done]. by rewrite lookup_insert_ne.
Qed.
Lemma set_next_tcp l v s : s_tcp (set_next l v s) = s_tcp s.
Proof. unfold set_next. by repeat case_match. Qed.
Lemma anext_set_head w v s : anext (set_head w v s) = anext s.
Proof. done. Qed.
Lemma set_next_alive l v s l' : is_Some (anext s l') -> is_Some (anext (set_next l v s) l').
Proof.
  destruct (decide (l = l')) as [->|Hne]; intros H.
  - by rewrite anext_set_next.
  - by rewrite anext_set_next_ne.
Qed.

(** The state without the links and the heads of the lists. *)
Definition no_heads (g : tcp_globals) : tcp_globals :=
  g <| tcp_bound_pcbs := None |> <| tcp_listen_pcbs := None |> <| tcp_active_pcbs := None |>
    <| tcp_tw_pcbs := None |>.
Definition erase (s : stack) : stack :=
  s <| s_tpcbs := (fun b => b <| pcb_next := None |>) <$> s_tpcbs s |>
    <| s_lpcbs := (fun b => b <| lpcb_next := None |>) <$> s_lpcbs s |>
    <| s_tcp := no_heads (s_tcp s) |>.
(** The states differ in the links and heads of the lists only. *)
Definition same_but_lists (s s' : stack) : Prop := erase s' = erase s.

Lemma same_but_lists_set_next l v s : same_but_lists s (set_next l v s).
Proof.
  unfold same_but_lists, set_next.
  destruct (s_tpcbs s !! l) eqn:E1; [|destruct (s_lpcbs s !! l) eqn:E2; [|done]].
  all: unfold erase; destruct s; unfold set_field; cbn in *; f_equal; rewrite fmap_insert; apply insert_id.
  all: rewrite lookup_fmap; by rewrite ?E1, ?E2.
Qed.
Lemma same_but_lists_set_head w v s : same_but_lists s (set_head w v s).
Proof. by destruct w. Qed.
Lemma same_but_lists_trans s1 s2 s3 :
  same_but_lists s1 s2 -> same_but_lists s2 s3 -> same_but_lists s1 s3.
Proof. unfold same_but_lists. congruence. Qed.

(** A control block after a change of the lists. *)
Lemma same_but_lists_lookup s s' l b :
  same_but_lists s s' -> s_tpcbs s !! l = Some b ->
  exists n, s_tpcbs s' !! l = Some (b <| pcb_next := n |>).
Proof.
  intros H%(f_equal s_tpcbs) Hb. cbn in H. apply (f_equal (fun m => m !! l)) in H.
  rewrite !lookup_fmap, Hb in H. cbn in H.
  destruct (s_tpcbs s' !! l) as [b'|]; [|done]. cbn in H. apply (inj Some) in H.
  exists (pcb_next b'). f_equal.
  transitivity (b' <| pcb_next := None |> <| pcb_next := pcb_next b' |>); [by destruct b'|].
  rewrite H. reflexivity.
Qed.

(** ** The lists *)

(** The four lists [f] of a state: each is linked from its global, and no
    control block is on two of them. *)
Record lists_ok (s : stack) (f : pcb_list -> list loc) : Prop := {
  lists_chain : forall w, chain (anext s) (list_head w (s_tcp s)) (f w) None;
  lists_disj : forall w w' l, l ∈ f w -> l ∈ f w' -> w = w'
}.

Definition upd_list (f : pcb_list -> list loc) (w : pcb_list) (ls : list loc) : pcb_list -> list loc :=
  fun w' => if decide (w' = w) then ls else f w'.
Lemma upd_list_eq f w ls : upd_list f w ls w = ls.
Proof. unfold upd_list. by rewrite decide_True. Qed.
Lemma upd_list_ne f w w' ls : w' <> w -> upd_list f w ls w' = f w'.
Proof. intros. unfold upd_list. by rewrite decide_False. Qed.

Lemma list_head_set w v g : list_head w (set_list_head w v g) = v.
Proof. by destruct w. Qed.
Lemma list_head_set_ne w w' v g : w <> w' -> list_head w' (set_list_head w v g) = list_head w' g.
Proof. by destruct w, w'. Qed.

Lemma lists_NoDup s f w : lists_ok s f -> NoDup (f w).
Proof. intros H. eapply chain_NoDup, (lists_chain _ _ H). Qed.

(** The objects a list of control blocks is made of. *)
Definition pcb_locs (s : stack) : list loc :=
  map fst (map_to_list (s_tpcbs s)) ++ map fst (map_to_list (s_lpcbs s)).
Lemma pcb_locs_alive s l : is_Some (anext s l) -> l ∈ pcb_locs s.
Proof.
  unfold anext, pcb_locs. intros H. apply elem_of_app.
  rewrite !list_elem_of_In, !in_map_iff.
  destruct (s_tpcbs s !! l) as [b|] eqn:E1.
  - left. exists (l, b). split; [done|]. by apply list_elem_of_In, elem_of_map_to_list.
  - destruct (s_lpcbs s !! l) as [b|] eqn:E2; [|by destruct H].
    right. exists (l, b). split; [done|]. by apply list_elem_of_In, elem_of_map_to_list.
Qed.
Lemma pcb_locs_length s : length (pcb_locs s) = (size (s_tpcbs s) + size (s_lpcbs s))%nat.
Proof. unfold pcb_locs. by rewrite length_app, !length_map, !length_map_to_list. Qed.

Lemma pcbs_fuel_ok s p ls : chain (anext s) p ls None -> (length ls < pcbs_fuel s)%nat.
Proof.
  intros H. unfold pcbs_fuel. pose proof (chain_length _ _ _ (pcb_locs s) H (pcb_locs_alive s)) as Hl.
  rewrite pcb_locs_length in Hl. lia.
Qed.

Lemma lists_ok_eq s f f' : lists_ok s f -> (forall w, f' w = f w) -> lists_ok s f'.
Proof.
  intros [Hc Hd] E. split; [intros w; rewrite E; apply Hc|]. intros w w' l. rewrite !E. apply Hd.
Qed.

(** ** TCP_REG *)
Lemma TCP_REG_run w l s :
  is_Some (anext s l) ->
  TCP_REG w l s = Done (tt, set_head w (Some l) (set_next l (list_head w (s_tcp s)) s)).
Proof.
  intros H. unfold TCP_REG. rewrite (bind_run _ _ _ (s_tcp s) s) by done.
  by rewrite (bind_run _ _ _ _ _ (any_set_next_run _ _ _ H)).
Qed.

Lemma chain_set_next s l v p ls e :
  l ∉ ls -> chain (anext s) p ls e -> chain (anext (set_next l v s)) p ls e.
Proof. intros Hl. apply chain_ext. intros x Hx. apply anext_set_next_ne. by intros ->. Qed.

Lemma lists_ok_REG w l s f :
  lists_ok s f -> is_Some (anext s l) -> (forall w', l ∉ f w') ->
  lists_ok (set_head w (Some l) (set_next l (list_head w (s_tcp s)) s)) (upd_list f w (l :: f w)).
Proof.
  intros [Hc Hd] Ha Hl. split.
  - intros w'. rewrite anext_set_head. cbn. rewrite set_next_tcp.
    destruct (decide (w' = w)) as [->|Hne].
    + rewrite list_head_set, upd_list_eq. split; [done|].
      eexists. split; [by apply anext_set_next|]. by apply chain_set_next.
    + rewrite list_head_set_ne, upd_list_ne by done. by apply chain_set_next.
  - intros w1 w2 x. unfold upd_list. repeat case_decide; subst; try done.
    + intros [->|H1]%elem_of_cons H2; [by destruct (Hl w2) | by eapply Hd].
    + intros H1 [->|H2]%elem_of_cons; [by destruct (Hl w1) | by eapply Hd].
    + apply Hd.
Qed.

(** ** TCP_RMV *)
Lemma rmv_walk_absent fuel l s p ls :
  chain (anext s) p ls None -> (length ls < fuel)%nat -> l ∉ ls -> p <> Some l ->
  rmv_walk fuel p l s = Done (tt, s).
Proof.
  revert p fuel. induction ls as [|x ls IH]; intros p fuel; cbn.
  { intros ->. by destruct fuel. }
  intros (-> & n & Hn & H) Hf Hl Hp. destruct fuel as [|fuel]; [lia|]. cbn.
  apply not_elem_of_cons in Hl as [Hlx Hl].
  rewrite (bind_run _ _ _ _ _ (any_next_run _ _ _ Hn)).
  assert (n <> Some l) as Hnl.
  { intros ->. destruct ls as [|y ls]; [done|]. destruct H as ([= ->] & _). apply Hl. by left. }
  rewrite bool_decide_false by done. apply IH; [done | lia | done | done].
Qed.

Lemma rmv_walk_found fuel l s p xs t n :
  chain (anext s) p (xs ++ [t]) (Some l) -> anext s l = Some n -> (length xs < fuel)%nat ->
  l ∉ xs ++ [t] -> rmv_walk fuel p l s = Done (tt, set_next t n s).
Proof.
  revert p fuel. induction xs as [|x xs IH]; intros p fuel; cbn.
  - intros (-> & m & Hm & ->) Hn Hf _. destruct fuel as [|fuel]; [lia|]. cbn.
    rewrite (bind_run _ _ _ _ _ (any_next_run _ _ _ Hm)), bool_decide_true by done.
    rewrite (bind_run _ _ _ _ _ (any_next_run _ _ _ Hn)). apply any_set_next_run. by exists (Some l).
  - intros (-> & m & Hm & H) Hn Hf Hl. destruct fuel as [|fuel]; [lia|]. cbn.
    rewrite (bind_run _ _ _ _ _ (any_next_run _ _ _ Hm)).
    apply not_elem_of_cons in Hl as [_ Hl].
    rewrite bool_decide_false; [by apply IH; [| |lia|]|].
    intros ->. destruct xs as [|y xs]; destruct H as ([= ->] & _); apply Hl; by left.
Qed.

(** Unlinking [l] behind its predecessor [t]. *)
Lemma chain_unlink s p xs t l n ys :
  chain (anext s) p (xs ++ t :: l :: ys) None -> NoDup (xs ++ t :: l :: ys) -> anext s l = Some n ->
  chain (anext (set_next t n s)) p (xs ++ t :: ys) None.
Proof.
  intros H Hnd Hn. apply chain_app in H as (q & H1 & -> & m & Hm & -> & n' & Hn' & H2).
  simplify_eq. apply NoDup_app in Hnd as (_ & Hx & Hnd).
  apply NoDup_cons in Hnd as [Ht _]. apply not_elem_of_cons in Ht as [_ Ht].
  apply chain_app. exists (Some t). split.
  - apply chain_set_next; [|done]. intros Hin. eapply Hx; [done|]. by left.
  - split; [done|]. exists n'. split; [apply anext_set_next; by exists (Some l)|].
    by apply chain_set_next.
Qed.

Lemma TCP_RMV_run w l s f :
  lists_ok s f -> is_Some (anext s l) -> (forall w', l ∈ f w' -> w' = w) ->
  exists s', TCP_RMV w l s = Done (tt, s') /\ same_but_lists s s' /\ anext s' l = Some None
    /\ lists_ok s' (upd_list f w (filter (fun x => x <> l) (f w))).
Proof.
  intros [Hc Hd] Ha Hl. unfold TCP_RMV. rewrite (bind_run _ _ _ s s) by done.
  assert (Hrest : forall s1, same_but_lists s s1 -> is_Some (anext s1 l) ->
    chain (anext s1) (list_head w (s_tcp s1)) (filter (fun x => x <> l) (f w)) None ->
    (forall w', w' <> w -> chain (anext s1) (list_head w' (s_tcp s1)) (f w') None) ->
    exists s', any_set_next l None s1 = Done (tt, s') /\ same_but_lists s s'
      /\ anext s' l = Some None /\ lists_ok s' (upd_list f w (filter (fun x => x <> l) (f w)))).
  { intros s1 Hs1 Ha1 Hw Hw'. exists (set_next l None s1).
    split; [by apply any_set_next_run|]. split.
    { eapply same_but_lists_trans; [done|]. apply same_but_lists_set_next. }
    split; [by apply anext_set_next|]. split.
    - intros w'. rewrite set_next_tcp. destruct (decide (w' = w)) as [->|Hne].
      + rewrite upd_list_eq. apply chain_set_next; [|done].
        intros [? _]%list_elem_of_filter. done.
      + rewrite upd_list_ne by done. apply chain_set_next; [|by apply Hw'].
        intros Hin. by apply Hne, Hl.
    - intros w1 w2 x H1 H2. apply (Hd _ _ x); unfold upd_list in *; repeat case_decide; subst.
      all: repeat match goal with H : _ ∈ filter _ _ |- _ => apply list_elem_of_filter in H as [_ H] end; done. }
  pose proof (chain_NoDup _ _ _ (Hc w)) as Hnd.
  destruct (decide (l ∈ f w)) as [Hin|Hnin].
  - apply list_elem_of_split in Hin as (xs & ys & Exy). rewrite Exy in *.
    pose proof (Hc w) as Hw. rewrite Exy in Hw.
    pose proof Hnd as (_ & Hx & Hnd2)%NoDup_app. apply NoDup_cons in Hnd2 as [Hy _].
    assert (Hlx : l ∉ xs) by (intros Hin; eapply Hx; [done | by left]).
    pose proof (chain_split _ _ xs _ _ Hw) as (H1 & n & Hn & H2).
    destruct xs as [|t xs _] using rev_ind.
    + cbn in H1. rewrite bool_decide_true by done.
      erewrite bind_run.
      2:{ rewrite (bind_run _ _ _ _ _ (any_next_run _ _ _ Hn)). reflexivity. }
      change (s <| s_tcp := _ |>) with (set_head w n s).
      apply Hrest; [apply same_but_lists_set_head | done | |].
      * rewrite filter_mid by done. cbn. by rewrite list_head_set.
      * intros w' Hne. cbn. rewrite list_head_set_ne by done. apply Hc.
    + rewrite bool_decide_false.
      2:{ intros E. rewrite E in H1. destruct xs as [|x xs]; destruct H1 as ([= ->] & _);
          apply Hlx, elem_of_app; [right | left]; by left. }
      erewrite bind_run.
      2:{ apply (rmv_walk_found _ _ _ _ xs t n); [done | done | | done].
          pose proof (pcbs_fuel_ok _ _ _ Hw) as Hf. rewrite !length_app in Hf. cbn in Hf. lia. }
      assert (Htl : t <> l) by (intros ->; apply Hlx, elem_of_app; right; by left).
      assert (is_Some (anext s t)) as Hta.
      { eapply chain_elem; [exact H1|]. apply elem_of_app. right. by left. }
      apply Hrest; [apply same_but_lists_set_next | by apply set_next_alive | |].
      * rewrite set_next_tcp, filter_mid by done.
        rewrite <- !app_assoc in *. cbn in *. by eapply chain_unlink.
      * intros w' Hne. rewrite set_next_tcp. apply chain_set_next; [|done].
        intros Hin. apply Hne. apply (Hd _ _ t); [done|].
        rewrite Exy. apply elem_of_app. left. apply elem_of_app. right. by left.
  - rewrite filter_all in * by done.
    assert (list_head w (s_tcp s) <> Some l) as Hh.
    { intros E. pose proof (Hc w) as Hw. rewrite E in Hw. destruct (f w) as [|x xs]; [done|].
      destruct Hw as ([= ->] & _). apply Hnin. by left. }
    rewrite bool_decide_false by done.
    erewrite bind_run; [|apply (rmv_walk_absent _ _ _ _ (f w)); [by apply Hc | by eapply pcbs_fuel_ok, Hc | done | done]].
    by apply Hrest.
Qed.

Lemma filter_nin l (ls : list loc) : l ∉ filter (fun x => x <> l) ls.
Proof. by intros [? _]%list_elem_of_filter. Qed.

Lemma lists_remove_nin f w w' l : (forall w', l ∈ f w' -> w' = w) ->
  l ∉ upd_list f w (filter (fun x => x <> l) (f w)) w'.
Proof.
  intros Hl. unfold upd_list. case_decide; [apply filter_nin|]. intros Hin. by apply Hl in Hin.
Qed.

Lemma same_but_lists_REG w l s s1 :
  same_but_lists s s1 -> same_but_lists s (set_head w (Some l) (set_next l (list_head w (s_tcp s1)) s1)).
Proof.
  intros H. eapply same_but_lists_trans; [exact H|]. eapply same_but_lists_trans.
  - apply same_but_lists_set_next.
  - apply same_but_lists_set_head.
Qed.

(** Moving a control block from one list to the front of another. *)
Definition moved (f : pcb_list -> list loc) (w w' : pcb_list) (l : loc) : pcb_list -> list loc :=
  let f1 := upd_list f w (filter (fun x => x <> l) (f w)) in upd_list f1 w' (l :: f1 w').

Lemma move_run w w' l s f :
  lists_ok s f -> is_Some (anext s l) -> (forall w', l ∈ f w' -> w' = w) ->
  exists s', (TCP_RMV w l;; TCP_REG w' l) s = Done (tt, s') /\ same_but_lists s s'
    /\ lists_ok s' (moved f w w' l).
Proof.
  intros Hok Ha Hl. destruct (TCP_RMV_run w l s f Hok Ha Hl) as (s1 & E & Hs & Hn & Hok1).
  assert (Ha1 : is_Some (anext s1 l)) by (by eexists).
  eexists. rewrite (bind_run _ _ _ _ _ E). split; [by apply TCP_REG_run|]. split.
  - by apply same_but_lists_REG.
  - apply lists_ok_REG; [done | done |]. intros w2. by apply lists_remove_nin.
Qed.

(** ** Access to one control block *)
Definition put_pcb (l : loc) (b : tcp_pcb) (s : stack) : stack :=
  s <| s_tpcbs := <[l := b]> (s_tpcbs s) |>.

Lemma pcb_get_run s l b : s_tpcbs s !! l = Some b -> pcb_get l s = Done (b, s).
Proof. unfold pcb_get. intros H. rewrite (bind_run _ _ _ s s) by done. by rewrite H. Qed.
Lemma pcb_put_run s l b : pcb_put l b s = Done (tt, put_pcb l b s).
Proof. done. Qed.
Lemma pcb_upd_run s l f b : s_tpcbs s !! l = Some b -> pcb_upd l f s = Done (tt, put_pcb l (f b) s).
Proof. unfold pcb_upd. intros H. by rewrite (bind_run _ _ _ _ _ (pcb_get_run _ _ _ H)). Qed.
Lemma put_pcb_eq l b s : s_tpcbs (put_pcb l b s) !! l = Some b.
Proof. cbn. by rewrite lookup_insert_eq. Qed.
Lemma put_pcb_ne l l' b s : l <> l' -> s_tpcbs (put_pcb l b s) !! l' = s_tpcbs s !! l'.
Proof. intros. cbn. by rewrite lookup_insert_ne. Qed.
Lemma put_pcb_twice l b b' s : put_pcb l b' (put_pcb l b s) = put_pcb l b' s.
Proof. unfold put_pcb. destruct s. unfold set_field. cbn. f_equal. by rewrite insert_insert_eq. Qed.
Lemma astate_pcb s l b : s_tpcbs s !! l = Some b -> astate s l = Some (pcb_state b).
Proof. unfold astate. by intros ->. Qed.
Lemma anext_pcb s l b : s_tpcbs s !! l = Some b -> anext s l = Some (pcb_next b).
Proof. unfold anext. by intros ->. Qed.

Lemma anext_put_pcb s l b b' l' :
  s_tpcbs s !! l = Some b -> pcb_next b' = pcb_next b -> anext (put_pcb l b' s) l' = anext s l'.
Proof.
  intros Hb Hn. unfold anext. destruct (decide (l = l')) as [<-|].
  - rewrite put_pcb_eq, Hb. by rewrite Hn.
  - by rewrite put_pcb_ne.
Qed.

Lemma lists_ok_ext s s' f :
  (forall l, anext s' l = anext s l) -> (forall w, list_head w (s_tcp s') = list_head w (s_tcp s)) ->
  lists_ok s f -> lists_ok s' f.
Proof.
  intros Hn Hh [Hc Hd]. split; [|done]. intros w. rewrite Hh. eapply chain_ext; [|apply Hc]. done.
Qed.
Lemma lists_ok_put_pcb s f l b b' :
  lists_ok s f -> s_tpcbs s !! l = Some b -> pcb_next b' = pcb_next b -> lists_ok (put_pcb l b' s) f.
Proof. intros H Hb Hn. apply (lists_ok_ext s); [|done|done]. intros. by eapply anext_put_pcb. Qed.

Lemma erase_put_pcb l b s : erase (put_pcb l b s) = put_pcb l (b <| pcb_next := None |>) (erase s).
Proof.
  unfold erase, put_pcb.
  change (s_tpcbs (s <| s_tpcbs := <[l := b]> (s_tpcbs s) |>)) with (<[l := b]> (s_tpcbs s)).
  rewrite fmap_insert. by destruct s.
Qed.
Lemma same_but_lists_put_pcb s s' l b b' :
  same_but_lists s s' -> b' <| pcb_next := None |> = b <| pcb_next := None |> ->
  same_but_lists (put_pcb l b s) (put_pcb l b' s').
Proof. unfold same_but_lists. intros H E. by rewrite !erase_put_pcb, H, E. Qed.

(** Run the first computation of a sequence. *)
Ltac run_with H := rewrite (bind_run _ _ _ _ _ H).
Ltac run_with_in R H := rewrite (bind_run _ _ _ _ _ R) in H.

Lemma ASSERT_true msg s : ASSERT msg true s = Done (tt, s).
Proof. unfold ASSERT, hp, zoom. cbn. by destruct s. Qed.

Ltac run_assert := erewrite bind_run by (apply ASSERT_true).

Lemma state_is_false x y : x <> y -> state_is x y = false.
Proof. intros. unfold state_is. by rewrite bool_decide_false. Qed.
Lemma state_is_true x : state_is x x = true.
Proof. unfold state_is. by rewrite bool_decide_true. Qed.

(** ** Deciding [lists_ok] on a concrete state *)
Fixpoint read_chain (n : nat) (nx : loc -> option (option loc)) (p : option loc) : option (list loc) :=
  match p, n with
  | None, _ => Some []
  | Some _, O => None
  | Some l, S n => q ← nx l; ls ← read_chain n nx q; Some (l :: ls)
  end.
Lemma read_chain_sound n nx p ls : read_chain n nx p = Some ls -> chain nx p ls None.
Proof.
  revert p ls. induction n as [|n IH]; intros [l|] ls; cbn; try naive_solver.
  intros (q & Hq & (ls' & Hls & [= <-])%bind_Some)%bind_Some. split; [done|].
  exists q. split; [done|]. by apply IH.
Qed.

Definition disjointb (xs ys : list loc) : bool := forallb (fun x => bool_decide (x ∉ ys)) xs.
Definition lists_okb (s : stack) (f : pcb_list -> list loc) : bool :=
  forallb (fun w => bool_decide (read_chain (pcbs_fuel s) (anext s) (list_head w (s_tcp s)) = Some (f w)))
    [BOUND; LISTENING; ACTIVE; TW]
  && forallb (fun w => forallb (fun w' => bool_decide (w = w') || disjointb (f w) (f w'))
                         [BOUND; LISTENING; ACTIVE; TW]) [BOUND; LISTENING; ACTIVE; TW].
Lemma lists_okb_sound s f : lists_okb s f = true -> lists_ok s f.
Proof.
  intros [H1 H2]%andb_prop. rewrite forallb_forall in H1, H2.
  assert (Hall : forall w, In w [BOUND; LISTENING; ACTIVE; TW]) by (intros []; cbn; tauto).
  split.
  - intros w. specialize (H1 w (Hall w)). apply bool_decide_eq_true in H1. by eapply read_chain_sound.
  - intros w w' l Hw Hw'. specialize (H2 w (Hall w)). rewrite forallb_forall in H2.
    specialize (H2 w' (Hall w')). apply orb_prop in H2 as [H2|H2]; [by apply bool_decide_eq_true in H2|].
    unfold disjointb in H2. rewrite forallb_forall in H2.
    apply list_elem_of_In in Hw. specialize (H2 _ Hw). by apply bool_decide_eq_true in H2.
Qed.

(** ** Concrete states for the witnesses *)
Definition no_mem : heap := Heap ∅ ∅ 100 0 (fun _ => None) [].
Definition ex_globals (B L A T : option loc) : tcp_globals :=
  TcpGlobals 100 0 4096 6510 B L A T None (TcpSeg None None None 0 None) None None 0 0 0 0 0 None.
Definition ex_stack (h : heap) (segs : gmap loc tcp_seg) (tp : gmap loc tcp_pcb)
    (lp : gmap loc tcp_pcb_listen) (g : tcp_globals) : stack :=
  Stack h ∅ None None 0 1 (Ptr 1000 0) segs tp lp g ∅ None ∅ None ∅ zero_igmp ∅ zero_reass.

(** A state with a bound pcb 1, a listener 2, connections 3 and 4, and 5 in
    TIME-WAIT, all on different ports. *)
Definition ex_pcb (lport lip rport rip : Z) (st : tcp_state) (n : option loc) : tcp_pcb :=
  (new_pcb 6510 90) <| pcb_local_port := lport |> <| pcb_local_ip := lip |>
    <| pcb_remote_port := rport |> <| pcb_remote_ip := rip |> <| pcb_state := st |> <| pcb_next := n |>.
Definition ex_tpcbs : gmap loc tcp_pcb :=
  list_to_map [(1%positive, ex_pcb 5000 0 0 0 CLOSED None);
               (3%positive, ex_pcb 4097 10 80 20 ESTABLISHED (Some 4%positive));
               (4%positive, ex_pcb 4098 10 80 20 ESTABLISHED None);
               (5%positive, ex_pcb 4099 10 80 20 TIME_WAIT None);
               (6%positive, ex_pcb 0 0 0 0 CLOSED None)].
Definition ex_lpcbs : gmap loc tcp_pcb_listen :=
  {[2%positive := TcpPcbListen 0 0 SOF_ACCEPTCONN 0 255 None LISTEN 64 0 80 (Some cb_default)]}.
Definition ex_lists (w : pcb_list) : list loc :=
  match w with
  | BOUND => [1%positive] | LISTENING => [2%positive]
  | ACTIVE => [3%positive; 4%positive] | TW => [5%positive]
  end.
Definition ex_tcp : stack :=
  ex_stack no_mem ∅ ex_tpcbs ex_lpcbs
    (ex_globals (Some 1%positive) (Some 2%positive) (Some 3%positive) (Some 5%positive)).
Lemma ex_tcp_lists : lists_ok ex_tcp ex_lists.
Proof. apply lists_okb_sound. vm_compute. reflexivity. Qed.

(** A driver that accepts every packet and an application that accepts
    everything. *)
Definition ex_env : Env := {|
  netif_output := fun _ _ _ => mret ERR_OK;
  netif_init_fn := fun _ _ => mret ERR_OK;
  igmp_mac_filter_fn := fun _ _ _ _ => mret ERR_OK;
  tcp_recv_app := fun _ _ _ _ _ => mret ERR_OK;
  tcp_sent_app := fun _ _ _ _ => mret ERR_OK;
  tcp_connected_app := fun _ _ _ _ => mret ERR_OK;
  tcp_accept_app := fun _ _ _ _ => mret ERR_OK;
  tcp_poll_app := fun _ _ _ => mret ERR_OK;
  tcp_err_app := fun _ _ _ => mret tt;
  udp_recv_app := fun _ _ _ _ _ _ => mret tt;
  raw_recv_app := fun _ _ _ _ _ => mret 0
|}.
