(* ===== verification/TcpLists.v ===== *)
(** * What the TCP control-block lists guarantee

    Moving control blocks between lists, ephemeral ports, the conflict test of
    tcp_bind, and the demultiplexing walks of tcp_input, each against the
    abstract lists. *)
From S2P Require Import Prelude Inet Heap Pbuf Stack Chains Ip TcpBase TcpOut Tcp TcpIn TcpSpec.
#[local] Open Scope string_scope.
#[local] Open Scope list_scope.
#[local] Open Scope Z_scope.

(** TCP_RMV followed by TCP_REG moves a control block from the list it is on
    (if it is on one) to the front of another, keeps every other list and every
    other field of the state, and always ends. *)
Theorem pcb_move_refines w w' l s f :
  lists_ok s f -> is_Some (anext s l) -> (forall w', l ∈ f w' -> w' = w) ->
  exists s', (TCP_RMV w l;; TCP_REG w' l) s = Done (tt, s') /\ same_but_lists s s'
    /\ lists_ok s' (moved f w w' l).
Proof. apply move_run. Qed.

Lemma pcb_move_refines_witness :
  exists s', (TCP_RMV ACTIVE 4;; TCP_REG TW 4) ex_tcp = Done (tt, s')
    /\ lists_ok s' (moved ex_lists ACTIVE TW 4) /\ moved ex_lists ACTIVE TW 4 TW = [4; 5]%positive.
Proof.
  destruct (pcb_move_refines ACTIVE TW 4 ex_tcp ex_lists ex_tcp_lists) as (s' & E & _ & H).
  - vm_compute. by eexists.
  - intros [] H; vm_compute in H; [..|done|]; exfalso;
      repeat (apply elem_of_cons in H as [H|H]; [done|]); by apply elem_of_nil in H.
  - exists s'. split; [exact E|]. split; [exact H | vm_compute; reflexivity].
Defined.

(** ** Ephemeral ports *)

(** The port of a control block. *)
Definition lport (s : stack) (l : loc) : Z := (alocal s l).1.

Lemma port_walk_run fuel port s p ls :
  chain (anext s) p ls None -> (length ls <= fuel)%nat ->
  port_walk fuel port p s = Done (existsb (fun l => lport s l =? port) ls, s).
Proof.
  revert p fuel. induction ls as [|l ls IH]; intros p fuel; cbn [existsb chain length].
  { intros ->. by destruct fuel. }
  intros (-> & n & Hn & H) Hf. destruct fuel as [|fuel]; [lia|]. cbn [port_walk].
  rewrite (bind_run _ _ _ _ _ (any_local_run s l ltac:(by eexists))). unfold lport.
  destruct (alocal s l) as [lp lip]. cbn. destruct (lp =? port); [done|].
  rewrite (bind_run _ _ _ _ _ (any_next_run _ _ _ Hn)). apply IH; [done | lia].
Qed.

Lemma port_on_list_run w port s f : lists_ok s f ->
  port_on_list w port s = Done (existsb (fun l => lport s l =? port) (f w), s).
Proof.
  intros H. unfold port_on_list. rewrite (bind_run _ _ _ s s) by done.
  pose proof (lists_chain _ _ H w) as Hc.
  apply port_walk_run; [done|]. pose proof (pcbs_fuel_ok _ _ _ Hc). lia.
Qed.

(** The port tried after [port]. *)
Definition next_port (port : Z) : Z :=
  if TCP_LOCAL_PORT_RANGE_END <? u16 (port + 1) then TCP_LOCAL_PORT_RANGE_START else u16 (port + 1).
Definition in_port_range (port : Z) : Prop :=
  TCP_LOCAL_PORT_RANGE_START <= port <= TCP_LOCAL_PORT_RANGE_END.

Lemma next_port_range port : in_port_range port -> in_port_range (next_port port).
Proof.
  unfold in_port_range, next_port, TCP_LOCAL_PORT_RANGE_START, TCP_LOCAL_PORT_RANGE_END.
  intros H. rewrite u16_small by (unfold is_u16; lia). case_match; lia.
Qed.

(** In closed form: the k-th port tried. *)
Definition kth_port (port : Z) (k : nat) : Z := 4096 + (port - 4096 + Z.of_nat k) mod 28672.

Lemma kth_port_S port k : in_port_range port -> kth_port (next_port port) k = kth_port port (S k).
Proof.
  unfold in_port_range, next_port, kth_port, TCP_LOCAL_PORT_RANGE_START, TCP_LOCAL_PORT_RANGE_END.
  intros H. rewrite u16_small by (unfold is_u16; lia). f_equal.
  destruct (Z.ltb_spec 32767 (port + 1)).
  - replace port with 32767 by lia.
    replace (32767 - 4096 + Z.of_nat (S k)) with (4096 - 4096 + Z.of_nat k + 1 * 28672) by lia.
    by rewrite Z.mod_add.
  - f_equal. lia.
Qed.
Lemma kth_port_1 port : in_port_range port -> kth_port port 1 = next_port port.
Proof.
  intros H. rewrite <- kth_port_S by done. apply next_port_range in H. revert H.
  unfold kth_port, in_port_range, TCP_LOCAL_PORT_RANGE_START, TCP_LOCAL_PORT_RANGE_END.
  intros H. rewrite Z.add_0_r, Z.mod_small by lia. lia.
Qed.
Lemma kth_port_inj port j k : Z.of_nat j < 28672 -> Z.of_nat k < 28672 ->
  kth_port port j = kth_port port k -> j = k.
Proof.
  unfold kth_port. intros Hj Hk H%Z.add_reg_l.
  assert (E : ((port - 4096 + Z.of_nat j) - (port - 4096 + Z.of_nat k)) mod 28672 = 0).
  { by rewrite Zminus_mod, H, Z.sub_diag. }
  apply Z.mod_divide in E as [q E]; [|done]. nia.
Qed.

(** Whether a port is taken by an active, waiting or listening control block. *)
Definition port_used (s : stack) (f : pcb_list -> list loc) (port : Z) : bool :=
  existsb (fun l => lport s l =? port) (f ACTIVE) || existsb (fun l => lport s l =? port) (f TW)
  || existsb (fun l => lport s l =? port) (f LISTENING).

Lemma new_port_again_step s f fuel port : lists_ok s f ->
  new_port_again (S fuel) port s =
    if port_used s f (next_port port) then new_port_again fuel (next_port port) s
    else Done (next_port port, s).
Proof.
  intros H. cbn [new_port_again].
  change (if TCP_LOCAL_PORT_RANGE_END <? u16 (port + 1) then TCP_LOCAL_PORT_RANGE_START
          else u16 (port + 1)) with (next_port port).
  unfold port_used. rewrite (bind_run _ _ _ _ _ (port_on_list_run ACTIVE _ _ _ H)).
  destruct (existsb _ (f ACTIVE)); [done|].
  rewrite (bind_run _ _ _ _ _ (port_on_list_run TW _ _ _ H)).
  destruct (existsb _ (f TW)); [done|].
  rewrite (bind_run _ _ _ _ _ (port_on_list_run LISTENING _ _ _ H)).
  by destruct (existsb _ (f LISTENING)).
Qed.

(** The search returns a free port or has seen that all it tried are used. *)
Lemma new_port_again_run s f : lists_ok s f -> forall fuel port, in_port_range port ->
  (exists k, (0 < k <= fuel)%nat /\ new_port_again fuel port s = Done (kth_port port k, s)
     /\ port_used s f (kth_port port k) = false)
  \/ (forall k, (0 < k <= fuel)%nat -> port_used s f (kth_port port k) = true).
Proof.
  intros H. induction fuel as [|fuel IH]; intros port Hp; [right; lia|].
  rewrite (new_port_again_step s f) by done.
  destruct (port_used s f (next_port port)) eqn:Hu.
  - destruct (IH (next_port port) (next_port_range _ Hp)) as [(k & Hk & E & Hfree)|Hall].
    + left. exists (S k). rewrite <- kth_port_S by done. split; [lia|]. done.
    + right. intros [|[|k]] Hk; [lia | by rewrite kth_port_1|].
      rewrite <- kth_port_S by done. apply Hall. lia.
  - left. exists 1%nat. rewrite kth_port_1 by done. split; [lia|]. done.
Qed.

Lemma port_used_locs s f port : lists_ok s f -> port_used s f port = true ->
  port ∈ map (lport s) (pcb_locs s).
Proof.
  intros H Hu. apply list_elem_of_In, in_map_iff.
  assert (exists w l, l ∈ f w /\ lport s l = port) as (w & l & Hl & <-).
  { unfold port_used in Hu. apply orb_prop in Hu as [[Hu|Hu]%orb_prop|Hu].
    all: apply existsb_exists in Hu as (l & Hl%list_elem_of_In & E%Z.eqb_eq); eauto. }
  exists l. split; [done|]. apply list_elem_of_In, pcb_locs_alive.
  eapply chain_elem; [apply (lists_chain _ _ H w) | done].
Qed.

(** C10: With fewer control blocks than there are ephemeral ports, tcp_new_port
    terminates within one try more than there are control blocks.  The port it
    returns is in the ephemeral range, is used by no active, TIME-WAIT or
    listening control block, and is remembered for the next call.  A control
    block that is only bound may have it: tcp_new_port does not look at
    tcp_bound_pcbs. *)
Theorem tcp_new_port_free s f :
  lists_ok s f -> in_port_range (tcp_port (s_tcp s)) ->
  Z.of_nat (size (s_tpcbs s) + size (s_lpcbs s)) < 28671 ->
  exists port, tcp_new_port s = Done (port, s <| s_tcp := (s_tcp s) <| tcp_port := port |> |>)
    /\ in_port_range port
    /\ forall l, l ∈ f ACTIVE \/ l ∈ f TW \/ l ∈ f LISTENING -> (alocal s l).1 <> port.
Proof.
  intros H Hp Hsz. unfold tcp_new_port. rewrite (bind_run _ _ _ s s) by done.
  destruct (new_port_again_run s f H (pcbs_fuel s) _ Hp) as [(k & Hk & E & Hfree)|Hall].
  - exists (kth_port (tcp_port (s_tcp s)) k). rewrite (bind_run _ _ _ _ _ E).
    split; [done|]. split.
    + unfold in_port_range, kth_port, TCP_LOCAL_PORT_RANGE_START, TCP_LOCAL_PORT_RANGE_END.
      pose proof (Z.mod_pos_bound (tcp_port (s_tcp s) - 4096 + Z.of_nat k) 28672 ltac:(done)). lia.
    + intros l Hl E2. enough (port_used s f (kth_port (tcp_port (s_tcp s)) k) = true) by congruence.
      unfold port_used. rewrite !orb_true_iff, !existsb_exists.
      setoid_rewrite <- list_elem_of_In. setoid_rewrite Z.eqb_eq. unfold lport. naive_solver.
  - exfalso. set (tried := map (kth_port (tcp_port (s_tcp s))) (seq 1 (pcbs_fuel s))).
    assert (Hlen : (length tried <= length (map (lport s) (pcb_locs s)))%nat).
    { apply NoDup_incl_length.
      - apply NoDup_ListNoDup. apply NoDup_fmap_2_strong; [|apply NoDup_seq].
        intros i j [_ Hi]%elem_of_seq [_ Hj]%elem_of_seq. unfold pcbs_fuel in *.
        apply kth_port_inj; lia.
      - intros x (k & <- & Hk%in_seq)%in_map_iff. apply list_elem_of_In, (port_used_locs s f); [done|].
        apply Hall. lia. }
    subst tried. rewrite !length_map, length_seq, pcb_locs_length in Hlen. unfold pcbs_fuel in Hlen. lia.
Qed.

Lemma tcp_new_port_free_witness :
  exists port, tcp_new_port ex_tcp = Done (port, ex_tcp <| s_tcp := (s_tcp ex_tcp) <| tcp_port := port |> |>)
    /\ in_port_range port /\ port <> 4097.
Proof.
  destruct (tcp_new_port_free ex_tcp ex_lists ex_tcp_lists) as (port & E & R & F).
  - vm_compute. split; discriminate.
  - vm_compute. reflexivity.
  - exists port. split; [exact E|]. split; [exact R|]. intros ->. apply (F 3%positive); [|reflexivity].
    left. vm_compute. left.
Defined.

(** ** tcp_bind *)

(** [tcp_bind]'s test of one control block: same port, and an address in
    common, where an unspecified address has all of them. *)
Definition clashes (s : stack) (a port : Z) (l : loc) : bool :=
  ((alocal s l).1 =? port) && local_conflict (Some a) (alocal s l).2.
(** In TIME-WAIT only the very same address counts. *)
Definition clashes_tw (s : stack) (a port : Z) (l : loc) : bool :=
  ((alocal s l).1 =? port) && ((alocal s l).2 =? a).

Lemma bind_walk_run fuel a port s p ls :
  chain (anext s) p ls None -> (length ls <= fuel)%nat ->
  bind_walk fuel (Some a) port p s = Done (existsb (clashes s a port) ls, s).
Proof.
  revert p fuel. induction ls as [|l ls IH]; intros p fuel; cbn [existsb chain length].
  { intros ->. by destruct fuel. }
  intros (-> & n & Hn & H) Hf. destruct fuel as [|fuel]; [lia|]. cbn [bind_walk].
  run_with (any_local_run s l ltac:(by eexists)). unfold clashes at 1.
  destruct (alocal s l) as [lp lip]. cbn [fst snd].
  destruct ((lp =? port) && local_conflict (Some a) lip); [done|].
  run_with (any_next_run _ _ _ Hn). apply IH; [done | lia].
Qed.

Lemma bind_walk_tw_run fuel a port s p ls :
  chain (anext s) p ls None -> (length ls <= fuel)%nat ->
  bind_walk_tw fuel (Some a) port p s = Done (existsb (clashes_tw s a port) ls, s).
Proof.
  revert p fuel. induction ls as [|l ls IH]; intros p fuel; cbn [existsb chain length].
  { intros ->. by destruct fuel. }
  intros (-> & n & Hn & H) Hf. destruct fuel as [|fuel]; [lia|]. cbn [bind_walk_tw].
  run_with (any_local_run s l ltac:(by eexists)). unfold clashes_tw at 1.
  destruct (alocal s l) as [lp lip]. cbn [fst snd].
  destruct (lp =? port); cbn [andb].
  - rewrite (bind_run _ _ _ a s) by done. destruct (lip =? a); [done|].
    run_with (any_next_run _ _ _ Hn). apply IH; [done | lia].
  - run_with (any_next_run _ _ _ Hn). apply IH; [done | lia].
Qed.

Definition bind_clash (s : stack) (f : pcb_list -> list loc) (a port : Z) : bool :=
  existsb (clashes s a port) (f LISTENING) || existsb (clashes s a port) (f ACTIVE)
  || existsb (clashes s a port) (f BOUND) || existsb (clashes_tw s a port) (f TW).

(** The pcb after a successful bind. *)
Definition bound_pcb (b : tcp_pcb) (a port : Z) (next : option loc) : tcp_pcb :=
  b <| pcb_local_ip := if a =? 0 then pcb_local_ip b else a |> <| pcb_local_port := port |>
    <| pcb_next := next |>.

(** C9: Binding a closed pcb to an address and a port fails with ERR_USE and
    changes nothing exactly when a control block of one of the four lists holds
    the port with an address in common (in TIME-WAIT: the same address);
    otherwise the pcb gets the address and the port and becomes the first bound
    pcb, and no other control block changes.  So the same port on another
    address is no conflict, although rawapi.txt says that it is. *)
Theorem tcp_bind_conflicts s f pcb b a port :
  lists_ok s f -> s_tpcbs s !! pcb = Some b -> pcb_state b = CLOSED ->
  (forall w, pcb ∉ f w) -> port <> 0 ->
  (bind_clash s f a port = true -> tcp_bind pcb (Some a) port s = Done (ERR_USE, s))
  /\ (bind_clash s f a port = false ->
      exists s', tcp_bind pcb (Some a) port s = Done (ERR_OK, s')
        /\ lists_ok s' (upd_list f BOUND (pcb :: f BOUND))
        /\ s_tpcbs s' !! pcb = Some (bound_pcb b a port (tcp_bound_pcbs (s_tcp s)))
        /\ (forall l, l <> pcb -> s_tpcbs s' !! l = s_tpcbs s !! l) /\ s_lpcbs s' = s_lpcbs s).
Proof.
  intros H Hb Hst Hl Hp.
  assert (Hstart : tcp_bind pcb (Some a) port s =
    if bind_clash s f a port then Done (ERR_USE, s)
    else (pcb_upd pcb (fun b => if a =? 0 then b else b <| pcb_local_ip := a |>);;
          pcb_upd pcb (fun b => b <| pcb_local_port := port |>);;
          TCP_REG BOUND pcb;; mret ERR_OK) s).
  { unfold tcp_bind. run_with (any_state_run _ _ _ (astate_pcb _ _ _ Hb)). rewrite Hst.
  change (negb (state_is CLOSED CLOSED)) with false. cbv iota.
    rewrite (bind_run _ _ _ port s) by (by rewrite (proj2 (Z.eqb_neq _ _) Hp)).
    rewrite (bind_run _ _ _ s s) by done. unfold bind_clash.
    pose proof (fun w => lists_chain _ _ H w) as Hc.
    assert (Hf : forall w, (length (f w) <= pcbs_fuel s)%nat)
      by (intros w; pose proof (pcbs_fuel_ok _ _ _ (Hc w)); lia).
    run_with (bind_walk_run _ a port s _ _ (Hc LISTENING) (Hf _)).
    destruct (existsb _ (f LISTENING)); [done|].
    run_with (bind_walk_run _ a port s _ _ (Hc ACTIVE) (Hf _)).
    destruct (existsb _ (f ACTIVE)); [done|].
    run_with (bind_walk_run _ a port s _ _ (Hc BOUND) (Hf _)).
    destruct (existsb _ (f BOUND)); [done|].
    run_with (bind_walk_tw_run _ a port s _ _ (Hc TW) (Hf _)).
    by destruct (existsb _ (f TW)). }
  split; intros E; rewrite Hstart, E; [done|].
  run_with (pcb_upd_run _ _ (fun b => if a =? 0 then b else b <| pcb_local_ip := a |>) _ Hb).
  erewrite bind_run by (apply pcb_upd_run, put_pcb_eq).
  rewrite put_pcb_twice. set (b1 := _ <| pcb_local_port := port |>).
  assert (Hn1 : pcb_next b1 = pcb_next b) by (subst b1; by destruct (a =? 0)).
  pose proof (lists_ok_put_pcb _ _ _ _ b1 H Hb Hn1) as H1.
  assert (Ha1 : is_Some (anext (put_pcb pcb b1 s) pcb)) by (rewrite (anext_pcb _ _ _ (put_pcb_eq _ _ _)); by eexists).
  run_with (TCP_REG_run BOUND _ _ Ha1). eexists. split; [reflexivity|].
  split; [by apply lists_ok_REG|]. unfold set_next. rewrite put_pcb_eq. cbn.
  split; [|split; [|done]].
  - rewrite lookup_insert_eq. f_equal. subst b1. unfold bound_pcb. by destruct (a =? 0), b.
  - intros l Hne. by rewrite !lookup_insert_ne.
Qed.

Lemma tcp_bind_conflicts_witness :
  tcp_bind 6 (Some 10) 80 ex_tcp = Done (ERR_USE, ex_tcp)
  /\ exists s', tcp_bind 6 (Some 10) 81 ex_tcp = Done (ERR_OK, s')
       /\ s_tpcbs s' !! 6%positive = Some (ex_pcb 81 10 0 0 CLOSED (Some 1%positive)).
Proof.
  assert (Hn : forall w, 6%positive ∉ ex_lists w).
  { intros w H. apply list_elem_of_In in H. destruct w; vm_compute in H; intuition discriminate. }
  split.
  - apply (tcp_bind_conflicts ex_tcp ex_lists 6 (ex_pcb 0 0 0 0 CLOSED None)); [exact ex_tcp_lists | vm_compute; reflexivity.. | exact Hn | discriminate | vm_compute; reflexivity].
  - destruct (tcp_bind_conflicts ex_tcp ex_lists 6 (ex_pcb 0 0 0 0 CLOSED None) 10 81) as [_ H];
      [exact ex_tcp_lists | vm_compute; reflexivity.. | exact Hn | discriminate |].
    destruct H as (s' & E & _ & L & _); [vm_compute; reflexivity|].
    exists s'. split; [exact E|]. rewrite L. vm_compute. reflexivity.
Defined.

(** A NULL address is not diagnosed: with no other conflict, a control block
    in TIME-WAIT on the port makes tcp_bind read through the null pointer,
    although ip_addr_isany treats NULL as the unspecified address. *)
Theorem tcp_bind_null_address s f pcb b port :
  lists_ok s f -> s_tpcbs s !! pcb = Some b -> pcb_state b = CLOSED -> port <> 0 ->
  (forall l, l ∈ f LISTENING \/ l ∈ f ACTIVE \/ l ∈ f BOUND -> (alocal s l).1 <> port) ->
  (exists l, l ∈ f TW /\ (alocal s l).1 = port) ->
  tcp_bind pcb None port s = Halt UB.
Proof.
  intros H Hb Hst Hp Hno Htw.
  unfold tcp_bind. run_with (any_state_run _ _ _ (astate_pcb _ _ _ Hb)). rewrite Hst.
  change (negb (state_is CLOSED CLOSED)) with false. cbv iota.
  rewrite (bind_run _ _ _ port s) by (by rewrite (proj2 (Z.eqb_neq _ _) Hp)).
  rewrite (bind_run _ _ _ s s) by done.
  assert (Hwalk : forall w, (forall l, l ∈ f w -> (alocal s l).1 <> port) ->
    bind_walk (pcbs_fuel s) None port (list_head w (s_tcp s)) s = Done (false, s)).
  { intros w Hw. pose proof (lists_chain _ _ H w) as Hc. pose proof (pcbs_fuel_ok _ _ _ Hc) as Hf.
    revert Hc Hw Hf. generalize (f w) (list_head w (s_tcp s)) (pcbs_fuel s).
    induction l as [|l ls IH]; intros q fuel; cbn [chain length]; [intros -> _ _; by destruct fuel|].
    intros (-> & n & Hn & Hc) Hw Hf. destruct fuel as [|fuel]; [lia|]. cbn [bind_walk].
    run_with (any_local_run s l ltac:(by eexists)).
    assert (Hx : (alocal s l).1 <> port) by (apply Hw; by left).
    destruct (alocal s l) as [lp lip]. cbn in Hx. rewrite (proj2 (Z.eqb_neq _ _) Hx). cbn [andb].
    run_with (any_next_run _ _ _ Hn). apply IH; [done | | lia]. intros. apply Hw. by right. }
  run_with (Hwalk LISTENING ltac:(eauto)). run_with (Hwalk ACTIVE ltac:(eauto)).
  run_with (Hwalk BOUND ltac:(eauto)). apply bind_halt.
  pose proof (lists_chain _ _ H TW) as Hc. pose proof (pcbs_fuel_ok _ _ _ Hc) as Hf.
  change (tcp_tw_pcbs (s_tcp s)) with (list_head TW (s_tcp s)).
  revert Hc Htw Hf. generalize (f TW) (list_head TW (s_tcp s)) (pcbs_fuel s).
  induction l as [|l ls IH]; intros q fuel; cbn [chain length].
  { intros _ (l & Hl & _). by apply elem_of_nil in Hl. }
  intros (-> & n & Hn & Hc) (l' & Hl' & Hport) Hf. destruct fuel as [|fuel]; [lia|]. cbn [bind_walk_tw].
  run_with (any_local_run s l ltac:(by eexists)).
  apply elem_of_cons in Hl' as [->|Hl'].
  - destruct (alocal s l) as [lp lip]. cbn in Hport. by rewrite (proj2 (Z.eqb_eq _ _) Hport).
  - destruct (alocal s l) as [lp lip]. destruct (lp =? port); [done|].
    run_with (any_next_run _ _ _ Hn). apply IH; [done | by exists l' | lia].
Qed.

Lemma tcp_bind_null_address_witness : tcp_bind 6 None 4099 ex_tcp = Halt UB.
Proof.
  apply (tcp_bind_null_address ex_tcp ex_lists 6 (ex_pcb 0 0 0 0 CLOSED None));
    [exact ex_tcp_lists | vm_compute; reflexivity.. | discriminate | |].
  - intros l Hl E. rewrite !list_elem_of_In in Hl. vm_compute in Hl.
    destruct Hl as [[<-|[]]|[[<-|[<-|[]]]|[<-|[]]]]; vm_compute in E; discriminate.
  - exists 5%positive. split; [vm_compute; left | vm_compute; reflexivity].
Defined.

(** ** Demultiplexing *)

(** What every walk of tcp_input asserts of an active control block. *)
Definition active_ok (s : stack) (l : loc) : Prop :=
  exists b, s_tpcbs s !! l = Some b /\ pcb_state b <> CLOSED /\ pcb_state b <> TIME_WAIT
    /\ pcb_state b <> LISTEN.
Definition addressed (s : stack) (src dest sport dport : Z) (l : loc) : Prop :=
  exists b, s_tpcbs s !! l = Some b /\ matches b src dest sport dport = true.

Section walk.
Context (src dest sport dport : Z).
Abbreviation walk := (fun fuel prev l => active_walk fuel prev l src dest sport dport).

(** One turn of the walk. *)
Lemma active_walk_step s fuel prev l b :
  s_tpcbs s !! l = Some b -> active_ok s l ->
  walk (S fuel) prev (Some l) s =
    if matches b src dest sport dport then
      (ASSERT "tcp_input: pcb->next != pcb (before cache)" (negb (bool_decide (pcb_next b = Some l)));;
       match prev with
       | Some q =>
           pcb_upd q (fun qb => qb <| pcb_next := pcb_next b |>);;
           g ← gets s_tcp;
           pcb_upd l (fun b => b <| pcb_next := tcp_active_pcbs g |>);;
           utcp (fun g => g <| tcp_active_pcbs := Some l |>)
       | None => mret tt
       end;;
       b ← pcb_get l;
       ASSERT "tcp_input: pcb->next != pcb (after cache)" (negb (bool_decide (pcb_next b = Some l)));;
       mret (Some l)) s
    else walk fuel (Some l) (pcb_next b) s.
Proof.
  intros Hb (b' & Hb' & H1 & H2 & H3). simplify_eq. cbn [active_walk].
  run_with (pcb_get_run _ _ _ Hb). rewrite !state_is_false by done. cbn [negb].
  do 3 run_assert. by destruct (matches _ _ _ _ _).
Qed.

(** The walk passes the control blocks that do not match. *)
Lemma active_walk_skip s xs p q prev fuel :
  chain (anext s) p xs q -> (forall l, l ∈ xs -> active_ok s l /\ ~ addressed s src dest sport dport l) ->
  walk (length xs + fuel)%nat prev p s
  = walk fuel (match last xs with Some t => Some t | None => prev end) q s.
Proof.
  revert p prev. induction xs as [|x xs IH]; intros p prev; [intros Hc _; rewrite Hc; reflexivity|].
  intros (-> & n & Hn & H) Hx. destruct (Hx x ltac:(by left)) as [Hok Hm].
  pose proof Hok as (b & Hb & _). rewrite (anext_pcb _ _ _ Hb) in Hn. injection Hn as <-.
  change (length (x :: xs) + fuel)%nat with (S (length xs + fuel)).
  rewrite (active_walk_step _ _ _ _ b) by done.
  destruct (matches b src dest sport dport) eqn:E; [by destruct Hm; exists b|].
  rewrite (IH _ (Some x)) by (done || (intros; apply Hx; by right)).
  rewrite last_cons. by destruct (last xs).
Qed.

(** The segment's control block when it is not the first: it is put in front. *)
Lemma active_walk_front s f xs t l ys b fuel :
  lists_ok s f -> f ACTIVE = xs ++ t :: l :: ys -> s_tpcbs s !! l = Some b -> is_Some (s_tpcbs s !! t) ->
  active_ok s l -> matches b src dest sport dport = true ->
  exists s', walk (S fuel) (Some t) (Some l) s = Done (Some l, s') /\ same_but_lists s s'
    /\ lists_ok s' (upd_list f ACTIVE (l :: xs ++ t :: ys)).
Proof.
  intros H Hf Hb [tb Ht] Hok Hm. rewrite (active_walk_step _ _ _ _ b), Hm by done.
  pose proof (lists_NoDup _ _ ACTIVE H) as Hnd. rewrite Hf in Hnd.
  pose proof (lists_chain _ _ H ACTIVE) as Hc. rewrite Hf in Hc.
  pose proof Hnd as (_ & Hx & [Htn [Hln _]%NoDup_cons]%NoDup_cons)%NoDup_app.
  apply not_elem_of_cons in Htn as [Htl Hty].
  assert (Hlx : l ∉ xs) by (intros Hi; eapply Hx; [done|]; right; by left).
  assert (Hnl : pcb_next b <> Some l).
  { intros E. change (t :: l :: ys) with ([t] ++ l :: ys) in Hc. rewrite (app_assoc xs [t]) in Hc.
    apply chain_split in Hc as (_ & n & Hn & Hc).
    rewrite (anext_pcb _ _ _ Hb), E in Hn. injection Hn as <-.
    destruct ys as [|y ys]; [done|]. destruct Hc as ([= ->] & _). apply Hln. by left. }
  rewrite bool_decide_false by done. run_assert.
  set (s1 := set_next t (pcb_next b) s).
  assert (E1 : pcb_upd t (fun qb => qb <| pcb_next := pcb_next b |>) s = Done (tt, s1)).
  { rewrite (pcb_upd_run _ _ _ _ Ht). subst s1. unfold set_next. by rewrite Ht. }
  assert (Hb1 : s_tpcbs s1 !! l = Some b).
  { subst s1. unfold set_next. rewrite Ht. cbn. by rewrite lookup_insert_ne. }
  assert (H1 : lists_ok s1 (upd_list f ACTIVE (xs ++ t :: ys))).
  { split.
    - intros w. subst s1. rewrite set_next_tcp. destruct (decide (w = ACTIVE)) as [->|Hne].
      + rewrite upd_list_eq. apply chain_unlink with l; [done | done | by apply anext_pcb].
      + rewrite upd_list_ne by done. apply chain_set_next; [|apply (lists_chain _ _ H)].
        intros Hi. apply Hne, (lists_disj _ _ H _ _ t); [done|]. rewrite Hf. apply elem_of_app.
        right. by left.
    - intros w w' x Hw Hw'. apply (lists_disj _ _ H _ _ x); revert Hw Hw'; unfold upd_list;
        repeat case_decide; subst; rewrite ?Hf, ?elem_of_app, ?elem_of_cons; tauto. }
  set (h := tcp_active_pcbs (s_tcp s)).
  set (s2 := set_head ACTIVE (Some l) (set_next l h s1)).
  assert (Hh : tcp_active_pcbs (s_tcp s1) = h) by (subst s1; by rewrite set_next_tcp).
  rewrite (bind_run _ _ s tt s2).
  2:{ run_with E1. rewrite (bind_run _ _ _ (s_tcp s1) s1) by done.
      run_with (pcb_upd_run s1 l (fun b => b <| pcb_next := tcp_active_pcbs (s_tcp s1) |>) _ Hb1).
      rewrite Hh. subst s2. unfold set_next. by rewrite Hb1. }
  assert (Hb2 : s_tpcbs s2 !! l = Some (b <| pcb_next := h |>)).
  { subst s2. unfold set_next. rewrite Hb1. apply put_pcb_eq. }
  run_with (pcb_get_run _ _ _ Hb2).
  assert (Hhl : h <> Some l).
  { intros E. change (list_head ACTIVE (s_tcp s)) with h in Hc. rewrite E in Hc.
    destruct xs as [|x xs]; destruct Hc as ([= ->] & _); [done|].
    apply Hlx. by left. }
  change (pcb_next (b <| pcb_next := h |>)) with h.
  rewrite bool_decide_false by done. run_assert.
  exists s2. split; [done|]. split.
  - subst s2 h. rewrite <- Hh. apply same_but_lists_REG, same_but_lists_set_next.
  - pose proof (lists_ok_REG ACTIVE l s1 _ H1 ltac:(rewrite (anext_pcb _ _ _ Hb1); by eexists)) as H2.
    rewrite upd_list_eq in H2. cbn [list_head] in H2. rewrite Hh in H2.
    eapply lists_ok_eq; [apply H2|].
    + intros w Hi. unfold upd_list in Hi. case_decide.
      * subst. apply elem_of_app in Hi as [Hi|[->|Hi]%elem_of_cons]; done.
      * apply H0. apply (lists_disj _ _ H _ _ l); [done|]. rewrite Hf. apply elem_of_app. right. right. by left.
    + intros w. unfold upd_list. by repeat case_decide.
Qed.
End walk.

(** C8: The search of tcp_input among the active connections: it always ends; it
    finds the first control block with the segment's four addresses, or none
    when there is none, and moves the one it finds to the front of the list,
    whose other elements keep their order, changing nothing else. *)
Theorem active_walk_finds s f src dest sport dport :
  lists_ok s f -> (forall l, l ∈ f ACTIVE -> active_ok s l) ->
  let walk := active_walk (pcbs_fuel s) None (tcp_active_pcbs (s_tcp s)) src dest sport dport in
  ((forall l, l ∈ f ACTIVE -> ~ addressed s src dest sport dport l) -> walk s = Done (None, s))
  /\ (forall xs l ys, f ACTIVE = xs ++ l :: ys -> addressed s src dest sport dport l ->
      (forall x, x ∈ xs -> ~ addressed s src dest sport dport x) ->
      exists s', walk s = Done (Some l, s') /\ same_but_lists s s'
        /\ lists_ok s' (upd_list f ACTIVE (l :: xs ++ ys))).
Proof.
  intros H Hok. cbn zeta. pose proof (lists_chain _ _ H ACTIVE) as Hc.
  pose proof (pcbs_fuel_ok _ _ _ Hc) as Hfuel. cbn [list_head] in Hc. split.
  - intros Hno.
    replace (pcbs_fuel s) with (length (f ACTIVE) + (pcbs_fuel s - length (f ACTIVE)))%nat by lia.
    rewrite (active_walk_skip _ _ _ _ s (f ACTIVE) _ None); [|done|by eauto].
    by destruct (pcbs_fuel s - length (f ACTIVE))%nat.
  - intros xs l ys Hf (b & Hb & Hm) Hno. rewrite Hf in Hc, Hfuel.
    assert (Hlok : active_ok s l) by (apply Hok; rewrite Hf; apply elem_of_app; right; by left).
    pose proof (chain_split _ _ _ _ _ Hc) as (H1 & n & Hn & H2).
    rewrite (anext_pcb _ _ _ Hb) in Hn. injection Hn as <-.
    rewrite length_app in Hfuel. cbn [length] in Hfuel.
    replace (pcbs_fuel s) with (length xs + S (pcbs_fuel s - length xs - 1))%nat by lia.
    rewrite (active_walk_skip _ _ _ _ s xs _ (Some l)); [|done|].
    2:{ intros x Hx. split; [|by apply Hno]. apply Hok. rewrite Hf. apply elem_of_app. by left. }
    destruct xs as [|t xs _] using rev_ind; cbn [last].
    + rewrite (active_walk_step _ _ _ _ _ _ _ _ b), Hm by done.
      assert (Hnl : pcb_next b <> Some l).
      { intros E. rewrite E in H2. destruct ys as [|y ys]; [done|]. destruct H2 as ([= ->] & _).
        pose proof (lists_NoDup _ _ ACTIVE H) as Hnd. rewrite Hf in Hnd.
        apply NoDup_cons in Hnd as [Hnd _]. apply Hnd. by left. }
      rewrite bool_decide_false by done. run_assert. rewrite (bind_run _ _ s tt s) by done.
      run_with (pcb_get_run _ _ _ Hb). rewrite bool_decide_false by done. run_assert.
      exists s. split; [done|]. split; [done|]. eapply lists_ok_eq; [exact H|].
      intros w. unfold upd_list. case_decide; [by subst|done].
    + rewrite last_snoc, <- app_assoc in *. cbn [app] in *.
      destruct (active_walk_front src dest sport dport s f xs t l ys b
                  (pcbs_fuel s - length (xs ++ [t]) - 1)) as (s' & E & Hs & H'); try done.
      { destruct (Hok t) as (tb & Ht & _); [|by eexists]. rewrite Hf. apply elem_of_app. right. by left. }
      exists s'. split; [exact E|]. split; [done|]. exact H'.
Qed.

Lemma active_walk_finds_witness :
  exists s', active_walk (pcbs_fuel ex_tcp) None (tcp_active_pcbs (s_tcp ex_tcp)) 20 10 80 4098 ex_tcp
             = Done (Some 4%positive, s')
    /\ lists_ok s' (upd_list ex_lists ACTIVE [4; 3]%positive).
Proof.
  destruct (active_walk_finds ex_tcp ex_lists 20 10 80 4098 ex_tcp_lists) as [_ H].
  - intros l Hl. apply list_elem_of_In in Hl. vm_compute in Hl.
    destruct Hl as [<-|[<-|[]]]; eexists; (split; [vm_compute; reflexivity|]); repeat split; discriminate.
  - destruct (H [3%positive] 4%positive []) as (s' & E & _ & H').
    + reflexivity.
    + eexists. split; vm_compute; reflexivity.
    + intros x Hx. apply list_elem_of_In in Hx. destruct Hx as [<-|[]].
      intros (b & Hb & Hm). vm_compute in Hb. injection Hb as <-. vm_compute in Hm. discriminate.
    + exists s'. split; [exact E | exact H'].
Defined.
