(* ===== verification/TcpOptions.v ===== *)
(** * TCP options (tcp_parseopt)

    The option walk of tcp_parseopt against the option grammar, and the inputs
    on which it never ends. *)
From S2P Require Import Prelude Inet Heap Pbuf PbufSpec Stack Chains Ip TcpBase TcpOut Tcp TcpIn TcpSpec.
#[local] Open Scope string_scope.
#[local] Open Scope list_scope.
#[local] Open Scope Z_scope.

(** ** Reading one byte of a range *)
Lemma bytes_at_nth h p n d c : bytes_at h p n = Some d -> 0 <= c < n ->
  bytes_at h (ptr_add p c) 1 = Some [nth (Z.to_nat c) d 0].
Proof.
  intros Hd Hc. pose proof (bytes_at_length _ _ _ _ Hd) as Hl.
  destruct (bytes_at_split h p n c d ltac:(lia) Hd) as [_ H1].
  destruct (bytes_at_split h (ptr_add p c) (n - c) 1 _ ltac:(lia) H1) as [H2 _].
  rewrite H2. f_equal. change (Z.to_nat 1) with 1%nat.
  rewrite <- (take_drop_middle d (Z.to_nat c) (nth (Z.to_nat c) d 0)) at 1.
  - rewrite drop_app_length'; [done|]. rewrite length_take. lia.
  - rewrite nth_lookup. destruct (lookup_lt_is_Some_2 d (Z.to_nat c)) as [x ->]; [lia | done].
Qed.

Lemma get8_at_run s p n d c : bytes_at (s_heap s) p n = Some d -> 0 <= c < n ->
  get8 (ptr_add p c) s = Done (nth (Z.to_nat c) d 0, s).
Proof.
  intros Hd Hc. unfold get8, hp, zoom, load.
  rewrite (bind_run _ _ _ [nth (Z.to_nat c) d 0] s); [done|].
  rewrite (bind_run _ _ _ (s_heap s) (s_heap s)) by done.
  rewrite (bytes_at_nth _ _ _ _ _ Hd Hc). cbn. by destruct s.
Qed.

(** ** The grammar: RFC 793 options and the MSS they announce *)
Inductive options : list Z -> option Z -> Prop :=
| opt_none : options [] None
| opt_end o : options (0 :: o) None
| opt_nop o m : options o m -> options (1 :: o) m
| opt_mss hi lo o : options (2 :: 4 :: hi :: lo :: o) (Some (256 * hi + lo))
| opt_other k len body o m :
    k <> 0 -> k <> 1 -> ~ (k = 2 /\ len = 4) -> len = 2 + Z.of_nat (length body) ->
    options o m -> options (k :: len :: body ++ o) m.

(** The pcb after the options: an announced MSS, limited by our own. *)
Definition with_mss (m : option Z) (b : tcp_pcb) : tcp_pcb :=
  match m with Some v => b <| pcb_mss := Z.min TCP_MSS v |> | None => b end.

Lemma min_mss v : (if TCP_MSS <? v then TCP_MSS else v) = Z.min TCP_MSS v.
Proof. unfold TCP_MSS. destruct (Z.ltb_spec 1460 v); lia. Qed.

Lemma mss_word hi lo : is_u8 hi -> is_u8 lo -> Z.lor (Z.shiftl hi 8) lo = 256 * hi + lo.
Proof.
  unfold is_u8. intros. rewrite shiftl_mul, lor_add_low by lia. change (2 ^ 8) with 256. lia.
Qed.

(** The rest [o] of the options starts at the offset [c]. *)
Lemma parseopt_loop_run s pcb b opts pre o m fuel :
  options o m -> bytes_ok o -> s_tpcbs s !! pcb = Some b ->
  bytes_at (s_heap s) opts (Z.of_nat (length (pre ++ o))) = Some (pre ++ o) ->
  Z.of_nat (length (pre ++ o)) < 256 -> (length o <= fuel)%nat ->
  exists s', parseopt_loop fuel pcb opts (Z.of_nat (length (pre ++ o))) (Z.of_nat (length pre)) s
             = Done (tt, s')
    /\ (m = None -> s' = s) /\ (forall v, m = Some v -> s' = put_pcb pcb (with_mss m b) s).
Proof.
  intros Ho. revert pre fuel.
  assert (Hlt : forall pre x (o : list Z), (Z.of_nat (length pre) <? Z.of_nat (length (pre ++ x :: o))) = true).
  { intros. rewrite length_app. cbn. apply Z.ltb_lt. lia. }
  assert (Hnth : forall k pre (o : list Z), nth (Z.to_nat (Z.of_nat (length pre) + Z.of_nat k)) (pre ++ o) 0 = nth k o 0).
  { intros k pre o'. rewrite app_nth2 by lia. f_equal. lia. }
  induction Ho as [|o|o m Ho IH|hi lo o|k len body o m Hk0 Hk1 Hk2 Hlen Ho IH];
    intros pre fuel Hok Hb Hmem Hsz Hf.
  - exists s. split; [|done]. rewrite app_nil_r. destruct fuel; cbn; by rewrite Z.ltb_irrefl.
  - exists s. split; [|done]. destruct fuel as [|fuel]; [cbn in Hf; lia|].
    cbn [parseopt_loop]. rewrite Hlt. cbn [negb].
    erewrite bind_run; [|eapply get8_at_run; [exact Hmem | rewrite length_app; cbn; lia]].
    rewrite <- (Z.add_0_r (Z.of_nat (length pre))), (Hnth 0%nat). done.
  - destruct fuel as [|fuel]; [cbn in Hf; lia|].
    cbn [parseopt_loop]. rewrite Hlt. cbn [negb].
    erewrite bind_run; [|eapply get8_at_run; [exact Hmem | rewrite length_app; cbn; lia]].
    replace (Z.to_nat (Z.of_nat (length pre))) with (Z.to_nat (Z.of_nat (length pre) + Z.of_nat 0)) by lia.
    rewrite Hnth. cbn [nth]. change (1 =? 0) with false. change (1 =? 1) with true. cbv iota.
    rewrite length_app in Hsz. cbn in Hsz, Hf.
    rewrite u8_small by (unfold is_u8; lia).
    specialize (IH (pre ++ [1]) fuel). rewrite <- app_assoc in IH. cbn [app] in IH.
    replace (Z.of_nat (length pre) + 1) with (Z.of_nat (length (pre ++ [1])))
      by (rewrite length_app; cbn; lia).
    apply IH; [by apply bytes_ok_cons in Hok as [_ ?] | done | done | rewrite length_app; cbn; lia | lia].
  - destruct fuel as [|fuel]; [cbn in Hf; lia|].
    apply bytes_ok_cons in Hok as [_ Hok]. apply bytes_ok_cons in Hok as [_ Hok].
    apply bytes_ok_cons in Hok as [Hhi Hok]. apply bytes_ok_cons in Hok as [Hlo _].
    rewrite length_app in Hsz. cbn in Hsz, Hf.
    assert (Hget : forall k, (k < 4)%nat -> get8 (ptr_add opts (Z.of_nat (length pre) + Z.of_nat k)) s
                    = Done (nth k (2 :: 4 :: hi :: lo :: o) 0, s)).
    { intros k Hk. rewrite <- (Hnth k pre). eapply get8_at_run; [exact Hmem | rewrite length_app; cbn; lia]. }
    cbn [parseopt_loop]. rewrite Hlt. cbn [negb].
    pose proof (Hget 0%nat ltac:(lia)) as G0. rewrite Z.add_0_r in G0. run_with G0. cbn [nth].
    change (2 =? 0) with false. change (2 =? 1) with false. cbv iota.
    run_with (Hget 1%nat ltac:(lia)). cbn [nth]. change ((2 =? 2) && (4 =? 4)) with true. cbv iota.
    run_with (Hget 2%nat ltac:(lia)). run_with (Hget 3%nat ltac:(lia)). cbn [nth].
    rewrite mss_word, min_mss by done.
    eexists. split; [apply (pcb_upd_run _ _ _ _ Hb)|]. split; [done|]. intros v [= <-]. done.
  - destruct fuel as [|fuel]; [cbn in Hf; lia|].
    apply bytes_ok_cons in Hok as [_ Hok]. apply bytes_ok_cons in Hok as [_ Hok].
    apply bytes_ok_app in Hok as [_ Hok].
    rewrite length_app in Hsz. cbn in Hsz, Hf. rewrite length_app in Hsz, Hf.
    cbn [parseopt_loop]. rewrite Hlt. cbn [negb].
    assert (Hget : forall j, (j < 2)%nat -> get8 (ptr_add opts (Z.of_nat (length pre) + Z.of_nat j)) s
                    = Done (nth j (k :: len :: body ++ o) 0, s)).
    { intros j Hj. rewrite <- (Hnth j pre). eapply get8_at_run; [exact Hmem | rewrite length_app; cbn; lia]. }
    pose proof (Hget 0%nat ltac:(lia)) as G0. rewrite Z.add_0_r in G0. run_with G0. cbn [nth].
    rewrite (proj2 (Z.eqb_neq k 0)), (proj2 (Z.eqb_neq k 1)) by done.
    run_with (Hget 1%nat ltac:(lia)). cbn [nth].
    replace ((k =? 2) && (len =? 4)) with false
      by (symmetry; apply andb_false_iff; rewrite !Z.eqb_neq; lia).
    rewrite (proj2 (Z.eqb_neq len 0)) by lia.
    rewrite u8_small by (unfold is_u8; lia).
    specialize (IH (pre ++ k :: len :: body) fuel). rewrite <- app_assoc in IH. cbn [app] in IH.
    replace (Z.of_nat (length pre) + len) with (Z.of_nat (length (pre ++ k :: len :: body)))
      by (rewrite length_app; cbn; lia).
    apply IH; [done | done | done | rewrite length_app; cbn; rewrite length_app; lia | lia].
Qed.

(** C11: On every well-formed option list tcp_parseopt ends, leaves everything but
    the MSS alone, and takes the announced MSS limited by TCP_MSS. *)
Theorem tcp_parseopt_mss s pcb b h hl o m :
  in_tcphdr (s_tcp s) = Some h -> TCPH_HDRLEN h s = Done (hl, s) -> 5 <= hl <= 15 ->
  bytes_at (s_heap s) (ptr_add h TCP_HLEN) ((hl - 5) * 4) = Some o -> bytes_ok o ->
  options o m -> s_tpcbs s !! pcb = Some b ->
  exists s', tcp_parseopt pcb s = Done (tt, s')
    /\ (m = None -> s' = s) /\ (forall v, m = Some v -> s' = put_pcb pcb (with_mss m b) s).
Proof.
  intros Hh Hhl Hrange Hmem Hok Ho Hb. pose proof (bytes_at_length _ _ _ _ Hmem) as Hlen.
  unfold tcp_parseopt. rewrite (bind_run _ _ _ (Some h) s) by (unfold gtcp, gets; by rewrite Hh).
  rewrite (bind_run _ _ _ h s) by done. run_with Hhl.
  destruct (Z.ltb_spec 5 hl) as [Hgt|Hle]; cbn [when].
  - rewrite shiftl_mul by lia. change (2 ^ 2) with 4. rewrite <- Hlen.
    apply (parseopt_loop_run s pcb b _ [] o m parseopt_fuel); cbn [app]; try done.
    + by rewrite Hlen.
    + lia.
    + unfold parseopt_fuel. lia.
  - exists s. assert (hl = 5) as -> by lia. cbn in Hlen.
    destruct o; [|cbn in Hlen; lia]. inversion Ho; subst. done.
Qed.

(** A SYN with the options 01 05 .. : a header block for the witnesses. *)
Definition ex_header (opts : list Z) : list Z :=
  map (fun _ => 0) (seq 0 12) ++ [(5 + Z.of_nat (length opts) / 4) * 16; 2; 0; 0; 0; 0; 0; 0] ++ opts.
Definition ex_syn (opts : list Z) : stack :=
  ex_stack (Heap {[9%positive := Block 0 (ex_header opts)]} ∅ 100 0 (fun _ => None) []) ∅ ex_tpcbs ex_lpcbs
    ((ex_globals None None None None) <| in_tcphdr := Some (Ptr 9 0) |>).

Lemma tcp_parseopt_mss_witness :
  exists s', tcp_parseopt 3 (ex_syn [1; 4; 2; 2; 4; 2; 0; 0]) = Done (tt, s')
    /\ s' = put_pcb 3 ((ex_pcb 4097 10 80 20 ESTABLISHED (Some 4%positive)) <| pcb_mss := 512 |>)
              (ex_syn [1; 4; 2; 2; 4; 2; 0; 0]).
Proof.
  assert (Ho : options [1; 4; 2; 2; 4; 2; 0; 0] (Some 512)).
  { apply opt_nop. apply (opt_other 4 2 [] [2; 4; 2; 0; 0]); try done; [lia|]. apply (opt_mss 2 0 [0]). }
  destruct (tcp_parseopt_mss (ex_syn [1; 4; 2; 2; 4; 2; 0; 0]) 3 (ex_pcb 4097 10 80 20 ESTABLISHED (Some 4%positive)) (Ptr 9 0) 7 [1; 4; 2; 2; 4; 2; 0; 0] (Some 512))
    as (s' & E & _ & H); [vm_compute; reflexivity..| lia | vm_compute; reflexivity | | exact Ho | vm_compute; reflexivity |].
  - unfold bytes_ok. rewrite !list.Forall_cons. repeat split; done.
  - exists s'. split; [exact E|]. exact (H 512 eq_refl).
Defined.

(** C12: The length byte of an unknown option is added to an u8_t without a bound,
    so a length of 255 steps back: with the options NOP, kind 3, length 255 the
    walk returns to the NOP and never ends, whatever follows. *)
Theorem tcp_parseopt_endless s pcb h hl o :
  in_tcphdr (s_tcp s) = Some h -> TCPH_HDRLEN h s = Done (hl, s) -> 5 < hl <= 15 ->
  bytes_at (s_heap s) (ptr_add h TCP_HLEN) ((hl - 5) * 4) = Some (1 :: 3 :: 255 :: o) ->
  tcp_parseopt pcb s = Halt NoFuel
  /\ forall fuel, parseopt_loop fuel pcb (ptr_add h TCP_HLEN) ((hl - 5) * 4) 0 s = Halt NoFuel.
Proof.
  intros Hh Hhl Hrange Hmem.
  pose proof (bytes_at_length _ _ _ _ Hmem) as Hlen. cbn in Hlen.
  assert (Hget : forall k, 0 <= k < 3 -> get8 (ptr_add (ptr_add h TCP_HLEN) k) s
                   = Done (nth (Z.to_nat k) (1 :: 3 :: 255 :: o) 0, s)).
  { intros k Hk. eapply get8_at_run; [exact Hmem | lia]. }
  assert (Hloop : forall fuel,
    parseopt_loop fuel pcb (ptr_add h TCP_HLEN) ((hl - 5) * 4) 0 s = Halt NoFuel
    /\ parseopt_loop fuel pcb (ptr_add h TCP_HLEN) ((hl - 5) * 4) 1 s = Halt NoFuel).
  { induction fuel as [|fuel [IH0 IH1]]; cbn [parseopt_loop].
    - rewrite !(proj2 (Z.ltb_lt _ _)) by lia. done.
    - rewrite !(proj2 (Z.ltb_lt _ _)) by lia. cbn [negb]. split.
      + run_with (Hget 0 ltac:(lia)). cbn [nth Z.to_nat].
        change (1 =? 0) with false. change (1 =? 1) with true. cbv iota. exact IH1.
      + run_with (Hget 1 ltac:(lia)). change (nth (Z.to_nat 1) (1 :: 3 :: 255 :: o) 0) with 3.
        change (3 =? 0) with false. change (3 =? 1) with false. cbv iota.
        run_with (Hget (1 + 1) ltac:(lia)).
        change (nth (Z.to_nat (1 + 1)) (1 :: 3 :: 255 :: o) 0) with 255.
        change ((3 =? 2) && (255 =? 4)) with false. change (255 =? 0) with false. cbv iota.
        change (u8 (1 + 255)) with 0. exact IH0. }
  split; [|intros fuel; apply Hloop].
  unfold tcp_parseopt. rewrite (bind_run _ _ _ (Some h) s) by (unfold gtcp, gets; by rewrite Hh).
  rewrite (bind_run _ _ _ h s) by done. run_with Hhl.
  rewrite (proj2 (Z.ltb_lt _ _)) by lia. cbn [when]. rewrite shiftl_mul by lia. apply Hloop.
Qed.

Lemma tcp_parseopt_endless_witness : tcp_parseopt 3 (ex_syn [1; 3; 255; 0]) = Halt NoFuel.
Proof.
  apply (tcp_parseopt_endless (ex_syn [1; 3; 255; 0]) 3 (Ptr 9 0) 6 [0]); [vm_compute; reflexivity..|lia|vm_compute; reflexivity].
Defined.
