(* ===== verification/TcpProcess.v ===== *)
(** * The TCP state machine (tcp_process)

    Resets, and the transitions of the closing states, for every driver and
    application behind the callbacks. *)
From S2P Require Import Prelude Inet Heap Pbuf Stack Chains Ip TcpBase TcpOut Tcp TcpIn TcpArith TcpSpec.
#[local] Open Scope string_scope.
#[local] Open Scope list_scope.
#[local] Open Scope Z_scope.

Section process.
Context {MC : MempConf} {EV : Env}.

(** ** Resets *)

(** In SYN-SENT a reset must acknowledge everything sent; in the other states
    its sequence number must lie in the announced window, both ends included. *)
Definition rst_acceptable (g : tcp_globals) (b : tcp_pcb) : bool :=
  if state_is (pcb_state b) SYN_SENT then in_ackno g =? pcb_snd_nxt b
  else u32 (in_seqno g - pcb_rcv_nxt b) <=? pcb_rcv_ann_wnd b.

(** C6: An unacceptable reset changes nothing at all.  An acceptable one only raises
    TF_RESET and cancels the delayed ACK; the connection is removed by
    tcp_input. *)
Theorem tcp_process_rst pcb b s :
  s_tpcbs s !! pcb = Some b -> pcb_state b <> CLOSED -> is_u16 (pcb_rcv_ann_wnd b) ->
  has (in_flags (s_tcp s)) TCP_RST = true ->
  tcp_process pcb s =
    if rst_acceptable (s_tcp s) b then
      Done (ERR_RST, put_pcb pcb (b <| pcb_flags := clr8 (pcb_flags b) TF_ACK_DELAY |>)
                       (s <| s_tcp := (s_tcp s) <| recv_flags := TF_RESET |> |>))
    else Done (ERR_OK, s).
Proof.
  intros Hb Hst Hw Hrst. unfold is_u16 in Hw. unfold tcp_process.
  rewrite (bind_run _ _ _ (s_tcp s) s) by done. run_with (pcb_get_run _ _ _ Hb). rewrite Hrst.
  assert (E : (if state_is (pcb_state b) SYN_SENT then in_ackno (s_tcp s) =? pcb_snd_nxt b
    else TCP_SEQ_BETWEEN (in_seqno (s_tcp s)) (pcb_rcv_nxt b) (u32 (pcb_rcv_nxt b + pcb_rcv_ann_wnd b)))
    = rst_acceptable (s_tcp s) b).
  { unfold rst_acceptable. destruct (state_is _ _); [done|].
    assert (Hu : u32 (u32 (pcb_rcv_nxt b + pcb_rcv_ann_wnd b) - pcb_rcv_nxt b) = pcb_rcv_ann_wnd b).
    { unfold u32. rewrite Zminus_mod_idemp_l.
      replace (pcb_rcv_nxt b + pcb_rcv_ann_wnd b - pcb_rcv_nxt b) with (pcb_rcv_ann_wnd b) by lia.
      apply Z.mod_small. lia. }
    rewrite seq_between_circular; rewrite Hu; [done|lia]. }
  cbv zeta. rewrite E. destruct (rst_acceptable (s_tcp s) b); [|done].
  rewrite state_is_false by done. run_assert. done.
Qed.

(** ** Closing *)

(** Nothing queued in either direction. *)
Definition idle (b : tcp_pcb) : Prop :=
  pcb_unsent b = None /\ pcb_unacked b = None /\ pcb_ooseq b = None /\ pcb_refused_data b = None.

Lemma tcp_segs_free_none s : tcp_segs_free None s = Done (0, s).
Proof. done. Qed.

(** While the segment's own connection is being processed, tcp_ack_now only
    sets the flag: tcp_output leaves the sending to tcp_input. *)
Definition ack_now (b : tcp_pcb) : tcp_pcb := b <| pcb_flags := or8 (pcb_flags b) TF_ACK_NOW |>.
Lemma tcp_ack_now_run s pcb b :
  s_tpcbs s !! pcb = Some b -> tcp_input_pcb (s_tcp s) = Some pcb ->
  tcp_ack_now pcb s = Done (tt, put_pcb pcb (ack_now b) s).
Proof.
  intros Hb Hin. unfold tcp_ack_now. run_with (pcb_upd_run _ _ (fun b => b <| pcb_flags := or8 (pcb_flags b) TF_ACK_NOW |>) _ Hb).
  unfold tcp_output. rewrite (bind_run _ _ _ ERR_OK (put_pcb pcb (ack_now b) s)); [done|].
  rewrite (bind_run _ _ _ (Some pcb) (put_pcb pcb (ack_now b) s)) by (unfold gtcp, gets; cbn; by rewrite Hin).
  by rewrite bool_decide_true.
Qed.

Lemma tcp_pcb_purge_idle s pcb b :
  s_tpcbs s !! pcb = Some b -> idle b -> pcb_state b <> CLOSED -> pcb_state b <> TIME_WAIT ->
  pcb_state b <> LISTEN ->
  exists b', tcp_pcb_purge pcb s = Done (tt, put_pcb pcb b' s) /\ b' = b <| pcb_rtime := -1 |>.
Proof.
  intros Hb (H1 & H2 & H3 & H4) S1 S2 S3. eexists. split; [|reflexivity].
  unfold tcp_pcb_purge. run_with (any_state_run _ _ _ (astate_pcb _ _ _ Hb)).
  rewrite !state_is_false by done. cbn [orb]. run_with (pcb_get_run _ _ _ Hb). rewrite H4.
  rewrite (bind_run _ _ _ tt s) by done.
  run_with (pcb_upd_run _ _ (fun b => b <| pcb_rtime := -1 |>) _ Hb).
  set (b1 := b <| pcb_rtime := -1 |>).
  run_with (pcb_get_run _ _ _ (put_pcb_eq pcb b1 s)).
  assert (pcb_ooseq b1 = None /\ pcb_unsent b1 = None /\ pcb_unacked b1 = None) as (E1 & E2 & E3) by done.
  rewrite E1, E2, E3. run_with (tcp_segs_free_none (put_pcb pcb b1 s)).
  erewrite bind_run by (apply pcb_upd_run, put_pcb_eq).
  do 2 (erewrite bind_run by (apply tcp_segs_free_none)).
  erewrite pcb_upd_run by (apply put_pcb_eq). rewrite !put_pcb_twice. do 3 f_equal.
  subst b1. unfold set_field. cbn. f_equal; done.
Qed.

(** A connection in TIME-WAIT, as enter_time_wait leaves it. *)
Definition waiting (b : tcp_pcb) (n : option loc) : tcp_pcb :=
  (ack_now b) <| pcb_rtime := -1 |> <| pcb_state := TIME_WAIT |> <| pcb_next := n |>.

Lemma enter_time_wait_run s f pcb b :
  lists_ok s f -> pcb ∈ f ACTIVE -> s_tpcbs s !! pcb = Some b -> tcp_input_pcb (s_tcp s) = Some pcb ->
  idle b -> pcb_state b <> CLOSED -> pcb_state b <> TIME_WAIT -> pcb_state b <> LISTEN ->
  exists s' n, enter_time_wait pcb s = Done (tt, s') /\ lists_ok s' (moved f ACTIVE TW pcb)
    /\ s_tpcbs s' !! pcb = Some (waiting b n)
    /\ same_but_lists (put_pcb pcb (waiting b n) s) s'.
Proof.
  intros H Hl Hb Hin Hidle S1 S2 S3. unfold enter_time_wait.
  run_with (tcp_ack_now_run _ _ _ Hb Hin).
  destruct (tcp_pcb_purge_idle (put_pcb pcb (ack_now b) s) pcb (ack_now b)) as (b2 & E & ->);
    [apply put_pcb_eq | done..|].
  run_with E. rewrite put_pcb_twice. set (b2 := (ack_now b) <| pcb_rtime := -1 |>).
  pose proof (lists_ok_put_pcb _ _ _ _ b2 H Hb ltac:(done)) as H2.
  destruct (TCP_RMV_run ACTIVE pcb _ f H2) as (s3 & E3 & Hs3 & Hn3 & H3).
  { rewrite (anext_pcb _ _ _ (put_pcb_eq _ _ _)). by eexists. }
  { intros w Hw. by apply (lists_disj _ _ H _ _ pcb). }
  run_with E3. destruct (same_but_lists_lookup _ _ _ _ Hs3 (put_pcb_eq pcb b2 s)) as [n Hb3].
  run_with (pcb_upd_run _ _ (fun b => b <| pcb_state := TIME_WAIT |>) _ Hb3).
  set (b4 := b2 <| pcb_next := n |> <| pcb_state := TIME_WAIT |>).
  pose proof (lists_ok_put_pcb _ _ _ _ b4 H3 Hb3 ltac:(done)) as H4.
  assert (Ha4 : is_Some (anext (put_pcb pcb b4 s3) pcb))
    by (rewrite (anext_pcb _ _ _ (put_pcb_eq _ _ _)); by eexists).
  rewrite (TCP_REG_run _ _ _ Ha4). set (h := list_head TW _).
  eexists _, h. split; [reflexivity|]. split; [|split].
  - apply lists_ok_REG; [done | done |]. intros w. apply lists_remove_nin.
    intros w' Hw'. by apply (lists_disj _ _ H _ _ pcb).
  - unfold set_next. rewrite put_pcb_eq. cbn. by rewrite lookup_insert_eq.
  - apply same_but_lists_REG. apply (same_but_lists_put_pcb _ _ pcb (waiting b h) b4) in Hs3; [|done].
    by rewrite put_pcb_twice in Hs3.
Qed.

(** What the flags of a segment do to a connection that had state [st] before
    tcp_receive, which left it in state [st2]: [fin] and [acks] say that the
    segment has a FIN and acknowledges everything sent, [acc] that tcp_receive
    took it in sequence. *)
Definition next_state (st st2 : tcp_state) (fin acks acc : bool) : tcp_state :=
  match st with
  | ESTABLISHED | CLOSE_WAIT => if fin && acc then CLOSE_WAIT else st2
  | FIN_WAIT_1 => if fin then if acks then TIME_WAIT else CLOSING
                  else if acks then FIN_WAIT_2 else st2
  | FIN_WAIT_2 => if fin then TIME_WAIT else st2
  | CLOSING => if acks then TIME_WAIT else st2
  | _ => st2
  end.

Definition receiving (st : tcp_state) : bool :=
  match st with
  | ESTABLISHED | CLOSE_WAIT | FIN_WAIT_1 | FIN_WAIT_2 | CLOSING | LAST_ACK => true
  | _ => false
  end.

(** How a connection stands after tcp_process. *)
Record processed (s' : stack) (f : pcb_list -> list loc) (pcb : loc) (st : tcp_state) (rf : Z) : Prop := {
  pr_pcb : exists b', s_tpcbs s' !! pcb = Some b' /\ pcb_state b' = st;
  pr_lists : lists_ok s' f;
  pr_flags : recv_flags (s_tcp s') = rf
}.

Lemma processed_put s f pcb b b' :
  lists_ok s f -> s_tpcbs s !! pcb = Some b -> pcb_next b' = pcb_next b ->
  processed (put_pcb pcb b' s) f pcb (pcb_state b') (recv_flags (s_tcp s)).
Proof.
  intros H Hb Hn. split; [|by eapply lists_ok_put_pcb | done].
  exists b'. split; [apply put_pcb_eq | done].
Qed.

(** The FIN of a connection that stays active. *)
Lemma ack_and_set_run s f pcb b st :
  lists_ok s f -> s_tpcbs s !! pcb = Some b -> tcp_input_pcb (s_tcp s) = Some pcb ->
  exists s', (tcp_ack_now pcb;; pcb_upd pcb (fun b => b <| pcb_state := st |>)) s = Done (tt, s')
    /\ processed s' f pcb st (recv_flags (s_tcp s)).
Proof.
  intros H Hb Hin. run_with (tcp_ack_now_run _ _ _ Hb Hin).
  rewrite (pcb_upd_run _ _ (fun b => b <| pcb_state := st |>) _ (put_pcb_eq pcb (ack_now b) s)).
  rewrite put_pcb_twice. eexists. split; [reflexivity|].
  exact (processed_put s f pcb b ((ack_now b) <| pcb_state := st |>) H Hb ltac:(done)).
Qed.

Lemma time_wait_processed s f pcb b :
  lists_ok s f -> pcb ∈ f ACTIVE -> s_tpcbs s !! pcb = Some b -> tcp_input_pcb (s_tcp s) = Some pcb ->
  idle b -> receiving (pcb_state b) = true ->
  exists s', enter_time_wait pcb s = Done (tt, s')
    /\ processed s' (moved f ACTIVE TW pcb) pcb TIME_WAIT (recv_flags (s_tcp s)).
Proof.
  intros H Hl Hb Hin Hidle Hst.
  destruct (enter_time_wait_run s f pcb b H Hl Hb Hin Hidle) as (s' & n & E & H' & Hb' & Hs).
  1-3: intros E; by rewrite E in Hst.
  exists s'. split; [done|]. split; [by exists (waiting b n) | done |].
  by apply (f_equal (fun s => recv_flags (s_tcp s))) in Hs.
Qed.

(** C1: When tcp_receive has done its work, tcp_process returns ERR_OK and the
    connection is in the state [next_state] gives; a connection that enters
    TIME-WAIT moves to the front of its list, all others stay where they are;
    in LAST-ACK the acknowledgement of our FIN raises TF_CLOSED. *)
Theorem tcp_process_transitions s f pcb b acc s2 b2 :
  let g := s_tcp s in
  let fin := has (in_flags g) TCP_FIN in
  let acks := has (in_flags g) TCP_ACK && (in_ackno g =? pcb_snd_nxt b2) in
  let st' := next_state (pcb_state b) (pcb_state b2) fin acks acc in
  s_tpcbs s !! pcb = Some b -> receiving (pcb_state b) = true -> has (in_flags g) TCP_RST = false ->
  tcp_receive pcb (put_pcb pcb (b <| pcb_tmr := tcp_ticks g |> <| pcb_keep_cnt_sent := 0 |>) s)
    = Done (acc, s2) ->
  s_tpcbs s2 !! pcb = Some b2 -> receiving (pcb_state b2) = true ->
  tcp_input_pcb (s_tcp s2) = Some pcb -> lists_ok s2 f -> pcb ∈ f ACTIVE ->
  (st' = TIME_WAIT -> idle b2) ->
  exists s', tcp_process pcb s = Done (ERR_OK, s')
    /\ processed s' (if decide (st' = TIME_WAIT) then moved f ACTIVE TW pcb else f) pcb st'
         (if bool_decide (pcb_state b = LAST_ACK) && acks then TF_CLOSED else recv_flags (s_tcp s2)).
Proof.
  cbn zeta. set (g := s_tcp s). set (fl := in_flags g).
  intros Hb Hst Hrst Hrecv Hb2 Hst2 Hin H Hl Hidle.
  assert (Hstart : tcp_process pcb s = (match pcb_state b with
    | CLOSE_WAIT | ESTABLISHED =>
        accepted_inseq ← tcp_receive pcb;
        when (has fl TCP_FIN && accepted_inseq)
          (tcp_ack_now pcb;; pcb_upd pcb (fun b => b <| pcb_state := CLOSE_WAIT |>));;
        mret ERR_OK
    | FIN_WAIT_1 =>
        _ ← tcp_receive pcb;
        all ← (b ← pcb_get pcb; mret (has fl TCP_ACK && (in_ackno g =? pcb_snd_nxt b)));
        (if has fl TCP_FIN then
           if (all : bool) then enter_time_wait pcb
           else tcp_ack_now pcb;; pcb_upd pcb (fun b => b <| pcb_state := CLOSING |>)
         else when all (pcb_upd pcb (fun b => b <| pcb_state := FIN_WAIT_2 |>)));;
        mret ERR_OK
    | FIN_WAIT_2 =>
        _ ← tcp_receive pcb;
        when (has fl TCP_FIN) (enter_time_wait pcb);;
        mret ERR_OK
    | CLOSING =>
        _ ← tcp_receive pcb;
        all ← (b ← pcb_get pcb; mret (has fl TCP_ACK && (in_ackno g =? pcb_snd_nxt b)));
        when all (enter_time_wait pcb);;
        mret ERR_OK
    | _ =>
        _ ← tcp_receive pcb;
        all ← (b ← pcb_get pcb; mret (has fl TCP_ACK && (in_ackno g =? pcb_snd_nxt b)));
        when all (utcp (fun g => g <| recv_flags := TF_CLOSED |>));;
        mret ERR_OK
    end) (put_pcb pcb (b <| pcb_tmr := tcp_ticks g |> <| pcb_keep_cnt_sent := 0 |>) s)).
  { unfold tcp_process. rewrite (bind_run _ _ _ g s) by done. run_with (pcb_get_run _ _ _ Hb).
    fold fl. rewrite Hrst. run_with (pcb_put_run s pcb (b <| pcb_tmr := tcp_ticks g |> <| pcb_keep_cnt_sent := 0 |>)).
    by destruct (pcb_state b). }
  rewrite Hstart. clear Hstart.
  assert (Hall : (b ← pcb_get pcb; mret (has fl TCP_ACK && (in_ackno g =? pcb_snd_nxt b))) s2
    = Done (has fl TCP_ACK && (in_ackno g =? pcb_snd_nxt b2), s2)) by (by run_with (pcb_get_run _ _ _ Hb2)).
  assert (Hret : forall (m : M stack unit) f' st rf,
    (exists s', m s2 = Done (tt, s') /\ processed s' f' pcb st rf) ->
    exists s', (m;; mret ERR_OK) s2 = Done (ERR_OK, s') /\ processed s' f' pcb st rf).
  { intros m f' st rf (s' & E & P). exists s'. by run_with E. }
  assert (Hsame : exists s', (mret tt : M stack unit) s2 = Done (tt, s')
     /\ processed s' f pcb (pcb_state b2) (recv_flags (s_tcp s2))).
  { exists s2. split; [done|]. split; [by exists b2 | done | done]. }
  assert (Htw : pcb_state b2 <> TIME_WAIT) by (intros E; by rewrite E in Hst2).
  destruct (pcb_state b) eqn:Eb; try done; cbn [next_state] in *; run_with Hrecv; try run_with Hall;
    apply Hret; destruct (has fl TCP_FIN), (has fl TCP_ACK && _), acc; cbn [when andb] in *;
    repeat case_decide; try done; try exact Hsame;
    try (by apply ack_and_set_run with b2);
    try (apply time_wait_processed with b2; by auto).
  all: try (eexists; split; [by apply pcb_upd_run|]; by apply processed_put with b2).
  all: eexists; split; [reflexivity|]; (split; [by exists b2 | | done]);
    eapply lists_ok_ext; [..|exact H]; [done|]; by intros [].
Qed.
End process.

Lemma tcp_process_rst_witness :
  let s := ex_tcp <| s_tcp := (s_tcp ex_tcp) <| in_flags := TCP_RST |> <| in_seqno := 70000 |> |> in
  @tcp_process memp_core ex_env 3 s = Done (ERR_OK, s).
Proof.
  intros s.
  rewrite (@tcp_process_rst memp_core ex_env 3 (ex_pcb 4097 10 80 20 ESTABLISHED (Some 4%positive)) s);
    [vm_compute; reflexivity | vm_compute; reflexivity | intros H; vm_compute in H; discriminate H
    | vm_compute; split; [discriminate | reflexivity]
    | vm_compute; reflexivity].
Defined.

(** Connection 4 is CLOSING and the segment acknowledges its FIN. *)
Definition ex_closing_pcb : tcp_pcb := ex_pcb 4098 10 80 20 CLOSING None.
Definition ex_closing : stack :=
  ex_stack (Heap {[9%positive := Block 0 (map (fun _ => 0) (seq 0 20))]} ∅ 100 0 (fun _ => None) []) ∅
    (<[4%positive := ex_closing_pcb]> ex_tpcbs) ex_lpcbs
    ((s_tcp ex_tcp) <| in_tcphdr := Some (Ptr 9 0) |> <| in_flags := TCP_ACK |>
                    <| in_ackno := 6510 |> <| tcp_input_pcb := Some 4%positive |>).
Definition ex_received : stack :=
  match @tcp_receive memp_core ex_env 4
          (put_pcb 4 (ex_closing_pcb <| pcb_tmr := 100 |> <| pcb_keep_cnt_sent := 0 |>) ex_closing) with
  | Done (_, s) => s
  | Halt _ => ex_closing
  end.

Lemma tcp_process_transitions_witness :
  exists s', @tcp_process memp_core ex_env 4 ex_closing = Done (ERR_OK, s')
    /\ processed s' (moved ex_lists ACTIVE TW 4) 4 TIME_WAIT 0.
Proof.
  destruct (@tcp_process_transitions memp_core ex_env ex_closing ex_lists 4 ex_closing_pcb false ex_received
              (ex_closing_pcb <| pcb_tmr := 100 |> <| pcb_snd_wl2 := 6510 |> <| pcb_dupacks := 1 |>))
    as (s' & E & P).
  - vm_compute. reflexivity.
  - vm_compute. reflexivity.
  - vm_compute. reflexivity.
  - vm_compute. reflexivity.
  - vm_compute. reflexivity.
  - vm_compute. reflexivity.
  - vm_compute. reflexivity.
  - apply lists_okb_sound. vm_compute. reflexivity.
  - vm_compute. right. left.
  - intros _. vm_compute. repeat split.
  - exists s'. split; [exact E | exact P].
Defined.
