(* ===== verification/TcpEnqueue.v ===== *)
(** * Segmentation (tcp_enqueue)

    What tcp_enqueue appends to an empty send queue: the data cut into
    segments of at most one MSS, each in one buffer behind its own header and
    the room for the headers below, with consecutive sequence numbers. *)
From S2P Require Import Prelude Inet Heap Pbuf PbufSpec InetChksum Stack Chains Ip TcpBase TcpOut Tcp TcpIn TcpSpec Words.
#[local] Open Scope string_scope.
#[local] Open Scope list_scope.
#[local] Open Scope Z_scope.

(** The flag bits of the fifth header word. *)
Lemma land_63 z : Z.land z 63 = z mod 64.
Proof. apply (land_ones_mod 6). lia. Qed.

Lemma flags_word x flags : 0 <= flags < 64 ->
  Z.land (u16 (Z.lor (Z.ldiff x TCP_FLAGS) flags)) TCP_FLAGS = flags.
Proof.
  intros Hf. unfold TCP_FLAGS, u16. rewrite land_63, (Z.mod_mod_divide _ (2^16) 64) by (by exists 1024).
  rewrite <- land_63, Z.land_lor_distr_l. rewrite Z.ldiff_land.
  rewrite <- Z.land_assoc, (Z.land_comm (Z.lnot 63)), Z.land_lnot_diag, Z.land_0_r, Z.lor_0_l.
  rewrite land_63. by apply Z.mod_small.
Qed.

Lemma header_word flags : 0 <= flags < 64 ->
  let v := htons (u16 (Z.lor (Z.shiftl 5 12) flags)) in [u8 v; u8 (v / 2 ^ 8)] = [80; flags].
Proof.
  intros Hf. cbn zeta. rewrite htons_be16 by apply u16_range. rewrite shiftl_mul by lia.
  rewrite lor_add_low by lia. unfold be16, u16, u8. f_equal; [|f_equal]; Z.div_mod_to_equations; lia.
Qed.

(** ** The header *)

(** The header as tcp_enqueue leaves it: tcp_output_segment fills in the
    acknowledgement number [ack], the window [wnd] and the checksum [ck]. *)
Definition wire_header (sport dport seqno flags : Z) (ack wnd ck : list Z) : list Z :=
  be16 sport ++ be16 dport ++ be32 seqno ++ ack ++ [80; flags] ++ wnd ++ ck ++ [0; 0].

(** ** Filling the header in *)
Section header_words.
Context (q : loc) (h : heap) (s : stack) (pre c : list Z) (off : Z).
Context (Hoff : off = 16 + Z.of_nat (length pre)).
#[local] Abbreviation hst := (hst q h s pre c).
#[local] Abbreviation put16_hst := (put16_hst q h s pre c off Hoff).
#[local] Abbreviation put32_hst := (put32_hst q h s pre c off Hoff).
#[local] Abbreviation get16_hst := (get16_hst q h s pre c off Hoff).

Lemma ptr_first : tcph_src (Ptr q off) = Ptr q (off + Z.of_nat 0).
Proof. unfold tcph_src. f_equal. lia. Qed.

(** The word of the header length and the flags. *)
Definition flags_of (hdr : list Z) : Z := nth 12 hdr 0 + 2 ^ 8 * nth 13 hdr 0.
Definition put_word (k : nat) (v : Z) (hdr : list Z) : list Z := splice k [u8 v; u8 (v / 2 ^ 8)] hdr.

Lemma TCPH_FLAGS_hst hdr : length hdr = 20%nat ->
  TCPH_FLAGS (Ptr q off) (hst hdr) = Done (Z.land (ntohs (flags_of hdr)) TCP_FLAGS, hst hdr).
Proof.
  intros Hl. unfold TCPH_FLAGS. by erewrite bind_run by (apply (get16_hst _ 12); rewrite Hl; lia).
Qed.
Lemma TCPH_FLAGS_SET_hst hdr flags : length hdr = 20%nat ->
  TCPH_FLAGS_SET (Ptr q off) flags (hst hdr)
  = Done (tt, hst (put_word 12 (htons (u16 (Z.lor (Z.ldiff (ntohs (flags_of hdr)) TCP_FLAGS) flags))) hdr)).
Proof.
  intros Hl. unfold TCPH_FLAGS_SET. erewrite bind_run by (apply (get16_hst _ 12); rewrite Hl; lia).
  apply (put16_hst _ 12). rewrite Hl. lia.
Qed.
Lemma TCPH_HDRLEN_SET_hst hdr len : length hdr = 20%nat ->
  TCPH_HDRLEN_SET (Ptr q off) len (hst hdr)
  = Done (tt, hst (put_word 12 (htons (u16 (Z.lor (Z.shiftl len 12)
                                              (Z.land (ntohs (flags_of hdr)) TCP_FLAGS)))) hdr)).
Proof.
  intros Hl. unfold TCPH_HDRLEN_SET. erewrite bind_run by (by apply TCPH_FLAGS_hst).
  apply (put16_hst _ 12). rewrite Hl. lia.
Qed.
Lemma TCPH_SET_FLAG_hst hdr flags : length hdr = 20%nat ->
  TCPH_SET_FLAG (Ptr q off) flags (hst hdr)
  = Done (tt, hst (put_word 12 (htons (u16 (Z.lor (ntohs (flags_of hdr)) flags))) hdr)).
Proof.
  intros Hl. unfold TCPH_SET_FLAG. erewrite bind_run by (apply (get16_hst _ 12); rewrite Hl; lia).
  apply (put16_hst _ 12). rewrite Hl. lia.
Qed.

(** The writes of tcp_enqueue to the header, and then [k]. *)
Definition fill_data_header {A} (sport dport seqno flags : Z) (k : M stack A) : M stack A :=
  put16 (tcph_src (Ptr q off)) (htons sport);;
  put16 (tcph_dest (Ptr q off)) (htons dport);;
  put32 (tcph_seqno (Ptr q off)) (htonl seqno);;
  put16 (tcph_urgp (Ptr q off)) 0;;
  TCPH_FLAGS_SET (Ptr q off) flags;;
  TCPH_HDRLEN_SET (Ptr q off) 5;;
  k.

Lemma fill_data_header_run {A} (k : M stack A) sport dport seqno flags hdr :
  length hdr = 20%nat -> is_u16 sport -> is_u16 dport -> is_u32 seqno -> 0 <= flags < 64 ->
  fill_data_header sport dport seqno flags k (hst hdr)
  = k (hst (wire_header sport dport seqno flags (take 4 (drop 8 hdr))
              (take 2 (drop 14 hdr)) (take 2 (drop 16 hdr)))).
Proof.
  intros Hl Hs Hd Hn Hf.
  do 20 (destruct hdr as [|? hdr]; [done|]). destruct hdr; [|done]. clear Hl.
  unfold fill_data_header. rewrite ptr_first.
  erewrite bind_run by (apply (put16_hst _ 0); cbn; lia).
  erewrite bind_run by (apply (put16_hst _ 2); cbn; lia).
  erewrite bind_run by (apply (put32_hst _ 4); cbn; lia).
  erewrite bind_run by (apply (put16_hst _ 18); cbn; lia).
  erewrite bind_run by (by apply TCPH_FLAGS_SET_hst).
  erewrite bind_run by (by apply TCPH_HDRLEN_SET_hst).
  unfold put_word, splice, flags_of. cbn [take drop app length Nat.add nth].
  rewrite word16_bytes by apply htons_range.
  rewrite (htons_involutive (u16 _)) by apply u16_range. rewrite flags_word by done.
  unfold wire_header. rewrite <- (htons_be16 _ Hs), <- (htons_be16 _ Hd), <- (htonl_be32 _ Hn).
  pose proof (header_word flags Hf) as E. cbn zeta in E. injection E as E1 E2. by rewrite E1, E2.
Qed.
End header_words.

(** ** One segment *)
Definition put_seg (l : loc) (b : tcp_seg) (s : stack) : stack :=
  s <| s_segs := <[l := b]> (s_segs s) |>.

Lemma seg_get_run s l b : s_segs s !! l = Some b -> seg_get l s = Done (b, s).
Proof. unfold seg_get. intros H. rewrite (bind_run _ _ _ s s) by done. by rewrite H. Qed.
Lemma seg_upd_run s l f b : s_segs s !! l = Some b -> seg_upd l f s = Done (tt, put_seg l (f b) s).
Proof. unfold seg_upd. intros H. by rewrite (bind_run _ _ _ _ _ (seg_get_run _ _ _ H)). Qed.
Lemma put_seg_eq l b s : s_segs (put_seg l b s) !! l = Some b.
Proof. cbn. by rewrite lookup_insert_eq. Qed.
Lemma put_seg_twice l b b' s : put_seg l b' (put_seg l b s) = put_seg l b' s.
Proof. unfold put_seg. destruct s. unfold set_field. cbn. f_equal. by rewrite insert_insert_eq. Qed.
Lemma with_heap_put_seg l b h s : with_heap h (put_seg l b s) = put_seg l b (with_heap h s).
Proof. by destruct s. Qed.

(** The data of a segment: [c], read through [p] when there is an argument. *)
Definition src_at (h : heap) (arg p : option ptr) (c : list Z) : Prop :=
  match arg with
  | Some _ => exists pt, p = Some pt /\ bytes_at h pt (Z.of_nat (length c)) = Some c
  | None => c = []
  end.

(** The buffer of a segment with [n] bytes of data behind 54 of headers. *)
Definition seg_buf (q : loc) (n : Z) : pbuf := Pbuf None (Some (Ptr q 70)) n n PBUF_RAM 0 1.

Lemma alloc_transport `{MempConf} h n :
  h_ok h -> is_Some (h_env h (h_nalloc h)) -> is_u16 n ->
  exists data, length data = (54 + Z.to_nat n)%nat /\ bytes_ok data /\
    pbuf_alloc PBUF_TRANSPORT n PBUF_RAM h
    = Done (Some (h_next h), alloced h data (seg_buf (h_next h) n)).
Proof.
  intros Hok Henv Hn.
  destruct (wp_run _ _ _ (pbuf_alloc_ram_spec h PBUF_TRANSPORT 54 n Hok Hn eq_refl))
    as (r & h' & E & HQ).
  destruct r as [p|]; [|destruct HQ as [Hc _]; rewrite Hc in Henv; by destruct Henv].
  destruct HQ as (-> & Hok' & d & data & Hl & _ & _ & ->). exists data.
  split; [unfold is_u16 in Hn; lia|]. split; [|done].
  eapply (ok_bytes _ Hok' (h_next h) (Block 16 data)). cbn. apply lookup_insert_eq.
Qed.

Lemma store_all h data c b : length data = (54 + length c)%nat ->
  store (Ptr (h_next h) 70) c (alloced h data b)
  = Done (tt, alloced h (splice 54 c data) b).
Proof.
  intros Hl. assert (Ht : length (take 54 data) = 54%nat) by (rewrite length_take; lia).
  pose proof (header_store (h_next h) (alloced h data b) (take 54 data) (drop 54 data) [] 70) as H.
  specialize (H ltac:(cbn; rewrite app_nil_r, take_drop; apply lookup_insert_eq)
                ltac:(rewrite Ht; done) 0%nat c ltac:(rewrite length_drop; lia)).
  change (70 + Z.of_nat 0) with 70 in H. rewrite H, with_block_alloced. do 3 f_equal.
  unfold splice. cbn [take app Nat.add]. rewrite drop_drop, app_nil_r. done.
Qed.

Lemma enqueue_alloc_run `{MempConf} seg sg s arg p c apiflags ql :
  s_segs s !! seg = Some sg -> h_ok (s_heap s) ->
  is_Some (h_env (s_heap s) (h_nalloc (s_heap s))) ->
  Z.land apiflags TCP_WRITE_FLAG_COPY <> 0 ->
  src_at (s_heap s) arg p c -> is_u16 (Z.of_nat (length c)) ->
  let q := h_next (s_heap s) in
  exists pre, length pre = 54%nat /\ bytes_ok (pre ++ c) /\
    enqueue_alloc seg arg p (Z.of_nat (length c)) apiflags None 0 ql s
    = Done (Some (u16 (ql + 1)),
        put_seg seg (sg <| seg_p := Some q |> <| seg_dataptr := Some (Ptr q 70) |>)
          (with_heap (alloced (s_heap s) (pre ++ c) (seg_buf q (Z.of_nat (length c)))) s)).
Proof.
  intros Hseg Hok Henv Hcopy Hsrc Hn q. set (h := s_heap s) in *.
  destruct (alloc_transport h _ Hok Henv Hn) as (data & Hl & Hby & Ea). fold q in Ea.
  rewrite Nat2Z.id in Hl. set (b := seg_buf q (Z.of_nat (length c))) in *.
  exists (take 54 data).
  assert (Hlt : length (take 54 data) = 54%nat) by (rewrite length_take; lia).
  unfold enqueue_alloc. rewrite (proj2 (Z.eqb_neq _ _) Hcopy). cbn [negb].
  erewrite bind_run by (by apply hp_run).
  erewrite bind_run by (by apply seg_upd_run).
  erewrite bind_run by (apply (pbuf_get_run _ q b); cbn; apply lookup_insert_eq).
  replace (Z.of_nat (length c) <=? pb_len b) with true by (cbn; lia).
  run_assert.
  erewrite bind_run by (apply hp_run, (clen_single _ q b); [cbn; apply lookup_insert_eq | done]).
  rewrite !with_heap_put_seg, !with_heap_twice.
  assert (Hfill : take 54 data ++ c = splice 54 c data).
  { unfold splice. f_equal. rewrite drop_ge by lia. by rewrite app_nil_r. }
  erewrite bind_run with (a := tt)
    (s' := put_seg seg (sg <| seg_p := Some q |>)
             (with_heap (alloced h (splice 54 c data) b) s)).
  - erewrite bind_run by (apply seg_upd_run, put_seg_eq). rewrite put_seg_twice.
    split; [done|]. split; [|by rewrite Hfill].
    apply bytes_ok_app. split; [by apply bytes_ok_take|].
    destruct arg; cbn in Hsrc; [|subst; constructor].
    destruct Hsrc as (pt & _ & Hpt). by eapply bytes_at_ok.
  - destruct arg as [a|]; cbn in Hsrc.
    + destruct Hsrc as (pt & -> & Hpt). cbn [deref].
      erewrite bind_run by done. erewrite bind_run by done.
      erewrite bind_run by (apply hp_run, load_run; by apply bytes_at_fresh).
      erewrite hp_run by (apply (store_all h data c b); lia).
      by rewrite !with_heap_put_seg, !with_heap_twice.
    + subst c. unfold splice. cbn [app length]. rewrite Nat.add_0_r, take_drop.
      done.
Qed.

(** The buffer once the TCP header is in front of the data. *)
Definition hdr_buf (q : loc) (n : Z) : pbuf :=
  Pbuf None (Some (Ptr q 50)) (n + 20) (n + 20) PBUF_RAM 0 1.
Definition set_pbuf (q : loc) (b : pbuf) (h : heap) : heap := h_set_pbufs (<[q := b]> (h_pbufs h)) h.

Lemma header_room h q n : h_pbufs h !! q = Some (seg_buf q n) -> 0 <= n < 2 ^ 16 - 20 ->
  pbuf_header (Some q) TCP_HLEN h = Done (0, set_pbuf q (hdr_buf q n) h).
Proof.
  intros Hq Hn. unfold pbuf_header, TCP_HLEN. erewrite bind_run by done.
  change (20 =? 0) with false. cbn iota. erewrite bind_run by (by apply pget_run).
  change (20 <? 0) with false. cbn [andb seg_buf pb_type pb_payload].
  change ((PBUF_RAM =? PBUF_RAM) || (PBUF_RAM =? PBUF_POOL)) with true. cbn iota.
  erewrite bind_run by done. cbn [ptr_add p_loc p_off]. rewrite bool_decide_true by done.
  change (70 + - (20) <? SIZEOF_STRUCT_PBUF) with false. cbn [negb]. cbn iota.
  unfold pset, modify. cbn. unfold set_pbuf, hdr_buf, pb_set_tot_len, pb_set_len. cbn.
  rewrite !u16_small by (unfold is_u16; lia). done.
Qed.

Lemma enqueue_header_run `{MempConf} pcb pb seg sg s q pre c seqno flags :
  s_tpcbs s !! pcb = Some pb -> is_u16 (pcb_local_port pb) -> is_u16 (pcb_remote_port pb) ->
  is_u32 seqno -> 0 <= flags < 64 ->
  s_segs s !! seg = Some sg -> seg_p sg = Some q -> length pre = 54%nat -> bytes_ok pre ->
  h_blocks (s_heap s) !! q = Some (Block 16 (pre ++ c)) ->
  h_pbufs (s_heap s) !! q = Some (seg_buf q (Z.of_nat (length c))) ->
  Z.of_nat (length c) < 2 ^ 16 - 20 ->
  exists pre' ack wnd ck,
    length pre' = 34%nat /\ length ack = 4%nat /\ length wnd = 2%nat /\ length ck = 2%nat /\
    bytes_ok (pre' ++ ack ++ wnd ++ ck) /\
    enqueue_header pcb seg (Z.of_nat (length c)) seqno flags None 0 s
    = Done (true,
        put_seg seg (sg <| seg_len := Z.of_nat (length c) |> <| seg_tcphdr := Some (Ptr q 50) |>)
          (with_heap (with_block q
             (pre' ++ wire_header (pcb_local_port pb) (pcb_remote_port pb) seqno flags ack wnd ck ++ c)
             (set_pbuf q (hdr_buf q (Z.of_nat (length c))) (s_heap s))) s)).
Proof.
  intros Hpcb Hlp Hrp Hsq Hfl Hseg Hp Hpre Hby Hblk Hbuf Hn. set (n := Z.of_nat (length c)) in *.
  exists (take 34 pre), (take 4 (drop 8 (drop 34 pre))), (take 2 (drop 14 (drop 34 pre))),
    (take 2 (drop 16 (drop 34 pre))).
  rewrite !length_take, !length_drop.
  do 4 (split; [lia|]). split.
  { rewrite !bytes_ok_app. auto 10 with ints. }
  unfold enqueue_header.
  erewrite bind_run by (by apply seg_upd_run).
  erewrite bind_run by (apply seg_get_run, put_seg_eq).
  change (seg_p (sg <| seg_len := n |>)) with (seg_p sg). rewrite Hp.
  erewrite bind_run by (apply hp_run, header_room; [done | lia]).
  change (negb (0 =? 0)) with false. cbn iota. erewrite bind_run by done.
  erewrite bind_run by (eapply pbuf_get_run; cbn; apply lookup_insert_eq).
  erewrite bind_run by (apply seg_upd_run, put_seg_eq).
  erewrite bind_run by done.
  erewrite bind_run by (by eapply pcb_get_run).
  rewrite with_heap_put_seg, put_seg_twice.
  change (s_heap (put_seg seg (sg <| seg_len := n |>) s)) with (s_heap s).
  set (h1 := set_pbuf q (hdr_buf q n) (s_heap s)). set (s1 := put_seg _ _ _).
  assert (Hs1 : s1 = hst q h1 s1 (take 34 pre) c (drop 34 pre)).
  { unfold hst, with_block. rewrite app_assoc, take_drop, insert_id by done.
    transitivity (with_heap h1 s1); [|done].
    unfold s1. by rewrite with_heap_put_seg, with_heap_twice. }
  rewrite Hs1. etransitivity.
  { apply (fill_data_header_run q h1 s1 (take 34 pre) c 50); try done.
    - rewrite length_take, Hpre. done.
    - rewrite length_drop, Hpre. done. }
  unfold mret, M_ret, hst, s1. rewrite with_heap_put_seg, with_heap_twice. done.
Qed.

(** ** A queue of new segments *)
Record item := Item { it_seg : loc; it_buf : loc; it_flags : Z; it_data : list Z }.

(** [x] is a complete segment with the sequence number [seqno]: one buffer
    that holds the header and the data, with room for 34 bytes in front. *)
Definition segment_of (b : tcp_pcb) (s : stack) (nx : option loc) (seqno : Z) (x : item) : Prop :=
  s_segs s !! it_seg x = Some (TcpSeg nx (Some (it_buf x)) (Some (Ptr (it_buf x) 70))
                                 (Z.of_nat (length (it_data x))) (Some (Ptr (it_buf x) 50))) /\
  h_pbufs (s_heap s) !! it_buf x = Some (hdr_buf (it_buf x) (Z.of_nat (length (it_data x)))) /\
  exists pre ack wnd ck,
    length pre = 34%nat /\ length ack = 4%nat /\ length wnd = 2%nat /\ length ck = 2%nat /\
    h_blocks (s_heap s) !! it_buf x
    = Some (Block 16 (pre ++ wire_header (pcb_local_port b) (pcb_remote_port b) seqno (it_flags x)
                               ack wnd ck ++ it_data x)).

(** The segments [xs] follow one another in memory and in sequence space. *)
Fixpoint queued (b : tcp_pcb) (s : stack) (p : option loc) (seqno : Z) (xs : list item) : Prop :=
  match xs with
  | [] => p = None
  | x :: xs => p = Some (it_seg x) /\ exists nx, segment_of b s nx seqno x /\
      queued b s nx (u32 (seqno + Z.of_nat (length (it_data x)))) xs
  end.

(** Only new objects, and the links of [us]. *)
Record grows (us : list loc) (s s' : stack) : Prop := {
  gr_state : s' = with_heap (s_heap s') (s <| s_segs := s_segs s' |>);
  gr_ok : h_ok (s_heap s');
  gr_env : h_env (s_heap s') = h_env (s_heap s);
  gr_asserts : h_asserts (s_heap s') = h_asserts (s_heap s);
  gr_next : (h_next (s_heap s) <= h_next (s_heap s'))%positive;
  gr_pbufs : forall l, (l < h_next (s_heap s))%positive ->
    h_pbufs (s_heap s') !! l = h_pbufs (s_heap s) !! l;
  gr_blocks : forall l, (l < h_next (s_heap s))%positive ->
    h_blocks (s_heap s') !! l = h_blocks (s_heap s) !! l;
  gr_segs : forall l, (l < h_next (s_heap s))%positive -> l ∉ us -> s_segs s' !! l = s_segs s !! l
}.

Lemma grows_trans us us' s s1 s2 :
  grows us s s1 -> grows us' s1 s2 ->
  (forall l, l ∈ us' -> (l < h_next (s_heap s))%positive -> l ∈ us) -> grows us s s2.
Proof.
  intros [A1 A2 A3 A4 A5 A6 A7 A8] [B1 B2 B3 B4 B5 B6 B7 B8] Hus. split.
  - rewrite B1 at 1. rewrite A1. destruct s, s1, s2. done.
  - done.
  - congruence.
  - congruence.
  - lia.
  - intros l Hl. rewrite B6 by lia. by apply A6.
  - intros l Hl. rewrite B7 by lia. by apply A7.
  - intros l Hl Hn. rewrite B8; [by apply A8 | lia |]. intros Hin. by apply Hn, Hus.
Qed.

(** Changing a new block. *)
Lemma grows_touch us s s1 q h :
  grows us s s1 ->
  (h = s_heap s1 \/ exists d, h = with_block q d (s_heap s1) /\ (h_ok (s_heap s1) -> h_ok h)) ->
  (h_next (s_heap s) <= q)%positive -> grows us s (with_heap h s1).
Proof.
  intros Hg [->|(d & -> & Hok)] Hq; [by rewrite with_heap_id|].
  destruct Hg as [A1 A2 A3 A4 A5 A6 A7 A8]. split; try done.
  - rewrite A1. by destruct s1, s.
  - by apply Hok.
  - intros l Hl. cbn. rewrite lookup_insert_ne by lia. by apply A7.
Qed.

(** What malloc_struct does when memory is available. *)
Definition struct_alloced (h : heap) : heap :=
  Heap (h_blocks h) (h_pbufs h) (Pos.succ (h_next h)) (S (h_nalloc h)) (h_env h) (h_asserts h).

Lemma malloc_struct_run s : is_Some (h_env (s_heap s) (h_nalloc (s_heap s))) ->
  exists junk, malloc_struct s
    = Done (Some (h_next (s_heap s), junk), with_heap (struct_alloced (s_heap s)) s).
Proof.
  intros [junk Hj]. exists junk. apply hp_run. rewrite (bind_run _ _ _ (s_heap s) (s_heap s)) by done.
  cbn zeta. by rewrite Hj.
Qed.

(** Link the last segment so far, when there is one. *)
Definition linked (useg : option (loc * tcp_seg)) (l : loc) (s : stack) : stack :=
  match useg with Some (u, ub) => put_seg u (ub <| seg_next := Some l |>) s | None => s end.

Definition turn_state (useg : option (loc * tcp_seg)) (c d : list Z) (s : stack) : stack :=
  let h := struct_alloced (s_heap s) in let l := h_next (s_heap s) in let q := h_next h in
  put_seg l (TcpSeg None (Some q) (Some (Ptr q 70)) (Z.of_nat (length c)) (Some (Ptr q 50)))
    (linked useg l (with_heap (alloced h d (hdr_buf q (Z.of_nat (length c)))) s)).

Lemma turn_grows useg c d s :
  h_ok (s_heap s) -> bytes_ok d -> grows (from_option (fun u => [u.1]) [] useg) s (turn_state useg c d s).
Proof.
  intros Hok Hd.
  assert (Hok1 : h_ok (struct_alloced (s_heap s))).
  { destruct Hok as [H1 H2 H3 H4]. split; cbn; [| |done|done].
    - intros l ?%H1. lia.
    - intros l ?%H2. lia. }
  assert (Hh : s_heap (turn_state useg c d s)
               = alloced (struct_alloced (s_heap s)) d
                   (hdr_buf (h_next (struct_alloced (s_heap s))) (Z.of_nat (length c))))
    by (by destruct useg as [[u ub]|]).
  split; rewrite ?Hh; cbn.
  - destruct useg as [[u ub]|]; by destruct s.
  - by apply h_ok_alloced.
  - done.
  - done.
  - lia.
  - intros l Hl. apply lookup_insert_ne. lia.
  - intros l Hl. apply lookup_insert_ne. lia.
  - intros l Hl Hn. unfold turn_state. cbn. rewrite lookup_insert_ne by lia.
    destruct useg as [[u ub]|]; cbn; [|done]. rewrite lookup_insert_ne; [done|].
    intros ->. apply Hn. cbn. by left.
Qed.

Lemma put_seg_comm l l' b b' s : l <> l' -> put_seg l b (put_seg l' b' s) = put_seg l' b' (put_seg l b s).
Proof. intros H. unfold put_seg. destruct s. unfold set_field. cbn. f_equal. by apply insert_insert_ne. Qed.

Lemma with_heap_linked u l h s : with_heap h (linked u l s) = linked u l (with_heap h s).
Proof. by destruct u as [[]|], s. Qed.
Lemma with_block_set_pbuf h d d' b b' :
  with_block (h_next h) d' (set_pbuf (h_next h) b' (alloced h d b)) = alloced h d' b'.
Proof.
  unfold with_block, set_pbuf, alloced, h_set_blocks, h_set_pbufs. cbn. by rewrite !insert_insert_eq.
Qed.

Lemma struct_alloced_ok h : h_ok h -> h_ok (struct_alloced h).
Proof.
  intros [H1 H2 H3 H4]. split; cbn; [| |done|done].
  - intros l ?%H1. lia.
  - intros l ?%H2. lia.
Qed.

Lemma src_at_same h h' arg p c : h_blocks h' = h_blocks h -> src_at h arg p c -> src_at h' arg p c.
Proof.
  intros E. destruct arg; cbn; [|done]. intros (pt & -> & H). exists pt. split; [done|].
  rewrite <- H. apply bytes_at_blocks. by rewrite E.
Qed.

Lemma wire_header_ok sport dport seqno flags ack wnd ck :
  0 <= flags < 64 -> bytes_ok ack -> bytes_ok wnd -> bytes_ok ck ->
  bytes_ok (wire_header sport dport seqno flags ack wnd ck).
Proof.
  intros Hf Ha Hw Hc. unfold wire_header. rewrite !bytes_ok_app.
  repeat (split; [first [done | apply be_ok | idtac]|]); unfold is_u8;
    repeat (constructor; [unfold is_u8; lia|]); constructor.
Qed.

Lemma queuelen_max : TCP_SND_QUEUELEN = 176.
Proof. done. Qed.

Section turn.
Context `{MempConf}.
Context (pcb : loc) (arg : option ptr) (flags apiflags mss : Z).
Context (Hflags : 0 <= flags < 64) (Hcopy : Z.land apiflags TCP_WRITE_FLAG_COPY <> 0).

(** The local variables agree with the segments queued so far. *)
Definition queue_so_far (s : stack) (queue useg : option loc) (u : option (loc * tcp_seg)) : Prop :=
  match u with
  | None => queue = None /\ useg = None
  | Some (l, b) => is_Some queue /\ useg = Some l /\ s_segs s !! l = Some b /\
                   (l < h_next (s_heap s))%positive
  end.

Lemma enqueue_loop_turn fuel s b queue useg u seg left seqno p seglen ql c :
  s_tpcbs s !! pcb = Some b -> is_u16 (pcb_local_port b) -> is_u16 (pcb_remote_port b) ->
  is_u32 seqno -> h_ok (s_heap s) -> (forall n, is_Some (h_env (s_heap s) n)) ->
  queue_so_far s queue useg u -> is_some queue && (left <=? 0) = false ->
  (if mss <? left then mss else left) = Z.of_nat (length c) ->
  src_at (s_heap s) arg p c -> Z.of_nat (length c) < 2 ^ 16 - 20 ->
  0 <= ql < TCP_SND_QUEUELEN ->
  let l := h_next (s_heap s) in
  exists pre ack wnd ck,
    length pre = 34%nat /\ length ack = 4%nat /\ length wnd = 2%nat /\ length ck = 2%nat /\
    let d := pre ++ wire_header (pcb_local_port b) (pcb_remote_port b) seqno flags ack wnd ck ++ c in
    bytes_ok d /\
    enqueue_loop (S fuel) pcb arg flags apiflags None 0 mss queue useg seg left seqno p seglen ql s
    = enqueue_loop fuel pcb arg flags apiflags None 0 mss (Some (default l queue)) (Some l) (Some l)
        (u16 (left - Z.of_nat (length c))) (u32 (seqno + Z.of_nat (length c)))
        ((fun q => ptr_add q (Z.of_nat (length c))) <$> p) (Z.of_nat (length c)) (ql + 1)
        (turn_state u c d s).
Proof.
  intros Hpcb Hlp Hrp Hsq Hok Henv Hu Hgo Hn Hsrc Hsz Hql l.
  set (h := s_heap s) in *. set (h1 := struct_alloced h). set (q := h_next h1).
  set (blank := TcpSeg None None None 0 None).
  set (s1 := put_seg l blank (linked u l (with_heap h1 s))).
  assert (Hh1 : s_heap s1 = h1) by (by destruct u as [[]|]).
  assert (Ht1 : s_tpcbs s1 = s_tpcbs s) by (by destruct u as [[]|]).
  destruct (enqueue_alloc_run l blank s1 arg p c apiflags ql) as (pre & Hpre & Hby & Ea).
  { apply put_seg_eq. } { rewrite Hh1. by apply struct_alloced_ok. } { rewrite Hh1. apply Henv. }
  { done. } { rewrite Hh1. by apply (src_at_same h). } { unfold is_u16. lia. }
  rewrite Hh1 in Ea. fold q in Ea.
  match type of Ea with _ = Done (_, ?st) => set (s2 := st) in Ea end.
  set (sg := TcpSeg None (Some q) (Some (Ptr q 70)) 0 None).
  assert (Hs2 : s2 = put_seg l sg (with_heap (alloced h1 (pre ++ c) (seg_buf q (Z.of_nat (length c)))) s1))
    by done.
  apply bytes_ok_app in Hby as [Hby Hbc].
  destruct (enqueue_header_run pcb b l sg s2 q pre c seqno flags)
    as (pre' & ack & wnd & ck & L1 & L2 & L3 & L4 & Hby' & Eh); try done.
  { by rewrite Hs2, <- Hpcb, <- Ht1. } { rewrite Hs2. apply put_seg_eq. }
  { rewrite Hs2. cbn. apply lookup_insert_eq. } { rewrite Hs2. cbn. apply lookup_insert_eq. }
  exists pre', ack, wnd, ck. do 4 (split; [done|]). cbn zeta. split.
  { rewrite !bytes_ok_app in Hby'. destruct Hby' as (B1 & B2 & B3 & B4).
    rewrite !bytes_ok_app. split; [done|]. split; [|done]. by apply wire_header_ok. }
  cbn [enqueue_loop]. rewrite Hgo, Hn.
  destruct (malloc_struct_run s (Henv _)) as [junk Em]. run_with Em.
  erewrite bind_run by done.
  rewrite (bind_run _ _ _ (Some (default l queue)) s1).
  - run_with Ea. rewrite u16_small by (unfold is_u16; rewrite queuelen_max in Hql; lia).
    replace ((TCP_SND_QUEUELEN <? ql + 1) || (TCP_SNDQUEUELEN_OVERFLOW <? ql + 1)) with false.
    2: { symmetry. rewrite queuelen_max in *. change TCP_SNDQUEUELEN_OVERFLOW with 65532.
         apply orb_false_intro; apply Z.ltb_ge; lia. }
    run_with Eh. do 2 f_equal. unfold turn_state. fold h. fold h1 l q. rewrite Hs2.
    rewrite with_heap_put_seg, with_heap_twice, put_seg_twice. unfold s1.
    rewrite with_heap_put_seg, put_seg_twice, with_heap_linked, with_heap_twice.
    match goal with |- context [s_heap ?st] =>
      change (s_heap st) with (alloced h1 (pre ++ c) (seg_buf q (Z.of_nat (length c)))) end.
    unfold q at 1 2. rewrite with_block_set_pbuf. done.
  - destruct u as [[u ub]|]; cbn in Hu.
    + destruct Hu as ([q0 ->] & -> & Hub & Hlt).
      run_assert. erewrite bind_run by done.
      erewrite bind_run by (apply seg_upd_run; cbn; rewrite lookup_insert_ne by (unfold l, h in *; lia); done).
      unfold mret, M_ret, s1. cbn [default from_option id]. do 2 f_equal. cbn [linked].
      change (_ <| s_segs := _ |>) with (put_seg l blank (with_heap h1 s)).
      apply put_seg_comm. unfold l, h. lia.
    + destruct Hu as [-> ->]. done.
Qed.

(** The data in chunks of exactly [mss] bytes, but for the last. *)
Fixpoint cut (cs : list (list Z)) : Prop :=
  match cs with
  | [] => False
  | c :: cs' =>
      match cs' with
      | [] => Z.of_nat (length c) <= mss
      | _ => Z.of_nat (length c) = mss /\ concat cs' <> [] /\ cut cs'
      end
  end.

Lemma src_at_grows us s s' p c d :
  h_ok (s_heap s) -> grows us s s' -> src_at (s_heap s) arg p (c ++ d) ->
  src_at (s_heap s') arg ((fun q => ptr_add q (Z.of_nat (length c))) <$> p) d.
Proof.
  intros Hok Hg. destruct arg as [a|]; cbn.
  - intros (pt & -> & Hd). exists (ptr_add pt (Z.of_nat (length c))). split; [done|].
    rewrite length_app, Nat2Z.inj_add in Hd.
    apply (bytes_at_split _ _ _ (Z.of_nat (length c))) in Hd as [_ H2]; [|lia].
    rewrite Nat2Z.id, drop_app_length in H2. rewrite Z.add_simpl_l in H2. rewrite <- H2.
    apply bytes_at_blocks, (gr_blocks _ _ _ Hg), (ok_blocks _ Hok). cbn.
    unfold bytes_at in H2. cbn in H2. by destruct (h_blocks (s_heap s) !! p_loc pt).
  - by intros [-> ->]%app_eq_nil.
Qed.

Lemma src_at_take h p c d : src_at h arg p (c ++ d) -> src_at h arg p c.
Proof.
  destruct arg as [a|]; cbn.
  - intros (pt & -> & Hd). exists pt. split; [done|].
    rewrite length_app, Nat2Z.inj_add in Hd.
    apply (bytes_at_split _ _ _ (Z.of_nat (length c))) in Hd as [H1 _]; [|lia].
    by rewrite Nat2Z.id, take_app_length in H1.
  - by intros [-> _]%app_eq_nil.
Qed.

Definition seg_of (l : option (loc * tcp_seg)) : list loc := from_option (fun u => [u.1]) [] l.

Definition seg_item (nx : option loc) (x : item) : tcp_seg :=
  TcpSeg nx (Some (it_buf x)) (Some (Ptr (it_buf x) 70)) (Z.of_nat (length (it_data x)))
    (Some (Ptr (it_buf x) 50)).

Lemma turn_segment u b pre ack wnd ck seqno c s :
  length pre = 34%nat -> length ack = 4%nat -> length wnd = 2%nat -> length ck = 2%nat ->
  let l := h_next (s_heap s) in
  segment_of b
    (turn_state u c (pre ++ wire_header (pcb_local_port b) (pcb_remote_port b) seqno flags ack wnd ck ++ c) s)
    None seqno (Item l (Pos.succ l) flags c).
Proof.
  intros. unfold segment_of. cbn [it_seg it_buf it_data it_flags]. split; [apply put_seg_eq|].
  split; [destruct u as [[]|]; apply lookup_insert_eq|].
  exists pre, ack, wnd, ck. do 4 (split; [done|]). destruct u as [[]|]; apply lookup_insert_eq.
Qed.

Lemma turn_link u c d s l ub : u = Some (l, ub) -> (l < h_next (s_heap s))%positive ->
  s_segs (turn_state u c d s) !! l = Some (ub <| seg_next := Some (h_next (s_heap s)) |>).
Proof.
  intros -> Hl. unfold turn_state. cbn. rewrite lookup_insert_ne by lia. apply lookup_insert_eq.
Qed.

Lemma segment_grows us b s s' nx nx' seqno x :
  segment_of b s nx seqno x -> grows us s s' -> (it_buf x < h_next (s_heap s))%positive ->
  s_segs s' !! it_seg x = Some (seg_item nx' x) -> segment_of b s' nx' seqno x.
Proof.
  intros (H1 & H2 & H3) Hg Hx Hn. split; [done|].
  by rewrite (gr_pbufs _ _ _ Hg), (gr_blocks _ _ _ Hg) by done.
Qed.

Lemma turn_next u c d s : h_next (s_heap (turn_state u c d s)) = Pos.succ (Pos.succ (h_next (s_heap s))).
Proof. by destruct u as [[]|]. Qed.

(** What one turn leaves, and what the loop leaves. *)
Record turned (s : stack) (b : tcp_pcb) (u : option (loc * tcp_seg)) (seqno : Z) (c : list Z) (s1 : stack)
  : Prop := {
  tn_segment : segment_of b s1 None seqno (Item (h_next (s_heap s)) (Pos.succ (h_next (s_heap s))) flags c);
  tn_grows : grows (seg_of u) s s1;
  tn_next : h_next (s_heap s1) = Pos.succ (Pos.succ (h_next (s_heap s)));
  tn_link : forall l ub, u = Some (l, ub) -> (l < h_next (s_heap s))%positive /\
    s_segs s1 !! l = Some (ub <| seg_next := Some (h_next (s_heap s)) |>)
}.

Record loop_done (s : stack) (b : tcp_pcb) (u : option (loc * tcp_seg)) (seqno : Z) (cs : list (list Z))
    (xs : list item) (y : item) (s' : stack) : Prop := {
  ld_data : it_data <$> xs ++ [y] = cs;
  ld_flags : Forall (fun x => it_flags x = flags) (xs ++ [y]);
  ld_queued : queued b s' (Some (h_next (s_heap s))) seqno (xs ++ [y]);
  ld_grows : grows (seg_of u) s s';
  ld_new : Forall (fun x => h_next (s_heap s) < it_buf x)%positive (xs ++ [y]);
  ld_nodup : NoDup (it_buf <$> xs ++ [y]);
  ld_link : forall l ub, u = Some (l, ub) ->
    s_segs s' !! l = Some (ub <| seg_next := Some (h_next (s_heap s)) |>)
}.

Lemma loop_done_one s b u seqno c s1 : turned s b u seqno c s1 ->
  loop_done s b u seqno [c] [] (Item (h_next (s_heap s)) (Pos.succ (h_next (s_heap s))) flags c) s1.
Proof.
  intros [H1 H2 H3 H4]. split; cbn.
  - done.
  - by constructor.
  - split; [done|]. by exists None.
  - done.
  - constructor; [cbn; lia | constructor].
  - apply NoDup_singleton.
  - intros l ub Hl. by apply H4.
Qed.

Lemma loop_done_cons s b u seqno c s1 cs xs y s' :
  let l := h_next (s_heap s) in let x := Item l (Pos.succ l) flags c in
  turned s b u seqno c s1 ->
  loop_done s1 b (Some (l, seg_item None x)) (u32 (seqno + Z.of_nat (length c))) cs xs y s' ->
  loop_done s b u seqno (c :: cs) (x :: xs) y s'.
Proof.
  intros l x [T1 T2 T3 T4] [L1 L2 L3 L4 L5 L6 L7]. specialize (L7 _ _ eq_refl). rewrite T3 in L5.
  assert (Hnew : forall z, z ∈ xs ++ [y] -> (Pos.succ (Pos.succ l) < it_buf z)%positive)
    by (by apply list.Forall_forall).
  split; cbn.
  - by rewrite L1.
  - by constructor.
  - split; [done|]. exists (Some (h_next (s_heap s1))). split; [|done].
    eapply segment_grows; [exact T1 | exact L4 | rewrite T3; cbn; lia | exact L7].
  - eapply grows_trans; [exact T2 | exact L4|]. intros l0 [->|[]%elem_of_nil]%elem_of_cons Hl0.
    cbn in Hl0. unfold l in Hl0. lia.
  - constructor; [cbn; lia|]. apply list.Forall_forall. intros z Hz%Hnew. unfold l in Hz. lia.
  - apply NoDup_cons. split; [|done]. intros Hin. apply list_elem_of_fmap in Hin as (z & Hz & Hin%Hnew). lia.
  - intros l0 ub Hl0. destruct (T4 _ _ Hl0) as [Hlt Hs1].
    rewrite (gr_segs _ _ _ L4); [exact Hs1 | rewrite T3; lia |]. cbn.
    intros [->|[]%elem_of_nil]%elem_of_cons. unfold l in Hlt. lia.
Qed.

(** The state the loop can go on from. *)
Record ready (s : stack) (b : tcp_pcb) (queue useg : option loc) (u : option (loc * tcp_seg)) (seqno : Z)
    (p : option ptr) (ql : Z) (cs : list (list Z)) : Prop := {
  rd_pcb : s_tpcbs s !! pcb = Some b;
  rd_seqno : is_u32 seqno;
  rd_heap : h_ok (s_heap s);
  rd_env : forall n, is_Some (h_env (s_heap s) n);
  rd_queue : queue_so_far s queue useg u;
  rd_more : queue = None \/ concat cs <> [];
  rd_len : is_u16 (Z.of_nat (length (concat cs)));
  rd_src : src_at (s_heap s) arg p (concat cs);
  rd_ql : 0 <= ql;
  rd_room : ql + Z.of_nat (length cs) <= TCP_SND_QUEUELEN
}.

Lemma enqueue_loop_once fuel s b queue useg u seg seqno p seglen ql c cs :
  0 < mss < 2 ^ 16 - 20 -> is_u16 (pcb_local_port b) -> is_u16 (pcb_remote_port b) ->
  cut (c :: cs) -> ready s b queue useg u seqno p ql (c :: cs) ->
  let l := h_next (s_heap s) in
  exists s1, turned s b u seqno c s1 /\
    enqueue_loop (S fuel) pcb arg flags apiflags None 0 mss queue useg seg
      (Z.of_nat (length (concat (c :: cs)))) seqno p seglen ql s
    = enqueue_loop fuel pcb arg flags apiflags None 0 mss (Some (default l queue)) (Some l) (Some l)
        (Z.of_nat (length (concat cs))) (u32 (seqno + Z.of_nat (length c)))
        ((fun q => ptr_add q (Z.of_nat (length c))) <$> p) (Z.of_nat (length c)) (ql + 1) s1.
Proof.
  intros Hmss Hlp Hrp Hcut [] l. cbn [concat] in *.
  assert (Hc : Z.of_nat (length c) <= mss) by (destruct cs; cbn in Hcut; lia).
  unfold is_u16 in rd_len0. rewrite length_app in rd_len0.
  destruct (enqueue_loop_turn fuel s b queue useg u seg (Z.of_nat (length (c ++ concat cs))) seqno p
              seglen ql c) as (pre & ack & wnd & ck & L1 & L2 & L3 & L4 & Hby & E); try done.
  { destruct queue; [|done]. destruct rd_more0 as [Hq|Hq]; [done|]. cbn. apply Z.leb_gt.
    destruct (c ++ concat cs); [done|]. cbn. lia. }
  { destruct cs as [|c' cs]; cbn in Hcut.
    - cbn. rewrite app_nil_r. destruct (Z.ltb_spec mss (Z.of_nat (length c))); lia.
    - destruct Hcut as (Hm & Hne & _). rewrite (proj2 (Z.ltb_lt _ _)); [done|].
      rewrite length_app. cbn. destruct (c' ++ concat cs); [done|]. cbn. lia. }
  { by eapply src_at_take. }
  { lia. }
  { cbn [length] in rd_room0. lia. }
  eexists. split; cycle 1.
  - rewrite E. f_equal. rewrite length_app, u16_small; unfold is_u16; lia.
  - split.
    + by apply turn_segment.
    + by apply turn_grows.
    + apply turn_next.
    + intros l0 ub ->. destruct rd_queue0 as (_ & _ & _ & Hl). split; [done|]. by apply turn_link.
Qed.

Lemma ready_next s b queue useg u seqno p ql c c' cs s1 :
  let l := h_next (s_heap s) in
  ready s b queue useg u seqno p ql (c :: c' :: cs) -> cut (c :: c' :: cs) -> turned s b u seqno c s1 ->
  ready s1 b (Some (default l queue)) (Some l)
    (Some (l, seg_item None (Item l (Pos.succ l) flags c))) (u32 (seqno + Z.of_nat (length c)))
    ((fun q => ptr_add q (Z.of_nat (length c))) <$> p) (ql + 1) (c' :: cs).
Proof.
  intros l [] Hcut [T1 T2 T3 T4]. unfold is_u16 in *.
  change (concat (c :: c' :: cs)) with (c ++ concat (c' :: cs)) in *. rewrite length_app in rd_len0.
  split.
  - by rewrite (gr_state _ _ _ T2).
  - apply u32_range.
  - apply T2.
  - intros n. by rewrite (gr_env _ _ _ T2).
  - unfold queue_so_far. rewrite T3. split; [by eexists|]. split; [done|]. split; [apply T1 | lia].
  - right. by destruct Hcut as (_ & ? & _).
  - unfold is_u16. lia.
  - by apply (src_at_grows _ _ _ _ _ _ rd_heap0 T2).
  - lia.
  - cbn [length] in *. lia.
Qed.

Lemma enqueue_loop_run cs : forall fuel s b queue useg u seg seqno p seglen ql,
  0 < mss < 2 ^ 16 - 20 -> is_u16 (pcb_local_port b) -> is_u16 (pcb_remote_port b) ->
  cut cs -> ready s b queue useg u seqno p ql cs -> (length cs <= fuel)%nat ->
  exists xs y s',
    enqueue_loop fuel pcb arg flags apiflags None 0 mss queue useg seg
      (Z.of_nat (length (concat cs))) seqno p seglen ql s
    = Done (Enq true (Some (default (h_next (s_heap s)) queue)) (Some (it_seg y))
              (Z.of_nat (length (it_data y))) (ql + Z.of_nat (length cs)), s')
    /\ loop_done s b u seqno cs xs y s'.
Proof.
  induction cs as [|c cs IH]; [done|].
  intros [|fuel] s b queue useg u seg seqno p seglen ql Hmss Hlp Hrp Hcut Hr Hf; [cbn in Hf; lia|].
  destruct (enqueue_loop_once fuel s b queue useg u seg seqno p seglen ql c cs) as (s1 & T & E); try done.
  rewrite E. destruct cs as [|c' cs].
  - eexists [], _, s1. split; [|by apply loop_done_one].
    by destruct fuel; cbn [enqueue_loop is_some andb concat length Z.of_nat Z.leb].
  - destruct (IH fuel s1 b (Some (default (h_next (s_heap s)) queue)) (Some (h_next (s_heap s)))
      (Some (h_next (s_heap s), seg_item None (Item (h_next (s_heap s)) (Pos.succ (h_next (s_heap s))) flags c)))
      (Some (h_next (s_heap s))) (u32 (seqno + Z.of_nat (length c)))
      ((fun q => ptr_add q (Z.of_nat (length c))) <$> p) (Z.of_nat (length c)) (ql + 1))
      as (xs & y & s' & E' & Hd); try done.
    { by destruct Hcut as (_ & _ & ?). }
    { by eapply ready_next. }
    { cbn [length] in *. lia. }
    eexists (_ :: xs), y, s'. split; [|by eapply loop_done_cons].
    rewrite E'. do 3 f_equal. cbn [length]. lia.
Qed.
End turn.

(** ** Setting a flag in a finished header *)
Lemma wire_header_length sport dport seqno flags ack wnd ck :
  length ack = 4%nat -> length wnd = 2%nat -> length ck = 2%nat ->
  length (wire_header sport dport seqno flags ack wnd ck) = 20%nat.
Proof. intros H1 H2 H3. unfold wire_header. rewrite !length_app, H1, H2, H3. done. Qed.

Lemma set_flag_word f g : 0 <= f < 64 -> 0 <= g < 64 ->
  htons (u16 (Z.lor (ntohs (80 + 2 ^ 8 * f)) g)) = 80 + 2 ^ 8 * Z.lor f g /\ 0 <= Z.lor f g < 64.
Proof.
  intros Hf Hg.
  assert (Hr : 0 <= Z.lor f g < 64).
  { split; [apply Z.lor_nonneg; lia|].
    rewrite <- (Z.mod_small f 64), <- (Z.mod_small g 64), <- !land_63, <- Z.land_lor_distr_l, land_63 by lia.
    apply Z.mod_pos_bound. lia. }
  split; [|done]. unfold ntohs. change (2 ^ 8) with 256. rewrite (htons_bytes 80 f) by (unfold is_u8; lia).
  assert (Hw : forall x, 0 <= x < 64 -> Z.lor (256 * 80) x = 256 * 80 + x).
  { intros x Hx. apply (lor_add_low 80 x 8); lia. }
  rewrite <- Hw, <- Z.lor_assoc, Hw by done.
  rewrite u16_small by (unfold is_u16; lia).
  rewrite (Z.add_comm (256 * 80)). rewrite (htons_bytes (Z.lor f g) 80) by (unfold is_u8; lia). lia.
Qed.

Lemma wire_header_set_flag sport dport seqno f g ack wnd ck :
  0 <= f < 64 -> 0 <= g < 64 -> length ack = 4%nat ->
  let hdr := wire_header sport dport seqno f ack wnd ck in
  put_word 12 (htons (u16 (Z.lor (ntohs (flags_of hdr)) g))) hdr
  = wire_header sport dport seqno (Z.lor f g) ack wnd ck.
Proof.
  intros Hf Hg Ha hdr. destruct (set_flag_word f g Hf Hg) as [E Hr].
  do 4 (destruct ack as [|? ack]; [done|]). destruct ack; [|done].
  change (flags_of hdr) with (80 + 2 ^ 8 * f). rewrite E.
  unfold hdr, put_word, splice, wire_header. cbn [take drop app length Nat.add be16 be32].
  assert (u8 (80 + 2 ^ 8 * Z.lor f g) = 80) as ->
    by (unfold u8; Z.div_mod_to_equations; lia).
  assert (u8 ((80 + 2 ^ 8 * Z.lor f g) / 2 ^ 8) = Z.lor f g) as ->
    by (unfold u8; Z.div_mod_to_equations; lia).
  done.
Qed.

(** The same item with more flags. *)
Definition flagged (x : item) (g : Z) : item :=
  Item (it_seg x) (it_buf x) (Z.lor (it_flags x) g) (it_data x).

Lemma h_ok_with_block h q d : h_ok h -> is_Some (h_blocks h !! q) -> bytes_ok d ->
  h_ok (with_block q d h).
Proof.
  intros [H1 H2 H3 H4] Hq Hd. split; cbn; [done | | |].
  - intros l. rewrite lookup_insert. case_decide; [subst; intros _; by apply H2 | apply H2].
  - intros l Hl. rewrite lookup_insert. case_decide; [subst; by eexists | by apply H3].
  - intros l blk. rewrite lookup_insert. case_decide; [by intros [= <-] | apply H4].
Qed.

Lemma segment_set_flag b s nx seqno x g :
  segment_of b s nx seqno x -> 0 <= it_flags x < 64 -> 0 <= g < 64 ->
  exists d, let s' := with_heap (with_block (it_buf x) d (s_heap s)) s in
    TCPH_SET_FLAG (Ptr (it_buf x) 50) g s = Done (tt, s') /\ segment_of b s' nx seqno (flagged x g)
    /\ (h_ok (s_heap s) -> h_ok (s_heap s')).
Proof.
  intros (H1 & H2 & pre & ack & wnd & ck & L1 & L2 & L3 & L4 & H3) Hf Hg.
  set (hdr := wire_header _ _ _ _ _ _ _) in *.
  pose proof (wire_header_length (pcb_local_port b) (pcb_remote_port b) seqno (it_flags x) ack wnd ck L2 L3 L4) as Hl.
  eexists. split.
  - assert (Hs : s = hst (it_buf x) (s_heap s) s pre (it_data x) hdr).
    { unfold hst, with_block. rewrite insert_id by done.
      transitivity (with_heap (s_heap s) s); [by rewrite with_heap_id | by destruct (s_heap s)]. }
    rewrite Hs at 1. rewrite TCPH_SET_FLAG_hst; [|by rewrite L1|exact Hl]. unfold hdr.
    rewrite wire_header_set_flag by done. done.
  - split.
    { split; [done|]. split; [done|]. exists pre, ack, wnd, ck. do 4 (split; [done|]).
      cbn. apply lookup_insert_eq. }
    intros Hok. apply h_ok_with_block; [done | by eexists |].
    pose proof (ok_bytes _ Hok _ _ H3) as Hby. cbn [b_data] in Hby. unfold hdr, wire_header in Hby.
    rewrite !bytes_ok_app in Hby. rewrite !bytes_ok_app.
    split; [tauto|]. split; [|tauto]. apply wire_header_ok; try tauto. by apply set_flag_word.
Qed.

Lemma queued_set_flag b s p seqno xs y g :
  queued b s p seqno (xs ++ [y]) -> NoDup (it_buf <$> xs ++ [y]) -> 0 <= it_flags y < 64 -> 0 <= g < 64 ->
  exists d, let s' := with_heap (with_block (it_buf y) d (s_heap s)) s in
    TCPH_SET_FLAG (Ptr (it_buf y) 50) g s = Done (tt, s') /\ queued b s' p seqno (xs ++ [flagged y g])
    /\ (h_ok (s_heap s) -> h_ok (s_heap s')).
Proof.
  intros Hq Hnd Hf Hg. revert p seqno Hq Hnd. induction xs as [|x xs IH]; intros p seqno Hq Hnd.
  - destruct Hq as (-> & nx & Hy & Hn). destruct (segment_set_flag b s nx seqno y g Hy Hf Hg) as (d & E & Hs & Hok).
    exists d. split; [done|]. split; [|done]. split; [done|]. by exists nx.
  - cbn [app] in *. destruct Hq as (-> & nx & Hx & Hn). cbn in Hnd. apply NoDup_cons in Hnd as [Hni Hnd].
    destruct (IH _ _ Hn Hnd) as (d & E & Hs & Hok). exists d. split; [done|]. split; [|done].
    split; [done|]. exists nx. split; [|done]. destruct Hx as (H1 & H2 & H3). split; [done|]. split; [done|]. cbn.
    rewrite lookup_insert_ne; [done|]. intros Heq. apply Hni. rewrite <- Heq.
    apply list_elem_of_fmap. exists y. split; [done|]. apply elem_of_app. right. by left.
Qed.

(** ** The whole of tcp_enqueue on an empty send queue *)

(** Data in segments of [mss] bytes; no data is one empty segment. *)
Fixpoint cut_up (n : nat) (mss : Z) (d : list Z) : list (list Z) :=
  match n with
  | O => [d]
  | S n => if Z.of_nat (length d) <=? mss then [d]
           else take (Z.to_nat mss) d :: cut_up n mss (drop (Z.to_nat mss) d)
  end.
Definition chunks (mss : Z) (d : list Z) : list (list Z) := cut_up (length d) mss d.

Lemma cut_up_spec n mss d : 0 < mss -> Z.of_nat (length d) <= (Z.of_nat n + 1) * mss ->
  cut mss (cut_up n mss d) /\ concat (cut_up n mss d) = d.
Proof.
  intros Hm. revert d. induction n as [|n IH]; intros d Hn.
  - cbn. rewrite app_nil_r. split; [lia | done].
  - cbn [cut_up]. destruct (Z.leb_spec (Z.of_nat (length d)) mss).
    + cbn. by rewrite app_nil_r.
    + assert (Hd : Z.of_nat (length (drop (Z.to_nat mss) d)) = Z.of_nat (length d) - mss)
        by (rewrite length_drop; lia).
      destruct (IH (drop (Z.to_nat mss) d)) as [Hc Hd']; [lia|]. split.
      * cbn [cut]. destruct (cut_up n mss (drop (Z.to_nat mss) d)) as [|c cs] eqn:E; [done|].
        rewrite length_take. split; [lia|]. split; [|done]. rewrite Hd'. intros Hnil.
        rewrite Hnil in Hd. cbn in Hd. lia.
      * cbn. by rewrite Hd', take_drop.
Qed.

Lemma chunks_cut mss d : 0 < mss -> cut mss (chunks mss d) /\ concat (chunks mss d) = d.
Proof. intros Hm. apply cut_up_spec; [done|]. nia. Qed.

Lemma cut_snoc mss cs c : cut mss (cs ++ [c]) -> concat (cs ++ [c]) <> [] ->
  Forall (fun c => Z.of_nat (length c) = mss) cs /\ Z.of_nat (length c) <= mss /\ c <> [].
Proof.
  induction cs as [|x cs IH]; cbn [app cut].
  - intros H Hn. split; [constructor|]. split; [done|]. cbn in Hn. by rewrite app_nil_r in Hn.
  - destruct (cs ++ [c]) as [|y ys] eqn:E; [by destruct cs|].
    intros (Hx & Hn & Hc) _. destruct IH as (H1 & H2 & H3); [done | done |]. by repeat constructor.
Qed.

Lemma queued_ext b s s' p seqno xs :
  s_segs s' = s_segs s -> s_heap s' = s_heap s -> queued b s p seqno xs -> queued b s' p seqno xs.
Proof.
  intros E1 E2. revert p seqno. induction xs as [|x xs IH]; intros p seqno; cbn; [done|].
  intros (-> & nx & Hx & Hn). split; [done|]. exists nx. unfold segment_of.
  rewrite E1, E2. split; [exact Hx | by apply IH].
Qed.

Lemma queued_head b s q seqno xs : queued b s (Some q) seqno xs -> exists sg, s_segs s !! q = Some sg.
Proof.
  destruct xs as [|x xs]; [done|]. intros ([= ->] & nx & Hx & _). eexists. apply Hx.
Qed.

Lemma queued_last b s p seqno xs y : queued b s p seqno (xs ++ [y]) ->
  s_segs s !! it_seg y = Some (seg_item None y).
Proof.
  revert p seqno. induction xs as [|x xs IH]; intros p seqno; cbn.
  - by intros (-> & nx & Hy & ->); apply Hy.
  - intros (_ & nx & _ & Hn). by eapply IH.
Qed.

(** The control block after [len] bytes have been queued at [q]. *)
Definition sent_pcb (q : loc) (len flags nsegs : Z) (b : tcp_pcb) : tcp_pcb :=
  let len := if has flags TCP_SYN || has flags TCP_FIN then u16 (len + 1) else len in
  let b := b <| pcb_unsent := Some q |> in
  let b := if has flags TCP_FIN then b <| pcb_flags := or8 (pcb_flags b) TF_FIN |> else b in
  b <| pcb_snd_lbb := u32 (pcb_snd_lbb b + len) |>
    <| pcb_snd_buf := u16 (pcb_snd_buf b - len) |>
    <| pcb_snd_queuelen := pcb_snd_queuelen b + nsegs |>.

(** The flags of the last segment. *)
Definition last_flags (flags apiflags len : Z) : Z :=
  if (0 <? len) && (Z.land apiflags TCP_WRITE_FLAG_MORE =? 0) then Z.lor flags TCP_PSH else flags.

(** What the caller must provide. *)
Record can_enqueue (s : stack) (pcb : loc) (b : tcp_pcb) (arg : option ptr) (d : list Z) (flags apiflags : Z)
  : Prop := {
  ce_pcb : s_tpcbs s !! pcb = Some b;
  ce_unsent : pcb_unsent b = None;
  ce_queue : pcb_snd_queuelen b = 0 <-> pcb_unacked b = None;
  ce_qlen : 0 <= pcb_snd_queuelen b;
  ce_room : pcb_snd_queuelen b + Z.of_nat (length (chunks (pcb_mss b) d)) <= TCP_SND_QUEUELEN;
  ce_mss : 0 < pcb_mss b < 2 ^ 16 - 20;
  ce_buf : Z.of_nat (length d) <= pcb_snd_buf b /\ is_u16 (pcb_snd_buf b);
  ce_ports : is_u16 (pcb_local_port b) /\ is_u16 (pcb_remote_port b);
  ce_lbb : is_u32 (pcb_snd_lbb b);
  ce_flags : 0 <= flags < 64;
  ce_copy : Z.land apiflags TCP_WRITE_FLAG_COPY <> 0;
  ce_heap : h_ok (s_heap s);
  ce_env : forall n, is_Some (h_env (s_heap s) n);
  ce_src : src_at (s_heap s) arg arg d
}.

(** What it gets: the segments and the control block, and nothing else. *)
Definition enqueued (s s' : stack) (pcb : loc) (b : tcp_pcb) (d : list Z) (flags apiflags : Z)
    (xs : list item) (y : item) : Prop :=
  it_data <$> xs ++ [y] = chunks (pcb_mss b) d /\
  Forall (fun x => it_flags x = flags) xs /\
  it_flags y = last_flags flags apiflags (Z.of_nat (length (it_data y))) /\
  queued b s' (Some (h_next (s_heap s))) (pcb_snd_lbb b) (xs ++ [y]) /\
  s_tpcbs s' = <[pcb := sent_pcb (h_next (s_heap s)) (Z.of_nat (length d)) flags
                          (Z.of_nat (length (xs ++ [y]))) b]> (s_tpcbs s) /\
  grows [] s (s' <| s_tpcbs := s_tpcbs s |>).

Section enqueue.
Context `{MempConf}.
Context (s : stack) (pcb : loc) (b : tcp_pcb) (arg : option ptr) (d : list Z) (flags apiflags : Z).
Context (C : can_enqueue s pcb b arg d flags apiflags).

Lemma enqueue_loop_all :
  exists xs y s1,
    enqueue_loop enqueue_fuel pcb arg flags apiflags None 0 (pcb_mss b) None None None
      (Z.of_nat (length d)) (pcb_snd_lbb b) arg 0 (pcb_snd_queuelen b) s
    = Done (Enq true (Some (h_next (s_heap s))) (Some (it_seg y)) (Z.of_nat (length (it_data y)))
              (pcb_snd_queuelen b + Z.of_nat (length (xs ++ [y]))), s1)
    /\ loop_done flags s b None (pcb_snd_lbb b) (chunks (pcb_mss b) d) xs y s1.
Proof.
  destruct C. destruct ce_ports0, ce_buf0. unfold is_u16 in *.
  destruct (chunks_cut (pcb_mss b) d) as [Hcut Hd]; [lia|].
  pose proof queuelen_max as Hmax. rewrite <- Hd in ce_src0.
  destruct (enqueue_loop_run pcb arg flags apiflags (pcb_mss b) ce_flags0 ce_copy0 (chunks (pcb_mss b) d)
    enqueue_fuel s b None None None None (pcb_snd_lbb b) arg 0 (pcb_snd_queuelen b))
    as (xs & y & s1 & E & G); try done.
  - split; try done; [by left | rewrite Hd; unfold is_u16; lia].
  - unfold enqueue_fuel. lia.
  - exists xs, y, s1. rewrite Hd in E. split; [|done].
    rewrite <- (ld_data _ _ _ _ _ _ _ _ _ G), length_fmap in E. exact E.
Qed.

Lemma enqueue_append_empty s1 q sg seg :
  s_tpcbs s1 !! pcb = Some b -> s_segs s1 !! q = Some sg ->
  enqueue_append pcb q seg flags s1 = Done (Some seg, put_pcb pcb (b <| pcb_unsent := Some q |>) s1).
Proof.
  intros Hb Hq. unfold enqueue_append. erewrite bind_run by (by apply pcb_get_run).
  rewrite (ce_unsent _ _ _ _ _ _ _ C). erewrite bind_run by done.
  erewrite bind_run by (by apply seg_get_run). erewrite bind_run by done.
  by erewrite bind_run by (by apply pcb_upd_run).
Qed.

(** The bookkeeping of the control block. *)
Lemma enqueue_account {A} (k : M stack A) s1 q n m :
  m = pcb_snd_queuelen b + n ->
  let len := if has flags TCP_SYN || has flags TCP_FIN then u16 (Z.of_nat (length d) + 1)
             else Z.of_nat (length d) in
  (when (has flags TCP_FIN) (pcb_upd pcb (fun b => b <| pcb_flags := or8 (pcb_flags b) TF_FIN |>));;
   pcb_upd pcb (fun b => b <| pcb_snd_lbb := u32 (pcb_snd_lbb b + len) |>
                           <| pcb_snd_buf := u16 (pcb_snd_buf b - len) |>
                           <| pcb_snd_queuelen := m |>);; k)
    (put_pcb pcb (b <| pcb_unsent := Some q |>) s1)
  = k (put_pcb pcb (sent_pcb q (Z.of_nat (length d)) flags n b) s1).
Proof.
  intros ->. cbn zeta. unfold sent_pcb, when. destruct (has flags TCP_FIN).
  - erewrite bind_run by (apply pcb_upd_run, put_pcb_eq). rewrite put_pcb_twice.
    erewrite bind_run by (apply pcb_upd_run, put_pcb_eq). by rewrite put_pcb_twice.
  - erewrite bind_run by done.
    erewrite bind_run by (apply pcb_upd_run, put_pcb_eq). by rewrite put_pcb_twice.
Qed.

Lemma enqueue_asserts : 
  (if negb (pcb_snd_queuelen b =? 0)
   then ASSERT "tcp_enqueue: pbufs on queue => at least one queue non-empty" (queues_nonempty b)
   else ASSERT "tcp_enqueue: no pbufs on queue => both queues empty" (negb (queues_nonempty b))) s
  = Done (tt, s).
Proof.
  destruct C. unfold queues_nonempty. rewrite ce_unsent0.
  destruct (Z.eqb_spec (pcb_snd_queuelen b) 0) as [E|E]; cbn [negb].
  - rewrite (proj1 ce_queue0 E). apply ASSERT_true.
  - destruct (pcb_unacked b); [apply ASSERT_true|]. by rewrite (proj2 ce_queue0) in E.
Qed.

Lemma sent_assert q len n s1 :
  let b' := sent_pcb q len flags n b in
  when (negb (pcb_snd_queuelen b' =? 0))
    (ASSERT "tcp_enqueue: valid queue length" (queues_nonempty b')) s1 = Done (tt, s1).
Proof.
  cbn zeta. unfold when. destruct (negb _); [|done].
  replace (queues_nonempty _) with true; [apply ASSERT_true|].
  unfold queues_nonempty, sent_pcb. symmetry. apply orb_true_intro. right. by destruct (has flags TCP_FIN).
Qed.

(** The PSH flag of the last segment. *)
Lemma set_psh s2 p seqno xs y :
  queued b s2 p seqno (xs ++ [y]) -> NoDup (it_buf <$> xs ++ [y]) -> it_flags y = flags ->
  exists h y',
    (sb ← seg_get (it_seg y);
     match seg_tcphdr sb with
     | Some h => when ((0 <? Z.of_nat (length (it_data y))) && (Z.land apiflags TCP_WRITE_FLAG_MORE =? 0))
                   (TCPH_SET_FLAG h TCP_PSH)
     | None => mret tt
     end) s2 = Done (tt, with_heap h s2)
    /\ queued b (with_heap h s2) p seqno (xs ++ [y']) /\ it_data y' = it_data y
    /\ it_flags y' = last_flags flags apiflags (Z.of_nat (length (it_data y)))
    /\ (h = s_heap s2 \/ exists d, h = with_block (it_buf y) d (s_heap s2) /\ (h_ok (s_heap s2) -> h_ok h)).
Proof.
  intros Hq Hnd Hf. erewrite bind_run by (by eapply seg_get_run, queued_last).
  cbn [seg_tcphdr seg_item]. unfold when, last_flags. destruct (_ && _).
  - destruct (queued_set_flag b s2 p seqno xs y TCP_PSH Hq Hnd) as (d' & E & Hq' & Hok).
    { rewrite Hf. apply C. } { done. }
    eexists _, (flagged y TCP_PSH). split; [exact E|]. split; [done|]. split; [done|].
    split; [cbn; by rewrite Hf|]. right. by exists d'.
  - exists (s_heap s2), y. rewrite with_heap_id. split; [done|]. split; [done|]. split; [done|].
    split; [done|]. by left.
Qed.

Lemma tcp_enqueue_run :
  exists s' xs y,
    tcp_enqueue pcb arg (Z.of_nat (length d)) flags apiflags None 0 s = Done (ERR_OK, s')
    /\ enqueued s s' pcb b d flags apiflags xs y.
Proof.
  destruct enqueue_loop_all as (xs & y & s1 & E & [H1 H2 H3 H4 H5 H6 _]).
  pose proof C as [].
  assert (Hb1 : s_tpcbs s1 !! pcb = Some b) by (by rewrite (gr_state _ _ _ H4)).
  unfold tcp_enqueue. rewrite orb_true_r, andb_false_r. cbn [negb].
  erewrite bind_run by (by apply pcb_get_run).
  rewrite (proj2 (Z.ltb_ge _ _)) by tauto.
  assert (Hn : 0 < Z.of_nat (length (chunks (pcb_mss b) d)))
    by (rewrite <- H1, length_fmap, length_app; cbn; lia).
  replace ((TCP_SND_QUEUELEN <=? pcb_snd_queuelen b) || (TCP_SNDQUEUELEN_OVERFLOW <? pcb_snd_queuelen b))
    with false.
  2: { rewrite queuelen_max in *. change TCP_SNDQUEUELEN_OVERFLOW with 65532. symmetry.
       apply orb_false_intro; [apply Z.leb_gt | apply Z.ltb_ge]; lia. }
  rewrite (bind_run _ _ _ tt s) by by apply enqueue_asserts.
  run_with E. cbn [enq_ok negb enq_queue enq_seg enq_seglen enq_queuelen].
  erewrite bind_run by done.
  destruct (queued_head _ _ _ _ _ H3) as [sg Hsg].
  erewrite bind_run by (by eapply enqueue_append_empty).
  cbn beta iota zeta. rewrite (enqueue_account _ s1 _ _ _ eq_refl).
  set (b' := sent_pcb _ _ _ _ b). set (s2 := put_pcb pcb b' s1).
  erewrite bind_run by (apply pcb_get_run, put_pcb_eq).
  rewrite (bind_run _ _ _ tt s2) by apply sent_assert.
  assert (H3' : queued b s2 (Some (h_next (s_heap s))) (pcb_snd_lbb b) (xs ++ [y]))
    by (by apply (queued_ext _ s1)).
  apply Forall_app in H2 as [H2 [H2' _]%list.Forall_cons].
  apply Forall_app in H5 as [_ [H5 _]%list.Forall_cons].
  destruct (set_psh s2 (Some (h_next (s_heap s))) (pcb_snd_lbb b) xs y H3' H6 H2')
    as (h3 & y' & E3 & Hq3 & Hd3 & Hf3 & Hh3).
  run_with E3. exists (with_heap h3 s2), xs, y'. split; [done|].
  split; [by rewrite <- H1, !fmap_app; cbn; rewrite Hd3|].
  split; [done|]. split; [by rewrite Hd3|]. split; [done|].
  split.
  { rewrite !length_app. change (s_tpcbs (with_heap h3 s2)) with (<[pcb := b']> (s_tpcbs s1)).
    rewrite (gr_state _ _ _ H4). unfold b'. by rewrite length_app. }
  replace (_ <| s_tpcbs := s_tpcbs s |>) with (with_heap h3 s1).
  - eapply grows_touch; [exact H4 | exact Hh3 | lia].
  - unfold s2. rewrite (gr_state _ _ _ H4). by destruct s1.
Qed.
End enqueue.

Lemma has_lor x f g : has x (Z.lor f g) = has x f || has x g.
Proof.
  unfold has. rewrite Z.land_lor_distr_r.
  destruct (Z.eqb_spec (Z.land x f) 0) as [E|E], (Z.eqb_spec (Z.land x g) 0) as [E'|E']; cbn.
  - by rewrite E, E'.
  - rewrite E, Z.lor_0_l. by apply negb_true_iff, Z.eqb_neq.
  - rewrite E', Z.lor_0_r. by apply negb_true_iff, Z.eqb_neq.
  - apply negb_true_iff, Z.eqb_neq. by intros [? _]%Z.lor_eq_0_iff.
Qed.

(** ** Properties *)

(** C2: tcp_write with TCP_WRITE_FLAG_COPY on an empty send queue, when memory
    is available: the data becomes segments of exactly one MSS but for the
    last, each a complete header with consecutive sequence numbers in front of
    its bytes, linked as the unsent queue; the control block accounts for the
    bytes and the segments, no assertion fails and nothing else changes.  PSH
    is on the last segment unless TCP_WRITE_FLAG_MORE is given: the comments
    of tcp_write and tcp_enqueue have it the other way round. *)
Theorem tcp_write_segments `{MempConf} s pcb b p d apiflags :
  can_enqueue s pcb b (Some p) d 0 apiflags -> 0 < Z.of_nat (length d) ->
  pcb_state b ∈ [ESTABLISHED; CLOSE_WAIT; SYN_SENT; SYN_RCVD] ->
  exists s' xs y,
    tcp_write pcb (Some p) (Z.of_nat (length d)) apiflags s = Done (ERR_OK, s')
    /\ enqueued s s' pcb b d 0 apiflags xs y
    /\ concat (it_data <$> xs ++ [y]) = d
    /\ Forall (fun x => Z.of_nat (length (it_data x)) = pcb_mss b) xs
    /\ 0 < Z.of_nat (length (it_data y)) <= pcb_mss b.
Proof.
  intros C Hd Hst. destruct (tcp_enqueue_run s pcb b (Some p) d 0 apiflags C) as (s' & xs & y & E & Hq).
  exists s', xs, y. split.
  - unfold tcp_write. erewrite bind_run by (apply pcb_get_run, C).
    replace (state_is _ _ || _ || _ || _) with true.
    + by rewrite (proj2 (Z.ltb_lt _ _) Hd).
    + symmetry. rewrite !elem_of_cons, elem_of_nil in Hst.
      destruct Hst as [->|[->|[->|[->|[]]]]]; reflexivity.
  - split; [done|]. destruct (chunks_cut (pcb_mss b) d (proj1 (ce_mss _ _ _ _ _ _ _ C))) as [Hc Hcc].
    destruct Hq as [Hx _]. rewrite <- Hx in Hc, Hcc. split; [done|]. rewrite fmap_app in Hc, Hcc.
    change (it_data <$> [y]) with [it_data y] in Hc, Hcc. destruct (cut_snoc _ _ _ Hc) as (H1 & H2 & H3); [rewrite Hcc; by destruct d|].
    split; [by apply Forall_fmap in H1|]. destruct (it_data y); [done|]. cbn in *. lia.
Qed.

(** 5 bytes at a maximal segment size of 2. *)
Definition ex_source : heap :=
  Heap {[50%positive := Block 0 [11; 12; 13; 14; 15]]} ∅ 100 0 (fun _ => Some (fun _ => 7)) [].
Definition ex_sender : tcp_pcb := (ex_pcb 4097 10 80 20 ESTABLISHED None) <| pcb_mss := 2 |>.
Definition ex_send : stack :=
  ex_stack ex_source ∅ {[3%positive := ex_sender]} ∅ (ex_globals None None (Some 3%positive) None).

Lemma ex_source_ok : h_ok ex_source.
Proof.
  split; cbn.
  - intros l [? Hl]. by rewrite lookup_empty in Hl.
  - intros l. rewrite lookup_singleton_is_Some. intros <-. lia.
  - intros l [? Hl]. by rewrite lookup_empty in Hl.
  - intros l blk Hl. apply lookup_singleton_Some in Hl as [_ <-]. cbn.
    repeat (constructor; [unfold is_u8; lia|]). constructor.
Qed.

Lemma tcp_write_segments_witness :
  exists s' xs y,
    @tcp_write memp_core 3 (Some (Ptr 50 0)) 5 TCP_WRITE_FLAG_COPY ex_send = Done (ERR_OK, s')
    /\ enqueued ex_send s' 3 ex_sender [11; 12; 13; 14; 15] 0 TCP_WRITE_FLAG_COPY xs y
    /\ it_data <$> xs ++ [y] = [[11; 12]; [13; 14]; [15]] /\ it_flags y = TCP_PSH.
Proof.
  destruct (@tcp_write_segments memp_core ex_send 3 ex_sender (Ptr 50 0) [11; 12; 13; 14; 15]
              TCP_WRITE_FLAG_COPY) as (s' & xs & y & E & Hq & Hc & H1 & H2).
  - split; try done; try (vm_compute; intuition congruence).
    + apply ex_source_ok.
    + exists (Ptr 50 0). by vm_compute.
  - done.
  - by left.
  - exists s', xs, y. split; [exact E|]. split; [exact Hq|]. pose proof Hq as (Hx & _ & Hf & _).
    split; [rewrite Hx; by vm_compute|]. rewrite Hf. unfold last_flags. 
    rewrite (proj2 (Z.ltb_lt _ _) (proj1 H2)). reflexivity.
Defined.

(** C7: tcp_send_ctrl on an empty send queue: a SYN or FIN becomes one empty
    segment that carries the flags and takes one sequence number and one byte
    of the send buffer; when the send buffer is used up, its u16_t size wraps
    to 65535. *)
Theorem tcp_send_ctrl_segment `{MempConf} s pcb b flags :
  can_enqueue s pcb b None [] flags TCP_WRITE_FLAG_COPY -> has flags (Z.lor TCP_SYN TCP_FIN) = true ->
  exists s' y b',
    tcp_send_ctrl pcb flags s = Done (ERR_OK, s')
    /\ enqueued s s' pcb b [] flags TCP_WRITE_FLAG_COPY [] y
    /\ it_data y = [] /\ it_flags y = flags
    /\ s_tpcbs s' !! pcb = Some b' /\ pcb_unsent b' = Some (it_seg y)
    /\ pcb_snd_lbb b' = u32 (pcb_snd_lbb b + 1)
    /\ pcb_snd_queuelen b' = pcb_snd_queuelen b + 1
    /\ pcb_snd_buf b' = (if pcb_snd_buf b =? 0 then 65535 else pcb_snd_buf b - 1).
Proof.
  intros C Hfl. destruct (tcp_enqueue_run s pcb b None [] flags TCP_WRITE_FLAG_COPY C)
    as (s' & xs & y & E & Hq).
  pose proof Hq as (Hx & _ & Hf & Hqd & Hp & _).
  destruct xs as [|x xs]; [|by apply (f_equal length) in Hx; cbn in Hx; rewrite length_fmap, length_app in Hx; cbn in Hx; lia].
  injection Hx as Hy. rewrite Hy in Hf.
  eexists s', y, _. split; [exact E|]. split; [exact Hq|]. split; [done|]. split; [exact Hf|].
  split; [rewrite Hp; apply lookup_insert_eq|]. destruct Hqd as ([= Hl] & _).
  pose proof (proj2 (ce_buf _ _ _ _ _ _ _ C)) as Hb. unfold is_u16 in Hb.
  unfold sent_pcb. rewrite Hl.
  replace (has flags TCP_SYN || has flags TCP_FIN) with true by (symmetry; by rewrite <- has_lor).
  change (u16 (Z.of_nat (length []) + 1)) with 1.
  destruct (has flags TCP_FIN); cbn; repeat (split; [done|]); unfold u16.
  all: destruct (Z.eqb_spec (pcb_snd_buf b) 0) as [E0|E0]; [by rewrite E0|]; Z.div_mod_to_equations; lia.
Qed.

Definition ex_full : tcp_pcb := ex_sender <| pcb_snd_buf := 0 |>.
Definition ex_full_stack : stack := put_pcb 3 ex_full ex_send.

Lemma tcp_send_ctrl_segment_witness :
  exists s' b',
    @tcp_send_ctrl memp_core 3 TCP_FIN ex_full_stack = Done (ERR_OK, s')
    /\ s_tpcbs s' !! 3%positive = Some b' /\ pcb_snd_lbb b' = u32 (pcb_snd_lbb ex_full + 1)
    /\ pcb_snd_buf b' = 65535.
Proof.
  destruct (@tcp_send_ctrl_segment memp_core ex_full_stack 3 ex_full TCP_FIN)
    as (s' & y & b' & E & _ & _ & _ & Hb & _ & Hl & _ & Hs).
  - split; try done; try (vm_compute; intuition congruence). apply ex_source_ok.
  - done.
  - exists s', b'. do 3 (split; [done|]). exact Hs.
Defined.
