(* ===== verification/TcpAck.v ===== *)
(** * Cumulative acknowledgements (tcp_receive)

    What an ACK takes off the queue of unacknowledged segments: exactly the
    segments it covers, their buffers and their share of the queue length. *)
From S2P Require Import Prelude Inet Heap Pbuf PbufSpec InetChksum Stack Chains Ip TcpBase TcpOut Tcp TcpIn TcpSpec Words TcpEnqueue.
#[local] Open Scope string_scope.
#[local] Open Scope list_scope.
#[local] Open Scope Z_scope.

(** ** Reading a header *)
(** The header at [p] of [s] carries this sequence number and these flags. *)
Definition header_at (s : stack) (p : ptr) (seqno flags : Z) : Prop :=
  exists bs, bytes_at (s_heap s) p 20 = Some bs /\ bytes_ok bs /\
    take 4 (drop 4 bs) = be32 seqno /\ Z.land (nth 13 bs 0) TCP_FLAGS = flags.

Lemma get32_seqno s p seqno flags : header_at s p seqno flags -> is_u32 seqno ->
  (n ← get32 (tcph_seqno p); mret (ntohl n)) s = Done (seqno, s).
Proof.
  intros (bs & Hb & _ & Hs & _) Hn. unfold get32, tcph_seqno.
  erewrite bind_run; cycle 1.
  { erewrite bind_run by (apply hp_run, load_run; by apply (bytes_at_slice _ _ _ _ 4 4 Hb)).
    change (Z.to_nat 4) with 4%nat. rewrite Hs. rewrite with_heap_id. reflexivity. }
  unfold ntohl. by rewrite be32_word.
Qed.

Lemma TCPH_FLAGS_bytes s p bs : bytes_at (s_heap s) p 20 = Some bs -> bytes_ok bs ->
  TCPH_FLAGS p s = Done (Z.land (nth 13 bs 0) TCP_FLAGS, s).
Proof.
  intros Hb Hok. unfold TCPH_FLAGS, get16, tcph_hdrlen_rsvd_flags.
  pose proof (bytes_at_length _ _ _ _ Hb) as Hl.
  do 14 (destruct bs as [|? bs]; [cbn in Hl; lia|]). cbn [nth].
  erewrite bind_run; cycle 1.
  { erewrite bind_run by (apply hp_run, load_run; by apply (bytes_at_slice _ _ _ _ 12 2 Hb)).
    rewrite with_heap_id. reflexivity. }
  unfold mret, M_ret, ntohs. do 2 f_equal.
  change (Z.to_nat 12) with 12%nat. change (Z.to_nat 2) with 2%nat. cbn [take drop nth]. change (2 ^ 8) with 256.
  repeat (apply bytes_ok_cons in Hok as [? Hok]).
  rewrite (htons_bytes _ _) by done. unfold TCP_FLAGS. rewrite !land_63.
  Z.div_mod_to_equations. lia.
Qed.
Lemma TCPH_FLAGS_run s p seqno flags : header_at s p seqno flags ->
  TCPH_FLAGS p s = Done (flags, s).
Proof. intros (bs & Hb & Hok & _ & <-). by apply TCPH_FLAGS_bytes. Qed.

(** ** The queue of unacknowledged segments *)

(** A segment that has been sent: its buffer is not shared and holds a header
    with the sequence number and the flags. *)
Record sent := Sent { st_seg : loc; st_buf : loc; st_seqno : Z; st_flags : Z; st_len : Z }.

(** The sequence number after the segment. *)
Definition st_end (x : sent) : Z :=
  u32 (st_seqno x + (st_len x + if has (st_flags x) TCP_FIN || has (st_flags x) TCP_SYN then 1 else 0)).

Definition in_flight (s : stack) (nx : option loc) (x : sent) : Prop :=
  is_u32 (st_seqno x) /\ is_Some (h_blocks (s_heap s) !! st_buf x) /\
  (exists pb, h_pbufs (s_heap s) !! st_buf x = Some pb /\ pb_next pb = None /\ pb_ref pb = 1 /\
     sane_type (pb_type pb) = true) /\
  exists dp hdr, p_loc hdr = st_buf x /\ header_at s hdr (st_seqno x) (st_flags x) /\
    s_segs s !! st_seg x = Some (TcpSeg nx (Some (st_buf x)) dp (st_len x) (Some hdr)).

Fixpoint flight (s : stack) (p : option loc) (xs : list sent) : Prop :=
  match xs with
  | [] => p = None
  | x :: xs => p = Some (st_seg x) /\ exists nx, in_flight s nx x /\ flight s nx xs
  end.

(** The state without the segments and buffers of [xs]. *)
Definition released (xs : list sent) (s : stack) : stack :=
  with_heap (freed (st_buf <$> xs) None (s_heap s)) (s <| s_segs := deletes (st_seg <$> xs) (s_segs s) |>).

Lemma released_cons x xs s : released (x :: xs) s = released xs (released [x] s).
Proof. by destruct s. Qed.

Lemma released_nil l b s : s_tpcbs s !! l = Some b -> put_pcb l b (released [] s) = s.
Proof.
  intros Hb. unfold put_pcb, released, with_heap, freed. destruct s as [h]. unfold set_field. cbn in *.
  rewrite insert_id by done. by destruct h.
Qed.

Lemma released_put_pcb xs l b s : released xs (put_pcb l b s) = put_pcb l b (released xs s).
Proof. by destruct s. Qed.

Lemma in_flight_other s nx x y : in_flight s nx x -> st_seg y <> st_seg x -> st_buf y <> st_buf x ->
  in_flight (released [y] s) nx x.
Proof.
  intros (H1 & H2 & (pb & Hpb & H3) & dp & hdr & Hl & (bs & Hbs & H4) & H5) Hs Hb.
  split; [done|]. cbn. split; [by rewrite lookup_delete_ne|].
  split; [exists pb; by rewrite lookup_delete_ne|].
  exists dp, hdr. split; [done|]. rewrite lookup_delete_ne by done. split; [|done].
  exists bs. split; [|done]. rewrite <- Hbs. apply bytes_at_blocks. cbn.
  rewrite lookup_delete_ne; [done|]. by rewrite Hl.
Qed.

Lemma flight_other s p xs y : flight s p xs -> st_seg y ∉ st_seg <$> xs -> st_buf y ∉ st_buf <$> xs ->
  flight (released [y] s) p xs.
Proof.
  revert p. induction xs as [|x xs IH]; intros p; cbn; [done|].
  intros (-> & nx & Hx & Hxs) [H1 H1']%not_elem_of_cons [H2 H2']%not_elem_of_cons.
  split; [done|]. exists nx. split; [by apply in_flight_other | by apply IH].
Qed.

Lemma flight_put_pcb l b s p xs : flight s p xs -> flight (put_pcb l b s) p xs.
Proof.
  revert p. induction xs as [|x xs IH]; intros p; cbn; [done|].
  intros (-> & nx & Hx & Hxs). split; [done|]. exists nx. split; [exact Hx | by apply IH].
Qed.

(** ** One segment *)
Lemma tcp_seg_free_run s nx x : in_flight s nx x ->
  exists n, tcp_seg_free (Some (st_seg x)) s = Done (n, released [x] s).
Proof.
  intros (H1 & H2 & (pb & Hpb & Hn & Hr & Ht) & dp & hdr & _ & _ & Hsg).
  assert (W : wp (pbuf_free (Some (st_buf x))) (s_heap s)
                (fun n h' => n = u8 1 /\ h' = freed [st_buf x] None (s_heap s))).
  { apply (pbuf_free_links (s_heap s) (st_buf x) [st_buf x] []); cbn.
    - by intros l ->%list_elem_of_singleton.
    - split; [done|]. exists pb. by rewrite Hn.
    - intros b Hb. congruence.
    - intros l b ->%list_elem_of_singleton Hb. congruence.
    - done. }
  apply wp_run in W as (n & h' & E & _ & ->).
  exists n. unfold tcp_seg_free. run_with (seg_get_run _ _ _ Hsg). cbn [seg_p].
  erewrite bind_run by (by apply hp_run).
  unfold free_seg. erewrite bind_run; cycle 1.
  { erewrite bind_run by (apply seg_get_run; exact Hsg). reflexivity. }
  by destruct s.
Qed.

Lemma drop_acked_run s pcb b nx x :
  s_tpcbs s !! pcb = Some b -> in_flight s nx x -> 1 <= pcb_snd_queuelen b < 2 ^ 16 ->
  (pcb_snd_queuelen b <> 1 -> queues_nonempty b = true) ->
  drop_acked pcb (st_seg x) s
  = Done (tt, released [x] (put_pcb pcb (b <| pcb_snd_queuelen := pcb_snd_queuelen b - 1 |>) s)).
Proof.
  intros Hb Hx Hq Hne. pose proof Hx as (_ & _ & (pb & Hpb & Hn & _) & dp & hdr & _ & _ & Hsg).
  unfold drop_acked. run_with (seg_get_run _ _ _ Hsg). cbn [seg_p].
  erewrite bind_run by (eapply hp_run, clen_single; [exact Hpb | exact Hn]). rewrite with_heap_id.
  run_with (pcb_get_run _ _ _ Hb). replace (1 <=? pcb_snd_queuelen b) with true by lia. run_assert.
  rewrite u16_small by (unfold is_u16; lia).
  set (b' := b <| pcb_snd_queuelen := pcb_snd_queuelen b - 1 |>). run_with (pcb_put_run s pcb b').
  destruct (tcp_seg_free_run (put_pcb pcb b' s) nx x Hx) as [n E]. run_with E.
  erewrite bind_run by (apply (pcb_get_run _ pcb b'); cbn; apply lookup_insert_eq).
  change (pcb_snd_queuelen b') with (pcb_snd_queuelen b - 1). change (queues_nonempty b') with (queues_nonempty b).
  unfold when. destruct (Z.eqb_spec (pcb_snd_queuelen b - 1) 0); cbn [negb]; [done|].
  rewrite Hne by lia. apply ASSERT_true.
Qed.

(** What the control block says about its queue: the number of buffers, and
    those [m] of the unsent queue. *)
Record accounts (b : tcp_pcb) (n m : Z) : Prop := {
  ac_len : pcb_snd_queuelen b = n + m;
  ac_u16 : is_u16 (pcb_snd_queuelen b);
  ac_rest : 0 <= m;
  ac_unsent : m <> 0 -> is_Some (pcb_unsent b)
}.

Definition acked_pcb (q : option loc) (n : Z) (b : tcp_pcb) : tcp_pcb :=
  b <| pcb_unacked := q |> <| pcb_snd_queuelen := pcb_snd_queuelen b - n |>.

Lemma acked_pcb_unchanged b n : n = 0 -> acked_pcb (pcb_unacked b) n b = b.
Proof. intros ->. unfold acked_pcb. rewrite Z.sub_0_r. by destruct b. Qed.
Lemma acked_pcb_more q q' n b : acked_pcb q n (acked_pcb q' 1 b) = acked_pcb q (n + 1) b.
Proof.
  unfold acked_pcb. change (pcb_snd_queuelen (_ <| pcb_snd_queuelen := ?x |>)) with x.
  replace (pcb_snd_queuelen b - (n + 1)) with (pcb_snd_queuelen b - 1 - n) by lia. by destruct b.
Qed.

Lemma accounts_next b q n m : 0 <= n -> accounts b (n + 1) m -> accounts (acked_pcb q 1 b) n m.
Proof.
  intros Hn [H1 H2 H3 H4]. unfold is_u16 in *. split; cbn; [lia | unfold is_u16; cbn; lia | done | done].
Qed.

Lemma accounts_one b q n m : 0 <= n -> accounts b (n + 1) m ->
  1 <= pcb_snd_queuelen (b <| pcb_unacked := q |>) < 2 ^ 16.
Proof. intros Hn [H1 H2 H3 H4]. unfold is_u16 in *. cbn. lia. Qed.

Lemma accounts_nonempty b nx n m :
  0 <= n -> accounts b (n + 1) m -> (n <> 0 -> is_Some nx) -> pcb_snd_queuelen (b <| pcb_unacked := nx |>) <> 1 ->
  queues_nonempty (b <| pcb_unacked := nx |>) = true.
Proof.
  intros Hn [H1 H2 H3 H4] Hnx Hne. cbn in Hne. unfold queues_nonempty. cbn.
  destruct (decide (n = 0)) as [->|]; [|by destruct Hnx as [? ->]].
  apply orb_true_intro. right. destruct H4 as [? E]; [lia | by rewrite E].
Qed.

(** What the walk reads of a segment. *)
Definition st_space (x : sent) : Z :=
  st_len x + (if has (st_flags x) TCP_FIN || has (st_flags x) TCP_SYN then 1 else 0).

Lemma read_segment s nx x {A} (k : tcp_seg -> Z -> Z -> M stack A) :
  in_flight s nx x ->
  exists sg, s_segs s !! st_seg x = Some sg /\ seg_next sg = nx /\
    (sb ← seg_get (st_seg x); n ← seg_seqno sb; tl ← TCP_TCPLEN sb; k sb n tl) s
    = k sg (st_seqno x) (st_space x) s.
Proof.
  intros (Hn & _ & _ & dp & hdr & _ & Hh & Hsg). eexists. split; [exact Hsg|]. split; [done|].
  run_with (seg_get_run _ _ _ Hsg). unfold seg_seqno, TCP_TCPLEN. cbn [seg_tcphdr].
  erewrite bind_run by (erewrite bind_run by done; by eapply get32_seqno).
  erewrite bind_run; [reflexivity|]. erewrite bind_run by done.
  by erewrite bind_run by (by eapply TCPH_FLAGS_run).
Qed.

(** Read the head of the queue. *)
Ltac walk_head Hx :=
  match goal with
  | |- context [(seg_get _ ≫= (fun sb => seg_seqno sb ≫= (fun n => TCP_TCPLEN sb ≫= @?k sb n))) ?st] =>
      destruct (read_segment st _ _ k Hx) as (sg & Hsg & Hnx & ->)
  end.

(** A segment at the head of the queue that the ACK does not cover stops the
    walk. *)
Lemma ack_unacked_stops fuel s pcb b ys ackno :
  s_tpcbs s !! pcb = Some b -> flight s (pcb_unacked b) ys ->
  (forall y, head ys = Some y -> TCP_SEQ_LEQ (st_end y) ackno = false) ->
  ack_unacked fuel pcb ackno s = Done (tt, s).
Proof.
  intros Hb Hf Hy. destruct fuel; cbn [ack_unacked]; run_with (pcb_get_run _ _ _ Hb).
  all: destruct ys as [|y ys]; cbn in Hf; [by rewrite Hf|].
  all: destruct Hf as (-> & nx & Hx & _); specialize (Hy _ eq_refl).
  all: walk_head Hx.
  all: unfold st_end in Hy; unfold st_space; by rewrite Hy.
Qed.

Lemma ack_unacked_run xs : forall fuel s pcb b ys m ackno,
  s_tpcbs s !! pcb = Some b -> flight s (pcb_unacked b) (xs ++ ys) ->
  NoDup (st_seg <$> xs ++ ys) -> NoDup (st_buf <$> xs ++ ys) ->
  accounts b (Z.of_nat (length (xs ++ ys))) m ->
  Forall (fun x => TCP_SEQ_LEQ (st_end x) ackno = true) xs ->
  (forall y, head ys = Some y -> TCP_SEQ_LEQ (st_end y) ackno = false) -> (length xs <= fuel)%nat ->
  let s' := put_pcb pcb (acked_pcb (st_seg <$> head ys) (Z.of_nat (length xs)) b) (released xs s) in
  ack_unacked fuel pcb ackno s = Done (tt, s') /\ flight s' (st_seg <$> head ys) ys.
Proof.
  induction xs as [|x xs IH]; intros fuel s pcb b ys m ackno Hb Hf Hs1 Hs2 Hac Hxs Hy Hfu; cbn zeta.
  - assert (Hq : pcb_unacked b = st_seg <$> head ys) by (destruct ys; cbn in Hf; naive_solver).
    rewrite (ack_unacked_stops fuel s pcb b ys ackno) by done. rewrite <- Hq, acked_pcb_unchanged by done.
    by rewrite released_nil.
  - destruct fuel as [|fuel]; [cbn in Hfu; lia|]. cbn [ack_unacked]. run_with (pcb_get_run _ _ _ Hb).
    destruct Hf as (Hh & nx & Hx & Hf). rewrite Hh.
    walk_head Hx.
    apply list.Forall_cons in Hxs as [Hx1 Hxs]. unfold st_end in Hx1. unfold st_space. rewrite Hx1. cbn [negb].
    rewrite Hnx. run_with (pcb_put_run s pcb (b <| pcb_unacked := nx |>)).
    set (s1 := put_pcb pcb (b <| pcb_unacked := nx |>) s).
    assert (Hac' : accounts b (Z.of_nat (length (xs ++ ys)) + 1) m)
      by (replace (Z.of_nat (length (xs ++ ys)) + 1) with (Z.of_nat (length ((x :: xs) ++ ys))) by (cbn; lia);
          exact Hac).
    assert (Hne : Z.of_nat (length (xs ++ ys)) <> 0 -> is_Some nx).
    { destruct (xs ++ ys); [done|]. intros _. destruct Hf as (-> & _). by eexists. }
    rewrite (bind_run _ _ _ _ _ (drop_acked_run s1 pcb _ nx x (put_pcb_eq _ _ _) Hx
      (accounts_one _ _ _ _ (Nat2Z.is_nonneg _) Hac') (accounts_nonempty _ _ _ _ (Nat2Z.is_nonneg _) Hac' Hne))).
    change (pcb_snd_queuelen (b <| pcb_unacked := nx |>)) with (pcb_snd_queuelen b).
    unfold s1. rewrite put_pcb_twice, released_put_pcb. fold (acked_pcb nx 1 b).
    cbn [app fmap list_fmap] in Hs1, Hs2. apply NoDup_cons in Hs1 as [Hn1 Hs1]. apply NoDup_cons in Hs2 as [Hn2 Hs2].
    destruct (IH fuel (put_pcb pcb (acked_pcb nx 1 b) (released [x] s)) pcb (acked_pcb nx 1 b) ys m ackno)
      as [E Hfl]; try done.
    { apply put_pcb_eq. }
    { apply flight_put_pcb. by apply flight_other. }
    { apply accounts_next; [lia | done]. }
    { cbn in Hfu. lia. }
    rewrite E. rewrite released_put_pcb, put_pcb_twice, acked_pcb_more, <- released_cons in *.
    replace (Z.of_nat (length xs) + 1) with (Z.of_nat (length (x :: xs))) in * by (cbn; lia). done.
Qed.

Lemma flight_alive s p xs : flight s p xs -> forall x, x ∈ xs -> is_Some (s_segs s !! st_seg x).
Proof.
  revert p. induction xs as [|x xs IH]; intros p; cbn; [by intros _ x ?%elem_of_nil|].
  intros (_ & nx & Hx & Hxs) y [->|Hy]%elem_of_cons; [|by eapply IH].
  destruct Hx as (_ & _ & _ & dp & hdr & _ & _ & H). by eexists.
Qed.

Lemma flight_fuel s p xs ys : flight s p (xs ++ ys) -> NoDup (st_seg <$> xs ++ ys) ->
  (length xs <= map_fuel (s_segs s))%nat.
Proof.
  intros Hf Hnd. unfold map_fuel. apply NoDup_length_size with (m := s_segs s) in Hnd.
  - rewrite length_fmap, length_app in Hnd. lia.
  - intros l (x & -> & Hx)%list_elem_of_fmap. by eapply flight_alive.
Qed.

(** The congestion window is the only field open_cwnd changes. *)
Lemma open_cwnd_run b : 0 < pcb_cwnd b ->
  exists c, forall s, open_cwnd b s = Done (b <| pcb_cwnd := c |>, s).
Proof.
  intros Hc. unfold open_cwnd, grow_cwnd. rewrite (proj2 (Z.eqb_neq (pcb_cwnd b) 0)) by lia.
  repeat case_match; try (eexists; intros s; reflexivity);
    exists (pcb_cwnd b); intros s; by destruct b.
Qed.

Lemma accounts_same b b' n m :
  pcb_snd_queuelen b' = pcb_snd_queuelen b -> pcb_unsent b' = pcb_unsent b ->
  accounts b n m -> accounts b' n m.
Proof. intros E1 E2 [H1 H2 H3 H4]. split; rewrite ?E1, ?E2; done. Qed.

Lemma newack_pcb_fields ackno b :
  let b' := newack_pcb ackno b in
  pcb_unacked b' = pcb_unacked b /\ pcb_unsent b' = pcb_unsent b /\
  pcb_snd_queuelen b' = pcb_snd_queuelen b /\ pcb_lastack b' = ackno /\
  pcb_acked b' = u16 (ackno - pcb_lastack b) /\
  pcb_snd_buf b' = u16 (pcb_snd_buf b + u16 (ackno - pcb_lastack b)) /\
  pcb_nrtx b' = 0 /\ pcb_dupacks b' = 0 /\
  (0 < pcb_cwnd b -> 0 < pcb_ssthresh b -> 0 < pcb_cwnd b').
Proof. unfold newack_pcb. by destruct (has (pcb_flags b) TF_INFR). Qed.

(** The timer after the queue has been cleaned. *)
Definition retimed (b : tcp_pcb) : tcp_pcb :=
  b <| pcb_rtime := if is_some (pcb_unacked b) then 0 else -1 |> <| pcb_polltmr := 0 |>.

Lemma retimed_fields b :
  pcb_unacked (retimed b) = pcb_unacked b /\ pcb_unsent (retimed b) = pcb_unsent b /\
  pcb_snd_queuelen (retimed b) = pcb_snd_queuelen b /\ pcb_lastack (retimed b) = pcb_lastack b /\
  pcb_acked (retimed b) = pcb_acked b /\ pcb_snd_buf (retimed b) = pcb_snd_buf b /\
  pcb_nrtx (retimed b) = pcb_nrtx b /\ pcb_dupacks (retimed b) = pcb_dupacks b /\
  pcb_rtime (retimed b) = (if is_some (pcb_unacked b) then 0 else -1).
Proof. done. Qed.

Lemma acked_pcb_fields q n b :
  pcb_unacked (acked_pcb q n b) = q /\ pcb_unsent (acked_pcb q n b) = pcb_unsent b /\
  pcb_snd_queuelen (acked_pcb q n b) = pcb_snd_queuelen b - n /\
  pcb_lastack (acked_pcb q n b) = pcb_lastack b /\ pcb_acked (acked_pcb q n b) = pcb_acked b /\
  pcb_snd_buf (acked_pcb q n b) = pcb_snd_buf b /\ pcb_nrtx (acked_pcb q n b) = pcb_nrtx b /\
  pcb_dupacks (acked_pcb q n b) = pcb_dupacks b.
Proof. done. Qed.

Lemma cwnd_fields b c :
  let b' := b <| pcb_cwnd := c |> in
  pcb_unacked b' = pcb_unacked b /\ pcb_unsent b' = pcb_unsent b /\
  pcb_snd_queuelen b' = pcb_snd_queuelen b /\ pcb_lastack b' = pcb_lastack b /\
  pcb_acked b' = pcb_acked b /\ pcb_snd_buf b' = pcb_snd_buf b /\
  pcb_nrtx b' = pcb_nrtx b /\ pcb_dupacks b' = pcb_dupacks b.
Proof. done. Qed.

(** The run, from the pcb [b2] that the counters and open_cwnd leave. *)
Lemma recv_newack_run s pcb b c b3 h xs ackno :
  s_tpcbs s !! pcb = Some b ->
  (forall s, open_cwnd (newack_pcb ackno b) s = Done (c, s)) ->
  ack_unacked (map_fuel (s_segs s)) pcb ackno (put_pcb pcb c s) = Done (tt, put_pcb pcb b3 h) ->
  h = released xs s ->
  recv_newack pcb ackno s = Done (tt, put_pcb pcb (retimed b3) (released xs s)).
Proof.
  intros Hb Ec E ->. unfold recv_newack. run_with (pcb_upd_run _ _ (newack_pcb ackno) _ Hb).
  generalize dependent (newack_pcb ackno b). intros b1 Ec.
  erewrite bind_run by (apply pcb_get_run, put_pcb_eq). run_with (Ec (put_pcb pcb b1 s)).
  rewrite (bind_run _ _ _ tt (put_pcb pcb c s)) by (by rewrite pcb_put_run, put_pcb_twice).
  erewrite bind_run by done. run_with E.
  erewrite pcb_upd_run by apply put_pcb_eq. by rewrite put_pcb_twice.
Qed.

(** C5: An acknowledgement of new data takes off the queue exactly the
    segments that end at or before it: their tcp_segs and their buffers are
    freed and the rest of the queue is left as it was, the queue length drops
    by their number and the send buffer grows by the bytes acknowledged; the
    duplicate-ACK and retransmission counters are reset, and the
    retransmission timer runs on exactly when something is still
    unacknowledged.  No assertion fails and nothing else changes. *)
Theorem recv_newack_releases s pcb b xs ys m ackno :
  s_tpcbs s !! pcb = Some b -> flight s (pcb_unacked b) (xs ++ ys) ->
  NoDup (st_seg <$> xs ++ ys) -> NoDup (st_buf <$> xs ++ ys) ->
  accounts b (Z.of_nat (length (xs ++ ys))) m ->
  Forall (fun x => TCP_SEQ_LEQ (st_end x) ackno = true) xs ->
  (forall y, head ys = Some y -> TCP_SEQ_LEQ (st_end y) ackno = false) ->
  0 < pcb_cwnd b -> 0 < pcb_ssthresh b ->
  exists b', let s' := put_pcb pcb b' (released xs s) in
    recv_newack pcb ackno s = Done (tt, s') /\ flight s' (pcb_unacked b') ys
    /\ pcb_unacked b' = st_seg <$> head ys /\ pcb_unsent b' = pcb_unsent b
    /\ pcb_snd_queuelen b' = pcb_snd_queuelen b - Z.of_nat (length xs)
    /\ pcb_lastack b' = ackno /\ pcb_acked b' = u16 (ackno - pcb_lastack b)
    /\ pcb_snd_buf b' = u16 (pcb_snd_buf b + u16 (ackno - pcb_lastack b))
    /\ pcb_nrtx b' = 0 /\ pcb_dupacks b' = 0
    /\ pcb_rtime b' = (if is_some (head ys) then 0 else -1).
Proof.
  intros Hb Hf Hn1 Hn2 Hac Hxs Hy Hc Hss.
  destruct (newack_pcb_fields ackno b) as (F1 & F2 & F3 & F4 & F5 & F6 & F7 & F8 & F9).
  destruct (open_cwnd_run (newack_pcb ackno b) (F9 Hc Hss)) as [c Ec].
  pose proof (cwnd_fields (newack_pcb ackno b) c) as (G1 & G2 & G3 & G4 & G5 & G6 & G7 & G8).
  set (b2 := (newack_pcb ackno b) <| pcb_cwnd := c |>) in *. clearbody b2.
  rewrite F1 in G1. rewrite F2 in G2. rewrite F3 in G3.
  assert (Hf2 : flight (put_pcb pcb b2 s) (pcb_unacked b2) (xs ++ ys))
    by (rewrite G1; by apply flight_put_pcb).
  destruct (ack_unacked_run xs (map_fuel (s_segs s)) _ pcb b2 ys m ackno (put_pcb_eq _ _ _) Hf2 Hn1 Hn2
    (accounts_same _ _ _ _ G3 G2 Hac) Hxs Hy (flight_fuel _ _ _ _ Hf Hn1)) as [E Hf'].
  rewrite released_put_pcb, put_pcb_twice in E, Hf'.
  destruct (acked_pcb_fields (st_seg <$> head ys) (Z.of_nat (length xs)) b2)
    as (A1 & A2 & A3 & A4 & A5 & A6 & A7 & A8).
  set (b3 := acked_pcb (st_seg <$> head ys) (Z.of_nat (length xs)) b2) in *. clearbody b3.
  destruct (retimed_fields b3) as (T1 & T2 & T3 & T4 & T5 & T6 & T7 & T8 & T9).
  exists (retimed b3). cbn zeta. split; [by eapply recv_newack_run|].
  rewrite T1, T2, T3, T4, T5, T6, T7, T8, T9, A1, A2, A3, A4, A5, A6, A7, A8, G2, G3, G4, G5, G6, G7, G8.
  rewrite F4, F5, F6, F7, F8. split.
  - rewrite <- (put_pcb_twice pcb b3). by apply flight_put_pcb.
  - repeat split. by destruct (head ys).
Qed.

(** Two segments of 100 bytes from 1000, of which the first is acknowledged. *)
Definition ex_header (seqno : Z) : list Z := wire_header 4097 80 seqno TCP_ACK [0; 0; 0; 0] [0; 0] [0; 0].
Definition ex_buf (q : loc) : pbuf := Pbuf None (Some (Ptr q 16)) 120 120 PBUF_RAM 0 1.
Definition ex_sent (l q : loc) (seqno : Z) : sent := Sent l q seqno TCP_ACK 100.
Definition ex_acked_pcb : tcp_pcb :=
  (ex_pcb 4097 10 80 20 ESTABLISHED None) <| pcb_unacked := Some 20%positive |>
    <| pcb_snd_queuelen := 2 |> <| pcb_lastack := 1000 |> <| pcb_snd_buf := 5000 |> <| pcb_ssthresh := 4000 |>.
Definition ex_acked : stack :=
  ex_stack
    (Heap {[30%positive := Block 16 (ex_header 1000); 31%positive := Block 16 (ex_header 1100)]}
       {[30%positive := ex_buf 30; 31%positive := ex_buf 31]} 100 0 (fun _ => None) [])
    {[20%positive := TcpSeg (Some 21%positive) (Some 30%positive) None 100 (Some (Ptr 30 16));
      21%positive := TcpSeg None (Some 31%positive) None 100 (Some (Ptr 31 16))]}
    {[3%positive := ex_acked_pcb]} ∅ (ex_globals None None (Some 3%positive) None).

Lemma recv_newack_releases_witness :
  exists b', recv_newack 3 1100 ex_acked = Done (tt, put_pcb 3 b' (released [ex_sent 20 30 1000] ex_acked))
    /\ pcb_unacked b' = Some 21%positive /\ pcb_snd_queuelen b' = 1 /\ pcb_snd_buf b' = 5100
    /\ pcb_rtime b' = 0.
Proof.
  destruct (recv_newack_releases ex_acked 3 ex_acked_pcb [ex_sent 20 30 1000] [ex_sent 21 31 1100] 0 1100)
    as (b' & E & _ & H1 & _ & H3 & _ & _ & H6 & _ & _ & H9).
  - reflexivity.
  - assert (Hh : forall q seqno, is_u32 seqno -> h_blocks (s_heap ex_acked) !! q = Some (Block 16 (ex_header seqno)) ->
      header_at ex_acked (Ptr q 16) seqno TCP_ACK).
    { intros q seqno Hs Hq. exists (ex_header seqno). unfold bytes_at. cbn [p_loc]. rewrite Hq. split; [reflexivity|].
      split; [|split; reflexivity]. apply wire_header_ok; [done|..]; repeat (constructor; [done|]); constructor. }
    split; [reflexivity|]. exists (Some 21%positive). split.
    + split; [done|]. split; [by eexists|]. split; [by exists (ex_buf 30)|].
      exists None, (Ptr 30 16). split; [reflexivity|]. split; [by apply Hh|reflexivity].
    + split; [reflexivity|]. exists None. split; [|reflexivity].
      split; [done|]. split; [by eexists|]. split; [by exists (ex_buf 31)|].
      exists None, (Ptr 31 16). split; [reflexivity|]. split; [by apply Hh|reflexivity].
  - vm_compute. repeat constructor; rewrite ?elem_of_cons, ?elem_of_nil; intuition discriminate.
  - vm_compute. repeat constructor; rewrite ?elem_of_cons, ?elem_of_nil; intuition discriminate.
  - split; [reflexivity | vm_compute; split; [discriminate | reflexivity] | done | done].
  - constructor; [reflexivity | constructor].
  - intros y [= <-]. reflexivity.
  - reflexivity.
  - reflexivity.
  - exists b'. split; [exact E|]. rewrite H1, H3, H6, H9. repeat split; reflexivity.
Defined.
