(* ===== verification/TcpRecv.v ===== *)
(** * In-order delivery (tcp_receive)

    What a segment that is next in sequence does: its data and that of every
    queued segment that follows without a gap become one packet for the
    application, in order, and the receive window moves by exactly that much. *)
From S2P Require Import Prelude Inet Heap Pbuf PbufSpec InetChksum Stack Chains Ip TcpBase TcpOut Tcp TcpIn TcpArith TcpSpec Words TcpEnqueue TcpAck.
#[local] Open Scope string_scope.
#[local] Open Scope list_scope.
#[local] Open Scope Z_scope.

(** ** Headers in host order *)

(** tcp_input has turned the sequence number in the header to host order. *)
Definition host_header (s : stack) (p : ptr) (seqno flags : Z) : Prop :=
  exists bs, bytes_at (s_heap s) p 20 = Some bs /\ bytes_ok bs /\
    take 4 (drop 4 bs) = [u8 seqno; u8 (seqno / 2 ^ 8); u8 (seqno / 2 ^ 16); u8 (seqno / 2 ^ 24)] /\
    Z.land (nth 13 bs 0) TCP_FLAGS = flags.

Lemma le_word n : is_u32 n ->
  u8 n + 2 ^ 8 * u8 (n / 2 ^ 8) + 2 ^ 16 * u8 (n / 2 ^ 16) + 2 ^ 24 * u8 (n / 2 ^ 24) = n.
Proof. unfold is_u32, u8. intros. Z.div_mod_to_equations. lia. Qed.

Lemma host_seqno_run s p seqno flags : host_header s p seqno flags -> is_u32 seqno ->
  get32 (tcph_seqno p) s = Done (seqno, s).
Proof.
  intros (bs & Hb & _ & Hs & _) Hn. unfold get32, tcph_seqno.
  erewrite bind_run by (apply hp_run, load_run; by apply (bytes_at_slice _ _ _ _ 4 4 Hb)).
  change (Z.to_nat 4) with 4%nat. rewrite Hs, with_heap_id. cbn [nth]. by rewrite le_word.
Qed.
Lemma host_flags_run s p seqno flags : host_header s p seqno flags -> TCPH_FLAGS p s = Done (flags, s).
Proof. intros (bs & Hb & Hok & _ & <-). by apply TCPH_FLAGS_bytes. Qed.
Lemma host_header_blocks s s' p seqno flags : host_header s p seqno flags ->
  h_blocks (s_heap s') = h_blocks (s_heap s) -> host_header s' p seqno flags.
Proof.
  intros (bs & Hb & H) E. exists bs. split; [|done]. rewrite <- Hb. apply bytes_at_blocks. by rewrite E.
Qed.

(** ** The out-of-order queue *)

(** A queued segment with data: its place, its packet, and its header. *)
Record queued := Queued {
  q_seg : loc; q_buf : loc; q_bufs : list loc; q_data : list Z; q_seqno : Z; q_flags : Z
}.
Definition q_fin (x : queued) : bool := has (q_flags x) TCP_FIN.
Definition q_len (x : queued) : Z := Z.of_nat (length (q_data x)).
Definition space (len flags : Z) : Z := len + if has flags TCP_FIN || has flags TCP_SYN then 1 else 0.
Definition q_space (x : queued) : Z := space (q_len x) (q_flags x).

Definition waiting (s : stack) (nx : option loc) (x : queued) : Prop :=
  is_u32 (q_seqno x) /\ q_data x <> [] /\ packet (s_heap s) (Some (q_buf x)) (q_bufs x) (q_data x) /\
  exists dp hdr, host_header s hdr (q_seqno x) (q_flags x) /\
    s_segs s !! q_seg x = Some (TcpSeg nx (Some (q_buf x)) dp (q_len x) (Some hdr)).

Fixpoint queue (s : stack) (p : option loc) (xs : list queued) : Prop :=
  match xs with
  | [] => p = None
  | x :: xs => p = Some (q_seg x) /\ exists nx, waiting s nx x /\ queue s nx xs
  end.

(** The segments follow each other from sequence number [n] on. *)
Fixpoint in_sequence (n : Z) (xs : list queued) : Prop :=
  match xs with
  | [] => True
  | x :: xs => q_seqno x = n /\ in_sequence (u32 (n + q_space x)) xs
  end.
Definition next_seqno (n : Z) (xs : list queued) : Z := foldl (fun n x => u32 (n + q_space x)) n xs.

(** ** The effect of one segment *)
Definition took (x : queued) (b : tcp_pcb) : tcp_pcb :=
  let b := shrink_windows (q_space x) (b <| pcb_rcv_nxt := u32 (pcb_rcv_nxt b + q_space x) |>) in
  if q_fin x && state_is (pcb_state b) ESTABLISHED then b <| pcb_state := CLOSE_WAIT |> else b.
Definition got (x : queued) (g : tcp_globals) : tcp_globals :=
  let g := g <| in_seqno := q_seqno x |> in
  let g := if is_some (recv_data g) then g else g <| recv_data := Some (q_buf x) |> in
  if q_fin x then g <| recv_flags := TF_GOT_FIN |> else g.

Definition moved (h : heap) (g : tcp_globals) (pcb : loc) (b : tcp_pcb) (segs : list loc) (s : stack) : stack :=
  with_heap h (put_pcb pcb b (s <| s_segs := deletes segs (s_segs s) |> <| s_tcp := g |>)).

Lemma got_data x g : recv_data (got x g) = Some (default (q_buf x) (recv_data g)).
Proof. unfold got. destruct g as [? ? ? ? ? ? ? ? ? ? ? ? ? ? ? ? ? [?|]]; by destruct (q_fin x). Qed.
Lemma took_ooseq x b q : took x (b <| pcb_ooseq := q |>) = (took x b) <| pcb_ooseq := q |>.
Proof. unfold took. destruct b. cbn. by case_match. Qed.
Lemma took_nxt x b : pcb_rcv_nxt (took x b) = u32 (pcb_rcv_nxt b + q_space x).
Proof. unfold took. by destruct (_ && _). Qed.

(** ** One segment *)
Lemma host_tcplen_run s sg h seqno flags : seg_tcphdr sg = Some h -> host_header s h seqno flags ->
  TCP_TCPLEN sg s = Done (space (seg_len sg) flags, s).
Proof.
  intros E Hh. unfold TCP_TCPLEN. rewrite E. erewrite bind_run by done.
  by erewrite bind_run by (by eapply host_flags_run).
Qed.

(** Add a packet behind the data for the application. *)
Lemma append_run h rd q ls ys d e :
  packet h rd ls d -> packet h (Some q) ys e -> ls ## ys -> Z.of_nat (length d + length e) < 65536 ->
  exists h', (match rd with Some _ => pbuf_cat rd (Some q) | None => mret tt end) h = Done (tt, h')
    /\ touches ls h h'
    /\ packet h' (Some (default q rd)) (ls ++ ys) (d ++ e).
Proof.
  intros Hp Hq Hd Hl. destruct rd as [p|].
  - pose proof (pbuf_cat_spec _ _ _ _ _ _ _ Hp Hq Hd Hl) as (u & h' & E & H1 & H2 & H3)%wp_run.
    destruct u. by exists h'.
  - exists h. destruct ls; [|by destruct Hp]. destruct Hp as [_ ->]. by repeat split; [apply touches_refl|].
Qed.

Definition del_seg (l : loc) (s : stack) : stack := s <| s_segs := delete l (s_segs s) |>.
Definition with_tcp (g : tcp_globals) (s : stack) : stack := s <| s_tcp := g |>.

(** The two conditional steps of the loop. *)
Lemma deliver_data_run s l sg q ls ys d e n :
  s_segs s !! l = Some sg -> packet (s_heap s) (recv_data (s_tcp s)) ls d -> packet (s_heap s) (Some q) ys e ->
  ls ## ys -> Z.of_nat (length d + length e) < 65536 -> 0 < n ->
  exists h', let g := s_tcp s in
    when (0 <? n)
      (rd ← gtcp recv_data;
       match rd with
       | Some _ => hp (pbuf_cat rd (Some q))
       | None => utcp (fun g => g <| recv_data := Some q |>)
       end;;
       seg_upd l (fun sg => sg <| seg_p := None |>)) s
    = Done (tt, with_heap h' (put_seg l (sg <| seg_p := None |>)
        (with_tcp (if is_some (recv_data g) then g else g <| recv_data := Some q |>) s)))
    /\ touches ls (s_heap s) h'
    /\ packet h' (Some (default q (recv_data g))) (ls ++ ys) (d ++ e).
Proof.
  intros Hsg Hd Hq Hdj Hlen Hn. destruct (append_run _ _ _ _ _ _ _ Hd Hq Hdj Hlen) as (h' & E & Ht & Hp).
  exists h'. cbn zeta. split; [|by split]. destruct (Z.ltb_spec 0 n); [|lia]. cbn [when].
  erewrite bind_run by reflexivity. destruct (recv_data (s_tcp s)) as [p|] eqn:Erd; cbn [is_some].
  - erewrite bind_run by (apply hp_run; exact E). erewrite seg_upd_run by exact Hsg. by destruct s.
  - erewrite bind_run by reflexivity. erewrite seg_upd_run by exact Hsg. injection E as <-. by destruct s.
Qed.
Lemma deliver_fin_run s pcb b fl :
  s_tpcbs s !! pcb = Some b ->
  when (has fl TCP_FIN)
    (utcp (fun g => g <| recv_flags := TF_GOT_FIN |>);;
     pcb_upd pcb (fun b => if state_is (pcb_state b) ESTABLISHED then b <| pcb_state := CLOSE_WAIT |> else b)) s
  = Done (tt, put_pcb pcb (if has fl TCP_FIN && state_is (pcb_state b) ESTABLISHED
                           then b <| pcb_state := CLOSE_WAIT |> else b)
       (with_tcp (if has fl TCP_FIN then (s_tcp s) <| recv_flags := TF_GOT_FIN |> else s_tcp s) s)).
Proof.
  intros Hb. destruct (has fl TCP_FIN); cbn [when andb].
  - erewrite bind_run by reflexivity. by erewrite pcb_upd_run by exact Hb.
  - unfold put_pcb, with_tcp. destruct s. unfold set_field. cbn in *. by rewrite insert_id.
Qed.
Lemma seg_free_bare s l sg : s_segs s !! l = Some sg -> seg_p sg = None ->
  tcp_seg_free (Some l) s = Done (0, del_seg l s).
Proof.
  intros Hsg Hp. unfold tcp_seg_free. run_with (seg_get_run _ _ _ Hsg). rewrite Hp. cbn [mret].
  erewrite bind_run by reflexivity. unfold free_seg. erewrite bind_run; [reflexivity|].
  by erewrite bind_run by (by apply seg_get_run).
Qed.

(** Updates of different parts of the state, sorted. *)
Lemma tcp_heap g h s : with_tcp g (with_heap h s) = with_heap h (with_tcp g s).
Proof. by destruct s. Qed.
Lemma tcp_pcb_comm g l b s : with_tcp g (put_pcb l b s) = put_pcb l b (with_tcp g s).
Proof. by destruct s. Qed.
Lemma tcp_twice g g' s : with_tcp g (with_tcp g' s) = with_tcp g s.
Proof. by destruct s. Qed.
Lemma pcb_heap l b h s : put_pcb l b (with_heap h s) = with_heap h (put_pcb l b s).
Proof. by destruct s. Qed.
Lemma seg_tcp l sg g s : put_seg l sg (with_tcp g s) = with_tcp g (put_seg l sg s).
Proof. by destruct s. Qed.
Lemma seg_pcb l sg k b s : put_seg l sg (put_pcb k b s) = put_pcb k b (put_seg l sg s).
Proof. by destruct s. Qed.
Lemma del_tcp l g s : del_seg l (with_tcp g s) = with_tcp g (del_seg l s).
Proof. by destruct s. Qed.
Lemma del_pcb l k b s : del_seg l (put_pcb k b s) = put_pcb k b (del_seg l s).
Proof. by destruct s. Qed.
Lemma del_heap l h s : del_seg l (with_heap h s) = with_heap h (del_seg l s).
Proof. by destruct s. Qed.
Lemma del_put l sg s : del_seg l (put_seg l sg s) = del_seg l s.
Proof. unfold del_seg, put_seg. destruct s. cbn. by rewrite delete_insert_eq. Qed.
Create Rewrite HintDb updates.
#[local] Hint Rewrite tcp_heap tcp_pcb_comm tcp_twice pcb_heap seg_tcp seg_pcb del_tcp del_pcb del_heap del_put
  put_pcb_twice with_heap_twice : updates.

Lemma moved_one h g pcb b b1 g1 g2 l sg s :
  del_seg l (put_pcb pcb b (with_tcp g (with_heap h (put_seg l sg (with_tcp g2 (put_pcb pcb b1 (with_tcp g1 s)))))))
  = moved h g pcb b [l] s.
Proof.
  autorewrite with updates. change (moved h g pcb b [l] s) with (with_heap h (put_pcb pcb b (with_tcp g (del_seg l s)))).
  by autorewrite with updates.
Qed.

Lemma deliver_one fuel s pcb b nx x ls d :
  s_tpcbs s !! pcb = Some b -> pcb_ooseq b = Some (q_seg x) -> waiting s nx x -> q_seqno x = pcb_rcv_nxt b ->
  packet (s_heap s) (recv_data (s_tcp s)) ls d -> ls ## q_bufs x ->
  Z.of_nat (length d + length (q_data x)) < 65536 ->
  exists h', let s' := moved h' (got x (s_tcp s)) pcb ((took x b) <| pcb_ooseq := nx |>) [q_seg x] s in
    ooseq_deliver (S fuel) pcb s = ooseq_deliver fuel pcb s'
    /\ touches ls (s_heap s) h'
    /\ packet h' (recv_data (got x (s_tcp s))) (ls ++ q_bufs x) (d ++ q_data x).
Proof.
  intros Hb Hq (Hn & Hne & Hx & dp & hdr & Hh & Hsg) Hseq Hd Hdj Hlen.
  cbn [ooseq_deliver]. run_with (pcb_get_run _ _ _ Hb). rewrite Hq. run_with (seg_get_run _ _ _ Hsg).
  unfold seg_seqno_host. cbn [seg_tcphdr]. erewrite bind_run by (erewrite bind_run by done; by eapply host_seqno_run).
  rewrite (proj2 (Z.eqb_eq (q_seqno x) (pcb_rcv_nxt b)) Hseq). cbn [negb]. erewrite bind_run by reflexivity.
  set (g1 := (fun g : tcp_globals => g <| in_seqno := q_seqno x |>) (s_tcp s)). fold (with_tcp g1 s).
  erewrite bind_run by (eapply (host_tcplen_run (with_tcp g1 s)); [reflexivity|exact Hh]). cbn [seg_len].
  fold (q_space x). run_with (pcb_put_run (with_tcp g1 s) pcb (shrink_windows (q_space x) (b <| pcb_rcv_nxt := u32 (pcb_rcv_nxt b + q_space x) |>))).
  cbn [seg_p]. erewrite bind_run by reflexivity.
  set (b1 := shrink_windows _ _). set (s1 := put_pcb pcb b1 (with_tcp g1 s)).
  destruct (packet_head _ _ _ _ Hx) as (pb & Hpb & _ & Htl & _).
  erewrite bind_run by (apply pbuf_get_run; exact Hpb).
  destruct (deliver_data_run s1 (q_seg x) _ _ _ _ _ _ (pb_tot_len pb) Hsg Hd Hx Hdj Hlen) as (h' & E & Ht & Hp).
  { destruct (q_data x); [done|]. cbn in Htl. lia. }
  run_with E. exists h'. cbn zeta in *.
  set (s2 := with_heap h' _). unfold seg_flags. cbn [seg_tcphdr].
  erewrite bind_run by (erewrite bind_run by done; eapply (host_flags_run s2); eapply host_header_blocks;
    [exact Hh|by apply (touches_blocks _ _ _ Ht)]).
  erewrite bind_run by (apply (deliver_fin_run s2 pcb b1); apply put_pcb_eq).
  erewrite bind_run by (apply pcb_upd_run, put_pcb_eq). rewrite put_pcb_twice. cbn [seg_next].
  set (b2 := (if has _ _ && _ then _ else _) <| pcb_ooseq := nx |>). set (g3 := if has (q_flags x) TCP_FIN then _ else _).
  set (s3 := put_pcb pcb b2 (with_tcp g3 s2)). set (sg := TcpSeg nx (Some (q_buf x)) dp (q_len x) (Some hdr)) in *.
  assert (Hsg3 : s_segs s3 !! q_seg x = Some (sg <| seg_p := None |>)) by apply lookup_insert_eq.
  run_with (seg_free_bare _ _ _ Hsg3 eq_refl).
  assert (Eb : b2 = (took x b) <| pcb_ooseq := nx |>) by done.
  assert (Eg : g3 = got x (s_tcp s)) by done.
  split; [|split; [exact Ht|by rewrite got_data]].
  rewrite <- Eb, <- Eg. f_equal. apply moved_one.
Qed.

(** ** All of them *)
Lemma moved_more h h' g g' pcb b b' l ls s :
  moved h' g' pcb b' ls (moved h g pcb b [l] s) = moved h' g' pcb b' (l :: ls) s.
Proof.
  change (moved h g pcb b [l] s) with (with_heap h (put_pcb pcb b (with_tcp g (del_seg l s)))).
  unfold moved, put_pcb, with_heap, with_tcp, del_seg. destruct s. cbn. by rewrite insert_insert_eq.
Qed.
Lemma moved_nothing s pcb b : s_tpcbs s !! pcb = Some b -> moved (s_heap s) (s_tcp s) pcb b [] s = s.
Proof. intros Hb. unfold moved, put_pcb, with_heap. destruct s. cbn in *. by rewrite insert_id. Qed.

Lemma queue_moved h g pcb b l s ls p zs :
  queue s p zs -> touches ls (s_heap s) h -> l ∉ q_seg <$> zs -> ls ## concat (q_bufs <$> zs) ->
  queue (moved h g pcb b [l] s) p zs.
Proof.
  intros Hq Ht. revert p Hq. induction zs as [|z zs IH]; intros p; cbn [queue]; [done|].
  intros (-> & nx & (Hn & Hne & Hp & dp & hdr & Hh & Hsg) & Hq) Hl Hd. cbn [fmap list_fmap concat] in Hl, Hd.
  apply not_elem_of_cons in Hl as [Hl Hl']. split; [done|]. exists nx. split; [|apply IH; [done..|set_solver]].
  split; [done|]. split; [done|]. split; [eapply pseg_touches; [exact Ht|set_solver|exact Hp]|].
  exists dp, hdr. split; [eapply host_header_blocks; [exact Hh|exact (touches_blocks _ _ _ Ht)]|].
  cbn. by rewrite lookup_delete_ne.
Qed.

Definition took_all (xs : list queued) (b : tcp_pcb) : tcp_pcb := foldl (fun b x => took x b) b xs.
Definition got_all (xs : list queued) (g : tcp_globals) : tcp_globals := foldl (fun g x => got x g) g xs.
Abbreviation bufs_of xs := (concat (q_bufs <$> xs)).
Abbreviation data_of xs := (concat (q_data <$> xs)).

Lemma took_all_ooseq xs b q q' :
  (took_all xs (b <| pcb_ooseq := q |>)) <| pcb_ooseq := q' |> = (took_all xs b) <| pcb_ooseq := q' |>.
Proof.
  revert b. induction xs as [|x xs IH]; intros b; [by destruct b|].
  change (took_all (x :: xs)) with (fun b => took_all xs (took x b)). cbv beta. by rewrite took_ooseq, IH.
Qed.
Lemma took_all_nxt xs b : pcb_rcv_nxt (took_all xs b) = next_seqno (pcb_rcv_nxt b) xs.
Proof.
  revert b. induction xs as [|x xs IH]; intros b; [done|].
  change (took_all (x :: xs) b) with (took_all xs (took x b)). by rewrite IH, took_nxt.
Qed.

(** The loop stops at a gap. *)
Lemma deliver_stops fuel s pcb b ys :
  s_tpcbs s !! pcb = Some b -> queue s (pcb_ooseq b) ys ->
  (forall y, head ys = Some y -> q_seqno y <> pcb_rcv_nxt b) -> ooseq_deliver fuel pcb s = Done (tt, s).
Proof.
  intros Hb Hq Hy. destruct fuel; cbn [ooseq_deliver]; run_with (pcb_get_run _ _ _ Hb).
  all: destruct ys as [|y ys]; cbn in Hq; [by rewrite Hq|].
  all: destruct Hq as (-> & nx & (Hn & _ & _ & dp & hdr & Hh & Hsg) & _); specialize (Hy _ eq_refl).
  all: run_with (seg_get_run _ _ _ Hsg); unfold seg_seqno_host; cbn [seg_tcphdr].
  all: erewrite bind_run by (erewrite bind_run by done; by eapply host_seqno_run).
  all: by rewrite (proj2 (Z.eqb_neq _ _) Hy).
Qed.

Lemma ooseq_deliver_run xs : forall fuel s pcb b ys ls d,
  s_tpcbs s !! pcb = Some b -> queue s (pcb_ooseq b) (xs ++ ys) -> NoDup (q_seg <$> xs ++ ys) ->
  in_sequence (pcb_rcv_nxt b) xs ->
  (forall y, head ys = Some y -> q_seqno y <> next_seqno (pcb_rcv_nxt b) xs) ->
  packet (s_heap s) (recv_data (s_tcp s)) ls d -> NoDup (ls ++ bufs_of (xs ++ ys)) ->
  Z.of_nat (length (d ++ data_of xs)) < 65536 -> (length xs <= fuel)%nat ->
  exists h', let b' := (took_all xs b) <| pcb_ooseq := q_seg <$> head ys |> in
    let s' := moved h' (got_all xs (s_tcp s)) pcb b' (q_seg <$> xs) s in
    ooseq_deliver fuel pcb s = Done (tt, s')
    /\ queue s' (pcb_ooseq b') ys
    /\ touches (ls ++ bufs_of xs) (s_heap s) h'
    /\ packet h' (recv_data (s_tcp s')) (ls ++ bufs_of xs) (d ++ data_of xs).
Proof.
  induction xs as [|x xs IH]; intros fuel s pcb b ys ls d Hb Hq Hn1 Hs Hy Hd Hn2 Hlen Hf.
  - exists (s_heap s). cbn [fmap list_fmap concat app]. cbn zeta. rewrite !app_nil_r.
    assert (E : (took_all [] b) <| pcb_ooseq := q_seg <$> head ys |> = b).
    { cbn in Hq. replace (q_seg <$> head ys) with (pcb_ooseq b); [by destruct b|].
      destruct ys; cbn in Hq; naive_solver. }
    rewrite E, moved_nothing by done. rewrite (deliver_stops _ _ _ b ys) by done.
    split; [done|]. split; [done|]. split; [apply touches_refl|done].
  - destruct fuel as [|fuel]; [cbn in Hf; lia|]. destruct Hq as (Hh & nx & Hx & Hq). destruct Hs as [Hsx Hs].
    cbn [app fmap list_fmap concat] in *. rewrite app_assoc in Hn2. apply NoDup_cons in Hn1 as [Hnx Hn1].
    rewrite !length_app in Hlen.
    assert (Hdj : ls ## q_bufs x /\ ls ## bufs_of (xs ++ ys)).
    { apply NoDup_app in Hn2 as (Hn2 & Hd2 & _). apply NoDup_app in Hn2 as (_ & Hd3 & _). set_solver. }
    destruct (deliver_one fuel s pcb b nx x ls d) as (h1 & E1 & Ht1 & Hp1); [done..|apply Hdj|lia|].
    cbn zeta in E1. set (s1 := moved h1 _ _ _ _ _) in E1.
    destruct (IH fuel s1 pcb ((took x b) <| pcb_ooseq := nx |>) ys (ls ++ q_bufs x) (d ++ q_data x))
      as (h' & E & Hq' & Ht & Hp).
    + apply lookup_insert_eq.
    + eapply queue_moved; [exact Hq|exact Ht1|done|apply Hdj].
    + done.
    + cbn. rewrite took_nxt. exact Hs.
    + cbn. rewrite took_nxt. exact Hy.
    + exact Hp1.
    + exact Hn2.
    + rewrite !length_app. lia.
    + cbn in Hf. lia.
    + cbn zeta in *. rewrite took_all_ooseq in *. unfold s1 in E, Hq'. rewrite moved_more in E, Hq'.
      exists h'. rewrite !app_assoc in *. split; [rewrite E1; exact E|]. split; [exact Hq'|]. split; [|exact Hp].
      eapply touches_trans; [eapply touches_mono; [exact Ht1|set_solver]|exact Ht].
Qed.

(** ** The segment that is next in sequence *)

(** The segment being processed: [d] in the packet [ls] at [ip], with [flags]
    in its header. *)
Record incoming (s : stack) (ip : loc) (ls : list loc) (d : list Z) (flags : Z) : Prop := {
  inc_packet : packet (s_heap s) (Some ip) ls d;
  inc_data : d <> [];
  inc_space : space (Z.of_nat (length d)) flags < 2 ^ 16;
  inc_seg : exists nx dp hdr seqno, host_header s hdr seqno flags /\
    in_seg (s_tcp s) = TcpSeg nx (Some ip) dp (Z.of_nat (length d)) (Some hdr)
}.

(** It ends where the queue begins, or before. *)
Definition ends_before (n : Z) (xs : list queued) : Prop :=
  forall x, head xs = Some x -> q_seqno x = n \/ TCP_SEQ_LEQ (q_seqno x) n = false.

Definition arrived_pcb (n : Z) (b : tcp_pcb) : tcp_pcb :=
  shrink_windows n (b <| pcb_rcv_nxt := u32 (pcb_rcv_nxt b + n) |>).
(** The same in any state: in CLOSE-WAIT the next byte stays. *)
Definition arrived (n : Z) (b : tcp_pcb) : tcp_pcb :=
  shrink_windows n (if state_is (pcb_state b) CLOSE_WAIT then b else b <| pcb_rcv_nxt := u32 (pcb_rcv_nxt b + n) |>).
Lemma arrived_open n b : pcb_state b <> CLOSE_WAIT -> arrived n b = arrived_pcb n b.
Proof. intros H. unfold arrived. by rewrite state_is_false. Qed.
Lemma arrived_ooseq n b : pcb_ooseq (arrived n b) = pcb_ooseq b.
Proof. unfold arrived. by destruct (state_is _ _). Qed.
Definition arrived_globals (n flags : Z) (ip : loc) (g : tcp_globals) : tcp_globals :=
  let g := g <| in_tcplen := n |> <| recv_data := Some ip |> <| in_seg := (in_seg g) <| seg_p := None |> |> in
  if has flags TCP_FIN then g <| recv_flags := TF_GOT_FIN |> else g.

Lemma u16_diff a n : 0 <= n < 2 ^ 16 -> u16 (u32 (a + n) - a) = n.
Proof. unfold u16, u32. intros. Z.div_mod_to_equations. lia. Qed.
Lemma realloc_same h p ls d : packet h (Some p) ls d -> pbuf_realloc p (Z.of_nat (length d)) h = Done (tt, h).
Proof.
  intros Hp. destruct (packet_head _ _ _ _ Hp) as (b & Hb & Hty & Ht & _). unfold pbuf_realloc.
  erewrite bind_run by (by apply pget_run). erewrite bind_run by (unfold LWIP_ASSERT; by rewrite Hty).
  rewrite Ht. destruct (Z.leb_spec (Z.of_nat (length d)) (Z.of_nat (length d))); [done|lia].
Qed.

Lemma inseq_trim_run s pcb b ip ls d flags xs :
  s_tpcbs s !! pcb = Some b -> incoming s ip ls d flags -> queue s (pcb_ooseq b) xs ->
  ends_before (u32 (in_seqno (s_tcp s) + Z.of_nat (length d))) xs -> inseq_trim_end pcb s = Done (tt, s).
Proof.
  intros Hb [Hp Hd Hsp (nx & dp & hdr & seqno & Hh & Hsg)] Hq He. unfold inseq_trim_end.
  erewrite bind_run by reflexivity. run_with (pcb_get_run _ _ _ Hb).
  destruct xs as [|x xs]; cbn in Hq; [by rewrite Hq|].
  destruct Hq as (-> & qn & (Hn & Hne & _ & qdp & qh & Hqh & Hqs) & _). specialize (He x eq_refl).
  run_with (seg_get_run _ _ _ Hqs). unfold seg_seqno_host. cbn [seg_tcphdr seg_len].
  erewrite bind_run by (erewrite bind_run by done; by eapply host_seqno_run).
  rewrite Hsg. cbn [seg_len seg_p]. destruct He as [He|He]; [|by rewrite He].
  rewrite He. unfold TCP_SEQ_LEQ. rewrite Z.sub_diag. change (s32 0 <=? 0) with true. cbn [when].
  assert (Hlen : 0 < q_len x) by (unfold q_len; destruct (q_data x); [done|cbn; lia]).
  destruct (Z.ltb_spec 0 (q_len x)); [|lia].
  rewrite u16_diff by (unfold space in Hsp; case_match; lia).
  assert (E : upd_inseg (fun sg => sg <| seg_len := Z.of_nat (length d) |>) s = Done (tt, s)).
  { unfold upd_inseg, utcp, modify. rewrite Hsg. unfold set_field. cbn. rewrite <- Hsg. by destruct s as [? ? ? ? ? ? ? ? ? ? []]. }
  run_with E. erewrite bind_run by done. erewrite hp_run by by eapply realloc_same. by rewrite with_heap_id.
Qed.

Lemma with_tcp_id s : with_tcp (s_tcp s) s = s.
Proof. by destruct s. Qed.
Lemma moved_arrived h g g' pcb b b' ls s :
  moved h g' pcb b' ls (put_pcb pcb b (with_tcp g s)) = moved h g' pcb b' ls s.
Proof. unfold moved, put_pcb, with_heap, with_tcp. destruct s. cbn. by rewrite insert_insert_eq. Qed.

(** The first half of recv_inseq, up to the queue. *)
Lemma arrive_run s pcb b ip ls d flags xs {A} (k : M stack A) :
  s_tpcbs s !! pcb = Some b -> incoming s ip ls d flags -> queue s (pcb_ooseq b) xs ->
  ends_before (u32 (in_seqno (s_tcp s) + Z.of_nat (length d))) xs ->
  let n := space (Z.of_nat (length d)) flags in
  (inseq_trim_end pcb;;
   g ← gets s_tcp;
   n ← TCP_TCPLEN (in_seg g);
   let tcplen := u16 n in
   utcp (fun g => g <| in_tcplen := tcplen |>);;
   pcb_upd pcb (fun b => shrink_windows tcplen
     (if state_is (pcb_state b) CLOSE_WAIT then b else b <| pcb_rcv_nxt := u32 (pcb_rcv_nxt b + tcplen) |>));;
   ip ← deref (seg_p (in_seg g));
   pb ← pbuf_get ip;
   when (0 <? pb_tot_len pb)
     (utcp (fun g => g <| recv_data := Some ip |>);; upd_inseg (fun sg => sg <| seg_p := None |>));;
   fl ← seg_flags (in_seg g);
   when (has fl TCP_FIN) (utcp (fun g => g <| recv_flags := TF_GOT_FIN |>));;
   k) s
  = k (put_pcb pcb (arrived n b) (with_tcp (arrived_globals n flags ip (s_tcp s)) s)).
Proof.
  intros Hb Hinc Hq He n. erewrite bind_run by (by eapply inseq_trim_run).
  destruct Hinc as [Hp Hd Hsp (nx & dp & hdr & seqno & Hh & Hsg)]. erewrite bind_run by reflexivity.
  rewrite Hsg. erewrite bind_run by (by eapply host_tcplen_run). cbn [seg_len]. fold n. cbv zeta.
  rewrite u16_small by (unfold is_u16, n, space in *; case_match; lia).
  erewrite bind_run by reflexivity. erewrite bind_run by (apply pcb_upd_run; exact Hb). cbv beta.
  fold (arrived n b).
  cbn [seg_p]. erewrite bind_run by reflexivity. destruct (packet_head _ _ _ _ Hp) as (pb & Hpb & _ & Ht & _).
  erewrite bind_run by (apply pbuf_get_run; exact Hpb).
  destruct (Z.ltb_spec 0 (pb_tot_len pb)); [|destruct d; [done|cbn in Ht; lia]]. cbn [when].
  erewrite bind_run by (erewrite bind_run by reflexivity; reflexivity).
  unfold seg_flags. cbn [seg_tcphdr]. erewrite bind_run.
  2:{ erewrite bind_run by done. eapply host_flags_run. exact Hh. }
  unfold arrived_globals. destruct (has flags TCP_FIN); cbn [when]; (erewrite bind_run by reflexivity);
    f_equal; by destruct s.
Qed.

Lemma ooseq_queue_fuel s p xs ys : queue s p (xs ++ ys) -> NoDup (q_seg <$> xs ++ ys) -> (length xs <= map_fuel (s_segs s))%nat.
Proof.
  intros Hq Hnd. unfold map_fuel. apply NoDup_length_size with (m := s_segs s) in Hnd.
  - rewrite length_fmap, length_app in Hnd. lia.
  - clear Hnd. revert p Hq. induction (xs ++ ys) as [|z zs IH]; intros p Hq l Hl; [by apply not_elem_of_nil in Hl|].
    destruct Hq as (_ & nx & (_ & _ & _ & dp & hdr & _ & Hsg) & Hq).
    apply elem_of_cons in Hl as [->|Hl]; [by eexists|by eapply IH].
Qed.
Lemma queue_arrived s pcb b g p xs : queue s p xs -> queue (put_pcb pcb b (with_tcp g s)) p xs.
Proof.
  revert p. induction xs as [|x xs IH]; intros p; cbn [queue]; [done|]. intros (-> & nx & Hx & Hq).
  split; [done|]. exists nx. split; [exact Hx|by apply IH].
Qed.
Lemma arrived_fields n flags ip g b : recv_data (arrived_globals n flags ip g) = Some ip /\
  pcb_rcv_nxt (arrived_pcb n b) = u32 (pcb_rcv_nxt b + n) /\ pcb_ooseq (arrived_pcb n b) = pcb_ooseq b.
Proof. unfold arrived_globals. by destruct (has flags TCP_FIN). Qed.

Section receive.
Context `{MC : MempConf} `{EV : Env}.

Lemma recv_inseq_run s pcb b ip ls d flags xs ys :
  let n := space (Z.of_nat (length d)) flags in
  let r := u32 (pcb_rcv_nxt b + n) in
  s_tpcbs s !! pcb = Some b -> pcb_state b <> CLOSE_WAIT -> incoming s ip ls d flags ->
  queue s (pcb_ooseq b) (xs ++ ys) -> ends_before (u32 (in_seqno (s_tcp s) + Z.of_nat (length d))) (xs ++ ys) ->
  in_sequence r xs -> (forall y, head ys = Some y -> q_seqno y <> next_seqno r xs) ->
  NoDup (q_seg <$> xs ++ ys) -> NoDup (ls ++ bufs_of (xs ++ ys)) -> Z.of_nat (length (d ++ data_of xs)) < 65536 ->
  exists h', let b' := (took_all xs (arrived_pcb n b)) <| pcb_ooseq := q_seg <$> head ys |> in
    let s' := moved h' (got_all xs (arrived_globals n flags ip (s_tcp s))) pcb b' (q_seg <$> xs) s in
    recv_inseq pcb s = tcp_ack pcb s' /\ queue s' (pcb_ooseq b') ys
    /\ touches (ls ++ bufs_of xs) (s_heap s) h'
    /\ packet h' (recv_data (s_tcp s')) (ls ++ bufs_of xs) (d ++ data_of xs).
Proof.
  intros n r Hb Hcw Hinc Hq He Hs Hy Hn1 Hn2 Hlen.
  destruct (arrived_fields n flags ip (s_tcp s) b) as (F1 & F2 & F3).
  set (s1 := put_pcb pcb (arrived_pcb n b) (with_tcp (arrived_globals n flags ip (s_tcp s)) s)).
  destruct (ooseq_deliver_run xs (map_fuel (s_segs s1)) s1 pcb (arrived_pcb n b) ys ls d) as (h' & E & Hq' & Ht & Hp).
  - apply put_pcb_eq.
  - rewrite F3. by apply queue_arrived.
  - done.
  - rewrite F2. exact Hs.
  - rewrite F2. exact Hy.
  - cbn [s1 s_heap s_tcp put_pcb with_tcp]. unfold s1. change (recv_data (s_tcp _)) with
      (recv_data (arrived_globals n flags ip (s_tcp s))). rewrite F1. apply Hinc.
  - done.
  - done.
  - exact (ooseq_queue_fuel s _ xs ys Hq Hn1).
  - exists h'. cbn zeta in *. unfold s1 in *. rewrite moved_arrived in *. split; [|by split].
    unfold recv_inseq. rewrite (arrive_run s pcb b ip ls d flags (xs ++ ys)), arrived_open by done.
    erewrite bind_run by reflexivity. by erewrite bind_run by exact E.
Qed.

Lemma seq_not_before r : is_u32 r -> TCP_SEQ_GEQ r (u32 (r + 1)) = false /\ TCP_SEQ_LT r r = false.
Proof.
  intros Hr. unfold TCP_SEQ_GEQ, TCP_SEQ_LT. rewrite Z.sub_diag. split; [|done].
  apply Z.leb_gt. unfold s32, u32, is_u32 in *. Z.div_mod_to_equations. lia.
Qed.

Definition delivers (s : stack) (pcb : loc) (b : tcp_pcb) (ip : loc) (ls : list loc) (d : list Z) (flags : Z)
    (xs ys : list queued) (s' : stack) (h' : heap) (b' : tcp_pcb) : Prop :=
  let n := space (Z.of_nat (length d)) flags in
  s' = moved h' (got_all xs (arrived_globals n flags ip (s_tcp s))) pcb b' (q_seg <$> xs) s
  /\ recv_data_segment pcb s = (tcp_ack pcb;; mret true) s'
  /\ packet h' (recv_data (s_tcp s')) (ls ++ bufs_of xs) (d ++ data_of xs)
  /\ touches (ls ++ bufs_of xs) (s_heap s) h'
  /\ b' = (took_all xs (arrived_pcb n b)) <| pcb_ooseq := q_seg <$> head ys |>
  /\ pcb_rcv_nxt b' = next_seqno (u32 (pcb_rcv_nxt b + n)) xs /\ queue s' (pcb_ooseq b') ys.
Lemma recv_data_segment_run s pcb b ip ls d flags xs ys :
  let n := space (Z.of_nat (length d)) flags in
  let r := u32 (pcb_rcv_nxt b + n) in
  s_tpcbs s !! pcb = Some b -> pcb_state b <> CLOSE_WAIT -> incoming s ip ls d flags ->
  is_u32 (pcb_rcv_nxt b) -> in_seqno (s_tcp s) = pcb_rcv_nxt b ->
  in_window (pcb_rcv_nxt b) b (pcb_rcv_ann_wnd b) = true ->
  queue s (pcb_ooseq b) (xs ++ ys) -> ends_before (u32 (pcb_rcv_nxt b + Z.of_nat (length d))) (xs ++ ys) ->
  in_sequence r xs -> (forall y, head ys = Some y -> q_seqno y <> next_seqno r xs) ->
  NoDup (q_seg <$> xs ++ ys) -> NoDup (ls ++ bufs_of (xs ++ ys)) -> Z.of_nat (length (d ++ data_of xs)) < 65536 ->
  exists s' h' b', delivers s pcb b ip ls d flags xs ys s' h' b'.
Proof.
  intros n r Hb Hcw Hinc Hr Hsq Hw Hq He Hs Hy Hn1 Hn2 Hlen.
  destruct (recv_inseq_run s pcb b ip ls d flags xs ys) as (h' & E & Hq' & Ht & Hp); try done; [by rewrite Hsq|].
  eexists _, h', ((took_all xs (arrived_pcb n b)) <| pcb_ooseq := q_seg <$> head ys |>). split; [reflexivity|]. cbn zeta.
  split; [|split; [exact Hp|split; [exact Ht|split; [done|split; [|exact Hq']]]]].
  2:{ change (pcb_rcv_nxt (took_all xs (arrived_pcb n b)) = next_seqno r xs).
      by rewrite took_all_nxt. }
  unfold recv_data_segment. erewrite bind_run by reflexivity. run_with (pcb_get_run _ _ _ Hb). cbv zeta.
  rewrite Hsq. unfold TCP_SEQ_BETWEEN. destruct (seq_not_before _ Hr) as [-> ->]. cbn [andb when].
  erewrite bind_run by reflexivity. erewrite bind_run by reflexivity. run_with (pcb_get_run _ _ _ Hb).
  rewrite Hsq, Hw, Z.eqb_refl. cbn [mbind M_bind]. unfold mbind, M_bind. by rewrite E.
Qed.
(** C4: A segment with data that starts at the next expected byte, inside the
    window, and does not overlap what is queued: its data and the data of the
    queued segments that follow without a gap become one packet for the
    application, in order; [rcv_nxt] moves behind them and the windows shrink
    by as much; the rest of the queue stays; and the run goes on with the
    acknowledgement.  Only the pbufs of these packets are relinked, only the
    delivered tcp_segs are freed. *)
Theorem in_order_delivery s pcb b ip ls d flags xs ys :
  let n := space (Z.of_nat (length d)) flags in
  let r := u32 (pcb_rcv_nxt b + n) in
  s_tpcbs s !! pcb = Some b -> pcb_state b <> CLOSE_WAIT -> incoming s ip ls d flags ->
  is_u32 (pcb_rcv_nxt b) -> in_seqno (s_tcp s) = pcb_rcv_nxt b ->
  in_window (pcb_rcv_nxt b) b (pcb_rcv_ann_wnd b) = true ->
  queue s (pcb_ooseq b) (xs ++ ys) -> ends_before (u32 (pcb_rcv_nxt b + Z.of_nat (length d))) (xs ++ ys) ->
  in_sequence r xs -> (forall y, head ys = Some y -> q_seqno y <> next_seqno r xs) ->
  NoDup (q_seg <$> xs ++ ys) -> NoDup (ls ++ bufs_of (xs ++ ys)) -> Z.of_nat (length (d ++ data_of xs)) < 65536 ->
  exists h' b', let s' := moved h' (got_all xs (arrived_globals n flags ip (s_tcp s))) pcb b' (q_seg <$> xs) s in
    recv_data_segment pcb s = (tcp_ack pcb;; mret true) s'
    /\ packet h' (recv_data (s_tcp s')) (ls ++ bufs_of xs) (d ++ data_of xs)
    /\ touches (ls ++ bufs_of xs) (s_heap s) h'
    /\ b' = (took_all xs (arrived_pcb n b)) <| pcb_ooseq := q_seg <$> head ys |>
    /\ pcb_rcv_nxt b' = next_seqno r xs /\ queue s' (pcb_ooseq b') ys.
Proof.
  intros n r Hb Hcw Hinc Hr Hsq Hw Hq He Hs Hy Hn1 Hn2 Hlen.
  destruct (recv_data_segment_run s pcb b ip ls d flags xs ys) as (s' & h' & b' & -> & H); try done. by exists h', b'.
Qed.

(** ** The receive window *)

(** The sequence numbers that some queued segments take. *)
Definition spaces (xs : list queued) : Z := foldr (fun x n => q_space x + n) 0 xs.
Lemma q_space_nonneg x : 0 <= q_space x.
Proof. unfold q_space, space, q_len. case_match; lia. Qed.
Lemma spaces_cons x xs : spaces (x :: xs) = q_space x + spaces xs.
Proof. done. Qed.
Lemma spaces_nonneg xs : 0 <= spaces xs.
Proof. induction xs as [|x xs IH]; [done|]. rewrite spaces_cons. pose proof (q_space_nonneg x). lia. Qed.
Lemma next_seqno_spaces xs n : next_seqno (u32 n) xs = u32 (n + spaces xs).
Proof.
  revert n. induction xs as [|x xs IH]; intros n; cbn; [by rewrite Z.add_0_r|].
  change (next_seqno (u32 (u32 n + q_space x)) xs = u32 (n + (q_space x + spaces xs))).
  replace (u32 (u32 n + q_space x)) with (u32 (n + q_space x)) by (unfold u32; by rewrite Zplus_mod_idemp_l).
  rewrite IH. by rewrite Z.add_assoc.
Qed.

Lemma took_windows x b : windows_ok b ->
  windows_ok (took x b) /\ pcb_rcv_wnd (took x b) = Z.max 0 (pcb_rcv_wnd b - q_space x) /\
  pcb_rcv_ann_wnd (took x b) = Z.max 0 (pcb_rcv_ann_wnd b - q_space x).
Proof.
  intros Hb. pose proof (windows_shrink (b <| pcb_rcv_nxt := u32 (pcb_rcv_nxt b + q_space x) |>) (q_space x) Hb (q_space_nonneg x)).
  unfold took. by destruct (_ && _).
Qed.
Lemma took_all_windows xs b : windows_ok b ->
  windows_ok (took_all xs b) /\ pcb_rcv_wnd (took_all xs b) = Z.max 0 (pcb_rcv_wnd b - spaces xs) /\
  pcb_rcv_ann_wnd (took_all xs b) = Z.max 0 (pcb_rcv_ann_wnd b - spaces xs).
Proof.
  revert b. induction xs as [|x xs IH]; intros b Hb.
  - destruct Hb as [Ha Hw]. change (took_all [] b) with b. change (spaces []) with 0. split; [by split|lia].
  - destruct (took_windows x b Hb) as (H1 & E1 & E2). destruct (IH (took x b) H1) as (H2 & E3 & E4).
    change (took_all (x :: xs) b) with (took_all xs (took x b)). split; [done|].
    rewrite E3, E4, E1, E2, spaces_cons. pose proof (q_space_nonneg x). pose proof (spaces_nonneg xs). lia.
Qed.

Lemma arrived_windows n b : windows_ok b -> 0 <= n ->
  windows_ok (arrived_pcb n b) /\ pcb_rcv_wnd (arrived_pcb n b) = Z.max 0 (pcb_rcv_wnd b - n) /\
  pcb_rcv_ann_wnd (arrived_pcb n b) = Z.max 0 (pcb_rcv_ann_wnd b - n).
Proof.
  intros Hb Hn. pose proof (windows_shrink (b <| pcb_rcv_nxt := u32 (pcb_rcv_nxt b + n) |>) n Hb Hn) as H. exact H.
Qed.

(** C13: The receive window is what is left of the buffer, and the announced
    right edge never moves to the left.  After a segment in order, with the
    queued ones that follow it, the window is smaller by what was delivered (or
    0), rcv_nxt is behind it, and the edge - the number of bytes from the old
    rcv_nxt that the peer may send - is the old one, or the end of the data if
    that reaches beyond; after tcp_recved the window is larger by what was
    read, up to TCP_WND, and the edge is not further left.  In CLOSE-WAIT
    rcv_nxt stays while the window shrinks (close_wait_retracts), so that state
    is excluded. *)
Theorem receive_window_follows_data s pcb b ip ls d flags xs ys :
  let n := space (Z.of_nat (length d)) flags in
  let r := u32 (pcb_rcv_nxt b + n) in
  s_tpcbs s !! pcb = Some b -> pcb_state b <> CLOSE_WAIT -> incoming s ip ls d flags ->
  is_u32 (pcb_rcv_nxt b) -> in_seqno (s_tcp s) = pcb_rcv_nxt b ->
  in_window (pcb_rcv_nxt b) b (pcb_rcv_ann_wnd b) = true ->
  queue s (pcb_ooseq b) (xs ++ ys) -> ends_before (u32 (pcb_rcv_nxt b + Z.of_nat (length d))) (xs ++ ys) ->
  in_sequence r xs -> (forall y, head ys = Some y -> q_seqno y <> next_seqno r xs) ->
  NoDup (q_seg <$> xs ++ ys) -> NoDup (ls ++ bufs_of (xs ++ ys)) -> Z.of_nat (length (d ++ data_of xs)) < 65536 ->
  windows_ok b -> n + spaces xs < 2 ^ 32 ->
  exists s' b', recv_data_segment pcb s = (tcp_ack pcb;; mret true) s' /\ s_tpcbs s' !! pcb = Some b' /\
    windows_ok b' /\ pcb_rcv_wnd b' = Z.max 0 (pcb_rcv_wnd b - (n + spaces xs)) /\
    pcb_rcv_nxt b' = u32 (pcb_rcv_nxt b + (n + spaces xs)) /\
    right_edge b' (pcb_rcv_nxt b) = Z.max (n + spaces xs) (right_edge b (pcb_rcv_nxt b)) /\
    forall t bt len, s_tpcbs t !! pcb = Some bt -> windows_ok bt -> is_u16 len ->
      exists b2, tcp_recved pcb len t = recved_answer pcb (put_pcb pcb b2 t) /\ windows_ok b2 /\
        pcb_rcv_wnd b2 = Z.min TCP_WND (pcb_rcv_wnd bt + len) /\
        forall base, right_edge bt base <= right_edge b2 base.
Proof.
  intros n r Hb Hcw Hinc Hr Hsq Hw Hq He Hs Hy Hn1 Hn2 Hlen Hok Hmax.
  destruct (recv_data_segment_run s pcb b ip ls d flags xs ys) as (s' & h' & b' & Es & E & _ & _ & Eb & Enx & _); try done.
  fold n r in Eb, Enx. assert (0 <= n) as Hn0 by (unfold n, space; case_match; lia).
  destruct (arrived_windows n b Hok Hn0) as (H1 & E1 & E2).
  destruct (took_all_windows xs (arrived_pcb n b) H1) as (H2 & E3 & E4).
  rewrite E1 in E3. rewrite E2 in E4. pose proof (spaces_nonneg xs) as Hsp.
  unfold r in Enx. rewrite next_seqno_spaces, <- Z.add_assoc in Enx.
  exists s', b'. split; [exact E|]. split; [rewrite Es; unfold moved, put_pcb, with_heap; cbn; apply lookup_insert_eq|].
  split; [by rewrite Eb|]. split; [rewrite Eb; cbn; rewrite E3; lia|]. split; [done|]. split.
  - unfold right_edge. rewrite Enx, Eb. cbn. rewrite E4.
    assert (u32 (u32 (pcb_rcv_nxt b + (n + spaces xs)) - pcb_rcv_nxt b) = n + spaces xs) as ->.
    { unfold u32. rewrite Zminus_mod_idemp_l. rewrite <- (Z.mod_small (n + spaces xs) (2 ^ 32)) at 2 by lia. f_equal. lia. }
    replace (u32 (pcb_rcv_nxt b - pcb_rcv_nxt b)) with 0 by by rewrite Z.sub_diag. lia.
  - intros t bt len Ht Hbt Hl. destruct (windows_read bt len Hbt Hl) as (R1 & R2 & R3 & R4 & _).
    exists (recved_windows len bt). split; [|split; [exact R1|split; [exact R2|]]].
    + unfold tcp_recved. by rewrite (bind_run _ _ _ _ _ (pcb_upd_run t pcb (recved_windows len) bt Ht)).
    + intros base. unfold right_edge. rewrite R4. lia.
Qed.

(** A segment with data in CLOSE-WAIT, with nothing queued: the window shrinks
    and rcv_nxt stays, so the announced edge moves to the left. *)
Lemma close_wait_retracts s pcb b ip ls d flags :
  let n := space (Z.of_nat (length d)) flags in
  s_tpcbs s !! pcb = Some b -> pcb_state b = CLOSE_WAIT -> pcb_ooseq b = None -> incoming s ip ls d flags ->
  windows_ok b -> n <= pcb_rcv_ann_wnd b ->
  exists s' b', recv_inseq pcb s = tcp_ack pcb s' /\ s_tpcbs s' !! pcb = Some b' /\
    forall base, right_edge b' base = right_edge b base - n.
Proof.
  intros n Hb Hst Hoo Hinc Hok Hle. assert (queue s (pcb_ooseq b) []) as Hq by done.
  assert (0 <= n) as Hn0 by (unfold n, space; case_match; lia).
  destruct (windows_shrink b n Hok Hn0) as (_ & _ & Ea).
  exists (put_pcb pcb (arrived n b) (with_tcp (arrived_globals n flags ip (s_tcp s)) s)), (arrived n b).
  split; [|split; [apply put_pcb_eq|]].
  - unfold recv_inseq. rewrite (arrive_run s pcb b ip ls d flags []) by done.
    erewrite bind_run by reflexivity. cbn [map_fuel]. unfold map_fuel. cbn [ooseq_deliver].
    erewrite bind_run; [reflexivity|]. erewrite bind_run by (apply pcb_get_run, put_pcb_eq).
    by rewrite arrived_ooseq, Hoo.
  - intros base. unfold right_edge, arrived. rewrite Hst, state_is_true.
    rewrite Ea. change (pcb_rcv_nxt (shrink_windows n b)) with (pcb_rcv_nxt b). lia.
Qed.
End receive.

(** ** Three bytes at 5000, two that wait behind them, one behind a gap *)
Definition ex_host (seqno : Z) : list Z :=
  [0; 0; 0; 0; u8 seqno; u8 (seqno / 2 ^ 8); u8 (seqno / 2 ^ 16); u8 (seqno / 2 ^ 24);
   0; 0; 0; 0; 80; TCP_ACK; 0; 0; 0; 0; 0; 0].
Definition ex_data_buf (q : loc) (n : Z) : pbuf := Pbuf None (Some (Ptr q 36)) n n PBUF_RAM 0 1.
Definition ex_receiver : tcp_pcb :=
  (ex_pcb 4097 10 80 20 ESTABLISHED None) <| pcb_rcv_nxt := 5000 |> <| pcb_rcv_wnd := 1000 |>
    <| pcb_rcv_ann_wnd := 1000 |> <| pcb_ooseq := Some 20%positive |>.
Definition ex_queued1 : queued := Queued 20 30 [30%positive] [4; 5] 5003 TCP_ACK.
Definition ex_queued2 : queued := Queued 21 31 [31%positive] [9] 5010 TCP_ACK.
Definition ex_receiving : stack :=
  ex_stack
    (Heap {[30%positive := Block 16 (ex_host 5003 ++ [4; 5]); 31%positive := Block 16 (ex_host 5010 ++ [9]);
            40%positive := Block 16 (ex_host 5000 ++ [1; 2; 3])]}
       {[30%positive := ex_data_buf 30 2; 31%positive := ex_data_buf 31 1; 40%positive := ex_data_buf 40 3]}
       100 0 (fun _ => None) [])
    {[20%positive := TcpSeg (Some 21%positive) (Some 30%positive) None 2 (Some (Ptr 30 16));
      21%positive := TcpSeg None (Some 31%positive) None 1 (Some (Ptr 31 16))]}
    {[3%positive := ex_receiver]} ∅
    ((ex_globals None None (Some 3%positive) None)
       <| in_seg := TcpSeg None (Some 40%positive) None 3 (Some (Ptr 40 16)) |> <| in_seqno := 5000 |>).

Lemma ex_host_ok s q seqno : bytes_at (s_heap s) (Ptr q 16) 20 = Some (ex_host seqno) ->
  host_header s (Ptr q 16) seqno TCP_ACK.
Proof.
  intros Hb. exists (ex_host seqno). split; [exact Hb|]. split; [|by split].
  unfold ex_host. repeat (constructor; [first [apply u8_range | by split]|]). constructor.
Qed.
Lemma ex_packet_ok s q d : h_pbufs (s_heap s) !! q = Some (ex_data_buf q (Z.of_nat (length d))) ->
  bytes_at (s_heap s) (Ptr q 36) (Z.of_nat (length d)) = Some d -> is_u16 (Z.of_nat (length d)) ->
  packet (s_heap s) (Some q) [q] d.
Proof.
  intros Hq Hd Hl. apply pseg_one. exists (ex_data_buf q (Z.of_nat (length d))), (Ptr q 36).
  split; [exact Hq|]. split; [|split; [exact Hd|split; [cbn; lia|done]]].
  split; [done|]. split; [done|]. split; [intros _; cbn; split; [done|lia]|]. split; [exact Hl|cbn; lia].
Qed.

Lemma ex_incoming : incoming ex_receiving 40 [40%positive] [1; 2; 3] TCP_ACK.
Proof.
  split; [by apply ex_packet_ok|done|done|].
  exists None, None, (Ptr 40 16), 5000. split; [by apply ex_host_ok|reflexivity].
Defined.
Lemma ex_waiting : queue ex_receiving (Some 20%positive) [ex_queued1; ex_queued2].
Proof.
  split; [reflexivity|]. exists (Some 21%positive). split; [|split; [reflexivity|exists None; split; [|reflexivity]]].
  - split; [done|]. split; [done|]. split; [by apply ex_packet_ok|].
    exists None, (Ptr 30 16). split; [by apply ex_host_ok|reflexivity].
  - split; [done|]. split; [done|]. split; [by apply ex_packet_ok|].
    exists None, (Ptr 31 16). split; [by apply ex_host_ok|reflexivity].
Defined.
Lemma ex_distinct : NoDup [20; 21]%positive /\ NoDup [40; 30; 31]%positive.
Proof. split; repeat constructor; rewrite ?elem_of_cons, ?elem_of_nil; intuition discriminate. Defined.

Lemma in_order_delivery_witness : exists h' b', let s := ex_receiving in
  let s' := moved h' (got ex_queued1 (arrived_globals 3 TCP_ACK 40 (s_tcp s))) 3 b' [20%positive] s in
  @recv_data_segment memp_core ex_env 3 s = (@tcp_ack memp_core ex_env 3;; mret true) s'
  /\ packet h' (Some 40%positive) [40%positive; 30%positive] [1; 2; 3; 4; 5]
  /\ pcb_rcv_nxt b' = 5005 /\ pcb_rcv_wnd b' = 995 /\ pcb_ooseq b' = Some 21%positive.
Proof.
  destruct (@in_order_delivery memp_core ex_env ex_receiving 3 ex_receiver 40 [40%positive] [1; 2; 3] TCP_ACK
    [ex_queued1] [ex_queued2]) as (h' & b' & E & Hp & _ & Eb & Hn & _).
  - reflexivity.
  - discriminate.
  - exact ex_incoming.
  - done.
  - reflexivity.
  - reflexivity.
  - exact ex_waiting.
  - intros x [= <-]. left. reflexivity.
  - by split.
  - intros y [= <-]. discriminate.
  - exact (proj1 ex_distinct).
  - exact (proj2 ex_distinct).
  - reflexivity.
  - exists h', b'. split; [exact E|]. split; [exact Hp|]. split; [exact Hn|]. rewrite Eb. split; reflexivity.
Defined.

Lemma receive_window_follows_data_witness : exists s' b',
  @recv_data_segment memp_core ex_env 3 ex_receiving = (@tcp_ack memp_core ex_env 3;; mret true) s'
  /\ s_tpcbs s' !! 3%positive = Some b' /\ pcb_rcv_wnd b' = 995 /\ pcb_rcv_nxt b' = 5005 /\ right_edge b' 5000 = 1000.
Proof.
  destruct (@receive_window_follows_data memp_core ex_env ex_receiving 3 ex_receiver 40 [40%positive] [1; 2; 3] TCP_ACK
    [ex_queued1] [ex_queued2]) as (s' & b' & E & Hb & _ & Hw & Hn & He & _).
  - reflexivity.
  - discriminate.
  - exact ex_incoming.
  - done.
  - reflexivity.
  - reflexivity.
  - exact ex_waiting.
  - intros x [= <-]. left. reflexivity.
  - by split.
  - intros y [= <-]. discriminate.
  - exact (proj1 ex_distinct).
  - exact (proj2 ex_distinct).
  - reflexivity.
  - split; vm_compute; intuition discriminate.
  - reflexivity.
  - exists s', b'. split; [exact E|]. split; [exact Hb|]. split; [exact Hw|]. split; [exact Hn|exact He].
Defined.
