(* ===== verification/TcpFaults.v ===== *)
(** * Runs of the TCP code that go wrong

    Inputs on which the code as written accesses freed or null memory.  Each
    theorem says that no run gets past the fault; its witness evaluates one. *)
From S2P Require Import Prelude Inet Heap Pbuf Stack Chains Ip TcpBase TcpOut Tcp TcpIn TcpSpec Frame.
#[local] Open Scope string_scope.
#[local] Open Scope list_scope.
#[local] Open Scope Z_scope.

Section faults.
Context {MC : MempConf} {EV : Env}.

(** ** The keep-alive timer uses the connection it has just freed *)
Section keepalive.
(** The driver and the error callback leave the control blocks alone. *)
Context (driver_keeps : forall nif p addr, Keeps (netif_output nif p addr)).
Context (err_keeps : forall f arg err, Keeps (tcp_err_app f arg err)).

Lemma free_pcb_gone l s s' : free_pcb l s = Done (tt, s') -> s_tpcbs s' !! l = None.
Proof. intros (b & s1 & _ & [= <-])%bind_inv. cbn. by rewrite lookup_delete_eq. Qed.

(** Once tcp_abort is through, the control block is gone. *)
Lemma tcp_abort_frees pcb s s' : tcp_abort pcb s = Done (tt, s') -> s_tpcbs s' !! pcb = None.
Proof.
  unfold tcp_abort. intros (st & s1 & _ & H)%bind_inv. destruct (state_is st TIME_WAIT).
  - apply bind_inv in H as ([] & s2 & _ & H). by eapply free_pcb_gone.
  - apply bind_inv in H as (b & s2 & _ & H). apply bind_inv in H as ([] & s3 & _ & H).
    apply bind_inv in H as (b' & s4 & _ & H). do 3 apply bind_inv in H as ([] & ? & _ & H).
    apply bind_inv in H as ([] & s8 & Hfree%free_pcb_gone & H).
    apply bind_inv in H as ([] & s9 & He & H).
    assert (E9 : tcp_part s9 = tcp_part s8).
    { unfold TCP_EVENT_ERR in He. destruct (pcb_errf b) as [[|f]|]; [by injection He as <-| |by injection He as <-].
      by apply err_keeps in He. }
    apply (tcp_rst_keeps driver_keeps) in H. unfold tcp_part in *. congruence.
Qed.

(** The idle time after which the keep-alive timer gives up. *)
Definition keepalive_expired (b : tcp_pcb) (ticks : Z) : bool :=
  u32 (pcb_keep_idle b + TCP_MAXIDLE) / TCP_SLOW_INTERVAL <? u32 (ticks - pcb_tmr b).

(** C18: When the keep-alive timer of an established connection with nothing to
    retransmit expires, the slow timer frees the control block with tcp_abort
    and goes on to read it: no run of the timer's step returns. *)
Theorem slowtmr_keepalive_use_after_free s pcb b r s' :
  s_tpcbs s !! pcb = Some b ->
  pcb_state b = ESTABLISHED \/ pcb_state b = CLOSE_WAIT ->
  has (pcb_so_options b) SOF_KEEPALIVE = true -> keepalive_expired b (tcp_ticks (s_tcp s)) = true ->
  pcb_unacked b = None -> pcb_persist_backoff b = 0 -> pcb_rtime b = -1 -> pcb_nrtx b = 0 ->
  slowtmr_pcb pcb s <> Done (r, s').
Proof.
  intros Hb Hst Hka Hexp Hun Hper Hrt Hnr H. unfold slowtmr_pcb in H.
  assert (Hrex : slowtmr_rexmit pcb s = Done (0, put_pcb pcb b s)).
  { unfold slowtmr_rexmit. run_with (pcb_get_run _ _ _ Hb). rewrite Hnr.
    change (0 =? TCP_SYNMAXRTX) with false. rewrite andb_false_r. change (0 =? TCP_MAXRTX) with false.
    rewrite Hper, Hrt. change (0 <? 0) with false. change (0 <=? -1) with false. cbv iota zeta.
    rewrite (bind_run _ _ _ tt (put_pcb pcb b s)); [done|].
    run_with (pcb_put_run s pcb b). by rewrite Hun. }
  run_with_in Hrex H. run_with_in (pcb_get_run _ _ _ (put_pcb_eq pcb b s)) H.
  rewrite (bind_run _ _ _ (tcp_ticks (s_tcp s)) (put_pcb pcb b s)) in H by done.
  apply bind_inv in H as ([] & s1 & Hk & H).
  assert (Hgone : s_tpcbs s1 !! pcb = None).
  { unfold slowtmr_keepalive in Hk. run_with_in (pcb_get_run _ _ _ (put_pcb_eq pcb b s)) Hk.
    rewrite (bind_run _ _ _ (tcp_ticks (s_tcp s)) (put_pcb pcb b s)) in Hk by done.
    assert (Hstb : (state_is (pcb_state b) ESTABLISHED || state_is (pcb_state b) CLOSE_WAIT) = true)
      by (destruct Hst as [-> | ->]; done).
    rewrite Hka, Hstb in Hk. cbn [when andb] in Hk. unfold keepalive_expired in Hexp. rewrite Hexp in Hk.
    by apply tcp_abort_frees in Hk. }
  apply bind_inv in H as ([] & s2 & Ho & _). unfold slowtmr_ooseq in Ho.
  apply bind_inv in Ho as (b2 & s3 & Hget & _). unfold pcb_get in Hget.
  rewrite (bind_run _ _ _ s1 s1) in Hget by done. by rewrite Hgone in Hget.
Qed.
End keepalive.

(** ** A failed copy of a longer out-of-order segment *)

(** When a longer segment replaces the queued one with the same sequence number
    and there is no memory for the copy, the queued segment is freed and the
    null copy is dereferenced: no run returns. *)
Theorem ooseq_replace_null s pcb prev next nb r :
  seg_len nb < seg_len (in_seg (s_tcp s)) -> h_env (s_heap s) (h_nalloc (s_heap s)) = None ->
  ooseq_replace pcb prev next nb s <> Done r.
Proof.
  intros Hlen Hmem H. destruct r as [[] s']. unfold ooseq_replace in H.
  rewrite (bind_run _ _ _ (s_tcp s) s) in H by done. rewrite (proj2 (Z.ltb_lt _ _) Hlen) in H. cbn [when] in H.
  apply bind_inv in H as (cseg & s1 & Hc & H).
  assert (cseg = None) as ->.
  { unfold tcp_seg_copy in Hc. apply bind_inv in Hc as (m & s2 & Hm & Hc).
    unfold malloc_struct, hp, zoom in Hm. rewrite (bind_run _ _ _ (s_heap s) (s_heap s)) in Hm by done.
    rewrite Hmem in Hm. injection Hm as <- <-. by injection Hc. }
  apply bind_inv in H as ([] & s2 & _ & H). apply bind_inv in H as (n & s3 & _ & H). done.
Qed.
End faults.

(** ** Witnesses *)

(** Connection 3 with the keep-alive option, idle for 16000 ticks. *)
Definition ex_idle_pcb : tcp_pcb :=
  (ex_pcb 4097 10 80 20 ESTABLISHED (Some 4%positive)) <| pcb_so_options := SOF_KEEPALIVE |> <| pcb_tmr := 0 |>.
Definition ex_idle : stack :=
  ex_tcp <| s_tpcbs := <[3%positive := ex_idle_pcb]> (s_tpcbs ex_tcp) |>
         <| s_tcp := (s_tcp ex_tcp) <| tcp_ticks := 16000 |> |>.

Lemma slowtmr_keepalive_use_after_free_witness :
  @slowtmr_pcb memp_core ex_env 3 ex_idle = Halt UB
  /\ forall r s', @slowtmr_pcb memp_core ex_env 3 ex_idle <> Done (r, s').
Proof.
  split; [vm_compute; reflexivity|]. intros r s'.
  apply (@slowtmr_keepalive_use_after_free memp_core ex_env) with ex_idle_pcb.
  - intros nif p addr s a s1 [= <- <-]. reflexivity.
  - intros f arg err s a s1 [= <- <-]. reflexivity.
  - vm_compute. reflexivity.
  - left. vm_compute. reflexivity.
  - vm_compute. reflexivity.
  - vm_compute. reflexivity.
  - vm_compute. reflexivity.
  - vm_compute. reflexivity.
  - vm_compute. reflexivity.
  - vm_compute. reflexivity.
Defined.

(** A queued segment of 10 bytes and an incoming one of 20, and no memory. *)
Definition ex_short_seg : tcp_seg := TcpSeg None None None 10 (Some (Ptr 9 0)).
Definition ex_ooseq : stack :=
  (ex_stack no_mem {[8%positive := ex_short_seg]} ex_tpcbs ex_lpcbs
    ((s_tcp ex_tcp) <| in_seg := TcpSeg None None None 20 (Some (Ptr 9 0)) |>)).

Lemma ooseq_replace_null_witness :
  ooseq_replace 3 None 8 ex_short_seg ex_ooseq = Halt UB
  /\ forall r, ooseq_replace 3 None 8 ex_short_seg ex_ooseq <> Done r.
Proof.
  split; [vm_compute; reflexivity|]. intros r.
  apply ooseq_replace_null; vm_compute; reflexivity.
Defined.
