(* ===== verification/IcmpProps.v ===== *)
(** * Echo replies and error messages

    The incremental checksum of an echo reply against recomputation, and how
    many bytes an error message reads from the datagram it quotes. *)
From S2P Require Import Prelude Inet Checksum Heap Pbuf PbufSpec PbufProps InetChksum Stack Chains Words Ip Icmp TcpSpec TcpArith.
#[local] Open Scope list_scope.
#[local] Open Scope Z_scope.
#[local] Open Scope oc_scope.

(** ** The checksum of an echo reply *)
Definition echo_message (type code chksum : Z) (rest : list Z) : list Z :=
  [type; code; u8 chksum; u8 (chksum / 2 ^ 8)] ++ rest.

Lemma echo_message_sum type code c rest : is_u16 c ->
  lesum (echo_message type code c rest) = type + 256 * code + c + lesum rest.
Proof.
  unfold is_u16. intros Hc. cbn [echo_message app lesum]. unfold u8. Z.div_mod_to_equations. lia.
Qed.

Lemma echo_message_ok type code c rest : is_u8 type -> is_u8 code -> bytes_ok rest ->
  bytes_ok (echo_message type code c rest).
Proof. intros. unfold echo_message. cbn [app]. rewrite !bytes_ok_cons. auto using u8_range. Qed.

Lemma echo_chksum_value c : is_u16 c ->
  echo_chksum c = if 0xfff7 <=? c then c + 8 - 65535 else c + 8.
Proof.
  unfold is_u16, echo_chksum, u16. intros Hc.
  change (htons (0xffff - Z.shiftl ICMP_ECHO 8)) with 0xfff7.
  change (htons (Z.shiftl ICMP_ECHO 8)) with 8.
  destruct (Z.leb_spec 0xfff7 c); Z.div_mod_to_equations; lia.
Qed.

(** C21: Replacing the type of a correct echo request by 0 and its checksum by
    the adjusted one gives a message that verifies - unless everything but the
    checksum is zero (identifier, sequence number and data): then the adjusted
    checksum is 0 where 0xffff is right, and the reply fails the receiver's
    check. *)
Theorem echo_reply_checksum code c rest :
  is_u8 code -> is_u16 c -> bytes_ok rest -> Z.of_nat (length rest) <= 65500 ->
  inet_chksum (echo_message ICMP_ECHO code c rest) = Some 0 ->
  inet_chksum (echo_message ICMP_ER code (echo_chksum c) rest)
  = Some (if bool_decide (Forall (eq 0) (code :: rest)) then 0xffff else 0).
Proof.
  intros Hcode Hc Hrest Hlen.
  rewrite !inet_chksum_oc by
    ((apply echo_message_ok; done) || (cbn [echo_message app length]; lia)).
  pose proof (echo_chksum_value c Hc) as Ev. unfold is_u8, is_u16 in *.
  assert (Hc' : is_u16 (echo_chksum c)) by (rewrite Ev; unfold is_u16; destruct (Z.leb_spec 0xfff7 c); lia).
  rewrite !echo_message_sum by done. unfold ICMP_ECHO, ICMP_ER.
  pose proof (lesum_nonneg rest Hrest) as Hr. intros [= E].
  set (S := 8 + 256 * code + c + lesum rest) in *.
  set (S' := 0 + 256 * code + echo_chksum c + lesum rest) in *.
  assert (HS : 0 <= S) by lia. assert (HS' : 0 <= S') by (unfold is_u16 in *; lia).
  assert (E1 : oc S = 65535) by lia. destruct (oc_same S HS) as [H1 _]. rewrite E1 in H1.
  assert (Hcong : S' ~~ 65535).
  { rewrite H1. subst S S'. rewrite Ev. destruct (Z.leb_spec 0xfff7 c);
      [apply (cong_mult _ _ (-1)) | apply (cong_mult _ _ 0)]; lia. }
  assert (Hz : S' = 0 <-> Forall (eq 0) (code :: rest)).
  { rewrite list.Forall_cons, <- (lesum_zero rest Hrest). subst S S'. rewrite Ev in *. split.
    - destruct (Z.leb_spec 0xfff7 c); lia.
    - intros [<- Hl]. rewrite Hl in *. unfold cong in H1.
      destruct (Z.leb_spec 0xfff7 c); Z.div_mod_to_equations; lia. }
  case_bool_decide as B.
  - rewrite (proj2 Hz B). done.
  - f_equal. enough (oc S' = 65535) by lia. symmetry. apply oc_unique; [done | unfold is_u16; lia|].
    split; [by rewrite Hcong|]. split; [lia | by intros ?%Hz].
Qed.

(** A ping with identifier 1 and one without any non-zero field. *)
Lemma echo_reply_checksum_witness :
  inet_chksum (echo_message ICMP_ER 0 (echo_chksum 0xfdf7) [0; 1; 0; 1]) = Some 0
  /\ inet_chksum (echo_message ICMP_ER 0 (echo_chksum 0xfff7) [0; 0; 0; 0]) = Some 0xffff.
Proof.
  split.
  - rewrite (echo_reply_checksum 0 0xfdf7 [0; 1; 0; 1]); [reflexivity| | | | |reflexivity].
    all: try (repeat constructor; unfold is_u8, is_u16; lia). all: cbn; lia.
  - rewrite (echo_reply_checksum 0 0xfff7 [0; 0; 0; 0]); [reflexivity| | | | |reflexivity].
    all: try (repeat constructor; unfold is_u8, is_u16; lia). all: cbn; lia.
Defined.

(** ** What an error message quotes *)
Section error.
Context {MC : MempConf} {EV : Env}.

Lemma alloc_error_message h : h_ok h -> is_Some (h_env h (h_nalloc h)) ->
  exists data, length data = 70%nat /\
    pbuf_alloc PBUF_IP 36 PBUF_RAM h
    = Done (Some (h_next h),
            alloced h data (Pbuf None (Some (Ptr (h_next h) 50)) 36 36 PBUF_RAM 0 1)).
Proof.
  intros Hok He. pose proof (pbuf_alloc_ram_spec h PBUF_IP 34 36 Hok ltac:(unfold is_u16; lia) eq_refl) as H.
  apply wp_run in H as (r & h' & E & H). destruct r as [q|].
  - destruct H as (-> & _ & d & data & H1 & _ & _ & ->). exists data. split; [lia | exact E].
  - destruct H as [H _]. rewrite H in He. by destruct He.
Qed.

(** Only the block of [p] changes, and [n] bytes at [p] stay in it. *)
Definition only_at (p : ptr) (n : Z) (h h' : heap) : Prop :=
  h_pbufs h' = h_pbufs h /\ is_Some (bytes_at h' p n)
  /\ forall q m, p_loc q <> p_loc p -> bytes_at h' q m = bytes_at h q m.

Lemma poke_only_at p n bs h d : bytes_at h p n = Some d -> (length bs <= length d)%nat ->
  only_at p n h (poke p bs h).
Proof.
  intros H Hl. split; [apply poke_pbufs|]. split.
  - pose proof (bytes_at_poke h p n _ 0 bs H ltac:(cbn; lia)) as E.
    destruct p as [l o]. unfold ptr_add in E. cbn in E. rewrite Z.add_0_r in E. by rewrite E.
  - intros q m Hq. by apply bytes_at_poke_ne.
Qed.

Lemma word_at s p d : bytes_at (s_heap s) p 4 = Some d ->
  exists a b, bytes_at (s_heap s) p 2 = Some [a; b] /\ (2 <= length d)%nat.
Proof.
  intros H. pose proof (bytes_at_length _ _ _ _ H) as Hl.
  apply (bytes_at_split _ _ _ 2) in H as [H _]; [|lia].
  destruct d as [|a [|b d]]; cbn in Hl; try lia. exists a, b. split; [done | cbn; lia].
Qed.

Lemma ICMPH_TYPE_SET_run s p v : is_Some (bytes_at (s_heap s) p 4) ->
  exists h', ICMPH_TYPE_SET p v s = Done (tt, with_heap h' s) /\ only_at p 4 (s_heap s) h'.
Proof.
  intros [d H]. destruct (word_at _ _ _ H) as (a & b & E & Hl).
  unfold ICMPH_TYPE_SET, ICMPH_CODE.
  erewrite bind_run by (erewrite bind_run by (by eapply get16_run); reflexivity).
  eexists. split; [by eapply put16_run|]. by eapply poke_only_at.
Qed.
Lemma ICMPH_CODE_SET_run s p v : is_Some (bytes_at (s_heap s) p 4) ->
  exists h', ICMPH_CODE_SET p v s = Done (tt, with_heap h' s) /\ only_at p 4 (s_heap s) h'.
Proof.
  intros [d H]. destruct (word_at _ _ _ H) as (a & b & E & Hl).
  unfold ICMPH_CODE_SET, ICMPH_TYPE.
  erewrite bind_run by (erewrite bind_run by (by eapply get16_run); reflexivity).
  eexists. split; [by eapply put16_run|]. by eapply poke_only_at.
Qed.

(** The error messages quote 28 bytes of the datagram whatever its length:
    when the buffer ends sooner - a datagram of an unknown protocol with less
    than eight bytes of data - the copy runs past the end of the buffer. *)
Theorem icmp_dest_unreach_overread s p b pp blk t :
  h_ok (s_heap s) -> is_Some (h_env (s_heap s) (h_nalloc (s_heap s))) ->
  h_pbufs (s_heap s) !! p = Some b -> pb_payload b = Some pp ->
  h_blocks (s_heap s) !! p_loc pp = Some blk ->
  b_base blk + Z.of_nat (length (b_data blk)) < p_off pp + 28 ->
  icmp_dest_unreach p t s = Halt UB.
Proof.
  intros Hok He Hp Hpp Hblk Hend.
  destruct (alloc_error_message _ Hok He) as (data & Hd & Ea).
  set (q := h_next (s_heap s)) in *. set (qb := Pbuf _ _ _ _ _ _ _) in Ea.
  assert (Hq : q <> p_loc pp) by (intros E; pose proof (ok_blocks _ Hok _ (mk_is_Some _ _ Hblk)); subst q; lia).
  assert (Hqp : q <> p) by (intros E; pose proof (ok_pbufs _ Hok _ (mk_is_Some _ _ Hp)); subst q; lia).
  unfold icmp_dest_unreach, icmp_error. cbv zeta.
  change (SIZEOF_ICMP_HDR + IP_HLEN + ICMP_DEST_UNREACH_DATASIZE) with 36.
  erewrite bind_run by (by apply hp_run).
  set (s1 := with_heap _ s). set (h1 := alloced _ _ _) in *.
  assert (Eqb : h_pbufs (s_heap s1) !! q = Some qb) by apply lookup_insert_eq.
  cbv beta iota. erewrite bind_run by (by apply pbuf_get_run).
  erewrite bind_run by reflexivity.
  erewrite bind_run by (apply pbuf_get_run; cbn; by rewrite lookup_insert_ne).
  rewrite Hpp. erewrite bind_run by reflexivity. cbn [pb_payload qb]. erewrite bind_run by reflexivity.
  destruct (bytes_at_all h1 q 16 data 50 4) as (hd & Ehd & _); [apply lookup_insert_eq | lia.. |].
  destruct (ICMPH_TYPE_SET_run s1 (Ptr q 50) ICMP_DUR (mk_is_Some _ _ Ehd)) as (h2 & E2 & _ & B2 & O2).
  erewrite bind_run by exact E2.
  destruct (ICMPH_CODE_SET_run (with_heap h2 s1) (Ptr q 50) t B2) as (h3 & E3 & _ & _ & O3).
  erewrite bind_run by exact E3. rewrite with_heap_twice.
  apply bind_halt. unfold hp, zoom, load. change (s_heap (with_heap h3 s1)) with h3.
  erewrite bind_run by reflexivity. change (IP_HLEN + ICMP_DEST_UNREACH_DATASIZE) with 28.
  replace (bytes_at h3 pp 28) with (@None (list Z)); [done|].
  rewrite O3, O2 by done. unfold bytes_at. change (h_blocks (s_heap s1)) with (<[q := Block 16 data]> (h_blocks (s_heap s))).
  rewrite lookup_insert_ne, Hblk by done. cbn.
  replace (p_off pp + 28 <=? _) with false by (symmetry; apply Z.leb_gt; lia).
  by rewrite andb_false_r.
Qed.
End error.

(** A datagram of 20 bytes and an unknown protocol, in a buffer of its size. *)
Definition ex_header_only : stack :=
  blank <| s_heap := Heap {[1%positive := Block 16 (repeat 0 20)]}
                       {[1%positive := Pbuf None (Some (Ptr 1 16)) 20 20 PBUF_RAM 0 1]}
                       2 0 (fun _ => Some (fun _ => 0)) [] |>.

Lemma icmp_dest_unreach_overread_witness :
  @icmp_dest_unreach memp_nsc ex_env 1 ICMP_DUR_PROTO ex_header_only = Halt UB.
Proof.
  eapply icmp_dest_unreach_overread; try reflexivity.
  - apply h_okb_sound. reflexivity.
  - by eexists.
Defined.
