(* ===== verification/IpInProps.v ===== *)
(** * Which datagrams are for this host (ip_input)

    The search of ip_input for an interface that takes a destination address,
    against its declarative meaning, and what is dropped before it. *)
From S2P Require Import Prelude Inet Checksum Heap Pbuf PbufSpec PbufProps InetChksum Stack Chains Words Ip IpProps Icmp Igmp Udp Raw Reass TcpBase TcpOut Tcp TcpIn IpIn TcpSpec TcpArith.
#[local] Open Scope list_scope.
#[local] Open Scope Z_scope.

(** ** Group membership *)
Lemma grp_get_run s l g : s_groups s !! l = Some g -> grp_get l s = Done (g, s).
Proof. unfold grp_get. intros H. rewrite (bind_run _ _ _ s s) by done. by rewrite H. Qed.

(** The node [l] of the group list is the membership of [ifp] in [addr]. *)
Definition is_group (s : stack) (ifp : loc) (addr : Z) (l : loc) : bool :=
  match s_groups s !! l with
  | Some g => bool_decide (grp_interface g = ifp) && (grp_group_address g =? addr)
  | None => false
  end.
Definition groups_are (s : stack) (gs : list loc) : Prop :=
  chain (map_next grp_next (s_groups s)) (igmp_group_list (s_igmp s)) gs None.

Lemma lookfor_walk_run fuel s ifp addr p gs :
  chain (map_next grp_next (s_groups s)) p gs None -> (length gs <= fuel)%nat ->
  lookfor_walk fuel p ifp addr s = Done (find (is_group s ifp addr) gs, s).
Proof.
  revert p fuel. induction gs as [|l gs IH]; intros p fuel H Hf; [cbn in H; subst; by destruct fuel|].
  pose proof H as (-> & _). apply map_chain_lookup in H as (g & Hg & H).
  destruct fuel as [|fuel]; [cbn in Hf; lia|]. cbn [lookfor_walk find].
  rewrite (bind_run _ _ _ _ _ (grp_get_run _ _ _ Hg)).
  unfold is_group at 1. rewrite Hg. destruct (bool_decide _ && _); [done|].
  apply IH; [done | cbn in Hf; lia].
Qed.

Lemma igmp_lookfor_group_run s ifp addr gs : groups_are s gs ->
  igmp_lookfor_group ifp addr s = Done (find (is_group s ifp addr) gs, s).
Proof.
  intros H. unfold igmp_lookfor_group. rewrite (bind_run _ _ _ s s) by done.
  apply lookfor_walk_run; [done|]. pose proof (map_chain_length _ _ _ _ H). unfold map_fuel. lia.
Qed.

(** ** The interface *)
Definition netifs_are (s : stack) (ls : list loc) : Prop :=
  chain (map_next netif_next (s_netifs s)) (netif_list s) ls None.

(** The interface is up, has an address, and [dest] is that address or a
    broadcast address of its network. *)
Definition takes (s : stack) (dest : Z) (l : loc) : bool :=
  match s_netifs s !! l with Some n => accepts n dest | None => false end.
Definition has_igmp (s : stack) (l : loc) : bool :=
  match s_netifs s !! l with
  | Some n => negb (Z.land (netif_flags n) NETIF_FLAG_IGMP =? 0)
  | None => false
  end.

(** Where a datagram for [dest] that came in on [inp] is taken: a multicast
    one on [inp] if the group was joined there, any other one on [inp] if that
    takes it and else on the first interface of the list that does. *)
Definition taken_on (s : stack) (inp : loc) (ls gs : list loc) (dest : Z) : option loc :=
  if ip_addr_ismulticast dest then
    if has_igmp s inp && is_some (find (is_group s inp dest) gs) then Some inp else None
  else find (takes s dest) (inp :: filter (fun l : loc => l <> inp) ls).

Lemma accept_walk_step fuel s (first : bool) l inp dest n next :
  s_netifs s !! l = Some n ->
  next = (if first then netif_list s else netif_next n) ->
  (next = Some inp -> exists ni, s_netifs s !! inp = Some ni) ->
  accept_walk (S fuel) first l inp dest s
  = if accepts n dest then Done (Some l, s)
    else match (if bool_decide (next = Some inp)
                then from_option netif_next None (s_netifs s !! inp) else next) with
         | None => Done (None, s)
         | Some l' => accept_walk fuel false l' inp dest s
         end.
Proof.
  intros Hn -> Hi. cbn [accept_walk]. rewrite (bind_run _ _ _ _ _ (netif_get_run _ _ _ Hn)).
  destruct (accepts n dest); [done|].
  rewrite (bind_run _ _ _ (if first then netif_list s else netif_next n) s) by by destruct first.
  case_bool_decide as B.
  - destruct (Hi B) as [ni Hni]. rewrite Hni. cbn [from_option].
    erewrite bind_run; [|by erewrite bind_run by by apply netif_get_run]. by destruct (netif_next ni).
  - erewrite bind_run by done. by destruct (if first then _ else _).
Qed.

(** Past the interface the packet came in on, from a node of the list. *)
Lemma accept_walk_run fuel s l inp dest ls :
  chain (map_next netif_next (s_netifs s)) (Some l) (l :: ls) None -> l <> inp ->
  (length ls < fuel)%nat ->
  accept_walk fuel false l inp dest s
  = Done (find (takes s dest) (l :: filter (fun l : loc => l <> inp) ls), s).
Proof.
  revert fuel l. induction ls as [ls IH] using (induction_ltof1 _ (@length loc)). unfold ltof in IH.
  intros fuel l H Hl Hf. apply map_chain_lookup in H as (n & Hn & H).
  destruct fuel as [|fuel]; [lia|]. cbn [find]. unfold takes at 1. rewrite Hn.
  erewrite (accept_walk_step _ _ _ _ _ _ _ (netif_next n)); [|done|done|].
  2:{ intros E. rewrite E in H. destruct ls as [|l' ls]; [done|]. pose proof H as ([= <-] & _).
      apply map_chain_lookup in H as (ni & Hni & _). by exists ni. }
  destruct (accepts n dest); [done|].
  destruct ls as [|l1 ls]; [cbn in H; by rewrite H|].
  pose proof H as (E1 & _). rewrite E1. rewrite E1 in H.
  destruct (decide (l1 = inp)) as [->|Hne].
  - rewrite bool_decide_eq_true_2 by done. rewrite filter_cons_False by naive_solver.
    pose proof (chain_NoDup _ _ _ H) as [Hnin _]%NoDup_cons.
    apply map_chain_lookup in H as (ni & Hni & H). rewrite Hni. cbn [from_option].
    destruct ls as [|l2 ls]; [cbn in H; by rewrite H|].
    pose proof H as (E2 & _). rewrite E2 in H |- *.
    assert (l2 <> inp) by (intros ->; apply Hnin; by left).
    rewrite filter_cons_True by done. apply IH; cbn in *; [lia | done | done | lia].
  - rewrite bool_decide_eq_false_2 by congruence. rewrite filter_cons_True by done.
    apply IH; cbn in *; [lia | done | done | lia].
Qed.

Lemma input_netif_run s inp ls gs dest :
  netifs_are s ls -> groups_are s gs -> is_Some (s_netifs s !! inp) ->
  input_netif inp dest s = Done (taken_on s inp ls gs dest, s).
Proof.
  intros H Hg [n Hn]. unfold input_netif, taken_on.
  destruct (ip_addr_ismulticast dest).
  - rewrite (bind_run _ _ _ _ _ (netif_get_run _ _ _ Hn)). unfold has_igmp. rewrite Hn.
    destruct (Z.land _ _ =? 0); [done|]. cbn [negb andb].
    erewrite bind_run by by apply igmp_lookfor_group_run. by destruct (find _ gs).
  - rewrite (bind_run _ _ _ s s) by done. cbn [find]. unfold takes at 1. rewrite Hn.
    erewrite (accept_walk_step _ _ _ _ _ _ _ (netif_list s)); [|done|done|by eauto].
    destruct (accepts n dest); [done|].
    pose proof (map_chain_length _ _ _ _ H) as Hlen. unfold netifs_are in H.
    destruct ls as [|l1 ls]; [cbn in H; rewrite H; by rewrite bool_decide_eq_false_2 by done|].
    pose proof H as (E1 & _). rewrite E1. rewrite E1 in H.
    destruct (decide (l1 = inp)) as [->|Hne].
    + rewrite bool_decide_eq_true_2 by done. rewrite filter_cons_False by naive_solver.
      pose proof (chain_NoDup _ _ _ H) as [Hnin _]%NoDup_cons.
      apply map_chain_lookup in H as (ni & Hni & H). rewrite Hni. cbn [from_option].
      destruct ls as [|l2 ls]; [cbn in H; by rewrite H|].
      pose proof H as (E2 & _). rewrite E2 in H |- *.
      assert (l2 <> inp) by (intros ->; apply Hnin; by left).
      rewrite filter_cons_True by done. apply accept_walk_run; [done..|]. cbn in *. unfold map_fuel. lia.
    + rewrite bool_decide_eq_false_2 by congruence. rewrite filter_cons_True by done.
      apply accept_walk_run; [done..|]. cbn in *. unfold map_fuel. lia.
Qed.

(** The search for the interface that takes a datagram always ends,
    changes nothing and returns [taken_on]; the interface the datagram came in
    on need not be on the list. *)
Theorem input_netif_spec s inp ls gs dest :
  netifs_are s ls -> groups_are s gs -> is_Some (s_netifs s !! inp) ->
  input_netif inp dest s = Done (taken_on s inp ls gs dest, s).
Proof. apply input_netif_run. Qed.

(** The two interfaces of [ex_routes]: 10.0.0.1 is up and on the list before
    192.168.0.1, which is down; a packet for the first that comes in on the
    second is taken on the first. *)
Lemma input_netif_spec_witness :
  input_netif 2 0x0100000a ex_routes = Done (Some 1%positive, ex_routes)
  /\ input_netif 1 0x0100a8c0 ex_routes = Done (None, ex_routes).
Proof.
  assert (H : netifs_are ex_routes [1; 2]%positive).
  { split; [reflexivity|]. exists (Some 2%positive). split; [vm_compute; reflexivity|].
    split; [reflexivity|]. exists None. split; [vm_compute; reflexivity | reflexivity]. }
  split.
  - rewrite (input_netif_spec ex_routes 2 _ [] _ H); [vm_compute; reflexivity | reflexivity|].
    eexists. vm_compute. reflexivity.
  - rewrite (input_netif_spec ex_routes 1 _ [] _ H); [vm_compute; reflexivity | reflexivity|].
    eexists. vm_compute. reflexivity.
Defined.

(** ** The header *)

(** The fields of a header given by its bytes. *)
Definition hdr_v (d : list Z) : Z := nth 0 d 0 / 16.
Definition hdr_hl (d : list Z) : Z := nth 0 d 0 mod 16.
Definition hdr_len (d : list Z) : Z := 256 * nth 2 d 0 + nth 3 d 0.
Definition hdr_frag (d : list Z) : Z := (256 * nth 6 d 0 + nth 7 d 0) mod 2 ^ 14.

(** A fragment: more of them follow or the offset is not zero. *)
Lemma frag_field a b : is_u8 a -> is_u8 b ->
  (Z.land (a + 2 ^ 8 * b) (htons (Z.lor IP_OFFMASK IP_MF)) =? 0) = ((256 * a + b) mod 2 ^ 14 =? 0).
Proof.
  intros Ha Hb.
  assert (H : forallb (fun x => forallb (fun y =>
     Bool.eqb (Z.land (x + 2 ^ 8 * y) (htons (Z.lor IP_OFFMASK IP_MF)) =? 0)
       ((256 * x + y) mod 2 ^ 14 =? 0)) (map Z.of_nat (seq 0 256))) (map Z.of_nat (seq 0 256)) = true)
    by (vm_compute; reflexivity).
  assert (Hin : forall z, is_u8 z -> In z (map Z.of_nat (seq 0 256))).
  { unfold is_u8. intros z Hz. apply in_map_iff. exists (Z.to_nat z). rewrite in_seq. lia. }
  rewrite forallb_forall in H. specialize (H a (Hin a Ha)).
  rewrite forallb_forall in H. specialize (H b (Hin b Hb)). by apply eqb_prop in H.
Qed.

Section header.
Context (s : stack) (p : ptr) (d : list Z).
Context (Hd : bytes_at (s_heap s) p (Z.of_nat (length d)) = Some d).
Context (Hlen : (20 <= length d)%nat) (Hok : bytes_ok d).

Lemma word16_at k : (k + 2 <= 20)%nat -> get16 (ptr_add p (Z.of_nat k)) s = Done (hdr16 d k, s).
Proof.
  intros Hk. apply get16_run.
  rewrite (bytes_at_slice _ _ _ _ (Z.of_nat k) 2 Hd) by lia. f_equal.
  rewrite Nat2Z.id. change (Z.to_nat 2) with 2%nat.
  assert (Hs : (2 <= length (drop k d))%nat) by (rewrite length_drop; lia).
  pose proof (nth_skipn k d 0 0) as H0. pose proof (nth_skipn k d 1 0) as H1.
  rewrite Nat.add_0_r in H0. rewrite Nat.add_1_r in H1.
  destruct (drop k d) as [|x [|y l]]; cbn in Hs; try lia. cbn in *. by subst.
Qed.
Lemma word32_at k : (k + 4 <= 20)%nat -> get32 (ptr_add p (Z.of_nat k)) s = Done (hdr32 d k, s).
Proof.
  intros Hk.
  rewrite (get32_run _ _ (nth k d 0) (nth (1 + k) d 0) (nth (2 + k) d 0) (nth (3 + k) d 0)).
  - unfold hdr32, hdr16. cbn [Nat.add]. do 2 f_equal. lia.
  - rewrite (bytes_at_slice _ _ _ _ (Z.of_nat k) 4 Hd) by lia. f_equal.
    rewrite Nat2Z.id. change (Z.to_nat 4) with 4%nat.
    assert (Hs : (4 <= length (drop k d))%nat) by (rewrite length_drop; lia).
    pose proof (nth_skipn k d 0 0) as H0. pose proof (nth_skipn k d 1 0) as H1.
    pose proof (nth_skipn k d 2 0) as H2. pose proof (nth_skipn k d 3 0) as H3.
    rewrite Nat.add_0_r in H0. rewrite (Nat.add_comm k) in H1, H2, H3.
    destruct (drop k d) as [|x [|y [|z [|t l]]]]; cbn in Hs; try lia. cbn in *. by subst.
Qed.
End header.

(** ** The verdict of ip_input *)
Inductive verdict := Discard | Deliver | Reassemble.

(** [d1] is what the first buffer of the datagram [d] holds. *)
Definition header_good (d1 d : list Z) : bool :=
  (hdr_v d1 =? 4) && (hdr_hl d1 * 4 <=? Z.of_nat (length d1)) && (hdr_len d1 <=? Z.of_nat (length d))
  && bool_decide (inet_chksum (take (Z.to_nat (hdr_hl d1 * 4)) d1) = Some 0).
Definition source_good (s : stack) (inp : loc) (src : Z) : bool :=
  match s_netifs s !! inp with
  | Some n => negb (ip_addr_isbroadcast src n || ip_addr_ismulticast src)
  | None => false
  end.
Definition input_verdict (s : stack) (inp : loc) (ls gs : list loc) (d1 d : list Z) : verdict :=
  if header_good d1 d && source_good s inp (hdr32 d1 12) && is_some (taken_on s inp ls gs (hdr32 d1 16))
  then if hdr_frag d1 =? 0 then Deliver else Reassemble
  else Discard.

Section verdict.
Context {MC : MempConf} {EV : Env}.

(** What ip_input goes on to do with a datagram it accepts. *)
Definition input_accepted (p inp : loc) (iphdr : ptr) (v : verdict) : M stack Z :=
  match v with
  | Discard => pfree p;; mret ERR_OK
  | Deliver => ip_deliver p inp iphdr;; mret ERR_OK
  | Reassemble =>
      r ← ip_reass p;
      match r with
      | None => mret ERR_OK
      | Some q => ih ← payload_of q; ip_deliver q inp ih;; mret ERR_OK
      end
  end.

Lemma pfree_run s p ys d : h_ok (s_heap s) -> packet (s_heap s) (Some p) ys d ->
  refs_one (h_pbufs (s_heap s)) ys ->
  pfree p s = Done (tt, with_heap (freed ys None (s_heap s)) s).
Proof.
  intros Hok Hp Hr. pose proof (pbuf_free_packet _ _ _ _ Hok Hp Hr) as H.
  apply wp_run in H as (n & h' & E & _ & ->). unfold pfree. by erewrite bind_run by by apply hp_run.
Qed.

Lemma realloc_whole h p b n : h_pbufs h !! p = Some b -> sane_type (pb_type b) = true ->
  pb_tot_len b <= n -> pbuf_realloc p n h = Done (tt, h).
Proof.
  intros Hb Hty Hn. unfold pbuf_realloc. erewrite bind_run by by apply pget_run.
  rewrite Hty. erewrite bind_run by done. by rewrite (proj2 (Z.leb_le _ _) Hn).
Qed.

(** The first buffer holds a prefix of the packet. *)
Lemma packet_prefix h p ys d b pp d1 : packet h (Some p) ys d -> h_pbufs h !! p = Some b ->
  pb_payload b = Some pp -> bytes_at h pp (pb_len b) = Some d1 -> (length d1 <= length d)%nat.
Proof.
  intros Hp Hb Hpp Hd1. destruct ys as [|y ys]; [by destruct Hp|].
  destruct Hp as ([= <-] & b' & pt & x1 & x2 & Hb' & (Hpt & _) & Hx & -> & _). simplify_eq.
  rewrite length_app. lia.
Qed.

(** What the code computes from the first words. *)
Lemma header_fields d : (20 <= length d)%nat -> bytes_ok d ->
  Z.shiftr (ntohs (hdr16 d 0)) 12 = hdr_v d /\ Z.land (Z.shiftr (ntohs (hdr16 d 0)) 8) 0x0f = hdr_hl d
  /\ ntohs (hdr16 d 2) = hdr_len d
  /\ (Z.land (hdr16 d 6) (htons (Z.lor IP_OFFMASK IP_MF)) =? 0) = (hdr_frag d =? 0).
Proof.
  intros Hl Hok. do 8 (destruct d as [|? d]; [cbn in Hl; lia|]).
  repeat (apply bytes_ok_cons in Hok as [? Hok]).
  unfold hdr16, hdr_v, hdr_hl, hdr_len, hdr_frag. cbn [nth]. rewrite frag_field by done.
  change (2 ^ 8) with 256. unfold ntohs. rewrite !htons_bytes by done.
  change 0x0f with (Z.ones 4). rewrite land_ones_mod, !shiftr_div by lia. unfold is_u8 in *.
  repeat split; Z.div_mod_to_equations; lia.
Qed.

Lemma IPH_runs s pp d : bytes_at (s_heap s) pp (Z.of_nat (length d)) = Some d ->
  (20 <= length d)%nat -> bytes_ok d ->
  IPH_V pp s = Done (hdr_v d, s) /\ IPH_HL pp s = Done (hdr_hl d, s)
  /\ get16 (iph_len pp) s = Done (hdr16 d 2, s) /\ get16 (iph_offset pp) s = Done (hdr16 d 6, s)
  /\ get32 (iph_src pp) s = Done (hdr32 d 12, s) /\ get32 (iph_dest pp) s = Done (hdr32 d 16, s).
Proof.
  intros Hd Hl Hok. destruct (header_fields d Hl Hok) as (E1 & E2 & _ & _).
  assert (Hw : get16 (iph_v_hl_tos pp) s = Done (hdr16 d 0, s)).
  { pose proof (word16_at s pp d Hd Hl 0 ltac:(lia)) as H. destruct pp as [l o].
    unfold ptr_add in H. cbn [p_loc p_off Z.of_nat] in H. by rewrite Z.add_0_r in H. }
  split; [unfold IPH_V; erewrite bind_run by exact Hw; by rewrite E1|].
  split; [unfold IPH_HL; erewrite bind_run by exact Hw; by rewrite E2|].
  split; [by apply (word16_at s pp d Hd Hl 2); lia|].
  split; [by apply (word16_at s pp d Hd Hl 6); lia|].
  split; [by apply (word32_at s pp d Hd Hl 12); lia | by apply (word32_at s pp d Hd Hl 16); lia].
Qed.

Lemma chksum_at_run s pp d n : bytes_at (s_heap s) pp (Z.of_nat (length d)) = Some d -> bytes_ok d ->
  0 <= n <= Z.of_nat (length d) -> Z.of_nat (length d) <= 65535 ->
  exists c, inet_chksum_at pp n s = Done (c, s) /\ inet_chksum (take (Z.to_nat n) d) = Some c.
Proof.
  intros Hd Hok Hn Hl. apply (bytes_at_split _ _ _ n) in Hd as [Hd _]; [|lia].
  pose proof (inet_chksum_oc (take (Z.to_nat n) d) (bytes_ok_take _ _ Hok)
    ltac:(rewrite length_take; lia)) as E.
  eexists. split; [|exact E]. unfold inet_chksum_at.
  erewrite bind_run by by apply hp_run, load_run. by rewrite E, with_heap_id.
Qed.

Lemma ip_input_run s p inp ls gs ys d d1 b pp :
  h_ok (s_heap s) -> packet (s_heap s) (Some p) ys d -> refs_one (h_pbufs (s_heap s)) ys ->
  h_pbufs (s_heap s) !! p = Some b -> pb_payload b = Some pp ->
  bytes_at (s_heap s) pp (pb_len b) = Some d1 -> (20 <= length d1)%nat ->
  Z.of_nat (length d) <= hdr_len d1 ->
  netifs_are s ls -> groups_are s gs -> is_Some (s_netifs s !! inp) ->
  ip_input p inp s
  = match input_verdict s inp ls gs d1 d with
    | Discard => Done (ERR_OK, with_heap (freed ys None (s_heap s)) s)
    | v => input_accepted p inp pp v s
    end.
Proof.
  intros Hok Hp Hr Hb Hpp Hd1 Hl20 Htrim Hls Hgs [n Hn].
  destruct (packet_head _ _ _ _ Hp) as (b' & Hb' & Hty & Htot & _). simplify_eq.
  pose proof (packet_prefix _ _ _ _ _ _ _ Hp Hb Hpp Hd1) as Hpre.
  pose proof (bytes_at_length _ _ _ _ Hd1) as Hl1. rewrite <- Hl1 in Hd1.
  pose proof (bytes_at_ok _ _ _ _ Hok Hd1) as Hok1.
  pose proof (packet_length _ _ _ _ Hp) as Hmax.
  destruct (IPH_runs s pp d1 Hd1 Hl20 Hok1) as (R1 & R2 & R3 & R4 & R5 & R6).
  destruct (header_fields d1 Hl20 Hok1) as (_ & _ & E3 & E4).
  assert (Hdrop : (pfree p;; mret ERR_OK) s = Done (ERR_OK, with_heap (freed ys None (s_heap s)) s))
    by (erewrite bind_run by (by eapply pfree_run); done).
  unfold ip_input, input_verdict, header_good.
  erewrite bind_run by by apply pbuf_get_run. rewrite Hpp. erewrite bind_run by done.
  erewrite bind_run by exact R1. destruct (hdr_v d1 =? 4); cbn [negb andb]; [|exact Hdrop].
  erewrite bind_run by exact R2. erewrite bind_run by exact R3.
  rewrite E3, Htot, Hl1, !Z.ltb_antisym.
  destruct (Z.leb_spec (hdr_hl d1 * 4) (pb_len b)); cbn [negb orb andb]; [|exact Hdrop].
  destruct (Z.leb_spec (hdr_len d1) (Z.of_nat (length d))); cbn [negb orb andb]; [|exact Hdrop].
  assert (Hhl : 0 <= hdr_hl d1) by (unfold hdr_hl; apply Z.mod_pos_bound; lia).
  destruct (chksum_at_run s pp d1 (hdr_hl d1 * 4) Hd1 Hok1) as (c & Ec & Ec'); [lia.. |].
  erewrite bind_run by exact Ec. rewrite Ec'.
  destruct (Z.eqb_spec c 0) as [->|Hc]; cbn [negb];
    [rewrite bool_decide_eq_true_2 by done | rewrite bool_decide_eq_false_2 by congruence; exact Hdrop].
  cbn [andb]. erewrite bind_run; cycle 1.
  { erewrite hp_run by (apply realloc_whole with b; lia || done). by rewrite with_heap_id. }
  erewrite bind_run by exact R6. erewrite bind_run by (apply input_netif_run; [done..|by exists n]).
  erewrite bind_run by exact R5. erewrite bind_run by by apply netif_get_run.
  unfold source_good. rewrite Hn.
  destruct (_ || _); cbn [negb andb]; [exact Hdrop|].
  destruct (taken_on _ _ _ _ _); cbn [is_some negb]; [|exact Hdrop].
  erewrite bind_run by exact R4. rewrite E4. by destruct (hdr_frag d1 =? 0).
Qed.

(** C20: ip_input frees a datagram whose version, header length, total length,
    header checksum, source or destination is wrong, and only that; it hands a
    datagram that is no fragment to the protocols and a fragment to the
    reassembly.  (The datagram is not longer than its header says, so there
    is nothing to trim, and its first 20 bytes are in one buffer.) *)
Theorem ip_input_verdict s p inp ls gs ys d d1 b pp :
  h_ok (s_heap s) -> packet (s_heap s) (Some p) ys d -> refs_one (h_pbufs (s_heap s)) ys ->
  h_pbufs (s_heap s) !! p = Some b -> pb_payload b = Some pp ->
  bytes_at (s_heap s) pp (pb_len b) = Some d1 -> (20 <= length d1)%nat ->
  Z.of_nat (length d) <= hdr_len d1 ->
  netifs_are s ls -> groups_are s gs -> is_Some (s_netifs s !! inp) ->
  ip_input p inp s
  = match input_verdict s inp ls gs d1 d with
    | Discard => Done (ERR_OK, with_heap (freed ys None (s_heap s)) s)
    | v => input_accepted p inp pp v s
    end.
Proof. apply ip_input_run. Qed.
End verdict.

(** A datagram in one buffer, received by the host of [ex_routes]. *)
Definition one_packet (d : list Z) : heap :=
  let n := Z.of_nat (length d) in
  Heap {[1%positive := Block 16 d]} {[1%positive := Pbuf None (Some (Ptr 1 16)) n n PBUF_RAM 0 1]}
    2 0 (fun _ => Some (fun _ => 0)) [].
Definition ex_ip_header (ck0 ck1 : Z) : list Z :=
  [0x45; 0; 0; 20; 0; 7; 0; 0; 64; 99; ck0; ck1; 10; 0; 0; 5; 10; 0; 0; 1].
Definition ex_datagram (ck0 ck1 : Z) : stack := with_heap (one_packet (ex_ip_header ck0 ck1)) ex_routes.

(** The wrong checksum, and the right one. *)
Lemma ip_input_verdict_witness :
  @ip_input memp_nsc ex_env 1 1 (ex_datagram 0 0)
  = Done (ERR_OK, with_heap (freed [1%positive] None (s_heap (ex_datagram 0 0))) (ex_datagram 0 0))
  /\ @ip_input memp_nsc ex_env 1 1 (ex_datagram 102 123)
     = (@ip_deliver memp_nsc ex_env 1 1 (Ptr 1 16);; mret ERR_OK) (ex_datagram 102 123).
Proof.
  assert (Hls : forall a b, netifs_are (ex_datagram a b) [1; 2]%positive).
  { intros. split; [reflexivity|]. exists (Some 2%positive). split; [vm_compute; reflexivity|].
    split; [reflexivity|]. exists None. split; [vm_compute; reflexivity | reflexivity]. }
  split.
  - rewrite (ip_input_verdict _ 1 1 [1; 2]%positive [] [1%positive] (ex_ip_header 0 0) (ex_ip_header 0 0)
      (Pbuf None (Some (Ptr 1 16)) 20 20 PBUF_RAM 0 1) (Ptr 1 16));
      [vm_compute; reflexivity | apply h_okb_sound; vm_compute; reflexivity
      | apply (read_packet_sound 2); vm_compute; reflexivity
      | apply refs_oneb_sound; vm_compute; reflexivity | reflexivity | reflexivity | vm_compute; reflexivity
      | cbn; lia | by vm_compute | apply Hls | reflexivity | eexists; vm_compute; reflexivity].
  - rewrite (ip_input_verdict _ 1 1 [1; 2]%positive [] [1%positive] (ex_ip_header 102 123)
      (ex_ip_header 102 123) (Pbuf None (Some (Ptr 1 16)) 20 20 PBUF_RAM 0 1) (Ptr 1 16));
      [vm_compute; reflexivity | apply h_okb_sound; vm_compute; reflexivity
      | apply (read_packet_sound 2); vm_compute; reflexivity
      | apply refs_oneb_sound; vm_compute; reflexivity | reflexivity | reflexivity | vm_compute; reflexivity
      | cbn; lia | by vm_compute | apply Hls | reflexivity | eexists; vm_compute; reflexivity].
Defined.
