(* ===== verification/UdpProps.v ===== *)
(** * UDP demultiplexing and ports

    The search of udp_input among the control blocks, and the search of
    udp_bind for an ephemeral port, against their declarative meaning. *)
From S2P Require Import Prelude Inet Checksum Heap Pbuf PbufSpec PbufProps InetChksum Stack Chains Words Ip IpProps Icmp Udp TcpSpec TcpArith.
#[local] Open Scope list_scope.
#[local] Open Scope Z_scope.

(** ** The list of control blocks *)
Definition udps_are (s : stack) (ls : list loc) : Prop :=
  chain (map_next udp_next (s_udps s)) (udp_pcbs s) ls None.

Definition udp_set_next (n : option loc) (b : udp_pcb) : udp_pcb := b <| udp_next := n |>.
Lemma udp_next_set n b : udp_next (udp_set_next n b) = n.
Proof. done. Qed.

Definition put_udp (l : loc) (b : udp_pcb) (s : stack) : stack :=
  s <| s_udps := <[l := b]> (s_udps s) |>.
Definition set_udps (l : option loc) (s : stack) : stack := s <| udp_pcbs := l |>.

Lemma udp_get_run s l b : s_udps s !! l = Some b -> udp_get l s = Done (b, s).
Proof. unfold udp_get. intros H. rewrite (bind_run _ _ _ s s) by done. by rewrite H. Qed.
Lemma udp_upd_run s l f b : s_udps s !! l = Some b -> udp_upd l f s = Done (tt, put_udp l (f b) s).
Proof. intros H. unfold udp_upd. by erewrite bind_run by by apply udp_get_run. Qed.

(** Nothing but links and the head of the list differs. *)
Definition same_but_udp_links (s s' : stack) : Prop :=
  exists m h, s' = s <| s_udps := m |> <| udp_pcbs := h |>
    /\ forall l, udp_set_next None <$> m !! l = udp_set_next None <$> s_udps s !! l.

Lemma same_but_udp_links_refl s : same_but_udp_links s s.
Proof. exists (s_udps s), (udp_pcbs s). split; [by destruct s | done]. Qed.

(** The three assignments that move [l] from behind [q] to the front. *)
Lemma udp_to_front s xs q l ys bq bl :
  udps_are s (xs ++ q :: l :: ys) -> s_udps s !! q = Some bq -> s_udps s !! l = Some bl ->
  let s' := set_udps (Some l) (put_udp l (udp_set_next (udp_pcbs s) bl)
              (put_udp q (udp_set_next (udp_next bl) bq) s)) in
  udps_are s' (l :: xs ++ q :: ys) /\ same_but_udp_links s s'.
Proof.
  intros H Hq Hl. cbn zeta. pose proof (chain_NoDup _ _ _ H) as Hnd. split.
  - unfold udps_are. cbn [s_udps udp_pcbs set_udps put_udp set_field].
    apply map_chain_push; [exact udp_next_set | |].
    + by eapply map_chain_unlink; [exact udp_next_set|exact H|..].
    + replace (xs ++ q :: ys) with ((xs ++ [q]) ++ ys) by by rewrite <- app_assoc.
      replace (xs ++ q :: l :: ys) with ((xs ++ [q]) ++ l :: ys) in Hnd by by rewrite <- app_assoc.
      apply NoDup_mid in Hnd as [? ?]. by apply not_elem_of_app.
  - eexists _, _. split; [done|]. intros k. cbn.
    destruct (decide (k = l)) as [->|]; [by rewrite lookup_insert_eq, Hl|].
    rewrite lookup_insert_ne by done.
    destruct (decide (k = q)) as [->|]; [by rewrite lookup_insert_eq, Hq|].
    by rewrite lookup_insert_ne by done.
Qed.

(** ** Demultiplexing *)
Section demux.
Context (s : stack) (inp : loc) (n : netif) (sport dport ipsrc ipdest : Z).
Context (Hinp : s_netifs s !! inp = Some n).

Definition at_udp (l : loc) (f : udp_pcb -> bool) : bool :=
  match s_udps s !! l with Some b => f b | None => false end.
(** Both ends match; the local end does and there is no remote one. *)
Definition udp_full (l : loc) : bool :=
  at_udp l (fun b => udp_local_match b dport ipdest n && udp_remote_match b sport ipsrc).
Definition udp_listening (l : loc) : bool :=
  at_udp l (fun b => udp_local_match b dport ipdest n && udp_unconnected b).

(** The pcb that gets the datagram, and the list afterwards. *)
Definition udp_chosen (ls : list loc) : option loc :=
  match find udp_full ls with Some l => Some l | None => find udp_listening ls end.
Definition udp_reordered (ls : list loc) : list loc :=
  match find udp_full ls with Some l => l :: filter (fun x => x <> l) ls | None => ls end.

Lemma udp_walk_run fuel p xs ys :
  udps_are s (xs ++ ys) -> chain (map_next udp_next (s_udps s)) p ys None ->
  find udp_full xs = None -> (length ys <= fuel)%nat ->
  exists s', udp_walk fuel (last xs) p (find udp_listening xs) sport dport ipsrc ipdest inp s
             = Done (udp_chosen (xs ++ ys), s')
    /\ udps_are s' (udp_reordered (xs ++ ys)) /\ same_but_udp_links s s'.
Proof.
  revert fuel p xs. induction ys as [|l ys IH]; intros fuel p xs H Hp Hx Hf.
  - cbn in Hp. subst p. exists s. rewrite app_nil_r in *. unfold udp_chosen, udp_reordered.
    rewrite Hx. split; [by destruct fuel|]. split; [done | apply same_but_udp_links_refl].
  - pose proof Hp as (-> & _). apply map_chain_lookup in Hp as (b & Hb & Hp).
    destruct fuel as [|fuel]; [cbn in Hf; lia|]. cbn [udp_walk].
    erewrite bind_run by by apply udp_get_run. erewrite bind_run by by apply netif_get_run.
    assert (Efull : udp_full l = udp_local_match b dport ipdest n && udp_remote_match b sport ipsrc)
      by (unfold udp_full, at_udp; by rewrite Hb).
    assert (Elis : udp_listening l = udp_local_match b dport ipdest n && udp_unconnected b)
      by (unfold udp_listening, at_udp; by rewrite Hb).
    rewrite <- Efull. destruct (udp_full l) eqn:Hl.
    + assert (Ef : find udp_full (xs ++ l :: ys) = Some l) by (rewrite find_app_split, Hx; cbn; by rewrite Hl).
      unfold udp_chosen, udp_reordered. rewrite Ef.
      destruct (NoDup_mid _ _ _ (chain_NoDup _ _ _ H)) as [Hn1 Hn2].
      rewrite filter_mid by done.
      destruct xs as [|q xs _] using rev_ind.
      * exists s. split; [by erewrite bind_run by done|]. split; [done | apply same_but_udp_links_refl].
      * rewrite last_snoc. rewrite <- app_assoc in H |- *. cbn [app] in *.
        assert (exists bq, s_udps s !! q = Some bq) as [bq Hq].
        { pose proof H as Hc. apply chain_split in Hc as (_ & nq & Hnq & _). unfold map_next in Hnq.
          destruct (s_udps s !! q) as [bq|]; [by exists bq | done]. }
        destruct (udp_to_front s xs q l ys bq b H Hq Hb) as [H1 H2].
        assert (Hlq : l <> q) by (intros ->; apply Hn1, elem_of_app; right; by left).
        eexists. split; [|split; [exact H1 | exact H2]].
        erewrite bind_run; [reflexivity|].
        erewrite bind_run by by apply udp_upd_run. erewrite bind_run by reflexivity.
        erewrite bind_run by (apply udp_upd_run; cbn; by rewrite lookup_insert_ne).
        reflexivity.
    + pose proof (find_none_cons _ _ _ Hx Hl) as Hx'.
      specialize (IH fuel (udp_next b) (xs ++ [l])). rewrite <- app_assoc in IH. cbn [app] in IH.
      rewrite last_snoc in IH.
      replace (find udp_listening (xs ++ [l])) with
        (if udp_local_match b dport ipdest n && negb (is_some (find udp_listening xs)) && udp_unconnected b
         then Some l else find udp_listening xs) in IH.
      { apply IH; [done..|cbn in Hf; lia]. }
      rewrite find_app_split. cbn. rewrite Elis.
      destruct (find udp_listening xs), (udp_local_match b dport ipdest n), (udp_unconnected b); done.
Qed.

(** C23: Demultiplexing always ends.  The datagram goes to the first control
    block that matches both ends, which moves to the front of the list; if
    there is none, to the first one without a remote end that matches the
    local end, and the list stays as it was.  Nothing else changes. *)
Theorem udp_walk_finds ls : udps_are s ls ->
  exists s', udp_walk (map_fuel (s_udps s)) None (udp_pcbs s) None sport dport ipsrc ipdest inp s
             = Done (udp_chosen ls, s')
    /\ udps_are s' (udp_reordered ls) /\ same_but_udp_links s s'.
Proof.
  intros H. apply (udp_walk_run (map_fuel (s_udps s)) (udp_pcbs s) [] ls H H eq_refl).
  pose proof (map_chain_length _ _ _ _ H). unfold map_fuel. lia.
Qed.
End demux.

(** Three control blocks on port 53: unconnected, connected to 10.0.0.5:9, and
    connected to another port. *)
Definition ex_udp (nxt : option loc) (flags rport rip : Z) : udp_pcb :=
  UdpPcb 0 rip 0 0 255 nxt flags 53 rport 0 None 0.
Definition ex_udps : stack :=
  ex_routes <| s_udps := list_to_map [(1%positive, ex_udp (Some 2%positive) 0 0 0);
                                      (2%positive, ex_udp (Some 3%positive) 4 9 0x0500000a);
                                      (3%positive, ex_udp None 4 7 0x0500000a)] |>
            <| udp_pcbs := Some 1%positive |>.
Lemma ex_udps_are : udps_are ex_udps [1; 2; 3]%positive.
Proof.
  split; [done|]. exists (Some 2%positive). split; [vm_compute; reflexivity|].
  split; [done|]. exists (Some 3%positive). split; [vm_compute; reflexivity|].
  split; [done|]. exists None. split; [vm_compute; reflexivity | done].
Qed.

(** A datagram from the connected peer, and one from elsewhere. *)
Lemma udp_walk_finds_witness :
  (exists s', udp_walk 4 None (Some 1%positive) None 9 53 0x0500000a 0x0100000a 1 ex_udps
              = Done (Some 2%positive, s')
     /\ udps_are s' [2; 1; 3]%positive /\ same_but_udp_links ex_udps s')
  /\ (exists s', udp_walk 4 None (Some 1%positive) None 1000 53 0x0600000a 0x0100000a 1 ex_udps
              = Done (Some 1%positive, s')
     /\ udps_are s' [1; 2; 3]%positive /\ same_but_udp_links ex_udps s').
Proof.
  split.
  - exact (udp_walk_finds ex_udps 1 (ex_netif (Some 2%positive) 0x0100000a 0xff 0x03)
      9 53 0x0500000a 0x0100000a eq_refl _ ex_udps_are).
  - exact (udp_walk_finds ex_udps 1 (ex_netif (Some 2%positive) 0x0100000a 0xff 0x03)
      1000 53 0x0600000a 0x0100000a eq_refl _ ex_udps_are).
Defined.
