(* ===== verification/IpOut.v ===== *)
(** * The datagrams that IP sends (ip_output_if)

    The bytes of the header, its checksum, and that the packet handed to the
    driver is that header in front of the payload. *)
From S2P Require Import Prelude Inet Checksum Heap Pbuf PbufSpec PbufProps InetChksum Stack Chains Words Ip IpProps Reass IpIn TcpSpec IpInProps.
#[local] Open Scope string_scope.
#[local] Open Scope list_scope.
#[local] Open Scope Z_scope.

(** ** The header *)

(** An address is kept in network order: its bytes are those of the word. *)
Definition addr_bytes (a : Z) : list Z := [u8 a; u8 (a / 2 ^ 8); u8 (a / 2 ^ 16); u8 (a / 2 ^ 24)].
Definition ip_header_with (ck : list Z) (tos len id ttl proto src dest : Z) : list Z :=
  [69; tos] ++ be16 len ++ be16 id ++ [0; 0] ++ [ttl; proto] ++ ck ++ addr_bytes src ++ addr_bytes dest.
Definition ip_header_chksum (tos len id ttl proto src dest : Z) : Z :=
  default 0 (inet_chksum (ip_header_with [0; 0] tos len id ttl proto src dest)).
Definition ip_header (tos len id ttl proto src dest : Z) : list Z :=
  let c := ip_header_chksum tos len id ttl proto src dest in
  ip_header_with [u8 c; u8 (c / 2 ^ 8)] tos len id ttl proto src dest.

Lemma lor_bytes a b : is_u8 a -> is_u8 b -> Z.lor b (Z.shiftl a 8) = 256 * a + b.
Proof.
  intros Ha Hb. rewrite Z.lor_comm, shiftl_mul by lia.
  rewrite lor_add_low by (unfold is_u8 in *; lia). lia.
Qed.

Lemma word_pair a b : is_u8 a -> is_u8 b ->
  [u8 (htons (256 * a + b)); u8 (htons (256 * a + b) / 2 ^ 8)] = [a; b].
Proof.
  intros Ha Hb. rewrite htons_be16 by (unfold is_u8, is_u16 in *; lia). unfold be16, u8, is_u8 in *.
  f_equal; [|f_equal]; Z.div_mod_to_equations; lia.
Qed.

Lemma bytes_ok_nil : bytes_ok [].
Proof. constructor. Qed.

Lemma header_with_ok ck tos len id ttl proto src dest : bytes_ok ck -> length ck = 2%nat ->
  is_u8 tos -> is_u8 ttl -> is_u8 proto ->
  bytes_ok (ip_header_with ck tos len id ttl proto src dest)
  /\ length (ip_header_with ck tos len id ttl proto src dest) = 20%nat.
Proof.
  intros Hck Hl Ht Htt Hp. unfold ip_header_with. rewrite !bytes_ok_app, !length_app, Hl. split; [|done].
  destruct (be_ok len) as [? _], (be_ok id) as [? _].
  assert (forall a, bytes_ok (addr_bytes a)) as Ha
    by (intros; unfold addr_bytes; rewrite !bytes_ok_cons; auto using u8_range, bytes_ok_nil).
  rewrite !bytes_ok_cons. assert (is_u8 69 /\ is_u8 0) as [? ?] by (unfold is_u8; lia). auto 20 using bytes_ok_nil.
Qed.

(** ** Writing it *)
Section words.
Context (q : loc) (h : heap) (s : stack) (pre c : list Z) (off : Z).
Context (Hoff : off = 16 + Z.of_nat (length pre)).
#[local] Abbreviation hst := (hst q h s pre c).

Lemma IPH_TTL_SET_hst h0 h1 h2 h3 h4 h5 h6 h7 h8 h9 rest ttl : is_u8 h8 -> is_u8 h9 -> is_u8 ttl ->
  IPH_TTL_SET (Ptr q off) ttl (hst ([h0; h1; h2; h3; h4; h5; h6; h7; h8; h9] ++ rest))
  = Done (tt, hst ([h0; h1; h2; h3; h4; h5; h6; h7; ttl; h9] ++ rest)).
Proof.
  intros H8 H9 Ht. unfold IPH_TTL_SET, IPH_PROTO, iph_ttl_proto, ptr_add. cbn [p_loc p_off].
  change 8 with (Z.of_nat 8) at 1.
  erewrite bind_run by (erewrite bind_run by (apply (get16_hst _ _ _ _ _ _ Hoff _ 8); cbn; lia); reflexivity).
  cbn [nth app]. change (2 ^ 8) with 256. unfold ntohs. rewrite htons_bytes, land_ff by done.
  replace ((256 * h8 + h9) mod 256) with h9 by (unfold is_u8 in *; Z.div_mod_to_equations; lia).
  rewrite lor_bytes by done. rewrite u16_small by (unfold is_u8, is_u16 in *; lia).
  change 8 with (Z.of_nat 8). rewrite (put16_hst _ _ _ _ _ _ Hoff _ 8) by (cbn; lia).
  by rewrite word_pair.
Qed.

Lemma IPH_PROTO_SET_hst h0 h1 h2 h3 h4 h5 h6 h7 h8 h9 rest proto : is_u8 h8 -> is_u8 h9 -> is_u8 proto ->
  IPH_PROTO_SET (Ptr q off) proto (hst ([h0; h1; h2; h3; h4; h5; h6; h7; h8; h9] ++ rest))
  = Done (tt, hst ([h0; h1; h2; h3; h4; h5; h6; h7; h8; proto] ++ rest)).
Proof.
  intros H8 H9 Ht. unfold IPH_PROTO_SET, IPH_TTL, iph_ttl_proto, ptr_add. cbn [p_loc p_off].
  change 8 with (Z.of_nat 8) at 1.
  erewrite bind_run by (erewrite bind_run by (apply (get16_hst _ _ _ _ _ _ Hoff _ 8); cbn; lia); reflexivity).
  cbn [nth app]. change (2 ^ 8) with 256. unfold ntohs. rewrite htons_bytes, (shiftr_div _ 8) by (done || lia).
  replace ((256 * h8 + h9) / 2 ^ 8) with h8 by (unfold is_u8 in *; Z.div_mod_to_equations; lia).
  rewrite lor_bytes by done. rewrite u16_small by (unfold is_u8, is_u16 in *; lia).
  change 8 with (Z.of_nat 8). rewrite (put16_hst _ _ _ _ _ _ Hoff _ 8) by (cbn; lia).
  by rewrite word_pair.
Qed.
Lemma IPH_VHLTOS_SET_hst h0 h1 rest tos : is_u8 tos ->
  IPH_VHLTOS_SET (Ptr q off) 4 (IP_HLEN / 4) tos (hst (h0 :: h1 :: rest)) = Done (tt, hst (69 :: tos :: rest)).
Proof.
  intros Ht. unfold IPH_VHLTOS_SET, iph_v_hl_tos.
  replace (Z.lor (Z.lor (Z.shiftl 4 12) (Z.shiftl (IP_HLEN / 4) 8)) tos) with (256 * 69 + tos).
  2:{ change (Z.lor (Z.shiftl 4 12) (Z.shiftl (IP_HLEN / 4) 8)) with (69 * 2 ^ 8).
      rewrite lor_add_low by (unfold is_u8 in *; lia). lia. }
  rewrite u16_small by (unfold is_u8, is_u16 in *; lia).
  replace (Ptr q off) with (Ptr q (off + Z.of_nat 0)) by (f_equal; lia).
  rewrite (put16_hst _ _ _ _ _ _ Hoff _ 0) by (cbn; lia). rewrite word_pair by (done || (unfold is_u8; lia)). done.
Qed.

Lemma hst_ip_id hdr f : (hst hdr) <| ip_id := f |> = Words.hst q h (s <| ip_id := f |>) pre c hdr.
Proof. by destruct s. Qed.

(** The checksum as the code computes it. *)
Lemma header_chksum_run tos len id ttl proto src dest s' : is_u8 tos -> is_u8 ttl -> is_u8 proto ->
  let s1 := Words.hst q h s' pre c (ip_header_with [0; 0] tos len id ttl proto src dest) in
  inet_chksum_at (Ptr q off) IP_HLEN s1 = Done (ip_header_chksum tos len id ttl proto src dest, s1)
  /\ inet_chksum (ip_header_with [0; 0] tos len id ttl proto src dest)
     = Some (ip_header_chksum tos len id ttl proto src dest).
Proof.
  intros Ht Htt Hp s1. assert (H0 : bytes_ok [0; 0]) by (repeat (constructor; [unfold is_u8; lia|]); constructor).
  destruct (header_with_ok [0; 0] tos len id ttl proto src dest H0 eq_refl Ht Htt Hp) as [Hok Hl].
  unfold ip_header_chksum. set (hd := ip_header_with _ _ _ _ _ _ _ _) in *.
  pose proof (inet_chksum_oc hd Hok ltac:(lia)) as E. rewrite E. cbn [default]. split; [|done].
  unfold inet_chksum_at. erewrite bind_run.
  2:{ apply hp_run. pose proof (header_load q (s_heap s1) pre hd c off (hst_block _ _ _ _ _ _) Hoff 0 20) as Hld.
      replace (off + Z.of_nat 0) with off in Hld by lia. apply Hld. lia. }
  change (drop 0 hd) with hd. rewrite take_ge, E by lia. by rewrite with_heap_id.
Qed.

(** The whole header, and then [k]. *)
Lemma write_header hdr ttl proto tos len id src dest nif n {A} (k : M stack A) :
  length hdr = 20%nat -> bytes_ok hdr -> is_u8 ttl -> is_u8 proto -> is_u8 tos -> is_u16 len ->
  is_u16 id -> id = ip_id s -> s_netifs s !! nif = Some n ->
  let src' := match src with Some a => if ip_addr_isany src then netif_ip_addr n else a | None => netif_ip_addr n end in
  (IPH_TTL_SET (Ptr q off) ttl;;
   IPH_PROTO_SET (Ptr q off) proto;;
   put32 (iph_dest (Ptr q off)) dest;;
   IPH_VHLTOS_SET (Ptr q off) 4 (IP_HLEN / 4) tos;;
   put16 (iph_len (Ptr q off)) (htons len);;
   put16 (iph_offset (Ptr q off)) 0;;
   id ← gets ip_id;
   put16 (iph_id (Ptr q off)) (htons id);;
   modify (fun s => s <| ip_id := u16 (id + 1) |>);;
   n ← netif_get nif;
   put32 (iph_src (Ptr q off))
     (match src with Some a => if ip_addr_isany src then netif_ip_addr n else a | None => netif_ip_addr n end);;
   put16 (iph_chksum (Ptr q off)) 0;;
   c ← inet_chksum_at (Ptr q off) IP_HLEN;
   put16 (iph_chksum (Ptr q off)) c;;
   k) (hst hdr)
  = k (Words.hst q h (s <| ip_id := u16 (id + 1) |>) pre c (ip_header tos len id ttl proto src' dest)).
Proof.
  intros Hl Hok Httl Hpr Htos Hlen Hid -> Hn src'.
  do 20 (destruct hdr as [|? hdr]; [done|]). destruct hdr; [|done]. clear Hl.
  repeat (apply bytes_ok_cons in Hok as [? Hok]).
  erewrite bind_run by by apply (IPH_TTL_SET_hst _ _ _ _ _ _ _ _ _ _ [_;_;_;_;_;_;_;_;_;_]).
  erewrite bind_run by by apply (IPH_PROTO_SET_hst _ _ _ _ _ _ _ _ _ _ [_;_;_;_;_;_;_;_;_;_]).
  cbn [app].
  erewrite bind_run by (apply (put32_hst _ _ _ _ _ _ Hoff _ 16); cbn; lia). unfold splice at 1. cbn [take drop app length Nat.add].
  erewrite bind_run by by apply IPH_VHLTOS_SET_hst.
  erewrite bind_run by (apply (put16_hst _ _ _ _ _ _ Hoff _ 2); cbn; lia). unfold splice at 1. cbn [take drop app length Nat.add].
  erewrite bind_run by (apply (put16_hst _ _ _ _ _ _ Hoff _ 6); cbn; lia). unfold splice at 1. cbn [take drop app length Nat.add].
  erewrite bind_run by reflexivity. change (ip_id (hst _)) with (ip_id s).
  erewrite bind_run by (apply (put16_hst _ _ _ _ _ _ Hoff _ 4); cbn; lia). unfold splice at 1. cbn [take drop app length Nat.add].
  erewrite bind_run by (unfold modify; rewrite hst_ip_id; reflexivity).
  erewrite bind_run by (by apply netif_get_run). fold src'.
  erewrite bind_run by (apply (put32_hst _ _ _ _ _ _ Hoff _ 12); cbn; lia). unfold splice at 1. cbn [take drop app length Nat.add].
  erewrite bind_run by (apply (put16_hst _ _ _ _ _ _ Hoff _ 10); cbn; lia). unfold splice at 1. cbn [take drop app length Nat.add].
  cbn [p_loc]. change (ip_id (Words.hst _ _ _ _ _ _)) with (ip_id s).
  set (s2 := s <| ip_id := u16 (ip_id s + 1) |>).
  match goal with |- _ (Words.hst _ _ _ _ _ ?l) = _ =>
    replace l with (ip_header_with [0; 0] tos len (ip_id s) ttl proto src' dest) end.
  2:{ unfold ip_header_with, addr_bytes. by rewrite <- (htons_be16 _ Hlen), <- (htons_be16 _ Hid). }
  destruct (header_chksum_run tos len (ip_id s) ttl proto src' dest s2) as (Ec & _); [done..|].
  erewrite bind_run by exact Ec.
  set (ck := ip_header_chksum tos len (ip_id s) ttl proto src' dest).
  erewrite bind_run by (apply (put16_hst _ _ _ _ _ _ Hoff _ 10); cbn; lia). done.
Qed.
End words.

(** ** The packet *)
Lemma ip_header_verifies tos len id ttl proto src dest : is_u8 tos -> is_u8 ttl -> is_u8 proto ->
  inet_chksum (ip_header tos len id ttl proto src dest) = Some 0.
Proof.
  intros Ht Htt Hp. assert (H0 : bytes_ok [0; 0]) by (rewrite !bytes_ok_cons; unfold is_u8; auto using bytes_ok_nil with lia).
  destruct (header_with_ok [0; 0] tos len id ttl proto src dest H0 eq_refl Ht Htt Hp) as [Hok Hl].
  pose proof (inet_chksum_oc _ Hok ltac:(lia)) as E. unfold ip_header, ip_header_chksum. rewrite E. cbn [default].
  set (ck := 65535 - oc _) in *. assert (Hck : is_u16 ck).
  { unfold ck. pose proof (oc_range (lesum (ip_header_with [0; 0] tos len id ttl proto src dest))).
    unfold is_u16 in *. lia. }
  clearbody ck. set (hpre := [69; tos] ++ be16 len ++ be16 id ++ [0; 0] ++ [ttl; proto]).
  set (post := addr_bytes src ++ addr_bytes dest).
  assert (Ew : forall k, ip_header_with k tos len id ttl proto src dest = hpre ++ k ++ post) by done.
  rewrite !Ew in *. rewrite !bytes_ok_app in Hok.
  unfold Datatypes.id. assert (u8 (ck / 2 ^ 8) = ck / 256) as -> by (unfold u8, is_u16 in *; Z.div_mod_to_equations; lia).
  apply inet_chksum_verifies; [rewrite bytes_ok_app; tauto|unfold hpre, post; rewrite !length_app; cbn; lia|done|exact E].
Qed.

(** What pbuf_header does to a buffer with [n] bytes of room. *)
Definition show_header (n : Z) (b : pbuf) : pbuf :=
  pb_set_tot_len (pb_tot_len b + n) (pb_set_len (pb_len b + n)
    (pb_set_payload ((fun pt => ptr_add pt (- n)) <$> pb_payload b) b)).

Lemma pbuf_header_show_run h p b pt n :
  h_pbufs h !! p = Some b -> pb_payload b = Some pt -> p_loc pt = p -> 16 + n <= p_off pt ->
  pb_type b = PBUF_RAM \/ pb_type b = PBUF_POOL -> 0 < n -> 0 <= pb_len b <= pb_tot_len b -> pb_tot_len b + n < 65536 ->
  pbuf_header (Some p) n h = Done (0, h_set_pbufs (<[p := show_header n b]> (h_pbufs h)) h).
Proof.
  intros Hb Hpt Hl Ho Hty Hn Hlen Ht. unfold pbuf_header. erewrite bind_run by done.
  destruct (Z.eqb_spec n 0); [lia|]. erewrite bind_run by by apply pget_run.
  destruct (Z.ltb_spec n 0); [lia|]. cbn [andb]. cbv zeta.
  replace ((pb_type b =? PBUF_RAM) || (pb_type b =? PBUF_POOL)) with true by (destruct Hty as [-> | ->]; done).
  rewrite Hpt. erewrite bind_run by done. cbn [p_loc ptr_add p_off].
  rewrite bool_decide_eq_true_2 by done. cbn [negb]. change SIZEOF_STRUCT_PBUF with 16.
  destruct (Z.ltb_spec (p_off pt + - n) 16); [lia|]. cbn [pb_set_payload pb_tot_len pb_len].
  rewrite !u16_small by (unfold is_u16; lia). unfold show_header. by rewrite Hpt.
Qed.

(** A packet with a header written in front. *)
Lemma headed_packet h h' p ls d b pt hdr d1 :
  packet h (Some p) (p :: ls) d -> h_pbufs h !! p = Some b -> pb_payload b = Some pt ->
  bytes_at h pt (pb_len b) = Some d1 ->
  pb_type b = PBUF_RAM \/ pb_type b = PBUF_POOL ->
  let n := Z.of_nat (length hdr) in
  16 + n <= p_off pt -> pb_tot_len b + n < 65536 ->
  h_pbufs h' = <[p := show_header n b]> (h_pbufs h) ->
  (forall l, l <> p -> h_blocks h' !! l = h_blocks h !! l) ->
  bytes_at h' (ptr_add pt (- n)) (pb_len b + n) = Some (hdr ++ d1) ->
  (forall l b' pt', l ∈ ls -> h_pbufs h !! l = Some b' -> pb_payload b' = Some pt' -> p_loc pt' <> p) ->
  packet h' (Some p) (p :: ls) (hdr ++ d).
Proof.
  intros Hp Hb Hpt Hd1 Hty n Ho Ht Hpb Hbl Hd' Hsep. pose proof (pseg_last_none _ _ _ _ Hp) as Hnd.
  apply NoDup_cons in Hnd as [Hni _].
  destruct Hp as (_ & b' & pt' & x1 & x2 & Hb' & Hok & Hx & -> & Htl & Hs). simplify_eq.
  destruct Hok as (Hpt' & Hsn & Hown & Hu & Hr). simplify_eq.
  pose proof (bytes_at_length _ _ _ _ Hx) as Hxl. rewrite length_app in Htl. rewrite app_assoc.
  apply (pseg_cons _ _ _ (show_header n b') (ptr_add pt' (- n)) (hdr ++ x1)).
  - rewrite Hpb. apply lookup_insert_eq.
  - split; [unfold show_header; cbn; by rewrite Hpt'|]. split; [exact Hsn|]. split.
    + intros _. destruct (Hown Hty). cbn. split; [done|lia].
    + cbn. unfold is_u16 in *. split; [lia|exact Hr].
  - exact Hd'.
  - cbn. rewrite length_app. lia.
  - eapply pseg_frame_gen; [exact Hs|..].
    + intros l b pt1 Hl Hlb Hlp. apply Hbl. by eapply Hsep.
    + intros l Hl. rewrite Hpb, lookup_insert_ne; [done|]. by intros ->.
Qed.

(** ** The whole of ip_output_if *)

(** The heap when the [blk] of [p] holds the [n] bytes [hdr] below the payload. *)
Definition headed (p : loc) (b : pbuf) (off : Z) (blk hdr : list Z) (h : heap) : heap :=
  let n := length hdr in
  with_block p (take (Z.to_nat (off - 16) - n) blk ++ hdr ++ drop (Z.to_nat (off - 16)) blk)
    (h_set_pbufs (<[p := show_header (Z.of_nat n) b]> (h_pbufs h)) h).

Lemma headed_bytes h p b off blk hdr d1 :
  h_blocks h !! p = Some (Block 16 blk) -> bytes_at h (Ptr p off) (pb_len b) = Some d1 ->
  16 + Z.of_nat (length hdr) <= off ->
  bytes_at (headed p b off blk hdr h) (ptr_add (Ptr p off) (- Z.of_nat (length hdr)))
    (pb_len b + Z.of_nat (length hdr)) = Some (hdr ++ d1).
Proof.
  intros Hb Hd Ho. unfold bytes_at in *. unfold headed, with_block. cbn in *. rewrite Hb in Hd.
  rewrite lookup_insert_eq. cbn [mbind option_bind b_base b_data] in *.
  case_match eqn:E; [|done]. injection Hd as <-.
  apply andb_true_iff in E as [[E1%Z.leb_le E2%Z.leb_le]%andb_true_iff E3%Z.leb_le].
  assert (Ht : length (take (Z.to_nat (off - 16) - length hdr) blk) = (Z.to_nat (off - 16) - length hdr)%nat)
    by (rewrite length_take; lia).
  match goal with |- (if ?c then _ else _) = _ => replace c with true end.
  2:{ rewrite !length_app, Ht, length_drop. in_block. }
  f_equal.
  replace (Z.to_nat (off + - Z.of_nat (length hdr) - 16))
    with (length (take (Z.to_nat (off - 16) - length hdr) blk)) by lia.
  rewrite drop_app_length.
  replace (Z.to_nat (pb_len b + Z.of_nat (length hdr))) with (length hdr + Z.to_nat (pb_len b))%nat by lia.
  by rewrite take_app_add.
Qed.

Lemma room_in_block h p off n blk d1 : h_blocks h !! p = Some (Block 16 blk) ->
  bytes_at h (Ptr p off) n = Some d1 -> 0 <= off -> (Z.to_nat (off - 16) <= length blk)%nat.
Proof.
  intros Hb Hd Ho. unfold bytes_at in Hd. cbn in Hd. rewrite Hb in Hd. cbn in Hd.
  case_match eqn:E; [|done]. apply andb_true_iff in E as [[E1%Z.leb_le E2%Z.leb_le]%andb_true_iff E3%Z.leb_le]. lia.
Qed.

Section output.
Context {MC : MempConf} {EV : Env}.

(** What follows the header: the driver, or the fragmentation of what is
    longer than the interface can send. *)
Definition sent (p : loc) (nif : loc) (n : netif) (len dest : Z) : M stack Z :=
  if negb (netif_mtu n =? 0) && (netif_mtu n <? len) then ip_frag p nif dest else netif_output nif p dest.

Definition source_of (src : option Z) (n : netif) : Z :=
  match src with Some a => if ip_addr_isany src then netif_ip_addr n else a | None => netif_ip_addr n end.

(** Room for [n] bytes below the payload of [p], which no other buffer of the
    packet lies in. *)
Record has_room (h : heap) (p : loc) (ls : list loc) (b : pbuf) (off : Z) (n : Z) : Prop := {
  room_struct : h_pbufs h !! p = Some b;
  room_payload : pb_payload b = Some (Ptr p off);
  room_type : pb_type b = PBUF_RAM \/ pb_type b = PBUF_POOL;
  room_off : 16 + n <= off;
  room_apart l b' pt : l ∈ ls -> h_pbufs h !! l = Some b' -> pb_payload b' = Some pt -> p_loc pt <> p
}.

Lemma headed_ok h p b off blk hdr : h_ok h -> h_pbufs h !! p = Some b ->
  h_blocks h !! p = Some (Block 16 blk) -> bytes_ok hdr -> h_ok (headed p b off blk hdr h).
Proof.
  intros [H1 H2 H3 H4] Hp Hb Hh.
  assert (Hd : forall l x, h_blocks (headed p b off blk hdr h) !! l = Some x ->
    h_blocks h !! l = Some x \/ l = p /\ exists d, x = Block 16 d /\ bytes_ok d).
  { intros l x. unfold headed, with_block. cbn. destruct (decide (l = p)) as [->|Hne].
    - rewrite lookup_insert_eq. intros [= <-]. right. split; [done|]. eexists. split; [done|].
      pose proof (H4 _ _ Hb) as Hok. cbn in Hok. rewrite !bytes_ok_app. auto using bytes_ok_take, bytes_ok_drop.
    - rewrite lookup_insert_ne by done. auto. }
  split; unfold headed, with_block in *; cbn in *.
  - intros l [x Hx]. apply H1. destruct (decide (l = p)) as [->|]; [by eexists|].
    rewrite lookup_insert_ne in Hx by done. by eexists.
  - intros l [x Hx]. apply H2. apply Hd in Hx as [Hx|(-> & _)]; by eexists.
  - intros l [x Hx]. destruct (decide (l = p)) as [->|Hne].
    + rewrite lookup_insert_eq. by eexists.
    + rewrite lookup_insert_ne in Hx by done. rewrite lookup_insert_ne by done. apply H3. by eexists.
  - intros l x Hx. apply Hd in Hx as [Hx|(_ & d & -> & Hok)]; [by eapply H4|done].
Qed.

Lemma ip_output_if_run s p ls d b off blk nif n src dest ttl tos proto :
  h_ok (s_heap s) -> packet (s_heap s) (Some p) (p :: ls) d -> has_room (s_heap s) p ls b off 20 ->
  h_blocks (s_heap s) !! p = Some (Block 16 blk) ->
  s_netifs s !! nif = Some n -> Z.of_nat (length d) + 20 < 65536 -> is_u16 (ip_id s) ->
  is_u8 ttl -> is_u8 tos -> is_u8 proto ->
  let len := Z.of_nat (length d) + 20 in
  let hd := ip_header tos len (ip_id s) ttl proto (source_of src n) dest in
  let h' := headed p b off blk hd (s_heap s) in
  ip_output_if p src (Some dest) ttl tos proto nif s
  = sent p nif n len dest (with_heap h' (s <| ip_id := u16 (ip_id s + 1) |>))
  /\ packet h' (Some p) (p :: ls) (hd ++ d) /\ h_ok h'.
Proof.
  intros Hok Hp [Hb Hpay Hty Hoff Hap] Hblk Hn Hlen Hid Httl Htos Hpr len hd h'.
  assert (Hhd : bytes_ok hd /\ length hd = 20%nat)
    by (apply header_with_ok; auto; rewrite !bytes_ok_cons; auto using u8_range, bytes_ok_nil).
  destruct Hhd as [Hhok Hhl].
  pose proof (packet_head _ _ _ _ Hp) as (b0 & Hb0 & _ & Htot & _). replace b0 with b in * by congruence. clear b0 Hb0.
  assert (Hd1 : exists d1, bytes_at (s_heap s) (Ptr p off) (pb_len b) = Some d1 /\ (length d1 <= length d)%nat).
  { destruct Hp as (_ & b1 & pt & d1 & d2 & Hb1 & (Hpt & _) & Hd1 & -> & _).
    replace b1 with b in * by congruence. rewrite Hpay in Hpt. injection Hpt as <-. exists d1.
    rewrite length_app. split; [done|lia]. }
  destruct Hd1 as (d1 & Hd1 & Hd1l). pose proof (bytes_at_length _ _ _ _ Hd1) as Hbl.
  pose proof (headed_bytes _ _ _ _ _ hd _ Hblk Hd1 ltac:(lia)) as Hbytes. rewrite Hhl in Hbytes.
  split; [|split; [|by apply headed_ok]].
  2:{ eapply headed_packet; [exact Hp|exact Hb|exact Hpay|exact Hd1|done|..].
      - rewrite Hhl. cbn. lia.
      - rewrite Hhl. lia.
      - unfold h', headed, with_block. cbn. done.
      - intros l Hl. unfold h', headed, with_block. cbn. by rewrite lookup_insert_ne.
      - rewrite Hhl. exact Hbytes.
      - exact Hap. }
  unfold ip_output_if.
  erewrite bind_run.
  2:{ apply hp_run. apply pbuf_header_show_run with (b := b) (pt := Ptr p off); unfold IP_HLEN; cbn; done || lia. }
  set (h1 := h_set_pbufs _ (s_heap s)). change (negb (0 =? 0)) with false. cbv iota.
  erewrite bind_run by (apply pbuf_get_run; apply lookup_insert_eq).
  change (pb_payload (show_header IP_HLEN b)) with ((fun pt => ptr_add pt (- IP_HLEN)) <$> pb_payload b).
  rewrite Hpay. erewrite bind_run by done.
  replace (20 <=? pb_len (show_header IP_HLEN b)) with true by (symmetry; apply Z.leb_le; cbn; unfold IP_HLEN; lia).
  rewrite (bind_run _ _ _ _ _ (ASSERT_true _ _)). cbn [fmap option_fmap option_map ptr_add p_loc p_off].
  change (off + - IP_HLEN) with (off - 20). set (o := off - 20).
  set (pre := take (Z.to_nat (off - 16) - 20) blk). set (c := drop (Z.to_nat (off - 16)) blk).
  set (hdr0 := take 20 (drop (Z.to_nat (off - 16) - 20) blk)).
  assert (Hroom : (Z.to_nat (off - 16) <= length blk)%nat) by (eapply room_in_block; [exact Hblk|exact Hd1|lia]).
  assert (Ho : o = 16 + Z.of_nat (length pre)) by (unfold o, pre; rewrite length_take; lia).
  assert (Hh0 : length hdr0 = 20%nat) by (unfold hdr0; rewrite length_take, length_drop; lia).
  assert (Hblk0 : blk = pre ++ hdr0 ++ c).
  { unfold pre, hdr0, c. rewrite <- (take_drop (Z.to_nat (off - 16) - 20) blk) at 1. f_equal.
    rewrite <- (take_drop 20 (drop _ blk)) at 1. f_equal. rewrite drop_drop. f_equal. lia. }
  replace (with_heap h1 s) with (Words.hst p h1 s pre c hdr0).
  2:{ unfold Words.hst. f_equal. unfold with_block. rewrite <- Hblk0, insert_id by done. by destruct h1. }
  assert (H0ok : bytes_ok hdr0).
  { pose proof (ok_bytes _ Hok _ _ Hblk) as Hall. cbn in Hall. rewrite Hblk0 in Hall.
    apply bytes_ok_app in Hall as [_ Hall]. by apply bytes_ok_app in Hall as [Hall _]. }
  assert (Ht : pb_tot_len (show_header IP_HLEN b) = len) by (cbn; unfold IP_HLEN; lia). rewrite Ht.
  rewrite (write_header p h1 s pre c o Ho hdr0 ttl proto tos len (ip_id s) src dest nif n)
    by (done || (unfold is_u16; lia)).
  fold (source_of src n). fold hd.
  erewrite bind_run by (by apply netif_get_run).
  erewrite bind_run by (apply pbuf_get_run; apply lookup_insert_eq).
  rewrite Ht. unfold sent, h', headed. rewrite Hhl. reflexivity.
Qed.
End output.

(** ** What the receiver makes of it *)
Lemma addr_word a : is_u32 a ->
  u8 a + 2 ^ 8 * u8 (a / 2 ^ 8) + 2 ^ 16 * (u8 (a / 2 ^ 16) + 2 ^ 8 * u8 (a / 2 ^ 24)) = a.
Proof. unfold is_u32, u8. intros Ha. Z.div_mod_to_equations. lia. Qed.

Lemma ip_header_fields tos len id ttl proto src dest d : is_u16 len -> is_u32 src -> is_u32 dest ->
  let hd := ip_header tos len id ttl proto src dest ++ d in
  hdr_v hd = 4 /\ hdr_hl hd = 5 /\ hdr_len hd = len /\ hdr_frag hd = 0
  /\ hdr32 hd 12 = src /\ hdr32 hd 16 = dest.
Proof.
  intros Hl Hs Hd hd. unfold hdr_v, hdr_hl, hdr_len, hdr_frag, hdr32, hdr16.
  cbn [nth hd ip_header ip_header_with app be16 addr_bytes Nat.add].
  split; [done|]. split; [done|]. split; [unfold u8, is_u16 in *; Z.div_mod_to_equations; lia|].
  split; [done|]. split; by apply addr_word.
Qed.

Section received.
Context {MC : MempConf} {EV : Env}.

(** A datagram whose bytes are those that ip_output_if sent is accepted
    whatever the lengths of its buffers, if its header is in the first. *)
Lemma sent_verdict s inp ls gs tos id ttl proto src dest d d1 :
  is_u8 tos -> is_u8 ttl -> is_u8 proto -> Z.of_nat (length d) + 20 < 65536 -> is_u32 src -> is_u32 dest ->
  let hd := ip_header tos (Z.of_nat (length d) + 20) id ttl proto src dest in
  (length d1 <= length d)%nat ->
  input_verdict s inp ls gs (hd ++ d1) (hd ++ d)
  = if source_good s inp src && is_some (taken_on s inp ls gs dest) then Deliver else Discard.
Proof.
  intros Ht Htt Hp Hd Hs Hde hd Hd1. unfold input_verdict, header_good.
  assert (Hhl : length hd = 20%nat)
    by (apply header_with_ok; auto; rewrite !bytes_ok_cons; auto using u8_range, bytes_ok_nil).
  pose proof (ip_header_fields tos (Z.of_nat (length d) + 20) id ttl proto src dest d1) as E.
  cbv zeta in E. fold hd in E. destruct E as (-> & -> & -> & -> & -> & ->); [unfold is_u16; lia|done..|].
  change (Z.to_nat (5 * 4)) with 20%nat. rewrite <- Hhl, take_app_length.
  rewrite bool_decide_eq_true_2 by by apply ip_header_verifies.
  rewrite !length_app, Hhl. destruct (Z.leb_spec (5 * 4) (Z.of_nat (20 + length d1))); [|lia].
  destruct (Z.leb_spec (Z.of_nat (length d) + 20) (Z.of_nat (20 + length d))); [|lia].
  by rewrite !andb_true_l.
Qed.
End received.

Section theorems.
Context {MC : MempConf} {EV : Env}.

(** C15: ip_output_if writes a complete header with a good checksum and its own
    address or the given one in front of the payload, takes the next
    identification, and then gives exactly the header and the payload to the
    driver, or to the fragmentation when they are longer than the MTU; all
    other memory is as before. *)
Theorem ip_output_if_datagram s p ls d b off blk nif n src dest ttl tos proto :
  h_ok (s_heap s) -> packet (s_heap s) (Some p) (p :: ls) d -> has_room (s_heap s) p ls b off 20 ->
  h_blocks (s_heap s) !! p = Some (Block 16 blk) ->
  s_netifs s !! nif = Some n -> Z.of_nat (length d) + 20 < 65536 -> is_u16 (ip_id s) ->
  is_u8 ttl -> is_u8 tos -> is_u8 proto ->
  let len := Z.of_nat (length d) + 20 in
  let hd := ip_header tos len (ip_id s) ttl proto (source_of src n) dest in
  let h' := headed p b off blk hd (s_heap s) in
  ip_output_if p src (Some dest) ttl tos proto nif s
  = sent p nif n len dest (with_heap h' (s <| ip_id := u16 (ip_id s + 1) |>))
  /\ packet h' (Some p) (p :: ls) (hd ++ d) /\ h_ok h'.
Proof. apply ip_output_if_run. Qed.

(** C16: A datagram whose bytes are what ip_output_if sends, in buffers of any
    lengths as long as the header is in the first, is delivered to the
    protocols by ip_input, whole and with the sender's addresses, unless the
    source is a broadcast or multicast address there or no interface takes the
    destination; then it is freed. *)
Theorem ip_datagram_received s p inp ls gs ys tos id ttl proto src dest d d1 b pp :
  is_u8 tos -> is_u8 ttl -> is_u8 proto -> is_u32 src -> is_u32 dest ->
  let hd := ip_header tos (Z.of_nat (length d) + 20) id ttl proto src dest in
  h_ok (s_heap s) -> packet (s_heap s) (Some p) ys (hd ++ d) -> refs_one (h_pbufs (s_heap s)) ys ->
  h_pbufs (s_heap s) !! p = Some b -> pb_payload b = Some pp ->
  bytes_at (s_heap s) pp (pb_len b) = Some (hd ++ d1) ->
  netifs_are s ls -> groups_are s gs -> is_Some (s_netifs s !! inp) ->
  ip_input p inp s
  = if source_good s inp src && is_some (taken_on s inp ls gs dest)
    then (ip_deliver p inp pp;; mret ERR_OK) s
    else Done (ERR_OK, with_heap (freed ys None (s_heap s)) s).
Proof.
  intros Ht Htt Hp Hs Hde hd Hok Hpk Hr Hb Hpp Hd1 Hls Hgs Hinp.
  assert (Hhl : length hd = 20%nat)
    by (apply header_with_ok; auto; rewrite !bytes_ok_cons; auto using u8_range, bytes_ok_nil).
  pose proof (packet_prefix _ _ _ _ _ _ _ Hpk Hb Hpp Hd1) as Hpre.
  pose proof (packet_length _ _ _ _ Hpk) as Hmax. rewrite !length_app, Hhl in *.
  rewrite (ip_input_run s p inp ls gs ys _ _ b pp) by
    (try done; rewrite ?length_app, ?Hhl; first [lia | unfold hd; edestruct ip_header_fields as (_ & _ & -> & _);
       [unfold is_u16; lia|done..|lia]]).
  pose proof (sent_verdict s inp ls gs tos id ttl proto src dest d d1 Ht Htt Hp) as E. cbv zeta in E.
  fold hd in E. rewrite E by (done || lia). by destruct (_ && _).
Qed.
End theorems.

(** ** Examples *)

(** Three bytes to be sent from 10.0.0.1, and the datagram they become, with
    the first payload byte in the header's buffer, at the host 10.0.0.5. *)
Definition ex_outgoing : stack :=
  with_heap (Heap {[1%positive := Block 16 (replicate 20 0 ++ [1; 2; 3])]}
    {[1%positive := Pbuf None (Some (Ptr 1 36)) 3 3 PBUF_RAM 0 1]} 2 0 (fun _ => None) []) ex_routes.
Definition ex_out_header : list Z := ip_header 0 23 0 64 17 0x0100000a 0x0500000a.
Definition ex_out_host : stack :=
  with_heap (Heap {[1%positive := Block 16 (ex_out_header ++ [1]); 2%positive := Block 16 [2; 3]]}
    {[1%positive := Pbuf (Some 2%positive) (Some (Ptr 1 16)) 23 21 PBUF_RAM 0 1;
      2%positive := Pbuf None (Some (Ptr 2 16)) 2 2 PBUF_POOL 0 1]} 3 0 (fun _ => None) [])
    (ex_routes <| s_netifs := <[1%positive := ex_netif (Some 2%positive) 0x0500000a 0xff 0x03]> (s_netifs ex_routes) |>).

Lemma ip_output_if_datagram_witness :
  exists h', @ip_output_if memp_nsc ex_env 1 None (Some 0x0500000a) 64 0 17 1 ex_outgoing
    = Done (ERR_OK, with_heap h' (ex_outgoing <| ip_id := 1 |>))
  /\ packet h' (Some 1%positive) [1%positive] (ex_out_header ++ [1; 2; 3]).
Proof.
  destruct (@ip_output_if_datagram memp_nsc ex_env ex_outgoing 1 [] [1; 2; 3]
    (Pbuf None (Some (Ptr 1 36)) 3 3 PBUF_RAM 0 1) 36 (replicate 20 0 ++ [1; 2; 3]) 1
    (ex_netif (Some 2%positive) 0x0100000a 0xff 0x03) None 0x0500000a 64 0 17) as (E & H & _);
    [apply h_okb_sound; vm_compute; reflexivity | apply (read_packet_sound 2); vm_compute; reflexivity
    | split; [done|done|by left|done|by intros ??? ?%elem_of_nil]
    | reflexivity | vm_compute; reflexivity | done | unfold is_u16; cbn; lia | unfold is_u8; lia.. |].
  eexists. split; [rewrite E; reflexivity|]. exact H.
Defined.

Lemma ip_datagram_received_witness :
  @ip_input memp_nsc ex_env 1 1 ex_out_host
  = (@ip_deliver memp_nsc ex_env 1 1 (Ptr 1 16);; mret ERR_OK) ex_out_host.
Proof.
  assert (Hls : netifs_are ex_out_host [1; 2]%positive).
  { split; [reflexivity|]. exists (Some 2%positive). split; [vm_compute; reflexivity|].
    split; [reflexivity|]. exists None. split; [vm_compute; reflexivity | reflexivity]. }
  rewrite (@ip_datagram_received memp_nsc ex_env ex_out_host 1 1 [1; 2]%positive [] [1; 2]%positive
    0 0 64 17 0x0100000a 0x0500000a [1; 2; 3] [1] (Pbuf (Some 2%positive) (Some (Ptr 1 16)) 23 21 PBUF_RAM 0 1)
    (Ptr 1 16));
    [vm_compute; reflexivity | unfold is_u8; lia | unfold is_u8; lia | unfold is_u8; lia
    | unfold is_u32; lia | unfold is_u32; lia | apply h_okb_sound; vm_compute; reflexivity
    | apply (read_packet_sound 3); vm_compute; reflexivity | apply refs_oneb_sound; vm_compute; reflexivity
    | reflexivity | reflexivity | vm_compute; reflexivity | exact Hls | reflexivity
    | eexists; vm_compute; reflexivity].
Defined.
