(* ===== verification/TcpWire.v ===== *)
(** * TCP segments on the wire (tcp_output_segment, tcp_output)

    What tcp_output_segment makes of a queued segment: a header with the
    current acknowledgement, window and checksum, in an IP datagram. *)
From S2P Require Import Prelude Inet Checksum Heap Pbuf PbufSpec PbufProps InetChksum Stack Chains Words Ip IpProps TcpBase TcpOut TcpSpec TcpEnqueue TcpAck IpInProps IpOut.
#[local] Open Scope string_scope.
#[local] Open Scope list_scope.
#[local] Open Scope Z_scope.

(** ** The header *)

(** [hdr] with the acknowledgement number, the window and the checksum bytes
    filled in. *)
Definition completed (ack wnd : Z) (ck hdr : list Z) : list Z :=
  take 8 hdr ++ be32 ack ++ take 2 (drop 12 hdr) ++ be16 wnd ++ ck ++ drop 18 hdr.

Section wire.
Context (src dest ack wnd : Z) (hdr d : list Z).
Definition tcp_length : Z := Z.of_nat (length hdr) + Z.of_nat (length d).
(** What the sum is taken over, with the checksum field [ck]. *)
Definition tcp_summed (ck : list Z) : list Z :=
  pseudo_header src dest IP_PROTO_TCP tcp_length ++ completed ack wnd ck hdr ++ d.
Definition tcp_chksum : Z := 65535 - rfc1071_sum (tcp_summed [0; 0]).
Definition tcp_wire : list Z := completed ack wnd [u8 tcp_chksum; u8 (tcp_chksum / 2 ^ 8)] hdr.

Context (Hl : length hdr = 20%nat) (Hok : bytes_ok hdr) (Hd : bytes_ok d).
Context (Hs : is_u32 src) (Hdest : is_u32 dest) (Hlen : is_u16 tcp_length).

Lemma completed_ok ck : bytes_ok ck -> length ck = 2%nat ->
  bytes_ok (completed ack wnd ck hdr) /\ length (completed ack wnd ck hdr) = 20%nat.
Proof.
  intros Hck Hcl. unfold completed. destruct (be_ok ack) as [_ ?], (be_ok wnd) as [? _]. split.
  - rewrite !bytes_ok_app. auto 10 using bytes_ok_take, bytes_ok_drop.
  - rewrite !length_app, !length_take, !length_drop, Hl, Hcl. done.
Qed.

Lemma tcp_chksum_range : is_u16 tcp_chksum.
Proof. unfold tcp_chksum, rfc1071_sum. pose proof (oc_range (lesum (tcp_summed [0; 0]))). unfold is_u16 in *. lia. Qed.

Lemma tcp_wire_ok : bytes_ok tcp_wire /\ length tcp_wire = 20%nat.
Proof. apply completed_ok; [|done]. rewrite !bytes_ok_cons. split; [|split]; [apply u8_range..|constructor]. Qed.

(** The checksum is right: a receiver's sum over the pseudo header and the
    segment is zero. *)
Lemma tcp_wire_verifies :
  65535 - rfc1071_sum (pseudo_header src dest IP_PROTO_TCP tcp_length ++ tcp_wire ++ d) = 0.
Proof.
  assert (Hp : is_u8 IP_PROTO_TCP) by (unfold is_u8; vm_compute; intuition congruence).
  destruct (pseudo_header_sum src dest IP_PROTO_TCP tcp_length Hs Hdest Hp Hlen) as [Hph _].
  set (ph := pseudo_header _ _ _ _) in *. assert (Hpl : length ph = 12%nat) by done.
  set (pre := ph ++ take 8 hdr ++ be32 ack ++ take 2 (drop 12 hdr) ++ be16 wnd).
  set (post := drop 18 hdr ++ d).
  assert (E : forall ck, ph ++ completed ack wnd ck hdr ++ d = pre ++ ck ++ post)
    by (intros; unfold pre, post, completed; by rewrite <- !app_assoc).
  destruct (be_ok ack) as [_ ?], (be_ok wnd) as [? _].
  assert (Hb : bytes_ok (pre ++ post)).
  { unfold pre, post. rewrite !bytes_ok_app. auto 10 using bytes_ok_take, bytes_ok_drop. }
  assert (Hev : Z.even (Z.of_nat (length pre)) = true).
  { unfold pre. rewrite !length_app, !length_take, !length_drop, Hl, Hpl. done. }
  destruct (oc_verifies pre post Hb Hev) as [_ Hv]. cbv zeta in Hv. rewrite <- !E in Hv.
  pose proof tcp_chksum_range as Hc. change (65535 - oc _) with tcp_chksum in Hv.
  unfold tcp_wire. replace (u8 (tcp_chksum / 2 ^ 8)) with (tcp_chksum / 256)
    by (unfold u8, is_u16 in *; Z.div_mod_to_equations; lia).
  change (u8 tcp_chksum) with (tcp_chksum mod 256). unfold rfc1071_sum. by rewrite Hv.
Qed.
End wire.

(** ** A segment in its buffer *)

(** The segment [seg] has its header [hdr] in the first buffer of the packet at
    [q], behind [below] (the IP header of an earlier transmission, or nothing)
    and in front of the data [d]. *)
Record in_buffer (s : stack) (seg : loc) (sb : tcp_seg) (q : loc) (ls : list loc) (b : pbuf)
    (pre hdr c below d : list Z) : Prop := {
  ib_seg : s_segs s !! seg = Some sb;
  ib_buf : seg_p sb = Some q;
  ib_hdr : seg_tcphdr sb = Some (Ptr q (16 + Z.of_nat (length pre)));
  ib_packet : packet (s_heap s) (Some q) (q :: ls) (below ++ hdr ++ d);
  ib_struct : h_pbufs (s_heap s) !! q = Some b;
  ib_payload : pb_payload b = Some (Ptr q (16 + Z.of_nat (length pre) - Z.of_nat (length below)));
  ib_type : pb_type b = PBUF_RAM;
  ib_first : Z.of_nat (length below) + 20 <= pb_len b;
  ib_block : h_blocks (s_heap s) !! q = Some (Block 16 (pre ++ hdr ++ c));
  ib_length : length hdr = 20%nat;
  ib_room : (20 <= length pre)%nat;
  ib_under : below `suffix_of` pre;
  ib_apart l b' pt : l ∈ ls -> h_pbufs (s_heap s) !! l = Some b' -> pb_payload b' = Some pt -> p_loc pt <> q
}.

Lemma first_length h q ys d b : packet h (Some q) ys d -> h_pbufs h !! q = Some b ->
  0 <= pb_len b <= Z.of_nat (length d).
Proof.
  intros Hp Hb. destruct ys as [|y ys]; [by destruct Hp|].
  destruct Hp as ([= <-] & b' & pt & x1 & x2 & Hb' & _ & Hx%bytes_at_length & -> & _). simplify_eq.
  rewrite length_app. lia.
Qed.

Lemma bytes_at_block h q pre x n : h_blocks h !! q = Some (Block 16 (pre ++ x)) ->
  bytes_at h (Ptr q (16 + Z.of_nat (length pre))) n
  = if (0 <=? n) && (n <=? Z.of_nat (length x)) then Some (take (Z.to_nat n) x) else None.
Proof.
  intros Hb. unfold bytes_at. cbn [p_loc p_off]. rewrite Hb. cbn. rewrite length_app.
  replace (16 <=? 16 + Z.of_nat (length pre)) with true by (symmetry; apply Z.leb_le; lia). rewrite andb_true_r.
  replace (16 + Z.of_nat (length pre) + n <=? 16 + Z.of_nat (length pre + length x)) with (n <=? Z.of_nat (length x))
    by (destruct (Z.leb_spec n (Z.of_nat (length x))); symmetry; [apply Z.leb_le|apply Z.leb_gt]; lia).
  replace (Z.to_nat (16 + Z.of_nat (length pre) - 16)) with (length pre) by lia. by rewrite drop_app_length.
Qed.

(** Other bytes in the place of a header at the front of a packet. *)
Lemma packet_new_header h q ls b pre hdr hdr' c d :
  packet h (Some q) (q :: ls) (hdr ++ d) -> h_pbufs h !! q = Some b ->
  pb_payload b = Some (Ptr q (16 + Z.of_nat (length pre))) -> h_blocks h !! q = Some (Block 16 (pre ++ hdr ++ c)) ->
  length hdr' = length hdr -> Z.of_nat (length hdr) <= pb_len b ->
  (forall l b' pt, l ∈ ls -> h_pbufs h !! l = Some b' -> pb_payload b' = Some pt -> p_loc pt <> q) ->
  packet (with_block q (pre ++ hdr' ++ c) h) (Some q) (q :: ls) (hdr' ++ d).
Proof.
  intros Hp Hb Hpay Hblk Hl Hlen Hap. destruct Hp as (_ & b' & pt & d1 & d2 & Hb' & Hok & Hd & E & Ht & Hs). simplify_eq.
  pose proof Hok as (Hpt & _). simplify_eq. rewrite (bytes_at_block _ _ _ _ _ Hblk) in Hd.
  destruct (_ && _) eqn:Er; [|done]. apply andb_true_iff in Er as [Er1%Z.leb_le Er2%Z.leb_le]. rewrite length_app in Er2.
  injection Hd as <-. rewrite take_app_ge in E by lia. rewrite <- app_assoc in E. apply app_inv_head in E as ->.
  rewrite (app_assoc hdr' _ d2). rewrite !length_app, length_take in Ht.
  apply (pseg_cons _ _ _ b' (Ptr q (16 + Z.of_nat (length pre)))); [done|done|..].
  - rewrite (bytes_at_block _ _ _ (hdr' ++ c)) by (apply lookup_insert_eq). rewrite length_app, Hl.
    rewrite (proj2 (andb_true_iff _ _)) by (split; apply Z.leb_le; lia). rewrite take_app_ge by lia. by rewrite Hl.
  - rewrite length_app, length_take. lia.
  - eapply pseg_frame_gen; [exact Hs|..|done]. intros l b pt Hl' Hlb Hlp. cbn.
    rewrite lookup_insert_ne; [done|]. intros E. eapply (Hap l); eauto.
Qed.

(** ** tcp_output_segment *)
Section segment.
Context {MC : MempConf} {EV : Env}.

(** The address the segment is sent from. *)
Definition source_addr (b : tcp_pcb) (n : netif) : Z :=
  if pcb_local_ip b =? 0 then netif_ip_addr n else pcb_local_ip b.
(** The timers that sending the segment [seqno] starts. *)
Definition timing (ticks seqno : Z) (b : tcp_pcb) : tcp_pcb :=
  let b := if pcb_rtime b =? -1 then b <| pcb_rtime := 0 |> else b in
  if pcb_rttest b =? 0 then b <| pcb_rttest := ticks |> <| pcb_rtseq := seqno |> else b.

Lemma timing_fields ticks seqno b : let b' := timing ticks seqno b in
  pcb_local_ip b' = pcb_local_ip b /\ pcb_remote_ip b' = pcb_remote_ip b /\
  pcb_ttl b' = pcb_ttl b /\ pcb_tos b' = pcb_tos b.
Proof. unfold timing. cbn zeta. repeat case_match; done. Qed.

(** The connection has a route, through [nif]. *)
Record routed (s : stack) (pcb : loc) (pb : tcp_pcb) (nifs : list loc) (nif : loc) (n : netif) : Prop := {
  ro_pcb : s_tpcbs s !! pcb = Some pb;
  ro_nifs : chain (map_next netif_next (s_netifs s)) (netif_list s) nifs None;
  ro_default l : netif_default s = Some l -> is_Some (s_netifs s !! l);
  ro_route : route s nifs (pcb_remote_ip pb) = Some nif;
  ro_nif : s_netifs s !! nif = Some n;
  ro_local : is_u32 (source_addr pb n);
  ro_remote : is_u32 (pcb_remote_ip pb);
  ro_wnd : is_u16 (pcb_rcv_ann_wnd pb);
  ro_nxt : is_u32 (pcb_rcv_nxt pb);
  ro_ttl : is_u8 (pcb_ttl pb);
  ro_tos : is_u8 (pcb_tos pb);
  ro_id : is_u16 (ip_id s)
}.

Lemma put_pcb_same s pcb pb : s_tpcbs s !! pcb = Some pb -> put_pcb pcb pb s = s.
Proof. intros H. unfold put_pcb. destruct s. unfold set_field. cbn in *. by rewrite insert_id. Qed.

Section states.
Context (q : loc) (h : heap) (s : stack) (pre c : list Z).
#[local] Abbreviation off := (16 + Z.of_nat (length pre)).

Lemma hst_put_pcb s' pcb pb hdr : put_pcb pcb pb (hst q h s' pre c hdr) = hst q h (put_pcb pcb pb s') pre c hdr.
Proof. done. Qed.
Lemma hst_pset b hdr :
  hp (pset q b) (hst q h s pre c hdr) = Done (tt, hst q (set_pbuf q b h) s pre c hdr).
Proof. unfold hst. erewrite hp_run by reflexivity. by rewrite with_heap_twice. Qed.

Lemma hst_seqno s' hdr seqno sb : length hdr = 20%nat -> bytes_ok hdr -> take 4 (drop 4 hdr) = be32 seqno ->
  is_u32 seqno -> seg_tcphdr sb = Some (Ptr q off) ->
  seg_seqno sb (hst q h s' pre c hdr) = Done (seqno, hst q h s' pre c hdr).
Proof.
  intros Hl Hok Hn Hr Hh. unfold seg_seqno. rewrite Hh. erewrite bind_run by reflexivity.
  apply (get32_seqno _ _ _ (Z.land (nth 13 hdr 0) TCP_FLAGS)); [|done]. exists hdr. split; [|done].
  rewrite (bytes_at_block _ _ _ (hdr ++ c)) by apply hst_block. rewrite length_app, Hl.
  rewrite (proj2 (andb_true_iff _ _)) by (split; apply Z.leb_le; lia).
  change (Z.to_nat 20) with 20%nat. rewrite <- Hl at 1. by rewrite take_app_length.
Qed.

(** The address is settled. *)
Lemma settle_source pcb pb nifs nif n hdr : routed s pcb pb nifs nif n ->
  (if pcb_local_ip pb =? 0 then
     nif ← ip_route (pcb_remote_ip pb);
     match nif with
     | None => mret false
     | Some nif =>
         n ← netif_get nif;
         pcb_upd pcb (fun b => b <| pcb_local_ip := netif_ip_addr n |>);;
         mret true
     end
   else mret true) (hst q h s pre c hdr)
  = Done (true, hst q h (put_pcb pcb (pb <| pcb_local_ip := source_addr pb n |>) s) pre c hdr).
Proof.
  intros [Hpcb Hch Hdef Hro Hn _ _ _ _ _ _ _]. unfold source_addr. destruct (_ =? 0) eqn:E.
  - erewrite bind_run by (by apply (ip_route_run (hst q h s pre c hdr) nifs)).
    change (route (hst q h s pre c hdr)) with (route s). rewrite Hro.
    erewrite bind_run by (by apply netif_get_run).
    rewrite (bind_run _ _ _ _ _ (pcb_upd_run (hst q h s pre c hdr) pcb _ pb Hpcb)). by rewrite hst_put_pcb.
  - unfold mret, M_ret. do 3 f_equal. symmetry. rewrite put_pcb_same; [done|]. rewrite Hpcb. by destruct pb.
Qed.

(** The timers are started. *)
Lemma start_timing {A} (k : M stack A) pcb pb seqno sb hdr : s_tpcbs s !! pcb = Some pb ->
  length hdr = 20%nat -> bytes_ok hdr -> take 4 (drop 4 hdr) = be32 seqno -> is_u32 seqno ->
  seg_tcphdr sb = Some (Ptr q off) ->
  (pcb_upd pcb (fun b => if pcb_rtime b =? -1 then b <| pcb_rtime := 0 |> else b);;
   pb ← pcb_get pcb;
   when (pcb_rttest pb =? 0)
     (ticks ← gtcp tcp_ticks;
      n ← seg_seqno sb;
      pcb_put pcb (pb <| pcb_rttest := ticks |> <| pcb_rtseq := n |>));;
   k) (hst q h s pre c hdr)
  = k (hst q h (put_pcb pcb (timing (tcp_ticks (s_tcp s)) seqno pb) s) pre c hdr).
Proof.
  intros Hpcb Hl Hok Hn Hr Hh. rewrite (bind_run _ _ _ _ _ (pcb_upd_run (hst q h s pre c hdr) pcb _ pb Hpcb)).
  set (pb1 := if pcb_rtime pb =? -1 then _ else pb).
  erewrite bind_run by (apply pcb_get_run, put_pcb_eq). rewrite hst_put_pcb. unfold timing. fold pb1.
  destruct (pcb_rttest pb1 =? 0); [|done]. cbn [when]. erewrite bind_run; [reflexivity|].
  erewrite bind_run by reflexivity. erewrite bind_run.
  2:{ by apply (hst_seqno _ hdr seqno sb). }
  rewrite pcb_put_run, hst_put_pcb, put_pcb_twice. done.
Qed.
End states.

Lemma bind_cong {S A B} (m m' : M S A) (k : A -> M S B) s s' : m s = m' s' -> (m ≫= k) s = (m' ≫= k) s'.
Proof. unfold mbind, M_bind. by intros ->. Qed.

Lemma hst_self s q pre hdr c : h_blocks (s_heap s) !! q = Some (Block 16 (pre ++ hdr ++ c)) ->
  hst q (s_heap s) s pre c hdr = s.
Proof.
  intros H. unfold hst, with_block. rewrite insert_id by done. destruct s as [[] ]. done.
Qed.

(** The fields that are written into the header of the segment. *)
Lemma fill_fields {A} q h s pre c hdr ack wnd (k : M stack A) : length hdr = 20%nat -> is_u32 ack -> is_u16 wnd ->
  (put32 (tcph_ackno (Ptr q (16 + Z.of_nat (length pre)))) (htonl ack);;
   put16 (tcph_wnd (Ptr q (16 + Z.of_nat (length pre)))) (htons wnd);; k) (hst q h s pre c hdr)
  = k (hst q h s pre c (completed ack wnd (take 2 (drop 16 hdr)) hdr)).
Proof.
  intros Hl Ha Hw. do 20 (destruct hdr as [|? hdr]; [done|]). destruct hdr; [|done].
  unfold completed. rewrite <- (htonl_be32 _ Ha), <- (htons_be16 _ Hw).
  erewrite bind_run by (apply (put32_hst _ _ _ _ _ _ eq_refl _ 8); cbn; lia).
  erewrite bind_run by (apply (put16_hst _ _ _ _ _ _ eq_refl _ 14); cbn; lia). done.
Qed.

Lemma put_chksum q h s pre c ack wnd ck hdr v : length hdr = 20%nat -> length ck = 2%nat ->
  put16 (tcph_chksum (Ptr q (16 + Z.of_nat (length pre)))) v (hst q h s pre c (completed ack wnd ck hdr))
  = Done (tt, hst q h s pre c (completed ack wnd [u8 v; u8 (v / 2 ^ 8)] hdr)).
Proof.
  intros Hl Hc. do 20 (destruct hdr as [|? hdr]; [done|]). destruct hdr; [|done].
  do 2 (destruct ck as [|? ck]; [done|]). destruct ck; [|done].
  set (l := completed _ _ _ _).
  etransitivity; [apply (put16_hst q h s pre c _ eq_refl l 16 v); subst l; cbn; lia|]. done.
Qed.

(** The packet when the buffer shows the header, whatever it holds. *)
Lemma shown_packet s seg sb q ls b pre hdr c below d hdr' :
  in_buffer s seg sb q ls b pre hdr c below d -> h_ok (s_heap s) -> length hdr' = 20%nat -> bytes_ok hdr' ->
  let b1 := hide_header (Z.of_nat (length below)) b in
  let h' := with_block q (pre ++ hdr' ++ c) (set_pbuf q b1 (s_heap s)) in
  packet h' (Some q) (q :: ls) (hdr' ++ d) /\ h_ok h' /\ has_room h' q ls b1 (16 + Z.of_nat (length pre)) 20.
Proof.
  intros [_ _ _ Hp Hb Hpay Hty Hf Hblk Hl Hr _ Hap] Hok Hl' Hok' b1 h'. set (k := Z.of_nat (length below)) in *.
  assert (Hpt : pb_payload b1 = Some (Ptr q (16 + Z.of_nat (length pre)))).
  { unfold b1, hide_header. cbn. rewrite Hpay. unfold ptr_add. cbn. do 2 f_equal. lia. }
  pose proof (hide_header_packet _ _ _ _ _ k Hp Hb ltac:(lia)) as Hp1. unfold k in Hp1.
  rewrite Nat2Z.id, drop_app_length in Hp1. fold k in Hp1. fold b1 in Hp1. fold (set_pbuf q b1 (s_heap s)) in Hp1.
  assert (Hap' : forall l b' pt, l ∈ ls -> h_pbufs (set_pbuf q b1 (s_heap s)) !! l = Some b' ->
    pb_payload b' = Some pt -> p_loc pt <> q).
  { intros l b' pt Hin. cbn. rewrite lookup_insert_ne; [by apply Hap|]. intros <-.
    apply pseg_last_none in Hp. apply NoDup_cons in Hp as [? _]. done. }
  split; [|split].
  - eapply packet_new_header; [exact Hp1|cbn; by rewrite lookup_insert_eq|done|exact Hblk|by rewrite Hl'|cbn; lia|done].
  - apply h_ok_with_block; [by eapply h_ok_pset|by eexists|].
    destruct Hok as [_ _ _ H4]. pose proof (H4 _ _ Hblk) as Hbo. cbn in Hbo. rewrite !bytes_ok_app in *. tauto.
  - split; [cbn; by rewrite lookup_insert_eq|exact Hpt|by left|lia|exact Hap'].
Qed.

Lemma segment_header_bytes s seg sb q ls b pre hdr c below d :
  in_buffer s seg sb q ls b pre hdr c below d -> h_ok (s_heap s) -> bytes_ok hdr.
Proof.
  intros Hib [_ _ _ H4]. specialize (H4 _ _ (ib_block _ _ _ _ _ _ _ _ _ _ _ Hib)). cbn in H4.
  rewrite !bytes_ok_app in H4. tauto.
Qed.

(** The struct that the code computes is the one that hides [below]. *)
Lemma shown_struct s seg sb q ls b pre hdr c below d :
  in_buffer s seg sb q ls b pre hdr c below d ->
  let o := 16 + Z.of_nat (length pre) in
  let k := u16 (o - (o - Z.of_nat (length below))) in
  pb_set_payload (Some (Ptr q o)) (pb_set_tot_len (u16 (pb_tot_len b - k)) (pb_set_len (u16 (pb_len b - k)) b))
  = hide_header (Z.of_nat (length below)) b
  /\ pb_tot_len (hide_header (Z.of_nat (length below)) b) = tcp_length hdr d.
Proof.
  intros [_ _ _ Hp Hb Hpay _ Hf _ Hl _ _ _] o k. unfold tcp_length, hide_header. rewrite Hpay. unfold ptr_add. cbn.
  pose proof (packet_head _ _ _ _ Hp) as (b0 & Hb0 & _ & Htot & _). simplify_eq.
  pose proof (packet_length _ _ _ _ Hp) as Hmax. pose proof (first_length _ _ _ _ _ Hp Hb) as Hfl.
  rewrite !length_app, !Nat2Z.inj_add in *. split; [|lia].
  unfold k. replace (o - (o - Z.of_nat (length below))) with (Z.of_nat (length below)) by lia. fold o.
  replace (o - Z.of_nat (length below) + Z.of_nat (length below)) with o by lia.
  by rewrite !u16_small by (rewrite ?u16_small; unfold is_u16; lia).
Qed.

Section built.
Context (s : stack) (seg pcb : loc) (sb : tcp_seg) (q : loc) (ls : list loc) (b : pbuf) (pre hdr c below d : list Z).
Context (Hib : in_buffer s seg sb q ls b pre hdr c below d) (Hok : h_ok (s_heap s)).
Context (Hdl : Z.of_nat (length d) + 40 < 65536).
#[local] Abbreviation off := (16 + Z.of_nat (length pre)).
#[local] Abbreviation b1 := (hide_header (Z.of_nat (length below)) b).
#[local] Abbreviation h1 := (set_pbuf q b1 (s_heap s)).

(** The checksum is computed over the packet and stored in it. *)
Lemma store_chksum {A} s1 pb ack wnd ck (k : tcp_pcb -> M stack A) :
  s_tpcbs s1 !! pcb = Some pb -> is_u32 (pcb_local_ip pb) -> is_u32 (pcb_remote_ip pb) -> length ck = 2%nat ->
  (put16 (tcph_chksum (Ptr q off)) 0;;
   pb ← pcb_get pcb;
   b ← pbuf_get q;
   v ← hp (inet_chksum_pseudo (Some q) (pcb_local_ip pb) (pcb_remote_ip pb) IP_PROTO_TCP (pb_tot_len b));
   put16 (tcph_chksum (Ptr q off)) v;;
   k pb) (hst q h1 s1 pre c (completed ack wnd ck hdr))
  = k pb (hst q h1 s1 pre c (tcp_wire (pcb_local_ip pb) (pcb_remote_ip pb) ack wnd hdr d)).
Proof.
  intros Hpb Hlip Hrip Hck. pose proof (ib_length _ _ _ _ _ _ _ _ _ _ _ Hib) as Hl.
  destruct (shown_struct _ _ _ _ _ _ _ _ _ _ _ Hib) as [_ Htot].
  assert (Hck0 : bytes_ok [0; 0]) by (rewrite !bytes_ok_cons; split; [|split]; [unfold is_u8; lia..|constructor]).
  destruct (completed_ok ack wnd hdr Hl (segment_header_bytes _ _ _ _ _ _ _ _ _ _ _ Hib Hok) _ Hck0 eq_refl) as [Ho2 Hl2].
  destruct (shown_packet _ _ _ _ _ _ _ _ _ _ _ _ Hib Hok Hl2 Ho2) as (Hp2 & Hok2 & _).
  erewrite bind_run by (by apply put_chksum). change [u8 0; u8 (0 / 2 ^ 8)] with [0; 0].
  rewrite (bind_run _ _ _ _ _ (pcb_get_run (hst q h1 s1 pre c _) pcb pb Hpb)).
  rewrite (bind_run _ _ _ _ _ (pbuf_get_run (hst q h1 s1 pre c _) q b1 (lookup_insert_eq _ _ _))). rewrite Htot.
  assert (Hlen : is_u16 (tcp_length hdr d)) by (unfold is_u16, tcp_length; lia).
  erewrite bind_run.
  2:{ apply hp_run. apply (inet_chksum_pseudo_run _ _ (q :: ls) _ _ _ _ _ Hok2 Hp2); done. }
  match goal with |- _ (with_heap _ ?x) = _ => change (with_heap _ x) with x end.
  by erewrite bind_run by by apply put_chksum.
Qed.

(** The segment goes out as an IP datagram. *)
Lemma output_datagram s1 nifs nif n lip rip ttl tos wire :
  s_netifs s1 = s_netifs s -> netif_list s1 = netif_list s -> netif_default s1 = netif_default s -> ip_id s1 = ip_id s ->
  chain (map_next netif_next (s_netifs s)) (netif_list s) nifs None ->
  (forall l, netif_default s = Some l -> is_Some (s_netifs s !! l)) ->
  route s nifs rip = Some nif -> s_netifs s !! nif = Some n -> (lip = 0 -> netif_ip_addr n = 0) ->
  is_u8 ttl -> is_u8 tos -> is_u16 (ip_id s) -> length wire = 20%nat -> bytes_ok wire ->
  let len := Z.of_nat (length d) + 40 in
  let iph := ip_header tos len (ip_id s) ttl IP_PROTO_TCP lip rip in
  let h' := headed q b1 off (pre ++ wire ++ c) iph (with_block q (pre ++ wire ++ c) h1) in
  ip_output q (Some lip) rip ttl tos IP_PROTO_TCP (hst q h1 s1 pre c wire)
  = sent q nif n len rip (with_heap h' (s1 <| ip_id := u16 (ip_id s + 1) |>))
  /\ packet h' (Some q) (q :: ls) (iph ++ wire ++ d) /\ h_ok h'.
Proof.
  intros En El Ed Ei Hch Hdef Hrt Hnif Hlip Httl Htos Hid Hl3 Ho3 len iph h'.
  destruct (shown_packet _ _ _ _ _ _ _ _ _ _ _ _ Hib Hok Hl3 Ho3) as (Hp3 & Hok3 & Hroom).
  destruct (ip_output_if_run (hst q h1 s1 pre c wire) q ls (wire ++ d) b1 off (pre ++ wire ++ c) nif n
    (Some lip) rip ttl tos IP_PROTO_TCP) as (E & Hp4 & Hok4); try done.
  { apply hst_block. }
  { change (s_netifs s1 !! nif = Some n). by rewrite En. }
  { rewrite length_app, Hl3. lia. }
  { change (is_u16 (ip_id s1)). by rewrite Ei. }
  rewrite length_app, Hl3 in E, Hp4, Hok4. replace (Z.of_nat (20 + length d) + 20) with len in * by lia.
  change (ip_id (hst q h1 s1 pre c wire)) with (ip_id s1) in *. rewrite Ei in *.
  replace (source_of (Some lip) n) with lip in *.
  2:{ unfold source_of, ip_addr_isany. destruct (Z.eqb_spec lip 0) as [->|]; [by rewrite Hlip|done]. }
  split; [|done]. unfold ip_output.
  rewrite <- En, <- El in Hch. rewrite <- En, <- Ed in Hdef.
  rewrite (bind_run _ _ _ _ _ (ip_route_run (hst q h1 s1 pre c wire) nifs rip Hch Hdef)).
  replace (route (hst q h1 s1 pre c wire) nifs rip) with (Some nif); [exact E|].
  rewrite <- Hrt. unfold route, on_network, is_up. cbn. by rewrite En, Ed.
Qed.
End built.

Lemma tcp_output_segment_run s seg sb pcb pb q ls b pre hdr c below d nifs nif n seqno :
  in_buffer s seg sb q ls b pre hdr c below d -> h_ok (s_heap s) -> routed s pcb pb nifs nif n ->
  take 4 (drop 4 hdr) = be32 seqno -> is_u32 seqno -> Z.of_nat (length d) + 40 < 65536 ->
  let lip := source_addr pb n in
  let rip := pcb_remote_ip pb in
  let wire := tcp_wire lip rip (pcb_rcv_nxt pb) (pcb_rcv_ann_wnd pb) hdr d in
  let len := Z.of_nat (length d) + 40 in
  let iph := ip_header (pcb_tos pb) len (ip_id s) (pcb_ttl pb) IP_PROTO_TCP lip rip in
  let b1 := hide_header (Z.of_nat (length below)) b in
  let h' := headed q b1 (16 + Z.of_nat (length pre)) (pre ++ wire ++ c) iph
              (with_block q (pre ++ wire ++ c) (set_pbuf q b1 (s_heap s))) in
  let pb' := timing (tcp_ticks (s_tcp s)) seqno (pb <| pcb_local_ip := lip |>) in
  tcp_output_segment seg pcb s
  = (_ ← sent q nif n len rip; mret tt) (with_heap h' ((put_pcb pcb pb' s) <| ip_id := u16 (ip_id s + 1) |>))
  /\ packet h' (Some q) (q :: ls) (iph ++ wire ++ d) /\ h_ok h'.
Proof.
  intros Hib Hok Hro Hsq Hsqr Hdl lip rip wire len iph b1 h' pb'.
  pose proof Hib as [Hseg Hq Hh Hp Hb Hpay Hty Hf Hblk Hl Hr _ Hap].
  pose proof Hro as [Hpcb Hch Hdef Hrt Hnif Hlip Hrip Hw Hn Httl Htos Hid].
  pose proof (segment_header_bytes _ _ _ _ _ _ _ _ _ _ _ Hib Hok) as Hho.
  unfold tcp_output_segment. erewrite bind_run by (by apply seg_get_run). rewrite Hh.
  erewrite bind_run by reflexivity. erewrite bind_run by (by apply pcb_get_run).
  rewrite <- (hst_self s q pre hdr c Hblk) at 1. rewrite fill_fields by done.
  set (hdr1 := completed _ _ (take 2 (drop 16 hdr)) hdr).
  rewrite (bind_run _ _ _ _ _ (settle_source _ _ _ _ _ _ _ _ _ _ hdr1 Hro)). cbn [negb].
  assert (Hck : length (take 2 (drop 16 hdr)) = 2%nat) by by rewrite length_take, length_drop, Hl.
  destruct (completed_ok (pcb_rcv_nxt pb) (pcb_rcv_ann_wnd pb) hdr Hl Hho (take 2 (drop 16 hdr))) as [Ho1 Hl1];
    [by apply bytes_ok_take, bytes_ok_drop|done|].
  erewrite (start_timing _ _ _ _ _ _ _ _ seqno sb); [|apply put_pcb_eq|done|done| |done|done].
  2:{ rewrite <- Hsq. unfold hdr1. do 20 (destruct hdr as [|? hdr]; [done|]). done. }
  rewrite put_pcb_twice. change (tcp_ticks (s_tcp (put_pcb _ _ _))) with (tcp_ticks (s_tcp s)). fold pb'.
  erewrite bind_run by (rewrite Hq; reflexivity).
  erewrite bind_run by (by apply pbuf_get_run). erewrite bind_run by (rewrite Hpay; reflexivity).
  cbn [p_loc p_off]. rewrite bool_decide_eq_true_2 by done. erewrite bind_run by reflexivity.
  cbv zeta. destruct (shown_struct _ _ _ _ _ _ _ _ _ _ _ Hib) as [-> _]. erewrite bind_run by apply hst_pset.
  destruct (timing_fields (tcp_ticks (s_tcp s)) seqno (pb <| pcb_local_ip := lip |>)) as (Ei & Er & Et & Eo).
  change (pcb_local_ip pb' = lip) in Ei. change (pcb_remote_ip pb' = rip) in Er.
  change (pcb_ttl pb' = pcb_ttl pb) in Et. change (pcb_tos pb' = pcb_tos pb) in Eo.
  unfold hdr1. erewrite (store_chksum _ _ pcb _ _ _ _ _ _ _ _ _ Hib Hok Hdl _ pb')
    by (rewrite ?Ei, ?Er; apply put_pcb_eq || done).
  rewrite Ei, Er, Et, Eo. destruct (tcp_wire_ok lip rip (pcb_rcv_nxt pb) (pcb_rcv_ann_wnd pb) hdr d Hl Hho) as [Ho3 Hl3].
  fold wire in Ho3, Hl3 |- *.
  destruct (output_datagram _ _ _ _ _ _ _ _ _ _ _ Hib Hok Hdl (put_pcb pcb pb' s) nifs nif n lip rip
    (pcb_ttl pb) (pcb_tos pb) wire) as (E & H1 & H2); try done.
  { unfold lip, source_addr. by destruct (Z.eqb_spec (pcb_local_ip pb) 0). }
  split; [|done]. by apply bind_cong.
Qed.
End segment.
