(* ===== verification/TcpOutput.v ===== *)
(** * Sending what the window allows (tcp_output)

    The loop of tcp_output as a sequence of turns, each of which gives one
    datagram to the driver and moves one segment from the unsent queue to the
    end of the unacknowledged one. *)
From S2P Require Import Prelude Inet Checksum Heap Pbuf PbufSpec PbufProps InetChksum Stack Chains Words Ip IpProps TcpBase TcpOut Frame TcpSpec TcpEnqueue IpInProps IpOut TcpAck TcpWire.
#[local] Open Scope string_scope.
#[local] Open Scope list_scope.
#[local] Open Scope Z_scope.

(** ** The flags of a header *)
Definition or_flags (f : Z) (hdr : list Z) : list Z :=
  take 13 hdr ++ [Z.lor (nth 13 hdr 0) f] ++ drop 14 hdr.

Lemma lor_u8 a b : is_u8 a -> is_u8 b -> is_u8 (Z.lor a b).
Proof.
  unfold is_u8. intros Ha Hb. split; [apply Z.lor_nonneg; lia|].
  rewrite <- (Z.mod_small a (2 ^ 8)), <- (Z.mod_small b (2 ^ 8)), <- !Z.land_ones by lia.
  rewrite <- Z.land_lor_distr_l, Z.land_ones by lia. apply Z.mod_pos_bound. lia.
Qed.

Lemma or_flags_ok f hdr : length hdr = 20%nat -> bytes_ok hdr -> is_u8 f ->
  length (or_flags f hdr) = 20%nat /\ bytes_ok (or_flags f hdr).
Proof.
  intros Hl Hok Hf. do 20 (destruct hdr as [|? hdr]; [done|]). destruct hdr; [|done]. split; [done|].
  unfold or_flags. cbn [take drop app nth]. rewrite !bytes_ok_cons in *. intuition auto using lor_u8.
Qed.

Lemma ack_u8 : is_u8 TCP_ACK.
Proof. done. Qed.
Lemma or_flags_seqno f hdr : length hdr = 20%nat -> take 4 (drop 4 (or_flags f hdr)) = take 4 (drop 4 hdr).
Proof. intros Hl. do 20 (destruct hdr as [|? hdr]; [done|]). done. Qed.

Lemma TCPH_SET_FLAG_or q h s pre c hdr f : length hdr = 20%nat -> bytes_ok hdr -> is_u8 f ->
  TCPH_SET_FLAG (Ptr q (16 + Z.of_nat (length pre))) f (hst q h s pre c hdr)
  = Done (tt, hst q h s pre c (or_flags f hdr)).
Proof.
  intros Hl Hok Hf. rewrite TCPH_SET_FLAG_hst by done. do 3 f_equal.
  do 20 (destruct hdr as [|? hdr]; [done|]). destruct hdr; [|done].
  unfold put_word, or_flags, flags_of, splice. cbn [take drop app nth length Nat.add].
  repeat (apply bytes_ok_cons in Hok as [? Hok]). change (2 ^ 8) with 256. unfold ntohs. rewrite htons_bytes by done.
  rewrite <- lor_bytes, <- Z.lor_assoc, (Z.lor_comm _ f), Z.lor_assoc, lor_bytes by auto using lor_u8.
  rewrite u16_small by (pose proof (lor_u8 z12 f); unfold is_u8, is_u16 in *; lia).
  pose proof (word_pair z11 (Z.lor z12 f)) as E. specialize (E ltac:(done) ltac:(auto using lor_u8)).
  injection E as E1 E2. change 256 with (2 ^ 8) in *. by rewrite E1, E2.
Qed.

(** ** Segments to send *)

(** A segment in one buffer: its place, its fields and the bytes around it. *)
Record outgoing := Outgoing {
  og_seg : loc; og_buf : loc; og_dp : option ptr; og_len : Z; og_struct : pbuf;
  og_pre : list Z; og_hdr : list Z; og_rest : list Z; og_below : list Z; og_data : list Z; og_seqno : Z
}.
Definition og_flags (x : outgoing) : Z := Z.land (nth 13 (og_hdr x) 0) TCP_FLAGS.
Definition og_ptr (x : outgoing) : ptr := Ptr (og_buf x) (16 + Z.of_nat (length (og_pre x))).
Definition og_tcp_seg (nx : option loc) (x : outgoing) : tcp_seg :=
  TcpSeg nx (Some (og_buf x)) (og_dp x) (og_len x) (Some (og_ptr x)).
(** The segment with the acknowledgement flag that every segment but the first
    SYN carries. *)
Definition with_ack (st : tcp_state) (x : outgoing) : outgoing :=
  if state_is st SYN_SENT then x
  else Outgoing (og_seg x) (og_buf x) (og_dp x) (og_len x) (og_struct x) (og_pre x)
         (or_flags TCP_ACK (og_hdr x)) (og_rest x) (og_below x) (og_data x) (og_seqno x).
(** The same segment on the queue of those in flight. *)
Definition as_sent (st : tcp_state) (x : outgoing) : sent :=
  Sent (og_seg x) (og_buf x) (og_seqno x) (og_flags (with_ack st x)) (og_len x).
Definition og_space (x : outgoing) : Z := og_len x + (if has (og_flags x) TCP_FIN || has (og_flags x) TCP_SYN then 1 else 0).

Definition waits (s : stack) (nx : option loc) (x : outgoing) : Prop :=
  in_buffer s (og_seg x) (og_tcp_seg nx x) (og_buf x) [] (og_struct x) (og_pre x) (og_hdr x) (og_rest x)
    (og_below x) (og_data x)
  /\ pb_ref (og_struct x) = 1 /\ take 4 (drop 4 (og_hdr x)) = be32 (og_seqno x) /\ is_u32 (og_seqno x)
  /\ Z.of_nat (length (og_data x)) + 40 < 65536 /\ has (og_flags x) TCP_RST = false /\ 0 < og_space x.

Fixpoint unsent (s : stack) (p : option loc) (xs : list outgoing) : Prop :=
  match xs with
  | [] => p = None
  | x :: xs => p = Some (og_seg x) /\ exists nx, waits s nx x /\ unsent s nx xs
  end.

(** Its state is not touched: the segment and its buffer are as before. *)
Definition kept (s s' : stack) (seg q : loc) : Prop :=
  s_segs s' !! seg = s_segs s !! seg /\ h_pbufs (s_heap s') !! q = h_pbufs (s_heap s) !! q /\
  h_blocks (s_heap s') !! q = h_blocks (s_heap s) !! q.

Lemma bytes_at_kept h h' p n : h_blocks h' !! p_loc p = h_blocks h !! p_loc p -> bytes_at h' p n = bytes_at h p n.
Proof. intros E. by apply bytes_at_blocks. Qed.

Lemma in_buffer_kept s s' seg sb q b pre hdr c below d : in_buffer s seg sb q [] b pre hdr c below d ->
  kept s s' seg q -> in_buffer s' seg sb q [] b pre hdr c below d.
Proof.
  intros [H1 H2 H3 H4 H5 H6 H7 H8 H9 H10 H11 H12 H13] (E1 & E2 & E3). split; try done; try congruence.
  - eapply pseg_frame_gen; [exact H4|..].
    + intros l b' pt ->%list_elem_of_singleton Hb Hpt. replace b' with b in * by congruence.
      assert (pt = Ptr q (16 + Z.of_nat (length pre) - Z.of_nat (length below))) as -> by congruence. exact E3.
    + by intros l ->%list_elem_of_singleton.
  - by intros l b' pt ?%elem_of_nil.
Qed.
Lemma waits_kept s s' nx x : waits s nx x -> kept s s' (og_seg x) (og_buf x) -> waits s' nx x.
Proof. intros [H1 H2] Hk. split; [by eapply in_buffer_kept|done]. Qed.
Lemma unsent_kept s s' p xs : unsent s p xs -> (forall x, x ∈ xs -> kept s s' (og_seg x) (og_buf x)) -> unsent s' p xs.
Proof.
  revert p. induction xs as [|x xs IH]; intros p H Hk; [done|]. destruct H as (-> & nx & Hx & Hxs).
  split; [done|]. exists nx. split; [eapply waits_kept, Hk; [done|by left]|]. apply IH; [done|]. intros y Hy. apply Hk. by right.
Qed.
Lemma in_flight_kept s s' nx x : in_flight s nx x -> kept s s' (st_seg x) (st_buf x) -> in_flight s' nx x.
Proof.
  intros (H1 & H2 & H3 & dp & hdr & Hl & (bs & Hbs & H4) & H5) (E1 & E2 & E3). unfold in_flight. rewrite E1, E2, E3.
  split; [done|]. split; [done|]. split; [done|]. exists dp, hdr. split; [done|]. split; [|done].
  exists bs. split; [|done]. rewrite <- Hbs. apply bytes_at_kept. by rewrite Hl.
Qed.
Lemma flight_kept s s' p xs : flight s p xs -> (forall x, x ∈ xs -> kept s s' (st_seg x) (st_buf x)) -> flight s' p xs.
Proof.
  revert p. induction xs as [|x xs IH]; intros p H Hk; [done|]. destruct H as (-> & nx & Hx & Hxs).
  split; [done|]. exists nx. split; [eapply in_flight_kept, Hk; [done|by left]|]. apply IH; [done|]. intros y Hy. apply Hk. by right.
Qed.

(** Other bytes in the place of the header. *)
Lemma in_buffer_header s seg sb q b pre hdr hdr' c below d : in_buffer s seg sb q [] b pre hdr c below d ->
  length hdr' = 20%nat -> in_buffer (hst q (s_heap s) s pre c hdr') seg sb q [] b pre hdr' c below d.
Proof.
  intros [H1 H2 H3 H4 H5 H6 H7 H8 H9 H10 H11 [pre0 ->] H13] Hl. rewrite length_app in H6.
  split; try done; [|by rewrite length_app|apply lookup_insert_eq|by exists pre0].
  rewrite app_assoc in H4 |- *. rewrite <- app_assoc in H9.
  replace (s_heap (hst q (s_heap s) s (pre0 ++ below) c hdr'))
    with (with_block q (pre0 ++ (below ++ hdr') ++ c) (s_heap s)) by (cbn; by rewrite <- !app_assoc).
  eapply packet_new_header; [exact H4|exact H5| |by rewrite H9, <- !app_assoc|rewrite !length_app; lia|rewrite length_app; lia|].
  - rewrite H6. do 2 f_equal. lia.
  - by intros l b' pt ?%elem_of_nil.
Qed.

(** ** One turn of the loop *)
Section output.
Context {MC : MempConf} {EV : Env}.

Definition cleared (b : tcp_pcb) : tcp_pcb :=
  if state_is (pcb_state b) SYN_SENT then b
  else b <| pcb_flags := clr8 (pcb_flags b) (Z.lor TF_ACK_DELAY TF_ACK_NOW) |>.

Definition og_wire (b : tcp_pcb) (n : netif) (x : outgoing) : list Z :=
  tcp_wire (source_addr b n) (pcb_remote_ip b) (pcb_rcv_nxt b) (pcb_rcv_ann_wnd b)
    (og_hdr (with_ack (pcb_state b) x)) (og_data x).
Definition og_ip_header (b : tcp_pcb) (n : netif) (id : Z) (x : outgoing) : list Z :=
  ip_header (pcb_tos b) (Z.of_nat (length (og_data x)) + 40) id (pcb_ttl b) IP_PROTO_TCP (source_addr b n) (pcb_remote_ip b).
(** The datagram that carries [x]. *)
Definition datagram (b : tcp_pcb) (n : netif) (id : Z) (x : outgoing) : list Z :=
  og_ip_header b n id x ++ og_wire b n x ++ og_data x.

(** The control block and the stack when the driver gets the datagram. *)
Definition sending_pcb (ticks : Z) (n : netif) (nx : option loc) (x : outgoing) (b : tcp_pcb) : tcp_pcb :=
  timing ticks (og_seqno x) ((cleared (b <| pcb_unsent := nx |>)) <| pcb_local_ip := source_addr b n |>).
Definition to_driver (pcb : loc) (b : tcp_pcb) (n : netif) (nx : option loc) (x : outgoing) (s : stack) : stack :=
  let b1 := hide_header (Z.of_nat (length (og_below x))) (og_struct x) in
  let blk := og_pre x ++ og_wire b n x ++ og_rest x in
  with_heap (headed (og_buf x) b1 (p_off (og_ptr x)) blk (og_ip_header b n (ip_id s) x)
               (with_block (og_buf x) blk (set_pbuf (og_buf x) b1 (s_heap s))))
    ((put_pcb pcb (sending_pcb (tcp_ticks (s_tcp s)) n nx x b) s) <| ip_id := u16 (ip_id s + 1) |>).

Definition fits_mtu (n : netif) (x : outgoing) : Prop :=
  netif_mtu n = 0 \/ Z.of_nat (length (og_data x)) + 40 <= netif_mtu n.

Lemma cleared_fields b : let b' := cleared b in
  pcb_local_ip b' = pcb_local_ip b /\ pcb_remote_ip b' = pcb_remote_ip b /\ pcb_rcv_ann_wnd b' = pcb_rcv_ann_wnd b /\
  pcb_rcv_nxt b' = pcb_rcv_nxt b /\ pcb_ttl b' = pcb_ttl b /\ pcb_tos b' = pcb_tos b.
Proof. unfold cleared. cbn zeta. by destruct (state_is _ _). Qed.

Lemma with_block_over q d d' b h : with_block q d (set_pbuf q b (with_block q d' h)) = with_block q d (set_pbuf q b h).
Proof. unfold with_block, set_pbuf, h_set_blocks, h_set_pbufs. cbn. by rewrite insert_insert_eq. Qed.
Lemma bind_assoc {S A B C} (m : M S A) (f : A -> M S B) (g : B -> M S C) s :
  ((m ≫= f) ≫= g) s = (m ≫= (fun a => f a ≫= g)) s.
Proof. unfold mbind, M_bind. by destruct (m s) as [[]|]. Qed.

Lemma routed_other s s' pcb pb pb' nifs nif n : routed s pcb pb nifs nif n -> s_tpcbs s' !! pcb = Some pb' ->
  s_netifs s' = s_netifs s -> netif_list s' = netif_list s -> netif_default s' = netif_default s -> is_u16 (ip_id s') ->
  source_addr pb' n = source_addr pb n -> pcb_remote_ip pb' = pcb_remote_ip pb -> pcb_rcv_ann_wnd pb' = pcb_rcv_ann_wnd pb ->
  pcb_rcv_nxt pb' = pcb_rcv_nxt pb -> pcb_ttl pb' = pcb_ttl pb -> pcb_tos pb' = pcb_tos pb ->
  routed s' pcb pb' nifs nif n.
Proof.
  intros [H1 H2 H3 H4 H5 H6 H7 H8 H9 H10 H11 H12] Hpcb En El Ed Hid E1 E2 E3 E4 E5 E6. split; rewrite ?En, ?El, ?Ed, ?E1, ?E2, ?E3, ?E4, ?E5, ?E6; try done.
  rewrite <- H4. unfold route, on_network, is_up. by rewrite En, Ed.
Qed.

(** The segment leaves the queue and gets its acknowledgement flag. *)
Section taken.
Context (s : stack) (pcb : loc) (pb : tcp_pcb) (nx : option loc) (x : outgoing).
Context (Hx : waits s nx x) (Hok : h_ok (s_heap s)).
#[local] Abbreviation y := (with_ack (pcb_state pb) x).
#[local] Abbreviation pb1 := (cleared (pb <| pcb_unsent := nx |>)).
#[local] Abbreviation s1 := (hst (og_buf x) (s_heap s) (put_pcb pcb pb1 s) (og_pre x) (og_rest x) (og_hdr y)).

Lemma with_ack_header st : length (og_hdr (with_ack st x)) = 20%nat /\ bytes_ok (og_hdr (with_ack st x)) /\
  take 4 (drop 4 (og_hdr (with_ack st x))) = be32 (og_seqno x).
Proof.
  destruct Hx as (Hib & _ & Hsq & _). pose proof (ib_length _ _ _ _ _ _ _ _ _ _ _ Hib) as Hl.
  pose proof (segment_header_bytes _ _ _ _ _ _ _ _ _ _ _ Hib Hok) as Hho. unfold with_ack. destruct (state_is _ _); [done|]. cbn.
  destruct (or_flags_ok TCP_ACK (og_hdr x) Hl Hho ack_u8) as [? ?]. by rewrite or_flags_seqno.
Qed.

Lemma taken_run :
  (pcb_put pcb (pb <| pcb_unsent := nx |>);;
   when (negb (state_is (pcb_state pb) SYN_SENT))
     (TCPH_SET_FLAG (og_ptr x) TCP_ACK;;
      pcb_upd pcb (fun b => b <| pcb_flags := clr8 (pcb_flags b) (Z.lor TF_ACK_DELAY TF_ACK_NOW) |>))) s = Done (tt, s1).
Proof.
  destruct Hx as (Hib & _). pose proof (ib_length _ _ _ _ _ _ _ _ _ _ _ Hib) as Hl.
  pose proof (segment_header_bytes _ _ _ _ _ _ _ _ _ _ _ Hib Hok) as Hho. rewrite (bind_run _ _ _ _ _ (pcb_put_run _ _ _)).
  set (s0 := put_pcb pcb (pb <| pcb_unsent := nx |>) s).
  pose proof (ib_block _ _ _ _ _ _ _ _ _ _ _ Hib) as Hblk.
  rewrite <- (hst_self s0 (og_buf x) (og_pre x) (og_hdr x) (og_rest x) Hblk).
  unfold with_ack, cleared. change (pcb_state (pb <| pcb_unsent := nx |>)) with (pcb_state pb).
  destruct (state_is _ _); cbn [negb when]; [done|]. unfold og_ptr.
  rewrite (bind_run _ _ _ _ _ (TCPH_SET_FLAG_or _ _ _ _ _ _ TCP_ACK Hl Hho ack_u8)).
  rewrite (pcb_upd_run _ _ _ (pb <| pcb_unsent := nx |>)) by apply put_pcb_eq.
  unfold s0. by rewrite hst_put_pcb, put_pcb_twice.
Qed.

Lemma taken_buffer : in_buffer s1 (og_seg x) (og_tcp_seg nx x) (og_buf x) [] (og_struct x) (og_pre x) (og_hdr y) (og_rest x)
    (og_below x) (og_data x) /\ h_ok (s_heap s1).
Proof.
  destruct (with_ack_header (pcb_state pb)) as (Hyl & Hyo & _). destruct Hx as (Hib & _).
  split; [eapply in_buffer_kept; [by eapply in_buffer_header|done]|].
  apply h_ok_with_block; [done|by eexists; eapply ib_block|].
  destruct Hok as [_ _ _ H4]. specialize (H4 _ _ (ib_block _ _ _ _ _ _ _ _ _ _ _ Hib)). cbn in H4. rewrite !bytes_ok_app in *. tauto.
Qed.

Lemma taken_routed nifs nif n : routed s pcb pb nifs nif n -> routed s1 pcb pb1 nifs nif n.
Proof.
  intros Hro. destruct (cleared_fields (pb <| pcb_unsent := nx |>)) as (E1 & E2 & E3 & E4 & E5 & E6).
  apply (routed_other s s1 pcb pb pb1 nifs nif n Hro); try done.
  - apply put_pcb_eq.
  - exact (ro_id _ _ _ _ _ _ Hro).
  - unfold source_addr. by rewrite E1.
Qed.
End taken.

Lemma send_one {A} (k : M stack A) s pcb pb nifs nif n nx x :
  waits s nx x -> h_ok (s_heap s) -> routed s pcb pb nifs nif n -> fits_mtu n x ->
  (pcb_put pcb (pb <| pcb_unsent := nx |>);;
   when (negb (state_is (pcb_state pb) SYN_SENT))
     (TCPH_SET_FLAG (og_ptr x) TCP_ACK;;
      pcb_upd pcb (fun b => b <| pcb_flags := clr8 (pcb_flags b) (Z.lor TF_ACK_DELAY TF_ACK_NOW) |>));;
   tcp_output_segment (og_seg x) pcb;;
   k) s
  = ((_ ← netif_output nif (og_buf x) (pcb_remote_ip pb); mret tt);; k) (to_driver pcb pb n nx x s)
  /\ packet (s_heap (to_driver pcb pb n nx x s)) (Some (og_buf x)) [og_buf x] (datagram pb n (ip_id s) x)
  /\ h_ok (s_heap (to_driver pcb pb n nx x s)).
Proof.
  intros Hx Hok Hro Hmtu. pose proof Hx as (_ & _ & _ & Hsqr & Hdl & _).
  destruct (with_ack_header s nx x Hx Hok (pcb_state pb)) as (_ & _ & Hys).
  destruct (taken_buffer s pcb pb nx x Hx Hok) as [Hib1 Hok1]. pose proof (taken_routed s pcb pb nx x nifs nif n Hro) as Hro1.
  set (y := with_ack (pcb_state pb) x) in *. set (pb1 := cleared (pb <| pcb_unsent := nx |>)) in *.
  set (s1 := hst (og_buf x) (s_heap s) (put_pcb pcb pb1 s) (og_pre x) (og_rest x) (og_hdr y)) in *.
  destruct (tcp_output_segment_run s1 _ _ pcb pb1 _ _ _ _ _ _ _ _ nifs nif n (og_seqno x) Hib1 Hok1 Hro1 Hys Hsqr Hdl)
    as (E & Hp & Hok2).
  destruct (cleared_fields (pb <| pcb_unsent := nx |>)) as (E1 & E2 & E3 & E4 & E5 & E6). fold pb1 in E1, E2, E3, E4, E5, E6.
  assert (E0 : source_addr pb1 n = source_addr pb n) by (unfold source_addr; by rewrite E1).
  rewrite E0, E2, E3, E4, E5, E6 in E, Hp, Hok2. 
  change (s_heap s1) with (with_block (og_buf x) (og_pre x ++ og_hdr y ++ og_rest x) (s_heap s)) in E, Hp, Hok2.
  rewrite with_block_over in E, Hp, Hok2.
  assert (Hst : forall h', with_heap h' ((put_pcb pcb (timing (tcp_ticks (s_tcp s1)) (og_seqno x)
      (pb1 <| pcb_local_ip := source_addr pb n |>)) s1) <| ip_id := u16 (ip_id s1 + 1) |>)
    = with_heap h' ((put_pcb pcb (sending_pcb (tcp_ticks (s_tcp s)) n nx x pb) s) <| ip_id := u16 (ip_id s + 1) |>)).
  { intros h'. unfold s1. rewrite hst_put_pcb, put_pcb_twice. done. }
  cbn [pcb_remote_ip] in *. change (pcb_remote_ip (pb <| pcb_unsent := nx |>)) with (pcb_remote_ip pb) in *.
  rewrite Hst in E. split; [|split; [exact Hp|exact Hok2]].
  rewrite <- (bind_assoc (pcb_put pcb _)), (bind_run _ _ _ _ _ (taken_run s pcb pb nx x Hx Hok)). fold y pb1 s1.
  apply bind_cong. rewrite E. apply bind_cong. unfold IpOut.sent.
  destruct Hmtu as [-> | Hm]; [done|]. replace (netif_mtu n <? _) with false by (symmetry; apply Z.ltb_ge; lia).
  by rewrite andb_false_r.
Qed.

Lemma completed_keeps ack wnd ck hdr : length hdr = 20%nat -> length ck = 2%nat ->
  take 4 (drop 4 (completed ack wnd ck hdr)) = take 4 (drop 4 hdr) /\ nth 13 (completed ack wnd ck hdr) 0 = nth 13 hdr 0.
Proof.
  intros Hl Hc. do 20 (destruct hdr as [|? hdr]; [done|]). destruct hdr; [|done]. by do 2 (destruct ck as [|? ck]; [done|]).
Qed.

(** The segment is in flight. *)
Lemma driven_in_flight s pcb pb n nx x : waits s nx x -> h_ok (s_heap s) -> is_u8 (pcb_tos pb) -> is_u8 (pcb_ttl pb) ->
  in_flight (to_driver pcb pb n nx x s) nx (as_sent (pcb_state pb) x).
Proof.
  intros Hx Hok Htos Httl. pose proof Hx as (Hib & Hr & Hsq & Hsqr & Hdl & _).
  destruct (with_ack_header s nx x Hx Hok (pcb_state pb)) as (Hl & Hho & Hs4).
  destruct (tcp_wire_ok (source_addr pb n) (pcb_remote_ip pb) (pcb_rcv_nxt pb) (pcb_rcv_ann_wnd pb) _ (og_data x) Hl Hho)
    as [Hwo Hwl].
  destruct (completed_keeps (pcb_rcv_nxt pb) (pcb_rcv_ann_wnd pb)
    [u8 (tcp_chksum (source_addr pb n) (pcb_remote_ip pb) (pcb_rcv_nxt pb) (pcb_rcv_ann_wnd pb)
           (og_hdr (with_ack (pcb_state pb) x)) (og_data x));
     u8 (tcp_chksum (source_addr pb n) (pcb_remote_ip pb) (pcb_rcv_nxt pb) (pcb_rcv_ann_wnd pb)
           (og_hdr (with_ack (pcb_state pb) x)) (og_data x) / 2 ^ 8)] _ Hl eq_refl) as [Ew4 Ew13].
  fold (tcp_wire (source_addr pb n) (pcb_remote_ip pb) (pcb_rcv_nxt pb) (pcb_rcv_ann_wnd pb)
    (og_hdr (with_ack (pcb_state pb) x)) (og_data x)) in Ew4, Ew13.
  fold (og_wire pb n x) in Ew4, Ew13, Hwo, Hwl.
  split; [done|]. split; [eexists; apply lookup_insert_eq|]. split.
  { eexists. split; [cbn; by rewrite lookup_insert_eq|]. destruct Hib as [_ _ _ (_ & b' & pt & d1 & d2 & Hb & _ & _ & _ & _ & Hn) Hb' _ Hty].
    destruct Hn as [Hn _]. cbn. replace b' with (og_struct x) in * by congruence. by rewrite Hty. }
  exists (og_dp x), (og_ptr x). split; [done|]. split; [|exact (ib_seg _ _ _ _ _ _ _ _ _ _ _ Hib)].
  exists (og_wire pb n x). split; [|split; [done|split; [by rewrite Ew4, Hs4|by rewrite Ew13]]].
  set (iph := og_ip_header pb n (ip_id s) x). set (blk := og_pre x ++ og_wire pb n x ++ og_rest x).
  assert (Hil : length iph = 20%nat).
  { apply header_with_ok; [|done..]. rewrite !bytes_ok_cons. auto using u8_range, bytes_ok_nil. }
  pose proof (ib_room _ _ _ _ _ _ _ _ _ _ _ Hib) as Hroom.
  set (pre' := take (length (og_pre x) - 20) (og_pre x) ++ iph).
  assert (Hpl : length pre' = length (og_pre x)) by (unfold pre'; rewrite length_app, length_take, Hil; lia).
  unfold og_ptr. rewrite <- Hpl. rewrite (bytes_at_block _ _ _ (og_wire pb n x ++ og_rest x)).
  - rewrite length_app, Hwl. rewrite (proj2 (andb_true_iff _ _)) by (split; apply Z.leb_le; lia).
    change (Z.to_nat 20) with 20%nat. rewrite <- Hwl at 1. by rewrite take_app_length.
  - etransitivity; [apply lookup_insert_eq|]. do 2 f_equal. fold iph. rewrite Hil. cbn [p_off og_ptr].
    replace (Z.to_nat (16 + Z.of_nat (length (og_pre x)) - 16)) with (length (og_pre x)) by lia.
    unfold pre'. rewrite drop_app_length, take_app_le by lia. by rewrite <- app_assoc.
Qed.
End output.

(** ** The bookkeeping *)
Lemma has_acked h f : f = TCP_FIN \/ f = TCP_SYN \/ f = TCP_RST ->
  has (Z.land (Z.lor h TCP_ACK) TCP_FLAGS) f = has (Z.land h TCP_FLAGS) f.
Proof.
  intros Hf. unfold has. do 2 f_equal. rewrite <- !Z.land_assoc, Z.land_lor_distr_l.
  assert (Z.land TCP_ACK (Z.land TCP_FLAGS f) = 0) as -> by (by destruct Hf as [-> | [-> | ->]]). by rewrite Z.lor_0_r.
Qed.
Lemma flags_with_ack st x f : length (og_hdr x) = 20%nat -> f = TCP_FIN \/ f = TCP_SYN \/ f = TCP_RST ->
  has (og_flags (with_ack st x)) f = has (og_flags x) f.
Proof.
  intros Hl Hf. unfold with_ack, og_flags. destruct (state_is _ _); [done|]. cbn [og_hdr].
  replace (nth 13 (or_flags TCP_ACK (og_hdr x)) 0) with (Z.lor (nth 13 (og_hdr x) 0) TCP_ACK); [by apply has_acked|].
  destruct x as [? ? ? ? ? ? hdr]. cbn in *. do 20 (destruct hdr as [|? hdr]; [done|]). done.
Qed.
Lemma space_as_sent st x : length (og_hdr x) = 20%nat -> st_space (as_sent st x) = og_space x.
Proof. intros Hl. unfold st_space, og_space. cbn. by rewrite !flags_with_ack by auto. Qed.

(** The control block that knows [x] as sent, behind the segments [us]. *)
Definition accounted (us : list sent) (x : outgoing) (b : tcp_pcb) : tcp_pcb :=
  let b := b <| pcb_snd_nxt := u32 (og_seqno x + og_space x) |> in
  let b := if TCP_SEQ_LT (pcb_snd_max b) (pcb_snd_nxt b) then b <| pcb_snd_max := pcb_snd_nxt b |> else b in
  match us with [] => b <| pcb_unacked := Some (og_seg x) |> | _ => b end.
Definition link_last (us : list sent) (l : loc) (s : stack) : stack :=
  match last us with
  | Some y => match s_segs s !! st_seg y with Some sb => put_seg (st_seg y) (sb <| seg_next := Some l |>) s | None => s end
  | None => s
  end.
Definition after_driver (pcb : loc) (us : list sent) (x : outgoing) (b : tcp_pcb) (s : stack) : stack :=
  link_last us (og_seg x) (put_seg (og_seg x) (og_tcp_seg None x) (put_pcb pcb (accounted us x b) s)).

Lemma flight_last s p us y : flight s p us -> last us = Some y -> in_flight s None y.
Proof.
  revert p. induction us as [|u us IH]; intros p; [done|]. intros (_ & nx & Hu & H) E.
  destruct us as [|v us]; [|by eapply IH]. injection E as ->. by rewrite <- H.
Qed.

Lemma header_run s sg p seqno flags : header_at s p seqno flags -> is_u32 seqno -> seg_tcphdr sg = Some p ->
  seg_seqno sg s = Done (seqno, s)
  /\ TCP_TCPLEN sg s = Done (seg_len sg + (if has flags TCP_FIN || has flags TCP_SYN then 1 else 0), s).
Proof.
  intros Hh Hn Hp. unfold seg_seqno, TCP_TCPLEN. rewrite Hp. split.
  - erewrite bind_run by done. by eapply get32_seqno.
  - erewrite bind_run by done. by erewrite bind_run by (by eapply TCPH_FLAGS_run).
Qed.

Lemma account_run `{MempConf} {A} (k : option loc -> M stack A) s pcb b us nx x st :
  s_tpcbs s !! pcb = Some b -> in_flight s nx (as_sent st x) -> s_segs s !! og_seg x = Some (og_tcp_seg nx x) ->
  length (og_hdr x) = 20%nat -> flight s (pcb_unacked b) us -> 0 < og_space x ->
  (forall y, last us = Some y -> TCP_SEQ_LT (og_seqno x) (st_seqno y) = false /\ st_seg y <> og_seg x) ->
  (sb ← seg_get (og_seg x);
   n ← seg_seqno sb;
   tl ← TCP_TCPLEN sb;
   pcb_upd pcb (fun b =>
     let b := b <| pcb_snd_nxt := u32 (n + tl) |> in
     if TCP_SEQ_LT (pcb_snd_max b) (pcb_snd_nxt b)
     then b <| pcb_snd_max := pcb_snd_nxt b |> else b);;
   useg ← output_to_unacked pcb (og_seg x) (st_seg <$> last us);
   k useg) s
  = k (Some (og_seg x)) (after_driver pcb us x b s).
Proof.
  intros Hb Hx Hsg Hl Hf Hsp Hlast. pose proof (space_as_sent st x Hl) as Esp.
  assert (Hh : header_at s (og_ptr x) (og_seqno x) (og_flags (with_ack st x)) /\ is_u32 (og_seqno x)).
  { destruct Hx as (Hn & _ & _ & dp & hdr & _ & Hh & E). cbn in E. rewrite Hsg in E. by injection E as _ <-. }
  destruct Hh as [Hh Hn].
  assert (Hrd : forall s', s_heap s' = s_heap s -> TCP_TCPLEN (og_tcp_seg nx x) s' = Done (og_space x, s')
    /\ seg_seqno (og_tcp_seg nx x) s' = Done (og_seqno x, s')).
  { intros s' E. destruct (header_run s' (og_tcp_seg nx x) (og_ptr x) (og_seqno x) (og_flags (with_ack st x)))
      as [E1 E2]; [by unfold header_at; rewrite E|done|done|]. split; [|done]. by rewrite E2, <- Esp. }
  erewrite bind_run by (by apply seg_get_run). destruct (Hrd s eq_refl) as [E1 E2].
  rewrite (bind_run _ _ _ _ _ E2), (bind_run _ _ _ _ _ E1).
  rewrite (bind_run _ _ _ _ _ (pcb_upd_run s pcb _ b Hb)). cbv zeta.
  set (b1 := if TCP_SEQ_LT _ _ then _ else _). set (s1 := put_pcb pcb b1 s).
  assert (Eun : pcb_unacked b1 = pcb_unacked b) by (unfold b1; by case_match).
  unfold output_to_unacked.
  rewrite bind_assoc, (bind_run _ _ _ _ _ (seg_get_run s1 _ _ Hsg)).
  rewrite bind_assoc. destruct (Hrd s1 eq_refl) as [E3 _]. rewrite (bind_run _ _ _ _ _ E3).
  destruct (Z.ltb_spec 0 (og_space x)); [|lia].
  rewrite bind_assoc, (bind_run _ _ _ _ _ (seg_upd_run s1 _ _ _ Hsg)).
  change ((og_tcp_seg nx x) <| seg_next := None |>) with (og_tcp_seg None x).
  set (s2 := put_seg (og_seg x) (og_tcp_seg None x) s1).
  rewrite bind_assoc, (bind_run _ _ _ _ _ (pcb_get_run s2 pcb b1 (put_pcb_eq _ _ _))). rewrite Eun.
  destruct us as [|u us].
  - rewrite Hf. rewrite bind_assoc, (bind_run _ _ _ _ _ (pcb_put_run _ _ _)). 
    erewrite bind_run by reflexivity. f_equal. unfold after_driver, link_last. cbn [last].
    change (put_seg (og_seg x) (og_tcp_seg None x) (put_pcb pcb (b1 <| pcb_unacked := Some (og_seg x) |>) (put_pcb pcb b1 s))
      = put_seg (og_seg x) (og_tcp_seg None x) (put_pcb pcb (accounted [] x b) s)). by rewrite put_pcb_twice.
  - pose proof Hf as (-> & _). destruct (last (u :: us)) as [y|] eqn:Ey; [|by apply last_None in Ey].
    destruct (Hlast y eq_refl) as [Hlt Hne].
    destruct (flight_last _ _ _ _ Hf Ey) as (Hyn & _ & _ & dp & hdr & _ & Hyh & Hys).
    rewrite bind_assoc. erewrite bind_run by reflexivity.
    assert (Hys2 : s_segs s2 !! st_seg y = Some (TcpSeg None (Some (st_buf y)) dp (st_len y) (Some hdr)))
      by (cbn; by rewrite lookup_insert_ne).
    rewrite bind_assoc, (bind_run _ _ _ _ _ (seg_get_run s2 _ _ Hys2)).
    rewrite bind_assoc. destruct (Hrd s2 eq_refl) as [_ E4]. rewrite (bind_run _ _ _ _ _ E4).
    destruct (header_run s2 (TcpSeg None (Some (st_buf y)) dp (st_len y) (Some hdr)) hdr (st_seqno y) (st_flags y) Hyh Hyn eq_refl)
      as [E5 _].
    rewrite bind_assoc, (bind_run _ _ _ _ _ E5), Hlt.
    rewrite bind_assoc, (bind_run _ _ _ _ _ (seg_upd_run s2 _ _ _ Hys2)). erewrite bind_run by reflexivity.
    f_equal. unfold after_driver, link_last. rewrite Ey.
    change (put_seg (og_seg x) (og_tcp_seg None x) (put_pcb pcb (accounted (u :: us) x b) s)) with s2. by rewrite Hys2.
Qed.

(** ** The driver *)

(** The driver may change what it likes, except the state of TCP, the
    interfaces, and the memory it did not allocate itself. *)
Record quiet (s s' : stack) : Prop := {
  qt_tcp : tcp_part s' = tcp_part s;
  qt_netifs : s_netifs s' = s_netifs s;
  qt_list : netif_list s' = netif_list s;
  qt_default : netif_default s' = netif_default s;
  qt_id : ip_id s' = ip_id s;
  qt_pbufs l : is_Some (h_pbufs (s_heap s) !! l) -> h_pbufs (s_heap s') !! l = h_pbufs (s_heap s) !! l;
  qt_blocks l : is_Some (h_blocks (s_heap s) !! l) -> h_blocks (s_heap s') !! l = h_blocks (s_heap s) !! l;
  qt_ok : h_ok (s_heap s')
}.

(** It sends the packet and returns. *)
Class QuietDriver `{Env} : Prop := quiet_driver : forall nif p addr s, h_ok (s_heap s) ->
  exists r s', netif_output nif p addr s = Done (r, s') /\ quiet s s'.

Lemma quiet_kept s s' l q : quiet s s' -> is_Some (h_pbufs (s_heap s) !! q) -> is_Some (h_blocks (s_heap s) !! q) ->
  kept s s' l q.
Proof.
  intros H Hp Hb. split; [|split; [by apply (qt_pbufs _ _ H)|by apply (qt_blocks _ _ H)]].
  pose proof (qt_tcp _ _ H) as E. by injection E as -> _ _ _.
Qed.
Lemma quiet_flight s s' p us : quiet s s' -> flight s p us -> flight s' p us.
Proof.
  intros H Hf. eapply flight_kept; [exact Hf|]. intros x Hx.
  assert (exists nx, in_flight s nx x) as (nx & _ & Hb & (pb & Hp & _) & _).
  { revert p Hf Hx. induction us as [|u us IH]; intros p Hf Hx; [by apply elem_of_nil in Hx|].
    destruct Hf as (_ & nx & Hu & Hf). apply elem_of_cons in Hx as [->|Hx]; [by exists nx|by eapply IH]. }
  apply quiet_kept; [done|by eexists|done].
Qed.
Lemma unsent_waits s p xs x : unsent s p xs -> x ∈ xs -> exists nx, waits s nx x.
Proof.
  revert p. induction xs as [|y xs IH]; intros p H Hx; [by apply elem_of_nil in Hx|].
  destruct H as (_ & nx & Hy & H). apply elem_of_cons in Hx as [->|Hx]; [by exists nx|by eapply IH].
Qed.
Lemma waits_alive s nx x : waits s nx x ->
  is_Some (h_pbufs (s_heap s) !! og_buf x) /\ is_Some (h_blocks (s_heap s) !! og_buf x) /\ is_Some (s_segs s !! og_seg x).
Proof. intros [[H1 _ _ _ H5 _ _ _ H9 _ _ _ _] _]. split; [|split]; by eexists. Qed.
Lemma quiet_unsent s s' p xs : quiet s s' -> unsent s p xs -> unsent s' p xs.
Proof.
  intros H Hu. eapply unsent_kept; [exact Hu|]. intros x Hx. destruct (unsent_waits _ _ _ _ Hu Hx) as (nx & Hw).
  destruct (waits_alive _ _ _ Hw) as (H1 & H2 & _). by apply quiet_kept.
Qed.

(** ** The queues while the loop runs *)
Record sending (s : stack) (pcb : loc) (pb : tcp_pcb) (nifs : list loc) (nif : loc) (n : netif)
    (us : list sent) (xs : list outgoing) : Prop := {
  sd_routed : routed s pcb pb nifs nif n;
  sd_ok : h_ok (s_heap s);
  sd_flight : flight s (pcb_unacked pb) us;
  sd_unsent : unsent s (pcb_unsent pb) xs;
  sd_segs : NoDup ((st_seg <$> us) ++ (og_seg <$> xs));
  sd_bufs : NoDup ((st_buf <$> us) ++ (og_buf <$> xs))
}.

Lemma in_flight_next s s' nx nx' y : in_flight s nx y ->
  (forall sg, s_segs s !! st_seg y = Some sg -> s_segs s' !! st_seg y = Some (sg <| seg_next := nx' |>)) ->
  h_pbufs (s_heap s') !! st_buf y = h_pbufs (s_heap s) !! st_buf y ->
  h_blocks (s_heap s') !! st_buf y = h_blocks (s_heap s) !! st_buf y -> in_flight s' nx' y.
Proof.
  intros (H1 & H2 & H3 & dp & hdr & Hl & (bs & Hbs & H4) & H5) E1 E2 E3. unfold in_flight. rewrite E2, E3.
  do 3 (split; [done|]). exists dp, hdr. split; [done|]. split; [|by apply E1 in H5].
  exists bs. split; [|done]. rewrite <- Hbs. apply bytes_at_kept. by rewrite Hl.
Qed.

Lemma flight_snoc s s' p us y x : flight s p (us ++ [y]) ->
  (forall z, z ∈ us -> kept s s' (st_seg z) (st_buf z)) ->
  in_flight s' (Some (st_seg x)) y -> in_flight s' None x -> flight s' p (us ++ [y; x]).
Proof.
  revert p. induction us as [|u us IH]; intros p Hf Hk Hy Hx.
  - destruct Hf as (-> & _). split; [done|]. eexists. split; [exact Hy|]. split; [done|]. by exists None.
  - destruct Hf as (-> & nx & Hu & Hf). split; [done|]. exists nx. split; [eapply in_flight_kept, Hk; [done|by left]|].
    apply IH; [done| |done|done]. intros z Hz. apply Hk. by right.
Qed.

(** The segments and buffers of the stack after a turn. *)
Lemma link_last_heap us l s : s_heap (link_last us l s) = s_heap s.
Proof. unfold link_last. by repeat case_match. Qed.
Lemma link_last_other us l s z : (forall y, last us = Some y -> st_seg y <> z) -> s_segs (link_last us l s) !! z = s_segs s !! z.
Proof.
  intros H. unfold link_last. destruct (last us) as [y|]; [|done]. destruct (s_segs s !! st_seg y); [|done].
  cbn. apply lookup_insert_ne. by apply H.
Qed.

Section turn.
Context `{MempConf} (s t' : stack) (pcb : loc) (pb : tcp_pcb) (nifs : list loc) (nif : loc) (n : netif).
Context (us : list sent) (x : outgoing) (xs : list outgoing) (nx : option loc).
Context (Hsd : sending s pcb pb nifs nif n us (x :: xs)) (Hx : waits s nx x) (Hnx : unsent s nx xs).
Context (Hq : quiet (to_driver pcb pb n nx x s) t').
#[local] Abbreviation pb2 := (sending_pcb (tcp_ticks (s_tcp s)) n nx x pb).
#[local] Abbreviation s' := (after_driver pcb us x pb2 t').
#[local] Abbreviation x' := (as_sent (pcb_state pb) x).

Lemma turn_heap : s_heap s' = s_heap t'.
Proof. unfold after_driver. by rewrite link_last_heap. Qed.

Lemma turn_driven l q : q <> og_buf x ->
  is_Some (h_pbufs (s_heap s) !! q) -> is_Some (h_blocks (s_heap s) !! q) -> kept s t' l q.
Proof.
  intros Hne Hp Hb. pose proof (qt_tcp _ _ Hq) as E. injection E as E _ _ _.
  assert (Ep : h_pbufs (s_heap (to_driver pcb pb n nx x s)) !! q = h_pbufs (s_heap s) !! q)
    by (cbn; by rewrite !lookup_insert_ne).
  assert (Eb : h_blocks (s_heap (to_driver pcb pb n nx x s)) !! q = h_blocks (s_heap s) !! q).
  { etransitivity; [by apply lookup_insert_ne|]. by apply lookup_insert_ne. }
  split; [by rewrite E|split].
  - by rewrite (qt_pbufs _ _ Hq), Ep by by rewrite Ep.
  - by rewrite (qt_blocks _ _ Hq), Eb by by rewrite Eb.
Qed.
Lemma turn_buffer q : q <> og_buf x ->
  is_Some (h_pbufs (s_heap s) !! q) -> is_Some (h_blocks (s_heap s) !! q) ->
  h_pbufs (s_heap s') !! q = h_pbufs (s_heap s) !! q /\ h_blocks (s_heap s') !! q = h_blocks (s_heap s) !! q.
Proof. intros Hne Hp Hb. rewrite turn_heap. by destruct (turn_driven xH q Hne Hp Hb) as (_ & ?). Qed.

(** What is not [x] or the last segment before it is as it was. *)
Lemma turn_kept l q : l <> og_seg x -> (forall y, last us = Some y -> st_seg y <> l) -> q <> og_buf x ->
  is_Some (h_pbufs (s_heap s) !! q) -> is_Some (h_blocks (s_heap s) !! q) -> kept s s' l q.
Proof.
  intros Hl Hy Hne Hp Hb. split; [|by apply turn_buffer].
  pose proof (qt_tcp _ _ Hq) as E. injection E as E _ _ _. unfold after_driver. rewrite link_last_other by done.
  cbn. rewrite lookup_insert_ne by done. by rewrite E.
Qed.

Lemma apart_segs {A} (f : A -> loc) (g : outgoing -> loc) (vs : list A) (ys : list outgoing) :
  NoDup ((f <$> vs) ++ (g <$> x :: ys)) ->
  (forall v, v ∈ vs -> f v <> g x) /\ (forall y, y ∈ ys -> g y <> g x) /\ (forall v y, v ∈ vs -> y ∈ ys -> f v <> g y).
Proof.
  rewrite fmap_cons. intros (_ & H1 & [H2 _]%NoDup_cons)%NoDup_app. split; [|split].
  - intros v Hv E. apply (H1 (f v)); [by apply list_elem_of_fmap_2|]. rewrite E. by left.
  - intros y Hy E. apply H2. rewrite <- E. by apply list_elem_of_fmap_2.
  - intros v y Hv Hy E. apply (H1 (f v)); [by apply list_elem_of_fmap_2|]. rewrite E. right. by apply list_elem_of_fmap_2.
Qed.
#[local] Abbreviation segs := (apart_segs st_seg og_seg us xs (sd_segs _ _ _ _ _ _ _ _ Hsd)).
#[local] Abbreviation bufs := (apart_segs st_buf og_buf us xs (sd_bufs _ _ _ _ _ _ _ _ Hsd)).

Lemma driven_sent : in_flight t' nx x' /\ s_segs t' !! og_seg x = Some (og_tcp_seg nx x).
Proof.
  pose proof (sd_routed _ _ _ _ _ _ _ _ Hsd) as Hro. pose proof (qt_tcp _ _ Hq) as E. injection E as E _ _ _.
  pose proof (driven_in_flight s pcb pb n nx x Hx (sd_ok _ _ _ _ _ _ _ _ Hsd) (ro_tos _ _ _ _ _ _ Hro) (ro_ttl _ _ _ _ _ _ Hro))
    as Hfl. pose proof Hfl as (_ & Hb & (b & Hp & _) & _).
  split; [eapply in_flight_kept, quiet_kept; [exact Hfl|exact Hq|by eexists|done]|].
  rewrite E. exact (ib_seg _ _ _ _ _ _ _ _ _ _ _ (proj1 Hx)).
Qed.
Lemma turn_sent : in_flight s' None x'.
Proof.
  destruct driven_sent as [Hfl Hs]. eapply in_flight_next; [exact Hfl|..|by rewrite turn_heap|by rewrite turn_heap].
  intros sg Hsg. unfold after_driver. rewrite link_last_other.
  - cbn in Hsg |- *. rewrite lookup_insert_eq. by simplify_eq.
  - intros y Hy%last_Some_elem_of. exact (proj1 segs y Hy).
Qed.

Lemma flight_alive2 p vs y : flight s p vs -> y ∈ vs ->
  is_Some (h_pbufs (s_heap s) !! st_buf y) /\ is_Some (h_blocks (s_heap s) !! st_buf y) /\ is_Some (s_segs s !! st_seg y).
Proof.
  revert p. induction vs as [|v vs IH]; intros p Hf Hy; [by apply elem_of_nil in Hy|].
  destruct Hf as (_ & k & (_ & Hb & (b & Hp & _) & dp & hdr & _ & _ & Hs) & Hf).
  apply elem_of_cons in Hy as [->|Hy]; [|by eapply IH]. by split; [eexists|split; [|eexists]].
Qed.

Lemma driven_flight : flight t' (pcb_unacked pb2) us.
Proof.
  pose proof (sd_flight _ _ _ _ _ _ _ _ Hsd) as Hf.
  replace (pcb_unacked pb2) with (pcb_unacked pb) by (unfold sending_pcb, timing, cleared; cbv zeta; by repeat case_match).
  eapply flight_kept; [exact Hf|]. intros z Hz. destruct (flight_alive2 _ _ _ Hf Hz) as (Hp & Hb & _).
  apply turn_driven; [exact (proj1 bufs z Hz)|done|done].
Qed.

Lemma turn_flight : flight s' (pcb_unacked (accounted us x pb2)) (us ++ [x']).
Proof.
  pose proof (sd_flight _ _ _ _ _ _ _ _ Hsd) as Hf. pose proof turn_sent as Hx'.
  assert (Hun : us <> [] -> pcb_unacked (accounted us x pb2) = pcb_unacked pb).
  { intros Hne. destruct us as [|u us']; [done|]. unfold accounted, sending_pcb, timing, cleared. cbv zeta. repeat case_match; done. }
  destruct (last us) as [y|] eqn:Ey.
  - pose proof Ey as [us0 Eus]%last_Some. rewrite Hun by (rewrite Eus; by destruct us0).
    pose proof (last_Some_elem_of _ _ Ey) as Hy. destruct (flight_alive2 _ _ _ Hf Hy) as (Hp & Hb & Hs).
    pose proof (sd_segs _ _ _ _ _ _ _ _ Hsd) as Hnd. apply NoDup_app in Hnd as (Hnd & _).
    rewrite Eus, fmap_app in Hnd. apply NoDup_app in Hnd as (_ & Hnd & _).
    pose proof (flight_last _ _ _ _ Hf Ey) as Hyl.
    replace (us ++ [x']) with (us0 ++ [y; x']) by (by rewrite Eus, <- app_assoc).
    apply (flight_snoc s); [by rewrite <- Eus|..|exact Hx'].
    + intros z Hz. assert (Hzu : z ∈ us) by (rewrite Eus; apply elem_of_app; by left).
      destruct (flight_alive2 _ _ _ Hf Hzu) as (Hzp & Hzb & _).
      apply turn_kept; [exact (proj1 segs z Hzu)| |exact (proj1 bufs z Hzu)|done|done].
      intros y' Ey' E. simplify_eq. apply (Hnd (st_seg z)); [by apply list_elem_of_fmap_2|]. rewrite <- E. by left.
    + pose proof (qt_tcp _ _ Hq) as E. injection E as E _ _ _.
      destruct (turn_buffer (st_buf y) (proj1 bufs y Hy) Hp Hb). eapply in_flight_next; [exact Hyl| |done|done].
      intros sg Hsg. unfold after_driver, link_last. rewrite Ey. 
      assert (E2 : s_segs (put_seg (og_seg x) (og_tcp_seg None x) (put_pcb pcb (accounted us x pb2) t')) !! st_seg y = Some sg).
      { cbn. rewrite lookup_insert_ne, E by (apply not_eq_sym; exact (proj1 segs y Hy)). exact Hsg. }
      rewrite E2. apply put_seg_eq.
  - apply last_None in Ey. rewrite Ey in *. split; [done|]. by exists None.
Qed.

Lemma turn_unsent : unsent s' nx xs.
Proof.
  eapply unsent_kept; [exact Hnx|]. intros z Hz. destruct (unsent_waits _ _ _ _ Hnx Hz) as (k & Hw).
  destruct (waits_alive _ _ _ Hw) as (Hp & Hb & _). destruct segs as (_ & Hs2 & Hs3). destruct bufs as (_ & Hb2 & _).
  apply turn_kept; [by apply Hs2| |by apply Hb2|done|done].
  intros y Hy%last_Some_elem_of. by apply Hs3.
Qed.

(** What a turn leaves of the control block. *)
Lemma turn_pcb : let b := accounted us x pb2 in
  pcb_local_ip b = source_addr pb n /\ pcb_remote_ip b = pcb_remote_ip pb /\ pcb_rcv_ann_wnd b = pcb_rcv_ann_wnd pb /\
  pcb_rcv_nxt b = pcb_rcv_nxt pb /\ pcb_ttl b = pcb_ttl pb /\ pcb_tos b = pcb_tos pb /\
  pcb_unsent b = nx /\ pcb_state b = pcb_state pb /\ pcb_lastack b = pcb_lastack pb /\
  pcb_flags b = pcb_flags (cleared pb) /\ pcb_snd_wnd b = pcb_snd_wnd pb /\ pcb_persist_backoff b = pcb_persist_backoff pb.
Proof.
  unfold accounted, sending_pcb, timing, cleared. cbv zeta.
  change (pcb_state (pb <| pcb_unsent := nx |>)) with (pcb_state pb). repeat case_match; repeat split.
Qed.

Lemma turn_stack : s_tpcbs s' !! pcb = Some (accounted us x pb2) /\ s_netifs s' = s_netifs s /\
  netif_list s' = netif_list s /\ netif_default s' = netif_default s /\ ip_id s' = u16 (ip_id s + 1).
Proof.
  destruct Hq as [E1 E2 E3 E4 E5 _ _ _]. unfold after_driver, link_last.
  assert (H1 : s_tpcbs (put_seg (og_seg x) (og_tcp_seg None x) (put_pcb pcb (accounted us x pb2) t')) !! pcb
    = Some (accounted us x pb2)) by apply put_pcb_eq.
  by repeat case_match.
Qed.

Lemma turn_sending : sending s' pcb (accounted us x pb2) nifs nif n (us ++ [x']) xs.
Proof.
  destruct turn_pcb as (E1 & E2 & E3 & E4 & E5 & E6 & E7 & _). destruct turn_stack as (F1 & F2 & F3 & F4 & F5).
  destruct Hsd as [Hro Hok _ _ Hs Hb]. split.
  - apply (routed_other s s' pcb pb _ nifs nif n Hro); try done.
    + rewrite F5. apply u16_range.
    + unfold source_addr at 1. rewrite E1. unfold source_addr. destruct (Z.eqb_spec (pcb_local_ip pb) 0) as [|Hne].
      * by destruct (netif_ip_addr n =? 0).
      * by apply Z.eqb_neq in Hne as ->.
  - rewrite turn_heap. exact (qt_ok _ _ Hq).
  - exact turn_flight.
  - rewrite E7. exact turn_unsent.
  - rewrite fmap_app, <- app_assoc. exact Hs.
  - rewrite fmap_app, <- app_assoc. exact Hb.
Qed.
End turn.

(** ** The loop *)

(** Flags on which data goes out even when Nagle's algorithm would wait. *)
Definition eager (b : tcp_pcb) : bool :=
  has (pcb_flags b) TF_NODELAY || has (pcb_flags b) (Z.lor TF_NAGLEMEMERR TF_FIN).

(** The sequence space from the last acknowledgement to the end of the data. *)
Definition right_edge (lastack : Z) (x : outgoing) : Z := u32 (og_seqno x - lastack + og_len x).

(** The segments that go out: those in front that fit the window, less a last
    one that waits for an acknowledgement. *)
Fixpoint burst (wnd lastack : Z) (eager idle : bool) (xs : list outgoing) : list outgoing :=
  match xs with
  | [] => []
  | x :: xs' =>
      if (right_edge lastack x <=? wnd) && (idle || eager || match xs' with [] => false | _ => true end)
      then x :: burst wnd lastack eager false xs' else []
  end.

(** The segments are in the order of their sequence numbers, behind [prev]. *)
Fixpoint in_order (prev : option Z) (xs : list outgoing) : Prop :=
  match xs with
  | [] => True
  | x :: xs =>
      match prev with Some m => TCP_SEQ_LT (og_seqno x) m = false | None => True end /\ in_order (Some (og_seqno x)) xs
  end.

Lemma has_cleared b f : Z.land (Z.lor TF_ACK_DELAY TF_ACK_NOW) f = 0 -> 0 <= f < 2 ^ 8 ->
  has (pcb_flags (cleared b)) f = has (pcb_flags b) f.
Proof.
  intros Hf Hr. unfold cleared. destruct (state_is _ _); [done|]. unfold has, clr8, u8. cbn [pcb_flags set_field]. do 2 f_equal.
  rewrite <- Z.land_ones by lia. rewrite <- Z.land_assoc, (Z.land_comm (Z.ones 8)), Z.land_ones, Z.mod_small by lia.
  rewrite Z.ldiff_land, <- Z.land_assoc. f_equal. apply Z.bits_inj'. intros i Hi. rewrite Z.land_spec, Z.lnot_spec by done.
  apply (f_equal (fun z => Z.testbit z i)) in Hf. rewrite Z.land_spec, Z.bits_0 in Hf.
  by destruct (Z.testbit (Z.lor _ _) i), (Z.testbit f i).
Qed.
Lemma eager_cleared b b' : pcb_flags b' = pcb_flags (cleared b) -> eager b' = eager b.
Proof. intros E. unfold eager. rewrite E, !has_cleared by done. done. Qed.

(** The sum that the receiver takes over the segment is zero. *)
Definition valid_chksum (b : tcp_pcb) (n : netif) (x : outgoing) : Prop :=
  65535 - rfc1071_sum (pseudo_header (source_addr b n) (pcb_remote_ip b) IP_PROTO_TCP
                         (Z.of_nat (length (og_wire b n x)) + Z.of_nat (length (og_data x)))
                       ++ og_wire b n x ++ og_data x) = 0.

(** The turns of the loop: what the driver is given, and the stack after it. *)
Inductive turns `{MempConf} `{Env} (pcb nif : loc) (n : netif) :
    list sent -> stack -> tcp_pcb -> list outgoing -> stack -> tcp_pcb -> Prop :=
| turns_end us s b : turns pcb nif n us s b [] s b
| turns_send us s b nx x r t xs s' b' :
    packet (s_heap (to_driver pcb b n nx x s)) (Some (og_buf x)) [og_buf x] (datagram b n (ip_id s) x) ->
    valid_chksum b n x ->
    netif_output nif (og_buf x) (pcb_remote_ip b) (to_driver pcb b n nx x s) = Done (r, t) ->
    let b2 := sending_pcb (tcp_ticks (s_tcp s)) n nx x b in
    turns pcb nif n (us ++ [as_sent (pcb_state b) x]) (after_driver pcb us x b2 t) (accounted us x b2) xs s' b' ->
    turns pcb nif n us s b (x :: xs) s' b'.

Section loop.
Context `{MempConf} `{EV : Env} `{!QuietDriver}.
Context (pcb : loc) (nifs : list loc) (nif : loc) (n : netif) (wnd : Z).
#[local] Abbreviation sending := (fun s pb us xs => sending s pcb pb nifs nif n us xs).

Definition is_nil {A} (l : list A) : bool := match l with [] => true | _ => false end.

Lemma first_waits s pb us x xs : sending s pb us (x :: xs) ->
  pcb_unsent pb = Some (og_seg x) /\ exists nx, waits s nx x /\ unsent s nx xs /\ is_some nx = negb (is_nil xs).
Proof.
  intros [_ _ _ (Hp & nx & Hw & Hxs) _ _]. split; [done|]. exists nx. split; [done|]. split; [done|].
  destruct xs; [by rewrite Hxs|]. by destruct Hxs as (-> & _).
Qed.

Lemma waits_read s nx x : waits s nx x -> h_ok (s_heap s) ->
  seg_get (og_seg x) s = Done (og_tcp_seg nx x, s) /\
  (forall pb, seg_right_edge pb (og_tcp_seg nx x) s = Done (right_edge (pcb_lastack pb) x, s)) /\
  TCPH_FLAGS (og_ptr x) s = Done (og_flags x, s).
Proof.
  intros (Hib & _ & Hsq & Hn & _) Hok. pose proof (ib_length _ _ _ _ _ _ _ _ _ _ _ Hib) as Hl.
  assert (Hh : header_at s (og_ptr x) (og_seqno x) (og_flags x)).
  { exists (og_hdr x). split; [|split; [by eapply segment_header_bytes|done]].
    unfold og_ptr. rewrite (bytes_at_block _ _ _ (og_hdr x ++ og_rest x)) by (eapply ib_block; exact Hib).
    rewrite length_app, Hl. rewrite (proj2 (andb_true_iff _ _)) by (split; apply Z.leb_le; lia).
    change (Z.to_nat 20) with 20%nat. rewrite <- Hl at 1. by rewrite take_app_length. }
  split; [apply seg_get_run; eapply ib_seg; exact Hib|]. split; [|by eapply TCPH_FLAGS_run].
  intros pb. unfold seg_right_edge. destruct (header_run s (og_tcp_seg nx x) _ _ _ Hh Hn eq_refl) as [E _].
  by rewrite (bind_run _ _ _ _ _ E).
Qed.

Lemma waits_chksum s pb us xs nx x : sending s pb us xs -> waits s nx x -> valid_chksum pb n x.
Proof.
  intros Hsd Hx. pose proof Hx as (Hib & _ & _ & _ & Hdl & _). pose proof (sd_ok _ _ _ _ _ _ _ _ Hsd) as Hok.
  destruct (with_ack_header s nx x Hx Hok (pcb_state pb)) as (Hl & Hho & _).
  assert (Hd : bytes_ok (og_data x)).
  { pose proof (packet_bytes_ok _ _ _ _ Hok (ib_packet _ _ _ _ _ _ _ _ _ _ _ Hib)) as Hd. rewrite !bytes_ok_app in Hd. tauto. }
  pose proof (sd_routed _ _ _ _ _ _ _ _ Hsd) as Hro. unfold valid_chksum, og_wire.
  destruct (tcp_wire_ok (source_addr pb n) (pcb_remote_ip pb) (pcb_rcv_nxt pb) (pcb_rcv_ann_wnd pb) _ (og_data x) Hl Hho) as [_ ->].
  rewrite <- Hl at 1. apply tcp_wire_verifies; [done|done|done|apply (ro_local _ _ _ _ _ _ Hro)|apply (ro_remote _ _ _ _ _ _ Hro)|].
  unfold is_u16, tcp_length. rewrite Hl. lia.
Qed.

Lemma nagle_run s pb us x xs : sending s pb us (x :: xs) ->
  tcp_do_output_nagle pb s = Done (is_nil us || has (pcb_flags pb) TF_NODELAY || negb (is_nil xs), s).
Proof.
  intros Hsd. destruct (first_waits _ _ _ _ _ Hsd) as (Hu & nx & Hw & _ & Hm).
  pose proof (sd_flight _ _ _ _ _ _ _ _ Hsd) as Hf. destruct (waits_read _ _ _ Hw (sd_ok _ _ _ _ _ _ _ _ Hsd)) as (Hg & _).
  unfold tcp_do_output_nagle. assert (negb (is_some (pcb_unacked pb)) = is_nil us) as ->.
  { destruct us; [by rewrite Hf|]. by destruct Hf as (-> & _). }
  destruct (is_nil us || _) eqn:E; rewrite ?E; [done|]. rewrite Hu, (bind_run _ _ _ _ _ Hg). cbn. by rewrite Hm.
Qed.

(** What the loop reads before it decides. *)
Ltac read_first Hsd Hpcb Hw Hu :=
  let Hg := fresh in let He := fresh in let Hfl := fresh in
  destruct (waits_read _ _ _ Hw (sd_ok _ _ _ _ _ _ _ _ Hsd)) as (Hg & He & Hfl);
  cbn [output_loop]; rewrite (bind_run _ _ _ _ _ (pcb_get_run _ _ _ Hpcb)), Hu,
    (bind_run _ _ _ _ _ Hg), (bind_run _ _ _ _ _ (He _)).
Ltac read_nagle Hsd Hw :=
  erewrite bind_run by reflexivity;
  rewrite (bind_run _ _ _ _ _ (proj2 (proj2 (waits_read _ _ _ Hw (sd_ok _ _ _ _ _ _ _ _ Hsd))))),
    (proj1 (proj2 (proj2 (proj2 (proj2 (proj2 Hw))))));
  erewrite bind_run by apply ASSERT_true; rewrite (bind_run _ _ _ _ _ (nagle_run _ _ _ _ _ Hsd)).

(** The loop ends at a segment that has to wait. *)
Lemma loop_stops fuel s pb us xs useg : sending s pb us xs -> (length xs <= fuel)%nat ->
  burst wnd (pcb_lastack pb) (eager pb) (is_nil us) xs = [] ->
  output_loop fuel pcb wnd useg s = Done (tt, s).
Proof.
  intros Hsd Hf Hb. pose proof (ro_pcb _ _ _ _ _ _ (sd_routed _ _ _ _ _ _ _ _ Hsd)) as Hpcb. destruct xs as [|x xs].
  - pose proof (sd_unsent _ _ _ _ _ _ _ _ Hsd) as Hu. cbn in Hu.
    destruct fuel; cbn [output_loop]; rewrite (bind_run _ _ _ _ _ (pcb_get_run _ _ _ Hpcb)), Hu; done.
  - destruct (first_waits _ _ _ _ _ Hsd) as (Hu & nx & Hw & _). destruct fuel as [|fuel]; [cbn in Hf; lia|].
    read_first Hsd Hpcb Hw Hu. cbn [burst] in Hb. fold (is_nil xs) in Hb.
    destruct (right_edge _ x <=? wnd); cbn [negb]; [|done]. cbn [andb] in Hb.
    read_nagle Hsd Hw. unfold eager in Hb. destruct xs; cbn [is_nil negb] in Hb |- *.
    all: by destruct (is_nil us), (has (pcb_flags pb) TF_NODELAY), (has (pcb_flags pb) (Z.lor TF_NAGLEMEMERR TF_FIN)).
Qed.

(** One turn. *)
Lemma loop_turn fuel s pb us x xs ys : sending s pb us (x :: xs) -> fits_mtu n x ->
  burst wnd (pcb_lastack pb) (eager pb) (is_nil us) (x :: xs) = x :: ys ->
  match st_seqno <$> last us with Some m => TCP_SEQ_LT (og_seqno x) m = false | None => True end ->
  exists nx r t,
    let b2 := sending_pcb (tcp_ticks (s_tcp s)) n nx x pb in
    packet (s_heap (to_driver pcb pb n nx x s)) (Some (og_buf x)) [og_buf x] (datagram pb n (ip_id s) x) /\ valid_chksum pb n x /\
    netif_output nif (og_buf x) (pcb_remote_ip pb) (to_driver pcb pb n nx x s) = Done (r, t) /\
    output_loop (S fuel) pcb wnd (st_seg <$> last us) s
    = output_loop fuel pcb wnd (Some (og_seg x)) (after_driver pcb us x b2 t) /\
    sending (after_driver pcb us x b2 t) (accounted us x b2) (us ++ [as_sent (pcb_state pb) x]) xs.
Proof.
  intros Hsd Hmtu Hb Hord. pose proof (sd_routed _ _ _ _ _ _ _ _ Hsd) as Hro. pose proof (ro_pcb _ _ _ _ _ _ Hro) as Hpcb.
  destruct (first_waits _ _ _ _ _ Hsd) as (Hu & nx & Hw & Hxs & _). pose proof (sd_ok _ _ _ _ _ _ _ _ Hsd) as Hok.
  exists nx.
  destruct (quiet_driver nif (og_buf x) (pcb_remote_ip pb) (to_driver pcb pb n nx x s)) as (r & t & Et & Hq).
  { by eapply (send_one (mret tt)). }
  exists r, t. cbv zeta. split; [by eapply (send_one (mret tt))|]. split; [exact (waits_chksum _ _ _ _ _ _ Hsd Hw)|]. split; [done|]. split; [|by eapply turn_sending].
  read_first Hsd Hpcb Hw Hu. cbn [burst] in Hb.
  destruct (right_edge _ x <=? wnd); cbn [negb]; [|done]. cbn [andb] in Hb. read_nagle Hsd Hw.
  replace (negb (is_nil us || _ || _) && _) with false.
  2:{ unfold eager in Hb. destruct xs; cbn [is_nil negb] in Hb |- *;
      by destruct (is_nil us), (has (pcb_flags pb) TF_NODELAY), (has (pcb_flags pb) (Z.lor TF_NAGLEMEMERR TF_FIN)). }
  etransitivity; [eapply send_one; eassumption|].
  rewrite (bind_run _ _ _ tt t) by (by rewrite (bind_run _ _ _ _ _ Et)).
  destruct (driven_sent s t pcb pb nifs nif n us x xs nx Hsd Hw Hq) as [Hs Hsg]. destruct Hw as (Hib & _ & _ & _ & _ & _ & Hsp).
  eapply account_run; [|exact Hs|exact Hsg| |exact (driven_flight s t pcb pb nifs nif n us x xs nx Hsd Hq)|done|].
  - pose proof (qt_tcp _ _ Hq) as E. injection E as _ E _ _. rewrite E. apply put_pcb_eq.
  - by eapply ib_length.
  - intros y Ey. rewrite Ey in Hord. split; [exact Hord|].
    destruct (apart_segs x st_seg og_seg us xs (sd_segs _ _ _ _ _ _ _ _ Hsd)) as [Hne _].
    by apply Hne, last_Some_elem_of.
Qed.

Lemma burst_cons lastack e idle x xs ys : burst wnd lastack e idle (x :: xs) = ys -> ys <> [] ->
  ys = x :: burst wnd lastack e false xs.
Proof. cbn [burst]. by destruct (_ && _); intros <-. Qed.

Lemma output_loop_run xs : forall fuel s pb us, sending s pb us xs -> Forall (fits_mtu n) xs ->
  in_order (st_seqno <$> last us) xs -> (length xs <= fuel)%nat ->
  let bs := burst wnd (pcb_lastack pb) (eager pb) (is_nil us) xs in
  exists s' pb', output_loop fuel pcb wnd (st_seg <$> last us) s = Done (tt, s')
    /\ turns pcb nif n us s pb bs s' pb'
    /\ sending s' pb' (us ++ (as_sent (pcb_state pb) <$> bs)) (drop (length bs) xs).
Proof.
  induction xs as [|x xs IH]; intros fuel s pb us Hsd Hmtu Hord Hf bs.
  - exists s, pb. split; [by eapply loop_stops|]. split; [by constructor|]. cbn. by rewrite app_nil_r.
  - destruct (decide (bs = [])) as [E|E].
    + rewrite E. exists s, pb. split; [by eapply loop_stops|]. split; [by constructor|]. cbn. by rewrite app_nil_r.
    + pose proof (burst_cons _ _ _ _ _ _ eq_refl E) as Eb. fold bs in Eb. rewrite Eb.
      destruct fuel as [|fuel]; [cbn in Hf; lia|]. apply Forall_cons in Hmtu as [Hm Hmtu]. destruct Hord as [Ho Hord].
      destruct (loop_turn fuel s pb us x xs _ Hsd Hm Eb Ho) as (nx & r & t & Hp & Hck & Ht & El & Hsd').
      set (b' := accounted us x _) in *. 
      assert (Hfields : pcb_lastack b' = pcb_lastack pb /\ pcb_state b' = pcb_state pb /\ eager b' = eager pb).
      { destruct (turn_pcb s pcb pb nifs nif n us x xs nx Hsd) as (_ & _ & _ & _ & _ & _ & _ & E1 & E2 & E3 & _).
        do 2 (split; [done|]). by apply eager_cleared. }
      destruct Hfields as (E1 & E4 & E5).
      destruct (IH fuel _ b' _ Hsd') as (s' & pb' & El' & Hts & Hs); [done| |cbn in Hf; lia|].
      { by rewrite last_snoc. }
      rewrite last_snoc in El'. cbn in El'. rewrite E1, E5 in *.
      replace (is_nil (us ++ [as_sent (pcb_state pb) x])) with false in * by (by destruct us).
      exists s', pb'. rewrite El. split; [done|]. split; [by econstructor|].
      rewrite E4 in Hs. cbn. rewrite <- app_assoc in Hs. done.
Qed.
End loop.

(** ** tcp_output *)
Lemma seg_last_run us : forall fuel s l u, flight s (Some l) us -> last us = Some u -> (length us <= fuel)%nat ->
  seg_last fuel l s = Done (st_seg u, s).
Proof.
  induction us as [|v us IH]; intros fuel s l u Hf Hu Hl; [done|]. destruct fuel as [|fuel]; [cbn in Hl; lia|].
  destruct Hf as ([= ->] & nx & (_ & _ & _ & dp & hdr & _ & _ & Hs) & Hf). cbn [seg_last].
  rewrite (bind_run _ _ _ _ _ (seg_get_run _ _ _ Hs)). cbn [seg_next]. destruct us as [|w us].
  - injection Hu as ->. by rewrite Hf.
  - pose proof Hf as (-> & _). apply (IH fuel s (st_seg w) u); [done|done|cbn in *; lia].
Qed.

(** The persist timer starts when the segment at the front does not fit the
    window of the receiver. *)
Definition persisting (rest : list outgoing) (b : tcp_pcb) : tcp_pcb :=
  match rest with
  | x :: _ => if (pcb_persist_backoff b =? 0) && (pcb_snd_wnd b <? right_edge (pcb_lastack b) x)
              then b <| pcb_persist_cnt := 0 |> <| pcb_persist_backoff := 1 |> else b
  | [] => b
  end.
Definition output_pcb (rest : list outgoing) (b : tcp_pcb) : tcp_pcb :=
  let b := persisting rest b in b <| pcb_flags := clr8 (pcb_flags b) TF_NAGLEMEMERR |>.

Lemma persist_run s pcb pb nifs nif n us xs : sending s pcb pb nifs nif n us xs ->
  (match pcb_unsent pb with
   | Some seg =>
       when (pcb_persist_backoff pb =? 0)
         (sb ← seg_get seg;
          edge ← seg_right_edge pb sb;
          when (pcb_snd_wnd pb <? edge)
            (pcb_put pcb (pb <| pcb_persist_cnt := 0 |> <| pcb_persist_backoff := 1 |>)))
   | None => mret tt
   end) s = Done (tt, put_pcb pcb (persisting xs pb) s).
Proof.
  intros Hsd. pose proof (ro_pcb _ _ _ _ _ _ (sd_routed _ _ _ _ _ _ _ _ Hsd)) as Hpcb.
  pose proof (put_pcb_same _ _ _ Hpcb) as Eid. destruct xs as [|x xs].
  - pose proof (sd_unsent _ _ _ _ _ _ _ _ Hsd) as ->. cbn. by rewrite Eid.
  - destruct (first_waits _ _ _ _ _ _ _ _ _ Hsd) as (-> & nx & Hw & _).
    destruct (waits_read _ _ _ Hw (sd_ok _ _ _ _ _ _ _ _ Hsd)) as (Hg & He & _).
    unfold persisting. destruct (_ =? 0); cbn [when andb]; [|by rewrite Eid].
    rewrite (bind_run _ _ _ _ _ Hg), (bind_run _ _ _ _ _ (He pb)). destruct (_ <? _); [done|]. cbn. by rewrite Eid.
Qed.

Section theorem.
Context `{MempConf} `{EV : Env} `{!QuietDriver}.

(** The segments at the front of the send window. *)
Definition window_burst (b : tcp_pcb) (us : list sent) (xs : list outgoing) : list outgoing :=
  burst (Z.min (pcb_snd_wnd b) (pcb_cwnd b)) (pcb_lastack b) (eager b) (is_nil us) xs.

(** C3: When something may be sent, tcp_output sends exactly the segments at the
    front of the unsent queue that fit the receiver's and the congestion window
    and that Nagle's algorithm lets go, in order, each as the datagram
    [datagram]: a header with the current acknowledgement and window and a
    valid checksum.  Each moves to the end of the unacknowledged queue, where
    an acknowledgement finds it; the others stay, and the persist timer starts
    when the receiver's window is what holds the next one back. *)
Theorem tcp_output_burst s pcb pb nifs nif n us xs :
  tcp_input_pcb (s_tcp s) <> Some pcb -> sending s pcb pb nifs nif n us xs -> Forall (fits_mtu n) xs ->
  in_order (st_seqno <$> last us) xs ->
  let bs := window_burst pb us xs in
  bs <> [] ->
  exists s' pb', turns pcb nif n us s pb bs s' pb'
    /\ tcp_output pcb s = Done (ERR_OK, put_pcb pcb (output_pcb (drop (length bs) xs) pb') s')
    /\ sending s' pcb pb' nifs nif n (us ++ (as_sent (pcb_state pb) <$> bs)) (drop (length bs) xs).
Proof.
  intros Hin Hsd Hmtu Hord bs Hbs. pose proof Hsd as [Hro Hok Hf Hu Hns _]. pose proof (ro_pcb _ _ _ _ _ _ Hro) as Hpcb.
  unfold tcp_output. erewrite bind_run by reflexivity. rewrite bool_decide_eq_false_2 by done.
  rewrite (bind_run _ _ _ _ _ (pcb_get_run _ _ _ Hpcb)).
  set (wnd := Z.min _ _).
  assert (Hlast : (match pcb_unacked pb with None => mret None | Some u => (l ← seg_queue_last u; mret (Some l)) end) s
    = Done (st_seg <$> last us, s)).
  { destruct us as [|u us0]; [by rewrite Hf|]. pose proof Hf as (Eu & _). rewrite Eu in Hf |- *.
    destruct (last (u :: us0)) as [y|] eqn:Ey; [|by apply last_None in Ey].
    unfold seg_queue_last. rewrite bind_assoc. erewrite bind_run by reflexivity.
    erewrite bind_run; [reflexivity|]. eapply seg_last_run; [exact Hf|exact Ey|]. 
    eapply (flight_fuel s (Some (st_seg u)) _ []); rewrite app_nil_r; [exact Hf|]. by apply NoDup_app in Hns as (? & _). }
  rewrite (bind_run _ _ _ _ _ Hlast). 
  destruct xs as [|x xs0]; [done|]. destruct (first_waits _ _ _ _ _ _ _ _ _ Hsd) as (Hu1 & nx & Hw & _).
  destruct (waits_read _ _ _ Hw Hok) as (Hg & He & _).
  assert (Hedge : (right_edge (pcb_lastack pb) x <=? wnd) = true).
  { unfold bs, window_burst in Hbs. cbn [burst] in Hbs. fold wnd in Hbs. by destruct (_ <=? wnd). }
  erewrite (bind_run _ _ s false s).
  2:{ destruct (has _ _); [|done]. rewrite Hu1, (bind_run _ _ _ _ _ Hg), (bind_run _ _ _ _ _ (He pb)).
      unfold mret, M_ret. do 2 f_equal. apply Z.ltb_ge. by apply Z.leb_le. }
  erewrite bind_run by reflexivity.
  destruct (output_loop_run pcb nifs nif n wnd (x :: xs0) (map_fuel (s_segs s)) s pb us Hsd Hmtu Hord) as
    (s' & pb' & El & Ht & Hsd').
  { apply NoDup_app in Hns as (_ & _ & Hnd). apply NoDup_length_size with (m := s_segs s) in Hnd.
    - rewrite length_fmap in Hnd. unfold map_fuel. lia.
    - intros l (z & -> & Hz)%list_elem_of_fmap. destruct (unsent_waits _ _ _ _ Hu Hz) as (k & Hk). by apply waits_alive in Hk as (_ & _ & ?). }
  change (burst wnd _ _ _ _) with bs in Ht, Hsd'. exists s', pb'. split; [exact Ht|]. split; [|exact Hsd'].
  rewrite (bind_run _ _ _ _ _ El). pose proof (ro_pcb _ _ _ _ _ _ (sd_routed _ _ _ _ _ _ _ _ Hsd')) as Hpcb'.
  rewrite (bind_run _ _ _ _ _ (pcb_get_run _ _ _ Hpcb')), (bind_run _ _ _ _ _ (persist_run _ _ _ _ _ _ _ _ Hsd')).
  rewrite (bind_run _ _ _ _ _ (pcb_upd_run _ _ _ _ (put_pcb_eq pcb _ _))). by rewrite put_pcb_twice.
Qed.
End theorem.

(** ** What tcp_write has queued is what tcp_output sends *)

(** A segment that tcp_enqueue built, and the same segment as it waits. *)
Definition good_item (x : item) : Prop :=
  0 <= it_flags x < 64 /\ has (it_flags x) TCP_RST = false /\ Z.of_nat (length (it_data x)) + 40 < 65536 /\
  0 < Z.of_nat (length (it_data x)) + (if has (it_flags x) TCP_FIN || has (it_flags x) TCP_SYN then 1 else 0).
Definition same_segment (seqno : Z) (x : item) (o : outgoing) : Prop :=
  og_seg o = it_seg x /\ og_buf o = it_buf x /\ og_data o = it_data x /\ og_len o = Z.of_nat (length (it_data x)) /\
  og_flags o = it_flags x /\ og_seqno o = seqno.

Lemma segment_waits b s nx seqno x : segment_of b s nx seqno x -> is_u32 seqno -> good_item x ->
  exists o, same_segment seqno x o /\ waits s nx o.
Proof.
  intros (Hs & Hp & pre & ack & wnd & ck & Hl & Ha & Hw & Hc & Hblk) Hn (Hf & Hr & Hlen & Hsp).
  set (hdr := wire_header _ _ _ _ _ _ _) in Hblk.
  do 4 (destruct ack as [|? ack]; [done|]). destruct ack; [|done]. do 2 (destruct wnd as [|? wnd]; [done|]). destruct wnd; [|done].
  do 2 (destruct ck as [|? ck]; [done|]). destruct ck; [|done].
  set (o := Outgoing (it_seg x) (it_buf x) (Some (Ptr (it_buf x) 70)) (Z.of_nat (length (it_data x)))
    (hdr_buf (it_buf x) (Z.of_nat (length (it_data x)))) pre hdr (it_data x) [] (it_data x) seqno).
  assert (Hfl : og_flags o = it_flags x).
  { unfold og_flags. change (nth 13 (og_hdr o) 0) with (it_flags x). change TCP_FLAGS with (Z.ones 6).
    rewrite Z.land_ones by lia. apply Z.mod_small. lia. }
  exists o. split; [done|]. split; [|split; [done|]; split; [done|]; split; [done|]; split; [done|]; split; [by rewrite Hfl|by unfold og_space; rewrite Hfl]].
  assert (Hoff : forall d, bytes_at (s_heap s) (Ptr (it_buf x) 50) d
    = bytes_at (s_heap s) (Ptr (it_buf x) (16 + Z.of_nat (length pre))) d) by (intros; by rewrite Hl).
  split; cbn [og_seg og_buf og_pre og_hdr og_rest og_below og_data og_struct o length app]; rewrite ?Hl; try done.
  1-2: unfold og_tcp_seg, og_ptr; cbn; by rewrite Hl.
  2-5: cbn; first [lia | apply suffix_nil | by intros l b' pt ?%elem_of_nil].
  rewrite <- (app_nil_r (hdr ++ it_data x)).
  apply (pseg_cons _ _ _ (hdr_buf (it_buf x) (Z.of_nat (length (it_data x)))) (Ptr (it_buf x) 50)); [done|..].
  - unfold pbuf_ok, hdr_buf. cbn. split; [done|]. split; [done|]. split; [done|]. unfold is_u16. lia.
  - rewrite Hoff, (bytes_at_block _ _ _ _ _ Hblk), length_app. cbn [pb_len hdr_buf]. change (length hdr) with 20%nat.
    rewrite (proj2 (andb_true_iff _ _)) by (split; apply Z.leb_le; lia).
    by rewrite take_ge by (rewrite length_app; change (length hdr) with 20%nat; lia).
  - rewrite length_app. change (length hdr) with 20%nat. cbn. lia.
  - done.
Qed.

Lemma queued_unsent b s p seqno xs : queued b s p seqno xs -> is_u32 seqno -> Forall good_item xs ->
  exists os, unsent s p os /\ og_seg <$> os = it_seg <$> xs /\ og_buf <$> os = it_buf <$> xs /\ og_data <$> os = it_data <$> xs.
Proof.
  intros H Hn Hg. revert p seqno H Hn. induction Hg as [|x xs Hx _ IH]; intros p seqno H Hn; [by exists []|].
  destruct H as (-> & nx & Hs & H). destruct (segment_waits _ _ _ _ _ Hs Hn Hx) as (o & (E1 & E2 & E3 & _) & Hw).
  destruct (IH _ _ H (u32_range _)) as (os & Hu & F1 & F2 & F3). exists (o :: os).
  split; [split; [by rewrite E1|by exists nx]|]. cbn. by rewrite E1, E2, E3, F1, F2, F3.
Qed.

(** ** Example *)

(** Three segments wait, of which the window of the receiver takes two. *)
Definition ex_out (l q : loc) (seqno : Z) (d : list Z) : outgoing :=
  Outgoing l q (Some (Ptr q 70)) (Z.of_nat (length d)) (hdr_buf q (Z.of_nat (length d))) (replicate 34 0)
    (wire_header 4097 80 seqno TCP_ACK [0; 0; 0; 0] [0; 0] [0; 0]) d [] d seqno.
Definition ex_queue : list outgoing := [ex_out 20 30 6510 [1; 2]; ex_out 21 31 6512 [3; 4; 5]; ex_out 22 32 6515 [6; 7]].
Definition ex_out_pcb : tcp_pcb :=
  (ex_pcb 4097 0x0100000a 80 0x0500000a ESTABLISHED None) <| pcb_unsent := Some 20%positive |>
    <| pcb_snd_wnd := 5 |> <| pcb_cwnd := 2920 |>.
Definition ex_out_heap : heap :=
  Heap (list_to_map ((fun x => (og_buf x, Block 16 (og_pre x ++ og_hdr x ++ og_rest x))) <$> ex_queue))
    (list_to_map ((fun x => (og_buf x, og_struct x)) <$> ex_queue)) 100 0 (fun _ => None) [].
Definition ex_window : stack :=
  with_heap ex_out_heap (ex_routes <| s_tpcbs := {[3%positive := ex_out_pcb]} |>
    <| s_segs := {[20%positive := og_tcp_seg (Some 21%positive) (ex_out 20 30 6510 [1; 2]);
                   21%positive := og_tcp_seg (Some 22%positive) (ex_out 21 31 6512 [3; 4; 5]);
                   22%positive := og_tcp_seg None (ex_out 22 32 6515 [6; 7])]} |>).
Definition ex_out_netif : netif := ex_netif (Some 2%positive) 0x0100000a 0xff 0x03.

#[local] Instance ex_driver_quiet : @QuietDriver ex_env.
Proof. intros nif p addr s Hok. exists ERR_OK, s. split; [reflexivity|]. by split. Defined.

Lemma ex_waits nx x : x ∈ ex_queue -> s_segs ex_window !! og_seg x = Some (og_tcp_seg nx x) -> waits ex_window nx x.
Proof.
  intros Hx Hs. repeat (apply elem_of_cons in Hx as [->|Hx]); [..|by apply elem_of_nil in Hx].
  all: split; [|split; [reflexivity|]; split; [reflexivity|]; split; [unfold is_u32; cbn; lia|];
                split; [cbn; lia|]; split; [reflexivity|vm_compute; reflexivity]].
  all: split; [exact Hs|reflexivity|reflexivity|apply (read_packet_sound 2); vm_compute; reflexivity|reflexivity|reflexivity
    |reflexivity|cbn; lia|reflexivity|reflexivity|cbn; lia|by exists (replicate 34 0)|by intros l b pt ?%elem_of_nil].
Qed.

Lemma ex_sending : @sending ex_window 3 ex_out_pcb [1; 2]%positive 1 ex_out_netif [] ex_queue.
Proof.
  split.
  - split; try (vm_compute; done); try (unfold is_u32, is_u16, is_u8; vm_compute; intuition congruence).
    + split; [reflexivity|]. exists (Some 2%positive). split; [vm_compute; reflexivity|].
      split; [reflexivity|]. exists None. split; [vm_compute; reflexivity|reflexivity].
    + intros l [= <-]. eexists. vm_compute. reflexivity.
  - apply h_okb_sound. vm_compute. reflexivity.
  - reflexivity.
  - split; [reflexivity|]. exists (Some 21%positive). split; [by apply ex_waits; [left|]|].
    split; [reflexivity|]. exists (Some 22%positive). split; [by apply ex_waits; [right; left|]|].
    split; [reflexivity|]. exists None. split; [by apply ex_waits; [right; right; left|]|reflexivity].
  - vm_compute. repeat constructor; rewrite ?elem_of_cons, ?elem_of_nil; intuition discriminate.
  - vm_compute. repeat constructor; rewrite ?elem_of_cons, ?elem_of_nil; intuition discriminate.
Qed.

Lemma tcp_output_burst_witness :
  exists s' pb',
    @turns memp_nsc ex_env 3 1 ex_out_netif [] ex_window ex_out_pcb (take 2 ex_queue) s' pb'
    /\ @tcp_output memp_nsc ex_env 3 ex_window
       = Done (ERR_OK, put_pcb 3 (output_pcb [ex_out 22 32 6515 [6; 7]] pb') s')
    /\ flight s' (pcb_unacked pb') [as_sent ESTABLISHED (ex_out 20 30 6510 [1; 2]); as_sent ESTABLISHED (ex_out 21 31 6512 [3; 4; 5])].
Proof.
  assert (Hb : window_burst ex_out_pcb [] ex_queue = take 2 ex_queue) by (vm_compute; reflexivity).
  destruct (@tcp_output_burst memp_nsc ex_env ex_driver_quiet ex_window 3 ex_out_pcb [1; 2]%positive 1 ex_out_netif [] ex_queue)
    as (s' & pb' & Ht & E & Hsd).
  - done.
  - exact ex_sending.
  - do 3 (constructor; [right; vm_compute; discriminate|]). constructor.
  - repeat split.
  - rewrite Hb. discriminate.
  - rewrite Hb in Ht, E, Hsd. exists s', pb'. split; [exact Ht|]. split; [exact E|].
    apply (sd_flight _ _ _ _ _ _ _ _ Hsd).
Defined.
