(* ===== verification/ReassQueue.v ===== *)
(** * The fragments of one datagram

    The list of fragments that ip_frag.c keeps in the headers of the fragments
    themselves, as a list of records: where each fragment is, which bytes of
    the datagram it covers and what it holds.  Reading and relinking the
    fragments in these terms. *)
From S2P Require Import Prelude Inet Checksum Heap Pbuf PbufSpec PbufProps InetChksum Stack Chains Words Ip Reass TcpArith.
#[local] Open Scope list_scope.
#[local] Open Scope Z_scope.

(** ** Fragments in memory *)
Definition le16 (v : Z) : list Z := [u8 v; u8 (v / 2 ^ 8)].
Definition le32 (v : Z) : list Z := [u8 v; u8 (v / 2 ^ 8); u8 (v / 2 ^ 16); u8 (v / 2 ^ 24)].

(** struct ip_reass_helper in memory. *)
Definition helper_bytes (next : option loc) (start end_ : Z) : list Z :=
  le32 (ptr_word next) ++ le16 start ++ le16 end_.

(** A fragment: its pbufs, the bytes [f_start, f_end) of the datagram, and
    what follows the helper structure. *)
Record frag := Frag {
  f_loc : loc; f_pbufs : list loc; f_start : Z; f_end : Z; f_body : list Z
}.

(** A pointer of 32 bits. *)
Definition fits (l : option loc) : Prop := match l with Some l => Zpos l < 2 ^ 32 | None => True end.

(** The payload of each pbuf is in its own block. *)
Definition own (h : heap) (ls : list loc) : Prop :=
  forall l b pt, l ∈ ls -> h_pbufs h !! l = Some b -> pb_payload b = Some pt -> p_loc pt = l.

(** The fragment [f], linked to [next], is at its place in memory, and its
    first pbuf holds at least the header. *)
Record frag_at (h : heap) (f : frag) (next : option loc) : Prop := {
  fa_packet : packet h (Some (f_loc f)) (f_pbufs f)
                (helper_bytes next (f_start f) (f_end f) ++ f_body f);
  fa_own : own h (f_pbufs f);
  fa_refs : refs_one (h_pbufs h) (f_pbufs f);
  fa_head : exists b, h_pbufs h !! f_loc f = Some b /\ 20 <= pb_len b;
  fa_start : is_u16 (f_start f);
  fa_end : is_u16 (f_end f);
  fa_fits : Zpos (f_loc f) < 2 ^ 32
}.

(** The fragments [fs] from the pointer [p] on. *)
Fixpoint queue (h : heap) (p : option loc) (fs : list frag) (e : option loc) : Prop :=
  match fs with
  | [] => p = e
  | f :: fs => p = Some (f_loc f) /\ exists next, frag_at h f next /\ queue h next fs e
  end.
(** No pbuf belongs to two of them. *)
Definition apart (fs : list frag) : Prop := NoDup (concat (map f_pbufs fs)).

Definition f_head (fs : list frag) (e : option loc) : option loc :=
  match fs with [] => e | f :: _ => Some (f_loc f) end.
Lemma queue_head h p fs e : queue h p fs e -> p = f_head fs e.
Proof. destruct fs as [|f fs]; [done | by intros [-> _]]. Qed.

Lemma queue_app h p fs gs e :
  queue h p (fs ++ gs) e <-> queue h p fs (f_head gs e) /\ queue h (f_head gs e) gs e.
Proof.
  revert p. induction fs as [|f fs IH]; intros p; cbn.
  - split; [intros H; pose proof (queue_head _ _ _ _ H) as ->; done | by intros [-> ?]].
  - split.
    + intros (-> & n & Hn & [H1 H2]%IH). split; [|done]. split; [done|]. by exists n.
    + intros ((-> & n & Hn & H1) & H2). split; [done|]. exists n. split; [done|]. by apply IH.
Qed.

Lemma queue_fits h p fs : queue h p fs None -> fits p.
Proof. destruct fs as [|f fs]; [by intros -> | intros (-> & n & H & _); apply H]. Qed.

Lemma fragment_head h f next : frag_at h f next -> f_loc f ∈ f_pbufs f.
Proof.
  intros [H _ _ _ _ _ _]. destruct (packet_head _ _ _ _ H) as (_ & _ & _ & _ & _ & Hh).
  destruct (f_pbufs f); [done|]. injection Hh as ->. by left.
Qed.

(** ** Words *)
Lemma le16_word v : is_u16 v -> u8 v + 2 ^ 8 * u8 (v / 2 ^ 8) = v.
Proof. apply word16_bytes. Qed.
Lemma le32_word v : is_u32 v ->
  u8 v + 2 ^ 8 * u8 (v / 2 ^ 8) + 2 ^ 16 * u8 (v / 2 ^ 16) + 2 ^ 24 * u8 (v / 2 ^ 24) = v.
Proof. unfold is_u32, u8. intros. Z.div_mod_to_equations. lia. Qed.
Lemma word_ptr_word l : fits l -> word_ptr (ptr_word l) = l.
Proof. destruct l as [l|]; [|done]. cbn. intros H. by rewrite u32_small by (unfold is_u32; lia). Qed.
Lemma ptr_word_u32 l : is_u32 (ptr_word l).
Proof. destruct l; [apply u32_range|]. by vm_compute. Qed.
Lemma length_helper n a e : length (helper_bytes n a e) = 8%nat.
Proof. done. Qed.

(** ** Access to one fragment *)

(** [pt] is the payload of the first pbuf. *)
Definition at_ptr (h : heap) (f : frag) (pt : ptr) : Prop :=
  exists b, h_pbufs h !! f_loc f = Some b /\ pb_payload b = Some pt.

Lemma frag_bytes h f n : frag_at h f n ->
  exists b pt r1 r2, h_pbufs h !! f_loc f = Some b /\ pb_payload b = Some pt /\ p_loc pt = f_loc f
    /\ f_body f = r1 ++ r2 /\ (12 <= length r1)%nat /\ pb_len b = 8 + Z.of_nat (length r1)
    /\ bytes_at h pt (pb_len b) = Some (helper_bytes n (f_start f) (f_end f) ++ r1).
Proof.
  intros H. pose proof (fragment_head _ _ _ H) as Hin. destruct H as [Hp Ho _ (b & Hb & Hl) _ _ _].
  destruct (f_pbufs f) as [|y ys]; [by destruct Hp|].
  destruct Hp as ([= Ey] & b' & pt & d1 & d2 & Hb' & (Hpt & _) & Hd & E & _ & _).
  rewrite Ey in *. assert (b' = b) as -> by congruence.
  pose proof (bytes_at_length _ _ _ _ Hd) as Hlen.
  assert (E1 : d1 = helper_bytes n (f_start f) (f_end f) ++ drop 8 d1).
  { rewrite <- (take_drop 8 d1) at 1. f_equal.
    apply (f_equal (take 8)) in E. rewrite take_app_le in E by (rewrite length_helper; lia).
    rewrite take_app_le in E by lia. by rewrite <- E. }
  exists b, pt, (drop 8 d1), d2. split; [done|]. split; [done|]. split; [by eapply Ho|].
  rewrite length_drop. split; [|split; [lia|split; [lia|by rewrite <- E1]]].
  apply (f_equal (drop 8)) in E. rewrite drop_app_le in E by (rewrite length_helper; lia).
  by rewrite drop_app_le in E by lia.
Qed.

Lemma at_ptr_ex h f n : frag_at h f n -> exists pt, at_ptr h f pt.
Proof. intros (b & pt & _ & _ & Hb & Hp & _)%frag_bytes. by exists pt, b. Qed.

Lemma helper_at h f n pt : frag_at h f n -> at_ptr h f pt ->
  p_loc pt = f_loc f /\ bytes_at h pt 8 = Some (helper_bytes n (f_start f) (f_end f)).
Proof.
  intros H (b' & Hb' & Hp'). destruct (frag_bytes _ _ _ H) as (b & pt' & r1 & r2 & Hb & Hp & Hl & _ & _ & El & Hd).
  simplify_eq. split; [done|]. apply (bytes_at_split _ _ _ 8) in Hd as [Hd _]; [|lia].
  rewrite Hd. by rewrite take_app_le by (rewrite length_helper; lia).
Qed.

Lemma payload_of_run s f pt : at_ptr (s_heap s) f pt -> payload_of (f_loc f) s = Done (pt, s).
Proof. intros (b & Hb & Hp). unfold payload_of. erewrite bind_run by by apply pbuf_get_run. by rewrite Hp. Qed.

Section access.
Context (s : stack) (f : frag) (n : option loc) (pt : ptr).
Context (Hf : frag_at (s_heap s) f n) (Hpt : at_ptr (s_heap s) f pt).

Lemma helper_next_run : fits n -> helper_next pt s = Done (n, s).
Proof.
  intros Hn. destruct (helper_at _ _ _ _ Hf Hpt) as [_ Hd]. unfold helper_next.
  apply (bytes_at_split _ _ _ 4) in Hd as [Hd _]; [|lia].
  erewrite bind_run by (eapply get32_run; exact Hd). rewrite le32_word by apply ptr_word_u32.
  by rewrite word_ptr_word.
Qed.
Lemma helper_start_run : helper_start pt s = Done (f_start f, s).
Proof.
  destruct (helper_at _ _ _ _ Hf Hpt) as [_ Hd]. unfold helper_start.
  apply (bytes_at_slice _ _ _ _ 4 2) in Hd; [|lia..].
  erewrite get16_run by exact Hd. by rewrite le16_word by apply (fa_start _ _ _ Hf).
Qed.
Lemma helper_end_run : helper_end pt s = Done (f_end f, s).
Proof.
  destruct (helper_at _ _ _ _ Hf Hpt) as [_ Hd]. unfold helper_end.
  apply (bytes_at_slice _ _ _ _ 6 2) in Hd; [|lia..].
  erewrite get16_run by exact Hd. by rewrite le16_word by apply (fa_end _ _ _ Hf).
Qed.
End access.

(** ** Relinking *)
Definition relink (pt : ptr) (v : option loc) (h : heap) : heap := poke pt (le32 (ptr_word v)) h.

Lemma relink_blocks pt v h l : l <> p_loc pt -> h_blocks (relink pt v h) !! l = h_blocks h !! l.
Proof. intros H. unfold relink, poke. case_match; [|done]. cbn. by rewrite lookup_insert_ne. Qed.
Lemma at_ptr_relink pt v h f q : at_ptr (relink pt v h) f q <-> at_ptr h f q.
Proof. unfold at_ptr, relink. by rewrite poke_pbufs. Qed.

Lemma frag_at_same h h' f n : frag_at h f n ->
  (forall l, l ∈ f_pbufs f -> h_pbufs h' !! l = h_pbufs h !! l /\ h_blocks h' !! l = h_blocks h !! l) ->
  frag_at h' f n.
Proof.
  intros H Hs. pose proof (fragment_head _ _ _ H) as Hin. destruct H as [Hp Ho Hr (b & Hb & Hl) H5 H6 H7].
  split; try done.
  - eapply pseg_frame_gen; [exact Hp| |].
    + intros l b' pt Hl' Hb' Hpt. rewrite (Ho l b' pt) by done. by apply Hs.
    + intros l Hl'. by apply Hs.
  - intros l b' pt Hl' Hb' Hpt. rewrite (proj1 (Hs l Hl')) in Hb'. by eapply Ho.
  - eapply refs_one_agree; [|exact Hr]. intros l Hl'. by apply Hs.
  - exists b. by rewrite (proj1 (Hs _ Hin)).
Qed.

Lemma helper_set_next_run s f n pt v : frag_at (s_heap s) f n -> at_ptr (s_heap s) f pt ->
  helper_set_next pt v s = Done (tt, with_heap (relink pt v (s_heap s)) s).
Proof.
  intros Hf Hpt. destruct (helper_at _ _ _ _ Hf Hpt) as [_ Hd].
  apply (bytes_at_split _ _ _ 4) in Hd as [Hd _]; [|lia]. by eapply put32_run.
Qed.

Lemma ptr_add_0 p : ptr_add p 0 = p.
Proof. destruct p. unfold ptr_add. cbn. by rewrite Z.add_0_r. Qed.

Lemma splice_app_l k bs d1 d2 : (k + length bs <= length d1)%nat ->
  splice k bs (d1 ++ d2) = splice k bs d1 ++ d2.
Proof.
  intros H. unfold splice. rewrite take_app_le by lia. rewrite drop_app_le by lia.
  by rewrite <- !app_assoc.
Qed.

(** New bytes in the first pbuf of a packet. *)
Lemma packet_poke h p ys d b pt k bs : packet h (Some p) ys d -> own h ys ->
  h_pbufs h !! p = Some b -> pb_payload b = Some pt -> Z.of_nat (k + length bs) <= pb_len b ->
  packet (poke (ptr_add pt (Z.of_nat k)) bs h) (Some p) ys (splice k bs d).
Proof.
  intros H Ho Hb Hpt Hl. pose proof (pseg_last_none _ _ _ _ H) as Hnd.
  destruct ys as [|y ys]; [by destruct H|].
  destruct H as ([= Ey] & b' & pt' & d1 & d2 & Hb' & Hok & Hd & -> & Ht & H). rewrite Ey in *.
  assert (b' = b) as -> by congruence. assert (pt' = pt) as -> by (destruct Hok; congruence).
  pose proof (bytes_at_length _ _ _ _ Hd) as Hlen. apply NoDup_cons in Hnd as [Hy _].
  rewrite splice_app_l by lia. rewrite length_app in Ht.
  eapply pseg_cons; [by rewrite poke_pbufs | exact Hok | | rewrite splice_length by lia; lia |].
  - apply bytes_at_poke; [done | lia].
  - eapply pseg_frame_gen; [exact H | |by intros; rewrite poke_pbufs].
    intros l b' q Hl' Hb'' Hq. unfold poke. case_match; [|done]. cbn. apply lookup_insert_ne.
    rewrite (Ho y b pt); [|by left|done..]. rewrite (Ho l b' q); [|by right|done..].
    by intros ->.
Qed.

Lemma relink_pbufs pt v h : h_pbufs (relink pt v h) = h_pbufs h.
Proof. apply poke_pbufs. Qed.

Lemma frag_at_relink h f n pt v : frag_at h f n -> at_ptr h f pt -> frag_at (relink pt v h) f v.
Proof.
  intros H (b & Hb & Hpt). destruct H as [Hp Ho Hr (b' & Hb' & Hl) H5 H6 H7]. simplify_eq.
  split; try done.
  - unfold relink. apply (packet_poke _ _ _ _ b' pt 0 (le32 (ptr_word v))) in Hp; [|done..|cbn; lia].
    by rewrite ptr_add_0 in Hp.
  - intros l b1 q. rewrite relink_pbufs. apply Ho.
  - by rewrite relink_pbufs.
  - exists b'. by rewrite relink_pbufs.
Qed.

Lemma frag_at_relink_other h g n v pt : frag_at h g n -> p_loc pt ∉ f_pbufs g ->
  frag_at (relink pt v h) g n.
Proof.
  intros H Hd. eapply frag_at_same; [exact H|]. intros l Hl.
  split; [by rewrite relink_pbufs|]. apply relink_blocks. by intros ->.
Qed.

(** A change of memory that concerns none of the fragments. *)
Lemma queue_same h h' p fs e : queue h p fs e ->
  (forall f l, f ∈ fs -> l ∈ f_pbufs f ->
     h_pbufs h' !! l = h_pbufs h !! l /\ h_blocks h' !! l = h_blocks h !! l) ->
  queue h' p fs e.
Proof.
  revert p. induction fs as [|f fs IH]; intros p H Hs; [done|].
  destruct H as (-> & n & Hn & H). split; [done|]. exists n. split.
  - eapply frag_at_same; [exact Hn|]. intros l. apply Hs. by left.
  - apply IH; [done|]. intros g l Hg. apply Hs. by right.
Qed.

Lemma queue_relink_other h pt v p fs e : queue h p fs e ->
  (forall f, f ∈ fs -> p_loc pt ∉ f_pbufs f) -> queue (relink pt v h) p fs e.
Proof.
  intros H Hd. eapply queue_same; [exact H|]. intros f l Hf Hl.
  split; [by rewrite relink_pbufs|]. apply relink_blocks. intros ->. by apply (Hd f).
Qed.

(** Relinking the last fragment of a queue. *)
Lemma queue_relink_last h p fs f e pt v :
  queue h p (fs ++ [f]) e -> at_ptr h f pt -> apart (fs ++ [f]) ->
  queue (relink pt v h) p (fs ++ [f]) v.
Proof.
  intros H Hpt Ha. apply queue_app in H as [H1 (Hh & n & Hn & Hq)]. cbn [f_head] in *.
  destruct (helper_at _ _ _ _ Hn Hpt) as [Hl _].
  apply queue_app. split.
  - apply queue_relink_other; [exact H1|]. intros g Hg Hin.
    unfold apart in Ha. rewrite map_app, concat_app in Ha. apply NoDup_app in Ha as (_ & Hd & _).
    apply (Hd (p_loc pt)).
    + apply list_elem_of_In, in_concat. exists (f_pbufs g). split; [|by apply list_elem_of_In].
      apply in_map. by apply list_elem_of_In.
    + cbn. rewrite app_nil_r, Hl. by eapply fragment_head.
  - split; [done|]. exists v. split; [by eapply frag_at_relink | done].
Qed.

(** Only bytes in the blocks [ls] differ. *)
Definition same_shape (x y : option block) : Prop :=
  match x, y with
  | Some b, Some c => b_base c = b_base b /\ length (b_data c) = length (b_data b)
                      /\ (bytes_ok (b_data b) -> bytes_ok (b_data c))
  | None, None => True
  | _, _ => False
  end.
Definition relinked (ls : list loc) (h h' : heap) : Prop :=
  exists m, h' = h_set_blocks m h /\ (forall l, l ∉ ls -> m !! l = h_blocks h !! l)
    /\ forall l, same_shape (h_blocks h !! l) (m !! l).
Lemma same_shape_refl x : same_shape x x.
Proof. by destruct x. Qed.
Lemma relinked_refl ls h : relinked ls h h.
Proof. exists (h_blocks h). split; [by destruct h|]. split; [done|]. intros. apply same_shape_refl. Qed.
Lemma relinked_trans ls h h1 h2 : relinked ls h h1 -> relinked ls h1 h2 -> relinked ls h h2.
Proof.
  intros (m & -> & Hm & Hs) (m' & -> & Hm' & Hs'). exists m'. split; [done|]. split.
  - intros l Hl. rewrite Hm' by done. by apply Hm.
  - intros l. specialize (Hs l). specialize (Hs' l). cbn in Hs'. unfold same_shape in *.
    destruct (h_blocks h !! l), (m !! l), (m' !! l); try done.
    destruct Hs as (E1 & L1 & Hs), Hs' as (E2 & L2 & Hs'). split; [congruence|].
    split; [congruence|]. by intros ?%Hs%Hs'.
Qed.
Lemma relinked_mono ls ls' h h' : relinked ls h h' -> ls ⊆ ls' -> relinked ls' h h'.
Proof. intros (m & -> & Hm & Hs') Hs. exists m. split; [done|]. split; [|done]. intros l Hl. apply Hm. set_solver. Qed.
Lemma relinked_poke p bs h d : bytes_at h p (Z.of_nat (length bs)) = Some d -> bytes_ok bs ->
  relinked [p_loc p] h (poke p bs h).
Proof.
  intros (blk & E & _ & H1 & H2 & _)%bytes_at_inv Hbs. unfold poke. rewrite E.
  eexists. split; [done|]. split.
  - intros l Hl. apply lookup_insert_ne. intros <-. apply Hl. by left.
  - intros l. destruct (decide (l = p_loc p)) as [->|].
    + rewrite lookup_insert_eq, E. split; [done|]. cbn. split; [apply splice_length; lia|].
      intros Hd. unfold splice.
      apply bytes_ok_app. split; [by apply bytes_ok_take|].
      apply bytes_ok_app. split; [done | by apply bytes_ok_drop].
    + rewrite lookup_insert_ne by done. apply same_shape_refl.
Qed.
Lemma le32_ok v : bytes_ok (le32 v).
Proof. repeat (constructor; [apply u8_range|]). constructor. Qed.
Lemma relink_relinked h f n pt v : frag_at h f n -> at_ptr h f pt ->
  relinked [p_loc pt] h (relink pt v h).
Proof.
  intros Hf Hpt. destruct (helper_at _ _ _ _ Hf Hpt) as [_ Hd].
  apply (bytes_at_split _ _ _ 4) in Hd as [Hd _]; [|lia].
  eapply relinked_poke; [exact Hd | apply le32_ok].
Qed.

Lemma h_ok_relinked ls h h' : relinked ls h h' -> h_ok h -> h_ok h'.
Proof.
  intros (m & -> & _ & Hs) [H1 H2 H3 H4]. split; cbn; [done|..].
  - intros l [b Hb]. specialize (Hs l). rewrite Hb in Hs. apply H2.
    destruct (h_blocks h !! l); [by eexists | done].
  - intros l Hl. destruct (H3 l Hl) as (b & Hb & Hbase). specialize (Hs l). rewrite Hb in Hs.
    destruct (m !! l) as [c|]; [|done]. destruct Hs as (E & _). exists c. split; [done|]. by rewrite E.
  - intros l c Hc. specialize (Hs l). rewrite Hc in Hs. destruct (h_blocks h !! l) as [b|] eqn:E; [|done].
    destruct Hs as (_ & _ & Hs). apply Hs. by apply (H4 l).
Qed.
Lemma queue_relinked ls h h' p fs e : queue h p fs e -> relinked ls h h' ->
  (forall f l, f ∈ fs -> l ∈ f_pbufs f -> l ∉ ls) -> queue h' p fs e.
Proof.
  intros H (m & -> & Hm & _) Hd. eapply queue_same; [exact H|]. intros f l Hf Hl.
  split; [done|]. by apply Hm, (Hd f).
Qed.
Lemma bytes_relinked ls h h' p m d : bytes_at h p m = Some d -> relinked ls h h' ->
  exists d', bytes_at h' p m = Some d' /\ length d' = length d.
Proof.
  intros (blk & Hb & H0 & H1 & H2 & ->)%bytes_at_inv (x & -> & _ & Hs). specialize (Hs (p_loc p)).
  rewrite Hb in Hs. unfold bytes_at. cbn. destruct (x !! p_loc p) as [c|]; [|done].
  destruct Hs as (E1 & E2 & _). cbn. rewrite E1, E2.
  replace ((0 <=? m) && (b_base blk <=? p_off p) && _) with true by in_block.
  eexists. split; [done|]. by rewrite !length_take, !length_drop, E2.
Qed.
(** The pbufs of a packet stay linked whatever is written to them. *)
Lemma packet_relinked ls h h' p ys d : packet h p ys d -> relinked ls h h' ->
  exists d', packet h' p ys d' /\ length d' = length d.
Proof.
  unfold packet. intros H Hr. revert p d H. induction ys as [|y ys IH]; intros p d H.
  - destruct H as [-> ->]. by exists [].
  - destruct H as (-> & b & pt & d1 & d2 & Hb & Hpb & Hd & -> & Ht & H).
    destruct (bytes_relinked _ _ _ _ _ _ Hd Hr) as (e1 & He1 & L1).
    destruct (IH _ _ H) as (e2 & He2 & L2). exists (e1 ++ e2).
    rewrite !length_app in *. split; [|lia]. destruct Hr as (m & -> & _).
    eapply pseg_cons; [exact Hb | exact Hpb | exact He1 | lia | exact He2].
Qed.
(** Freed memory does not show what was written to it. *)
Lemma freed_relinked l ys h h' : relinked [l] h h' -> l ∈ ys -> freed ys None h' = freed ys None h.
Proof.
  intros (m & -> & Hm & _) Hl. unfold freed. cbn. f_equal. apply map_eq. intros k.
  rewrite !deletes_lookup. case_decide as Hk; [done|]. apply Hm. intros ->%list_elem_of_singleton. done.
Qed.

(** Fuel: a queue has no more fragments than there are pbufs. *)
Lemma apart_cons f fs : apart (f :: fs) ->
  apart fs /\ forall g l, g ∈ fs -> l ∈ f_pbufs g -> l ∉ f_pbufs f.
Proof.
  unfold apart. cbn. intros (_ & Hd & Ha)%NoDup_app. split; [done|]. intros g l Hg Hl Hf.
  apply (Hd l Hf). apply list_elem_of_In, in_concat. exists (f_pbufs g).
  split; [apply in_map|]; by apply list_elem_of_In.
Qed.
Lemma queue_in h p fs e f : queue h p fs e -> f ∈ fs -> exists n, frag_at h f n.
Proof.
  revert p. induction fs as [|g fs IH]; intros p; [by intros _ ?%elem_of_nil|].
  intros (_ & n & Hn & H) [->|Hf]%elem_of_cons; [by exists n | by eapply IH].
Qed.
Lemma queue_locs h p fs e : queue h p fs e -> apart fs -> NoDup (map f_loc fs).
Proof.
  revert p. induction fs as [|f fs IH]; intros p H Ha; [constructor|].
  destruct H as (_ & n & Hn & H). apply apart_cons in Ha as [Ha Hd]. constructor; [|by eapply IH].
  intros (g & E & Hg)%list_elem_of_In%in_map_iff. apply list_elem_of_In in Hg.
  destruct (queue_in _ _ _ _ _ H Hg) as [m Hm]. apply (Hd g (f_loc f)); [done | |by eapply fragment_head].
  rewrite <- E. by eapply fragment_head.
Qed.
Lemma queue_fuel h p fs e : queue h p fs e -> apart fs -> (length fs < walk_fuel h)%nat.
Proof.
  intros H Ha. unfold walk_fuel. apply Nat.lt_succ_r. rewrite <- (length_map f_loc).
  apply NoDup_length_size; [by eapply queue_locs|].
  intros l (f & <- & Hf)%list_elem_of_In%in_map_iff. apply list_elem_of_In in Hf.
  destruct (queue_in _ _ _ _ _ H Hf) as [m Hm]. destruct (fa_head _ _ _ Hm) as (b & Hb & _). by eexists.
Qed.
