(* ===== verification/ReassProps.v ===== *)
(** * Placing a fragment (ip_reass_chain_frag_into_datagram_and_validate)

    Where the code puts a fragment, when it refuses it, and when it takes the
    datagram to be complete. *)
From S2P Require Import Prelude Inet Checksum Heap Pbuf PbufSpec PbufProps InetChksum Stack Chains Words Ip Icmp Reass TcpSpec TcpArith IpInProps ReassQueue.
From stdpp Require Import sorting.
#[local] Open Scope string_scope.
#[local] Open Scope list_scope.
#[local] Open Scope Z_scope.

(** ** The decisions, on the list of fragments *)
Definition frag_lt (f g : frag) : Prop := f_start f < f_start g.
#[export] Instance frag_lt_dec f g : Decision (frag_lt f g) := Z_lt_dec _ _.

(** The fragments before and behind the new one. *)
Definition f_before (fs : list frag) (n : frag) : list frag := filter (fun f => frag_lt f n) fs.
Definition f_after (fs : list frag) (n : frag) : list frag := filter (fun f => frag_lt n f) fs.

(** The new fragment starts where one that is there starts or inside it, or,
    if one starts before it, it reaches into one that starts behind it. *)
Definition clash (fs : list frag) (n : frag) : bool :=
  existsb (fun f => (f_start f =? f_start n)
                    || (f_start f <? f_start n) && (f_start n <? f_end f)) fs
  || existsb (fun f => f_start f <? f_start n) fs
     && existsb (fun g => (f_start n <? f_start g) && (f_start g <? f_end n)) fs.

(** Each fragment ends where the next one starts. *)
Fixpoint contig (fs : list frag) : bool :=
  match fs with
  | f :: (g :: _) as gs => (f_end f =? f_start g) && contig gs
  | _ => true
  end.

(** No hole is seen: behind the last fragment the junction with the one before
    is looked at, in the middle it is not. *)
Definition no_hole_seen (fs : list frag) (n : frag) : bool :=
  match f_after fs n with
  | [] => contig (f_before fs n ++ [n])
  | a => contig (f_before fs n) && contig (n :: a)
  end.

Lemma contig_snoc fs f : contig (fs ++ [f])
  = contig fs && match last fs with Some g => f_end g =? f_start f | None => true end.
Proof.
  induction fs as [|g [|g' fs] IH]; [done | cbn; by rewrite andb_true_r |].
  cbn [app contig] in *. rewrite IH. rewrite !last_cons_cons. by rewrite andb_assoc.
Qed.

(** ** Where a sorted list is cut *)
Record cut_at (n : frag) (b a : list frag) : Prop := {
  cut_before : Forall (fun f => f_start f < f_start n /\ f_end f <= f_start n) b;
  cut_after : Forall (fun f => f_start n < f_start f) a
}.
Lemma cut_filters n b a : cut_at n b a -> f_before (b ++ a) n = b /\ f_after (b ++ a) n = a.
Proof.
  intros [Hb Ha]. unfold f_before, f_after. rewrite !filter_app. unfold frag_lt. split.
  - rewrite (filter_id _ b) by (eapply Forall_impl; [exact Hb|]; cbn; lia).
    rewrite (filter_none _ a) by (eapply Forall_impl; [exact Ha|]; cbn; lia). apply app_nil_r.
  - rewrite (filter_none _ b) by (eapply Forall_impl; [exact Hb|]; cbn; lia).
    by rewrite (filter_id _ a) by (eapply Forall_impl; [exact Ha|]; cbn; lia).
Qed.

Lemma existsb_false {A} (f : A -> bool) l : Forall (fun x => f x = false) l -> existsb f l = false.
Proof. induction 1 as [|x l Hx _ IH]; cbn; [done|]. by rewrite Hx. Qed.

(** The collisions of a fragment that starts behind [b], all of which end
    before it, and before [a]. *)
Lemma clash_cut n b a : cut_at n b a -> StronglySorted frag_lt a ->
  clash (b ++ a) n = negb (bool_decide (b = [])) && match a with [] => false | g :: _ => f_start g <? f_end n end.
Proof.
  intros [Hb Ha] Hs. unfold clash. rewrite !existsb_app.
  rewrite (existsb_false (fun f => (_ =? _) || _) b) by (eapply Forall_impl; [exact Hb|]; cbn; lia).
  rewrite (existsb_false (fun f => (_ =? _) || _) a) by (eapply Forall_impl; [exact Ha|]; cbn; lia).
  rewrite (existsb_false (fun f => (f_start f <? f_start n)) a) by (eapply Forall_impl; [exact Ha|]; cbn; lia).
  rewrite (existsb_false (fun g => (_ <? _) && _) b) by (eapply Forall_impl; [exact Hb|]; cbn; lia).
  cbn [orb]. rewrite orb_false_r. f_equal.
  - destruct b as [|f b]; [done|]. rewrite bool_decide_eq_false_2 by done. cbn.
    apply Forall_cons in Hb as [[Hf _] _]. by rewrite (proj2 (Z.ltb_lt _ _) Hf).
  - destruct a as [|g a]; [done|]. cbn. apply Forall_cons in Ha as [Hg Ha].
    rewrite (proj2 (Z.ltb_lt _ _) Hg). cbn [andb]. destruct (Z.ltb_spec (f_start g) (f_end n)); [done|].
    apply existsb_false. apply StronglySorted_inv in Hs as [_ Hs].
    rewrite Forall_forall in Hs, Ha |- *.
    intros x Hx. specialize (Hs x Hx). unfold frag_lt in Hs. lia.
Qed.

(** ** The walk *)
Definition with_rd (l : loc) (r : ip_reassdata) (s : stack) : stack :=
  s <| s_reassdatas := <[l := r]> (s_reassdatas s) |>.
Lemma rd_get_run s l r : s_reassdatas s !! l = Some r -> rd_get l s = Done (r, s).
Proof. unfold rd_get. intros H. rewrite (bind_run _ _ _ s s) by done. by rewrite H. Qed.
Lemma rd_upd_run s l f r : s_reassdatas s !! l = Some r -> rd_upd l f s = Done (tt, with_rd l (f r) s).
Proof. intros H. unfold rd_upd. by erewrite bind_run by by apply rd_get_run. Qed.
Lemma with_rd_id l r s : s_reassdatas s !! l = Some r -> with_rd l r s = s.
Proof. intros H. unfold with_rd. rewrite insert_id by done. by destruct s. Qed.
Lemma rd_head_id (r : ip_reassdata) p : rd_p r = p -> r <| rd_p := p |> = r.
Proof. intros <-. by destruct r. Qed.

(** The link of the fragment just passed. *)
Definition prev_at (h : heap) (pre : list frag) (prev : option ptr) : Prop :=
  match last pre with
  | Some f => exists pt, prev = Some pt /\ at_ptr h f pt
  | None => prev = None
  end.

(** The fragment [n] is in the queue of [ipr], between [b] and [a]. *)
Definition placed (s : stack) (ipr : loc) (r : ip_reassdata) (b : list frag) (n : frag)
    (a : list frag) (s' : stack) : Prop :=
  exists h' p', s' = with_rd ipr (r <| rd_p := p' |>) (with_heap h' s)
    /\ queue h' p' (b ++ n :: a) None /\ apart (b ++ n :: a)
    /\ relinked (map f_loc (b ++ n :: a)) (s_heap s) h'.

Lemma apart_mid b n a : apart (b ++ n :: a) ->
  apart (b ++ a) /\ forall f l, f ∈ b ++ a -> l ∈ f_pbufs f -> l ∉ f_pbufs n.
Proof.
  unfold apart. rewrite !map_app, !concat_app. cbn. intros (Hb & Hd & Hna)%NoDup_app.
  apply NoDup_app in Hna as (Hn & Hd' & Ha). split.
  - apply NoDup_app. split; [done|]. split; [|done]. intros l Hl Hl'. apply (Hd l Hl).
    apply elem_of_app. by right.
  - intros f l Hf Hl Hn'. apply elem_of_app in Hf as [Hf|Hf].
    + apply (Hd l); [|apply elem_of_app; by left].
      apply list_elem_of_In, in_concat. exists (f_pbufs f).
      split; [apply in_map|]; by apply list_elem_of_In.
    + apply (Hd' l Hn'). apply list_elem_of_In, in_concat. exists (f_pbufs f).
      split; [apply in_map|]; by apply list_elem_of_In.
Qed.

(** [n] shares no pbuf with [fs]. *)
Definition away (n : frag) (fs : list frag) : Prop :=
  forall f l, f ∈ fs -> l ∈ f_pbufs f -> l ∉ f_pbufs n.
Lemma apart_app b a : apart (b ++ a) ->
  apart b /\ apart a /\ forall f g l, f ∈ b -> g ∈ a -> l ∈ f_pbufs f -> l ∉ f_pbufs g.
Proof.
  unfold apart. rewrite map_app, concat_app. intros (Hb & Hd & Ha)%NoDup_app.
  split; [done|]. split; [done|]. intros f g l Hf Hg Hlf Hlg.
  apply (Hd l); apply list_elem_of_In, in_concat; [exists (f_pbufs f)|exists (f_pbufs g)].
  all: split; [apply in_map|]; by apply list_elem_of_In.
Qed.

Lemma apart_insert b n a : apart (b ++ a) -> away n (b ++ a) -> NoDup (f_pbufs n) -> apart (b ++ n :: a).
Proof.
  unfold apart. rewrite !map_app, !concat_app. cbn. intros (Hb & Hd & Ha)%NoDup_app Haw Hn.
  assert (Hin : forall l fs, l ∈ concat (map f_pbufs fs) -> exists f, f ∈ fs /\ l ∈ f_pbufs f).
  { intros l fs (xs & (f & <- & Hf)%in_map_iff & Hx)%list_elem_of_In%in_concat.
    exists f. split; by apply list_elem_of_In. }
  apply NoDup_app. split; [done|]. split.
  - intros l Hl [Hln|Hla]%elem_of_app; [|by apply (Hd l)].
    destruct (Hin _ _ Hl) as (f & Hf & Hlf). apply (Haw f l); [by apply elem_of_app; left | done..].
  - apply NoDup_app. split; [done|]. split; [|done]. intros l Hl Hla.
    destruct (Hin _ _ Hla) as (f & Hf & Hlf). apply (Haw f l); [by apply elem_of_app; right | done..].
Qed.
Lemma frag_NoDup h n m : frag_at h n m -> NoDup (f_pbufs n).
Proof. intros [H _ _ _ _ _ _]. by eapply pseg_last_none. Qed.

Lemma queue_insert h p b f n a ph :
  queue h p ((b ++ [f]) ++ a) None -> at_ptr h f ph -> apart ((b ++ [f]) ++ a) ->
  away n ((b ++ [f]) ++ a) -> frag_at h n (f_head a None) ->
  queue (relink ph (Some (f_loc n)) h) p ((b ++ [f]) ++ n :: a) None.
Proof.
  intros [H1 H2]%queue_app Hph (Hb & _ & Hba)%apart_app Haw Hn.
  pose proof H1 as [_ (_ & nf & Hf & _)]%queue_app.
  destruct (helper_at _ _ _ _ Hf Hph) as [Hl _]. pose proof (fragment_head _ _ _ Hf) as Hfl.
  assert (Hfb : f ∈ b ++ [f]) by (apply elem_of_app; right; by left).
  apply queue_app. split; [by eapply queue_relink_last|].
  split; [done|]. exists (f_head a None). split.
  - apply frag_at_relink_other; [done|]. rewrite Hl. apply (Haw f); [|done]. by apply elem_of_app; left.
  - apply queue_relink_other; [done|]. intros g Hg. rewrite Hl. by apply (Hba f g).
Qed.

Section walk.
Context (ipr : loc) (n : frag) (npt : ptr).

Record walking (s : stack) (r : ip_reassdata) (pre todo : list frag) : Prop := {
  wk_rd : s_reassdatas s !! ipr = Some r;
  wk_queue : queue (s_heap s) (rd_p r) (pre ++ todo) None;
  wk_new : exists m, frag_at (s_heap s) n m;
  wk_ptr : at_ptr (s_heap s) n npt;
  wk_apart : apart (pre ++ todo);
  wk_away : away n (pre ++ todo);
  wk_sorted : StronglySorted frag_lt (pre ++ todo);
  wk_pre : Forall (fun f => f_start f < f_start n /\ f_end f <= f_start n) pre
}.

(** Linking the new fragment to the rest. *)
Lemma walking_link s r pre todo v :
  walking s r pre todo ->
  helper_set_next npt v s = Done (tt, with_heap (relink npt v (s_heap s)) s)
  /\ walking (with_heap (relink npt v (s_heap s)) s) r pre todo
  /\ frag_at (relink npt v (s_heap s)) n v /\ p_loc npt = f_loc n.
Proof.
  intros [H1 H2 [m H3] H4 H5 H6 H7 H8]. destruct (helper_at _ _ _ _ H3 H4) as [Hl _].
  pose proof (frag_at_relink _ _ _ _ v H3 H4) as Hn.
  split; [by eapply helper_set_next_run|]. split; [|done]. split; try done.
  - apply queue_relink_other; [done|]. intros f Hf Hin. rewrite Hl in Hin.
    apply (H6 f (f_loc n) Hf Hin). by eapply fragment_head.
  - by exists v.
  - by apply at_ptr_relink.
Qed.
(** Linking it to what is before it. *)
Lemma accept_behind s r pre f todo ph :
  walking s r (pre ++ [f]) todo -> at_ptr (s_heap s) f ph -> frag_at (s_heap s) n (f_head todo None) ->
  exists s', helper_set_next ph (Some (f_loc n)) s = Done (tt, s')
    /\ placed s ipr r (pre ++ [f]) n todo s'.
Proof.
  intros [H1 H2 _ _ H5 H6 _ _] Hph Hn.
  pose proof H2 as [[_ (_ & nf & Hf & _)]%queue_app _]%queue_app.
  exists (with_heap (relink ph (Some (f_loc n)) (s_heap s)) s).
  split; [by eapply helper_set_next_run|]. exists (relink ph (Some (f_loc n)) (s_heap s)), (rd_p r).
  rewrite rd_head_id by done. split; [by rewrite with_rd_id|]. split; [by apply queue_insert|].
  split; [apply apart_insert; [done..|by eapply frag_NoDup]|].
  eapply relinked_mono; [by eapply relink_relinked|]. destruct (helper_at _ _ _ _ Hf Hph) as [-> _].
  rewrite !map_app. cbn. set_solver.
Qed.

Lemma accept_first s r todo : walking s r [] todo -> frag_at (s_heap s) n (f_head todo None) ->
  placed s ipr r [] n todo (with_rd ipr (r <| rd_p := Some (f_loc n) |>) s).
Proof.
  intros [H1 H2 _ _ H5 H6 _ _] Hn. exists (s_heap s), (Some (f_loc n)). rewrite with_heap_id.
  split; [done|]. split; [|split; [|apply relinked_refl]].
  2:{ apply apart_insert; [done..|by eapply frag_NoDup]. }
  split; [done|]. exists (f_head todo None). split; [done|]. cbn [app] in H2. by rewrite (queue_head _ _ _ _ H2) in H2.
Qed.

Lemma placed_later s r pre todo h1 s' :
  relinked [f_loc n] (s_heap s) h1 -> placed (with_heap h1 s) ipr r pre n todo s' ->
  placed s ipr r pre n todo s'.
Proof.
  intros Hr (h' & p' & -> & Hq & Ha & Hr'). exists h', p'. do 3 (split; [done|]).
  eapply relinked_trans; [|exact Hr']. eapply relinked_mono; [exact Hr|].
  rewrite map_app. cbn. set_solver.
Qed.

Lemma prev_cases h pre prev : prev_at h pre prev ->
  (pre = [] /\ prev = None) \/ exists pre' f ph, pre = pre' ++ [f] /\ prev = Some ph /\ at_ptr h f ph.
Proof.
  unfold prev_at. destruct pre as [|f pre _] using rev_ind; [by left|]. rewrite last_snoc.
  intros (ph & -> & H). right. by exists pre, f, ph.
Qed.
(** What the walk has seen of holes when it stops. *)
Definition seen_valid (b a : list frag) : bool :=
  match a with [] => contig (b ++ [n]) | _ => contig b end.

Definition place_result (s : stack) (r : ip_reassdata) (fs : list frag) (m : M stack (option bool)) : Prop :=
  if clash fs n
  then exists h', m s = Done (None, with_heap h' s) /\ relinked [f_loc n] (s_heap s) h'
  else exists s', m s = Done (Some (seen_valid (f_before fs n) (f_after fs n)), s')
    /\ f_before fs n ++ f_after fs n = fs /\ placed s ipr r (f_before fs n) n (f_after fs n) s'.

(** The place is before [todo]. *)
Lemma place_result_cut s r b a m : cut_at n b a -> StronglySorted frag_lt a ->
  (if negb (bool_decide (b = [])) && match a with [] => false | g :: _ => f_start g <? f_end n end
   then exists h', m s = Done (None, with_heap h' s) /\ relinked [f_loc n] (s_heap s) h'
   else exists s', m s = Done (Some (seen_valid b a), s') /\ placed s ipr r b n a s') ->
  place_result s r (b ++ a) m.
Proof.
  intros Hc Ha. unfold place_result. rewrite (clash_cut _ _ _ Hc Ha).
  destruct (cut_filters _ _ _ Hc) as [-> ->]. destruct (_ && _); [done|].
  intros (s' & E & Hp). by exists s'.
Qed.

Lemma place_end s r pre prev : walking s r pre [] -> prev_at (s_heap s) pre prev ->
  frag_at (s_heap s) n None ->
  place_result s r (pre ++ [])
    (place_frag 0 ipr (f_loc n) npt (f_start n) (f_end n) None prev (contig pre)).
Proof.
  intros H Hprev Hn. apply place_result_cut; [split; [apply H | constructor] | constructor |].
  rewrite andb_false_r. cbn [place_frag].
  apply prev_cases in Hprev as [[-> ->] | (pre' & f & ph & -> & -> & Hph)].
  - run_with (rd_get_run _ _ _ (wk_rd _ _ _ _ H)).
    pose proof (queue_head _ _ _ _ (wk_queue _ _ _ _ H)) as Hp. cbn in Hp. rewrite Hp.
    run_assert. eexists. split; [reflexivity|]. by apply accept_first.
  - pose proof (wk_queue _ _ _ _ H) as [[_ (_ & nf & Hf & _)]%queue_app _]%queue_app.
    run_with (helper_end_run _ _ _ _ Hf Hph).
    pose proof (wk_pre _ _ _ _ H) as [_ [[_ Hfe] _]%Forall_cons]%Forall_app.
    rewrite (proj2 (Z.leb_le _ _) Hfe). run_assert.
    destruct (accept_behind _ _ _ _ _ _ H Hph Hn) as (s' & E & Hs). run_with E.
    exists s'. split; [|done]. unfold seen_valid. by rewrite (contig_snoc _ n), last_snoc.
Qed.

(** The place is right before [f]. *)
Lemma place_here fuel s r pre prev f todo : walking s r pre (f :: todo) ->
  prev_at (s_heap s) pre prev -> f_start n < f_start f ->
  place_result s r (pre ++ f :: todo)
    (place_frag (S fuel) ipr (f_loc n) npt (f_start n) (f_end n) (Some (f_loc f)) prev (contig pre)).
Proof.
  intros H Hprev Hlt. pose proof (StronglySorted_app_1_r _ _ _ (wk_sorted _ _ _ _ H)) as Hs.
  apply place_result_cut; [|done|].
  { split; [apply H|]. apply StronglySorted_inv in Hs as [_ Hs]. constructor; [done|].
    rewrite Forall_forall in Hs |- *. intros x Hx%Hs. unfold frag_lt in Hx. lia. }
  pose proof (wk_queue _ _ _ _ H) as [_ (_ & nf & Hf & _)]%queue_app.
  destruct (at_ptr_ex _ _ _ Hf) as [tmp Htmp]. cbn [place_frag].
  run_with (payload_of_run _ _ _ Htmp). run_with (helper_start_run _ _ _ _ Hf Htmp).
  rewrite (proj2 (Z.ltb_lt _ _) Hlt).
  destruct (walking_link _ _ _ _ (Some (f_loc f)) H) as (E1 & H1 & Hn & Hl). run_with E1.
  set (s1 := with_heap _ s) in *.
  assert (Hrl : relinked [f_loc n] (s_heap s) (s_heap s1)).
  { rewrite <- Hl. destruct (wk_new _ _ _ _ H) as [m Hm]. eapply relink_relinked; [exact Hm | apply H]. }
  apply prev_cases in Hprev as [[-> ->] | (pre' & f' & ph & -> & -> & Hph)]; cbn [negb bool_decide andb].
  - run_with (rd_upd_run _ _ (fun r => r <| rd_p := Some (f_loc n) |>) _ (wk_rd _ _ _ _ H1)).
    eexists. split; [reflexivity|]. eapply placed_later; [exact Hrl|]. by apply accept_first.
  - rewrite bool_decide_eq_false_2 by (by destruct pre'). cbn [negb andb].
    pose proof (wk_queue _ _ _ _ H1) as [[_ (_ & nf' & Hf' & _)]%queue_app _]%queue_app.
    assert (Hph1 : at_ptr (s_heap s1) f' ph) by (by apply at_ptr_relink).
    run_with (helper_end_run _ _ _ _ Hf' Hph1).
    pose proof (wk_pre _ _ _ _ H) as [_ [[_ Hfe] _]%Forall_cons]%Forall_app.
    rewrite (proj2 (Z.ltb_ge _ _) Hfe). cbn [orb].
    destruct (f_start f <? f_end n); [by exists (s_heap s1)|].
    destruct (accept_behind _ _ _ _ _ _ H1 Hph1 Hn) as (s' & E & Hs'). run_with E.
    exists s'. split; [done|]. by eapply placed_later.
Qed.

Lemma clash_with fs f : f ∈ fs -> f_start f = f_start n \/ f_start f < f_start n < f_end f ->
  clash fs n = true.
Proof.
  intros Hf Hc. unfold clash. apply orb_true_intro. left. apply existsb_exists.
  exists f. split; [by apply list_elem_of_In|]. lia.
Qed.

(** One turn of the walk: [f] stops the fragment, or is behind the walk now. *)
Lemma place_turn fuel s r pre prev f todo : walking s r pre (f :: todo) ->
  prev_at (s_heap s) pre prev -> frag_at (s_heap s) n None ->
  let m := place_frag (S fuel) ipr (f_loc n) npt (f_start n) (f_end n) (Some (f_loc f)) prev (contig pre) in
  place_result s r (pre ++ f :: todo) m
  \/ exists tmp, walking s r (pre ++ [f]) todo /\ prev_at (s_heap s) (pre ++ [f]) (Some tmp)
     /\ m s = place_frag fuel ipr (f_loc n) npt (f_start n) (f_end n) (f_head todo None) (Some tmp)
                (contig (pre ++ [f])) s.
Proof.
  intros H Hprev Hn m. destruct (Z.lt_ge_cases (f_start n) (f_start f)) as [Hlt|Hge];
    [left; by apply place_here|].
  pose proof (wk_queue _ _ _ _ H) as [_ (_ & nf & Hf & Hq)]%queue_app.
  destruct (at_ptr_ex _ _ _ Hf) as [tmp Htmp].
  assert (Hin : f ∈ pre ++ f :: todo) by (apply elem_of_app; right; by left).
  assert (Hstop : f_start f = f_start n \/ f_start f < f_start n < f_end f ->
    m s = Done (None, s) -> place_result s r (pre ++ f :: todo) m).
  { intros Hc E. unfold place_result. rewrite (clash_with _ _ Hin Hc). exists (s_heap s).
    split; [by rewrite with_heap_id | apply relinked_refl]. }
  subst m. cbn [place_frag]. cbn [place_frag] in Hstop.
  rewrite (bind_run _ _ _ _ _ (payload_of_run _ _ _ Htmp)) in Hstop |- *.
  rewrite (bind_run _ _ _ _ _ (helper_start_run _ _ _ _ Hf Htmp)) in Hstop |- *.
  rewrite (proj2 (Z.ltb_ge _ _) Hge) in Hstop |- *.
  destruct (Z.eqb_spec (f_start n) (f_start f)) as [He|Hne]; [left; apply Hstop; [by left | done]|].
  rewrite (bind_run _ _ _ _ _ (helper_end_run _ _ _ _ Hf Htmp)) in Hstop |- *.
  destruct (Z.ltb_spec (f_start n) (f_end f)); [left; apply Hstop; [right; lia | done]|].
  clear Hstop. right. exists tmp.
  assert (Hw : walking s r (pre ++ [f]) todo).
  { destruct H as [H1 H2 H3 H4 H5 H6 H7 H8]. split; try (by rewrite <- app_assoc); try done.
    apply Forall_app. split; [done|]. constructor; [lia | constructor]. }
  split; [done|]. split; [unfold prev_at; rewrite last_snoc; by exists tmp|].
  rewrite (queue_head _ _ _ _ Hq) in Hf.
  assert (Hfit : fits (f_head todo None)) by (rewrite <- (queue_head _ _ _ _ Hq); by eapply queue_fits).
  erewrite bind_run; [run_with (helper_next_run _ _ _ _ Hf Htmp Hfit); reflexivity|].
  rewrite contig_snoc. apply prev_cases in Hprev as [[-> ->] | (pre' & f' & ph & -> & -> & Hph)]; [done|].
  rewrite last_snoc. pose proof (wk_queue _ _ _ _ H) as [[_ (_ & nf' & Hf' & _)]%queue_app _]%queue_app.
  by run_with (helper_end_run _ _ _ _ Hf' Hph).
Qed.

Lemma place_frag_run todo fuel s r pre prev : walking s r pre todo -> prev_at (s_heap s) pre prev ->
  frag_at (s_heap s) n None -> (length todo <= fuel)%nat ->
  place_result s r (pre ++ todo)
    (place_frag fuel ipr (f_loc n) npt (f_start n) (f_end n) (f_head todo None) prev (contig pre)).
Proof.
  revert fuel pre prev. induction todo as [|f todo IH]; intros fuel pre prev H Hprev Hn Hf.
  - pose proof (place_end _ _ _ _ H Hprev Hn) as E. by destruct fuel.
  - destruct fuel as [|fuel]; [cbn in Hf; lia|].
    destruct (place_turn fuel s r pre prev f todo H Hprev Hn) as [Hr | (tmp & H' & Hp' & E)]; [exact Hr|].
    cbn in Hf. specialize (IH fuel _ _ H' Hp' Hn ltac:(lia)).
    rewrite <- app_assoc in IH. unfold place_result in *. cbn [f_head]. by rewrite E.
Qed.
End walk.

(** ** Is the datagram complete? *)
Lemma no_holes_run s fs f pt fuel : queue (s_heap s) (Some (f_loc f)) (f :: fs) None ->
  at_ptr (s_heap s) f pt -> (length fs < fuel)%nat ->
  exists q, no_holes fuel pt s = Done ((contig (f :: fs), q), s)
    /\ (contig (f :: fs) = true -> exists l, last (f :: fs) = Some l /\ at_ptr (s_heap s) l q).
Proof.
  revert f pt fuel. induction fs as [|g fs IH]; intros f pt fuel H Hpt Hf;
    (destruct fuel as [|fuel]; [cbn in Hf; lia|]); cbn [no_holes];
    pose proof H as (_ & n & Hn & Hq); pose proof (queue_fits _ _ _ Hq) as Hfit;
    run_with (helper_next_run _ _ _ _ Hn Hpt Hfit); rewrite (queue_head _ _ _ _ Hq) in Hq |- *; cbn [f_head] in *.
  - exists pt. split; [done|]. intros _. by exists f.
  - run_with (helper_end_run _ _ _ _ Hn Hpt). pose proof Hq as (_ & m & Hm & _).
    destruct (at_ptr_ex _ _ _ Hm) as [qt Hqt]. run_with (payload_of_run _ _ _ Hqt).
    run_with (helper_start_run _ _ _ _ Hm Hqt). cbn [contig].
    destruct (f_end f =? f_start g); [|by exists qt].
    cbn [andb]. destruct (IH g qt fuel Hq Hqt ltac:(cbn in Hf; lia)) as (q & E & Hl).
    exists q. split; [exact E|]. rewrite last_cons_cons. exact Hl.
Qed.

(** The state but for the log of assertions. *)
Definition with_log (log : list string) (s : stack) : stack :=
  with_heap (Heap (h_blocks (s_heap s)) (h_pbufs (s_heap s)) (h_next (s_heap s))
               (h_nalloc (s_heap s)) (h_env (s_heap s)) log) s.
Lemma with_log_id s : with_log (h_asserts (s_heap s)) s = s.
Proof. unfold with_log. destruct s as [h]. by destruct h. Qed.
Lemma ASSERT_run m b s : exists log, ASSERT m b s = Done (tt, with_log log s)
  /\ (b = true -> log = h_asserts (s_heap s)).
Proof.
  destruct b.
  - exists (h_asserts (s_heap s)). rewrite with_log_id. split; [apply ASSERT_true | done].
  - exists (m :: h_asserts (s_heap s)). split; [|done]. by destruct s as [h].
Qed.

Lemma frag_at_log log s f m : frag_at (s_heap s) f m -> frag_at (s_heap (with_log log s)) f m.
Proof. intros H. by eapply frag_at_same. Qed.

(** The assertions about the last fragment. *)
Lemma complete_asserts s fh r l q :
  frag_at (s_heap s) l None -> at_ptr (s_heap s) l q -> is_some (rd_p r) = true ->
  exists log, (ASSERT "sanity check" (is_some (rd_p r));;
      ASSERT "sanity check" (negb (bool_decide (fh = q)));;
      next ← helper_next q;
      ASSERT "validate_datagram:next_pbuf!=NULL" (negb (is_some next));;
      e ← helper_end q;
      ASSERT "validate_datagram:datagram end!=datagram len" (e =? rd_datagram_len r);;
      mret true) s = Done (true, with_log log s)
    /\ (fh <> q -> f_end l = rd_datagram_len r -> log = h_asserts (s_heap s)).
Proof.
  intros Hl Hq ->. run_assert.
  destruct (ASSERT_run "sanity check" (negb (bool_decide (fh = q))) s) as (log & E & Hlog). run_with E.
  run_with (helper_next_run _ _ _ _ (frag_at_log log _ _ _ Hl) Hq I). run_assert.
  run_with (helper_end_run _ _ _ _ (frag_at_log log _ _ _ Hl) Hq).
  destruct (ASSERT_run "validate_datagram:datagram end!=datagram len"
              (f_end l =? rd_datagram_len r) (with_log log s)) as (log' & E' & Hlog'). run_with E'.
  exists log'. split; [done|]. intros Hne He. rewrite Hlog' by (by apply Z.eqb_eq).
  rewrite Hlog; [done|]. by rewrite bool_decide_eq_false_2.
Qed.

Definition starts_at_0 (fs : list frag) : bool := match fs with f :: _ => f_start f =? 0 | [] => false end.

Lemma frags_complete_run s ipr r b n a npt :
  s_reassdatas s !! ipr = Some r -> queue (s_heap s) (rd_p r) (b ++ n :: a) None ->
  apart (b ++ n :: a) -> at_ptr (s_heap s) n npt ->
  exists log, frags_complete ipr npt s
      = Done (starts_at_0 (b ++ n :: a) && contig (n :: a), with_log log s)
    /\ (b ++ a <> [] -> (forall l, last (n :: a) = Some l -> f_end l = rd_datagram_len r) ->
        log = h_asserts (s_heap s)).
Proof.
  intros Hr Hq Ha Hpt. unfold frags_complete. run_with (rd_get_run _ _ _ Hr).
  pose proof Hq as [_ Hqn]%queue_app. cbn [f_head] in Hqn.
  pose proof (queue_locs _ _ _ _ Hq Ha) as Hnd.
  pose proof (queue_fuel _ _ _ _ Hq Ha) as Hfuel. rewrite length_app in Hfuel. cbn in Hfuel.
  assert (exists f fs, b ++ n :: a = f :: fs) as (f & fs & E) by (destruct b; by eexists _, _).
  rewrite E in Hq |- *. pose proof (queue_head _ _ _ _ Hq) as Hp. cbn [f_head] in Hp.
  destruct Hq as (_ & m & Hm & _). destruct (at_ptr_ex _ _ _ Hm) as [fh Hfh].
  rewrite Hp. rewrite (bind_run _ _ _ (f_loc f) s) by done. run_with (payload_of_run _ _ _ Hfh).
  run_with (helper_start_run _ _ _ _ Hm Hfh). cbn [starts_at_0].
  destruct (f_start f =? 0); cbn [negb andb]; [|exists (h_asserts (s_heap s)); by rewrite with_log_id].
  rewrite (bind_run _ _ _ s s) by done.
  destruct (no_holes_run s a n npt (walk_fuel (s_heap s)) Hqn Hpt ltac:(lia)) as (q & E1 & Hlast). run_with E1.
  destruct (contig (n :: a)); [|exists (h_asserts (s_heap s)); by rewrite with_log_id].
  destruct (Hlast eq_refl) as (l & Hl & Hlq). apply last_Some in Hl as [a' Ea].
  rewrite Ea in Hqn. apply queue_app in Hqn as [_ (_ & ml & Hml & Heml)]. cbn in Heml. subst ml.
  destruct (complete_asserts s fh r l q Hml Hlq) as (log & E2 & Hlog); [by rewrite Hp|].
  rewrite Hp in E2. exists log. split; [exact E2|]. intros Hne Hend. apply Hlog.
  - intros ->. destruct (helper_at _ _ _ _ Hm Hfh) as [H1 _].
    destruct (helper_at _ _ _ _ Hml Hlq) as [H2 _]. rewrite H1 in H2.
    rewrite Ea in E, Hnd. rewrite app_assoc in E, Hnd. rewrite map_app in Hnd.
    apply NoDup_app in Hnd as (_ & Hd & _). destruct (b ++ a') as [|x xs] eqn:Eb.
    + apply app_eq_nil in Eb as [-> ->]. cbn in Ea. injection Ea as _ ->. done.
    + injection E as -> _. apply (Hd (f_loc f)); [by left|]. rewrite H2. by left.
  - apply Hend. rewrite Ea. apply last_snoc.
Qed.

(** ** A fragment arrives *)

(** The packet [p] that holds [d], with its header at [pt]. *)
Record arrives (h : heap) (p : loc) (ys : list loc) (d : list Z) (pt : ptr) : Prop := {
  ar_packet : packet h (Some p) ys d;
  ar_own : own h ys;
  ar_refs : refs_one (h_pbufs h) ys;
  ar_head : exists b, h_pbufs h !! p = Some b /\ pb_payload b = Some pt /\ 20 <= pb_len b;
  ar_fits : Zpos p < 2 ^ 32
}.

(** The bytes of the datagram it carries, by its header. *)
Definition frag_off (d : list Z) : Z := u16 (Z.land (ntohs (hdr16 d 6)) IP_OFFMASK * 8).
Definition frag_len (d : list Z) : Z := u16 (ntohs (hdr16 d 2) - hdr_hl d * 4).
Definition new_frag (p : loc) (ys : list loc) (d : list Z) : frag :=
  Frag p ys (frag_off d) (u16 (frag_off d + frag_len d)) (drop 8 d).

Lemma head_in h p ys d pt : arrives h p ys d pt -> p ∈ ys /\ p_loc pt = p.
Proof.
  intros [H Ho _ (b & Hb & Hpt & _) _]. destruct (packet_head _ _ _ _ H) as (_ & _ & _ & _ & _ & Hh).
  destruct ys as [|y ys]; [done|]. injection Hh as ->. split; [by left|]. eapply Ho; [by left | done..].
Qed.

Lemma arrives_bytes h p ys d pt : arrives h p ys d pt ->
  bytes_at h pt 20 = Some (take 20 d) /\ (20 <= length d)%nat.
Proof.
  intros [H Ho _ (b & Hb & Hpt & Hl) _]. destruct ys as [|y ys]; [by destruct H|].
  destruct H as ([= Ey] & b' & pt' & d1 & d2 & Hb' & (Hpt' & _) & Hd & -> & _). rewrite Ey in *.
  assert (b' = b) as -> by congruence. assert (pt' = pt) as -> by congruence.
  pose proof (bytes_at_length _ _ _ _ Hd) as Hlen. rewrite length_app. split; [|lia].
  apply (bytes_at_split _ _ _ 20) in Hd as [Hd _]; [|lia]. by rewrite Hd, take_app_le by lia.
Qed.

Lemma arrives_slice h p ys d pt k m : arrives h p ys d pt -> (k + m <= 20)%nat ->
  bytes_at h (ptr_add pt (Z.of_nat k)) (Z.of_nat m) = Some (take m (drop k d)).
Proof.
  intros Ha Hk. destruct (arrives_bytes _ _ _ _ _ Ha) as [H Hl].
  apply (bytes_at_slice _ _ _ _ (Z.of_nat k) (Z.of_nat m)) in H; [|lia..].
  rewrite !Nat2Z.id in H. rewrite H. f_equal. rewrite skipn_firstn_comm, take_take. f_equal. lia.
Qed.

Lemma arrives_poke h p ys d pt k bs : arrives h p ys d pt -> (k + length bs <= 20)%nat -> bytes_ok bs ->
  arrives (poke (ptr_add pt (Z.of_nat k)) bs h) p ys (splice k bs d) pt
  /\ relinked [p] h (poke (ptr_add pt (Z.of_nat k)) bs h).
Proof.
  intros Ha Hk Hbs. destruct (head_in _ _ _ _ _ Ha) as [_ Hl].
  pose proof (arrives_slice _ _ _ _ _ k (length bs) Ha Hk) as Hst. destruct Ha as [H Ho Hr (b & Hb & Hpt & Hlen) Hf].
  split; [split|].
  - eapply packet_poke; [done..|lia].
  - intros l b' q. rewrite poke_pbufs. apply Ho.
  - by rewrite poke_pbufs.
  - exists b. by rewrite poke_pbufs.
  - done.
  - rewrite <- Hl. by eapply (relinked_poke (ptr_add pt (Z.of_nat k))); [exact Hst|].
Qed.

Lemma arrives_put s p ys d pt k bs : arrives (s_heap s) p ys d pt -> (k + length bs <= 20)%nat ->
  hp (store (ptr_add pt (Z.of_nat k)) bs) s
  = Done (tt, with_heap (poke (ptr_add pt (Z.of_nat k)) bs (s_heap s)) s).
Proof. intros Ha Hk. eapply hp_run, store_run, arrives_slice; [exact Ha | done]. Qed.

Lemma hdr16_take d k : (k + 2 <= 20)%nat -> hdr16 (take 20 d) k = hdr16 d k.
Proof.
  intros Hk. unfold hdr16. rewrite !nth_firstn.
  by rewrite (proj2 (Nat.ltb_lt k 20)), (proj2 (Nat.ltb_lt (S k) 20)) by lia.
Qed.
Lemma hdr32_take d k : (k + 4 <= 20)%nat -> hdr32 (take 20 d) k = hdr32 d k.
Proof. intros Hk. unfold hdr32. by rewrite !hdr16_take by lia. Qed.

(** What the code reads of the header. *)
Lemma arrives_fields s p ys d pt : arrives (s_heap s) p ys d pt -> h_ok (s_heap s) ->
  IPH_HL pt s = Done (hdr_hl d, s) /\ get16 (iph_len pt) s = Done (hdr16 d 2, s)
  /\ get16 (iph_offset pt) s = Done (hdr16 d 6, s).
Proof.
  intros H Hok. destruct (arrives_bytes _ _ _ _ _ H) as [Hd Hl].
  pose proof (bytes_at_ok _ _ _ _ Hok Hd) as Hb.
  assert (L : length (take 20 d) = 20%nat) by (rewrite length_take; lia).
  assert (Hd' : bytes_at (s_heap s) pt (Z.of_nat (length (take 20 d))) = Some (take 20 d)) by (by rewrite L).
  destruct (IPH_runs _ _ _ Hd' ltac:(lia) Hb) as (_ & R2 & R3 & R4 & _).
  rewrite !hdr16_take in R3, R4 by lia. split; [|done]. rewrite R2. unfold hdr_hl.
  by rewrite nth_firstn.
Qed.

(** The helper structure is written over the header. *)
Lemma write_helper_run s p ys d pt : arrives (s_heap s) p ys d pt ->
  exists h1, (forall A (k : M stack A),
      (helper_set_next pt None;; helper_set_start pt (frag_off d);;
       helper_set_end pt (u16 (frag_off d + frag_len d));; k) s = k (with_heap h1 s))
    /\ frag_at h1 (new_frag p ys d) None /\ at_ptr h1 (new_frag p ys d) pt
    /\ relinked [p] (s_heap s) h1.
Proof.
  intros H0. destruct (arrives_bytes _ _ _ _ _ H0) as [_ Hlen].
  destruct (arrives_poke _ _ _ _ _ 0 (le32 0) H0 ltac:(cbn; lia) (le32_ok 0)) as [H1 R1].
  set (h1 := poke (ptr_add pt (Z.of_nat 0)) (le32 0) (s_heap s)) in *.
  assert (Hok16 : forall v, bytes_ok (le16 v)) by (intros v; repeat (constructor; [apply u8_range|]); constructor).
  destruct (arrives_poke _ _ _ _ _ 4 (le16 (frag_off d)) H1 ltac:(cbn; lia) (Hok16 _)) as [H2 R2].
  set (h2 := poke (ptr_add pt (Z.of_nat 4)) (le16 (frag_off d)) h1) in *.
  set (e := u16 (frag_off d + frag_len d)).
  destruct (arrives_poke _ _ _ _ _ 6 (le16 e) H2 ltac:(cbn; lia) (Hok16 _)) as [H3 R3].
  set (h3 := poke (ptr_add pt (Z.of_nat 6)) (le16 e) h2) in *.
  exists h3. split; [|split; [|split]].
  - intros A k. unfold helper_set_next, helper_set_start, helper_set_end.
    assert (E1 : put32 pt (ptr_word None) s = Done (tt, with_heap h1 s)).
    { rewrite <- (ptr_add_0 pt) at 1. exact (arrives_put s _ _ _ _ 0 (le32 0) H0 ltac:(cbn; lia)). }
    assert (E2 : put16 (ptr_add pt 4) (frag_off d) (with_heap h1 s) = Done (tt, with_heap h2 s))
      by exact (arrives_put (with_heap h1 s) _ _ _ _ 4 (le16 (frag_off d)) H1 ltac:(cbn; lia)).
    assert (E3 : put16 (ptr_add pt 6) e (with_heap h2 s) = Done (tt, with_heap h3 s))
      by exact (arrives_put (with_heap h2 s) _ _ _ _ 6 (le16 e) H2 ltac:(cbn; lia)).
    run_with E1. run_with E2. by run_with E3.
  - destruct H3 as [Hp Ho Hr (b & Hb & Hpt & Hl) Hf]. split; cbn [new_frag f_loc f_pbufs f_start f_end f_body];
      [|done..|by exists b|apply u16_range|apply u16_range|done].
    do 8 (destruct d as [|? d]; [cbn in Hlen; lia|]). exact Hp.
  - destruct H3 as [_ _ _ (b & Hb & Hpt & _) _]. by exists b.
  - eapply relinked_trans; [exact R1|]. by eapply relinked_trans.
Qed.

Lemma clen_loop_run h fuel p ls c : links (h_pbufs h) p ls None -> (length ls <= fuel)%nat -> is_u8 c ->
  pbuf_clen_loop fuel p c h = Done (u8 (c + Z.of_nat (length ls)), h).
Proof.
  revert fuel p c. induction ls as [|l ls IH]; intros fuel p c H Hf Hc.
  - cbn in H. subst p. cbn [length]. rewrite Z.add_0_r, u8_small by done. by destruct fuel.
  - destruct H as (-> & b & Hb & H). destruct fuel as [|fuel]; [cbn in Hf; lia|]. cbn [pbuf_clen_loop].
    run_with (pget_run _ _ _ Hb). rewrite IH; [|done|cbn in Hf; lia|apply u8_range].
    do 2 f_equal. cbn [length]. unfold u8. rewrite Zplus_mod_idemp_l. f_equal. lia.
Qed.
Definition clen (ys : list loc) : Z := u8 (Z.of_nat (length ys)).
Lemma pbuf_clen_run s p ys d : packet (s_heap s) (Some p) ys d ->
  hp (pbuf_clen (Some p)) s = Done (clen ys, s).
Proof.
  intros H. rewrite <- (with_heap_id s) at 2. apply hp_run. unfold pbuf_clen.
  rewrite (bind_run _ _ _ (s_heap s) (s_heap s)) by done.
  rewrite (clen_loop_run _ _ _ ys); [done | by eapply pseg_links | | by vm_compute].
  pose proof (packet_fuel _ _ _ _ H). lia.
Qed.

Definition add_count (d : Z) (s : stack) : stack :=
  s <| s_reass := (s_reass s) <| ip_reass_pbufcount := u16 (ip_reass_pbufcount (s_reass s) + d) |> |>.
Definition last_seen (r : ip_reassdata) : bool := negb (Z.land (rd_flags r) IP_REASS_FLAG_LASTFRAG =? 0).

(** The verdict on the datagram with the fragments [fs] and [n]. *)
Definition complete (r : ip_reassdata) (fs : list frag) (n : frag) : bool :=
  last_seen r && (starts_at_0 (f_before fs n ++ n :: f_after fs n) && no_hole_seen fs n).

(** Nothing odd about the end: there are two fragments or more, and the one
    behind which there is none ends where the last one was announced to end. *)
Definition plausible (r : ip_reassdata) (b : list frag) (n : frag) (a : list frag) : Prop :=
  b ++ a <> [] /\ forall l, last (n :: a) = Some l -> f_end l = rd_datagram_len r.

Section chain_frag.
Context (s : stack) (ipr : loc) (r : ip_reassdata) (fs : list frag).
Context (p : loc) (ys : list loc) (d : list Z) (pt : ptr).
Context (Hr : s_reassdatas s !! ipr = Some r) (Hq : queue (s_heap s) (rd_p r) fs None).
Context (Hap : apart fs) (Hs : StronglySorted frag_lt fs) (Hok : h_ok (s_heap s)).
Context (Hp : arrives (s_heap s) p ys d pt).
Let n := new_frag p ys d.
Context (Haw : away n fs).

Lemma start_walking h1 : frag_at h1 n None -> at_ptr h1 n pt -> relinked [p] (s_heap s) h1 ->
  walking ipr n pt (with_heap h1 s) r [] fs.
Proof.
  intros Hn Hpt Hrl. split; try done; [|by exists None].
  eapply queue_relinked; [exact Hq | exact Hrl|]. intros f l Hf Hl ->%list_elem_of_singleton.
  apply (Haw f p Hf Hl). by destruct (head_in _ _ _ _ _ Hp).
Qed.

Lemma refuse_run h' : relinked [p] (s_heap s) h' ->
  (m ← hp (pbuf_clen (Some p)); count_pbufs (- m);; pfree p;; mret false) (with_heap h' s)
  = Done (false, with_heap (freed ys None (s_heap s)) (add_count (- clen ys) s)).
Proof.
  intros Hrl. destruct Hp as [Hpk _ Href _ _].
  destruct (packet_relinked _ _ _ _ _ _ Hpk Hrl) as (d' & Hpk' & _).
  run_with (pbuf_clen_run (with_heap h' s) _ _ _ Hpk').
  set (s1 := add_count (- clen ys) (with_heap h' s)). rewrite (bind_run _ _ _ tt s1) by done.
  erewrite bind_run.
  2:{ apply (pfree_run s1 p ys d'); [by eapply h_ok_relinked | done |].
      destruct Hrl as (m & -> & _). exact Href. }
  unfold mret, M_ret. do 2 f_equal. change (s_heap s1) with h'.
  rewrite (freed_relinked p ys (s_heap s) h' Hrl); [|by destruct (head_in _ _ _ _ _ Hp)]. by destruct s.
Qed.

Lemma seen_complete b a : seen_valid n b a && (starts_at_0 (b ++ n :: a) && contig (n :: a))
  = starts_at_0 (b ++ n :: a) && match a with [] => contig (b ++ [n]) | _ => contig b && contig (n :: a) end.
Proof.
  destruct a as [|g a]; cbn [seen_valid contig]; [by rewrite andb_true_r, andb_comm|].
  rewrite !andb_assoc. f_equal. rewrite (andb_comm (contig b)). by rewrite <- !andb_assoc.
Qed.

Lemma chain_frag_run :
  if clash fs n
  then ip_reass_chain_frag_into_datagram_and_validate ipr p s
       = Done (false, with_heap (freed ys None (s_heap s)) (add_count (- clen ys) s))
  else exists s' log,
       ip_reass_chain_frag_into_datagram_and_validate ipr p s = Done (complete r fs n, with_log log s')
       /\ placed s ipr r (f_before fs n) n (f_after fs n) s'
       /\ (plausible r (f_before fs n) n (f_after fs n) -> log = h_asserts (s_heap s')).
Proof.
  unfold ip_reass_chain_frag_into_datagram_and_validate.
  destruct (arrives_bytes _ _ _ _ _ Hp) as [Hd Hlen].
  destruct (write_helper_run _ _ _ _ _ Hp) as (h1 & E1 & Hn & Hpt & Hrl).
  destruct (arrives_fields _ _ _ _ _ Hp Hok) as (R1 & R2 & R3).
  assert (Hpay : payload_of p s = Done (pt, s)).
  { destruct Hp as [_ _ _ (b & Hb & Hbp & _) _]. unfold payload_of.
    erewrite bind_run by by apply pbuf_get_run. by rewrite Hbp. }
  run_with Hpay. run_with R2. run_with R1. run_with R3. cbv zeta. run_assert.
  fold (frag_off d) (frag_len d). rewrite E1. set (s1 := with_heap h1 s).
  run_with (rd_get_run s1 ipr r Hr). rewrite (bind_run _ _ _ s1 s1) by done.
  pose proof (start_walking h1 Hn Hpt Hrl) as Hw.
  pose proof (queue_fuel _ _ _ _ (wk_queue _ _ _ _ _ _ _ Hw) Hap) as Hfuel.
  pose proof (place_frag_run ipr n pt fs (walk_fuel (s_heap s1)) s1 r [] None Hw eq_refl Hn ltac:(cbn in *; lia)) as Hplace.
  unfold place_result in Hplace. cbn [app contig] in Hplace.
  pose proof (queue_head _ _ _ _ (wk_queue _ _ _ _ _ _ _ Hw)) as Eh. cbn [app] in Eh.
  rewrite <- Eh in Hplace.
  change (f_loc n) with p in Hplace. change (f_start n) with (frag_off d) in Hplace.
  change (f_end n) with (u16 (frag_off d + frag_len d)) in Hplace.
  destruct (clash fs n).
  - destruct Hplace as (h' & E & Hrl'). run_with E. apply refuse_run. by eapply relinked_trans.
  - destruct Hplace as (s' & E & _ & Hpl). run_with E.
    set (b := f_before fs n) in *. set (a := f_after fs n) in *.
    assert (Hpl0 : placed s ipr r b n a s').
    { destruct Hpl as (h' & p' & -> & Hq' & Ha' & Hr'). exists h', p'. do 3 (split; [done|]).
      eapply relinked_trans; [|exact Hr']. eapply relinked_mono; [exact Hrl|]. rewrite map_app. set_solver. }
    destruct Hpl0 as (h' & p' & Es' & Hq' & Ha' & Hr').
    assert (Hrd : s_reassdatas s' !! ipr = Some (r <| rd_p := p' |>)) by (rewrite Es'; apply lookup_insert_eq).
    run_with (rd_get_run s' ipr _ Hrd). change (rd_flags (r <| rd_p := p' |>)) with (rd_flags r).
    fold (last_seen r). unfold complete. destruct (last_seen r); cbn [andb].
    2:{ exists s', (h_asserts (s_heap s')). rewrite with_log_id. split; [done|]. split; [|done]. by exists h', p'. }
    assert (Hpl0 : placed s ipr r b n a s') by (by exists h', p').
    destruct (frags_complete_run s' ipr (r <| rd_p := p' |>) b n a pt Hrd) as (log & E' & Hlog);
      [by rewrite Es' | done | |].
    { destruct Hr' as (m & E' & _), Hrl as (m1 & E'' & _), Hpt as (bb & Hbb & Hbp).
      exists bb. rewrite E'' in Hbb. rewrite Es', E'. by split. }
    assert (Ev : starts_at_0 (b ++ n :: a) && no_hole_seen fs n
                 = seen_valid n b a && (starts_at_0 (b ++ n :: a) && contig (n :: a)))
      by (rewrite seen_complete; unfold no_hole_seen; fold a b; by destruct a).
    fold a b. rewrite Ev. destruct (seen_valid n b a); cbn [andb].
    + exists s', log. split; [exact E'|]. split; [done|]. intros [H1 H2]. by apply Hlog.
    + exists s', (h_asserts (s_heap s')). rewrite with_log_id. split; [done|]. by split.
Qed.
End chain_frag.
