(* ===== verification/ReassInput.v ===== *)
(** * Reassembly of a datagram (ip_reass)

    What ip_reass does with a fragment of a datagram it knows: it refuses it,
    stores it, or returns the whole datagram. *)
From S2P Require Import Prelude Inet Checksum Heap Pbuf PbufSpec PbufProps InetChksum Stack Chains Words Ip IpProps Icmp Reass TcpSpec TcpArith IpInProps ReassQueue ReassProps.
From stdpp Require Import sorting.
#[local] Open Scope string_scope.
#[local] Open Scope list_scope.
#[local] Open Scope Z_scope.

(** ** Joining the fragments *)

(** The data of a fragment, behind its header. *)
Definition f_data (f : frag) : list Z := drop 12 (f_body f).

(** Only the structs of [ls] differ, and not in their reference counts. *)
Definition reshaped (ls : list loc) (h h' : heap) : Prop :=
  exists m, h' = h_set_pbufs m h /\ (forall l, l ∉ ls -> m !! l = h_pbufs h !! l)
    /\ forall l, pb_ref <$> m !! l = pb_ref <$> h_pbufs h !! l.
Lemma reshaped_refl ls h : reshaped ls h h.
Proof. exists (h_pbufs h). by destruct h. Qed.
Lemma reshaped_trans ls h h1 h2 : reshaped ls h h1 -> reshaped ls h1 h2 -> reshaped ls h h2.
Proof.
  intros (m & -> & Hm & Hr) (m' & -> & Hm' & Hr'). exists m'. split; [done|]. split.
  - intros l Hl. rewrite Hm' by done. by apply Hm.
  - intros l. rewrite Hr'. apply Hr.
Qed.
Lemma reshaped_mono ls ls' h h' : reshaped ls h h' -> ls ⊆ ls' -> reshaped ls' h h'.
Proof. intros (m & -> & Hm & Hr) Hs. exists m. split; [done|]. split; [|done]. intros l Hl. apply Hm. set_solver. Qed.
Lemma reshaped_touches ls h h' : touches ls h h' -> reshaped ls h h'.
Proof.
  intros (m & -> & Hm & Hk). exists m. split; [done|]. split; [done|]. intros l. specialize (Hk l).
  destruct (m !! l), (h_pbufs h !! l); try done. cbn in *. injection Hk as _ Hk. by rewrite Hk.
Qed.
Lemma reshaped_hide l b n h : h_pbufs h !! l = Some b ->
  reshaped [l] h (h_set_pbufs (<[l := hide_header n b]> (h_pbufs h)) h).
Proof.
  intros Hb. eexists. split; [done|]. split.
  - intros k Hk. apply lookup_insert_ne. intros ->. apply Hk. by left.
  - intros k. destruct (decide (k = l)) as [->|]; [by rewrite lookup_insert_eq, Hb | by rewrite lookup_insert_ne].
Qed.
Lemma h_ok_reshaped ls h h' : reshaped ls h h' -> h_ok h -> h_ok h'.
Proof.
  intros (m & -> & _ & Hr) [H1 H2 H3 H4].
  assert (Hd : forall l, is_Some (m !! l) -> is_Some (h_pbufs h !! l)).
  { intros l [b Hb]. specialize (Hr l). rewrite Hb in Hr. destruct (h_pbufs h !! l); [by eexists | done]. }
  split; cbn; eauto.
Qed.

Lemma queue_reshaped ls h h' p fs e : queue h p fs e -> reshaped ls h h' ->
  (forall f l, f ∈ fs -> l ∈ f_pbufs f -> l ∉ ls) -> queue h' p fs e.
Proof.
  intros H (m & -> & Hm & _) Hd. eapply queue_same; [exact H|]. intros f l Hf Hl.
  split; [|done]. by apply Hm, (Hd f).
Qed.

Lemma helper_next_at s pt n : bytes_at (s_heap s) pt 4 = Some (le32 (ptr_word n)) -> fits n ->
  helper_next pt s = Done (n, s).
Proof.
  intros Hd Hn. unfold helper_next.
  erewrite bind_run by (eapply get32_run; exact Hd). rewrite le32_word by apply ptr_word_u32.
  by rewrite word_ptr_word.
Qed.

(** One fragment is appended. *)
Lemma join_one s p xs D f n pt fuel : packet (s_heap s) (Some p) xs D -> frag_at (s_heap s) f n ->
  at_ptr (s_heap s) f pt -> fits n -> xs ## f_pbufs f ->
  Z.of_nat (length D + length (f_data f)) < 65536 ->
  exists h', join_frags (S fuel) p (Some (f_loc f)) s = join_frags fuel p n (with_heap h' s)
    /\ packet h' (Some p) (xs ++ f_pbufs f) (D ++ f_data f) /\ reshaped (xs ++ f_pbufs f) (s_heap s) h'.
Proof.
  intros Hp Hf Hpt Hn Hd Hlen. cbn [join_frags]. run_with (payload_of_run _ _ _ Hpt).
  destruct (helper_at _ _ _ _ Hf Hpt) as [Hpl Hb8].
  pose proof (fragment_head _ _ _ Hf) as Hin.
  destruct Hf as [Hpk _ _ (b & Hb & Hl20) _ _ _].
  pose proof (pbuf_header_hide_run _ _ _ _ _ 20 Hpk Hb ltac:(lia) ltac:(lia)) as Hh.
  apply wp_run in Hh as (r & h1 & E1 & -> & ->).
  set (h1 := h_set_pbufs _ (s_heap s)) in *.
  erewrite bind_run by (apply hp_run; exact E1).
  pose proof (hide_header_packet _ _ _ _ _ 20 Hpk Hb ltac:(lia)) as Hpk1. fold h1 in Hpk1.
  pose proof (reshaped_hide _ _ 20 _ Hb) as R1. fold h1 in R1.
  assert (Hp1 : packet h1 (Some p) xs D).
  { eapply pseg_frame; [exact Hp | done|]. intros l Hl. apply lookup_insert_ne. intros <-. by apply (Hd (f_loc f)). }
  change (Z.to_nat 20) with 20%nat in Hpk1.
  change (drop 20 (helper_bytes n (f_start f) (f_end f) ++ f_body f)) with (f_data f) in Hpk1.
  pose proof (pbuf_cat_spec h1 p (f_loc f) xs (f_pbufs f) D (f_data f) Hp1 Hpk1 Hd ltac:(lia)) as Hc.
  apply wp_run in Hc as ([] & h2 & E2 & Hp2 & _ & Ht).
  erewrite bind_run by (apply (hp_run _ (with_heap h1 s)); exact E2). rewrite with_heap_twice.
  exists h2. split; [|split; [done|]].
  - erewrite bind_run; [reflexivity|]. apply helper_next_at; [|done]. cbn [s_heap with_heap set_field].
    rewrite (bytes_at_blocks h1) by by rewrite (touches_blocks _ _ _ Ht).
    by apply (bytes_at_split _ _ _ 4) in Hb8 as [Hb4 _]; [|lia].
  - eapply reshaped_trans; [eapply reshaped_mono; [exact R1|] | eapply reshaped_mono; [by apply reshaped_touches|]]; set_solver.
Qed.

Lemma join_frags_run fs fuel s p xs D q : packet (s_heap s) (Some p) xs D ->
  queue (s_heap s) q fs None -> apart fs -> (forall f l, f ∈ fs -> l ∈ f_pbufs f -> l ∉ xs) ->
  Z.of_nat (length (D ++ concat (map f_data fs))) < 65536 -> (length fs <= fuel)%nat ->
  exists h', join_frags fuel p q s = Done (tt, with_heap h' s)
    /\ packet h' (Some p) (xs ++ concat (map f_pbufs fs)) (D ++ concat (map f_data fs))
    /\ reshaped (xs ++ concat (map f_pbufs fs)) (s_heap s) h'.
Proof.
  revert fuel s xs D q. induction fs as [|f fs IH]; intros fuel s xs D q Hp Hq Ha Hd Hlen Hf.
  - cbn in Hq. subst q. exists (s_heap s). rewrite with_heap_id, !app_nil_r.
    split; [by destruct fuel|]. split; [done | apply reshaped_refl].
  - destruct Hq as (-> & n & Hn & Hq). destruct fuel as [|fuel]; [cbn in Hf; lia|].
    destruct (at_ptr_ex _ _ _ Hn) as [pt Hpt]. destruct (apart_cons _ _ Ha) as [Ha' Hdf].
    cbn [map concat] in *. rewrite !length_app in Hlen.
    assert (Hx : xs ## f_pbufs f) by (intros l Hl Hlf; apply (Hd f l); [by left | done..]).
    destruct (join_one s p xs D f n pt fuel Hp Hn Hpt (queue_fits _ _ _ Hq) Hx ltac:(lia))
      as (h1 & E1 & Hp1 & R1).
    destruct (IH fuel (with_heap h1 s) (xs ++ f_pbufs f) (D ++ f_data f) n) as (h2 & E2 & Hp2 & R2).
    + done.
    + eapply queue_reshaped; [exact Hq | exact R1|]. intros g l Hg Hl [Hx'|Hf']%elem_of_app.
      * apply (Hd g l); [by right | done..].
      * by apply (Hdf g l).
    + done.
    + intros g l Hg Hl [Hx'|Hf']%elem_of_app; [apply (Hd g l); [by right | done..] | by apply (Hdf g l)].
    + rewrite !length_app. lia.
    + cbn in Hf. lia.
    + exists h2. rewrite E1, E2, with_heap_twice. split; [done|]. rewrite <- !app_assoc in *. split; [done|].
      eapply reshaped_trans; [|exact R2]. eapply reshaped_mono; [exact R1|]. set_solver.
Qed.

(** ** Restoring the header *)

(** The stored header with the total length, no fragment offset and the
    checksum [c]. *)
Definition out_header (hdr : list Z) (len c : Z) : list Z :=
  take 2 hdr ++ be16 len ++ take 2 (drop 4 hdr) ++ [0; 0] ++ take 2 (drop 8 hdr) ++ le16 c ++ drop 12 hdr.

Lemma out_header_length hdr len c : length hdr = 20%nat -> length (out_header hdr len c) = 20%nat.
Proof. intros H. do 20 (destruct hdr as [|? hdr]; [done|]). by destruct hdr. Qed.

Lemma frag_arrives h f n pt : frag_at h f n -> at_ptr h f pt ->
  arrives h (f_loc f) (f_pbufs f) (helper_bytes n (f_start f) (f_end f) ++ f_body f) pt.
Proof.
  intros [H1 H2 H3 (b & Hb & Hl) _ _ H7] (b' & Hb' & Hpt). split; try done.
  exists b'. split; [done|]. split; [done|]. by simplify_eq.
Qed.

Lemma header_splices hdr d len : length hdr = 20%nat -> is_u16 len ->
  splice 10 (le16 0) (splice 6 (le16 0) (splice 2 (le16 (htons len)) (splice 0 hdr d)))
  = out_header hdr len 0 ++ drop 20 d.
Proof.
  intros H Hl. unfold out_header. rewrite <- (htons_be16 len Hl).
  do 20 (destruct hdr as [|? hdr]; [done|]). by destruct hdr.
Qed.
Lemma header_chksum hdr len c c' d : length hdr = 20%nat ->
  splice 10 (le16 c) (out_header hdr len c' ++ d) = out_header hdr len c ++ d.
Proof. intros H. do 20 (destruct hdr as [|? hdr]; [done|]). by destruct hdr. Qed.

Section restore.
Context (s : stack) (p : loc) (ys : list loc) (d0 data hdr : list Z) (pt : ptr) (len : Z).
Context (H0 : arrives (s_heap s) p ys d0 pt) (Hdata : drop 20 d0 = data).
Context (Hhdr : length hdr = 20%nat) (Hok : bytes_ok hdr) (Hlen : is_u16 len) (Hh : h_ok (s_heap s)).

Lemma restore_words : exists h1,
  (forall A (k : M stack A), (hp (store pt hdr);; put16 (iph_len pt) (htons len);;
      put16 (iph_offset pt) 0;; put16 (iph_chksum pt) 0;; k) s = k (with_heap h1 s))
  /\ arrives h1 p ys (out_header hdr len 0 ++ data) pt /\ relinked [p] (s_heap s) h1.
Proof.
  destruct (arrives_poke _ _ _ _ _ 0 hdr H0 ltac:(lia) Hok) as [H1 R1].
  assert (E1 : hp (store pt hdr) s = Done (tt, with_heap (poke (ptr_add pt (Z.of_nat 0)) hdr (s_heap s)) s)).
  { rewrite <- (ptr_add_0 pt) at 1. exact (arrives_put s _ _ _ _ 0 hdr H0 ltac:(lia)). }
  set (h1 := poke _ _ (s_heap s)) in *.
  assert (O : forall v, bytes_ok (le16 v)) by (intros v; repeat (constructor; [apply u8_range|]); constructor).
  destruct (arrives_poke _ _ _ _ _ 2 (le16 (htons len)) H1 ltac:(cbn; lia) (O _)) as [H2 R2].
  pose proof (arrives_put (with_heap h1 s) _ _ _ _ 2 (le16 (htons len)) H1 ltac:(cbn; lia)) as E2.
  set (h2 := poke _ _ h1) in *.
  destruct (arrives_poke _ _ _ _ _ 6 (le16 0) H2 ltac:(cbn; lia) (O _)) as [H3 R3].
  pose proof (arrives_put (with_heap h2 s) _ _ _ _ 6 (le16 0) H2 ltac:(cbn; lia)) as E3.
  set (h3 := poke _ _ h2) in *.
  destruct (arrives_poke _ _ _ _ _ 10 (le16 0) H3 ltac:(cbn; lia) (O _)) as [H4 R4].
  pose proof (arrives_put (with_heap h3 s) _ _ _ _ 10 (le16 0) H3 ltac:(cbn; lia)) as E4.
  set (h4 := poke _ _ h3) in *.
  exists h4. split; [|split; [|do 3 (eapply relinked_trans; [done|]); done]].
  - intros A k. run_with E1.
    assert (F2 : put16 (iph_len pt) (htons len) (with_heap h1 s) = Done (tt, with_heap h2 s)) by exact E2.
    assert (F3 : put16 (iph_offset pt) 0 (with_heap h2 s) = Done (tt, with_heap h3 s)) by exact E3.
    assert (F4 : put16 (iph_chksum pt) 0 (with_heap h3 s) = Done (tt, with_heap h4 s)) by exact E4.
    run_with F2. run_with F3. by run_with F4.
  - rewrite <- Hdata, <- header_splices by done. exact H4.
Qed.

(** All the words of the header, the checksum included. *)
Lemma restore_run : exists h1 c,
  (forall A (k : M stack A), (hp (store pt hdr);; put16 (iph_len pt) (htons len);;
      put16 (iph_offset pt) 0;; put16 (iph_chksum pt) 0;; c ← inet_chksum_at pt IP_HLEN;
      put16 (iph_chksum pt) c;; k) s = k (with_heap h1 s))
  /\ inet_chksum (out_header hdr len 0) = Some c
  /\ arrives h1 p ys (out_header hdr len c ++ data) pt /\ relinked [p] (s_heap s) h1.
Proof.
  destruct restore_words as (h1 & E1 & H1 & R1).
  pose proof (h_ok_relinked _ _ _ R1 Hh) as Hok1.
  pose proof (arrives_bytes _ _ _ _ _ H1) as [Hb Hl].
  assert (Ht : take 20 (out_header hdr len 0 ++ data) = out_header hdr len 0).
  { rewrite take_app_le by (by rewrite out_header_length). apply take_ge. by rewrite out_header_length. }
  rewrite Ht in Hb.
  destruct (chksum_at_run (with_heap h1 s) pt (out_header hdr len 0) 20) as (c & Ec & Ec').
  { by rewrite out_header_length. }
  { by eapply bytes_at_ok. }
  { by rewrite out_header_length. }
  { by rewrite out_header_length. }
  rewrite take_ge in Ec' by by rewrite out_header_length.
  assert (O : bytes_ok (le16 c)) by (repeat (constructor; [apply u8_range|]); constructor).
  destruct (arrives_poke _ _ _ _ _ 10 (le16 c) H1 ltac:(cbn; lia) O) as [H2 R2].
  pose proof (arrives_put (with_heap h1 s) _ _ _ _ 10 (le16 c) H1 ltac:(cbn; lia)) as E2.
  rewrite header_chksum in H2 by done. set (h2 := poke _ _ h1) in *.
  exists h2, c. split; [|split; [done|split; [done|by eapply relinked_trans]]].
  intros A k. rewrite (E1 A). rewrite (bind_run _ _ _ _ _ Ec).
  assert (F2 : put16 (iph_chksum pt) c (with_heap h1 s) = Done (tt, with_heap h2 s)) by exact E2.
  by run_with F2.
Qed.
End restore.

(** ** The queue of datagrams *)
Definition rds_are (s : stack) (ls : list loc) : Prop :=
  chain (map_next rd_next (s_reassdatas s)) (reassdatagrams (s_reass s)) ls None.
Definition rd_set_next (n : option loc) (r : ip_reassdata) : ip_reassdata := r <| rd_next := n |>.
Lemma rd_next_set n r : rd_next (rd_set_next n r) = n.
Proof. done. Qed.

(** The datagram [l] is gone, the links of the others may differ. *)
Definition forgets (m m' : gmap loc ip_reassdata) (l : loc) : Prop :=
  m' !! l = None /\ forall k, k <> l -> rd_set_next None <$> m' !! k = rd_set_next None <$> m !! k.

Lemma dequeue_run s xs l ys r : rds_are s (xs ++ l :: ys) -> s_reassdatas s !! l = Some r ->
  exists m h, let s' := s <| s_reassdatas := m |> <| s_reass := (s_reass s) <| reassdatagrams := h |> |> in
    ip_reass_dequeue_datagram l (last xs) s = Done (tt, s')
    /\ rds_are s' (xs ++ ys) /\ forgets (s_reassdatas s) m l.
Proof.
  intros H Hr. pose proof (map_chain_remove _ _ rd_next_set _ _ _ _ _ _ H Hr) as Hrem.
  unfold ip_reass_dequeue_datagram. run_with (rd_get_run _ _ _ Hr).
  rewrite (bind_run _ _ _ (reassdatagrams (s_reass s)) s) by done.
  destruct (last xs) as [q|].
  - destruct Hrem as (Hne & Hql & vq & Hq & Hc). rewrite bool_decide_eq_false_2 by done.
    exists (delete l (<[q := rd_set_next (rd_next r) vq]> (s_reassdatas s))), (reassdatagrams (s_reass s)).
    split; [|split; [exact Hc|]].
    + erewrite bind_run.
      2:{ run_assert. rewrite (bind_run _ _ _ q s) by done. by apply rd_upd_run. }
      unfold free_rd. erewrite bind_run by (apply rd_get_run; cbn; by rewrite lookup_insert_ne).
      by destruct s as [? ? ? ? ? ? ? ? ? ? ? ? ? ? ? ? ? ? []].
    + split; [apply lookup_delete_eq|]. intros k Hk. rewrite lookup_delete_ne by done.
      destruct (decide (k = q)) as [->|]; [by rewrite lookup_insert_eq, Hq | by rewrite lookup_insert_ne].
  - destruct Hrem as (-> & Hh & Hc). rewrite bool_decide_eq_true_2 by done.
    exists (delete l (s_reassdatas s)), (rd_next r). split; [|split; [exact Hc|]].
    + rewrite (bind_run _ _ _ tt (s <| s_reass := (s_reass s) <| reassdatagrams := rd_next r |> |>)) by done.
      unfold free_rd. erewrite bind_run by (by apply rd_get_run). done.
    + split; [apply lookup_delete_eq|]. intros k Hk. by rewrite lookup_delete_ne.
Qed.

Lemma rds_with_rd s ls l r r' : rds_are s ls -> s_reassdatas s !! l = Some r -> rd_next r' = rd_next r ->
  rds_are (with_rd l r' s) ls.
Proof.
  intros H Hr Hn. unfold rds_are in *. eapply chain_ext; [|exact H]. intros k _. unfold map_next. cbn.
  destruct (decide (k = l)) as [->|]; [rewrite lookup_insert_eq, Hr; cbn; by rewrite Hn | by rewrite lookup_insert_ne].
Qed.

(** What is left when the datagram [l] was completed: the packet [p] with the
    bytes [d] in the pbufs [ys]. *)
Record delivered (s : stack) (l p : loc) (ys : list loc) (d : list Z) (ls : list loc) (s' : stack) : Prop := {
  dl_packet : packet (s_heap s') (Some p) ys d;
  dl_refs : refs_one (h_pbufs (s_heap s')) ys;
  dl_heap : h_ok (s_heap s');
  dl_other : forall k, k ∉ ys -> h_pbufs (s_heap s') !! k = h_pbufs (s_heap s) !! k
               /\ h_blocks (s_heap s') !! k = h_blocks (s_heap s) !! k;
  dl_rds : rds_are s' ls;
  dl_forgets : forgets (s_reassdatas s) (s_reassdatas s') l;
  dl_count : ip_reass_pbufcount (s_reass s') = u16 (ip_reass_pbufcount (s_reass s) - clen ys);
  dl_rest : s' = s <| s_heap := s_heap s' |> <| s_reassdatas := s_reassdatas s' |>
                   <| s_reass := s_reass s' |>
}.

Lemma queue_refs h p fs e : queue h p fs e -> refs_one (h_pbufs h) (concat (map f_pbufs fs)).
Proof.
  revert p. induction fs as [|f fs IH]; intros p; cbn; [by intros _ ? ? ?%elem_of_nil|].
  intros (_ & n & Hn & H) k b [Hk|Hk]%elem_of_app Hb; [by eapply (fa_refs _ _ _ Hn) | by eapply (IH n)].
Qed.

Section finish.
Context (s : stack) (ipr : loc) (xs zs : list loc) (r : ip_reassdata) (f : frag) (fs : list frag).
Context (Hls : rds_are s (xs ++ ipr :: zs)) (Hr : s_reassdatas s !! ipr = Some r).
Context (Hq : queue (s_heap s) (rd_p r) (f :: fs) None) (Ha : apart (f :: fs)).
Context (Hok : h_ok (s_heap s)) (Hhdr : length (rd_iphdr r) = 20%nat) (Hhok : bytes_ok (rd_iphdr r)).
Let data := concat (map f_data (f :: fs)).
Let ys := concat (map f_pbufs (f :: fs)).
Let len := u16 (rd_datagram_len r + IP_HLEN).
Context (Hlen : 20 + Z.of_nat (length data) < 65536).

Lemma finish_join : exists h1 c,
  let s1 := with_rd ipr (r <| rd_datagram_len := len |>) s in
  reass_finish ipr (last xs) s
  = (ip_reass_dequeue_datagram ipr (last xs);; n ← hp (pbuf_clen (Some (f_loc f)));
     count_pbufs (- n);; mret (f_loc f)) (with_heap h1 s1)
  /\ inet_chksum (out_header (rd_iphdr r) len 0) = Some c
  /\ packet h1 (Some (f_loc f)) ys (out_header (rd_iphdr r) len c ++ data)
  /\ refs_one (h_pbufs h1) ys /\ h_ok h1
  /\ forall k, k ∉ ys -> h_pbufs h1 !! k = h_pbufs (s_heap s) !! k /\ h_blocks h1 !! k = h_blocks (s_heap s) !! k.
Proof.
  pose proof Hq as (Hp & n & Hn & Hqs). destruct (at_ptr_ex _ _ _ Hn) as [pt Hpt].
  set (r1 := r <| rd_datagram_len := len |>). set (s1 := with_rd ipr r1 s).
  assert (Hr1 : s_reassdatas s1 !! ipr = Some r1) by apply lookup_insert_eq.
  unfold reass_finish. run_with (rd_upd_run _ _ (fun r => r <| rd_datagram_len := u16 (rd_datagram_len r + IP_HLEN) |>) _ Hr).
  fold len. fold r1. fold s1. run_with (rd_get_run _ _ _ Hr1).
  change (rd_p r1) with (rd_p r). rewrite Hp. rewrite (bind_run _ _ _ (f_loc f) s1) by done.
  run_with (payload_of_run s1 _ _ Hpt). run_with (helper_next_run s1 _ _ _ Hn Hpt (queue_fits _ _ _ Hqs)).
  change (rd_iphdr r1) with (rd_iphdr r). change (rd_datagram_len r1) with len.
  destruct (restore_run s1 _ _ _ (f_data f) (rd_iphdr r) pt len (frag_arrives _ _ _ _ Hn Hpt) eq_refl
              Hhdr Hhok (u16_range _) Hok) as (h1 & c & E1 & Ec & H1 & R1).
  rewrite E1. rewrite (bind_run _ _ _ (with_heap h1 s1) (with_heap h1 s1)) by done.
  destruct (apart_cons _ _ Ha) as [Ha' Hd].
  assert (Hqs1 : queue h1 n fs None).
  { eapply queue_relinked; [exact Hqs | exact R1|]. intros g l Hg Hl ->%list_elem_of_singleton.
    apply (Hd g _ Hg Hl). by eapply fragment_head. }
  pose proof (queue_fuel _ _ _ _ Hqs1 Ha') as Hfuel.
  destruct (join_frags_run fs (walk_fuel h1) (with_heap h1 s1) (f_loc f) (f_pbufs f)
              (out_header (rd_iphdr r) len c ++ f_data f) n) as (h2 & E2 & Hp2 & R2);
    [by destruct H1 | done | done | done | | lia |].
  { unfold data in Hlen. cbn [map concat] in Hlen. rewrite !length_app in *.
    rewrite out_header_length by done. lia. }
  exists h2, c. run_with E2. split; [done|]. split; [done|].
  rewrite <- app_assoc in Hp2. split; [exact Hp2|].
  change (s_heap (with_heap h1 s1)) with h1 in R2. change (s_heap s1) with (s_heap s) in R1.
  destruct R2 as (m2 & Eh2 & Hm2 & Hr2). pose proof R1 as (m1 & Eh1 & Hm1 & _).
  split; [|split].
  - intros k b Hk Hb. pose proof (queue_refs _ _ _ _ Hq) as Href. specialize (Hr2 k).
    rewrite Eh2 in Hb. cbn in Hb. rewrite Hb in Hr2. rewrite Eh1 in Hr2. cbn in Hr2.
    destruct (h_pbufs (s_heap s) !! k) as [b0|] eqn:E0; [|done]. injection Hr2 as ->. by eapply Href.
  - eapply h_ok_reshaped; [|by eapply h_ok_relinked]. by exists m2.
  - intros k Hk. rewrite Eh2. cbn. rewrite Hm2 by done. rewrite Eh1. cbn. split; [done|]. apply Hm1.
    intros ->%list_elem_of_singleton. apply Hk. unfold ys. cbn. apply elem_of_app. left. by eapply fragment_head.
Qed.

Lemma finish_run : exists s' c,
  reass_finish ipr (last xs) s = Done (f_loc f, s')
  /\ inet_chksum (out_header (rd_iphdr r) len 0) = Some c
  /\ delivered s ipr (f_loc f) ys (out_header (rd_iphdr r) len c ++ data) (xs ++ zs) s'.
Proof.
  destruct finish_join as (h1 & c & E1 & Ec & Hp1 & Href & Hok1 & Ho). cbv zeta in E1. rewrite E1.
  set (r1 := r <| rd_datagram_len := len |>) in *. set (s2 := with_heap h1 (with_rd ipr r1 s)) in *.
  assert (Hr2 : s_reassdatas s2 !! ipr = Some r1) by apply lookup_insert_eq.
  assert (Hls2 : rds_are s2 (xs ++ ipr :: zs)) by (by apply (rds_with_rd s _ ipr r r1)).
  destruct (dequeue_run _ _ _ _ _ Hls2 Hr2) as (m & h & E2 & Hls' & Hf). cbv zeta in E2, Hls'.
  run_with E2. set (s3 := s2 <| s_reassdatas := m |> <| s_reass := _ |>) in *.
  run_with (pbuf_clen_run s3 _ _ _ Hp1).
  exists (add_count (- clen ys) s3), c. split; [done|]. split; [done|]. split; try done.
  - destruct Hf as [Hf1 Hf2]. split; [done|]. intros k Hk. etrans; [by apply Hf2|]. cbn.
    by rewrite lookup_insert_ne.
Qed.
End finish.

(** ** Finding the datagram *)
Definition same_datagram (hdr d : list Z) : bool :=
  (hdr32 hdr 12 =? hdr32 d 12) && (hdr32 hdr 16 =? hdr32 d 16) && (hdr16 hdr 4 =? hdr16 d 4).

Lemma match_run s p ys d pt hdr : arrives (s_heap s) p ys d pt ->
  IP_ADDRESSES_AND_ID_MATCH hdr pt s = Done (same_datagram hdr d, s).
Proof.
  intros H. destruct (arrives_bytes _ _ _ _ _ H) as [Hd Hl].
  assert (L : length (take 20 d) = 20%nat) by (rewrite length_take; lia).
  assert (Hd' : bytes_at (s_heap s) pt (Z.of_nat (length (take 20 d))) = Some (take 20 d)) by (by rewrite L).
  unfold IP_ADDRESSES_AND_ID_MATCH.
  pose proof (word32_at s pt (take 20 d) Hd' ltac:(lia) 12 ltac:(lia)) as R1.
  pose proof (word32_at s pt (take 20 d) Hd' ltac:(lia) 16 ltac:(lia)) as R2.
  pose proof (word16_at s pt (take 20 d) Hd' ltac:(lia) 4 ltac:(lia)) as R3.
  rewrite !hdr32_take in R1, R2 by lia. rewrite hdr16_take in R3 by lia.
  run_with R1. run_with R2. by run_with R3.
Qed.

(** The first datagram of the queue with the addresses and the identification
    of [d]. *)
Definition first_match (s : stack) (d : list Z) (xs : list loc) (ipr : loc) : Prop :=
  (exists r, s_reassdatas s !! ipr = Some r /\ same_datagram (rd_iphdr r) d = true)
  /\ Forall (fun x => forall r, s_reassdatas s !! x = Some r -> same_datagram (rd_iphdr r) d = false) xs.

Lemma find_datagram_run fuel s p ys d pt ipr zs xs pre q :
  arrives (s_heap s) p ys d pt -> chain (map_next rd_next (s_reassdatas s)) q (xs ++ ipr :: zs) None ->
  first_match s d xs ipr -> (length xs < fuel)%nat ->
  find_datagram fuel q (last pre) pt s = Done ((Some ipr, last (pre ++ xs)), s).
Proof.
  intros Hp. revert fuel pre q. induction xs as [|x xs IH]; intros fuel pre q H [(r & Hr & Hm) Hx] Hf;
    pose proof H as (-> & _); apply map_chain_lookup in H as (r' & Hr' & H);
    (destruct fuel as [|fuel]; [cbn in Hf; lia|]); cbn [find_datagram]; run_with (rd_get_run _ _ _ Hr');
    run_with (match_run _ _ _ _ _ (rd_iphdr r') Hp).
  - simplify_eq. by rewrite Hm, app_nil_r.
  - apply Forall_cons in Hx as [Hx0 Hx]. rewrite (Hx0 _ Hr').
    specialize (IH fuel (pre ++ [x]) (rd_next r')). rewrite last_snoc, <- app_assoc in IH.
    apply IH; [done | split; [by exists r | done] | cbn in Hf; lia].
Qed.

(** ** ip_reass *)

(** The entry of the datagram after the fragment [d] was looked at: the header
    of the first fragment replaces that of another one, and the last fragment
    tells the length. *)
Definition offset_bits (hdr : list Z) : Z := Z.land (ntohs (hdr16 hdr 6)) IP_OFFMASK.
Definition entry_header (r : ip_reassdata) (d : list Z) : ip_reassdata :=
  if (offset_bits d =? 0) && negb (offset_bits (rd_iphdr r) =? 0)
  then r <| rd_iphdr := take 20 d |> else r.
Definition entry_of (r : ip_reassdata) (d : list Z) : ip_reassdata :=
  let r := entry_header r d in
  if Z.land (ntohs (hdr16 d 6)) IP_MF =? 0
  then r <| rd_flags := Z.lor (rd_flags r) IP_REASS_FLAG_LASTFRAG |>
         <| rd_datagram_len := u16 (frag_off d + frag_len d) |>
  else r.

Lemma entry_fields r d : rd_next (entry_of r d) = rd_next r /\ rd_p (entry_of r d) = rd_p r
  /\ rd_iphdr (entry_of r d) = rd_iphdr (entry_header r d).
Proof. unfold entry_of, entry_header. by repeat case_match. Qed.

Lemma with_rd_twice l r r' s : with_rd l r' (with_rd l r s) = with_rd l r' s.
Proof. unfold with_rd. destruct s. unfold set_field. cbn. by rewrite insert_insert_eq. Qed.

Section ip_reass.
Context {MC : MempConf} {EV : Env}.
Context (s : stack) (p : loc) (ys : list loc) (d : list Z) (pt : ptr) (ipr : loc) (xs zs : list loc)
  (r : ip_reassdata) (fs : list frag).
Context (Hok : h_ok (s_heap s)) (Hp : arrives (s_heap s) p ys d pt) (Hhl : hdr_hl d = 5).
Context (Hroom : 0 <= ip_reass_pbufcount (s_reass s) /\ ip_reass_pbufcount (s_reass s) + clen ys <= IP_REASS_MAX_PBUFS).
Context (Hls : rds_are s (xs ++ ipr :: zs)) (Hm : first_match s d xs ipr).
Context (Hr : s_reassdatas s !! ipr = Some r) (Hhdr : length (rd_iphdr r) = 20%nat) (Hhok : bytes_ok (rd_iphdr r)).

Lemma reass_entry_run :
  reass_entry pt (clen ys) (offset_bits d) s
  = Done (Some (ipr, last xs), with_rd ipr (entry_header r d) s).
Proof.
  unfold reass_entry. rewrite (bind_run _ _ _ s s) by done.
  pose proof (map_chain_length _ _ _ _ Hls) as Hlen. rewrite length_app in Hlen. cbn in Hlen.
  rewrite (bind_run _ _ _ (Some ipr, last xs) s).
  2:{ apply (find_datagram_run _ s p ys d pt ipr zs xs []); [done..|]. unfold map_fuel. lia. }
  run_with (rd_get_run _ _ _ Hr). unfold entry_header.
  change (Z.land (ntohs (hdr16 (rd_iphdr r) 6)) IP_OFFMASK) with (offset_bits (rd_iphdr r)).
  destruct (_ && _); cbn [when].
  - destruct (arrives_bytes _ _ _ _ _ Hp) as [Hd _].
    erewrite bind_run; [reflexivity|].
    erewrite bind_run by (apply hp_run, load_run; exact Hd). by rewrite with_heap_id.
  - rewrite (bind_run _ _ _ tt s) by done. by rewrite with_rd_id.
Qed.

(** The state in which the fragment is placed. *)
Let r' := entry_of r d.
Let s2 := with_rd ipr r' (add_count (clen ys) s).

Lemma ip_reass_start : ip_reass p s
  = (done ← ip_reass_chain_frag_into_datagram_and_validate ipr p;
     if (done : bool) then q ← reass_finish ipr (last xs); mret (Some q) else mret None) s2.
Proof.
  destruct (arrives_fields _ _ _ _ _ Hp Hok) as (R1 & R2 & R3).
  assert (Hpay : payload_of p s = Done (pt, s)).
  { destruct Hp as [_ _ _ (b & Hb & Hbp & _) _]. unfold payload_of.
    erewrite bind_run by by apply pbuf_get_run. by rewrite Hbp. }
  unfold ip_reass. run_with Hpay. run_with R1.
  replace (negb (hdr_hl d * 4 =? IP_HLEN)) with false by by rewrite Hhl. cbv iota. run_with R3. run_with R2. cbv zeta.
  run_with (pbuf_clen_run _ _ _ _ (ar_packet _ _ _ _ _ Hp)).
  rewrite (bind_run _ _ _ true s).
  2:{ unfold reass_room. rewrite (bind_run _ _ _ (ip_reass_pbufcount (s_reass s)) s) by done.
      by rewrite (proj2 (Z.ltb_ge _ _) (proj2 Hroom)). }
  cbn [negb]. fold (offset_bits d). run_with reass_entry_run.
  set (s1 := with_rd ipr (entry_header r d) s).
  rewrite (bind_run _ _ _ tt (add_count (clen ys) s1)) by done.
  assert (Hr1 : s_reassdatas (add_count (clen ys) s1) !! ipr = Some (entry_header r d)) by apply lookup_insert_eq.
  erewrite bind_run; [reflexivity|]. unfold s2, r', entry_of.
  destruct (Z.land (ntohs (hdr16 d 6)) IP_MF =? 0); cbn [when]; [|done].
  erewrite bind_run by (by apply rd_upd_run).
  erewrite rd_upd_run by apply lookup_insert_eq.
  change (add_count (clen ys) s1) with (with_rd ipr (entry_header r d) (add_count (clen ys) s)).
  by rewrite !with_rd_twice.
Qed.

Context (Hq : queue (s_heap s) (rd_p r) fs None) (Hap : apart fs) (Hs : StronglySorted frag_lt fs).
Let n := new_frag p ys d.
Context (Haw : away n fs).
Let b := f_before fs n.
Let a := f_after fs n.
Let all := b ++ n :: a.
Context (Htotal : 20 + Z.of_nat (length (concat (map f_data all))) < 65536).

(** What the last fragment completes: the packet in the pbufs of all the
    fragments, with the header of the first one restored. *)
Definition completed (q : loc) (s' : stack) : Prop :=
  exists c, inet_chksum (out_header (rd_iphdr r') (u16 (rd_datagram_len r' + IP_HLEN)) 0) = Some c
    /\ delivered (add_count (clen ys) s) ipr q (concat (map f_pbufs all))
         (out_header (rd_iphdr r') (u16 (rd_datagram_len r' + IP_HLEN)) c ++ concat (map f_data all))
         (xs ++ zs) s'.

Lemma header_stays : length (rd_iphdr r') = 20%nat /\ bytes_ok (rd_iphdr r').
Proof.
  unfold r'. destruct (entry_fields r d) as (_ & _ & ->). unfold entry_header. destruct (_ && _); [|done]. cbn.
  destruct (arrives_bytes _ _ _ _ _ Hp) as [Hd Hl]. split; [rewrite length_take; lia | by eapply bytes_at_ok].
Qed.

Lemma complete_run s1 log : placed s2 ipr r' b n a s1 ->
  exists q s', reass_finish ipr (last xs) (with_log log s1) = Done (q, s')
    /\ f_head all None = Some q /\ completed q s'.
Proof.
  intros (h1 & p1 & Es1 & Hq1 & Ha1 & R1).
  assert (exists f gs, all = f :: gs) as (f & gs & E) by (unfold all; destruct b; by eexists _, _).
  set (r1 := r' <| rd_p := p1 |>). set (s3 := with_log log s1).
  destruct header_stays as [HL HO].
  assert (Hok1 : h_ok h1) by (eapply h_ok_relinked; [exact R1 | exact Hok]).
  destruct (finish_run s3 ipr xs zs r1 f gs) as (s' & c & E1 & Ec & Hdel).
  - subst s3 s1. pose proof (entry_fields r d) as (En & _ & _).
    apply (rds_with_rd (with_heap h1 s2) _ ipr r' r1); [|apply lookup_insert_eq|done].
    by apply (rds_with_rd (add_count (clen ys) s) _ ipr r r').
  - subst s3 s1. apply lookup_insert_eq.
  - rewrite <- E. subst s3 s1. eapply queue_same; [exact Hq1 | done].
  - by rewrite <- E.
  - subst s3 s1. by destruct Hok1.
  - done.
  - done.
  - by rewrite <- E.
  - exists (f_loc f), s'. split; [exact E1|]. rewrite E. split; [done|]. exists c. rewrite E.
    split; [exact Ec|]. destruct Hdel as [D1 D2 D3 D4 D5 [D6 D6'] D7 D8].
    split; [exact D1 | exact D2 | exact D3 | | exact D5 | | |].
    + intros k Hk. destruct (D4 k Hk) as [-> ->]. subst s3 s1. cbn. destruct R1 as (m & -> & Hm' & _). cbn.
      split; [done|]. apply Hm'. rewrite <- E in Hk. intros (g & <- & Hg)%list_elem_of_In%in_map_iff.
      apply list_elem_of_In in Hg. destruct (queue_in _ _ _ _ _ Hq1 Hg) as [x Hx]. apply Hk.
      apply list_elem_of_In, in_concat. exists (f_pbufs g). split; [by apply in_map, list_elem_of_In|].
      apply list_elem_of_In. by eapply fragment_head.
    + split; [done|]. intros k Hk. rewrite (D6' k Hk). subst s3 s1. cbn. by rewrite !lookup_insert_ne.
    + rewrite D7. by subst s3 s1.
    + etrans; [exact D8|]. by subst s3 s1.
Qed.

(** C22: What ip_reass does with a fragment of a datagram it has an entry for,
    when there is room for it.  A fragment that collides is freed, and but for
    the entry the state is as before.  Any other one is put at its place in the
    order of the start offsets, and nothing else in memory changes but the
    links in the headers.  When the datagram then counts as complete, its entry
    is dropped and the result is one packet: the header of the first fragment
    with the total length, no fragment bits and a fresh checksum, then the data
    of all the fragments in order. *)
Theorem ip_reass_known :
  if clash fs n then
    ip_reass p s = Done (None, with_rd ipr r' (with_heap (freed ys None (s_heap s)) s))
  else if complete r' fs n then
    exists q s', ip_reass p s = Done (Some q, s') /\ f_head all None = Some q /\ completed q s'
  else
    exists s1 log, ip_reass p s = Done (None, with_log log s1) /\ placed s2 ipr r' b n a s1
      /\ (plausible r' b n a -> log = h_asserts (s_heap s1)).
Proof.
  assert (Hr2 : s_reassdatas s2 !! ipr = Some r') by apply lookup_insert_eq.
  assert (Hq2 : queue (s_heap s2) (rd_p r') fs None)
    by (unfold r'; destruct (entry_fields r d) as (_ & -> & _); exact Hq).
  pose proof (chain_frag_run s2 ipr r' fs p ys d pt Hr2 Hq2 Hap Hs Hok Hp Haw) as H.
  rewrite ip_reass_start. fold n a b in H. destruct (clash fs n).
  - run_with H. unfold mret, M_ret. do 2 f_equal. unfold s2. 
    assert (Hc : u16 (u16 (ip_reass_pbufcount (s_reass s) + clen ys) + - clen ys)
                 = ip_reass_pbufcount (s_reass s)).
    { unfold u16. rewrite Zplus_mod_idemp_l. replace (_ + - clen ys) with (ip_reass_pbufcount (s_reass s)) by lia.
      apply Z.mod_small. pose proof (u8_range (Z.of_nat (length ys))). unfold clen, is_u8, IP_REASS_MAX_PBUFS in *. lia. }
    unfold add_count. cbn. rewrite Hc. by destruct s as [? ? ? ? ? ? ? ? ? ? ? ? ? ? ? ? ? ? []].
  - destruct H as (s1 & log & E & Hpl & Hlog). destruct (complete r' fs n).
    + run_with E. destruct (complete_run s1 log Hpl) as (q & s' & E' & Hh & Hc).
      exists q, s'. split; [by run_with E' | by split].
    + exists s1, log. split; [by run_with E | by split].
Qed.
End ip_reass.

(** ** An example *)

(** The bytes [data] at [off] of the datagram 10.0.0.5 -> 10.0.0.1 with the
    identification [id]. *)
Definition ex_fragment_of (id off mf : Z) (data : list Z) : list Z :=
  [0x45; 0; 0; 20 + Z.of_nat (length data); 0; id; 0x20 * mf; off / 8; 64; 17; 0; 0; 10; 0; 0; 5; 10; 0; 0; 1]
  ++ data.
Definition ex_fragment : Z -> Z -> list Z -> list Z := ex_fragment_of 7.
Fixpoint ex_pbufs (l : loc) (ds : list (list Z)) : list (loc * pbuf) :=
  match ds with
  | [] => []
  | d :: ds => (l, Pbuf None (Some (Ptr l 16)) (Z.of_nat (length d)) (Z.of_nat (length d)) PBUF_RAM 0 1)
               :: ex_pbufs (Pos.succ l) ds
  end.
Fixpoint ex_blocks (l : loc) (ds : list (list Z)) : list (loc * Heap.block) :=
  match ds with [] => [] | d :: ds => (l, Block 16 d) :: ex_blocks (Pos.succ l) ds end.
(** The packets [ds] at the locations from 1 on. *)
Definition ex_received (ds : list (list Z)) : stack :=
  with_heap (Heap (list_to_map (ex_blocks 1 ds)) (list_to_map (ex_pbufs 1 ds))
               (Pos.of_succ_nat (length ds)) 0 (fun _ => Some (fun _ => 0)) []) ex_routes.

Definition state_after {A} (m : M stack A) (s : stack) : stack :=
  match m s with Done (_, s') => s' | Halt _ => s end.

Definition ex_data1 : list Z := [1; 2; 3; 4; 5; 6; 7; 8].
Definition ex_data2 : list Z := [9; 10; 11; 12; 13; 14; 15; 16].
Definition ex_first : list Z := ex_fragment 0 1 ex_data1.
Definition ex_second : list Z := ex_fragment 8 0 ex_data2.

(** The second fragment has come first. *)
Definition ex_waiting_frag : stack :=
  state_after (@ip_reass memp_nsc ex_env 2) (ex_received [ex_first; ex_second]).
Definition ex_entry : ip_reassdata := IpReassdata None (Some 2%positive) (take 20 ex_second) 16 1 3.

Lemma ex_arrives : arrives (s_heap ex_waiting_frag) 1 [1%positive] ex_first (Ptr 1 16).
Proof.
  split.
  - apply (read_packet_sound 2). vm_compute. reflexivity.
  - intros l b pt ->%list_elem_of_singleton. vm_compute. intros [= <-] [= <-]. reflexivity.
  - apply refs_oneb_sound. vm_compute. reflexivity.
  - eexists. split; [vm_compute; reflexivity|]. split; [reflexivity | by vm_compute].
  - by vm_compute.
Qed.
Lemma ex_queue : queue (s_heap ex_waiting_frag) (Some 2%positive) [new_frag 2 [2%positive] ex_second] None.
Proof.
  split; [done|]. exists None. split; [|done]. split.
  - apply (read_packet_sound 2). vm_compute. reflexivity.
  - intros l b pt ->%list_elem_of_singleton. vm_compute. intros [= <-] [= <-]. reflexivity.
  - apply refs_oneb_sound. vm_compute. reflexivity.
  - eexists. split; [vm_compute; reflexivity | by vm_compute].
  - by vm_compute.
  - by vm_compute.
  - by vm_compute.
Qed.

(** The first fragment completes the datagram. *)
Lemma ip_reass_known_witness : exists s' c,
  @ip_reass memp_nsc ex_env 1 ex_waiting_frag = Done (Some 1%positive, s')
  /\ packet (s_heap s') (Some 1%positive) [1; 2]%positive
       (out_header (take 20 ex_first) 36 c ++ ex_data1 ++ ex_data2).
Proof.
  pose proof (@ip_reass_known memp_nsc ex_env ex_waiting_frag 1 [1%positive] ex_first (Ptr 1 16) 3 [] []
    ex_entry [new_frag 2 [2%positive] ex_second]) as H.
  assert (Hok : h_ok (s_heap ex_waiting_frag)) by (apply h_okb_sound; vm_compute; reflexivity).
  specialize (H Hok ex_arrives eq_refl ltac:(by vm_compute)).
  assert (Hls : rds_are ex_waiting_frag ([] ++ 3%positive :: [])).
  { split; [by vm_compute|]. exists None. split; [vm_compute; reflexivity | done]. }
  assert (Hr : s_reassdatas ex_waiting_frag !! 3%positive = Some ex_entry) by (vm_compute; reflexivity).
  assert (Hm : first_match ex_waiting_frag ex_first [] 3).
  { split; [|constructor]. exists ex_entry. split; [exact Hr | vm_compute; reflexivity]. }
  assert (Hb : bytes_ok (rd_iphdr ex_entry)) by (apply (bool_decide_unpack _); vm_compute; exact I).
  specialize (H Hls Hm Hr eq_refl Hb).
  assert (Haw : away (new_frag 1 [1%positive] ex_first) [new_frag 2 [2%positive] ex_second]).
  { intros f l ->%list_elem_of_singleton ->%list_elem_of_singleton. by intros E%list_elem_of_singleton. }
  assert (Hap : apart [new_frag 2 [2%positive] ex_second]) by (apply NoDup_singleton).
  specialize (H ex_queue Hap ltac:(repeat constructor) Haw ltac:(by vm_compute)).
  replace (clash _ _) with false in H by (vm_compute; reflexivity).
  replace (complete _ _ _) with true in H by (vm_compute; reflexivity).
  destruct H as (q & s' & E & Hq & c & _ & [Hpk _ _ _ _ _ _ _]).
  replace q with 1%positive in * by (vm_compute in Hq; congruence).
  exists s', c. split; [exact E|]. exact Hpk.
Defined.

(** ** A hole *)
Definition ex_data3 : list Z := [17; 18; 19; 20; 21; 22; 23; 24].
(** The bytes [0,8), [24,32) and [16,24) of a datagram of 32 bytes, in this
    order; the bytes [8,16) never come. *)
Definition ex_holed : stack :=
  ex_received [ex_fragment 0 1 ex_data1; ex_fragment 24 0 ex_data3; ex_fragment 16 1 ex_data2].

(** The run of a fault of the code.  A fragment put between two others is not
    compared with the one before it, so a datagram with a hole is taken to be
    complete: after the third fragment ip_reass returns a packet whose header says 52 bytes, that holds
    44, and in which the data behind the hole has moved up. *)
Example reassembly_overlooks_hole : exists s' c0 c1,
  (r1 ← @ip_reass memp_nsc ex_env 1; r2 ← @ip_reass memp_nsc ex_env 2;
   r3 ← @ip_reass memp_nsc ex_env 3; mret (r1, r2, r3)) ex_holed
  = Done ((None, None, Some 1%positive), s')
  /\ packet (s_heap s') (Some 1%positive) [1; 3; 2]%positive
       ([0x45; 0; 0; 52; 0; 7; 0; 0; 64; 17; c0; c1; 10; 0; 0; 5; 10; 0; 0; 1]
        ++ ex_data1 ++ ex_data2 ++ ex_data3)
  /\ h_asserts (s_heap s') = [].
Proof.
  eexists _, _, _. split; [vm_compute; reflexivity|].
  split; [apply (read_packet_sound 4); vm_compute; reflexivity | reflexivity].
Qed.

(** ** A dangling datagram *)
Fixpoint feed {MC : MempConf} {EV : Env} (ps : list loc) : M stack unit :=
  match ps with [] => mret tt | p :: ps => _ ← ip_reass p; feed ps end.

(** One fragment of the datagrams 7 and 8 each and eight of 9, none of them a
    first one; then another one of 7, for which there is no room. *)
Definition ex_crowd : stack :=
  ex_received ([ex_fragment_of 7 8 1 ex_data1; ex_fragment_of 8 8 1 ex_data1]
    ++ map (fun k => ex_fragment_of 9 (8 * Z.of_nat k) 1 ex_data1) (seq 1 8)
    ++ [ex_fragment_of 7 16 1 ex_data2]).

(** The run of another one.  To make room ip_reass frees the oldest other datagram, but unlinks it
    from the last node of the queue that has a successor instead of from the
    node before it.  Here these are the datagram itself and another one: the
    queue goes on pointing to the freed datagram, and the same call reads it. *)
Example ip_reass_use_after_free : exists s,
  @feed memp_nsc ex_env [1; 2; 3; 4; 5; 6; 7; 8; 9; 10]%positive ex_crowd = Done (tt, s)
  /\ h_asserts (s_heap s) = [] /\ @ip_reass memp_nsc ex_env 11 s = Halt UB.
Proof. eexists. split; [vm_compute; reflexivity|]. split; [reflexivity | vm_compute; reflexivity]. Qed.
