(* ===== verification/TcpTimers.v ===== *)
(** * TIME-WAIT ends (tcp_tmr, tcp_slowtmr)

    The walk of tcp_slowtmr over the list of connections in TIME-WAIT, and
    that every one of them is freed after a bounded number of timer calls. *)
From S2P Require Import Prelude Inet Heap Pbuf PbufSpec Stack Chains Ip TcpBase TcpOut Tcp TcpIn TcpSpec TcpArith.
#[local] Open Scope string_scope.
#[local] Open Scope list_scope.
#[local] Open Scope Z_scope.

(** ** The list of TIME-WAIT *)
Definition tw_list (s : stack) (ls : list loc) : Prop :=
  chain (map_next pcb_next (s_tpcbs s)) (tcp_tw_pcbs (s_tcp s)) ls None.

Definition pcb_set_next (n : option loc) (b : tcp_pcb) : tcp_pcb := b <| pcb_next := n |>.
Lemma pcb_next_set n b : pcb_next (pcb_set_next n b) = n.
Proof. done. Qed.

Definition set_tw (h : option loc) (s : stack) : stack :=
  s <| s_tcp := (s_tcp s) <| tcp_tw_pcbs := h |> |>.
Definition del_pcb (l : loc) (s : stack) : stack := s <| s_tpcbs := delete l (s_tpcbs s) |>.

(** The control blocks [gone] are freed, the head and the links of the list
    are others, and nothing else has changed. *)
Definition swept (s s' : stack) (gone : list loc) : Prop :=
  exists m h, s' = set_tw h (s <| s_tpcbs := m |>)
    /\ forall l, pcb_set_next None <$> m !! l
       = if bool_decide (l ∈ gone) then None else pcb_set_next None <$> s_tpcbs s !! l.

Lemma swept_refl s : swept s s [].
Proof.
  exists (s_tpcbs s), (tcp_tw_pcbs (s_tcp s)). split.
  - destruct s as [? ? ? ? ? ? ? ? ? ? g]. by destruct g.
  - intros l. by rewrite bool_decide_eq_false_2 by by intros ?%elem_of_nil.
Qed.

Lemma swept_trans s s1 s2 g1 g2 : swept s s1 g1 -> swept s1 s2 g2 -> swept s s2 (g1 ++ g2).
Proof.
  intros (m1 & h1 & -> & H1) (m2 & h2 & -> & H2). exists m2, h2. split; [done|]. intros l.
  rewrite H2. cbn. rewrite H1.
  repeat case_bool_decide; set_solver.
Qed.

Lemma swept_lookup s s' gone l b : swept s s' gone -> s_tpcbs s !! l = Some b -> l ∉ gone ->
  exists n, s_tpcbs s' !! l = Some (pcb_set_next n b).
Proof.
  intros (m & h & -> & H) Hb Hl. specialize (H l). rewrite Hb, bool_decide_eq_false_2 in H by done.
  cbn in *. destruct (m !! l) as [b'|]; [|done]. cbn in H. exists (pcb_next b').
  injection H as H. f_equal. destruct b, b'; cbn in *. by simplify_eq.
Qed.

(** ** One tick *)
Definition TIME_WAIT_TICKS : Z := 2 * TCP_MSL / TCP_SLOW_INTERVAL.
(** Has the control block been in TIME-WAIT for too long at time [t]? *)
Definition tw_old (t : Z) (b : tcp_pcb) : bool := TIME_WAIT_TICKS <? u32 (t - pcb_tmr b).

(** The list [ls] of connections in TIME-WAIT; [old] tells which have expired. *)
Definition tw_node (s : stack) (old : loc -> bool) (l : loc) : Prop :=
  exists b, s_tpcbs s !! l = Some b /\ pcb_state b = TIME_WAIT
    /\ old l = tw_old (tcp_ticks (s_tcp s)) b.

Lemma tw_node_swept s s' old gone l :
  swept s s' gone -> l ∉ gone -> tw_node s old l -> tw_node s' old l.
Proof.
  intros H Hl (b & Hb & Hs & Ho). destruct (swept_lookup _ _ _ _ _ H Hb Hl) as [n Hn].
  destruct H as (m & h & -> & _). by exists (pcb_set_next n b).
Qed.

(** Taking the node behind [last xs] off the list. *)
Lemma tw_unlink_run s xs l ys b :
  tw_list s (xs ++ l :: ys) -> s_tpcbs s !! l = Some b ->
  exists s', slowtmr_unlink TW (last xs) l s = Done (tt, s')
    /\ tw_list s' (xs ++ ys) /\ chain (map_next pcb_next (s_tpcbs s')) (pcb_next b) ys None
    /\ s_tpcbs s' !! l = Some b /\ swept s s' [].
Proof.
  intros H Hb. unfold slowtmr_unlink. rewrite (bind_run _ _ _ (s_tcp s) s) by done.
  run_with (any_next_run _ _ _ (anext_pcb _ _ _ Hb)).
  pose proof (chain_NoDup _ _ _ H) as Hnd. pose proof (NoDup_mid _ _ _ Hnd) as [Hx Hy].
  assert (Hmn : map_next pcb_next (s_tpcbs s) l = Some (pcb_next b)) by (unfold map_next; by rewrite Hb).
  destruct xs as [|q xs _] using rev_ind.
  - unfold tw_list in H. cbn [last app chain] in *. destruct H as (Hh & n & Hn & H).
    rewrite Hmn in Hn. injection Hn as <-.
    rewrite bool_decide_true by done. run_assert.
    exists (set_tw (pcb_next b) s). do 4 (split; [done|]).
    exists (s_tpcbs s), (pcb_next b). split; [by destruct s|]. intros k.
    by rewrite bool_decide_eq_false_2 by by intros ?%elem_of_nil.
  - rewrite last_snoc. rewrite <- app_assoc in H |- *. cbn [app] in *.
    assert (exists bq, s_tpcbs s !! q = Some bq) as [bq Hq].
    { pose proof H as Hc. apply chain_split in Hc as (_ & nq & Hnq & _). unfold map_next in Hnq.
      destruct (s_tpcbs s !! q) as [bq|]; [by exists bq | done]. }
    assert (Hql : q <> l) by (intros ->; apply Hx, elem_of_app; right; by left).
    rewrite bool_decide_false.
    2:{ intros E. unfold tw_list in H. cbn [list_head] in E. rewrite E in H.
        destruct xs as [|x xs]; destruct H as ([= ->] & _); [done|]. apply Hx. by left. }
    run_assert. rewrite any_set_next_run by (rewrite (anext_pcb _ _ _ Hq); by eexists).
    exists (put_pcb q (pcb_set_next (pcb_next b) bq) s).
    split; [unfold set_next; by rewrite Hq|].
    split; [by eapply map_chain_unlink; [exact pcb_next_set | exact H|..]|].
    split.
    { apply (chain_split _ _ xs) in H as (_ & n & _ & H). destruct H as (-> & n' & Hn' & H).
      rewrite Hmn in Hn'. injection Hn' as <-. eapply map_chain_ext; [|exact H].
      intros k Hk. cbn. apply lookup_insert_ne. intros <-.
      apply NoDup_app in Hnd as (_ & Hd & _). apply (Hd q); [|by right].
      apply elem_of_app. right. by left. }
    split; [by rewrite put_pcb_ne|].
    exists (<[q := pcb_set_next (pcb_next b) bq]> (s_tpcbs s)), (tcp_tw_pcbs (s_tcp s)).
    split; [destruct s as [? ? ? ? ? ? ? ? ? ? g]; by destruct g|]. intros k.
    rewrite bool_decide_eq_false_2 by by intros ?%elem_of_nil.
    destruct (decide (k = q)) as [->|]; [by rewrite lookup_insert_eq, Hq | by rewrite lookup_insert_ne].
Qed.

Lemma tw_free_run s ls l b : tw_list s ls -> l ∉ ls -> s_tpcbs s !! l = Some b ->
  free_pcb l s = Done (tt, del_pcb l s) /\ tw_list (del_pcb l s) ls /\ swept s (del_pcb l s) [l].
Proof.
  intros H Hl Hb. split; [unfold free_pcb; by run_with (pcb_get_run _ _ _ Hb)|]. split.
  - eapply map_chain_ext; [|exact H]. intros k Hk. cbn. apply lookup_delete_ne. by intros ->.
  - exists (delete l (s_tpcbs s)), (tcp_tw_pcbs (s_tcp s)).
    split; [destruct s as [? ? ? ? ? ? ? ? ? ? g]; by destruct g|]. intros k.
    destruct (decide (k = l)) as [->|].
    + by rewrite lookup_delete_eq, bool_decide_eq_true_2 by by left.
    + by rewrite lookup_delete_ne, bool_decide_eq_false_2 by (by rewrite ?list_elem_of_singleton).
Qed.

Lemma tcp_pcb_purge_waiting s l b : s_tpcbs s !! l = Some b -> pcb_state b = TIME_WAIT ->
  tcp_pcb_purge l s = Done (tt, s).
Proof.
  intros Hb Hst. unfold tcp_pcb_purge. run_with (any_state_run _ _ _ (astate_pcb _ _ _ Hb)).
  by rewrite Hst.
Qed.

(** The walk from [p] on, when [xs] is behind it. *)
Lemma slowtmr_tw_run old ys fuel s p xs :
  tw_list s (xs ++ ys) -> chain (map_next pcb_next (s_tpcbs s)) p ys None ->
  Forall (tw_node s old) ys -> (length ys <= fuel)%nat ->
  exists s', slowtmr_tw fuel (last xs) p s = Done (tt, s')
    /\ tw_list s' (xs ++ filter (fun l : loc => ~ old l) ys) /\ swept s s' (filter old ys).
Proof.
  revert fuel s p xs. induction ys as [|l ys IH]; intros fuel s p xs H Hp Hw Hf.
  { cbn in Hp. subst p. exists s. split; [by destruct fuel|]. split; [done | apply swept_refl]. }
  pose proof Hp as (-> & _). apply map_chain_lookup in Hp as (b & Hb & Hp).
  destruct fuel as [|fuel]; [cbn in Hf; lia|]. apply Forall_cons in Hw as [(b' & Hb' & Hst & Ho) Hw].
  simplify_eq. cbn [slowtmr_tw]. run_with (pcb_get_run _ _ _ Hb).
  rewrite Hst. run_assert. rewrite (bind_run _ _ _ (tcp_ticks (s_tcp s)) s) by done.
  change (2 * TCP_MSL / TCP_SLOW_INTERVAL <? u32 (tcp_ticks (s_tcp s) - pcb_tmr b))
    with (tw_old (tcp_ticks (s_tcp s)) b). rewrite <- Ho.
  destruct (NoDup_mid _ _ _ (chain_NoDup _ _ _ H)) as [Hx Hy].
  destruct (old l) eqn:Hol.
  - run_with (tcp_pcb_purge_waiting _ _ _ Hb Hst).
    destruct (tw_unlink_run s xs l ys b H Hb) as (s1 & E1 & H1 & Hp1 & Hb1 & S1). run_with E1.
    run_with (pcb_get_run _ _ _ Hb1). cbv zeta.
    destruct (tw_free_run s1 _ l b H1 ltac:(by apply not_elem_of_app) Hb1) as (E2 & H2 & S2).
    run_with E2. pose proof (swept_trans _ _ _ _ _ S1 S2) as S. cbn [app] in S.
    destruct (IH fuel (del_pcb l s1) (pcb_next b) xs) as (s' & E & Hs & Hsw);
      [done | | | cbn in Hf; lia |].
    + eapply map_chain_ext; [|exact Hp1]. intros k Hk. cbn. apply lookup_delete_ne. by intros ->.
    + rewrite Forall_forall in Hw |- *. intros k Hk. apply (tw_node_swept _ _ _ _ _ S); [|by apply Hw].
      rewrite list_elem_of_singleton. by intros ->.
    + exists s'. split; [done|]. rewrite filter_cons_False by (rewrite Hol; naive_solver).
      split; [done|]. rewrite filter_cons_True by by rewrite Hol. apply (swept_trans _ _ _ _ _ S Hsw).
  - destruct (IH fuel s (pcb_next b) (xs ++ [l])) as (s' & E & Hs & Hsw);
      [by rewrite <- app_assoc | done | done | cbn in Hf; lia |].
    rewrite last_snoc in E. rewrite <- app_assoc in Hs. exists s'. split; [done|].
    rewrite filter_cons_True by (rewrite Hol; naive_solver).
    rewrite (filter_cons_False _ l) by (rewrite Hol; naive_solver). done.
Qed.

(** ** Calls of tcp_tmr *)
Section timers.
Context {MC : MempConf} {EV : Env}.

(** Nothing but connections in TIME-WAIT. *)
Definition quiet (s : stack) (ls : list loc) : Prop :=
  tcp_active_pcbs (s_tcp s) = None /\ tw_list s ls
  /\ Forall (fun l => exists b, s_tpcbs s !! l = Some b /\ pcb_state b = TIME_WAIT) ls.

Definition aged (s : stack) (t : Z) (l : loc) : bool :=
  match s_tpcbs s !! l with Some b => tw_old t b | None => false end.

Definition clock (t k : Z) (s : stack) : stack :=
  s <| s_tcp := (s_tcp s) <| tcp_ticks := t |> <| tcp_timer := k |> |>.
(** As [swept], and tcp_ticks and tcp_timer are [t] and [k]. *)
Definition slept (s s' : stack) (t k : Z) (gone : list loc) : Prop :=
  exists s1, swept s s1 gone /\ s' = clock t k s1.

Lemma quiet_sweep s s' ls (old : loc -> bool) :
  quiet s ls -> swept s s' (filter old ls) -> tw_list s' (filter (fun l => ~ old l) ls) ->
  quiet s' (filter (fun l => ~ old l) ls).
Proof.
  intros (Ha & _ & Hw) Hs Ht. split; [|split; [done|]].
  - destruct Hs as (m & h & -> & _). done.
  - rewrite Forall_forall in Hw |- *. intros l [Hk Hl]%list_elem_of_filter.
    destruct (Hw l Hl) as (b & Hb & Hst).
    destruct (swept_lookup _ _ _ l b Hs Hb) as [n Hn]; [|by exists (pcb_set_next n b)].
    by intros [? _]%list_elem_of_filter.
Qed.

Lemma clock_id s : s = clock (tcp_ticks (s_tcp s)) (tcp_timer (s_tcp s)) s.
Proof. destruct s as [? ? ? ? ? ? ? ? ? ? g]. by destruct g. Qed.
Lemma swept_clock s s' t k gone : swept (clock t k s) s' gone ->
  exists s1, swept s s1 gone /\ s' = clock t k s1.
Proof.
  intros (m & h & -> & H). exists (set_tw h (s <| s_tpcbs := m |>)). split; [|done].
  by exists m, h.
Qed.
Lemma slept_trans s s1 s2 t1 k1 t2 k2 g1 g2 :
  slept s s1 t1 k1 g1 -> slept s1 s2 t2 k2 g2 -> slept s s2 t2 k2 (g1 ++ g2).
Proof.
  intros (s1' & S1 & ->) (s2' & S2 & ->).
  destruct (swept_clock _ _ _ _ _ S2) as (s3 & S3 & ->). exists s3.
  split; [by eapply swept_trans|]. done.
Qed.
Lemma slept_clock s t k : slept s (clock t k s) t k [].
Proof. exists s. split; [apply swept_refl | done]. Qed.
Lemma slept_lookup s s' t k gone l b : slept s s' t k gone -> s_tpcbs s !! l = Some b -> l ∉ gone ->
  exists n, s_tpcbs s' !! l = Some (pcb_set_next n b).
Proof. intros (s1 & S & ->) Hb Hl. by apply (swept_lookup _ _ _ _ _ S). Qed.
Lemma slept_aged s s' t k t' gone l : slept s s' t k gone -> l ∉ gone -> aged s' t' l = aged s t' l.
Proof.
  intros (s1 & (m & h & -> & H) & ->) Hl. specialize (H l). unfold aged. cbn.
  rewrite bool_decide_eq_false_2 in H by done.
  destruct (m !! l) as [b|], (s_tpcbs s !! l) as [b'|]; try done. cbn in H.
  injection H as H. destruct b, b'; cbn in *. by simplify_eq.
Qed.
Lemma slept_iff s s' t k g g' :
  (forall l, l ∈ g <-> l ∈ g') -> slept s s' t k g -> slept s s' t k g'.
Proof.
  intros Hg (s1 & (m & h & -> & H) & ->). eexists _. split; [|done]. exists m, h. split; [done|].
  intros l. rewrite H. by rewrite (bool_decide_ext _ _ (Hg l)).
Qed.

Lemma quiet_clock s ls t k : quiet s ls -> quiet (clock t k s) ls.
Proof. done. Qed.

Lemma tcp_slowtmr_run s ls : quiet s ls -> let t := u32 (tcp_ticks (s_tcp s) + 1) in
  exists s', tcp_slowtmr s = Done (tt, s') /\ slept s s' t (tcp_timer (s_tcp s)) (filter (aged s t) ls)
    /\ quiet s' (filter (fun l : loc => ~ aged s t l) ls).
Proof.
  intros Hq t. pose proof Hq as (Ha & Ht & Hw). unfold tcp_slowtmr.
  set (s0 := clock t (tcp_timer (s_tcp s)) s).
  rewrite (bind_run _ _ _ tt s0).
  2:{ unfold utcp, modify, s0, clock. destruct s as [? ? ? ? ? ? ? ? ? ? g]. by destruct g. }
  rewrite (bind_run _ _ _ s0 s0) by done.
  rewrite (bind_run _ _ _ tt s0).
  2:{ change (tcp_active_pcbs (s_tcp s0)) with (tcp_active_pcbs (s_tcp s)). rewrite Ha.
      by destruct (pcbs_fuel s0). }
  rewrite (bind_run _ _ _ s0 s0) by done.
  destruct (slowtmr_tw_run (aged s t) ls (pcbs_fuel s0) s0 (tcp_tw_pcbs (s_tcp s0)) []) as (s' & E & H1 & H2).
  - done.
  - done.
  - rewrite Forall_forall in Hw |- *. intros l Hl. destruct (Hw l Hl) as (b & Hb & Hst).
    exists b. split; [done|]. split; [done|]. unfold aged. by rewrite Hb.
  - pose proof (map_chain_length _ _ _ _ Ht). unfold pcbs_fuel. cbn. lia.
  - exists s'. split; [exact E|]. cbn [app] in H1.
    split; [|by apply (quiet_sweep s0)].
    destruct (swept_clock _ _ _ _ _ H2) as (s1 & H3 & ->). by exists s1.
Qed.

Lemma tcp_fasttmr_run s : tcp_active_pcbs (s_tcp s) = None -> tcp_fasttmr s = Done (tt, s).
Proof. intros H. unfold tcp_fasttmr. rewrite (bind_run _ _ _ s s) by done. rewrite H. by destruct (pcbs_fuel s). Qed.

(** A call of tcp_tmr: the slow timer runs when the counter becomes odd. *)
Lemma tcp_tmr_run s ls : quiet s ls -> let k := u8 (tcp_timer (s_tcp s) + 1) in
  let s0 := clock (tcp_ticks (s_tcp s)) k s in
  tcp_tmr s = if Z.odd k then tcp_slowtmr s0 else Done (tt, s0).
Proof.
  intros (Ha & _ & _) k s0. unfold tcp_tmr. run_with (tcp_fasttmr_run _ Ha).
  rewrite (bind_run _ _ _ tt s0).
  2:{ unfold utcp, modify, s0, clock. destruct s as [? ? ? ? ? ? ? ? ? ? g]. by destruct g. }
  rewrite (bind_run _ _ _ k s0) by done.
  assert (E : (Z.land k 1 =? 0) = negb (Z.odd k)).
  { change 1 with (Z.ones 1). rewrite Z.land_ones by lia. change (2 ^ 1) with 2.
    rewrite Zmod_odd. by destruct (Z.odd k). }
  rewrite E. by destruct (Z.odd k).
Qed.

Lemma odd_u8 x : Z.odd (u8 x) = Z.odd x.
Proof.
  unfold u8. rewrite (Z.div_mod x 256) at 2 by lia. rewrite Z.odd_add, Z.odd_mul. done.
Qed.

(** Two calls, in which the slow timer runs once. *)
Lemma two_calls_run s ls : quiet s ls -> let t := u32 (tcp_ticks (s_tcp s) + 1) in
  exists s' k, (tcp_tmr;; tcp_tmr) s = Done (tt, s') /\ slept s s' t k (filter (aged s t) ls)
    /\ quiet s' (filter (fun l : loc => ~ aged s t l) ls).
Proof.
  intros Hq t. pose proof (tcp_tmr_run s ls Hq) as E. cbv zeta in E.
  set (k := u8 (tcp_timer (s_tcp s) + 1)) in *. set (s0 := clock (tcp_ticks (s_tcp s)) k s) in *.
  assert (Hodd : Z.odd (u8 (k + 1)) = negb (Z.odd k)) by (rewrite odd_u8, Z.odd_add; by destruct (Z.odd k)).
  assert (S0 : slept s s0 (tcp_ticks (s_tcp s)) k []) by apply slept_clock.
  destruct (Z.odd k) eqn:Hk; cbn [negb] in Hodd.
  - destruct (tcp_slowtmr_run s0 ls Hq) as (s1 & E1 & S1 & Hq1). rewrite E1 in E. run_with E.
    rewrite (tcp_tmr_run s1 _ Hq1).
    assert (tcp_timer (s_tcp s1) = k /\ tcp_ticks (s_tcp s1) = t) as [-> ->]
      by (destruct S1 as (s2 & (m & h & -> & _) & ->); done).
    rewrite Hodd. eexists _, _. split; [reflexivity|]. split; [|exact Hq1].
    pose proof (slept_trans _ _ _ _ _ _ _ _ _ S0 S1) as S.
    pose proof (slept_trans _ _ _ _ _ _ _ _ _ S (slept_clock s1 t (u8 (k + 1)))) as S'.
    by rewrite app_nil_r in S'.
  - run_with E. rewrite (tcp_tmr_run s0 ls Hq). change (tcp_timer (s_tcp s0)) with k. rewrite Hodd.
    set (s1 := clock (tcp_ticks (s_tcp s0)) (u8 (k + 1)) s0).
    destruct (tcp_slowtmr_run s1 ls Hq) as (s' & E1 & S1 & Hq1).
    exists s', (tcp_timer (s_tcp s1)). split; [exact E1|]. split; [|exact Hq1].
    exact (slept_trans _ _ _ _ _ _ _ _ _ (slept_clock s _ _) S1).
Qed.

(** ** Time passes *)
Fixpoint times (n : nat) (m : M stack unit) : M stack unit :=
  match n with O => mret tt | S n => m;; times n m end.

(** Not aged at any of the next [n] ticks. *)
Definition survives (s : stack) (n : nat) (l : loc) : bool :=
  forallb (fun k => negb (aged s (u32 (tcp_ticks (s_tcp s) + Z.of_nat k)) l)) (seq 1 n).

Lemma survives_S s n l :
  survives s (S n) l = survives s n l && negb (aged s (u32 (tcp_ticks (s_tcp s) + Z.of_nat (S n))) l).
Proof. unfold survives. rewrite seq_S, forallb_app. cbn. by rewrite andb_true_r. Qed.

Lemma times_snoc n m s s' : times n m s = Done (tt, s') -> times (S n) m s = m s'.
Proof.
  revert s. induction n as [|n IH]; intros s.
  - intros [= <-]. cbn. destruct (m s) as [[[] ?]|] eqn:E; [by rewrite (bind_run _ _ _ _ _ E) | by apply bind_halt].
  - cbn. destruct (m s) as [[[] s1]|] eqn:E; [|by rewrite (bind_halt _ _ _ _ E)].
    rewrite !(bind_run _ _ _ _ _ E). intros H. by apply IH in H.
Qed.

Lemma times_double n m s : times (2 * n) m s = times n (m;; m) s.
Proof.
  revert s. induction n as [|n IH]; intros s; [done|].
  replace (2 * S n)%nat with (S (S (2 * n))) by lia. cbn [times].
  destruct (m s) as [[[] s1]|] eqn:E1; [|by rewrite !(bind_halt _ _ _ _ E1), (bind_halt _ _ _ _ (bind_halt _ _ _ _ E1))].
  run_with E1. destruct (m s1) as [[[] s2]|] eqn:E2.
  - run_with E2. rewrite IH. erewrite bind_run; [reflexivity|]. by run_with E1.
  - rewrite (bind_halt _ _ _ _ E2). symmetry. apply bind_halt. by run_with E1.
Qed.

Lemma sleep_run s ls n : quiet s ls -> is_u32 (tcp_ticks (s_tcp s)) ->
  exists s' k, times n (tcp_tmr;; tcp_tmr) s = Done (tt, s')
    /\ slept s s' (u32 (tcp_ticks (s_tcp s) + Z.of_nat n)) k (filter (fun l : loc => ~ survives s n l) ls)
    /\ quiet s' (filter (survives s n) ls).
Proof.
  intros Hq Ht. induction n as [|n (s1 & k1 & E1 & S1 & Hq1)].
  - exists s, (tcp_timer (s_tcp s)). split; [done|]. rewrite Z.add_0_r, u32_small by done.
    rewrite filter_none by (apply Forall_forall; intros; cbn; naive_solver).
    rewrite filter_id by (apply Forall_forall; intros; done).
    split; [rewrite (clock_id s) at 2; apply slept_clock | done].
  - destruct (two_calls_run s1 _ Hq1) as (s' & k & E & S2 & Hq').
    assert (tcp_ticks (s_tcp s1) = u32 (tcp_ticks (s_tcp s) + Z.of_nat n)) as Et
      by (destruct S1 as (s2 & (m & h & -> & _) & ->); done).
    assert (u32 (tcp_ticks (s_tcp s1) + 1) = u32 (tcp_ticks (s_tcp s) + Z.of_nat (S n))) as Et'.
    { rewrite Et. unfold u32. rewrite Zplus_mod_idemp_l. f_equal. lia. }
    rewrite Et' in *. set (t := u32 (tcp_ticks (s_tcp s) + Z.of_nat (S n))) in *.
    assert (Hag : forall l, survives s n l -> aged s1 t l = aged s t l).
    { intros l Hl. apply (slept_aged _ _ _ _ _ _ _ S1). by intros [Hn _]%list_elem_of_filter. }
    assert (HS : forall l, survives s (S n) l <-> ~ aged s1 t l /\ survives s n l).
    { intros l. rewrite survives_S. fold t. destruct (survives s n l) eqn:Hl; cbn; [|naive_solver].
      rewrite Hag by by rewrite Hl. destruct (aged s t l); naive_solver. }
    exists s', k. split; [by rewrite (times_snoc _ _ _ _ E1)|]. split.
    + eapply slept_iff; [|exact (slept_trans _ _ _ _ _ _ _ _ _ S1 S2)]. intros l.
      rewrite elem_of_app, !list_elem_of_filter, HS. destruct (aged s1 t l), (survives s n l); naive_solver.
    + rewrite (list_filter_iff _ _ _ HS), <- list_filter_filter. done.
Qed.

(** No control block outlives 242 ticks. *)
Lemma survives_no_longer s l n b : s_tpcbs s !! l = Some b -> (242 <= n)%nat -> survives s n l = false.
Proof.
  intros Hb Hn. apply not_true_is_false. intros H. unfold survives in H.
  rewrite forallb_forall in H.
  set (d := u32 (tcp_ticks (s_tcp s) - pcb_tmr b)).
  set (k := if d <=? 240 then 241 - d else if d =? 2 ^ 32 - 1 then 242 else 1).
  assert (Hd : is_u32 d) by apply u32_range.
  assert (Hk : 1 <= k <= 242 /\ 240 < (d + k) mod 2 ^ 32)
    by (unfold k, is_u32 in *; repeat case_match; Z.div_mod_to_equations; lia).
  specialize (H (Z.to_nat k)). rewrite in_seq in H. specialize (H ltac:(lia)).
  rewrite Z2Nat.id in H by lia. unfold aged in H. rewrite Hb in H. apply negb_true_iff in H.
  unfold tw_old in H. change TIME_WAIT_TICKS with 240 in H. apply Z.ltb_ge in H.
  replace (u32 (u32 (tcp_ticks (s_tcp s) + k) - pcb_tmr b)) with ((d + k) mod 2 ^ 32) in H; [lia|].
  unfold d, u32. rewrite Zplus_mod_idemp_l, Zminus_mod_idemp_l. f_equal. lia.
Qed.

(** C19: When only connections in TIME-WAIT are left, tcp_tmr keeps each of
    them until it has aged by 2 MSL and then frees it: after two calls per
    slow tick, for [n] ticks, the list holds those that have not expired in
    that time, the others are freed, no other control block has changed; and
    after 242 ticks (121 s) the list is empty, whatever the pcbs' timestamps. *)
Theorem time_wait_ends s ls n : quiet s ls -> is_u32 (tcp_ticks (s_tcp s)) ->
  exists s' k, times (2 * n) tcp_tmr s = Done (tt, s')
    /\ slept s s' (u32 (tcp_ticks (s_tcp s) + Z.of_nat n)) k (filter (fun l : loc => ~ survives s n l) ls)
    /\ tw_list s' (filter (survives s n) ls)
    /\ ((242 <= n)%nat -> tcp_tw_pcbs (s_tcp s') = None).
Proof.
  intros Hq Ht. destruct (sleep_run s ls n Hq Ht) as (s' & k & E & S1 & _ & Hl & _).
  exists s', k. split; [by rewrite times_double|]. split; [done|]. split; [done|].
  intros Hn. unfold tw_list in Hl. rewrite filter_none in Hl; [exact Hl|].
  destruct Hq as (_ & _ & Hw). eapply Forall_impl; [exact Hw|]. intros l (b & Hb & _) Hs.
  by rewrite (survives_no_longer s l n b Hb Hn) in Hs.
Qed.
End timers.

(** Two connections in TIME-WAIT, 119.5 s old and new, when the clock is about
    to wrap. *)
Definition ex_tw_pcb (tmr : Z) (n : option loc) : tcp_pcb :=
  (ex_pcb 4097 10 80 20 TIME_WAIT n) <| pcb_tmr := tmr |>.
Definition ex_waiting : stack :=
  clock (2 ^ 32 - 1) 0
    (ex_stack no_mem ∅ (list_to_map [(1%positive, ex_tw_pcb (2 ^ 32 - 240) (Some 2%positive));
                                     (2%positive, ex_tw_pcb (2 ^ 32 - 1) None)]) ∅
       (ex_globals None None None (Some 1%positive))).
Lemma ex_waiting_quiet : quiet ex_waiting [1; 2]%positive.
Proof.
  split; [done|]. split.
  - split; [done|]. exists (Some 2%positive). split; [vm_compute; reflexivity|].
    split; [done|]. exists None. split; [vm_compute; reflexivity | done].
  - repeat constructor; eexists; (split; [vm_compute; reflexivity | reflexivity]).
Qed.

(** After one second the first one is gone, after 121 s both are. *)
Lemma time_wait_ends_witness :
  (exists s', times 4 (@tcp_tmr memp_nsc ex_env) ex_waiting = Done (tt, s')
     /\ tw_list s' [2%positive] /\ s_tpcbs s' !! 1%positive = None)
  /\ exists s', times 484 (@tcp_tmr memp_nsc ex_env) ex_waiting = Done (tt, s')
     /\ tcp_tw_pcbs (s_tcp s') = None.
Proof.
  split.
  - destruct (@time_wait_ends memp_nsc ex_env ex_waiting _ 2 ex_waiting_quiet ltac:(by vm_compute))
      as (s' & k & E & S & H & _).
    exists s'. split; [exact E|].
    assert (F : filter (survives ex_waiting 2) [1; 2]%positive = [2%positive]) by (vm_compute; reflexivity).
    assert (G : filter (fun l : loc => ~ survives ex_waiting 2 l) [1; 2]%positive = [1%positive])
      by (vm_compute; reflexivity).
    rewrite F in H. rewrite G in S. split; [exact H|].
    destruct S as (s1 & (m & h & -> & HS) & ->). specialize (HS 1%positive).
    rewrite bool_decide_eq_true_2 in HS by by left. cbn. by destruct (m !! 1%positive).
  - destruct (@time_wait_ends memp_nsc ex_env ex_waiting _ 242 ex_waiting_quiet ltac:(by vm_compute))
      as (s' & k & E & S & _ & H).
    exists s'. split; [exact E|]. apply H. lia.
Defined.
