(* ===== verification/UdpBind.v ===== *)
(** * Binding UDP control blocks

    The search of udp_bind for an ephemeral port: it ends, finds the least free
    port, and fails exactly when there is none. *)
From S2P Require Import Prelude Heap Pbuf Stack Chains Ip IpProps Icmp Udp UdpProps TcpSpec.
#[local] Open Scope list_scope.
#[local] Open Scope Z_scope.

Section bind.
Context (s : stack) (ls : list loc) (Hls : udps_are s ls).

(** A listed control block has the port. *)
Definition port_used (port : Z) : Prop :=
  exists l b, l ∈ ls /\ s_udps s !! l = Some b /\ udp_local_port b = port.
Definition used_from (a b : Z) : Prop := forall q, a <= q < b -> port_used q.

(** ** The list of control blocks is not cyclic *)
Lemma rebind_walk_run pcb p xs ys r fuel :
  ls = xs ++ ys -> chain (map_next udp_next (s_udps s)) p ys None -> (length ys <= fuel)%nat ->
  (r = true -> pcb ∉ ys) ->
  rebind_walk fuel p pcb r s = Done (bool_decide (pcb ∈ ys) || r, s).
Proof.
  revert p xs r fuel. induction ys as [|l ys IH]; intros p xs r fuel E Hp Hf Hr.
  - cbn in Hp. subst p. destruct fuel; by destruct r.
  - pose proof Hp as (-> & _). apply map_chain_lookup in Hp as (b & Hb & Hp).
    destruct fuel as [|fuel]; [cbn in Hf; lia|]. cbn [rebind_walk].
    pose proof (chain_NoDup _ _ _ Hls) as Hnd. rewrite E in Hnd.
    destruct (NoDup_mid _ _ _ Hnd) as [_ Hl].
    rewrite (bind_run _ _ _ tt s).
    2:{ destruct (bool_decide_reflect (pcb = l)) as [->|]; [|reflexivity].
        destruct r; [|apply ASSERT_true]. exfalso. apply Hr; [done | by left]. }
    erewrite bind_run by by apply udp_get_run.
    erewrite (IH _ (xs ++ [l])); [|by rewrite <- app_assoc|done|cbn in Hf; lia|].
    + f_equal. f_equal. destruct (bool_decide_reflect (pcb = l)) as [->|Hne].
      * rewrite (bool_decide_true (l ∈ l :: ys)) by by left. by rewrite orb_true_r.
      * cbn [orb]. f_equal. apply bool_decide_ext. rewrite elem_of_cons. naive_solver.
    + destruct (bool_decide_reflect (pcb = l)) as [->|Hne]; [done|].
      cbn. intros ->. intros Hy. apply Hr; [done | by right].
Qed.

(** ** The search for a port *)
Lemma udp_port_scan_run fuel xs ys p port :
  ls = xs ++ ys -> chain (map_next udp_next (s_udps s)) p ys None ->
  (forall l b, l ∈ xs -> s_udps s !! l = Some b -> udp_local_port b <> port) ->
  UDP_LOCAL_PORT_RANGE_START <= port <= UDP_LOCAL_PORT_RANGE_END ->
  (port = UDP_LOCAL_PORT_RANGE_END -> ys <> []) ->
  used_from UDP_LOCAL_PORT_RANGE_START port ->
  (UDP_LOCAL_PORT_RANGE_END - port) * Z.of_nat (S (length ls)) + Z.of_nat (length ys) <= Z.of_nat fuel ->
  exists rest port', udp_port_scan fuel p port s = Done ((rest, port'), s)
    /\ used_from UDP_LOCAL_PORT_RANGE_START port'
    /\ match rest with
       | None => UDP_LOCAL_PORT_RANGE_START <= port' < UDP_LOCAL_PORT_RANGE_END /\ ~ port_used port'
       | Some _ => port' = UDP_LOCAL_PORT_RANGE_END
       end.
Proof.
  revert xs ys p port. induction fuel as [|fuel IH]; intros xs ys p port E Hp Hx Hr He Hu Hf.
  all: destruct ys as [|l ys].
  - cbn in Hp. subst p. exists None, port. split; [done|]. split; [done|].
    rewrite app_nil_r in E. split; [|intros (l & b & Hl & Hb & Hport); subst xs; by eapply Hx].
    destruct (decide (port = UDP_LOCAL_PORT_RANGE_END)); [by destruct He | lia].
  - pose proof Hp as (-> & _). exists (Some l), port. cbn [udp_port_scan].
    assert (port = UDP_LOCAL_PORT_RANGE_END) as -> by (cbn [length] in Hf; nia).
    rewrite Z.eqb_refl. done.
  - cbn in Hp. subst p. exists None, port. split; [done|]. split; [done|].
    rewrite app_nil_r in E. split; [|intros (l & b & Hl & Hb & Hport); subst xs; by eapply Hx].
    destruct (decide (port = UDP_LOCAL_PORT_RANGE_END)); [by destruct He | lia].
  - pose proof Hp as (-> & _). apply map_chain_lookup in Hp as (b & Hb & Hp). cbn [udp_port_scan].
    destruct (port =? UDP_LOCAL_PORT_RANGE_END) eqn:Eend.
    { apply Z.eqb_eq in Eend. by exists (Some l), port. }
    apply Z.eqb_neq in Eend. erewrite bind_run by by apply udp_get_run.
    assert (Hl : l ∈ ls) by (rewrite E; apply elem_of_app; right; by left).
    destruct (Z.eqb_spec (udp_local_port b) port) as [Eport|Eport].
    + erewrite bind_run by reflexivity.
      assert (Ep : u16 (port + 1) = port + 1).
      { apply u16_small. unfold is_u16, UDP_LOCAL_PORT_RANGE_START, UDP_LOCAL_PORT_RANGE_END in *. lia. }
      rewrite Ep. apply (IH [] ls); [done|done|by intros ? ? ?%elem_of_nil|lia| | |].
      * intros _ ->. by apply elem_of_nil in Hl.
      * intros q Hq. destruct (decide (q = port)) as [->|]; [|apply Hu; lia]. by exists l, b.
      * cbn [length] in Hf. lia.
    + apply (IH (xs ++ [l]) ys); [by rewrite <- app_assoc|done| |done| |done|cbn [length] in Hf; lia].
      * intros l' b' [Hl'|Hl']%elem_of_app Hb'; [by eapply Hx|].
        apply list_elem_of_singleton in Hl' as ->. congruence.
      * intros ->. lia.
Qed.
End bind.

(** ** Updates of one control block *)
Lemma put_udp_twice l b1 b2 s : put_udp l b2 (put_udp l b1 s) = put_udp l b2 s.
Proof. unfold put_udp. cbn. unfold set_field. cbn. by rewrite insert_insert_eq. Qed.
Lemma put_udp_lookup l b s : s_udps (put_udp l b s) !! l = Some b.
Proof. cbn. by rewrite lookup_insert_eq. Qed.
(** An update that leaves the link alone keeps the list. *)
Lemma put_udp_list s ls l b b' : udps_are s ls -> s_udps s !! l = Some b -> udp_next b' = udp_next b ->
  udps_are (put_udp l b' s) ls.
Proof.
  intros H Hb Hn. unfold udps_are. eapply chain_ext; [|exact H]. intros k _. unfold map_next. cbn.
  destruct (decide (k = l)) as [->|]; [by rewrite lookup_insert_eq, Hb; cbn; rewrite Hn|].
  by rewrite lookup_insert_ne.
Qed.
Lemma put_udp_used s ls l b b' port : s_udps s !! l = Some b -> udp_local_port b' = udp_local_port b ->
  port_used (put_udp l b' s) ls port <-> port_used s ls port.
Proof.
  intros Hb Hp. unfold port_used. cbn. split; intros (k & c & Hk & Hc & Hport).
  - destruct (decide (k = l)) as [->|].
    + rewrite lookup_insert_eq in Hc. injection Hc as <-. exists l, b. by rewrite <- Hp.
    + rewrite lookup_insert_ne in Hc by done. by exists k, c.
  - destruct (decide (k = l)) as [->|].
    + exists l, b'. rewrite lookup_insert_eq. assert (c = b) as -> by congruence. by rewrite Hp.
    + exists k, c. by rewrite lookup_insert_ne.
Qed.

(** The fuel is enough for a scan of the list per port, and one more. *)
Lemma udp_port_fuel_val n :
  Z.of_nat (udp_port_fuel n) = (UDP_LOCAL_PORT_RANGE_END - UDP_LOCAL_PORT_RANGE_START + 1) * Z.of_nat n.
Proof. unfold udp_port_fuel. by rewrite Nat2Z.inj_mul, (Nat2Z.inj_succ (Z.to_nat _)), Z2Nat.id. Qed.

(** ** udp_bind *)

(** The control block after a successful bind, and its place on the list. *)
Definition udp_bound (pcb : loc) (b : udp_pcb) (a : option Z) (port : Z) (ls : list loc) (s : stack) : stack :=
  let b := b <| udp_local_ip := addr_value a |> <| udp_local_port := port |> in
  if decide (pcb ∈ ls) then put_udp pcb b s
  else set_udps (Some pcb) (put_udp pcb (udp_set_next (udp_pcbs s) b) s).

Lemma udp_bound_list pcb b a port ls s : udps_are s ls -> s_udps s !! pcb = Some b ->
  udps_are (udp_bound pcb b a port ls s) (if decide (pcb ∈ ls) then ls else pcb :: ls).
Proof.
  intros H Hb. unfold udp_bound. destruct (decide (pcb ∈ ls)); [by eapply put_udp_list|].
  unfold udps_are. cbn [s_udps udp_pcbs set_udps put_udp set_field].
  by apply map_chain_push; [exact udp_next_set|..].
Qed.

(** C24: Binding to port 0.  The search always ends.  If a port from 4096 to
    32766 is free, the control block gets the least one that no listed control
    block has, whatever the addresses; it is then on the list exactly once, at
    the front if it was not there before, and nothing else changes.  If every
    port of the range is taken, udp_bind fails with ERR_USE, and by then it has
    replaced the local address. *)
Theorem udp_bind_ephemeral s ls pcb b a :
  udps_are s ls -> s_udps s !! pcb = Some b ->
  (exists port, UDP_LOCAL_PORT_RANGE_START <= port < UDP_LOCAL_PORT_RANGE_END
     /\ ~ port_used s ls port /\ used_from s ls UDP_LOCAL_PORT_RANGE_START port
     /\ udp_bind pcb a 0 s = Done (ERR_OK, udp_bound pcb b a port ls s)
     /\ udps_are (udp_bound pcb b a port ls s) (if decide (pcb ∈ ls) then ls else pcb :: ls))
  \/ (used_from s ls UDP_LOCAL_PORT_RANGE_START UDP_LOCAL_PORT_RANGE_END
      /\ udp_bind pcb a 0 s = Done (ERR_USE, put_udp pcb (b <| udp_local_ip := addr_value a |>) s)).
Proof.
  intros H Hb. set (b1 := b <| udp_local_ip := addr_value a |>). set (s1 := put_udp pcb b1 s).
  assert (H1 : udps_are s1 ls) by by eapply put_udp_list.
  assert (Hu : forall port, port_used s1 ls port <-> port_used s ls port) by (intros; by eapply put_udp_used).
  assert (Hlen : (length ls <= size (s_udps s1))%nat) by exact (map_chain_length _ _ _ _ H1).
  destruct (udp_port_scan_run s1 ls H1 (udp_port_fuel (map_fuel (s_udps s1))) [] ls (udp_pcbs s1)
              UDP_LOCAL_PORT_RANGE_START) as (rest & port & Escan & Hbelow & Hres).
  { done. } { exact H1. } { by intros ?? ?%elem_of_nil. } { done. } { done. } { intros q; lia. }
  { rewrite udp_port_fuel_val. unfold map_fuel, UDP_LOCAL_PORT_RANGE_START, UDP_LOCAL_PORT_RANGE_END. lia. }
  assert (Hfrom : used_from s ls UDP_LOCAL_PORT_RANGE_START port) by (intros q Hq; by apply Hu, Hbelow).
  assert (Ebind : udp_bind pcb a 0 s =
    if is_some rest then Done (ERR_USE, s1) else Done (ERR_OK, udp_bound pcb b a port ls s)).
  { unfold udp_bind. erewrite bind_run by reflexivity.
    erewrite bind_run.
    2:{ eapply (rebind_walk_run s ls H pcb (udp_pcbs s) [] ls false); [done|exact H| |done].
        pose proof (map_chain_length _ _ _ _ H). unfold map_fuel. lia. }
    erewrite bind_run by by apply udp_upd_run. fold b1 s1. cbn [Z.eqb].
    erewrite bind_run.
    2:{ erewrite bind_run by reflexivity. erewrite bind_run by exact Escan. reflexivity. }
    destruct rest as [l|]; cbn [is_some]; [done|].
    erewrite bind_run by (apply udp_upd_run, put_udp_lookup). unfold s1. rewrite put_udp_twice.
    rewrite orb_false_r. unfold udp_bound. fold b1.
    destruct (decide (pcb ∈ ls)) as [Hin|Hin].
    - rewrite bool_decide_true by done. by erewrite bind_run by done.
    - rewrite bool_decide_false by done. cbn [negb when].
      erewrite bind_run; [reflexivity|]. erewrite bind_run by reflexivity.
      erewrite bind_run by (apply udp_upd_run, put_udp_lookup). rewrite put_udp_twice. reflexivity. }
  destruct rest as [l|]; cbn [is_some] in Ebind.
  - right. subst port. done.
  - left. exists port. destruct Hres as [Hr Hfree]. split; [done|]. split; [by rewrite <- Hu|].
    split; [done|]. split; [done|]. by apply udp_bound_list.
Qed.

(** Ports 4096 and 4097 are taken; control block 4 is not on the list yet. *)
Definition ex_bind_udps : stack :=
  ex_udps <| s_udps := list_to_map
    [(1%positive, (ex_udp (Some 2%positive) 0 0 0) <| udp_local_port := 4097 |>);
     (2%positive, (ex_udp (Some 3%positive) 0 0 0) <| udp_local_port := 4096 |>);
     (3%positive, ex_udp None 0 0 0);
     (4%positive, (ex_udp None 0 0 0) <| udp_local_port := 0 |>)] |>.
Lemma ex_bind_udps_are : udps_are ex_bind_udps [1; 2; 3]%positive.
Proof.
  split; [done|]. exists (Some 2%positive). split; [vm_compute; reflexivity|].
  split; [done|]. exists (Some 3%positive). split; [vm_compute; reflexivity|].
  split; [done|]. exists None. split; [vm_compute; reflexivity | done].
Qed.
Lemma udp_bind_ephemeral_witness :
  exists s', udp_bind 4 (Some 0x0100000a) 0 ex_bind_udps = Done (ERR_OK, s')
    /\ (udp_local_port <$> s_udps s' !! 4%positive) = Some 4098
    /\ udps_are s' [4; 1; 2; 3]%positive.
Proof.
  destruct (udp_bind_ephemeral ex_bind_udps [1; 2; 3]%positive 4
              ((ex_udp None 0 0 0) <| udp_local_port := 0 |>) (Some 0x0100000a) ex_bind_udps_are eq_refl)
    as [(port & Hr & Hfree & Hbelow & Hb & Hl) | [Hall _]].
  - exists (udp_bound 4 ((ex_udp None 0 0 0) <| udp_local_port := 0 |>) (Some 0x0100000a) port [1; 2; 3]%positive ex_bind_udps).
    split; [exact Hb|]. split; [|exact Hl].
    assert (udp_bind 4 (Some 0x0100000a) 0 ex_bind_udps
            = Done (ERR_OK, udp_bound 4 ((ex_udp None 0 0 0) <| udp_local_port := 0 |>) (Some 0x0100000a) 4098
                              [1; 2; 3]%positive ex_bind_udps)) as E by (vm_compute; reflexivity).
    rewrite Hb in E. apply (f_equal (fun r => match r with
      | Done (_, s') => udp_local_port <$> s_udps s' !! 4%positive | Halt _ => None end)) in E. exact E.
  - exfalso. destruct (Hall 5000) as (l & b & Hl & Hb & Hp); [done|].
    apply elem_of_cons in Hl as [->|[->|[->|[]%elem_of_nil]%elem_of_cons]%elem_of_cons];
      vm_compute in Hb; injection Hb as <-; discriminate Hp.
Defined.
