(* ===== verification/Mem.v ===== *)
(** * The heap allocator (core/mem.c)

    The allocator that lwIP brings for systems without one (MEM_LIBC_MALLOC 0
    and MEM_USE_POOLS 0; the simulator links the C library instead).  The heap
    is one array tiled by blocks; each starts with a struct mem that holds the
    indices of the next and the previous block and whether the block is used,
    and one more struct mem ends the array.  Pointers into the heap are offsets
    from [ram]; the semaphore calls are empty without an operating system. *)
From S2P Require Import Prelude.
#[local] Open Scope string_scope.
#[local] Open Scope list_scope.
#[local] Open Scope Z_scope.

(** The configuration: MEM_SIZE, MEM_ALIGNMENT, MIN_SIZE (lwipopts.h) and the
    address of the array ram_heap. *)
Class MemOpts := {
  MEM_SIZE : Z;
  MEM_ALIGNMENT : Z;
  MIN_SIZE : Z;
  ram_heap : Z
}.

Section mem.
Context `{MemOpts}.

Definition LWIP_MEM_ALIGN_SIZE (size : Z) : Z :=
  Z.land (size + MEM_ALIGNMENT - 1) (Z.lnot (MEM_ALIGNMENT - 1)).
Definition LWIP_MEM_ALIGN (addr : Z) : Z :=
  Z.land (addr + MEM_ALIGNMENT - 1) (Z.lnot (MEM_ALIGNMENT - 1)).
Definition MIN_SIZE_ALIGNED : Z := LWIP_MEM_ALIGN_SIZE MIN_SIZE.
(** sizeof(struct mem) is 6: two mem_size_t (u16_t), a byte, padding. *)
Definition SIZEOF_STRUCT_MEM : Z := LWIP_MEM_ALIGN_SIZE 6.
Definition MEM_SIZE_ALIGNED : Z := LWIP_MEM_ALIGN_SIZE MEM_SIZE.
(** The address of [ram], and how much of ram_heap lies behind it. *)
Definition ram_addr : Z := LWIP_MEM_ALIGN ram_heap.
Definition ram_len : Z :=
  MEM_SIZE_ALIGNED + 2 * SIZEOF_STRUCT_MEM + MEM_ALIGNMENT - (ram_addr - ram_heap).

(** The bytes from [ram] on and the lowest free block; the assertions that
    failed are recorded and do not stop the run. *)
Record mem_state := MemState { ram : Z -> Z; lfree : Z; m_asserts : list string }.

Definition ASSERT (msg : string) (b : bool) : M mem_state unit :=
  if b then mret tt
  else modify (fun s => MemState (ram s) (lfree s) (msg :: m_asserts s)).

(** ** Access to the array; outside of it is undefined *)
Definition rd (o : Z) : M mem_state Z :=
  if (0 <=? o) && (o <? ram_len) then gets (fun s => ram s o) else halt UB.
Definition upd_byte (o v : Z) (r : Z -> Z) : Z -> Z := fun i => if i =? o then v else r i.
Definition wr (o v : Z) : M mem_state unit :=
  if (0 <=? o) && (o <? ram_len)
  then modify (fun s => MemState (upd_byte o (u8 v) (ram s)) (lfree s) (m_asserts s)) else halt UB.

(** struct mem: next and prev (u16_t, little endian), used *)
Definition get_next (o : Z) : M mem_state Z := lo ← rd o; hi ← rd (o + 1); mret (lo + 2 ^ 8 * hi).
Definition get_prev (o : Z) : M mem_state Z := lo ← rd (o + 2); hi ← rd (o + 3); mret (lo + 2 ^ 8 * hi).
Definition get_used (o : Z) : M mem_state Z := rd (o + 4).
Definition set_next (o v : Z) : M mem_state unit := wr o v;; wr (o + 1) (v / 2 ^ 8).
Definition set_prev (o v : Z) : M mem_state unit := wr (o + 2) v;; wr (o + 3) (v / 2 ^ 8).
Definition set_used (o v : Z) : M mem_state unit := wr (o + 4) v.
Definition set_lfree (o : Z) : M mem_state unit :=
  modify (fun s => MemState (ram s) o (m_asserts s)).

(** ** mem_init *)
Definition mem_init : M mem_state unit :=
  ASSERT "Sanity check alignment" (Z.land SIZEOF_STRUCT_MEM (MEM_ALIGNMENT - 1) =? 0);;
  set_next 0 MEM_SIZE_ALIGNED;;
  set_prev 0 0;;
  set_used 0 0;;
  set_used MEM_SIZE_ALIGNED 1;;
  set_next MEM_SIZE_ALIGNED MEM_SIZE_ALIGNED;;
  set_prev MEM_SIZE_ALIGNED MEM_SIZE_ALIGNED;;
  set_lfree 0.

(** ** plug_holes *)

(** Combine [mem] with the next block when that is free and not the end. *)
Definition plug_forward (mem : Z) : M mem_state unit :=
  nmem ← get_next mem;
  ASSERT "plug_holes: mem->next <= MEM_SIZE_ALIGNED" (nmem <=? MEM_SIZE_ALIGNED);;
  nu ← (if mem =? nmem then mret 1 else get_used nmem);
  if (nu =? 0) && negb (nmem =? MEM_SIZE_ALIGNED) then
    lf ← gets lfree;
    when (lf =? nmem) (set_lfree mem);;
    nn ← get_next nmem;
    set_next mem nn;;
    set_prev nn mem
  else mret tt.

(** Combine [mem] with the block before it when that is free. *)
Definition plug_backward (mem : Z) : M mem_state unit :=
  pmem ← get_prev mem;
  pu ← (if pmem =? mem then mret 1 else get_used pmem);
  if pu =? 0 then
    lf ← gets lfree;
    when (lf =? mem) (set_lfree pmem);;
    nn ← get_next mem;
    set_next pmem nn;;
    set_prev nn pmem
  else mret tt.

Definition plug_holes (mem : Z) : M mem_state unit :=
  ASSERT "plug_holes: mem >= ram" (0 <=? mem);;
  ASSERT "plug_holes: mem < ram_end" (mem <? MEM_SIZE_ALIGNED);;
  u ← get_used mem;
  ASSERT "plug_holes: mem->used == 0" (u =? 0);;
  plug_forward mem;;
  plug_backward mem.

(** ** mem_free; [None] is NULL *)
Definition mem_free (rmem : option Z) : M mem_state unit :=
  match rmem with
  | None => mret tt
  | Some r =>
      ASSERT "mem_free: sanity check alignment" (Z.land (ram_addr + r) (MEM_ALIGNMENT - 1) =? 0);;
      let legal := (0 <=? r) && (r <? MEM_SIZE_ALIGNED) in
      ASSERT "mem_free: legal memory" legal;;
      if negb legal then mret tt
      else
        let mem := r - SIZEOF_STRUCT_MEM in
        u ← get_used mem;
        ASSERT "mem_free: mem->used" (negb (u =? 0));;
        set_used mem 0;;
        lf ← gets lfree;
        when (mem <? lf) (set_lfree mem);;
        plug_holes mem
  end.

(** ** mem_realloc, which only shrinks *)

(** A free struct mem at [ptr2] between [ptr] and [next]. *)
Definition split_off (ptr ptr2 next : Z) : M mem_state unit :=
  set_used ptr2 0;;
  set_next ptr2 next;;
  set_prev ptr2 ptr;;
  set_next ptr ptr2;;
  when (negb (next =? MEM_SIZE_ALIGNED)) (set_prev next ptr2).

(** The size asked for, rounded up (a mem_size_t). *)
Definition round_size (size : Z) : Z :=
  let size := u16 (LWIP_MEM_ALIGN_SIZE size) in
  if size <? MIN_SIZE_ALIGNED then u16 MIN_SIZE_ALIGNED else size.

(** What is cut off goes to a free block behind, or becomes a free block. *)
Definition shrink_block (ptr mem2 newsize size : Z) : M mem_state unit :=
  u2 ← get_used mem2;
  let ptr2 := u16 (ptr + SIZEOF_STRUCT_MEM + newsize) in
  if u2 =? 0 then
    next ← get_next mem2;
    lf ← gets lfree;
    when (lf =? mem2) (set_lfree ptr2);;
    split_off ptr ptr2 next
  else if newsize + SIZEOF_STRUCT_MEM + MIN_SIZE_ALIGNED <=? size then
    lf ← gets lfree;
    when (ptr2 <? lf) (set_lfree ptr2);;
    split_off ptr ptr2 mem2
  else mret tt.

Definition mem_realloc (r newsize : Z) : M mem_state (option Z) :=
  let newsize := round_size newsize in
  if MEM_SIZE_ALIGNED <? newsize then mret None
  else
    let legal := (0 <=? r) && (r <? MEM_SIZE_ALIGNED) in
    ASSERT "mem_realloc: legal memory" legal;;
    if negb legal then mret (Some r)
    else
      let ptr := r - SIZEOF_STRUCT_MEM in
      mem2 ← get_next ptr;
      let size := u16 (mem2 - ptr - SIZEOF_STRUCT_MEM) in
      ASSERT "mem_realloc can only shrink memory" (newsize <=? size);;
      if size <? newsize then mret None
      else if newsize =? size then mret (Some r)
      else
        shrink_block ptr mem2 newsize size;;
        mret (Some r).

(** ** mem_malloc *)

(** The next free block from [lfree] on, or the end. *)
Fixpoint lfree_loop (fuel : nat) : M mem_state unit :=
  lf ← gets lfree;
  u ← get_used lf;
  if negb (u =? 0) && negb (lf =? MEM_SIZE_ALIGNED) then
    match fuel with
    | O => halt NoFuel
    | S fuel => nx ← get_next lf; set_lfree nx;; lfree_loop fuel
    end
  else mret tt.

(** Each step moves on by at least the size of a struct mem. *)
Definition mem_fuel : nat := Z.to_nat MEM_SIZE_ALIGNED.

(** Mark the block at [ptr] used and split off what is too much; the sizes are
    compared as unsigned numbers of 32 bits (sizeof is a size_t). *)
Definition carve (ptr size : Z) : M mem_state unit :=
  nx ← get_next ptr;
  if size + SIZEOF_STRUCT_MEM + MIN_SIZE_ALIGNED <=? u32 (nx - (ptr + SIZEOF_STRUCT_MEM)) then
    let ptr2 := u16 (ptr + SIZEOF_STRUCT_MEM + size) in
    set_used ptr2 0;;
    set_next ptr2 nx;;
    set_prev ptr2 ptr;;
    set_next ptr ptr2;;
    set_used ptr 1;;
    when (negb (nx =? MEM_SIZE_ALIGNED)) (set_prev nx ptr2)
  else set_used ptr 1.

(** If the block taken was the lowest free one, find the next. *)
Definition next_lfree (ptr : Z) : M mem_state unit :=
  lf ← gets lfree;
  when (ptr =? lf)
    (lfree_loop mem_fuel;;
     lf ← gets lfree;
     u ← get_used lf;
     ASSERT "mem_malloc: !lfree->used" ((lf =? MEM_SIZE_ALIGNED) || (u =? 0))).

(** Take the block at [ptr], which is free and large enough. *)
Definition take_block (ptr size : Z) : M mem_state (option Z) :=
  carve ptr size;;
  next_lfree ptr;;
  ASSERT "mem_malloc: allocated memory not above ram_end."
    (ptr + SIZEOF_STRUCT_MEM + size <=? MEM_SIZE_ALIGNED);;
  ASSERT "mem_malloc: allocated memory properly aligned."
    ((ram_addr + ptr + SIZEOF_STRUCT_MEM) mod MEM_ALIGNMENT =? 0);;
  ASSERT "mem_malloc: sanity check alignment"
    (Z.land (ram_addr + ptr) (MEM_ALIGNMENT - 1) =? 0);;
  mret (Some (ptr + SIZEOF_STRUCT_MEM)).

Fixpoint fit_loop (fuel : nat) (ptr size : Z) : M mem_state (option Z) :=
  if negb (ptr <? MEM_SIZE_ALIGNED - size) then mret None
  else match fuel with
  | O => halt NoFuel
  | S fuel =>
      u ← get_used ptr;
      nx ← get_next ptr;
      if (u =? 0) && (size <=? u32 (nx - (ptr + SIZEOF_STRUCT_MEM))) then take_block ptr size
      else fit_loop fuel nx size
  end.

Definition mem_malloc (size : Z) : M mem_state (option Z) :=
  if size =? 0 then mret None
  else
    let size := round_size size in
    if MEM_SIZE_ALIGNED <? size then mret None
    else lf ← gets lfree; fit_loop mem_fuel lf size.

(** ** mem_calloc *)
Fixpoint memset0 (n : nat) (p : Z) : M mem_state unit :=
  match n with
  | O => mret tt
  | S n => wr p 0;; memset0 n (p + 1)
  end.

(** [count * size] is computed as an int, whose overflow is undefined, and
    passed on as a mem_size_t. *)
Definition mem_calloc (count size : Z) : M mem_state (option Z) :=
  let n := count * size in
  if 2 ^ 31 <=? n then halt UB
  else
    p ← mem_malloc (u16 n);
    match p with
    | None => mret None
    | Some p => memset0 (Z.to_nat n) p;; mret (Some p)
    end.
End mem.
