(* ===== verification/MemProps.v ===== *)
(** * The heap allocator tiles its array

    The heap of mem.c as an abstract list of blocks, each with its size and
    whether it is used, laid out one behind the other; the operations on it,
    and the proof that those of mem.c implement them. *)
From S2P Require Import Prelude Chains Mem.
#[local] Open Scope string_scope.
#[local] Open Scope list_scope.
#[local] Open Scope Z_scope.

(** What the configuration must satisfy: the alignment is a power of two, the
    indices fit a mem_size_t of 16 bits (mem.h uses it up to a MEM_SIZE of
    64000), and there is room for one block. *)
Class MemOptsOk `{MemOpts} : Prop := {
  align_pow2 : exists k, 0 <= k <= 8 /\ MEM_ALIGNMENT = 2 ^ k;
  min_size_pos : 0 < MIN_SIZE <= 1024;
  mem_size_bound : 0 < MEM_SIZE <= 64000;
  room_for_one : SIZEOF_STRUCT_MEM + MIN_SIZE_ALIGNED <= MEM_SIZE_ALIGNED
}.

(** ** Headers in memory *)
Record hdr := Hdr { h_nx : Z; h_pv : Z; h_us : Z }.
Definition hdr_at (r : Z -> Z) (o : Z) : hdr :=
  Hdr (r o + 2 ^ 8 * r (o + 1)) (r (o + 2) + 2 ^ 8 * r (o + 3)) (r (o + 4)).

Definition w_next (o v : Z) (r : Z -> Z) : Z -> Z :=
  upd_byte (o + 1) (u8 (v / 2 ^ 8)) (upd_byte o (u8 v) r).
Definition w_prev (o v : Z) (r : Z -> Z) : Z -> Z :=
  upd_byte (o + 3) (u8 (v / 2 ^ 8)) (upd_byte (o + 2) (u8 v) r).
Definition w_used (o v : Z) (r : Z -> Z) : Z -> Z := upd_byte (o + 4) (u8 v) r.

(** Two headers, or a byte and a header, that do not overlap. *)
Definition far (o o' : Z) : Prop := o + 5 <= o' \/ o' + 5 <= o.
Definition off_hdr (i o : Z) : Prop := i < o \/ o + 5 <= i.

Lemma upd_byte_eq o v r : upd_byte o v r o = v.
Proof. unfold upd_byte. by rewrite Z.eqb_refl. Qed.
Lemma upd_byte_ne o v r i : i <> o -> upd_byte o v r i = r i.
Proof. intros. unfold upd_byte. by destruct (Z.eqb_spec i o). Qed.

Lemma word_bytes v : is_u16 v -> u8 v + 2 ^ 8 * u8 (v / 2 ^ 8) = v.
Proof. unfold is_u16, u8. intros. Z.div_mod_to_equations. lia. Qed.

Section headers.
Context (r : Z -> Z) (o v : Z).

Lemma hdr_w_next : is_u16 v -> hdr_at (w_next o v r) o = Hdr v (h_pv (hdr_at r o)) (h_us (hdr_at r o)).
Proof.
  intros Hv. unfold hdr_at, w_next. cbn [h_pv h_us].
  rewrite upd_byte_eq, !(upd_byte_ne (o + 1)), upd_byte_eq, !(upd_byte_ne o) by lia. by rewrite word_bytes.
Qed.
Lemma hdr_w_prev : is_u16 v -> hdr_at (w_prev o v r) o = Hdr (h_nx (hdr_at r o)) v (h_us (hdr_at r o)).
Proof.
  intros Hv. unfold hdr_at, w_prev. cbn [h_nx h_us].
  rewrite upd_byte_eq, !(upd_byte_ne (o + 3)), upd_byte_eq, !(upd_byte_ne (o + 2)) by lia. by rewrite word_bytes.
Qed.
Lemma hdr_w_used : is_u8 v -> hdr_at (w_used o v r) o = Hdr (h_nx (hdr_at r o)) (h_pv (hdr_at r o)) v.
Proof.
  intros Hv. unfold hdr_at, w_used. cbn [h_nx h_pv].
  rewrite upd_byte_eq, !(upd_byte_ne (o + 4)) by lia. by rewrite u8_small.
Qed.

Lemma hdr_far o' : far o o' ->
  hdr_at (w_next o v r) o' = hdr_at r o' /\ hdr_at (w_prev o v r) o' = hdr_at r o' /\
  hdr_at (w_used o v r) o' = hdr_at r o'.
Proof.
  intros Hf. unfold far in Hf. unfold hdr_at, w_next, w_prev, w_used.
  repeat split; by rewrite !upd_byte_ne by lia.
Qed.
Lemma byte_off i : off_hdr i o ->
  w_next o v r i = r i /\ w_prev o v r i = r i /\ w_used o v r i = r i.
Proof.
  intros Hf. unfold off_hdr in Hf. unfold w_next, w_prev, w_used.
  repeat split; by rewrite !upd_byte_ne by lia.
Qed.
End headers.

Lemma hdr_next_far r o v o' : far o o' -> hdr_at (w_next o v r) o' = hdr_at r o'.
Proof. intros. by apply hdr_far. Qed.
Lemma hdr_prev_far r o v o' : far o o' -> hdr_at (w_prev o v r) o' = hdr_at r o'.
Proof. intros. by apply hdr_far. Qed.
Lemma hdr_used_far r o v o' : far o o' -> hdr_at (w_used o v r) o' = hdr_at r o'.
Proof. intros. by apply hdr_far. Qed.

Lemma byte_next r o v i : off_hdr i o -> w_next o v r i = r i.
Proof. intros. by apply byte_off. Qed.
Lemma byte_prev r o v i : off_hdr i o -> w_prev o v r i = r i.
Proof. intros. by apply byte_off. Qed.
Lemma byte_used r o v i : off_hdr i o -> w_used o v r i = r i.
Proof. intros. by apply byte_off. Qed.

(** Read headers through writes: at the same place, or far from it. *)
Ltac far_tac := unfold far, off_hdr; lia.
Ltac hdrs := repeat first
  [ rewrite hdr_w_next by assumption | rewrite hdr_w_prev by assumption
  | rewrite hdr_w_used by done
  | rewrite hdr_next_far by far_tac | rewrite hdr_prev_far by far_tac
  | rewrite hdr_used_far by far_tac ]; cbn [h_nx h_pv h_us].

Ltac hdr_bytes := repeat first
  [ rewrite byte_next by far_tac | rewrite byte_prev by far_tac | rewrite byte_used by far_tac ].

(** ** The abstract heap *)
Abbreviation blk := (Z * bool)%type.   (* size with its header, used *)

Definition total (bs : list blk) : Z := foldr (fun b n => b.1 + n) 0 bs.
#[global] Arguments total : simpl never.
Lemma total_nil : total [] = 0.
Proof. done. Qed.
Lemma total_cons sz u bs : total ((sz, u) :: bs) = sz + total bs.
Proof. done. Qed.
Definition used_num (u : bool) : Z := if u then 1 else 0.

(** The headers of [bs] from [o] on, when the block before starts at [p]. *)
Fixpoint tiles (V : Z -> hdr) (o p : Z) (bs : list blk) : Prop :=
  match bs with
  | [] => True
  | (sz, u) :: bs => V o = Hdr (o + sz) p (used_num u) /\ tiles V (o + sz) o bs
  end.

(** Where the last block of [bs] starts. *)
Fixpoint last_start (o p : Z) (bs : list blk) : Z :=
  match bs with [] => p | (sz, _) :: bs => last_start (o + sz) o bs end.

(** The offset of the first free block, or the end. *)
Fixpoint first_free (o : Z) (bs : list blk) : Z :=
  match bs with
  | [] => o
  | (sz, u) :: bs => if (u : bool) then first_free (o + sz) bs else o
  end.

(** No two free blocks in a row. *)
Fixpoint no_adjacent (bs : list blk) : Prop :=
  match bs with
  | (_, false) :: ((_, false) :: _) => False
  | _ :: bs => no_adjacent bs
  | [] => True
  end.

(** The byte [i] belongs to the data of a used block. *)
Fixpoint in_data (hd o : Z) (bs : list blk) (i : Z) : Prop :=
  match bs with
  | [] => False
  | (sz, u) :: bs => (u = true /\ o + hd <= i < o + sz) \/ in_data hd (o + sz) bs i
  end.

Section lists.
Implicit Types bs xs ys : list blk.

Lemma total_app xs ys : total (xs ++ ys) = total xs + total ys.
Proof. induction xs as [|[sz u] xs IH]; cbn [app]; rewrite ?total_nil, ?total_cons; lia. Qed.

Lemma tiles_app V o p xs ys :
  tiles V o p (xs ++ ys) <-> tiles V o p xs /\ tiles V (o + total xs) (last_start o p xs) ys.
Proof.
  revert o p. induction xs as [|[sz u] xs IH]; intros o p; cbn [app tiles last_start].
  - rewrite total_nil, Z.add_0_r. naive_solver.
  - rewrite IH, total_cons, Z.add_assoc. naive_solver.
Qed.

Lemma last_start_app o p xs ys :
  last_start o p (xs ++ ys) = last_start (o + total xs) (last_start o p xs) ys.
Proof.
  revert o p. induction xs as [|[sz u] xs IH]; intros o p; cbn [app last_start].
  - by rewrite total_nil, Z.add_0_r.
  - by rewrite IH, total_cons, Z.add_assoc.
Qed.

Lemma first_free_app o xs ys :
  first_free o (xs ++ ys) =
  if bool_decide (Forall (fun b => b.2 = true) xs) then first_free (o + total xs) ys else first_free o xs.
Proof.
  revert o. induction xs as [|[sz u] xs IH]; intros o; cbn [app first_free].
  - by rewrite total_nil, Z.add_0_r.
  - destruct u.
    + rewrite IH, total_cons, Z.add_assoc.
      rewrite (bool_decide_ext (Forall _ ((sz, true) :: xs)) (Forall (fun b => b.2 = true) xs)); [done|].
      rewrite list.Forall_cons. naive_solver.
    + rewrite bool_decide_false; [done|]. by intros [? _]%list.Forall_cons.
Qed.

Lemma in_data_app hd o xs ys i :
  in_data hd o (xs ++ ys) i <-> in_data hd o xs i \/ in_data hd (o + total xs) ys i.
Proof.
  revert o. induction xs as [|[sz u] xs IH]; intros o; cbn [app in_data].
  - rewrite total_nil, Z.add_0_r. naive_solver.
  - rewrite IH, total_cons, Z.add_assoc. naive_solver.
Qed.

(** Blocks hold at least a struct mem of [m] bytes. *)
Definition sizes_ok (m : Z) bs : Prop := Forall (fun b => m <= b.1) bs.

Lemma total_nonneg m bs : 0 <= m -> sizes_ok m bs -> 0 <= total bs.
Proof.
  intros Hm. induction 1 as [|[sz u] bs Hsz _ IH]; rewrite ?total_nil, ?total_cons; cbn in *; lia.
Qed.
Lemma in_data_range m hd o bs i : 0 <= m -> 0 <= hd -> sizes_ok m bs -> in_data hd o bs i ->
  o <= i < o + total bs.
Proof.
  intros Hm Hhd Hs. revert o. induction Hs as [|[sz u] bs Hsz Hs IH]; intros o; cbn; [done|].
  rewrite total_cons. cbn in Hsz. pose proof (total_nonneg _ _ Hm Hs) as Ht.
  intros [[_ Hi]|Hi]; [lia|]. specialize (IH _ Hi). lia.
Qed.
Lemma last_start_range m o p bs : 5 <= m -> sizes_ok m bs -> p + 5 <= o -> last_start o p bs + 5 <= o + total bs.
Proof.
  intros Hm Hs. revert o p. induction Hs as [|[sz u] bs Hsz _ IH]; intros o p Hp; cbn; rewrite ?total_nil, ?total_cons; [lia|].
  cbn in Hsz. rewrite Z.add_assoc. apply (IH (o + sz) o). lia.
Qed.

(** Headers survive what happens elsewhere. *)
Lemma tiles_before m V V' o p bs : 5 <= m -> sizes_ok m bs ->
  (forall o', o <= o' -> o' + 5 <= o + total bs -> V' o' = V o') -> tiles V o p bs -> tiles V' o p bs.
Proof.
  intros Hm Hs. revert o p. induction Hs as [|[sz u] bs Hsz Hs IH]; intros o p HV; cbn [tiles]; [done|].
  cbn in Hsz. rewrite total_cons in HV. pose proof (total_nonneg m bs ltac:(lia) Hs) as Ht. intros [H1 H2]. split.
  - rewrite HV by lia. done.
  - apply IH; [|done]. intros o' ??. apply HV; lia.
Qed.
Lemma tiles_behind V V' o p bs m : 0 <= m -> sizes_ok m bs ->
  (forall o', o <= o' -> V' o' = V o') -> tiles V o p bs -> tiles V' o p bs.
Proof.
  intros Hm Hs. revert o p. induction Hs as [|[sz u] bs Hsz Hs IH]; intros o p HV; cbn [tiles]; [done|].
  cbn in Hsz. intros [H1 H2]. split; [rewrite HV by lia; done|]. apply IH; [|done].
  intros o' ?. apply HV. lia.
Qed.
End lists.

(** ** Sizes and alignment *)
Section config.
Context {MEMO : MemOpts} {MO : MemOptsOk}.

Lemma align_pos : 1 <= MEM_ALIGNMENT <= 256.
Proof.
  destruct align_pow2 as (k & Hk & ->). change 1 with (2 ^ 0) at 1. change 256 with (2 ^ 8).
  split; apply Z.pow_le_mono_r; lia.
Qed.
Lemma align_mask z : Z.land z (Z.lnot (MEM_ALIGNMENT - 1)) = z / MEM_ALIGNMENT * MEM_ALIGNMENT.
Proof.
  destruct align_pow2 as (k & Hk & ->). rewrite <- Z.ldiff_land.
  replace (2 ^ k - 1) with (Z.ones k) by (rewrite Z.ones_equiv; lia).
  by rewrite Z.ldiff_ones_r, Z.shiftl_mul_pow2, Z.shiftr_div_pow2 by lia.
Qed.
Lemma align_low z : Z.land z (MEM_ALIGNMENT - 1) = z mod MEM_ALIGNMENT.
Proof.
  destruct align_pow2 as (k & Hk & ->).
  replace (2 ^ k - 1) with (Z.ones k) by (rewrite Z.ones_equiv; lia). apply Z.land_ones. lia.
Qed.
Lemma align_size_spec z :
  z <= LWIP_MEM_ALIGN_SIZE z < z + MEM_ALIGNMENT /\ (MEM_ALIGNMENT | LWIP_MEM_ALIGN_SIZE z).
Proof.
  unfold LWIP_MEM_ALIGN_SIZE. rewrite align_mask. pose proof align_pos as Ha.
  set (a := MEM_ALIGNMENT) in *. split; [|by apply Z.divide_factor_r].
  pose proof (Z_div_mod_eq_full (z + a - 1) a). pose proof (Z.mod_pos_bound (z + a - 1) a ltac:(lia)). nia.
Qed.

Lemma sizeof_mem : 6 <= SIZEOF_STRUCT_MEM <= 262 /\ (MEM_ALIGNMENT | SIZEOF_STRUCT_MEM).
Proof.
  destruct (align_size_spec 6) as [Hb Hd]. pose proof align_pos. split; [|exact Hd].
  unfold SIZEOF_STRUCT_MEM. lia.
Qed.
Lemma min_aligned : 0 < MIN_SIZE_ALIGNED < 2048.
Proof.
  destruct (align_size_spec MIN_SIZE) as [? _]. pose proof align_pos. pose proof min_size_pos.
  unfold MIN_SIZE_ALIGNED. lia.
Qed.
Lemma end_bound : 6 <= MEM_SIZE_ALIGNED < 64256.
Proof.
  destruct (align_size_spec MEM_SIZE) as [? _]. pose proof align_pos. pose proof mem_size_bound.
  pose proof room_for_one. destruct sizeof_mem as [? _]. pose proof min_aligned.
  unfold MEM_SIZE_ALIGNED in *. lia.
Qed.
Lemma ram_room : MEM_SIZE_ALIGNED + 6 <= ram_len.
Proof.
  destruct (align_size_spec ram_heap) as [Hb _]. destruct sizeof_mem as [? _].
  unfold ram_len, ram_addr, LWIP_MEM_ALIGN. unfold LWIP_MEM_ALIGN_SIZE in *. lia.
Qed.
Lemma ram_addr_aligned : (MEM_ALIGNMENT | ram_addr).
Proof. apply align_size_spec. Qed.

(** What a request is rounded to; near 2^16 the rounding wraps. *)
Lemma round_size_spec size : is_u16 size ->
  is_u16 (round_size size) /\ MIN_SIZE_ALIGNED <= round_size size /\ (MEM_ALIGNMENT | round_size size) /\
  (size <= 65536 - MEM_ALIGNMENT -> size <= round_size size).
Proof.
  intros Hs. unfold round_size. pose proof min_aligned as Hm. pose proof align_pos as Ha.
  rewrite (u16_small MIN_SIZE_ALIGNED) by (unfold is_u16; lia).
  assert (Hd : (MEM_ALIGNMENT | u16 (LWIP_MEM_ALIGN_SIZE size))).
  { destruct align_pow2 as (k & Hk & E). rewrite E in *. unfold u16.
    rewrite Z.mod_eq by lia. apply Z.divide_sub_r; [rewrite <- E; apply align_size_spec|].
    apply Z.divide_mul_l. exists (2 ^ (16 - k)). rewrite <- Z.pow_add_r by lia. f_equal. lia. }
  destruct (Z.ltb_spec (u16 (LWIP_MEM_ALIGN_SIZE size)) MIN_SIZE_ALIGNED).
  - split; [unfold is_u16; lia|]. split; [lia|]. split; [apply align_size_spec|]. intros Hle.
    destruct (align_size_spec size) as [Hb _].
    rewrite u16_small in * by (unfold is_u16 in *; lia). lia.
  - split; [apply u16_range|]. split; [lia|]. split; [done|]. intros Hle.
    destruct (align_size_spec size) as [Hb _].
    rewrite u16_small by (unfold is_u16 in *; lia). lia.
Qed.

(** ** Runs of the accessors *)
Definition in_ram (o : Z) : Prop := 0 <= o <= MEM_SIZE_ALIGNED.
Definition with_ram (r : Z -> Z) (s : mem_state) : mem_state := MemState r (lfree s) (m_asserts s).
Definition with_lfree (o : Z) (s : mem_state) : mem_state := MemState (ram s) o (m_asserts s).

Lemma rd_run o k s : in_ram o -> 0 <= k <= 4 -> rd (o + k) s = Done (ram s (o + k), s).
Proof.
  intros Ho Hk. unfold in_ram in Ho. pose proof ram_room. unfold rd.
  destruct (Z.leb_spec 0 (o + k)); [|lia]. destruct (Z.ltb_spec (o + k) ram_len); [done | lia].
Qed.
Lemma wr_run o k v s : in_ram o -> 0 <= k <= 4 ->
  wr (o + k) v s = Done (tt, with_ram (upd_byte (o + k) (u8 v) (ram s)) s).
Proof.
  intros Ho Hk. unfold in_ram in Ho. pose proof ram_room. unfold wr.
  destruct (Z.leb_spec 0 (o + k)); [|lia]. destruct (Z.ltb_spec (o + k) ram_len); [done | lia].
Qed.
Lemma get_next_run o s : in_ram o -> get_next o s = Done (h_nx (hdr_at (ram s) o), s).
Proof.
  intros Ho. unfold get_next. pose proof (rd_run o 0 s Ho) as H0. rewrite Z.add_0_r in H0.
  erewrite bind_run by (apply H0; lia). by erewrite bind_run by (apply rd_run; [done|lia]).
Qed.
Lemma get_prev_run o s : in_ram o -> get_prev o s = Done (h_pv (hdr_at (ram s) o), s).
Proof.
  intros Ho. unfold get_prev. erewrite bind_run by (apply rd_run; [done|lia]).
  by erewrite bind_run by (apply rd_run; [done|lia]).
Qed.
Lemma get_used_run o s : in_ram o -> get_used o s = Done (h_us (hdr_at (ram s) o), s).
Proof. intros Ho. unfold get_used. by rewrite rd_run by (done || lia). Qed.
Lemma set_next_run o v s : in_ram o -> set_next o v s = Done (tt, with_ram (w_next o v (ram s)) s).
Proof.
  intros Ho. unfold set_next. pose proof (wr_run o 0 v s Ho) as H0. rewrite Z.add_0_r in H0.
  erewrite bind_run by (apply H0; lia). by rewrite wr_run by (done || lia).
Qed.
Lemma set_prev_run o v s : in_ram o -> set_prev o v s = Done (tt, with_ram (w_prev o v (ram s)) s).
Proof.
  intros Ho. unfold set_prev. erewrite bind_run by (apply wr_run; [done|lia]).
  by rewrite wr_run by (done || lia).
Qed.
Lemma set_used_run o v s : in_ram o -> set_used o v s = Done (tt, with_ram (w_used o v (ram s)) s).
Proof. intros Ho. unfold set_used. by rewrite wr_run by (done || lia). Qed.
Lemma ASSERT_ok msg b s : b = true -> ASSERT msg b s = Done (tt, s).
Proof. by intros ->. Qed.

(** ** The layout of a heap *)
Definition blocks_ok (bs : list blk) : Prop :=
  Forall (fun b => SIZEOF_STRUCT_MEM + MIN_SIZE_ALIGNED <= b.1 /\ (MEM_ALIGNMENT | b.1)) bs.

Record layout (V : Z -> hdr) (bs : list blk) : Prop := {
  lay_total : total bs = MEM_SIZE_ALIGNED;
  lay_tiles : tiles V 0 0 bs;
  lay_blocks : blocks_ok bs;
  lay_end : h_us (V MEM_SIZE_ALIGNED) = 1 /\ h_nx (V MEM_SIZE_ALIGNED) = MEM_SIZE_ALIGNED
}.

(** The heap as a state: blocks, no two free ones in a row, and [lfree] at the
    first free one. *)
Record heap_is (s : mem_state) (bs : list blk) : Prop := {
  hi_layout : layout (hdr_at (ram s)) bs;
  hi_adjacent : no_adjacent bs;
  hi_lfree : lfree s = first_free 0 bs
}.

Lemma blocks_sizes bs : blocks_ok bs -> sizes_ok 6 bs.
Proof.
  destruct sizeof_mem as [? _]. pose proof min_aligned. intros Hb. eapply list.Forall_impl; [exact Hb|].
  cbn. intros b [??]. lia.
Qed.
Lemma blocks_ok_app xs ys : blocks_ok (xs ++ ys) <-> blocks_ok xs /\ blocks_ok ys.
Proof. apply Forall_app. Qed.
Lemma blocks_total bs : blocks_ok bs -> 0 <= total bs.
Proof. intros H%blocks_sizes. by eapply (total_nonneg 6). Qed.

(** Replace some blocks by others of the same total size. *)
Lemma layout_replace V V' xs mid mid' ys :
  layout V (xs ++ mid ++ ys) -> total mid' = total mid -> blocks_ok mid' -> mid' <> [] ->
  let o := total xs in let nx := o + total mid in
  tiles V' o (last_start 0 0 xs) mid' ->
  h_nx (V' nx) = h_nx (V nx) -> h_us (V' nx) = h_us (V nx) ->
  (ys <> [] -> h_pv (V' nx) = last_start o (last_start 0 0 xs) mid') ->
  (forall o', o' + 5 <= o \/ nx + 5 <= o' -> V' o' = V o') ->
  layout V' (xs ++ mid' ++ ys).
Proof.
  intros [Ht Hti (Hbx & (Hbm & Hby)%blocks_ok_app)%blocks_ok_app He] Htm Hb' Hne o nx Hm E1 E2 E3 HV.
  pose proof (blocks_total _ Hbx). pose proof (blocks_total _ Hbm). pose proof (blocks_total _ Hby).
  rewrite !total_app in Ht. apply tiles_app in Hti as [Htx Hti]. apply tiles_app in Hti as [_ Hty].
  rewrite Z.add_0_l in Hty. fold o nx in Hty. split.
  - rewrite !total_app. lia.
  - apply tiles_app. split; [|apply tiles_app; rewrite Z.add_0_l; fold o; split; [exact Hm|]].
    + eapply (tiles_before 6); [lia|by apply blocks_sizes| |exact Htx]. intros o' ? Ho'. apply HV. lia.
    + rewrite Htm. fold nx. destruct ys as [|[sz u] ys]; [done|]. destruct Hty as [Hh Hty]. cbn [tiles].
      apply list.Forall_cons in Hby as [[Hsz _] Hby]. cbn in Hsz.
      destruct sizeof_mem as [? _]. pose proof min_aligned. split.
      * destruct (V' nx) as [n p' us] eqn:E. cbn in E1, E2, E3. rewrite E1, E2, (E3 ltac:(done)), Hh. done.
      * eapply (tiles_behind _ _ _ _ _ 6); [lia|by apply blocks_sizes| |exact Hty].
        intros o' ?. apply HV. lia.
  - by rewrite !blocks_ok_app.
  - destruct ys as [|[sz u] ys].
    + rewrite total_nil in Ht. replace MEM_SIZE_ALIGNED with nx by (unfold nx; lia).
      rewrite E1, E2. replace nx with MEM_SIZE_ALIGNED by (unfold nx; lia). exact He.
    + apply list.Forall_cons in Hby as [[Hsz _] Hby]. cbn in Hsz. rewrite total_cons in *.
      pose proof (blocks_total _ Hby). destruct sizeof_mem as [? _]. pose proof min_aligned.
      rewrite HV by (unfold nx; lia). exact He.
Qed.

(** What the layout says about the block behind [xs] and its neighbours. *)
Lemma layout_block V xs sz u ys : layout V (xs ++ (sz, u) :: ys) ->
  let o := total xs in
  V o = Hdr (o + sz) (last_start 0 0 xs) (used_num u) /\
  0 <= o /\ SIZEOF_STRUCT_MEM + MIN_SIZE_ALIGNED <= sz /\ (MEM_ALIGNMENT | sz) /\ (MEM_ALIGNMENT | o) /\
  o + sz <= MEM_SIZE_ALIGNED /\ o + sz + total ys = MEM_SIZE_ALIGNED /\ blocks_ok xs /\ blocks_ok ys /\
  (ys = [] <-> o + sz = MEM_SIZE_ALIGNED).
Proof.
  intros [Ht Hti (Hbx & [[Hsz Hd] Hby]%list.Forall_cons)%blocks_ok_app He] o.
  apply tiles_app in Hti as [_ [Hh _]]. rewrite Z.add_0_l in Hh. fold o in Hh.
  rewrite total_app, total_cons in Ht. fold o in Ht. cbn in Hsz, Hd.
  pose proof (blocks_total _ Hbx). pose proof (blocks_total _ Hby). fold o in H0.
  split; [done|]. split; [done|]. split; [done|]. split; [done|]. split.
  { unfold o. clear -Hbx MO. induction Hbx as [|[z v] xs [_ Hz] _ IH]; [apply Z.divide_0_r|].
    rewrite total_cons. by apply Z.divide_add_r. }
  split; [lia|]. split; [lia|]. split; [done|]. split; [done|]. split.
  - intros ->. rewrite total_nil in Ht. lia.
  - intros E. destruct ys as [|[z v] ys]; [done|]. apply list.Forall_cons in Hby as [[Hz _] Hby].
    rewrite total_cons in Ht. pose proof (blocks_total _ Hby). destruct sizeof_mem as [? _]. pose proof min_aligned.
    cbn in Hz. lia.
Qed.

Lemma layout_next V xs sz u sz2 u2 ys : layout V (xs ++ (sz, u) :: (sz2, u2) :: ys) ->
  V (total xs + sz) = Hdr (total xs + sz + sz2) (total xs) (used_num u2) /\
  SIZEOF_STRUCT_MEM + MIN_SIZE_ALIGNED <= sz2 /\ total xs + sz + sz2 <= MEM_SIZE_ALIGNED /\ blocks_ok ys /\
  (ys = [] <-> total xs + sz + sz2 = MEM_SIZE_ALIGNED).
Proof.
  intros Hl. change (xs ++ (sz, u) :: (sz2, u2) :: ys) with (xs ++ [(sz, u)] ++ (sz2, u2) :: ys) in Hl.
  rewrite app_assoc in Hl. apply layout_block in Hl as (Hh & _ & Hsz & _ & _ & Hend & _ & _ & Hy & Hn).
  rewrite total_app, total_cons, total_nil, Z.add_0_r, last_start_app in *. by rewrite Z.add_0_l in Hh.
Qed.

(** Data lies outside of free blocks and of headers. *)
Lemma data_outside xs mid ys i : blocks_ok (xs ++ mid ++ ys) -> Forall (fun b => b.2 = false) mid ->
  in_data SIZEOF_STRUCT_MEM 0 (xs ++ mid ++ ys) i ->
  i < total xs \/ total xs + total mid + SIZEOF_STRUCT_MEM <= i.
Proof.
  intros (Hbx & (Hbm & Hby)%blocks_ok_app)%blocks_ok_app Hf. destruct sizeof_mem as [? _].
  rewrite !in_data_app, Z.add_0_l. intros [Hi|[Hi|Hi]].
  - left. eapply (in_data_range 6) in Hi; [lia|lia|lia|by apply blocks_sizes].
  - exfalso. clear -Hf Hi. revert Hi. generalize (total xs). induction Hf as [|[sz u] mid Hu _ IH]; intros o; cbn; [done|].
    cbn in Hu. subst u. intros [[? _]|Hi]; [done | by eapply IH].
  - right. destruct ys as [|[sz u] ys]; [done|]. apply list.Forall_cons in Hby as [[Hsz _] Hby]. cbn in Hsz.
    pose proof min_aligned. destruct Hi as [[_ Hi]|Hi]; [lia|].
    eapply (in_data_range 6) in Hi; [lia|lia|lia|by apply blocks_sizes].
Qed.
End config.

(** The bounds every run needs; one access to a header. *)
Ltac geometry := destruct sizeof_mem as [? _]; pose proof min_aligned; pose proof end_bound.
Ltac in_ram_tac := unfold in_ram in *; lia.
Ltac mem_run := erewrite bind_run by (first
  [ apply get_next_run | apply get_prev_run | apply get_used_run | apply set_used_run
  | apply set_next_run | apply set_prev_run ]; in_ram_tac); cbn [with_ram ram lfree m_asserts].
