(* ===== verification/MemHeap.v ===== *)
(** * What the heap allocator does

    mem_malloc finds the first free block that is large enough and splits it;
    mem_free gives a block back and merges it with its free neighbours;
    mem_realloc shrinks a block.  Each is an operation on the abstract list of
    blocks of MemProps.v, and none touches the data of another block. *)
From S2P Require Import Prelude Chains Mem MemProps.
#[local] Open Scope string_scope.
#[local] Open Scope list_scope.
#[local] Open Scope Z_scope.

(** ** Free neighbours and the first free block *)
Definition starts_free (bs : list blk) : bool := match bs with (_, false) :: _ => true | _ => false end.
Definition all_used (bs : list blk) : Prop := Forall (fun b => b.2 = true) bs.
Fixpoint ends_free (bs : list blk) : bool :=
  match bs with [] => false | [(_, u)] => negb u | _ :: bs => ends_free bs end.

Section lists.
Implicit Types xs ys bs : list blk.

Lemma no_adjacent_cons sz u bs :
  no_adjacent ((sz, u) :: bs) <-> (u = true \/ starts_free bs = false) /\ no_adjacent bs.
Proof. destruct u, bs as [|[z [|]] bs]; cbn; naive_solver. Qed.
Lemma no_adjacent_app xs ys :
  no_adjacent (xs ++ ys) <->
  no_adjacent xs /\ no_adjacent ys /\ (ends_free xs = false \/ starts_free ys = false).
Proof.
  induction xs as [|[sz u] xs IH]; [cbn; naive_solver|].
  cbn [app]. rewrite !no_adjacent_cons, IH. destruct xs as [|[z v] xs].
  - cbn. destruct u; naive_solver.
  - cbn [ends_free app]. destruct v; cbn; naive_solver.
Qed.
Lemma ends_free_snoc xs sz u : ends_free (xs ++ [(sz, u)]) = negb u.
Proof. induction xs as [|[z v] [|x xs] IH]; done. Qed.
Lemma starts_free_app xs ys : xs <> [] -> starts_free (xs ++ ys) = starts_free xs.
Proof. by destruct xs as [|[sz [|]] xs]. Qed.

Lemma all_used_dec xs : Decision (all_used xs).
Proof. unfold all_used. apply _. Defined.
#[local] Existing Instance all_used_dec.

Lemma first_free_used o xs ys : all_used xs -> first_free o (xs ++ ys) = first_free (o + total xs) ys.
Proof. intros Hu. rewrite first_free_app. by rewrite bool_decide_true. Qed.
Lemma first_free_used0 xs ys : all_used xs -> first_free 0 (xs ++ ys) = first_free (total xs) ys.
Proof. intros Hu. by rewrite first_free_used, Z.add_0_l. Qed.
Lemma first_free_before o xs ys : ~ all_used xs -> first_free o (xs ++ ys) = first_free o xs.
Proof. intros Hu. rewrite first_free_app. by rewrite bool_decide_false. Qed.
Lemma first_free_lt m o xs : 0 < m -> sizes_ok m xs -> ~ all_used xs -> first_free o xs < o + total xs.
Proof.
  intros Hm Hs. revert o. induction Hs as [|[sz u] xs Hsz Hs IH]; intros o Hu; [by destruct Hu; constructor|].
  rewrite total_cons. pose proof (total_nonneg m xs ltac:(lia) Hs). cbn in *. destruct u; [|lia].
  rewrite Z.add_assoc. apply IH. intros Hx. apply Hu. by constructor.
Qed.
Lemma first_free_le m o xs : 0 <= m -> sizes_ok m xs -> o <= first_free o xs <= o + total xs.
Proof.
  intros Hm Hs. revert o. induction Hs as [|[sz u] xs Hsz Hs IH]; intros o; cbn; rewrite ?total_nil, ?total_cons; [lia|].
  pose proof (total_nonneg m xs ltac:(lia) Hs). cbn in *. destruct u; [|lia]. specialize (IH (o + sz)). lia.
Qed.
End lists.

Section heap.
Context {MEMO : MemOpts} {MO : MemOptsOk}.

(** ** The search for the lowest free block *)
Lemma lfree_loop_run fuel xs zs s :
  layout (hdr_at (ram s)) (xs ++ zs) -> lfree s = total xs -> (length zs <= fuel)%nat ->
  lfree_loop fuel s = Done (tt, with_lfree (first_free (total xs) zs) s).
Proof.
  revert fuel xs s. induction zs as [|[sz u] zs IH]; intros fuel xs s Hl Hlf Hf.
  - pose proof (lay_total _ _ Hl) as Ht. rewrite app_nil_r in Ht.
    assert (E : lfree_loop fuel s = Done (tt, s)).
    { geometry. destruct fuel; cbn [lfree_loop]; erewrite bind_run by reflexivity; rewrite Hlf, Ht;
        erewrite bind_run by (apply get_used_run; unfold in_ram; lia);
        rewrite Z.eqb_refl, andb_false_r; done. }
    rewrite E. cbn [first_free]. rewrite <- Hlf. by destruct s.
  - destruct (layout_block _ _ _ _ _ Hl) as (Hh & Ho & Hsz & _ & _ & Hend & _).
    destruct fuel as [|fuel]; [cbn in Hf; lia|]. cbn [lfree_loop]. geometry.
    erewrite bind_run by reflexivity. rewrite Hlf.
    erewrite bind_run by (apply get_used_run; unfold in_ram; lia). rewrite Hh. cbn [h_us].
    destruct u; cbn [used_num first_free].
    + destruct (Z.eqb_spec (total xs) MEM_SIZE_ALIGNED); [lia|]. cbn [negb andb Z.eqb].
      erewrite bind_run by (apply get_next_run; unfold in_ram; lia). rewrite Hh. cbn [h_nx].
      erewrite bind_run by reflexivity.
      specialize (IH fuel (xs ++ [(sz, true)]) (with_lfree (total xs + sz) s)).
      rewrite total_app, total_cons, total_nil, Z.add_0_r in IH. apply IH; [|done|cbn in Hf; lia].
      by rewrite <- app_assoc.
    + cbn [negb Z.eqb andb]. rewrite <- Hlf. by destruct s.
Qed.

Lemma blocks_fuel bs : blocks_ok bs -> total bs = MEM_SIZE_ALIGNED -> (length bs <= mem_fuel)%nat.
Proof.
  intros Hb Ht. unfold mem_fuel. rewrite <- Ht. geometry. clear -Hb H MO.
  enough (Z.of_nat (length bs) <= total bs) by lia.
  induction Hb as [|[sz u] bs [Hsz _] _ IH]; [done|]. rewrite total_cons. cbn in *.
  pose proof min_aligned. lia.
Qed.

(** [lfree] points to a free block or to the end. *)
Lemma first_free_header V o p bs : tiles V o p bs ->
  first_free o bs = o + total bs \/ h_us (V (first_free o bs)) = 0.
Proof.
  revert o p. induction bs as [|[sz u] bs IH]; intros o p; cbn [tiles first_free].
  - rewrite total_nil. lia.
  - rewrite total_cons. intros [Hh Ht]. destruct u; [|right; by rewrite Hh].
    rewrite Z.add_assoc. by eapply IH.
Qed.

(** ** Allocation on the abstract heap *)
Definition cut (size sz : Z) : list blk :=
  if size + SIZEOF_STRUCT_MEM + MIN_SIZE_ALIGNED <=? sz - SIZEOF_STRUCT_MEM
  then [(SIZEOF_STRUCT_MEM + size, true); (sz - (SIZEOF_STRUCT_MEM + size), false)]
  else [(sz, true)].

Fixpoint first_fit (size : Z) (bs : list blk) : option (list blk * Z * list blk) :=
  match bs with
  | [] => None
  | (sz, u) :: bs =>
      if negb u && (size <=? sz - SIZEOF_STRUCT_MEM) then Some ([], sz, bs)
      else match first_fit size bs with
           | Some (xs, n, ys) => Some ((sz, u) :: xs, n, ys)
           | None => None
           end
  end.

(** A request as [round_size] leaves it. *)
Definition request_ok (size : Z) : Prop :=
  is_u16 size /\ MIN_SIZE_ALIGNED <= size /\ (MEM_ALIGNMENT | size).

Lemma cut_total size sz : total (cut size sz) = sz.
Proof. unfold cut. case_match; rewrite ?total_cons, total_nil; lia. Qed.
Lemma cut_ok size sz : request_ok size -> SIZEOF_STRUCT_MEM + MIN_SIZE_ALIGNED <= sz -> (MEM_ALIGNMENT | sz) ->
  blocks_ok (cut size sz) /\ cut size sz <> [].
Proof.
  intros (_ & Hm & Hd) Hsz Hdz. destruct sizeof_mem as [_ Hs]. unfold cut.
  destruct (Z.leb_spec (size + SIZEOF_STRUCT_MEM + MIN_SIZE_ALIGNED) (sz - SIZEOF_STRUCT_MEM)); split; try done.
  - repeat constructor; cbn; [lia|by apply Z.divide_add_r|lia|].
    by apply Z.divide_sub_r, Z.divide_add_r.
  - by repeat constructor.
Qed.

(** The data of used blocks, and the record of failed assertions, stay. *)
Definition data_kept (bs : list blk) (s s' : mem_state) : Prop :=
  (forall i, in_data SIZEOF_STRUCT_MEM 0 bs i -> ram s' i = ram s i) /\ m_asserts s' = m_asserts s.


(** The header at [nx] gets a new predecessor, unless it ends the array. *)
Definition relink (nx p : Z) (r : Z -> Z) : Z -> Z := if nx =? MEM_SIZE_ALIGNED then r else w_prev nx p r.
Lemma relink_run nx p s : in_ram nx ->
  when (negb (nx =? MEM_SIZE_ALIGNED)) (set_prev nx p) s = Done (tt, with_ram (relink nx p (ram s)) s).
Proof.
  intros Hn. unfold relink. destruct (nx =? MEM_SIZE_ALIGNED); [by destruct s|]. by apply set_prev_run.
Qed.
Lemma relink_hdr nx p r : is_u16 p ->
  h_nx (hdr_at (relink nx p r) nx) = h_nx (hdr_at r nx) /\
  h_us (hdr_at (relink nx p r) nx) = h_us (hdr_at r nx) /\
  (nx <> MEM_SIZE_ALIGNED -> h_pv (hdr_at (relink nx p r) nx) = p) /\
  (forall o, far nx o -> hdr_at (relink nx p r) o = hdr_at r o) /\
  (forall i, off_hdr i nx -> relink nx p r i = r i).
Proof.
  intros Hp. unfold relink. destruct (Z.eqb_spec nx MEM_SIZE_ALIGNED) as [->|Hne]; [done|].
  rewrite hdr_w_prev by done. cbn. repeat split; try done.
  - intros o Ho. by apply hdr_prev_far.
  - intros i Hi. by apply byte_off.
Qed.

Lemma carve_run s xs sz ys size :
  layout (hdr_at (ram s)) (xs ++ (sz, false) :: ys) -> request_ok size -> size <= sz - SIZEOF_STRUCT_MEM ->
  exists r, carve (total xs) size s = Done (tt, with_ram r s)
    /\ layout (hdr_at r) (xs ++ cut size sz ++ ys)
    /\ (forall i, in_data SIZEOF_STRUCT_MEM 0 (xs ++ (sz, false) :: ys) i -> r i = ram s i).
Proof.
  intros Hl Hr Hfit. destruct (layout_block _ _ _ _ _ Hl) as (Hh & Ho & Hsz & Hdz & Hdo & Hend & Hsum & Hbx & Hby & Hnil).
  destruct (cut_ok size sz Hr Hsz Hdz) as [Hcut Hne]. pose proof Hr as (Hs16 & Hmin & _).
  geometry. set (o := total xs) in *. set (nx := o + sz) in *.
  assert (Hout : forall i, in_data SIZEOF_STRUCT_MEM 0 (xs ++ (sz, false) :: ys) i -> i < o \/ nx + SIZEOF_STRUCT_MEM <= i).
  { intros i Hi. apply (data_outside xs [(sz, false)] ys) in Hi; [|by apply Hl|by repeat constructor].
    rewrite total_cons, total_nil in Hi. unfold nx, o in *. lia. }
  unfold carve. erewrite bind_run by (apply get_next_run; unfold in_ram; lia). rewrite Hh. cbn [h_nx].
  replace (u32 (nx - (o + SIZEOF_STRUCT_MEM))) with (sz - SIZEOF_STRUCT_MEM)
    by (rewrite u32_small; unfold is_u32, nx; lia).
  unfold cut in *.
  destruct (Z.leb_spec (size + SIZEOF_STRUCT_MEM + MIN_SIZE_ALIGNED) (sz - SIZEOF_STRUCT_MEM)) as [Hsplit|Hsplit].
  - set (n := SIZEOF_STRUCT_MEM + size) in *.
    replace (u16 (o + SIZEOF_STRUCT_MEM + size)) with (o + n) by (rewrite u16_small; unfold is_u16, n, nx in *; lia).
    set (p2 := o + n) in *. cbv zeta.
    assert (Hp2 : is_u16 p2) by (unfold is_u16, p2, n, nx in *; lia).
    assert (Hnx : is_u16 nx) by (unfold is_u16, nx in *; lia).
    assert (Ho16 : is_u16 o) by (unfold is_u16, nx in *; lia).
    do 5 mem_run. set (r5 := w_used o 1 _). rewrite relink_run by in_ram_tac.
    destruct (relink_hdr nx p2 r5 Hp2) as (R1 & R2 & R3 & R4 & R5).
    assert (Hr5 : hdr_at r5 o = Hdr p2 (last_start 0 0 xs) 1 /\ hdr_at r5 p2 = Hdr nx o 0 /\
                  forall o', o' + 5 <= o \/ nx <= o' -> hdr_at r5 o' = hdr_at (ram s) o').
    { unfold r5. split; [hdrs; by rewrite Hh|]. split; [by hdrs|]. intros o' Ho'. by hdrs. }
    destruct Hr5 as (V1 & V2 & V3). exists (relink nx p2 r5). split; [done|]. split.
    + apply (layout_replace (hdr_at (ram s)) _ xs [(sz, false)] _ ys Hl); try done.
      all: rewrite ?total_cons, ?total_nil, ?Z.add_0_r; fold o; fold nx.
      * lia.
      * cbn [tiles used_num]. fold p2. replace (p2 + (sz - n)) with nx by (unfold nx, p2; lia).
        rewrite !R4 by far_tac. done.
      * rewrite R1, V3 by lia. done.
      * rewrite R2, V3 by lia. done.
      * intros Hy. apply R3. intros E. by apply Hy, Hnil.
      * intros o' Ho'. rewrite R4 by far_tac. apply V3. lia.
    + intros i Hi%Hout. rewrite R5 by far_tac. unfold r5. by hdr_bytes.
  - rewrite set_used_run by in_ram_tac. eexists. split; [reflexivity|]. split.
    + apply (layout_replace (hdr_at (ram s)) _ xs [(sz, false)] _ ys Hl); try done.
      all: rewrite ?total_cons, ?total_nil, ?Z.add_0_r; fold o; fold nx.
      * cbn [tiles used_num]. hdrs. by rewrite Hh.
      * by hdrs.
      * by hdrs.
      * intros Hy. hdrs. destruct ys as [|[sz2 u2] ys]; [done|].
        apply layout_next in Hl as [Hh2 _]. fold o in Hh2. fold nx in Hh2. by rewrite Hh2.
      * intros o' Ho'. by hdrs.
    + intros i Hi%Hout. by hdr_bytes.
Qed.

(** ** mem_malloc *)
Lemma next_lfree_run s xs bs sz ys :
  layout (hdr_at (ram s)) (xs ++ bs ++ ys) -> bs <> [] -> starts_free bs = false -> blocks_ok xs ->
  lfree s = first_free 0 (xs ++ (sz, false) :: ys) ->
  next_lfree (total xs) s = Done (tt, with_lfree (first_free 0 (xs ++ bs ++ ys)) s).
Proof.
  intros Hl Hne Hst Hbx Hlf. unfold next_lfree. erewrite bind_run by reflexivity. geometry.
  pose proof (first_free_header _ _ _ _ (lay_tiles _ _ Hl)) as Hff.
  pose proof (first_free_le 6 0 _ ltac:(lia) (blocks_sizes _ (lay_blocks _ _ Hl))) as Hle.
  rewrite Z.add_0_l, (lay_total _ _ Hl) in Hff, Hle.
  destruct (decide (all_used xs)) as [Hu|Hu].
  - rewrite first_free_used0 in Hlf by done. cbn in Hlf. rewrite Hlf, Z.eqb_refl. cbn [when].
    rewrite first_free_used0 in * by done.
    erewrite bind_run by (eapply lfree_loop_run; [exact Hl|done|]; etrans; [|apply blocks_fuel; [apply Hl|apply Hl]];
      rewrite (length_app xs); lia).
    erewrite bind_run by reflexivity. cbn [with_lfree lfree ram].
    erewrite bind_run by (apply get_used_run; in_ram_tac). apply ASSERT_ok. cbn [with_lfree ram].
    destruct Hff as [-> | ->]; [by rewrite Z.eqb_refl | by rewrite orb_true_r].
  - rewrite first_free_before in Hlf by done. rewrite (first_free_before 0 xs (bs ++ ys)) by done.
    pose proof (first_free_lt 6 0 xs ltac:(lia) (blocks_sizes _ Hbx) Hu).
    destruct (Z.eqb_spec (total xs) (lfree s)); [lia|]. rewrite <- Hlf. by destruct s.
Qed.

Lemma cut_no_adjacent xs ys size sz :
  no_adjacent (xs ++ (sz, false) :: ys) -> no_adjacent (xs ++ cut size sz ++ ys).
Proof.
  rewrite !no_adjacent_app, no_adjacent_cons. intros (H1 & [[?|H2] H3] & H4); [done|].
  unfold cut. case_match; cbn [app].
  - rewrite !no_adjacent_cons. cbn. naive_solver.
  - rewrite no_adjacent_cons. cbn. naive_solver.
Qed.

Lemma take_block_run s xs sz ys size :
  heap_is s (xs ++ (sz, false) :: ys) -> request_ok size -> size <= sz - SIZEOF_STRUCT_MEM ->
  exists s', take_block (total xs) size s = Done (Some (total xs + SIZEOF_STRUCT_MEM), s')
    /\ heap_is s' (xs ++ cut size sz ++ ys) /\ data_kept (xs ++ (sz, false) :: ys) s s'.
Proof.
  intros [Hl Hadj Hlf] Hr Hfit.
  destruct (layout_block _ _ _ _ _ Hl) as (_ & Ho & Hsz & Hdz & Hdo & Hend & _ & Hbx & _).
  destruct (carve_run s xs sz ys size Hl Hr Hfit) as (r & Ec & Hl' & Hd).
  destruct (cut_ok size sz Hr Hsz Hdz) as [_ Hne]. geometry.
  exists (with_lfree (first_free 0 (xs ++ cut size sz ++ ys)) (with_ram r s)).
  split; [|split; [split; [exact Hl'|by apply cut_no_adjacent|done]|done]].
  unfold take_block. erewrite bind_run by exact Ec.
  erewrite bind_run by (eapply next_lfree_run; [exact Hl'|done|unfold cut; by case_match|done|exact Hlf]).
  pose proof sizeof_mem as [_ Hds]. pose proof ram_addr_aligned as Hra. pose proof align_pos.
  assert (Hm1 : (ram_addr + total xs + SIZEOF_STRUCT_MEM) mod MEM_ALIGNMENT = 0)
    by (apply Z.mod_divide; [lia|]; by repeat apply Z.divide_add_r).
  assert (Hm2 : (ram_addr + total xs) mod MEM_ALIGNMENT = 0)
    by (apply Z.mod_divide; [lia|]; by repeat apply Z.divide_add_r).
  erewrite bind_run by (apply ASSERT_ok, Z.leb_le; lia).
  erewrite bind_run by (apply ASSERT_ok; by rewrite Hm1).
  erewrite bind_run by (apply ASSERT_ok; by rewrite align_low, Hm2). done.
Qed.

Lemma first_fit_none size bs : blocks_ok bs -> total bs <= size -> first_fit size bs = None.
Proof.
  intros Hb. destruct sizeof_mem as [? _]. induction Hb as [|[sz u] bs [Hsz _] Hb IH]; [done|].
  rewrite total_cons. pose proof (blocks_total _ Hb). pose proof min_aligned. cbn in *. intros Ht.
  destruct (Z.leb_spec size (sz - SIZEOF_STRUCT_MEM)); [lia|]. rewrite andb_false_r, IH; [done|lia].
Qed.
Lemma first_fit_split size bs xs sz ys : first_fit size bs = Some (xs, sz, ys) ->
  bs = xs ++ (sz, false) :: ys /\ size <= sz - SIZEOF_STRUCT_MEM.
Proof.
  revert xs. induction bs as [|[z u] bs IH]; intros xs; cbn; [done|].
  destruct u; cbn.
  - destruct (first_fit size bs) as [[[xs' n] ys']|]; [|done]. intros [= <- <- <-].
    destruct (IH xs' eq_refl) as [-> ?]. done.
  - destruct (Z.leb_spec size (z - SIZEOF_STRUCT_MEM)).
    + by intros [= <- <- <-].
    + destruct (first_fit size bs) as [[[xs' n] ys']|]; [|done]. intros [= <- <- <-].
      destruct (IH xs' eq_refl) as [-> ?]. done.
Qed.

Lemma fit_loop_run fuel xs zs size s :
  heap_is s (xs ++ zs) -> request_ok size -> (length zs <= fuel)%nat ->
  match first_fit size zs with
  | None => fit_loop fuel (total xs) size s = Done (None, s)
  | Some (ys1, sz, ys2) => exists s',
      fit_loop fuel (total xs) size s = Done (Some (total (xs ++ ys1) + SIZEOF_STRUCT_MEM), s')
      /\ heap_is s' (xs ++ ys1 ++ cut size sz ++ ys2) /\ data_kept (xs ++ zs) s s'
  end.
Proof.
  revert fuel xs. induction zs as [|[sz u] zs IH]; intros fuel xs Hh Hr Hf; geometry; pose proof Hr as ([Hs0 _] & _).
  - cbn [first_fit]. pose proof (lay_total _ _ (hi_layout _ _ Hh)) as Ht. rewrite app_nil_r in Ht.
    destruct fuel; cbn [fit_loop]; destruct (Z.ltb_spec (total xs) (MEM_SIZE_ALIGNED - size)); done || lia.
  - pose proof (hi_layout _ _ Hh) as Hl.
    destruct (layout_block _ _ _ _ _ Hl) as (Hb & Ho & Hsz & _ & _ & Hend & Hsum & _ & Hbz & _).
    destruct (Z.ltb_spec (total xs) (MEM_SIZE_ALIGNED - size)) as [Hlt|Hge].
    2:{ rewrite (first_fit_none size ((sz, u) :: zs)).
        - destruct fuel; cbn [fit_loop]; by destruct (Z.ltb_spec (total xs) (MEM_SIZE_ALIGNED - size)); lia || done.
        - pose proof (lay_blocks _ _ Hl) as Hbk. by apply blocks_ok_app in Hbk as [_ ?].
        - rewrite total_cons. lia. }
    destruct fuel as [|fuel]; [cbn in Hf; lia|]. cbn [fit_loop first_fit].
    destruct (Z.ltb_spec (total xs) (MEM_SIZE_ALIGNED - size)); [|lia]. cbn [negb].
    do 2 mem_run. rewrite Hb. cbn [h_us h_nx].
    replace (u32 (total xs + sz - (total xs + SIZEOF_STRUCT_MEM))) with (sz - SIZEOF_STRUCT_MEM)
      by (rewrite u32_small; unfold is_u32; lia).
    specialize (IH fuel (xs ++ [(sz, u)])). rewrite total_app, total_cons, total_nil, Z.add_0_r, <- app_assoc in IH.
    cbn [app] in IH. specialize (IH Hh Hr ltac:(cbn in Hf; lia)).
    replace (used_num u =? 0) with (negb u) by by destruct u.
    destruct (negb u && (size <=? sz - SIZEOF_STRUCT_MEM)) eqn:E.
    + apply andb_true_iff in E as [Eu Ele%Z.leb_le]. destruct u; [done|]. rewrite app_nil_r.
      by apply take_block_run.
    + destruct (first_fit size zs) as [[[ys1 n] ys2]|]; [|exact IH].
      destruct IH as (s' & E1 & E2 & E3). exists s'. rewrite <- !app_assoc in E1, E2. cbn [app] in E1, E2. done.
Qed.

(** ** mem_free *)
Definition merge_right (sz : Z) (ys : list blk) : Z * list blk :=
  match ys with (z, false) :: ys => (sz + z, ys) | _ => (sz, ys) end.
Fixpoint merge_left (xs : list blk) (sz : Z) : list blk :=
  match xs with
  | [] => [(sz, false)]
  | [(z, false)] => [(z + sz, false)]
  | b :: xs => b :: merge_left xs sz
  end.
(** The blocks after the one of size [sz] between [xs] and [ys] is freed. *)
Definition released (xs : list blk) (sz : Z) (ys : list blk) : list blk :=
  merge_left xs (merge_right sz ys).1 ++ (merge_right sz ys).2.

Lemma merge_left_free xs z sz : merge_left (xs ++ [(z, false)]) sz = xs ++ [(z + sz, false)].
Proof. induction xs as [|[n u] [|b xs] IH]; [done|by destruct u|]. cbn in *. by destruct u; rewrite IH. Qed.
Lemma merge_left_used xs sz : ends_free xs = false -> merge_left xs sz = xs ++ [(sz, false)].
Proof.
  induction xs as [|[n u] [|b xs] IH]; cbn; [done|by destruct u|]. intros Hx. cbn in IH. by destruct u; rewrite IH.
Qed.

(** The first free block of a list with a free block after [xs]. *)
Lemma first_free_at xs sz ys : sizes_ok 6 xs -> first_free 0 (xs ++ (sz, false) :: ys) <= total xs.
Proof.
  intros Hs. destruct (decide (all_used xs)) as [Hu|Hu].
  - by rewrite first_free_used0.
  - rewrite first_free_before by done. pose proof (first_free_le 6 0 xs ltac:(lia) Hs). lia.
Qed.
Lemma first_free_same xs sz sz' ys ys' :
  first_free 0 (xs ++ (sz, false) :: ys) = first_free 0 (xs ++ (sz', false) :: ys').
Proof. by rewrite !first_free_app. Qed.

(** Two blocks become one free block. *)
Lemma join_layout r xs sz z ys :
  layout (hdr_at r) (xs ++ (sz, false) :: (z, false) :: ys) ->
  let o := total xs in let nn := o + sz + z in
  let r' := w_prev nn o (w_next o nn r) in
  layout (hdr_at r') (xs ++ (sz + z, false) :: ys)
  /\ (forall i, in_data SIZEOF_STRUCT_MEM 0 (xs ++ (sz + z, false) :: ys) i -> r' i = r i).
Proof.
  intros Hl o nn r'. geometry.
  destruct (layout_block _ _ _ _ _ Hl) as (Hh & Ho & Hsz & Hd1 & Hdo & Hend & Hsum & Hbx & Hbz & _).
  destruct (layout_next _ _ _ _ _ _ _ Hl) as (Hh2 & Hz & Hend2 & Hby & Hnil). fold o nn in Hh, Hh2, Hend2, Hnil, Hend.
  apply list.Forall_cons in Hbz as [[_ Hdz] _]. cbn in Hdz.
  assert (Hnn : is_u16 nn) by (unfold is_u16, nn; lia). assert (Ho16 : is_u16 o) by (unfold is_u16; lia).
  assert (Hl' : layout (hdr_at r') (xs ++ (sz + z, false) :: ys)).
  { apply (layout_replace (hdr_at r) _ xs [(sz, false); (z, false)] [(sz + z, false)] ys Hl).
    all: rewrite ?total_cons, ?total_nil, ?Z.add_0_r, ?Z.add_assoc; fold o; fold nn; unfold r'.
    - done.
    - repeat constructor; cbn; [lia | by apply Z.divide_add_r].
    - done.
    - cbn [tiles used_num]. hdrs. rewrite Hh, Z.add_assoc. done.
    - by hdrs.
    - by hdrs.
    - intros _. by hdrs.
    - intros o' Ho'. by hdrs. }
  split; [done|]. intros i Hi. apply (data_outside xs [(sz + z, false)] ys) in Hi;
    [|by apply Hl'|by repeat constructor]. rewrite total_cons, total_nil in Hi. fold o in Hi. unfold r', nn in *.
  by hdr_bytes.
Qed.

Lemma plug_forward_run s xs sz ys :
  layout (hdr_at (ram s)) (xs ++ (sz, false) :: ys) -> lfree s = first_free 0 (xs ++ (sz, false) :: ys) ->
  let '(sz', ys') := merge_right sz ys in
  exists r, plug_forward (total xs) s = Done (tt, with_ram r s)
    /\ layout (hdr_at r) (xs ++ (sz', false) :: ys')
    /\ (forall i, in_data SIZEOF_STRUCT_MEM 0 (xs ++ (sz', false) :: ys') i -> r i = ram s i).
Proof.
  intros Hl Hlf. geometry.
  destruct (layout_block _ _ _ _ _ Hl) as (Hh & Ho & Hsz & _ & _ & Hend & _ & Hbx & Hby & Hnil).
  assert (Hsame : exists r, Done (tt, s) = Done (tt, with_ram r s)
    /\ layout (hdr_at r) (xs ++ (sz, false) :: ys)
    /\ (forall i, in_data SIZEOF_STRUCT_MEM 0 (xs ++ (sz, false) :: ys) i -> r i = ram s i)).
  { exists (ram s). by destruct s. }
  assert (E : plug_forward (total xs) s =
    (if (h_us (hdr_at (ram s) (total xs + sz)) =? 0) && negb (total xs + sz =? MEM_SIZE_ALIGNED) then
      lf ← gets lfree; when (lf =? total xs + sz) (set_lfree (total xs));;
      nn ← get_next (total xs + sz); set_next (total xs) nn;; set_prev nn (total xs) else mret tt) s).
  { unfold plug_forward. mem_run. rewrite Hh. cbn [h_nx].
    erewrite bind_run by (apply ASSERT_ok, Z.leb_le; lia).
    destruct (Z.eqb_spec (total xs) (total xs + sz)); [lia|]. by mem_run. }
  rewrite E. clear E. destruct ys as [|[z [|]] ys]; cbn [merge_right].
  - replace (total xs + sz) with MEM_SIZE_ALIGNED by by symmetry; apply Hnil.
    by rewrite Z.eqb_refl, andb_false_r.
  - destruct (layout_next _ _ _ _ _ _ _ Hl) as (Hh2 & _). by rewrite Hh2.
  - destruct (layout_next _ _ _ _ _ _ _ Hl) as (Hh2 & Hz & Hend2 & _). rewrite Hh2. cbn [h_us used_num].
    destruct (Z.eqb_spec (total xs + sz) MEM_SIZE_ALIGNED); [lia|]. cbn [Z.eqb negb andb].
    erewrite bind_run by reflexivity.
    pose proof (first_free_at xs sz ((z, false) :: ys) (blocks_sizes _ Hbx)). rewrite <- Hlf in *.
    destruct (Z.eqb_spec (lfree s) (total xs + sz)); [lia|]. cbn [when]. erewrite bind_run by reflexivity.
    mem_run. rewrite Hh2. cbn [h_nx]. mem_run. rewrite set_prev_run by in_ram_tac. cbn [with_ram ram].
    destruct (join_layout _ _ _ _ _ Hl) as [Hl' Hd]. eexists. split; [reflexivity|]. done.
Qed.

Lemma plug_backward_run s xs sz ys :
  layout (hdr_at (ram s)) (xs ++ (sz, false) :: ys) -> lfree s = first_free 0 (xs ++ (sz, false) :: ys) ->
  exists r, plug_backward (total xs) s = Done (tt, with_ram r s)
    /\ layout (hdr_at r) (merge_left xs sz ++ ys)
    /\ (forall i, in_data SIZEOF_STRUCT_MEM 0 (merge_left xs sz ++ ys) i -> r i = ram s i).
Proof.
  intros Hl Hlf. geometry.
  destruct (layout_block _ _ _ _ _ Hl) as (Hh & Ho & Hsz & _ & _ & Hend & _ & Hbx & Hby & Hnil).
  assert (Hsame : ends_free xs = false -> exists r, Done (tt, s) = Done (tt, with_ram r s)
    /\ layout (hdr_at r) (merge_left xs sz ++ ys)
    /\ (forall i, in_data SIZEOF_STRUCT_MEM 0 (merge_left xs sz ++ ys) i -> r i = ram s i)).
  { intros Hx. rewrite merge_left_used, <- app_assoc by done. exists (ram s). by destruct s. }
  unfold plug_backward. mem_run. rewrite Hh. cbn [h_pv].
  destruct xs as [|[z u] xs _] using rev_ind; [by apply Hsame|].
  rewrite <- app_assoc in Hl. cbn [app] in Hl.
  destruct (layout_block _ _ _ _ _ Hl) as (Hh1 & Ho1 & Hsz1 & _ & _ & Hend1 & _ & Hbx1 & _).
  rewrite last_start_app, total_app, total_cons, total_nil, Z.add_0_r, Z.add_0_l in *. cbn [last_start].
  destruct (Z.eqb_spec (total xs) (total xs + z)); [lia|]. mem_run. rewrite Hh1. cbn [h_us].
  destruct u; cbn [used_num Z.eqb]; [apply Hsame; by rewrite ends_free_snoc|].
  erewrite bind_run by reflexivity. rewrite <- app_assoc in Hlf. cbn [app] in Hlf.
  pose proof (first_free_at xs z ((sz, false) :: ys) (blocks_sizes _ Hbx1)). rewrite <- Hlf in *.
  destruct (Z.eqb_spec (lfree s) (total xs + z)); [lia|]. cbn [when]. erewrite bind_run by reflexivity.
  mem_run. rewrite Hh. cbn [h_nx]. mem_run. rewrite set_prev_run by in_ram_tac. cbn [with_ram ram].
  destruct (join_layout _ _ _ _ _ Hl) as [Hl' Hd].
  eexists. split; [reflexivity|]. rewrite merge_left_free, <- app_assoc. done.
Qed.
End heap.
