(* ===== verification/MemOps.v ===== *)
(** * The heap allocator: its operations as operations on blocks

    What mem_init, mem_malloc, mem_free, mem_realloc and mem_calloc do, for
    every configuration with 16-bit sizes. *)
From S2P Require Import Prelude Chains Mem MemProps MemHeap.
#[local] Open Scope string_scope.
#[local] Open Scope list_scope.
#[local] Open Scope Z_scope.

#[local] Arguments no_adjacent : simpl never.

Section ops.
Context {MEMO : MemOpts} {MO : MemOptsOk}.

(** Allocation starts behind the blocks that are certainly used. *)
Lemma used_prefix (bs : list blk) : exists us zs, bs = us ++ zs /\ all_used us /\ (zs = [] \/ starts_free zs = true).
Proof.
  induction bs as [|[sz [|]] bs (us & zs & -> & Hu & Hz)].
  - exists [], []. split; [done|]. split; [constructor | by left].
  - exists ((sz, true) :: us), zs. split; [done|]. by split; [constructor|].
  - exists [], ((sz, false) :: us ++ zs). split; [done|]. split; [constructor | by right].
Qed.
Lemma first_fit_used n us zs : all_used us -> first_fit n (us ++ zs) =
  match first_fit n zs with Some (xs, sz, ys) => Some (us ++ xs, sz, ys) | None => None end.
Proof.
  induction 1 as [|[sz u] us Hu _ IH]; cbn; [by destruct (first_fit n zs) as [[[??]?]|]|].
  cbn in Hu. subst u. cbn. rewrite IH. by destruct (first_fit n zs) as [[[??]?]|].
Qed.

(** mem_malloc is first fit: it takes the first free block that holds the
    rounded size, splits off what is left over when that can hold a block of
    its own, and returns the address behind the header; it fails, changing
    nothing, exactly when no free block is large enough.  The heap stays well
    formed: the blocks tile the array, no two free ones are adjacent, [lfree]
    is the first free one; the data of used blocks does not change and no
    assertion fails. *)
Lemma mem_malloc_run s bs size :
  heap_is s bs -> is_u16 size -> size <> 0 ->
  match first_fit (round_size size) bs with
  | None => mem_malloc size s = Done (None, s)
  | Some (xs, sz, ys) => exists s',
      bs = xs ++ (sz, false) :: ys
      /\ mem_malloc size s = Done (Some (total xs + SIZEOF_STRUCT_MEM), s')
      /\ heap_is s' (xs ++ cut (round_size size) sz ++ ys) /\ data_kept bs s s'
  end.
Proof.
  intros Hh Hs Hne. destruct (round_size_spec size Hs) as (Hr16 & Hm & Hd & _).
  set (n := round_size size) in *. assert (Hr : request_ok n) by done.
  pose proof (hi_layout _ _ Hh) as Hl. destruct sizeof_mem as [? _].
  assert (Hf : (length bs <= mem_fuel)%nat) by (apply blocks_fuel; apply Hl).
  unfold mem_malloc. destruct (Z.eqb_spec size 0); [done|]. cbv zeta. fold n.
  destruct (Z.ltb_spec MEM_SIZE_ALIGNED n) as [Hbig|Hfits].
  { rewrite first_fit_none; [done|apply Hl|rewrite (lay_total _ _ Hl); lia]. }
  erewrite bind_run by reflexivity. rewrite (hi_lfree _ _ Hh).
  destruct (used_prefix bs) as (us & zs & -> & Hu & Hz).
  replace (first_free 0 (us ++ zs)) with (total us)
    by (rewrite first_free_used0 by done; destruct Hz as [-> | Hz]; [done|]; by destruct zs as [|[z [|]] zs]).
  rewrite length_app in Hf. pose proof (fit_loop_run mem_fuel us zs n s Hh Hr ltac:(lia)) as Hrun.
  rewrite first_fit_used by done. destruct (first_fit n zs) as [[[ys1 sz] ys2]|] eqn:E; [|exact Hrun].
  destruct Hrun as (s' & E1 & E2 & E3). exists s'. rewrite <- !app_assoc.
  apply first_fit_split in E as [-> _]. done.
Qed.

(** ** mem_free *)
Lemma released_no_adjacent xs sz u ys :
  no_adjacent (xs ++ (sz, u) :: ys) -> no_adjacent (released xs sz ys).
Proof.
  rewrite no_adjacent_app, no_adjacent_cons. intros (Hx & [_ Hy] & _). unfold released.
  assert (Hr : no_adjacent (merge_right sz ys).2 /\ starts_free (merge_right sz ys).2 = false).
  { destruct ys as [|[z [|]] ys]; cbn in *; [done|done|].
    apply no_adjacent_cons in Hy as [[?|?] ?]; done. }
  destruct Hr as [Hr1 Hr2]. rewrite no_adjacent_app. split; [|by split; [|right]].
  destruct xs as [|[z v] xs _] using rev_ind; [done|]. apply no_adjacent_app in Hx as (Hx & _ & Hv).
  destruct v.
  - rewrite merge_left_used by by rewrite ends_free_snoc. rewrite <- app_assoc. cbn [app].
    rewrite !no_adjacent_app, !no_adjacent_cons. cbn. naive_solver.
  - rewrite merge_left_free, no_adjacent_app. cbn in *. naive_solver.
Qed.
Lemma released_first_free xs sz ys :
  first_free 0 (released xs sz ys) = first_free 0 (xs ++ (sz, false) :: ys).
Proof.
  unfold released. destruct (merge_right sz ys) as [n zs]. cbn [fst snd].
  destruct xs as [|[z [|]] xs _] using rev_ind; [done|..].
  - rewrite merge_left_used by by rewrite ends_free_snoc. rewrite <- app_assoc. apply first_free_same.
  - rewrite merge_left_free, <- !app_assoc. apply first_free_same.
Qed.

Lemma relabel_layout r xs sz u ys : layout (hdr_at r) (xs ++ (sz, u) :: ys) ->
  layout (hdr_at (w_used (total xs) 0 r)) (xs ++ (sz, false) :: ys).
Proof.
  intros Hl. destruct (layout_block _ _ _ _ _ Hl) as (Hh & Ho & Hsz & Hd & _ & Hend & _ & Hbx & Hby & Hnil).
  destruct sizeof_mem as [? _]. pose proof min_aligned.
  apply (layout_replace (hdr_at r) _ xs [(sz, u)] [(sz, false)] ys Hl).
  all: rewrite ?total_cons, ?total_nil, ?Z.add_0_r.
  - done.
  - by repeat constructor.
  - done.
  - cbn [tiles used_num]. hdrs. by rewrite Hh.
  - by hdrs.
  - by hdrs.
  - intros Hy. hdrs. destruct ys as [|[sz2 u2] ys]; [done|].
    apply layout_next in Hl as [Hh2 _]. by rewrite Hh2.
  - intros o' Ho'. by hdrs.
Qed.

Lemma header_no_data xs sz u ys i : blocks_ok (xs ++ (sz, u) :: ys) ->
  in_data SIZEOF_STRUCT_MEM 0 (xs ++ (sz, u) :: ys) i -> off_hdr i (total xs).
Proof.
  rewrite blocks_ok_app, in_data_app. intros [Hbx [[Hsz _] Hby]%list.Forall_cons] Hi. cbn in Hsz, Hi.
  geometry. unfold off_hdr. destruct Hi as [Hi|[[_ Hi]|Hi]]; [|lia|];
    eapply (in_data_range 6) in Hi; try lia; by apply blocks_sizes.
Qed.

(** Merging with the block before takes no data away from the others. *)
Lemma merge_left_data xs n zs i :
  in_data SIZEOF_STRUCT_MEM 0 (merge_left xs n ++ zs) i -> in_data SIZEOF_STRUCT_MEM 0 (xs ++ (n, false) :: zs) i.
Proof.
  destruct xs as [|[z [|]] xs _] using rev_ind; [done|..].
  - rewrite merge_left_used by by rewrite ends_free_snoc. rewrite <- app_assoc. exact id.
  - rewrite merge_left_free, <- !app_assoc, !in_data_app. cbn [app in_data].
    rewrite !total_cons, !total_nil, !Z.add_0_r, !Z.add_assoc.
    intros [?|[[[? _]|[]]|?]]; [by left | done | by do 3 right].
Qed.

(** mem_free of an address that mem_malloc returned: the block becomes
    free and is merged with the block behind it and the one before it when they
    are free, so that again no two free blocks are adjacent.  [lfree] is the
    lowest free block again, the data of the used blocks that remain does not
    change, and no assertion fails. *)
Lemma mem_free_run s xs sz ys :
  heap_is s (xs ++ (sz, true) :: ys) ->
  exists s', mem_free (Some (total xs + SIZEOF_STRUCT_MEM)) s = Done (tt, s')
    /\ heap_is s' (released xs sz ys) /\ data_kept (released xs sz ys) s s'.
Proof.
  intros [Hl Hadj Hlf]. destruct sizeof_mem as [? Hds]. pose proof min_aligned. pose proof end_bound.
  destruct (layout_block _ _ _ _ _ Hl) as (Hh & Ho & Hsz & Hd & Hdo & Hend & _ & Hbx & Hby & _).
  pose proof (relabel_layout _ _ _ _ _ Hl) as Hl0. set (o := total xs) in *.
  set (r0 := w_used o 0 (ram s)) in *. set (lf := first_free 0 (xs ++ (sz, false) :: ys)).
  set (s0 := with_lfree lf (with_ram r0 s)).
  pose proof (plug_forward_run s0 xs sz ys Hl0 eq_refl) as Hfw.
  destruct (merge_right sz ys) as [n zs] eqn:Em. destruct Hfw as (r1 & E1 & Hl1 & Hd1).
  assert (Hlf1 : lf = first_free 0 (xs ++ (n, false) :: zs)) by apply first_free_same.
  destruct (plug_backward_run (with_ram r1 s0) xs n zs Hl1 Hlf1) as (r2 & E2 & Hl2 & Hd2).
  assert (Er : released xs sz ys = merge_left xs n ++ zs) by (unfold released; by rewrite Em).
  exists (with_ram r2 s0). split; [|split; [split|split; [|done]]].
  - unfold mem_free. pose proof ram_addr_aligned. pose proof align_pos.
    erewrite bind_run.
    2:{ apply ASSERT_ok. rewrite align_low. apply Z.eqb_eq, Z.mod_divide; [lia|]. by repeat apply Z.divide_add_r. }
    cbv zeta. destruct (Z.leb_spec 0 (o + SIZEOF_STRUCT_MEM)); [|lia].
    destruct (Z.ltb_spec (o + SIZEOF_STRUCT_MEM) MEM_SIZE_ALIGNED); [|lia]. cbn [andb negb].
    erewrite bind_run by by apply ASSERT_ok. rewrite Z.add_simpl_r.
    mem_run. rewrite Hh. erewrite bind_run by by apply ASSERT_ok. mem_run.
    erewrite bind_run by reflexivity. cbn [with_ram lfree].
    assert (Elf : when (o <? lfree s) (set_lfree o) (with_ram r0 s) = Done (tt, s0)).
    { unfold s0, lf. rewrite Hlf. destruct (decide (all_used xs)) as [Hu|Hu].
      - rewrite !first_free_used0 by done. cbn [first_free]. fold o.
        pose proof (first_free_le 6 (o + sz) ys ltac:(lia) (blocks_sizes _ Hby)).
        destruct (Z.ltb_spec o (first_free (o + sz) ys)); [done|lia].
      - rewrite !first_free_before by done.
        pose proof (first_free_lt 6 0 xs ltac:(lia) (blocks_sizes _ Hbx) Hu). fold o in H4.
        destruct (Z.ltb_spec o (first_free 0 xs)); [lia|].
        rewrite (first_free_before 0 xs) in Hlf by done. rewrite <- Hlf. done. }
    erewrite bind_run by exact Elf. unfold plug_holes.
    erewrite bind_run by (apply ASSERT_ok, Z.leb_le; lia).
    erewrite bind_run by (apply ASSERT_ok, Z.ltb_lt; lia).
    mem_run. change (ram s0) with r0. destruct (layout_block _ _ _ _ _ Hl0) as [Hh0 _].
    fold o in Hh0. rewrite Hh0. erewrite bind_run by by apply ASSERT_ok.
    erewrite bind_run by exact E1. exact E2.
  - by rewrite Er.
  - by eapply released_no_adjacent.
  - cbn [with_ram with_lfree s0 lfree]. by rewrite released_first_free.
  - intros i Hi. rewrite Er in Hi. cbn [with_ram ram]. rewrite (Hd2 i Hi). apply merge_left_data in Hi.
    cbn [with_ram ram]. rewrite (Hd1 i Hi). apply byte_used.
    eapply header_no_data; [apply Hl1|exact Hi].
Qed.

(** ** mem_realloc *)
Lemma split_off_run s xs mid ys n1 n2 :
  layout (hdr_at (ram s)) (xs ++ mid ++ ys) -> total mid = n1 + n2 -> blocks_ok [(n1, true); (n2, false)] ->
  h_us (hdr_at (ram s) (total xs)) = 1 -> h_pv (hdr_at (ram s) (total xs)) = last_start 0 0 xs ->
  exists r, split_off (total xs) (total xs + n1) (total xs + total mid) s = Done (tt, with_ram r s)
    /\ layout (hdr_at r) (xs ++ [(n1, true); (n2, false)] ++ ys)
    /\ (forall i, in_data SIZEOF_STRUCT_MEM 0 (xs ++ [(n1, true); (n2, false)] ++ ys) i -> r i = ram s i).
Proof.
  intros Hl Htm Hb Hus Hpv. geometry.
  pose proof Hb as [[Hn1 Hd1] [[Hn2 Hd2] _]%list.Forall_cons]%list.Forall_cons. cbn in Hn1, Hn2, Hd1, Hd2.
  pose proof (lay_blocks _ _ Hl) as (Hbx & (_ & Hby)%blocks_ok_app)%blocks_ok_app.
  pose proof (lay_total _ _ Hl) as Ht. rewrite !total_app, Htm in Ht.
  pose proof (blocks_total _ Hbx). pose proof (blocks_total _ Hby).
  set (o := total xs) in *. set (p2 := o + n1). set (nx := o + total mid).
  assert (Hp2 : is_u16 p2) by (unfold is_u16, p2; lia). assert (Hnx : is_u16 nx) by (unfold is_u16, nx; lia).
  assert (Ho16 : is_u16 o) by (unfold is_u16; lia).
  unfold split_off. assert (p2 + n2 = nx) by (unfold p2, nx; lia). assert (in_ram nx) by (unfold in_ram, nx; lia).
  assert (in_ram p2) by (unfold in_ram, p2; lia). assert (in_ram o) by in_ram_tac.
  do 4 mem_run. set (r4 := w_next o p2 _). rewrite relink_run by done.
  destruct (relink_hdr nx p2 r4 Hp2) as (R1 & R2 & R3 & R4 & R5).
  assert (Hr4 : hdr_at r4 o = Hdr p2 (last_start 0 0 xs) 1 /\ hdr_at r4 p2 = Hdr nx o 0 /\
                forall o', o' + 5 <= o \/ nx <= o' -> hdr_at r4 o' = hdr_at (ram s) o').
  { unfold r4, p2 in *. split; [hdrs; by rewrite Hus, Hpv|]. split; [by hdrs|]. intros o' Ho'. by hdrs. }
  destruct Hr4 as (V1 & V2 & V3). exists (relink nx p2 r4). split; [done|].
  assert (Hl' : layout (hdr_at (relink nx p2 r4)) (xs ++ [(n1, true); (n2, false)] ++ ys)).
  { apply (layout_replace (hdr_at (ram s)) _ xs mid _ ys Hl); try done.
    all: rewrite ?total_cons, ?total_nil, ?Z.add_0_r; fold o; fold nx.
    - lia.
    - cbn [tiles used_num]. fold p2. replace (p2 + n2) with nx by lia. unfold p2 in *. rewrite !R4 by far_tac. done.
    - rewrite R1, V3 by lia. done.
    - rewrite R2, V3 by lia. done.
    - intros Hy. apply R3. destruct ys as [|[z v] ys]; [done|]. apply list.Forall_cons in Hby as [[Hz _] Hby].
      rewrite total_cons in Ht. cbn in Hz. pose proof (blocks_total _ Hby). unfold nx. lia.
    - intros o' Ho'. rewrite R4 by far_tac. apply V3. lia. }
  split; [done|]. intros i Hi. pose proof (header_no_data xs n1 true _ i (lay_blocks _ _ Hl') Hi) as Ho.
  assert (E : xs ++ [(n1, true); (n2, false)] ++ ys = (xs ++ [(n1, true)]) ++ [(n2, false)] ++ ys)
    by by rewrite <- app_assoc.
  pose proof (lay_blocks _ _ Hl') as Hbk. rewrite E in Hi, Hbk.
  apply data_outside in Hi; [|done|by repeat constructor].
  rewrite total_app, !total_cons, !total_nil in Hi. fold o in Hi, Ho. fold p2 in Hi. unfold off_hdr in Ho.
  rewrite R5 by far_tac. unfold r4, p2 in *. by hdr_bytes.
Qed.

(** The blocks when the one of size [sz] between [xs] and [ys] shrinks to [n]
    bytes of data: a free block behind it grows; otherwise what is left over
    becomes a free block if it can hold one. *)
Definition shrunk (n : Z) (xs : list blk) (sz : Z) (ys : list blk) : list blk :=
  let n1 := SIZEOF_STRUCT_MEM + n in
  match ys with
  | (z, false) :: ys => xs ++ [(n1, true); (sz + z - n1, false)] ++ ys
  | _ => if n + SIZEOF_STRUCT_MEM + MIN_SIZE_ALIGNED <=? sz - SIZEOF_STRUCT_MEM
         then xs ++ [(n1, true); (sz - n1, false)] ++ ys else xs ++ (sz, true) :: ys
  end.

Lemma shrunk_used n xs sz ys : starts_free ys = false -> shrunk n xs sz ys =
  if n + SIZEOF_STRUCT_MEM + MIN_SIZE_ALIGNED <=? sz - SIZEOF_STRUCT_MEM
  then xs ++ [(SIZEOF_STRUCT_MEM + n, true); (sz - (SIZEOF_STRUCT_MEM + n), false)] ++ ys
  else xs ++ (sz, true) :: ys.
Proof. by destruct ys as [|[z [|]] ys]. Qed.

(** What mem_realloc does to [lfree] when a free block appears at [p2] in place
    of a part of [mid]. *)
Lemma lfree_split s xs sz ys n1 n2 zs :
  lfree s = first_free 0 (xs ++ (sz, true) :: ys) -> blocks_ok xs -> blocks_ok ys -> 0 < n1 < sz ->
  let lf := first_free 0 (xs ++ [(n1, true); (n2, false)] ++ zs) in
  (if total xs + n1 <? lfree s then total xs + n1 else lfree s) = lf /\
  (starts_free ys = true -> (if lfree s =? total xs + sz then total xs + n1 else lfree s) = lf).
Proof.
  intros Hlf Hbx Hby Hn lf. subst lf. rewrite Hlf. pose proof (blocks_total _ Hbx).
  destruct (decide (all_used xs)) as [Hu|Hu].
  - rewrite !first_free_used0 by done. cbn [first_free app].
    pose proof (first_free_le 6 (total xs + sz) ys ltac:(lia) (blocks_sizes _ Hby)).
    destruct (Z.ltb_spec (total xs + n1) (first_free (total xs + sz) ys)); [|lia]. split; [done|].
    destruct ys as [|[z [|]] ys]; [done..|]. intros _. cbn. by rewrite Z.eqb_refl.
  - rewrite !first_free_before by done.
    pose proof (first_free_lt 6 0 xs ltac:(lia) (blocks_sizes _ Hbx) Hu).
    destruct (Z.ltb_spec (total xs + n1) (first_free 0 xs)); [lia|].
    by destruct (Z.eqb_spec (first_free 0 xs) (total xs + sz)); [lia|].
Qed.

Lemma shrunk_no_adjacent n xs sz ys :
  no_adjacent (xs ++ (sz, true) :: ys) -> no_adjacent (shrunk n xs sz ys).
Proof.
  unfold shrunk. rewrite no_adjacent_app, no_adjacent_cons. intros (Hx & [_ Hy] & _).
  destruct ys as [|[z [|]] ys]; [case_match..|]; cbn [app];
    rewrite no_adjacent_app, !no_adjacent_cons in *; cbn in *; intuition.
Qed.
Lemma shrunk_same xs sz ys : shrunk (sz - SIZEOF_STRUCT_MEM) xs sz ys = xs ++ (sz, true) :: ys.
Proof.
  geometry. unfold shrunk. replace (SIZEOF_STRUCT_MEM + (sz - SIZEOF_STRUCT_MEM)) with sz by lia.
  destruct ys as [|[z [|]] ys].
  1,2: by destruct (Z.leb_spec (sz - SIZEOF_STRUCT_MEM + SIZEOF_STRUCT_MEM + MIN_SIZE_ALIGNED) (sz - SIZEOF_STRUCT_MEM)); [lia|].
  cbn [app]. by replace (sz + z - sz) with z by lia.
Qed.

Lemma when_lfree b p s : when b (set_lfree p) s = Done (tt, with_lfree (if b then p else lfree s) s).
Proof. destruct b; [done|]. by destruct s. Qed.

(** Both branches of mem_realloc that make a free block. *)
Lemma shrink_step s lf xs mid ys n1 n2 nx u :
  let bs := xs ++ [(n1, true); (n2, false)] ++ ys in
  layout (hdr_at (ram s)) (xs ++ mid ++ ys) -> total xs + total mid = nx -> n1 + n2 = total mid ->
  blocks_ok [(n1, true); (n2, false)] -> hdr_at (ram s) (total xs) = Hdr u (last_start 0 0 xs) 1 ->
  lf = first_free 0 bs -> no_adjacent bs ->
  exists s', split_off (total xs) (total xs + n1) nx (with_lfree lf s) = Done (tt, s')
    /\ heap_is s' bs /\ data_kept bs s s'.
Proof.
  intros bs Hl <- Ht Hb Hh Hlf Hadj.
  destruct (split_off_run (with_lfree lf s) xs mid ys n1 n2 Hl) as (r' & E & Hl' & Hd);
    [done|done|by cbn [with_lfree ram]; rewrite Hh..|].
  exists (with_ram r' (with_lfree lf s)). split; [exact E|]. by split.
Qed.

Lemma shrink_block_run s xs sz ys n :
  heap_is s (xs ++ (sz, true) :: ys) -> request_ok n -> n < sz - SIZEOF_STRUCT_MEM ->
  exists s', shrink_block (total xs) (total xs + sz) n (sz - SIZEOF_STRUCT_MEM) s = Done (tt, s')
    /\ heap_is s' (shrunk n xs sz ys) /\ data_kept (shrunk n xs sz ys) s s'.
Proof.
  intros [Hl Hadj Hlf] (Hr16 & Hmin & Hdn) Hlt. geometry. destruct sizeof_mem as [_ Hds].
  destruct (layout_block _ _ _ _ _ Hl) as (Hh & Ho & Hsz & Hd & Hdo & Hend & Hsum & Hbx & Hby & Hnil).
  unfold shrink_block. cbv zeta.
  mem_run. replace (u16 (total xs + SIZEOF_STRUCT_MEM + n)) with (total xs + (SIZEOF_STRUCT_MEM + n))
    by (rewrite u16_small; unfold is_u16; lia).
  set (n1 := SIZEOF_STRUCT_MEM + n) in *.
  pose proof (shrunk_no_adjacent n _ _ _ Hadj) as Hadj'.
  assert (SIZEOF_STRUCT_MEM + MIN_SIZE_ALIGNED <= n1 /\ (MEM_ALIGNMENT | n1)) as [Hn1 Hdn1]
    by (unfold n1; split; [lia|by apply Z.divide_add_r]).
  assert (Hcut : forall n2, SIZEOF_STRUCT_MEM + MIN_SIZE_ALIGNED <= n2 -> (MEM_ALIGNMENT | n2) ->
    blocks_ok [(n1, true); (n2, false)]) by by intros; constructor; [|constructor; [|constructor]].
  assert (Hdec : 0 < n1 < sz) by (unfold n1; lia).
  destruct (starts_free ys) eqn:Est.
  - destruct ys as [|[z [|]] ys]; [done..|].
    unfold shrunk in *. fold n1 in Hadj' |- *.
    destruct (layout_next _ _ _ _ _ _ _ Hl) as (Hh2 & Hz & Hend2 & _). rewrite Hh2. cbn [h_us used_num Z.eqb].
    pose proof Hby as [[_ Hdz] _]%list.Forall_cons. cbn in Hdz.
    destruct (lfree_split s xs sz _ n1 (sz + z - n1) ys Hlf Hbx Hby Hdec) as [_ Elf].
    mem_run. rewrite Hh2. cbn [h_nx]. erewrite bind_run by reflexivity. erewrite bind_run by apply when_lfree.
    rewrite Elf by done. eapply (shrink_step s _ xs [(sz, true); (z, false)] _ _ _ _ _ Hl); try done.
    all: rewrite ?total_cons, ?total_nil; try lia.
    apply Hcut; [lia|]. by apply Z.divide_sub_r; [apply Z.divide_add_r|].

  - assert (Hu2 : h_us (hdr_at (ram s) (total xs + sz)) = 1).
    { destruct ys as [|[z [|]] ys]; [|by apply layout_next in Hl as [-> _]|done].
      replace (total xs + sz) with MEM_SIZE_ALIGNED by by symmetry; apply Hnil. apply Hl. }
    rewrite Hu2. cbn [Z.eqb]. rewrite (shrunk_used n xs sz ys Est) in *. fold n1 in Hadj' |- *.
    destruct (Z.leb_spec (n + SIZEOF_STRUCT_MEM + MIN_SIZE_ALIGNED) (sz - SIZEOF_STRUCT_MEM)); [|by exists s].
    destruct (lfree_split s xs sz ys n1 (sz - n1) ys Hlf Hbx Hby Hdec) as [Elf _].
    erewrite bind_run by reflexivity. erewrite bind_run by apply when_lfree. rewrite Elf.
    eapply (shrink_step s _ xs [(sz, true)] _ _ _ _ _ Hl); try done.
    all: rewrite ?total_cons, ?total_nil; try lia.
    apply Hcut; [unfold n1; lia|]. by apply Z.divide_sub_r.

Qed.

Definition grow_refused (s : mem_state) : mem_state :=
  MemState (ram s) (lfree s) ("mem_realloc can only shrink memory" :: m_asserts s).

(** mem_realloc of an address that mem_malloc returned shrinks the block:
    what is cut off goes to the free block behind it, or becomes a free block
    of its own when it can hold one, or stays where it is.  The address and the
    data that remains do not change and the heap stays well formed.  Asked for
    more than the block holds it fails an assertion and, where that does not
    stop the program, returns NULL and leaves the block as it is. *)
Lemma mem_realloc_run s xs sz ys newsize :
  heap_is s (xs ++ (sz, true) :: ys) -> is_u16 newsize ->
  let n := round_size newsize in
  let r := total xs + SIZEOF_STRUCT_MEM in
  if MEM_SIZE_ALIGNED <? n then mem_realloc r newsize s = Done (None, s)
  else if sz - SIZEOF_STRUCT_MEM <? n then mem_realloc r newsize s = Done (None, grow_refused s)
  else exists s', mem_realloc r newsize s = Done (Some r, s')
    /\ heap_is s' (shrunk n xs sz ys) /\ data_kept (shrunk n xs sz ys) s s'.
Proof.
  intros [Hl Hadj Hlf] Hn16 n r. destruct (round_size_spec newsize Hn16) as (Hr16 & Hmin & Hdn & _).
  fold n in Hr16, Hmin, Hdn. geometry. destruct sizeof_mem as [_ Hds].
  destruct (layout_block _ _ _ _ _ Hl) as (Hh & Ho & Hsz & Hd & Hdo & Hend & Hsum & Hbx & Hby & Hnil).
  unfold mem_realloc. fold n. cbv zeta. destruct (Z.ltb_spec MEM_SIZE_ALIGNED n); [done|].
  replace ((0 <=? r) && (r <? MEM_SIZE_ALIGNED)) with true by
    (symmetry; apply andb_true_iff; split; [apply Z.leb_le | apply Z.ltb_lt]; unfold r; lia).
  erewrite bind_run by by apply ASSERT_ok. unfold r. rewrite Z.add_simpl_r. cbn [negb]. mem_run. rewrite Hh. cbn [h_nx].
  replace (u16 (total xs + sz - total xs - SIZEOF_STRUCT_MEM)) with (sz - SIZEOF_STRUCT_MEM)
    by (rewrite u16_small; unfold is_u16; lia).
  destruct (Z.ltb_spec (sz - SIZEOF_STRUCT_MEM) n).
  { destruct (Z.leb_spec n (sz - SIZEOF_STRUCT_MEM)); [lia|]. by erewrite bind_run by reflexivity. }
  erewrite bind_run by (apply ASSERT_ok, Z.leb_le; lia).
  destruct (Z.eqb_spec n (sz - SIZEOF_STRUCT_MEM)) as [E|Hne].
  { exists s. rewrite E, shrunk_same. by split. }
  destruct (shrink_block_run s xs sz ys n) as (s' & E & Hs'); [by split|done|lia|].
  exists s'. by erewrite bind_run by exact E.
Qed.
End ops.
