(* ===== verification/MemUse.v ===== *)
(** * The heap allocator and its clients

    Initialisation, allocation of cleared memory, and the contract with a
    client that frees what it allocated and writes to what it holds. *)
From S2P Require Import Prelude Chains Mem MemProps MemHeap MemOps.
#[local] Open Scope string_scope.
#[local] Open Scope list_scope.
#[local] Open Scope Z_scope.

#[local] Arguments no_adjacent : simpl never.

Section use.
Context {MEMO : MemOpts} {MO : MemOptsOk}.

(** ** Writes to allocated memory keep the heap *)
Lemma layout_ext r r' bs : layout (hdr_at r) bs ->
  (forall i, 0 <= i < MEM_SIZE_ALIGNED + SIZEOF_STRUCT_MEM -> ~ in_data SIZEOF_STRUCT_MEM 0 bs i -> r' i = r i) ->
  layout (hdr_at r') bs.
Proof.
  intros Hl Hr. geometry. pose proof Hl as [Ht Hti Hb [He1 He2]].
  assert (Hend : hdr_at r' MEM_SIZE_ALIGNED = hdr_at r MEM_SIZE_ALIGNED).
  { assert (forall k, 0 <= k < 5 -> r' (MEM_SIZE_ALIGNED + k) = r (MEM_SIZE_ALIGNED + k)) as E.
    { intros k Hk. apply Hr; [lia|]. intros Hi.
      eapply (in_data_range 6) in Hi; [lia|lia|lia|by apply blocks_sizes]. }
    unfold hdr_at. rewrite !E by lia. specialize (E 0). rewrite Z.add_0_r in E. by rewrite E by lia. }
  assert (Hst : forall xs sz u ys, bs = xs ++ (sz, u) :: ys -> hdr_at r' (total xs) = hdr_at r (total xs)).
  { intros xs sz u ys ->. destruct (layout_block _ _ _ _ _ Hl) as (_ & Ho & Hsz & _ & _ & Hen & _).
    assert (forall k, 0 <= k < 5 -> r' (total xs + k) = r (total xs + k)) as E.
    { intros k Hk. apply Hr; [lia|]. intros Hi. apply header_no_data in Hi; [|done]. unfold off_hdr in Hi. lia. }
    unfold hdr_at. rewrite !E by lia. specialize (E 0). rewrite Z.add_0_r in E. by rewrite E by lia. }
  split; [done| |done|by rewrite Hend].
  enough (forall xs ys p, bs = xs ++ ys -> tiles (hdr_at r) (total xs) p ys -> tiles (hdr_at r') (total xs) p ys) as Hx
    by by apply (Hx [] bs 0).
  intros xs ys. revert xs. induction ys as [|[sz u] ys IH]; intros xs p E; cbn [tiles]; [done|].
  intros [Hh Hy]. split; [by erewrite Hst|].
  specialize (IH (xs ++ [(sz, u)]) (total xs)). rewrite total_app, total_cons, total_nil, Z.add_0_r, <- app_assoc in IH.
  by apply IH.
Qed.

(** ** mem_init *)
Lemma mem_init_heap s : exists s', mem_init s = Done (tt, s')
  /\ heap_is s' [(MEM_SIZE_ALIGNED, false)] /\ m_asserts s' = m_asserts s.
Proof.
  geometry. destruct sizeof_mem as [_ Hds]. pose proof align_pos. pose proof room_for_one.
  assert (Hin0 : in_ram 0) by in_ram_tac. assert (Hin : in_ram MEM_SIZE_ALIGNED) by in_ram_tac.
  assert (He16 : is_u16 MEM_SIZE_ALIGNED) by (unfold is_u16; lia). assert (H016 : is_u16 0) by (unfold is_u16; lia).
  unfold mem_init. erewrite bind_run by (apply ASSERT_ok; rewrite align_low; apply Z.eqb_eq, Z.mod_divide; [lia|done]).
  mem_run. erewrite bind_run by by apply set_prev_run. do 4 mem_run. eexists. split; [reflexivity|]. split; [|done]. split; [|done|done]. split.
  - by rewrite total_cons, total_nil, Z.add_0_r.
  - cbn [tiles used_num]. cbn [ram with_ram]. split; [|done]. hdrs. by rewrite Z.add_0_l.
  - constructor; [|constructor]. split; [done|]. apply align_size_spec.
  - cbn [ram with_ram]. by hdrs.
Qed.

(** ** mem_calloc *)
Lemma ram_len_bound : MEM_SIZE_ALIGNED + SIZEOF_STRUCT_MEM <= ram_len < 65280.
Proof.
  geometry. pose proof align_pos. pose proof (align_size_spec ram_heap) as [? _].
  unfold ram_len, ram_addr. unfold LWIP_MEM_ALIGN_SIZE, LWIP_MEM_ALIGN in *. lia.
Qed.

Lemma memset0_run n p s : 0 <= p -> p + Z.of_nat n <= ram_len ->
  exists r, memset0 n p s = Done (tt, with_ram r s)
    /\ (forall i, p <= i < p + Z.of_nat n -> r i = 0) /\ (forall i, i < p \/ p + Z.of_nat n <= i -> r i = ram s i).
Proof.
  revert p s. induction n as [|n IH]; intros p s Hp Hn; cbn [memset0].
  - exists (ram s). split; [by destruct s|]. split; [lia|done].
  - destruct (IH (p + 1) (with_ram (upd_byte p 0 (ram s)) s)) as (r & E & Hz & Hs); [lia..|].
    exists r. split; [|split].
    + erewrite bind_run; [exact E|]. unfold wr. destruct (Z.leb_spec 0 p); [|lia].
      by destruct (Z.ltb_spec p ram_len); [|lia].
    + intros i Hi. destruct (decide (i = p)) as [->|]; [|apply Hz; lia].
      rewrite Hs by lia. apply upd_byte_eq.
    + intros i Hi. rewrite Hs by lia. cbn. apply upd_byte_ne. lia.
Qed.
Lemma memset0_beyond n p s : 0 <= p < ram_len -> ram_len < p + Z.of_nat n -> memset0 n p s = Halt UB.
Proof.
  revert p s. induction n as [|n IH]; intros p s Hp Hn; cbn [memset0]; [lia|].
  erewrite bind_run.
  2:{ unfold wr. destruct (Z.leb_spec 0 p); [|lia]. destruct (Z.ltb_spec p ram_len); [done|lia]. }
  destruct (decide (p + 1 < ram_len)); [apply IH; lia|]. destruct n as [|n]; [lia|]. cbn [memset0].
  apply bind_halt. unfold wr. destruct (Z.leb_spec 0 (p + 1)); [|lia]. by destruct (Z.ltb_spec (p + 1) ram_len); [lia|].
Qed.

(** mem_calloc for every pair of arguments: the product goes to mem_malloc as a
    16-bit number and to memset as it is. *)
Lemma mem_calloc_run s bs count size :
  heap_is s bs -> is_u16 count -> is_u16 size ->
  let n := count * size in
  if 2 ^ 31 <=? n then mem_calloc count size s = Halt UB
  else if u16 n =? 0 then mem_calloc count size s = Done (None, s)
  else match first_fit (round_size (u16 n)) bs with
  | None => mem_calloc count size s = Done (None, s)
  | Some (xs, sz, ys) =>
    if n <=? 2 ^ 16 - MEM_ALIGNMENT then exists s',
      mem_calloc count size s = Done (Some (total xs + SIZEOF_STRUCT_MEM), s')
      /\ heap_is s' (xs ++ cut (round_size n) sz ++ ys) /\ data_kept bs s s'
      /\ (forall i, 0 <= i < n -> ram s' (total xs + SIZEOF_STRUCT_MEM + i) = 0)
    else mem_calloc count size s = Halt UB
  end.
Proof.
  intros Hh Hc Hs n. unfold mem_calloc. fold n. cbv zeta. destruct (2 ^ 31 <=? n) eqn:E31; [done|].
  destruct (Z.eqb_spec (u16 n) 0) as [E0|Hne]; [rewrite E0; by erewrite bind_run by done|].
  pose proof (mem_malloc_run s bs (u16 n) Hh (u16_range n) Hne) as Hm.
  destruct (first_fit (round_size (u16 n)) bs) as [[[xs sz] ys]|] eqn:Ef; [|by erewrite bind_run by exact Hm].
  destruct Hm as (s1 & Ebs & E1 & H1 & Hk1 & Ha1). subst bs. apply first_fit_split in Ef as [_ Hfit].
  destruct (layout_block _ _ _ _ _ (hi_layout _ _ Hh)) as (_ & Ho & Hsz & Hdz & _ & Hend & _).
  assert (Hn0 : 0 <= n) by (unfold is_u16, n in *; nia). pose proof ram_len_bound. pose proof align_pos. geometry.
  rewrite (bind_run _ _ _ _ _ E1). set (p := total xs + SIZEOF_STRUCT_MEM) in *.
  destruct (Z.leb_spec n (2 ^ 16 - MEM_ALIGNMENT)) as [Hle|Hgt].
  2:{ apply bind_halt, memset0_beyond; unfold p; lia. }
  assert (En : u16 n = n) by (apply u16_small; unfold is_u16; lia). rewrite En in *.
  destruct (round_size_spec n) as (Hr16 & Hmin & Hdn & Hle'); [unfold is_u16; lia|]. specialize (Hle' Hle).
  destruct (memset0_run (Z.to_nat n) p s1) as (r & E2 & Hz & Hsame); [unfold p; lia..|].
  exists (with_ram r s1). erewrite bind_run by exact E2. split; [done|]. split; [|split; [split|]].
  - destruct H1 as [Hl1 Hadj Hlf]. split; [|done|done]. apply (layout_ext (ram s1)); [done|].
    intros i _ Hi. apply Hsame. destruct (decide (p <= i < p + n)) as [Hin|]; [|lia]. destruct Hi.
    apply in_data_app. right. rewrite Z.add_0_l. fold p in Hin. unfold cut.
    case_match; cbn [app in_data]; left; (split; [done|]); unfold p in Hin; lia.
  - intros i Hi. cbn [with_ram ram]. rewrite <- Hk1 by done. apply Hsame.
    apply (data_outside xs [(sz, false)] ys) in Hi; [|by apply Hh|by repeat constructor].
    rewrite total_cons, total_nil in Hi. unfold p. lia.
  - exact Ha1.
  - intros i Hi. apply Hz. lia.
Qed.
End use.
