(* ===== verification/MemClient.v ===== *)
(** * The heap allocator and its clients

    A client of the allocator allocates, frees, shrinks and writes to what it
    holds; every sequence of such requests is served without an undefined
    access or a failed assertion, and what the client holds never overlaps. *)
From S2P Require Import Prelude Chains Mem MemProps MemHeap MemOps MemUse.
#[local] Open Scope string_scope.
#[local] Open Scope list_scope.
#[local] Open Scope Z_scope.

#[local] Arguments no_adjacent : simpl never.

Section client.
Context {MEMO : MemOpts} {MO : MemOptsOk}.

(** ** The addresses and capacities of the used blocks *)
Fixpoint holdings (o : Z) (bs : list blk) : list (Z * Z) :=
  match bs with
  | [] => []
  | (sz, true) :: bs => (o + SIZEOF_STRUCT_MEM, sz - SIZEOF_STRUCT_MEM) :: holdings (o + sz) bs
  | (sz, false) :: bs => holdings (o + sz) bs
  end.

Lemma holdings_app o xs ys : holdings o (xs ++ ys) = holdings o xs ++ holdings (o + total xs) ys.
Proof.
  revert o. induction xs as [|[sz u] xs IH]; intros o; cbn [app holdings].
  - by rewrite total_nil, Z.add_0_r.
  - rewrite IH, total_cons, Z.add_assoc. by destruct u.
Qed.
Lemma holdings_range o bs p c : blocks_ok bs -> (p, c) ∈ holdings o bs ->
  o + SIZEOF_STRUCT_MEM <= p /\ 0 < c /\ p + c <= o + total bs.
Proof.
  intros Hb. revert o. geometry. induction Hb as [|[sz u] bs [Hsz _] Hb IH]; intros o; cbn [holdings].
  - by intros ?%not_elem_of_nil.
  - rewrite total_cons. pose proof (blocks_total _ Hb). cbn in Hsz.
    destruct u; [rewrite elem_of_cons; intros [[= -> ->]|Hi]|intros Hi]; [lia|..]; apply IH in Hi; lia.
Qed.
Lemma holdings_data o bs p c i : (p, c) ∈ holdings o bs -> p <= i < p + c -> in_data SIZEOF_STRUCT_MEM o bs i.
Proof.
  intros Hp Hi. revert o Hp. induction bs as [|[sz u] bs IH]; intros o; cbn [holdings in_data].
  - by intros ?%not_elem_of_nil.
  - destruct u; [rewrite elem_of_cons; intros [[= -> ->]|Hp]|intros Hp]; [left; split; [done|lia]|right..]; by apply IH.
Qed.
Lemma holdings_split o bs p c : (p, c) ∈ holdings o bs ->
  exists xs sz ys, bs = xs ++ (sz, true) :: ys /\ p = o + total xs + SIZEOF_STRUCT_MEM /\ c = sz - SIZEOF_STRUCT_MEM.
Proof.
  revert o. induction bs as [|[sz u] bs IH]; intros o; cbn [holdings]; [by intros ?%not_elem_of_nil|].
  assert (Hrec : (p, c) ∈ holdings (o + sz) bs -> exists xs sz0 ys, (sz, u) :: bs = xs ++ (sz0, true) :: ys /\
    p = o + total xs + SIZEOF_STRUCT_MEM /\ c = sz0 - SIZEOF_STRUCT_MEM).
  { intros (xs & z & ys & -> & -> & ->)%IH. exists ((sz, u) :: xs), z, ys. rewrite total_cons. split; [done|]. lia. }
  destruct u; [rewrite elem_of_cons; intros [[= -> ->]|Hp]|]; [|by apply Hrec..].
  exists [], sz, bs. rewrite total_nil. split; [done|]. lia.
Qed.
Lemma holdings_disjoint o bs p c p' c' : blocks_ok bs -> (p, c) ∈ holdings o bs -> (p', c') ∈ holdings o bs ->
  (p = p' /\ c = c') \/ p + c <= p' \/ p' + c' <= p.
Proof.
  intros Hb. revert o. geometry. induction Hb as [|[sz u] bs [Hsz _] Hb IH]; intros o; cbn [holdings].
  - by intros ?%not_elem_of_nil.
  - destruct u; [rewrite !elem_of_cons|by apply IH].
    intros [[= -> ->]|Hp] [[= -> ->]|Hp']; [by left|right; left|right; right|by eapply IH].
    + apply holdings_range in Hp'; [lia|done].
    + apply holdings_range in Hp; [lia|done].
Qed.
Lemma holdings_nodup o bs : blocks_ok bs -> NoDup (holdings o bs).*1.
Proof.
  intros Hb. revert o. geometry. induction Hb as [|[sz u] bs [Hsz _] Hb IH]; intros o; cbn [holdings]; [constructor|].
  destruct u; [|apply IH]. cbn [fmap list_fmap fst]. constructor; [|apply IH].
  intros ((q & c) & E & Hq)%list_elem_of_fmap. cbn in E. apply holdings_range in Hq; [|done]. cbn in Hsz. lia.
Qed.

(** ** What the operations do to the holdings *)
Lemma holdings_mid xs sz u ys : holdings 0 (xs ++ (sz, u) :: ys) = holdings 0 xs ++
  (if (u : bool) then [(total xs + SIZEOF_STRUCT_MEM, sz - SIZEOF_STRUCT_MEM)] else []) ++ holdings (total xs + sz) ys.
Proof. rewrite holdings_app, Z.add_0_l. by destruct u. Qed.
Lemma holdings_used xs sz ys : holdings 0 (xs ++ (sz, true) :: ys) =
  holdings 0 xs ++ (total xs + SIZEOF_STRUCT_MEM, sz - SIZEOF_STRUCT_MEM) :: holdings (total xs + sz) ys.
Proof. apply holdings_mid. Qed.
Lemma holdings_cut xs n sz ys : request_ok n -> n <= sz - SIZEOF_STRUCT_MEM -> exists cap, n <= cap /\
  holdings 0 (xs ++ cut n sz ++ ys) =
  holdings 0 xs ++ (total xs + SIZEOF_STRUCT_MEM, cap) :: holdings (total xs + sz) ys.
Proof.
  intros _ Hfit. unfold cut. case_match; cbn [app]; rewrite holdings_mid; cbn [app holdings].
  - exists n. split; [lia|]. rewrite Z.add_simpl_l. do 3 f_equal. lia.
  - by exists (sz - SIZEOF_STRUCT_MEM).
Qed.
Lemma holdings_released xs sz ys :
  holdings 0 (released xs sz ys) = holdings 0 xs ++ holdings (total xs + sz) ys.
Proof.
  assert (E : holdings (total xs + (merge_right sz ys).1) (merge_right sz ys).2 = holdings (total xs + sz) ys).
  { destruct ys as [|[z [|]] ys]; [done..|]. cbn. by rewrite Z.add_assoc. }
  unfold released. rewrite <- E. generalize (merge_right sz ys). intros [n zs]. cbn [fst snd].
  destruct xs as [|[z [|]] xs _] using rev_ind; [done|..].
  - rewrite merge_left_used by by rewrite ends_free_snoc.
    rewrite !holdings_app, !total_app, !total_cons, !total_nil, !Z.add_0_r, !Z.add_0_l. cbn [holdings app].
    by rewrite app_nil_r.
  - rewrite merge_left_free, !holdings_app, !total_app, !total_cons, !total_nil, !Z.add_0_r, !Z.add_0_l.
    cbn [holdings app]. by rewrite !app_nil_r, Z.add_assoc.
Qed.
Lemma holdings_shrunk n xs sz ys : n <= sz - SIZEOF_STRUCT_MEM -> exists cap, n <= cap /\
  holdings 0 (shrunk n xs sz ys) =
  holdings 0 xs ++ (total xs + SIZEOF_STRUCT_MEM, cap) :: holdings (total xs + sz) ys.
Proof.
  intros Hfit. destruct (starts_free ys) eqn:E.
  - destruct ys as [|[z [|]] ys]; [done..|]. exists n. split; [lia|]. cbn [shrunk app]. rewrite holdings_mid.
    cbn [app holdings]. rewrite Z.add_simpl_l. do 3 f_equal. lia.
  - rewrite shrunk_used by done. case_match; cbn [app]; rewrite holdings_mid; cbn [app holdings].
    + exists n. split; [lia|]. rewrite Z.add_simpl_l. do 3 f_equal. lia.
    + by exists (sz - SIZEOF_STRUCT_MEM).
Qed.

(** ** What a client holds *)
Abbreviation live_list := (list (Z * Z)).   (* address, bytes asked for *)
Definition without (p : Z) (l : live_list) : live_list := filter (fun a => a.1 <> p) l.
Definition resize (p n : Z) (l : live_list) : live_list :=
  (fun a => if a.1 =? p then (p, n) else a) <$> l.
Definition enough (a b : Z * Z) : Prop := a.1 = b.1 /\ a.2 <= b.2.
Definition held (live : live_list) (bs : list blk) : Prop :=
  exists caps, caps ≡ₚ holdings 0 bs /\ Forall2 enough live caps.

Lemma without_mid p c (l1 l2 : live_list) : NoDup (l1 ++ (p, c) :: l2).*1 -> without p (l1 ++ (p, c) :: l2) = l1 ++ l2.
Proof.
  rewrite fmap_app, fmap_cons. intros (_ & Hx & [Hp _]%NoDup_cons)%NoDup_app. unfold without.
  assert (Hk : forall l : live_list, p ∉ l.*1 -> filter (fun a => a.1 <> p) l = l).
  { induction l as [|[q d] l IH]; [done|]. rewrite fmap_cons, not_elem_of_cons. intros [??].
    rewrite filter_cons_True by (cbn in *; congruence). by rewrite IH. }
  rewrite filter_app, filter_cons_False by (cbn; naive_solver). rewrite !Hk; [done|done|].
  intros Hi. apply (Hx p Hi). by left.
Qed.
Lemma resize_mid p c n (l1 l2 : live_list) : NoDup (l1 ++ (p, c) :: l2).*1 ->
  resize p n (l1 ++ (p, c) :: l2) = l1 ++ (p, n) :: l2.
Proof.
  rewrite fmap_app, fmap_cons. intros (_ & Hx & [Hp _]%NoDup_cons)%NoDup_app. unfold resize.
  assert (Hk : forall l : live_list, p ∉ l.*1 -> (fun a => if a.1 =? p then (p, n) else a) <$> l = l).
  { induction l as [|[q d] l IH]; [done|]. rewrite !fmap_cons, not_elem_of_cons. cbn [fst]. intros [??].
    destruct (Z.eqb_spec q p); [congruence|]. by rewrite IH. }
  rewrite fmap_app, fmap_cons. cbn. rewrite Z.eqb_refl, !Hk; [done|done|].
  intros Hi. apply (Hx p Hi). by left.
Qed.
Lemma enough_without p live caps : Forall2 enough live caps -> Forall2 enough (without p live) (without p caps).
Proof.
  induction 1 as [|a b live caps Hab _ IH]; [constructor|]. unfold without.
  rewrite !filter_cons. destruct Hab as [E Hle]. rewrite <- E.
  case_decide; [constructor; [done|exact IH]|exact IH].
Qed.
Lemma enough_resize p n c live caps : n <= c ->
  Forall2 enough live caps -> Forall2 enough (resize p n live) (resize p c caps).
Proof.
  intros Hn. induction 1 as [|a b live caps [E Hle] _ IH]; [constructor|]. cbn. rewrite <- E.
  constructor; [|exact IH]. by destruct (a.1 =? p).
Qed.

Lemma held_member live bs p m : held live bs -> (p, m) ∈ live -> exists c, (p, c) ∈ holdings 0 bs /\ m <= c.
Proof.
  intros (caps & Hp & Hf) Hin. apply list_elem_of_lookup in Hin as [i Hi].
  destruct (Forall2_lookup_l _ _ _ _ _ Hf Hi) as ([q c] & Hc & [E Hle]). cbn in *. subst q.
  exists c. split; [|done]. rewrite <- Hp. by eapply list_elem_of_lookup_2.
Qed.
Lemma held_block live bs p : held live bs -> p ∈ live.*1 -> exists xs sz ys,
  bs = xs ++ (sz, true) :: ys /\ p = total xs + SIZEOF_STRUCT_MEM
  /\ (forall m, (p, m) ∈ live -> blocks_ok bs -> m <= sz - SIZEOF_STRUCT_MEM).
Proof.
  intros Hh ((q & m) & -> & Hin)%list_elem_of_fmap. destruct (held_member _ _ _ _ Hh Hin) as (c & Hc & _).
  destruct (holdings_split _ _ _ _ Hc) as (xs & sz & ys & E & -> & ->). exists xs, sz, ys.
  split; [done|]. split; [cbn; lia|]. cbn. intros m' Hm' Hb.
  destruct (held_member _ _ _ _ Hh Hm') as (c' & Hc' & Hle).
  destruct (holdings_disjoint _ _ _ _ _ _ Hb Hc Hc') as [[_ E']|Hd]; [lia|].
  apply holdings_range in Hc as (_ & ? & _); [|done]. apply holdings_range in Hc' as (_ & ? & _); [|done]. lia.
Qed.
Lemma held_nodup live bs : blocks_ok bs -> held live bs -> NoDup live.*1.
Proof.
  intros Hb (caps & Hp & Hf). apply (holdings_nodup 0) in Hb. rewrite <- Hp in Hb.
  replace live.*1 with caps.*1; [done|]. clear -Hf. induction Hf as [|a b live caps [E _] _ IH]; cbn; congruence.
Qed.
Lemma held_add live bs bs' p c m l1 l2 : held live bs -> holdings 0 bs = l1 ++ l2 ->
  holdings 0 bs' = l1 ++ (p, c) :: l2 -> m <= c -> held ((p, m) :: live) bs'.
Proof.
  intros (caps & Hp & Hf) E E' Hm. exists ((p, c) :: caps). split; [|by constructor].
  by rewrite E', Hp, E, Permutation_middle.
Qed.
Lemma held_remove live bs bs' p c l1 l2 : blocks_ok bs -> held live bs ->
  holdings 0 bs = l1 ++ (p, c) :: l2 -> holdings 0 bs' = l1 ++ l2 -> held (without p live) bs'.
Proof.
  intros Hb (caps & Hp & Hf) E E'. exists (without p caps). split; [|by apply enough_without].
  apply (holdings_nodup 0) in Hb. rewrite E', <- (without_mid p c), <- E by by rewrite <- E.
  unfold without. by rewrite Hp.
Qed.
Lemma held_resize live bs bs' p c c' m l1 l2 : blocks_ok bs -> held live bs ->
  holdings 0 bs = l1 ++ (p, c) :: l2 -> holdings 0 bs' = l1 ++ (p, c') :: l2 -> m <= c' ->
  held (resize p m live) bs'.
Proof.
  intros Hb (caps & Hp & Hf) E E' Hm. exists (resize p c' caps). split; [|by apply enough_resize].
  apply (holdings_nodup 0) in Hb. rewrite E', <- (resize_mid p c c'), <- E by by rewrite <- E.
  unfold resize. by rewrite Hp.
Qed.

(** ** The machine *)
Inductive request :=
  | Malloc (size : Z)
  | Free (p : Z)
  | Realloc (p size : Z)
  | Write (p k v : Z).
Record client := Client { c_heap : mem_state; c_live : live_list }.

(** What a client may ask: sizes that do not wrap when they are rounded, and
    only addresses that it holds. *)
Definition allowed (q : request) (c : client) : Prop :=
  match q with
  | Malloc size => 0 <= size <= 2 ^ 16 - MEM_ALIGNMENT
  | Free p => p ∈ (c_live c).*1
  | Realloc p size => exists m, (p, m) ∈ c_live c /\ 0 <= size <= m
  | Write p k v => exists m, (p, m) ∈ c_live c /\ 0 <= k < m
  end.
Definition target (q : request) : option Z :=
  match q with Malloc _ => None | Free p | Realloc p _ | Write p _ _ => Some p end.

Definition serve (q : request) (c : client) : outcome client :=
  match q with
  | Malloc size =>
      match mem_malloc size (c_heap c) with
      | Done (Some p, h) => Done (Client h ((p, size) :: c_live c))
      | Done (None, h) => Done (Client h (c_live c))
      | Halt w => Halt w
      end
  | Free p =>
      match mem_free (Some p) (c_heap c) with
      | Done (_, h) => Done (Client h (without p (c_live c)))
      | Halt w => Halt w
      end
  | Realloc p size =>
      match mem_realloc p size (c_heap c) with
      | Done (Some _, h) => Done (Client h (resize p size (c_live c)))
      | Done (None, h) => Done (Client h (c_live c))
      | Halt w => Halt w
      end
  | Write p k v =>
      match wr (p + k) v (c_heap c) with
      | Done (_, h) => Done (Client h (c_live c))
      | Halt w => Halt w
      end
  end.

Inductive reachable : client -> Prop :=
  | reach_init h0 h : m_asserts h0 = [] -> mem_init h0 = Done (tt, h) -> reachable (Client h [])
  | reach_step c q c' : reachable c -> allowed q c -> serve q c = Done c' -> reachable c'.

(** The invariant. *)
Definition good (c : client) : Prop :=
  exists bs, heap_is (c_heap c) bs /\ held (c_live c) bs /\ m_asserts (c_heap c) = [].

(** The bytes that a client holds before and after a request stay, except for
    the one it writes. *)
Definition writes (q : request) (i : Z) : Prop := match q with Write p k _ => i = p + k | _ => False end.
Definition kept (q : request) (c c' : client) : Prop :=
  forall p m i, (p, m) ∈ c_live c' -> p ∈ (c_live c).*1 -> p <= i < p + m -> ~ writes q i ->
  ram (c_heap c') i = ram (c_heap c) i.
Definition served (q : request) (c : client) : Prop :=
  exists c', serve q c = Done c' /\ good c' /\ kept q c c'.

Lemma held_data live bs p m i : held live bs -> (p, m) ∈ live -> p <= i < p + m -> in_data SIZEOF_STRUCT_MEM 0 bs i.
Proof. intros Hh Hin Hi. destruct (held_member _ _ _ _ Hh Hin) as (c & Hc & ?). eapply holdings_data; [done|lia]. Qed.
Lemma kept_new q c h live bs' : held live bs' -> data_kept bs' (c_heap c) h -> kept q c (Client h live).
Proof. intros Hh [Hd _] p m i Hin _ Hi _. apply Hd. by eapply held_data. Qed.

Lemma round_size_least size z : 0 <= size <= 2 ^ 16 - MEM_ALIGNMENT -> (MEM_ALIGNMENT | z) ->
  MIN_SIZE_ALIGNED <= z -> size <= z -> z < 2 ^ 16 -> round_size size <= z.
Proof.
  intros Hs [k ->] Hm Hle Hz. unfold round_size. geometry. pose proof align_pos.
  destruct (align_size_spec size) as [Hb [j Hj]]. rewrite (u16_small MIN_SIZE_ALIGNED) by (unfold is_u16; lia).
  rewrite u16_small by (unfold is_u16; lia). case_match; [lia|]. rewrite Hj in *.
  apply Z.mul_le_mono_nonneg_r; [lia|]. assert (j < k + 1) by (apply (Z.mul_lt_mono_pos_r MEM_ALIGNMENT); lia). lia.
Qed.

Lemma serve_malloc c size : good c -> allowed (Malloc size) c -> served (Malloc size) c.
Proof.
  intros (bs & Hh & Hl & Ha) Hs. cbn in Hs. unfold served, serve. pose proof align_pos.
  destruct (decide (size = 0)) as [->|Hne].
  { exists c. destruct c. split; [done|]. split; [by exists bs|]. by intros p m i. }
  pose proof (mem_malloc_run _ _ size Hh ltac:(unfold is_u16; lia) Hne) as Hm.
  destruct (first_fit (round_size size) bs) as [[[xs sz] ys]|] eqn:Ef.
  2:{ rewrite Hm. eexists. split; [reflexivity|]. split; [by exists bs|]. by intros p m i. }
  destruct Hm as (h & -> & E & Hh' & Hk). rewrite E. eexists. split; [reflexivity|].
  destruct (round_size_spec size) as (Hr & Hmin & Hd & Hle); [unfold is_u16; lia|].
  apply first_fit_split in Ef as [_ Hfit].
  destruct (holdings_cut xs (round_size size) sz ys) as (cap & Hcap & Ec); [done..|].
  assert (Hl' : held ((total xs + SIZEOF_STRUCT_MEM, size) :: c_live c) (xs ++ cut (round_size size) sz ++ ys)).
  { eapply held_add; [exact Hl|apply holdings_mid|exact Ec|]. lia. }
  split; [eexists; split; [exact Hh'|split; [exact Hl'|]]; cbn; rewrite <- Ha; apply Hk|].
  intros p m i Hin Hp Hi _. apply Hk. apply held_nodup in Hl'; [|apply Hh'].
  cbn in Hl', Hin. apply NoDup_cons in Hl' as [Hn _]. apply elem_of_cons in Hin as [[= -> ->]|Hin]; [done|].
  by eapply held_data.
Qed.
Lemma serve_free c p : good c -> allowed (Free p) c -> served (Free p) c.
Proof.
  intros (bs & Hh & Hl & Ha) Hp. cbn in Hp. unfold served, serve.
  destruct (held_block _ _ _ Hl Hp) as (xs & sz & ys & -> & -> & _).
  destruct (mem_free_run _ _ _ _ Hh) as (h & E & Hh' & Hk). rewrite E. eexists. split; [reflexivity|].
  assert (Hl' : held (without (total xs + SIZEOF_STRUCT_MEM) (c_live c)) (released xs sz ys)).
  { eapply held_remove; [apply Hh|exact Hl|apply holdings_used|apply holdings_released]. }
  split; [|by eapply kept_new]. eexists. split; [exact Hh'|]. split; [exact Hl'|]. rewrite <- Ha. apply Hk.
Qed.
Lemma serve_realloc c p size : good c -> allowed (Realloc p size) c -> served (Realloc p size) c.
Proof.
  intros (bs & Hh & Hl & Ha) (m & Hin & Hs). unfold served, serve.
  assert (Hp : p ∈ (c_live c).*1) by (apply list_elem_of_fmap; by exists (p, m)).
  destruct (held_block _ _ _ Hl Hp) as (xs & sz & ys & -> & -> & Hm).
  specialize (Hm m Hin (lay_blocks _ _ (hi_layout _ _ Hh))).
  destruct (layout_block _ _ _ _ _ (hi_layout _ _ Hh)) as (_ & Ho & Hsz & Hd & _ & Hend & _). geometry. pose proof align_pos.
  assert (Hr : round_size size <= sz - SIZEOF_STRUCT_MEM).
  { apply round_size_least; [lia| |lia..]. destruct sizeof_mem. by apply Z.divide_sub_r. }
  destruct (round_size_spec size) as (_ & _ & _ & Hle); [unfold is_u16; lia|]. specialize (Hle ltac:(lia)).
  pose proof (mem_realloc_run _ _ _ _ size Hh ltac:(unfold is_u16; lia)) as Hrun. cbn zeta in Hrun.
  destruct (Z.ltb_spec MEM_SIZE_ALIGNED (round_size size)); [lia|].
  destruct (Z.ltb_spec (sz - SIZEOF_STRUCT_MEM) (round_size size)); [lia|].
  destruct Hrun as (h & E & Hh' & Hk). rewrite E. eexists. split; [reflexivity|].
  destruct (holdings_shrunk (round_size size) xs sz ys) as (cap & Hcap & Ec); [done|].
  assert (Hl' : held (resize (total xs + SIZEOF_STRUCT_MEM) size (c_live c)) (shrunk (round_size size) xs sz ys)).
  { eapply held_resize; [apply Hh|exact Hl|apply holdings_used|exact Ec|lia]. }
  split; [|by eapply kept_new]. eexists. split; [exact Hh'|]. split; [exact Hl'|]. rewrite <- Ha. apply Hk.
Qed.
Lemma serve_write c p k v : good c -> allowed (Write p k v) c -> served (Write p k v) c.
Proof.
  intros (bs & Hh & Hl & Ha) (m & Hin & Hk). unfold served, serve.
  destruct (held_member _ _ _ _ Hl Hin) as (cap & Hc & Hle). geometry. pose proof ram_len_bound.
  pose proof (holdings_range _ _ _ _ (lay_blocks _ _ (hi_layout _ _ Hh)) Hc) as Hr.
  rewrite (lay_total _ _ (hi_layout _ _ Hh)) in Hr.
  unfold wr. destruct (Z.leb_spec 0 (p + k)); [|lia]. destruct (Z.ltb_spec (p + k) ram_len); [|lia].
  eexists. split; [reflexivity|]. split.
  - exists bs. split; [|done]. destruct Hh as [Hlay Hadj Hlf]. split; [|done|done].
    apply (layout_ext (ram (c_heap c))); [done|]. intros i _ Hi. apply upd_byte_ne. intros ->. apply Hi.
    eapply holdings_data; [done|lia].
  - intros p' m' i _ _ _ Hi. apply upd_byte_ne. exact Hi.
Qed.

Lemma serve_served q c : good c -> allowed q c -> served q c.
Proof. destruct q; [apply serve_malloc|apply serve_free|apply serve_realloc|apply serve_write]. Qed.
Lemma reachable_good c : reachable c -> good c.
Proof.
  induction 1 as [h0 h Ha E | c q c' _ IH Hq E].
  - destruct (mem_init_heap h0) as (h' & E' & Hh & Ha'). rewrite E in E'. injection E' as <-.
    eexists. split; [exact Hh|]. split; [|cbn; congruence]. exists []. by split.
  - destruct (serve_served q c IH Hq) as (c2 & E2 & Hg & _). rewrite E in E2. by injection E2 as <-.
Qed.

(** C37: the allocator and a client that keeps the rules (it frees, shrinks and
    writes only what it holds, and asks for sizes that do not wrap when they
    are rounded up): after any sequence of requests the blocks it holds are
    aligned, lie in the heap and do not overlap; every further request is
    served, with no undefined access, no loop that runs out and no failed
    assertion; and it changes no byte that the client keeps. *)
Theorem heap_client_safe c : reachable c ->
  NoDup (c_live c).*1
  /\ (forall p m, (p, m) ∈ c_live c ->
       (MEM_ALIGNMENT | ram_addr + p) /\ SIZEOF_STRUCT_MEM <= p /\ p + m <= MEM_SIZE_ALIGNED)
  /\ (forall p m p' m', (p, m) ∈ c_live c -> (p', m') ∈ c_live c -> p <> p' -> p + m <= p' \/ p' + m' <= p)
  /\ (forall q, allowed q c -> exists c', serve q c = Done c' /\ m_asserts (c_heap c') = [] /\ kept q c c').
Proof.
  intros Hg%reachable_good. pose proof Hg as (bs & Hh & Hl & Ha). pose proof (hi_layout _ _ Hh) as Hlay.
  pose proof (lay_blocks _ _ Hlay) as Hb. geometry. split; [by eapply held_nodup|]. split; [|split].
  - intros p m Hin. destruct (held_member _ _ _ _ Hl Hin) as (cap & Hc & Hle).
    pose proof (holdings_range _ _ _ _ Hb Hc) as Hr. rewrite (lay_total _ _ Hlay) in Hr. split; [|lia].
    destruct (holdings_split _ _ _ _ Hc) as (xs & sz & ys & -> & -> & _).
    destruct (layout_block _ _ _ _ _ Hlay) as (_ & _ & _ & _ & Hd & _). destruct sizeof_mem as [_ Hs].
    pose proof ram_addr_aligned. rewrite Z.add_0_l. by repeat apply Z.divide_add_r.
  - intros p m p' m' Hin Hin' Hne. destruct (held_member _ _ _ _ Hl Hin) as (cap & Hc & Hle).
    destruct (held_member _ _ _ _ Hl Hin') as (cap' & Hc' & Hle').
    destruct (holdings_disjoint _ _ _ _ _ _ Hb Hc Hc') as [[? _]|Hd]; [done|lia].
  - intros q Hq. destruct (serve_served q c Hg Hq) as (c' & E & (bs' & _ & _ & Ha') & Hk). by exists c'.
Qed.
End client.

(** ** A heap of 200 bytes *)
#[local] Instance small_heap : MemOpts := {| MEM_SIZE := 200; MEM_ALIGNMENT := 4; MIN_SIZE := 12; ram_heap := 4098 |}.
#[local] Instance small_heap_ok : MemOptsOk.
Proof. split; [by exists 2| | |]; vm_compute; intuition discriminate. Qed.

Definition blank : mem_state := MemState (fun _ => 0) 0 [].
Definition serve_all (qs : list request) (c : client) : outcome client :=
  foldl (fun o q => match o with Done c => serve q c | Halt w => Halt w end) (Done c) qs.
Definition fresh_client : outcome client :=
  match mem_init blank with Done (_, h) => Done (Client h []) | Halt w => Halt w end.
Definition client_after (qs : list request) : client :=
  match fresh_client with
  | Done c => match serve_all qs c with Done c => c | Halt _ => Client blank [] end
  | Halt _ => Client blank []
  end.

Example heap_client_safe_witness : exists c, reachable c /\ c_live c = [(28, 20)] /\ NoDup (c_live c).*1.
Proof.
  exists (client_after [Malloc 10; Malloc 20; Free 8]). split; [|split; [vm_compute; reflexivity|]].
  2: apply heap_client_safe.
  all: apply (reach_step (client_after [Malloc 10; Malloc 20]) (Free 8)); [|cbn; vm_compute; right; left|vm_compute; reflexivity].
  all: apply (reach_step (client_after [Malloc 10]) (Malloc 20)); [|vm_compute; intuition discriminate|vm_compute; reflexivity].
  all: apply (reach_step (client_after []) (Malloc 10)); [|vm_compute; intuition discriminate|vm_compute; reflexivity].
  all: apply (reach_init blank); vm_compute; reflexivity.
Defined.

(** ** The operations *)
Section operations.
Context {MEMO : MemOpts} {MO : MemOptsOk}.

(** C38: mem_malloc is first fit: it takes the first free block that holds the
    rounded size, splits off what is left over when that can hold a block of
    its own, and returns the address behind the header; it fails, changing
    nothing, exactly when no free block is large enough.  The heap stays well
    formed: the blocks tile the array, no two free ones are adjacent, [lfree]
    is the first free one; the data of used blocks does not change and no
    assertion fails. *)
Theorem mem_malloc_first_fit s bs size :
  heap_is s bs -> is_u16 size -> size <> 0 ->
  match first_fit (round_size size) bs with
  | None => mem_malloc size s = Done (None, s)
  | Some (xs, sz, ys) => exists s',
      bs = xs ++ (sz, false) :: ys
      /\ mem_malloc size s = Done (Some (total xs + SIZEOF_STRUCT_MEM), s')
      /\ heap_is s' (xs ++ cut (round_size size) sz ++ ys) /\ data_kept bs s s'
  end.
Proof. apply mem_malloc_run. Qed.

(** C39: mem_free of an address that mem_malloc returned: the block becomes
    free and is merged with the block behind it and the one before it when they
    are free, so that again no two free blocks are adjacent.  [lfree] is the
    lowest free block again, the data of the used blocks that remain does not
    change, and no assertion fails. *)
Theorem mem_free_coalesces s xs sz ys :
  heap_is s (xs ++ (sz, true) :: ys) ->
  exists s', mem_free (Some (total xs + SIZEOF_STRUCT_MEM)) s = Done (tt, s')
    /\ heap_is s' (released xs sz ys) /\ data_kept (released xs sz ys) s s'.
Proof. apply mem_free_run. Qed.

(** mem_realloc of an address that mem_malloc returned shrinks the block:
    what is cut off goes to the free block behind it, or becomes a free block
    of its own when it can hold one, or stays where it is.  The address and the
    data that remains do not change and the heap stays well formed.  Asked for
    more than the block holds it fails an assertion and, where that does not
    stop the program, returns NULL and leaves the block as it is. *)
Theorem mem_realloc_shrinks s xs sz ys newsize :
  heap_is s (xs ++ (sz, true) :: ys) -> is_u16 newsize ->
  let n := round_size newsize in
  let r := total xs + SIZEOF_STRUCT_MEM in
  if MEM_SIZE_ALIGNED <? n then mem_realloc r newsize s = Done (None, s)
  else if sz - SIZEOF_STRUCT_MEM <? n then mem_realloc r newsize s = Done (None, grow_refused s)
  else exists s', mem_realloc r newsize s = Done (Some r, s')
    /\ heap_is s' (shrunk n xs sz ys) /\ data_kept (shrunk n xs sz ys) s s'.
Proof. apply mem_realloc_run. Qed.

End operations.

Example mem_malloc_first_fit_witness : exists s s', heap_is s [(200, false)]
  /\ mem_malloc 10 s = Done (Some 8, s') /\ heap_is s' [(20, true); (180, false)].
Proof.
  destruct (mem_init_heap blank) as (s & _ & Hh & _). exists s.
  pose proof (mem_malloc_first_fit s [(200, false)] 10 Hh ltac:(unfold is_u16; lia) ltac:(discriminate)) as Hm.
  replace (first_fit (round_size 10) [(200, false)]) with (Some (@nil blk, 200, @nil blk)) in Hm by (vm_compute; reflexivity).
  destruct Hm as (s' & _ & E & Hh' & _). exists s'. split; [exact Hh|]. split; [exact E|exact Hh'].
Defined.
Example mem_free_coalesces_witness : exists s s', heap_is s [(20, true); (180, false)]
  /\ mem_free (Some 8) s = Done (tt, s') /\ heap_is s' [(200, false)].
Proof.
  destruct (mem_init_heap blank) as (s0 & _ & Hh0 & _).
  pose proof (mem_malloc_run s0 [(200, false)] 10 Hh0 ltac:(unfold is_u16; lia) ltac:(discriminate)) as Hm.
  replace (first_fit (round_size 10) [(200, false)]) with (Some (@nil blk, 200, @nil blk)) in Hm by (vm_compute; reflexivity).
  destruct Hm as (s & _ & _ & Hh & _).
  destruct (mem_free_coalesces s [] 20 [(180, false)] Hh) as (s' & E & Hh' & _).
  exists s, s'. split; [exact Hh|]. split; [exact E|exact Hh'].
Defined.
Example mem_realloc_shrinks_witness : exists s s', heap_is s [(112, true); (88, false)]
  /\ mem_realloc 8 50 s = Done (Some 8, s') /\ heap_is s' [(60, true); (140, false)].
Proof.
  destruct (mem_init_heap blank) as (s0 & _ & Hh0 & _).
  pose proof (mem_malloc_run s0 [(200, false)] 101 Hh0 ltac:(unfold is_u16; lia) ltac:(discriminate)) as Hm.
  replace (first_fit (round_size 101) [(200, false)]) with (Some (@nil blk, 200, @nil blk)) in Hm by (vm_compute; reflexivity).
  destruct Hm as (s & _ & _ & Hh & _).
  destruct (mem_realloc_shrinks s [] 112 [(88, false)] 50 Hh ltac:(unfold is_u16; lia)) as (s' & E & Hh' & _).
  exists s, s'. split; [exact Hh|]. split; [exact E|exact Hh'].
Defined.
