(* ===== verification/Octets.v ===== *)
(** * Octets of a chain of buffers, one at a time

    Code that walks through a packet octet by octet holds the buffer it is in
    and an index.  [pos] says where in the flat packet that is; the lemmas give
    the step to the next octet, a read and a write.  Shared by the ASN.1 coder
    and the serial line interface. *)
From S2P Require Import Prelude Heap Chains Pbuf PbufSpec PbufProps Stack Words.
#[local] Open Scope list_scope.
#[local] Open Scope Z_scope.

(** No buffer of the packet is empty, and each has its bytes in its own block. *)
Definition filled (h : heap) (ls : list loc) : Prop :=
  forall l, l ∈ ls -> exists b pt, h_pbufs h !! l = Some b /\ pb_payload b = Some pt /\ p_loc pt = l /\ 0 < pb_len b.

Record message (h : heap) (p : option loc) (ls : list loc) (d : list Z) : Prop := {
  msg_packet : packet h p ls d;
  msg_filled : filled h ls
}.
Lemma message_length h p ls d : message h p ls d -> Z.of_nat (length d) < 65536.
Proof. intros [H _]. by eapply packet_length. Qed.

(** Between [pre] and [rest], at the index [i] of the buffer [l]. *)
Definition pos (h : heap) (p : option loc) (ls : list loc) (pre rest : list Z) (l : loc) (i : nat) : Prop :=
  filled h ls /\ exists xs ys b pt d1 e1 e2 d3,
    ls = xs ++ l :: ys /\ pre = d1 ++ e1 /\ rest = e2 ++ d3 /\ e2 <> [] /\
    pseg h p xs d1 (Some l) (Z.of_nat (length (e1 ++ e2 ++ d3))) /\
    h_pbufs h !! l = Some b /\ pbuf_ok l b pt /\ bytes_at h pt (pb_len b) = Some (e1 ++ e2) /\
    pb_tot_len b = Z.of_nat (length (e1 ++ e2 ++ d3)) /\ pseg h (pb_next b) ys d3 None 0 /\
    i = length e1.

Lemma pos_message h p ls pre rest l i : pos h p ls pre rest l i -> message h p ls (pre ++ rest).
Proof.
  intros (Hf & xs & ys & b & pt & d1 & e1 & e2 & d3 & -> & -> & -> & He & Hx & Hb & Hok & Hd & Ht & Hy & Hi).
  split; [|done]. unfold packet. apply pseg_app. exists (Some l), d1, (e1 ++ e2 ++ d3).
  split; [by rewrite <- app_assoc|]. split; [by rewrite Z.add_0_r|].
  rewrite app_assoc. eapply pseg_cons; [exact Hb|exact Hok|exact Hd| |exact Hy].
  rewrite Ht, app_assoc, (length_app (e1 ++ e2)). lia.
Qed.
Lemma pos_length h p ls pre rest l i : pos h p ls pre rest l i -> Z.of_nat (length (pre ++ rest)) < 65536.
Proof. intros H. by eapply message_length, pos_message. Qed.

Lemma pos_rest h p ls pre rest l i : pos h p ls pre rest l i -> rest <> [].
Proof. intros (_ & xs & ys & b & pt & d1 & e1 & e2 & d3 & _ & _ & -> & He & _). by destruct e2. Qed.

(** The buffer, and how much of it is behind the position. *)
Lemma pos_buffer h p ls pre m rest l i : pos h p ls pre (m :: rest) l i ->
  exists b pt, h_pbufs h !! l = Some b /\ pb_payload b = Some pt /\ p_loc pt = l /\ l ∈ ls /\
    Z.of_nat i < pb_len b <= Z.of_nat (i + length (m :: rest)) /\ (i <= length pre)%nat.
Proof.
  intros (Hf & xs & ys & b & pt & d1 & e1 & e2 & d3 & -> & -> & Er & He & Hx & Hb & Hok & Hd & Ht & Hy & ->).
  destruct (Hf l) as (b' & pt' & Hb' & Hpt & Hl & _); [set_solver|]. exists b, pt.
  replace b' with b in * by congruence. assert (pt' = pt) as -> by (destruct Hok; congruence).
  do 3 (split; [done|]). split; [set_solver|]. pose proof (bytes_at_length _ _ _ _ Hd) as Hl'. rewrite Er, !length_app in *.
  destruct e2; [done|]. cbn [length] in *. lia.
Qed.

(** The next octet is in this buffer, or the first of the next one, or there
    is none. *)
Lemma pos_next h p ls pre m rest l i b : pos h p ls pre (m :: rest) l i -> h_pbufs h !! l = Some b ->
  if Z.of_nat i + 1 <? pb_len b then rest <> [] /\ pos h p ls (pre ++ [m]) rest l (S i)
  else match pb_next b with
       | None => rest = []
       | Some l' => rest <> [] /\ pos h p ls (pre ++ [m]) rest l' 0
       end.
Proof.
  intros (Hf & xs & ys & b' & pt & d1 & e1 & e2 & d3 & -> & -> & Er & He & Hx & Hb & Hok & Hd & Ht & Hy & ->) Hb'.
  replace b' with b in * by congruence. clear b' Hb'. destruct e2 as [|m' e2]; [done|]. injection Er as <- ->.
  pose proof (bytes_at_length _ _ _ _ Hd) as Hbl. rewrite length_app in Hbl. cbn [length] in Hbl.
  destruct (Z.ltb_spec (Z.of_nat (length e1) + 1) (pb_len b)) as [Hlt|Hge].
  - destruct e2 as [|m2 e2]; [cbn in Hbl; lia|]. split; [done|]. split; [done|].
    exists xs, ys, b, pt, d1, (e1 ++ [m]), (m2 :: e2), d3.
    do 2 (split; [by rewrite ?app_assoc|]). split; [done|]. split; [done|].
    rewrite <- (app_assoc e1 [m]). split; [exact Hx|]. split; [done|]. split; [done|].
    split; [by rewrite <- app_assoc|]. split; [exact Ht|]. split; [done|]. rewrite length_app. cbn. lia.
  - destruct e2; [|cbn in Hbl; lia]. cbn [app] in *. destruct ys as [|y ys].
    { by destruct Hy as [-> ->]. }
    pose proof Hy as (Hn & b2 & pt2 & e & d4 & Hb2 & Hok2 & He2 & -> & Ht2 & Hy'). rewrite Hn.
    pose proof (bytes_at_length _ _ _ _ He2) as Hel.
    assert (Hne : e <> []).
    { intros ->. destruct (Hf y) as (b3 & pt3 & Hb3 & _ & _ & Hpos); [set_solver|]. cbn in Hel. simplify_eq. lia. }
    split; [by destruct e|]. split; [done|].
    exists (xs ++ [l]), ys, b2, pt2, (d1 ++ e1 ++ [m]), [], e, d4. cbn [app].
    split; [by rewrite <- app_assoc|]. split; [by rewrite app_nil_r, app_assoc|]. split; [done|]. split; [done|].
    split.
    { apply pseg_app. exists (Some l), d1, (e1 ++ [m]). split; [done|].
      split; [by rewrite <- Nat2Z.inj_add, <- length_app, <- app_assoc|].
      rewrite <- (app_nil_r (e1 ++ [m])). eapply pseg_cons; [done..| |by rewrite Hn].
      rewrite Ht, !length_app. cbn. rewrite length_app. lia. }
    split; [done|]. split; [done|]. split; [done|]. split; [rewrite Ht2, length_app; lia|]. by split.
Qed.

Lemma pos_load h p ls pre m rest l i b pt : pos h p ls pre (m :: rest) l i ->
  h_pbufs h !! l = Some b -> pb_payload b = Some pt ->
  load (ptr_add pt (Z.of_nat i)) 1 h = Done ([m], h).
Proof.
  intros (_ & xs & ys & b' & pt' & d1 & e1 & e2 & d3 & _ & _ & Er & He & _ & Hb & Hok & Hd & _ & _ & ->) Hb' Hpt.
  replace b' with b in * by congruence. assert (pt' = pt) as -> by (destruct Hok; congruence).
  destruct e2 as [|m' e2]; [done|]. injection Er as <- ->.
  pose proof (bytes_at_length _ _ _ _ Hd) as Hl. rewrite length_app in Hl. cbn in Hl.
  destruct (bytes_at_split h pt (pb_len b) (Z.of_nat (length e1)) _ ltac:(lia) Hd) as [_ H1].
  rewrite Nat2Z.id, drop_app_length in H1.
  destruct (bytes_at_split h _ (pb_len b - Z.of_nat (length e1)) 1 _ ltac:(lia) H1) as [H2 _].
  by apply load_run.
Qed.

(** [h'] is [h] with other bytes in the blocks of the message. *)
Definition rewrote (ls : list loc) (h h' : heap) : Prop :=
  exists m, h' = h_set_blocks m h /\ forall l, l ∉ ls -> m !! l = h_blocks h !! l.

#[export] Instance rewrote_preorder ls : PreOrder (rewrote ls).
Proof.
  split.
  - intros h. exists (h_blocks h). split; [by destruct h|done].
  - intros h1 h2 h3 (m1 & -> & H1) (m2 & -> & H2). exists m2. split; [done|].
    intros l Hl. rewrite H2 by done. by apply H1.
Qed.

Lemma splice_window B o e1 m e2 (v : Z) :
  take (length (e1 ++ m :: e2)) (drop o B) = e1 ++ m :: e2 ->
  take (length (e1 ++ m :: e2)) (drop o (splice (o + length e1) [v] B)) = e1 ++ v :: e2.
Proof.
  intros H. assert (Ho : (o <= length B)%nat).
  { apply (f_equal length) in H. rewrite length_take, length_drop, length_app in H. cbn in H. lia. }
  pose proof (take_drop o B) as HB. pose proof (take_drop (length (e1 ++ m :: e2)) (drop o B)) as HC.
  rewrite H in HC. rewrite <- HC in HB. set (A := take o B) in *. set (C := drop _ (drop o B)) in *.
  assert (HA : length A = o) by (unfold A; rewrite length_take; lia). clearbody A C. subst B. rewrite <- HA.
  unfold splice. rewrite take_app_add, <- Nat.add_assoc, drop_app_add.
  rewrite <- (app_assoc e1), take_app_length, drop_app_add. cbn [length drop app].
  rewrite drop_0, <- app_assoc, drop_app_length, app_comm_cons, app_assoc.
  replace (length (e1 ++ m :: e2)) with (length (e1 ++ v :: e2)) by (by rewrite !length_app).
  by rewrite take_app_length.
Qed.

Lemma h_ok_splice h l blk i bs : h_ok h -> h_blocks h !! l = Some blk -> bytes_ok bs ->
  h_ok (h_set_blocks (<[l := Block (b_base blk) (splice i bs (b_data blk))]> (h_blocks h)) h).
Proof.
  intros [H1 H2 H3 H4] Hb Hbs. split; cbn.
  - exact H1.
  - intros l' [x Hx]. apply lookup_insert_Some in Hx as [[<- _]|[_ Hx]]; apply H2; by eexists.
  - intros l' Hl'. destruct (H3 l' Hl') as (x & Hx & Hbase). destruct (decide (l' = l)) as [->|Hne].
    + rewrite lookup_insert_eq. eexists. split; [done|]. cbn. congruence.
    + rewrite lookup_insert_ne by done. by eexists.
  - intros l' x Hx. apply lookup_insert_Some in Hx as [[<- <-]|[_ Hx]]; [|by eapply H4].
    cbn. unfold splice. rewrite !bytes_ok_app. pose proof (H4 _ _ Hb). auto using bytes_ok_take, bytes_ok_drop.
Qed.

Lemma pos_store h p ls pre m rest l i b pt v : pos h p ls pre (m :: rest) l i ->
  h_pbufs h !! l = Some b -> pb_payload b = Some pt ->
  exists h', store (ptr_add pt (Z.of_nat i)) [v] h = Done (tt, h') /\ pos h' p ls pre (v :: rest) l i /\ rewrote ls h h'
    /\ (h_ok h -> is_u8 v -> h_ok h').
Proof.
  intros Hc Hb' Hpt'. pose proof (pseg_last_none _ _ _ _ (msg_packet _ _ _ _ (pos_message _ _ _ _ _ _ _ Hc))) as Hnd.
  destruct Hc as (Hf & xs & ys & b1 & pt1 & d1 & e1 & e2 & d3 & -> & -> & Er & He & Hx & Hb & Hok & Hd & Ht & Hy & ->).
  replace b1 with b in * by congruence. clear b1 Hb'. assert (pt1 = pt) as -> by (destruct Hok; congruence).
  destruct e2 as [|m' e2]; [done|]. injection Er as <- ->.
  assert (Hl : p_loc pt = l) by (destruct (Hf l) as (? & ? & ? & ? & ? & _); [set_solver|congruence]).
  pose proof (bytes_at_length _ _ _ _ Hd) as Hlen. unfold bytes_at in Hd. rewrite Hl in Hd.
  destruct (h_blocks h !! l) as [blk|] eqn:Hblk; [|done]. cbn [mbind option_bind] in Hd.
  case_match eqn:E; [|done]. injection Hd as Hd. rewrite length_app in Hlen. cbn [length] in Hlen.
  apply andb_true_iff in E as [[E1%Z.leb_le E2%Z.leb_le]%andb_true_iff E3%Z.leb_le].
  set (data := splice (Z.to_nat (p_off pt - b_base blk) + length e1) [v] (b_data blk)).
  set (h' := h_set_blocks (<[l := Block (b_base blk) data]> (h_blocks h)) h). exists h'. split; [|split; [|split]].
  - unfold store. cbn [ptr_add p_loc p_off]. rewrite Hl. erewrite bind_run by done. rewrite Hblk. erewrite bind_run by done.
    match goal with |- context [if ?c then _ else _] => replace c with true end.
    2:{ cbn [length]. symmetry. apply andb_true_iff. split; apply Z.leb_le; lia. }
    unfold put, h', data. do 5 f_equal. f_equal. lia.
  - assert (Hd' : bytes_at h' pt (pb_len b) = Some (e1 ++ v :: e2)).
    { unfold bytes_at. rewrite Hl. cbn. rewrite lookup_insert_eq. cbn.
      assert (Hs : length data = length (b_data blk)).
      { unfold data, splice. rewrite !length_app, length_take, length_drop. cbn. lia. }
      rewrite Hs. match goal with |- context [if ?c then _ else _] => replace c with true end.
      2:{ symmetry. rewrite !andb_true_iff. repeat split; apply Z.leb_le; lia. }
      f_equal. replace (Z.to_nat (pb_len b)) with (length (e1 ++ m :: e2)) in * by (rewrite length_app; cbn; lia).
      by eapply splice_window. }
    assert (Hfr : forall zs q dd e k, pseg h q zs dd e k -> l ∉ zs -> (forall l', l' ∈ zs -> l' ∈ xs ++ l :: ys) ->
      pseg h' q zs dd e k).
    { intros zs q dd e k Hz Hni Hin. eapply pseg_frame_gen; [exact Hz| |done].
      intros l' b0 pt' Hl' Hlb Hlp. cbn. apply lookup_insert_ne. intros E. apply Hni.
      destruct (Hf l') as (b2 & pt2 & Hb2 & Hp2 & Hl2 & _); [by apply Hin|]. simplify_eq. congruence. }
    apply NoDup_app in Hnd as (_ & Hx' & Hnd). apply NoDup_cons in Hnd as [Hy' _].
    split; [exact Hf|]. exists xs, ys, b, pt, d1, e1, (v :: e2), d3.
    do 4 (split; [done|]).
    replace (length (e1 ++ (v :: e2) ++ d3)) with (length (e1 ++ (m :: e2) ++ d3)) by (by rewrite !length_app).
    split; [apply Hfr; [exact Hx| |set_solver]; intros ?; eapply Hx'; [done|left]|].
    do 3 (split; [done|]). split; [exact Ht|]. split; [apply Hfr; [done|done|set_solver]|done].
  - eexists. split; [reflexivity|]. intros l' Hl'. apply lookup_insert_ne. set_solver.
  - intros Hok' Hv. eapply h_ok_splice; [exact Hok'|exact Hblk|]. apply bytes_ok_cons. split; [done|constructor].
Qed.

(** The first octet of a message. *)
Lemma pos_start h l ls d : message h (Some l) (l :: ls) d -> d <> [] /\ pos h (Some l) (l :: ls) [] d l 0.
Proof.
  intros [Hp Hf]. pose proof Hp as (_ & b & pt & e & d3 & Hb & Hok & He & -> & Ht & Hy).
  pose proof (bytes_at_length _ _ _ _ He) as Hel.
  assert (Hne : e <> []).
  { intros ->. destruct (Hf l) as (b3 & pt3 & Hb3 & _ & _ & Hpos); [set_solver|]. cbn in Hel. simplify_eq. lia. }
  split; [by destruct e|]. split; [done|]. exists [], ls, b, pt, [], [], e, d3. cbn [app].
  do 4 (split; [done|]). split; [done|]. split; [done|]. split; [done|]. split; [done|]. split; [lia|]. by split.
Qed.
