(* ===== verification/Asn1.v ===== *)
(** * The ASN.1 coder of the SNMP agent (core/snmp/asn1_enc.c, asn1_dec.c)

    Types, lengths, integers, object identifiers and octet strings are written
    to and read from a chain of pbufs, an octet at a time.  A pointer argument
    that receives a result is an argument and a component of the result: the
    code leaves it as it was, or half written, on some paths.

    Two pieces of code that every function repeats are one definition each:
    the search for the buffer that holds [ofs] and the step to the next octet.
    [<<] of a signed operand is the one GCC documents: it wraps. *)
From S2P Require Import Prelude Heap Pbuf.
#[local] Open Scope Z_scope.

Definition LWIP_SNMP_OBJ_ID_LEN : Z := 32.
(** struct snmp_obj_id (lwip/snmp.h) *)
Record snmp_obj_id := SnmpObjId { oid_len : Z; oid_id : list Z }.

(** [*oid_ptr = v]: outside of the array it is undefined. *)
Definition oid_put (i : Z) (v : Z) (o : snmp_obj_id) : M heap snmp_obj_id :=
  if (0 <=? i) && (i <? Z.of_nat (length (oid_id o)))
  then mret (SnmpObjId (oid_len o) (<[Z.to_nat i := v]> (oid_id o)))
  else halt UB.

(** ** The octet the code is at: [p], [msg_ptr], [ofs], [plen] *)
Record cursor := Cursor { c_p : loc; c_ptr : ptr; c_ofs : Z; c_plen : Z }.

Fixpoint seek (fuel : nat) (p : option loc) (ofs plen : Z) : M heap (option cursor) :=
  match p with
  | None => mret None
  | Some l =>
      match fuel with
      | O => halt NoFuel
      | S fuel =>
          b ← pget l;
          let base := plen in
          let plen := u16 (plen + pb_len b) in
          if ofs <? plen then
            msg_ptr ← deref (pb_payload b);
            mret (Some (Cursor l (ptr_add msg_ptr (ofs - base)) ofs plen))
          else seek fuel (pb_next b) ofs plen
      end
  end.

(** [while (p != NULL)]: [k] at the octet [ofs], [fail] when there is none. *)
Definition at_octet {A} (p : option loc) (ofs : Z) (fail : M heap A) (k : cursor -> M heap A) : M heap A :=
  h ← get;
  c ← seek (walk_fuel h) p ofs 0;
  match c with Some c => k c | None => fail end.

Definition next_octet {A} (c : cursor) (fail : M heap A) (k : cursor -> M heap A) : M heap A :=
  let ofs := u16 (c_ofs c + 1) in
  if c_plen c <=? ofs then
    b ← pget (c_p c);
    match pb_next b with
    | None => fail
    | Some l =>
        b ← pget l;
        msg_ptr ← deref (pb_payload b);
        k (Cursor l msg_ptr ofs (u16 (c_plen c + pb_len b)))
    end
  else k (Cursor (c_p c) (ptr_add (c_ptr c) 1) ofs (c_plen c)).

(** [*msg_ptr = v] and [*msg_ptr] *)
Definition put_octet (c : cursor) (v : Z) : M heap unit := store (c_ptr c) [u8 v].
Definition octet (c : cursor) : M heap Z := bs ← load (c_ptr c) 1; deref (head bs).

(** ** Octet counts *)
Definition snmp_asn1_enc_length_cnt (length : Z) : Z :=
  if length <? 0x80 then 1 else if length <? 0x100 then 2 else 3.

Definition snmp_asn1_enc_u32t_cnt (value : Z) : Z :=
  if value <? 0x80 then 1 else if value <? 0x8000 then 2 else if value <? 0x800000 then 3
  else if value <? 0x80000000 then 4 else 5.

Definition snmp_asn1_enc_s32t_cnt (value : Z) : Z :=
  let value := if value <? 0 then Z.lnot value else value in
  if value <? 0x80 then 1 else if value <? 0x8000 then 2 else if value <? 0x800000 then 3 else 4.

(** The inner loop: a non-negative s32_t is 0 after five shifts. *)
Fixpoint sub_id_cnt (fuel : nat) (sub_id cnt : Z) : M heap Z :=
  if 0 <? sub_id then
    match fuel with
    | O => halt NoFuel
    | S fuel => sub_id_cnt fuel (Z.shiftr sub_id 7) (u8 (cnt + 1))
    end
  else mret cnt.

Fixpoint oid_cnt_loop (ident_len : nat) (ident : list Z) (cnt : Z) : M heap Z :=
  match ident_len with
  | O => mret cnt
  | S ident_len =>
      sub_id ← deref (head ident);
      cnt ← sub_id_cnt 5 (Z.shiftr sub_id 7) (u8 (cnt + 1));
      oid_cnt_loop ident_len (tail ident) cnt
  end.

Definition snmp_asn1_enc_oid_cnt (ident_len : Z) (ident : list Z) : M heap Z :=
  if 1 <? ident_len then oid_cnt_loop (Z.to_nat (ident_len - 2)) (drop 2 ident) 1
  else oid_cnt_loop (Z.to_nat ident_len) ident 0.

(** ** Encoding *)
Definition snmp_asn1_enc_type (p : option loc) (ofs type : Z) : M heap Z :=
  at_octet p ofs (mret ERR_ARG) (fun c => put_octet c type;; mret ERR_OK).

Fixpoint enc_length_loop (i : nat) (c : cursor) (length : Z) : M heap Z :=
  match i with
  | O => mret ERR_OK
  | S i =>
      next_octet c (mret ERR_ARG) (fun c =>
        (match i with O => put_octet c length | _ => put_octet c (Z.shiftr length 8) end);;
        enc_length_loop i c length)
  end.

Definition snmp_asn1_enc_length (p : option loc) (ofs length : Z) : M heap Z :=
  at_octet p ofs (mret ERR_ARG) (fun c =>
    if length <? 0x80 then put_octet c length;; mret ERR_OK
    else if length <? 0x100 then
      put_octet c 0x81;;
      next_octet c (mret ERR_ARG) (fun c => put_octet c length;; mret ERR_OK)
    else put_octet c 0x82;; enc_length_loop 2 c length).

(** [while (octets_needed > 1)]: a shift by 32 or more is undefined. *)
Fixpoint enc_octets (octets_needed : nat) (c : cursor) (value : Z) : M heap Z :=
  match octets_needed with
  | S (S n as octets_needed) =>
      let shift := 8 * Z.of_nat octets_needed in
      (if 32 <=? shift then halt UB else put_octet c (Z.shiftr value shift));;
      next_octet c (mret ERR_ARG) (fun c => enc_octets octets_needed c value)
  | _ => put_octet c value;; mret ERR_OK
  end.

Definition snmp_asn1_enc_u32t (p : option loc) (ofs octets_needed value : Z) : M heap Z :=
  at_octet p ofs (mret ERR_ARG) (fun c =>
    if octets_needed =? 5 then
      put_octet c 0x00;;
      next_octet c (mret ERR_ARG) (fun c => enc_octets 4 c value)
    else enc_octets (Z.to_nat octets_needed) c value).

Definition snmp_asn1_enc_s32t (p : option loc) (ofs octets_needed value : Z) : M heap Z :=
  at_octet p ofs (mret ERR_ARG) (fun c => enc_octets (Z.to_nat octets_needed) c value).

(** [while (shift > 0)]: [shift] is 7 times [n]. *)
Fixpoint enc_groups (n : nat) (c : cursor) (sub_id : Z) (tail : bool) (k : cursor -> M heap Z) : M heap Z :=
  match n with
  | O => k c
  | S n' =>
      let code := u8 (Z.shiftr sub_id (7 * Z.of_nat n)) in
      if negb (code =? 0) || tail then
        put_octet c (Z.lor code 0x80);;
        next_octet c (mret ERR_ARG) (fun c => enc_groups n' c sub_id true k)
      else enc_groups n' c sub_id tail k
  end.

Fixpoint enc_oid_loop (ident_len : nat) (c : cursor) (ident : list Z) : M heap Z :=
  match ident_len with
  | O => mret ERR_OK
  | S ident_len =>
      sub_id ← deref (head ident);
      enc_groups 4 c sub_id false (fun c =>
        put_octet c (Z.land (u8 sub_id) 0x7F);;
        match ident_len with
        | O => mret ERR_OK
        | _ => next_octet c (mret ERR_ARG) (fun c => enc_oid_loop ident_len c (tail ident))
        end)
  end.

(** The prefix is computed in an int, where it must not overflow. *)
Definition oid_prefix (id0 id1 : Z) : M heap Z :=
  if (id0 =? 1) && (id1 =? 3) then mret 0x2b
  else if bool_decide (s32 (id0 * 40) = id0 * 40 /\ s32 (id0 * 40 + id1) = id0 * 40 + id1)
  then mret (id0 * 40 + id1) else halt UB.

Definition snmp_asn1_enc_oid (p : option loc) (ofs ident_len : Z) (ident : list Z) : M heap Z :=
  at_octet p ofs (mret ERR_ARG) (fun c =>
    if 1 <? ident_len then
      id0 ← deref (nth_error ident 0);
      id1 ← deref (nth_error ident 1);
      v ← oid_prefix id0 id1;
      put_octet c v;;
      next_octet c (mret ERR_ARG) (fun c =>
        enc_oid_loop (Z.to_nat (ident_len - 2)) c (drop 2 ident))
    else mret ERR_ARG).

Fixpoint enc_raw_loop (raw_len : nat) (c : cursor) (raw : list Z) : M heap Z :=
  match raw_len with
  | O => mret ERR_OK
  | S n =>
      r ← deref (head raw);
      put_octet c r;;
      match n with
      | O => mret ERR_OK
      | _ => next_octet c (mret ERR_ARG) (fun c => enc_raw_loop n c (tail raw))
      end
  end.

Definition snmp_asn1_enc_raw (p : option loc) (ofs raw_len : Z) (raw : list Z) : M heap Z :=
  at_octet p ofs (mret ERR_ARG) (fun c => enc_raw_loop (Z.to_nat raw_len) c raw).

(** ** Decoding: the error code and what the pointer arguments then hold *)
Definition snmp_asn1_dec_type (p : option loc) (ofs type : Z) : M heap (Z * Z) :=
  at_octet p ofs (mret (ERR_ARG, type)) (fun c => m ← octet c; mret (ERR_OK, m)).

(** [while (zeros != 2) { i = 2; while (i > 0) ... }] *)
Fixpoint dec_indefinite (fuel : nat) (c : cursor) (i zeros octets_used length : Z) : M heap (Z * Z * Z) :=
  match fuel with
  | O => halt NoFuel
  | S fuel =>
      if i =? 0 then
        if zeros =? 2 then mret (ERR_OK, 1, length)
        else dec_indefinite fuel c 2 zeros octets_used length
      else
        let length := u16 (length + 1) in
        next_octet c (mret (ERR_ARG, octets_used, length)) (fun c =>
          m ← octet c;
          let zeros := if m =? 0 then zeros + 1 else 0 in
          dec_indefinite fuel c (if zeros =? 2 then 0 else i - 1) zeros octets_used length)
  end.

(** At most two rounds for every octet of a chain: [ofs] is a u16_t, and the
    chain is shorter than 2^16. *)
Definition indefinite_fuel : nat := Z.to_nat (3 * 2 ^ 16).

Fixpoint dec_length_loop (i : nat) (c : cursor) (octets_used length : Z) : M heap (Z * Z * Z) :=
  match i with
  | O => mret (ERR_OK, 3, length)
  | S i =>
      next_octet c (mret (ERR_ARG, octets_used, length)) (fun c =>
        m ← octet c;
        dec_length_loop i c octets_used
          (match i with O => Z.lor length m | _ => Z.shiftl m 8 end))
  end.

Definition snmp_asn1_dec_length (p : option loc) (ofs octets_used length : Z) : M heap (Z * Z * Z) :=
  at_octet p ofs (mret (ERR_ARG, octets_used, length)) (fun c =>
    m ← octet c;
    if m <? 0x80 then mret (ERR_OK, 1, m)
    else if m =? 0x80 then dec_indefinite indefinite_fuel c 2 0 octets_used 0
    else if m =? 0x81 then
      next_octet c (mret (ERR_ARG, octets_used, length)) (fun c => m ← octet c; mret (ERR_OK, 2, m))
    else if m =? 0x82 then dec_length_loop 2 c octets_used length
    else mret (ERR_ARG, 1 + Z.land m 0x7f, length)).

(** [while (len > 1)]; the value is a u32_t. *)
Fixpoint dec_u32_loop (len : nat) (c : cursor) (value : Z) : M heap (Z * Z) :=
  m ← octet c;
  match len with
  | S (S _ as len) =>
      let value := u32 (Z.shiftl (Z.lor value m) 8) in
      next_octet c (mret (ERR_ARG, value)) (fun c => dec_u32_loop len c value)
  | _ => mret (ERR_OK, Z.lor value m)
  end.

Definition snmp_asn1_dec_u32t (p : option loc) (ofs len value : Z) : M heap (Z * Z) :=
  at_octet p ofs (mret (ERR_ARG, value)) (fun c =>
    if (0 <? len) && (len <? 6) then
      m ← octet c;
      if negb (Z.land m 0x80 =? 0) then mret (ERR_ARG, 0)
      else if (1 <? len) && (m =? 0) then
        next_octet c (mret (ERR_ARG, 0)) (fun c => dec_u32_loop (Z.to_nat (len - 1)) c 0)
      else dec_u32_loop (Z.to_nat len) c 0
    else mret (ERR_ARG, value)).

(** [*lsb_ptr &= m] and [*lsb_ptr |= m] on the low octet of an s32_t. *)
Definition lsb_and (value m : Z) : Z := Z.land value (Z.lor (-256) m).

Fixpoint dec_s32_loop (len : nat) (c : cursor) (sign : bool) (value : Z) : M heap (Z * Z) :=
  m ← octet c;
  match len with
  | S (S _ as len) =>
      let value := if sign then Z.lor (s32 (Z.shiftl (lsb_and value m) 8)) 255
                   else s32 (Z.shiftl (Z.lor value m) 8) in
      next_octet c (mret (ERR_ARG, value)) (fun c => dec_s32_loop len c sign value)
  | _ => mret (ERR_OK, if sign then lsb_and value m else Z.lor value m)
  end.

Definition snmp_asn1_dec_s32t (p : option loc) (ofs len value : Z) : M heap (Z * Z) :=
  at_octet p ofs (mret (ERR_ARG, value)) (fun c =>
    if (0 <? len) && (len <? 5) then
      m ← octet c;
      let sign := negb (Z.land m 0x80 =? 0) in
      dec_s32_loop (Z.to_nat len) c sign (if sign then -1 else 0)
    else mret (ERR_ARG, value)).

(** [while ((msg & 0x80) && (len > 1))]: the rest goes on with [len] and [sub_id]. *)
Fixpoint dec_sub_loop {A} (len : nat) (c : cursor) (sub_id : Z) (fail : M heap A)
    (k : nat -> cursor -> Z -> M heap A) : M heap A :=
  m ← octet c;
  match len with
  | S (S _ as n) =>
      if negb (Z.land m 0x80 =? 0) then
        next_octet c fail (fun c =>
          dec_sub_loop n c (s32 (s32 (Z.shiftl sub_id 7) + Z.land m (Z.lnot 0x80))) fail k)
      else k len c sub_id
  | _ => k len c sub_id
  end.

(** One round of the loop over the sub-identifiers: it goes on with [len] and
    the array; [oid_ptr] is the element [oid->len]. *)
Definition dec_sub_id (len : nat) (c : cursor) (oid : snmp_obj_id) (fail : M heap (Z * snmp_obj_id))
    (k : nat -> cursor -> snmp_obj_id -> M heap (Z * snmp_obj_id)) : M heap (Z * snmp_obj_id) :=
  m ← octet c;
  if negb (Z.land m 0x80 =? 0) then
    dec_sub_loop len c 0 fail (fun len c sub_id =>
      m ← octet c;
      if (Z.land m 0x80 =? 0) && (0 <? len)%nat then
        oid ← oid_put (oid_len oid) (s32 (s32 (Z.shiftl sub_id 7) + m)) oid;
        k (len - 1)%nat c oid
      else k len c oid)
  else
    oid ← oid_put (oid_len oid) m oid;
    k (len - 1)%nat c oid.

Fixpoint dec_oid_loop (fuel : nat) (len : nat) (c : cursor) (oid : snmp_obj_id) : M heap (Z * snmp_obj_id) :=
  match len with
  | O => mret (ERR_OK, oid)
  | _ =>
      if LWIP_SNMP_OBJ_ID_LEN <=? oid_len oid then mret (ERR_ARG, oid)
      else match fuel with
      | O => halt NoFuel
      | S fuel =>
          dec_sub_id len c oid (mret (ERR_ARG, oid)) (fun len c oid =>
            let oid' := SnmpObjId (u8 (oid_len oid + 1)) (oid_id oid) in
            match len with
            | O => dec_oid_loop fuel len c oid'
            | _ => next_octet c (mret (ERR_ARG, oid)) (fun c => dec_oid_loop fuel len c oid')
            end)
      end
  end.

Definition snmp_asn1_dec_oid (p : option loc) (ofs len : Z) (oid : snmp_obj_id) : M heap (Z * snmp_obj_id) :=
  at_octet p ofs (mret (ERR_ARG, oid)) (fun c =>
    let oid := SnmpObjId 0 (oid_id oid) in
    if 0 <? len then
      m ← octet c;
      let '(id0, id1) := if m =? 0x2B then (1, 3) else if m <? 40 then (0, m)
                         else if m <? 80 then (1, m - 40) else (2, m - 80) in
      oid ← oid_put 0 id0 oid;
      oid ← oid_put 1 id1 oid;
      let oid := SnmpObjId 2 (oid_id oid) in
      let len := Z.to_nat (len - 1) in
      let fuel := Z.to_nat LWIP_SNMP_OBJ_ID_LEN in
      match len with
      | O => dec_oid_loop fuel len c oid
      | _ => next_octet c (mret (ERR_ARG, oid)) (fun c => dec_oid_loop fuel len c oid)
      end
    else mret (ERR_OK, oid)).

(** [raw] is the array of the caller, at the element [i]. *)
Fixpoint dec_raw_loop (len : nat) (c : cursor) (i : nat) (raw : list Z) : M heap (Z * list Z) :=
  m ← octet c;
  raw ← (if (i <? length raw)%nat then mret (<[i := m]> raw) else halt UB);
  match len with
  | S (S _ as len) => next_octet c (mret (ERR_ARG, raw)) (fun c => dec_raw_loop len c (S i) raw)
  | _ => mret (ERR_OK, raw)
  end.

Definition snmp_asn1_dec_raw (p : option loc) (ofs len raw_len : Z) (raw : list Z) : M heap (Z * list Z) :=
  if 0 <? len then
    at_octet p ofs (mret (ERR_ARG, raw)) (fun c =>
      if len <=? raw_len then dec_raw_loop (Z.to_nat len) c 0 raw
      else mret (ERR_ARG, raw))
  else mret (ERR_OK, raw).
