(* ===== verification/Asn1Props.v ===== *)
(** * What the ASN.1 coder writes and reads (core/snmp/asn1_enc.c, asn1_dec.c)

    The position of the coder in a chain is a position in the flat message, so
    each function is a function on lists of octets; then what the encoder
    writes is what the decoder reads. *)
From S2P Require Import Prelude Heap Chains Pbuf PbufSpec PbufProps Stack Words Octets Asn1.
#[local] Open Scope list_scope.
#[local] Open Scope Z_scope.

(** ** Positions *)

(** The cursor is between [pre] and [rest]. *)
Definition at_pos (h : heap) (p : option loc) (ls : list loc) (pre rest : list Z) (c : cursor) : Prop :=
  exists b pt i, pos h p ls pre rest (c_p c) i /\ h_pbufs h !! c_p c = Some b /\ pb_payload b = Some pt /\
    c = Cursor (c_p c) (ptr_add pt (Z.of_nat i)) (Z.of_nat (length pre))
               (Z.of_nat (length pre) - Z.of_nat i + pb_len b).

Lemma at_pos_message h p ls pre rest c : at_pos h p ls pre rest c -> message h p ls (pre ++ rest).
Proof. intros (b & pt & i & H & _). by eapply pos_message. Qed.

Lemma seek_spec h p ls xs ys q d1 d2 ofs fuel :
  filled h ls -> ls = xs ++ ys -> pseg h p xs d1 q (Z.of_nat (length d2)) -> pseg h q ys d2 None 0 ->
  Z.of_nat (length (d1 ++ d2)) < 65536 -> (length d1 <= ofs)%nat -> (length ys < fuel)%nat ->
  exists r, seek fuel q (Z.of_nat ofs) (Z.of_nat (length d1)) h = Done (r, h) /\
    match r with
    | Some c => (ofs < length (d1 ++ d2))%nat /\ at_pos h p ls (take ofs (d1 ++ d2)) (drop ofs (d1 ++ d2)) c
    | None => (length (d1 ++ d2) <= ofs)%nat
    end.
Proof.
  intros Hf. revert xs q d1 d2 fuel. induction ys as [|y ys IH]; intros xs q d1 d2 fuel Els Hx Hy Hlen Hofs Hfu.
  { destruct Hy as [-> ->]. exists None. split; [by destruct fuel|]. rewrite app_nil_r. lia. }
  pose proof Hy as (-> & b & pt & e & d3 & Hb & Hok & He & -> & Ht & Hy').
  destruct fuel as [|fuel]; [cbn in Hfu; lia|]. cbn [seek].
  erewrite bind_run by by apply pget_run. pose proof (bytes_at_length _ _ _ _ He) as Hel.
  cbv zeta. rewrite !length_app in *.
  rewrite u16_small by (unfold is_u16; lia).
  destruct (Z.ltb_spec (Z.of_nat ofs) (Z.of_nat (length d1) + pb_len b)) as [Hlt|Hge].
  - pose proof Hok as (Hpt & _). rewrite Hpt. eexists. split; [reflexivity|]. cbv zeta. split; [lia|].
    exists b, pt, (ofs - length d1)%nat. cbn [c_p]. split; [|split; [done|split; [done|]]].
    + split; [done|]. exists xs, ys, b, pt, d1, (take (ofs - length d1) e), (drop (ofs - length d1) e), d3.
      rewrite (take_app_ge d1), (drop_app_ge d1), (take_app_le e), (drop_app_le e) by lia.
      rewrite !app_assoc, (take_drop (ofs - length d1) e).
      do 3 (split; [done|]). split; [intros E%(f_equal length); rewrite length_drop in E; cbn in E; lia|].
      split; [by rewrite length_app|]. do 3 (split; [done|]). split; [rewrite length_app; lia|]. split; [done|].
      rewrite length_take. lia.
    + f_equal; [f_equal; lia|rewrite length_take, !length_app; lia|rewrite length_take, !length_app; lia].
  - specialize (IH (xs ++ [y]) (pb_next b) (d1 ++ e) d3 fuel).
    destruct IH as (r & Er & Hr).
    + by rewrite <- app_assoc.
    + apply pseg_app. exists (Some y), d1, e. split; [done|]. split; [by rewrite <- length_app, length_app, Nat2Z.inj_add in *|].
      rewrite <- (app_nil_r e). eapply pseg_cons; [done..| |done]. cbn. lia.
    + done.
    + rewrite !length_app. lia.
    + rewrite length_app. lia.
    + cbn in Hfu. lia.
    + exists r. rewrite <- app_assoc in Hr. replace (Z.of_nat (length (d1 ++ e))) with (Z.of_nat (length d1) + pb_len b) in Er
        by (rewrite length_app; lia). rewrite !length_app in Hr. done.
Qed.

(** ** The steps of the code *)
Lemma wp_at_octet {A} h p ls d ofs (fail : M heap A) k Q :
  message h p ls d -> 0 <= ofs ->
  (forall c, ofs < Z.of_nat (length d) ->
     at_pos h p ls (take (Z.to_nat ofs) d) (drop (Z.to_nat ofs) d) c -> wp (k c) h Q) ->
  (Z.of_nat (length d) <= ofs -> wp fail h Q) ->
  wp (at_octet p ofs fail k) h Q.
Proof.
  intros Hm Hofs Hk Hfail. unfold at_octet. wp_step. wp_step. wp_step.
  pose proof (message_length _ _ _ _ Hm) as Hlen. destruct Hm as [Hp Hf].
  destruct (seek_spec h p ls [] ls p [] d (Z.to_nat ofs) (walk_fuel h)) as (r & E & Hr); try done.
  - cbn. lia.
  - by eapply packet_fuel.
  - cbn [app] in Hr. rewrite Z2Nat.id in E by done. eapply wp_intro; [exact E|].
    destruct r as [c|]; [apply Hk; [lia|apply Hr] | apply Hfail; lia].
Qed.

Lemma wp_next_octet {A} h p ls pre m rest c (fail : M heap A) k Q :
  at_pos h p ls pre (m :: rest) c ->
  (forall c', rest <> [] -> at_pos h p ls (pre ++ [m]) rest c' -> wp (k c') h Q) ->
  (rest = [] -> wp fail h Q) ->
  wp (next_octet c fail k) h Q.
Proof.
  intros (b & pt & i & Hc & Hb & Hpt & ->) Hk Hfail. cbn [c_p] in *.
  pose proof (pos_length _ _ _ _ _ _ _ Hc) as Hlen. rewrite length_app in Hlen. cbn [length] in Hlen.
  destruct (pos_buffer _ _ _ _ _ _ _ _ Hc) as (b' & _ & Hb' & _ & _ & _ & Hi & Hip). replace b' with b in * by congruence.
  pose proof (pos_next _ _ _ _ _ _ _ _ _ Hc Hb) as Hn. cbn [length] in Hi.
  unfold next_octet. cbn [c_ofs c_plen c_p c_ptr]. rewrite u16_small by (unfold is_u16; lia).
  destruct (Z.ltb_spec (Z.of_nat i + 1) (pb_len b)) as [Hlt|Hge], (Z.leb_spec (Z.of_nat (length pre) - Z.of_nat i + pb_len b) (Z.of_nat (length pre) + 1)); try lia.
  - destruct Hn as [Hr Hn]. apply Hk; [done|]. exists b, pt, (S i). split; [done|]. split; [done|]. split; [done|].
    f_equal; [unfold ptr_add; cbn; f_equal; lia|rewrite length_app; cbn; lia|rewrite length_app; cbn; lia].
  - wp_step. eapply wp_pget; [exact Hb|]. destruct (pb_next b) as [l'|]; [|by apply Hfail].
    destruct Hn as [Hr Hn]. destruct rest as [|m' rest]; [done|].
    destruct (pos_buffer _ _ _ _ _ _ _ _ Hn) as (b2 & pt2 & Hb2 & Hpt2 & _ & _ & Hi2 & _). cbn [length Nat.add] in *.
    wp_step. eapply wp_pget; [exact Hb2|]. wp_step. eapply wp_deref; [exact Hpt2|].
    apply Hk; [done|]. exists b2, pt2, 0%nat. cbn [c_p]. split; [done|]. split; [done|]. split; [done|].
    rewrite length_app, u16_small by (unfold is_u16; lia). cbn [length].
    f_equal; [destruct pt2; unfold ptr_add; cbn; f_equal; lia|lia|lia].
Qed.

Lemma wp_octet h p ls pre m rest c Q : at_pos h p ls pre (m :: rest) c -> Q m h -> wp (octet c) h Q.
Proof.
  intros (b & pt & i & Hc & Hb & Hpt & ->) HQ. unfold octet. cbn [c_ptr].
  wp_step. eapply wp_intro; [by eapply pos_load|]. by wp_step.
Qed.

Lemma wp_put_octet h p ls pre m rest c v Q :
  at_pos h p ls pre (m :: rest) c ->
  (forall h', at_pos h' p ls pre (u8 v :: rest) c -> rewrote ls h h' -> Q tt h') ->
  wp (put_octet c v) h Q.
Proof.
  intros (b & pt & i & Hc & Hb & Hpt & ->) HQ. unfold put_octet. cbn [c_ptr].
  destruct (pos_store _ _ _ _ _ _ _ _ _ _ (u8 v) Hc Hb Hpt) as (h' & E & Hc' & Hr & _).
  eapply wp_intro; [exact E|]. apply HQ; [|done]. exists b, pt, i. split; [done|]. destruct Hr as (m' & -> & _). done.
Qed.

(** ** What a run of the encoder leaves *)

(** From [pre]: the octets [bs], if there is room for [need] octets in [rest]. *)
Definition wrote (p : option loc) (ls : list loc) (h : heap) (pre rest bs : list Z) (need : nat)
    (e : Z) (h' : heap) : Prop :=
  rewrote ls h h' /\ exists d', message h' p ls d' /\
    length d' = length (pre ++ rest) /\ take (length pre) d' = pre /\
    if (need <=? length rest)%nat then e = ERR_OK /\ d' = pre ++ bs ++ drop (length bs) rest
    else e = ERR_ARG.

Lemma wrote_fail p ls h h' pre rest bs need c : rewrote ls h h' -> at_pos h' p ls pre rest c ->
  (length rest < need)%nat -> wrote p ls h pre rest bs need ERR_ARG h'.
Proof.
  intros Hr Hc Hn. split; [done|]. exists (pre ++ rest). split; [by eapply at_pos_message|].
  split; [done|]. split; [apply take_app_length|]. by rewrite (proj2 (Nat.leb_gt _ _) Hn).
Qed.
Lemma wrote_last p ls h h' pre m rest v need c : rewrote ls h h' -> at_pos h' p ls pre (v :: rest) c ->
  (need <= 1)%nat -> wrote p ls h pre (m :: rest) [v] need ERR_OK h'.
Proof.
  intros Hr Hc Hn. split; [done|]. exists (pre ++ v :: rest). split; [by eapply at_pos_message|].
  split; [by rewrite !length_app|]. split; [apply take_app_length|].
  cbn [length]. rewrite (proj2 (Nat.leb_le _ _)) by lia. done.
Qed.
Lemma wrote_cons p ls h h1 h' pre m rest v bs need e : rewrote ls h h1 ->
  wrote p ls h1 (pre ++ [v]) rest bs need e h' -> wrote p ls h pre (m :: rest) (v :: bs) (S need) e h'.
Proof.
  intros Hr (Hr' & d' & Hm & Hl & Ht & H). split; [by etrans|]. exists d'. split; [done|].
  rewrite <- app_assoc in Hl. split; [by rewrite Hl, !length_app|]. split.
  { apply (f_equal (take (length pre))) in Ht. rewrite take_take, take_app_length, length_app in Ht.
    by rewrite Nat.min_l in Ht by lia. }
  cbn [length]. change (S need <=? S (length rest))%nat with (need <=? length rest)%nat.
  destruct (need <=? length rest)%nat; [|done]. destruct H as [-> ->]. by rewrite <- app_assoc.
Qed.

(** An octet, and what follows it. *)
Lemma wp_put_next p ls h pre m rest c v k bs need :
  at_pos h p ls pre (m :: rest) c -> (0 < need)%nat ->
  (forall h1 c1, rest <> [] -> at_pos h1 p ls (pre ++ [u8 v]) rest c1 ->
     wp (k c1) h1 (wrote p ls h1 (pre ++ [u8 v]) rest bs need)) ->
  wp (put_octet c v;; next_octet c (mret ERR_ARG) k) h (wrote p ls h pre (m :: rest) (u8 v :: bs) (S need)).
Proof.
  intros Hc Hn Hk. wp_step. eapply wp_put_octet; [exact Hc|]. intros h1 Hc1 Hr.
  eapply wp_next_octet; [exact Hc1| |].
  - intros c' Hne Hc'. eapply wp_mono; [by apply Hk|]. intros e h'. by apply wrote_cons.
  - intros ->. wp_step. replace (length (u8 v :: bs)) with (length (u8 v :: bs)) by done.
    destruct (wrote_fail p ls h h1 pre (u8 v :: []) (u8 v :: bs) (S need) c) as (? & d' & Hm & Hl & H); [done..|cbn; lia|].
    split; [done|]. exists d'. split; [done|]. rewrite !length_app in *. split; [done|]. exact H.
Qed.
Lemma wp_put_last p ls h pre m rest c v : at_pos h p ls pre (m :: rest) c ->
  wp (put_octet c v;; mret ERR_OK) h (wrote p ls h pre (m :: rest) [u8 v] 1).
Proof.
  intros Hc. wp_step. eapply wp_put_octet; [exact Hc|]. intros h1 Hc1 Hr. wp_step. by eapply wrote_last.
Qed.

(** ** The encodings *)
Fixpoint be_octets (n : nat) (v : Z) : list Z :=
  match n with O => [] | S n => u8 (Z.shiftr v (8 * Z.of_nat n)) :: be_octets n v end.
Definition length_octets (n : Z) : list Z :=
  if n <? 0x80 then [n] else if n <? 0x100 then [0x81; n] else 0x82 :: be_octets 2 n.
Definition u32_octets (v : Z) : list Z :=
  let n := snmp_asn1_enc_u32t_cnt v in if n =? 5 then 0 :: be_octets 4 v else be_octets (Z.to_nat n) v.
Definition s32_octets (v : Z) : list Z := be_octets (Z.to_nat (snmp_asn1_enc_s32t_cnt v)) v.

Lemma be_octets_length n v : length (be_octets n v) = n.
Proof. induction n; cbn; congruence. Qed.

Lemma enc_octets_next n c v : (S n < 4)%nat -> enc_octets (S (S n)) c v
  = (put_octet c (Z.shiftr v (8 * Z.of_nat (S n)));; next_octet c (mret ERR_ARG) (fun c => enc_octets (S n) c v)).
Proof.
  intros Hn. change (enc_octets (S (S n)) c v)
    with ((if 32 <=? 8 * Z.of_nat (S n) then halt UB else put_octet c (Z.shiftr v (8 * Z.of_nat (S n))));;
          next_octet c (mret ERR_ARG) (fun c => enc_octets (S n) c v)).
  destruct (Z.leb_spec 32 (8 * Z.of_nat (S n))); [lia|done].
Qed.

Lemma wp_enc_octets p ls n v h pre rest c : at_pos h p ls pre rest c -> rest <> [] -> (n < 4)%nat ->
  wp (enc_octets (S n) c v) h (wrote p ls h pre rest (be_octets (S n) v) (S n)).
Proof.
  revert h pre rest c. induction n as [|n IH]; intros h pre rest c Hc Hne Hn; (destruct rest as [|m rest]; [done|]).
  - cbn. change (Z.shiftr v 0) with v. by apply wp_put_last.
  - change (be_octets (S (S n)) v) with (u8 (Z.shiftr v (8 * Z.of_nat (S n))) :: be_octets (S n) v).
    rewrite enc_octets_next by lia. apply wp_put_next; [done|lia|]. intros. by apply IH; [| |lia].
Qed.

(** The result of an encoding function called at [ofs]: [bs] replaces what was
    there if [need] octets fit, else ERR_ARG; nothing in front of [ofs] changes. *)
Definition encoded (p : option loc) (ls : list loc) (h : heap) (d : list Z) (ofs : nat) (bs : list Z)
    (need : nat) (e : Z) (h' : heap) : Prop :=
  rewrote ls h h' /\ exists d', message h' p ls d' /\
    length d' = length d /\ take ofs d' = take ofs d /\
    if (ofs + need <=? length d)%nat then e = ERR_OK /\ d' = splice ofs bs d else e = ERR_ARG.

Lemma wp_encode p ls h d ofs bs need k : message h p ls d -> 0 <= ofs -> (0 < need)%nat ->
  (forall c pre rest, at_pos h p ls pre rest c -> rest <> [] -> wp (k c) h (wrote p ls h pre rest bs need)) ->
  wp (at_octet p ofs (mret ERR_ARG) k) h (encoded p ls h d (Z.to_nat ofs) bs need).
Proof.
  intros Hm Hofs Hn Hk. eapply wp_at_octet; [exact Hm|done|..].
  - intros c Hlt Hc. eapply wp_mono.
    { eapply Hk; [exact Hc|]. intros E%(f_equal length). rewrite length_drop in E. cbn in E. lia. }
    intros e h' (Hr & d' & Hm' & Hl & Ht & H). split; [done|]. exists d'. split; [done|].
    rewrite take_drop in Hl. split; [done|]. rewrite length_take, Nat.min_l in Ht by lia. split; [done|].
    rewrite length_drop in H.
    replace (Z.to_nat ofs + need <=? length d)%nat with (need <=? length d - Z.to_nat ofs)%nat
      by (destruct (Nat.leb_spec need (length d - Z.to_nat ofs)), (Nat.leb_spec (Z.to_nat ofs + need) (length d)); lia || done).
    destruct (need <=? _)%nat; [|done]. destruct H as [-> ->]. split; [done|]. unfold splice. by rewrite drop_drop.
  - intros Hge. wp_step. split; [reflexivity|]. exists d. split; [done|]. split; [done|]. split; [done|].
    by rewrite (proj2 (Nat.leb_gt _ _)) by lia.
Qed.

(** ** Lengths and integers *)
Lemma enc_length_spec p ls h d ofs n : message h p ls d -> 0 <= ofs -> is_u16 n ->
  wp (snmp_asn1_enc_length p ofs n) h
    (encoded p ls h d (Z.to_nat ofs) (length_octets n) (length (length_octets n))).
Proof.
  intros Hm Hofs Hn. unfold snmp_asn1_enc_length, length_octets.
  apply wp_encode; [done|done|destruct (n <? 0x80), (n <? 0x100); cbn; lia|].
  intros c pre rest Hc Hne. destruct rest as [|m rest]; [done|].
  destruct (Z.ltb_spec n 0x80).
  { pose proof (wp_put_last p ls h pre m rest c n Hc) as H0. by rewrite (u8_small n) in H0 by (unfold is_u8, is_u16 in *; lia). }
  destruct (Z.ltb_spec n 0x100).
  - apply (wp_put_next p ls h pre m rest c 0x81); [done|cbn; lia|]. intros h1 c1 Hne1 Hc1.
    destruct rest as [|m1 rest]; [done|].
    pose proof (wp_put_last p ls h1 _ m1 rest c1 n Hc1) as H1. by rewrite (u8_small n) in H1 by (unfold is_u8, is_u16 in *; lia).
  - apply (wp_put_next p ls h pre m rest c 0x82); [done|cbn; lia|]. intros h1 c1 Hne1 Hc1.
    destruct rest as [|m1 rest]; [done|].
    apply (wp_put_next p ls h1 _ m1 rest c1 (Z.shiftr n 8)); [done|cbn; lia|]. intros h2 c2 Hne2 Hc2.
    destruct rest as [|m2 rest]; [done|]. by apply wp_put_last.
Qed.

Lemma enc_s32t_spec p ls h d ofs v : message h p ls d -> 0 <= ofs ->
  let n := snmp_asn1_enc_s32t_cnt v in
  wp (snmp_asn1_enc_s32t p ofs n v) h (encoded p ls h d (Z.to_nat ofs) (s32_octets v) (Z.to_nat n)).
Proof.
  intros Hm Hofs n. unfold snmp_asn1_enc_s32t, s32_octets. fold n.
  assert (exists k, Z.to_nat n = S k /\ (k < 4)%nat) as (k & -> & Hk).
  { exists (pred (Z.to_nat n)). unfold n, snmp_asn1_enc_s32t_cnt. cbv zeta. repeat case_match; cbn; lia. }
  apply wp_encode; [done|done|lia|]. intros. by apply wp_enc_octets.
Qed.
Lemma enc_u32t_spec p ls h d ofs v : message h p ls d -> 0 <= ofs ->
  let n := snmp_asn1_enc_u32t_cnt v in
  wp (snmp_asn1_enc_u32t p ofs n v) h (encoded p ls h d (Z.to_nat ofs) (u32_octets v) (Z.to_nat n)).
Proof.
  intros Hm Hofs n. unfold snmp_asn1_enc_u32t, u32_octets. fold n. cbv zeta.
  assert (n = 5 \/ n <> 5 /\ exists k, Z.to_nat n = S k /\ (k < 4)%nat) as [-> | (Hne & k & -> & Hk)].
  { unfold n, snmp_asn1_enc_u32t_cnt. repeat case_match; auto; right; (split; [lia|]).
    all: exists (pred (Z.to_nat n)); unfold n, snmp_asn1_enc_u32t_cnt; by repeat case_match; cbn; lia. }
  - change (5 =? 5) with true. cbv iota. apply wp_encode; [done|done|lia|]. intros c pre rest Hc Hr.
    destruct rest as [|m rest]; [done|].
    apply (wp_put_next p ls h pre m rest c 0); [done|lia|]. intros. by apply wp_enc_octets; [| |lia].
  - rewrite (proj2 (Z.eqb_neq n 5)) by done. apply wp_encode; [done|done|lia|]. intros. by apply wp_enc_octets.
Qed.

(** ** Reading *)

(** Octets from the cursor on. *)
Lemma wp_next_read {A} h p ls pre m m' rest c (fail : M heap A) k Q :
  at_pos h p ls pre (m :: m' :: rest) c ->
  (forall c', at_pos h p ls (pre ++ [m]) (m' :: rest) c' -> wp (k c') h Q) ->
  wp (next_octet c fail k) h Q.
Proof. intros Hc Hk. eapply wp_next_octet; [exact Hc| |done]. intros. by apply Hk. Qed.

(** The number that big-endian octets make, after [x]. *)
Definition be_value (x : Z) (bs : list Z) : Z := fold_left (fun a b => 256 * a + b) bs x.

Lemma u32_step x m : is_u8 m -> Z.lor (u32 (256 * x)) m = u32 (256 * x + m).
Proof.
  intros Hm. unfold u32, is_u8 in *.
  replace ((256 * x) mod 2 ^ 32) with ((x mod 2 ^ 24) * 2 ^ 8) by (Z.div_mod_to_equations; lia).
  rewrite lor_add_low by lia. Z.div_mod_to_equations. lia.
Qed.
Lemma u32_shift y : u32 (Z.shiftl (u32 y) 8) = u32 (256 * y).
Proof. rewrite shiftl_mul by lia. unfold u32. Z.div_mod_to_equations. lia. Qed.

Lemma dec_u32_loop_spec h p ls n bs tl pre c x : at_pos h p ls pre (bs ++ tl) c ->
  length bs = S n -> bytes_ok bs ->
  wp (dec_u32_loop (S n) c (u32 (256 * x))) h (fun r h' => h' = h /\ r = (ERR_OK, u32 (be_value x bs))).
Proof.
  revert pre bs c x. induction n as [|n IH]; intros pre bs c x Hc Hl Hok;
    (destruct bs as [|m bs]; [done|]); apply bytes_ok_cons in Hok as [Hm Hok]; cbn [app] in Hc.
  - destruct bs; [|done]. cbn [dec_u32_loop]. wp_step. eapply wp_octet; [exact Hc|]. wp_step.
    split; [done|]. cbn. by rewrite u32_step.
  - destruct bs as [|m1 bs]; [done|]. change (dec_u32_loop (S (S n)) c (u32 (256 * x)))
      with (m ← octet c; next_octet c (mret (ERR_ARG, u32 (Z.shiftl (Z.lor (u32 (256 * x)) m) 8)))
              (fun c => dec_u32_loop (S n) c (u32 (Z.shiftl (Z.lor (u32 (256 * x)) m) 8)))).
    wp_step. eapply wp_octet; [exact Hc|]. eapply wp_next_read; [exact Hc|]. intros c' Hc'.
    rewrite u32_step, u32_shift by done. apply (IH (pre ++ [m]) (m1 :: bs) c'); [exact Hc'|by injection Hl as <-|done].
Qed.

Lemma s32_step x m : is_u8 m -> Z.lor (s32 (256 * x)) m = s32 (256 * x + m).
Proof.
  intros Hm. unfold s32, is_u8 in *.
  replace ((256 * x + 2 ^ 31) mod 2 ^ 32 - 2 ^ 31) with (((x + 2 ^ 23) mod 2 ^ 24 - 2 ^ 23) * 2 ^ 8)
    by (Z.div_mod_to_equations; lia).
  rewrite lor_add_low by lia. Z.div_mod_to_equations. lia.
Qed.
Lemma s32_shift y : s32 (Z.shiftl (s32 y) 8) = s32 (256 * y).
Proof. rewrite shiftl_mul by lia. unfold s32. Z.div_mod_to_equations. lia. Qed.
Lemma lsb_and_ones y m : is_u8 m -> lsb_and (256 * y + 255) m = 256 * y + m.
Proof.
  intros Hm. unfold lsb_and, is_u8 in *. rewrite Z.land_lor_distr_r.
  change (-256) with (Z.lnot (Z.ones 8)). rewrite <- Z.ldiff_land, Z.ldiff_ones_r by lia.
  rewrite shiftr_div, shiftl_mul by lia.
  replace ((256 * y + 255) / 2 ^ 8) with y by (Z.div_mod_to_equations; lia).
  assert (E : Z.land (256 * y + 255) m = m).
  { rewrite <- (Z.mod_small m (2 ^ 8)) at 1 by lia. rewrite <- Z.land_ones, (Z.land_comm m), Z.land_assoc by lia.
    rewrite land_ones_mod by lia. replace ((256 * y + 255) mod 2 ^ 8) with (Z.ones 8)
      by (change (Z.ones 8) with 255; Z.div_mod_to_equations; lia).
    rewrite Z.land_comm, land_ones_mod by lia. apply Z.mod_small. lia. }
  rewrite E, lor_add_low by lia. lia.
Qed.
Lemma lsb_and_step x m : is_u8 m -> lsb_and (Z.lor (s32 (256 * x)) 255) m = s32 (256 * x + m).
Proof.
  intros Hm. rewrite s32_step by (unfold is_u8; lia).
  assert (exists y, s32 (256 * x + 255) = 256 * y + 255 /\ s32 (256 * x + m) = 256 * y + m) as (y & -> & ->).
  { exists ((x + 2 ^ 23) mod 2 ^ 24 - 2 ^ 23). unfold s32, is_u8 in *. Z.div_mod_to_equations. lia. }
  by apply lsb_and_ones.
Qed.

(** What the loop of snmp_asn1_dec_s32t keeps for the [x] read so far. *)
Definition s32_acc (sign : bool) (x : Z) : Z :=
  if sign then Z.lor (s32 (256 * x)) 255 else s32 (256 * x).
Lemma dec_s32_loop_spec h p ls n bs tl pre c x sign : at_pos h p ls pre (bs ++ tl) c ->
  length bs = S n -> bytes_ok bs ->
  wp (dec_s32_loop (S n) c sign (s32_acc sign x)) h
    (fun r h' => h' = h /\ r = (ERR_OK, s32 (be_value x bs))).
Proof.
  revert pre bs c x. induction n as [|n IH]; intros pre bs c x Hc Hl Hok;
    (destruct bs as [|m bs]; [done|]); apply bytes_ok_cons in Hok as [Hm Hok]; cbn [app] in Hc.
  - destruct bs; [|done]. cbn [dec_s32_loop]. wp_step. eapply wp_octet; [exact Hc|]. wp_step.
    split; [done|]. cbn. destruct sign; cbn; by rewrite ?lsb_and_step, ?s32_step.
  - destruct bs as [|m1 bs]; [done|]. change (dec_s32_loop (S (S n)) c sign (s32_acc sign x))
      with (m ← octet c;
            let v := if sign then Z.lor (s32 (Z.shiftl (lsb_and (s32_acc sign x) m) 8)) 255
                     else s32 (Z.shiftl (Z.lor (s32_acc sign x) m) 8) in
            next_octet c (mret (ERR_ARG, v)) (fun c => dec_s32_loop (S n) c sign v)).
    wp_step. eapply wp_octet; [exact Hc|]. cbv zeta. eapply wp_next_read; [exact Hc|]. intros c' Hc'.
    replace (if sign then _ else _) with (s32_acc sign (256 * x + m))
      by (unfold s32_acc; destruct sign;
          [by rewrite lsb_and_step, s32_shift | by rewrite s32_step, s32_shift]).
    apply (IH (pre ++ [m]) (m1 :: bs) c'); [exact Hc'|by injection Hl as <-|done].
Qed.

(** The number that a list of octets stands for in two's complement. *)
Definition s32_value (bs : list Z) : Z :=
  be_value (if default 0 (head bs) <? 0x80 then 0 else -1) bs.

Lemma sign_bit m : is_u8 m -> (Z.land m 0x80 =? 0) = (m <? 0x80).
Proof.
  intros Hm. change 0x80 with (Z.shiftl (Z.ones 1) 7) at 1. rewrite land_shifted_mask by lia. unfold is_u8 in *.
  destruct (Z.ltb_spec m 0x80); [apply Z.eqb_eq | apply Z.eqb_neq]; Z.div_mod_to_equations; lia.
Qed.

(** [dec] reads the octets [bs] in a message, however that is cut into
    buffers, as [r], and changes nothing. *)
Definition reads_back {A} (dec : option loc -> Z -> M heap A) (bs : list Z) (r : A) : Prop :=
  forall h p ls d tl ofs, message h p ls d -> 0 <= ofs -> drop (Z.to_nat ofs) d = bs ++ tl ->
  dec p ofs h = Done (r, h).

Lemma reads_at {A} p ofs (fail : M heap A) k h ls d bs tl r :
  message h p ls d -> 0 <= ofs -> drop (Z.to_nat ofs) d = bs ++ tl -> bs <> [] ->
  (forall c, at_pos h p ls (take (Z.to_nat ofs) d) (bs ++ tl) c -> wp (k c) h (fun r' h' => h' = h /\ r' = r)) ->
  at_octet p ofs fail k h = Done (r, h).
Proof.
  intros Hm Hofs Hd Hne Hk. assert (Hl : (Z.to_nat ofs < length d)%nat).
  { apply (f_equal length) in Hd. rewrite length_drop, length_app in Hd. destruct bs; [done|]. cbn in Hd. lia. }
  assert (H : wp (at_octet p ofs fail k) h (fun r' h' => h' = h /\ r' = r)).
  { eapply wp_at_octet; [exact Hm|done| |lia]. intros c _ Hc. apply Hk. by rewrite <- Hd. }
  by apply wp_run in H as (? & ? & E & -> & ->).
Qed.

Lemma dec_s32t_reads bs v0 : bytes_ok bs -> (0 < length bs < 5)%nat ->
  reads_back (fun p ofs => snmp_asn1_dec_s32t p ofs (Z.of_nat (length bs)) v0) bs (ERR_OK, s32 (s32_value bs)).
Proof.
  intros Hok Hl h p ls d tl ofs Hm Hofs Hd.
  eapply (reads_at _ _ _ _ _ _ _ bs tl); [exact Hm|done|done|by destruct bs; cbn in Hl; [lia|]|].
  intros c Hc. replace ((0 <? Z.of_nat (length bs)) && (Z.of_nat (length bs) <? 5)) with true
    by (symmetry; apply andb_true_iff; split; apply Z.ltb_lt; lia).
  destruct bs as [|m bs]; [cbn in Hl; lia|]. wp_step. eapply wp_octet; [exact Hc|]. cbv zeta.
  rewrite sign_bit by by apply bytes_ok_cons in Hok as [? _]. rewrite Nat2Z.id. unfold s32_value. cbn [head default].
  replace (if negb _ then -1 else 0) with (s32_acc (negb (m <? 128)) (if m <? 128 then 0 else -1)) by by destruct (m <? 128).
  by eapply dec_s32_loop_spec.
Qed.

Lemma dec_u32t_reads m bs v0 : bytes_ok (m :: bs) -> m < 0x80 -> (length bs < 5)%nat ->
  reads_back (fun p ofs => snmp_asn1_dec_u32t p ofs (Z.of_nat (length (m :: bs))) v0) (m :: bs)
    (ERR_OK, u32 (be_value 0 (m :: bs))).
Proof.
  intros Hok Hm1 Hl h p ls d tl ofs Hm Hofs Hd.
  eapply (reads_at _ _ _ _ _ _ _ (m :: bs) tl); [exact Hm|done|done|done|].
  intros c Hc. replace ((0 <? Z.of_nat (length (m :: bs))) && (Z.of_nat (length (m :: bs)) <? 6)) with true
    by (symmetry; apply andb_true_iff; cbn [length]; split; apply Z.ltb_lt; lia).
  pose proof Hok as [Hu Hok']%bytes_ok_cons.
  wp_step. eapply wp_octet; [exact Hc|]. rewrite sign_bit, (proj2 (Z.ltb_lt m 0x80)) by done. cbn [negb].
  destruct (Z.ltb_spec 1 (Z.of_nat (length (m :: bs)))) as [H1|H1]; cbn [length] in H1.
  - destruct bs as [|m1 bs]; [cbn in H1; lia|]. destruct (Z.eqb_spec m 0) as [->|Hne]; cbn [andb].
    + eapply wp_next_read; [exact Hc|]. intros c' Hc'.
      replace (Z.to_nat (Z.of_nat (length (0 :: m1 :: bs)) - 1)) with (S (length bs)) by (cbn [length]; lia).
      by apply (dec_u32_loop_spec h p ls _ (m1 :: bs) tl _ c' 0 Hc').
    + rewrite Nat2Z.id. by apply (dec_u32_loop_spec h p ls _ (m :: m1 :: bs) tl _ c 0 Hc).
  - cbn [andb]. rewrite Nat2Z.id. by apply (dec_u32_loop_spec h p ls _ (m :: bs) tl _ c 0 Hc).
Qed.

Lemma be_value_octets n x v : be_value x (be_octets n v) = x * 256 ^ Z.of_nat n + v mod 256 ^ Z.of_nat n.
Proof.
  revert x. induction n as [|n IH]; intros x; [cbn; rewrite Z.mod_1_r; lia|].
  cbn [be_octets]. change (be_value x (?a :: ?l)) with (be_value (256 * x + a) l). rewrite IH.
  rewrite shiftr_div by lia. unfold u8. rewrite Z.pow_mul_r by lia. change (2 ^ 8) with 256.
  rewrite Nat2Z.inj_succ, Z.pow_succ_r by lia.
  rewrite (Z.mul_comm 256 (256 ^ Z.of_nat n)), Z.rem_mul_r by lia. lia.
Qed.
Lemma be_octets_ok n v : bytes_ok (be_octets n v).
Proof. induction n as [|n IH]; [constructor|]. cbn. apply bytes_ok_cons. auto using u8_range. Qed.

Lemma s32_cnt v : - 2 ^ 31 <= v < 2 ^ 31 -> let n := snmp_asn1_enc_s32t_cnt v in
  n = 1 /\ - 2 ^ 7 <= v < 2 ^ 7 \/ n = 2 /\ - 2 ^ 15 <= v < 2 ^ 15 \/
  n = 3 /\ - 2 ^ 23 <= v < 2 ^ 23 \/ n = 4.
Proof.
  intros Hv n. unfold n, snmp_asn1_enc_s32t_cnt, Z.lnot. cbv zeta.
  destruct (Z.ltb_spec v 0);
    repeat match goal with |- context [?a <? ?b] => destruct (Z.ltb_spec a b) end; lia.
Qed.
Lemma be_value_s32 n v : 0 <= n -> - 2 ^ (8 * n + 7) <= v < 2 ^ (8 * n + 7) ->
  (if u8 (v / 2 ^ (8 * n)) <? 0x80 then 0 else -1) * 2 ^ (8 * n + 8) + v mod 2 ^ (8 * n + 8) = v.
Proof.
  intros Hn Hv. replace (2 ^ (8 * n + 7)) with (128 * 2 ^ (8 * n)) in Hv by (rewrite Z.pow_add_r by lia; lia).
  replace (2 ^ (8 * n + 8)) with (256 * 2 ^ (8 * n)) by (rewrite Z.pow_add_r by lia; lia).
  assert (0 < 2 ^ (8 * n)) by lia. set (w := 2 ^ (8 * n)) in *. clearbody w. unfold u8.
  destruct (Z.ltb_spec v 0) as [Hneg|Hpos].
  - assert (-128 <= v / w < 0) by (Z.div_mod_to_equations; nia).
    destruct (Z.ltb_spec ((v / w) mod 2 ^ 8) 0x80); [Z.div_mod_to_equations; lia|].
    rewrite <- (Z.mod_unique_pos v (256 * w) (-1) (v + 256 * w)) by lia. lia.
  - assert (0 <= v / w < 128) by (Z.div_mod_to_equations; nia).
    destruct (Z.ltb_spec ((v / w) mod 2 ^ 8) 0x80); [|Z.div_mod_to_equations; lia].
    rewrite Z.mod_small by lia. lia.
Qed.
Lemma s32_octets_value v : - 2 ^ 31 <= v < 2 ^ 31 -> s32_value (s32_octets v) = v.
Proof.
  intros Hv. assert (exists n, Z.to_nat (snmp_asn1_enc_s32t_cnt v) = S n
    /\ - 2 ^ (8 * Z.of_nat n + 7) <= v < 2 ^ (8 * Z.of_nat n + 7)) as (n & E & Hr).
  { destruct (s32_cnt v Hv) as [(-> & ?)|[(-> & ?)|[(-> & ?)| ->]]];
      [exists 0%nat|exists 1%nat|exists 2%nat|exists 3%nat]; split; done || (cbn; lia). }
  unfold s32_octets, s32_value. rewrite E, be_value_octets. cbn [be_octets head default].
  rewrite shiftr_div by lia.
  replace (256 ^ Z.of_nat (S n)) with (2 ^ (8 * Z.of_nat n + 8))
    by (change 256 with (2 ^ 8); rewrite <- Z.pow_mul_r by lia; f_equal; lia).
  unfold Datatypes.id. apply be_value_s32; [lia|done].
Qed.
Lemma u32_octets_value v : is_u32 v ->
  bytes_ok (u32_octets v) /\ u32 (be_value 0 (u32_octets v)) = v
  /\ length (u32_octets v) = Z.to_nat (snmp_asn1_enc_u32t_cnt v)
  /\ exists m bs, u32_octets v = m :: bs /\ m < 0x80 /\ (length bs < 5)%nat.
Proof.
  intros Hv. unfold u32_octets, snmp_asn1_enc_u32t_cnt, is_u32 in *.
  assert (Hbe : forall n, v < 256 ^ Z.of_nat n -> u32 (be_value 0 (be_octets n v)) = v).
  { intros n Hn. rewrite be_value_octets, Z.mod_small by lia. apply u32_small. unfold is_u32. lia. }
  repeat match goal with |- context [?a <? ?b] => destruct (Z.ltb_spec a b) end; cbn [Z.eqb Pos.eqb].
  all: split; [first [apply be_octets_ok | apply bytes_ok_cons; split; [unfold is_u8; lia|apply be_octets_ok]]|].
  all: split; [change (be_value 0 (0 :: be_octets 4 v)) with (be_value 0 (be_octets 4 v)) || idtac; apply Hbe;
    match goal with |- _ < ?x => let y := eval vm_compute in x in change x with y end; lia|].
  all: split; [by cbn|].
  all: eexists _, _; split; [reflexivity|]; split; [|rewrite ?be_octets_length; cbn; lia].
  all: cbn; rewrite ?shiftr_div by lia; unfold u8; Z.div_mod_to_equations; lia.
Qed.

Lemma dec_length_reads n u0 l0 : is_u16 n ->
  reads_back (fun p ofs => snmp_asn1_dec_length p ofs u0 l0) (length_octets n)
    (ERR_OK, snmp_asn1_enc_length_cnt n, n).
Proof.
  intros Hn h p ls d tl ofs Hm Hofs Hd. unfold is_u16 in Hn.
  eapply (reads_at _ _ _ _ _ _ _ (length_octets n) tl); [exact Hm|done|done| |].
  { unfold length_octets. by destruct (n <? 0x80), (n <? 0x100). }
  unfold length_octets, snmp_asn1_enc_length_cnt. intros c Hc.
  destruct (Z.ltb_spec n 0x80) as [H1|H1]; [|destruct (Z.ltb_spec n 0x100) as [H2|H2]].
  - wp_step. eapply wp_octet; [exact Hc|]. rewrite (proj2 (Z.ltb_lt n 0x80)) by done. by wp_step.
  - wp_step. eapply wp_octet; [exact Hc|]. cbn [Z.ltb Z.eqb Z.compare Pos.compare Pos.compare_cont Pos.eqb].
    eapply wp_next_read; [exact Hc|]. intros c' Hc'. wp_step. eapply wp_octet; [exact Hc'|]. by wp_step.
  - wp_step. eapply wp_octet; [exact Hc|]. cbn [Z.ltb Z.eqb Z.compare Pos.compare Pos.compare_cont Pos.eqb].
    cbn [dec_length_loop]. eapply wp_next_read; [exact Hc|]. intros c1 Hc1. wp_step. eapply wp_octet; [exact Hc1|].
    eapply wp_next_read; [exact Hc1|]. intros c2 Hc2. wp_step. eapply wp_octet; [exact Hc2|]. wp_step.
    split; [done|]. do 2 f_equal. change (8 * Z.of_nat 1) with 8. change (8 * Z.of_nat 0) with 0.
    rewrite Z.shiftr_0_r, shiftr_div, shiftl_mul by lia. rewrite lor_add_low by (pose proof (u8_range n); unfold is_u8 in *; lia).
    unfold u8. Z.div_mod_to_equations. lia.
Qed.

(** ** Object identifiers *)

(** The groups of seven bits of a sub-identifier, the leading zeros left out. *)
Fixpoint groups (n : nat) (tail : bool) (sub_id : Z) : list Z :=
  match n with
  | O => [Z.land (u8 sub_id) 0x7F]
  | S n' =>
      let code := u8 (Z.shiftr sub_id (7 * Z.of_nat n)) in
      if negb (code =? 0) || tail then Z.lor code 0x80 :: groups n' true sub_id else groups n' tail sub_id
  end.
Definition sub_octets (sub_id : Z) : list Z := groups 4 false sub_id.
Definition oid_octets (ids : list Z) : list Z :=
  match ids with
  | id0 :: id1 :: subs => (if (id0 =? 1) && (id1 =? 3) then 0x2b else id0 * 40 + id1) :: concat (map sub_octets subs)
  | _ => []
  end.

(** The identifiers that one octet holds the first two arcs of. *)
Record oid_ok (ids : list Z) : Prop := {
  oid_arcs : exists id0 id1 subs, ids = id0 :: id1 :: subs /\
    (0 <= id0 <= 1 /\ 0 <= id1 < 40 \/ id0 = 2 /\ 0 <= id1 < 176) /\ Forall (fun s => 0 <= s < 2 ^ 31) subs;
  oid_short : (length ids <= 32)%nat
}.

Lemma u8_lor_80 v : u8 (Z.lor (u8 v) 0x80) = Z.lor (u8 v) 0x80.
Proof.
  apply u8_small. pose proof (u8_range v) as Hv. unfold is_u8 in *. split; [apply Z.lor_nonneg; lia|].
  apply (Z.log2_lt_cancel _ 256). rewrite Z.log2_lor by lia.
  assert (Z.log2 (u8 v) <= Z.log2 255) by (apply Z.log2_le_mono; lia). cbn in *. lia.
Qed.
Lemma u8_land_7f v : u8 (Z.land (u8 v) 0x7F) = Z.land (u8 v) 0x7F.
Proof. apply u8_small. change 0x7F with (Z.ones 7). rewrite land_ones_mod by lia. unfold is_u8. Z.div_mod_to_equations. lia. Qed.

Lemma groups_pos n tail s : (0 < length (groups n tail s))%nat.
Proof. revert tail. induction n as [|n IH]; intros tail; cbn; [lia|]. case_match; cbn; [lia|apply IH]. Qed.

Lemma wp_enc_groups p ls n tail s bs need k h pre rest c :
  at_pos h p ls pre rest c -> rest <> [] ->
  (forall h1 pre1 rest1 c1, at_pos h1 p ls pre1 rest1 c1 -> rest1 <> [] ->
     wp (k c1) h1 (wrote p ls h1 pre1 rest1 (Z.land (u8 s) 0x7F :: bs) (S need))) ->
  wp (enc_groups n c s tail k) h (wrote p ls h pre rest (groups n tail s ++ bs) (length (groups n tail s) + need)).
Proof.
  intros Hc Hne Hk. revert tail h pre rest c Hc Hne. induction n as [|n IH]; intros tail h pre rest c Hc Hne.
  { by apply Hk. }
  cbn [enc_groups groups]. cbv zeta. destruct (negb _ || tail); [|by apply IH].
  destruct rest as [|m rest]; [done|]. rewrite <- u8_lor_80 at 2. cbn [app length Nat.add].
  apply wp_put_next; [done|pose proof (groups_pos n true s); lia|]. intros. by apply IH.
Qed.

Lemma wp_enc_oid_loop p ls subs h pre rest c : at_pos h p ls pre rest c -> rest <> [] -> subs <> [] ->
  let bs := concat (map sub_octets subs) in
  wp (enc_oid_loop (length subs) c subs) h (wrote p ls h pre rest bs (length bs)).
Proof.
  revert h pre rest c. induction subs as [|s subs IH]; intros h pre rest c Hc Hne Hs bs; [done|].
  unfold bs. cbn [map concat length enc_oid_loop]. wp_step. eapply wp_deref; [reflexivity|].
  rewrite length_app. apply (wp_enc_groups _ _ 4 false s); [done|done|]. intros h1 pre1 rest1 c1 Hc1 Hne1.
  destruct rest1 as [|m1 rest1]; [done|]. rewrite <- u8_land_7f at 2.
  destruct subs as [|s' subs]; [by apply wp_put_last|]. cbn [length tail].
  apply wp_put_next; [done|cbn [map concat]; rewrite length_app; pose proof (groups_pos 4 false s'); unfold sub_octets; lia|].
  intros. by apply IH.
Qed.

Lemma enc_oid_spec p ls h d ofs ids : message h p ls d -> 0 <= ofs -> oid_ok ids ->
  wp (snmp_asn1_enc_oid p ofs (Z.of_nat (length ids)) ids) h
    (encoded p ls h d (Z.to_nat ofs) (oid_octets ids) (max 2 (length (oid_octets ids)))).
Proof.
  intros Hm Hofs [(id0 & id1 & subs & -> & Ha & _) Hl]. unfold snmp_asn1_enc_oid. cbn [oid_octets].
  apply wp_encode; [done|done|lia|]. intros c pre rest Hc Hne. destruct rest as [|m rest]; [done|].
  rewrite (proj2 (Z.ltb_lt 1 _)) by (cbn [length]; lia). cbn [nth_error deref]. do 2 (wp_step; apply wp_ret).
  wp_step. apply (wp_intro _ _ (if (id0 =? 1) && (id1 =? 3) then 43 else id0 * 40 + id1) h).
  { unfold oid_prefix. destruct (_ && _); [done|]. rewrite bool_decide_eq_true_2; [done|].
    rewrite !s32_small by lia. done. }
  set (v := if _ && _ then _ else _). assert (Hv : u8 v = v).
  { apply u8_small. unfold is_u8, v. destruct (_ && _); lia. }
  replace (max 2 (length (v :: concat (map sub_octets subs)))) with (S (max 1 (length (concat (map sub_octets subs)))))
    by (cbn [length]; lia).
  set (l := concat (map sub_octets subs)).
  replace (wrote p ls h pre (m :: rest) (v :: l)) with (wrote p ls h pre (m :: rest) (u8 v :: l)) by by rewrite Hv.
  apply wp_put_next; [done|lia|]. rewrite Hv. intros h1 c1 Hne1 Hc1.
  replace (Z.to_nat (Z.of_nat (length (id0 :: id1 :: subs)) - 2)) with (length subs) by (cbn [length]; lia).
  unfold l. cbn [drop]. destruct subs as [|s subs].
  - cbn. split; [reflexivity|]. exists ((pre ++ [v]) ++ rest). split; [by eapply at_pos_message|].
    split; [done|]. split; [apply take_app_length|]. destruct rest; [done|]. done.
  - rewrite Nat.max_r; [by apply wp_enc_oid_loop|]. cbn [map concat]. rewrite length_app.
    pose proof (groups_pos 4 false s). unfold sub_octets. lia.
Qed.

(** *** Reading them *)
Lemma code_bits v : Z.land (Z.lor (u8 v) 0x80) (Z.lnot 0x80) = v mod 128 /\ 0x80 <= Z.lor (u8 v) 0x80 < 256.
Proof.
  assert (H : forallb (fun x => (Z.land (Z.lor x 0x80) (Z.lnot 0x80) =? x mod 128)
      && (0x80 <=? Z.lor x 0x80) && (Z.lor x 0x80 <? 256)) (map Z.of_nat (seq 0 256)) = true)
    by (vm_compute; reflexivity).
  rewrite forallb_forall in H. pose proof (u8_range v) as Hv. unfold is_u8 in Hv. specialize (H (u8 v)).
  rewrite !andb_true_iff, Z.eqb_eq, Z.leb_le, Z.ltb_lt in H. destruct H as [[-> H1] H2].
  - apply in_map_iff. exists (Z.to_nat (u8 v)). rewrite in_seq. lia.
  - split; [|lia]. unfold u8. Z.div_mod_to_equations. lia.
Qed.
Lemma last_octet s : Z.land (u8 s) 0x7F = s mod 128.
Proof. change 0x7F with (Z.ones 7). rewrite land_ones_mod by lia. unfold u8. Z.div_mod_to_equations. lia. Qed.
Lemma sign_bit_set m : 0x80 <= m < 256 -> (Z.land m 0x80 =? 0) = false.
Proof. intros Hm. rewrite sign_bit by (unfold is_u8; lia). apply Z.ltb_ge. lia. Qed.
Lemma sign_bit_clear m : 0 <= m < 0x80 -> (Z.land m 0x80 =? 0) = true.
Proof. intros Hm. rewrite sign_bit by (unfold is_u8; lia). apply Z.ltb_lt. lia. Qed.

Lemma groups_length n s : length (groups n true s) = S n.
Proof. induction n as [|n IH]; cbn; [done|]. rewrite orb_true_r. cbn. by rewrite IH. Qed.
Lemma groups_cons n s : groups (S n) true s = Z.lor (u8 (Z.shiftr s (7 * Z.of_nat (S n)))) 0x80 :: groups n true s.
Proof. cbn [groups]. cbv zeta. by rewrite orb_true_r. Qed.

(** Without the leading zeros there is one octet, or the first is not zero. *)
Lemma groups_shape n s : 0 <= s -> s / 2 ^ (7 * Z.of_nat (S n)) = 0 ->
  s < 128 /\ groups n false s = [s]
  \/ exists j, (j < n)%nat /\ groups n false s = groups (S j) true s /\ s / 2 ^ (7 * Z.of_nat (S (S j))) = 0 /\
       s / 2 ^ (7 * Z.of_nat (S j)) <> 0.
Proof.
  intros Hs. induction n as [|n IH]; intros H.
  { left. change (2 ^ (7 * Z.of_nat 1)) with 128 in H. cbn. rewrite last_octet.
    split; [|f_equal]; Z.div_mod_to_equations; lia. }
  assert (Hlt : 0 <= s / 2 ^ (7 * Z.of_nat (S n)) < 128).
  { replace (7 * Z.of_nat (S (S n))) with (7 * Z.of_nat (S n) + 7) in H by lia.
    rewrite Z.pow_add_r, <- Z.div_div in H by lia. split; [apply Z.div_pos; lia|]. Z.div_mod_to_equations. lia. }
  cbn [groups]. cbv zeta. rewrite orb_false_r, shiftr_div, u8_small by (unfold is_u8; lia).
  destruct (Z.eqb_spec (s / 2 ^ (7 * Z.of_nat (S n))) 0) as [E|E]; cbn [negb].
  - destruct (IH E) as [?|(j & Hj & ?)]; [by left|right]. exists j. split; [lia|done].
  - right. exists n. split; [lia|]. split; [|done]. by rewrite orb_true_r, shiftr_div, u8_small by (unfold is_u8; lia).
Qed.

Lemma wp_dec_sub_loop {A} h p ls n s len pre tl c (fail : M heap A) k Q : 0 <= s < 2 ^ 31 ->
  at_pos h p ls pre (groups n true s ++ tl) c -> (n < len)%nat ->
  (forall c' pre', at_pos h p ls pre' (s mod 128 :: tl) c' -> wp (k (len - n)%nat c' (s / 2 ^ 7)) h Q) ->
  wp (dec_sub_loop len c (s / 2 ^ (7 * Z.of_nat (S n))) fail k) h Q.
Proof.
  intros Hs. revert len pre c. induction n as [|n IH]; intros len pre c Hc Hlen Hk; (destruct len as [|len]; [lia|]).
  - cbn [groups app] in Hc. rewrite last_octet in Hc. change (7 * Z.of_nat 1) with 7.
    replace (S len) with (S len - 0)%nat by lia. destruct len as [|len]; cbn [dec_sub_loop Nat.sub].
    + wp_step. eapply wp_octet; [exact Hc|]. by apply (Hk c pre).
    + wp_step. eapply wp_octet; [exact Hc|]. rewrite sign_bit_clear by (Z.div_mod_to_equations; lia).
      by apply (Hk c pre).
  - rewrite groups_cons in Hc. destruct len as [|len]; [lia|]. cbn [app] in Hc.
    destruct (code_bits (Z.shiftr s (7 * Z.of_nat (S n)))) as [E1 E2]. set (m := Z.lor _ 0x80) in *.
    change (dec_sub_loop (S (S len)) c ?x fail k) with
      (m ← octet c;
       if negb (Z.land m 0x80 =? 0) then
         next_octet c fail (fun c => dec_sub_loop (S len) c (s32 (s32 (Z.shiftl x 7) + Z.land m (Z.lnot 0x80))) fail k)
       else k (S (S len)) c x).
    wp_step. eapply wp_octet; [exact Hc|]. rewrite sign_bit_set by done. cbn [negb]. rewrite E1.
    pose proof (groups_pos n true s) as Hg. destruct (groups n true s) as [|m' gs] eqn:Eg; [cbn in Hg; lia|].
    eapply wp_next_read; [exact Hc|]. intros c' Hc'.
    assert (E3 : s32 (s32 (Z.shiftl (s / 2 ^ (7 * Z.of_nat (S (S n)))) 7) + Z.shiftr s (7 * Z.of_nat (S n)) mod 128)
      = s / 2 ^ (7 * Z.of_nat (S n))).
    { rewrite shiftl_mul, shiftr_div by lia.
      replace (7 * Z.of_nat (S (S n))) with (7 * Z.of_nat (S n) + 7) by lia.
      rewrite Z.pow_add_r, <- Z.div_div by lia. set (x := s / 2 ^ (7 * Z.of_nat (S n))).
      assert (0 <= x <= s) by (unfold x; split; [apply Z.div_pos; lia|apply Z.div_le_upper_bound; nia]).
      clearbody x. rewrite (s32_small (_ * _)) by (Z.div_mod_to_equations; lia).
      rewrite s32_small by (Z.div_mod_to_equations; lia). Z.div_mod_to_equations. lia. }
    rewrite E3. apply (IH (S len) _ c' Hc'); [lia|]. intros c2 pre2 Hc2.
    by apply (Hk c2 pre2).
Qed.

Lemma oid_put_at done0 x old n h (Q : snmp_obj_id -> heap -> Prop) v :
  Q (SnmpObjId n (done0 ++ v :: old)) h ->
  wp (oid_put (Z.of_nat (length done0)) v (SnmpObjId n (done0 ++ x :: old))) h Q.
Proof.
  intros HQ. unfold oid_put. cbn [oid_id oid_len]. rewrite length_app. cbn [length].
  rewrite (proj2 (Z.leb_le 0 _)), (proj2 (Z.ltb_lt _ _)) by lia. cbn [andb]. rewrite Nat2Z.id.
  rewrite <- (Nat.add_0_r (length done0)), insert_app_r. by apply wp_ret.
Qed.

Lemma sub_octets_length s : 0 <= s < 2 ^ 31 -> (0 < length (sub_octets s))%nat.
Proof. intros _. apply groups_pos. Qed.

Lemma wp_dec_sub_id h p ls s len pre tl c done0 x old fail k Q : 0 <= s < 2 ^ 31 ->
  at_pos h p ls pre (sub_octets s ++ tl) c -> (length (sub_octets s) <= len)%nat ->
  (forall c' pre' m, at_pos h p ls pre' (m :: tl) c' ->
     wp (k (len - length (sub_octets s))%nat c' (SnmpObjId (Z.of_nat (length done0)) (done0 ++ s :: old))) h Q) ->
  wp (dec_sub_id len c (SnmpObjId (Z.of_nat (length done0)) (done0 ++ x :: old)) fail k) h Q.
Proof.
  intros Hs Hc Hlen Hk. unfold dec_sub_id, sub_octets in *.
  assert (H5 : s / 2 ^ (7 * Z.of_nat 5) = 0) by (apply Z.div_small; cbn; lia).
  destruct (groups_shape 4 s ltac:(lia) H5) as [[H1 E]|(j & Hj & E & H2 & _)]; rewrite E in *.
  - cbn [app length] in *. wp_step. eapply wp_octet; [exact Hc|]. rewrite sign_bit_clear by lia. cbn [negb oid_len].
    wp_step. apply oid_put_at. by eapply Hk.
  - rewrite groups_length in *. pose proof Hc as Hc0. rewrite groups_cons in Hc0. cbn [app] in Hc0.
    destruct (code_bits (Z.shiftr s (7 * Z.of_nat (S j)))) as [_ E2].
    wp_step. eapply wp_octet; [exact Hc0|]. rewrite sign_bit_set by done. cbn [negb].
    replace (dec_sub_loop (A := Z * snmp_obj_id) len c 0)
      with (dec_sub_loop (A := Z * snmp_obj_id) len c (s / 2 ^ (7 * Z.of_nat (S (S j))))) by by rewrite H2.
    eapply wp_dec_sub_loop; [done|exact Hc|lia|]. intros c' pre' Hc'.
    wp_step. eapply wp_octet; [exact Hc'|]. rewrite sign_bit_clear by (Z.div_mod_to_equations; lia).
    rewrite (proj2 (Nat.ltb_lt 0 _)) by lia. cbn [andb oid_len]. wp_step.
    replace (s32 (s32 (Z.shiftl (s / 2 ^ 7) 7) + s mod 128)) with s.
    2:{ rewrite shiftl_mul, (s32_small (_ * _)) by (Z.div_mod_to_equations; lia).
        rewrite s32_small by (Z.div_mod_to_equations; lia). Z.div_mod_to_equations. lia. }
    apply oid_put_at. replace (len - S j - 1)%nat with (len - S (S j))%nat by lia. by eapply Hk.
Qed.

Lemma dec_oid_loop_spec h p ls subs : forall fuel pre tl c done0 old,
  subs <> [] -> Forall (fun s => 0 <= s < 2 ^ 31) subs ->
  at_pos h p ls pre (concat (map sub_octets subs) ++ tl) c ->
  (length done0 + length subs <= 32)%nat -> (length subs <= length old)%nat -> (length subs <= fuel)%nat ->
  wp (dec_oid_loop fuel (length (concat (map sub_octets subs))) c (SnmpObjId (Z.of_nat (length done0)) (done0 ++ old))) h
    (fun r h' => h' = h /\ r = (ERR_OK, SnmpObjId (Z.of_nat (length done0 + length subs))
                                         (done0 ++ subs ++ drop (length subs) old))).
Proof.
  induction subs as [|s subs IH]; intros fuel pre tl c done0 old Hne Hs Hc Hl Ho Hf; [done|].
  apply Forall_cons in Hs as [Hs Hss]. cbn [map concat length] in *. rewrite length_app.
  pose proof (sub_octets_length s Hs) as Hpos.
  destruct (length (sub_octets s)) as [|k] eqn:Ek; [lia|]. destruct fuel as [|fuel]; [lia|].
  destruct old as [|x old]; [cbn in Ho; lia|]. cbn [Nat.add dec_oid_loop oid_len].
  change LWIP_SNMP_OBJ_ID_LEN with 32. rewrite (proj2 (Z.leb_gt 32 _)) by lia.
  rewrite <- app_assoc in Hc. eapply wp_dec_sub_id; [done|exact Hc|lia|]. intros c' pre' m Hc'.
  rewrite Ek. replace (S (k + length (concat (map sub_octets subs))) - S k)%nat
    with (length (concat (map sub_octets subs))) by lia. cbv zeta. cbn [oid_len oid_id].
  assert (Eo : SnmpObjId (u8 (Z.of_nat (length done0) + 1)) (done0 ++ s :: old)
    = SnmpObjId (Z.of_nat (length (done0 ++ [s]))) ((done0 ++ [s]) ++ old)).
  { rewrite length_app, <- app_assoc. cbn [length app]. f_equal. rewrite u8_small by (unfold is_u8; lia). lia. }
  rewrite Eo. destruct subs as [|s' subs].
  - cbn [map concat length]. destruct fuel; cbn [dec_oid_loop]; (split; [done|]); rewrite length_app, <- app_assoc; done.
  - pose proof (Forall_inv Hss) as Hs'. pose proof (sub_octets_length s' Hs') as Hp'.
    destruct (length (concat (map sub_octets (s' :: subs)))) as [|k'] eqn:Ek'.
    { cbn [map concat] in Ek'. rewrite length_app in Ek'. lia. }
    destruct (concat (map sub_octets (s' :: subs))) as [|m' bs] eqn:Ec; [done|].
    eapply wp_next_read; [exact Hc'|]. intros c2 Hc2.
    eapply wp_mono; [apply (IH fuel (pre' ++ [m]) tl c2 (done0 ++ [s]) old)|]; try done.
    + rewrite length_app. cbn [length] in *. lia.
    + cbn [length] in *. lia.
    + cbn [length] in *. lia.
    + intros r h' [-> ->]. split; [done|]. rewrite length_app, <- app_assoc. cbn [length app drop]. do 3 f_equal. lia.
Qed.

Lemma dec_oid_reads ids oid : oid_ok ids -> length (oid_id oid) = 32%nat ->
  reads_back (fun p ofs => snmp_asn1_dec_oid p ofs (Z.of_nat (length (oid_octets ids))) oid) (oid_octets ids)
    (ERR_OK, SnmpObjId (Z.of_nat (length ids)) (ids ++ drop (length ids) (oid_id oid))).
Proof.
  intros [(id0 & id1 & subs & -> & Ha & Hs) Hl] Ho h p ls d tl ofs Hm Hofs Hd.
  eapply (reads_at _ _ _ _ _ _ _ _ tl); [exact Hm|done|exact Hd|done|]. cbn [oid_octets length] in *.
  intros c Hc. cbv zeta. rewrite (proj2 (Z.ltb_lt 0 _)) by lia. cbn [app] in Hc.
  wp_step. eapply wp_octet; [exact Hc|]. set (v := if _ && _ then _ else _).
  replace (if v =? 43 then (1, 3) else if v <? 40 then (0, v) else if v <? 80 then (1, v - 40) else (2, v - 80))
    with (id0, id1).
  2:{ unfold v. destruct (Z.eqb_spec id0 1), (Z.eqb_spec id1 3); cbn [andb]; subst; try done;
        repeat match goal with |- context [?a <? ?b] => destruct (Z.ltb_spec a b)
               | |- context [?a =? ?b] => destruct (Z.eqb_spec a b) end; f_equal; lia. }
  destruct oid as [l0 id]. cbn [oid_id] in *. destruct id as [|x0 [|x1 old]]; [done..|]. cbn [length] in Ho.
  wp_step. apply (oid_put_at [] x0). wp_step. apply (oid_put_at [id0] x1). cbn [app oid_id].
  replace (Z.to_nat (Z.of_nat (S (length (concat (map sub_octets subs)))) - 1))
    with (length (concat (map sub_octets subs))) by lia.
  change (SnmpObjId 2 (id0 :: id1 :: old)) with (SnmpObjId (Z.of_nat (length [id0; id1])) ([id0; id1] ++ old)).
  destruct subs as [|s subs].
  - cbn. by split.
  - pose proof (Forall_inv Hs) as Hs0. pose proof (sub_octets_length s Hs0) as Hp.
    destruct (length (concat (map sub_octets (s :: subs)))) as [|k] eqn:Ek.
    { cbn [map concat] in Ek. rewrite length_app in Ek. lia. }
    destruct (concat (map sub_octets (s :: subs))) as [|m bs] eqn:Ec; [done|]. rewrite <- Ek, <- Ec.
    eapply wp_next_read; [exact Hc|]. intros c' Hc'.
    eapply wp_mono; [eapply (dec_oid_loop_spec h p ls (s :: subs)); try done|].
    + by rewrite Ec.
    + cbn [length] in *. lia.
    + change (Z.to_nat LWIP_SNMP_OBJ_ID_LEN) with 32%nat. cbn [length] in *. lia.
    + intros r h' [-> ->]. by split.
Qed.

Lemma sub_id_cnt_run j : forall fuel x cnt h, 0 <= x -> x / 2 ^ (7 * Z.of_nat j) <> 0 ->
  x / 2 ^ (7 * Z.of_nat (S j)) = 0 -> (j < fuel)%nat -> 0 <= cnt -> cnt + Z.of_nat (S j) < 256 ->
  sub_id_cnt fuel x cnt h = Done (cnt + Z.of_nat (S j), h).
Proof.
  induction j as [|j IH]; intros fuel x cnt h Hx H1 H2 Hf Hc Hlt; (destruct fuel as [|fuel]; [lia|]); cbn [sub_id_cnt].
  - change (2 ^ (7 * Z.of_nat 0)) with 1 in H1. rewrite Z.div_1_r in H1. rewrite (proj2 (Z.ltb_lt 0 x)) by lia.
    change (7 * Z.of_nat 1) with 7 in H2. rewrite shiftr_div, H2, u8_small by (unfold is_u8; lia).
    destruct fuel; cbn; done.
  - assert (0 < x) by (destruct (decide (x = 0)) as [->|]; [by rewrite Z.div_0_l in H1 by lia|lia]).
    rewrite (proj2 (Z.ltb_lt 0 x)), shiftr_div, u8_small by (unfold is_u8; lia).
    assert (E : forall i, x / 2 ^ 7 / 2 ^ (7 * Z.of_nat i) = x / 2 ^ (7 * Z.of_nat (S i))).
    { intros i. rewrite Z.div_div, <- Z.pow_add_r by lia. do 2 f_equal. lia. }
    rewrite IH; rewrite ?E; [do 2 f_equal; lia|apply Z.div_pos; lia|done|done|lia..].
Qed.
Lemma sub_octets_cnt s cnt h : 0 <= s < 2 ^ 31 -> 0 <= cnt < 250 ->
  sub_id_cnt 5 (Z.shiftr s 7) (u8 (cnt + 1)) h = Done (cnt + Z.of_nat (length (sub_octets s)), h).
Proof.
  intros Hs Hc. rewrite u8_small, shiftr_div by (unfold is_u8; lia). unfold sub_octets.
  assert (H5 : s / 2 ^ (7 * Z.of_nat 5) = 0) by (apply Z.div_small; cbn; lia).
  destruct (groups_shape 4 s ltac:(lia) H5) as [[H1 E]|(j & Hj & E & H2 & H3)]; rewrite E.
  - rewrite Z.div_small by lia. done.
  - assert (Ei : forall i, s / 2 ^ 7 / 2 ^ (7 * Z.of_nat i) = s / 2 ^ (7 * Z.of_nat (S i))).
    { intros i. rewrite Z.div_div, <- Z.pow_add_r by lia. do 2 f_equal. lia. }
    rewrite groups_length, (sub_id_cnt_run j) by (rewrite ?Ei; done || lia || (apply Z.div_pos; lia)).
    do 2 f_equal. lia.
Qed.
Lemma groups_le n t s : (length (groups n t s) <= S n)%nat.
Proof. revert t. induction n as [|n IH]; intros t; cbn; [lia|]. case_match; cbn; [pose proof (IH true)|pose proof (IH t)]; lia. Qed.
Lemma oid_cnt_run subs cnt h : Forall (fun s => 0 <= s < 2 ^ 31) subs -> 0 <= cnt ->
  cnt + 5 * Z.of_nat (length subs) < 250 ->
  oid_cnt_loop (length subs) subs cnt h = Done (cnt + Z.of_nat (length (concat (map sub_octets subs))), h).
Proof.
  revert cnt. induction subs as [|s subs IH]; intros cnt Hs Hc Hl; [cbn; by rewrite Z.add_0_r|].
  apply Forall_cons in Hs as [Hs Hss]. cbn [length] in Hl. cbn [length oid_cnt_loop map concat head tail].
  erewrite bind_run by done. erewrite bind_run by by apply sub_octets_cnt; [|lia].
  pose proof (groups_le 4 false s). unfold sub_octets at 2. rewrite IH by (done || unfold sub_octets in *; lia).
  rewrite length_app. do 2 f_equal. unfold sub_octets. lia.
Qed.
Lemma oid_cnt_spec ids h : oid_ok ids ->
  snmp_asn1_enc_oid_cnt (Z.of_nat (length ids)) ids h = Done (Z.of_nat (length (oid_octets ids)), h).
Proof.
  intros [(id0 & id1 & subs & -> & _ & Hs) Hl]. unfold snmp_asn1_enc_oid_cnt. cbn [length oid_octets] in *.
  rewrite (proj2 (Z.ltb_lt 1 _)) by lia. replace (Z.to_nat _) with (length subs) by lia. cbn [drop]. rewrite ?drop_0.
  rewrite oid_cnt_run by (done || lia). do 2 f_equal. lia.
Qed.

(** ** The theorems *)
Lemma encoded_run p ls h d ofs bs need (m : M heap Z) : wp m h (encoded p ls h d ofs bs need) ->
  exists e h', m h = Done (e, h') /\ encoded p ls h d ofs bs need e h'.
Proof. apply wp_run. Qed.

(** C36: Signed and unsigned 32-bit integers and lengths: when the octets that
    the counting function announces fit in the message they are written there
    and nothing else changes, else the result is ERR_ARG and the octets in
    front are untouched; and a message that holds the written octets, however
    it is cut into buffers, is decoded to the number that was encoded. *)
Theorem asn1_integers_roundtrip p ls h d ofs v w n v0 w0 u0 n0 :
  message h p ls d -> 0 <= ofs -> - 2 ^ 31 <= v < 2 ^ 31 -> is_u32 w -> is_u16 n ->
  let cv := snmp_asn1_enc_s32t_cnt v in
  let cw := snmp_asn1_enc_u32t_cnt w in
  let cn := snmp_asn1_enc_length_cnt n in
  (exists e h', snmp_asn1_enc_s32t p ofs cv v h = Done (e, h')
     /\ encoded p ls h d (Z.to_nat ofs) (s32_octets v) (Z.to_nat cv) e h')
  /\ reads_back (fun p ofs => snmp_asn1_dec_s32t p ofs cv v0) (s32_octets v) (ERR_OK, v)
  /\ (exists e h', snmp_asn1_enc_u32t p ofs cw w h = Done (e, h')
     /\ encoded p ls h d (Z.to_nat ofs) (u32_octets w) (Z.to_nat cw) e h')
  /\ reads_back (fun p ofs => snmp_asn1_dec_u32t p ofs cw w0) (u32_octets w) (ERR_OK, w)
  /\ (exists e h', snmp_asn1_enc_length p ofs n h = Done (e, h')
     /\ encoded p ls h d (Z.to_nat ofs) (length_octets n) (Z.to_nat cn) e h')
  /\ reads_back (fun p ofs => snmp_asn1_dec_length p ofs u0 n0) (length_octets n) (ERR_OK, cn, n).
Proof.
  intros Hm Hofs Hv Hw Hn cv cw cn.
  split; [exact (encoded_run _ _ _ _ _ _ _ _ (enc_s32t_spec p ls h d ofs v Hm Hofs))|]. split.
  { pose proof (dec_s32t_reads (s32_octets v) v0 (be_octets_ok _ _)) as H.
    rewrite s32_octets_value, s32_small in H by done. unfold s32_octets in H. rewrite be_octets_length in H.
    unfold cv, s32_octets. destruct (s32_cnt v Hv) as [(E & _)|[(E & _)|[(E & _)|E]]]; rewrite E in *; apply H; cbn; lia. }
  split; [exact (encoded_run _ _ _ _ _ _ _ _ (enc_u32t_spec p ls h d ofs w Hm Hofs))|]. split.
  { destruct (u32_octets_value w Hw) as (Hok & Hval & Hl & m & bs & E & Hm1 & Hb).
    rewrite E in *. pose proof (dec_u32t_reads m bs w0 Hok Hm1 Hb) as H. rewrite Hval, Hl, Z2Nat.id in H; [exact H|].
    unfold snmp_asn1_enc_u32t_cnt. repeat case_match; lia. }
  split.
  { assert (Z.to_nat cn = length (length_octets n)) as ->
      by (unfold cn, snmp_asn1_enc_length_cnt, length_octets; by destruct (n <? 0x80), (n <? 0x100)).
    exact (encoded_run _ _ _ _ _ _ _ _ (enc_length_spec p ls h d ofs n Hm Hofs Hn)). }
  by apply dec_length_reads.
Qed.

(** C35: An object identifier of at most 32 arcs: the count is that of the
    octets written; they are written if they fit and, when there are only two
    arcs, one more octet follows; and any message that holds them is decoded
    to the same arcs. *)
Theorem asn1_oid_roundtrip p ls h d ofs ids oid :
  message h p ls d -> 0 <= ofs -> oid_ok ids -> length (oid_id oid) = 32%nat ->
  let n := Z.of_nat (length ids) in
  let bs := oid_octets ids in
  snmp_asn1_enc_oid_cnt n ids h = Done (Z.of_nat (length bs), h)
  /\ (exists e h', snmp_asn1_enc_oid p ofs n ids h = Done (e, h')
      /\ encoded p ls h d (Z.to_nat ofs) bs (max 2 (length bs)) e h')
  /\ exists id, take (length ids) id = ids
     /\ reads_back (fun p ofs => snmp_asn1_dec_oid p ofs (Z.of_nat (length bs)) oid) bs (ERR_OK, SnmpObjId n id).
Proof.
  intros Hm Hofs Hok Ho n bs. split; [by apply oid_cnt_spec|].
  split; [exact (encoded_run _ _ _ _ _ _ _ _ (enc_oid_spec p ls h d ofs ids Hm Hofs Hok))|].
  exists (ids ++ drop (length ids) (oid_id oid)). split; [apply take_app_length|]. by apply dec_oid_reads.
Qed.

(** An object identifier whose last octet says that another one follows is
    not refused: snmp_asn1_dec_oid reads the octet behind it as an arc, and
    returns success with four arcs, the third of which it has not written. *)
Theorem asn1_oid_reads_past_end h p ls d tl ofs a b x0 x1 x2 x3 old l0 :
  message h p ls d -> 0 <= ofs -> 0x80 <= a < 0x100 -> 0 <= b < 0x80 ->
  drop (Z.to_nat ofs) d = [0x2b; a; b] ++ tl ->
  snmp_asn1_dec_oid p ofs 2 (SnmpObjId l0 (x0 :: x1 :: x2 :: x3 :: old)) h
  = Done ((ERR_OK, SnmpObjId 4 (1 :: 3 :: x2 :: b :: old)), h).
Proof.
  intros Hm Hofs Ha Hb Hd. eapply (reads_at _ _ _ _ _ _ _ _ tl); [exact Hm|done|exact Hd|done|].
  intros c Hc. cbn [app] in Hc. cbv zeta. change (0 <? 2) with true. cbv iota.
  wp_step. eapply wp_octet; [exact Hc|]. change (0x2b =? 43) with true. cbv iota. cbn [oid_id].
  wp_step. apply (oid_put_at [] x0). wp_step. apply (oid_put_at [1] x1). cbn [app oid_id].
  change (Z.to_nat (2 - 1)) with 1%nat. cbv iota.
  eapply wp_next_read; [exact Hc|]. intros c1 Hc1.
  change (Z.to_nat LWIP_SNMP_OBJ_ID_LEN) with (S (S 30)). generalize 30%nat. intros fuel. cbn [dec_oid_loop oid_len]. change (LWIP_SNMP_OBJ_ID_LEN <=? 2) with false. cbv iota.
  unfold dec_sub_id at 1. wp_step. eapply wp_octet; [exact Hc1|]. rewrite sign_bit_set by done. cbn [negb dec_sub_loop].
  wp_step. eapply wp_octet; [exact Hc1|]. wp_step. eapply wp_octet; [exact Hc1|]. rewrite sign_bit_set by done. cbn [andb].
  eapply wp_next_read; [exact Hc1|]. intros c2 Hc2. cbn [oid_len oid_id].
  change (LWIP_SNMP_OBJ_ID_LEN <=? u8 (2 + 1)) with false. cbv iota.
  unfold dec_sub_id. wp_step. eapply wp_octet; [exact Hc2|]. rewrite sign_bit_clear by done. cbn [negb oid_len].
  wp_step. apply (oid_put_at [1; 3; x2] x3). destruct fuel; cbn; by split.
Qed.

(** ** Examples: a message of twelve octets in two buffers *)
Definition ex_message (d1 d2 : list Z) : heap :=
  let n1 := Z.of_nat (length d1) in let n2 := Z.of_nat (length d2) in
  Heap {[1%positive := Block 16 d1; 2%positive := Block 16 d2]}
    {[1%positive := Pbuf (Some 2%positive) (Some (Ptr 1 16)) (n1 + n2) n1 PBUF_POOL 0 1;
      2%positive := Pbuf None (Some (Ptr 2 16)) n2 n2 PBUF_POOL 0 1]} 3 0 (fun _ => None) [].

Lemma ex_message_ok d1 d2 : read_packet 3 (ex_message d1 d2) (Some 1%positive) = Some ([1; 2]%positive, d1 ++ d2) ->
  d1 <> [] -> d2 <> [] -> message (ex_message d1 d2) (Some 1%positive) [1; 2]%positive (d1 ++ d2).
Proof.
  intros H%read_packet_sound H1 H2. split; [done|].
  intros l [->|[->|[]%elem_of_nil]%elem_of_cons]%elem_of_cons; eexists _, _; (split; [reflexivity|]); (split; [reflexivity|]);
    (split; [reflexivity|]); cbn; [destruct d1|destruct d2]; cbn; done || lia.
Qed.

Lemma asn1_integers_roundtrip_witness :
  (exists h', snmp_asn1_enc_s32t (Some 1%positive) 2 2 (-129) (ex_message [0; 0; 0] [0; 0]) = Done (ERR_OK, h')
     /\ message h' (Some 1%positive) [1; 2]%positive [0; 0; 0xff; 0x7f; 0])
  /\ snmp_asn1_dec_s32t (Some 1%positive) 1 2 0 (ex_message [7; 0xff] [0x7f]) = Done ((ERR_OK, -129), ex_message [7; 0xff] [0x7f]).
Proof.
  destruct (asn1_integers_roundtrip (Some 1%positive) [1; 2]%positive (ex_message [0; 0; 0] [0; 0]) [0; 0; 0; 0; 0] 2
    (-129) 0 0 0 0 0 0) as ((e & h' & E & _ & d' & Hm & _ & _ & H) & Hr & _);
    [by apply (ex_message_ok [0; 0; 0] [0; 0])|lia|lia|by unfold is_u32|by unfold is_u16|].
  vm_compute in H. destruct H as [-> ->]. split.
  - exists h'. split; [exact E|exact Hm].
  - apply (Hr _ _ [1; 2]%positive [7; 0xff; 0x7f] []); [by apply (ex_message_ok [7; 0xff] [0x7f])|lia|by vm_compute].
Defined.

Lemma asn1_oid_roundtrip_witness :
  (exists h', snmp_asn1_enc_oid (Some 1%positive) 0 5 [1; 3; 6; 300; 0] (ex_message [0; 0; 0] [0; 0]) = Done (ERR_OK, h')
     /\ message h' (Some 1%positive) [1; 2]%positive [0x2b; 6; 0x82; 0x2c; 0])
  /\ exists id, take 5 id = [1; 3; 6; 300; 0]
     /\ snmp_asn1_dec_oid (Some 1%positive) 0 5 (SnmpObjId 0 (replicate 32 9)) (ex_message [0x2b; 6; 0x82] [0x2c; 0])
        = Done ((ERR_OK, SnmpObjId 5 id), ex_message [0x2b; 6; 0x82] [0x2c; 0]).
Proof.
  destruct (asn1_oid_roundtrip (Some 1%positive) [1; 2]%positive (ex_message [0; 0; 0] [0; 0]) [0; 0; 0; 0; 0] 0
    [1; 3; 6; 300; 0] (SnmpObjId 0 (replicate 32 9))) as (_ & (e & h' & E & _ & d' & Hm & _ & _ & H) & id & Hid & Hr);
    [by apply (ex_message_ok [0; 0; 0] [0; 0])|lia| |done|].
  { split; [|cbn; lia]. exists 1, 3, [6; 300; 0]. split; [done|]. split; [lia|]. repeat constructor; lia. }
  vm_compute in H. destruct H as [-> ->]. split.
  - exists h'. split; [exact E|exact Hm].
  - exists id. split; [exact Hid|].
    apply (Hr _ _ [1; 2]%positive [0x2b; 6; 0x82; 0x2c; 0] []); [by apply (ex_message_ok [0x2b; 6; 0x82] [0x2c; 0])|lia|by vm_compute].
Defined.

Lemma asn1_oid_reads_past_end_witness :
  snmp_asn1_dec_oid (Some 1%positive) 0 2 (SnmpObjId 0 (replicate 32 77)) (ex_message [0x2b; 0x81] [5])
  = Done ((ERR_OK, SnmpObjId 4 (1 :: 3 :: 77 :: 5 :: replicate 28 77)), ex_message [0x2b; 0x81] [5]).
Proof.
  apply (asn1_oid_reads_past_end _ _ [1; 2]%positive [0x2b; 0x81; 5] [] 0 0x81 5 77 77 77 77 (replicate 28 77));
    [by apply (ex_message_ok [0x2b; 0x81] [5])|lia|lia|lia|by vm_compute].
Defined.
