(* ===== verification/Slipif.v ===== *)
(** * The serial line interface (netif/slipif.c)

    Packets are sent over a serial line between END octets, END and ESC inside
    of them written as two octets; input collects them in pool buffers.  The
    line itself (lwip/sio.h) is a parameter. *)
From S2P Require Import Prelude Heap Pbuf.
#[local] Open Scope string_scope.
#[local] Open Scope list_scope.
#[local] Open Scope Z_scope.

(** The serial line that the system provides. *)
Class Sio := {
  line : Type;
  sio_send : Z -> line -> line;
  sio_recv : M line Z;
  sio_open : Z -> option line
}.

Definition SLIP_END : Z := 0xC0.
Definition SLIP_ESC : Z := 0xDB.
Definition SLIP_ESC_END : Z := 0xDC.
Definition SLIP_ESC_ESC : Z := 0xDD.
Definition MAX_SIZE : Z := 1500.

Section slipif.
Context {MC : MempConf} {SIO : Sio}.

(** The memory and the line, which is the netif's [state]. *)
Record slip := Slip { sl_heap : heap; sl_line : line }.

Definition on_heap {A} (m : M heap A) : M slip A := zoom sl_heap (fun h s => Slip h (sl_line s)) m.
Definition send (c : Z) : M slip unit := modify (fun s => Slip (sl_heap s) (sio_send c (sl_line s))).
Definition recv : M slip Z := zoom sl_line (fun l s => Slip (sl_heap s) l) sio_recv.

(** ** slipif_output *)
Definition send_octet (c : Z) : M slip unit :=
  if c =? SLIP_END then send SLIP_ESC;; send SLIP_ESC_END
  else if c =? SLIP_ESC then send SLIP_ESC;; send SLIP_ESC_ESC
  else send c.

(** [for (i = 0; i < q->len; i++)], [n] rounds from [i] on *)
Fixpoint send_buffer (n : nat) (payload : ptr) (i : Z) : M slip unit :=
  match n with
  | O => mret tt
  | S n =>
      bs ← on_heap (load (ptr_add payload i) 1);
      c ← deref (head bs);
      send_octet c;;
      send_buffer n payload (u16 (i + 1))
  end.

Fixpoint send_chain (fuel : nat) (q : option loc) : M slip unit :=
  match q, fuel with
  | None, _ => mret tt
  | Some _, O => halt NoFuel
  | Some l, S fuel =>
      b ← on_heap (pget l);
      (if 0 <? pb_len b then
         payload ← deref (pb_payload b); send_buffer (Z.to_nat (pb_len b)) payload 0
       else mret tt);;
      send_chain fuel (pb_next b)
  end.

Definition slipif_output (p : option loc) (ipaddr : Z) : M slip Z :=
  on_heap (LWIP_ASSERT "p != NULL" (is_some p));;
  send SLIP_END;;
  s ← get;
  send_chain (walk_fuel (sl_heap s)) p;;
  send SLIP_END;;
  mret ERR_OK.

(** ** slipif_input *)

(** A new buffer when there is none to write to: [p] and [q]. *)
Definition input_buffer (p q : option loc) : M slip (option loc * option loc) :=
  match p with
  | Some _ => mret (p, q)
  | None =>
      a ← on_heap (pbuf_alloc PBUF_LINK PBUF_POOL_BUFSIZE PBUF_POOL);
      match a, q with
      | None, _ => mret (None, q)
      | Some _, Some _ => on_heap (pbuf_cat q a);; mret (a, q)
      | Some _, None => mret (a, a)
      end
  end.

(** [((u8_t * )p->payload)[i] = c] and the step to the next octet: [p] and [i]. *)
Definition input_octet (l : loc) (i c : Z) : M slip (option loc * Z) :=
  b ← on_heap (pget l);
  payload ← deref (pb_payload b);
  on_heap (store (ptr_add payload i) [c]);;
  let i := u16 (i + 1) in
  if pb_len b <=? i then
    match pb_next b with
    | Some n => nb ← on_heap (pget n); mret (if 0 <? pb_len nb then Some n else None, 0)
    | None => mret (None, 0)
    end
  else mret (Some l, i).

(** The escaped octet: any other than the two is taken as it is. *)
Definition unescape (c : Z) : Z :=
  if c =? SLIP_ESC_END then SLIP_END else if c =? SLIP_ESC_ESC then SLIP_ESC else c.

(** [while (1)]: [fuel] bounds the octets that are read. *)
Fixpoint slipif_input_loop (fuel : nat) (p q : option loc) (recved i : Z) : M slip (option loc) :=
  match fuel with
  | O => halt NoFuel
  | S fuel =>
      c ← recv;
      if c =? SLIP_END then
        if 0 <? recved then
          l ← deref q;
          on_heap (pbuf_realloc l recved);;
          mret q
        else slipif_input_loop fuel p q recved i
      else
        c ← (if c =? SLIP_ESC then c ← recv; mret (unescape c) else mret c);
        '(p, q) ← input_buffer p q;
        match p with
        | Some l =>
            if recved <=? MAX_SIZE then
              '(p, i) ← input_octet l i c;
              slipif_input_loop fuel p q (u16 (recved + 1)) i
            else slipif_input_loop fuel p q recved i
        | None => slipif_input_loop fuel p q recved i
        end
  end.

Definition slipif_input (fuel : nat) : M slip (option loc) := slipif_input_loop fuel None None 0 0.

(** A round of slipif_loop: a packet that [netif->input] refuses is freed. *)
Definition slipif_loop_round (fuel : nat) (netif_input : loc -> M slip Z) : M slip unit :=
  p ← slipif_input fuel;
  match p with
  | Some l =>
      e ← netif_input l;
      if negb (e =? ERR_OK) then _ ← on_heap (pbuf_free p); mret tt else mret tt
  | None => mret tt
  end.
End slipif.

(** ** slipif_init: what it sets of the netif *)
Record slip_netif `{Sio} := SlipNetif {
  sn_name : Z * Z; sn_mtu : Z; sn_flags : Z; sn_state : option line; sn_num : Z
}.
Definition slipif_init `{Sio} (n : slip_netif) : Z * slip_netif :=
  let state := sio_open (sn_num n) in
  let n := SlipNetif _ (115, 108) MAX_SIZE 0x04 state (sn_num n) in
  (if is_some state then ERR_OK else ERR_IF, n).
