(* ===== verification/SlipProps.v ===== *)
(** * What the serial line interface carries (netif/slipif.c)

    A packet that slipif_output has sent over the line is what slipif_input
    returns at the other end. *)
From S2P Require Import Prelude Heap Chains Pbuf PbufSpec PbufProps Stack Words Octets Slipif.
#[local] Open Scope list_scope.
#[local] Open Scope Z_scope.

(** ** The octets on the line *)
Definition escape (c : Z) : list Z :=
  if c =? SLIP_END then [SLIP_ESC; SLIP_ESC_END]
  else if c =? SLIP_ESC then [SLIP_ESC; SLIP_ESC_ESC] else [c].
Definition frame (d : list Z) : list Z := [SLIP_END] ++ flat_map escape d ++ [SLIP_END].

(** What will be read from a line: the octets [cs] are next. *)
Class SioOk {SIO : Sio} := {
  arrives : line -> list Z -> Prop;
  arrives_recv l c cs : arrives l (c :: cs) -> exists l', sio_recv l = Done (c, l') /\ arrives l' cs
}.

Section sender.
Context {SIO : Sio}.

Definition sends (cs : list Z) (l : line) : line := fold_left (fun l c => sio_send c l) cs l.

Lemma sends_app a b l : sends (a ++ b) l = sends b (sends a l).
Proof. apply fold_left_app. Qed.

Lemma send_octet_run c h l : send_octet c (Slip h l) = Done (tt, Slip h (sends (escape c) l)).
Proof. unfold send_octet, escape. by destruct (c =? SLIP_END), (c =? SLIP_ESC). Qed.

Lemma on_heap_run {A} (m : M heap A) h a h' l : m h = Done (a, h') -> on_heap m (Slip h l) = Done (a, Slip h' l).
Proof. intros E. unfold on_heap, zoom. cbn. by rewrite E. Qed.

Lemma send_buffer_run h pt e1 e2 l :
  bytes_at h pt (Z.of_nat (length (e1 ++ e2))) = Some (e1 ++ e2) -> Z.of_nat (length (e1 ++ e2)) < 65536 ->
  send_buffer (length e2) pt (Z.of_nat (length e1)) (Slip h l) = Done (tt, Slip h (sends (flat_map escape e2) l)).
Proof.
  revert e1 l. induction e2 as [|c e2 IH]; intros e1 l Hd Hl; [done|]. cbn [length send_buffer flat_map].
  rewrite length_app in Hl. cbn [length] in Hl.
  assert (H1 : bytes_at h (ptr_add pt (Z.of_nat (length e1))) 1 = Some [c]).
  { destruct (bytes_at_split h pt (Z.of_nat (length (e1 ++ c :: e2))) (Z.of_nat (length e1)) _
      ltac:(rewrite length_app; lia) Hd) as [_ H1].
    rewrite Nat2Z.id, drop_app_length in H1.
    destruct (bytes_at_split h _ (Z.of_nat (length (e1 ++ c :: e2)) - Z.of_nat (length e1)) 1 _
      ltac:(rewrite length_app; cbn [length]; lia) H1) as [H2 _]. exact H2. }
  erewrite bind_run by by apply on_heap_run, load_run. erewrite bind_run by done.
  erewrite bind_run by apply send_octet_run.
  rewrite u16_small by (unfold is_u16; lia). rewrite sends_app.
  replace (Z.of_nat (length e1) + 1) with (Z.of_nat (length (e1 ++ [c]))) by (rewrite length_app; cbn; lia).
  apply IH; rewrite <- app_assoc; [exact Hd|]. rewrite length_app. cbn [length app]. lia.
Qed.

Lemma send_chain_run h fuel p ls d l : pseg h p ls d None 0 -> Z.of_nat (length d) < 65536 -> (length ls < fuel)%nat ->
  send_chain fuel p (Slip h l) = Done (tt, Slip h (sends (flat_map escape d) l)).
Proof.
  revert p ls d l. induction fuel as [|fuel IH]; intros p ls d l Hp Hl Hf; [lia|].
  destruct ls as [|x ls]; [by destruct Hp as [-> ->]|].
  destruct Hp as (-> & b & pt & d1 & d2 & Hb & (Hpt & _) & Hd & -> & _ & Hs). cbn [send_chain].
  pose proof (bytes_at_length _ _ _ _ Hd) as Hbl. rewrite length_app in Hl. cbn [length] in Hf.
  erewrite bind_run by by apply on_heap_run, pget_run.
  erewrite (bind_run _ _ _ tt (Slip h (sends (flat_map escape d1) l))).
  - rewrite (IH _ ls d2) by (done || lia). by rewrite flat_map_app, sends_app.
  - destruct (Z.ltb_spec 0 (pb_len b)).
    + rewrite Hpt. erewrite bind_run by done. rewrite <- Hbl, Nat2Z.id.
      apply (send_buffer_run h pt [] d1); cbn [app]; [by rewrite Hbl|lia].
    + destruct d1; [done|cbn in Hbl; lia].
Qed.

Lemma slipif_output_run h p ls d l addr : packet h (Some p) ls d ->
  slipif_output (Some p) addr (Slip h l) = Done (ERR_OK, Slip h (sends (frame d) l)).
Proof.
  intros Hp. pose proof (packet_length _ _ _ _ Hp). pose proof (packet_fuel _ _ _ _ Hp).
  unfold slipif_output. erewrite bind_run by by apply on_heap_run. erewrite bind_run by done.
  erewrite bind_run by done. cbn [sl_heap]. erewrite bind_run by by eapply send_chain_run.
  erewrite bind_run by done. unfold frame. rewrite !sends_app. done.
Qed.
End sender.

(** ** The receiver *)

(** One allocation gives a buffer of 1500 octets and one of 14. *)
Lemma wp_and {S A} (m : M S A) s (P Q : A -> S -> Prop) : wp m s P -> wp m s Q -> wp m s (fun a s' => P a s' /\ Q a s').
Proof. unfold wp. destruct (m s) as [[a s']|]; auto. Qed.

Lemma slip_buffers h : h_ok h -> is_Some (h_env h (h_nalloc h)) -> is_Some (h_env h (S (h_nalloc h))) ->
  wp (@pbuf_alloc memp_core PBUF_LINK PBUF_POOL_BUFSIZE PBUF_POOL) h (fun r h' =>
    let q := h_next h in let q2 := Pos.succ q in
    r = Some q /\ h_pbufs h' !! q = Some (Pbuf (Some q2) (Some (Ptr q 30)) 1514 1500 PBUF_POOL 0 1)
    /\ h_pbufs h' !! q2 = Some (Pbuf None (Some (Ptr q2 16)) 14 14 PBUF_POOL 0 1)).
Proof.
  intros Hok H1 H2. unfold pbuf_alloc. change (layer_offset PBUF_LINK) with (Some 14). cbv iota beta.
  change (PBUF_POOL =? PBUF_POOL) with true. cbv iota. apply wp_bind, wp_bind. apply wp_malloc.
  { intros h' _ _ _ _ _ _ E. rewrite E in H1. by destruct H1. }
  intros data Hlen Hdata _. rewrite !align_id. change SIZEOF_STRUCT_PBUF with 16.
  apply wp_bind, wp_assert; [done|]. apply wp_bind, wp_pset. apply wp_bind, wp_assert; [done|].
  change (Z.min PBUF_POOL_BUFSIZE (PBUF_POOL_BUFSIZE_ALIGNED - 14)) with 1500.
  change (s32 (PBUF_POOL_BUFSIZE - 1500)) with 14. set (q := h_next h).
  change pool_fuel with (S (S 42)). generalize 42%nat. intros f. apply wp_bind. cbn [alloc_pool_tail].
  change (0 <? 14) with true. cbv iota. apply wp_bind, wp_malloc.
  { cbn. intros h' _ _ _ _ _ _ E. rewrite E in H2. by destruct H2. }
  intros data2 _ _ _. cbn [h_set_pbufs h_blocks h_pbufs h_next h_nalloc h_env h_asserts]. fold q. set (q2 := Pos.succ q).
  assert (Hne : q2 <> q) by lia. change (Z.min (u16 14) PBUF_POOL_BUFSIZE_ALIGNED) with 14. change (u16 14) with 14.
  apply wp_bind, wp_pset. cbn [h_set_pbufs h_blocks h_pbufs h_next h_nalloc h_env h_asserts].
  apply wp_bind. eapply wp_pupd; [cbn; rewrite lookup_insert_ne by done; apply lookup_insert_eq|].
  apply wp_bind, wp_assert; [done|]. apply wp_bind, wp_assert; [done|].
  apply wp_bind. eapply wp_pget; [cbn; apply lookup_insert_eq|]. apply wp_bind, wp_ret. apply wp_bind, wp_assert; [done|].
  change (14 - 14) with 0. cbn [alloc_pool_tail]. change (0 <? 0) with false. cbv iota. apply wp_ret. apply wp_ret.
  apply wp_bind. eapply wp_pupd; [cbn; apply lookup_insert_eq|].
  apply wp_bind. eapply wp_pupd; [cbn; apply lookup_insert_eq|]. apply wp_ret. cbv zeta. split; [done|].
  cbn. split; [apply lookup_insert_eq|]. rewrite !lookup_insert_ne by done. apply lookup_insert_eq.
Qed.

(** The message that the new buffers are. *)
Lemma slip_alloc h : h_ok h -> is_Some (h_env h (h_nalloc h)) -> is_Some (h_env h (S (h_nalloc h))) ->
  exists q q2 d h', @pbuf_alloc memp_core PBUF_LINK PBUF_POOL_BUFSIZE PBUF_POOL h = Done (Some q, h') /\
    message h' (Some q) [q; q2] d /\ length d = 1514%nat /\ h_ok h' /\ refs_one (h_pbufs h') [q; q2] /\
    (forall l, l ∈ [q; q2] -> h_pbufs h !! l = None /\ h_blocks h !! l = None) /\
    (forall l, l ∉ [q; q2] -> h_pbufs h' !! l = h_pbufs h !! l /\ h_blocks h' !! l = h_blocks h !! l).
Proof.
  intros Hok H1 H2. pose proof (wp_and _ _ _ _ (slip_buffers h Hok H1 H2)
    (pbuf_alloc_pool_spec h PBUF_LINK 14 PBUF_POOL_BUFSIZE Hok ltac:(by vm_compute) eq_refl)) as H.
  apply wp_run in H as (r & h' & E & (-> & Hb1 & Hb2) & ls & d & Hl & Hp & Hok' & Hr & Hnew & Hold & _).
  set (q := h_next h) in *. set (q2 := Pos.succ q) in *.
  assert (ls = [q; q2]) as ->.
  { pose proof Hp as Hp'. apply pseg_links in Hp'.
    destruct ls as [|x [|y [|z ls]]]; cbn in Hp'; try done.
    - destruct Hp' as ([= <-] & b & Hb & Hn). rewrite Hb1 in Hb. by simplify_eq.
    - destruct Hp' as ([= <-] & b & Hb & Hn & b2 & Hb2' & Hn2). rewrite Hb1 in Hb. simplify_eq. cbn in Hn. congruence.
    - destruct Hp' as ([= <-] & b & Hb & Hn & b2 & Hb2' & Hn2 & _). rewrite Hb1 in Hb. simplify_eq. cbn in Hn. simplify_eq. }
  exists q, q2, d, h'. split; [done|]. split.
  { split; [done|]. intros l [->|[->|[]%elem_of_nil]%elem_of_cons]%elem_of_cons;
      [exists (Pbuf (Some q2) (Some (Ptr q 30)) 1514 1500 PBUF_POOL 0 1), (Ptr q 30)
      |exists (Pbuf None (Some (Ptr q2 16)) 14 14 PBUF_POOL 0 1), (Ptr q2 16)]; done. }
  split; [change PBUF_POOL_BUFSIZE with 1514 in Hl; lia|]. split; [done|]. split; [done|]. by split.
Qed.

Section receiver.
Context {SIO : Sio} {SOK : SioOk}.
#[local] Existing Instance memp_core.

Lemma recv_run h l c cs : arrives l (c :: cs) ->
  exists l', recv (Slip h l) = Done (c, Slip h l') /\ arrives l' cs.
Proof.
  intros H. destruct (arrives_recv _ _ _ H) as (l' & E & H'). exists l'. split; [|done].
  unfold recv, zoom. cbn. by rewrite E.
Qed.

(** A data octet: the loop goes on with it, whether it was escaped or not. *)
Lemma input_escaped h l c cs fuel p q recved i : arrives l (escape c ++ cs) ->
  exists l', arrives l' cs /\ slipif_input_loop (S fuel) p q recved i (Slip h l)
  = ('(p, q) ← input_buffer p q;
     match p with
     | Some x =>
         if recved <=? MAX_SIZE then
           '(p, i) ← input_octet x i c; slipif_input_loop fuel p q (u16 (recved + 1)) i
         else slipif_input_loop fuel p q recved i
     | None => slipif_input_loop fuel p q recved i
     end) (Slip h l').
Proof.
  unfold escape. cbn [slipif_input_loop].
  destruct (Z.eqb_spec c SLIP_END) as [->|Hc]; [|destruct (Z.eqb_spec c SLIP_ESC) as [->|Hc']]; cbn [app]; intros H.
  - destruct (recv_run h _ _ _ H) as (l1 & E1 & H1). destruct (recv_run h _ _ _ H1) as (l2 & E2 & H2).
    exists l2. split; [done|]. erewrite bind_run by exact E1. change (SLIP_ESC =? SLIP_END) with false. cbv iota.
    change (SLIP_ESC =? SLIP_ESC) with true. cbv iota. erewrite bind_run by (erewrite bind_run by exact E2; reflexivity).
    reflexivity.
  - destruct (recv_run h _ _ _ H) as (l1 & E1 & H1). destruct (recv_run h _ _ _ H1) as (l2 & E2 & H2).
    exists l2. split; [done|]. erewrite bind_run by exact E1. change (SLIP_ESC =? SLIP_END) with false. cbv iota.
    change (SLIP_ESC =? SLIP_ESC) with true. cbv iota. erewrite bind_run by (erewrite bind_run by exact E2; reflexivity).
    reflexivity.
  - destruct (recv_run h _ _ _ H) as (l1 & E1 & H1). exists l1. split; [done|]. erewrite bind_run by exact E1.
    rewrite (proj2 (Z.eqb_neq _ _)) by done. rewrite (proj2 (Z.eqb_neq c SLIP_ESC)) by done.
    erewrite bind_run by done. done.
Qed.

(** An octet is stored, and there is room for another one. *)
Lemma input_octet_run h line p ls pre m rest l i c : pos h p ls pre (m :: rest) l i -> rest <> [] ->
  exists h' l' i', input_octet l (Z.of_nat i) c (Slip h line) = Done ((Some l', Z.of_nat i'), Slip h' line)
    /\ pos h' p ls (pre ++ [c]) rest l' i' /\ rewrote ls h h' /\ (h_ok h -> is_u8 c -> h_ok h').
Proof.
  intros Hc Hne. destruct (pos_buffer _ _ _ _ _ _ _ _ Hc) as (b & pt & Hb & Hpt & _ & _ & Hi & Hip).
  destruct (pos_store _ _ _ _ _ _ _ _ _ _ c Hc Hb Hpt) as (h' & E & Hc' & Hr & Hok). exists h'.
  assert (Hb' : h_pbufs h' !! l = Some b) by (destruct Hr as (? & -> & _); done).
  pose proof (pos_next _ _ _ _ _ _ _ _ _ Hc' Hb') as Hn. pose proof (pos_length _ _ _ _ _ _ _ Hc) as Hlen.
  rewrite length_app in Hlen. cbn [length] in *.
  unfold input_octet. erewrite bind_run by by apply on_heap_run, pget_run. rewrite Hpt. erewrite bind_run by done.
  erewrite bind_run by by apply on_heap_run. cbv zeta. rewrite u16_small by (unfold is_u16; lia).
  destruct (Z.ltb_spec (Z.of_nat i + 1) (pb_len b)) as [Hlt|Hge].
  - destruct Hn as [_ Hn]. exists l, (S i). rewrite (proj2 (Z.leb_gt _ _)) by lia. split; [|done].
    rewrite Nat2Z.inj_succ. by unfold Z.succ.
  - rewrite (proj2 (Z.leb_le _ _)) by lia. destruct (pb_next b) as [l'|]; [|done]. destruct Hn as [_ Hn].
    exists l', 0%nat. split; [|done]. destruct rest as [|m' rest]; [done|].
    destruct (pos_buffer _ _ _ _ _ _ _ _ Hn) as (b2 & pt2 & Hb2 & _ & _ & _ & Hi2 & _).
    erewrite bind_run by by apply on_heap_run, pget_run. rewrite (proj2 (Z.ltb_lt 0 _)) by lia. done.
Qed.

(** The octets [cs] come in and then END. *)
Lemma input_loop_run q ls tl : forall cs fuel h line pre rest l i,
  pos h (Some q) ls pre rest l i -> h_ok h -> bytes_ok cs -> arrives line (flat_map escape cs ++ [SLIP_END] ++ tl) ->
  (0 < length (pre ++ cs))%nat -> (length cs < length rest)%nat -> (length (pre ++ cs) <= 1501)%nat -> (length cs < fuel)%nat ->
  exists h' line' d' l' i', slipif_input_loop fuel (Some l) (Some q) (Z.of_nat (length pre)) (Z.of_nat i) (Slip h line)
    = (on_heap (pbuf_realloc q (Z.of_nat (length (pre ++ cs))));; mret (Some q)) (Slip h' line')
    /\ pos h' (Some q) ls (pre ++ cs) d' l' i' /\ arrives line' tl /\ rewrote ls h h' /\ h_ok h'.
Proof.
  induction cs as [|c cs IH]; intros fuel h line pre rest l i Hc Hok Hcs Harr Hpos Hroom Hmax Hf;
    (destruct fuel as [|fuel]; [cbn in Hf; lia|]).
  - cbn [flat_map app] in Harr. destruct (recv_run h _ _ _ Harr) as (line' & E & H').
    exists h, line', rest, l, i. rewrite app_nil_r in *. split; [|split; [done|split; [done|split; [reflexivity|done]]]].
    cbn [slipif_input_loop]. erewrite bind_run by exact E. change (SLIP_END =? SLIP_END) with true. cbv iota.
    rewrite (proj2 (Z.ltb_lt 0 _)) by lia. by erewrite bind_run by done.
  - apply bytes_ok_cons in Hcs as [Hu Hcs]. cbn [flat_map] in Harr. rewrite <- app_assoc in Harr.
    destruct rest as [|m rest]; [cbn in Hroom; lia|]. cbn [length] in *. rewrite length_app in Hmax. cbn [length] in Hmax.
    destruct (input_escaped h _ c _ fuel (Some l) (Some q) (Z.of_nat (length pre)) (Z.of_nat i) Harr) as (line1 & H1 & ->).
    destruct (input_octet_run h line1 _ _ _ _ _ _ _ c Hc) as (h1 & l1 & i1 & E & Hc1 & Hr1 & Hok1);
      [destruct rest; [cbn in Hroom; lia|done]|].
    erewrite bind_run by done. cbv beta iota. rewrite (proj2 (Z.leb_le _ MAX_SIZE)) by (unfold MAX_SIZE; lia).
    erewrite bind_run by exact E. rewrite u16_small by (unfold is_u16; lia).
    destruct (IH fuel h1 line1 (pre ++ [c]) rest l1 i1 Hc1) as (h' & line' & d' & l' & i' & E' & Hc' & Ha' & Hr' & Hok').
    + by apply Hok1.
    + done.
    + done.
    + rewrite !length_app. cbn. lia.
    + lia.
    + rewrite <- app_assoc, length_app. cbn. lia.
    + lia.
    + exists h', line', d', l', i'. rewrite length_app in E'. cbn [length] in E'.
      replace (Z.of_nat (length pre) + 1) with (Z.of_nat (length pre + 1)) by lia. rewrite E'.
      rewrite <- app_assoc in *. split; [done|]. split; [done|]. split; [done|]. split; [by etrans|done].
Qed.

(** An END when nothing has come in yet is skipped. *)
Lemma input_end h l cs fuel p q i : arrives l (SLIP_END :: cs) ->
  exists l', arrives l' cs
    /\ slipif_input_loop (S fuel) p q 0 i (Slip h l) = slipif_input_loop fuel p q 0 i (Slip h l').
Proof.
  intros H. destruct (recv_run h _ _ _ H) as (l' & E & H'). exists l'. split; [done|].
  cbn [slipif_input_loop]. by erewrite bind_run by exact E.
Qed.

(** The whole of slipif_input: silence or an END in front, then the first
    octet, for which buffers are allocated. *)
Lemma slipif_input_run h line d tl fuel : h_ok h ->
  is_Some (h_env h (h_nalloc h)) -> is_Some (h_env h (S (h_nalloc h))) ->
  arrives line (frame d ++ tl) -> bytes_ok d -> (0 < length d <= 1501)%nat -> (length d + 2 <= fuel)%nat ->
  exists q xs h' line', slipif_input fuel (Slip h line) = Done (Some q, Slip h' line')
    /\ packet h' (Some q) xs d /\ arrives line' tl
    /\ (forall l, l ∈ xs -> h_pbufs h !! l = None /\ h_blocks h !! l = None)
    /\ (forall l, is_Some (h_pbufs h !! l) -> h_pbufs h' !! l = h_pbufs h !! l)
    /\ (forall l, is_Some (h_blocks h !! l) -> h_blocks h' !! l = h_blocks h !! l).
Proof.
  intros Hok He1 He2 Harr Hd Hlen Hf. unfold slipif_input, frame in *. rewrite <- !app_assoc in Harr.
  destruct fuel as [|fuel]; [lia|]. destruct fuel as [|fuel]; [lia|].
  destruct (input_end h _ _ (S fuel) None None 0 Harr) as (line1 & H1 & ->).
  destruct d as [|c d]; [cbn in Hlen; lia|]. cbn [flat_map] in H1. rewrite <- app_assoc in H1.
  apply bytes_ok_cons in Hd as [Hc Hd]. cbn [length] in *.
  destruct (input_escaped h _ c _ fuel None None 0 0 H1) as (line2 & H2 & E2).
  rewrite E2. clear E2.
  destruct (slip_alloc h Hok He1 He2) as (q & q2 & d0 & h1 & Ea & Hm & Hd0 & Hok1 & Hr1 & Hnew & Hold).
  erewrite bind_run by (unfold input_buffer; erewrite bind_run by exact (on_heap_run _ _ _ _ _ Ea); reflexivity). cbv beta iota.
  change (0 <=? MAX_SIZE) with true. cbv iota. destruct (pos_start _ _ _ _ Hm) as [_ Hp0].
  destruct d0 as [|m d0]; [done|]. cbn [length] in Hd0.
  destruct (input_octet_run h1 line2 _ _ _ _ _ _ _ c Hp0) as (h2 & l2 & i2 & E & Hp2 & Hr2 & Hok2);
    [by destruct d0; cbn in Hd0; [lia|]|].
  erewrite bind_run by exact E. cbn [app] in *.
  destruct (input_loop_run q [q; q2] tl d fuel h2 line2 [c] d0 l2 i2 Hp2) as (h3 & line3 & d3 & l3 & i3 & E3 & Hp3 & Ha3 & Hr3 & Hok3);
    [by apply Hok2|done|done|cbn; lia|lia|cbn; lia|lia|].
  change (u16 (0 + 1)) with (Z.of_nat (length [c])). rewrite E3. cbn [app length] in *.
  pose proof (pos_message _ _ _ _ _ _ _ Hp3) as [Hp3' Hf3].
  assert (Hpb : h_pbufs h3 = h_pbufs h1) by (destruct Hr2 as (? & -> & _), Hr3 as (? & -> & _); done).
  assert (Hd3 : d3 <> []) by by eapply pos_rest.
  pose proof (pbuf_realloc_spec h3 q [q; q2] (c :: d ++ d3) (Z.of_nat (S (length d))) Hok3 Hp3') as Hre.
  apply wp_run in Hre as ([] & h4 & E4 & xs & ys & Exs & Hp4 & _ & Hold4 & _).
  2:{ intros l b pt Hl Hb Hpt. left. destruct (Hf3 l Hl) as (? & ? & ? & ? & ? & _). congruence. }
  2:{ intros l b Hl Hb. rewrite Hpb in Hb. refine (Hr1 l b _ Hb). cbn [tail] in Hl. by right. }
  2:{ cbn. rewrite length_app. destruct d3; [done|]. cbn. lia. }
  rewrite Nat2Z.id in Hp4. cbn [take] in Hp4. rewrite take_app_length in Hp4.
  exists q, xs, h4, line3. split; [rewrite (bind_run _ _ _ _ _ (on_heap_run _ _ _ _ line3 E4)); reflexivity|].
  split; [exact Hp4|]. split; [done|].
  assert (Hkeep : forall l, l ∉ [q; q2] -> h_pbufs h4 !! l = h_pbufs h !! l /\ h_blocks h4 !! l = h_blocks h !! l).
  { intros l Hl. destruct (Hold4 l Hl) as [-> ->]. rewrite Hpb.
    destruct Hr3 as (m3 & -> & Hm3), Hr2 as (m2 & -> & Hm2). cbn. rewrite Hm3, Hm2 by done. by apply Hold. }
  split; [intros l Hl; apply Hnew; rewrite Exs; set_solver|].
  split; intros l [x Hx]; apply Hkeep; intros Hl; destruct (Hnew l Hl); congruence.
Qed.

(** C34: What slipif_output sends for a packet is a frame of the line, and
    when a frame of 1 to 1501 octets comes in and the pool has two buffers
    slipif_input returns a packet in new buffers that holds exactly the octets
    that were sent, having read the frame and no more; it leaves all other
    memory as it was. *)
Theorem slip_roundtrip h1 p1 ls1 l1 addr d h2 line2 tl fuel :
  packet h1 (Some p1) ls1 d -> h_ok h2 ->
  is_Some (h_env h2 (h_nalloc h2)) -> is_Some (h_env h2 (S (h_nalloc h2))) ->
  bytes_ok d -> (0 < length d <= 1501)%nat -> arrives line2 (frame d ++ tl) -> (length d + 2 <= fuel)%nat ->
  slipif_output (Some p1) addr (Slip h1 l1) = Done (ERR_OK, Slip h1 (sends (frame d) l1))
  /\ exists q xs h' line', slipif_input fuel (Slip h2 line2) = Done (Some q, Slip h' line')
    /\ packet h' (Some q) xs d /\ arrives line' tl
    /\ (forall l, l ∈ xs -> h_pbufs h2 !! l = None /\ h_blocks h2 !! l = None)
    /\ (forall l, is_Some (h_pbufs h2 !! l) -> h_pbufs h' !! l = h_pbufs h2 !! l)
    /\ (forall l, is_Some (h_blocks h2 !! l) -> h_blocks h' !! l = h_blocks h2 !! l).
Proof.
  intros Hp Hok He1 He2 Hd Hl Ha Hf. split; [by eapply slipif_output_run|]. by apply slipif_input_run.
Qed.
End receiver.

(** ** An example: a line as the octets to be read and those sent so far *)
Definition ex_sio : Sio := {|
  line := list Z * list Z;
  sio_send c l := (fst l, snd l ++ [c]);
  sio_recv l := match fst l with c :: cs => Done (c, (cs, snd l)) | [] => Halt NoFuel end;
  sio_open num := Some ([], [])
|}.
Lemma ex_sio_recv (l : @line ex_sio) c cs : fst l = c :: cs ->
  exists l', @sio_recv ex_sio l = Done (c, l') /\ fst l' = cs.
Proof. destruct l as [i o]. cbn. intros ->. by exists (cs, o). Qed.
Definition ex_sio_ok : @SioOk ex_sio := {| arrives (l : @line ex_sio) cs := fst l = cs; arrives_recv := ex_sio_recv |}.

Definition ex_slip_sender : heap :=
  Heap {[1%positive := Block 16 [1; 192; 219; 7]]} {[1%positive := Pbuf None (Some (Ptr 1 16)) 4 4 PBUF_RAM 0 1]}
    2 0 (fun _ => None) [].
Definition ex_slip_receiver : heap := Heap ∅ ∅ 1 0 (fun _ => Some (fun _ => 0)) [].

Lemma slip_roundtrip_witness :
  @slipif_output ex_sio (Some 1%positive) 0 (@Slip ex_sio ex_slip_sender ([], []))
  = Done (ERR_OK, @Slip ex_sio ex_slip_sender ([], [192; 1; 219; 220; 219; 221; 7; 192]))
  /\ exists q xs h', @slipif_input memp_core ex_sio 6 (@Slip ex_sio ex_slip_receiver ([192; 1; 219; 220; 219; 221; 7; 192; 5], []))
     = Done (Some q, @Slip ex_sio h' ([5], [])) /\ packet h' (Some q) xs [1; 192; 219; 7].
Proof.
  destruct (@slip_roundtrip ex_sio ex_sio_ok ex_slip_sender 1 [1%positive] ([], []) 0 [1; 192; 219; 7]
    ex_slip_receiver ([192; 1; 219; 220; 219; 221; 7; 192; 5], []) [5] 6) as (E & q & xs & h' & [i o] & E' & Hp & Ha & _).
  - apply (read_packet_sound 2). vm_compute. reflexivity.
  - apply h_okb_sound. vm_compute. reflexivity.
  - by eexists.
  - by eexists.
  - repeat constructor; unfold is_u8; lia.
  - cbn. lia.
  - reflexivity.
  - cbn. lia.
  - split; [exact E|]. exists q, xs, h'. cbn in Ha. subst i. split; [|exact Hp].
    rewrite E'. do 3 f_equal. apply (f_equal (fun r => match r with Done (_, s) => snd (@sl_line ex_sio s) | _ => o end)) in E'.
    cbn [sl_line snd] in E'. rewrite <- E'. vm_compute. reflexivity.
Defined.
