(* ===== verification/PppFsm.v ===== *)
(** * The control-protocol automaton of PPP (netif/ppp/fsm.c)

    Link control and network control protocols negotiate with this automaton;
    what they negotiate is in the callbacks.  The state is that of one link:
    the structure, its timer, the receive unit of the peer, and what was done
    to the outside, oldest first. *)
From S2P Require Import Prelude Stack TcpBase.
#[local] Open Scope string_scope.
#[local] Open Scope list_scope.
#[local] Open Scope Z_scope.

(** ** Data (fsm.h, ppp.h) *)
Definition HEADERLEN : Z := 4.
Definition CONFREQ : Z := 1.
Definition CONFACK : Z := 2.
Definition CONFNAK : Z := 3.
Definition CONFREJ : Z := 4.
Definition TERMREQ : Z := 5.
Definition TERMACK : Z := 6.
Definition CODEREJ : Z := 7.

Inductive link_state :=
| LS_INITIAL | LS_STARTING | LS_CLOSED | LS_STOPPED | LS_CLOSING | LS_STOPPING
| LS_REQSENT | LS_ACKRCVD | LS_ACKSENT | LS_OPENED.
#[export] Instance link_state_eq_dec : EqDecision link_state.
Proof. solve_decision. Defined.
Definition ls_is (a b : link_state) : bool := bool_decide (a = b).

Definition OPT_PASSIVE : Z := 1.
Definition OPT_RESTART : Z := 2.
Definition OPT_SILENT : Z := 4.

Record fsm := Fsm {
  f_unit : Z; f_protocol : Z;          (* int, u_short *)
  f_state : link_state;
  f_flags : Z;
  f_id : Z; f_reqid : Z;               (* u_char *)
  f_seen_ack : bool;
  f_timeouttime : Z; f_maxconfreqtransmits : Z; f_retransmits : Z;
  f_maxtermtransmits : Z; f_nakloops : Z; f_maxnakloops : Z;  (* int *)
  f_term_reason : option (list Z); f_term_reason_len : Z
}.
#[export] Instance eta_fsm : Eta fsm := fun r =>
  Fsm (f_unit r) (f_protocol r) (f_state r) (f_flags r) (f_id r) (f_reqid r) (f_seen_ack r)
    (f_timeouttime r) (f_maxconfreqtransmits r) (f_retransmits r) (f_maxtermtransmits r)
    (f_nakloops r) (f_maxnakloops r) (f_term_reason r) (f_term_reason_len r).

(** What the outside sees: packets given to pppWrite and notifications. *)
Inductive notice := Up | Down | Starting | Finished.
Inductive output := Write (pd : Z) (pkt : list Z) | Notify (n : notice).

Record link := Link {
  lk_fsm : fsm;
  lk_timer : option Z;       (* the pending call of fsm_timeout, in milliseconds *)
  lk_mru : Z;                (* peer_mru[f->unit] *)
  lk_out : list output
}.
#[export] Instance eta_link : Eta link := fun r => Link (lk_fsm r) (lk_timer r) (lk_mru r) (lk_out r).

(** struct fsm_callbacks, for one protocol; a null pointer is [None].  The
    buffers that a callback reads or rewrites are values: [addci] gives the
    options it wrote, [reqci] the code and the options of the reply, [extcode]
    its result and the buffer. *)
Class FsmCallbacks := {
  resetci : option (M link unit);
  cilen : option (M link Z);
  addci : option (Z -> M link (list Z));
  ackci : option (list Z -> M link Z);
  nakci : option (list Z -> M link Z);
  rejci : option (list Z -> M link Z);
  reqci : option (list Z -> bool -> M link (Z * list Z));
  up : option (M link unit);
  down : option (M link unit);
  starting : option (M link unit);
  finished : option (M link unit);
  retransmit : option (M link unit);
  extcode : option (Z -> Z -> list Z -> M link (Z * list Z))
}.

Section fsm.
Context {CB : FsmCallbacks}.

Definition getf : M link fsm := gets lk_fsm.
Definition updf (g : fsm -> fsm) : M link unit := modify (fun s => s <| lk_fsm := g (lk_fsm s) |>).
Definition set_state (st : link_state) : M link unit := updf (fun f => f <| f_state := st |>).
Definition call (c : option (M link unit)) : M link unit := match c with Some m => m | None => mret tt end.

(** [TIMEOUT] and [UNTIMEOUT] of ppp.h: a new timeout replaces a pending one. *)
Definition TIMEOUT : M link unit :=
  f ← getf; modify (fun s => s <| lk_timer := Some (u32 (f_timeouttime f * 1000)) |>).
Definition UNTIMEOUT : M link unit := modify (fun s => s <| lk_timer := None |>).

Definition pppWrite (pd : Z) (pkt : list Z) : M link unit :=
  modify (fun s => s <| lk_out := lk_out s ++ [Write pd pkt] |>).

(** [MAKEHEADER], [PUTCHAR] and [PUTSHORT] *)
Definition putchar (c : Z) : list Z := [u8 c].
Definition putshort (s : Z) : list Z := [u8 (Z.shiftr s 8); u8 (Z.land s 0xff)].
Definition makeheader (t : Z) : list Z := putchar 0xff ++ putchar 0x03 ++ putshort t.

(** ** fsm_sdata *)
Definition fsm_sdata (code id : Z) (data : list Z) (datalen : Z) : M link unit :=
  f ← getf;
  s ← get;
  let datalen := if lk_mru s - HEADERLEN <? datalen then lk_mru s - HEADERLEN else datalen in
  (* a negative length or one beyond the data: BCOPY leaves the buffers *)
  if (datalen <? 0) || (Z.of_nat (length data) <? datalen) then halt UB
  else
    let outlen := datalen + HEADERLEN in
    pppWrite (f_unit f)
      (makeheader (f_protocol f) ++ putchar code ++ putchar id ++ putshort outlen ++ take (Z.to_nat datalen) data).

(** [f->reqid = ++f->id] as an argument *)
Definition next_reqid : M link Z :=
  updf (fun f => let id := u8 (f_id f + 1) in f <| f_id := id |> <| f_reqid := id |>);;
  f ← getf; mret (f_reqid f).

(** [fsm_sdata(f, TERMREQ, f->reqid = ++f->id, f->term_reason, f->term_reason_len)] *)
Definition send_termreq : M link unit :=
  id ← next_reqid;
  f ← getf;
  fsm_sdata TERMREQ id (default [] (f_term_reason f)) (f_term_reason_len f).

(** ** fsm_sconfreq *)
Definition fsm_sconfreq (retransmit : bool) : M link unit :=
  f ← getf;
  when (negb (ls_is (f_state f) LS_REQSENT) && negb (ls_is (f_state f) LS_ACKRCVD) && negb (ls_is (f_state f) LS_ACKSENT))
    (call resetci;; updf (fun f => f <| f_nakloops := 0 |>));;
  when (negb retransmit)
    (updf (fun f => f <| f_retransmits := f_maxconfreqtransmits f |>);; _ ← next_reqid; mret tt);;
  updf (fun f => f <| f_seen_ack := false |>);;
  ci ← match cilen, addci with
       | Some len, Some add =>
           n ← len;
           s ← get;
           let n := if lk_mru s - HEADERLEN <? n then lk_mru s - HEADERLEN else n in
           add n
       | _, _ => mret []
       end;
  f ← getf;
  fsm_sdata CONFREQ (f_reqid f) ci (Z.of_nat (length ci));;
  updf (fun f => f <| f_retransmits := f_retransmits f - 1 |>);;
  TIMEOUT.

(** ** Calls from above and below *)
Definition FSM_DEFTIMEOUT : Z := 6.
Definition FSM_DEFMAXCONFREQS : Z := 10.
Definition FSM_DEFMAXTERMREQS : Z := 2.
Definition FSM_DEFMAXNAKLOOPS : Z := 5.

Definition fsm_init : M link unit :=
  updf (fun f => f <| f_state := LS_INITIAL |> <| f_flags := 0 |> <| f_id := 0 |>
    <| f_timeouttime := FSM_DEFTIMEOUT |> <| f_maxconfreqtransmits := FSM_DEFMAXCONFREQS |>
    <| f_maxtermtransmits := FSM_DEFMAXTERMREQS |> <| f_maxnakloops := FSM_DEFMAXNAKLOOPS |>
    <| f_term_reason_len := 0 |>).

(** The first configure-request, or waiting for one. *)
Definition start_negotiation : M link unit :=
  f ← getf;
  if has (f_flags f) OPT_SILENT then set_state LS_STOPPED
  else fsm_sconfreq false;; set_state LS_REQSENT.

Definition fsm_lowerup : M link unit :=
  f ← getf;
  match f_state f with
  | LS_INITIAL => set_state LS_CLOSED
  | LS_STARTING => start_negotiation
  | _ => mret tt
  end.

Definition fsm_lowerdown : M link unit :=
  f ← getf;
  match f_state f with
  | LS_CLOSED => set_state LS_INITIAL
  | LS_STOPPED => set_state LS_STARTING;; call starting
  | LS_CLOSING => set_state LS_INITIAL;; UNTIMEOUT
  | LS_STOPPING | LS_REQSENT | LS_ACKRCVD | LS_ACKSENT => set_state LS_STARTING;; UNTIMEOUT
  | LS_OPENED => call down;; set_state LS_STARTING
  | _ => mret tt
  end.

Definition restart : M link unit :=
  f ← getf; when (has (f_flags f) OPT_RESTART) (fsm_lowerdown;; fsm_lowerup).
Definition fsm_open : M link unit :=
  f ← getf;
  match f_state f with
  | LS_INITIAL => set_state LS_STARTING;; call starting
  | LS_CLOSED => start_negotiation
  | LS_CLOSING => set_state LS_STOPPING;; restart
  | LS_STOPPED | LS_OPENED => restart
  | _ => mret tt
  end.

(** Init restart counter, send Terminate-Request. *)
Definition terminate (st : link_state) : M link unit :=
  updf (fun f => f <| f_retransmits := f_maxtermtransmits f |>);;
  send_termreq;;
  TIMEOUT;;
  updf (fun f => f <| f_retransmits := f_retransmits f - 1 |>);;
  set_state st.

Definition fsm_close (reason : option (list Z)) : M link unit :=
  updf (fun f => f <| f_term_reason := reason |>
    <| f_term_reason_len := match reason with Some r => s32 (Z.of_nat (length r)) | None => 0 end |>);;
  f ← getf;
  match f_state f with
  | LS_STARTING => set_state LS_INITIAL
  | LS_STOPPED => set_state LS_CLOSED
  | LS_STOPPING => set_state LS_CLOSING
  | LS_REQSENT | LS_ACKRCVD | LS_ACKSENT => UNTIMEOUT;; terminate LS_CLOSING
  | LS_OPENED => call down;; terminate LS_CLOSING
  | _ => mret tt
  end.

Definition fsm_protreject : M link unit :=
  f ← getf;
  match f_state f with
  | LS_CLOSING => UNTIMEOUT;; set_state LS_CLOSED;; call finished
  | LS_CLOSED => set_state LS_CLOSED;; call finished
  | LS_STOPPING | LS_REQSENT | LS_ACKRCVD | LS_ACKSENT => UNTIMEOUT;; set_state LS_STOPPED;; call finished
  | LS_STOPPED => set_state LS_STOPPED;; call finished
  | LS_OPENED => call down;; terminate LS_STOPPING
  | _ => mret tt
  end.

(** ** fsm_timeout *)
Definition fsm_timeout : M link unit :=
  f ← getf;
  match f_state f with
  | LS_CLOSING | LS_STOPPING =>
      if f_retransmits f <=? 0 then
        set_state (if ls_is (f_state f) LS_CLOSING then LS_CLOSED else LS_STOPPED);;
        call finished
      else
        send_termreq;;
        TIMEOUT;;
        updf (fun f => f <| f_retransmits := f_retransmits f - 1 |>)
  | LS_REQSENT | LS_ACKRCVD | LS_ACKSENT =>
      if f_retransmits f <=? 0 then
        set_state LS_STOPPED;;
        when (negb (has (f_flags f) OPT_PASSIVE)) (call finished)
      else
        call retransmit;;
        fsm_sconfreq true;;
        f ← getf;
        when (ls_is (f_state f) LS_ACKRCVD) (set_state LS_REQSENT)
  | _ => mret tt
  end.

(** ** Packets *)
(** The reply to a configure-request, and what follows from it. *)
Definition answer_confreq (id : Z) (inp : list Z) : M link unit :=
  f ← getf;
  r ← match reqci with
      | Some check => check inp (f_maxnakloops f <=? f_nakloops f)
      | None => mret (if negb (Z.of_nat (length inp) =? 0) then CONFREJ else CONFACK, inp)
      end;
  let (code, reply) := (r : Z * list Z) in
  fsm_sdata (u8 code) id reply (Z.of_nat (length reply));;
  f ← getf;
  if code =? CONFACK then
    (if ls_is (f_state f) LS_ACKRCVD then UNTIMEOUT;; set_state LS_OPENED;; call up
     else set_state LS_ACKSENT);;
    updf (fun f => f <| f_nakloops := 0 |>)
  else
    when (negb (ls_is (f_state f) LS_ACKRCVD)) (set_state LS_REQSENT);;
    when (code =? CONFNAK) (updf (fun f => f <| f_nakloops := f_nakloops f + 1 |>)).

Definition fsm_rconfreq (id : Z) (inp : list Z) : M link unit :=
  f ← getf;
  match f_state f with
  | LS_CLOSED => fsm_sdata TERMACK id [] 0
  | LS_CLOSING | LS_STOPPING => mret tt
  | LS_OPENED => call down;; fsm_sconfreq false;; answer_confreq id inp
  | LS_STOPPED => fsm_sconfreq false;; set_state LS_REQSENT;; answer_confreq id inp
  | _ => answer_confreq id inp
  end.

Definition fsm_rconfack (id : Z) (inp : list Z) : M link unit :=
  f ← getf;
  if negb (id =? f_reqid f) || f_seen_ack f then mret tt
  else
    good ← match ackci with
           | Some m => r ← m inp; mret (negb (r =? 0))
           | None => mret (Z.of_nat (length inp) =? 0)
           end;
    if negb good then mret tt
    else
      updf (fun f => f <| f_seen_ack := true |>);;
      f ← getf;
      match f_state f with
      | LS_CLOSED | LS_STOPPED => fsm_sdata TERMACK (u8 id) [] 0
      | LS_REQSENT => updf (fun f => f <| f_state := LS_ACKRCVD |> <| f_retransmits := f_maxconfreqtransmits f |>)
      | LS_ACKRCVD => UNTIMEOUT;; fsm_sconfreq false;; set_state LS_REQSENT
      | LS_ACKSENT =>
          UNTIMEOUT;;
          updf (fun f => f <| f_state := LS_OPENED |> <| f_retransmits := f_maxconfreqtransmits f |>);;
          call up
      | LS_OPENED => call down;; fsm_sconfreq false;; set_state LS_REQSENT
      | _ => mret tt
      end.

Definition fsm_rconfnakrej (code id : Z) (inp : list Z) : M link unit :=
  f ← getf;
  if negb (id =? f_reqid f) || f_seen_ack f then mret tt
  else
    let proc := if code =? CONFNAK then nakci else rejci in
    ret ← match proc with Some m => m inp | None => mret 0 end;
    if ret =? 0 then mret tt
    else
      updf (fun f => f <| f_seen_ack := true |>);;
      f ← getf;
      match f_state f with
      | LS_CLOSED | LS_STOPPED => fsm_sdata TERMACK (u8 id) [] 0
      | LS_REQSENT | LS_ACKSENT =>
          UNTIMEOUT;;
          (if ret <? 0 then set_state LS_STOPPED else fsm_sconfreq false)
      | LS_ACKRCVD => UNTIMEOUT;; fsm_sconfreq false;; set_state LS_REQSENT
      | LS_OPENED => call down;; fsm_sconfreq false;; set_state LS_REQSENT
      | _ => mret tt
      end.

Definition fsm_rtermreq (id : Z) : M link unit :=
  f ← getf;
  match f_state f with
  | LS_ACKRCVD | LS_ACKSENT => set_state LS_REQSENT
  | LS_OPENED =>
      call down;;
      updf (fun f => f <| f_retransmits := 0 |> <| f_state := LS_STOPPING |>);;
      TIMEOUT
  | _ => mret tt
  end;;
  fsm_sdata TERMACK (u8 id) [] 0.

Definition fsm_rtermack : M link unit :=
  f ← getf;
  match f_state f with
  | LS_CLOSING => UNTIMEOUT;; set_state LS_CLOSED;; call finished
  | LS_STOPPING => UNTIMEOUT;; set_state LS_STOPPED;; call finished
  | LS_ACKRCVD => set_state LS_REQSENT
  | LS_OPENED => call down;; fsm_sconfreq false
  | _ => mret tt
  end.

Definition fsm_rcoderej (inp : list Z) : M link unit :=
  if Z.of_nat (length inp) <? HEADERLEN then mret tt
  else
    f ← getf;
    when (ls_is (f_state f) LS_ACKRCVD) (set_state LS_REQSENT).

(** The [l] bytes of [inpacket]; [l < HEADERLEN] compares with a size_t. *)
Definition fsm_input (inpacket : list Z) (l : Z) : M link unit :=
  if u32 l <? HEADERLEN then mret tt
  else
    code ← deref (inpacket !! 0%nat);
    id ← deref (inpacket !! 1%nat);
    hi ← deref (inpacket !! 2%nat);
    lo ← deref (inpacket !! 3%nat);
    let len := Z.lor (Z.shiftl hi 8) lo in
    if len <? HEADERLEN then mret tt
    else if l <? len then mret tt
    else
      let len := len - HEADERLEN in
      f ← getf;
      if ls_is (f_state f) LS_INITIAL || ls_is (f_state f) LS_STARTING then mret tt
      else if Z.of_nat (length inpacket) <? len + HEADERLEN then halt UB
      else
        let inp := take (Z.to_nat len) (drop 4 inpacket) in
        if code =? CONFREQ then fsm_rconfreq id inp
        else if code =? CONFACK then fsm_rconfack id inp
        else if (code =? CONFNAK) || (code =? CONFREJ) then fsm_rconfnakrej code id inp
        else if code =? TERMREQ then fsm_rtermreq id
        else if code =? TERMACK then fsm_rtermack
        else if code =? CODEREJ then fsm_rcoderej inp
        else
          r ← match extcode with Some m => m code id inp | None => mret (0, inp) end;
          let (ret, inp) := (r : Z * list Z) in
          when (ret =? 0)
            (updf (fun f => f <| f_id := u8 (f_id f + 1) |>);;
             f ← getf;
             fsm_sdata CODEREJ (f_id f) (take 4 inpacket ++ inp) (len + HEADERLEN)).
End fsm.
