(* ===== verification/FsmProps.v ===== *)
(** * The automaton of RFC 1661

    fsm.c against the transition table of the standard, the timer that keeps a
    negotiation alive, and the end of a negotiation that nobody answers. *)
From S2P Require Import Prelude Stack TcpBase PppFsm.
#[local] Open Scope string_scope.
#[local] Open Scope list_scope.
#[local] Open Scope Z_scope.

(** ** The table of RFC 1661, section 4.1 *)

(** This-layer-up, -down, -started and -finished; the packets that are sent;
    and what is done to the restart counter: Initialize-Restart-Count, to
    Max-Configure ([irc]) or to Max-Terminate ([irt]), and Zero-Restart-Count.
    Every request that is sent counts down. *)
Inductive action := tlu | tld | tls | tlf | scr | sca | scn | str | sta | scj | irc | irt | zrc.
Inductive rfc_event :=
| RUp | RDown | ROpen | RClose | TOp | TOn | RCRp | RCRn | RCA | RCN | RTR | RTA | RUC | RXJp | RXJn.

Definition rfc1661 (st : link_state) (e : rfc_event) : list action * link_state :=
  match e, st with
  | RUp, LS_INITIAL => ([], LS_CLOSED)
  | RUp, LS_STARTING => ([irc; scr], LS_REQSENT)
  | RDown, LS_CLOSED | RDown, LS_CLOSING => ([], LS_INITIAL)
  | RDown, LS_STOPPED => ([tls], LS_STARTING)
  | RDown, LS_STOPPING | RDown, LS_REQSENT | RDown, LS_ACKRCVD | RDown, LS_ACKSENT => ([], LS_STARTING)
  | RDown, LS_OPENED => ([tld], LS_STARTING)
  | ROpen, LS_INITIAL => ([tls], LS_STARTING)
  | ROpen, LS_CLOSED => ([irc; scr], LS_REQSENT)
  | ROpen, LS_CLOSING => ([], LS_STOPPING)
  | RClose, LS_STARTING => ([tlf], LS_INITIAL)
  | RClose, LS_STOPPED => ([], LS_CLOSED)
  | RClose, LS_STOPPING => ([], LS_CLOSING)
  | RClose, LS_REQSENT | RClose, LS_ACKRCVD | RClose, LS_ACKSENT => ([irt; str], LS_CLOSING)
  | RClose, LS_OPENED => ([tld; irt; str], LS_CLOSING)
  | TOp, LS_CLOSING | TOp, LS_STOPPING => ([str], st)
  | TOp, LS_REQSENT | TOp, LS_ACKRCVD => ([scr], LS_REQSENT)
  | TOp, LS_ACKSENT => ([scr], LS_ACKSENT)
  | TOn, LS_CLOSING => ([tlf], LS_CLOSED)
  | TOn, LS_STOPPING | TOn, LS_REQSENT | TOn, LS_ACKRCVD | TOn, LS_ACKSENT => ([tlf], LS_STOPPED)
  | RCRp, LS_CLOSED | RCRn, LS_CLOSED => ([sta], LS_CLOSED)
  | RCRp, LS_STOPPED => ([irc; scr; sca], LS_ACKSENT)
  | RCRp, LS_REQSENT | RCRp, LS_ACKSENT => ([sca], LS_ACKSENT)
  | RCRp, LS_ACKRCVD => ([sca; tlu], LS_OPENED)
  | RCRp, LS_OPENED => ([tld; scr; sca], LS_ACKSENT)
  | RCRn, LS_STOPPED => ([irc; scr; scn], LS_REQSENT)
  | RCRn, LS_REQSENT | RCRn, LS_ACKSENT => ([scn], LS_REQSENT)
  | RCRn, LS_ACKRCVD => ([scn], LS_ACKRCVD)
  | RCRn, LS_OPENED => ([tld; scr; scn], LS_REQSENT)
  | RCA, LS_CLOSED | RCA, LS_STOPPED | RCN, LS_CLOSED | RCN, LS_STOPPED => ([sta], st)
  | RCA, LS_REQSENT => ([irc], LS_ACKRCVD)
  | RCA, LS_ACKRCVD | RCN, LS_ACKRCVD => ([scr], LS_REQSENT)
  | RCA, LS_ACKSENT => ([irc; tlu], LS_OPENED)
  | RCA, LS_OPENED | RCN, LS_OPENED => ([tld; scr], LS_REQSENT)
  | RCN, LS_REQSENT | RCN, LS_ACKSENT => ([irc; scr], st)
  | RTR, LS_INITIAL | RTR, LS_STARTING => ([], st)
  | RTR, LS_ACKRCVD | RTR, LS_ACKSENT => ([sta], LS_REQSENT)
  | RTR, LS_OPENED => ([tld; zrc; sta], LS_STOPPING)
  | RTR, _ => ([sta], st)
  | RTA, LS_CLOSING => ([tlf], LS_CLOSED)
  | RTA, LS_STOPPING => ([tlf], LS_STOPPED)
  | RTA, LS_ACKRCVD => ([], LS_REQSENT)
  | RTA, LS_OPENED => ([tld; scr], LS_REQSENT)
  | RUC, LS_INITIAL | RUC, LS_STARTING => ([], st)
  | RUC, _ => ([scj], st)
  | RXJp, LS_ACKRCVD => ([], LS_REQSENT)
  | RXJn, LS_CLOSED | RXJn, LS_CLOSING => ([tlf], LS_CLOSED)
  | RXJn, LS_STOPPED | RXJn, LS_STOPPING | RXJn, LS_REQSENT | RXJn, LS_ACKRCVD | RXJn, LS_ACKSENT => ([tlf], LS_STOPPED)
  | RXJn, LS_OPENED => ([tld; irt; str], LS_STOPPING)
  | _, _ => ([], st)
  end.

(** The restart timer runs in these states. *)
Definition negotiating (st : link_state) : bool :=
  match st with LS_CLOSING | LS_STOPPING | LS_REQSENT | LS_ACKRCVD | LS_ACKSENT => true | _ => false end.

(** The action that an output is. *)
Definition view (o : output) : option action :=
  match o with
  | Notify Up => Some tlu
  | Notify Down => Some tld
  | Notify Starting => Some tls
  | Notify Finished => Some tlf
  | Write _ pkt =>
      match pkt !! 4%nat with
      | Some 1 => Some scr | Some 2 => Some sca | Some 3 | Some 4 => Some scn
      | Some 5 => Some str | Some 6 => Some sta | Some 7 => Some scj | _ => None
      end
  end.
Definition acts (l : list output) : list action := omap view l.

(** The restart counter after some actions. *)
Definition count (f : fsm) (c : Z) (a : action) : Z :=
  match a with
  | irc => f_maxconfreqtransmits f
  | irt => f_maxtermtransmits f
  | zrc => 0
  | scr | str => c - 1
  | _ => c
  end.
Definition counted (f : fsm) (a : list action) (c : Z) : Z := foldl (count f) c a.

(** Here fsm.c initialises the counter, and the standard does not: a new
    request after an answer to one that has been answered already, and
    negotiation that starts again in Opened. *)
Definition counts_anew (st : link_state) (e : rfc_event) : bool :=
  match st, e with
  | LS_ACKRCVD, (RCA | RCN) | LS_OPENED, (RCRp | RCRn | RCA | RCN | RTA) => true
  | _, _ => false
  end.
Definition anew (a : list action) : list action := a ≫= fun x => match x with scr => [irc; scr] | _ => [x] end.
Definition rfc1661_anew (st : link_state) (e : rfc_event) : list action * link_state :=
  let '(a, st') := rfc1661 st e in (if counts_anew st e then anew a else a, st').

(** The table of fsm.c: the options silent, passive and restart, which the
    standard allows; closing in Starting says nothing to the layer below; a
    Terminate-Ack in Opened leaves the state. *)
Definition fsm_table (fl : Z) (st : link_state) (e : rfc_event) : list action * link_state :=
  match e, st with
  | RUp, LS_STARTING | ROpen, LS_CLOSED => if has fl OPT_SILENT then ([], LS_STOPPED) else rfc1661 st e
  | ROpen, LS_CLOSING | ROpen, LS_STOPPED | ROpen, LS_OPENED =>
      if has fl OPT_RESTART then
        let '(a, st1) := rfc1661 (rfc1661 st ROpen).2 RDown in
        let '(b, st2) := if has fl OPT_SILENT then ([], LS_STOPPED) else rfc1661 st1 RUp in (a ++ b, st2)
      else rfc1661 st e
  | TOn, LS_REQSENT | TOn, LS_ACKRCVD | TOn, LS_ACKSENT =>
      if has fl OPT_PASSIVE then ([], LS_STOPPED) else rfc1661 st e
  | RClose, LS_STARTING => ([], LS_INITIAL)
  | RTA, LS_OPENED => ((rfc1661_anew st e).1, LS_OPENED)
  | _, _ => rfc1661_anew st e
  end.
(** What an event does; one that is discarded does nothing. *)
Definition respond (fl : Z) (st : link_state) (e : option rfc_event) : list action * link_state :=
  match e with Some r => fsm_table fl st r | None => ([], st) end.
(** Whether the restart timer runs afterwards. *)
Definition runs (fl : Z) (st : link_state) (e : option rfc_event) : bool :=
  match e, st with Some RTA, LS_OPENED => true | _, _ => negotiating (respond fl st e).2 end.

(** ** What the callbacks may do *)
Definition note (n : notice) (s : link) : link := s <| lk_out := lk_out s ++ [Notify n] |>.
Definition notifies (c : option (M link unit)) (n : notice) : Prop :=
  match c with Some m => forall s, m s = Done (tt, note n s) | None => False end.
Definition silent (c : option (M link unit)) : Prop :=
  match c with Some m => forall s, m s = Done (tt, s) | None => True end.

(** The protocol above tells the world that it is up, down, started or
    finished - the last two if it has callbacks for them; IPCP has none for
    starting - and answers what it is asked; it does not call back. *)
Class Protocol `{FsmCallbacks} := {
  pr_up : notifies up Up;
  pr_down : notifies down Down;
  pr_starting : starting = None \/ notifies starting Starting;
  pr_finished : finished = None \/ notifies finished Finished;
  pr_resetci : silent resetci;
  pr_retransmit : silent retransmit;
  pr_cilen m : cilen = Some m -> forall s, exists n, m s = Done (n, s);
  pr_addci m : addci = Some m -> forall n s, exists ci, m n s = Done (ci, s);
  on_confreq : list Z -> bool -> Z * list Z;
  pr_reqci : match reqci with
    | Some m => forall inp r s, m inp r s = Done (on_confreq inp r, s)
    | None => forall inp r, on_confreq inp r = (if negb (Z.of_nat (length inp) =? 0) then CONFREJ else CONFACK, inp)
    end;
  pr_code inp r : let c := (on_confreq inp r).1 in c = CONFACK \/ c = CONFNAK \/ c = CONFREJ;
  on_ack : list Z -> bool;
  pr_ackci : match ackci with
    | Some m => forall inp s, exists r, m inp s = Done (r, s) /\ on_ack inp = negb (r =? 0)
    | None => forall inp, on_ack inp = (Z.of_nat (length inp) =? 0)
    end;
  on_nak : Z -> list Z -> bool;
  pr_nakrej code : match (if code =? CONFNAK then nakci else rejci) with
    | Some m => forall inp s, exists r, m inp s = Done (r, s) /\ 0 <= r /\ on_nak code inp = negb (r =? 0)
    | None => forall inp, on_nak code inp = false
    end;
  on_ext : Z -> Z -> list Z -> bool;
  pr_extcode : match extcode with
    | Some m => forall code id inp s, exists r, m code id inp s = Done ((r, inp), s) /\ on_ext code id inp = negb (r =? 0)
    | None => forall code id inp, on_ext code id inp = false
    end
}.

(** ** Running the code *)

(** The peer's receive unit has room for a header, the reason is as long as
    the structure says, and the timer was set with the time it says. *)
Record link_ok (s : link) : Prop := {
  lo_mru : HEADERLEN <= lk_mru s;
  lo_reason : 0 <= f_term_reason_len (lk_fsm s) <= Z.of_nat (length (default [] (f_term_reason (lk_fsm s))));
  lo_timer t : lk_timer s = Some t -> t = u32 (f_timeouttime (lk_fsm s) * 1000)
}.

(** The actions that the outside can see: packets, and those with a callback. *)
Definition heard {CB : FsmCallbacks} (a : action) : bool :=
  match a with tls => is_some starting | tlf => is_some finished | irc | irt | zrc => false | _ => true end.
Definition said {CB : FsmCallbacks} (a : list action) : list action := List.filter heard a.

(** From [s0] the code has come to [s] with the actions [a], in the state [st],
    with a timer or without, and with the restart counter that they give. *)
Record came {CB : FsmCallbacks} (s0 s : link) (st : link_state) (armed : bool) (a : list action) : Prop := {
  cm_state : f_state (lk_fsm s) = st;
  cm_timer : is_some (lk_timer s) = armed;
  cm_acts : exists l, lk_out s = lk_out s0 ++ l /\ acts l = said a;
  cm_flags : f_flags (lk_fsm s) = f_flags (lk_fsm s0);
  cm_time : f_timeouttime (lk_fsm s) = f_timeouttime (lk_fsm s0);
  cm_count : f_retransmits (lk_fsm s) = counted (lk_fsm s0) a (f_retransmits (lk_fsm s0));
  cm_max : f_maxconfreqtransmits (lk_fsm s) = f_maxconfreqtransmits (lk_fsm s0) /\
    f_maxtermtransmits (lk_fsm s) = f_maxtermtransmits (lk_fsm s0);
  cm_ok : link_ok s
}.

Section running.
Context {CB : FsmCallbacks} {PR : Protocol}.
Implicit Types (Q : unit -> link -> Prop).

Lemma came_start s : link_ok s -> came s s (f_state (lk_fsm s)) (is_some (lk_timer s)) [].
Proof. intros H. split; [done|done| |done..]. exists []. by rewrite app_nil_r. Qed.

Lemma said_app a b : said (a ++ b) = said a ++ said b.
Proof. apply List.filter_app. Qed.

Lemma counted_app f a b c : counted f (a ++ b) c = counted f b (counted f a c).
Proof. apply foldl_app. Qed.
(** Actions without a packet that counts. *)
Definition uncounted (a : list action) : Prop := forall f c, counted f a c = c.

Definition seen (o : output) : list action := match view o with Some x => [x] | None => [] end.
Lemma came_out s0 s s' st armed a o : came s0 s st armed a -> lk_out s' = lk_out s ++ [o] ->
  said (seen o) = seen o -> uncounted (seen o) ->
  lk_fsm s' = lk_fsm s -> lk_timer s' = lk_timer s -> lk_mru s' = lk_mru s ->
  came s0 s' st armed (a ++ seen o).
Proof.
  intros [H1 H2 (l & H3 & H4) H5 H5' HC HM [H6 H7 H8]] Eo Es Eu Ef Et Em. split; rewrite ?Ef, ?Et; try done.
  - exists (l ++ [o]). rewrite Eo, H3, app_assoc. split; [done|]. unfold acts in *. rewrite omap_app, H4, said_app, Es. by cbn.
  - by rewrite counted_app, Eu.
  - split; [by rewrite Em|by rewrite Ef|by rewrite Et, Ef].
Qed.

(** A change of the structure that leaves the options, the times and the
    reason, and does [b] to the restart counter. *)
Definition minor (g : fsm -> fsm) (st : link_state -> link_state) (b : list action) : Prop := forall f,
  f_state (g f) = st (f_state f) /\ f_flags (g f) = f_flags f /\ f_term_reason (g f) = f_term_reason f /\
  f_term_reason_len (g f) = f_term_reason_len f /\ f_timeouttime (g f) = f_timeouttime f /\
  f_maxconfreqtransmits (g f) = f_maxconfreqtransmits f /\ f_maxtermtransmits (g f) = f_maxtermtransmits f /\
  f_retransmits (g f) = counted f b (f_retransmits f).
Lemma counted_max f f' a c : f_maxconfreqtransmits f = f_maxconfreqtransmits f' ->
  f_maxtermtransmits f = f_maxtermtransmits f' -> counted f a c = counted f' a c.
Proof. intros E1 E2. revert c. induction a as [|x a IH]; intros c; [done|]. unfold counted in *. cbn. rewrite IH. by destruct x; cbn; rewrite ?E1, ?E2. Qed.
Lemma came_counts s0 s st armed a g h b : came s0 s st armed a -> minor g h b -> said b = [] ->
  came s0 (s <| lk_fsm := g (lk_fsm s) |>) (h st) armed (a ++ b).
Proof.
  intros [H1 H2 (l & H3 & H4) H5 H5' HC [HM1 HM2] [H6 H7 H8]] Hg Hb.
  destruct (Hg (lk_fsm s)) as (E1 & E2 & E3 & E4 & E5 & E6 & E7 & E8).
  split; cbn; rewrite ?E1, ?E2, ?E5, ?E6, ?E7, ?H1; try done.
  - exists l. by rewrite said_app, Hb, app_nil_r.
  - rewrite E8, counted_app, HC. by apply counted_max.
  - split; cbn; by rewrite ?E3, ?E4, ?E5.
Qed.
Lemma came_fsm s0 s st armed a g h : came s0 s st armed a -> minor g h [] ->
  came s0 (s <| lk_fsm := g (lk_fsm s) |>) (h st) armed a.
Proof. intros H Hg. rewrite <- (app_nil_r a). by apply came_counts. Qed.
Lemma came_updf s0 s st armed a g h Q : came s0 s st armed a -> minor g h [] ->
  (forall s', came s0 s' (h st) armed a -> Q tt s') -> wp (updf g) s Q.
Proof. intros H Hg HQ. eapply wp_modify, HQ, came_fsm; done. Qed.
Lemma came_updc s0 s st armed a g h b Q : came s0 s st armed a -> minor g h b -> said b = [] ->
  (forall s', came s0 s' (h st) armed (a ++ b) -> Q tt s') -> wp (updf g) s Q.
Proof. intros H Hg Hb HQ. eapply wp_modify, HQ, came_counts; done. Qed.
Lemma came_set_state s0 s st armed a st' Q : came s0 s st armed a ->
  (forall s', came s0 s' st' armed a -> Q tt s') -> wp (set_state st') s Q.
Proof. intros H HQ. by apply (came_updf s0 s st armed a _ (fun _ => st')). Qed.
Lemma came_armed s0 s st armed a : came s0 s st armed a ->
  came s0 (s <| lk_timer := Some (u32 (f_timeouttime (lk_fsm s) * 1000)) |>) st true a.
Proof. intros [H1 H2 H3 H5 H5' HC HM [H6 H7 H8]]. do 2 (split; try done). cbn. by intros t [= <-]. Qed.
Lemma came_timeout s0 s st armed a Q : came s0 s st armed a ->
  (forall s', came s0 s' st true a -> Q tt s') -> wp TIMEOUT s Q.
Proof. intros H HQ. eapply wp_bind, wp_gets, wp_modify, HQ, came_armed, H. Qed.
Lemma came_expired s0 s st armed a : came s0 s st armed a -> came s0 (s <| lk_timer := None |>) st false a.
Proof. intros [H1 H2 H3 H5 H5' HC HM [H6 H7 H8]]. by do 2 (split; try done). Qed.
Lemma came_untimeout s0 s st armed a Q : came s0 s st armed a ->
  (forall s', came s0 s' st false a -> Q tt s') -> wp UNTIMEOUT s Q.
Proof. intros H HQ. by eapply wp_modify, HQ, came_expired. Qed.

Lemma came_notify s0 s st armed a c n Q : notifies c n -> said (seen (Notify n)) = seen (Notify n) -> came s0 s st armed a ->
  (forall s', came s0 s' st armed (a ++ seen (Notify n)) -> Q tt s') -> wp (call c) s Q.
Proof.
  intros Hc Hs H HQ. destruct c as [m|]; [|done]. cbn. unfold wp. rewrite Hc. apply HQ, (came_out s0 s); try done.
  by destruct n.
Qed.
Lemma came_unheard s0 s st armed a b : said b = [] -> uncounted b -> came s0 s st armed a -> came s0 s st armed (a ++ b).
Proof.
  intros Hb Hu [H1 H2 (l & H3 & H4) H5 H5' HC HM H6]. split; try done.
  - exists l. split; [done|]. by rewrite said_app, Hb, app_nil_r.
  - by rewrite counted_app, Hu.
Qed.
Lemma came_up s0 s st armed a Q : came s0 s st armed a ->
  (forall s', came s0 s' st armed (a ++ [tlu]) -> Q tt s') -> wp (call up) s Q.
Proof. intros H HQ. eapply came_notify; [apply pr_up|done|exact H|exact HQ]. Qed.
Lemma came_down s0 s st armed a Q : came s0 s st armed a ->
  (forall s', came s0 s' st armed (a ++ [tld]) -> Q tt s') -> wp (call down) s Q.
Proof. intros H HQ. eapply came_notify; [apply pr_down|done|exact H|exact HQ]. Qed.
Lemma came_starting s0 s st armed a Q : came s0 s st armed a ->
  (forall s', came s0 s' st armed (a ++ [tls]) -> Q tt s') -> wp (call starting) s Q.
Proof.
  intros H HQ. destruct pr_starting as [E|E].
  - rewrite E. apply wp_ret, HQ, came_unheard, H; [|done]. cbn. by rewrite E.
  - eapply came_notify; [exact E| |exact H|exact HQ]. cbn. by destruct starting.
Qed.
Lemma came_finished s0 s st armed a Q : came s0 s st armed a ->
  (forall s', came s0 s' st armed (a ++ [tlf]) -> Q tt s') -> wp (call finished) s Q.
Proof.
  intros H HQ. destruct pr_finished as [E|E].
  - rewrite E. apply wp_ret, HQ, came_unheard, H; [|done]. cbn. by rewrite E.
  - eapply came_notify; [exact E| |exact H|exact HQ]. cbn. by destruct finished.
Qed.
Lemma came_silent s0 s st armed a c Q : silent c -> came s0 s st armed a ->
  (forall s', came s0 s' st armed a -> Q tt s') -> wp (call c) s Q.
Proof. intros Hc H HQ. destruct c as [m|]; [|by apply wp_ret, HQ]. cbn. unfold wp. rewrite Hc. by apply HQ. Qed.

(** What fsm_sdata and fsm_sconfreq leave behind. *)
Definition packet (f : fsm) (code id : Z) (data : list Z) : list Z :=
  makeheader (f_protocol f) ++ putchar code ++ putchar id ++ putshort (Z.of_nat (length data) + HEADERLEN) ++ data.
Definition wrote (code id : Z) (data : list Z) (s : link) : link :=
  s <| lk_out := lk_out s ++ [Write (f_unit (lk_fsm s)) (packet (lk_fsm s) code id data)] |>.
Definition fits (s : link) (data : list Z) : list Z := take (Z.to_nat (lk_mru s - HEADERLEN)) data.

Lemma sdata_run code id data n s : HEADERLEN <= lk_mru s -> 0 <= n <= Z.of_nat (length data) ->
  fsm_sdata code id data n s = Done (tt, wrote code id (fits s (take (Z.to_nat n) data)) s).
Proof.
  intros Hm Hn. unfold fsm_sdata. rewrite (bind_run _ _ _ _ _ (eq_refl : getf s = Done (lk_fsm s, s))).
  rewrite (bind_run _ _ _ _ _ (eq_refl : get s = Done (s, s))). cbv zeta. unfold HEADERLEN in *.
  set (d := if _ <? n then _ else n).
  assert (d = Z.min n (lk_mru s - 4)) as -> by (unfold d; destruct (Z.ltb_spec (lk_mru s - 4) n); lia).
  replace (_ <? 0) with false by (symmetry; apply Z.ltb_ge; lia).
  replace (_ <? Z.min _ _) with false by (symmetry; apply Z.ltb_ge; lia).
  unfold wrote, packet, fits, HEADERLEN. rewrite take_take, length_take. cbn [orb].
  replace (Z.to_nat (Z.min n (lk_mru s - 4))) with (Z.to_nat (lk_mru s - 4) `min` Z.to_nat n)%nat by lia.
  replace (Z.of_nat (_ `min` length data) + 4) with (Z.min n (lk_mru s - 4) + 4) by lia.
  reflexivity.
Qed.

Definition busy (st : link_state) : bool := ls_is st LS_REQSENT || ls_is st LS_ACKRCVD || ls_is st LS_ACKSENT.
Definition requesting (again : bool) (f : fsm) : fsm :=
  let f := if busy (f_state f) then f else f <| f_nakloops := 0 |> in
  let f := if again then f
    else f <| f_retransmits := f_maxconfreqtransmits f |> <| f_id := u8 (f_id f + 1) |> <| f_reqid := u8 (f_id f + 1) |> in
  f <| f_seen_ack := false |>.
Definition requested (again : bool) (ci : list Z) (s : link) : link :=
  let f := requesting again (lk_fsm s) in
  let s' := wrote CONFREQ (f_reqid f) ci (s <| lk_fsm := f |>) in
  s' <| lk_fsm := f <| f_retransmits := f_retransmits f - 1 |> |> <| lk_timer := Some (u32 (f_timeouttime f * 1000)) |>.
Lemma silent_run c s : silent c -> call c s = Done (tt, s).
Proof. by destruct c as [m|]; cbn. Qed.
Lemma notify_run c n s : notifies c n -> call c s = Done (tt, note n s).
Proof. by destruct c as [m|]; cbn. Qed.

(** The options of our own request are the callbacks' to choose. *)
Definition options : M link (list Z) :=
  match cilen, addci with
  | Some len, Some add =>
      n ← len; s ← get;
      let n := if lk_mru s - HEADERLEN <? n then lk_mru s - HEADERLEN else n in add n
  | _, _ => mret []
  end.
Lemma options_run s : exists ci, options s = Done (ci, s).
Proof.
  unfold options. destruct cilen as [ml|] eqn:El; [|by exists []]. destruct addci as [ma|] eqn:Ea; [|by exists []].
  destruct (pr_cilen ml El s) as [n En].
  destruct (pr_addci ma Ea (if lk_mru s - HEADERLEN <? n then lk_mru s - HEADERLEN else n) s) as [ci Eci].
  exists ci. by rewrite (bind_run _ _ _ _ _ En).
Qed.

Lemma sconfreq_run again s : HEADERLEN <= lk_mru s ->
  exists ci, fsm_sconfreq again s = Done (tt, requested again ci s) /\
    Z.of_nat (length ci) <= lk_mru s - HEADERLEN.
Proof.
  intros Hm. unfold fsm_sconfreq. rewrite (bind_run _ _ _ _ _ (eq_refl : getf s = Done (lk_fsm s, s))).
  set (s1 := s <| lk_fsm := if busy (f_state (lk_fsm s)) then lk_fsm s else (lk_fsm s) <| f_nakloops := 0 |> |>).
  rewrite (bind_run _ _ s tt s1).
  2: { unfold s1, busy. set (st := f_state (lk_fsm s)).
    destruct (ls_is st LS_REQSENT), (ls_is st LS_ACKRCVD), (ls_is st LS_ACKSENT); cbn; try by destruct s.
    by rewrite (bind_run _ _ _ _ _ (silent_run _ _ pr_resetci)). }
  set (s2 := s <| lk_fsm := requesting again (lk_fsm s) |>).
  rewrite (bind_run _ _ s1 tt (s2 <| lk_fsm := (lk_fsm s2) <| f_seen_ack := f_seen_ack (lk_fsm s) |> |>)).
  2: { unfold s2, s1, requesting. by destruct again, (busy _), s as [[] ? ? ?]. }
  rewrite (bind_run _ _ _ tt s2) by (unfold s2, requesting; destruct again, (busy _); done).
  destruct (options_run s2) as [ci Eci]. exists (fits s ci). split.
  2: { unfold fits. rewrite length_take. lia. }
  fold options. rewrite (bind_run _ _ _ _ _ Eci), (bind_run _ _ _ _ _ (eq_refl : getf s2 = Done (lk_fsm s2, s2))).
  rewrite (bind_run _ _ _ _ _ (sdata_run _ _ ci (Z.of_nat (length ci)) s2 Hm ltac:(lia))).
  rewrite Nat2Z.id, firstn_all. reflexivity.
Qed.
Definition sends (code : Z) : list action :=
  match code with 1 => [scr] | 2 => [sca] | 3 | 4 => [scn] | 5 => [str] | 6 => [sta] | 7 => [scj] | _ => [] end.
Lemma view_packet pd f code id data : is_u8 code ->
  seen (Write pd (packet f code id data)) = sends code /\ said (sends code) = sends code.
Proof.
  intros Hc. unfold seen. cbn [view]. cbn. rewrite u8_small by done. unfold sends. destruct code as [|p|p]; [done| |done].
  by do 3 (destruct p as [p|p|]; try done).
Qed.

Lemma sends_uncounted code : code <> CONFREQ -> code <> TERMREQ -> uncounted (sends code).
Proof.
  intros H1 H2 f c. unfold CONFREQ, TERMREQ in *. destruct code as [|p|p]; [done| |done].
  by do 3 (destruct p as [p|p|]; try done).
Qed.

(** A packet that is not a request. *)
Lemma came_packet s0 s s' st armed a pd f code id data : came s0 s st armed a -> is_u8 code ->
  code <> CONFREQ -> code <> TERMREQ -> lk_out s' = lk_out s ++ [Write pd (packet f code id data)] ->
  lk_fsm s' = lk_fsm s -> lk_timer s' = lk_timer s -> lk_mru s' = lk_mru s -> came s0 s' st armed (a ++ sends code).
Proof.
  intros H Hc Hn1 Hn2 Ho. destruct (view_packet pd f code id data Hc) as [E1 E2].
  pose proof (sends_uncounted code Hn1 Hn2) as Hu. rewrite <- E1 in *. by apply (came_out s0 s).
Qed.

Lemma came_sdata s0 s st armed a code id data n Q : came s0 s st armed a -> 0 <= n <= Z.of_nat (length data) ->
  is_u8 code -> code <> CONFREQ -> code <> TERMREQ ->
  (forall s', came s0 s' st armed (a ++ sends code) -> Q tt s') -> wp (fsm_sdata code id data n) s Q.
Proof.
  intros H Hn Hc Hn1 Hn2 HQ. eapply wp_intro; [apply sdata_run; [apply H|done]|]. apply HQ.
  eapply came_packet; [exact H|done|done|done|reflexivity..].
Qed.

(** A request: it counts, and the timer is set. *)
Definition resent (s : link) : link :=
  s <| lk_fsm := (lk_fsm s) <| f_retransmits := f_retransmits (lk_fsm s) - 1 |> |>
    <| lk_timer := Some (u32 (f_timeouttime (lk_fsm s) * 1000)) |>.
Lemma came_request s0 s st armed a g h b pd pkt x : came s0 s st armed a -> minor g h b -> said b = [] ->
  view (Write pd pkt) = Some x -> x = scr \/ x = str ->
  came s0 (resent (s <| lk_fsm := g (lk_fsm s) |> <| lk_out := lk_out s ++ [Write pd pkt] |>)) (h st) true (a ++ b ++ [x]).
Proof.
  intros H Hg Hb Hv Hx. pose proof (came_counts _ _ _ _ _ _ _ _ H Hg Hb) as [H1 H2 (l & H3 & H4) H5 H5' HC HM [H6 H7 H8]].
  rewrite app_assoc. split; try done.
  - exists (l ++ [Write pd pkt]). cbn in H3 |- *. rewrite H3, app_assoc. split; [done|].
    unfold acts in *. rewrite omap_app, H4, (said_app (a ++ b)). cbn [omap list_omap]. rewrite Hv. by destruct Hx as [-> | ->].
  - rewrite counted_app, <- HC. by destruct Hx as [-> | ->].
  - split; [done|done|]. by intros t [= <-].
Qed.

Lemma requesting_minor again : minor (requesting again) id (if again then [] else [irc]).
Proof. intros f. unfold requesting. by destruct (busy _), again. Qed.
Definition anew_unless (again : bool) : list action := if again then [scr] else [irc; scr].
Lemma came_sconfreq s0 s st armed a again Q : came s0 s st armed a ->
  (forall s' ci, s' = requested again ci s -> came s0 s' st true (a ++ anew_unless again) -> Q tt s') ->
  wp (fsm_sconfreq again) s Q.
Proof.
  intros H HQ. destruct (sconfreq_run again s) as (ci & E & _); [apply H|]. eapply wp_intro; [exact E|].
  eapply HQ; [reflexivity|]. replace (anew_unless again) with ((if again then [] else [irc]) ++ [scr]) by by destruct again.
  apply (came_request s0 s st armed a (requesting again) id _ _ _ scr H (requesting_minor again)); [by destruct again|reflexivity|by left].
Qed.

Definition renumbered (f : fsm) : fsm := f <| f_id := u8 (f_id f + 1) |> <| f_reqid := u8 (f_id f + 1) |>.
Lemma termreq_run s : link_ok s -> exists s1, send_termreq s = Done (tt, s1) /\
  forall s0 st armed a, came s0 s st armed a -> came s0 (resent s1) st true (a ++ [str]).
Proof.
  intros [Hm [Hr1 Hr2] _]. set (s1 := s <| lk_fsm := renumbered (lk_fsm s) |>). unfold send_termreq.
  rewrite (bind_run _ _ _ _ _ (eq_refl : next_reqid s = Done (f_reqid (lk_fsm s1), s1))), (bind_run _ _ _ _ _ (eq_refl : getf s1 = Done (lk_fsm s1, s1))).
  eexists. split; [apply sdata_run; [exact Hm|by split]|]. intros s0 st armed a H.
  apply (came_request s0 s st armed a renumbered id [] _ _ str H); [by intros ?|done|reflexivity|by right].
Qed.
(** The three calls that send a Terminate-Request, before anything else. *)
Lemma came_termreq s0 s st armed a k Q : came s0 s st armed a ->
  (forall s', came s0 s' st true (a ++ [str]) -> wp k s' Q) ->
  wp (send_termreq;; TIMEOUT;; updf (fun f => f <| f_retransmits := f_retransmits f - 1 |>);; k) s Q.
Proof.
  intros H HQ. destruct (termreq_run s (cm_ok _ _ _ _ _ H)) as (s1 & E & Hs1).
  apply wp_bind, (wp_intro _ _ _ _ _ E), wp_bind, wp_bind, wp_gets, wp_modify, wp_bind, wp_modify.
  exact (HQ _ (Hs1 _ _ _ _ H)).
Qed.
Lemma came_again s0 s st armed a Q : came s0 s st armed a ->
  (forall s', came s0 s' st true (a ++ [str]) -> Q tt s') ->
  wp (send_termreq;; TIMEOUT;; updf (fun f => f <| f_retransmits := f_retransmits f - 1 |>)) s Q.
Proof.
  intros H HQ. destruct (termreq_run s (cm_ok _ _ _ _ _ H)) as (s1 & E & Hs1).
  apply wp_bind, (wp_intro _ _ _ _ _ E), wp_bind, wp_bind, wp_gets, wp_modify, wp_modify.
  exact (HQ _ (Hs1 _ _ _ _ H)).
Qed.
Lemma came_terminate s0 s st armed a st' Q : came s0 s st armed a ->
  (forall s', came s0 s' st' true (a ++ [irt; str]) -> Q tt s') -> wp (terminate st') s Q.
Proof.
  intros H HQ. apply wp_bind. eapply (came_updc _ _ _ _ _ _ id [irt]); [done|by intros ?|done|]. intros s1 H1.
  eapply came_termreq; [done|]. intros s2 H2. rewrite <- app_assoc in H2. by eapply came_set_state.
Qed.

(** ** The events *)
Definition lands (s0 : link) (st : link_state) (armed : bool) (a : list action) (e : option rfc_event) Q : Prop :=
  let fl := f_flags (lk_fsm s0) in
  forall s' armed', came s0 s' (respond fl st e).2 armed' (a ++ (respond fl st e).1) ->
  (armed = negotiating st -> armed' = runs fl st e) -> Q tt s'.

Ltac land := match goal with H : came _ ?s _ _ _, HQ : forall _, _ |- ?Q tt ?s =>
  rewrite <- ?app_assoc in H;
  first [eapply HQ; [rewrite ?app_nil_r; exact H|cbn; congruence]|apply HQ; rewrite ?app_nil_r; exact H] end.
Ltac know := match goal with H : came _ ?s _ _ _ |- context [f_state (lk_fsm ?s)] => rewrite (cm_state _ _ _ _ _ H) end.
Ltac which := match goal with |- context [ls_is ?x ?y] =>
  let v := eval vm_compute in (ls_is x y) in first [constr_eq v true|constr_eq v false]; change (ls_is x y) with v end.
Ltac step := match goal with
  | |- wp (getf ≫= _) _ _ => apply wp_bind, wp_gets; repeat know; repeat which; cbn match
  | H : came _ ?s _ _ _ |- wp (send_termreq ≫= _) ?s _ => eapply came_again; [exact H|clear H; intros ? H]
  | |- wp (_ ≫= _) _ _ => apply wp_bind
  | |- wp (mret _) _ _ => apply wp_ret
  | H : came _ ?s _ _ _ |- wp (set_state _) ?s _ => eapply came_set_state; [exact H|clear H; intros ? H]
  | H : came _ ?s _ _ _ |- wp TIMEOUT ?s _ => eapply came_timeout; [exact H|clear H; intros ? H]
  | H : came _ ?s _ _ _ |- wp UNTIMEOUT ?s _ => eapply came_untimeout; [exact H|clear H; intros ? H]
  | H : came _ ?s _ _ _ |- wp (call up) ?s _ => eapply came_up; [exact H|clear H; intros ? H]
  | H : came _ ?s _ _ _ |- wp (call down) ?s _ => eapply came_down; [exact H|clear H; intros ? H]
  | H : came _ ?s _ _ _ |- wp (call starting) ?s _ => eapply came_starting; [exact H|clear H; intros ? H]
  | H : came _ ?s _ _ _ |- wp (call finished) ?s _ => eapply came_finished; [exact H|clear H; intros ? H]
  | H : came _ ?s _ _ _ |- wp (terminate _) ?s _ => eapply came_terminate; [exact H|clear H; intros ? H]
  | H : came _ ?s _ _ _ |- wp (fsm_sconfreq _) ?s _ => eapply came_sconfreq; [exact H|clear H; intros ? ? ? H; cbn [anew_unless] in H]
  | H : came _ ?s _ _ _ |- wp (call retransmit) ?s _ => eapply came_silent; [exact pr_retransmit|exact H|clear H; intros ? H]
  | H : came _ ?s _ _ _ |- wp (fsm_sdata TERMACK _ [] 0) ?s _ =>
      eapply came_sdata; [exact H|done|done|done|done|change (sends TERMACK) with [sta]; clear H; intros ? H]
  | H : came _ ?s _ _ _ |- wp (updf _) ?s _ =>
      first [eapply (came_updf _ _ _ _ _ _ id); [exact H|by intros ?|]
            |eapply (came_updc _ _ _ _ _ _ (fun _ => LS_ACKRCVD) [irc]); [exact H|by intros ?|done|]
            |eapply (came_updc _ _ _ _ _ _ (fun _ => LS_OPENED) [irc]); [exact H|by intros ?|done|]
            |eapply (came_updc _ _ _ _ _ _ (fun _ => LS_STOPPING) [zrc]); [exact H|by intros ?|done|]];
      clear H; intros ? H; unfold id in H
  end; cbn beta.

Tactic Notation "lands_by" reference(op) := intros H HQ; unfold lands in HQ; unfold op; repeat step;
  match goal with |- context [match ?st with LS_INITIAL => _ | _ => _ end] => destruct st end;
  cbn in HQ; repeat step; try land.

Lemma negotiation_lands s0 s st armed a Q : came s0 s st armed a -> st = LS_STARTING \/ st = LS_CLOSED ->
  lands s0 st armed a (Some (match st with LS_CLOSED => ROpen | _ => RUp end)) Q -> wp start_negotiation s Q.
Proof.
  intros H Hst HQ. unfold lands in HQ. unfold start_negotiation. step. rewrite (cm_flags _ _ _ _ _ H).
  destruct Hst as [-> | ->]; cbn in HQ; destruct (has _ _); repeat step; land.
Qed.
Lemma lowerup_lands s0 s st armed a Q : came s0 s st armed a -> lands s0 st armed a (Some RUp) Q -> wp fsm_lowerup s Q.
Proof. lands_by fsm_lowerup. eapply negotiation_lands; [done|by left|exact HQ]. Qed.

Lemma lowerdown_lands s0 s st armed a Q : came s0 s st armed a -> lands s0 st armed a (Some RDown) Q -> wp fsm_lowerdown s Q.
Proof. lands_by fsm_lowerdown. Qed.

Lemma restart_lands s0 s st armed a Q : came s0 s st armed a ->
  st = LS_STOPPING \/ st = LS_STOPPED \/ st = LS_OPENED ->
  let fl := f_flags (lk_fsm s0) in
  (forall s' armed' st', came s0 s' st' armed' (a ++ if has fl OPT_RESTART then
      (rfc1661 st RDown).1 ++ (if has fl OPT_SILENT then [] else [irc; scr]) else []) ->
    st' = (if has fl OPT_RESTART then if has fl OPT_SILENT then LS_STOPPED else LS_REQSENT else st) ->
    (armed = negotiating st -> armed' = negotiating st') -> Q tt s') -> wp restart s Q.
Proof.
  intros H Hst fl HQ. unfold restart. step. rewrite (cm_flags _ _ _ _ _ H). change (f_flags (lk_fsm s0)) with fl.
  destruct (has fl OPT_RESTART) eqn:Er; [|repeat step; eapply HQ; [by rewrite app_nil_r|done|done]].
  cbn [when]. step. eapply lowerdown_lands; [done|]. intros s1 b1 H1 E1.
  eapply lowerup_lands; [done|]. intros s2 b2 H2 E2. subst fl.
  destruct Hst as [-> |[-> | ->]]; cbn in *; destruct (has _ OPT_SILENT); cbn in *.
  all: rewrite <- ?app_assoc in H2; eapply HQ; [exact H2|reflexivity|auto].
Qed.

Lemma open_lands s0 s st armed a Q : came s0 s st armed a -> lands s0 st armed a (Some ROpen) Q -> wp fsm_open s Q.
Proof.
  lands_by fsm_open; [eapply negotiation_lands; [done|by right|exact HQ]|..].
  all: eapply restart_lands; [done|by auto|]; cbn; intros s1 b1 st1 H1 E1 Hb.
  all: eapply HQ; [|intros E; apply Hb in E; subst st1 b1]; cbn in *.
  all: destruct (has _ OPT_RESTART); try destruct (has _ OPT_SILENT); by subst.
Qed.

Definition reason_ok (reason : option (list Z)) : Prop := Z.of_nat (length (default [] reason)) < 2 ^ 31.
Lemma close_lands s0 s st armed a reason Q : came s0 s st armed a -> reason_ok reason ->
  lands s0 st armed a (Some RClose) Q -> wp (fsm_close reason) s Q.
Proof.
  intros H0 Hr HQ. unfold lands in HQ. unfold fsm_close. apply wp_bind, wp_modify.
  match goal with |- wp _ ?s1 _ => assert (came s0 s1 st armed a) as H end.
  { destruct H0 as [H1 H2 H3 H5 H5' HC HM [H6 H7 H8]]. split; try done. split; [done| |done]. cbn.
    unfold reason_ok in Hr. destruct reason as [l|]; cbn in *; [rewrite s32_small by lia|]; lia. }
  clear H0. step. destruct st; cbn in HQ; repeat step; land.
Qed.

Lemma protreject_lands s0 s st armed a Q : came s0 s st armed a -> lands s0 st armed a (Some RXJn) Q ->
  wp fsm_protreject s Q.
Proof. lands_by fsm_protreject. Qed.

(** The timer has expired: it is not pending any more. *)
Lemma timeout_lands s0 s st a Q : came s0 s st false a ->
  let e := Some (if f_retransmits (lk_fsm s) <=? 0 then TOn else TOp) in let fl := f_flags (lk_fsm s0) in
  (forall s', came s0 s' (respond fl st e).2 (runs fl st e) (a ++ (respond fl st e).1) -> Q tt s') ->
  wp fsm_timeout s Q.
Proof.
  intros H e fl HQ. subst e fl. unfold fsm_timeout. pose proof (cm_flags _ _ _ _ _ H) as Ef. step.
  destruct st, (f_retransmits (lk_fsm s) <=? 0); cbn in HQ; rewrite ?Ef; repeat step.
  all: repeat which; try (destruct (has _ OPT_PASSIVE)); cbn [negb when]; repeat step; land.
Qed.

(** ** Packets *)
Lemma answer_lands s0 s st armed a ident inp Q : came s0 s st armed a ->
  let good := (on_confreq inp (f_maxnakloops (lk_fsm s) <=? f_nakloops (lk_fsm s))).1 =? CONFACK in
  (forall s', came s0 s'
      (match st with LS_ACKRCVD => if good then LS_OPENED else st | _ => if good then LS_ACKSENT else LS_REQSENT end)
      (match st with LS_ACKRCVD => if good then false else armed | _ => armed end)
      (a ++ match st with LS_ACKRCVD => if good then [sca; tlu] else [scn] | _ => if good then [sca] else [scn] end) ->
    Q tt s') ->
  wp (answer_confreq ident inp) s Q.
Proof.
  intros H good HQ. subst good. unfold answer_confreq. step.
  set (rej := f_maxnakloops _ <=? _) in *. eapply wp_bind, wp_intro.
  { pose proof pr_reqci as Hr. destruct reqci as [m|]; [apply Hr|]. rewrite <- (Hr inp rej). reflexivity. }
  pose proof (pr_code inp rej) as Hc. destruct (on_confreq inp rej) as [code reply]. cbn in Hc, HQ |- *.
  apply wp_bind. assert (is_u8 code /\ code <> CONFREQ /\ code <> TERMREQ) as (Hu & Hu1 & Hu2).
  { unfold CONFACK, CONFNAK, CONFREJ in *. by destruct Hc as [->|[->| ->]]. }
  rewrite (u8_small code) by done.
  eapply came_sdata; [exact H|lia|done|done|done|]. clear H. intros s1 H. step.
  destruct Hc as [->|[-> | ->]]; cbn in *.
  all: destruct st; repeat which; cbn [negb when]; repeat step; land.
Qed.

(** What a packet is, in a state that takes packets. *)
Definition strict (f : fsm) : bool :=
  f_maxnakloops f <=? match f_state f with LS_STOPPED | LS_OPENED => 0 | _ => f_nakloops f end.
Definition expected (f : fsm) (ident : Z) : bool := (ident =? f_reqid f) && negb (f_seen_ack f).
(** Whether a Code-Reject is catastrophic is for [severity] to say. *)
Definition on_packet (severity : list Z -> rfc_event) (f : fsm) (code ident : Z) (inp : list Z) : option rfc_event :=
  if code =? CONFREQ then Some (if (on_confreq inp (strict f)).1 =? CONFACK then RCRp else RCRn)
  else if code =? CONFACK then if expected f ident && on_ack inp then Some RCA else None
  else if (code =? CONFNAK) || (code =? CONFREJ) then if expected f ident && on_nak code inp then Some RCN else None
  else if code =? TERMREQ then Some RTR
  else if code =? TERMACK then Some RTA
  else if code =? CODEREJ then if Z.of_nat (length inp) <? HEADERLEN then None else Some (severity inp)
  else if on_ext code ident inp then None else Some RUC.
(** For fsm.c none is: it looks at the code that was rejected for the log only. *)
Definition taken (_ : list Z) : rfc_event := RXJp.
Definition listening (st : link_state) : Prop := st <> LS_INITIAL /\ st <> LS_STARTING.

Lemma requesting_loops again s st ci : f_state (lk_fsm s) = st -> busy st = false ->
  f_nakloops (lk_fsm (requested again ci s)) = 0 /\
  f_maxnakloops (lk_fsm (requested again ci s)) = f_maxnakloops (lk_fsm s).
Proof. intros <- Hb. cbn. unfold requesting. rewrite Hb. by destruct again. Qed.

Lemma rconfreq_lands s0 s st armed a ident inp Q : came s0 s st armed a -> listening st ->
  lands s0 st armed a (on_packet taken (lk_fsm s) CONFREQ ident inp) Q -> wp (fsm_rconfreq ident inp) s Q.
Proof.
  intros H [Hi Hs] HQ. unfold lands, on_packet, taken in HQ. cbn [Z.eqb CONFREQ Pos.eqb] in HQ. unfold strict in HQ.
  rewrite (cm_state _ _ _ _ _ H) in HQ. unfold fsm_rconfreq. step.
  destruct st; try done; cbn in HQ.
  1, 3, 4: repeat step; by destruct (_ =? CONFACK); cbn in HQ; land.
  2, 3, 4: eapply answer_lands; [exact H|]; clear H; intros s1 H; destruct (_ =? CONFACK); cbn in HQ, H; land.
  - step. eapply came_sconfreq; [exact H|]. intros s1 ci -> H1. apply wp_bind, wp_modify.
    pose proof (came_fsm _ _ _ _ _ (fun f => f <| f_state := LS_REQSENT |>) (fun _ => LS_REQSENT) H1 ltac:(by intros ?)) as H2.
    eapply answer_lands; [exact H2|]. clear H2.
    destruct (requesting_loops false s LS_STOPPED ci) as [E1 E2]; [apply H|done|]. cbn in E1, E2 |- *. rewrite E1, E2.
    clear H H1. intros s2 H. destruct (_ =? CONFACK); cbn in HQ, H; land.
  - set (s1 := note Down s).
    assert (came s0 s1 LS_OPENED armed (a ++ [tld])) as H1 by by apply (came_out s0 s s1 _ _ _ (Notify Down)).
    step. eapply wp_intro; [exact (notify_run _ _ _ pr_down)|]. fold s1. step.
    eapply came_sconfreq; [exact H1|]. intros s2 ci -> H2. eapply answer_lands; [exact H2|].
    destruct (requesting_loops false s1 LS_OPENED ci) as [E1 E2]; [apply H1|done|]. rewrite E1, E2.
    clear H H1 H2. intros s2 H. destruct (_ =? CONFACK); cbn in HQ, H; land.
Qed.

Lemma expected_spec f ident : negb (ident =? f_reqid f) || f_seen_ack f = negb (expected f ident).
Proof. unfold expected. by destruct (_ =? _), (f_seen_ack f). Qed.

Lemma rconfack_lands s0 s st armed a ident inp Q : came s0 s st armed a -> listening st ->
  lands s0 st armed a (on_packet taken (lk_fsm s) CONFACK ident inp) Q -> wp (fsm_rconfack ident inp) s Q.
Proof.
  intros H [Hi Hs] HQ. unfold lands, on_packet, taken in HQ. cbn [Z.eqb CONFREQ CONFACK Pos.eqb] in HQ.
  unfold fsm_rconfack. step. rewrite expected_spec.
  destruct (expected _ _); cbn [negb andb] in *; [|step; cbn in HQ; land].
  apply wp_bind. apply (wp_intro _ _ (on_ack inp) s).
  { pose proof pr_ackci as Ha. destruct ackci as [m|]; [|by rewrite Ha].
    destruct (Ha inp s) as (r & Er & ->). by rewrite (bind_run _ _ _ _ _ Er). }
  destruct (on_ack inp); cbn [negb]; [|step; cbn in HQ; land].
  repeat step. destruct st; try done; cbn in HQ; repeat step; land.
Qed.

Lemma rconfnakrej_lands s0 s st armed a code ident inp Q : came s0 s st armed a -> listening st ->
  code = CONFNAK \/ code = CONFREJ ->
  lands s0 st armed a (on_packet taken (lk_fsm s) code ident inp) Q -> wp (fsm_rconfnakrej code ident inp) s Q.
Proof.
  intros H [Hi Hs] Hc HQ. unfold lands, on_packet, taken in HQ.
  replace (code =? CONFREQ) with false in HQ by by destruct Hc as [-> | ->].
  replace (code =? CONFACK) with false in HQ by by destruct Hc as [-> | ->].
  replace ((code =? CONFNAK) || (code =? CONFREJ)) with true in HQ by by destruct Hc as [-> | ->].
  unfold fsm_rconfnakrej. step. rewrite expected_spec.
  destruct (expected _ _); cbn [negb andb] in *; [|step; cbn in HQ; land].
  assert (exists r, 0 <= r /\ on_nak code inp = negb (r =? 0) /\
    match (if code =? CONFNAK then nakci else rejci) with Some m => m inp | None => mret 0 end s = Done (r, s)) as (r & Hr & Hn & Er).
  { pose proof (pr_nakrej code) as Ha. destruct (if code =? CONFNAK then nakci else rejci) as [m|]; [|exists 0; by rewrite Ha].
    destruct (Ha inp s) as (r & Er & ? & ->). by exists r. }
  apply wp_bind, (wp_intro _ _ _ _ _ Er). rewrite Hn in HQ. destruct (Z.eqb_spec r 0) as [|Hz]; cbn [negb] in HQ.
  - step; cbn in HQ; land.
  - repeat step. replace (r <? 0) with false by (symmetry; apply Z.ltb_ge; lia).
    destruct st; try done; cbn in HQ; repeat step; land.
Qed.

Lemma rtermreq_lands s0 s st armed a ident Q : came s0 s st armed a -> listening st ->
  lands s0 st armed a (Some RTR) Q -> wp (fsm_rtermreq ident) s Q.
Proof.
  intros H [Hi Hs] HQ. unfold lands in HQ. unfold fsm_rtermreq. step. step.
  assert (is_u8 (u8 ident)) by apply u8_range.
  destruct st; try done; cbn in HQ; repeat step; land.
Qed.
Lemma rtermack_lands s0 s st armed a Q : came s0 s st armed a -> lands s0 st armed a (Some RTA) Q -> wp fsm_rtermack s Q.
Proof. lands_by fsm_rtermack. Qed.

Lemma rcoderej_lands s0 s st armed a ident inp Q : came s0 s st armed a -> listening st ->
  lands s0 st armed a (on_packet taken (lk_fsm s) CODEREJ ident inp) Q -> wp (fsm_rcoderej inp) s Q.
Proof.
  intros H [Hi Hs] HQ. unfold lands, on_packet, taken in HQ. cbn [Z.eqb CONFREQ CONFACK CONFNAK CONFREJ TERMREQ TERMACK CODEREJ Pos.eqb orb] in HQ.
  unfold fsm_rcoderej. destruct (_ <? HEADERLEN); [step; cbn in HQ; land|]. step.
  destruct st; try done; cbn in HQ; repeat which; cbn [when]; repeat step; land.
Qed.

(** ** Everything that can happen to the automaton *)
Inductive event :=
| LowerUp | LowerDown | Open | Close (reason : option (list Z)) | Timeout | Input (pkt : list Z) | ProtReject.

Definition handle (e : event) : M link unit :=
  match e with
  | LowerUp => fsm_lowerup
  | LowerDown => fsm_lowerdown
  | Open => fsm_open
  | Close reason => fsm_close reason
  | Timeout => modify (fun s => s <| lk_timer := None |>);; fsm_timeout
  | Input pkt => fsm_input pkt (Z.of_nat (length pkt))
  | ProtReject => fsm_protreject
  end.
(** The timer expires when it is pending; reasons and packets fit an int. *)
Definition possible (s : link) (e : event) : Prop :=
  match e with
  | Timeout => lk_timer s <> None
  | Close reason => reason_ok reason
  | Input pkt => Z.of_nat (length pkt) < 2 ^ 31
  | _ => True
  end.

(** A well-formed packet: code, identifier and the data that its length covers. *)
Definition parse (pkt : list Z) : option (Z * Z * list Z) :=
  match pkt with
  | code :: ident :: hi :: lo :: rest =>
      let len := Z.lor (Z.shiftl hi 8) lo in
      if (len <? HEADERLEN) || (Z.of_nat (length pkt) <? len) then None
      else Some (code, ident, take (Z.to_nat (len - HEADERLEN)) rest)
  | _ => None
  end.
(** The standard's name for it; [None] is discarded. *)
Definition event_of (severity : list Z -> rfc_event) (s : link) (e : event) : option rfc_event :=
  let f := lk_fsm s in
  match e with
  | LowerUp => Some RUp
  | LowerDown => Some RDown
  | Open => Some ROpen
  | Close _ => Some RClose
  | Timeout => Some (if f_retransmits f <=? 0 then TOn else TOp)
  | ProtReject => Some RXJn
  | Input pkt =>
      match f_state f, parse pkt with
      | LS_INITIAL, _ | LS_STARTING, _ | _, None => None
      | _, Some (code, ident, inp) => on_packet severity f code ident inp
      end
  end.

Lemma on_packet_other f code ident inp : code <> CONFREQ -> code <> CONFACK ->
  (code =? CONFNAK) || (code =? CONFREJ) = false ->
  on_packet taken f code ident inp = if code =? TERMREQ then Some RTR else if code =? TERMACK then Some RTA
    else if code =? CODEREJ then on_packet taken f CODEREJ ident inp
    else if on_ext code ident inp then None else Some RUC.
Proof.
  intros H1 H2 Hn. unfold on_packet at 1. rewrite Hn. apply Z.eqb_neq in H1 as ->. apply Z.eqb_neq in H2 as ->.
  by destruct (code =? CODEREJ).
Qed.
Lemma extcode_run code ident inp s : exists r, on_ext code ident inp = negb (r =? 0) /\
  match extcode with Some m => m code ident inp | None => mret (0, inp) end s = Done ((r, inp), s).
Proof.
  pose proof pr_extcode as Ha. destruct extcode as [m|]; [|exists 0; by rewrite Ha].
  destruct (Ha code ident inp s) as (r & Er & ->). by exists r.
Qed.

Lemma input_lands s0 s st armed a pkt Q : came s0 s st armed a -> Z.of_nat (length pkt) < 2 ^ 31 ->
  lands s0 st armed a (event_of taken s (Input pkt)) Q -> wp (fsm_input pkt (Z.of_nat (length pkt))) s Q.
Proof.
  intros H Hl HQ. unfold event_of in HQ. rewrite (cm_state _ _ _ _ _ H) in HQ. unfold fsm_input.
  rewrite u32_small by (unfold is_u32; lia).
  assert (lands s0 st armed a None Q -> Q tt s) as Hnone.
  { intros HN. unfold lands in HN. cbn in HN. land. }
  destruct (Z.ltb_spec (Z.of_nat (length pkt)) HEADERLEN) as [Hs|Hs].
  { step. apply Hnone. destruct pkt as [|? [|? [|? [|]]]]; try (by destruct st).
    cbn [length] in Hs. unfold HEADERLEN in Hs. lia. }
  destruct pkt as [|code [|ident [|hi [|lo rest]]]]; try (cbn in Hs; unfold HEADERLEN in Hs; lia).
  do 4 (apply wp_bind; eapply wp_deref; [reflexivity|]). cbv zeta. cbn [parse] in HQ.
  set (len := Z.lor (Z.shiftl hi 8) lo) in *. set (l := Z.of_nat _) in *.
  destruct (Z.ltb_spec len HEADERLEN) as [|H4]; cbn [orb] in HQ; [step; apply Hnone; by destruct st|].
  destruct (Z.ltb_spec l len) as [|H5]; [step; apply Hnone; by destruct st|]. step.
  destruct (ls_is st LS_INITIAL || ls_is st LS_STARTING) eqn:El; [step; apply Hnone; by destruct st|].
  assert (listening st) as HL by by destruct st.
  assert (lands s0 st armed a (on_packet taken (lk_fsm s) code ident (take (Z.to_nat (len - HEADERLEN)) rest)) Q) as HP.
  { by destruct st. }
  clear HQ Hnone El. replace (l <? len - HEADERLEN + HEADERLEN) with false by (symmetry; apply Z.ltb_ge; lia).
  cbn [drop]. set (inp := take (Z.to_nat (len - HEADERLEN)) rest) in *.
  destruct (Z.eqb_spec code CONFREQ) as [->|H1]; [by eapply rconfreq_lands|].
  destruct (Z.eqb_spec code CONFACK) as [->|H2]; [by eapply rconfack_lands|].
  destruct ((code =? CONFNAK) || (code =? CONFREJ)) eqn:Hn.
  { eapply rconfnakrej_lands; [done|done| |done]. apply orb_true_iff in Hn. by rewrite !Z.eqb_eq in Hn. }
  rewrite (on_packet_other _ _ _ _ H1 H2 Hn) in HP.
  destruct (code =? TERMREQ); [by eapply rtermreq_lands|].
  destruct (code =? TERMACK); [by eapply rtermack_lands|].
  destruct (code =? CODEREJ); [by eapply rcoderej_lands|].
  destruct (extcode_run code ident inp s) as (r & Hr & Er).
  apply wp_bind, (wp_intro _ _ _ _ _ Er). rewrite Hr in HP. destruct (r =? 0); cbn [when negb] in HP |- *.
  - do 3 step. eapply came_sdata; [exact H| |done|done|done|].
    { change (take 4 _) with [code; ident; hi; lo]. rewrite length_app. unfold inp. rewrite length_take.
      unfold l, HEADERLEN in *. cbn [length] in *. lia. }
    clear H. intros s1 H. change (sends CODEREJ) with [scj] in H. unfold lands in HP.
    destruct HL as [HL1 HL2]. destruct st; try done; cbn in HP; land.
  - step. unfold lands in HP. cbn in HP. land.
Qed.

(** The event, in the terms of [came]. *)
Lemma handle_came s e : link_ok s -> possible s e ->
  let st := f_state (lk_fsm s) in let fl := f_flags (lk_fsm s) in
  wp (handle e) s (fun _ s' => exists armed,
    came s s' (respond fl st (event_of taken s e)).2 armed (respond fl st (event_of taken s e)).1 /\
    (is_some (lk_timer s) = negotiating st -> armed = runs fl st (event_of taken s e))).
Proof.
  intros Hok He st fl. pose proof (came_start s Hok) as H. destruct e; cbn [handle possible] in *.
  1-4, 6-7: first [eapply lowerup_lands|eapply lowerdown_lands|eapply open_lands|eapply close_lands|eapply input_lands
    |eapply protreject_lands]; try eassumption; intros s' b H1 H2; by exists b.
  apply wp_bind, wp_modify. eapply (timeout_lands s _ _ []); [exact (came_expired _ _ _ _ _ H)|].
  intros s1 H1. eexists. split; [exact H1|done].
Qed.

(** ** The table, the timer and the layer above *)

(** A Code-Reject is catastrophic when the code that it rejects is one that
    the automaton cannot do without. *)
Definition severity (inp : list Z) : rfc_event :=
  match inp with
  | code :: _ => if (CONFREQ <=? code) && (code <=? CODEREJ) then RXJn else RXJp
  | [] => RXJp
  end.
(** The event of the standard. *)
Definition rfc_event_of (s : link) (e : event) : option rfc_event := event_of severity s e.

(** Where the automaton is not that of the standard: closing in Starting, a
    Terminate-Ack in Opened, and a catastrophic Code-Reject. *)
Definition deviates (s : link) (e : event) : bool :=
  match f_state (lk_fsm s), rfc_event_of s e, e with
  | LS_STARTING, Some RClose, _ | LS_OPENED, Some RTA, _ | _, Some RXJn, Input _ => true
  | _, _, _ => false
  end.
Definition plain (fl : Z) : Prop := has fl OPT_SILENT = false /\ has fl OPT_RESTART = false /\ has fl OPT_PASSIVE = false.

Lemma taken_or_catastrophic s e : event_of taken s e = rfc_event_of s e \/
  rfc_event_of s e = Some RXJn /\ exists pkt, e = Input pkt.
Proof.
  unfold rfc_event_of, event_of. destruct e as [| | | | |pkt|]; try by left.
  destruct (parse pkt) as [[[code ident] inp]|]; [|by left].
  assert (on_packet taken (lk_fsm s) code ident inp = on_packet severity (lk_fsm s) code ident inp \/
    on_packet severity (lk_fsm s) code ident inp = Some RXJn) as [E|E].
  { unfold on_packet. destruct (code =? CONFREQ), (code =? CONFACK), (code =? CONFNAK), (code =? CONFREJ), (code =? TERMREQ), (code =? TERMACK); cbn [orb]; try by left.
    destruct (code =? CODEREJ); [|by left]. destruct (Z.of_nat (length inp) <? HEADERLEN); [by left|]. unfold severity.
    destruct inp as [|c inp]; [by left|]. destruct ((CONFREQ <=? c) && (c <=? CODEREJ)); [by right|by left]. }
  - rewrite E. by left.
  - destruct (f_state (lk_fsm s)); try by left. all: right; by eauto.
Qed.

Lemma table_plain fl s e : plain fl -> deviates s e = false -> let st := f_state (lk_fsm s) in
  respond fl st (event_of taken s e) =
    match rfc_event_of s e with Some r => rfc1661_anew st r | None => ([], st) end.
Proof.
  intros (H1 & H2 & H3) H. unfold deviates in H. cbv zeta.
  destruct (taken_or_catastrophic s e) as [E|[E [pkt ->]]]; [|rewrite E in H; by destruct (f_state _)].
  rewrite E. generalize dependent (rfc_event_of s e). intros r E H.
  destruct r as [[]|], (f_state (lk_fsm s)); cbn; rewrite ?H1, ?H2, ?H3; done.
Qed.

(** C30: fsm.c is the automaton of RFC 1661.  Whatever happens in whatever
    state - a call from above or below, the timer, a packet of any content -
    the handler returns, and what it did to the outside (where the protocol
    has a callback for it), what it did to the restart counter and the state
    it is in are those of the row of its table.  With the options silent,
    restart and passive off the row is that of the standard, [rfc1661], where
    moreover the counter starts anew before a request that answers what was
    answered already or that follows Opened ([counts_anew]).  Three things
    are not as the standard says: closing in Starting does not say
    This-Layer-Finished, a Terminate-Ack in Opened does not leave the state,
    and a Code-Reject of one of the codes 1 to 7, which is catastrophic, is
    taken for a harmless one.  Packets that the standard discards change
    nothing of this. *)
Theorem fsm_refines_rfc1661 s e :
  link_ok s -> possible s e ->
  let st := f_state (lk_fsm s) in let fl := f_flags (lk_fsm s) in let row := respond fl st (event_of taken s e) in
  (exists s' new, handle e s = Done (tt, s') /\ link_ok s' /\ lk_out s' = lk_out s ++ new /\
    acts new = said row.1 /\ f_state (lk_fsm s') = row.2 /\
    f_retransmits (lk_fsm s') = counted (lk_fsm s) row.1 (f_retransmits (lk_fsm s))) /\
  (plain fl -> deviates s e = false ->
    row = match rfc_event_of s e with Some r => rfc1661_anew st r | None => ([], st) end).
Proof.
  intros Hok He st fl row. split; [|apply table_plain].
  destruct (wp_run _ _ _ (handle_came s e Hok He)) as ([] & s' & E & b & [H1 H2 (l & H3 & H4) _ _ H5 _ H6] & _).
  by exists s', l.
Qed.

(** The states a link comes to, a Terminate-Ack in Opened aside. *)
Inductive comes (s0 : link) : link -> Prop :=
| comes_here : comes s0 s0
| comes_by s e s' : comes s0 s -> possible s e -> f_state (lk_fsm s) <> LS_OPENED \/ event_of taken s e <> Some RTA ->
    handle e s = Done (tt, s') -> comes s0 s'.

(** What the layer above has been told: up and down in turn. *)
Fixpoint told (is_up : bool) (l : list action) : option bool :=
  match l with
  | [] => Some is_up
  | tlu :: l => if is_up then None else told true l
  | tld :: l => if is_up then told false l else None
  | _ :: l => told is_up l
  end.
Lemma told_app l k b : told b (l ++ k) = told b l ≫= fun b' => told b' k.
Proof. revert b. induction l as [|[] l IH]; intros []; cbn; try apply IH; done. Qed.

Lemma told_said b l : told b (said l) = told b l.
Proof.
  revert b. induction l as [|[] l IH]; intros []; cbn; try apply IH; try done.
  all: unfold said in *; cbn; destruct (is_some _); cbn; apply IH.
Qed.

Definition is_opened (st : link_state) : bool := match st with LS_OPENED => true | _ => false end.
Lemma told_respond fl st r : st <> LS_OPENED \/ r <> Some RTA ->
  told (is_opened st) (respond fl st r).1 = Some (is_opened (respond fl st r).2) /\
  runs fl st r = negotiating (respond fl st r).2.
Proof.
  intros H. destruct r as [[]|], st; try (by destruct H); cbn.
  all: repeat match goal with |- context [has ?f ?o] => destruct (has f o); cbn end; done.
Qed.

Record sound (s : link) : Prop := {
  so_ok : link_ok s;
  so_timer : is_some (lk_timer s) = negotiating (f_state (lk_fsm s));
  so_told : told false (acts (lk_out s)) = Some (is_opened (f_state (lk_fsm s)))
}.

(** C31: the restart timer is pending exactly while a request is outstanding -
    in Closing, Stopping, Req-Sent, Ack-Rcvd and Ack-Sent - so no negotiation
    hangs and no timer is left behind; and the layer above is told up and down
    in turn, up exactly in Opened, over any sequence of calls, timeouts and
    packets without a Terminate-Ack in Opened. *)
Theorem timer_and_layer_follow_state s0 s :
  link_ok s0 -> lk_timer s0 = None -> negotiating (f_state (lk_fsm s0)) = false ->
  told false (acts (lk_out s0)) = Some (is_opened (f_state (lk_fsm s0))) ->
  comes s0 s -> sound s.
Proof.
  intros H1 H2 H3 H4 H. induction H as [|s e s' _ [I1 I2 I3] Hp Hr E]; [split; [done|by rewrite H2, H3|done]|].
  destruct (wp_run _ _ _ (handle_came s e I1 Hp)) as (? & ? & E' & b & [C1 C2 (l & C3 & C4) _ _ _ _ C6] & C7).
  rewrite E in E'. injection E' as <- <-.
  destruct (told_respond (f_flags (lk_fsm s)) _ _ Hr) as [T1 T2].
  split; [done|rewrite C1, C2, <- T2; by apply C7|].
  unfold acts in *. rewrite C3, omap_app, told_app, I3, C4, C1. cbn. rewrite told_said. exact T1.
Qed.
(** the deviation in Opened.  After a Terminate-Ack in Opened the layer
    above is told that the link is down and a new request goes out, but the
    state stays Opened, where the timeout of that request is ignored: if the
    request or its answer is lost, the link stays down without a timer and
    without leaving Opened. *)
Theorem termack_in_opened_hangs s pkt :
  link_ok s -> f_state (lk_fsm s) = LS_OPENED -> lk_timer s = None ->
  possible s (Input pkt) -> event_of taken s (Input pkt) = Some RTA ->
  exists s1 s2 new, handle (Input pkt) s = Done (tt, s1) /\ lk_timer s1 <> None /\ handle Timeout s1 = Done (tt, s2) /\
    lk_out s2 = lk_out s ++ new /\ acts new = [tld; scr] /\
    f_state (lk_fsm s2) = LS_OPENED /\ lk_timer s2 = None.
Proof.
  intros Hok Hst Ht Hp Hr.
  destruct (wp_run _ _ _ (handle_came s (Input pkt) Hok Hp)) as ([] & s1 & E & b & C & Hb).
  rewrite Hr, Hst in C. rewrite Hr, Hst, Ht in Hb. cbn in C, Hb. rewrite Hb in C by done.
  assert (lk_timer s1 <> None) as Ht1 by (intros Hn; pose proof (cm_timer _ _ _ _ _ C) as Hc; by rewrite Hn in Hc).
  exists s1. apply came_expired in C. destruct C as [C1 C2 (l & C3 & C4) _ _ _ _ _].
  eexists _, l. do 2 (split; [done|]). split; [|by split_and!].
  cbn [handle]. rewrite (bind_run _ _ _ _ _ eq_refl). unfold fsm_timeout.
  rewrite (bind_run _ _ _ _ _ eq_refl). by rewrite C1.
Qed.

(** What a request is, the state it leads to and how giving up ends. *)
Definition request (st : link_state) : action := match st with LS_CLOSING | LS_STOPPING => str | _ => scr end.
Definition waiting (st : link_state) : link_state := match st with LS_ACKRCVD => LS_REQSENT | _ => st end.
Definition settled (st : link_state) : link_state := match st with LS_CLOSING => LS_CLOSED | _ => LS_STOPPED end.
Definition farewell (fl : Z) (st : link_state) : list action :=
  match st with LS_CLOSING | LS_STOPPING => [tlf] | _ => if has fl OPT_PASSIVE then [] else [tlf] end.

(** A retransmission, and the fields that it counts with. *)
Lemma retry s : link_ok s -> negotiating (f_state (lk_fsm s)) = true -> 0 < f_retransmits (lk_fsm s) ->
  exists s', handle Timeout s = Done (tt, s') /\ came s s' (waiting (f_state (lk_fsm s))) true [request (f_state (lk_fsm s))] /\
    f_retransmits (lk_fsm s') = f_retransmits (lk_fsm s) - 1 /\ f_timeouttime (lk_fsm s') = f_timeouttime (lk_fsm s) /\
    lk_timer s' = Some (u32 (f_timeouttime (lk_fsm s) * 1000)).
Proof.
  intros Hok Hn Hr. pose proof (came_start s Hok) as H. apply came_expired in H. set (st := f_state (lk_fsm s)) in *.
  cut (wp (handle Timeout) s (fun _ s' => came s s' (waiting st) true [request st])).
  { intros W. destruct (wp_run _ _ _ W) as ([] & s' & E & C). exists s'. do 2 (split; [done|]).
    rewrite (cm_count _ _ _ _ _ C), <- (cm_time _ _ _ _ _ C). split; [by destruct st|]. split; [done|].
    pose proof (cm_timer _ _ _ _ _ C) as Ht.
    destruct (lk_timer s') as [t|] eqn:Et; [|done]. by rewrite (lo_timer _ (cm_ok _ _ _ _ _ C) t Et). }
  apply wp_bind, wp_modify. eapply timeout_lands; [exact H|]. cbn.
  replace (f_retransmits _ <=? 0) with false by (symmetry; by apply Z.leb_gt).
  intros s' C. destruct st; try done; exact C.
Qed.

(** [n] timeouts in silence, and how long they took. *)
Fixpoint silence (n : nat) : M link Z :=
  match n with
  | O => mret 0
  | S n => s ← get; t ← deref (lk_timer s); handle Timeout;; r ← silence n; mret (t + r)
  end.

Lemma silence_step n s t s1 r s2 : lk_timer s = Some t -> handle Timeout s = Done (tt, s1) ->
  silence n s1 = Done (r, s2) -> silence (S n) s = Done (t + r, s2).
Proof.
  intros Ht E1 E2. cbn [silence]. rewrite (bind_run _ _ _ _ _ (eq_refl : get s = Done (s, s))), Ht.
  rewrite (bind_run _ _ _ _ _ (eq_refl : deref (Some t) s = Done (t, s))), (bind_run _ _ _ _ _ E1).
  by rewrite (bind_run _ _ _ _ _ E2).
Qed.

(** The last timeout gives up. *)
Lemma last_timeout s : link_ok s -> negotiating (f_state (lk_fsm s)) = true -> f_retransmits (lk_fsm s) <= 0 ->
  exists s', handle Timeout s = Done (tt, s') /\
    came s s' (settled (f_state (lk_fsm s))) false (farewell (f_flags (lk_fsm s)) (f_state (lk_fsm s))).
Proof.
  intros Hok Hn Hr. cut (wp (handle Timeout) s (fun _ s' =>
    came s s' (settled (f_state (lk_fsm s))) false (farewell (f_flags (lk_fsm s)) (f_state (lk_fsm s))))).
  { intros W. destruct (wp_run _ _ _ W) as ([] & s' & E & C). by exists s'. }
  pose proof (came_start s Hok) as H. apply came_expired in H. apply wp_bind, wp_modify.
  eapply timeout_lands; [exact H|]. cbn. replace (f_retransmits _ <=? 0) with true by (symmetry; by apply Z.leb_le).
  intros s' C. destruct (f_state (lk_fsm s)); try done; cbn in *; try done.
  all: by destruct (has _ OPT_PASSIVE).
Qed.

Lemma silence_run n s st : link_ok s -> f_state (lk_fsm s) = st -> negotiating st = true -> is_some (lk_timer s) = true ->
  Z.to_nat (f_retransmits (lk_fsm s)) = n ->
  exists s' new, silence (S n) s = Done (Z.of_nat (S n) * u32 (f_timeouttime (lk_fsm s) * 1000), s') /\
    lk_out s' = lk_out s ++ new /\ acts new = said (replicate n (request st) ++ farewell (f_flags (lk_fsm s)) st) /\
    f_state (lk_fsm s') = settled st /\ lk_timer s' = None.
Proof.
  revert s st. induction n as [|n IH]; intros s st Hok Hst Hn Ht Hr; rewrite <- Hst in Hn.
  all: destruct (lk_timer s) as [t|] eqn:Et; [|done]; pose proof (lo_timer _ Hok t Et) as Hv.
  - destruct (last_timeout s Hok Hn ltac:(lia)) as (s' & E & [C1 C2 (l & C3 & C4) _ _ _ _ _]). exists s', l.
    rewrite (silence_step 0 s t s' 0 s' Et E eq_refl), Hst in *. split; [|split_and!; try done; by destruct (lk_timer s')].
    do 2 f_equal. lia.
  - destruct (retry s Hok Hn ltac:(lia)) as (s1 & E & [C1 C2 (l & C3 & C4) C5 C6 _ _ C7] & R1 & R2 & R3). rewrite Hst in *.
    destruct (IH s1 (waiting st)) as (s2 & l2 & E2 & D1 & D2 & D3 & D4); [done|done|by destruct st|by rewrite R3|lia|].
    exists s2, (l ++ l2). rewrite (silence_step _ _ _ _ _ _ Et E E2). split; [do 2 f_equal; rewrite C6; lia|].
    split; [by rewrite D1, C3, app_assoc|]. split; [|split; [by destruct st|done]].
    unfold acts in *. rewrite omap_app, C4, D2, C5, <- said_app. by destruct st.
Qed.

(** C32: a negotiation or a closing that nobody answers ends.  From any state
    with a request outstanding and [n] retransmissions left, [n + 1] timeouts
    in silence - the timer is pending before each of them - repeat the request
    exactly [n] times and settle the link in Stopped, or Closed where it was
    closing, with the timer off and the layer below told that we have
    finished (unless the link is passive); it takes [n + 1] periods. *)
Theorem unanswered_request_gives_up s :
  let st := f_state (lk_fsm s) in let n := Z.to_nat (f_retransmits (lk_fsm s)) in
  link_ok s -> negotiating st = true -> is_some (lk_timer s) = true ->
  exists s' new, silence (S n) s = Done (Z.of_nat (S n) * u32 (f_timeouttime (lk_fsm s) * 1000), s') /\
    lk_out s' = lk_out s ++ new /\ acts new = said (replicate n (request st) ++ farewell (f_flags (lk_fsm s)) st) /\
    f_state (lk_fsm s') = settled st /\ lk_timer s' = None.
Proof. intros st n Hok Hn Ht. by apply silence_run. Qed.
End running.

(** ** A protocol with one option *)
Module Demo.
Definition tells (n : notice) : option (M link unit) := Some (modify (note n)).
(** The receive unit is the only option: any other request is rejected, and
    an acknowledgement has to repeat ours. *)
Definition knows (inp : list Z) : bool := match inp with [] | [1; 4; _; _] => true | _ => false end.
Definition ours : list Z := [1; 4; 5; 220].
Definition reply (inp : list Z) : Z * list Z := (if knows inp then CONFACK else CONFREJ, inp).
Definition is_ours (inp : list Z) : bool := bool_decide (inp = ours).
#[local] Instance callbacks : FsmCallbacks := {|
  resetci := None; cilen := Some (mret 4); addci := Some (fun n => mret (take (Z.to_nat n) ours));
  ackci := Some (fun inp => mret (Z.b2z (is_ours inp))); nakci := Some (fun inp => mret (Z.of_nat (length inp))); rejci := None;
  reqci := Some (fun inp _ => mret (reply inp));
  up := tells Up; down := tells Down; starting := tells Starting; finished := tells Finished;
  retransmit := None; extcode := None |}.
#[local] Program Instance protocol : Protocol := {|
  on_confreq inp _ := reply inp; on_ack := is_ours;
  on_nak code inp := if code =? CONFNAK then negb (Z.of_nat (length inp) =? 0) else false;
  on_ext _ _ _ := false |}.
Solve Obligations with first [done|by right|idtac].
Next Obligation. intros m [= <-] s. by exists 4. Qed.
Next Obligation. intros m [= <-] n s. by eexists. Qed.
Next Obligation. intros inp r. unfold reply. destruct (knows inp); [by left|by right; right]. Qed.
Next Obligation. intros inp s. exists (Z.b2z (is_ours inp)). split; [done|]. by destruct (is_ours inp). Qed.
Next Obligation.
  intros code. cbn. destruct (code =? CONFNAK); [|done]. intros inp s. eexists. split; [done|split; [lia|done]].
Qed.

Definition start : link := Link (Fsm 0 0xc021 LS_INITIAL 0 0 0 false 6 10 10 2 0 5 None 0) None 1500 [].
Fixpoint after (es : list event) (s : link) : link :=
  match es with
  | [] => s
  | e :: es => match handle e s with Done (_, s') => after es s' | Halt _ => s end
  end.
(** Our request and the peer's, which it acknowledges. *)
Definition negotiating_link : link := after [Open; LowerUp] start.
Definition opened_link : link := after [Open; LowerUp; Input [1; 9; 0; 4]; Input [2; 1; 0; 8; 1; 4; 5; 220]] start.
Lemma start_ok : link_ok start.
Proof. split; [by vm_compute|by vm_compute|done]. Defined.
Lemma negotiating_ok : link_ok negotiating_link.
Proof. split; [by vm_compute|by vm_compute|]. intros t. vm_compute. by intros [= <-]. Defined.
Lemma opened_ok : link_ok opened_link.
Proof. split; [by vm_compute|by vm_compute|]. intros t. by vm_compute. Defined.
End Demo.
#[local] Existing Instances Demo.callbacks Demo.protocol.

(** The peer's request while ours is out: it is acknowledged. *)
Lemma fsm_refines_rfc1661_witness : exists s', handle (Input [1; 9; 0; 4]) Demo.negotiating_link = Done (tt, s') /\
  f_state (lk_fsm s') = LS_ACKSENT /\ f_retransmits (lk_fsm s') = 9.
Proof.
  destruct (fsm_refines_rfc1661 Demo.negotiating_link (Input [1; 9; 0; 4]) Demo.negotiating_ok)
    as [(s' & new & E & _ & _ & _ & H & Hr) _]; [by vm_compute|].
  exists s'. split; [exact E|]. split; [by rewrite H|by rewrite Hr].
Defined.

(** Opened after two calls and two packets: no timer. *)
Lemma timer_and_layer_follow_state_witness : sound Demo.opened_link.
Proof.
  apply (timer_and_layer_follow_state Demo.start); [exact Demo.start_ok|done..|].
  apply (comes_by _ (Demo.after [Open; LowerUp; Input [1; 9; 0; 4]] Demo.start) (Input [2; 1; 0; 8; 1; 4; 5; 220]));
    [|by vm_compute|left; by vm_compute|by vm_compute].
  apply (comes_by _ (Demo.after [Open; LowerUp] Demo.start) (Input [1; 9; 0; 4]));
    [|by vm_compute|left; by vm_compute|by vm_compute].
  apply (comes_by _ (Demo.after [Open] Demo.start) LowerUp); [|done|left; by vm_compute|by vm_compute].
  apply (comes_by _ Demo.start Open); [apply comes_here|done|left; by vm_compute|by vm_compute].
Defined.

Lemma termack_in_opened_hangs_witness : exists s1 s2, handle (Input [6; 1; 0; 4]) Demo.opened_link = Done (tt, s1) /\
  handle Timeout s1 = Done (tt, s2) /\ f_state (lk_fsm s2) = LS_OPENED /\ lk_timer s2 = None.
Proof.
  destruct (termack_in_opened_hangs Demo.opened_link [6; 1; 0; 4] Demo.opened_ok) as (s1 & s2 & _ & E1 & _ & E2 & _ & _ & H);
    [by vm_compute..|]. by exists s1, s2.
Defined.

(** Ten requests, of which the first is out, and ten periods of six seconds
    in all. *)
Lemma unanswered_request_gives_up_witness : exists s', silence 10 Demo.negotiating_link = Done (60000, s') /\
  f_state (lk_fsm s') = LS_STOPPED.
Proof.
  destruct (unanswered_request_gives_up Demo.negotiating_link Demo.negotiating_ok) as (s' & new & E & _ & _ & H & _); [by vm_compute..|].
  exists s'. split; [exact E|exact H].
Defined.
