(* ===== verification/PppPair.v ===== *)
(** * Two automata on a link

    fsm.c against fsm.c: two sides, each of which accepts what the other asks
    for, with a first-in first-out channel each way, packets delivered in any
    interleaving. *)
From S2P Require Import Prelude Stack TcpBase PppFsm FsmProps.
From stdpp Require Import relations.
#[local] Open Scope string_scope.
#[local] Open Scope list_scope.
#[local] Open Scope Z_scope.

(** The payloads of the frames in the log: the peer sees them without the
    address, control and protocol fields. *)
Definition payload (o : output) : option (list Z) := match o with Write _ pkt => Some (drop 4 pkt) | Notify _ => None end.
Definition packets (l : list output) : list (list Z) := omap payload l.
Definition news (s s' : link) : list output := drop (length (lk_out s)) (lk_out s').

Definition message (code ident : Z) (data : list Z) : list Z :=
  putchar code ++ putchar ident ++ putshort (Z.of_nat (length data) + HEADERLEN) ++ data.
Lemma packets_write pd f code ident data : packets [Write pd (packet f code ident data)] = [message code ident data].
Proof. reflexivity. Qed.

(** What is sent is what is parsed. *)
Lemma parse_message code ident data : is_u8 code -> is_u8 ident -> Z.of_nat (length data) + HEADERLEN < 2 ^ 16 ->
  parse (message code ident data) = Some (code, ident, data).
Proof.
  intros Hc Hi Hl. unfold message, putchar, putshort, HEADERLEN in *. cbn [app parse].
  rewrite (u8_small code), (u8_small ident) by done.
  set (n := Z.of_nat (length data) + 4) in *.
  assert (Z.lor (Z.shiftl (u8 (Z.shiftr n 8)) 8) (u8 (Z.land n 0xff)) = n) as ->.
  { rewrite land_ff, shiftr_div, shiftl_mul by lia. rewrite lor_add_low; [|lia|apply u8_range]. unfold u8.
    rewrite (Z.mod_small (n / 2 ^ 8)) by (split; [apply Z.div_pos|apply Z.div_lt_upper_bound]; lia).
    rewrite (Z.mod_small (n mod 256)) by (apply Z.mod_pos_bound; lia). change (2 ^ 8) with 256.
    pose proof (Z.div_mod n 256). lia. }
  replace (n <? HEADERLEN) with false by (symmetry; apply Z.ltb_ge; unfold HEADERLEN; lia).
  cbn [length]. replace (_ <? n) with false by (symmetry; apply Z.ltb_ge; lia). cbn [orb].
  do 2 f_equal. rewrite take_ge; [done|]. unfold HEADERLEN. lia.
Qed.

(** ** One side *)
Section side.
Context {CB : FsmCallbacks} {PR : Protocol}.

Record ready (s : link) : Prop := {
  rd_state : f_state (lk_fsm s) = LS_STARTING;
  rd_flags : has (f_flags (lk_fsm s)) OPT_SILENT = false;
  rd_mru : HEADERLEN <= lk_mru s < 2 ^ 16;
  rd_loops : 0 < f_maxnakloops (lk_fsm s)
}.

(** The three states of the meeting. *)
Definition asking (ci : list Z) (s : link) : link :=
  let s := requested false ci s in s <| lk_fsm := (lk_fsm s) <| f_state := LS_REQSENT |> |>.
Definition answered (ident : Z) (inp : list Z) (s : link) : link :=
  let s := wrote CONFACK ident inp s in s <| lk_fsm := (lk_fsm s) <| f_state := LS_ACKSENT |> <| f_nakloops := 0 |> |>.
Definition agreed (s : link) : link :=
  let s := s <| lk_fsm := (lk_fsm s) <| f_seen_ack := true |> <| f_state := LS_OPENED |>
    <| f_retransmits := f_maxconfreqtransmits (lk_fsm s) |> |> <| lk_timer := None |> in note Up s.

Lemma asking_run s : ready s -> exists ci, fsm_lowerup s = Done (tt, asking ci s) /\
  Z.of_nat (length ci) <= lk_mru s - HEADERLEN.
Proof.
  intros [H1 H2 H3 H4]. destruct (sconfreq_run false s) as (ci & E & Hl); [lia|]. exists ci. split; [|done].
  unfold fsm_lowerup. rewrite (bind_run _ _ _ _ _ eq_refl), H1. unfold start_negotiation.
  rewrite (bind_run _ _ _ _ _ eq_refl), H2, (bind_run _ _ _ _ _ E). reflexivity.
Qed.

Lemma input_run s code ident data : code = CONFREQ \/ code = CONFACK -> is_u8 ident ->
  Z.of_nat (length data) + HEADERLEN < 2 ^ 16 -> listening (f_state (lk_fsm s)) ->
  handle (Input (message code ident data)) s =
    (if code =? CONFREQ then fsm_rconfreq ident data else fsm_rconfack ident data) s.
Proof.
  intros Hc Hi Hl [HL1 HL2]. assert (is_u8 code) as Hu by by destruct Hc as [-> | ->].
  pose proof (parse_message code ident data Hu Hi Hl) as Hp. cbn [handle]. unfold fsm_input.
  set (pkt := message code ident data) in *. assert (4 + Z.of_nat (length data) = Z.of_nat (length pkt)) as Hn.
  { unfold pkt, message. cbn. lia. }
  unfold HEADERLEN in *. rewrite u32_small by (unfold is_u32; lia).
  replace (_ <? 4) with false by (symmetry; apply Z.ltb_ge; lia).
  destruct pkt as [|c [|id [|hi [|lo rest]]]]; try done.
  do 4 (rewrite (bind_run _ _ _ _ _ eq_refl)). cbv zeta. unfold parse in Hp.
  set (len := Z.lor (Z.shiftl hi 8) lo) in *. unfold HEADERLEN in Hp.
  destruct (len <? 4); [done|]. destruct (_ <? len) eqn:E2; [done|]. injection Hp as -> -> Hd.
  rewrite (bind_run _ _ _ _ _ eq_refl).
  replace (ls_is _ _ || ls_is _ _) with false by by destruct (f_state (lk_fsm s)).
  replace (len - 4 + 4) with len by lia. rewrite E2. cbn [drop]. rewrite drop_0, Hd.
  destruct Hc as [-> | ->]; reflexivity.
Qed.

Lemma answered_run s ident data : f_state (lk_fsm s) = LS_REQSENT -> 0 < f_maxnakloops (lk_fsm s) ->
  f_nakloops (lk_fsm s) = 0 -> is_u8 ident -> Z.of_nat (length data) <= lk_mru s - HEADERLEN -> lk_mru s < 2 ^ 16 ->
  on_confreq data false = (CONFACK, data) ->
  handle (Input (message CONFREQ ident data)) s = Done (tt, answered ident data s).
Proof.
  intros Hst Hm Hn Hi Hl Hu Hc. rewrite input_run; [|by left|done|unfold HEADERLEN in *; lia|by rewrite Hst].
  cbn [Z.eqb CONFREQ Pos.eqb]. unfold fsm_rconfreq. rewrite (bind_run _ _ _ _ _ eq_refl), Hst.
  unfold answer_confreq. rewrite (bind_run _ _ _ _ _ eq_refl), Hn.
  replace (_ <=? 0) with false by (symmetry; by apply Z.leb_gt).
  rewrite (bind_run _ _ s (CONFACK, data) s).
  2: { rewrite <- Hc. pose proof pr_reqci as Hr. destruct reqci as [m|]; [apply Hr|]. by rewrite <- (Hr data false). }
  rewrite (bind_run _ _ _ _ _ (sdata_run (u8 CONFACK) ident data (Z.of_nat (length data)) s ltac:(lia) ltac:(lia))).
  assert (fits s (take (Z.to_nat (Z.of_nat (length data))) data) = data) as ->.
  { unfold fits. rewrite Nat2Z.id, firstn_all, take_ge; [done|lia]. }
  rewrite (bind_run _ _ _ _ _ eq_refl).
  replace (ls_is (f_state _) LS_ACKRCVD) with false by (cbn; by rewrite Hst). reflexivity.
Qed.

Lemma agreed_run s ident data : f_state (lk_fsm s) = LS_ACKSENT -> expected (lk_fsm s) ident = true ->
  on_ack data = true -> is_u8 ident -> Z.of_nat (length data) + HEADERLEN < 2 ^ 16 ->
  handle (Input (message CONFACK ident data)) s = Done (tt, agreed s).
Proof.
  intros Hst He Ha Hi Hl. rewrite input_run; [|by right|done|done|by rewrite Hst].
  cbn [Z.eqb CONFREQ CONFACK Pos.eqb]. unfold fsm_rconfack. rewrite (bind_run _ _ _ _ _ eq_refl), expected_spec, He.
  cbn [negb]. rewrite (bind_run _ _ s true s).
  2: { pose proof pr_ackci as Hr. destruct ackci as [m|]; [|by rewrite <- Hr, Ha].
    destruct (Hr data s) as (r & Er & E). by rewrite (bind_run _ _ _ _ _ Er), <- E, Ha. }
  cbn [negb]. do 2 rewrite (bind_run _ _ _ _ _ eq_refl).
  replace (f_state _) with LS_ACKSENT by (cbn; by rewrite Hst).
  do 2 rewrite (bind_run _ _ _ _ _ eq_refl). apply (notify_run _ _ _ pr_up).
Qed.

(** The link is up on one side: no request is outstanding, and the layer above
    has just been told. *)
Definition is_up (s : link) : Prop :=
  f_state (lk_fsm s) = LS_OPENED /\ lk_timer s = None /\ last (lk_out s) = Some (Notify Up).
(** Through the peer's request to the peer's acknowledgement. *)
Record stages (s0 s1 s2 : link) (ack peer_req peer_ack : list Z) : Prop := {
  sg_first : handle (Input peer_req) s0 = Done (tt, s1);
  sg_ack : packets (news s0 s1) = [ack];
  sg_second : handle (Input peer_ack) s1 = Done (tt, s2);
  sg_quiet : packets (news s1 s2) = [];
  sg_up : is_up s2
}.
Definition own_id (s : link) : Z := u8 (f_id (lk_fsm s) + 1).

Lemma news_app s s' l : lk_out s' = lk_out s ++ l -> news s s' = l.
Proof. unfold news. intros ->. by rewrite drop_app_length. Qed.

(** The options in its first request. *)
Definition asks_for (s : link) (ci : list Z) : Prop :=
  exists s', fsm_lowerup s = Done (tt, s') /\ packets (news s s') = [message CONFREQ (own_id s) ci].

Lemma asking_news s ci : ready s -> packets (news s (asking ci s)) = [message CONFREQ (own_id s) ci].
Proof.
  intros [H1 H2 H3 H4]. rewrite (news_app s _ [Write (f_unit (lk_fsm s)) (packet (lk_fsm s) CONFREQ (own_id s) ci)]).
  - reflexivity.
  - cbn. unfold requesting. by rewrite H1.
Qed.

Lemma answered_news s ident data : packets (news s (answered ident data s)) = [message CONFACK ident data].
Proof.
  rewrite (news_app s _ [Write (f_unit (lk_fsm s)) (packet (lk_fsm s) CONFACK ident data)]); [|reflexivity].
  apply packets_write.
Qed.
Lemma agreed_news s : packets (news s (agreed s)) = [].
Proof. rewrite (news_app s _ [Notify Up]); reflexivity. Qed.
Lemma agreed_up s : is_up (agreed s).
Proof. split; [done|]. split; [done|]. apply last_snoc. Qed.

(** What the first request leaves in the structure. *)
Record asks (s : link) (ident : Z) : Prop := {
  as_state : f_state (lk_fsm s) = LS_REQSENT;
  as_loops : 0 < f_maxnakloops (lk_fsm s) /\ f_nakloops (lk_fsm s) = 0;
  as_expected : expected (lk_fsm s) ident = true
}.
Lemma requesting_starting f : f_state f = LS_STARTING ->
  f_maxnakloops (requesting false f) = f_maxnakloops f /\ f_nakloops (requesting false f) = 0 /\
  f_reqid (requesting false f) = u8 (f_id f + 1) /\ f_seen_ack (requesting false f) = false.
Proof. intros H. unfold requesting. by rewrite H. Qed.
Lemma asking_fsm s ci : let f := requesting false (lk_fsm s) in
  lk_fsm (asking ci s) = f <| f_retransmits := f_retransmits f - 1 |> <| f_state := LS_REQSENT |>.
Proof. reflexivity. Qed.
Lemma asking_asks s ci : ready s -> asks (asking ci s) (own_id s).
Proof.
  intros [H1 H2 H3 H4]. destruct (requesting_starting _ H1) as (E1 & E2 & E3 & E4).
  pose proof (asking_fsm s ci) as E. cbv zeta in E. unfold own_id. rewrite <- E3. rewrite <- E1 in H4.
  generalize dependent (requesting false (lk_fsm s)). intros f H4 E1 E2 E3 E4 E.
  split; rewrite E; [done|done|]. unfold expected. cbn. by rewrite Z.eqb_refl, E4.
Qed.
Lemma answered_state s ident data : f_state (lk_fsm (answered ident data s)) = LS_ACKSENT.
Proof. done. Qed.
Lemma answered_expected s ident data i : expected (lk_fsm (answered ident data s)) i = expected (lk_fsm s) i.
Proof. done. Qed.

Lemma stages_run s ci ident data : ready s -> on_ack ci = true -> Z.of_nat (length ci) <= lk_mru s - HEADERLEN ->
  is_u8 ident -> Z.of_nat (length data) <= lk_mru s - HEADERLEN -> on_confreq data false = (CONFACK, data) ->
  stages (asking ci s) (answered ident data (asking ci s)) (agreed (answered ident data (asking ci s)))
    (message CONFACK ident data) (message CONFREQ ident data) (message CONFACK (own_id s) ci).
Proof.
  intros Hr Ha Hl Hi Hd Hc. destruct (asking_asks s ci Hr) as [A1 [A2 A3] A4].
  assert (lk_mru (asking ci s) = lk_mru s) as Hm by done. pose proof (rd_mru s Hr) as Hu.
  set (s0 := asking ci s) in *. clearbody s0. split.
  - apply answered_run; [done..| | |done]; lia.
  - apply answered_news.
  - apply agreed_run; [apply answered_state|by rewrite answered_expected|done|apply u8_range|unfold HEADERLEN in *; lia].
  - apply agreed_news.
  - apply agreed_up.
Qed.
End side.

(** ** The two sides and the channels between them *)
Record net := Net { n_a : link; n_b : link; n_to_a : list (list Z); n_to_b : list (list Z) }.

Section pair.
Context {CA CB : FsmCallbacks} {PA : @Protocol CA} {PB : @Protocol CB}.

(** Either side takes the oldest packet that is on the way to it. *)
Inductive delivers : net -> net -> Prop :=
| deliver_a a b p qa qb a' : @handle CA (Input p) a = Done (tt, a') ->
    delivers (Net a b (p :: qa) qb) (Net a' b qa (qb ++ packets (news a a')))
| deliver_b a b p qa qb b' : @handle CB (Input p) b = Done (tt, b') ->
    delivers (Net a b qa (p :: qb)) (Net a b' (qa ++ packets (news b b')) qb).

Definition both_up (c : net) : Prop := is_up (n_a c) /\ is_up (n_b c) /\ n_to_a c = [] /\ n_to_b c = [].

(** Where each side is, and what is on the way. *)
Section course.
Context (a0 a1 a2 b0 b1 b2 : link) (req_a req_b ack_a ack_b : list Z).
Context (SA : @stages CA a0 a1 a2 ack_a req_b ack_b) (SB : @stages CB b0 b1 b2 ack_b req_a ack_a).
Definition course (i j : nat) : net :=
  Net (match i with 0%nat => a0 | 1%nat => a1 | _ => a2 end) (match j with 0%nat => b0 | 1%nat => b1 | _ => b2 end)
    (drop i (match j with 0%nat => [req_b] | _ => [req_b; ack_b] end))
    (drop j (match i with 0%nat => [req_a] | _ => [req_a; ack_a] end)).
Definition in_course (i j : nat) : Prop := (i <= 2 /\ j <= 2 /\ (i = 2 -> 1 <= j) /\ (j = 2 -> 1 <= i))%nat.

Lemma course_step i j c : in_course i j -> delivers (course i j) c ->
  (c = course (S i) j /\ in_course (S i) j) \/ (c = course i (S j) /\ in_course i (S j)).
Proof.
  intros Hc H. destruct SA as [A1 A2 A3 A4 _], SB as [B1 B2 B3 B4 _].
  destruct i as [|[|[|i]]], j as [|[|[|j]]]; try (exfalso; unfold in_course in Hc; lia).
  all: inversion H as [? ? ? ? ? ? E|? ? ? ? ? ? E]; subst; try done; clear H.
  all: (rewrite A1 in E || rewrite A3 in E || rewrite B1 in E || rewrite B3 in E); injection E as <-.
  all: rewrite ?A2, ?A4, ?B2, ?B4; cbn [app].
  all: first [left; split; [reflexivity|unfold in_course; lia]|right; split; [reflexivity|unfold in_course; lia]].
Qed.

Lemma course_on i j : in_course i j -> (i + j < 4)%nat -> exists c, delivers (course i j) c.
Proof.
  intros Hc Hn. destruct SA as [A1 A2 A3 A4 _], SB as [B1 B2 B3 B4 _].
  destruct i as [|[|[|i]]], j as [|[|[|j]]]; try (exfalso; unfold in_course in Hc; lia).
  all: first [by eexists; eapply deliver_a; eassumption|by eexists; eapply deliver_b; eassumption].
Qed.

Lemma course_run n c : nsteps delivers n (course 0 0) c -> exists i j, c = course i j /\ in_course i j /\ n = (i + j)%nat.
Proof.
  revert c. induction n as [|n IH]; intros c H.
  - inversion H; subst. exists 0%nat, 0%nat. split_and!; try done; unfold in_course; lia.
  - apply nsteps_inv_r in H as (y & Hy & Hs). apply IH in Hy as (i & j & -> & Hc & ->).
    destruct (course_step i j c Hc Hs) as [[-> Hc']|[-> Hc']]; [exists (S i), j|exists i, (S j)]; split_and!; try done; lia.
Qed.

Lemma course_end n c : nsteps delivers n (course 0 0) c ->
  (n <= 4)%nat /\ (n = 4%nat -> both_up c) /\ (n <> 4%nat -> exists c', delivers c c').
Proof.
  intros H. destruct (course_run n c H) as (i & j & -> & Hc & ->). split; [unfold in_course in Hc; lia|]. split.
  - intros H4. assert (i = 2%nat /\ j = 2%nat) as [-> ->] by (unfold in_course in Hc; lia).
    split; [apply SA|]. split; [apply SB|done].
  - intros Hn. apply course_on; [done|]. unfold in_course in Hc. lia.
Qed.
End course.

(** C33: two automata that agree come up.  Both lower layers come up, each
    side acknowledges the options that the other asks for in its first
    request - it may refuse anything else - and takes the acknowledgement of
    its own, and both can receive packets of the same size.  Then, in whatever
    order the channels deliver, the exchange goes on until four packets - the
    two requests and the two acknowledgements - have been delivered, and then
    both sides are Opened, both layers above have been told, no timer is
    pending and nothing is on the way. *)
Theorem agreeing_peers_open a b :
  ready a -> ready b -> lk_mru a = lk_mru b ->
  (forall ci, @asks_for CA a ci -> @on_confreq CB PB ci false = (CONFACK, ci) /\ @on_ack CA PA ci = true) ->
  (forall ci, @asks_for CB b ci -> @on_confreq CA PA ci false = (CONFACK, ci) /\ @on_ack CB PB ci = true) ->
  exists a0 b0, @fsm_lowerup CA a = Done (tt, a0) /\ @fsm_lowerup CB b = Done (tt, b0) /\
  forall n c, nsteps delivers n (Net a0 b0 (packets (news b b0)) (packets (news a a0))) c ->
    (n <= 4)%nat /\ (n = 4%nat -> both_up c) /\ (n <> 4%nat -> exists c', delivers c c').
Proof.
  intros Ha Hb Hm Hab Hba.
  destruct (@asking_run CA PA a Ha) as (ca & Ea & La), (@asking_run CB PB b Hb) as (cb & Eb & Lb).
  pose proof (asking_news a ca Ha) as Na. pose proof (asking_news b cb Hb) as Nb.
  destruct (Hab ca) as [Ka Aa]; [by eexists|]. destruct (Hba cb) as [Kb Ab]; [by eexists|].
  exists (asking ca a), (asking cb b). do 2 (split; [done|]). intros n c. rewrite Na, Nb. eapply course_end.
  - apply (@stages_run CA PA a ca (own_id b) cb); [done|done|done|apply u8_range|lia|done].
  - apply (@stages_run CB PB b cb (own_id a) ca); [done|done|done|apply u8_range|lia|done].
Qed.
End pair.

(** ** A side with an option and one without

    [Demo.callbacks] asks for a receive unit of 1500 and rejects every other
    option; the other side asks for nothing, as a protocol with null pointers
    for its options does, and takes what [Demo.callbacks] knows. *)
Module Modest.
#[local] Instance callbacks : FsmCallbacks := {|
  resetci := None; cilen := None; addci := None; ackci := None; nakci := None; rejci := None;
  reqci := Some (fun inp _ => mret (Demo.reply inp));
  up := Demo.tells Up; down := Demo.tells Down; starting := None; finished := Demo.tells Finished;
  retransmit := None; extcode := None |}.
#[local] Program Instance protocol : Protocol := {|
  on_confreq inp _ := Demo.reply inp; on_ack inp := Z.of_nat (length inp) =? 0;
  on_nak _ _ := false; on_ext _ _ _ := false |}.
Solve Obligations with first [done|by left|by right|idtac].
Next Obligation. intros inp r. unfold Demo.reply. destruct (Demo.knows inp); [by left|by right; right]. Qed.
Next Obligation. intros code. cbn. by destruct (code =? CONFNAK). Qed.
End Modest.

Definition demo_side (id : Z) : link := Link (Fsm 0 0xc021 LS_STARTING 0 id 0 false 6 10 10 2 0 5 None 0) None 1500 [].
Lemma demo_ready id : ready (demo_side id).
Proof. split; by vm_compute. Qed.
Lemma demo_asks ci : @asks_for Demo.callbacks (demo_side 3) ci -> ci = Demo.ours.
Proof. intros (s' & [= <-] & E). by injection E. Qed.
Lemma modest_asks ci : @asks_for Modest.callbacks (demo_side 200) ci -> ci = [].
Proof. intros (s' & [= <-] & E). by injection E. Qed.

Lemma agreeing_peers_open_witness : exists a0 b0 c,
  @fsm_lowerup Demo.callbacks (demo_side 3) = Done (tt, a0) /\ @fsm_lowerup Modest.callbacks (demo_side 200) = Done (tt, b0) /\
  nsteps (@delivers Demo.callbacks Modest.callbacks) 4
    (Net a0 b0 (packets (news (demo_side 200) b0)) (packets (news (demo_side 3) a0))) c /\ both_up c.
Proof.
  destruct (@agreeing_peers_open _ _ Demo.protocol Modest.protocol (demo_side 3) (demo_side 200) (demo_ready 3) (demo_ready 200) eq_refl)
    as (a0 & b0 & Ea & Eb & H); [intros ci Hc; by rewrite (demo_asks ci Hc)|intros ci Hc; by rewrite (modest_asks ci Hc)|].
  destruct (H 0%nat _ (nsteps_O _ _)) as (_ & _ & H0). destruct H0 as [c1 S1]; [done|]. apply nsteps_once in S1.
  destruct (H _ _ S1) as (_ & _ & H1). destruct H1 as [c2 S2]; [done|].
  destruct (H _ _ (nsteps_r _ _ _ _ S1 S2)) as (_ & _ & H2). destruct H2 as [c3 S3]; [done|].
  pose proof (nsteps_r _ _ _ _ (nsteps_r _ _ _ _ S1 S2) S3) as T3.
  destruct (H _ _ T3) as (_ & _ & H3). destruct H3 as [c4 S4]; [done|].
  pose proof (nsteps_r _ _ _ _ T3 S4) as T4.
  exists a0, b0, c4. split; [exact Ea|]. split; [exact Eb|]. split; [exact T4|]. by apply (H _ _ T4).
Defined.
